(* ===== verification/_CoqProject ===== *)
-Q . S2P
Prelude.v
Bytes.v
Mpool.v
GapFill.v
Jhash.v
HTable.v
Lookup.v
Conn.v
Feed.v
FeedProps.v
Decimal.v
ItchMsg.v
ItchParse.v
ItchProps.v
ItchWire.v
ItchTheorems.v
ItchBook.v
BatsParse.v
BatsProps.v
BatsWire.v
BatsSafe.v
BatsTheorems.v
EdgeParse.v
EdgeProps.v
Sock.v
SockProps.v
EdgeLogin.v
EdgeSession.v
TcpLh.v
TcpLhProps.v
EdgeTheorems.v
EdgeLh.v
TcpLhErrors.v
ArcaMsg.v
ArcaGroup.v
ArcaSeq.v
ArcaWindow.v
ArcaArbiter.v
ArcaTheorems.v
ArcaFast.v
ArcaParse.v
ArcaWire.v
ArcaPacket.v
ArcaSafe.v
ArcaPacketTheorems.v
ArcaFastProps.v
ArcaFastSafe.v
ArcaFastTheorems.v
ArcaFastOverflow.v
Config.v
ConfigLoad.v
ConfigTheorems.v
ShrCfg.v
ShrCfgTheorems.v
Hist.v
HistTheorems.v
OpraLine.v
OpraLineProps.v
OpraLineTheorems.v
OpraCodec.v
OpraEnc.v
OpraEncProps.v
OpraFast.v
OpraWire.v
OpraTheorems.v
OpraTyped.v
OpraOpt.v
OpraMsg.v
OpraMsgTheorems.v
OpraIntern.v
Cli.v
CliTheorems.v
Admin.v
AdminWire.v
AdminTheorems.v
Service.v
Manager.v
ServiceProps.v
ServiceTheorems.v
ManagerTheorems.v
