(* ===== verification/Prelude.v ===== *)
(** * FeedHandlers Community Edition: verification library

    The FeedHandlers turn the market data of exchanges into calls of plugins.
    A feed handler is a process with one receive thread.  A line handler reads
    packets or messages from sockets and gives them to the parser of the feed;
    the parser watches sequence numbers, keeps a symbol table and an order
    table, fills a C struct per message and hands it to the hooks the plugins
    registered.  The Arca feeds are an older design: a packet comes on two
    feeds, the first copy is unpacked and published, and the tables are in the
    plugins.  This library models the C code of those paths, function by
    function, and proves what it does, errors included.

    ** Parts

    A C function is a Rocq function of the same name; a C file is one file
    here, or one for the definitions and some for the theorems.

    - [Prelude]: conversions between machine integers, lists, options; tactics.
    - [Bytes]: byte order ([common/fh_ntoh.h]), reading fields of a buffer.
    - [Decimal]: numbers in fields of digits padded with spaces.
    - [Mpool]: memory pools ([common/fh_mpool.c]), over an abstract allocator;
      the free list and its chunks are modelled as they are linked.
    - [GapFill]: the list of sequence gaps ([feeds/shared/gap_mgmt]), a doubly
      linked list in a pool, with its cursors and its time-outs.
    - [Jhash], [HTable]: the hash of [common/missing/jhash.h] and the chained
      hash tables of [common/fh_htable.c].
    - [Lookup]: the symbol table and the order table ([feeds/shared/
      lookup_tables]) on hash tables and pools.
    - [Conn], [Feed]: what the parsers of all feeds share: statistics, alert
      hook, configuration, the state of a connection with its line and process.
    - [ItchMsg], [ItchParse]: the ITCH feed ([feeds/itch/multicast/common]).
    - [BatsParse]: the BATS feed ([feeds/bats/multicast/common]).
    - [EdgeParse], [EdgeLogin]: the Direct Edge feed ([feeds/directedge]).
    - [Sock]: the socket library ([common/fh_sock.c], [common/fh_tcp.c]).
    - [TcpLh]: the receive thread of TCP feeds ([feeds/shared/tcp_feed]).
    - [EdgeLh]: parser, login and line handler put together ([fh_edge.c]).
    - [ArcaMsg], [ArcaParse]: packets and messages of ArcaBook and ArcaTrade
      ([feeds/arca]: [parse_packet_hdr.c], [parse_messages.c],
      [rcv_feed_packets.c]).
    - [ArcaGroup]: the feed group and the publications ([fh_feed_group.h],
      [publications.c]); [ArcaSeq]: the window of missing numbers and the
      arbitration of the two feeds ([fh_feed_group.c], [seq_handling.c]).
    - [ArcaFast]: the decoder of compacted messages ([newFastDecode.c]).
    - [Config]: the configuration tree ([common/fh_config.c]) and the actions
      of its parser ([fh_cfg_parse.y]) on the nodes in memory.
    - [ShrCfg]: what a process is set up from, loaded from the tree
      ([feeds/shared/config], [feeds/shared/tcp_feed]).
    - [Hist]: histograms and profiling ([common/fh_hist.c], [fh_prof.c]).
    - The OPRA feed ([feeds/opra/fast]): [OpraLine], the pairs of lines with
      their window ([common/fh_opra_lh.c]); [OpraCodec] and [OpraEnc], the
      decoder and the encoder of FAST ([codec/fast_api.c]); [OpraFast], the
      message decoders, the packet and a step of the receive loop
      ([codec/fast_decode.c], [fast_process.c], [v2/fh_opra_lh_v2.c]);
      [OpraOpt], the options, their topics and the listed options
      ([common/fh_opra_option.c], [fh_opra_topic.c], [fh_opra_lo.c]);
      [OpraMsg], what a message does to its option and what is sent
      ([v2/fh_opra_msg.c]).
    - The command line client ([mgmt/cli]): [Cli], the tree of commands and the
      parser of a line ([fh_cli.c], [fh_cli_filter.c]).
    - The manager of the feed handlers ([mgmt/fhmgr], [mgmt/lib]): [Admin], its
      messages ([fh_mgmt_admin.c], [admin]); [Service], services, groups and
      connections as objects in memory and all that is done with them
      ([fh_mgmt_service.c]); [Manager], the connections, the requests,
      the loop, the configuration and the start ([fh_mgmt_conn.c],
      [fh_mgmt_cli.c], [fh_mgmt_cfg.c], [fhmgr.c]).

    The theorems about a part are in the files named after it: [GapFill] and
    [HTable] have their own; [ItchProps], [ItchWire], [ItchTheorems],
    [ItchBook]; [BatsProps], [BatsWire], [BatsSafe], [BatsTheorems];
    [EdgeProps], [EdgeSession], [EdgeTheorems]; [SockProps]; [TcpLhProps],
    [TcpLhErrors].  For Arca: [ArcaWindow] (the window is a set of numbers),
    [ArcaArbiter] (the invariant of the arbitration) and [ArcaTheorems];
    [ArcaWire], [ArcaPacket], [ArcaSafe], [ArcaPacketTheorems] on packets;
    [ArcaFastProps], [ArcaFastSafe], [ArcaFastTheorems], [ArcaFastOverflow].
    For the configuration: [ConfigLoad] (the nodes in memory are a tree),
    [ConfigTheorems], [ShrCfgTheorems].  [HistTheorems].  For OPRA:
    [OpraLineProps] (the window is a set), [OpraLineTheorems]; [OpraEncProps]
    and [OpraWire] (fields and messages on the wire), [OpraTheorems],
    [OpraTyped]; [OpraMsgTheorems], [OpraIntern].  [CliTheorems].  For the
    manager: [AdminWire] (members of a struct and their copies, the layout of
    each message), [AdminTheorems]; [ServiceProps] (the invariant [wf] of the
    memory, the states of a service, and rules for computations that keep
    both), [ServiceTheorems] (requests, timers, connections), [ManagerTheorems].

    ** How they are modelled

    Code that fails returns [option]: [None] is a pointer that is not valid, a
    read or write out of bounds, or a loop without fuel; the safety theorems
    say that the code does not get there.  Status codes are values, as in C.
    Pointers are numbers ([NULL] is 0) into maps from addresses to contents.
    State is passed along; loops that wait for the world have fuel.  The
    operating system is a function [os] from system calls and its own state to
    results ([Sock]); the clock, the allocator and the plugins are parameters
    too, the latter with a state [W] of their own and any answers.

    ** Interfaces

    - [KeyOps] ([HTable]): what a table needs of its keys; instances for
      symbols and orders.
    - [OrderRef] ([FeedProps]): how a feed names orders: by number (ITCH,
      BATS) or by twelve characters (Direct Edge).  [book_inv cfg st cap b]
      says that the order table of [st] holds the order book [b].
    - [TcpPeer], [OsClock], [FdOs] ([SockProps]): a peer that sends and takes
      some bytes in every call, a clock that sleeping advances, a system that
      hands out descriptors.  [Stream] ([TcpLhProps]), [QuietPeer]
      ([TcpLhErrors]): a socket with input, and one without.  Every class has
      an instance next to the theorems that use it.
    - [ParserSpec] ([TcpLhProps]): what the TCP line handler asks of a parser;
      the Direct Edge parser is an instance ([EdgeLh.edge_spec]).

    ** What is proved

    - Containers: pool runs keep the free list and the used elements apart
      and locks balanced; the hash table and the order table refine finite
      maps; symbols are interned; the gap list is safe in every run, records,
      removes, expires and finds the right gaps, with two errors of its own.
    - Messages: every ITCH message but the two that tell the time, every BATS
      and every Direct Edge message is delivered to its hook with the fields it
      was sent with ([itch_msg_delivered], [bats_msg_delivered],
      [edge_msg_delivered]), but for prices that are too large for the number
      parsers ([price_parsed], [edge_price]).
    - Packets: in-order packets and streams leave the order book their
      messages describe ([itch_pkt_in_order], [bats_pkt_in_order],
      [edge_stream_book]), except that the BATS parser keeps an order that was
      executed in full ([bats_full_execution_stays]); any bytes are parsed
      safely where the numbers and the room in the buffer are what the theorems
      say; no ITCH message is processed twice, however full the gap list is,
      and none that is not on it is missed while it has room
      ([itch_exactly_once]).
    - Arbitration: two Arca feeds are merged into one without duplicates or
      losses while they stay in the window ([arca_exactly_once]); what happens
      at its edge, beyond it, and when a feed joins late.
    - Compaction: however a message with a presence map of two bytes is coded,
      unpacking and parsing it gives back its members ([fast_order_roundtrip]);
      the loop that unpacks ends ([fast_unpack_terminates]), but not always in
      its buffer ([arca_fast_overflow]).
    - Sessions: logging in, the alarm for silence, descriptors not leaked by
      a connection attempt ([tcp_client_no_leak]), reads that end; and the cases
      in which messages or sessions are lost.
    - Configuration: a file is loaded as the tree it describes
      ([cfg_load_tree]) unless an lvalue with a period has a block
      ([cfg_dotted_block]); a deployment that is written to a file and loaded
      is the deployment ([cfg_deployment_roundtrip]).
    - OPRA: the two lines of a pair are merged without duplicates
      ([opra_pair_exactly_once]); what the FAST encoder wrote is decoded into
      the same messages ([opra_packet_delivered]), and whatever the
      decoder makes of other bytes has the types of its records
      ([opra_decode_typed]), a message with too many groups apart, which it
      writes past its array ([opra_index_overflow]); options are interned
      ([opra_lookup_interns]) and their statistics are those of the day
      ([opra_last_sales]).
    - Histograms: what is printed accounts for every sample.
    - Management: a line calls the command that its words abbreviate, in a
      tree made by registering commands ([cli_line_runs_command]); what one side packs the other unpacks, for
      every type of message ([adm_message_delivered]), and what happens to one
      that is not expected ([adm_expect_unexpected]).  The memory of the
      manager stays in order from its start through all its operations
      ([mgr_memory_in_order]); a start that is lost is final
      ([lost_start_is_final]).
    - Errors of the code, each as a theorem about what it does.

    ** Bounds and fuel

    Tables have a capacity; the books say what happens when it is reached.
    The loops over a packet use the number of its bytes or messages as fuel,
    which is enough by [itch_pkt_safe] and [bats_pkt_safe]; the socket loops
    need as many steps as bytes, retries and signals ([tcp_read_terminates]); the
    receive loop of a stream needs one more than its messages
    ([edge_stream_book]).  The loops over the Arca window use the distance to
    the highest missing number or the size of the gap, which is enough by
    [arca_exactly_once]; those over an Arca packet its bytes or messages
    ([arca_packet_safe], [fast_unpack_terminates]).  A path of the
    configuration has at most as many segments as characters, and a tree is no
    deeper than its nodes are many ([cfg_load_tree]).  A FAST field has at
    most as many bytes as are left of its packet, and the loop over the
    messages of a packet the number of its bytes.  Responses of the manager
    contain responses: the fuel is how deep they nest, which [layout] says.

    ** Not modelled

    Logging; threads, signals and processor affinity (every function is run
    by one thread); the main programs of the feeds and their management
    threads; the scanner and the tables of the configuration parser, which are
    generated (a file is its parse tree); the multicast receive loops, which
    call a parser once per packet; the sockets, the configuration and the
    receive loop of the Arca feeds; the configuration, the taps and the
    commands of the OPRA feed; the FAST codec that is not linked; the terminal
    and the callbacks of the command line client, which print; what the
    manager reads from /proc; the control program fhctl; the sample plugins
    and tests.  Most of these are I/O, vendored or generated code.  The theorems about
    the manager's memory are about groups without statistics: a report ends the
    process when services report too many lines.  Its loop ([fh_mgmt_conn_loop])
    and the requests for data are definitions, of which the theorems treat the
    control requests, the registration and the timers. *)
From stdpp Require Export base gmap list numbers option strings.
From Stdlib Require Export ZArith Lia.

#[global] Open Scope Z_scope.

(** ** Machine integers

    A C integer is a [Z]; the functions below are the conversions the
    compiler inserts (x86-64, LP64: [int] has 32 bits, [long], [size_t] and
    pointers 64; signed conversions wrap, as gcc defines them). *)

Definition u8 (z : Z) : Z := z mod 256.
Definition u16 (z : Z) : Z := z mod 65536.
Definition u32 (z : Z) : Z := z mod 4294967296.
Definition u64 (z : Z) : Z := z mod 18446744073709551616.
Definition s8 (z : Z) : Z := (z + 128) mod 256 - 128.
Definition s32 (z : Z) : Z := (z + 2147483648) mod 4294967296 - 2147483648.
Definition s64 (z : Z) : Z :=
  (z + 9223372036854775808) mod 18446744073709551616 - 9223372036854775808.

(** Turns the [mod]s of the conversions into linear facts and calls [lia]. *)
Ltac word_lia :=
  unfold u8, u16, u32, u64, s8, s32, s64 in *;
  Z.to_euclidean_division_equations; lia.

Lemma u8_small z : 0 <= z < 256 -> u8 z = z.
Proof. apply Z.mod_small. Qed.
Lemma u16_small z : 0 <= z < 65536 -> u16 z = z.
Proof. apply Z.mod_small. Qed.
Lemma u32_small z : 0 <= z < 4294967296 -> u32 z = z.
Proof. apply Z.mod_small. Qed.
Lemma u64_small z : 0 <= z < 18446744073709551616 -> u64 z = z.
Proof. apply Z.mod_small. Qed.
Lemma s32_small z : -2147483648 <= z < 2147483648 -> s32 z = z.
Proof. intros. word_lia. Qed.
Lemma s64_small z :
  -9223372036854775808 <= z < 9223372036854775808 -> s64 z = z.
Proof. intros. word_lia. Qed.
Lemma u32_range z : 0 <= u32 z < 4294967296.
Proof. apply Z.mod_pos_bound. lia. Qed.
Lemma u64_range z : 0 <= u64 z < 18446744073709551616.
Proof. apply Z.mod_pos_bound. lia. Qed.

Create Rewrite HintDb words.
#[export] Hint Rewrite u8_small u16_small u32_small u64_small s32_small
  s64_small using lia : words.

(** Removes the conversions of values that fit. *)
Ltac words := autorewrite with words in *.

(** ** Undefined behaviour

    A definition that can dereference [NULL] (or an address that holds no
    object), read outside a buffer or fail an [FH_ASSERT] returns an
    [option]; [None] is that outcome.  A call that returns has a [Some]. *)

Definition NULL : Z := 0.

(** [guard_ub b k]: continue with [k] if [b], undefined otherwise. *)
Definition guard_ub {A} (b : bool) (k : option A) : option A :=
  if b then k else None.

(** Case analysis on the innermost scrutinee of the goal. *)
Ltac split_match :=
  match goal with
  | |- context [match ?x with _ => _ end] =>
      lazymatch x with
      | context [match _ with _ => _ end] => fail
      | _ => let E := fresh "E" in destruct x eqn:E
      end
  end.

(** Same, in a hypothesis. *)
Ltac split_match_in H :=
  match type of H with
  | context [match ?x with _ => _ end] =>
      lazymatch x with
      | context [match _ with _ => _ end] => fail
      | _ => let E := fresh "E" in destruct x eqn:E
      end
  end.

(** Turns the boolean comparisons of the context into propositions. *)
Ltac bool_to_prop :=
  repeat match goal with
  | H : (_ =? _) = true |- _ => apply Z.eqb_eq in H
  | H : (_ =? _) = false |- _ => apply Z.eqb_neq in H
  | H : (_ <? _) = true |- _ => apply Z.ltb_lt in H
  | H : (_ <? _) = false |- _ => apply Z.ltb_ge in H
  | H : (_ <=? _) = true |- _ => apply Z.leb_le in H
  | H : (_ <=? _) = false |- _ => apply Z.leb_gt in H
  | H : andb _ _ = true |- _ => apply andb_true_iff in H; destruct H
  | H : orb _ _ = false |- _ => apply orb_false_iff in H; destruct H
  | H : negb _ = true |- _ => apply negb_true_iff in H
  | H : negb _ = false |- _ => apply negb_false_iff in H
  end.

Lemma eqb_false_of_ne (a b : Z) : a <> b -> (a =? b) = false.
Proof. apply Z.eqb_neq. Qed.

(** ** Linked lists in memory

    [chain next p l]: following [next] from [p] visits exactly the addresses
    [l], then [NULL]. *)

Fixpoint chain (next : Z -> option Z) (p : Z) (l : list Z) : Prop :=
  match l with
  | [] => p = NULL
  | a :: l' => p = a /\ a <> NULL /\
      exists n, next a = Some n /\ chain next n l'
  end.

Lemma chain_ext (f g : Z -> option Z) l : forall p,
  (forall a, a ∈ l -> f a = g a) -> chain f p l -> chain g p l.
Proof.
  induction l as [|a l IH]; intros p Hext; [done|].
  intros (-> & Hn & n & Hf & Hc). split; [done|]. split; [done|].
  exists n. rewrite <- Hext by set_solver. split; [done|].
  apply IH; [set_solver | done].
Qed.

Lemma chain_insert (m : gmap Z Z) a v p l :
  a ∉ l -> chain (fun b => m !! b) p l ->
  chain (fun b => <[a:=v]> m !! b) p l.
Proof.
  intros Hni. apply chain_ext. intros b Hb. cbn.
  rewrite lookup_insert_ne; [done | set_solver].
Qed.

Lemma chain_nonnull f l : forall p a, chain f p l -> a ∈ l -> a <> NULL.
Proof.
  induction l as [|b l IH]; intros p a Hc Ha; [set_solver|].
  destruct Hc as (-> & Hn & n & _ & Hc).
  apply elem_of_cons in Ha as [->|Ha]; eauto.
Qed.

Lemma chain_det f l1 : forall p l2, chain f p l1 -> chain f p l2 -> l1 = l2.
Proof.
  induction l1 as [|a l1 IH]; intros p [|b l2]; cbn.
  - done.
  - intros -> (<- & Hn & _). done.
  - intros (-> & Hn & _) ?. done.
  - intros (-> & _ & n & E & H1) (<- & _ & n' & E' & H2).
    f_equal. apply (IH n); congruence.
Qed.

(** ** Lists *)

Lemma snoc_cases {A} (l : list A) : l = [] \/ exists l' x, l = l' ++ [x].
Proof. destruct l as [|x l _] using rev_ind; eauto. Qed.

(** ** Lists *)

Lemma list_filter_all {A} (P : A -> Prop) `{!forall x, Decision (P x)} (l : list A) :
  Forall P l -> filter P l = l.
Proof. induction 1 as [|x l Hx _ IH]; [done|]. by rewrite filter_cons_True, IH. Qed.

Lemma list_alter_insert {A} (f : A -> A) (l : list A) :
  forall i x, l !! i = Some x -> alter f i l = <[i := f x]> l.
Proof.
  intros i x Hl. apply list_eq. intros j. rewrite list_lookup_alter, list_lookup_insert.
  case_decide as Hj; [subst j; rewrite Hl | by rewrite decide_False by naive_solver].
  rewrite decide_True; [done|]. split; [done|]. by eapply lookup_lt_Some.
Qed.

(** ** Runs of operations

    An implementation steps with [exec], its specification with [spec]. *)

Section runs.
Context {S O R : Type} (exec : S -> O -> option (R * S)).

(** Running a list of operations and collecting their results. *)
Fixpoint run_ops (s : S) (ops : list O) : option (list R * S) :=
  match ops with
  | [] => Some ([], s)
  | op :: ops =>
      '(r, s) ← exec s op; '(rs, s) ← run_ops s ops; Some (r :: rs, s)
  end.

End runs.

Section spec_runs.
Context {S O R : Type} (spec : S -> O -> R * S).

Fixpoint run_spec (s : S) (ops : list O) : list R * S :=
  match ops with
  | [] => ([], s)
  | op :: ops =>
      let '(r, s) := spec s op in let '(rs, s) := run_spec s ops in (r :: rs, s)
  end.

End spec_runs.

(** Forward simulation, for runs. *)
Lemma run_ops_spec {S A O R} (exec : S -> O -> option (R * S)) (spec : A -> O -> R * A)
    (Rel : S -> A -> Prop) :
  (forall s a op, Rel s a ->
     exists s', exec s op = Some ((spec a op).1, s') /\ Rel s' (spec a op).2) ->
  forall ops s a, Rel s a ->
    exists s', run_ops exec s ops = Some ((run_spec spec a ops).1, s') /\
      Rel s' (run_spec spec a ops).2.
Proof.
  intros Hstep ops. induction ops as [|op ops IH]; intros s a Hr; cbn; [eauto|].
  destruct (Hstep s a op Hr) as (s1 & -> & Hr1). cbn [mbind option_bind].
  destruct (spec a op) as [r a1]. cbn in Hr1. destruct (IH s1 a1 Hr1) as (s2 & -> & Hr2).
  destruct (run_spec spec a1 ops) as [rs a2]. cbn. eauto.
Qed.
