(* ===== verification/Bytes.v ===== *)
(** * Bytes and byte order ([src/common/fh_ntoh.h])

    A buffer is a list of bytes; a pointer into it is an offset.  Reading
    outside of it is undefined ([None]).  The host is little endian. *)
From S2P Require Import Prelude.

Definition is_byte (b : Z) : Prop := 0 <= b < 256.

(** [buf[off]] *)
Definition byte_at (buf : list Z) (off : Z) : option Z :=
  if off <? 0 then None else buf !! Z.to_nat off.

(** [memcpy(dst, buf + off, n)] *)
Definition read_bytes (buf : list Z) (off : Z) (n : nat) : option (list Z) :=
  if (off <? 0) || (Z.of_nat (length buf) <? off + Z.of_nat n) then None
  else Some (take n (drop (Z.to_nat off) buf)).

(** The value of an unsigned integer stored in memory. *)
Fixpoint le_val (l : list Z) : Z :=
  match l with [] => 0 | b :: l => b + 256 * le_val l end.

Definition be_val (l : list Z) : Z := le_val (reverse l).

(** The bytes of an [n]-byte integer in memory. *)
Fixpoint le_bytes (n : nat) (z : Z) : list Z :=
  match n with O => [] | S n => z mod 256 :: le_bytes n (z / 256) end.

(** Reading an [n]-byte unsigned integer at [buf + off]. *)
Definition read_le (buf : list Z) (off : Z) (n : nat) : option Z :=
  le_val <$> read_bytes buf off n.

(** [htons], [htonl] of the C library on a little endian host. *)
Definition ntoh16 (x : Z) : Z := be_val (le_bytes 2 x).
Definition ntoh32 (x : Z) : Z := be_val (le_bytes 4 x).

(** The macro, on a [uint64_t]. *)
Definition ntoh64 (x : Z) : Z :=
  Z.lor (Z.lor (Z.lor (Z.lor (Z.lor (Z.lor (Z.lor
    (Z.shiftr (Z.land x 0xff00000000000000) 56)
    (Z.shiftr (Z.land x 0x00ff000000000000) 40))
    (Z.shiftr (Z.land x 0x0000ff0000000000) 24))
    (Z.shiftr (Z.land x 0x000000ff00000000) 8))
    (Z.shiftl (Z.land x 0x00000000ff000000) 8))
    (Z.shiftl (Z.land x 0x0000000000ff0000) 24))
    (Z.shiftl (Z.land x 0x000000000000ff00) 40))
    (Z.shiftl (Z.land x 0x00000000000000ff) 56).

Lemma byte_at_is_byte buf off b : Forall is_byte buf -> byte_at buf off = Some b -> is_byte b.
Proof.
  intros Hb. unfold byte_at. destruct (off <? 0); [done|]. intros Hl.
  by apply (proj1 (Forall_lookup _ _) Hb _ _ Hl).
Qed.

Lemma read_bytes_spec buf off n l : read_bytes buf off n = Some l ->
  length l = n /\ l = take n (drop (Z.to_nat off) buf) /\ 0 <= off /\
  off + Z.of_nat n <= Z.of_nat (length buf).
Proof.
  unfold read_bytes. destruct (_ || _) eqn:E; [done|]. bool_to_prop.
  intros [= <-]. rewrite length_take, length_drop. repeat split; lia.
Qed.

Lemma read_bytes_some buf off n : 0 <= off -> off + Z.of_nat n <= Z.of_nat (length buf) ->
  exists l, read_bytes buf off n = Some l.
Proof.
  intros H1 H2. unfold read_bytes. destruct (_ || _) eqn:E; [|eauto].
  apply orb_true_iff in E as [E|E]; bool_to_prop; lia.
Qed.

Lemma read_bytes_is_byte buf off n l :
  Forall is_byte buf -> read_bytes buf off n = Some l -> Forall is_byte l.
Proof.
  intros Hb (_ & -> & _)%read_bytes_spec. by apply Forall_take, Forall_drop.
Qed.

Lemma byte_at_some buf off : 0 <= off < Z.of_nat (length buf) ->
  exists b, byte_at buf off = Some b.
Proof.
  intros H. unfold byte_at. destruct (off <? 0) eqn:E; bool_to_prop; [lia|].
  apply lookup_lt_is_Some_2. lia.
Qed.

Lemma le_val_range l : Forall is_byte l -> 0 <= le_val l < 256 ^ Z.of_nat (length l).
Proof.
  induction 1 as [|b l Hb _ IH]; [done|]. cbn [le_val length].
  rewrite Nat2Z.inj_succ, Z.pow_succ_r by lia. unfold is_byte in Hb. lia.
Qed.

Lemma be_val_range l : Forall is_byte l -> 0 <= be_val l < 256 ^ Z.of_nat (length l).
Proof.
  intros Hl. unfold be_val. rewrite <- length_reverse. apply le_val_range.
  by apply Forall_reverse.
Qed.

Lemma length_le_bytes n : forall z, length (le_bytes n z) = n.
Proof. induction n as [|n IH]; intros z; [done|]. cbn. by rewrite IH. Qed.

Lemma le_bytes_is_byte n : forall z, Forall is_byte (le_bytes n z).
Proof.
  induction n as [|n IH]; intros z; constructor; [|done]. apply Z.mod_pos_bound. lia.
Qed.

Lemma le_val_le_bytes n : forall z, le_val (le_bytes n z) = z mod 256 ^ Z.of_nat n.
Proof.
  induction n as [|n IH]; intros z; [by rewrite Z.mod_1_r|]. cbn [le_bytes le_val].
  rewrite IH, Nat2Z.inj_succ, Z.pow_succ_r by lia.
  rewrite Z.rem_mul_r; [lia | lia | apply Z.pow_pos_nonneg; lia].
Qed.

Lemma le_bytes_le_val l : Forall is_byte l -> le_bytes (length l) (le_val l) = l.
Proof.
  induction 1 as [|b l Hb _ IH]; [done|]. cbn. unfold is_byte in Hb.
  replace (b + 256 * le_val l) with (b + le_val l * 256) by lia.
  rewrite Z.mod_add, Z.div_add, Z.mod_small, Z.div_small by lia. by f_equal.
Qed.

(** Integers that fit are told apart by their bytes. *)
Lemma le_bytes_inj n x y : 0 <= x < 256 ^ Z.of_nat n -> 0 <= y < 256 ^ Z.of_nat n ->
  le_bytes n x = le_bytes n y -> x = y.
Proof.
  intros Hx Hy E%(f_equal le_val). rewrite !le_val_le_bytes, !Z.mod_small in E; done.
Qed.

(** ** The byte swap macro *)

(** Masking one byte of [x]. *)
Lemma land_byte x k : 0 <= k -> Z.land x (Z.shiftl 255 k) = Z.shiftl (Z.shiftr x k mod 256) k.
Proof.
  intros Hk. change 256 with (2 ^ 8). rewrite <- Z.land_ones by lia.
  apply Z.bits_inj'. intros n Hn. rewrite Z.land_spec, !Z.shiftl_spec by done.
  destruct (decide (n < k)) as [Hlt|Hge].
  - rewrite !(Z.testbit_neg_r _ (n - k)) by lia. apply andb_false_r.
  - rewrite Z.land_spec, Z.shiftr_spec by lia. by replace (n - k + k) with n by lia.
Qed.

Lemma lor_add a b k : 0 <= k -> 0 <= a < 2 ^ k -> Z.lor a (b * 2 ^ k) = a + b * 2 ^ k.
Proof.
  intros Hk Ha. rewrite <- Z.add_lor_land.
  replace (Z.land a (b * 2 ^ k)) with 0; [lia|]. symmetry. apply Z.bits_inj'. intros n Hn.
  rewrite Z.land_spec, Z.bits_0, <- Z.shiftl_mul_pow2, Z.shiftl_spec by lia.
  destruct (decide (n < k)).
  - rewrite (Z.testbit_neg_r b) by lia. apply andb_false_r.
  - destruct (decide (a = 0)) as [->|]; [by rewrite Z.bits_0|].
    rewrite (Z.bits_above_log2 a); [done | lia|]. apply Z.log2_lt_pow2; [lia|].
    eapply Z.lt_le_trans; [apply Ha|]. apply Z.pow_le_mono_r; lia.
Qed.

(** The byte of [le_val l] at position [i]. *)
Lemma le_val_byte l i b : Forall is_byte l -> l !! i = Some b ->
  Z.shiftr (le_val l) (8 * Z.of_nat i) mod 256 = b.
Proof.
  intros Hl. revert i. induction Hl as [|c l Hc Hl IH]; intros i Hi; [done|].
  unfold is_byte in Hc. destruct i as [|i]; cbn in Hi.
  - injection Hi as ->. rewrite Z.mul_0_r, Z.shiftr_0_r. cbn [le_val].
    replace (b + 256 * le_val l) with (b + le_val l * 256) by lia.
    rewrite Z.mod_add, Z.mod_small by lia. done.
  - replace (8 * Z.of_nat (S i)) with (8 + 8 * Z.of_nat i) by lia.
    rewrite <- Z.shiftr_shiftr by lia. cbn [le_val].
    rewrite (Z.shiftr_div_pow2 _ 8) by lia. change (2 ^ 8) with 256.
    replace (c + 256 * le_val l) with (c + le_val l * 256) by lia.
    rewrite Z.div_add, Z.div_small by lia. by apply IH.
Qed.

Lemma ntoh64_bytes b0 b1 b2 b3 b4 b5 b6 b7 :
  let l := [b0; b1; b2; b3; b4; b5; b6; b7] in
  Forall is_byte l -> ntoh64 (le_val l) = be_val l.
Proof.
  intros l Hl.
  assert (Hb : forall m i b k, l !! i = Some b -> k = 8 * Z.of_nat i ->
    m = Z.shiftl 255 k -> Z.land (le_val l) m = b * 2 ^ k).
  { intros m i b k Hi -> ->.
    rewrite land_byte, (le_val_byte l i b), Z.shiftl_mul_pow2 by (done || lia). done. }
  pose proof (Hb 0xff 0%nat b0 0 eq_refl eq_refl eq_refl) as E0.
  pose proof (Hb 0xff00 1%nat b1 8 eq_refl eq_refl eq_refl) as E1.
  pose proof (Hb 0xff0000 2%nat b2 16 eq_refl eq_refl eq_refl) as E2.
  pose proof (Hb 0xff000000 3%nat b3 24 eq_refl eq_refl eq_refl) as E3.
  pose proof (Hb 0xff00000000 4%nat b4 32 eq_refl eq_refl eq_refl) as E4.
  pose proof (Hb 0xff0000000000 5%nat b5 40 eq_refl eq_refl eq_refl) as E5.
  pose proof (Hb 0xff000000000000 6%nat b6 48 eq_refl eq_refl eq_refl) as E6.
  pose proof (Hb 0xff00000000000000 7%nat b7 56 eq_refl eq_refl eq_refl) as E7.
  clear Hb. repeat (apply Forall_cons in Hl as [? Hl]). unfold is_byte in *.
  unfold ntoh64. rewrite E0, E1, E2, E3, E4, E5, E6, E7. clear E0 E1 E2 E3 E4 E5 E6 E7.
  assert (Hr : forall b i j, 0 <= j <= i -> Z.shiftr (b * 2 ^ i) j = b * 2 ^ (i - j)).
  { intros b i j Hij. rewrite Z.shiftr_div_pow2 by lia.
    replace (2 ^ i) with (2 ^ (i - j) * 2 ^ j) by (rewrite <- Z.pow_add_r by lia; f_equal; lia).
    rewrite Z.mul_assoc, Z.div_mul; [done | apply Z.pow_nonzero; lia]. }
  assert (Hs : forall b i j, 0 <= i -> 0 <= j -> Z.shiftl (b * 2 ^ i) j = b * 2 ^ (i + j)).
  { intros b i j Hi Hj. rewrite Z.shiftl_mul_pow2, Z.pow_add_r by lia. lia. }
  rewrite !Hr, !Hs by lia. cbn -[Z.lor Z.pow Z.mul].
  subst l. rewrite Z.mul_1_r.
  change (48 - 40) with 8. change (40 - 24) with 16. change (32 - 8) with 24.
  change (24 + 8) with 32. change (16 + 24) with 40. change (8 + 40) with 48.
  change (0 + 56) with 56. rewrite (lor_add b7) by lia.
  do 6 (rewrite (lor_add (_ + _)) by lia). lia.
Qed.

Lemma ntoh64_val l : length l = 8%nat -> Forall is_byte l -> ntoh64 (le_val l) = be_val l.
Proof.
  intros Hlen Hl. do 8 (destruct l as [|? l]; [discriminate|]). destruct l; [|discriminate].
  by apply ntoh64_bytes.
Qed.

(** ** Reading a part of a buffer *)

Lemma read_bytes_app pre l post :
  read_bytes (pre ++ l ++ post) (Z.of_nat (length pre)) (length l) = Some l.
Proof.
  unfold read_bytes. rewrite !length_app.
  destruct (_ || _) eqn:E; [apply orb_true_iff in E as [E|E]; bool_to_prop; lia|].
  rewrite Nat2Z.id, drop_app_length, take_app_length. done.
Qed.

Definition part (buf : list Z) (off : Z) (l : list Z) : Prop :=
  exists pre post, buf = pre ++ l ++ post /\ off = Z.of_nat (length pre).

Lemma part_here l post off : off = 0 -> part (l ++ post) off l.
Proof. intros ->. by exists [], post. Qed.

Lemma part_here_end l off : off = 0 -> part l off l.
Proof. intros ->. exists [], []. by rewrite app_nil_r. Qed.

Lemma part_skip m buf off l :
  part buf (off - Z.of_nat (length m)) l -> part (m ++ buf) off l.
Proof.
  intros (pre & post & -> & Ho). exists (m ++ pre), post. rewrite <- app_assoc. split; [done|].
  rewrite length_app. lia.
Qed.

Lemma part_cons c buf off l : part buf (off - 1) l -> part (c :: buf) off l.
Proof. intros H. apply (part_skip [c]). cbn. exact H. Qed.

Lemma part_cons_here c buf off : off = 0 -> part (c :: buf) off [c].
Proof. intros ->. by exists [], buf. Qed.

Lemma part_app buf rest off l : part buf off l -> part (buf ++ rest) off l.
Proof.
  intros (pre & post & -> & Ho). exists pre, (post ++ rest). by rewrite <- !app_assoc.
Qed.

Lemma read_part buf off l n : part buf off l -> length l = n -> read_bytes buf off n = Some l.
Proof. intros (pre & post & -> & ->) <-. apply read_bytes_app. Qed.

Lemma byte_part buf off c : part buf off [c] -> byte_at buf off = Some c.
Proof.
  intros (pre & post & -> & ->). unfold byte_at. destruct (_ <? 0) eqn:E; bool_to_prop; [lia|].
  rewrite Nat2Z.id. cbn [app]. by rewrite list_lookup_middle.
Qed.

Lemma read_le_part buf off n z : part buf off (le_bytes n z) -> 0 <= z < 256 ^ Z.of_nat n ->
  read_le buf off n = Some z.
Proof.
  intros Hp Hz. unfold read_le. rewrite (read_part _ _ _ _ Hp) by apply length_le_bytes.
  cbn [fmap option_fmap option_map]. by rewrite le_val_le_bytes, Z.mod_small.
Qed.

(** Where a part is in a buffer given as a concatenation. *)
Ltac find_part :=
  first [ apply part_here; lia | apply part_here_end; lia | apply part_cons_here; lia
        | apply part_skip; find_part | apply part_cons; find_part ].
Ltac solve_part := apply part_app; find_part.

(** Big-endian integers. *)
Definition be_bytes (n : nat) (z : Z) : list Z := reverse (le_bytes n z).

Lemma length_be_bytes n z : length (be_bytes n z) = n.
Proof. unfold be_bytes. by rewrite length_reverse, length_le_bytes. Qed.

Lemma be_bytes_is_byte n z : Forall is_byte (be_bytes n z).
Proof. apply Forall_reverse, le_bytes_is_byte. Qed.

Lemma be_val_be_bytes n z : 0 <= z < 256 ^ Z.of_nat n -> be_val (be_bytes n z) = z.
Proof.
  intros Hz. unfold be_val, be_bytes. rewrite reverse_involutive, le_val_le_bytes.
  by apply Z.mod_small.
Qed.

Lemma ntoh16_be_bytes z : 0 <= z < 65536 -> ntoh16 (le_val (be_bytes 2 z)) = z.
Proof.
  intros Hz. unfold ntoh16. pose proof (le_bytes_le_val (be_bytes 2 z) (be_bytes_is_byte 2 z)) as H.
  rewrite length_be_bytes in H. rewrite H. by apply be_val_be_bytes.
Qed.

Lemma ntoh64_be_bytes z : 0 <= z < 18446744073709551616 -> ntoh64 (le_val (be_bytes 8 z)) = z.
Proof.
  intros Hz. rewrite ntoh64_val by (apply length_be_bytes || apply be_bytes_is_byte).
  by apply be_val_be_bytes.
Qed.

(** ** Properties *)

(** [ntoh64] of a number read from memory is the big-endian value of its
    eight bytes. *)
Theorem ntoh64_be l : length l = 8%nat -> Forall is_byte l -> ntoh64 (le_val l) = be_val l.
Proof. exact (ntoh64_val l). Qed.

Lemma ntoh64_be_witness :
  ntoh64 (le_val [0; 0; 0; 0; 1; 2; 3; 4]) = be_val [0; 0; 0; 0; 1; 2; 3; 4] /\
  be_val [0; 0; 0; 0; 1; 2; 3; 4] = 16909060.
Proof.
  split; [|reflexivity]. apply ntoh64_be; [reflexivity | repeat constructor; done].
Defined.
