(* ===== verification/Mpool.v ===== *)
(** * Memory pools ([src/common/fh_mpool.c], [fh_mpool.h])

    A pool carves blocks obtained from [malloc] into chunks and keeps the free
    ones in a singly linked list threaded through the chunk headers.  The list
    is modelled at the level of addresses: [mp_mchunks] is the head pointer and
    [mc_next] the header words in memory.  What [malloc] returns to a call is an
    argument ([None] is failure). *)
From S2P Require Import Prelude.

Definition FH_OK : Z := 0.
Definition FH_ERROR : Z := -1.
Definition FH_ERR_NOTFOUND : Z := 1.
Definition FH_ERR_DUP : Z := 2.

Definition FH_MPOOL_FL_GROW : Z := 1.
Definition FH_MPOOL_FL_LOCK : Z := 2.
Definition FH_MPOOL_FL_CLEAR : Z := 4.

Definition sizeof_mchunk : Z := 8.
Definition sizeof_mblock : Z := 8.

(** [if (flags & f)] *)
Definition flag_set (flags f : Z) : bool := negb (Z.land flags f =? 0).

Record fh_mpool := MkPool {
  mp_name : string;
  mp_mblocks : list Z;      (* block addresses, newest first (mb_next) *)
  mp_mchunks : Z;           (* head of the free list *)
  mc_next : gmap Z Z;       (* chunk headers in memory *)
  mp_zero : gset Z;         (* free elements whose memory is known to be 0 *)
  mp_chunksize : Z;
  mp_nchunks : Z;
  mp_nblocks : Z;
  mp_flags : Z;
  mp_free : Z;
  mp_inuse : Z;
  mp_lock : Z               (* locks minus unlocks of the pool mutex *)
}.

Definition mp_set_list (mp : fh_mpool) head next zero nfree ninuse : fh_mpool :=
  MkPool mp.(mp_name) mp.(mp_mblocks) head next zero mp.(mp_chunksize)
    mp.(mp_nchunks) mp.(mp_nblocks) mp.(mp_flags) nfree ninuse mp.(mp_lock).

Definition mp_add_block (mp : fh_mpool) (b : Z) : fh_mpool :=
  MkPool mp.(mp_name) (b :: mp.(mp_mblocks)) mp.(mp_mchunks) mp.(mc_next)
    mp.(mp_zero) mp.(mp_chunksize) mp.(mp_nchunks) (u32 (mp.(mp_nblocks) + 1))
    mp.(mp_flags) mp.(mp_free) mp.(mp_inuse) mp.(mp_lock).

Definition mp_set_lock (mp : fh_mpool) (d : Z) : fh_mpool :=
  MkPool mp.(mp_name) mp.(mp_mblocks) mp.(mp_mchunks) mp.(mc_next)
    mp.(mp_zero) mp.(mp_chunksize) mp.(mp_nchunks) mp.(mp_nblocks)
    mp.(mp_flags) mp.(mp_free) mp.(mp_inuse) d.

(** [if (mp->mp_flags & FH_MPOOL_FL_LOCK) pthread_mutex_(un)lock(...)] *)
Definition mpool_lock (mp : fh_mpool) : fh_mpool :=
  if flag_set mp.(mp_flags) FH_MPOOL_FL_LOCK
  then mp_set_lock mp (mp.(mp_lock) + 1) else mp.

Definition mpool_unlock (mp : fh_mpool) : fh_mpool :=
  if flag_set mp.(mp_flags) FH_MPOOL_FL_LOCK
  then mp_set_lock mp (mp.(mp_lock) - 1) else mp.

Definition chunk_size (mp : fh_mpool) : Z :=
  s32 (sizeof_mchunk + mp.(mp_chunksize)).
Definition block_size (mp : fh_mpool) : Z :=
  s32 (sizeof_mblock + u32 (mp.(mp_nchunks) * chunk_size mp)).

Definition fh_mpool_memuse (mp : fh_mpool) : Z :=
  u32 (mp.(mp_nblocks) * block_size mp).

(** The [for] loop of [mpool_grow]: chunk [i] is pushed on the free list. *)
Fixpoint mpool_carve (n : nat) (arena csize i : Z) (mp : fh_mpool) : fh_mpool :=
  match n with
  | O => mp
  | S n' =>
      let mc := arena + u32 (i * csize) in
      mpool_carve n' arena csize (i + 1)
        (mp_set_list mp mc (<[mc := mp.(mp_mchunks)]> mp.(mc_next))
           ({[mc + sizeof_mchunk]} ∪ mp.(mp_zero))
           (u32 (mp.(mp_free) + 1)) mp.(mp_inuse))
  end.

Definition mpool_grow (arena : option Z) (mp : fh_mpool) : Z * fh_mpool :=
  match arena with
  | None => (FH_ERROR, mp)
  | Some mb =>
      (FH_OK,
       mpool_carve (Z.to_nat mp.(mp_nchunks)) (mb + sizeof_mblock)
         (chunk_size mp) 0 (mp_add_block mp mb))
  end.

(** [fh_mpool_free]: the blocks handed back to [free], in the order of the
    walk along [mb_next]. *)
Definition fh_mpool_free (mp : fh_mpool) : list Z := mp.(mp_mblocks).

(** [mem_mp], [mem_name]: whether [malloc] of the pool header and [strdup] of
    its name succeed.  [None] is the [NULL] result. *)
Definition fh_mpool_new (mem_mp mem_name : bool) (arena : option Z)
    (name : string) (csize nchunks flags : Z) : option fh_mpool :=
  if negb mem_mp then None
  else
    let mp := MkPool name [] NULL ∅ ∅ (u32 csize) (u32 nchunks) 0 (u32 flags)
                0 0 0 in
    if negb mem_name then None
    else
      match mpool_grow arena mp with
      | (rc, mp') => if rc =? FH_OK then Some mp' else None
      end.

(** The part of [fh_mpool_get] after the pool is known to have a chunk.  The
    [FH_ASSERT(1)] of an empty list does nothing: [mc->mc_next] is read through
    [NULL]. *)
Definition mpool_take (mp : fh_mpool) : option (Z * fh_mpool) :=
  let mc := mp.(mp_mchunks) in
  next ← mp.(mc_next) !! mc;
  let mp := mp_set_list mp next mp.(mc_next)
              (mp.(mp_zero) ∖ {[mc + sizeof_mchunk]})
              (u32 (mp.(mp_free) - 1)) (u32 (mp.(mp_inuse) + 1)) in
  let mp := mpool_unlock mp in
  Some (mc + sizeof_mchunk, mpool_unlock mp).

Definition fh_mpool_get (arena : option Z) (mp : fh_mpool)
    : option (Z * fh_mpool) :=
  let mp := mpool_lock mp in
  if mp.(mp_free) =? 0 then
    if negb (flag_set mp.(mp_flags) FH_MPOOL_FL_GROW)
    then Some (NULL, mpool_unlock mp)
    else
      match mpool_grow arena mp with
      | (rc, mp) =>
          if negb (rc =? FH_OK) then Some (NULL, mpool_unlock mp)
          else mpool_take mp
      end
  else mpool_take mp.

Definition fh_mpool_put (mp : fh_mpool) (e : Z) : option (Z * fh_mpool) :=
  if e =? NULL then None
  else
    let mc := e - sizeof_mchunk in
    let mp := mpool_lock mp in
    let zero := if flag_set mp.(mp_flags) FH_MPOOL_FL_CLEAR
                then {[e]} ∪ mp.(mp_zero) else mp.(mp_zero) in
    _ ← mp.(mc_next) !! mc;
    let mp := mp_set_list mp mc (<[mc := mp.(mp_mchunks)]> mp.(mc_next)) zero
                (u32 (mp.(mp_free) + 1)) (u32 (mp.(mp_inuse) - 1)) in
    Some (FH_OK, mpool_unlock mp).

(** ** Well-formed pools *)

(** The chunk headers of the block at [b], in the order they are carved. *)
Definition block_chunks (mp : fh_mpool) (b : Z) : list Z :=
  (fun i => b + sizeof_mblock + i * chunk_size mp) <$> seqZ 0 mp.(mp_nchunks).

(** The pool's dimensions fit the [int] computations of [mpool_grow]. *)
Definition pool_dims (mp : fh_mpool) : Prop :=
  0 <= mp.(mp_chunksize) /\ 0 <= mp.(mp_nchunks) /\
  0 <= mp.(mp_nblocks) < 4294967296 /\
  mp.(mp_chunksize) + 8 < 2147483648 /\
  8 + mp.(mp_nchunks) * (mp.(mp_chunksize) + 8) < 2147483648.

(** [pool_wf mp free used]: the free list holds the chunks [free], the clients
    hold [used], and together they are the chunks of the pool's blocks. *)
Record pool_wf (mp : fh_mpool) (free used : list Z) : Prop := {
  wf_dims : pool_dims mp;
  wf_chain : chain (fun a => mp.(mc_next) !! a) mp.(mp_mchunks) free;
  wf_perm : free ++ used ≡ₚ mp.(mp_mblocks) ≫= block_chunks mp;
  wf_nodup : NoDup (free ++ used);
  wf_hdr : forall c, c ∈ used -> is_Some (mp.(mc_next) !! c);
  wf_sep : forall b1 b2, b1 ∈ mp.(mp_mblocks) -> b2 ∈ mp.(mp_mblocks) ->
    b1 <> b2 -> b1 + block_size mp <= b2 \/ b2 + block_size mp <= b1;
  wf_pos : forall b, b ∈ mp.(mp_mblocks) -> 0 < b;
  wf_free : mp.(mp_free) = Z.of_nat (length free);
  wf_inuse : mp.(mp_inuse) = Z.of_nat (length used);
  wf_nblocks : mp.(mp_nblocks) = Z.of_nat (length mp.(mp_mblocks));
  wf_fit : Z.of_nat (length (free ++ used)) < 4294967296;
  wf_zero : flag_set mp.(mp_flags) FH_MPOOL_FL_CLEAR = true ->
    forall c, c ∈ free -> c + 8 ∈ mp.(mp_zero)
}.

(** What [malloc] promises of a new arena: a non-null address and a range that
    overlaps no live block.  The last clause bounds the pool's total size. *)
Definition arena_ok (mp : fh_mpool) (a : Z) : Prop :=
  0 < a /\
  (forall b, b ∈ mp.(mp_mblocks) ->
     a + block_size mp <= b \/ b + block_size mp <= a) /\
  mp.(mp_free) + mp.(mp_inuse) + mp.(mp_nchunks) < 4294967296 /\
  mp.(mp_nblocks) + 1 < 4294967296.

Lemma pool_wf_perm mp free used used' :
  used ≡ₚ used' -> pool_wf mp free used -> pool_wf mp free used'.
Proof.
  intros Hp []. constructor; rewrite <- ?Hp; try done.
  - intros c. rewrite <- Hp. auto.
Qed.

Lemma chunk_size_eq mp : pool_dims mp -> chunk_size mp = mp.(mp_chunksize) + 8.
Proof.
  intros (?&?&?&?&?). unfold chunk_size, sizeof_mchunk.
  rewrite s32_small; lia.
Qed.

Lemma block_size_eq mp : pool_dims mp ->
  block_size mp = 8 + mp.(mp_nchunks) * (mp.(mp_chunksize) + 8).
Proof.
  intros Hd. pose proof (chunk_size_eq mp Hd) as Hc.
  destruct Hd as (?&?&?&?&?). unfold block_size, sizeof_mblock.
  rewrite Hc, u32_small, s32_small; lia.
Qed.

Lemma elem_of_block_chunks mp b c :
  c ∈ block_chunks mp b <->
  exists i, c = b + 8 + i * chunk_size mp /\ 0 <= i < mp.(mp_nchunks).
Proof.
  unfold block_chunks, sizeof_mblock. rewrite list_elem_of_fmap.
  setoid_rewrite elem_of_seqZ. split; intros (i & ? & ?); exists i; lia.
Qed.

Lemma block_chunks_range mp b c : pool_dims mp ->
  c ∈ block_chunks mp b -> b + 8 <= c /\ c + 8 <= b + block_size mp.
Proof.
  intros Hd (i & -> & Hi)%elem_of_block_chunks.
  rewrite block_size_eq, chunk_size_eq by done.
  destruct Hd as (?&?&?&?&?). nia.
Qed.

Lemma block_chunks_nodup mp b : pool_dims mp -> NoDup (block_chunks mp b).
Proof.
  intros Hd. unfold block_chunks. apply NoDup_fmap_2_strong; [|apply NoDup_seqZ].
  intros x y _ _. rewrite chunk_size_eq by done.
  destruct Hd as (?&?&?&?&?). nia.
Qed.

Lemma length_block_chunks mp b :
  Z.of_nat (length (block_chunks mp b)) = Z.max 0 mp.(mp_nchunks).
Proof. unfold block_chunks. rewrite length_fmap, length_seqZ. lia. Qed.

Lemma length_blocks_chunks mp bs : 0 <= mp.(mp_nchunks) ->
  length (bs ≫= block_chunks mp) = (length bs * Z.to_nat mp.(mp_nchunks))%nat.
Proof.
  intros Hn. induction bs as [|b bs IH]; [done|].
  change ((b :: bs) ≫= block_chunks mp) with (block_chunks mp b ++ (bs ≫= block_chunks mp)).
  pose proof (length_block_chunks mp b). rewrite length_app, IH. cbn. lia.
Qed.

(** Chunks of a fresh arena belong to none of the pool's blocks. *)
Lemma arena_disjoint mp a c : pool_dims mp -> arena_ok mp a ->
  c ∈ block_chunks mp a -> c ∉ mp.(mp_mblocks) ≫= block_chunks mp.
Proof.
  intros Hd (_ & Ha & _) Hc (b & Hcb & Hb)%list_elem_of_bind.
  apply block_chunks_range in Hc, Hcb; try done.
  destruct (Ha b Hb); lia.
Qed.

(** What the carving loop does: the chunks of indexes [i .. i+n-1] end up on
    the free list, the last one first. *)
Lemma mpool_carve_spec n arena cs : forall i mp free,
  let news := (fun j => arena + j * cs) <$> seqZ i (Z.of_nat n) in
  let mp' := mpool_carve n arena cs i mp in
  0 <= i -> 0 <= cs -> (i + Z.of_nat n) * cs < 4294967296 ->
  0 <= mp.(mp_free) -> mp.(mp_free) + Z.of_nat n < 4294967296 ->
  (forall c, c ∈ news -> 0 < c /\ c ∉ free) -> NoDup news ->
  chain (fun a => mp.(mc_next) !! a) mp.(mp_mchunks) free ->
  chain (fun a => mp'.(mc_next) !! a) mp'.(mp_mchunks) (reverse news ++ free) /\
  (forall c, c ∉ news -> mp'.(mc_next) !! c = mp.(mc_next) !! c) /\
  mp' = mp_set_list mp mp'.(mp_mchunks) mp'.(mc_next)
          (list_to_set ((fun c => c + 8) <$> news) ∪ mp.(mp_zero))
          (mp.(mp_free) + Z.of_nat n) mp.(mp_inuse).
Proof.
  induction n as [|n IH]; intros i mp free news mp' Hi Hcs Hfit Hf0 Hf Hnew Hnd Hch.
  - subst mp' news. cbn. split; [done|]. split; [done|].
    destruct mp; cbn in *. unfold mp_set_list; cbn. f_equal; [set_solver | lia].
  - assert (Hnews : news = (arena + i * cs)
        :: ((fun j => arena + j * cs) <$> seqZ (i + 1) (Z.of_nat n))).
    { subst news. rewrite seqZ_cons by lia.
      replace (Z.pred (Z.of_nat (S n))) with (Z.of_nat n) by lia. done. }
    clearbody news. subst news.
    apply NoDup_cons in Hnd as [Hni Hnd].
    subst mp'. cbn [mpool_carve]. rewrite (u32_small (i * cs)) by nia.
    destruct (IH (i + 1)
      (mp_set_list mp (arena + i * cs)
         (<[arena + i * cs := mp.(mp_mchunks)]> mp.(mc_next))
         ({[arena + i * cs + sizeof_mchunk]} ∪ mp.(mp_zero))
         (u32 (mp.(mp_free) + 1)) mp.(mp_inuse))
      (arena + i * cs :: free)) as (Hc & Hu & He).
    + lia.
    + done.
    + nia.
    + cbn. rewrite u32_small; lia.
    + cbn. rewrite u32_small; lia.
    + intros c Hin. split; [apply Hnew; set_solver|].
      rewrite elem_of_cons. intros [->|Hin']; [done|].
      eapply (proj2 (Hnew c ltac:(set_solver))). done.
    + done.
    + cbn. split; [done|]. destruct (Hnew (arena + i * cs)) as [Hpos Hnf]; [set_solver|].
      split; [unfold NULL; lia|]. exists mp.(mp_mchunks).
      split; [apply lookup_insert_eq|]. by apply chain_insert.
    + split; [|split].
      * rewrite reverse_cons, <- app_assoc. exact Hc.
      * intros c [Hne Hnin]%not_elem_of_cons. rewrite Hu by done. cbn.
        by rewrite lookup_insert_ne by done.
      * rewrite He at 1. unfold mp_set_list; cbn.
        f_equal; [set_solver | rewrite u32_small; lia].
Qed.

Lemma mp_set_list_chunks mp h n z f u b :
  block_chunks (mp_set_list mp h n z f u) b = block_chunks mp b.
Proof. done. Qed.

(** [mpool_grow] on a fresh arena puts exactly its chunks on the free list. *)
Lemma mpool_grow_wf mp free used a :
  pool_wf mp free used -> arena_ok mp a ->
  exists mp', mpool_grow (Some a) mp = (FH_OK, mp') /\
    pool_wf mp' (reverse (block_chunks mp a) ++ free) used /\
    mp' = mp_set_list (mp_add_block mp a) mp'.(mp_mchunks) mp'.(mc_next)
            (list_to_set ((fun c => c + 8) <$> block_chunks mp a) ∪ mp.(mp_zero))
            (mp.(mp_free) + mp.(mp_nchunks)) mp.(mp_inuse).
Proof.
  intros Hwf Ha. pose proof (wf_dims _ _ _ Hwf) as Hd.
  pose proof (chunk_size_eq _ Hd) as Hcs. destruct Hd as (D1&D2&D3&D4&D5).
  assert (Hdisj : forall c, c ∈ block_chunks mp a -> 0 < c /\ c ∉ free ++ used).
  { intros c Hc. split.
    - apply block_chunks_range in Hc; [destruct Ha; lia | apply Hwf].
    - rewrite (wf_perm _ _ _ Hwf). by eapply arena_disjoint; [apply Hwf|..]. }
  pose proof Ha as (Ha1 & _ & Ha2 & Ha3).
  destruct (mpool_carve_spec (Z.to_nat mp.(mp_nchunks)) (a + sizeof_mblock)
    (chunk_size mp) 0 (mp_add_block mp a) free) as (Hc & Hu & He);
    [ lia | lia | rewrite Hcs; nia | cbn; rewrite (wf_free _ _ _ Hwf); lia
    | cbn; rewrite (wf_free _ _ _ Hwf), (wf_inuse _ _ _ Hwf) in *; lia
    | rewrite Z2Nat.id by lia; intros c Hc; fold (block_chunks mp a) in Hc;
      specialize (Hdisj c Hc); set_solver
    | rewrite Z2Nat.id by lia; apply block_chunks_nodup, Hwf
    | apply Hwf |].
  rewrite Z2Nat.id in Hc, Hu, He by lia. fold (block_chunks mp a) in Hc, Hu, He.
  cbn [mp_add_block mp_free mp_inuse mp_zero] in He.
  exists (mpool_carve (Z.to_nat mp.(mp_nchunks)) (a + sizeof_mblock)
    (chunk_size mp) 0 (mp_add_block mp a)).
  split; [done|]. split; [|exact He]. revert Hc Hu He.
  generalize (mpool_carve (Z.to_nat mp.(mp_nchunks)) (a + sizeof_mblock)
    (chunk_size mp) 0 (mp_add_block mp a)) as mp'. intros mp' Hc Hu ->.
  pose proof (length_block_chunks mp a) as Hlen.
  constructor; cbn -[block_chunks]; rewrite ?mp_set_list_chunks.
  - unfold pool_dims; cbn. rewrite u32_small; lia.
  - exact Hc.
  - rewrite <- app_assoc.
    transitivity (block_chunks mp a ++ (mp.(mp_mblocks) ≫= block_chunks mp)); [|done].
    f_equiv; [apply reverse_Permutation | apply Hwf].
  - rewrite <- app_assoc. apply NoDup_app. split; [|split].
    + rewrite reverse_Permutation. by apply block_chunks_nodup, Hwf.
    + intros c Hcin. rewrite elem_of_reverse in Hcin. by apply Hdisj.
    + apply Hwf.
  - intros c Hcu. rewrite Hu.
    + by apply Hwf.
    + intros Hcin. apply Hdisj in Hcin. set_solver.
  - change (block_size _) with (block_size mp).
    intros b1 b2 [->|Hb1]%elem_of_cons [->|Hb2]%elem_of_cons Hne; [done|..].
    + by apply Ha.
    + pose proof (proj1 (proj2 Ha) b1 Hb1). lia.
    + by apply (wf_sep _ _ _ Hwf).
  - intros b [->|Hb]%elem_of_cons; [lia | by apply Hwf].
  - rewrite length_app, length_reverse, (wf_free _ _ _ Hwf). lia.
  - apply Hwf.
  - rewrite (wf_nblocks _ _ _ Hwf), u32_small; rewrite (wf_nblocks _ _ _ Hwf) in *; lia.
  - rewrite (wf_free _ _ _ Hwf), (wf_inuse _ _ _ Hwf) in Ha2.
    rewrite !length_app, length_reverse. lia.
  - intros Hcl c [Hc1|Hc1]%elem_of_app; apply elem_of_union.
    + left. apply elem_of_list_to_set, list_elem_of_fmap. exists c.
      by rewrite elem_of_reverse in Hc1.
    + right. by apply (wf_zero _ _ _ Hwf).
Qed.

#[local] Arguments mpool_grow : simpl never.
#[local] Arguments mpool_take : simpl never.

Lemma pool_wf_set_lock mp d free used :
  pool_wf mp free used -> pool_wf (mp_set_lock mp d) free used.
Proof. intros []. constructor; done. Qed.

Lemma pool_wf_lock mp free used :
  pool_wf mp free used -> pool_wf (mpool_lock mp) free used.
Proof. unfold mpool_lock. destruct (flag_set _ _); auto using pool_wf_set_lock. Qed.

Lemma pool_wf_unlock mp free used :
  pool_wf mp free used -> pool_wf (mpool_unlock mp) free used.
Proof. unfold mpool_unlock. destruct (flag_set _ _); auto using pool_wf_set_lock. Qed.

Create HintDb pool.
#[export] Hint Resolve pool_wf_lock pool_wf_unlock pool_wf_set_lock : pool.

Lemma mpool_lock_flags mp : (mpool_lock mp).(mp_flags) = mp.(mp_flags).
Proof. unfold mpool_lock. destruct (flag_set _ _); reflexivity. Qed.

Lemma mpool_unlock_flags mp : (mpool_unlock mp).(mp_flags) = mp.(mp_flags).
Proof. unfold mpool_unlock. destruct (flag_set _ _); reflexivity. Qed.

Lemma mpool_lock_nchunks mp : (mpool_lock mp).(mp_nchunks) = mp.(mp_nchunks).
Proof. unfold mpool_lock. destruct (flag_set _ _); reflexivity. Qed.

Lemma mpool_lock_chunks mp b : block_chunks (mpool_lock mp) b = block_chunks mp b.
Proof. unfold mpool_lock. destruct (flag_set _ _); reflexivity. Qed.

Lemma arena_ok_lock mp a : arena_ok mp a -> arena_ok (mpool_lock mp) a.
Proof. unfold mpool_lock. by destruct (flag_set _ _). Qed.

Lemma unlock_lock mp : mpool_unlock (mpool_lock mp) = mp.
Proof.
  unfold mpool_lock. destruct (flag_set _ _) eqn:E; unfold mpool_unlock; cbn.
  - rewrite E. destruct mp; unfold mp_set_lock; cbn. f_equal. lia.
  - by rewrite E.
Qed.

Lemma pool_used_pos mp free used c :
  pool_wf mp free used -> c ∈ free ++ used -> 8 <= c.
Proof.
  intros Hwf. rewrite (wf_perm _ _ _ Hwf). intros (b & Hc & Hb)%list_elem_of_bind.
  apply block_chunks_range in Hc; [|apply Hwf].
  apply (wf_pos _ _ _ Hwf) in Hb. lia.
Qed.

(** Taking a chunk moves the head of the free list to the clients. *)
Lemma mpool_take_wf mp c free used :
  pool_wf mp (c :: free) used ->
  exists mp', mpool_take mp = Some (c + 8, mp') /\
    pool_wf mp' free (c :: used) /\ mp'.(mp_flags) = mp.(mp_flags).
Proof.
  intros Hwf. pose proof (wf_chain _ _ _ Hwf) as (Hh & Hn & n & Hl & Hc).
  unfold mpool_take. rewrite Hh, Hl. cbn. eexists. split; [done|].
  split; [|rewrite !mpool_unlock_flags; done].
  apply pool_wf_unlock, pool_wf_unlock.
  pose proof (wf_fit _ _ _ Hwf) as Hfit. cbn in Hfit. rewrite length_app in Hfit.
  assert (Hp : free ++ c :: used ≡ₚ c :: free ++ used)
    by (rewrite Permutation_middle; done).
  constructor; cbn -[block_chunks]; rewrite ?mp_set_list_chunks, ?Hp; try apply Hwf.
  - exact Hc.
  - intros d [->|Hd]%elem_of_cons; [eauto | by apply Hwf].
  - rewrite (wf_free _ _ _ Hwf). cbn. rewrite u32_small; lia.
  - rewrite (wf_inuse _ _ _ Hwf). cbn. rewrite u32_small; lia.
  - intros Hcl d Hd. apply elem_of_difference. split.
    + apply (wf_zero _ _ _ Hwf Hcl). set_solver.
    + pose proof (wf_nodup _ _ _ Hwf) as Hnd. cbn in Hnd.
      apply NoDup_cons in Hnd as [Hni _]. rewrite elem_of_singleton.
        unfold sizeof_mchunk. intros ?. assert (d = c) as -> by lia. set_solver.
Qed.

(** [fh_mpool_get] when the free list is not empty. *)
Lemma fh_mpool_get_free mp arena c free used :
  pool_wf mp (c :: free) used ->
  exists mp', fh_mpool_get arena mp = Some (c + 8, mp') /\
    pool_wf mp' free (c :: used) /\ mp'.(mp_flags) = mp.(mp_flags).
Proof.
  intros Hwf. unfold fh_mpool_get. rewrite <- (mpool_lock_flags mp).
  apply pool_wf_lock in Hwf. pose proof (wf_free _ _ _ Hwf) as ->. cbn.
  by apply mpool_take_wf.
Qed.

(** ... when it is empty and the pool may not (or cannot) grow. *)
Lemma fh_mpool_get_empty mp arena used :
  pool_wf mp [] used ->
  flag_set mp.(mp_flags) FH_MPOOL_FL_GROW = false \/ arena = None ->
  fh_mpool_get arena mp = Some (NULL, mp).
Proof.
  intros Hwf Hno. unfold fh_mpool_get.
  pose proof (mpool_lock_flags mp) as Hg.
  apply pool_wf_lock in Hwf. pose proof (wf_free _ _ _ Hwf) as ->. cbn.
  rewrite Hg. destruct (flag_set mp.(mp_flags) _); cbn.
  - destruct Hno as [Hno| ->]; [discriminate Hno|].
    unfold mpool_grow. cbn. by rewrite unlock_lock.
  - by rewrite unlock_lock.
Qed.

(** ... when it is empty and [malloc] provides a new block. *)
Lemma fh_mpool_get_grow mp a used :
  pool_wf mp [] used -> arena_ok mp a -> 0 < mp.(mp_nchunks) ->
  flag_set mp.(mp_flags) FH_MPOOL_FL_GROW = true ->
  exists c free mp', reverse (block_chunks mp a) = c :: free /\
    fh_mpool_get (Some a) mp = Some (c + 8, mp') /\
    pool_wf mp' free (c :: used) /\ mp'.(mp_flags) = mp.(mp_flags).
Proof.
  intros Hwf Ha Hn Hg. unfold fh_mpool_get.
  apply pool_wf_lock in Hwf. apply arena_ok_lock in Ha.
  rewrite <- mpool_lock_flags in Hg. rewrite <- mpool_lock_nchunks in Hn.
  rewrite <- mpool_lock_chunks.
  rewrite (wf_free _ _ _ Hwf), Hg. cbn.
  destruct (mpool_grow_wf _ _ _ _ Hwf Ha) as (mp' & -> & Hwf' & He).
  rewrite app_nil_r in Hwf'.
  destruct (reverse (block_chunks (mpool_lock mp) a)) as [|c free] eqn:E.
  - pose proof (length_block_chunks (mpool_lock mp) a) as Hl.
    rewrite <- length_reverse, E in Hl. cbn in Hl. lia.
  - destruct (mpool_take_wf _ _ _ _ Hwf') as (mp'' & Ht & Hw & Hfl).
    exists c, free, mp''. split; [done|]. split; [done|]. split; [done|].
    rewrite Hfl, He. apply mpool_lock_flags.
Qed.

(** [fh_mpool_put] of an element a client holds. *)
Lemma fh_mpool_put_wf mp free used1 c used2 :
  pool_wf mp free (used1 ++ c :: used2) ->
  exists mp', fh_mpool_put mp (c + 8) = Some (FH_OK, mp') /\
    pool_wf mp' (c :: free) (used1 ++ used2) /\ mp'.(mp_flags) = mp.(mp_flags).
Proof.
  intros Hwf. assert (Hpos : 8 <= c) by (eapply pool_used_pos; [done|]; set_solver).
  unfold fh_mpool_put, NULL. destruct (c + 8 =? 0) eqn:E; [bool_to_prop; lia|]. clear E.
  replace (c + 8 - sizeof_mchunk) with c by (unfold sizeof_mchunk; lia).
  rewrite <- (mpool_lock_flags mp).
  apply pool_wf_lock in Hwf. revert Hwf. generalize (mpool_lock mp) as mp0.
  intros mp0 Hwf. destruct (wf_hdr _ _ _ Hwf c) as [n Hn]; [set_solver|].
  rewrite Hn. cbn. eexists. split; [done|].
  split; [|rewrite mpool_unlock_flags; done]. apply pool_wf_unlock.
  pose proof (wf_fit _ _ _ Hwf) as Hfit. pose proof (wf_nodup _ _ _ Hwf) as Hnd.
  assert (Hp : c :: free ++ used1 ++ used2 ≡ₚ free ++ used1 ++ c :: used2).
  { rewrite (app_assoc free), (app_assoc free). apply Permutation_middle. }
  rewrite <- Hp in Hnd, Hfit. apply NoDup_cons in Hnd as [Hni _].
  constructor; cbn -[block_chunks]; rewrite ?mp_set_list_chunks;
    change (c :: free ++ used1 ++ used2) with ((c :: free) ++ used1 ++ used2) in Hp.
  - apply Hwf.
  - split; [done|]. split; [unfold NULL; lia|]. eexists.
    split; [apply lookup_insert_eq|]. apply chain_insert; [set_solver | apply Hwf].
  - etransitivity; [exact Hp | apply Hwf].
  - change (NoDup ((c :: free) ++ used1 ++ used2)). rewrite Hp. apply Hwf.
  - intros d Hd. rewrite lookup_insert_ne by set_solver. apply Hwf. set_solver.
  - apply Hwf.
  - apply Hwf.
  - rewrite (wf_free _ _ _ Hwf). cbn in Hfit. rewrite !length_app in Hfit.
    rewrite u32_small; lia.
  - rewrite (wf_inuse _ _ _ Hwf). cbn in Hfit. rewrite !length_app in *. cbn.
    rewrite u32_small; lia.
  - apply Hwf.
  - exact Hfit.
  - intros Hcl d Hd. rewrite Hcl. apply elem_of_union.
    apply elem_of_cons in Hd as [->|Hd]; [left; set_solver|].
    right. by apply (wf_zero _ _ _ Hwf).
Qed.

(** A pool from [fh_mpool_new] has one block, all of it free. *)
Lemma fh_mpool_new_wf a name csize n flags :
  0 < a -> 0 <= csize -> 0 <= n -> csize + 8 < 2147483648 ->
  8 + n * (csize + 8) < 2147483648 ->
  exists mp, fh_mpool_new true true (Some a) name csize n flags = Some mp /\
    pool_wf mp (reverse (block_chunks mp a)) [] /\
    mp.(mp_flags) = u32 flags /\ mp.(mp_nchunks) = n /\ mp.(mp_chunksize) = csize.
Proof.
  intros Ha Hc Hn Hc' Hn'. unfold fh_mpool_new.
  assert (Hw : pool_wf (MkPool name [] NULL ∅ ∅ (u32 csize) (u32 n) 0 (u32 flags) 0 0 0) [] []).
  { constructor; unfold pool_dims; cbn; rewrite ?u32_small by nia;
      repeat split; try done; try constructor; try set_solver; nia. }
  destruct (mpool_grow_wf _ _ _ a Hw) as (mp & -> & Hwf & He).
  { split; [done|]. split; [set_solver|]. cbn. rewrite u32_small by nia. lia. }
  exists mp. rewrite app_nil_r in Hwf. cbn [Z.eqb].
  assert (Hs : mp.(mp_nchunks) = n /\ mp.(mp_chunksize) = csize /\ mp.(mp_flags) = u32 flags).
  { rewrite He. cbn. rewrite (u32_small n), (u32_small csize) by nia. done. }
  destruct Hs as (? & ? & ?). split; [done|]. split; [|done].
  assert (Hb : forall b, block_chunks mp b = block_chunks
    (MkPool name [] NULL ∅ ∅ (u32 csize) (u32 n) 0 (u32 flags) 0 0 0) b)
    by (intros b; rewrite He; reflexivity).
  rewrite Hb. exact Hwf.
Qed.

(** Two distinct chunks of a pool are at least a chunk apart. *)
Lemma pool_chunks_apart mp free used c d :
  pool_wf mp free used -> c ∈ free ++ used -> d ∈ free ++ used -> c <> d ->
  mp.(mp_chunksize) + 8 <= Z.abs (c - d).
Proof.
  intros Hwf. pose proof (wf_dims _ _ _ Hwf) as Hd. rewrite (wf_perm _ _ _ Hwf).
  intros (b1 & Hc & Hb1)%list_elem_of_bind (b2 & Hdd & Hb2)%list_elem_of_bind Hne.
  pose proof Hc as Hc'. pose proof Hdd as Hd'.
  apply elem_of_block_chunks in Hc' as (i & -> & Hi), Hd' as (j & -> & Hj).
  rewrite chunk_size_eq in * by done. pose proof (block_size_eq mp Hd) as Hbs.
  destruct (decide (b1 = b2)) as [->|Hbne].
  - assert (i <> j) by congruence. destruct Hd as (? & ? & ? & ?). nia.
  - apply (wf_sep _ _ _ Hwf _ _ Hb1 Hb2) in Hbne.
    rewrite Hbs in Hbne. destruct Hd as (? & ? & ? & ?). nia.
Qed.

(** ** Clients of a pool

    One step of the pool's clients, on the pool and the elements they hold:
    [fh_mpool_get] (successful or not) or [fh_mpool_put] of a held element.
    [malloc], if called, behaves as [arena_ok] says. *)
Inductive pool_step : fh_mpool * list Z -> fh_mpool * list Z -> Prop :=
  | step_get mp held arena e mp' :
      (forall a, arena = Some a -> arena_ok mp a) ->
      fh_mpool_get arena mp = Some (e, mp') -> e <> NULL ->
      pool_step (mp, held) (mp', e :: held)
  | step_get_null mp held arena mp' :
      (forall a, arena = Some a -> arena_ok mp a) ->
      fh_mpool_get arena mp = Some (NULL, mp') ->
      pool_step (mp, held) (mp', held)
  | step_put mp held1 e held2 rc mp' :
      fh_mpool_put mp e = Some (rc, mp') ->
      pool_step (mp, held1 ++ e :: held2) (mp', held1 ++ held2).

Definition chunk_of (e : Z) : Z := e - sizeof_mchunk.

(** The invariant of [pool_step]. *)
Definition pool_inv (mp : fh_mpool) (held : list Z) : Prop :=
  0 < mp.(mp_nchunks) /\ exists free, pool_wf mp free (chunk_of <$> held).

Lemma chunk_of_elem c : chunk_of (c + 8) = c.
Proof. unfold chunk_of, sizeof_mchunk. lia. Qed.

(** Every outcome of [fh_mpool_get] on a well-formed pool. *)
Lemma fh_mpool_get_cases mp arena free used :
  pool_wf mp free used -> 0 < mp.(mp_nchunks) ->
  (forall a, arena = Some a -> arena_ok mp a) ->
  (free = [] /\ fh_mpool_get arena mp = Some (NULL, mp)) \/
  (exists c free' mp', fh_mpool_get arena mp = Some (c + 8, mp') /\
     pool_wf mp' free' (c :: used) /\ mp'.(mp_flags) = mp.(mp_flags)).
Proof.
  intros Hwf Hn Ha. destruct free as [|c free].
  - destruct (flag_set mp.(mp_flags) FH_MPOOL_FL_GROW) eqn:Hg.
    + destruct arena as [a|].
      * right. destruct (fh_mpool_get_grow mp a used) as (c & f & mp' & _ & ?);
          eauto 6.
      * left. split; [done|]. eapply fh_mpool_get_empty; eauto.
    + left. split; [done|]. eapply fh_mpool_get_empty; eauto.
  - right. destruct (fh_mpool_get_free mp arena c free used Hwf) as (mp' & ?). eauto.
Qed.

(** The configuration of a pool never changes. *)
Definition same_config (mp mp' : fh_mpool) : Prop :=
  mp'.(mp_nchunks) = mp.(mp_nchunks) /\ mp'.(mp_chunksize) = mp.(mp_chunksize) /\
  mp'.(mp_flags) = mp.(mp_flags) /\ mp'.(mp_name) = mp.(mp_name).

#[export] Instance same_config_preorder : PreOrder same_config.
Proof. split; unfold same_config; [done|]. intros ??? (?&?&?&?) (?&?&?&?). repeat split; congruence. Qed.

Lemma same_config_lock mp : same_config mp (mpool_lock mp).
Proof. unfold mpool_lock. destruct (flag_set _ _); done. Qed.
Lemma same_config_unlock mp : same_config mp (mpool_unlock mp).
Proof. unfold mpool_unlock. destruct (flag_set _ _); done. Qed.
Lemma same_config_carve n a cs : forall i mp, same_config mp (mpool_carve n a cs i mp).
Proof.
  induction n as [|n IH]; intros i mp; cbn; [done|]. etransitivity; [|apply IH]. done.
Qed.
#[export] Hint Resolve same_config_lock same_config_unlock same_config_carve : pool.

Lemma same_config_grow arena mp rc mp' :
  mpool_grow arena mp = (rc, mp') -> same_config mp mp'.
Proof.
  unfold mpool_grow. destruct arena; intros [= <- <-]; [|done].
  etransitivity; [|apply same_config_carve]. done.
Qed.

Lemma same_config_take mp e mp' :
  mpool_take mp = Some (e, mp') -> same_config mp mp'.
Proof.
  unfold mpool_take. destruct (_ !! _); [|done]. intros [= _ <-].
  do 2 (etransitivity; [|apply same_config_unlock]). done.
Qed.

Lemma same_config_get arena mp e mp' :
  fh_mpool_get arena mp = Some (e, mp') -> same_config mp mp'.
Proof.
  unfold fh_mpool_get. intros H. etransitivity; [apply same_config_lock|].
  revert H. generalize (mpool_lock mp). clear mp. intros mp H.
  repeat split_match_in H; simplify_eq; eauto using same_config_take with pool.
  - etransitivity; [by eapply same_config_grow|]. auto with pool.
  - etransitivity; [by eapply same_config_grow|]. by eapply same_config_take.
Qed.

Lemma same_config_put mp e rc mp' :
  fh_mpool_put mp e = Some (rc, mp') -> same_config mp mp'.
Proof.
  unfold fh_mpool_put. destruct (e =? NULL); [done|].
  destruct (_ !! _); [|done]. intros [= _ <-].
  etransitivity; [apply same_config_lock|].
  etransitivity; [|apply same_config_unlock]. done.
Qed.

Lemma pool_step_inv s s' : pool_step s s' -> pool_inv s.1 s.2 ->
  pool_inv s'.1 s'.2 /\ same_config s.1 s'.1.
Proof.
  intros Hstep (Hn & free & Hwf). inversion Hstep; subst; cbn in *.
  - split; [|by eapply same_config_get].
    destruct (fh_mpool_get_cases _ _ _ _ Hwf Hn H) as [[_ E]|(c&f&mp''&E&Hw&_)];
      rewrite E in H0; injection H0 as <- <-; [done|].
    split; [by rewrite (proj1 (same_config_get _ _ _ _ E))|].
    exists f. by rewrite fmap_cons, chunk_of_elem.
  - split; [|by eapply same_config_get].
    destruct (fh_mpool_get_cases _ _ _ _ Hwf Hn H) as [[_ E]|(c&f&mp''&E&Hw&_)].
    + rewrite E in H0. simplify_eq. split; eauto.
    + rewrite E in H0. simplify_eq.
      pose proof (pool_used_pos _ _ _ c Hw ltac:(set_solver)). unfold NULL in *. lia.
  - split; [|by eapply same_config_put].
    rewrite fmap_app, fmap_cons in Hwf.
    destruct (fh_mpool_put_wf _ _ _ _ _ Hwf) as (mp'' & E & Hw & _).
    replace (chunk_of e + 8) with e in E by (unfold chunk_of, sizeof_mchunk; lia).
    rewrite E in H. simplify_eq.
    split; [by rewrite (proj1 (same_config_put _ _ _ _ E))|].
    eexists. by rewrite fmap_app.
Qed.

Lemma pool_steps_inv s s' : rtc pool_step s s' -> pool_inv s.1 s.2 ->
  pool_inv s'.1 s'.2 /\ same_config s.1 s'.1.
Proof.
  induction 1 as [s|s1 s2 s3 H12 _ IH]; intros Hi; [done|].
  destruct (pool_step_inv _ _ H12 Hi) as [Hi2 Hs].
  destruct (IH Hi2) as [? ?]. split; [done|]. by etransitivity.
Qed.

(** ** Properties *)

(** C25: whatever sequence of gets and puts the clients of a new pool make,
    no element is handed out twice at a time, the held elements never overlap,
    the pool's counters count exactly the held and the free chunks of its
    blocks, and neither a further get nor the put of a held element reads
    through a dangling or null header. *)
Theorem pool_runs_exclusive a name csize n flags mp0 mp held :
  0 < a -> 0 <= csize -> 0 < n -> csize + 8 < 2147483648 ->
  8 + n * (csize + 8) < 2147483648 ->
  fh_mpool_new true true (Some a) name csize n flags = Some mp0 ->
  rtc pool_step (mp0, []) (mp, held) ->
  NoDup held /\
  (forall e1 e2, e1 ∈ held -> e2 ∈ held -> e1 <> e2 -> csize + 8 <= Z.abs (e1 - e2)) /\
  mp.(mp_inuse) = Z.of_nat (length held) /\
  mp.(mp_free) + mp.(mp_inuse) = mp.(mp_nblocks) * n /\
  (forall arena, (forall b, arena = Some b -> arena_ok mp b) ->
     is_Some (fh_mpool_get arena mp)) /\
  (forall e, e ∈ held -> is_Some (fh_mpool_put mp e)).
Proof.
  intros Ha Hc Hn Hc2 Hn2 Hnew Hrun.
  destruct (fh_mpool_new_wf a name csize n flags) as (mp1 & E & Hw & _ & E2 & E3); try lia.
  rewrite E in Hnew. injection Hnew as <-.
  destruct (pool_steps_inv _ _ Hrun) as [(Hn' & free & Hwf) (S1 & S2 & _)].
  { split; [cbn; lia | eauto]. }
  cbn in *. clear Hw Hrun E.
  assert (Hin : forall e, e ∈ held -> chunk_of e ∈ free ++ (chunk_of <$> held))
    by (intros e He; apply elem_of_app; right; by apply list_elem_of_fmap_2).
  split; [|split; [|split; [|split; [|split]]]].
  - pose proof (wf_nodup _ _ _ Hwf) as (_ & _ & Hnd)%NoDup_app.
    by apply NoDup_fmap_1 in Hnd.
  - intros e1 e2 H1%Hin H2%Hin Hne.
    pose proof (pool_chunks_apart _ _ _ _ _ Hwf H1 H2) as Hap.
    unfold chunk_of, sizeof_mchunk in Hap. lia.
  - rewrite (wf_inuse _ _ _ Hwf), length_fmap. done.
  - pose proof (Permutation_length (wf_perm _ _ _ Hwf)) as Hl.
    rewrite (wf_free _ _ _ Hwf), (wf_inuse _ _ _ Hwf), (wf_nblocks _ _ _ Hwf).
    rewrite length_app, length_blocks_chunks in Hl by lia. lia.
  - intros arena Har.
    destruct (fh_mpool_get_cases _ _ _ _ Hwf Hn' Har) as [[_ ->]|(?&?&?&->&_)]; eauto.
  - intros e (l1 & l2 & ->)%list_elem_of_split. rewrite fmap_app, fmap_cons in Hwf.
    destruct (fh_mpool_put_wf _ _ _ _ _ Hwf) as (mp'' & E & _).
    replace (chunk_of e + 8) with e in E by (unfold chunk_of, sizeof_mchunk; lia). eauto.
Qed.

Definition demo_pool : fh_mpool :=
  default (MkPool "" [] 0 ∅ ∅ 0 0 0 0 0 0 0)
    (fh_mpool_new true true (Some 4096) "demo" 24 2 FH_MPOOL_FL_GROW).

(** Three gets (the third one grows the pool), then a put. *)
Lemma pool_runs_exclusive_witness :
  exists mp, rtc pool_step (demo_pool, []) (mp, [8216; 4112]) /\
    mp.(mp_inuse) = 2 /\ mp.(mp_free) + mp.(mp_inuse) = mp.(mp_nblocks) * 2.
Proof.
  assert (Hrun : exists mp, rtc pool_step (demo_pool, []) (mp, [8216; 4112])).
  { eexists. eapply rtc_l.
    { eapply (step_get _ _ None); [done | vm_compute; reflexivity | done]. }
    eapply rtc_l.
    { eapply (step_get _ _ None); [done | vm_compute; reflexivity | done]. }
    eapply rtc_l.
    { eapply (step_get _ _ (Some 8168)); [|vm_compute; reflexivity | done].
      intros a [= <-]. split; [done|]. split; [|done].
      intros b. cbn. rewrite list_elem_of_singleton. intros ->. right. vm_compute. discriminate. }
    eapply rtc_l; [|apply rtc_refl].
    eapply (step_put _ [8216; 4112] 4144 [] 0). vm_compute. reflexivity. }
  destruct Hrun as [mp Hrun]. exists mp. split; [exact Hrun|].
  destruct (pool_runs_exclusive 4096 "demo" 24 2 FH_MPOOL_FL_GROW demo_pool mp [8216; 4112])
    as (_ & _ & H1 & H2 & _); [lia | lia | lia | lia | lia | reflexivity | exact Hrun |].
  split; [exact H1 | exact H2].
Defined.

(** An element given back is the next one handed out, whatever the pool
    does with its lock, and after that the free list is what it was. *)
Theorem pool_put_get_lifo mp free used1 c used2 arena :
  pool_wf mp free (used1 ++ c :: used2) ->
  exists mp1 mp2, fh_mpool_put mp (c + 8) = Some (FH_OK, mp1) /\
    fh_mpool_get arena mp1 = Some (c + 8, mp2) /\
    mp2.(mp_mchunks) = mp.(mp_mchunks) /\ mp2.(mp_free) = mp.(mp_free) /\
    mp2.(mp_inuse) = mp.(mp_inuse) /\ pool_wf mp2 free (c :: used1 ++ used2).
Proof.
  intros Hwf. destruct (fh_mpool_put_wf _ _ _ _ _ Hwf) as (mp1 & E1 & Hw1 & _).
  destruct (fh_mpool_get_free mp1 arena _ _ _ Hw1) as (mp2 & E2 & Hw2 & _).
  exists mp1, mp2. split; [done|]. split; [done|].
  pose proof (wf_chain _ _ _ Hwf) as Hc. pose proof (wf_chain _ _ _ Hw2) as Hc2.
  split; [|split; [|split; [|done]]].
  - destruct free as [|f free]; cbn in Hc, Hc2; [congruence|].
    destruct Hc as (-> & _), Hc2 as (-> & _). done.
  - by rewrite (wf_free _ _ _ Hwf), (wf_free _ _ _ Hw2).
  - rewrite (wf_inuse _ _ _ Hwf), (wf_inuse _ _ _ Hw2). cbn.
    rewrite !length_app. cbn. lia.
Qed.

Lemma pool_put_get_lifo_witness :
  exists mp, pool_wf mp [4104] [4136] /\
    exists mp1 mp2, fh_mpool_put mp 4144 = Some (FH_OK, mp1) /\
      fh_mpool_get None mp1 = Some (4144, mp2).
Proof.
  destruct (fh_mpool_new_wf 4096 "demo" 24 2 0) as (p' & E' & Hp & _); [lia..|].
  vm_compute in E'. injection E' as <-. cbv in Hp.
  destruct (fh_mpool_get_free _ None _ _ _ Hp) as (mp & _ & Hw & _).
  exists mp. split; [exact Hw|].
  destruct (pool_put_get_lifo mp [4104] [] 4136 [] None Hw) as (m1 & m2 & E1 & E2 & _).
  exists m1, m2. split; [exact E1 | exact E2].
Defined.


Lemma mpool_carve_lock n a cs : forall i mp,
  (mpool_carve n a cs i mp).(mp_lock) = mp.(mp_lock).
Proof. induction n as [|n IH]; intros i mp; cbn; [done|]. by rewrite IH. Qed.

Lemma mpool_grow_lock arena mp rc mp' :
  mpool_grow arena mp = (rc, mp') -> mp'.(mp_lock) = mp.(mp_lock).
Proof.
  unfold mpool_grow. destruct arena; intros [= _ <-]; [|done].
  by rewrite mpool_carve_lock.
Qed.

Lemma mpool_take_lock mp e mp' :
  flag_set mp.(mp_flags) FH_MPOOL_FL_LOCK = true ->
  mpool_take mp = Some (e, mp') -> mp'.(mp_lock) = mp.(mp_lock) - 2.
Proof.
  intros Hl. unfold mpool_take. destruct (_ !! _); [|done]. intros [= _ <-].
  unfold mpool_unlock; cbn; rewrite ?Hl; cbn; rewrite ?Hl; cbn. lia.
Qed.

(** The mutex count after [fh_mpool_get], by result. *)
Lemma fh_mpool_get_lock mp arena e mp' :
  flag_set mp.(mp_flags) FH_MPOOL_FL_LOCK = true ->
  fh_mpool_get arena mp = Some (e, mp') ->
  (e = NULL /\ mp'.(mp_lock) = mp.(mp_lock)) \/ mp'.(mp_lock) = mp.(mp_lock) - 1.
Proof.
  intros Hl. unfold fh_mpool_get.
  pose proof (mpool_lock_flags mp) as Hfl.
  assert (Hd : (mpool_lock mp).(mp_lock) = mp.(mp_lock) + 1)
    by (unfold mpool_lock; rewrite Hl; done).
  assert (Hu : forall m, flag_set m.(mp_flags) FH_MPOOL_FL_LOCK = true ->
    (mpool_unlock m).(mp_lock) = m.(mp_lock) - 1)
    by (intros m Hm; unfold mpool_unlock; rewrite Hm; done).
  rewrite <- Hfl in Hl.
  revert Hl Hd. generalize (mpool_lock mp) as m. intros m Hl Hd H.
  repeat split_match_in H; simplify_eq.
  - left. split; [done|]. rewrite Hu by done. lia.
  - left. split; [done|].
    pose proof (same_config_grow _ _ _ _ E1) as (_ & _ & Hf & _).
    rewrite Hu by congruence. apply mpool_grow_lock in E1. lia.
  - right. pose proof (same_config_grow _ _ _ _ E1) as (_ & _ & Hf & _).
    apply mpool_grow_lock in E1. apply mpool_take_lock in H; [lia | congruence].
  - right. apply mpool_take_lock in H; [lia | done].
Qed.

(** On a pool with [FH_MPOOL_FL_LOCK], a call that returns an element
    releases the mutex twice (once before computing the element and again at
    [end:]), while a call that returns [NULL] and every [fh_mpool_put] are
    balanced. *)
Theorem pool_lock_balance mp free used arena e mp' :
  pool_wf mp free used -> 0 < mp.(mp_nchunks) ->
  (forall a, arena = Some a -> arena_ok mp a) ->
  flag_set mp.(mp_flags) FH_MPOOL_FL_LOCK = true ->
  fh_mpool_get arena mp = Some (e, mp') ->
  (e = NULL -> mp'.(mp_lock) = mp.(mp_lock)) /\
  (e <> NULL -> mp'.(mp_lock) = mp.(mp_lock) - 1) /\
  (e <> NULL -> exists mp'', fh_mpool_put mp' e = Some (FH_OK, mp'') /\
                  mp''.(mp_lock) = mp'.(mp_lock)).
Proof.
  intros Hwf Hn Ha Hl Hget.
  destruct (fh_mpool_get_cases _ _ _ _ Hwf Hn Ha) as [[-> E]|(c&f&m&E&Hw&Hf)];
    rewrite E in Hget; injection Hget as <- <-.
  - split; [done|]. by split.
  - pose proof (pool_used_pos _ _ _ c Hw ltac:(set_solver)) as Hc.
    assert (c + 8 <> NULL) by (unfold NULL; lia).
    split; [done|]. split; intros _.
    + apply fh_mpool_get_lock in E as [[? _]|?]; done.
    + destruct (fh_mpool_put_wf m f [] c used Hw) as (m'' & E2 & _).
      exists m''. split; [done|]. revert E2. unfold fh_mpool_put.
      destruct (c + 8 =? NULL); [done|]. destruct (_ !! _); [|done].
      intros [= <-]. rewrite <- Hf in Hl.
      unfold mpool_lock. rewrite Hl. unfold mpool_unlock; cbn. rewrite Hl. cbn. lia.
Qed.

Lemma pool_lock_balance_witness :
  exists mp mp', mp.(mp_lock) = 0 /\
    fh_mpool_get None mp = Some (4144, mp') /\ mp'.(mp_lock) = -1.
Proof.
  destruct (fh_mpool_new_wf 4096 "demo" 24 2 FH_MPOOL_FL_LOCK) as (mp & E & Hp & _); [lia..|].
  vm_compute in E. injection E as <-. cbv in Hp.
  destruct (fh_mpool_get_free _ None _ _ _ Hp) as (mp' & E & _).
  eexists _, mp'. split; [|split; [exact E|]]; [reflexivity|].
  destruct (pool_lock_balance _ _ _ None _ mp' Hp ltac:(done) ltac:(done) ltac:(done) E)
    as (_ & H & _).
  apply H. discriminate.
Defined.
