(* ===== verification/GapFill.v ===== *)
(** * Gap list ([src/feeds/shared/gap_mgmt/fh_shr_gap_fill.h], [.c])

    The doubly linked list of sequence gaps of a feed, modelled on the memory
    its nodes live in: [nodes] maps the addresses of the pool's elements to
    node structs, and every assignment through a pointer is an update of that
    map.  [time(NULL)] is the argument [now]. *)
From S2P Require Import Prelude Mpool.

(** [struct fh_shr_gap_fill_node] *)
Record gap_node := MkNode {
  g_seq_no : Z;       (* uint64_t *)
  g_size : Z;         (* uint32_t *)
  g_timestamp : Z;    (* time_t *)
  g_next : Z;
  g_prev : Z;
  g_list : Z
}.

Definition set_seq_no v (n : gap_node) :=
  MkNode v n.(g_size) n.(g_timestamp) n.(g_next) n.(g_prev) n.(g_list).
Definition set_size v (n : gap_node) :=
  MkNode n.(g_seq_no) v n.(g_timestamp) n.(g_next) n.(g_prev) n.(g_list).
Definition set_next v (n : gap_node) :=
  MkNode n.(g_seq_no) n.(g_size) n.(g_timestamp) v n.(g_prev) n.(g_list).
Definition set_prev v (n : gap_node) :=
  MkNode n.(g_seq_no) n.(g_size) n.(g_timestamp) n.(g_next) v n.(g_list).

(** [struct fh_shr_gap_fill_list], with its own address and the memory of its
    nodes. [gl_data] is [None] when [fh_mpool_new] returned [NULL], which
    [fh_shr_gap_fill_new] does not check. *)
Record gap_list := MkGapList {
  gl_addr : Z;
  gl_count : Z;
  gl_max : Z;
  gl_timeout : Z;
  gl_head : Z;
  gl_tail : Z;
  gl_data : option fh_mpool;
  gl_nodes : gmap Z gap_node
}.

Definition set_count v l := MkGapList l.(gl_addr) v l.(gl_max) l.(gl_timeout)
  l.(gl_head) l.(gl_tail) l.(gl_data) l.(gl_nodes).
Definition set_head v l := MkGapList l.(gl_addr) l.(gl_count) l.(gl_max)
  l.(gl_timeout) v l.(gl_tail) l.(gl_data) l.(gl_nodes).
Definition set_tail v l := MkGapList l.(gl_addr) l.(gl_count) l.(gl_max)
  l.(gl_timeout) l.(gl_head) v l.(gl_data) l.(gl_nodes).
Definition set_data v l := MkGapList l.(gl_addr) l.(gl_count) l.(gl_max)
  l.(gl_timeout) l.(gl_head) l.(gl_tail) (Some v) l.(gl_nodes).
Definition set_nodes v l := MkGapList l.(gl_addr) l.(gl_count) l.(gl_max)
  l.(gl_timeout) l.(gl_head) l.(gl_tail) l.(gl_data) v.

(** [p->...]: reading and writing through a node pointer. *)
Definition deref (l : gap_list) (p : Z) : option gap_node :=
  if p =? NULL then None else l.(gl_nodes) !! p.
Definition upd (p : Z) (f : gap_node -> gap_node) (l : gap_list)
    : option gap_list :=
  n ← deref l p; Some (set_nodes (<[p := f n]> l.(gl_nodes)) l).
(** All the fields of a fresh element are assigned before one is read. *)
Definition put_node (p : Z) (n : gap_node) (l : gap_list) : gap_list :=
  set_nodes (<[p := n]> l.(gl_nodes)) l.

Definition sizeof_gap_node : Z := 48.

(** [mem_list] is the address [malloc] gives to the list header. *)
Definition fh_shr_gap_fill_new (mem_list : option Z) (mem_mp mem_name : bool)
    (arena : option Z) (max timeout : Z) : option gap_list :=
  addr ← mem_list;
  Some (MkGapList addr 0 max timeout NULL NULL
    (fh_mpool_new mem_mp mem_name arena "gap_list" sizeof_gap_node max 0) ∅).

(** The end of [fh_shr_gap_fill_push]: fill the node in, append it. *)
Definition gap_push_tail (now : Z) (list : gap_list) (node seq_no size rc : Z)
    : option (Z * gap_list) :=
  if node =? NULL then None
  else
    let list := put_node node
      (MkNode seq_no size now NULL list.(gl_tail) list.(gl_addr)) list in
    if list.(gl_tail) =? NULL then
      Some (rc, set_head node (set_tail node list))
    else
      list ← upd list.(gl_tail) (set_next node) list;
      Some (rc, set_tail node list).

Definition fh_shr_gap_fill_push (now : Z) (list : gap_list) (seq_no size : Z)
    : option (Z * gap_list) :=
  if list.(gl_max) <? u32 (list.(gl_count) + 1) then
    let node := list.(gl_head) in
    n ← deref list node;
    gap_push_tail now (set_head n.(g_next) list) node seq_no size
      (s32 n.(g_size))
  else
    mp ← list.(gl_data);
    '(node, mp) ← fh_mpool_get None mp;
    let list := set_data mp list in
    if node =? NULL then Some (-1, list)
    else
      gap_push_tail now (set_count (u32 (list.(gl_count) + 1)) list)
        node seq_no size 0.

(** [seq_no >= curr->seq_no && seq_no < curr->seq_no + curr->size] *)
Definition in_gap (n : gap_node) (seq_no : Z) : bool :=
  (n.(g_seq_no) <=? seq_no) && (seq_no <? u64 (n.(g_seq_no) + n.(g_size))).

(** The [while] of [fh_shr_gap_fill_find]; the result is a node pointer. *)
Fixpoint gap_find_from (fuel : nat) (list : gap_list) (curr seq_no : Z)
    : option Z :=
  match fuel with
  | O => None
  | S fuel =>
      if curr =? NULL then Some NULL
      else
        n ← deref list curr;
        if in_gap n seq_no then Some curr
        else gap_find_from fuel list n.(g_next) seq_no
  end.

(** The nodes of the list are distinct addresses of [gl_nodes]. *)
Definition gap_fuel (list : gap_list) : nat := S (size list.(gl_nodes)).

Definition fh_shr_gap_fill_find (list : gap_list) (seq_no : Z) : option Z :=
  gap_find_from (gap_fuel list) list list.(gl_head) seq_no.

(** The four ways the end of [fh_shr_gap_fill_del] unlinks an empty node. *)
Definition gap_unlink (list : gap_list) (curr : Z) (c : gap_node) : option gap_list :=
  if list.(gl_head) =? list.(gl_tail) then
    Some (set_tail NULL (set_head NULL list))
  else if curr =? list.(gl_head) then
    h ← deref list list.(gl_head);
    upd h.(g_next) (set_prev NULL) (set_head h.(g_next) list)
  else if curr =? list.(gl_tail) then
    t ← deref list list.(gl_tail);
    upd t.(g_prev) (set_next NULL) (set_tail t.(g_prev) list)
  else
    list ← upd c.(g_prev) (set_next c.(g_next)) list;
    upd c.(g_next) (set_prev c.(g_prev)) list.

(** The end of [fh_shr_gap_fill_del]: unlink [curr] if it is now empty.  The
    result is [rc], the node the caller is left with, and the list. *)
Definition gap_del_finish (list : gap_list) (curr node rc : Z)
    : option (Z * Z * gap_list) :=
  c ← deref list curr;
  if negb (c.(g_size) =? 0) then Some (rc, node, list)
  else
    list ← gap_unlink list curr c;
    mp ← list.(gl_data);
    '(_, mp) ← fh_mpool_put mp curr;
    Some (rc, NULL, set_count (u32 (list.(gl_count) - 1)) (set_data mp list)).

(** Both ways of splitting a node make [curr] point to the new node, and the
    tail pointer or the new node's successor as well. *)
Definition gap_link_after (list : gap_list) (curr new_node : Z) : option gap_list :=
  list ← upd curr (set_next new_node) list;
  if curr =? list.(gl_tail) then Some (set_tail new_node list)
  else n ← deref list new_node; upd n.(g_next) (set_prev new_node) list.

(** Full list, [curr] not its head: the head becomes the upper half of
    [curr]'s range. *)
Definition gap_del_repurpose (list : gap_list) (curr seq_no : Z)
    : option (Z * Z * gap_list) :=
  let new_node := list.(gl_head) in
  h ← deref list new_node;
  let list := set_head h.(g_next) list in
  list ← upd list.(gl_head) (set_prev NULL) list;
  c ← deref list curr;
  list ← upd new_node (fun n => set_prev curr (set_next c.(g_next) n)) list;
  list ← gap_link_after list curr new_node;
  c ← deref list curr;
  let rc := s32 c.(g_size) in
  let nsize := u32 (u64 (u64 (c.(g_size) - u64 (seq_no - c.(g_seq_no))) - 1)) in
  list ← upd new_node (fun n => set_size nsize (set_seq_no (u64 (seq_no + 1)) n)) list;
  list ← upd curr (set_size (u32 (c.(g_size) - u32 (nsize + 1)))) list;
  gap_del_finish list curr new_node rc.

(** Room in the list: the upper half gets a node from the pool. *)
Definition gap_del_split (list : gap_list) (curr seq_no : Z)
    : option (Z * Z * gap_list) :=
  mp ← list.(gl_data);
  '(new_node, mp) ← fh_mpool_get None mp;
  let list := set_data mp list in
  if new_node =? NULL then Some (-1, curr, list)
  else
    c ← deref list curr;
    let nsize := u32 (u64 (u64 (c.(g_size) - u64 (seq_no - c.(g_seq_no))) - 1)) in
    let list := put_node new_node
      (MkNode (u64 (seq_no + 1)) nsize c.(g_timestamp) c.(g_next) curr
         list.(gl_addr)) list in
    list ← gap_link_after list curr new_node;
    let list := set_count (u32 (list.(gl_count) + 1)) list in
    list ← upd curr (set_size (u32 (c.(g_size) - u32 (nsize + 1)))) list;
    gap_del_finish list curr new_node 0.

Definition fh_shr_gap_fill_del (list : gap_list) (node seq_no : Z)
    : option (Z * Z * gap_list) :=
  let curr := node in
  c ← deref list curr;
  if negb (c.(g_list) =? list.(gl_addr)) then None
  else if c.(g_seq_no) =? seq_no then
    list ← upd curr (fun n => set_size (u32 (n.(g_size) - 1))
                       (set_seq_no (u64 (n.(g_seq_no) + 1)) n)) list;
    gap_del_finish list curr node 0
  else if u64 (c.(g_seq_no) + c.(g_size) - 1) =? seq_no then
    list ← upd curr (fun n => set_size (u32 (n.(g_size) - 1)) n) list;
    gap_del_finish list curr node 0
  else if (c.(g_seq_no) <? seq_no) &&
          (seq_no <? u64 (c.(g_seq_no) + c.(g_size) - 1)) then
    if list.(gl_max) <=? list.(gl_count) then
      if curr =? list.(gl_head) then
        let rc := s32 (u64 (seq_no - c.(g_seq_no))) in
        list ← upd curr (fun n => set_seq_no (u64 (seq_no + 1))
                           (set_size (u32 (n.(g_size) - u32 (rc + 1))) n)) list;
        gap_del_finish list curr node rc
      else gap_del_repurpose list curr seq_no
    else gap_del_split list curr seq_no
  else gap_del_finish list curr node 0.

(** The [while] of [fh_shr_gap_fill_flush]. The head goes back to the pool
    before its [next] is read; the pool only writes the chunk header. *)
Fixpoint gap_flush_loop (fuel : nat) (limit lost : Z) (list : gap_list)
    : option (Z * gap_list) :=
  match fuel with
  | O => None
  | S fuel =>
      if list.(gl_head) =? NULL then Some (lost, list)
      else
        h ← deref list list.(gl_head);
        if limit <=? h.(g_timestamp) then Some (lost, list)
        else
          let lost := s32 (lost + h.(g_size)) in
          mp ← list.(gl_data);
          '(_, mp) ← fh_mpool_put mp list.(gl_head);
          let list := set_head h.(g_next) (set_data mp list) in
          list ← (if list.(gl_head) =? NULL then Some (set_tail NULL list)
                  else upd list.(gl_head) (set_prev NULL) list);
          gap_flush_loop fuel limit lost
            (set_count (u32 (list.(gl_count) - 1)) list)
  end.

Definition fh_shr_gap_fill_flush (now : Z) (list : gap_list)
    : option (Z * gap_list) :=
  let limit := s64 (now - list.(gl_timeout)) in
  gap_flush_loop (gap_fuel list) limit 0 list.

(** ** Specification: a list of gaps *)

Record gap := MkGap { gp_seq : Z; gp_size : Z; gp_ts : Z }.

Definition gap_of (n : gap_node) : gap := MkGap n.(g_seq_no) n.(g_size) n.(g_timestamp).

(** [missing gs n]: sequence number [n] is in one of the gaps. *)
Definition gap_has (g : gap) (n : Z) : Prop := g.(gp_seq) <= n < g.(gp_seq) + g.(gp_size).
Definition missing (gs : list gap) (n : Z) : Prop := exists g, g ∈ gs /\ gap_has g n.

(** Gaps whose numbers do not wrap around. *)
Definition gap_ok (g : gap) : Prop :=
  0 <= g.(gp_seq) /\ 0 < g.(gp_size) < 2147483648 /\
  g.(gp_seq) + g.(gp_size) < 18446744073709551616.

(** ** Segments of the list in memory

    [dseg nodes addr pr p es q last]: the nodes of [es] (address and gap), in
    order, start at [p] and end with the pointer [q]; every node but the first
    points back to its predecessor, the first to [x] if [pr] is [Some x]. *)
Fixpoint dseg (nodes : gmap Z gap_node) (addr : Z) (pr : option Z) (p : Z)
    (es : list (Z * gap)) (q : Z) (last : option Z) : Prop :=
  match es with
  | [] => p = q /\ last = pr
  | (a, g) :: es' =>
      p = a /\ a <> NULL /\
      exists n, nodes !! a = Some n /\ gap_of n = g /\ n.(g_list) = addr /\
        (forall x, pr = Some x -> n.(g_prev) = x) /\
        dseg nodes addr (Some a) n.(g_next) es' q last
  end.

Lemma dseg_ext nodes nodes' addr es : forall pr p q last,
  (forall a, a ∈ es.*1 -> nodes' !! a = nodes !! a) ->
  dseg nodes addr pr p es q last -> dseg nodes' addr pr p es q last.
Proof.
  induction es as [|[a g] es IH]; intros pr p q last Hext; [done|]. cbn.
  intros (-> & Hn & n & Hl & Hg & Ha & Hp & Hs). split; [done|]. split; [done|].
  exists n. rewrite Hext by set_solver. repeat (split; [done|]).
  apply IH; [set_solver | done].
Qed.

Lemma dseg_insert nodes addr a n es pr p q last :
  a ∉ es.*1 -> dseg nodes addr pr p es q last ->
  dseg (<[a:=n]> nodes) addr pr p es q last.
Proof.
  intros Hni. apply dseg_ext. intros b Hb. apply lookup_insert_ne. set_solver.
Qed.

Lemma dseg_app nodes addr es1 es2 : forall pr p q last,
  dseg nodes addr pr p (es1 ++ es2) q last <->
  exists m mid, dseg nodes addr pr p es1 m mid /\ dseg nodes addr mid m es2 q last.
Proof.
  induction es1 as [|[a g] es1 IH]; intros pr p q last; cbn.
  - split; [eauto 6|]. intros (m & mid & [-> ->] & H). done.
  - split.
    + intros (-> & Hn & n & Hl & Hg & Ha & Hp & (m & mid & H1 & H2)%IH).
      exists m, mid. split; [|done]. eauto 10.
    + intros (m & mid & (-> & Hn & n & Hl & Hg & Ha & Hp & H1) & H2).
      split; [done|]. split; [done|]. exists n. repeat (split; [done|]).
      apply IH. eauto.
Qed.

(** The predecessor requirement can be dropped for the head of the list. *)
Lemma dseg_weaken nodes addr pr p es q last :
  dseg nodes addr pr p es q last ->
  es <> [] -> dseg nodes addr None p es q last.
Proof.
  destruct es as [|[a g] es]; cbn; [done|].
  intros (-> & Hn & n & Hl & Hg & Ha & _ & H) _. split; [done|]. split; [done|].
  exists n. done.
Qed.

Lemma dseg_last nodes addr es a g : forall pr p q last,
  dseg nodes addr pr p (es ++ [(a, g)]) q last -> last = Some a.
Proof.
  intros pr p q last (m & mid & _ & H)%dseg_app. cbn in H.
  by destruct H as (_ & _ & n & _ & _ & _ & _ & _ & ->).
Qed.

Lemma dseg_start nodes addr pr p a g es q last :
  dseg nodes addr pr p ((a, g) :: es) q last -> p = a /\ a <> NULL.
Proof. intros (-> & Hn & _). done. Qed.

Lemma dseg_nonnull nodes addr es : forall pr p q last a,
  dseg nodes addr pr p es q last -> a ∈ es.*1 -> a <> NULL.
Proof.
  induction es as [|[b g] es IH]; intros pr p q last a; cbn; [set_solver|].
  intros (-> & Hn & n & _ & _ & _ & _ & H) [->|Ha]%elem_of_cons; eauto.
Qed.

Lemma deref_lookup l p n :
  p <> NULL -> l.(gl_nodes) !! p = Some n -> deref l p = Some n.
Proof. intros Hp Hl. unfold deref. destruct (p =? NULL) eqn:E; [bool_to_prop; done|done]. Qed.

Lemma upd_lookup l p f n :
  p <> NULL -> l.(gl_nodes) !! p = Some n ->
  upd p f l = Some (set_nodes (<[p := f n]> l.(gl_nodes)) l).
Proof. intros Hp Hl. unfold upd. by rewrite (deref_lookup _ _ n). Qed.

(** ** Representation

    [gap_repr l es]: [l] is a correct list of the nodes [es], backed by its
    pool: [count] is right, the pool has handed out exactly the nodes of the
    list, and it has the nodes the list may still grow by. *)
Record gap_repr (l : gap_list) (es : list (Z * gap)) : Prop := {
  gr_seg : exists last, dseg l.(gl_nodes) l.(gl_addr) None l.(gl_head) es NULL last /\
    l.(gl_tail) = default NULL last;
  gr_pool : exists mp free, l.(gl_data) = Some mp /\ 0 < mp.(mp_nchunks) /\
    flag_set mp.(mp_flags) FH_MPOOL_FL_GROW = false /\
    pool_wf mp free (chunk_of <$> es.*1) /\
    Z.of_nat (length free + length es) = l.(gl_max);
  gr_count : l.(gl_count) = Z.of_nat (length es);
  gr_max : 0 < l.(gl_max) < 4294967295
}.

Lemma gap_repr_nodup l es : gap_repr l es -> NoDup es.*1.
Proof.
  intros [_ (mp & free & _ & _ & _ & Hwf & _) _ _].
  pose proof (wf_nodup _ _ _ Hwf) as (_ & _ & Hnd)%NoDup_app.
  by apply NoDup_fmap_1 in Hnd.
Qed.

Lemma gap_repr_len l es : gap_repr l es -> Z.of_nat (length es) <= l.(gl_max).
Proof. intros [_ (mp & free & _ & _ & _ & _ & Hl) _ _]. lia. Qed.

(** ** Locating a gap *)

Definition gap_in (seq : Z) (e : Z * gap) : bool :=
  (e.2.(gp_seq) <=? seq) && (seq <? u64 (e.2.(gp_seq) + e.2.(gp_size))).

Definition spec_find (seq : Z) (es : list (Z * gap)) : Z :=
  match List.find (gap_in seq) es with Some e => e.1 | None => NULL end.

Lemma dseg_size nodes addr es pr p q last :
  dseg nodes addr pr p es q last -> NoDup es.*1 ->
  (length es <= size nodes)%nat.
Proof.
  intros Hs Hnd. rewrite <- (size_dom nodes), <- (length_fmap fst es).
  rewrite <- (size_list_to_set (C := gset Z)) by done.
  apply subseteq_size. intros a Ha%elem_of_list_to_set. clear Hnd.
  revert pr p Hs. induction es as [|[b g] es IH]; intros pr p Hs; [set_solver|].
  destruct Hs as (-> & _ & n & Hl & _ & _ & _ & Hs).
  cbn in Ha. apply elem_of_cons in Ha as [->|Ha]; [|eauto].
  apply elem_of_dom. eauto.
Qed.

Lemma gap_find_from_dseg list seq es : forall fuel pr p last,
  (length es < fuel)%nat ->
  dseg list.(gl_nodes) list.(gl_addr) pr p es NULL last ->
  gap_find_from fuel list p seq = Some (spec_find seq es).
Proof.
  induction es as [|[a g] es IH]; intros [|fuel] pr p last Hf Hs; cbn in Hf; try lia.
  - destruct Hs as [-> _]. done.
  - destruct Hs as (-> & Hn & n & Hl & Hg & _ & _ & Hs). cbn.
    destruct (a =? NULL) eqn:E; [bool_to_prop; done|].
    rewrite (deref_lookup _ _ n) by done. cbn.
    unfold spec_find; cbn [List.find]. unfold gap_in at 1, in_gap; cbn. rewrite <- Hg; cbn.
    destruct (_ && _); [done|]. apply IH with (pr := Some a) (last := last); [lia | done].
Qed.

Lemma gap_find_repr l es seq :
  gap_repr l es -> fh_shr_gap_fill_find l seq = Some (spec_find seq es).
Proof.
  intros Hr. pose proof (gap_repr_nodup _ _ Hr) as Hnd.
  destruct (gr_seg _ _ Hr) as (last & Hs & _).
  pose proof (dseg_size _ _ _ _ _ _ _ Hs Hnd).
  eapply gap_find_from_dseg; [|done]. unfold gap_fuel. lia.
Qed.

(** ** Adding a gap *)

(** Opening a segment at one of its nodes, and closing it again. *)
Lemma dseg_focus nodes addr pr p l1 a g l2 q last :
  dseg nodes addr pr p (l1 ++ (a, g) :: l2) q last <->
  exists n mid, nodes !! a = Some n /\ a <> NULL /\ gap_of n = g /\
    n.(g_list) = addr /\ (forall x, mid = Some x -> n.(g_prev) = x) /\
    dseg nodes addr pr p l1 a mid /\ dseg nodes addr (Some a) n.(g_next) l2 q last.
Proof.
  rewrite dseg_app. cbn. split.
  - intros (m & mid & H1 & -> & Hn & n & Hl & Hg & Ha & Hp & H2). eauto 15.
  - intros (n & mid & Hl & Hn & Hg & Ha & Hp & H1 & H2). exists a, mid.
    split; [done|]. split; [done|]. split; [done|]. eauto 10.
Qed.

(** The whole-list form: rewriting node [a] of the list. *)
Lemma dseg_update nodes addr pr p l1 a g l2 q last n n' :
  dseg nodes addr pr p (l1 ++ (a, g) :: l2) q last ->
  NoDup (l1 ++ (a, g) :: l2).*1 -> nodes !! a = Some n ->
  n'.(g_list) = n.(g_list) -> n'.(g_prev) = n.(g_prev) -> n'.(g_next) = n.(g_next) ->
  dseg (<[a:=n']> nodes) addr pr p (l1 ++ (a, gap_of n') :: l2) q last.
Proof.
  intros (m & mid & Hl & Hn & _ & Ha & Hp & H1 & H2)%dseg_focus Hnd Hl' E1 E2 E3.
  assert (m = n) as -> by congruence. rewrite fmap_app in Hnd.
  apply NoDup_app in Hnd as (_ & Hd & [Hni _]%NoDup_cons). cbn in Hd, Hni.
  apply dseg_focus. exists n', mid. rewrite lookup_insert_eq, E1, E2, E3.
  repeat (split; [done|]).
  split; apply dseg_insert; try done. intros Hin. apply (Hd a Hin). set_solver.
Qed.

(** Relinking the last node of a segment. *)
Lemma dseg_relink nodes addr pr p es t gt q last q' :
  dseg nodes addr pr p (es ++ [(t, gt)]) q last -> NoDup (es ++ [(t, gt)]).*1 ->
  exists n, nodes !! t = Some n /\ t <> NULL /\ n.(g_next) = q /\
    dseg (<[t := set_next q' n]> nodes) addr pr p (es ++ [(t, gt)]) q' (Some t).
Proof.
  intros (n & mid & Hl & Hn & Hg & Ha & Hp & H1 & [Hq _])%dseg_focus Hnd.
  rewrite fmap_app in Hnd. apply NoDup_app in Hnd as (_ & Hd & _).
  exists n. repeat (split; [done|]). apply dseg_focus.
  exists (set_next q' n), mid. rewrite lookup_insert_eq. repeat (split; [done|]).
  split; [|done]. apply dseg_insert; [|done]. intros Hin. apply (Hd t Hin). set_solver.
Qed.

(** Changing what the first node of a segment points back to. *)
Lemma dseg_reprev nodes addr pr a g es q last x :
  dseg nodes addr pr a ((a, g) :: es) q last -> NoDup ((a, g) :: es).*1 ->
  exists n, nodes !! a = Some n /\ a <> NULL /\
    dseg (<[a := set_prev x n]> nodes) addr (Some x) a ((a, g) :: es) q last.
Proof.
  intros (_ & Hn & n & Hl & Hg & Ha & Hp & Hs) [Hni _]%NoDup_cons.
  exists n. split; [done|]. split; [done|]. cbn. split; [done|]. split; [done|].
  exists (set_prev x n). rewrite lookup_insert_eq. repeat (split; [done|]).
  split; [by intros ? [= ->]|]. by apply dseg_insert.
Qed.

Lemma gap_push_tail_dseg now l node seq size rc es last :
  dseg l.(gl_nodes) l.(gl_addr) None l.(gl_head) es NULL last ->
  l.(gl_tail) = default NULL last -> node <> NULL -> node ∉ es.*1 -> NoDup es.*1 ->
  exists l', gap_push_tail now l node seq size rc = Some (rc, l') /\
    dseg l'.(gl_nodes) l'.(gl_addr) None l'.(gl_head)
      (es ++ [(node, MkGap seq size now)]) NULL (Some node) /\
    l'.(gl_tail) = node /\ l'.(gl_addr) = l.(gl_addr) /\
    l'.(gl_count) = l.(gl_count) /\ l'.(gl_max) = l.(gl_max) /\
    l'.(gl_timeout) = l.(gl_timeout) /\ l'.(gl_data) = l.(gl_data).
Proof.
  intros Hs Ht Hn Hni Hnd. unfold gap_push_tail.
  destruct (node =? NULL) eqn:E; [bool_to_prop; done|]. clear E.
  destruct es as [|[t gt] es _] using rev_ind.
  - destruct Hs as [Hh ->]. cbn in Ht. cbn. rewrite Ht. cbn.
    eexists. split; [done|]. split; [|done]. cbn. split; [done|]. split; [done|].
    eexists. split; [apply lookup_insert_eq|]. done.
  - pose proof (dseg_last _ _ _ _ _ _ _ _ _ Hs) as ->. cbn in Ht.
    apply (dseg_insert _ _ node (MkNode seq size now NULL t l.(gl_addr))) in Hs; [|done].
    destruct (dseg_relink _ _ _ _ _ _ _ _ _ node Hs Hnd) as (n & Hl & Htn & _ & Hs').
    subst t. cbn. destruct (l.(gl_tail) =? NULL) eqn:E; [bool_to_prop; done|]. clear E.
    rewrite (upd_lookup _ _ _ n) by done. cbn.
    eexists. split; [done|]. split; [|done]. cbn.
    apply dseg_app. exists node, (Some l.(gl_tail)). split; [exact Hs'|].
    split; [done|]. split; [done|]. eexists.
    assert (l.(gl_tail) <> node)
      by (intros <-; apply Hni; rewrite fmap_app; apply elem_of_app; right; by left).
    rewrite lookup_insert_ne, lookup_insert_eq by done.
    repeat (split; [done|]). split; [by intros ? [= ->] | done].
Qed.

Lemma chunk_of_fmap_snoc (es : list (Z * gap)) a g :
  chunk_of <$> (es ++ [(a, g)]).*1 ≡ₚ chunk_of a :: (chunk_of <$> es.*1).
Proof. rewrite !fmap_app. cbn. rewrite <- Permutation_cons_append. done. Qed.

(** With room in the list, the pool has a node the list does not use. *)
Lemma gap_repr_get l es :
  gap_repr l es -> Z.of_nat (length es) < l.(gl_max) ->
  exists mp b mp' free', l.(gl_data) = Some mp /\
    fh_mpool_get None mp = Some (b, mp') /\ b <> NULL /\ b ∉ es.*1 /\
    0 < mp'.(mp_nchunks) /\ flag_set mp'.(mp_flags) FH_MPOOL_FL_GROW = false /\
    pool_wf mp' free' (chunk_of b :: (chunk_of <$> es.*1)) /\
    Z.of_nat (length free') + Z.of_nat (length es) + 1 = l.(gl_max).
Proof.
  intros [_ (mp & free & Hd & Hnc & Hg & Hwf & Hlen) Hc Hmx] Hroom.
  destruct free as [|c free]; [cbn in Hlen; lia|].
  destruct (fh_mpool_get_free mp None c free _ Hwf) as (mp' & Hget & Hwf' & Hfl).
  assert (Hpos : 8 <= c) by (eapply pool_used_pos; [exact Hwf|]; set_solver).
  exists mp, (c + 8), mp', free. split; [done|]. split; [done|].
  split; [unfold NULL; lia|]. split.
  { intros Hin. pose proof (wf_nodup _ _ _ Hwf) as [Hni _]%NoDup_cons.
    apply Hni, elem_of_app. right. rewrite <- (chunk_of_elem c).
    by apply list_elem_of_fmap_2. }
  rewrite (proj1 (same_config_get _ _ _ _ Hget)), Hfl, chunk_of_elem.
  cbn in Hlen. repeat (split; [done|]). lia.
Qed.

(** Room in the list: the gap gets a node from the pool. *)
Lemma gap_push_room now l es seq size :
  gap_repr l es -> Z.of_nat (length es) < l.(gl_max) ->
  exists node l', fh_shr_gap_fill_push now l seq size = Some (0, l') /\
    node ∉ es.*1 /\ gap_repr l' (es ++ [(node, MkGap seq size now)]) /\
    l'.(gl_max) = l.(gl_max) /\ l'.(gl_timeout) = l.(gl_timeout).
Proof.
  intros Hr Hroom. pose proof (gap_repr_nodup _ _ Hr) as Hnd.
  destruct (gap_repr_get _ _ Hr Hroom)
    as (mp & b & mp' & free & Hd & Hget & Hbn & Hni & Hnc & Hfl & Hwf & Hlen).
  destruct Hr as [(last & Hs & Ht) _ Hc Hmx].
  unfold fh_shr_gap_fill_push. rewrite Hc, u32_small, Hd by lia.
  replace (l.(gl_max) <? Z.of_nat (length es) + 1) with false by lia. cbn.
  rewrite Hget. cbn. rewrite (eqb_false_of_ne b NULL) by done.
  rewrite ?u32_small by lia. set (l1 := set_count _ _).
  destruct (gap_push_tail_dseg now l1 b seq size 0 es last)
    as (l' & Hp & Hs' & Ht' & Ha' & Hc' & Hm' & Hto' & Hd'); try done.
  exists b, l'. split; [done|]. split; [done|]. split; [|done].
  constructor.
  - eauto.
  - exists mp', free. rewrite Hd', Hm'. repeat (split; [done|]).
    split; [|rewrite length_app; cbn in *; lia].
    eapply pool_wf_perm; [|exact Hwf]. by rewrite chunk_of_fmap_snoc.
  - rewrite Hc', length_app. cbn. lia.
  - by rewrite Hm'.
Qed.

(** Dropping the head of a list of at least two nodes. *)
Lemma dseg_drop_head nodes addr p a g b h es q last :
  dseg nodes addr None p ((a, g) :: (b, h) :: es) q last ->
  exists n, nodes !! a = Some n /\ p = a /\ a <> NULL /\ n.(g_next) = b /\ gap_of n = g /\
    dseg nodes addr (Some a) b ((b, h) :: es) q last /\
    dseg nodes addr None b ((b, h) :: es) q last.
Proof.
  intros (-> & Hn & n & Hl & Hg & Ha & Hp & Hs). exists n.
  pose proof (dseg_start _ _ _ _ _ _ _ _ _ Hs) as [Hb _]. rewrite Hb in Hs.
  do 5 (split; [done|]). split; [done|]. by eapply dseg_weaken.
Qed.

(** Full list of at least two gaps: the head's gap is lost, its node reused. *)
Lemma gap_push_full now l a g es seq size :
  gap_repr l ((a, g) :: es) -> es <> [] ->
  Z.of_nat (length ((a, g) :: es)) = l.(gl_max) ->
  exists l', fh_shr_gap_fill_push now l seq size = Some (s32 g.(gp_size), l') /\
    gap_repr l' (es ++ [(a, MkGap seq size now)]) /\
    l'.(gl_max) = l.(gl_max) /\ l'.(gl_timeout) = l.(gl_timeout).
Proof.
  intros Hr Hne Hfull. pose proof (gap_repr_nodup _ _ Hr) as Hnd.
  destruct Hr as [(last & Hs & Ht) (mp & free & Hd & Hnc & Hg & Hwf & Hlen) Hc Hmx].
  unfold fh_shr_gap_fill_push. rewrite Hc, Hfull, u32_small by lia.
  replace (l.(gl_max) <? l.(gl_max) + 1) with true by lia.
  destruct es as [|[b h] es]; [done|].
  destruct (dseg_drop_head _ _ _ _ _ _ _ _ _ _ Hs) as (n & Hl & Hh & Hn & Hnx & Hgn & _ & Hs2).
  rewrite Hh, (deref_lookup _ _ n) by done. cbn [mbind option_bind]. rewrite Hnx.
  cbn in Hnd. apply NoDup_cons in Hnd as [Hni Hnd].
  destruct (gap_push_tail_dseg now (set_head b l) a seq size (s32 (g_size n)) ((b, h) :: es) last)
    as (l' & Hp & Hs' & Ht' & Ha' & Hc' & Hm' & Hto' & Hd'); try done.
  exists l'. rewrite <- Hgn. split; [exact Hp|]. split; [|done].
  constructor.
  - eauto.
  - exists mp, free. rewrite Hd', Hm'. repeat (split; [done|]).
    split; [|rewrite length_app; cbn in *; lia].
    eapply pool_wf_perm; [|exact Hwf]. by rewrite chunk_of_fmap_snoc.
  - rewrite Hc', length_app. cbn in *. lia.
  - by rewrite Hm'.
Qed.

(** ** Removing a node *)

(** [l'] has the same configuration, count and pool as [l]. *)
Definition same_frame (l l' : gap_list) : Prop :=
  l'.(gl_addr) = l.(gl_addr) /\ l'.(gl_count) = l.(gl_count) /\
  l'.(gl_max) = l.(gl_max) /\ l'.(gl_timeout) = l.(gl_timeout) /\
  l'.(gl_data) = l.(gl_data).

Lemma nodup_fst_app (l1 l2 : list (Z * gap)) a g :
  NoDup (l1 ++ (a, g) :: l2).*1 ->
  a ∉ l1.*1 /\ a ∉ l2.*1 /\ NoDup l1.*1 /\ NoDup l2.*1 /\
  (forall b, b ∈ l1.*1 -> b ∉ l2.*1).
Proof.
  rewrite fmap_app. intros (H1 & H2 & [H3 H4]%NoDup_cons)%NoDup_app.
  repeat split; try done.
  - intros Ha. apply (H2 a Ha). by left.
  - intros b Hb Hb2. apply (H2 b Hb). by right.
Qed.

Lemma dseg_last_in nodes addr pr p es q last :
  dseg nodes addr pr p es q last -> es <> [] -> exists b, last = Some b /\ b ∈ es.*1.
Proof.
  destruct es as [|[b g] es _] using rev_ind; [done|].
  intros ->%dseg_last _. exists b. split; [done|]. rewrite fmap_app. set_solver.
Qed.

Lemma dseg_head_in nodes addr pr p es q last :
  dseg nodes addr pr p es q last -> es <> [] -> p ∈ es.*1.
Proof. destruct es as [|[b g] es]; [done|]. intros (-> & _) _. by left. Qed.

(** The post-state of an unlinking that leaves the nodes [es]. *)
Definition unlinked (l : gap_list) (es : list (Z * gap)) (r : option gap_list) : Prop :=
  exists l' last', r = Some l' /\ same_frame l l' /\
    dseg l'.(gl_nodes) l'.(gl_addr) None l'.(gl_head) es NULL last' /\
    l'.(gl_tail) = default NULL last'.

Section unlink.
Context (l : gap_list) (l1 l2 : list (Z * gap)) (c : Z) (g : gap) (n : gap_node)
  (last : option Z).
Hypothesis Hs : dseg l.(gl_nodes) l.(gl_addr) None l.(gl_head)
  (l1 ++ (c, g) :: l2) NULL last.
Hypothesis Ht : l.(gl_tail) = default NULL last.
Hypothesis Hnd : NoDup (l1 ++ (c, g) :: l2).*1.
Hypothesis Hl : l.(gl_nodes) !! c = Some n.

Lemma unlink_open : exists mid, c <> NULL /\
  (forall x, mid = Some x -> n.(g_prev) = x) /\
  dseg l.(gl_nodes) l.(gl_addr) None l.(gl_head) l1 c mid /\
  dseg l.(gl_nodes) l.(gl_addr) (Some c) n.(g_next) l2 NULL last.
Proof.
  apply dseg_focus in Hs as (n' & mid & Hl' & Hcn & _ & _ & Hp & Hs1 & Hs2).
  assert (n' = n) as -> by congruence. eauto.
Qed.

Lemma unlink_tail_in : l2 <> [] -> l.(gl_tail) ∈ l2.*1.
Proof.
  destruct unlink_open as (mid & _ & _ & _ & Hs2). intros Hne.
  destruct (dseg_last_in _ _ _ _ _ _ _ Hs2 Hne) as (b & -> & Hb). by rewrite Ht.
Qed.

Lemma unlink_head_in : l1 <> [] -> l.(gl_head) ∈ l1.*1.
Proof.
  destruct unlink_open as (mid & _ & _ & Hs1 & _). by eapply dseg_head_in.
Qed.

Lemma unlink_single : l1 = [] -> l2 = [] -> unlinked l [] (gap_unlink l c n).
Proof.
  intros E1 E2. destruct unlink_open as (mid & _ & _ & Hs1 & Hs2).
  rewrite E1 in Hs1. rewrite E2 in Hs2. destruct Hs1 as [Hh _], Hs2 as [_ Hla].
  unfold gap_unlink. rewrite Hh, Ht, Hla, Z.eqb_refl.
  eexists _, None. done.
Qed.

Lemma unlink_head b h l2' : l1 = [] -> l2 = (b, h) :: l2' ->
  unlinked l l2 (gap_unlink l c n).
Proof.
  intros E1 E2. pose proof unlink_tail_in as Htin.
  destruct unlink_open as (mid & Hcn & _ & Hs1 & Hs2).
  apply nodup_fst_app in Hnd as (_ & Hc2 & _ & Hnd2 & _).
  rewrite E1 in Hs1. destruct Hs1 as [Hh _]. unfold gap_unlink.
  rewrite Hh, eqb_false_of_ne, Z.eqb_refl
    by (intros Heq; apply Hc2; rewrite Heq; apply Htin; by rewrite E2).
  rewrite (deref_lookup _ _ n) by done. cbn. subst l2.
  pose proof (dseg_start _ _ _ _ _ _ _ _ _ Hs2) as [Hb Hbn]. rewrite Hb in *.
  destruct (dseg_reprev _ _ _ _ _ _ _ _ NULL Hs2 Hnd2) as (nb & Hlb & _ & Hs2').
  rewrite (upd_lookup _ _ _ nb) by done. eexists _, last.
  split; [done|]. split; [done|]. split; [|done].
  exact (dseg_weaken _ _ _ _ _ _ _ Hs2' ltac:(done)).
Qed.

Lemma unlink_tail a ga l1' : l1 = l1' ++ [(a, ga)] -> l2 = [] ->
  unlinked l l1 (gap_unlink l c n).
Proof.
  intros E1 E2. pose proof unlink_head_in as Hhin.
  destruct unlink_open as (mid & Hcn & Hp & Hs1 & Hs2).
  apply nodup_fst_app in Hnd as (Hc1 & _ & Hnd1 & _ & _).
  rewrite E2 in Hs2. destruct Hs2 as [Hnx Hla]. rewrite Hla in Ht. cbn in Ht.
  assert (Hhc : l.(gl_head) <> c)
    by (intros Heq; apply Hc1; rewrite <- Heq; apply Hhin; rewrite E1; by destruct l1').
  unfold gap_unlink. rewrite Ht, !eqb_false_of_ne, Z.eqb_refl by done.
  rewrite (deref_lookup _ _ n) by done. cbn. rewrite E1 in *.
  pose proof (dseg_last _ _ _ _ _ _ _ _ _ Hs1) as ->. rewrite (Hp a eq_refl).
  destruct (dseg_relink _ _ _ _ _ _ _ _ _ NULL Hs1 Hnd1) as (na & Hna & Han & _ & Hs1').
  rewrite (upd_lookup _ _ _ na) by done. eexists _, (Some a). done.
Qed.

Lemma unlink_middle a ga l1' b h l2' : l1 = l1' ++ [(a, ga)] -> l2 = (b, h) :: l2' ->
  unlinked l (l1 ++ l2) (gap_unlink l c n).
Proof.
  intros E1 E2. pose proof unlink_head_in as Hhin. pose proof unlink_tail_in as Htin.
  destruct unlink_open as (mid & Hcn & Hp & Hs1 & Hs2).
  apply nodup_fst_app in Hnd as (Hc1 & Hc2 & Hnd1 & Hnd2 & Hd).
  assert (Hh : l.(gl_head) ∈ l1.*1) by (apply Hhin; rewrite E1; by destruct l1').
  assert (Htl : l.(gl_tail) ∈ l2.*1) by (apply Htin; by rewrite E2).
  unfold gap_unlink. rewrite !eqb_false_of_ne by (intros Heq; rewrite Heq in *; naive_solver).
  rewrite E1 in *. rewrite E2 in *. clear Hhin Htin.
  pose proof (dseg_last _ _ _ _ _ _ _ _ _ Hs1) as ->. rewrite (Hp a eq_refl).
  pose proof (dseg_start _ _ _ _ _ _ _ _ _ Hs2) as [Hb Hbn]. rewrite Hb in *.
  destruct (dseg_relink _ _ _ _ _ _ _ _ _ b Hs1 Hnd1) as (na & Hna & Han & _ & Hs1').
  rewrite (upd_lookup _ _ _ na) by done. cbn.
  assert (Ha : a ∉ ((b, h) :: l2').*1) by (apply Hd; rewrite fmap_app; set_solver).
  apply (dseg_insert _ _ a (set_next b na)) in Hs2; [|done].
  destruct (dseg_reprev _ _ _ _ _ _ _ _ a Hs2 Hnd2) as (nb & Hlb & _ & Hs2').
  rewrite (upd_lookup _ _ _ nb) by done. eexists _, last.
  split; [done|]. split; [done|]. split; [|done]. cbn.
  apply dseg_app. exists b, (Some a). split; [|exact Hs2'].
  apply dseg_insert; [|done]. intros Hin. apply (Hd b Hin). by left.
Qed.

Lemma gap_unlink_dseg : unlinked l (l1 ++ l2) (gap_unlink l c n).
Proof.
  destruct (snoc_cases l1) as [E1|(l1' & [a ga] & E1)];
    assert (l2 = [] \/ exists e l2', l2 = e :: l2') as [E2|([b h] & l2' & E2)]
      by (clear; destruct l2; eauto).
  - rewrite E1, E2. by apply unlink_single.
  - rewrite E1. by eapply unlink_head.
  - rewrite E2, app_nil_r. by eapply unlink_tail.
  - by eapply unlink_middle.
Qed.
End unlink.

Lemma gap_repr_open l l1 c g l2 :
  gap_repr l (l1 ++ (c, g) :: l2) ->
  exists n, l.(gl_nodes) !! c = Some n /\ c <> NULL /\ deref l c = Some n /\
    gap_of n = g /\ n.(g_list) = l.(gl_addr).
Proof.
  intros [(last & Hs & _) _ _ _].
  apply dseg_focus in Hs as (n & mid & Hl & Hn & Hg & Ha & _). exists n.
  repeat (split; [done|]). split; [by apply deref_lookup | done].
Qed.

(** Writing the data fields of a node of the list. *)
Lemma gap_repr_upd l l1 c g l2 f n :
  gap_repr l (l1 ++ (c, g) :: l2) -> l.(gl_nodes) !! c = Some n ->
  (f n).(g_list) = n.(g_list) -> (f n).(g_prev) = n.(g_prev) ->
  (f n).(g_next) = n.(g_next) ->
  exists l', upd c f l = Some l' /\ gap_repr l' (l1 ++ (c, gap_of (f n)) :: l2) /\
    same_frame l l' /\ l'.(gl_head) = l.(gl_head) /\
    l'.(gl_nodes) = <[c := f n]> l.(gl_nodes).
Proof.
  intros Hr Hl E1 E2 E3. pose proof (gap_repr_nodup _ _ Hr) as Hnd.
  destruct (gap_repr_open _ _ _ _ _ Hr) as (n' & Hl' & Hcn & _).
  rewrite (upd_lookup _ _ _ n) by done. eexists. split; [done|]. split; [|done].
  destruct Hr as [(last & Hs & Ht) Hp Hc Hm].
  assert (Hf : (l1 ++ (c, gap_of (f n)) :: l2).*1 = (l1 ++ (c, g) :: l2).*1)
    by (rewrite !fmap_app; reflexivity).
  assert (Hlen : length (l1 ++ (c, gap_of (f n)) :: l2) = length (l1 ++ (c, g) :: l2))
    by (rewrite !length_app; reflexivity).
  constructor; cbn.
  - exists last. split; [|done]. by apply (dseg_update _ _ _ _ _ _ g _ _ _ n (f n)).
  - rewrite Hf, Hlen. done.
  - by rewrite Hlen.
  - done.
Qed.

Lemma gap_del_finish_keep l l1 c g l2 node rc :
  gap_repr l (l1 ++ (c, g) :: l2) -> g.(gp_size) <> 0 ->
  gap_del_finish l c node rc = Some (rc, node, l).
Proof.
  intros Hr Hs. destruct (gap_repr_open _ _ _ _ _ Hr) as (n & _ & _ & Hd & Hg & _).
  unfold gap_del_finish. rewrite Hd. cbn.
  destruct (g_size n =? 0) eqn:E; [|done]. bool_to_prop. subst g.
  exfalso. apply Hs. exact E.
Qed.

Lemma gap_del_finish_drop l l1 c g l2 node rc :
  gap_repr l (l1 ++ (c, g) :: l2) -> g.(gp_size) = 0 ->
  exists l', gap_del_finish l c node rc = Some (rc, NULL, l') /\
    gap_repr l' (l1 ++ l2) /\ l'.(gl_max) = l.(gl_max) /\
    l'.(gl_timeout) = l.(gl_timeout) /\ l'.(gl_addr) = l.(gl_addr).
Proof.
  intros Hr Hs0. pose proof (gap_repr_nodup _ _ Hr) as Hnd.
  destruct (gap_repr_open _ _ _ _ _ Hr) as (n & Hl & Hcn & Hd & Hg & _).
  destruct Hr as [(last & Hs & Ht) (mp & free & Hmp & Hnc & Hgr & Hwf & Hlen) Hc Hm].
  unfold gap_del_finish. rewrite Hd. cbn.
  assert (g_size n = 0) as -> by (rewrite <- Hg in Hs0; done). cbn.
  destruct (gap_unlink_dseg l l1 l2 c g n last Hs Ht Hnd Hl)
    as (l' & last' & -> & (F1 & F2 & F3 & F4 & F5) & Hs' & Ht').
  cbn. rewrite F5, Hmp. cbn. rewrite fmap_app, fmap_app in Hwf. cbn in Hwf.
  destruct (fh_mpool_put_wf _ _ _ _ _ Hwf) as (mp' & Hput & Hwf' & Hfl).
  replace (chunk_of c + 8) with c in Hput by (unfold chunk_of, sizeof_mchunk; lia).
  rewrite Hput. cbn. eexists. split; [done|]. split; [|done].
  rewrite length_app in Hc. cbn in Hc.
  constructor; cbn.
  - eauto.
  - exists mp', (chunk_of c :: free). split; [done|].
    rewrite (proj1 (same_config_put _ _ _ _ Hput)), Hfl, fmap_app, fmap_app.
    repeat (split; [done|]). rewrite length_app in *. cbn in *. lia.
  - rewrite F2, Hc, length_app, u32_small; rewrite ?length_app in *; cbn in *; lia.
  - by rewrite F3.
Qed.

(** ** Removing a sequence number *)

(** The end of [fh_shr_gap_fill_del] after the data of [curr] was rewritten:
    a node whose range became empty goes away. *)
Definition keep_nonempty (c : Z) (g : gap) : list (Z * gap) :=
  if g.(gp_size) =? 0 then [] else [(c, g)].

Lemma gap_del_write l l1 c g l2 f n rc :
  gap_repr l (l1 ++ (c, g) :: l2) -> l.(gl_nodes) !! c = Some n ->
  (f n).(g_list) = n.(g_list) -> (f n).(g_prev) = n.(g_prev) ->
  (f n).(g_next) = n.(g_next) ->
  exists l', (list ← upd c f l; gap_del_finish list c c rc) =
      Some (rc, if (f n).(g_size) =? 0 then NULL else c, l') /\
    gap_repr l' (l1 ++ keep_nonempty c (gap_of (f n)) ++ l2) /\
    l'.(gl_max) = l.(gl_max) /\ l'.(gl_timeout) = l.(gl_timeout).
Proof.
  intros Hr Hl E1 E2 E3.
  destruct (gap_repr_upd _ _ _ _ _ f n Hr Hl E1 E2 E3) as (l' & -> & Hr' & F & _ & _).
  destruct F as (_ & _ & F3 & F4 & _). cbn. unfold keep_nonempty.
  destruct (g_size (f n) =? 0) eqn:E; cbn; rewrite E; bool_to_prop.
  - destruct (gap_del_finish_drop _ _ _ _ _ c rc Hr' E) as (l'' & -> & Hr'' & M & T & _).
    exists l''. cbn. rewrite M, T. done.
  - rewrite (gap_del_finish_keep _ _ _ _ _ c rc Hr' E). eauto.
Qed.

(** Inserting the node [b] right after [c]: relink [c], then the tail pointer
    or the back link of [c]'s old successor. Shared by the two ways
    [fh_shr_gap_fill_del] splits a gap. *)
Lemma gap_insert_after l l1 c g l2 b n nb last :
  dseg l.(gl_nodes) l.(gl_addr) None l.(gl_head) (l1 ++ (c, g) :: l2) NULL last ->
  l.(gl_tail) = default NULL last -> NoDup (l1 ++ (c, g) :: l2).*1 ->
  l.(gl_nodes) !! c = Some n -> b <> NULL -> b ∉ (l1 ++ (c, g) :: l2).*1 ->
  l.(gl_nodes) !! b = Some nb -> nb.(g_list) = l.(gl_addr) ->
  nb.(g_prev) = c -> nb.(g_next) = n.(g_next) ->
  exists l' last', gap_link_after l c b = Some l' /\
    dseg l'.(gl_nodes) l'.(gl_addr) None l'.(gl_head)
      (l1 ++ (c, g) :: (b, gap_of nb) :: l2) NULL last' /\
    l'.(gl_tail) = default NULL last' /\ same_frame l l' /\
    l'.(gl_head) = l.(gl_head) /\
    l'.(gl_nodes) !! c = Some (set_next b n) /\ l'.(gl_nodes) !! b = Some nb.
Proof.
  intros Hs Ht Hnd Hl Hbn Hb Hlb Hab Hpb Hxb. rewrite fmap_app in Hb. cbn in Hb.
  assert (Hb' : b ∉ l1.*1 /\ b <> c /\ b ∉ l2.*1) by set_solver.
  destruct Hb' as (Hb1 & Hbc & Hb2). clear Hb.
  apply nodup_fst_app in Hnd as (Hc1 & Hc2 & Hnd1 & Hnd2 & Hd).
  apply dseg_focus in Hs as (n' & mid & Hl' & Hcn & Hg & Ha & Hp & Hs1 & Hs2).
  assert (n' = n) as -> by congruence. clear Hl'. unfold gap_link_after.
  rewrite (upd_lookup _ _ _ n) by done. cbn.
  rewrite (deref_lookup _ b nb) by (cbn; rewrite ?lookup_insert_ne; done). cbn. rewrite Hxb.
  destruct l2 as [|[d h] l2].
  - destruct Hs2 as [Hnx ->]. cbn in Ht. rewrite Ht, Z.eqb_refl.
    eexists _, (Some b). split; [done|]. cbn.
    split; [|split; [done|]; split; [done|]; split; [done|];
      split; [apply lookup_insert_eq | by rewrite lookup_insert_ne]].
    apply dseg_focus. exists (set_next b n), mid. rewrite lookup_insert_eq.
    repeat (split; [done|]). split; [by apply dseg_insert|].
    cbn. split; [done|]. split; [done|]. exists nb. rewrite lookup_insert_ne by done.
    repeat (split; [done|]). split; [by intros ? [= <-]|]. by rewrite Hxb.
  - pose proof (dseg_start _ _ _ _ _ _ _ _ _ Hs2) as [Hdd Hdn]. rewrite Hdd in *.
    cbn in Hc2, Hb2. apply not_elem_of_cons in Hc2 as [Hcd Hc2], Hb2 as [Hbd Hb2].
    assert (Htl : (c =? l.(gl_tail)) = false).
    { apply Z.eqb_neq. destruct (dseg_last_in _ _ _ _ _ _ _ Hs2 ltac:(done)) as (t & -> & Hti).
      rewrite Ht. cbn. intros ->. cbn in Hti. set_solver. }
    rewrite Htl.
    apply (dseg_insert _ _ c (set_next b n)) in Hs2; [|cbn; set_solver].
    destruct (dseg_reprev _ _ _ _ _ _ _ _ b Hs2 Hnd2) as (nd & Hnd' & _ & Hs2').
    rewrite (upd_lookup _ _ _ nd) by done.
    eexists _, last. split; [done|]. cbn.
    split; [|split; [done|]; split; [done|]; split; [done|];
      rewrite !(lookup_insert_ne _ d) by done;
      split; [apply lookup_insert_eq | by rewrite lookup_insert_ne]].
    apply dseg_focus. exists (set_next b n), mid.
    rewrite lookup_insert_ne, lookup_insert_eq by done.
    repeat (split; [done|]).
    split; [apply dseg_insert; [intros Hin; apply (Hd d Hin); by left | by apply dseg_insert]|].
    cbn. split; [done|]. split; [done|]. exists nb. rewrite !lookup_insert_ne by done.
    repeat (split; [done|]). split; [by intros ? [= <-]|]. by rewrite Hxb.
Qed.

(** The two halves a split leaves. *)
Definition lower_half (g : gap) (seq : Z) : gap :=
  MkGap g.(gp_seq) (seq - g.(gp_seq)) g.(gp_ts).
Definition upper_half (g : gap) (seq ts : Z) : gap :=
  MkGap (seq + 1) (g.(gp_seq) + g.(gp_size) - 1 - seq) ts.

Definition strictly_inside (g : gap) (seq : Z) : Prop :=
  g.(gp_seq) < seq < g.(gp_seq) + g.(gp_size) - 1.

Lemma upper_size g seq : gap_ok g -> strictly_inside g seq ->
  u32 (u64 (u64 (g.(gp_size) - u64 (seq - g.(gp_seq))) - 1)) =
    g.(gp_size) - (seq - g.(gp_seq)) - 1.
Proof.
  intros (H1 & H2 & H3) [? ?].
  rewrite (u64_small (seq - _)) by lia. rewrite (u64_small (_ - (seq - _))) by lia.
  rewrite u64_small, u32_small; lia.
Qed.

Lemma lower_size g seq : gap_ok g -> strictly_inside g seq ->
  u32 (g.(gp_size) - u32 (g.(gp_size) - (seq - g.(gp_seq)) - 1 + 1)) =
    seq - g.(gp_seq).
Proof.
  intros (H1 & H2 & H3) [? ?].
  rewrite (u32_small (_ - 1 + 1)) by lia. rewrite u32_small; lia.
Qed.

Lemma gap_repr_frame l l' es es' mp' free' :
  gap_repr l es -> es' ≠ [] ->
  (exists last, dseg l'.(gl_nodes) l'.(gl_addr) None l'.(gl_head) es' NULL last /\
    l'.(gl_tail) = default NULL last) ->
  l'.(gl_data) = Some mp' -> 0 < mp'.(mp_nchunks) ->
  flag_set mp'.(mp_flags) FH_MPOOL_FL_GROW = false ->
  pool_wf mp' free' (chunk_of <$> es'.*1) ->
  Z.of_nat (length free' + length es') = l.(gl_max) ->
  l'.(gl_max) = l.(gl_max) -> l'.(gl_count) = Z.of_nat (length es') ->
  gap_repr l' es'.
Proof.
  intros Hr _ Hs Hd Hn Hf Hw Hl Hm Hc. constructor; [done| |done|].
  - exists mp', free'. rewrite Hm. done.
  - rewrite Hm. apply Hr.
Qed.

Lemma fmap_fst_middle (l1 l2 : list (Z * gap)) c g b gb :
  (l1 ++ (c, g) :: (b, gb) :: l2).*1 ≡ₚ b :: (l1 ++ (c, g) :: l2).*1.
Proof.
  rewrite !fmap_app. cbn. rewrite (Permutation_swap b c), Permutation_middle. done.
Qed.

Lemma gap_del_split_spec l l1 c g l2 seq :
  gap_repr l (l1 ++ (c, g) :: l2) -> gap_ok g -> strictly_inside g seq ->
  Z.of_nat (length (l1 ++ (c, g) :: l2)) < l.(gl_max) ->
  exists b l', gap_del_split l c seq = Some (0, b, l') /\
    b ∉ (l1 ++ (c, g) :: l2).*1 /\ b <> NULL /\
    gap_repr l' (l1 ++ (c, lower_half g seq) :: (b, upper_half g seq g.(gp_ts)) :: l2) /\
    l'.(gl_max) = l.(gl_max) /\ l'.(gl_timeout) = l.(gl_timeout).
Proof.
  intros Hr Hok Hin Hroom. pose proof (gap_repr_nodup _ _ Hr) as Hnd.
  destruct (gap_repr_open _ _ _ _ _ Hr) as (n & Hl & Hcn & Hd & Hg & Ha).
  destruct (gap_repr_get _ _ Hr Hroom)
    as (mp & b & mp' & free & Hmp & Hget & Hbn & Hni & Hnc & Hfl & Hwf & Hlen).
  pose proof (gr_seg _ _ Hr) as (last & Hs & Ht).
  pose proof (gr_count _ _ Hr) as Hc. pose proof (gr_max _ _ Hr) as Hm.
  assert (Hsz : g_size n = g.(gp_size) /\ g_seq_no n = g.(gp_seq) /\
    g_timestamp n = g.(gp_ts)) by (subst g; done). destruct Hsz as (Z1 & Z2 & Z3).
  unfold gap_del_split. rewrite Hmp. cbn. rewrite Hget. cbn.
  rewrite (eqb_false_of_ne b NULL) by done.
  rewrite (deref_lookup (set_data _ _) _ n) by done. cbn.
  rewrite Z1, Z2, Z3, (upper_size g seq) by done.
  rewrite (u64_small (seq + 1)) by (destruct Hok as (?&?&?), Hin; lia).
  set (nb := MkNode _ _ _ _ _ _). set (l0 := put_node _ _ _).
  assert (Hcb : c <> b) by (intros ->; apply Hni; rewrite fmap_app; set_solver).
  destruct (gap_insert_after l0 l1 c g l2 b n nb last)
    as (l3 & last' & -> & Hs3 & Ht3 & (F1 & F2 & F3 & F4 & F5) & _ & Hc3 & _);
    [by apply dseg_insert | done | done | cbn; by rewrite lookup_insert_ne | done | done
    | apply lookup_insert_eq | done | done | done |].
  cbn. set (l4 := set_count _ _).
  assert (Hr4 : gap_repr l4 (l1 ++ (c, g) :: (b, gap_of nb) :: l2)).
  { apply (gap_repr_frame l l4 _ _ mp' free Hr); try done.
    - by destruct l1.
    - exists last'. done.
    - eapply pool_wf_perm; [|exact Hwf]. by rewrite fmap_fst_middle.
    - rewrite length_app in *. cbn in *. lia.
    - cbn. rewrite F2. cbn. rewrite Hc, u32_small; rewrite ?length_app in *; cbn in *; lia. }
  rewrite lower_size by done.
  destruct (gap_repr_upd l4 l1 c g _
    (set_size (seq - g.(gp_seq)))
    (set_next b n) Hr4 Hc3 eq_refl eq_refl eq_refl)
    as (l5 & -> & Hr5 & (G1 & G2 & G3 & G4 & _) & _).
  cbn. rewrite (gap_del_finish_keep l5 l1 c _ _ b 0 Hr5);
    [|destruct Hin; cbn; lia].
  exists b, l5. split; [done|]. split; [done|]. split; [done|].
  split; [|rewrite G3, G4; cbn; by rewrite F3, F4].
  replace (lower_half g seq) with
    (gap_of (set_size (seq - g.(gp_seq)) (set_next b n))).
  - replace (upper_half g seq (gp_ts g)) with (gap_of nb); [done|].
    unfold upper_half, gap_of, nb; cbn. f_equal. lia.
  - unfold lower_half, gap_of; cbn. by rewrite Z2, Z3.
Qed.

(** Popping the head: the rest is a list of its own once its first node's
    back link is cut. *)
Lemma dseg_pop_head l h gh es last :
  dseg l.(gl_nodes) l.(gl_addr) None l.(gl_head) ((h, gh) :: es) NULL last ->
  es <> [] -> NoDup es.*1 -> h ∉ es.*1 ->
  exists nh m, l.(gl_nodes) !! h = Some nh /\ l.(gl_head) = h /\ h <> NULL /\
    gap_of nh = gh /\ nh.(g_list) = l.(gl_addr) /\
    upd nh.(g_next) (set_prev NULL) (set_head nh.(g_next) l) =
      Some (set_nodes m (set_head nh.(g_next) l)) /\
    m !! h = Some nh /\ dseg m l.(gl_addr) None nh.(g_next) es NULL last.
Proof.
  intros (Hh & Hn & nh & Hl & Hg & Ha & _ & Hs) Hne Hnd Hni.
  destruct es as [|[b g] es]; [done|].
  pose proof (dseg_start _ _ _ _ _ _ _ _ _ Hs) as [Hb _]. rewrite Hb in Hs.
  destruct (dseg_reprev _ _ _ _ _ _ _ _ NULL Hs Hnd) as (nb & Hlb & Hbn & Hs').
  exists nh, (<[b := set_prev NULL nb]> l.(gl_nodes)).
  do 5 (split; [done|]). rewrite Hb, (upd_lookup _ _ _ nb) by done.
  split; [done|]. split; [|by eapply dseg_weaken].
  rewrite lookup_insert_ne; [done|]. intros ->. apply Hni. by left.
Qed.

Lemma gap_repurpose_spec l h gh l1 c g l2 seq :
  gap_repr l ((h, gh) :: l1 ++ (c, g) :: l2) -> gap_ok g -> strictly_inside g seq ->
  exists l', gap_del_repurpose l c seq = Some (s32 g.(gp_size), h, l') /\
    gap_repr l' (l1 ++ (c, lower_half g seq) :: (h, upper_half g seq gh.(gp_ts)) :: l2) /\
    l'.(gl_max) = l.(gl_max) /\ l'.(gl_timeout) = l.(gl_timeout).
Proof.
  intros Hr Hok Hin. pose proof (gap_repr_nodup _ _ Hr) as Hnd.
  pose proof (gr_seg _ _ Hr) as (last & Hs & Ht).
  pose proof (gr_pool _ _ Hr) as (mp & free & Hmp & Hnc & Hgr & Hwf & Hlen).
  pose proof (gr_count _ _ Hr) as Hc.
  cbn [fmap list_fmap fst] in Hnd. apply NoDup_cons in Hnd as [Hni Hnd].
  destruct (dseg_pop_head l h gh _ last Hs) as (nh & m & Hl & Hh & Hhn & Hg & Ha & Hupd & Hm & Hs1);
    [by destruct l1 | done | done |].
  unfold gap_del_repurpose. rewrite Hh, (deref_lookup _ _ nh) by done. cbn.
  rewrite Hupd. cbn. clear Hupd.
  assert (Hhc : h <> c) by (intros ->; apply Hni; rewrite fmap_app; set_solver).
  destruct (proj1 (dseg_focus _ _ _ _ _ _ _ _ _ _) Hs1) as (n & mid & Hlc & Hcn & Hgc & _).
  rewrite (deref_lookup (set_nodes m _) _ n) by done. cbn.
  rewrite (upd_lookup (set_nodes m _) _ _ nh) by done. cbn.
  set (nb := set_prev c (set_next n.(g_next) nh)). set (l0 := set_nodes _ _).
  destruct (gap_insert_after l0 l1 c g l2 h n nb last)
    as (l3 & last' & -> & Hs3 & Ht3 & (F1 & F2 & F3 & F4 & F5) & _ & Hc3 & Hb3);
    [by apply dseg_insert | | done | cbn; by rewrite lookup_insert_ne | done | done
    | apply lookup_insert_eq | done | done | done |].
  { cbn. by rewrite Ht. }
  cbn. rewrite (deref_lookup l3 _ _ Hcn Hc3). cbn.
  assert (Hr3 : gap_repr l3 (l1 ++ (c, g) :: (h, gap_of nb) :: l2)).
  { apply (gap_repr_frame l l3 _ _ mp free Hr); try done.
    - by destruct l1.
    - exists last'. done.
    - by rewrite F5.
    - eapply pool_wf_perm; [|exact Hwf]. by rewrite fmap_fst_middle.
    - rewrite <- Hlen. cbn. rewrite !length_app. cbn. lia.
    - rewrite F2. cbn. rewrite Hc. cbn. rewrite !length_app. cbn. lia. }
  assert (Hsz : g_size n = g.(gp_size) /\ g_seq_no n = g.(gp_seq) /\
    g_timestamp n = g.(gp_ts)) by (subst g; done). destruct Hsz as (Z1 & Z2 & Z3).
  rewrite Z1, Z2, (upper_size g seq), lower_size by done.
  rewrite (u64_small (seq + 1)) by (destruct Hok as (?&?&?), Hin; lia).
  change ((c, g) :: (h, gap_of nb) :: l2) with ([(c, g)] ++ (h, gap_of nb) :: l2) in Hr3.
  rewrite app_assoc in Hr3.
  destruct (gap_repr_upd l3 _ h _ l2
    (fun k => set_size (g.(gp_size) - (seq - g.(gp_seq)) - 1) (set_seq_no (seq + 1) k))
    nb Hr3 Hb3 eq_refl eq_refl eq_refl) as (l4 & -> & Hr4 & (G1 & G2 & G3 & G4 & _) & _ & Hn4).
  cbn. rewrite <- app_assoc in Hr4. cbn [app] in Hr4.
  destruct (gap_repr_upd l4 l1 c g _ (set_size (seq - g.(gp_seq)))
    (set_next h n) Hr4) as (l5 & -> & Hr5 & (K1 & K2 & K3 & K4 & _) & _);
    [by rewrite Hn4, lookup_insert_ne | done | done | done |].
  cbn. rewrite (gap_del_finish_keep l5 l1 c _ _ h (s32 g.(gp_size)) Hr5);
    [|destruct Hin; cbn; lia].
  exists l5. split; [done|]. split; [|by rewrite K3, K4, G3, G4, F3, F4].
  replace (lower_half g seq) with (gap_of (set_size (seq - g.(gp_seq)) (set_next h n)))
    by (unfold lower_half, gap_of; cbn; by rewrite Z2, Z3).
  replace (upper_half g seq gh.(gp_ts)) with
    (gap_of (set_size (g.(gp_size) - (seq - g.(gp_seq)) - 1) (set_seq_no (seq + 1) nb))); [done|].
  unfold upper_half, gap_of, nb; cbn. f_equal; [lia | by subst gh].
Qed.

(** ** [fh_shr_gap_fill_del] against its specification

    What removing [seq] from the node [c], between [l1] and [l2], does to the
    list: return code, node left to the caller, new list.  [full] is
    [list->count >= list->max] and [b] the node the pool provides. *)
Definition spec_del (full : bool) (l1 : list (Z * gap)) (c : Z) (g : gap)
    (l2 : list (Z * gap)) (seq b : Z) : Z * Z * list (Z * gap) :=
  if g.(gp_seq) =? seq then
    (0, if g.(gp_size) =? 1 then NULL else c,
     l1 ++ keep_nonempty c (MkGap (seq + 1) (g.(gp_size) - 1) g.(gp_ts)) ++ l2)
  else if g.(gp_seq) + g.(gp_size) - 1 =? seq then
    (0, c, l1 ++ (c, MkGap g.(gp_seq) (g.(gp_size) - 1) g.(gp_ts)) :: l2)
  else if (g.(gp_seq) <? seq) && (seq <? g.(gp_seq) + g.(gp_size) - 1) then
    if full then
      match l1 with
      | [] => (seq - g.(gp_seq), c, (c, upper_half g seq g.(gp_ts)) :: l2)
      | (h, gh) :: l1' =>
          (g.(gp_size), h,
           l1' ++ (c, lower_half g seq) :: (h, upper_half g seq gh.(gp_ts)) :: l2)
      end
    else (0, b, l1 ++ (c, lower_half g seq) :: (b, upper_half g seq g.(gp_ts)) :: l2)
  else (0, c, l1 ++ (c, g) :: l2).

Lemma gap_repr_head_in l l1 c g l2 :
  gap_repr l (l1 ++ (c, g) :: l2) -> (c =? l.(gl_head)) = bool_decide (l1 = []).
Proof.
  intros Hr. pose proof (gap_repr_nodup _ _ Hr) as Hnd.
  destruct (gr_seg _ _ Hr) as (last & Hs & _).
  destruct l1 as [|[h gh] l1].
  - destruct Hs as (-> & _). by rewrite Z.eqb_refl.
  - destruct Hs as (-> & _). rewrite bool_decide_false by done.
    apply eqb_false_of_ne. intros ->. cbn in Hnd. apply NoDup_cons in Hnd as [Hni _].
    apply Hni. rewrite fmap_app. set_solver.
Qed.

Lemma gap_del_spec l l1 c g l2 seq :
  gap_repr l (l1 ++ (c, g) :: l2) -> gap_ok g ->
  exists b l',
    let '(rc, node, es') := spec_del (l.(gl_max) <=? l.(gl_count)) l1 c g l2 seq b in
    fh_shr_gap_fill_del l c seq = Some (rc, node, l') /\ gap_repr l' es' /\
    l'.(gl_max) = l.(gl_max) /\ l'.(gl_timeout) = l.(gl_timeout).
Proof.
  intros Hr Hok. pose proof Hok as (O1 & O2 & O3).
  destruct (gap_repr_open _ _ _ _ _ Hr) as (n & Hl & Hcn & Hd & Hg & Ha).
  assert (Hsz : g_size n = g.(gp_size) /\ g_seq_no n = g.(gp_seq) /\
    g_timestamp n = g.(gp_ts)) by (subst g; done). destruct Hsz as (Z1 & Z2 & Z3).
  unfold fh_shr_gap_fill_del, spec_del. rewrite Hd. cbn [mbind option_bind].
  rewrite Ha, Z.eqb_refl, Z1, Z2. cbn [negb].
  destruct (gp_seq g =? seq) eqn:E1; bool_to_prop.
  { destruct (gap_del_write l l1 c g l2 (fun n => set_size (u32 (n.(g_size) - 1))
      (set_seq_no (u64 (n.(g_seq_no) + 1)) n)) n 0 Hr Hl eq_refl eq_refl eq_refl)
      as (l' & Hw & Hr' & HM & HT).
    exists NULL, l'. unfold gap_of in Hr'. cbn in Hw, Hr'.
    rewrite Z1, u32_small in Hw, Hr' by lia. rewrite Z2, Z3, u64_small, E1 in Hr' by lia.
    rewrite Hw. split; [|done]. do 3 f_equal.
    replace (gp_size g =? 1) with (gp_size g - 1 =? 0) by lia. done. }
  rewrite (u64_small (_ - 1)) by lia.
  destruct (gp_seq g + gp_size g - 1 =? seq) eqn:E2; bool_to_prop.
  { destruct (gap_del_write l l1 c g l2 (fun n => set_size (u32 (n.(g_size) - 1)) n) n
      0 Hr Hl eq_refl eq_refl eq_refl) as (l' & Hw & Hr' & HM & HT).
    exists NULL, l'. unfold gap_of, keep_nonempty in Hr'. cbn in Hw, Hr'.
    rewrite Z1, u32_small, eqb_false_of_ne in Hw, Hr' by lia.
    rewrite Z2, Z3 in Hr'. done. }
  destruct (_ && _) eqn:E3; bool_to_prop.
  2: { exists NULL, l. rewrite (gap_del_finish_keep _ _ _ _ _ _ _ Hr) by lia. done. }
  assert (Hin : strictly_inside g seq) by (split; lia).
  destruct (gl_max l <=? gl_count l) eqn:Ef; bool_to_prop.
  - rewrite (gap_repr_head_in _ _ _ _ _ Hr). destruct l1 as [|[h gh] l1].
    + destruct (gap_del_write l [] c g l2 (fun n => set_seq_no (u64 (seq + 1))
        (set_size (u32 (n.(g_size) - u32 (s32 (u64 (seq - gp_seq g)) + 1))) n)) n
        (s32 (u64 (seq - gp_seq g))) Hr Hl eq_refl eq_refl eq_refl)
        as (l' & Hw & Hr' & HM & HT).
      exists NULL, l'. cbn [bool_decide decide_rel decide list_eq_nil_dec].
      unfold gap_of, keep_nonempty in Hr'. cbn in Hw, Hr' |- *.
      rewrite Z1, (u64_small (seq - _)), s32_small, (u32_small (seq - _ + 1)), u32_small,
        eqb_false_of_ne in Hw, Hr' by lia.
      rewrite (u64_small (seq - _)), s32_small, (u32_small (seq - _ + 1)) by lia.
      rewrite Hw. rewrite Z3, u64_small in Hr' by lia. split; [done|]. split; [|done].
      unfold upper_half. by replace (gp_seq g + gp_size g - 1 - seq)
        with (gp_size g - (seq - gp_seq g + 1)) by lia.
    + destruct (gap_repurpose_spec l h gh l1 c g l2 seq Hr Hok Hin) as (l' & Hw & Hr' & ?).
      exists NULL, l'. cbn. rewrite Hw, s32_small by lia. done.
  - rewrite (gr_count _ _ Hr) in Ef.
    destruct (gap_del_split_spec l l1 c g l2 seq Hr Hok Hin Ef) as (b & l' & Hw & _ & _ & ?).
    by exists b, l'.
Qed.

(** ** Expiring gaps *)

(** The entries [fh_shr_gap_fill_flush] keeps, and the count it returns: the
    loop stops at the first entry that has not expired. *)
Fixpoint spec_flush (limit lost : Z) (es : list (Z * gap)) : Z * list (Z * gap) :=
  match es with
  | [] => (lost, [])
  | (a, g) :: es' =>
      if limit <=? g.(gp_ts) then (lost, es)
      else spec_flush limit (s32 (lost + g.(gp_size))) es'
  end.

Lemma gap_flush_step l a g es mp :
  gap_repr l ((a, g) :: es) -> l.(gl_data) = Some mp ->
  exists n mp' l', deref l a = Some n /\ l.(gl_head) = a /\ gap_of n = g /\
    fh_mpool_put mp a = Some (FH_OK, mp') /\
    (let list := set_head n.(g_next) (set_data mp' l) in
     if list.(gl_head) =? NULL then Some (set_tail NULL list)
     else upd list.(gl_head) (set_prev NULL) list) = Some l' /\
    gap_repr (set_count (u32 (l'.(gl_count) - 1)) l') es /\
    same_frame (set_data mp' l) l'.
Proof.
  intros Hr Hmp.
  assert (Hnd : a ∉ es.*1 /\ NoDup es.*1)
    by (apply NoDup_cons; exact (gap_repr_nodup _ _ Hr)).
  destruct Hnd as [Hni Hnd].
  destruct (gap_repr_open l [] a g es Hr) as (n & Hl & Han & Hd & Hg & Ha).
  destruct Hr as [(last & Hs & Ht) (mp0 & free & Hmp0 & Hnc & Hgr & Hwf & Hlen) Hc Hm].
  assert (mp0 = mp) as -> by congruence.
  destruct (fh_mpool_put_wf mp free [] (chunk_of a)
    (fmap (M := list) chunk_of (fmap (M := list) fst es)) Hwf)
    as (mp' & Hput & Hwf' & Hfl).
  replace (chunk_of a + 8) with a in Hput by (unfold chunk_of, sizeof_mchunk; lia).
  assert (Hrep : forall l1 last', dseg l1.(gl_nodes) l1.(gl_addr) None l1.(gl_head) es NULL last' ->
    l1.(gl_tail) = default NULL last' -> same_frame (set_data mp' l) l1 ->
    gap_repr (set_count (u32 (l1.(gl_count) - 1)) l1) es).
  { intros l1 last' S1 S2 (F1 & F2 & F3 & F4 & F5). cbn in F2, F3, F5.
    constructor; cbn; rewrite ?F2, ?F3, ?F5; [eauto | | | done].
    - exists mp', (chunk_of a :: free). rewrite (proj1 (same_config_put _ _ _ _ Hput)), Hfl.
      cbn in *. repeat (split; [done|]). lia.
    - rewrite Hc. cbn in *. rewrite u32_small; lia. }
  exists n, mp'. cbn [set_head gl_head].
  destruct es as [|[b h] es].
  - destruct Hs as (Hh & _ & n' & Hl' & _ & _ & _ & [Hnx Hla]).
    assert (n' = n) as -> by congruence. rewrite Hnx, Z.eqb_refl. eexists.
    split; [done|]. split; [done|]. split; [done|]. split; [done|]. split; [done|].
    by split; [apply (Hrep _ None)|].
  - destruct (dseg_pop_head (set_data mp' l) a g _ last Hs ltac:(done) Hnd Hni)
      as (n' & m & Hl' & Hh & _ & _ & _ & Hupd & _ & Hs').
    cbn in Hl'. assert (n' = n) as -> by congruence.
    destruct (g_next n =? NULL) eqn:E.
    { bool_to_prop. apply dseg_start in Hs' as [Hb Hbn]. congruence. }
    rewrite Hupd. eexists. do 5 (split; [done|]).
    by split; [apply (Hrep _ last)|].
Qed.

Lemma gap_flush_loop_spec limit es : forall fuel l lost,
  gap_repr l es -> (length es < fuel)%nat ->
  exists l', gap_flush_loop fuel limit lost l = Some ((spec_flush limit lost es).1, l') /\
    gap_repr l' (spec_flush limit lost es).2 /\ l'.(gl_max) = l.(gl_max) /\
    l'.(gl_timeout) = l.(gl_timeout).
Proof.
  induction es as [|[a g] es IH]; intros [|fuel] l lost Hr Hf; cbn in Hf; try lia.
  - destruct (gr_seg _ _ Hr) as (last & [Hh _] & _). cbn. rewrite Hh. cbn. eauto.
  - pose proof (gr_pool _ _ Hr) as (mp & _ & Hmp & _).
    destruct (gap_flush_step _ _ _ _ _ Hr Hmp)
      as (n & mp' & l' & Hd & Hh & Hg & Hput & Hst & Hr' & (F1 & F2 & F3 & F4 & F5)).
    cbn [gap_flush_loop spec_flush].
    rewrite Hh, (eqb_false_of_ne a NULL)
      by (intros ->; unfold deref in Hd; by rewrite Z.eqb_refl in Hd).
    rewrite Hd, Hmp. cbn [mbind option_bind].
    replace (g_timestamp n) with g.(gp_ts) by (by subst g).
    destruct (limit <=? gp_ts g); [eauto|].
    rewrite Hput. cbn [mbind option_bind]. cbv zeta in Hst. rewrite Hst. cbn [mbind option_bind].
    replace (g_size n) with g.(gp_size) by (by subst g).
    destruct (IH fuel _ (s32 (lost + gp_size g)) Hr' ltac:(lia)) as (l'' & -> & Hr'' & HM & HT).
    exists l''. split; [done|]. split; [done|]. by rewrite HM, HT.
Qed.

Lemma gap_flush_spec now l es :
  gap_repr l es ->
  let r := spec_flush (s64 (now - l.(gl_timeout))) 0 es in
  exists l', fh_shr_gap_fill_flush now l = Some (r.1, l') /\ gap_repr l' r.2 /\
    l'.(gl_max) = l.(gl_max) /\ l'.(gl_timeout) = l.(gl_timeout).
Proof.
  intros Hr r. unfold fh_shr_gap_fill_flush. apply gap_flush_loop_spec; [done|].
  pose proof (gap_repr_nodup _ _ Hr). destruct (gr_seg _ _ Hr) as (last & Hs & _).
  pose proof (dseg_size _ _ _ _ _ _ _ Hs H). unfold gap_fuel. lia.
Qed.

(** ** What the operations mean for the set of missing numbers *)

Definition gaps_ok (es : list (Z * gap)) : Prop := Forall (fun e => gap_ok e.2) es.

Lemma gaps_ok_snoc es a g : gaps_ok es -> gap_ok g -> gaps_ok (es ++ [(a, g)]).
Proof. intros. apply Forall_app. split; [done|]. by constructor. Qed.

Lemma missing_app gs1 gs2 n : missing (gs1 ++ gs2) n <-> missing gs1 n \/ missing gs2 n.
Proof. unfold missing. setoid_rewrite elem_of_app. naive_solver. Qed.

Lemma missing_cons g gs n : missing (g :: gs) n <-> gap_has g n \/ missing gs n.
Proof. unfold missing. setoid_rewrite elem_of_cons. naive_solver. Qed.

Lemma missing_nil n : ~ missing [] n.
Proof. intros (g & H & _). set_solver. Qed.

Lemma gap_in_has a g seq : gap_ok g -> gap_in seq (a, g) = true <-> gap_has g seq.
Proof.
  intros (?&?&?). unfold gap_in, gap_has. cbn. rewrite u64_small by lia.
  rewrite andb_true_iff. lia.
Qed.

Lemma spec_find_spec es seq :
  gaps_ok es -> (forall a, a ∈ es.*1 -> a <> NULL) ->
  (spec_find seq es = NULL /\ ~ missing es.*2 seq) \/
  (exists l1 c g l2, es = l1 ++ (c, g) :: l2 /\ spec_find seq es = c /\
     gap_has g seq /\ ~ missing l1.*2 seq).
Proof.
  unfold spec_find. induction es as [|[a g] es IH]; intros Hok Hnn.
  - left. split; [done|]. apply missing_nil.
  - apply Forall_cons in Hok as [Hg Hok]. cbn [List.find].
    pose proof (gap_in_has a g seq Hg) as Hi. destruct (gap_in seq (a, g)).
    + right. exists [], a, g, es. split; [done|]. split; [done|]. split; [by apply Hi|].
      apply missing_nil.
    + assert (Hnn' : forall b, b ∈ es.*1 -> b <> NULL)
        by (intros b Hb; apply Hnn; cbn; by right).
      destruct (IH Hok Hnn') as [[E Hm]|(l1 & c & g' & l2 & E & Hf & Hh & Hm)].
      * left. split; [done|]. cbn. rewrite missing_cons. intros [H|H]; [|done].
        by apply Hi in H.
      * right. exists ((a, g) :: l1), c, g', l2. rewrite E. rewrite E in Hf.
        split; [done|]. split; [done|]. split; [done|].
        cbn. rewrite missing_cons. intros [H|H]; [by apply Hi in H | done].
Qed.

Lemma gap_repr_nonnull l es a : gap_repr l es -> a ∈ es.*1 -> a <> NULL.
Proof. intros [(last & Hs & _) _ _ _]. by eapply dseg_nonnull. Qed.

(** The numbers of the gap around [seq], in terms of the parts a removal keeps. *)
Lemma spec_del_missing full l1 c g l2 seq b :
  gap_ok g -> gap_has g seq ->
  (forall e, e ∈ (l1 ++ l2).*2 -> ~ gap_has e seq) ->
  (full = true -> ~ strictly_inside g seq) ->
  forall n, missing (spec_del full l1 c g l2 seq b).2.*2 n <->
    missing (l1 ++ (c, g) :: l2).*2 n /\ n <> seq.
Proof.
  intros (O1 & O2 & O3) Hh Hother Hin n. unfold gap_has in Hh.
  assert (Ho : forall e, e ∈ l1.*2 \/ e ∈ l2.*2 -> gap_has e n -> n <> seq).
  { intros e He Hn ->. apply (Hother e); [|done]. by rewrite fmap_app, elem_of_app. }
  assert (H12 : missing l1.*2 n \/ missing l2.*2 n -> n <> seq)
    by (unfold missing; naive_solver).
  unfold spec_del. destruct (gp_seq g =? seq) eqn:E1; bool_to_prop;
    [|destruct (gp_seq g + gp_size g - 1 =? seq) eqn:E2; bool_to_prop;
      [|destruct (_ && _) eqn:E3; bool_to_prop;
        [destruct full; [exfalso; apply Hin; [done | split; lia]|]|]]];
    unfold keep_nonempty; cbn; try (destruct (gp_size g - 1 =? 0) eqn:E4; bool_to_prop);
    rewrite ?fmap_app; cbn; rewrite ?missing_app, ?missing_cons; unfold gap_has; cbn;
    revert H12; generalize (missing l1.*2 n) (missing l2.*2 n); intros A B H12;
    destruct (decide (n = seq)) as [->|Hne]; intuition lia.
Qed.

(** ** Runs of list operations *)

Inductive gap_op :=
  | OpPush (seq size : Z)     (* fh_shr_gap_fill_push *)
  | OpFill (seq : Z)          (* fh_shr_gap_fill_find, then _del if found *)
  | OpFlush.                  (* fh_shr_gap_fill_flush *)

Definition gap_exec (l : gap_list) (now : Z) (op : gap_op) : option gap_list :=
  match op with
  | OpPush seq size => '(_, l) ← fh_shr_gap_fill_push now l seq size; Some l
  | OpFill seq =>
      p ← fh_shr_gap_fill_find l seq;
      if p =? NULL then Some l
      else '(_, _, l) ← fh_shr_gap_fill_del l p seq; Some l
  | OpFlush => '(_, l) ← fh_shr_gap_fill_flush now l; Some l
  end.

Fixpoint gap_run (l : gap_list) (ops : list (Z * gap_op)) : option gap_list :=
  match ops with
  | [] => Some l
  | (now, op) :: ops => l ← gap_exec l now op; gap_run l ops
  end.

Definition op_ok (op : gap_op) : Prop :=
  match op with
  | OpPush seq size => gap_ok (MkGap seq size 0)
  | _ => True
  end.

Lemma gap_new_repr addr a max timeout :
  0 < a -> 0 < max -> 8 + max * 56 < 2147483648 ->
  exists l, fh_shr_gap_fill_new (Some addr) true true (Some a) max timeout = Some l /\
    gap_repr l [] /\ l.(gl_max) = max /\ l.(gl_timeout) = timeout.
Proof.
  intros Ha Hm Hfit.
  destruct (fh_mpool_new_wf a "gap_list" sizeof_gap_node max 0)
    as (mp & E & Hwf & Hfl & Hn & Hcs); unfold sizeof_gap_node in *; try lia.
  unfold fh_shr_gap_fill_new, sizeof_gap_node. cbn [mbind option_bind]. rewrite E.
  eexists. split; [done|]. split; [|done]. constructor; cbn; [eauto| |done|lia].
  exists mp, (reverse (block_chunks mp a)). rewrite Hfl, Hn.
  split; [done|]. split; [done|]. split; [done|]. split; [done|].
  pose proof (length_block_chunks mp a). rewrite length_reverse. lia.
Qed.

Lemma gap_push_spec now l es seq size :
  gap_repr l es -> 2 <= l.(gl_max) ->
  exists rc node l', fh_shr_gap_fill_push now l seq size = Some (rc, l') /\
    gap_repr l' ((if Z.of_nat (length es) =? l.(gl_max) then tail es else es) ++
                 [(node, MkGap seq size now)]) /\
    rc = (if Z.of_nat (length es) =? l.(gl_max)
          then s32 (default 0 (gp_size ∘ snd <$> head es)) else 0) /\
    l'.(gl_max) = l.(gl_max) /\ l'.(gl_timeout) = l.(gl_timeout).
Proof.
  intros Hr Hm. pose proof (gap_repr_len _ _ Hr).
  destruct (Z.of_nat (length es) =? gl_max l) eqn:E; bool_to_prop.
  - destruct es as [|[a g] es]; [cbn in E; lia|].
    destruct es as [|e es]; [cbn in E; lia|].
    destruct (gap_push_full now l a g (e :: es) seq size Hr) as (l' & -> & Hr' & ?); [done..|].
    exists (s32 (gp_size g)), a, l'. done.
  - destruct (gap_push_room now l es seq size Hr) as (b & l' & -> & _ & Hr' & ?); [lia|].
    by exists 0, b, l'.
Qed.

Lemma spec_del_ok full l1 c g l2 seq b :
  gaps_ok (l1 ++ (c, g) :: l2) -> gaps_ok (spec_del full l1 c g l2 seq b).2.
Proof.
  unfold gaps_ok. rewrite Forall_app, Forall_cons. intros (H1 & (O1 & O2 & O3) & H2).
  cbn in O1, O2, O3.
  unfold spec_del. destruct (gp_seq g =? seq) eqn:E1; bool_to_prop;
    [|destruct (gp_seq g + gp_size g - 1 =? seq) eqn:E2; bool_to_prop;
      [|destruct (_ && _) eqn:E3; bool_to_prop; [destruct full; [destruct l1 as [|[h gh] l1]|]|]]];
    unfold keep_nonempty; cbn;
    try (destruct (gp_size g - 1 =? 0) eqn:E4; bool_to_prop); cbn;
    try (apply Forall_cons in H1 as [_ H1]);
    rewrite ?Forall_app, ?Forall_cons; unfold gap_ok; cbn; naive_solver lia.
Qed.

Lemma spec_flush_suffix limit es : forall lost,
  exists l1, es = l1 ++ (spec_flush limit lost es).2 /\
    Forall (fun e => e.2.(gp_ts) < limit) l1 /\
    (gaps_ok es -> 0 <= lost -> lost + foldr Z.add 0 (gp_size ∘ snd <$> es) < 2147483648 ->
     (spec_flush limit lost es).1 = lost + foldr Z.add 0 (gp_size ∘ snd <$> l1)) /\
    (forall e, head (spec_flush limit lost es).2 = Some e -> limit <= e.2.(gp_ts)).
Proof.
  induction es as [|[a g] es IH]; intros lost; cbn.
  - exists []. cbn. repeat (split; [done|]). split; [intros; lia | done].
  - destruct (limit <=? gp_ts g) eqn:E; bool_to_prop.
    + exists []. cbn. repeat (split; [done|]). split; [intros; lia | by intros ? [= <-]].
    + destruct (IH (s32 (lost + gp_size g))) as (l1 & E1 & F & HS & HH).
      exists ((a, g) :: l1). cbn. split; [by f_equal|]. split; [by constructor|].
      split; [|done]. intros [(?&?&?) Hok]%Forall_cons Hl Hsum. cbn in *.
      assert (0 <= foldr Z.add 0 (gp_size ∘ snd <$> es)).
      { clear - Hok. induction Hok as [|[b h] es (?&?&?) _ IH]; cbn in *; lia. }
      rewrite s32_small in HS by lia. rewrite s32_small, HS by (done || lia). lia.
Qed.

Lemma gap_exec_repr l es now op :
  gap_repr l es -> gaps_ok es -> 2 <= l.(gl_max) -> op_ok op ->
  exists l' es', gap_exec l now op = Some l' /\ gap_repr l' es' /\ gaps_ok es' /\
    l'.(gl_max) = l.(gl_max).
Proof.
  intros Hr Hok Hm Hop. destruct op as [seq size|seq|]; cbn [gap_exec].
  - destruct (gap_push_spec now l es seq size Hr Hm) as (rc & node & l' & -> & Hr' & _ & HM & _).
    eexists l', _. split; [done|]. split; [exact Hr'|]. split; [|done].
    apply gaps_ok_snoc; [|done].
    destruct (_ =? _); [|done]. destruct es; [by constructor|].
    by apply Forall_cons in Hok as [_ ?].
  - rewrite (gap_find_repr _ _ _ Hr). cbn [mbind option_bind].
    destruct (spec_find_spec es seq Hok) as [[-> _]|(l1 & c & g & l2 & -> & Hf & _ & _)].
    { intros a. by apply gap_repr_nonnull with l. }
    + rewrite Z.eqb_refl. eauto 8.
    + rewrite Hf, (eqb_false_of_ne c NULL)
        by (eapply gap_repr_nonnull; [exact Hr|]; rewrite fmap_app; set_solver).
      assert (Hg : gap_ok g) by (apply Forall_app in Hok as [_ [? _]%Forall_cons]; done).
      destruct (gap_del_spec l l1 c g l2 seq Hr Hg) as (b & l' & Hdel).
      pose proof (spec_del_ok (gl_max l <=? gl_count l) l1 c g l2 seq b Hok) as Hok'.
      destruct (spec_del _ _ _ _ _ _ _) as [[rc node] es'].
      destruct Hdel as (-> & Hr' & HM & _). eauto 6.
  - destruct (gap_flush_spec now l es Hr) as (l' & -> & Hr' & HM & _). cbn [mbind option_bind].
    eexists l', _. split; [done|]. split; [exact Hr'|]. split; [|done].
    destruct (spec_flush_suffix (s64 (now - gl_timeout l)) es 0) as (l1 & E & _).
    unfold gaps_ok in Hok. rewrite E in Hok. by apply Forall_app in Hok as [_ ?].
Qed.

Lemma gap_run_repr ops : forall l es,
  gap_repr l es -> gaps_ok es -> 2 <= l.(gl_max) -> Forall (fun p => op_ok p.2) ops ->
  exists l' es', gap_run l ops = Some l' /\ gap_repr l' es' /\ gaps_ok es' /\
    l'.(gl_max) = l.(gl_max).
Proof.
  induction ops as [|[now op] ops IH]; intros l es Hr Hok Hm Hops; [cbn; eauto 6|].
  apply Forall_cons in Hops as [Hop Hops].
  destruct (gap_exec_repr l es now op Hr Hok Hm Hop) as (l' & es' & E & Hr' & Hok' & HM).
  cbn. rewrite E. cbn. rewrite <- HM. apply (IH l' es'); [done | done | lia | done].
Qed.

(** No number is in two gaps. *)
Fixpoint gaps_disjoint (es : list (Z * gap)) : Prop :=
  match es with
  | [] => True
  | e :: es => (forall n, gap_has e.2 n -> ~ missing es.*2 n) /\ gaps_disjoint es
  end.

Lemma gaps_disjoint_app es1 es2 :
  gaps_disjoint (es1 ++ es2) <-> gaps_disjoint es1 /\ gaps_disjoint es2 /\
    forall n, missing es1.*2 n -> ~ missing es2.*2 n.
Proof.
  induction es1 as [|e es1 IH]; cbn.
  - split; [|tauto]. intros H. split; [done|]. split; [done|]. intros n Hn. by apply missing_nil in Hn.
  - rewrite IH, fmap_app. setoid_rewrite missing_app. setoid_rewrite missing_cons.
    split; [|firstorder]. intros (H1 & H2 & H3 & H4).
    split; [split; [|done]|split; [done|]]; intros n; specialize (H1 n); specialize (H4 n); tauto.
Qed.

Lemma gaps_disjoint_other l1 c g l2 n :
  gaps_disjoint (l1 ++ (c, g) :: l2) -> gap_has g n -> ~ missing (l1 ++ l2).*2 n.
Proof.
  rewrite gaps_disjoint_app. cbn. rewrite fmap_app, missing_app. setoid_rewrite missing_cons.
  intros (_ & (H1 & _) & H2) Hn [Hm|Hm]; [by apply (H2 n Hm); left | by apply (H1 n)].
Qed.

(** Replacing a gap by parts of it. *)
Lemma gaps_disjoint_refine l1 c g l2 parts :
  gaps_disjoint (l1 ++ (c, g) :: l2) -> gaps_disjoint parts ->
  (forall n, missing parts.*2 n -> gap_has g n) -> gaps_disjoint (l1 ++ parts ++ l2).
Proof.
  rewrite !gaps_disjoint_app. cbn. setoid_rewrite fmap_app. setoid_rewrite missing_app.
  setoid_rewrite missing_cons. intros (H1 & (H2 & H3) & H4) Hp Hsub.
  split; [done|]. split; [split; [done|split; [done|]]|];
    intros n; specialize (H2 n); specialize (H4 n); specialize (Hsub n); tauto.
Qed.

Lemma gaps_disjoint_one a g : gaps_disjoint [(a, g)].
Proof. split; [|done]. intros n _. apply missing_nil. Qed.

Lemma gaps_disjoint_two a1 g1 a2 g2 :
  (forall n, gap_has g1 n -> ~ gap_has g2 n) -> gaps_disjoint [(a1, g1); (a2, g2)].
Proof.
  intros H. split; [|apply gaps_disjoint_one]. intros n Hn [Hm|Hm]%missing_cons;
    [by apply (H n) | by apply missing_nil in Hm].
Qed.

Lemma spec_del_disjoint full l1 c g l2 seq b :
  gap_ok g -> gap_has g seq -> gaps_disjoint (l1 ++ (c, g) :: l2) ->
  (full = true -> ~ strictly_inside g seq) ->
  gaps_disjoint (spec_del full l1 c g l2 seq b).2.
Proof.
  intros (O1 & O2 & O3) Hh Hd Hin. unfold gap_has in Hh.
  assert (Hone : forall g', (forall n, gap_has g' n -> gap_has g n) ->
    gaps_disjoint (l1 ++ (c, g') :: l2)).
  { intros g' Hs. apply (gaps_disjoint_refine l1 c g l2 [(c, g')]);
      [done | apply gaps_disjoint_one |].
    intros n [Hn|Hn]%missing_cons; [by apply Hs | by apply missing_nil in Hn]. }
  assert (Hdrop : gaps_disjoint (l1 ++ l2)).
  { apply (gaps_disjoint_refine l1 c g l2 []); [done | done |].
    intros n Hn. by apply missing_nil in Hn. }
  unfold spec_del, keep_nonempty.
  destruct (gp_seq g =? seq) eqn:E1; bool_to_prop.
  { cbn. destruct (gp_size g - 1 =? 0); [done|]. apply Hone. unfold gap_has; cbn. lia. }
  destruct (gp_seq g + gp_size g - 1 =? seq) eqn:E2; bool_to_prop.
  { apply Hone. unfold gap_has; cbn. lia. }
  destruct (_ && _) eqn:E3; bool_to_prop; [|done].
  destruct full; [exfalso; apply Hin; [done | split; lia]|]. cbn.
  apply (gaps_disjoint_refine l1 c g l2 [(c, lower_half g seq); (b, upper_half g seq (gp_ts g))]);
    [done | |].
  - apply gaps_disjoint_two. unfold gap_has; cbn. lia.
  - intros n. cbn. rewrite !missing_cons. unfold gap_has; cbn. pose proof (missing_nil n). intuition lia.
Qed.

(** ** Properties *)

(** C23: a list made by [fh_shr_gap_fill_new] with room for two or more gaps
    never goes through a null or dangling pointer, whatever sequence of
    pushes, fills (find, then del) and flushes it is put through: it stays a
    correct doubly linked list that holds exactly the nodes its pool has
    handed out, with [count] its length, at most [max]. *)
Theorem gap_runs_safe addr a max timeout ops :
  0 < a -> 2 <= max -> 8 + max * 56 < 2147483648 ->
  Forall (fun p => op_ok p.2) ops ->
  exists l0 l es, fh_shr_gap_fill_new (Some addr) true true (Some a) max timeout = Some l0 /\
    gap_run l0 ops = Some l /\ gap_repr l es /\ gaps_ok es /\
    l.(gl_count) = Z.of_nat (length es) /\ l.(gl_count) <= max.
Proof.
  intros Ha Hm Hfit Hops.
  destruct (gap_new_repr addr a max timeout) as (l0 & -> & Hr & HM & _); [done|lia|lia|].
  destruct (gap_run_repr ops l0 [] Hr) as (l & es & E & Hr' & Hok & HM');
    [by constructor | lia | done |].
  exists l0, l, es. pose proof (gr_count _ _ Hr'). pose proof (gap_repr_len _ _ Hr').
  do 5 (split; [done|]). lia.
Qed.

Definition demo_ops : list (Z * gap_op) :=
  [(100, OpPush 10 5); (101, OpFill 12); (102, OpPush 30 1); (103, OpFill 30);
   (104, OpPush 50 9); (104, OpFill 55); (120, OpFlush); (131, OpFlush)].

Lemma gap_runs_safe_witness :
  Forall (fun p => op_ok p.2) demo_ops /\
  exists l0 l es, fh_shr_gap_fill_new (Some 64) true true (Some 4096) 2 30 = Some l0 /\
    gap_run l0 demo_ops = Some l /\ gap_repr l es.
Proof.
  assert (H : Forall (fun p => op_ok p.2) demo_ops).
  { repeat constructor; cbn; lia. }
  split; [exact H|].
  destruct (gap_runs_safe 64 4096 2 30 demo_ops) as (l0 & l & es & ? & ? & ? & _);
    [lia | lia | lia | exact H |].
  by exists l0, l, es.
Defined.

(** A push records exactly the given range. While the list has room it
    returns 0 and nothing else changes; when it is full (and holds at least
    two gaps) exactly the oldest gap is given up, and its size returned. *)
Theorem gap_push_records now l es seq size :
  gap_repr l es -> gaps_ok es -> gap_ok (MkGap seq size now) -> 2 <= l.(gl_max) ->
  exists rc l' es', fh_shr_gap_fill_push now l seq size = Some (rc, l') /\
    gap_repr l' es' /\ gaps_ok es' /\
    (l.(gl_count) < l.(gl_max) -> rc = 0 /\
       forall n, missing es'.*2 n <-> missing es.*2 n \/ seq <= n < seq + size) /\
    (l.(gl_count) = l.(gl_max) -> exists e es0, es = e :: es0 /\ rc = e.2.(gp_size) /\
       forall n, missing es'.*2 n <-> missing es0.*2 n \/ seq <= n < seq + size).
Proof.
  intros Hr Hok Hg Hm. pose proof (gr_count _ _ Hr) as Hc.
  destruct (gap_push_spec now l es seq size Hr Hm) as (rc & node & l' & E & Hr' & Hrc & _).
  assert (Hmiss : forall es0 : list (Z * gap), forall n,
    missing (es0 ++ [(node, MkGap seq size now)]).*2 n <->
    missing es0.*2 n \/ seq <= n < seq + size).
  { intros es0 n. rewrite fmap_app, missing_app. cbn. rewrite missing_cons.
    pose proof (missing_nil n). unfold gap_has. cbn. tauto. }
  eexists rc, l', _. split; [done|]. split; [exact Hr'|]. rewrite Hc.
  destruct (_ =? _) eqn:E1; bool_to_prop.
  - destruct es as [|[a g] es]; [cbn in E1; lia|].
    apply Forall_cons in Hok as [(?&?&?) Hok]. split; [by apply gaps_ok_snoc|].
    split; [lia|]. intros _. exists (a, g), es. split; [done|]. split; [|done].
    rewrite Hrc. cbn in *. apply s32_small. lia.
  - split; [by apply gaps_ok_snoc|]. split; [done|]. lia.
Qed.

Lemma gap_push_records_witness :
  exists l es rc l', gap_repr l es /\ l.(gl_count) = 2 /\ l.(gl_max) = 2 /\
    fh_shr_gap_fill_push 9 l 100 7 = Some (rc, l') /\ rc = 5.
Proof.
  destruct (gap_new_repr 64 4096 2 30) as (l0 & _ & H0 & M0 & _); [lia..|].
  destruct (gap_push_spec 1 l0 [] 10 5 H0) as (r1 & n1 & l1 & _ & H1 & _ & M1 & _); [lia|].
  rewrite M0 in H1. cbn in H1.
  destruct (gap_push_spec 2 l1 _ 20 6 H1) as (r2 & n2 & l2 & _ & H2 & _ & M2 & _); [lia|].
  rewrite M1, M0 in H2. cbn in H2.
  assert (Hc : l2.(gl_count) = 2) by exact (gr_count _ _ H2).
  destruct (gap_push_records 9 l2 _ 100 7 H2) as (rc & l' & es' & E & _ & _ & _ & Hf);
    [repeat constructor; cbn; lia | split; cbn; lia | lia |].
  destruct Hf as (e & es0 & Ee & Hrc & _); [lia|]. injection Ee as <- _.
  eexists l2, _, rc, l'. split; [exact H2|]. split; [exact Hc|].
  split; [lia|]. split; [exact E | exact Hrc].
Defined.

(** [fh_shr_gap_fill_find] returns [NULL] exactly when the number is not
    missing, and otherwise a node of the list whose gap contains it. *)
Theorem gap_find_correct l es seq :
  gap_repr l es -> gaps_ok es ->
  exists p, fh_shr_gap_fill_find l seq = Some p /\ (p <> NULL <-> missing es.*2 seq) /\
    (p <> NULL -> p ∈ es.*1 /\ exists n, deref l p = Some n /\ gap_has (gap_of n) seq).
Proof.
  intros Hr Hok. rewrite (gap_find_repr _ _ _ Hr).
  assert (Hnn : forall a, a ∈ es.*1 -> a <> NULL)
    by (intros a; by apply gap_repr_nonnull with l).
  destruct (spec_find_spec es seq Hok Hnn) as [[-> Hm]|(l1 & c & g & l2 & -> & -> & Hh & _)].
  - exists NULL. by repeat split.
  - destruct (gap_repr_open _ _ _ _ _ Hr) as (n & Hl & Hcn & Hd & Hg & _).
    exists c. split; [done|]. split.
    + split; [intros _|done]. rewrite fmap_app, missing_app. cbn. rewrite missing_cons. tauto.
    + intros _. rewrite fmap_app. split; [set_solver|]. exists n. by rewrite Hg.
Qed.

Lemma gap_find_correct_witness :
  exists l es p, gap_repr l es /\ fh_shr_gap_fill_find l 12 = Some p /\ p <> NULL.
Proof.
  destruct (gap_new_repr 64 4096 2 30) as (l0 & _ & H0 & M0 & _); [lia..|].
  destruct (gap_push_spec 1 l0 [] 10 5 H0) as (r1 & n1 & l1 & _ & H1 & _); [lia|].
  rewrite M0 in H1. cbn in H1.
  destruct (gap_find_correct l1 _ 12 H1) as (p & E & Hp & _); [repeat constructor; cbn; lia|].
  eexists l1, _, p. split; [exact H1|]. split; [exact E|]. apply Hp.
  exists (MkGap 10 5 1). split; [left | unfold gap_has; cbn; lia].
Defined.

(** Filling a missing number (find, then del) removes that number and no
    other from the set of missing numbers, and returns 0, unless the list is
    full and the number is strictly inside its gap. *)
Theorem gap_fill_removes l l1 c g l2 seq :
  gap_repr l (l1 ++ (c, g) :: l2) -> gaps_ok (l1 ++ (c, g) :: l2) ->
  gaps_disjoint (l1 ++ (c, g) :: l2) -> gap_has g seq ->
  l.(gl_count) < l.(gl_max) \/ seq = g.(gp_seq) \/ seq = g.(gp_seq) + g.(gp_size) - 1 ->
  fh_shr_gap_fill_find l seq = Some c /\
  exists node l' es', fh_shr_gap_fill_del l c seq = Some (0, node, l') /\
    gap_repr l' es' /\ gaps_ok es' /\
    forall n, missing es'.*2 n <-> missing (l1 ++ (c, g) :: l2).*2 n /\ n <> seq.
Proof.
  intros Hr Hok Hdis Hh Hroom. rewrite (gap_find_repr _ _ _ Hr).
  assert (Hg : gap_ok g) by (apply Forall_app in Hok as [_ [? _]%Forall_cons]; done).
  assert (Hother : forall e, e ∈ (l1 ++ l2).*2 -> ~ gap_has e seq)
    by (intros e He Hn; by eapply (gaps_disjoint_other _ _ _ _ _ Hdis Hh); exists e).
  split.
  { destruct (spec_find_spec _ seq Hok) as [[_ Hn]|(k1 & c' & g' & k2 & E & -> & Hh' & _)].
    - intros a. by apply gap_repr_nonnull with l.
    - destruct Hn. rewrite fmap_app, missing_app. cbn. rewrite missing_cons. tauto.
    - f_equal. assert (Hin : (c, g) ∈ k1 ++ (c', g') :: k2) by (rewrite <- E; set_solver).
      apply elem_of_app in Hin as [Hin|[Hin|Hin]%elem_of_cons]; [exfalso|congruence|exfalso];
        (rewrite E in Hdis; eapply (gaps_disjoint_other _ _ _ _ _ Hdis Hh'); exists g; split; [|done]);
        apply list_elem_of_fmap; exists (c, g); set_solver. }
  destruct (gap_del_spec l l1 c g l2 seq Hr Hg) as (b & l' & Hd).
  pose proof (spec_del_ok (gl_max l <=? gl_count l) l1 c g l2 seq b Hok) as Hok'.
  pose proof (spec_del_missing (gl_max l <=? gl_count l) l1 c g l2 seq b Hg Hh Hother) as Hm.
  assert (Hrc : (spec_del (gl_max l <=? gl_count l) l1 c g l2 seq b).1.1 = 0).
  { unfold spec_del. unfold gap_has in Hh.
    destruct (gp_seq g =? seq) eqn:E1; [done|].
    destruct (gp_seq g + _ - 1 =? seq) eqn:E2; [done|]. bool_to_prop.
    destruct (gl_max l <=? gl_count l) eqn:E3; bool_to_prop; [lia|].
    by destruct (_ && _). }
  destruct (spec_del _ _ _ _ _ _ _) as [[rc node] es']. cbn in Hrc. subst rc.
  destruct Hd as (-> & Hr' & _). exists node, l', es'. do 3 (split; [done|]).
  apply Hm. intros Hf Hin. bool_to_prop. destruct Hin. lia.
Qed.

Lemma gap_fill_removes_witness :
  exists l l1 node l', fh_shr_gap_fill_del l l1 12 = Some (0, node, l') /\
    exists es, gap_repr l' es /\ ~ missing es.*2 12 /\ missing es.*2 13.
Proof.
  destruct (gap_new_repr 64 4096 2 30) as (l0 & _ & H0 & M0 & _); [lia..|].
  destruct (gap_push_spec 1 l0 [] 10 5 H0) as (r1 & n1 & l1 & _ & H1 & _ & M1 & _); [lia|].
  rewrite M0 in H1. cbn in H1.
  assert (Hc : l1.(gl_count) = 1) by exact (gr_count _ _ H1).
  destruct (gap_fill_removes l1 [] n1 (MkGap 10 5 1) [] 12 H1)
    as (_ & node & l' & es' & E & Hr' & _ & Hm);
    [repeat constructor; cbn; lia | | unfold gap_has; cbn; lia | lia |].
  { apply gaps_disjoint_one. }
  exists l1, n1, node, l'. split; [exact E|]. exists es'. split; [exact Hr'|].
  split; [intros [_ Hn]%Hm; by apply Hn|].
  apply Hm. split; [|done]. exists (MkGap 10 5 1). split; [left | unfold gap_has; cbn; lia].
Defined.

(** [fh_shr_gap_fill_flush] gives up exactly the gaps at the front of
    the list older than the timeout, up to the first that is not, and returns
    the number of messages they covered. *)
Theorem gap_flush_expires now l es :
  gap_repr l es -> gaps_ok es -> 0 <= l.(gl_timeout) <= now -> now < 2 ^ 62 ->
  foldr Z.add 0 (gp_size ∘ snd <$> es) < 2147483648 ->
  exists lost l' es1 es2, es = es1 ++ es2 /\
    fh_shr_gap_fill_flush now l = Some (lost, l') /\ gap_repr l' es2 /\
    Forall (fun e => e.2.(gp_ts) < now - l.(gl_timeout)) es1 /\
    (forall e, head es2 = Some e -> now - l.(gl_timeout) <= e.2.(gp_ts)) /\
    lost = foldr Z.add 0 (gp_size ∘ snd <$> es1).
Proof.
  intros Hr Hok Ht Hn Hs. destruct (gap_flush_spec now l es Hr) as (l' & E & Hr' & _).
  rewrite s64_small in E, Hr' by lia.
  destruct (spec_flush_suffix (now - gl_timeout l) es 0) as (es1 & Ees & F & HS & HH).
  eexists _, l', es1, _. split; [exact Ees|]. split; [exact E|]. split; [exact Hr'|].
  split; [exact F|]. split; [exact HH|]. by apply HS; [|lia|].
Qed.

Lemma gap_flush_expires_witness :
  exists l es lost l', gap_repr l es /\
    fh_shr_gap_fill_flush 100 l = Some (lost, l') /\ lost = 5 /\ l'.(gl_count) = 1.
Proof.
  destruct (gap_new_repr 64 4096 2 30) as (l0 & _ & H0 & M0 & T0); [lia..|].
  destruct (gap_push_spec 1 l0 [] 10 5 H0) as (r1 & n1 & l1 & _ & H1 & _ & M1 & T1); [lia|].
  rewrite M0 in H1. cbn in H1.
  destruct (gap_push_spec 90 l1 _ 20 6 H1) as (r2 & n2 & l2 & _ & H2 & _ & M2 & T2); [lia|].
  rewrite M1, M0 in H2. cbn in H2.
  destruct (gap_flush_expires 100 l2 _ H2) as (lost & l' & es1 & es2 & E & Ef & Hr' & F & Hh & Hl);
    [repeat constructor; cbn; lia | lia | lia | reflexivity |].
  eexists l2, _, lost, l'. split; [exact H2|]. split; [exact Ef|].
  assert (Hes : es1 = [(n1, MkGap 10 5 1)]).
  { destruct es1 as [|e1 es1].
    - cbn in E. subst es2. specialize (Hh _ eq_refl). cbn in Hh. lia.
    - injection E as <- E. destruct es1 as [|e2 es1]; [done|]. injection E as <- E.
      apply Forall_cons in F as [_ [F _]%Forall_cons]. cbn in F. lia. }
  subst es1. injection E as <-. split; [exact Hl | exact (gr_count _ _ Hr')].
Defined.

(** A list configured with [max] = 1 is corrupted by the push that finds
    it full: the new node is linked behind itself and [head] becomes [NULL],
    so that no number is ever found again and the push after that
    dereferences [NULL]. *)
Theorem gap_single_slot_corrupt now l a g seq size :
  gap_repr l [(a, g)] -> l.(gl_max) = 1 ->
  exists rc l', fh_shr_gap_fill_push now l seq size = Some (rc, l') /\
    l'.(gl_head) = NULL /\
    (exists n, deref l' a = Some n /\ n.(g_next) = a) /\
    (forall s, fh_shr_gap_fill_find l' s = Some NULL) /\
    (forall t s z, fh_shr_gap_fill_push t l' s z = None).
Proof.
  intros Hr Hm. pose proof (gr_count _ _ Hr) as Hc.
  destruct (gap_repr_open l [] a g [] Hr) as (n & Hl & Han & Hd & Hg & Ha).
  destruct (gr_seg _ _ Hr) as (last & (Hh & _ & n' & Hl' & _ & _ & _ & [Hnx Hla]) & Ht).
  assert (n' = n) as -> by congruence. subst last. cbn in Hc, Ht.
  unfold fh_shr_gap_fill_push at 1. rewrite Hm, Hc. cbn [Z.ltb u32].
  change (1 <? u32 (1 + 1)) with true. cbn iota. rewrite Hh, Hd. cbn [mbind option_bind].
  unfold gap_push_tail. rewrite (eqb_false_of_ne a NULL) by done. cbn.
  rewrite Ht. cbn. rewrite (eqb_false_of_ne a NULL) by done.
  rewrite (upd_lookup _ _ _ (MkNode seq size now NULL a (gl_addr l)))
    by (try done; cbn; apply lookup_insert_eq).
  cbn. eexists _, _. split; [done|]. cbn. split; [done|]. split; [|split].
  - exists (MkNode seq size now a a (gl_addr l)). split; [|done].
    unfold deref. rewrite (eqb_false_of_ne a NULL) by done. apply lookup_insert_eq.
  - intros s. unfold fh_shr_gap_fill_find. cbn. rewrite Hnx. done.
  - intros t s z. unfold fh_shr_gap_fill_push. cbn. rewrite Hm, Hc.
    change (1 <? u32 (1 + 1)) with true. cbn iota. by rewrite Hnx.
Qed.

Lemma gap_single_slot_corrupt_witness :
  exists l a g rc l', gap_repr l [(a, g)] /\ l.(gl_max) = 1 /\
    fh_shr_gap_fill_push 2 l 20 3 = Some (rc, l') /\
    fh_shr_gap_fill_find l' 20 = Some NULL.
Proof.
  destruct (gap_new_repr 64 4096 1 30) as (l0 & _ & H0 & M0 & _); [lia..|].
  destruct (gap_push_room 1 l0 [] 10 5 H0) as (b & l1 & _ & _ & H1 & M1 & _); [cbn; lia|].
  cbn in H1. destruct (gap_single_slot_corrupt 2 l1 b _ 20 3 H1)
    as (rc & l' & E & _ & _ & Hf & _); [lia|].
  eexists l1, b, _, rc, l'. split; [exact H1|]. split; [lia|]. split; [exact E|].
  exact (Hf 20).
Defined.

(** When a number strictly inside a gap is filled on a full list and the
    gap is not the first, the oldest gap [gh] is given up to hold the upper
    half. The value returned is the size of the filled gap, not of the one
    given up, and the upper half keeps the time stamp of the one given up. *)
Theorem gap_repurpose_loss l h gh l1 c g l2 seq :
  gap_repr l ((h, gh) :: l1 ++ (c, g) :: l2) -> gap_ok g -> strictly_inside g seq ->
  l.(gl_count) = l.(gl_max) ->
  exists l', fh_shr_gap_fill_del l c seq = Some (g.(gp_size), h, l') /\
    gap_repr l' (l1 ++ (c, MkGap g.(gp_seq) (seq - g.(gp_seq)) g.(gp_ts)) ::
      (h, MkGap (seq + 1) (g.(gp_seq) + g.(gp_size) - 1 - seq) gh.(gp_ts)) :: l2).
Proof.
  intros Hr Hg Hin Hfull. pose proof Hg as (?&?&?). destruct Hin as [? ?].
  destruct (gap_del_spec l ((h, gh) :: l1) c g l2 seq Hr Hg) as (b & l' & Hd).
  rewrite Hfull, Z.leb_refl in Hd. unfold spec_del in Hd.
  rewrite (eqb_false_of_ne _ seq), (eqb_false_of_ne _ seq) in Hd by lia.
  replace ((gp_seq g <? seq) && (seq <? gp_seq g + gp_size g - 1)) with true in Hd by lia.
  destruct Hd as (E & Hr' & _). exists l'. done.
Qed.

Lemma gap_repurpose_loss_witness :
  exists l c h l', fh_shr_gap_fill_del l c 24 = Some (9, h, l') /\
    exists es, gap_repr l ((h, MkGap 10 5 1) :: es).
Proof.
  destruct (gap_new_repr 64 4096 2 30) as (l0 & _ & H0 & M0 & _); [lia..|].
  destruct (gap_push_spec 1 l0 [] 10 5 H0) as (r1 & n1 & l1 & _ & H1 & _ & M1 & _); [lia|].
  rewrite M0 in H1. cbn in H1.
  destruct (gap_push_spec 2 l1 _ 20 9 H1) as (r2 & n2 & l2 & _ & H2 & _ & M2 & _); [lia|].
  rewrite M1, M0 in H2. cbn in H2.
  assert (Hc : l2.(gl_count) = 2) by exact (gr_count _ _ H2).
  destruct (gap_repurpose_loss l2 n1 _ [] n2 (MkGap 20 9 2) [] 24 H2) as (l' & E & _);
    [split; cbn; lia | split; cbn; lia | lia |].
  exists l2, n2, n1, l'. split; [exact E|]. eexists. exact H2.
Defined.
