(* ===== verification/Jhash.v ===== *)
(** * The hash functions ([src/common/missing/jhash.h])

    Bob Jenkins' hash on bytes ([jhash]) and on 32-bit words ([jhash2]).  The
    table keys of the feed handlers are hashed as arrays of words; the main
    theorem is that this is the hash of the bytes of the key. *)
From S2P Require Import Prelude Bytes.

Definition JHASH_GOLDEN_RATIO : Z := 2654435769.

(** The nine statements of the [__jhash_mix] macro. *)
Definition jhash_mix (s : Z * Z * Z) : Z * Z * Z :=
  let '(a, b, c) := s in
  let a := Z.lxor (u32 (u32 (a - b) - c)) (Z.shiftr c 13) in
  let b := Z.lxor (u32 (u32 (b - c) - a)) (u32 (Z.shiftl a 8)) in
  let c := Z.lxor (u32 (u32 (c - a) - b)) (Z.shiftr b 13) in
  let a := Z.lxor (u32 (u32 (a - b) - c)) (Z.shiftr c 12) in
  let b := Z.lxor (u32 (u32 (b - c) - a)) (u32 (Z.shiftl a 16)) in
  let c := Z.lxor (u32 (u32 (c - a) - b)) (Z.shiftr b 5) in
  let a := Z.lxor (u32 (u32 (a - b) - c)) (Z.shiftr c 3) in
  let b := Z.lxor (u32 (u32 (b - c) - a)) (u32 (Z.shiftl a 10)) in
  let c := Z.lxor (u32 (u32 (c - a) - b)) (Z.shiftr b 15) in
  (a, b, c).

(** [k[0] + ((uint32_t)k[1]<<8) + ((uint32_t)k[2]<<16) + ((uint32_t)k[3]<<24)] *)
Definition jhash_word (k0 k1 k2 k3 : Z) : Z :=
  u32 (u32 (u32 (k0 + u32 (Z.shiftl k1 8)) + u32 (Z.shiftl k2 16)) + u32 (Z.shiftl k3 24)).

(** The [switch] on the number of bytes left: case [n] falls through to all
    the cases below it.  [k] holds the remaining bytes. *)
Definition jhash_tail (s : Z * Z * Z) (k : list Z) : Z * Z * Z :=
  let '(a, b, c) := s in
  let at_ i sh := u32 (Z.shiftl (default 0 (k !! i)) sh) in
  let c := if (11 <=? length k)%nat then u32 (c + at_ 10%nat 24) else c in
  let c := if (10 <=? length k)%nat then u32 (c + at_ 9%nat 16) else c in
  let c := if (9 <=? length k)%nat then u32 (c + at_ 8%nat 8) else c in
  let b := if (8 <=? length k)%nat then u32 (b + at_ 7%nat 24) else b in
  let b := if (7 <=? length k)%nat then u32 (b + at_ 6%nat 16) else b in
  let b := if (6 <=? length k)%nat then u32 (b + at_ 5%nat 8) else b in
  let b := if (5 <=? length k)%nat then u32 (b + at_ 4%nat 0) else b in
  let a := if (4 <=? length k)%nat then u32 (a + at_ 3%nat 24) else a in
  let a := if (3 <=? length k)%nat then u32 (a + at_ 2%nat 16) else a in
  let a := if (2 <=? length k)%nat then u32 (a + at_ 1%nat 8) else a in
  let a := if (1 <=? length k)%nat then u32 (a + at_ 0%nat 0) else a in
  (a, b, c).

(** The body of the [while (len >= 12)] loop. *)
Definition jhash_round (k0 k1 k2 k3 k4 k5 k6 k7 k8 k9 k10 k11 : Z) (s : Z * Z * Z)
    : Z * Z * Z :=
  let '(a, b, c) := s in
  jhash_mix (u32 (a + jhash_word k0 k1 k2 k3),
    u32 (b + jhash_word k4 k5 k6 k7), u32 (c + jhash_word k8 k9 k10 k11)).

(** The loop, for any body; the bytes left over go to the [switch]. *)
Section loops.
Context {S : Type}.

Fixpoint loop12 (round : Z -> Z -> Z -> Z -> Z -> Z -> Z -> Z -> Z -> Z -> Z -> Z -> S -> S)
    (k : list Z) (s : S) : S * list Z :=
  match k with
  | k0 :: k1 :: k2 :: k3 :: k4 :: k5 :: k6 :: k7 :: k8 :: k9 :: k10 :: k11 :: k' =>
      loop12 round k' (round k0 k1 k2 k3 k4 k5 k6 k7 k8 k9 k10 k11 s)
  | _ => (s, k)
  end.

Fixpoint loop3 (round : Z -> Z -> Z -> S -> S) (k : list Z) (s : S) : S * list Z :=
  match k with
  | k0 :: k1 :: k2 :: k' => loop3 round k' (round k0 k1 k2 s)
  | _ => (s, k)
  end.

Lemma loop12_step round l k s k0 k1 k2 k3 k4 k5 k6 k7 k8 k9 k10 k11 :
  l = [k0; k1; k2; k3; k4; k5; k6; k7; k8; k9; k10; k11] ->
  loop12 round (l ++ k) s = loop12 round k (round k0 k1 k2 k3 k4 k5 k6 k7 k8 k9 k10 k11 s).
Proof. intros ->. reflexivity. Qed.

Lemma loop3_step round k0 k1 k2 k s :
  loop3 round (k0 :: k1 :: k2 :: k) s = loop3 round k (round k0 k1 k2 s).
Proof. reflexivity. Qed.

Lemma loop12_short round k s : (length k < 12)%nat -> loop12 round k s = (s, k).
Proof. intros. do 12 (destruct k as [|? k]; [done|]). cbn in *. lia. Qed.

Lemma loop3_short round k s : (length k < 3)%nat -> loop3 round k s = (s, k).
Proof. intros. do 3 (destruct k as [|? k]; [done|]). cbn in *. lia. Qed.
End loops.

Definition jhash_loop : list Z -> Z * Z * Z -> (Z * Z * Z) * list Z := loop12 jhash_round.

(** [key] holds the [length] bytes that are read. *)
Definition jhash (key : list Z) (initval : Z) : Z :=
  let '((a, b, c), k) := jhash_loop key (JHASH_GOLDEN_RATIO, JHASH_GOLDEN_RATIO, initval) in
  let c := u32 (c + Z.of_nat (length key)) in
  let '(_, _, c) := jhash_mix (jhash_tail (a, b, c) k) in c.

(** The body of the [while (len >= 3)] loop, and the loop. *)
Definition jhash2_round (k0 k1 k2 : Z) (s : Z * Z * Z) : Z * Z * Z :=
  let '(a, b, c) := s in jhash_mix (u32 (a + k0), u32 (b + k1), u32 (c + k2)).

Definition jhash2_loop : list Z -> Z * Z * Z -> (Z * Z * Z) * list Z := loop3 jhash2_round.

Definition jhash2_tail (s : Z * Z * Z) (k : list Z) : Z * Z * Z :=
  let '(a, b, c) := s in
  let b := if (2 <=? length k)%nat then u32 (b + default 0 (k !! 1%nat)) else b in
  let a := if (1 <=? length k)%nat then u32 (a + default 0 (k !! 0%nat)) else a in
  (a, b, c).

Definition jhash2 (k : list Z) (initval : Z) : Z :=
  let '((a, b, c), r) := jhash2_loop k (JHASH_GOLDEN_RATIO, JHASH_GOLDEN_RATIO, initval) in
  let c := u32 (c + u32 (u32 (Z.of_nat (length k)) * 4)) in
  let '(_, _, c) := jhash_mix (jhash2_tail (a, b, c) r) in c.

(** ** Words and bytes *)

(** Reading an array of [uint32_t] from memory (little endian). *)
Fixpoint words_of (k : list Z) : list Z :=
  match k with
  | k0 :: k1 :: k2 :: k3 :: k' =>
      k0 + 256 * k1 + 65536 * k2 + 16777216 * k3 :: words_of k'
  | _ => []
  end.

Lemma jhash_word_eq k0 k1 k2 k3 :
  is_byte k0 -> is_byte k1 -> is_byte k2 -> is_byte k3 ->
  jhash_word k0 k1 k2 k3 = k0 + 256 * k1 + 65536 * k2 + 16777216 * k3.
Proof.
  unfold is_byte, jhash_word. intros. rewrite !Z.shiftl_mul_pow2 by lia.
  change (2 ^ 8) with 256. change (2 ^ 16) with 65536. change (2 ^ 24) with 16777216.
  word_lia.
Qed.

(** Adding the bytes of a word one at a time. *)
Lemma jhash_add_word x k0 k1 k2 k3 :
  is_byte k0 -> is_byte k1 -> is_byte k2 -> is_byte k3 ->
  u32 (u32 (u32 (u32 (x + u32 (Z.shiftl k3 24)) + u32 (Z.shiftl k2 16)) +
    u32 (Z.shiftl k1 8)) + u32 (Z.shiftl k0 0)) =
  u32 (x + (k0 + 256 * k1 + 65536 * k2 + 16777216 * k3)).
Proof.
  unfold is_byte. intros. rewrite !Z.shiftl_mul_pow2 by lia.
  change (2 ^ 0) with 1. change (2 ^ 8) with 256. change (2 ^ 16) with 65536.
  change (2 ^ 24) with 16777216. word_lia.
Qed.

(** Induction by groups of [n] elements. *)
Lemma list_group_ind {A} (n : nat) (P : list A -> Prop) : (0 < n)%nat ->
  (forall l, (length l < n)%nat -> P l) ->
  (forall l r, length l = n -> P r -> P (l ++ r)) -> forall l, P l.
Proof.
  intros Hn Hs Hg l. remember (length l) as m eqn:Hm.
  revert l Hm. induction (lt_wf m) as [m _ IH]. intros l ->.
  destruct (decide (length l < n)%nat) as [Hl|Hl]; [by apply Hs|].
  rewrite <- (take_drop n l). apply Hg; [rewrite length_take; lia|].
  apply (IH (length (drop n l))); [rewrite length_drop; lia | done].
Qed.

Lemma words_of_app4 l r : length l = 4%nat -> words_of (l ++ r) = words_of l ++ words_of r.
Proof. repeat (destruct l as [|? l]; try discriminate). done. Qed.

Lemma length_words_of n : forall k, length k = (4 * n)%nat -> length (words_of k) = n.
Proof.
  induction n as [|n IH]; intros k Hk; [by destruct k|].
  do 4 (destruct k as [|? k]; [cbn in Hk; lia|]). cbn in *. f_equal. apply IH. lia.
Qed.

(** One round on bytes is one round on their words. *)
Lemma jhash_round_words k0 k1 k2 k3 k4 k5 k6 k7 k8 k9 k10 k11 s :
  Forall is_byte [k0; k1; k2; k3; k4; k5; k6; k7; k8; k9; k10; k11] ->
  jhash_round k0 k1 k2 k3 k4 k5 k6 k7 k8 k9 k10 k11 s =
  jhash2_round (k0 + 256 * k1 + 65536 * k2 + 16777216 * k3)
    (k4 + 256 * k5 + 65536 * k6 + 16777216 * k7)
    (k8 + 256 * k9 + 65536 * k10 + 16777216 * k11) s.
Proof.
  intros Hb. repeat (apply Forall_cons in Hb as [? Hb]).
  destruct s as [[a b] c]. unfold jhash_round, jhash2_round.
  by rewrite !jhash_word_eq by done.
Qed.

(** The two loops run in step, and leave the same words to the [switch]. *)
Lemma jhash_loop_words k : forall n s,
  Forall is_byte k -> length k = (4 * n)%nat ->
  exists s' r m, jhash_loop k s = (s', r) /\ jhash2_loop (words_of k) s = (s', words_of r) /\
    Forall is_byte r /\ length r = (4 * m)%nat /\ (m < 3)%nat.
Proof.
  pattern k. revert k.
  apply (list_group_ind 12); [lia | intros k Hs n s Hb Hk | intros l k Hl IH n s Hb Hk].
  - exists s, k, n. unfold jhash_loop, jhash2_loop. rewrite loop12_short, loop3_short;
      [repeat (split; [done|]); lia | rewrite (length_words_of n); lia | done].
  - rewrite length_app, Hl in Hk. apply Forall_app in Hb as [Hl' Hb].
    unfold jhash_loop, jhash2_loop.
    do 12 (destruct l as [|? l]; [discriminate|]). destruct l; [|discriminate].
    erewrite loop12_step by reflexivity. rewrite jhash_round_words by done.
    cbn [words_of app]. rewrite loop3_step. apply (IH (n - 3)%nat); [done | lia].
Qed.

Lemma jhash_tail_words s r m :
  Forall is_byte r -> length r = (4 * m)%nat -> (m < 3)%nat ->
  jhash_tail s r = jhash2_tail s (words_of r).
Proof.
  intros Hb Hl Hm. destruct s as [[a b] c].
  assert (m = 0 \/ m = 1 \/ m = 2)%nat as [->|[->| ->]] by lia;
    repeat (destruct r as [|? r]; try discriminate);
    repeat (apply Forall_cons in Hb as [? Hb]); cbn -[Z.mul Z.add Z.shiftl];
    rewrite ?jhash_add_word by done; done.
Qed.

(** ** Properties *)

(** C31: equivalence. Hashing a key as an array of [uint32_t] ([jhash2]) gives the hash of
    its bytes ([jhash]), for every key whose size is a multiple of 4. *)
Theorem jhash2_is_jhash k n initval :
  Forall is_byte k -> length k = (4 * n)%nat -> Z.of_nat n < 1073741824 ->
  jhash2 (words_of k) initval = jhash k initval.
Proof.
  intros Hb Hk Hn. unfold jhash, jhash2.
  destruct (jhash_loop_words k n (JHASH_GOLDEN_RATIO, JHASH_GOLDEN_RATIO, initval) Hb Hk)
    as (((a & b) & c) & r & m & -> & -> & Hr & Hl & Hm).
  rewrite (length_words_of n), Hk by done.
  rewrite (u32_small (Z.of_nat n)), (u32_small (_ * 4)) by lia.
  rewrite (jhash_tail_words _ r m) by done.
  by replace (Z.of_nat (4 * n)) with (Z.of_nat n * 4) by lia.
Qed.

Lemma jhash2_is_jhash_witness :
  jhash2 (words_of [65; 65; 80; 76; 0; 0; 0; 0]) 0 = jhash [65; 65; 80; 76; 0; 0; 0; 0] 0.
Proof. apply (jhash2_is_jhash _ 2); [repeat constructor; done | done | lia]. Defined.

(** The state of the hash stays within 32 bits. *)
Lemma lxor_u32 a b : 0 <= a < 4294967296 -> 0 <= b < 4294967296 ->
  0 <= Z.lxor a b < 4294967296.
Proof.
  intros Ha Hb. split; [rewrite Z.lxor_nonneg; lia|].
  destruct (decide (Z.lxor a b = 0)) as [->|H0]; [lia|].
  assert (Hp : 0 <= Z.lxor a b) by (rewrite Z.lxor_nonneg; lia).
  change 4294967296 with (2 ^ 32). apply Z.log2_lt_pow2; [lia|].
  eapply Z.le_lt_trans; [apply Z.log2_lxor; lia|].
  apply Z.max_lub_lt; [destruct (decide (a = 0)) as [->|]; [done|]
    | destruct (decide (b = 0)) as [->|]; [done|]]; apply Z.log2_lt_pow2; lia.
Qed.

Lemma shiftr_u32 a n : 0 <= a < 4294967296 -> 0 <= n -> 0 <= Z.shiftr a n < 4294967296.
Proof.
  intros Ha Hn. rewrite Z.shiftr_div_pow2 by done.
  pose proof (Z.pow_pos_nonneg 2 n). split; [apply Z.div_pos; lia|].
  apply Z.div_lt_upper_bound; nia.
Qed.

Lemma jhash_mix_range s a b c : 0 <= s.2 < 4294967296 ->
  jhash_mix s = (a, b, c) -> 0 <= c < 4294967296.
Proof.
  destruct s as [[a0 b0] c0]. cbn [snd]. intros Hc. unfold jhash_mix.
  intros [= _ _ <-].
  repeat (apply lxor_u32 || apply shiftr_u32 || apply u32_range || done || lia).
Qed.

Lemma jhash2_range k initval : 0 <= jhash2 k initval < 4294967296.
Proof.
  unfold jhash2. destruct (jhash2_loop _ _) as [[[a b] c] r].
  destruct (jhash_mix _) as [[a' b'] c'] eqn:E.
  eapply jhash_mix_range; [|exact E]. unfold jhash2_tail. cbn [snd]. apply u32_range.
Qed.
