(* ===== verification/HTable.v ===== *)
(** * Hash tables ([src/common/fh_htable.c], [fh_htable.h])

    Chained hash tables whose elements come from an [Mpool]. A collision list
    ([TAILQ]) is a list of elements; [he_chead], the list an element is in, is
    its index in [ht_table]. Keys are pointers ([K]) into some memory ([M])
    owned by the caller, so the key operations take the memory as it is at
    the time of the call; they return [None] when their [FH_ASSERT] fails. *)
From S2P Require Import Prelude Mpool.

Definition FH_HT_FL_GROW : Z := 1.
Definition sizeof_ht : Z := 56.
Definition sizeof_he_head : Z := 16.
Definition sizeof_ht_elt : Z := 48.

(** [ht_npower]: the [for] loop, from [k] on; [1 << k] is an [int]. *)
Fixpoint ht_npower_from (fuel : nat) (k n : Z) : Z :=
  match fuel with
  | O => 0
  | S fuel =>
      let size := s32 (Z.shiftl 1 k) in
      if n <=? size then size else ht_npower_from fuel (k + 1) n
  end.

Definition ht_npower (n : Z) : Z := ht_npower_from 32 0 n.

Section htable.
Context {M K : Type}.

Record fh_ht_elt := MkElt {
  he_addr : Z;        (* the element's own address *)
  he_chead : nat;
  he_value : Z;
  he_key : K;
  he_klen : Z;
  he_hashval : Z
}.

Definition set_chead (c : nat) (he : fh_ht_elt) : fh_ht_elt :=
  MkElt he.(he_addr) c he.(he_value) he.(he_key) he.(he_klen) he.(he_hashval).

Record fh_ht_kops := MkKops {
  kops_khash : M -> K -> Z -> option Z;
  kops_kcmp : M -> K -> K -> Z -> option bool
}.

Record fh_ht := MkHt {
  ht_mpool : fh_mpool;
  ht_table : list (list fh_ht_elt);
  ht_size : Z;
  ht_count : Z;
  ht_mask : Z;
  ht_flags : Z;
  ht_kops : fh_ht_kops
}.

Definition ht_set (ht : fh_ht) mp table count : fh_ht :=
  MkHt mp table ht.(ht_size) count ht.(ht_mask) ht.(ht_flags) ht.(ht_kops).

Definition ht_index (ht : fh_ht) (hval : Z) : Z := Z.land hval ht.(ht_mask).

(** [&ht->ht_table[index]] must be a bucket of the table. *)
Definition ht_bucket (ht : fh_ht) (index : Z) : option (list fh_ht_elt) :=
  if index <? 0 then None else ht.(ht_table) !! Z.to_nat index.

(** The [bool]s and [arena] say which allocations succeed. On an error the
    table allocated so far is freed ([fh_ht_free]). *)
Definition fh_ht_new (mem_ht mem_table mem_mp mem_name : bool) (arena : option Z)
    (size flags : Z) (kops : fh_ht_kops) : option fh_ht :=
  if negb mem_ht then None
  else
    let psize := size in
    let size := ht_npower (s32 (size * 2)) in
    if negb mem_table then None
    else
      let pflags := if flag_set flags FH_HT_FL_GROW then FH_MPOOL_FL_GROW else 0 in
      mp ← fh_mpool_new mem_mp mem_name arena "HASH_ELMT" sizeof_ht_elt psize pflags;
      Some (MkHt mp (replicate (Z.to_nat size) []) (u32 size) 0 (u32 (size - 1))
              (u32 flags) kops).

(** What [fh_ht_free] releases, in order: the table, the pool's blocks and
    the header. *)
Definition fh_ht_free (ht : fh_ht) : list (list fh_ht_elt) * list Z :=
  (ht.(ht_table), fh_mpool_free ht.(ht_mpool)).

(** [TAILQ_INSERT_HEAD(&table[index], he, he_next); he->he_chead = ...] *)
Definition bucket_insert (table : list (list fh_ht_elt)) (index : Z) (he : fh_ht_elt)
    : option (list (list fh_ht_elt)) :=
  if index <? 0 then None
  else
    b ← table !! Z.to_nat index;
    Some (<[Z.to_nat index := set_chead (Z.to_nat index) he :: b]> table).

(** The [while] of [ht_grow]: empty one old collision list, from its head. *)
Fixpoint ht_move (mask : Z) (old : list fh_ht_elt) (newtable : list (list fh_ht_elt))
    : option (list (list fh_ht_elt)) :=
  match old with
  | [] => Some newtable
  | he :: old =>
      newtable ← bucket_insert newtable (Z.land he.(he_hashval) mask) he;
      ht_move mask old newtable
  end.

(** The [for] of [ht_grow], on the old table from its last entry down. *)
Fixpoint ht_rehash (mask : Z) (old_rev : list (list fh_ht_elt))
    (newtable : list (list fh_ht_elt)) : option (list (list fh_ht_elt)) :=
  match old_rev with
  | [] => Some newtable
  | b :: old_rev =>
      newtable ← ht_move mask b newtable;
      ht_rehash mask old_rev newtable
  end.

Definition ht_grow (mem_table : bool) (ht : fh_ht) : option (Z * fh_ht) :=
  let size := s32 ht.(ht_size) in
  let newsize := ht_npower (s32 (2 * size)) in
  if negb mem_table then Some (FH_ERROR, ht)
  else
    let mask := u32 (newsize - 1) in
    newtable ← ht_rehash mask (reverse ht.(ht_table)) (replicate (Z.to_nat newsize) []);
    Some (FH_OK, MkHt ht.(ht_mpool) newtable (u32 newsize) ht.(ht_count) mask
                   ht.(ht_flags) ht.(ht_kops)).

(** [TAILQ_FOREACH] up to the first element with the key: the comparison
    function is called only on elements whose hash and length agree. *)
Fixpoint bucket_find (kops : fh_ht_kops) (mem : M) (hashval klen : Z) (key : K)
    (b : list fh_ht_elt) : option (option fh_ht_elt) :=
  match b with
  | [] => Some None
  | he :: b =>
      if (he.(he_hashval) =? hashval) && (he.(he_klen) =? klen) then
        eq ← kops.(kops_kcmp) mem he.(he_key) key klen;
        if (eq : bool) then Some (Some he) else bucket_find kops mem hashval klen key b
      else bucket_find kops mem hashval klen key b
  end.

(** [arena] and [mem_table]: the results of the [malloc] and [calloc] calls
    of [fh_mpool_get] and [ht_grow], if they are made. *)
Definition fh_ht_put (arena : option Z) (mem_table : bool) (mem : M) (ht : fh_ht)
    (key : K) (klen value : Z) : option (Z * fh_ht) :=
  let kops := ht.(ht_kops) in
  hashval ← kops.(kops_khash) mem key klen;
  let index := ht_index ht hashval in
  he_head ← ht_bucket ht index;
  dup ← bucket_find kops mem hashval klen key he_head;
  match dup with
  | Some _ => Some (FH_ERR_DUP, ht)
  | None =>
      '(he, mp) ← fh_mpool_get arena ht.(ht_mpool);
      let ht := ht_set ht mp ht.(ht_table) ht.(ht_count) in
      if he =? NULL then Some (FH_ERROR, ht)
      else
        let ht := ht_set ht mp ht.(ht_table) (u32 (ht.(ht_count) + 1)) in
        ht ← (if flag_set ht.(ht_flags) FH_HT_FL_GROW &&
                 (u32 (4 * ht.(ht_size)) <? u32 (5 * ht.(ht_count)))
              then '(_, ht) ← ht_grow mem_table ht; Some ht
              else Some ht);
        let index := ht_index ht hashval in
        table ← bucket_insert ht.(ht_table) index (MkElt he 0 value key klen hashval);
        Some (FH_OK, ht_set ht ht.(ht_mpool) table ht.(ht_count))
  end.

Definition ht_lookup (mem : M) (ht : fh_ht) (key : K) (klen : Z) : option (option fh_ht_elt) :=
  let kops := ht.(ht_kops) in
  hashval ← kops.(kops_khash) mem key klen;
  he_head ← ht_bucket ht (ht_index ht hashval);
  bucket_find kops mem hashval klen key he_head.

(** The status and [*value] ([NULL] when the key is not there). *)
Definition fh_ht_get (mem : M) (ht : fh_ht) (key : K) (klen : Z) : option (Z * Z) :=
  he ← ht_lookup mem ht key klen;
  match he with
  | None => Some (FH_ERR_NOTFOUND, NULL)
  | Some he => Some (FH_OK, he.(he_value))
  end.

(** [TAILQ_REMOVE(he->he_chead, he, he_next)] *)
Definition table_remove (table : list (list fh_ht_elt)) (he : fh_ht_elt) : list (list fh_ht_elt) :=
  alter (filter (fun e => e.(he_addr) <> he.(he_addr))) he.(he_chead) table.

Definition fh_ht_delete (mem : M) (ht : fh_ht) (key : K) (klen : Z)
    : option (Z * Z * fh_ht) :=
  guard_ub (0 <? ht.(ht_size))
    (he ← ht_lookup mem ht key klen;
     match he with
     | None => Some (FH_ERR_NOTFOUND, NULL, ht)
     | Some he =>
         let table := table_remove ht.(ht_table) he in
         '(_, mp) ← fh_mpool_put ht.(ht_mpool) he.(he_addr);
         guard_ub (0 <? ht.(ht_count))
           (Some (FH_OK, he.(he_value), ht_set ht mp table (u32 (ht.(ht_count) - 1))))
     end).

Definition fh_ht_memuse (ht : fh_ht) : Z :=
  u32 (u32 (sizeof_ht + u32 (ht.(ht_size) * sizeof_he_head)) + fh_mpool_memuse ht.(ht_mpool)).

End htable.

Arguments fh_ht_elt : clear implicits.
Arguments fh_ht_kops : clear implicits.
Arguments fh_ht : clear implicits.

(** ** Powers of two *)

Lemma ht_npower_from_spec n : 0 < n <= 1073741824 -> forall fuel k,
  (Z.of_nat fuel + k = 32) -> 0 <= k <= 30 -> (k = 0 \/ 2 ^ (k - 1) < n) ->
  exists p, ht_npower_from fuel k n = 2 ^ p /\ 0 <= p <= 30 /\ n <= 2 ^ p /\
    (p = 0 \/ 2 ^ (p - 1) < n).
Proof.
  intros Hn. induction fuel as [|fuel IH]; intros k Hf Hk Hlow; [lia|]. cbn.
  rewrite Z.shiftl_mul_pow2, Z.mul_1_l by lia.
  assert (Hp : 0 < 2 ^ k <= 2 ^ 30)
    by (split; [apply Z.pow_pos_nonneg; lia | apply Z.pow_le_mono_r; lia]).
  rewrite s32_small by (change (2 ^ 30) with 1073741824 in Hp; lia).
  destruct (n <=? 2 ^ k) eqn:E; bool_to_prop.
  - exists k. repeat split; try lia.
  - assert (k <> 30) by (intros ->; change (2 ^ 30) with 1073741824 in *; lia).
    apply IH; [lia | lia |]. right. by replace (k + 1 - 1) with k by lia.
Qed.

(** For the sizes that fit, [ht_npower] is the least power of 2 that is at
    least [n]. *)
Lemma ht_npower_spec n : 0 < n <= 1073741824 ->
  exists p, ht_npower n = 2 ^ p /\ 0 <= p <= 30 /\ n <= 2 ^ p /\ (p = 0 \/ 2 ^ (p - 1) < n).
Proof. intros Hn. apply ht_npower_from_spec; lia. Qed.

Lemma land_mask_range h p : 0 <= p -> 0 <= Z.land h (2 ^ p - 1) < 2 ^ p.
Proof.
  intros Hp. replace (2 ^ p - 1) with (Z.ones p) by (rewrite Z.ones_equiv; lia).
  rewrite Z.land_ones by done. apply Z.mod_pos_bound. apply Z.pow_pos_nonneg; lia.
Qed.

(** ** Collision lists *)

Section tables.
Context {K : Type}.
Notation elt := (fh_ht_elt K).

(** Elements up to the list they are in. *)
Definition strip (he : elt) : elt := set_chead 0 he.

(** Every element knows its list, and is in the list of its hash value. *)
Definition table_ok (mask : Z) (table : list (list elt)) : Prop :=
  forall i b he, table !! i = Some b -> he ∈ b ->
    he.(he_chead) = i /\ i = Z.to_nat (Z.land he.(he_hashval) mask).

Lemma concat_insert (table : list (list elt)) i b b' :
  table !! i = Some b ->
  exists rest, concat table ≡ₚ b ++ rest /\ concat (<[i := b']> table) ≡ₚ b' ++ rest.
Proof.
  intros Hb. exists (concat (take i table) ++ concat (drop (S i) table)).
  rewrite insert_take_drop by (by eapply lookup_lt_Some).
  rewrite <- (take_drop_middle table i b Hb) at 1. rewrite !concat_app; cbn. split.
  - rewrite !(assoc_L (++)). f_equiv. apply Permutation_app_comm.
  - rewrite !(assoc_L (++)). f_equiv. apply Permutation_app_comm.
Qed.

Lemma bucket_insert_spec mask table he :
  0 <= Z.land he.(he_hashval) mask < Z.of_nat (length table) ->
  table_ok mask table ->
  exists table', bucket_insert table (Z.land he.(he_hashval) mask) he = Some table' /\
    length table' = length table /\ table_ok mask table' /\
    strip <$> concat table' ≡ₚ strip he :: (strip <$> concat table).
Proof.
  intros Hr Hok. unfold bucket_insert. set (i := Z.land _ _) in *.
  destruct (i <? 0) eqn:E; bool_to_prop; [lia|].
  destruct (lookup_lt_is_Some_2 table (Z.to_nat i)) as [b Hb]; [lia|].
  rewrite Hb. cbn [mbind option_bind]. eexists. split; [done|].
  split; [apply length_insert|]. split.
  - intros j b' he' Hj Hin. apply list_lookup_insert_Some in Hj as [(<- & <- & _)|[_ Hj]].
    + apply elem_of_cons in Hin as [->|Hin]; [done|]. by eapply Hok.
    + by eapply Hok.
  - destruct (concat_insert table _ b (set_chead (Z.to_nat i) he :: b) Hb) as (rest & -> & ->).
    done.
Qed.

Lemma ht_move_spec p old : forall table,
  0 <= p -> Z.of_nat (length table) = 2 ^ p -> table_ok (2 ^ p - 1) table ->
  exists table', ht_move (2 ^ p - 1) old table = Some table' /\
    length table' = length table /\ table_ok (2 ^ p - 1) table' /\
    strip <$> concat table' ≡ₚ (strip <$> old) ++ (strip <$> concat table).
Proof.
  induction old as [|he old IH]; intros table Hp Hlen Hok; cbn [ht_move].
  - exists table. done.
  - destruct (bucket_insert_spec (2 ^ p - 1) table he) as (t1 & -> & Hl1 & Hok1 & Hp1); [|done|].
    { pose proof (land_mask_range he.(he_hashval) p Hp). lia. }
    cbn [mbind option_bind].
    destruct (IH t1 Hp ltac:(lia) Hok1) as (t2 & -> & Hl2 & Hok2 & Hp2).
    exists t2. split; [done|]. split; [congruence|]. split; [done|].
    rewrite Hp2, Hp1. cbn. by rewrite Permutation_middle.
Qed.

Lemma ht_rehash_spec p olds : forall table,
  0 <= p -> Z.of_nat (length table) = 2 ^ p -> table_ok (2 ^ p - 1) table ->
  exists table', ht_rehash (2 ^ p - 1) olds table = Some table' /\
    length table' = length table /\ table_ok (2 ^ p - 1) table' /\
    strip <$> concat table' ≡ₚ (strip <$> concat olds) ++ (strip <$> concat table).
Proof.
  induction olds as [|b olds IH]; intros table Hp Hlen Hok; cbn [ht_rehash].
  - exists table. done.
  - destruct (ht_move_spec p b table Hp Hlen Hok) as (t1 & -> & Hl1 & Hok1 & Hp1).
    cbn [mbind option_bind].
    destruct (IH t1 Hp ltac:(lia) Hok1) as (t2 & -> & Hl2 & Hok2 & Hp2).
    exists t2. split; [done|]. split; [congruence|]. split; [done|].
    rewrite Hp2, Hp1. cbn. rewrite fmap_app. rewrite !(assoc_L (++)). f_equiv.
    apply Permutation_app_comm.
Qed.

Lemma table_ok_empty mask n : table_ok mask (replicate n []).
Proof. intros i b he [-> _]%lookup_replicate. set_solver. Qed.

Lemma concat_empty n : concat (replicate n ([] : list elt)) = [].
Proof. by induction n. Qed.

Lemma concat_reverse (table : list (list elt)) : concat (reverse table) ≡ₚ concat table.
Proof.
  induction table as [|b t IH]; [done|]. rewrite reverse_cons, concat_app. cbn.
  rewrite app_nil_r, IH. apply Permutation_app_comm.
Qed.

(** Removing an element from its collision list. *)
Lemma table_remove_spec mask table he :
  table_ok mask table -> he ∈ concat table -> NoDup (he_addr <$> concat table) ->
  concat table ≡ₚ he :: concat (table_remove table he) /\
  length (table_remove table he) = length table /\ table_ok mask (table_remove table he).
Proof.
  intros Hok Hin Hnd.
  apply list_elem_of_In, in_concat in Hin as (b & Hb%list_elem_of_In & Hhe%list_elem_of_In).
  apply list_elem_of_lookup in Hb as [i Hb].
  destruct (Hok i b he Hb Hhe) as [<- _]. unfold table_remove.
  split; [|split; [apply length_alter|]].
  - set (b' := filter (fun e => he_addr e <> he_addr he) b).
    assert (Ea : alter (filter (fun e => he_addr e <> he_addr he)) (he_chead he) table =
      <[he_chead he := b']> table) by (apply list_alter_insert; done).
    rewrite Ea. destruct (concat_insert table _ b b' Hb) as (rest & Hp & ->).
    rewrite Hp in Hnd |- *. change (he :: b' ++ rest) with ((he :: b') ++ rest). f_equiv.
    apply list_elem_of_split in Hhe as (b1 & b2 & Eb). subst b' b.
    rewrite fmap_app, fmap_app, fmap_cons in Hnd.
    apply NoDup_app in Hnd as [(_ & Hd & [Hni _]%NoDup_cons)%NoDup_app _].
    rewrite filter_app, filter_cons_False by (intros H; by apply H).
    rewrite !list_filter_all.
    + by rewrite Permutation_middle.
    + apply Forall_forall. intros e He Heq. apply Hni. rewrite <- Heq.
      by apply list_elem_of_fmap_2.
    + apply Forall_forall. intros e He Heq.
      apply (Hd (he_addr e)); [by apply list_elem_of_fmap_2 | rewrite Heq; by left].
  - intros j bj e. rewrite list_lookup_alter. case_decide as Hj.
    + subst j. rewrite Hb. intros [= <-] [_ He]%list_elem_of_filter. by eapply Hok.
    + intros Hbj He. by eapply Hok.
Qed.

End tables.

(** ** What a client promises about its keys

    [key_den mem k] is the key value that [k] points to in [mem]; hash and
    comparison must be functions of it. *)
Class KeyOps {M K : Type} (kops : fh_ht_kops M K) (klen : Z) (D : Type)
    `{Countable D} (key_den : M -> K -> option D) := {
  hash_of : D -> Z;
  khash_den mem k d : key_den mem k = Some d ->
    kops.(kops_khash) mem k klen = Some (hash_of d);
  kcmp_den mem k1 k2 d1 d2 : key_den mem k1 = Some d1 -> key_den mem k2 = Some d2 ->
    kops.(kops_kcmp) mem k1 k2 klen = Some (bool_decide (d1 = d2))
}.

Section refine.
Context {M K D : Type} `{Countable D} (kops : fh_ht_kops M K) (klen : Z)
  (den : M -> K -> option D) `{!KeyOps kops klen D den}.
Notation elt := (fh_ht_elt K).
Notation ht_t := (fh_ht M K).

(** The key and value of an element. *)
Definition elt_kv (mem : M) (he : elt) : option (D * Z) :=
  d ← den mem he.(he_key); Some (d, he.(he_value)).

Definition elt_ok (mem : M) (he : elt) : Prop :=
  he.(he_klen) = klen /\ exists d, den mem he.(he_key) = Some d /\ he.(he_hashval) = hash_of d.

Definition contents (mem : M) (es : list elt) : list (D * Z) := omap (elt_kv mem) es.

(** [ht_repr mem ht free m]: in memory [mem], [ht] is a correct table that
    represents the finite map [m], with the chunks [free] left in its pool. *)
Record ht_repr (mem : M) (ht : ht_t) (free : list Z) (m : gmap D Z) : Prop := {
  hr_size : exists p, 0 <= p <= 30 /\ ht.(ht_size) = 2 ^ p /\ ht.(ht_mask) = 2 ^ p - 1 /\
    Z.of_nat (length ht.(ht_table)) = 2 ^ p;
  hr_kops : ht.(ht_kops) = kops;
  hr_table : table_ok ht.(ht_mask) ht.(ht_table);
  hr_elts : Forall (elt_ok mem) (concat ht.(ht_table));
  hr_pool : pool_wf ht.(ht_mpool) free (chunk_of ∘ he_addr <$> concat ht.(ht_table));
  hr_nchunks : 0 < ht.(ht_mpool).(mp_nchunks);
  hr_nodup : NoDup (contents mem (concat ht.(ht_table))).*1;
  hr_map : m = list_to_map (contents mem (concat ht.(ht_table)));
  hr_count : ht.(ht_count) = Z.of_nat (length (concat ht.(ht_table)))
}.

(** The keys and values that are in a table. *)
Definition ht_keyvals (ht : ht_t) : list (K * Z) :=
  (fun he => (he.(he_key), he.(he_value))) <$> concat ht.(ht_table).

Lemma keyvals_strip (es es' : list elt) : strip <$> es ≡ₚ strip <$> es' ->
  (fun he => (he.(he_key), he.(he_value))) <$> es ≡ₚ (fun he => (he.(he_key), he.(he_value))) <$> es'.
Proof.
  intros Hp.
  assert (Hc : forall l : list elt, (fun he => (he.(he_key), he.(he_value))) <$> (strip <$> l) =
    (fun he => (he.(he_key), he.(he_value))) <$> l)
    by (intros l; rewrite <- list_fmap_compose; done).
  rewrite <- (Hc es), <- (Hc es'). by rewrite Hp.
Qed.

Lemma contents_cons mem he es d : den mem he.(he_key) = Some d ->
  contents mem (he :: es) = (d, he.(he_value)) :: contents mem es.
Proof. intros Hd. unfold contents; cbn. unfold elt_kv at 1. by rewrite Hd. Qed.

Lemma elem_of_contents mem es d v :
  (d, v) ∈ contents mem es <->
  exists he, he ∈ es /\ den mem he.(he_key) = Some d /\ he.(he_value) = v.
Proof.
  unfold contents. rewrite list_elem_of_omap. unfold elt_kv. split.
  - intros (he & Hin & Hkv). exists he. destruct (den mem (he_key he)); naive_solver.
  - intros (he & Hin & Hd & <-). exists he. by rewrite Hd.
Qed.

(** Neither the contents nor the well-formedness of the elements depend on
    the order of the elements or on the lists they are in. *)
Lemma contents_strip mem es : contents mem (strip <$> es) = contents mem es.
Proof. unfold contents. induction es as [|he es IH]; [done|]. cbn. by rewrite IH. Qed.

Lemma elts_ok_strip mem es : Forall (elt_ok mem) (strip <$> es) <-> Forall (elt_ok mem) es.
Proof. rewrite Forall_fmap. done. Qed.

Lemma addrs_strip (es : list elt) :
  chunk_of ∘ he_addr <$> (strip <$> es) = chunk_of ∘ he_addr <$> es.
Proof. rewrite <- list_fmap_compose. done. Qed.

Lemma contents_perm mem es es' :
  strip <$> es ≡ₚ strip <$> es' -> contents mem es ≡ₚ contents mem es'.
Proof.
  intros Hp. rewrite <- (contents_strip mem es), <- (contents_strip mem es').
  unfold contents. by rewrite Hp.
Qed.

Lemma ht_repr_perm mem ht ht' free m p :
  ht_repr mem ht free m ->
  0 <= p <= 30 -> ht'.(ht_size) = 2 ^ p -> ht'.(ht_mask) = 2 ^ p - 1 ->
  Z.of_nat (length ht'.(ht_table)) = 2 ^ p -> table_ok ht'.(ht_mask) ht'.(ht_table) ->
  strip <$> concat ht'.(ht_table) ≡ₚ strip <$> concat ht.(ht_table) ->
  ht'.(ht_mpool) = ht.(ht_mpool) -> ht'.(ht_count) = ht.(ht_count) ->
  ht'.(ht_kops) = ht.(ht_kops) -> ht_repr mem ht' free m.
Proof.
  intros [] Hp E1 E2 E3 Hok Hperm Emp Ec Ek.
  pose proof (contents_perm mem _ _ Hperm) as Hc. constructor.
  - eauto.
  - congruence.
  - done.
  - rewrite <- elts_ok_strip, Hperm. by apply elts_ok_strip.
  - rewrite Emp. eapply pool_wf_perm; [|eassumption].
    rewrite <- addrs_strip, <- (addrs_strip (concat (ht_table ht'))). by rewrite Hperm.
  - by rewrite Emp.
  - by rewrite Hc.
  - subst m. symmetry. apply list_to_map_proper; [by rewrite Hc | done].
  - rewrite Ec, hr_count0. apply Permutation_length in Hperm.
    rewrite !length_fmap in Hperm. by rewrite Hperm.
Qed.

(** ** Looking a key up *)

Lemma bucket_find_spec mem key d b :
  den mem key = Some d -> Forall (elt_ok mem) b ->
  bucket_find kops mem (hash_of d) klen key b =
  Some (List.find (fun he => bool_decide (den mem he.(he_key) = Some d)) b).
Proof.
  intros Hd. induction 1 as [|he b (Hl & d' & Hd' & Hh) _ IH]; [done|]. cbn [bucket_find List.find].
  rewrite Hl, Z.eqb_refl, Hh, andb_true_r, Hd'.
  destruct (hash_of d' =? hash_of d) eqn:E; bool_to_prop.
  - rewrite (kcmp_den _ _ _ d' d) by done. cbn [mbind option_bind].
    destruct (decide (d' = d)) as [->|Hne].
    + by rewrite !bool_decide_true by done.
    + rewrite !bool_decide_false by naive_solver. done.
  - rewrite IH, (bool_decide_false (Some d' = Some d)) by naive_solver. done.
Qed.

Lemma elem_of_concat (table : list (list elt)) he :
  he ∈ concat table <-> exists i b, table !! i = Some b /\ he ∈ b.
Proof.
  rewrite list_elem_of_In, in_concat. split.
  - intros (b & Hb%list_elem_of_In & Hhe%list_elem_of_In).
    apply list_elem_of_lookup in Hb as [i Hb]. eauto.
  - intros (i & b & Hb & Hhe). exists b. rewrite <- !list_elem_of_In. split; [|done].
    by eapply list_elem_of_lookup_2.
Qed.

Lemma ht_bucket_some mem ht free m h :
  ht_repr mem ht free m -> exists b, ht_bucket ht (ht_index ht h) = Some b /\
    ht.(ht_table) !! Z.to_nat (ht_index ht h) = Some b.
Proof.
  intros [(p & Hp & Hs & Hm & Hl) _ _ _ _ _ _ _ _]. unfold ht_bucket, ht_index. rewrite Hm.
  pose proof (land_mask_range h p (proj1 Hp)).
  destruct (_ <? 0) eqn:E; bool_to_prop; [lia|].
  destruct (lookup_lt_is_Some_2 (ht_table ht) (Z.to_nat (Z.land h (2 ^ p - 1)))) as [b Hb];
    [lia|]. eauto.
Qed.

Lemma find_none {A} (f : A -> bool) l x : List.find f l = None -> x ∈ l -> f x = false.
Proof. intros Hf Hx%list_elem_of_In. by eapply find_none. Qed.

Lemma ht_lookup_spec mem ht free m key d :
  ht_repr mem ht free m -> den mem key = Some d ->
  exists r, ht_lookup mem ht key klen = Some r /\
    match r with
    | Some he => he ∈ concat ht.(ht_table) /\ den mem he.(he_key) = Some d
    | None => forall he, he ∈ concat ht.(ht_table) -> den mem he.(he_key) <> Some d
    end.
Proof.
  intros Hr Hd. unfold ht_lookup. rewrite (hr_kops _ _ _ _ Hr).
  rewrite (khash_den mem key d Hd). cbn [mbind option_bind].
  destruct (ht_bucket_some _ _ _ _ (hash_of d) Hr) as (b & -> & Hb). cbn [mbind option_bind].
  pose proof (hr_elts _ _ _ _ Hr) as Helts.
  assert (Hsub : forall he, he ∈ b -> he ∈ concat (ht_table ht))
    by (intros he Hhe; apply elem_of_concat; eauto).
  rewrite bucket_find_spec; [|done|].
  2: { apply Forall_forall. intros he Hhe. by apply (proj1 (Forall_forall _ _) Helts), Hsub. }
  eexists. split; [done|]. destruct (List.find _ b) as [he|] eqn:Ef.
  - apply find_some in Ef as [Hin%list_elem_of_In Hdd]. apply bool_decide_eq_true in Hdd. eauto.
  - intros he (i & b' & Hb' & Hhe)%elem_of_concat Hdd.
    destruct (hr_table _ _ _ _ Hr i b' he Hb' Hhe) as [_ Hi].
    assert (Hok : elt_ok mem he).
    { apply (proj1 (Forall_forall _ _) Helts), elem_of_concat. eauto. }
    destruct Hok as (_ & d' & Hd' & Hh). assert (d' = d) as -> by congruence.
    rewrite Hh in Hi. unfold ht_index in Hb. rewrite <- Hi, Hb' in Hb. injection Hb as ->.
    apply (find_none _ _ he Ef) in Hhe. by apply bool_decide_eq_false in Hhe.
Qed.

Lemma ht_repr_lookup mem ht free m he d :
  ht_repr mem ht free m -> he ∈ concat ht.(ht_table) -> den mem he.(he_key) = Some d ->
  m !! d = Some he.(he_value).
Proof.
  intros Hr Hin Hd. rewrite (hr_map _ _ _ _ Hr).
  apply elem_of_list_to_map_1; [apply Hr|]. apply elem_of_contents. eauto.
Qed.

Lemma ht_repr_lookup_none mem ht free m d :
  ht_repr mem ht free m ->
  (forall he, he ∈ concat ht.(ht_table) -> den mem he.(he_key) <> Some d) <-> m !! d = None.
Proof.
  intros Hr. rewrite (hr_map _ _ _ _ Hr), <- not_elem_of_list_to_map. split.
  - intros Hn ([d' v] & -> & (he & Hin & Hd & _)%elem_of_contents)%list_elem_of_fmap.
    by eapply Hn.
  - intros Hn he Hin Hd. apply Hn. apply list_elem_of_fmap. exists (d, he_value he).
    split; [done|]. apply elem_of_contents. eauto.
Qed.

Lemma fh_ht_get_spec mem ht free m key d :
  ht_repr mem ht free m -> den mem key = Some d ->
  fh_ht_get mem ht key klen =
    Some (match m !! d with Some v => (FH_OK, v) | None => (FH_ERR_NOTFOUND, NULL) end).
Proof.
  intros Hr Hd. unfold fh_ht_get.
  destruct (ht_lookup_spec _ _ _ _ _ _ Hr Hd) as ([he|] & -> & Hs); cbn [mbind option_bind].
  - destruct Hs as [Hin Hdd]. by rewrite (ht_repr_lookup _ _ _ _ _ _ Hr Hin Hdd).
  - by rewrite (proj1 (ht_repr_lookup_none _ _ _ _ d Hr) Hs).
Qed.

(** ** Adding and deleting *)

(** [ht_grow] moves every element to the list of its hash under the new mask
    and loses none, whether or not the new table can be allocated. *)
Lemma ht_grow_spec mem_table (ht : ht_t) p :
  0 <= p <= 30 -> ht.(ht_size) = 2 ^ p -> ht.(ht_mask) = 2 ^ p - 1 ->
  Z.of_nat (length ht.(ht_table)) = 2 ^ p -> table_ok ht.(ht_mask) ht.(ht_table) ->
  exists rc p' ht', ht_grow mem_table ht = Some (rc, ht') /\
    0 <= p' <= 30 /\ ht'.(ht_size) = 2 ^ p' /\ ht'.(ht_mask) = 2 ^ p' - 1 /\
    Z.of_nat (length ht'.(ht_table)) = 2 ^ p' /\ table_ok ht'.(ht_mask) ht'.(ht_table) /\
    strip <$> concat ht'.(ht_table) ≡ₚ strip <$> concat ht.(ht_table) /\
    ht'.(ht_mpool) = ht.(ht_mpool) /\ ht'.(ht_count) = ht.(ht_count) /\
    ht'.(ht_kops) = ht.(ht_kops) /\ ht'.(ht_flags) = ht.(ht_flags).
Proof.
  intros Hp Hs Hm Hl Hok. unfold ht_grow. destruct mem_table; cbn [negb].
  2: { exists FH_ERROR, p, ht. repeat (split; [done|]). done. }
  assert (Hq : exists q, ht_npower (s32 (2 * s32 (ht_size ht))) = 2 ^ q /\ 0 <= q <= 30).
  { rewrite Hs. destruct (decide (p = 30)) as [->|Hne]; [exists 0; split; [done | lia]|].
    assert (0 < 2 ^ p <= 536870912).
    { change 536870912 with (2 ^ 29).
      split; [apply Z.pow_pos_nonneg; lia | apply Z.pow_le_mono_r; lia]. }
    rewrite !s32_small by (rewrite ?s32_small by lia; lia).
    destruct (ht_npower_spec (2 * 2 ^ p)) as (q & -> & ? & _); [lia | eauto]. }
  destruct Hq as (q & -> & Hq).
  assert (Hq2 : 0 < 2 ^ q <= 1073741824).
  { change 1073741824 with (2 ^ 30).
    split; [apply Z.pow_pos_nonneg; lia | apply Z.pow_le_mono_r; lia]. }
  rewrite (u32_small (2 ^ q - 1)), (u32_small (2 ^ q)) by lia.
  destruct (ht_rehash_spec q (reverse (ht_table ht)) (replicate (Z.to_nat (2 ^ q)) []))
    as (t & -> & Hlt & Hokt & Hpt); [lia | rewrite length_replicate; lia
    | apply table_ok_empty |].
  cbn [mbind option_bind]. eexists FH_OK, q, _. split; [done|]. cbn.
  rewrite length_replicate in Hlt. repeat (split; [done || lia|]).
  split; [|done]. rewrite Hpt, concat_empty, app_nil_r. by rewrite concat_reverse.
Qed.

Lemma ht_set_same (ht : ht_t) : ht_set ht ht.(ht_mpool) ht.(ht_table) ht.(ht_count) = ht.
Proof. by destruct ht. Qed.

(** A duplicate key changes nothing. *)
Lemma fh_ht_put_dup arena mem_table mem ht free m key d v v' :
  ht_repr mem ht free m -> den mem key = Some d -> m !! d = Some v' ->
  fh_ht_put arena mem_table mem ht key klen v = Some (FH_ERR_DUP, ht).
Proof.
  intros Hr Hd Hm. unfold fh_ht_put.
  destruct (ht_lookup_spec _ _ _ _ _ _ Hr Hd) as (r & Hl & Hs). unfold ht_lookup in Hl.
  revert Hl. rewrite (hr_kops _ _ _ _ Hr), (khash_den mem key d Hd). cbn [mbind option_bind].
  destruct (ht_bucket ht _) as [b|]; [|done]. cbn [mbind option_bind]. intros ->.
  cbn [mbind option_bind]. destruct r as [he|]; [done|].
  apply (ht_repr_lookup_none _ _ _ _ _ Hr) in Hs. congruence.
Qed.

(** A new key, when the pool has no element for it. *)
Lemma fh_ht_put_full arena mem_table mem ht free m key d v :
  ht_repr mem ht free m -> den mem key = Some d -> m !! d = None ->
  fh_mpool_get arena ht.(ht_mpool) = Some (NULL, ht.(ht_mpool)) ->
  fh_ht_put arena mem_table mem ht key klen v = Some (FH_ERROR, ht).
Proof.
  intros Hr Hd Hm Hget. unfold fh_ht_put.
  destruct (ht_lookup_spec _ _ _ _ _ _ Hr Hd) as (r & Hl & Hs). unfold ht_lookup in Hl.
  revert Hl. rewrite (hr_kops _ _ _ _ Hr), (khash_den mem key d Hd). cbn [mbind option_bind].
  destruct (ht_bucket ht _) as [b|]; [|done]. cbn [mbind option_bind]. intros ->.
  cbn [mbind option_bind]. destruct r as [he|].
  { destruct Hs as [Hin Hdd]. pose proof (ht_repr_lookup _ _ _ _ _ _ Hr Hin Hdd). congruence. }
  rewrite Hget. cbn [mbind option_bind]. by rewrite Z.eqb_refl, ht_set_same.
Qed.

(** A new key, with an element from the pool: the table may grow first. *)
Lemma fh_ht_put_new arena mem_table mem ht free m key d v c mp' free' :
  ht_repr mem ht free m -> den mem key = Some d -> m !! d = None ->
  fh_mpool_get arena ht.(ht_mpool) = Some (c + 8, mp') ->
  pool_wf mp' free' (c :: (chunk_of ∘ he_addr <$> concat ht.(ht_table))) ->
  exists ht', fh_ht_put arena mem_table mem ht key klen v = Some (FH_OK, ht') /\
    ht_repr mem ht' free' (<[d := v]> m) /\ ht'.(ht_mpool) = mp' /\
    ht_keyvals ht' ≡ₚ (key, v) :: ht_keyvals ht.
Proof.
  intros Hr Hd Hm Hget Hwf. unfold fh_ht_put.
  destruct (ht_lookup_spec _ _ _ _ _ _ Hr Hd) as (r & Hl & Hs). unfold ht_lookup in Hl.
  revert Hl. rewrite (hr_kops _ _ _ _ Hr), (khash_den mem key d Hd). cbn [mbind option_bind].
  destruct (ht_bucket ht _) as [b|]; [|done]. cbn [mbind option_bind]. intros ->.
  cbn [mbind option_bind]. destruct r as [he|].
  { destruct Hs as [Hin Hdd]. pose proof (ht_repr_lookup _ _ _ _ _ _ Hr Hin Hdd). congruence. }
  rewrite Hget. cbn [mbind option_bind].
  pose proof (pool_used_pos _ _ _ c Hwf ltac:(set_solver)) as Hc.
  rewrite (eqb_false_of_ne (c + 8) NULL) by (unfold NULL; lia).
  set (ht0 := ht_set _ mp' _ _).
  destruct (hr_size _ _ _ _ Hr) as (p & Hp & Hsz & Hmask & Hlen).
  (* the table, grown or not *)
  assert (Hg : exists p' ht1,
    (if flag_set ht0.(ht_flags) FH_HT_FL_GROW && (u32 (4 * ht0.(ht_size)) <? u32 (5 * ht0.(ht_count)))
     then '(_, ht1) ← ht_grow mem_table ht0; Some ht1 else Some ht0) = Some ht1 /\
    0 <= p' <= 30 /\ ht1.(ht_size) = 2 ^ p' /\ ht1.(ht_mask) = 2 ^ p' - 1 /\
    Z.of_nat (length ht1.(ht_table)) = 2 ^ p' /\ table_ok ht1.(ht_mask) ht1.(ht_table) /\
    strip <$> concat ht1.(ht_table) ≡ₚ strip <$> concat ht.(ht_table) /\
    ht1.(ht_mpool) = mp' /\ ht1.(ht_count) = u32 (ht.(ht_count) + 1) /\
    ht1.(ht_kops) = kops /\ ht1.(ht_flags) = ht.(ht_flags)).
  { pose proof (hr_table _ _ _ _ Hr) as Hok. pose proof (hr_kops _ _ _ _ Hr) as Hk.
    destruct (_ && _).
    - destruct (ht_grow_spec mem_table ht0 p Hp Hsz Hmask Hlen Hok)
        as (rc & p' & ht1 & -> & H1 & H2 & H3 & H4 & H5 & H6 & H7 & H8 & H9 & H10).
      exists p', ht1. rewrite H7, H8, H9, H10. done.
    - exists p, ht0. done. }
  destruct Hg as (p' & ht1 & -> & Hp' & Hsz' & Hmask' & Hlen' & Hok' & Hperm & Emp & Ecnt & Ek & Efl).
  cbn [mbind option_bind].
  set (he := MkElt (c + 8) 0 v key klen (hash_of d)).
  destruct (bucket_insert_spec ht1.(ht_mask) ht1.(ht_table) he) as (t & Hins & Hlt & Hokt & Hpt);
    [|done|].
  { rewrite Hmask'. pose proof (land_mask_range (hash_of d) p' (proj1 Hp')). cbn. lia. }
  unfold ht_index. cbn in Hins. rewrite Hins. cbn [mbind option_bind].
  pose proof (wf_fit _ _ _ Hwf) as Hfit. rewrite length_app in Hfit. cbn in Hfit.
  rewrite length_fmap in Hfit.
  assert (Hpt' : strip <$> concat t ≡ₚ strip <$> (he :: concat (ht_table ht))).
  { rewrite Hpt, Hperm. done. }
  eexists. split; [done|]. split; [|by split; [|apply (keyvals_strip _ _ Hpt')]].
  pose proof (contents_perm mem _ _ Hpt') as Hcont.
  rewrite (contents_cons mem he _ d Hd) in Hcont.
  assert (Hni : d ∉ (contents mem (concat (ht_table ht))).*1).
  { rewrite not_elem_of_list_to_map, <- (hr_map _ _ _ _ Hr). done. }
  assert (Hnd : NoDup (contents mem (concat t)).*1).
  { rewrite Hcont. cbn. apply NoDup_cons. split; [done | apply Hr]. }
  constructor; cbn.
  - exists p'. rewrite Hlt. done.
  - done.
  - done.
  - rewrite <- elts_ok_strip, Hpt'. apply elts_ok_strip. apply Forall_cons.
    split; [|apply Hr]. split; [done|]. eauto.
  - rewrite Emp. eapply pool_wf_perm; [|exact Hwf].
    rewrite <- (addrs_strip (concat t)), Hpt', addrs_strip. cbn.
    unfold chunk_of, sizeof_mchunk. by replace (c + 8 - 8) with c by lia.
  - rewrite Emp. rewrite (proj1 (same_config_get _ _ _ _ Hget)). exact (hr_nchunks _ _ _ _ Hr).
  - done.
  - symmetry. erewrite list_to_map_proper; [|exact Hnd|exact Hcont]. cbn.
    by rewrite <- (hr_map _ _ _ _ Hr).
  - rewrite Ecnt, (hr_count _ _ _ _ Hr), u32_small by lia.
    apply Permutation_length in Hpt'. rewrite !length_fmap in Hpt'. rewrite Hpt'. cbn. lia.
Qed.

Lemma fh_ht_delete_spec mem ht free m key d :
  ht_repr mem ht free m -> den mem key = Some d ->
  match m !! d with
  | None => fh_ht_delete mem ht key klen = Some (FH_ERR_NOTFOUND, NULL, ht)
  | Some v => exists ht' c, fh_ht_delete mem ht key klen = Some (FH_OK, v, ht') /\
      ht_repr mem ht' (c :: free) (delete d m) /\ ht'.(ht_flags) = ht.(ht_flags) /\
      ht'.(ht_mpool).(mp_flags) = ht.(ht_mpool).(mp_flags) /\
      ht_keyvals ht' ⊆ ht_keyvals ht
  end.
Proof.
  intros Hr Hd. unfold fh_ht_delete.
  destruct (hr_size _ _ _ _ Hr) as (p & Hp & Hsz & Hmask & Hlen).
  assert (0 < 2 ^ p) by (apply Z.pow_pos_nonneg; lia).
  replace (0 <? ht_size ht) with true by lia. cbn [guard_ub].
  destruct (ht_lookup_spec _ _ _ _ _ _ Hr Hd) as ([he|] & -> & Hs); cbn [mbind option_bind].
  2: { by rewrite (proj1 (ht_repr_lookup_none _ _ _ _ _ Hr) Hs). }
  destruct Hs as [Hin Hdd]. rewrite (ht_repr_lookup _ _ _ _ _ _ Hr Hin Hdd).
  pose proof (hr_pool _ _ _ _ Hr) as Hwf.
  assert (Hnda : NoDup (he_addr <$> concat (ht_table ht))).
  { pose proof (wf_nodup _ _ _ Hwf) as (_ & _ & Hn)%NoDup_app.
    rewrite list_fmap_compose in Hn. by apply NoDup_fmap_1 in Hn. }
  destruct (table_remove_spec _ _ he (hr_table _ _ _ _ Hr) Hin Hnda) as (Hperm & Hlt & Hokt).
  assert (Hwf' : pool_wf (ht_mpool ht) free ([] ++ chunk_of he.(he_addr) ::
    (chunk_of ∘ he_addr <$> concat (table_remove (ht_table ht) he)))).
  { eapply pool_wf_perm; [|exact Hwf]. by rewrite Hperm. }
  destruct (fh_mpool_put_wf _ _ _ _ _ Hwf') as (mp' & Hput & Hwf2 & Hfl2).
  replace (chunk_of (he_addr he) + 8) with (he_addr he) in Hput
    by (unfold chunk_of, sizeof_mchunk; lia).
  rewrite Hput. cbn [mbind option_bind].
  pose proof (Permutation_length Hperm) as Hlen2. cbn in Hlen2.
  pose proof (hr_count _ _ _ _ Hr) as Hc. rewrite Hlen2 in Hc.
  pose proof (wf_fit _ _ _ Hwf) as Hfit. rewrite length_app, length_fmap, Hlen2 in Hfit.
  replace (0 <? ht_count ht) with true by lia. cbn [guard_ub].
  eexists _, (chunk_of (he_addr he)). split; [done|].
  assert (Hcont : contents mem (concat (ht_table ht)) ≡ₚ
    (d, he_value he) :: contents mem (concat (table_remove (ht_table ht) he))).
  { rewrite <- contents_cons by done. unfold contents. by rewrite Hperm. }
  pose proof (hr_nodup _ _ _ _ Hr) as Hnd. rewrite Hcont in Hnd. cbn in Hnd.
  apply NoDup_cons in Hnd as [Hni Hnd].
  split; [|split; [done|split; [done|]]].
  - constructor; cbn.
    + exists p. rewrite Hlt. done.
    + apply Hr.
    + done.
    + pose proof (hr_elts _ _ _ _ Hr) as He. rewrite Hperm in He. by apply Forall_cons in He as [_ ?].
    + done.
    + rewrite (proj1 (same_config_put _ _ _ _ Hput)). exact (hr_nchunks _ _ _ _ Hr).
    + done.
    + rewrite (hr_map _ _ _ _ Hr).
      erewrite list_to_map_proper; [|apply Hr|exact Hcont]. cbn.
      rewrite delete_insert_id; [done|]. by apply not_elem_of_list_to_map.
    + rewrite Hc, u32_small; lia.
  - intros x. unfold ht_keyvals. cbn. rewrite Hperm. cbn. set_solver.
Qed.

(** A table made by [fh_ht_new] is empty. *)
Lemma fh_ht_new_spec mem a size flags :
  0 < a -> 0 < size <= 30000000 ->
  exists ht free, fh_ht_new true true true true (Some a) size flags kops = Some ht /\
    ht_repr mem ht free ∅ /\ Z.of_nat (length free) = size /\ ht.(ht_flags) = u32 flags /\
    2 * size <= ht.(ht_size) /\
    flag_set ht.(ht_mpool).(mp_flags) FH_MPOOL_FL_GROW = flag_set flags FH_HT_FL_GROW.
Proof.
  intros Ha Hs. unfold fh_ht_new. cbn [negb].
  set (pflags := if flag_set flags FH_HT_FL_GROW then FH_MPOOL_FL_GROW else 0).
  destruct (fh_mpool_new_wf a "HASH_ELMT" sizeof_ht_elt size pflags)
    as (mp & -> & Hwf & Hfl & Hn & Hcs); unfold sizeof_ht_elt in *; try lia.
  cbn [mbind option_bind]. rewrite s32_small by lia.
  destruct (ht_npower_spec (size * 2)) as (p & -> & Hp & Hge & _); [lia|].
  assert (2 ^ p <= 2 ^ 30) by (apply Z.pow_le_mono_r; lia).
  change (2 ^ 30) with 1073741824 in *.
  eexists _, _. split; [done|]. split; [constructor; cbn|].
  - exists p. rewrite !u32_small, length_replicate by lia. repeat (split; [done || lia|]). lia.
  - done.
  - apply table_ok_empty.
  - by rewrite concat_empty.
  - rewrite concat_empty. exact Hwf.
  - lia.
  - rewrite concat_empty. constructor.
  - by rewrite concat_empty.
  - by rewrite concat_empty.
  - rewrite length_reverse, length_block_chunks, Hn. cbn. rewrite (u32_small (2 ^ p)) by lia.
    split; [lia|]. split; [done|]. split; [lia|]. rewrite Hfl. subst pflags.
    by destruct (flag_set flags FH_HT_FL_GROW).
Qed.

(** The table only depends on the memory its keys point to. *)
Lemma ht_repr_mem mem mem' ht free m :
  (forall he, he ∈ concat ht.(ht_table) -> den mem' he.(he_key) = den mem he.(he_key)) ->
  ht_repr mem ht free m -> ht_repr mem' ht free m.
Proof.
  intros Hmem [].
  assert (Hc : contents mem' (concat (ht_table ht)) = contents mem (concat (ht_table ht))).
  { revert Hmem. generalize (concat (ht_table ht)) as es. intros es. unfold contents.
    induction es as [|he es IH]; intros Hmem; [done|]. cbn.
    replace (elt_kv mem' he) with (elt_kv mem he)
      by (unfold elt_kv; rewrite Hmem by set_solver; done).
    rewrite IH by set_solver. done. }
  constructor; rewrite ?Hc; try done.
  apply Forall_forall. intros he Hin.
  destruct (proj1 (Forall_forall _ _) hr_elts0 he Hin) as (Hk & d & Hd & Hh).
  split; [done|]. exists d. by rewrite Hmem.
Qed.

(** The number of entries of the map is the table's count. *)
Lemma ht_repr_size mem ht free m :
  ht_repr mem ht free m -> ht.(ht_count) = Z.of_nat (size m).
Proof.
  intros Hr. rewrite (hr_count _ _ _ _ Hr), (hr_map _ _ _ _ Hr).
  rewrite map_size_list_to_map by apply Hr. f_equal.
  pose proof (hr_elts _ _ _ _ Hr) as He. revert He. generalize (concat (ht_table ht)).
  induction 1 as [|he es (_ & d & Hd & _) _ IH]; [done|].
  rewrite (contents_cons _ _ _ d Hd). cbn. by f_equal.
Qed.

(** ** Runs of table operations, and the finite map they implement *)

Inductive ht_op :=
  | HtPut (key : K) (value : Z)
  | HtGet (key : K)
  | HtDelete (key : K).

Definition op_key (op : ht_op) : K :=
  match op with HtPut k _ | HtGet k | HtDelete k => k end.

(** Status, value returned, new table. The pool of a table without
    [FH_HT_FL_GROW] never calls [malloc]. *)
Definition ht_exec (mem : M) (ht : ht_t) (op : ht_op) : option (Z * Z * ht_t) :=
  match op with
  | HtPut k v => '(rc, ht) ← fh_ht_put None false mem ht k klen v; Some (rc, NULL, ht)
  | HtGet k => '(rc, v) ← fh_ht_get mem ht k klen; Some (rc, v, ht)
  | HtDelete k => fh_ht_delete mem ht k klen
  end.

Fixpoint ht_run (mem : M) (ht : ht_t) (ops : list ht_op) : option (list (Z * Z) * ht_t) :=
  match ops with
  | [] => Some ([], ht)
  | op :: ops =>
      '(rc, v, ht) ← ht_exec mem ht op;
      '(rs, ht) ← ht_run mem ht ops;
      Some ((rc, v) :: rs, ht)
  end.

(** The specification: a finite map with at most [cap] entries. *)
Definition map_exec (cap : Z) (mem : M) (m : gmap D Z) (op : ht_op) : Z * Z * gmap D Z :=
  match den mem (op_key op) with
  | None => (FH_ERROR, NULL, m)
  | Some d =>
      match op, m !! d with
      | HtPut _ _, Some _ => (FH_ERR_DUP, NULL, m)
      | HtPut _ v, None =>
          if Z.of_nat (size m) =? cap then (FH_ERROR, NULL, m) else (FH_OK, NULL, <[d := v]> m)
      | HtGet _, Some v => (FH_OK, v, m)
      | HtGet _, None => (FH_ERR_NOTFOUND, NULL, m)
      | HtDelete _, Some v => (FH_OK, v, delete d m)
      | HtDelete _, None => (FH_ERR_NOTFOUND, NULL, m)
      end
  end.

Fixpoint map_run (cap : Z) (mem : M) (m : gmap D Z) (ops : list ht_op)
    : list (Z * Z) * gmap D Z :=
  match ops with
  | [] => ([], m)
  | op :: ops =>
      let '(rc, v, m) := map_exec cap mem m op in
      let '(rs, m) := map_run cap mem m ops in
      ((rc, v) :: rs, m)
  end.

(** A table that can hold [cap] entries and no more. *)
Definition ht_fixed (mem : M) (cap : Z) (ht : ht_t) (m : gmap D Z) : Prop :=
  exists free, ht_repr mem ht free m /\ flag_set ht.(ht_mpool).(mp_flags) FH_MPOOL_FL_GROW = false /\
    Z.of_nat (length free) + Z.of_nat (size m) = cap.

Lemma ht_put_fixed mem cap ht m key d v arena mem_table :
  ht_fixed mem cap ht m -> den mem key = Some d -> m !! d = None ->
  if Z.of_nat (size m) =? cap
  then fh_ht_put arena mem_table mem ht key klen v = Some (FH_ERROR, ht)
  else exists ht', fh_ht_put arena mem_table mem ht key klen v = Some (FH_OK, ht') /\
    ht_fixed mem cap ht' (<[d := v]> m) /\ ht_keyvals ht' ≡ₚ (key, v) :: ht_keyvals ht.
Proof.
  intros (free & Hr & Hfl & Hcap) Hd Hm. pose proof (hr_pool _ _ _ _ Hr) as Hwf.
  destruct free as [|c free].
  - cbn in Hcap. replace (_ =? cap) with true by lia.
    eapply fh_ht_put_full; [done..|]. eapply fh_mpool_get_empty; eauto.
  - cbn in Hcap. rewrite eqb_false_of_ne by lia.
    destruct (fh_mpool_get_free _ arena _ _ _ Hwf) as (mp' & Hget & Hwf' & Hfl').
    destruct (fh_ht_put_new arena mem_table mem ht _ m key d v c mp' free Hr Hd Hm Hget Hwf')
      as (ht' & E & Hr' & Emp & Hkv).
    exists ht'. split; [done|]. split; [|done]. exists free. rewrite Emp, Hfl', map_size_insert_None by done.
    split; [done|]. split; [done|]. lia.
Qed.

Lemma ht_delete_fixed mem cap ht m key d :
  ht_fixed mem cap ht m -> den mem key = Some d ->
  match m !! d with
  | None => fh_ht_delete mem ht key klen = Some (FH_ERR_NOTFOUND, NULL, ht)
  | Some v => exists ht', fh_ht_delete mem ht key klen = Some (FH_OK, v, ht') /\
      ht_fixed mem cap ht' (delete d m) /\ ht_keyvals ht' ⊆ ht_keyvals ht
  end.
Proof.
  intros (free & Hr & Hfl & Hcap) Hd. pose proof (fh_ht_delete_spec _ _ _ _ _ _ Hr Hd) as Hdel.
  destruct (m !! d) as [v|] eqn:Em; [|done].
  destruct Hdel as (ht' & c & -> & Hr' & _ & Hfl' & Hkv). exists ht'.
  split; [done|]. split; [|done]. exists (c :: free). split; [done|]. split; [by rewrite Hfl'|].
  rewrite map_size_delete, Em. cbn. enough (size m <> 0%nat) by lia.
  intros E. apply map_size_empty_iff in E. by rewrite E, lookup_empty in Em.
Qed.

Lemma ht_exec_map mem cap ht m op :
  ht_fixed mem cap ht m -> is_Some (den mem (op_key op)) ->
  let '(rc, v, m') := map_exec cap mem m op in
  exists ht', ht_exec mem ht op = Some (rc, v, ht') /\ ht_fixed mem cap ht' m'.
Proof.
  intros Hf [d Hd]. pose proof Hf as (free & Hr & Hfl & Hcap).
  unfold map_exec. rewrite Hd. destruct op as [k v|k|k]; cbn [op_key ht_exec] in *.
  - destruct (m !! d) as [v'|] eqn:Em.
    + rewrite (fh_ht_put_dup _ _ _ _ _ _ _ _ _ _ Hr Hd Em). by exists ht.
    + pose proof (ht_put_fixed mem cap ht m k d v None false Hf Hd Em) as Hp.
      destruct (_ =? cap); [rewrite Hp; by exists ht|].
      destruct Hp as (ht' & -> & Hf' & _). by exists ht'.
  - rewrite (fh_ht_get_spec _ _ _ _ _ _ Hr Hd). destruct (m !! d); by exists ht.
  - pose proof (ht_delete_fixed mem cap ht m k d Hf Hd) as Hdel.
    destruct (m !! d) as [v|]; [|rewrite Hdel; by exists ht].
    destruct Hdel as (ht' & -> & Hf' & _). by exists ht'.
Qed.

Lemma ht_run_map mem cap ops : forall ht m,
  ht_fixed mem cap ht m -> Forall (fun op => is_Some (den mem (op_key op))) ops ->
  let '(rs, m') := map_run cap mem m ops in
  exists ht', ht_run mem ht ops = Some (rs, ht') /\ ht_fixed mem cap ht' m'.
Proof.
  induction ops as [|op ops IH]; intros ht m Hf Hops; cbn; [by exists ht|].
  apply Forall_cons in Hops as [Hop Hops].
  pose proof (ht_exec_map mem cap ht m op Hf Hop) as He.
  destruct (map_exec cap mem m op) as [[rc v] m1]. destruct He as (ht1 & -> & Hf1).
  pose proof (IH ht1 m1 Hf1 Hops) as Hi. destruct (map_run cap mem m1 ops) as [rs m2].
  destruct Hi as (ht2 & E & Hf2). cbn. rewrite E. by exists ht2.
Qed.

End refine.

Arguments ht_op : clear implicits.

(** A client: keys are numbers, hashed to 0 .. 255. *)
Definition clamp (k : Z) : Z := Z.max 0 (Z.min k 255).

Definition demo_kops : fh_ht_kops unit Z :=
  MkKops (fun _ k klen => guard_ub (klen =? 8) (Some (clamp k)))
    (fun _ a b klen => guard_ub (klen =? 8) (Some (a =? b))).

Definition demo_den (_ : unit) (k : Z) : option Z := Some k.

#[export] Instance demo_keyops : KeyOps demo_kops 8 Z demo_den.
Proof.
  refine {| hash_of := clamp |}.
  - by intros [] k d [= ->].
  - intros [] k1 k2 d1 d2 [= ->] [= ->]. cbn. f_equal.
    destruct (decide (d1 = d2)) as [->|Hne];
      [by rewrite Z.eqb_refl, bool_decide_true | by rewrite eqb_false_of_ne, bool_decide_false].
Defined.

(** ** Properties *)

(** C21: a table made by [fh_ht_new] without [FH_HT_FL_GROW] is a finite map
    with room for [size] entries: for every client whose hash and comparison
    are functions of the key value, every sequence of puts, gets and deletes
    runs to the end and returns, at every step, the status and value that the
    finite map gives: [FH_ERR_DUP] for a key already there, [FH_ERROR] when
    and only when the map is full, [FH_ERR_NOTFOUND] for a key that is not
    there. *)
Theorem ht_refines_map {M K D : Type} `{Countable D} (kops : fh_ht_kops M K) (klen : Z)
    (den : M -> K -> option D) `{!KeyOps kops klen D den} (mem : M) a size ops :
  0 < a -> 0 < size <= 30000000 ->
  Forall (fun op => is_Some (den mem (op_key op))) ops ->
  exists ht ht', fh_ht_new true true true true (Some a) size 0 kops = Some ht /\
    ht_run klen mem ht ops = Some ((map_run den size mem ∅ ops).1, ht') /\
    ht'.(ht_count) = Z.of_nat (base.size (map_run den size mem ∅ ops).2) /\
    ht'.(ht_count) <= size.
Proof.
  intros Ha Hs Hops.
  destruct (fh_ht_new_spec kops klen den mem a size 0 Ha Hs)
    as (ht & free & -> & Hr & Hlen & _ & _ & Hfl).
  assert (Hf : ht_fixed kops klen den mem size ht ∅).
  { exists free. rewrite map_size_empty, Hfl. split; [done|]. split; [done | lia]. }
  pose proof (ht_run_map kops klen den mem size ops ht ∅ Hf Hops) as Hrun.
  destruct (map_run den size mem ∅ ops) as [rs m]. cbn [fst snd].
  destruct Hrun as (ht' & Hrun & (free' & Hr' & _ & Hcap)).
  exists ht, ht'. split; [done|]. split; [done|].
  rewrite (ht_repr_size _ _ _ _ _ _ _ Hr'). split; [done | lia].
Qed.

Definition demo_ht_ops : list (ht_op Z) :=
  [HtPut 700 100; HtPut 900 200; HtGet 900; HtPut 700 300; HtPut 8 400;
   HtDelete 700; HtGet 700; HtGet 900; HtDelete 700; HtPut 8 500; HtGet 8].

(** Two keys with the same hash value, a duplicate, a full table. *)
Lemma ht_refines_map_witness :
  exists ht ht', fh_ht_new true true true true (Some 4096) 2 0 demo_kops = Some ht /\
    ht_run 8 tt ht demo_ht_ops =
      Some ([(0, 0); (0, 0); (0, 200); (2, 0); (-1, 0); (0, 100); (1, 0); (0, 200); (1, 0);
             (0, 0); (0, 500)], ht').
Proof.
  destruct (ht_refines_map demo_kops 8 demo_den tt 4096 2 demo_ht_ops)
    as (ht & ht' & Hnew & Hrun & _); [lia | lia | repeat constructor; eexists; reflexivity |].
  exists ht, ht'. split; [exact Hnew|]. etransitivity; [exact Hrun|]. vm_compute. reflexivity.
Defined.

(** A table whose pool may grow accepts every new key as long as [malloc]
    succeeds, whether or not the larger table can be allocated, and the
    entries stay those of the map: growing the table loses and duplicates
    none. *)
Theorem ht_put_growable {M K D : Type} `{Countable D} (kops : fh_ht_kops M K) (klen : Z)
    (den : M -> K -> option D) `{!KeyOps kops klen D den} (mem : M)
    a mem_table ht free m key d v :
  ht_repr kops klen den mem ht free m -> den mem key = Some d -> m !! d = None ->
  flag_set ht.(ht_mpool).(mp_flags) FH_MPOOL_FL_GROW = true -> arena_ok ht.(ht_mpool) a ->
  exists ht' free', fh_ht_put (Some a) mem_table mem ht key klen v = Some (FH_OK, ht') /\
    ht_repr kops klen den mem ht' free' (<[d := v]> m) /\
    ht'.(ht_count) = ht.(ht_count) + 1.
Proof.
  intros Hr Hd Hm Hfl Ha. pose proof (hr_pool _ _ _ _ _ _ _ Hr) as Hwf.
  assert (Hget : exists c free' mp', fh_mpool_get (Some a) ht.(ht_mpool) = Some (c + 8, mp') /\
    pool_wf mp' free' (c :: (chunk_of ∘ he_addr <$> concat (ht_table ht)))).
  { pose proof (hr_nchunks _ _ _ _ _ _ _ Hr) as Hn.
    destruct free as [|c free].
    - destruct (fh_mpool_get_grow _ _ _ Hwf Ha Hn Hfl) as (c & f & mp' & _ & ? & ? & _). eauto.
    - destruct (fh_mpool_get_free _ (Some a) _ _ _ Hwf) as (mp' & ? & ? & _). eauto. }
  destruct Hget as (c & free' & mp' & Hget & Hwf').
  destruct (fh_ht_put_new kops klen den (Some a) mem_table mem ht free m key d v c mp' free')
    as (ht' & E & Hr' & _); [done..|].
  exists ht', free'. split; [done|]. split; [done|].
  rewrite (ht_repr_size _ _ _ _ _ _ _ Hr'), (ht_repr_size _ _ _ _ _ _ _ Hr).
  rewrite map_size_insert_None by done. lia.
Qed.

(** The third put grows the pool and the table (from 4 to 8 lists). *)
Lemma ht_put_growable_witness :
  exists ht ht', ht.(ht_count) = 3 /\ ht.(ht_size) = 4 /\
    fh_ht_put (Some 65536) true tt ht 10 8 0 = Some (FH_OK, ht') /\ ht'.(ht_count) = 4 /\
    ht'.(ht_size) = 8.
Proof.
  destruct (fh_ht_new_spec demo_kops 8 demo_den tt 4096 2 FH_HT_FL_GROW)
    as (h0 & f0 & E0 & R0 & _); [lia | lia |].
  vm_compute in E0. injection E0 as <-.
  edestruct (ht_put_growable demo_kops 8 demo_den tt 8192 true _ _ _ 7 7 70 R0)
    as (h1 & f1 & E1 & R1 & _);
    [reflexivity | reflexivity | reflexivity
    | split; [done|]; split; [|done]; intros b; cbn; rewrite list_elem_of_singleton;
      intros ->; right; vm_compute; discriminate |].
  vm_compute in E1. injection E1 as <-.
  edestruct (ht_put_growable demo_kops 8 demo_den tt 8192 true _ _ _ 8 8 80 R1)
    as (h2 & f2 & E2 & R2 & _);
    [reflexivity | reflexivity | reflexivity
    | split; [done|]; split; [|done]; intros b; cbn; rewrite list_elem_of_singleton;
      intros ->; right; vm_compute; discriminate |].
  vm_compute in E2. injection E2 as <-.
  edestruct (ht_put_growable demo_kops 8 demo_den tt 8192 true _ _ _ 9 9 90 R2)
    as (h3 & f3 & E3 & R3 & _);
    [reflexivity | reflexivity | reflexivity
    | split; [done|]; split; [|done]; intros b; cbn; rewrite list_elem_of_singleton;
      intros ->; right; vm_compute; discriminate |].
  vm_compute in E3. injection E3 as <-.
  edestruct (ht_put_growable demo_kops 8 demo_den tt 65536 true _ _ _ 10 10 0 R3)
    as (h4 & f4 & E4 & R4 & C4);
    [reflexivity | reflexivity | reflexivity
    | split; [done|]; split; [|done]; intros b; cbn;
      rewrite elem_of_cons, list_elem_of_singleton;
      intros [-> | ->]; right; vm_compute; discriminate |].
  eexists _, h4. split; [|split; [|split; [exact E4|]]]; [reflexivity | reflexivity |].
  split; [exact C4|]. vm_compute in E4. injection E4 as <-. reflexivity.
Defined.

(** For the sizes a table can have, [ht_npower] returns the least power
    of two that is at least [n] (not greater than [n], as its comment says);
    a size of 2^30 or more overflows in [fh_ht_new] and gives a table of one
    collision list. *)
Theorem ht_npower_least n : 0 < n <= 1073741824 ->
  (exists p, ht_npower n = 2 ^ p /\ 0 <= p <= 30) /\ n <= ht_npower n /\
  (forall q, 0 <= q -> n <= 2 ^ q -> ht_npower n <= 2 ^ q) /\
  ht_npower (s32 (1073741824 * 2)) = 1.
Proof.
  intros Hn. destruct (ht_npower_spec n Hn) as (p & -> & Hp & Hle & Hlow).
  split; [by exists p|]. split; [done|]. split; [|done].
  intros q Hq Hnq. apply Z.pow_le_mono_r; [lia|].
  destruct Hlow as [->|Hlow]; [done|].
  assert (p - 1 < q); [|lia]. apply (Z.pow_lt_mono_r_iff 2); lia.
Qed.

Lemma ht_npower_least_witness : 5 <= ht_npower 5 /\ ht_npower 5 = 8 /\ ht_npower 8 = 8.
Proof. destruct (ht_npower_least 5) as (_ & H & _); [lia|]. done. Defined.
