(* ===== verification/Lookup.v ===== *)
(** * Symbol and order tables ([src/feeds/shared/lookup_tables])

    A table is a pool of entries plus a hash table whose keys point into the
    entries.  [tbl_entries] is the memory of the pool; the hash table is
    given that memory at every call, so that a key is what it points to. *)
From S2P Require Import Prelude Bytes Mpool Jhash HTable.

(** A key argument: the [key] field of a table entry, or a struct of the
    caller (its bytes, padding included). *)
Inductive key_ref :=
  | KEntry (a : Z)
  | KLocal (bytes : list Z).

(** [struct fh_shr_lkp_tbl], and the memory of its entries.  [None] is [NULL]. *)
Record lkp_tbl (E : Type) := MkTbl {
  tbl_mempool : option fh_mpool;
  tbl_hash : option (fh_ht (gmap Z E) key_ref);
  tbl_size : Z;
  tbl_count : Z;
  tbl_entries : gmap Z E
}.
Arguments MkTbl {E}.
Arguments tbl_mempool {E}.
Arguments tbl_hash {E}.
Arguments tbl_size {E}.
Arguments tbl_count {E}.
Arguments tbl_entries {E}.

(** Which of the allocations of an [init] succeed. *)
Record allocs := MkAllocs {
  al_mp : bool; al_mp_name : bool; al_mp_arena : option Z;
  al_ht : bool; al_ht_table : bool; al_ht_mp : bool; al_ht_name : bool;
  al_ht_arena : option Z
}.

(** ** Symbol table entries ([fh_shr_lkp_symbol.h]) *)

(** [symbol] is the C string copied by [strcpy]: its bytes up to the NUL.
    What follows it, like [context], is left as the pool's memory had it. *)
Record fh_shr_lkp_sym := MkSym {
  sym_key : list Z;         (* char symbol[20] *)
  sym_symbol : list Z
}.

Definition sizeof_sym_key : Z := 20.
Definition sizeof_sym : Z := 48.

(** ** Order table entries ([fh_shr_lkp_order.h]) *)

Record fh_shr_lkp_ord_key := MkOrdKey {
  ok_order_no : Z;          (* uint64_t *)
  ok_order_no_str : list Z; (* char [20] *)
  ok_padding : list Z       (* the 4 bytes that end the struct *)
}.

Record fh_shr_lkp_ord := MkOrd {
  ord_key : fh_shr_lkp_ord_key;
  ord_order_no : Z;
  ord_order_no_str : list Z;
  ord_price : Z;            (* uint64_t *)
  ord_shares : Z;           (* uint32_t *)
  ord_buy_sell_ind : Z;     (* char *)
  ord_stock : list Z;       (* char [6] *)
  ord_sym_entry : Z;        (* pointer *)
  ord_context : Z           (* pointer *)
}.

Definition sizeof_ord_key : Z := 32.
Definition sizeof_ord : Z := 104.

Definition ord_key_bytes (k : fh_shr_lkp_ord_key) : list Z :=
  le_bytes 8 k.(ok_order_no) ++ k.(ok_order_no_str) ++ k.(ok_padding).

(** ** Key operations

    [key_of] gives the bytes of an entry's key. *)
Section kops.
Context {E : Type} (key_of : E -> list Z).

Definition key_bytes (mem : gmap Z E) (k : key_ref) : option (list Z) :=
  match k with
  | KEntry a => key_of <$> mem !! a
  | KLocal b => Some b
  end.

(** [key_hash]: [sz] is the [sizeof] of the asserted key type. *)
Definition key_hash (sz : Z) (mem : gmap Z E) (key : key_ref) (key_length : Z) : option Z :=
  guard_ub (key_length =? sz) (b ← key_bytes mem key; Some (jhash2 (words_of b) 0)).

(** [key_compare]: [memcmp] of the two structs. *)
Definition key_compare (sz : Z) (mem : gmap Z E) (key1 key2 : key_ref) (key_length : Z)
    : option bool :=
  guard_ub (key_length =? sz)
    (b1 ← key_bytes mem key1; b2 ← key_bytes mem key2; Some (bool_decide (b1 = b2))).

Definition key_operations (sz : Z) : fh_ht_kops (gmap Z E) key_ref :=
  MkKops (key_hash sz) (key_compare sz).

#[export] Instance key_operations_laws sz : KeyOps (key_operations sz) sz (list Z) key_bytes.
Proof.
  refine {| hash_of := fun b => jhash2 (words_of b) 0 |}.
  - intros mem k d Hd. cbn. unfold key_hash. by rewrite Z.eqb_refl, Hd.
  - intros mem k1 k2 d1 d2 H1 H2. cbn. unfold key_compare. by rewrite Z.eqb_refl, H1, H2.
Defined.

(** Both [init] functions: [name], [sizeof(entry)] and [sizeof(key)] differ. *)
Definition lkp_init (name : string) (sizeof_entry sizeof_key : Z) (al : allocs)
    (enabled : bool) (size : Z) : Z * lkp_tbl E :=
  let table := MkTbl None None 0 0 ∅ in
  if negb enabled then (FH_OK, table)
  else
    match fh_mpool_new al.(al_mp) al.(al_mp_name) al.(al_mp_arena) name sizeof_entry size 0 with
    | None => (FH_ERROR, table)
    | Some mp =>
        match fh_ht_new al.(al_ht) al.(al_ht_table) al.(al_ht_mp) al.(al_ht_name)
                al.(al_ht_arena) (s32 size) 0 (key_operations sizeof_key) with
        | None => (FH_ERROR, MkTbl (Some mp) None 0 0 ∅)
        | Some ht => (FH_OK, MkTbl (Some mp) (Some ht) size 0 ∅)
        end
    end.

Definition lkp_get (sz : Z) (table : lkp_tbl E) (key : key_ref) : option (Z * Z) :=
  ht ← table.(tbl_hash);
  fh_ht_get table.(tbl_entries) ht key sz.

(** The part [fh_shr_lkp_sym_get] and [fh_shr_lkp_ord_add] share: a new entry
    from the pool, filled in as [e], put in the hash table under its own key.
    The result is the status, the entry pointer and the table; any status of
    [fh_ht_put] but [FH_ERR_DUP] counts as success. *)
Definition lkp_insert (sz : Z) (table : lkp_tbl E) (e : E) : option (Z * Z * lkp_tbl E) :=
  mp ← table.(tbl_mempool);
  '(nentry, mp) ← fh_mpool_get None mp;
  if nentry =? NULL then
    Some (FH_ERROR, NULL,
      MkTbl (Some mp) table.(tbl_hash) table.(tbl_size) table.(tbl_count) table.(tbl_entries))
  else
    let entries := <[nentry := e]> table.(tbl_entries) in
    ht ← table.(tbl_hash);
    '(rc, ht) ← fh_ht_put None false entries ht (KEntry nentry) sz nentry;
    if rc =? FH_ERR_DUP then
      '(_, mp) ← fh_mpool_put mp nentry;
      Some (FH_ERR_DUP, nentry,
        MkTbl (Some mp) (Some ht) table.(tbl_size) table.(tbl_count) entries)
    else
      Some (FH_OK, nentry,
        MkTbl (Some mp) (Some ht) table.(tbl_size) (u32 (table.(tbl_count) + 1)) entries).

End kops.

(** ** The symbol table ([fh_shr_lkp_symbol.c]) *)

Notation sym_tbl := (lkp_tbl fh_shr_lkp_sym).

Definition sym_key_operations : fh_ht_kops (gmap Z fh_shr_lkp_sym) key_ref :=
  key_operations sym_key sizeof_sym_key.

Definition fh_shr_lkp_sym_init (al : allocs) (enabled : bool) (size : Z) : Z * sym_tbl :=
  lkp_init sym_key "SymbolTable" sizeof_sym sizeof_sym_key al enabled size.

(** [strcpy] reads up to the first NUL, which must be there. *)
Fixpoint cstring (b : list Z) : option (list Z) :=
  match b with
  | [] => None
  | c :: b => if c =? 0 then Some [] else s ← cstring b; Some (c :: s)
  end.

Definition fh_shr_lkp_sym_get (table : sym_tbl) (key : list Z) : option (Z * Z * sym_tbl) :=
  '(rc, entry) ← lkp_get sizeof_sym_key table (KLocal key);
  if rc =? FH_ERR_NOTFOUND then
    match cstring key with
    | None =>
        (* an entry is taken first; without one the key is not read *)
        mp ← table.(tbl_mempool);
        '(nentry, _) ← fh_mpool_get None mp;
        if nentry =? NULL then lkp_insert sizeof_sym_key table (MkSym key []) else None
    | Some s => lkp_insert sizeof_sym_key table (MkSym key s)
    end
  else if negb (rc =? FH_OK) then Some (rc, entry, table)
  else Some (FH_OK, entry, table).

(** ** The order table ([fh_shr_lkp_order.c]) *)

Notation ord_tbl := (lkp_tbl fh_shr_lkp_ord).

Definition ord_key_of (e : fh_shr_lkp_ord) : list Z := ord_key_bytes e.(ord_key).

Definition ord_key_operations : fh_ht_kops (gmap Z fh_shr_lkp_ord) key_ref :=
  key_operations ord_key_of sizeof_ord_key.

Definition fh_shr_lkp_ord_init (al : allocs) (enabled : bool) (size : Z) : Z * ord_tbl :=
  lkp_init ord_key_of "OrderTable" sizeof_ord sizeof_ord_key al enabled size.

Definition fh_shr_lkp_ord_get (table : ord_tbl) (key : fh_shr_lkp_ord_key) : option (Z * Z) :=
  lkp_get sizeof_ord_key table (KLocal (ord_key_bytes key)).

(** The [memcpy]s that fill the entry in: the key's padding comes with the
    copy of the whole struct. *)
Definition ord_new_entry (entry : fh_shr_lkp_ord) : fh_shr_lkp_ord :=
  MkOrd (MkOrdKey entry.(ord_order_no) entry.(ord_order_no_str) entry.(ord_key).(ok_padding))
    entry.(ord_order_no) entry.(ord_order_no_str) entry.(ord_price) entry.(ord_shares)
    entry.(ord_buy_sell_ind) entry.(ord_stock) entry.(ord_sym_entry) entry.(ord_context).

(** The second result is [*tblentry], which every caller sets to [NULL]
    before the call and which is only assigned on success. *)
Definition fh_shr_lkp_ord_add (table : ord_tbl) (entry : fh_shr_lkp_ord)
    : option (Z * Z * ord_tbl) :=
  '(rc, nentry, table) ← lkp_insert sizeof_ord_key table (ord_new_entry entry);
  Some (rc, if rc =? FH_OK then nentry else NULL, table).

(** The third result is [*entry]. *)
Definition fh_shr_lkp_ord_del (table : ord_tbl) (key : fh_shr_lkp_ord_key)
    : option (Z * Z * ord_tbl) :=
  ht ← table.(tbl_hash);
  '(rc, old_entry, ht) ←
     fh_ht_delete table.(tbl_entries) ht (KLocal (ord_key_bytes key)) sizeof_ord_key;
  if rc =? FH_OK then
    mp ← table.(tbl_mempool);
    '(_, mp) ← fh_mpool_put mp old_entry;
    Some (rc, old_entry, MkTbl (Some mp) (Some ht) table.(tbl_size)
            (u32 (table.(tbl_count) - 1)) table.(tbl_entries))
  else
    Some (rc, NULL, MkTbl table.(tbl_mempool) (Some ht) table.(tbl_size)
            table.(tbl_count) table.(tbl_entries)).

(** ** Tables as finite maps

    From key bytes to the address and the contents of an entry. *)
Section repr.
Context {E : Type} (key_of : E -> list Z) (sz : Z).
Notation kops := (key_operations key_of sz).
Notation den := (key_bytes key_of).

Record tbl_repr (t : lkp_tbl E) (cap : Z) (m : gmap (list Z) (Z * E)) : Prop := {
  tr_pool : exists mp free, t.(tbl_mempool) = Some mp /\
    pool_wf mp free ((fun p => chunk_of p.2.1) <$> map_to_list m) /\
    flag_set mp.(mp_flags) FH_MPOOL_FL_GROW = false /\
    Z.of_nat (length free) + Z.of_nat (size m) = cap;
  tr_hash : exists ht, t.(tbl_hash) = Some ht /\
    ht_fixed kops sz den t.(tbl_entries) cap ht (fst <$> m) /\
    forall k v, (k, v) ∈ ht_keyvals ht -> k = KEntry v;
  tr_entries : forall k a e, m !! k = Some (a, e) ->
    t.(tbl_entries) !! a = Some e /\ key_of e = k;
  tr_count : t.(tbl_count) = Z.of_nat (size m);
  tr_size : t.(tbl_size) = cap
}.

Lemma used_addr (m : gmap (list Z) (Z * E)) k a e :
  m !! k = Some (a, e) -> chunk_of a ∈ (fun p => chunk_of p.2.1) <$> map_to_list m.
Proof.
  intros Hk. apply list_elem_of_fmap. exists (k, (a, e)). split; [done|].
  by apply elem_of_map_to_list.
Qed.

(** Different keys have different entries. *)
Lemma tbl_repr_inj t cap m k1 k2 a e1 e2 :
  tbl_repr t cap m -> m !! k1 = Some (a, e1) -> m !! k2 = Some (a, e2) -> k1 = k2.
Proof.
  intros Hr H1 H2. destruct (tr_entries _ _ _ Hr _ _ _ H1) as [G1 <-].
  destruct (tr_entries _ _ _ Hr _ _ _ H2) as [G2 <-]. by simplify_eq.
Qed.

Lemma tbl_repr_nonnull t cap m k a e : tbl_repr t cap m -> m !! k = Some (a, e) -> a <> NULL.
Proof.
  intros [(mp & free & _ & Hwf & _) _ _ _ _] Hk.
  pose proof (pool_used_pos _ _ _ (chunk_of a) Hwf) as Hpos.
  rewrite elem_of_app in Hpos. specialize (Hpos (or_intror (used_addr _ _ _ _ Hk))).
  unfold chunk_of, sizeof_mchunk, NULL in *. lia.
Qed.

(** The table's hash elements only point to its entries. *)
Lemma ht_keys_used (entries : gmap Z E) (cap : Z) (ht : fh_ht (gmap Z E) key_ref) (m : gmap (list Z) (Z * E))
    (he : fh_ht_elt key_ref) :
  ht_fixed kops sz den entries cap ht (fst <$> m) ->
  (forall k v, (k, v) ∈ ht_keyvals ht -> k = KEntry v) -> he ∈ concat ht.(ht_table) ->
  he.(he_key) = KEntry he.(he_value) /\ exists k e, m !! k = Some (he.(he_value), e).
Proof.
  intros (free & Hr & _) Hkv Hin. split.
  { apply Hkv. unfold ht_keyvals. apply list_elem_of_fmap. eauto. }
  destruct (proj1 (Forall_forall _ _) (hr_elts _ _ _ _ _ _ _ Hr) he Hin) as (_ & d & Hd & _).
  pose proof (ht_repr_lookup _ _ _ _ _ _ _ _ _ Hr Hin Hd) as Hm.
  rewrite lookup_fmap in Hm. destruct (m !! d) as [[a e]|] eqn:Em; [|done].
  cbn in Hm. injection Hm as ->. eauto.
Qed.

(** Writing an entry that is not in the table does not disturb it. *)
Lemma ht_fixed_entry (entries : gmap Z E) (cap : Z) (ht : fh_ht (gmap Z E) key_ref) (m : gmap (list Z) (Z * E)) a e :
  ht_fixed kops sz den entries cap ht (fst <$> m) ->
  (forall k v, (k, v) ∈ ht_keyvals ht -> k = KEntry v) ->
  (forall k e', m !! k = Some (a, e') -> entries !! a = Some e' /\ key_of e = key_of e') ->
  ht_fixed kops sz den (<[a := e]> entries) cap ht (fst <$> m).
Proof.
  intros Hf Hkv Ha. pose proof Hf as (free & Hr & Hfl & Hcap). exists free.
  split; [|done]. eapply ht_repr_mem; [|exact Hr]. intros he Hin.
  destruct (ht_keys_used _ _ _ _ _ Hf Hkv Hin) as (Hk & k & e' & Hm).
  rewrite Hk. cbn. destruct (decide (he_value he = a)) as [Ea|Hne].
  - rewrite Ea in *. destruct (Ha _ _ Hm) as [-> He]. rewrite lookup_insert_eq. cbn. by rewrite He.
  - by rewrite lookup_insert_ne by done.
Qed.

Lemma lkp_get_spec t cap m k d :
  tbl_repr t cap m -> den t.(tbl_entries) k = Some d ->
  lkp_get sz t k = Some (match m !! d with
    | Some (a, _) => (FH_OK, a) | None => (FH_ERR_NOTFOUND, NULL) end).
Proof.
  intros [_ (ht & Hht & (free & Hr & _) & _) _ _ _] Hd. unfold lkp_get. rewrite Hht.
  cbn [mbind option_bind]. rewrite (fh_ht_get_spec kops sz den _ _ _ _ _ _ Hr Hd), lookup_fmap.
  by destruct (m !! d) as [[a e]|].
Qed.

Lemma tbl_repr_fit t cap m : tbl_repr t cap m -> Z.of_nat (size m) <= cap < 4294967296.
Proof.
  intros [(mp & free & _ & Hwf & _ & Hcap) _ _ _ _].
  pose proof (wf_fit _ _ _ Hwf) as Hf. rewrite length_app, length_fmap in Hf.
  rewrite length_map_to_list in Hf. lia.
Qed.

(** An entry is taken from the pool, and put under a new key. *)
Lemma lkp_insert_full t cap m : tbl_repr t cap m -> Z.of_nat (size m) = cap -> exists mp,
  t.(tbl_mempool) = Some mp /\ fh_mpool_get None mp = Some (NULL, mp).
Proof.
  intros [(mp & free & Hmp & Hwf & Hfl & Hcap) _ _ _ _] Hfull. destruct free as [|c free]; [|cbn in Hcap; lia].
  exists mp. split; [done|]. by rewrite (fh_mpool_get_empty _ _ _ Hwf) by auto.
Qed.

Lemma lkp_insert_steps t cap m k : tbl_repr t cap m -> m !! k = None -> Z.of_nat (size m) <> cap -> exists mp mp' ht a,
  t.(tbl_mempool) = Some mp /\ fh_mpool_get None mp = Some (a, mp') /\ t.(tbl_hash) = Some ht /\ a <> NULL /\
  (forall k a' e', m !! k = Some (a', e') -> a' <> a) /\
  forall e, key_of e = k -> let entries := <[a := e]> (tbl_entries t) in exists ht',
    fh_ht_put None false entries ht (KEntry a) sz a = Some (FH_OK, ht') /\
    tbl_repr (MkTbl (Some mp') (Some ht') t.(tbl_size) (u32 (t.(tbl_count) + 1)) entries) cap (<[k := (a, e)]> m).
Proof.
  intros Hr Hm Hne. pose proof (tbl_repr_fit _ _ _ Hr) as Hfit.
  pose proof Hr as [(mp & free & Hmp & Hwf & Hfl & Hcap) (ht & Hht & Hf & Hkv) Hent Hcnt Hsz].
  destruct free as [|c free]; [cbn in Hcap; lia|]. cbn in Hcap.
  destruct (fh_mpool_get_free _ None _ _ _ Hwf) as (mp' & Hget & Hwf' & Hfl').
  pose proof (pool_used_pos _ _ _ c Hwf' ltac:(set_solver)) as Hc.
  assert (Hfresh : forall k a' e', m !! k = Some (a', e') -> a' <> c + 8).
  { intros k0 a' e' Hk ->. apply used_addr in Hk. rewrite chunk_of_elem in Hk.
    pose proof (wf_nodup _ _ _ Hwf') as (_ & _ & [Hni _]%NoDup_cons)%NoDup_app. done. }
  exists mp, mp', ht, (c + 8). split; [done|]. split; [done|]. split; [done|]. split; [unfold NULL; lia|]. split; [done|].
  intros e <- entries.
  assert (Hf' : ht_fixed kops sz den entries cap ht (fst <$> m)).
  { apply ht_fixed_entry; [done..|]. intros k e' Hk. by destruct (Hfresh _ _ _ Hk). }
  assert (Hd : den entries (KEntry (c + 8)) = Some (key_of e)).
  { cbn. unfold entries. by rewrite lookup_insert_eq. }
  assert (Hn : (fst <$> m) !! key_of e = None) by (rewrite lookup_fmap, Hm; done).
  pose proof (ht_put_fixed kops sz den entries cap ht _ (KEntry (c + 8)) _ (c + 8) None false Hf' Hd Hn)
    as Hput.
  rewrite map_size_fmap, eqb_false_of_ne in Hput by lia. destruct Hput as (ht' & Hput & Hf2 & Hkv2).
  exists ht'. split; [done|]. constructor; cbn.
  - exists mp', free. split; [done|]. rewrite map_size_insert_None, Hfl' by done.
    split; [|split; [done | lia]]. eapply pool_wf_perm; [|exact Hwf'].
    rewrite map_to_list_insert, fmap_cons by done. cbn [fst snd]. by rewrite chunk_of_elem.
  - exists ht'. split; [done|]. rewrite fmap_insert. split; [done|].
    intros k v. rewrite Hkv2, elem_of_cons. intros [[= -> ->]|Hin]; [done | by apply Hkv].
  - intros k a e'. rewrite lookup_insert. case_decide as Hk.
    + intros [= <- <-]. unfold entries. by rewrite lookup_insert_eq.
    + intros Hk'. unfold entries. rewrite lookup_insert_ne by (intros <-; by eapply Hfresh). eauto.
  - rewrite Hcnt, map_size_insert_None by done. rewrite u32_small; lia.
  - done.
Qed.

Lemma lkp_insert_spec t cap m e :
  tbl_repr t cap m -> m !! key_of e = None ->
  if Z.of_nat (size m) =? cap then lkp_insert sz t e = Some (FH_ERROR, NULL, t)
  else exists a t', lkp_insert sz t e = Some (FH_OK, a, t') /\ a <> NULL /\
    (forall k a' e', m !! k = Some (a', e') -> a' <> a) /\
    tbl_repr t' cap (<[key_of e := (a, e)]> m).
Proof.
  intros Hr Hm. unfold lkp_insert. destruct (Z.eqb_spec (Z.of_nat (size m)) cap) as [Hfull|Hne].
  - destruct (lkp_insert_full t cap m Hr Hfull) as (mp & Hmp & Hget). rewrite Hmp. cbn [mbind option_bind]. rewrite Hget.
    cbn [mbind option_bind]. rewrite Z.eqb_refl. do 2 f_equal. by destruct t; cbn in *; subst.
  - destruct (lkp_insert_steps t cap m _ Hr Hm Hne) as (mp & mp' & ht & a & Hmp & Hget & Hht & Ha & Hfresh & Hput).
    destruct (Hput e eq_refl) as (ht' & Hput' & Hr'). rewrite Hmp. cbn [mbind option_bind]. rewrite Hget. cbn [mbind option_bind].
    rewrite (eqb_false_of_ne a NULL) by done. rewrite Hht. cbn [mbind option_bind]. rewrite Hput'. cbn [mbind option_bind].
    change (FH_OK =? FH_ERR_DUP) with false. cbn iota. by eexists _, _.
Qed.

(** A duplicate key: the entry taken goes back to the pool. *)
Lemma lkp_insert_dup t cap m e x :
  tbl_repr t cap m -> m !! key_of e = Some x ->
  if Z.of_nat (size m) =? cap then lkp_insert sz t e = Some (FH_ERROR, NULL, t)
  else exists a t', lkp_insert sz t e = Some (FH_ERR_DUP, a, t') /\ tbl_repr t' cap m.
Proof.
  intros Hr Hm.
  pose proof Hr as [(mp & free & Hmp & Hwf & Hfl & Hcap) (ht & Hht & Hf & Hkv) Hent Hcnt Hsz].
  unfold lkp_insert. rewrite Hmp. cbn [mbind option_bind].
  destruct free as [|c free].
  { cbn in Hcap. replace (_ =? cap) with true by lia.
    rewrite (fh_mpool_get_empty _ _ _ Hwf) by auto. cbn [mbind option_bind].
    rewrite Z.eqb_refl. do 2 f_equal. by destruct t; cbn in *; subst. }
  cbn in Hcap. rewrite eqb_false_of_ne by lia.
  destruct (fh_mpool_get_free _ None _ _ _ Hwf) as (mp' & -> & Hwf' & Hfl'). cbn [mbind option_bind].
  pose proof (pool_used_pos _ _ _ c Hwf' ltac:(set_solver)) as Hc.
  rewrite (eqb_false_of_ne (c + 8) NULL) by (unfold NULL; lia). rewrite Hht. cbn [mbind option_bind].
  assert (Hfresh : forall k a' e', m !! k = Some (a', e') -> a' <> c + 8).
  { intros k a' e' Hk ->. apply used_addr in Hk. rewrite chunk_of_elem in Hk.
    pose proof (wf_nodup _ _ _ Hwf') as (_ & _ & [Hni _]%NoDup_cons)%NoDup_app. done. }
  set (entries := <[c + 8 := e]> (tbl_entries t)).
  assert (Hf' : ht_fixed kops sz den entries cap ht (fst <$> m)).
  { apply ht_fixed_entry; [done..|]. intros k e' Hk. by destruct (Hfresh _ _ _ Hk). }
  assert (Hd : den entries (KEntry (c + 8)) = Some (key_of e)).
  { cbn. unfold entries. by rewrite lookup_insert_eq. }
  assert (Hn : (fst <$> m) !! key_of e = Some x.1) by (rewrite lookup_fmap, Hm; done).
  pose proof Hf' as (free' & Hr' & _).
  rewrite (fh_ht_put_dup kops sz den None false _ _ _ _ _ _ (c + 8) _ Hr' Hd Hn).
  cbn [mbind option_bind]. change (FH_ERR_DUP =? FH_ERR_DUP) with true. cbn iota.
  destruct (fh_mpool_put_wf _ _ [] _ _ Hwf') as (mp'' & -> & Hwf'' & Hfl''). cbn [mbind option_bind].
  eexists _, _. split; [done|]. constructor; cbn.
  - exists mp'', (c :: free). rewrite Hfl'', Hfl'. done.
  - exists ht. done.
  - intros k a e' Hk. unfold entries. rewrite lookup_insert_ne by (intros <-; by eapply Hfresh).
    eauto.
  - done.
  - done.
Qed.

(** Writing an entry of the table in place. *)
Definition tbl_write (t : lkp_tbl E) (a : Z) (e : E) : lkp_tbl E :=
  MkTbl t.(tbl_mempool) t.(tbl_hash) t.(tbl_size) t.(tbl_count) (<[a := e]> t.(tbl_entries)).

Lemma tbl_write_spec t cap m k a e e' :
  tbl_repr t cap m -> m !! k = Some (a, e) -> key_of e' = k ->
  tbl_repr (tbl_write t a e') cap (<[k := (a, e')]> m).
Proof.
  intros Hr Hk He.
  pose proof Hr as [(mp & free & Hmp & Hwf & Hfl & Hcap) (ht & Hht & Hf & Hkv) Hent Hcnt Hsz].
  assert (Hfst : fst <$> <[k := (a, e')]> m = fst <$> m).
  { rewrite fmap_insert. apply insert_id. by rewrite lookup_fmap, Hk. }
  constructor; cbn.
  - exists mp, free. split; [done|]. rewrite map_size_insert_Some by done.
    split; [|done]. eapply pool_wf_perm; [|exact Hwf].
    rewrite <- (insert_delete_id m k (a, e)) by done.
    rewrite insert_insert_eq.
    rewrite !map_to_list_insert by apply lookup_delete_eq. done.
  - exists ht. split; [done|]. rewrite Hfst. split; [|done].
    apply ht_fixed_entry; [done..|]. intros k' e'' Hk'. destruct (Hent _ _ _ Hk') as [H1 H2].
    split; [done|]. rewrite He, H2. by eapply tbl_repr_inj.
  - intros k' b e''. rewrite lookup_insert. case_decide as Hkk.
    + intros [= <- <-]. rewrite lookup_insert_eq. split; [done | congruence].
    + intros Hk'. rewrite lookup_insert_ne; [by apply Hent|]. intros ->.
      apply Hkk. by eapply tbl_repr_inj.
  - by rewrite map_size_insert_Some.
  - done.
Qed.

(** A table made by an [init] whose allocations succeed. *)
Lemma lkp_init_spec name se a1 a2 size :
  0 < a1 -> 0 < a2 -> 0 <= se -> 0 < size <= 30000000 -> 8 + size * (se + 8) < 2147483648 ->
  exists t, lkp_init key_of name se sz
      (MkAllocs true true (Some a1) true true true true (Some a2)) true size = (FH_OK, t) /\
    tbl_repr t size ∅ /\ t.(tbl_entries) = ∅.
Proof.
  intros H1 H2 Hse Hs Hfit. unfold lkp_init. cbn [negb al_mp al_mp_name al_mp_arena].
  destruct (fh_mpool_new_wf a1 name se size 0) as (mp & -> & Hwf & Hfl & Hn & _); [lia..|].
  cbn [al_ht al_ht_table al_ht_mp al_ht_name al_ht_arena]. rewrite s32_small by lia.
  destruct (fh_ht_new_spec kops sz den ∅ a2 size 0 H2 Hs) as (ht & free & -> & Hr & Hlen & _ & _ & Hfl2).
  eexists. split; [done|]. split; [|done]. constructor; cbn; rewrite ?map_size_empty; try done.
  - eexists mp, _. split; [done|]. rewrite map_to_list_empty. split; [exact Hwf|].
    rewrite Hfl. split; [done|]. rewrite length_reverse.
    pose proof (length_block_chunks mp a1). lia.
  - exists ht. split; [done|]. rewrite fmap_empty. split.
    + exists free. rewrite map_size_empty, Hfl2. split; [done|]. split; [done | lia].
    + unfold ht_keyvals. intros k v (he & _ & Hin)%list_elem_of_fmap.
      pose proof (hr_map _ _ _ _ _ _ _ Hr) as Hm.
      pose proof (ht_repr_size _ _ _ _ _ _ _ Hr) as Hc. rewrite (hr_count _ _ _ _ _ _ _ Hr) in Hc.
      rewrite map_size_empty in Hc. destruct (concat (ht_table ht)); [set_solver | done].
Qed.

End repr.

(** ** Operations of the symbol table *)

(** Looking a symbol up, or adding it. *)
Lemma fh_shr_lkp_sym_get_spec t cap m key s :
  tbl_repr sym_key sizeof_sym_key t cap m -> cstring key = Some s ->
  match m !! key with
  | Some (a, _) => fh_shr_lkp_sym_get t key = Some (FH_OK, a, t)
  | None =>
      if Z.of_nat (size m) =? cap then fh_shr_lkp_sym_get t key = Some (FH_ERROR, NULL, t)
      else exists a t', fh_shr_lkp_sym_get t key = Some (FH_OK, a, t') /\
        (forall k a' e', m !! k = Some (a', e') -> a' <> a) /\
        t'.(tbl_entries) !! a = Some (MkSym key s) /\
        tbl_repr sym_key sizeof_sym_key t' cap (<[key := (a, MkSym key s)]> m)
  end.
Proof.
  intros Hr Hs. unfold fh_shr_lkp_sym_get.
  rewrite (lkp_get_spec sym_key sizeof_sym_key t cap m (KLocal key) key Hr eq_refl).
  cbn [mbind option_bind]. destruct (m !! key) as [[a e]|] eqn:Em; [done|].
  change (FH_ERR_NOTFOUND =? FH_ERR_NOTFOUND) with true. cbn iota. rewrite Hs.
  pose proof (lkp_insert_spec sym_key sizeof_sym_key t cap m (MkSym key s) Hr Em) as Hi.
  destruct (_ =? cap); [done|]. destruct Hi as (a & t' & E & _ & Hf & Hr').
  exists a, t'. split; [done|]. split; [done|]. split; [|done].
  by apply (tr_entries _ _ _ _ _ Hr' key); apply lookup_insert_eq.
Qed.

Lemma fh_shr_lkp_sym_get_total t cap m key s :
  tbl_repr sym_key sizeof_sym_key t cap m -> cstring key = Some s ->
  exists rc a t' m', fh_shr_lkp_sym_get t key = Some (rc, a, t') /\
    tbl_repr sym_key sizeof_sym_key t' cap m'.
Proof.
  intros Hr Hs. pose proof (fh_shr_lkp_sym_get_spec t cap m key s Hr Hs) as H.
  destruct (m !! key) as [[a e]|]; [eauto 8|]. destruct (_ =? cap); [eauto 8|].
  destruct H as (a & t' & ? & _ & _ & ?). eauto 8.
Qed.

(** ** Operations of the order table *)

Notation ord_repr := (tbl_repr ord_key_of sizeof_ord_key).

Definition ord_key_ok (k : fh_shr_lkp_ord_key) : Prop :=
  0 <= k.(ok_order_no) < 18446744073709551616.

(** Order numbers are told apart by the bytes of their keys. *)
Lemma ord_key_bytes_inj k1 k2 :
  ord_key_ok k1 -> ord_key_ok k2 -> ord_key_bytes k1 = ord_key_bytes k2 ->
  k1.(ok_order_no) = k2.(ok_order_no).
Proof.
  intros H1 H2 E. unfold ord_key_bytes in E.
  apply app_inj_1 in E as [E _]; [|by rewrite !length_le_bytes].
  by eapply le_bytes_inj in E.
Qed.

Lemma fh_shr_lkp_ord_get_spec t cap m key :
  ord_repr t cap m ->
  fh_shr_lkp_ord_get t key = Some (match m !! ord_key_bytes key with
    | Some (a, _) => (FH_OK, a) | None => (FH_ERR_NOTFOUND, NULL) end).
Proof. intros Hr. unfold fh_shr_lkp_ord_get. by eapply lkp_get_spec. Qed.

Lemma fh_shr_lkp_ord_add_spec t cap m e :
  ord_repr t cap m ->
  let n := ord_new_entry e in
  if Z.of_nat (size m) =? cap then fh_shr_lkp_ord_add t e = Some (FH_ERROR, NULL, t)
  else match m !! ord_key_of n with
    | Some _ => exists t', fh_shr_lkp_ord_add t e = Some (FH_ERR_DUP, NULL, t') /\ ord_repr t' cap m
    | None => exists a t', fh_shr_lkp_ord_add t e = Some (FH_OK, a, t') /\ a <> NULL /\
        (forall k a' e', m !! k = Some (a', e') -> a' <> a) /\
        ord_repr t' cap (<[ord_key_of n := (a, n)]> m)
    end.
Proof.
  intros Hr n. unfold fh_shr_lkp_ord_add. fold n. destruct (m !! ord_key_of n) eqn:Em.
  - pose proof (lkp_insert_dup _ _ _ _ _ _ _ Hr Em) as H. destruct (_ =? cap); [by rewrite H|].
    destruct H as (a & t' & -> & Hr'). by exists t'.
  - pose proof (lkp_insert_spec _ _ _ _ _ _ Hr Em) as H. destruct (_ =? cap); [by rewrite H|].
    destruct H as (a & t' & -> & ? & ? & Hr'). by exists a, t'.
Qed.

Lemma fh_shr_lkp_ord_del_spec t cap m key :
  ord_repr t cap m ->
  match m !! ord_key_bytes key with
  | None => fh_shr_lkp_ord_del t key = Some (FH_ERR_NOTFOUND, NULL, t)
  | Some (a, e) => exists t', fh_shr_lkp_ord_del t key = Some (FH_OK, a, t') /\
      ord_repr t' cap (delete (ord_key_bytes key) m) /\ t'.(tbl_entries) = t.(tbl_entries)
  end.
Proof.
  intros Hr. pose proof (tbl_repr_fit _ _ _ _ _ Hr) as Hfit.
  pose proof Hr as [(mp & free & Hmp & Hwf & Hfl & Hcap) (ht & Hht & Hf & Hkv) Hent Hcnt Hsz].
  unfold fh_shr_lkp_ord_del. rewrite Hht. cbn [mbind option_bind].
  generalize (ord_key_bytes key) as d. intros d.
  pose proof (ht_delete_fixed (key_operations ord_key_of sizeof_ord_key) sizeof_ord_key
    (key_bytes ord_key_of) _ _ _ _ (KLocal d) d Hf eq_refl) as Hdel.
  rewrite lookup_fmap in Hdel. destruct (m !! d) as [[a e]|] eqn:Em; cbn in Hdel.
  2: { rewrite Hdel. cbn. do 2 f_equal. by destruct t; cbn in *; subst. }
  destruct Hdel as (ht' & -> & Hf' & Hkv'). cbn [mbind option_bind].
  change (FH_OK =? FH_OK) with true. cbn iota. rewrite Hmp. cbn [mbind option_bind].
  rewrite <- (insert_delete_id m d (a, e)) in Hwf by done.
  assert (Hwf2 : pool_wf mp free ([] ++ chunk_of a ::
    ((fun p : list Z * (Z * fh_shr_lkp_ord) => chunk_of p.2.1) <$> map_to_list (delete d m)))).
  { eapply pool_wf_perm; [|exact Hwf].
    by rewrite map_to_list_insert, fmap_cons by apply lookup_delete_eq. }
  destruct (fh_mpool_put_wf _ _ _ _ _ Hwf2) as (mp' & Hput & Hwf' & Hfl').
  replace (chunk_of a + 8) with a in Hput by (unfold chunk_of, sizeof_mchunk; lia).
  rewrite Hput. cbn [mbind option_bind]. eexists. split; [done|]. split; [|done].
  assert (Hsd : (size m = S (size (delete d m)))%nat).
  { rewrite <- (insert_delete_id m d (a, e)) at 1 by done.
    by rewrite map_size_insert_None by apply lookup_delete_eq. }
  constructor; cbn.
  - exists mp', (chunk_of a :: free). rewrite Hfl'. split; [done|]. split; [exact Hwf'|].
    split; [done|]. cbn. lia.
  - exists ht'. split; [done|]. split; [by rewrite fmap_delete|]. intros k v Hin. by apply Hkv, Hkv'.
  - intros k a' e'. rewrite lookup_delete. case_decide; [done|]. apply Hent.
  - rewrite Hcnt, u32_small; lia.
  - done.
Qed.

(** ** Runs of order table operations *)

Inductive ord_op :=
  | OrdAdd (e : fh_shr_lkp_ord)
  | OrdGet (k : fh_shr_lkp_ord_key)
  | OrdDel (k : fh_shr_lkp_ord_key).

(** The status, and the order the returned pointer points to. *)
Definition ord_exec (t : ord_tbl) (op : ord_op)
    : option (Z * option fh_shr_lkp_ord * ord_tbl) :=
  match op with
  | OrdAdd e => '(rc, p, t) ← fh_shr_lkp_ord_add t e; Some (rc, t.(tbl_entries) !! p, t)
  | OrdGet k => '(rc, p) ← fh_shr_lkp_ord_get t k; Some (rc, t.(tbl_entries) !! p, t)
  | OrdDel k => '(rc, p, t) ← fh_shr_lkp_ord_del t k; Some (rc, t.(tbl_entries) !! p, t)
  end.

(** The specification: at most [cap] orders, by key. *)
Notation book := (gmap (list Z) fh_shr_lkp_ord).

Definition book_exec (cap : Z) (b : book) (op : ord_op)
    : Z * option fh_shr_lkp_ord * book :=
  match op with
  | OrdAdd e =>
      let n := ord_new_entry e in
      if Z.of_nat (size b) =? cap then (FH_ERROR, None, b)
      else match b !! ord_key_of n with
        | Some _ => (FH_ERR_DUP, None, b)
        | None => (FH_OK, Some n, <[ord_key_of n := n]> b)
        end
  | OrdGet k =>
      match b !! ord_key_bytes k with
      | Some e => (FH_OK, Some e, b) | None => (FH_ERR_NOTFOUND, None, b) end
  | OrdDel k =>
      match b !! ord_key_bytes k with
      | Some e => (FH_OK, Some e, delete (ord_key_bytes k) b)
      | None => (FH_ERR_NOTFOUND, None, b) end
  end.

(** The entry at [NULL] is never written. *)
Definition ord_table_of (cap : Z) (t : ord_tbl) (b : book) : Prop :=
  t.(tbl_entries) !! NULL = None /\ exists m, ord_repr t cap m /\ b = snd <$> m.

Lemma ord_del_entries t key rc p t' :
  fh_shr_lkp_ord_del t key = Some (rc, p, t') -> t'.(tbl_entries) = t.(tbl_entries).
Proof.
  unfold fh_shr_lkp_ord_del. intros H.
  destruct (tbl_hash t) as [ht|]; [|done]. cbn [mbind option_bind] in H.
  destruct (fh_ht_delete _ _ _ _) as [[[r p'] ht']|]; [|done]. cbn [mbind option_bind] in H.
  destruct (r =? FH_OK); [|by simplify_eq].
  destruct (tbl_mempool t) as [mp|]; [|done]. cbn [mbind option_bind] in H.
  destruct (fh_mpool_put mp p') as [[r' mp']|]; [|done]. cbn [mbind option_bind] in H. by simplify_eq.
Qed.

Lemma lkp_insert_entries {E} sz (t t' : lkp_tbl E) e rc a :
  lkp_insert sz t e = Some (rc, a, t') ->
  t.(tbl_entries) !! NULL = None -> t'.(tbl_entries) !! NULL = None.
Proof.
  unfold lkp_insert. intros H Hn.
  destruct (tbl_mempool t) as [mp|]; [|done]. cbn [mbind option_bind] in H.
  destruct (fh_mpool_get None mp) as [[p mp']|]; [|done]. cbn [mbind option_bind] in H.
  destruct (p =? NULL) eqn:Ep; bool_to_prop; [by injection H as <- <- <-|].
  destruct (tbl_hash t) as [ht|]; [|done]. cbn [mbind option_bind] in H.
  destruct (fh_ht_put _ _ _ _ _ _ _) as [[r ht']|]; [|done]. cbn [mbind option_bind] in H.
  destruct (r =? FH_ERR_DUP); [destruct (fh_mpool_put mp' p) as [[??]|]; [|done]|];
    injection H as <- <- <-; cbn; by rewrite lookup_insert_ne by done.
Qed.

Lemma ord_exec_spec cap t b op :
  ord_table_of cap t b ->
  exists t', ord_exec t op = Some ((book_exec cap b op).1, t') /\
    ord_table_of cap t' (book_exec cap b op).2.
Proof.
  intros (Hnull & m & Hr & ->). destruct op as [e|k|k]; cbn [ord_exec book_exec].
  - pose proof (fh_shr_lkp_ord_add_spec _ _ _ e Hr) as Ha. cbv zeta in Ha.
    rewrite map_size_fmap, lookup_fmap. destruct (_ =? cap).
    { rewrite Ha. cbn. rewrite Hnull. exists t. split; [done|]. split; eauto. }
    assert (Hn : forall rc p t', fh_shr_lkp_ord_add t e = Some (rc, p, t') ->
      tbl_entries t' !! NULL = None).
    { intros rc p t'. unfold fh_shr_lkp_ord_add.
      destruct (lkp_insert _ _ _) as [[[r a] t2]|] eqn:E; [|done]. intros [= <- <- <-].
      by eapply lkp_insert_entries. }
    destruct (m !! ord_key_of (ord_new_entry e)) as [x|] eqn:Em; cbn [option_fmap option_map].
    + destruct Ha as (t' & E & Hr'). rewrite E. cbn. rewrite (Hn _ _ _ E).
      eexists. split; [done|]. split; [by eapply Hn | eauto].
    + destruct Ha as (a & t' & E & Hnn & Hfr & Hr'). rewrite E. cbn [mbind option_bind].
      destruct (tr_entries _ _ _ _ _ Hr' (ord_key_of (ord_new_entry e)) a (ord_new_entry e))
        as [-> _]; [apply lookup_insert_eq|].
      eexists. split; [done|]. split; [by eapply Hn|]. eexists. split; [exact Hr'|].
      cbn. by rewrite fmap_insert.
  - rewrite (fh_shr_lkp_ord_get_spec _ _ _ _ Hr), lookup_fmap.
    destruct (m !! ord_key_bytes k) as [[a e]|] eqn:Em; cbn.
    + destruct (tr_entries _ _ _ _ _ Hr _ _ _ Em) as [-> _].
      exists t. split; [done|]. split; eauto.
    + rewrite Hnull. exists t. split; [done|]. split; eauto.
  - pose proof (fh_shr_lkp_ord_del_spec _ _ _ k Hr) as Hd. rewrite lookup_fmap.
    destruct (m !! ord_key_bytes k) as [[a e]|] eqn:Em; cbn.
    + destruct Hd as (t' & -> & Hr' & He). cbn. rewrite He.
      destruct (tr_entries _ _ _ _ _ Hr _ _ _ Em) as [-> _].
      exists t'. split; [done|]. split; [by rewrite He|]. eexists. split; [exact Hr'|].
      by rewrite fmap_delete.
    + rewrite Hd. cbn. rewrite Hnull. exists t. split; [done|]. split; eauto.
Qed.

(** ** Properties *)

(** C20: the order table is a map of at most [size] orders, by the bytes of
    their keys: every run of adds, gets and deletes on a new table completes
    and returns, step by step, the status and the order the map gives. In
    particular the [FH_ERROR] of [fh_ht_put] that [fh_shr_lkp_ord_add] ignores
    cannot happen, because the two pools of the table are used in step. *)
Theorem ord_table_refines a1 a2 size ops :
  0 < a1 -> 0 < a2 -> 0 < size <= 19000000 ->
  exists t t', fh_shr_lkp_ord_init
      (MkAllocs true true (Some a1) true true true true (Some a2)) true size = (FH_OK, t) /\
    run_ops ord_exec t ops = Some ((run_spec (book_exec size) ∅ ops).1, t') /\
    t'.(tbl_count) = Z.of_nat (base.size (run_spec (book_exec size) ∅ ops).2) /\
    t'.(tbl_count) <= size.
Proof.
  intros H1 H2 Hs.
  destruct (lkp_init_spec ord_key_of sizeof_ord_key "OrderTable" sizeof_ord a1 a2 size)
    as (t & E & Hr & He); [done | done | done | lia | unfold sizeof_ord; lia |].
  exists t. unfold fh_shr_lkp_ord_init.
  destruct (run_ops_spec ord_exec (book_exec size) (ord_table_of size)
    (ord_exec_spec size) ops t ∅) as (t' & Erun & (_ & m & Hr' & Em)).
  { split; [by rewrite He|]. exists ∅. by rewrite fmap_empty. }
  exists t'. split; [exact E|]. split; [exact Erun|]. rewrite Em, map_size_fmap.
  rewrite (tr_count _ _ _ _ _ Hr'). split; [done|]. by apply tbl_repr_fit in Hr' as [? _].
Qed.

Definition demo_order (no shares : Z) : fh_shr_lkp_ord :=
  MkOrd (MkOrdKey 0 (replicate 20 0) (replicate 4 0)) no (replicate 20 0) 125000 shares 66
    [65; 65; 80; 76; 32; 32] 0 0.
Definition demo_key (no : Z) : fh_shr_lkp_ord_key :=
  MkOrdKey no (replicate 20 0) (replicate 4 0).

Lemma ord_table_refines_witness :
  exists t t' r1 r2, fh_shr_lkp_ord_init
      (MkAllocs true true (Some 4096) true true true true (Some 65536)) true 2 = (FH_OK, t) /\
    run_ops ord_exec t [OrdAdd (demo_order 7 100); OrdAdd (demo_order 7 5);
        OrdAdd (demo_order 8 200); OrdAdd (demo_order 9 300); OrdDel (demo_key 7);
        OrdGet (demo_key 7); OrdGet (demo_key 8)] =
      Some ([(0, Some r1); (2, None); (0, Some r2); (-1, None); (0, Some r1); (1, None);
             (0, Some r2)], t').
Proof.
  destruct (ord_table_refines 4096 65536 2 [OrdAdd (demo_order 7 100); OrdAdd (demo_order 7 5);
        OrdAdd (demo_order 8 200); OrdAdd (demo_order 9 300); OrdDel (demo_key 7);
        OrdGet (demo_key 7); OrdGet (demo_key 8)]) as (t & t' & E & Erun & _); [lia..|].
  exists t, t', (ord_new_entry (demo_order 7 100)), (ord_new_entry (demo_order 8 200)).
  split; [exact E|]. etransitivity; [exact Erun|]. vm_compute. reflexivity.
Defined.

(** C26: [fh_shr_lkp_sym_get] interns symbols: a symbol seen before always
    gives the entry it was given first and changes nothing; a new symbol gets
    an entry no other symbol has, with the key and the symbol filled in; a
    new symbol in a full table is an error and changes nothing. *)
Theorem sym_get_interns t cap m key s :
  tbl_repr sym_key sizeof_sym_key t cap m -> cstring key = Some s ->
  match m !! key with
  | Some (a, _) => fh_shr_lkp_sym_get t key = Some (FH_OK, a, t)
  | None =>
      if Z.of_nat (size m) =? cap then fh_shr_lkp_sym_get t key = Some (FH_ERROR, NULL, t)
      else exists a t', fh_shr_lkp_sym_get t key = Some (FH_OK, a, t') /\
        (forall k a' e', m !! k = Some (a', e') -> a' <> a) /\
        t'.(tbl_entries) !! a = Some (MkSym key s) /\
        tbl_repr sym_key sizeof_sym_key t' cap (<[key := (a, MkSym key s)]> m)
  end.
Proof. exact (fh_shr_lkp_sym_get_spec t cap m key s). Qed.

Lemma sym_get_interns_witness :
  exists t t' a, fh_shr_lkp_sym_get t (65 :: replicate 19 0) = Some (FH_OK, a, t') /\
    fh_shr_lkp_sym_get t' (65 :: replicate 19 0) = Some (FH_OK, a, t').
Proof.
  destruct (lkp_init_spec sym_key sizeof_sym_key "SymbolTable" sizeof_sym 4096 65536 2)
    as (t & E & Hr & _); [done | done | done | lia | unfold sizeof_sym; lia |].
  pose proof (sym_get_interns t 2 ∅ (65 :: replicate 19 0) [65] Hr eq_refl) as H.
  rewrite lookup_empty, map_size_empty in H. cbn in H.
  destruct H as (a & t' & E1 & _ & _ & Hr').
  pose proof (sym_get_interns t' 2 _ (65 :: replicate 19 0) [65] Hr' eq_refl) as H2.
  rewrite insert_empty, lookup_singleton_eq in H2.
  exists t, t', a. split; [exact E1 | exact H2].
Defined.
