(* ===== verification/Conn.v ===== *)
(** * Connection statistics and alerts ([src/common/fh_info.h], [fh_alerts.h])

    Shared by the feed parsers. *)
From S2P Require Import Prelude.

Record fh_info_stats := MkStats {
  packets : Z; messages : Z; bytes : Z; packet_errors : Z; message_errors : Z;
  duplicate_packets : Z; gaps : Z; lost_messages : Z; recovered_messages : Z
}.

(** The counters a parser updates. *)
Inductive counter :=
  | Messages | Bytes | PacketErrors | MessageErrors | DuplicatePackets | Gaps
  | LostMessages | RecoveredMessages.

(** [stats.counter += n] *)
Definition stat_add (c : counter) (n : Z) (s : fh_info_stats) : fh_info_stats :=
  let add (c' : counter) (v : Z) :=
    match c, c' with
    | Messages, Messages | Bytes, Bytes | PacketErrors, PacketErrors
    | MessageErrors, MessageErrors | DuplicatePackets, DuplicatePackets | Gaps, Gaps
    | LostMessages, LostMessages | RecoveredMessages, RecoveredMessages => u64 (v + n)
    | _, _ => v
    end in
  MkStats s.(packets) (add Messages s.(messages)) (add Bytes s.(bytes))
    (add PacketErrors s.(packet_errors)) (add MessageErrors s.(message_errors))
    (add DuplicatePackets s.(duplicate_packets)) (add Gaps s.(gaps))
    (add LostMessages s.(lost_messages)) (add RecoveredMessages s.(recovered_messages)).

Definition stats_zero : fh_info_stats := MkStats 0 0 0 0 0 0 0 0 0.

Definition FH_ALERT_GAP : Z := 1.
Definition FH_ALERT_NOGAP : Z := 2.
Definition FH_ALERT_LOSS : Z := 3.

(** A plugin's alert hook reads and writes the caller's [rc], and changes the
    plugin's own state [W]. *)
Definition alert_hook (W : Type) : Type := option (Z -> Z -> W -> Z * W).

(** [if (hook_alert) hook_alert(&rc, alert, conn)] *)
Definition call_alert {W} (h : alert_hook W) (alert rc : Z) (w : W) : Z * W :=
  match h with Some f => f alert rc w | None => (rc, w) end.
