(* ===== verification/Feed.v ===== *)
(** * The state of a feed parser

    What the parsers of the market data feeds share: the fields of the
    configuration they read, the connection, line and process state they
    change, and the code that is the same in all of them (the alert hook, the
    symbol lookup, the flush of expired gaps at the start of a packet). *)
From S2P Require Import Prelude Bytes Mpool GapFill HTable Lookup Conn.

(** The fields of the process configuration that the parser reads. *)
Record feed_config := MkFeedCfg {
  symbol_table_enabled : bool;
  order_table_enabled : bool;
  gap_list_max : Z;
  gap_timeout : Z
}.

(** The connection a packet came on, its line, the tables of the process and
    the statics of the parser's file ([inorder] is the ITCH parser's only). *)
Record feed_state (W : Type) := MkFeed {
  fs_next_seq_no : Z;              (* conn->line->next_seq_no, uint64_t *)
  fs_timestamp : Z;                (* conn->timestamp, uint64_t *)
  fs_stats : fh_info_stats;        (* conn->stats *)
  fs_symbol_table : sym_tbl;       (* conn->line->process->symbol_table *)
  fs_order_table : ord_tbl;        (* conn->line->process->order_table *)
  fs_gaplist : option gap_list;
  fs_gapnode : Z;
  fs_inorder : bool;
  fs_world : W                     (* the state of the plugins *)
}.
Arguments MkFeed {W}.
Arguments fs_next_seq_no {W}.
Arguments fs_timestamp {W}.
Arguments fs_stats {W}.
Arguments fs_symbol_table {W}.
Arguments fs_order_table {W}.
Arguments fs_gaplist {W}.
Arguments fs_gapnode {W}.
Arguments fs_inorder {W}.
Arguments fs_world {W}.

Section feed.
Context {W : Type} (cfg : feed_config) (hook_alert : alert_hook W).
Notation st_t := (feed_state W).

Definition set_next_seq_no v (st : st_t) := MkFeed v st.(fs_timestamp) st.(fs_stats)
  st.(fs_symbol_table) st.(fs_order_table) st.(fs_gaplist) st.(fs_gapnode) st.(fs_inorder)
  st.(fs_world).
Definition set_timestamp v (st : st_t) := MkFeed st.(fs_next_seq_no) v st.(fs_stats)
  st.(fs_symbol_table) st.(fs_order_table) st.(fs_gaplist) st.(fs_gapnode) st.(fs_inorder)
  st.(fs_world).
Definition count_stat c n (st : st_t) := MkFeed st.(fs_next_seq_no) st.(fs_timestamp)
  (stat_add c n st.(fs_stats)) st.(fs_symbol_table) st.(fs_order_table) st.(fs_gaplist)
  st.(fs_gapnode) st.(fs_inorder) st.(fs_world).
Definition set_symbol_table v (st : st_t) := MkFeed st.(fs_next_seq_no) st.(fs_timestamp)
  st.(fs_stats) v st.(fs_order_table) st.(fs_gaplist) st.(fs_gapnode) st.(fs_inorder) st.(fs_world).
Definition set_order_table v (st : st_t) := MkFeed st.(fs_next_seq_no) st.(fs_timestamp)
  st.(fs_stats) st.(fs_symbol_table) v st.(fs_gaplist) st.(fs_gapnode) st.(fs_inorder) st.(fs_world).
Definition set_gaplist v (st : st_t) := MkFeed st.(fs_next_seq_no) st.(fs_timestamp)
  st.(fs_stats) st.(fs_symbol_table) st.(fs_order_table) (Some v) st.(fs_gapnode) st.(fs_inorder)
  st.(fs_world).
Definition set_gapnode v (st : st_t) := MkFeed st.(fs_next_seq_no) st.(fs_timestamp)
  st.(fs_stats) st.(fs_symbol_table) st.(fs_order_table) st.(fs_gaplist) v st.(fs_inorder)
  st.(fs_world).
Definition set_inorder v (st : st_t) := MkFeed st.(fs_next_seq_no) st.(fs_timestamp)
  st.(fs_stats) st.(fs_symbol_table) st.(fs_order_table) st.(fs_gaplist) st.(fs_gapnode) v
  st.(fs_world).
Definition set_world (v : W) (st : st_t) := MkFeed st.(fs_next_seq_no) st.(fs_timestamp)
  st.(fs_stats) st.(fs_symbol_table) st.(fs_order_table) st.(fs_gaplist) st.(fs_gapnode)
  st.(fs_inorder) v.

(** [key = { .order_no = no }]: the other bytes of the struct are 0. *)
Definition order_no_key (no : Z) : fh_shr_lkp_ord_key :=
  MkOrdKey no (replicate 20 0) (replicate 4 0).

Definition ord_set_shares (v : Z) (e : fh_shr_lkp_ord) : fh_shr_lkp_ord :=
  MkOrd e.(ord_key) e.(ord_order_no) e.(ord_order_no_str) e.(ord_price) v e.(ord_buy_sell_ind)
    e.(ord_stock) e.(ord_sym_entry) e.(ord_context).

(** [if (hook_alert) hook_alert(&rc, alert, conn)] *)
Definition feed_alert (alert rc : Z) (st : st_t) : Z * st_t :=
  let '(rc, w) := call_alert hook_alert alert rc st.(fs_world) in (rc, set_world w st).

(** [FH_ITCH_FETCH_SYMBOL]: the value of [message.sym_entry]. *)
Definition fetch_symbol (stock : list Z) (st : st_t) : option (Z * st_t) :=
  if cfg.(symbol_table_enabled) then
    '(rc, entry, tbl) ← fh_shr_lkp_sym_get st.(fs_symbol_table) (stock ++ replicate 14 0);
    Some (if rc =? FH_OK then entry else NULL, set_symbol_table tbl st)
  else Some (NULL, st).

(** The flush of expired gaps that starts a packet. *)
Definition feed_flush (now : Z) (st : st_t) : option st_t :=
  match st.(fs_gaplist) with
  | Some gl =>
      if 0 <? gl.(gl_count) then
        '(rc, gl) ← fh_shr_gap_fill_flush now gl;
        let st := set_gaplist gl st in
        if 0 <? rc then Some (feed_alert FH_ALERT_LOSS rc (count_stat LostMessages rc st)).2
        else Some st
      else Some st
  | None => Some st
  end.

End feed.
