(* ===== verification/FeedProps.v ===== *)
(** * Invariants of the state of a feed parser

    [feed_inv]: a correct gap list and correct tables.  [same_seq]: steps that
    leave the sequencing state alone.  [book_inv]: the order table holds a
    given order book. *)
From S2P Require Import Prelude Bytes Mpool GapFill HTable Lookup Conn Feed.

Section props.
Context {W : Type} (cfg : feed_config) (hook_alert : alert_hook W).
Notation st_t := (feed_state W).

(** The tables in use are correct. *)
Definition tables_ok (st : st_t) : Prop :=
  (cfg.(symbol_table_enabled) = true ->
     exists cap m, tbl_repr sym_key sizeof_sym_key st.(fs_symbol_table) cap m) /\
  (cfg.(order_table_enabled) = true ->
     exists cap m, tbl_repr ord_key_of sizeof_ord_key st.(fs_order_table) cap m).

(** The sequencing state and the statistics are the same. *)
Definition same_seq (st st' : st_t) : Prop :=
  st'.(fs_next_seq_no) = st.(fs_next_seq_no) /\ st'.(fs_stats) = st.(fs_stats) /\
  st'.(fs_gaplist) = st.(fs_gaplist) /\ st'.(fs_gapnode) = st.(fs_gapnode) /\
  st'.(fs_inorder) = st.(fs_inorder).

#[export] Instance same_seq_preorder : PreOrder same_seq.
Proof.
  split; unfold same_seq; [done|]. intros ??? (?&?&?&?&?) (?&?&?&?&?). repeat split; congruence.
Qed.

(** What every step of a handler guarantees. *)
Definition step_ok (st st' : st_t) : Prop := tables_ok st' /\ same_seq st st'.

Lemma step_ok_trans st1 st2 st3 : step_ok st1 st2 -> step_ok st2 st3 -> step_ok st1 st3.
Proof. intros [_ H1] [H2 H3]. split; [done|]. by etransitivity. Qed.

Lemma step_ok_refl st : tables_ok st -> step_ok st st.
Proof. by split. Qed.

Lemma step_ok_world st (w : W) : tables_ok st -> step_ok st (set_world w st).
Proof. by split. Qed.

Lemma step_ok_timestamp st v : tables_ok st -> step_ok st (set_timestamp v st).
Proof. by split. Qed.

Lemma cstring_padded l n : exists s, cstring (l ++ replicate (S n) 0) = Some s.
Proof.
  induction l as [|c l [s IH]]; cbn; [eauto|]. destruct (c =? 0); [eauto|].
  change (0 :: replicate n 0) with (replicate (S n) 0). rewrite IH. cbn. eauto.
Qed.

Lemma fetch_symbol_ok stock st : tables_ok st ->
  exists e st', fetch_symbol cfg stock st = Some (e, st') /\ step_ok st st'.
Proof.
  intros Ht. unfold fetch_symbol.
  destruct (symbol_table_enabled cfg) eqn:En; [|exists NULL, st; by split; [|apply step_ok_refl]].
  destruct (proj1 Ht En) as (cap & m & Hr). destruct (cstring_padded stock 13) as [s Hs].
  destruct (fh_shr_lkp_sym_get_total _ _ _ _ _ Hr Hs) as (rc & a & t & m' & -> & Hr').
  cbn [mbind option_bind]. do 2 eexists. split; [done|]. split; [|done].
  split; [eauto|]. exact (proj2 Ht).
Qed.

(** ** The order table operations *)

Lemma set_order_table_ok st t (e : Z) cap m : tables_ok st ->
  tbl_repr ord_key_of sizeof_ord_key t cap m ->
  exists e' st', Some (e, set_order_table t st) = Some (e', st') /\ step_ok st st'.
Proof.
  intros Ht Hr. do 2 eexists. split; [done|]. split; [|done]. split; [exact (proj1 Ht)|]. eauto.
Qed.

(** ** Sequencing *)

(** The state between messages: a correct gap list with room for at least two
    gaps, correct tables. [es] lists the gaps. *)
Record feed_inv (st : st_t) (gl : gap_list) (es : list (Z * gap)) : Prop := {
  ii_gaplist : st.(fs_gaplist) = Some gl;
  ii_repr : gap_repr gl es;
  ii_ok : gaps_ok es;
  ii_max : 2 <= gl.(gl_max);
  ii_tables : tables_ok st;
  ii_next : 0 <= st.(fs_next_seq_no) <= 4611686018427387904
}.

(** Sequence numbers far from wrapping around. *)
Definition seq_ok (st : st_t) (seq_no : Z) : Prop :=
  0 <= seq_no < 4611686018427387904 /\ seq_no - st.(fs_next_seq_no) < 2147483648.

Lemma feed_inv_ext st st' gl es :
  feed_inv st gl es -> st'.(fs_gaplist) = st.(fs_gaplist) ->
  st'.(fs_next_seq_no) = st.(fs_next_seq_no) -> tables_ok st' -> feed_inv st' gl es.
Proof. intros [] E1 E2 Ht. constructor; [congruence | done.. |]. by rewrite E2. Qed.

Lemma feed_alert_eq a rc (st : st_t) :
  exists rc' w, feed_alert hook_alert a rc st = (rc', set_world w st).
Proof. unfold feed_alert. destruct (call_alert _ _ _ _) as [rc' w]. eauto. Qed.

Lemma feed_inv_nonnull st gl es l1 c g l2 :
  feed_inv st gl es -> es = l1 ++ (c, g) :: l2 -> c <> NULL.
Proof.
  intros Hi ->. eapply gap_repr_nonnull; [exact (ii_repr _ _ _ Hi)|]. rewrite fmap_app. set_solver.
Qed.

Lemma feed_inv_same st gl es st' : feed_inv st gl es ->
  st'.(fs_gaplist) = st.(fs_gaplist) -> st'.(fs_next_seq_no) = st.(fs_next_seq_no) ->
  st'.(fs_symbol_table) = st.(fs_symbol_table) -> st'.(fs_order_table) = st.(fs_order_table) ->
  feed_inv st' gl es.
Proof.
  intros Hi E1 E2 E3 E4. eapply feed_inv_ext; [done..|]. destruct (ii_tables _ _ _ Hi).
  split; [by rewrite E3 | by rewrite E4].
Qed.

Lemma feed_flush_ok st gl es now : feed_inv st gl es ->
  exists st' gl' es', feed_flush hook_alert now st = Some st' /\ feed_inv st' gl' es' /\
    gl'.(gl_max) = gl.(gl_max) /\ st'.(fs_next_seq_no) = st.(fs_next_seq_no) /\ st'.(fs_gapnode) = st.(fs_gapnode) /\
    st'.(fs_symbol_table) = st.(fs_symbol_table) /\ st'.(fs_order_table) = st.(fs_order_table).
Proof.
  intros Hi. pose proof Hi as [Hgl Hr Hok Hmax Ht Hnext]. unfold feed_flush. rewrite Hgl.
  destruct (0 <? gl_count gl); [|exists st, gl, es; done].
  destruct (gap_flush_spec now gl es Hr) as (gl1 & -> & Hr1 & HM1 & _). cbn [mbind option_bind].
  destruct (spec_flush_suffix (s64 (now - gl_timeout gl)) es 0) as (l1 & E & _).
  revert E Hr1. generalize (spec_flush (s64 (now - gl_timeout gl)) 0 es) as r. intros [rc es1] E Hr1.
  cbn [fst snd] in *.
  assert (Hi1 : feed_inv (set_gaplist gl1 st) gl1 es1).
  { constructor; try done; [|lia]. unfold gaps_ok in Hok. rewrite E in Hok.
    by apply Forall_app in Hok as [_ ?]. }
  destruct (0 <? rc); [|by exists (set_gaplist gl1 st), gl1, es1].
  destruct (feed_alert_eq FH_ALERT_LOSS rc (count_stat LostMessages rc (set_gaplist gl1 st)))
    as (rc' & w & ->).
  do 3 eexists. split; [done|]. split; [|done]. eapply feed_inv_same; [exact Hi1 | done..].
Qed.

(** Recording the gap up to a number ahead of the line. *)
Lemma feed_push_ok st gl es now seq_no :
  feed_inv st gl es -> seq_ok st seq_no -> st.(fs_next_seq_no) < seq_no ->
  let next := st.(fs_next_seq_no) in
  let gap_size := s32 (u64 (seq_no - next)) in
  gap_size = seq_no - next /\
  exists rc node gl', fh_shr_gap_fill_push now gl next (u32 gap_size) = Some (rc, gl') /\
    0 <= rc /\
    let es' := (if Z.of_nat (length es) =? gl.(gl_max) then tail es else es) ++
               [(node, MkGap next (seq_no - next) now)] in
    gap_repr gl' es' /\ gaps_ok es' /\ gl'.(gl_max) = gl.(gl_max).
Proof.
  intros [Hgl Hr Hok Hmax Ht Hnext] [Hs Hjump] Hlt next gap_size. subst next.
  assert (Hg : gap_size = seq_no - fs_next_seq_no st).
  { subst gap_size. rewrite u64_small, s32_small; lia. }
  split; [done|].
  destruct (gap_push_spec now gl es (fs_next_seq_no st) (u32 gap_size) Hr Hmax)
    as (rc & node & gl' & -> & Hr' & Hrc & HM & _).
  rewrite u32_small, Hg in Hr' by lia. exists rc, node, gl'. split; [done|]. split.
  - rewrite Hrc. destruct (_ =? _); [|done]. destruct es as [|[a g] es]; [done|].
    apply Forall_cons in Hok as [(?&?&?) _]. cbn in *. rewrite s32_small; lia.
  - split; [done|]. split; [|done]. apply gaps_ok_snoc; [|unfold gap_ok; cbn; lia].
    destruct (_ =? _); [|done]. destruct es; [by constructor|].
    by apply Forall_cons in Hok as [_ ?].
Qed.

End props.
#[global] Arguments step_ok_trans {W cfg}.
#[global] Arguments step_ok_refl {W cfg}.
#[global] Arguments step_ok_world {W cfg}.
#[global] Arguments step_ok_timestamp {W cfg}.
#[global] Arguments set_order_table_ok {W cfg}.
#[global] Arguments ii_gaplist {W cfg}.
#[global] Arguments ii_repr {W cfg}.
#[global] Arguments ii_ok {W cfg}.
#[global] Arguments ii_max {W cfg}.
#[global] Arguments ii_tables {W cfg}.
#[global] Arguments ii_next {W cfg}.
#[global] Arguments feed_inv_ext {W cfg}.
#[global] Arguments feed_inv_nonnull {W cfg}.
#[global] Arguments feed_inv_same {W cfg}.
#[global] Arguments feed_alert_eq {W}.
#[global] Arguments fetch_symbol_ok {W}.
#[global] Arguments feed_flush_ok {W cfg}.
#[global] Arguments feed_push_ok {W cfg}.

(** ** The order book *)

(** Orders are named by a number (ITCH, BATS) or by a string of twelve
    characters (Direct Edge).  What the order table needs of a name: the two
    fields of the key it is put in, and that no two names have the same key. *)
Definition key_of_ref (no : Z) (str : list Z) : fh_shr_lkp_ord_key :=
  MkOrdKey no str (replicate 4 0).

Class OrderRef (K : Type) `{Countable K} := {
  ref_no : K -> Z;
  ref_str : K -> list Z;
  ref_ok : K -> Prop;
  ref_key_inj k k' : ref_ok k -> ref_ok k' ->
    ord_key_bytes (key_of_ref (ref_no k) (ref_str k)) =
    ord_key_bytes (key_of_ref (ref_no k') (ref_str k')) -> k = k'
}.

Definition order_no_ok (no : Z) : Prop := 0 <= no < 18446744073709551616.

#[export] Program Instance number_ref : OrderRef Z := {|
  ref_no no := no; ref_str _ := replicate 20 0; ref_ok := order_no_ok
|}.
Next Obligation.
  intros k k' H1 H2 E. apply app_inj_1 in E as [E _]; [|by rewrite !length_le_bytes].
  by apply (le_bytes_inj 8).
Qed.

Record order := MkOrder { o_price : Z; o_shares : Z; o_buy_sell_ind : Z; o_stock : list Z }.

Definition no_order : order := MkOrder 0 0 0 (replicate 6 0).

Section refs.
Context `{OrderRef K}.
Notation book := (gmap K order).
Notation ord_map := (gmap (list Z) (Z * fh_shr_lkp_ord)).

Definition ref_key (k : K) : fh_shr_lkp_ord_key := key_of_ref (ref_no k) (ref_str k).
Definition order_key (k : K) : list Z := ord_key_bytes (ref_key k).

(** An order as an entry of the table. *)
Definition order_entry (k : K) (sym : Z) (o : order) : fh_shr_lkp_ord :=
  MkOrd (ref_key k) (ref_no k) (ref_str k) o.(o_price) o.(o_shares) o.(o_buy_sell_ind)
    o.(o_stock) sym NULL.

Definition book_add (cap : Z) (k : K) (o : order) (b : book) : book :=
  if Z.of_nat (size b) =? cap then b
  else match b !! k with Some _ => b | None => <[k := o]> b end.

(** Change an order of the book; [None] leaves it. *)
Definition book_update (k : K) (f : order -> option order) (b : book) : book :=
  match b !! k with
  | Some o => match f o with Some o' => <[k := o']> b | None => b end
  | None => b
  end.

(** The table's map holds the orders of the book. *)
Record map_book (m : ord_map) (b : book) : Prop := {
  mb_ok : forall k o, b !! k = Some o -> ref_ok k;
  mb_size : size m = size b;
  mb_some : forall k o, b !! k = Some o ->
    exists a sym, m !! order_key k = Some (a, order_entry k sym o);
  mb_none : forall k, ref_ok k -> b !! k = None -> m !! order_key k = None
}.

Lemma map_book_insert m b k o a sym :
  map_book m b -> ref_ok k ->
  map_book (<[order_key k := (a, order_entry k sym o)]> m) (<[k := o]> b).
Proof.
  intros [Hok Hsz Hs Hn] Hk. constructor.
  - intros k' o' [[<- _]|[_ ?]]%lookup_insert_Some; eauto.
  - rewrite !map_size_insert. destruct (b !! k) as [o'|] eqn:E.
    + destruct (Hs _ _ E) as (a' & sym' & ->). done.
    + rewrite (Hn _ Hk E). by rewrite Hsz.
  - intros k' o' [[<- <-]|[Hne E]]%lookup_insert_Some.
    + exists a, sym. apply lookup_insert_eq.
    + rewrite lookup_insert_ne; [by apply Hs|].
      intros Ek. apply Hne. apply ref_key_inj; eauto.
  - intros k' H' [E Hne]%lookup_insert_None. rewrite lookup_insert_ne; [by apply Hn|].
    intros Ek. apply Hne. by apply ref_key_inj.
Qed.

Lemma map_book_delete m b k :
  map_book m b -> ref_ok k -> map_book (delete (order_key k) m) (delete k b).
Proof.
  intros [Hok Hsz Hs Hn] Hk. constructor.
  - intros k' o' [_ E]%lookup_delete_Some. eauto.
  - rewrite !map_size_delete. destruct (b !! k) as [o'|] eqn:E.
    + destruct (Hs _ _ E) as (a' & sym' & ->). by rewrite Hsz.
    + by rewrite (Hn _ Hk E).
  - intros k' o' [Hne E]%lookup_delete_Some. rewrite lookup_delete_ne; [by apply Hs|].
    intros Ek. apply Hne. apply ref_key_inj; eauto.
  - intros k' H' E. destruct (decide (k = k')) as [->|Hne]; [apply lookup_delete_eq|].
    rewrite lookup_delete_ne in E by done. apply lookup_delete_None. right. by apply Hn.
Qed.

Lemma map_book_lookup m b k : map_book m b -> ref_ok k ->
  match b !! k with
  | Some o => exists a sym, m !! order_key k = Some (a, order_entry k sym o)
  | None => m !! order_key k = None
  end.
Proof.
  intros Hm Hk. destruct (b !! k) eqn:E; [by apply (mb_some _ _ Hm) | by apply (mb_none _ _ Hm)].
Qed.

Definition table_book (t : ord_tbl) (cap : Z) (b : book) : Prop :=
  exists m, tbl_repr ord_key_of sizeof_ord_key t cap m /\ map_book m b.

(** Adding an order to the table: the key the caller filled in does not
    matter, its padding apart. *)
Lemma table_book_add t cap b k o sym price shares key :
  table_book t cap b -> ref_ok k -> o.(o_price) = price -> o.(o_shares) = shares ->
  ok_padding key = replicate 4 0 ->
  exists rc p t', fh_shr_lkp_ord_add t (MkOrd key (ref_no k) (ref_str k) price shares
      o.(o_buy_sell_ind) o.(o_stock) sym NULL) = Some (rc, p, t') /\
    table_book t' cap (book_add cap k o b) /\
    (p = NULL \/ exists sym o, t'.(tbl_entries) !! p = Some (order_entry k sym o)).
Proof.
  intros (m & Hr & Hm) Hk <- <- Hpad. set (e := MkOrd _ _ _ _ _ _ _ _ _).
  pose proof (fh_shr_lkp_ord_add_spec _ _ _ e Hr) as Ha. cbv zeta in Ha.
  assert (En : ord_new_entry e = order_entry k sym o).
  { unfold ord_new_entry, order_entry, ref_key, key_of_ref. cbn. by rewrite Hpad. }
  rewrite En in Ha. change (ord_key_of (order_entry k sym o)) with (order_key k) in Ha.
  unfold book_add. rewrite <- (mb_size _ _ Hm). destruct (_ =? cap).
  { rewrite Ha. do 3 eexists. split; [done|]. split; [by exists m | by left]. }
  pose proof (map_book_lookup _ _ _ Hm Hk) as Hl. destruct (b !! k) as [o'|].
  - destruct Hl as (a & sym' & Hl). rewrite Hl in Ha. destruct Ha as (t' & -> & Hr').
    do 3 eexists. split; [done|]. split; [by exists m | by left].
  - rewrite Hl in Ha. destruct Ha as (a & t' & -> & _ & _ & Hr').
    do 3 eexists. split; [done|]. split.
    + eexists. split; [exact Hr'|]. by apply map_book_insert.
    + right. exists sym, o. by apply (tr_entries _ _ _ _ _ Hr' (order_key k)), lookup_insert_eq.
Qed.

(** Deleting one. *)
Lemma table_book_del t cap b k :
  table_book t cap b -> ref_ok k ->
  exists rc p t', fh_shr_lkp_ord_del t (ref_key k) = Some (rc, p, t') /\
    table_book t' cap (delete k b) /\
    match b !! k with
    | Some o => p <> NULL /\ exists sym, t'.(tbl_entries) !! p = Some (order_entry k sym o)
    | None => p = NULL
    end.
Proof.
  intros (m & Hr & Hm) Hk.
  pose proof (fh_shr_lkp_ord_del_spec _ _ _ (ref_key k) Hr) as Hd.
  fold (order_key k) in Hd. pose proof (map_book_delete _ _ _ Hm Hk) as Hm'.
  pose proof (map_book_lookup _ _ _ Hm Hk) as Hl. destruct (b !! k) as [o|] eqn:E.
  - destruct Hl as (a & sym & Hl). rewrite Hl in Hd. destruct Hd as (t' & -> & Hr' & He).
    do 3 eexists. split; [done|]. split; [by eexists|]. split.
    + eapply tbl_repr_nonnull; [exact Hr | exact Hl].
    + exists sym. rewrite He. by apply (tr_entries _ _ _ _ _ Hr (order_key k)).
  - rewrite Hl in Hd. rewrite Hd. do 3 eexists. split; [done|].
    rewrite delete_id by done. split; [by exists m | done].
Qed.

(** Fetching one, and writing to the entry found. *)
Lemma table_book_get t cap b k :
  table_book t cap b -> ref_ok k ->
  match b !! k with
  | Some o => exists a sym,
      fh_shr_lkp_ord_get t (ref_key k) = Some (FH_OK, a) /\
      t.(tbl_entries) !! a = Some (order_entry k sym o) /\
      forall o', table_book (tbl_write t a (order_entry k sym o')) cap (<[k := o']> b)
  | None => fh_shr_lkp_ord_get t (ref_key k) = Some (FH_ERR_NOTFOUND, NULL)
  end.
Proof.
  intros (m & Hr & Hm) Hk. rewrite (fh_shr_lkp_ord_get_spec _ _ _ _ Hr).
  fold (order_key k). pose proof (map_book_lookup _ _ _ Hm Hk) as Hl.
  destruct (b !! k) as [o|]; [|by rewrite Hl].
  destruct Hl as (a & sym & Hl). exists a, sym. rewrite Hl. split; [done|].
  split; [by apply (tr_entries _ _ _ _ _ Hr _ _ _ Hl)|]. intros o'. eexists.
  split; [exact (tbl_write_spec _ _ _ _ _ _ _ _ (order_entry k sym o') Hr Hl eq_refl)|].
  by apply map_book_insert.
Qed.

Context {W : Type} (cfg : feed_config).
Notation st_t := (feed_state W).

(** The symbol table is correct and the order table holds the book. *)
Definition book_inv (st : st_t) (cap : Z) (b : book) : Prop :=
  (cfg.(symbol_table_enabled) = true ->
     exists cap m, tbl_repr sym_key sizeof_sym_key st.(fs_symbol_table) cap m) /\
  (cfg.(order_table_enabled) = true -> table_book st.(fs_order_table) cap b).

(** A step of a handler: sequencing is left alone. *)
Definition book_step (st st' : st_t) (cap : Z) (b : book) : Prop :=
  book_inv st' cap b /\ same_seq st st' /\
  (st'.(fs_timestamp), st'.(fs_world)) = (st.(fs_timestamp), st.(fs_world)).

(** The entry delivered with a message is [NULL] or that order's. *)
Definition entry_for (st : st_t) (ord : Z) (k : K) : Prop :=
  ord = NULL \/ exists sym o, st.(fs_order_table).(tbl_entries) !! ord = Some (order_entry k sym o).

Lemma book_inv_tables st cap b : book_inv st cap b -> tables_ok cfg st.
Proof.
  intros [Hs Ho]. split; [done|]. intros En. destruct (Ho En) as (m & Hr & _). eauto.
Qed.

Lemma book_step_refl st cap b : book_inv st cap b -> book_step st st cap b.
Proof. by split. Qed.

Lemma book_step_trans st1 st2 st3 cap b b' :
  book_step st1 st2 cap b' -> book_step st2 st3 cap b -> book_step st1 st3 cap b.
Proof.
  intros (_ & H1 & E1) (H2 & H3 & E2). split; [done|]. split; [by etransitivity | congruence].
Qed.

Lemma book_step_table st t cap b b' :
  book_inv st cap b -> table_book t cap b' -> book_step st (set_order_table t st) cap b'.
Proof. intros [Hs Ho] Ht. by split. Qed.

Lemma fetch_symbol_book stock st cap b : book_inv st cap b ->
  exists e st', fetch_symbol cfg stock st = Some (e, st') /\ book_step st st' cap b /\
    st'.(fs_order_table) = st.(fs_order_table).
Proof.
  intros Hb. unfold fetch_symbol.
  destruct (symbol_table_enabled cfg) eqn:En; [|exists NULL, st; split; [done|]; split; [by apply book_step_refl | done]].
  destruct (proj1 Hb En) as (scap & m & Hr). destruct (cstring_padded stock 13) as [s Hs].
  destruct (fh_shr_lkp_sym_get_total _ _ _ _ _ Hr Hs) as (rc & a & t & m' & -> & Hr').
  cbn [mbind option_bind]. do 2 eexists. split; [done|]. split; [|done]. split; [|done].
  split; [eauto|]. exact (proj2 Hb).
Qed.

End refs.
#[global] Arguments book_inv_tables {K _ _ _ W cfg}.
#[global] Arguments book_step_refl {K _ _ _ W cfg}.
#[global] Arguments book_step_trans {K _ _ _ W cfg}.
#[global] Arguments book_step_table {K _ _ _ W cfg}.
#[global] Arguments fetch_symbol_book {K _ _ _ W cfg}.

(** The book of the feeds that number their orders. *)
Notation book := (gmap Z order) (only parsing).
