(* ===== verification/Decimal.v ===== *)
(** * Decimal number fields

    The numbers of the ASCII feeds: digits, padded on the left with spaces to
    the width of the field. *)
From S2P Require Import Prelude.

Definition is_digit (c : Z) : Prop := 48 <= c <= 57.

(** The value of a list of digits, the last one first. *)
Fixpoint rev_value (rev_chars : list Z) : Z :=
  match rev_chars with [] => 0 | c :: rest => (c - 48) + 10 * rev_value rest end.

(** [digits n z]: the last [n] decimal digits of [z], in order. *)
Fixpoint rev_digits (n : nat) (z : Z) : list Z :=
  match n with O => [] | S n => 48 + z mod 10 :: rev_digits n (z / 10) end.
Definition digits (n : nat) (z : Z) : list Z := reverse (rev_digits n z).

(** A number in a field of [w] characters, padded with spaces on the left. *)
Definition field (w n : nat) (z : Z) : list Z := replicate (w - n) 32 ++ digits n z.

Lemma rev_digits_digit n : forall z, Forall is_digit (rev_digits n z).
Proof.
  induction n as [|n IH]; intros z; constructor; [|done].
  pose proof (Z.mod_pos_bound z 10). unfold is_digit. lia.
Qed.

Lemma length_rev_digits n : forall z, length (rev_digits n z) = n.
Proof. induction n as [|n IH]; intros z; [done|]. cbn. by rewrite IH. Qed.

Lemma length_digits n z : length (digits n z) = n.
Proof. unfold digits. by rewrite length_reverse, length_rev_digits. Qed.

Lemma rev_value_digits n : forall z, 0 <= z < 10 ^ Z.of_nat n -> rev_value (rev_digits n z) = z.
Proof.
  induction n as [|n IH]; intros z Hz; [cbn in *; lia|]. cbn [rev_digits rev_value].
  rewrite Nat2Z.inj_succ, Z.pow_succ_r in Hz by lia.
  pose proof (Z.div_mod z 10 ltac:(lia)).
  rewrite IH; [lia|]. split; [apply Z.div_pos; lia | apply Z.div_lt_upper_bound; lia].
Qed.

Lemma rev_value_range l : Forall is_digit l -> 0 <= rev_value l < 10 ^ Z.of_nat (length l).
Proof.
  induction 1 as [|c l Hc _ IH]; [done|]. cbn [rev_value length].
  rewrite Nat2Z.inj_succ, Z.pow_succ_r by lia. unfold is_digit in Hc. lia.
Qed.

Definition is_field (w : nat) (l : list Z) (z : Z) : Prop :=
  exists n, (n <= w)%nat /\ l = field w n z /\ 0 <= z < 10 ^ Z.of_nat n.

Lemma is_field_loop w l z : is_field w l z ->
  exists d rest, reverse l = d ++ rest /\ Forall is_digit d /\ rev_value d = z /\
    (length d <= w)%nat /\ (rest = [] \/ exists r, rest = 32 :: r) /\ length l = w.
Proof.
  intros (n & Hn & -> & Hz). exists (rev_digits n z), (replicate (w - n) 32).
  unfold field, digits. rewrite reverse_app, reverse_involutive, reverse_replicate.
  split; [done|]. split; [apply rev_digits_digit|]. split; [by apply rev_value_digits|].
  split; [by rewrite length_rev_digits|]. split.
  - destruct (w - n)%nat; [by left | right; cbn; eauto].
  - rewrite length_app, length_replicate, length_reverse, length_rev_digits. lia.
Qed.

Lemma length_is_field w l z : is_field w l z -> length l = w.
Proof. intros Hf. by destruct (is_field_loop _ _ _ Hf) as (? & ? & _ & _ & _ & _ & _ & ?). Qed.

Lemma rev_value_app l c : rev_value (l ++ [c]) = rev_value l + 10 ^ Z.of_nat (length l) * (c - 48).
Proof.
  induction l as [|d l IH]; cbn [app rev_value length]; [change (10 ^ Z.of_nat 0) with 1; lia|].
  rewrite IH, Nat2Z.inj_succ, Z.pow_succ_r by lia. lia.
Qed.


Lemma pow10_S k : 10 ^ Z.of_nat (S k) = 10 ^ Z.of_nat k * 10.
Proof. rewrite Nat2Z.inj_succ, Z.pow_succ_r by lia. lia. Qed.

(** Digits are the digits of their value. *)
Lemma rev_digits_value l : Forall is_digit l -> rev_digits (length l) (rev_value l) = l.
Proof.
  induction 1 as [|c l Hc _ IH]; [done|]. cbn [length rev_value rev_digits]. unfold is_digit in Hc.
  assert (E1 : (c - 48 + 10 * rev_value l) mod 10 = c - 48)
    by (rewrite Z.mul_comm, Z.mod_add, Z.mod_small; lia).
  assert (E2 : (c - 48 + 10 * rev_value l) / 10 = rev_value l)
    by (rewrite Z.mul_comm, Z.div_add, Z.div_small; lia).
  rewrite E1, E2, IH. f_equal. lia.
Qed.

Lemma field_of_digits k d : Forall is_digit d ->
  is_field (k + length d) (replicate k 32 ++ d) (rev_value (reverse d)).
Proof.
  intros Hd. apply Forall_reverse in Hd. exists (length d). split; [lia|]. split.
  - unfold field, digits. rewrite <- (length_reverse d), rev_digits_value, reverse_involutive by done.
    rewrite length_reverse. do 2 f_equal. lia.
  - pose proof (rev_value_range _ Hd) as Hr. by rewrite length_reverse in Hr.
Qed.
