(* ===== verification/ItchMsg.v ===== *)
(** * ITCH messages ([src/feeds/itch/multicast/common/fh_itch_msg.h], the field
    parsers of [fh_itch_parse.c], [fh_itch_moldudp64.h])

    The message structs are one inductive type; a message pointer is the
    bytes from there to the end of the receive buffer. *)
From S2P Require Import Prelude Bytes Decimal.

Definition FH_ITCH_MSG_SYSTEM_SIZE : Z := 2.
Definition FH_ITCH_MSG_STOCK_DIR_SIZE : Z := 16.
Definition FH_ITCH_MSG_STOCK_TRADE_ACT_SIZE : Z := 13.
Definition FH_ITCH_MSG_MARKET_PART_POS_SIZE : Z := 14.
Definition FH_ITCH_MSG_ORDER_ADD_SIZE : Z := 36.
Definition FH_ITCH_MSG_ORDER_ADD_ATTR_SIZE : Z := 40.
Definition FH_ITCH_MSG_ORDER_EXE_SIZE : Z := 31.
Definition FH_ITCH_MSG_ORDER_EXE_PRICE_SIZE : Z := 42.
Definition FH_ITCH_MSG_ORDER_CANCEL_SIZE : Z := 19.
Definition FH_ITCH_MSG_ORDER_DELETE_SIZE : Z := 13.
Definition FH_ITCH_MSG_ORDER_REPLACE_SIZE : Z := 41.
Definition FH_ITCH_MSG_TRADE_SIZE : Z := 48.
Definition FH_ITCH_MSG_TRADE_CROSS_SIZE : Z := 39.
Definition FH_ITCH_MSG_TRADE_BROKEN_SIZE : Z := 13.
Definition FH_ITCH_MSG_NOII_SIZE : Z := 58.

(** The fields of each struct but the header and the raw message.
    [sym_entry] and [ord_entry] are pointers, [char]s are bytes. *)
Inductive itch_body :=
  | MSystem (event_code : Z)
  | MStockDir (stock : list Z) (market_cat fin_stat_ind round_lots_only round_lot_size sym_entry : Z)
  | MStockTradeAct (stock : list Z) (trading_state : Z) (reason : list Z) (sym_entry : Z)
  | MMarketPartPos (mpid stock : list Z) (pri_mkt_mkr mkt_mkr_mode mkt_part_state sym_entry : Z)
  | MOrderAdd (order_no price shares buy_sell_ind : Z) (stock : list Z) (sym_entry ord_entry : Z)
  | MOrderAddAttr (order_no price shares buy_sell_ind : Z) (stock attribution : list Z)
      (sym_entry ord_entry : Z)
  | MOrderExe (order_no match_no shares ord_entry : Z)
  | MOrderExePrice (order_no match_no exe_price shares printable ord_entry : Z)
  | MOrderCancel (order_no shares ord_entry : Z)
  | MOrderDelete (order_no ord_entry : Z)
  | MOrderReplace (old_order_no new_order_no price shares ord_entry : Z)
  | MTrade (order_no price match_no shares buy_sell_ind : Z) (stock : list Z) (sym_entry : Z)
  | MTradeCross (price match_no shares : Z) (stock : list Z) (type sym_entry : Z)
  | MTradeBroken (match_no : Z)
  | MNoii (far_price near_price ref_price paired_shares imbalance_shares imbalance_dir : Z)
      (stock : list Z) (cross_type price_var_ind sym_entry : Z).

(** A message struct: header, body and raw message. *)
Record itch_msg := MkMsg {
  im_seq_no : Z;         (* uint64_t *)
  im_timestamp : Z;      (* uint32_t *)
  im_body : itch_body;
  im_raw : list Z;
  im_raw_size : Z
}.

(** Which message hook is called for a message. *)
Inductive itch_kind :=
  | KSystem | KStockDir | KStockTradeAct | KMarketPartPos | KOrderAdd | KOrderAddAttr
  | KOrderExe | KOrderExePrice | KOrderCancel | KOrderDelete | KOrderReplace | KTrade
  | KTradeCross | KTradeBroken | KNoii.

(** ** Field parsers *)

(** The loop of [fh_itch_parse_atoi], on the characters from the last one. *)
Fixpoint atoi_loop (rev_chars : list Z) (exp result : Z) : Z :=
  match rev_chars with
  | [] => result
  | c :: rest =>
      if c =? 32 then result
      else atoi_loop rest (u64 (exp * 10)) (u64 (result + u64 ((c - 48) * exp)))
  end.

Definition fh_itch_parse_atoi (buf : list Z) (off : Z) (count : nat) : option Z :=
  chars ← read_bytes buf off count;
  Some (atoi_loop (reverse chars) 1 0).

Definition fh_itch_parse_yesno (ch : Z) : bool := (ch =? 89) || (ch =? 121).

(** The loop over the four decimals: [exp] is 1000, 100, 10, 1; a digit times
    [exp] is a [uint32_t]. *)
Fixpoint price_decimals (chars : list Z) (exp result : Z) : Z :=
  match chars with
  | [] => result
  | c :: rest =>
      if c =? 32 then result
      else price_decimals rest (exp / 10) (u64 (result + u32 ((c - 48) * exp)))
  end.

(** The loop over the whole part, from its last character. *)
Fixpoint price_whole (rev_chars : list Z) (exp result : Z) : Z :=
  match rev_chars with
  | [] => result
  | c :: rest =>
      if c =? 32 then result
      else price_whole rest (u32 (exp * 10)) (u64 (result + u32 ((c - 48) * exp)))
  end.

Definition fh_itch_parse_price (buf : list Z) (off : Z) : option Z :=
  chars ← read_bytes buf off 10;
  Some (price_whole (reverse (take 6 chars)) 10000 (price_decimals (drop 6 chars) 1000 0)).

(** ** Packet headers *)

Definition FH_ITCH_MOLDUDP64_SIZE : Z := 20.

Record fh_itch_moldudp64 := MkMold {
  md_session : list Z;
  md_seq_no : Z;
  md_msg_count : Z
}.

Definition fh_itch_moldudp64_extract (buf : list Z) : option fh_itch_moldudp64 :=
  session ← read_bytes buf 0 10;
  seq_no ← read_le buf 10 8;
  msg_count ← read_le buf 18 2;
  Some (MkMold session (ntoh64 seq_no) (ntoh16 msg_count)).

(** ** Number fields *)

(** The loop adds the value of the digits before the first space. *)
Lemma atoi_loop_value l rest : forall k result,
  Forall is_digit l -> 0 <= result -> Z.of_nat (k + length l) <= 19 ->
  result + 10 ^ Z.of_nat k * rev_value l < 18446744073709551616 ->
  (rest = [] \/ exists r, rest = 32 :: r) ->
  atoi_loop (l ++ rest) (10 ^ Z.of_nat k) result = result + 10 ^ Z.of_nat k * rev_value l.
Proof.
  induction l as [|c l IH]; intros k result Hd Hr Hk Hfit Hrest; cbn [app rev_value].
  - rewrite Z.mul_0_r, Z.add_0_r. by destruct Hrest as [->|[r ->]].
  - apply Forall_cons in Hd as [Hc Hd]. unfold is_digit in Hc. cbn [rev_value] in Hfit.
    pose proof (rev_value_range l Hd) as [Hv _].
    assert (0 < 10 ^ Z.of_nat k) by (apply Z.pow_pos_nonneg; lia).
    cbn [length] in Hk. cbn [atoi_loop]. rewrite (eqb_false_of_ne c 32) by lia.
    assert (Hp : 10 ^ Z.of_nat k * 10 = 10 ^ Z.of_nat (S k))
      by (rewrite Nat2Z.inj_succ, Z.pow_succ_r by lia; lia).
    rewrite Hp.
    assert (0 < 10 ^ Z.of_nat (S k) <= 10 ^ 19)
      by (split; [apply Z.pow_pos_nonneg; lia | apply Z.pow_le_mono_r; lia]).
    change (10 ^ 19) with 10000000000000000000 in *.
    assert (E : result + 10 ^ Z.of_nat k * (c - 48 + 10 * rev_value l) =
      result + (c - 48) * 10 ^ Z.of_nat k + 10 ^ Z.of_nat (S k) * rev_value l)
      by (rewrite <- Hp; ring).
    rewrite E in *. rewrite (u64_small (10 ^ _)), (u64_small ((c - 48) * _)), u64_small by nia.
    apply IH; [done | nia | lia | nia | done].
Qed.

(** What the field parser returns for a number in a field. *)
Lemma parse_atoi_field pre l post w z :
  is_field w l z -> (w <= 19)%nat ->
  fh_itch_parse_atoi (pre ++ l ++ post) (Z.of_nat (length pre)) w = Some z.
Proof.
  intros Hf Hw. destruct (is_field_loop _ _ _ Hf) as (d & rest & Hrev & Hd & <- & Hlen & Hrest & Hl).
  unfold fh_itch_parse_atoi. rewrite <- Hl at 1. rewrite read_bytes_app. cbn [mbind option_bind].
  f_equal. rewrite Hrev. pose proof (rev_value_range d Hd) as [Hv1 Hv2].
  assert (10 ^ Z.of_nat (length d) <= 10 ^ 19) by (apply Z.pow_le_mono_r; lia).
  change (10 ^ 19) with 10000000000000000000 in *.
  change 1 with (10 ^ Z.of_nat 0) at 1. rewrite atoi_loop_value; [lia | done | lia | lia | | done].
  change (10 ^ Z.of_nat 0) with 1. lia.
Qed.

(** ** Prices *)

Lemma price_decimals_value z : 0 <= z < 10000 -> price_decimals (digits 4 z) 1000 0 = z.
Proof.
  intros Hz. unfold digits. pose proof (rev_digits_digit 4 z) as Hd.
  pose proof (rev_value_digits 4 z ltac:(cbn; lia)) as Hv. revert Hd Hv.
  cbn [rev_digits]. generalize (48 + z mod 10) (48 + z / 10 mod 10)
    (48 + z / 10 / 10 mod 10) (48 + z / 10 / 10 / 10 mod 10). intros c3 c2 c1 c0 Hd Hv.
  repeat (apply Forall_cons in Hd as [? Hd]). unfold is_digit in *.
  cbn [reverse rev_append price_decimals rev_value] in *.
  change (reverse [c3; c2; c1; c0]) with [c0; c1; c2; c3]. cbn [price_decimals].
  rewrite !eqb_false_of_ne by lia.
  change (1000 / 10) with 100. change (100 / 10) with 10. change (10 / 10) with 1.
  rewrite (u32_small ((c0 - 48) * 1000)), (u32_small ((c1 - 48) * 100)),
    (u32_small ((c2 - 48) * 10)), (u32_small ((c3 - 48) * 1)) by lia.
  word_lia.
Qed.

Lemma price_whole_stop rest exp result :
  (rest = [] \/ exists r, rest = 32 :: r) -> price_whole rest exp result = result.
Proof. by intros [->|[r ->]]. Qed.

(** Digits below the [10^9] one are added without overflow. *)
Lemma price_whole_digits l rest : forall k result,
  Forall is_digit l -> 0 <= result < 10 ^ Z.of_nat k -> (k + length l <= 9)%nat ->
  price_whole (l ++ rest) (10 ^ Z.of_nat k) result =
  price_whole rest (10 ^ Z.of_nat (k + length l)) (result + 10 ^ Z.of_nat k * rev_value l).
Proof.
  induction l as [|c l IH]; intros k result Hd Hr Hk; cbn [app rev_value length] in *.
  - by rewrite Nat.add_0_r, Z.mul_0_r, Z.add_0_r.
  - apply Forall_cons in Hd as [Hc Hd]. unfold is_digit in Hc. cbn [price_whole].
    rewrite (eqb_false_of_ne c 32) by lia.
    assert (Hp : 10 ^ Z.of_nat k * 10 = 10 ^ Z.of_nat (S k))
      by (rewrite Nat2Z.inj_succ, Z.pow_succ_r by lia; lia).
    assert (0 < 10 ^ Z.of_nat k <= 10 ^ 8)
      by (split; [apply Z.pow_pos_nonneg; lia | apply Z.pow_le_mono_r; lia]).
    change (10 ^ 8) with 100000000 in *.
    rewrite Hp, (u32_small ((c - 48) * _)), (u32_small (10 ^ _)), u64_small by nia.
    rewrite IH by (try done; nia || lia). rewrite <- Hp. f_equal; [do 2 f_equal; lia | ring].
Qed.

(** A price field: a whole part of six characters and four decimals. *)
Definition is_price (l : list Z) (z : Z) : Prop :=
  exists w, l = w ++ digits 4 (z mod 10000) /\ is_field 6 w (z / 10000) /\ 0 <= z.

Lemma length_is_price l z : is_price l z -> length l = 10%nat.
Proof.
  intros (w & -> & Hf & _). by rewrite length_app, length_digits, (length_is_field _ _ _ Hf).
Qed.

(** What the price parser returns. A price is in ten-thousandths and below
    1000000.0000; up to 499999.9999 it is returned as it is, above it comes out
    too small by [2^32], and from 900000.0000 on by twice that. *)
Definition price_parsed (z : Z) : Z :=
  z - (if z <? 5000000000 then 0 else if z <? 9000000000 then 4294967296 else 8589934592).

(** The reason: the digit of the hundred thousands is multiplied in 32 bits. *)
Lemma price_parsed_split z : 0 <= z < 10000000000 ->
  price_parsed z = z mod 1000000000 + u32 (z / 1000000000 * 1000000000).
Proof.
  intros Hz. unfold price_parsed. pose proof (Z.div_mod z 1000000000 ltac:(lia)) as Hdm.
  pose proof (Z.mod_pos_bound z 1000000000 ltac:(lia)) as Hm.
  assert (Hq : 0 <= z / 1000000000 < 10)
    by (split; [apply Z.div_pos; lia | apply Z.div_lt_upper_bound; lia]).
  remember (z / 1000000000) as q. remember (z mod 1000000000) as r.
  assert (Hu : forall k, 0 <= q * 1000000000 - k * 4294967296 < 4294967296 ->
    u32 (q * 1000000000) = q * 1000000000 - k * 4294967296).
  { intros k Hk. unfold u32. symmetry. apply Z.mod_unique with k; lia. }
  destruct (z <? 5000000000) eqn:E1; bool_to_prop; [rewrite (Hu 0); lia|].
  destruct (z <? 9000000000) eqn:E2; bool_to_prop; [rewrite (Hu 1); lia | rewrite (Hu 2); lia].
Qed.

Lemma price_parsed_small z : z < 5000000000 -> price_parsed z = z.
Proof. intros Hz. unfold price_parsed. destruct (z <? 5000000000) eqn:E; bool_to_prop; lia. Qed.

Lemma price_whole_value d rest r : Forall is_digit d -> (length d <= 6)%nat -> 0 <= r < 10000 ->
  (rest = [] \/ exists r, rest = 32 :: r) ->
  price_whole (d ++ rest) 10000 r = price_parsed (r + 10000 * rev_value d).
Proof.
  intros Hd Hl Hr Hrest. change (price_whole (d ++ rest) 10000 r)
    with (price_whole (d ++ rest) (10 ^ Z.of_nat 4) r).
  pose proof (rev_value_range d Hd) as [Hv1 Hv2].
  destruct (decide (length d <= 5)%nat) as [H5|H6].
  - assert (10 ^ Z.of_nat (length d) <= 10 ^ 5) by (apply Z.pow_le_mono_r; lia).
    change (10 ^ 5) with 100000 in *.
    rewrite price_whole_digits by (done || (change (10 ^ Z.of_nat 4) with 10000; lia) || lia).
    rewrite price_whole_stop by done. rewrite price_parsed_small by lia. reflexivity.
  - destruct (exists_last (l:=d)) as (d5 & c & ->); [intros ->; cbn in *; lia|].
    rewrite length_app in *. cbn [length] in *. apply Forall_app in Hd as [Hd [Hc _]%Forall_cons].
    pose proof (rev_value_range d5 Hd) as [Hw1 Hw2]. unfold is_digit in Hc.
    assert (El : length d5 = 5%nat) by lia. rewrite rev_value_app, El in *.
    change (10 ^ Z.of_nat 5) with 100000 in *.
    rewrite <- app_assoc.
    rewrite price_whole_digits by (done || (change (10 ^ Z.of_nat 4) with 10000; lia) || lia). rewrite El.
    change (10 ^ Z.of_nat 4) with 10000. change (10 ^ Z.of_nat (4 + 5)) with 1000000000.
    cbn [app price_whole]. rewrite (eqb_false_of_ne c 32) by lia. rewrite price_whole_stop by done.
    rewrite price_parsed_split by lia.
    assert (E : r + 10000 * (rev_value d5 + 100000 * (c - 48)) =
      (c - 48) * 1000000000 + (r + 10000 * rev_value d5)) by ring.
    rewrite E, Z.div_add_l, (Z.div_small (r + _)), Z.add_0_r by lia.
    rewrite (Z.add_comm (_ * _)), Z.mod_add, Z.mod_small by lia.
    unfold u32 at 1. pose proof (Z.mod_pos_bound ((c - 48) * 1000000000) 4294967296 ltac:(lia)).
    apply u64_small. unfold u32. lia.
Qed.

(** The price parser, on every price field. *)
Lemma parse_price_exact pre l post z :
  is_price l z ->
  fh_itch_parse_price (pre ++ l ++ post) (Z.of_nat (length pre)) = Some (price_parsed z).
Proof.
  intros Hp. unfold fh_itch_parse_price. rewrite <- (length_is_price l z Hp), read_bytes_app.
  cbn [mbind option_bind]. f_equal. destruct Hp as (w & -> & Hf & Hz0).
  destruct (is_field_loop _ _ _ Hf) as (d & rest & Hrev & Hd & Hv & Hlen & Hrest & Hl).
  rewrite take_app_length', drop_app_length' by done.
  pose proof (Z.mod_pos_bound z 10000 ltac:(lia)). pose proof (Z.div_mod z 10000 ltac:(lia)).
  rewrite price_decimals_value, Hrev by lia.
  rewrite price_whole_value, Hv by done. f_equal. lia.
Qed.
