(* ===== verification/ItchParse.v ===== *)
(** * The ITCH parser ([src/feeds/itch/multicast/common/fh_itch_parse.c])

    The state a packet is parsed against is the connection it came on, the
    line, the process's tables and the statics of the file.  A message buffer
    is the bytes from the message to the end of the receive buffer, so that
    reads past the message, but inside the buffer, succeed. *)
From S2P Require Import Prelude Bytes Mpool GapFill HTable Lookup Conn Feed ItchMsg.

(** What [*data] points to after a handler: the handler's own struct (and
    [*data_length] is its size), or whatever the message hook chose. *)
Inductive itch_data :=
  | DNone
  | DLocal (message : itch_msg)
  | DHook (data data_length : Z).

(** The hooks a plugin has registered, as functions on the plugin's state. *)
Record itch_hooks (W : Type) := MkItchHooks {
  hook_alert : alert_hook W;
  hook_msg_send : option (itch_data -> W -> Z * W);
  hook_msg : itch_kind -> option (itch_msg -> W -> Z * (Z * Z) * W)
}.
Arguments MkItchHooks {W}.
Arguments hook_alert {W}.
Arguments hook_msg_send {W}.
Arguments hook_msg {W}.

Section itch.
Context {W : Type} (cfg : feed_config) (hooks : itch_hooks W).
Notation st_t := (feed_state W).
Notation itch_alert := (feed_alert hooks.(hook_alert)).
Notation itch_flush := (feed_flush hooks.(hook_alert)).

(** The end of every handler: header, raw message, message hook. *)
Definition itch_finish (kind : itch_kind) (body : itch_body) (buffer : list Z) (length : Z)
    (st : st_t) : Z * itch_data * st_t :=
  let message := MkMsg st.(fs_next_seq_no) (u32 st.(fs_timestamp)) body buffer (u32 length) in
  match hooks.(hook_msg) kind with
  | Some f =>
      let '(rc, (data, data_length), w) := f message st.(fs_world) in
      (rc, DHook data data_length, set_world w st)
  | None => (FH_OK, DLocal message, st)
  end.

Definition itch_zero_order : fh_shr_lkp_ord :=
  MkOrd (order_no_key 0) 0 (replicate 20 0) 0 0 0 (replicate 6 0) NULL NULL.

(** The order table part of the two order add handlers: [message.ord_entry]. *)
Definition itch_add_order (order_no price shares buy_sell_ind : Z) (stock : list Z)
    (sym_entry : Z) (st : st_t) : option (Z * st_t) :=
  if cfg.(order_table_enabled) then
    let entry := MkOrd (order_no_key 0) order_no (replicate 20 0) price shares buy_sell_ind
                   stock sym_entry NULL in
    '(_, ord_entry, tbl) ← fh_shr_lkp_ord_add st.(fs_order_table) entry;
    Some (ord_entry, set_order_table tbl st)
  else Some (NULL, st).

(** The order table part of the execute and cancel handlers: [shares] is a
    [uint32_t], so [shares <= 0] is [shares == 0]. *)
Definition itch_reduce_order (order_no shares : Z) (st : st_t) : option (Z * st_t) :=
  if cfg.(order_table_enabled) then
    let key := order_no_key order_no in
    let tbl := st.(fs_order_table) in
    '(rc, entry) ← fh_shr_lkp_ord_get tbl key;
    if negb (rc =? FH_OK) then Some (entry, st)
    else
      e ← tbl.(tbl_entries) !! entry;
      let left := u32 (e.(ord_shares) - shares) in
      let tbl := tbl_write tbl entry (ord_set_shares left e) in
      if left <=? 0 then
        '(_, entry, tbl) ← fh_shr_lkp_ord_del tbl key;
        Some (entry, set_order_table tbl st)
      else Some (entry, set_order_table tbl st)
  else Some (NULL, st).

Definition itch_delete_order (order_no : Z) (st : st_t) : option (Z * st_t) :=
  if cfg.(order_table_enabled) then
    '(_, entry, tbl) ← fh_shr_lkp_ord_del st.(fs_order_table) (order_no_key order_no);
    Some (entry, set_order_table tbl st)
  else Some (NULL, st).

(** The deleted entry is copied after it went back to the pool. *)
Definition itch_replace_order (old_order_no new_order_no price shares : Z) (st : st_t)
    : option (Z * st_t) :=
  if cfg.(order_table_enabled) then
    '(_, old_entry, tbl) ← fh_shr_lkp_ord_del st.(fs_order_table) (order_no_key old_order_no);
    new_entry ← (if negb (old_entry =? NULL) then tbl.(tbl_entries) !! old_entry
                 else Some itch_zero_order);
    let new_entry := MkOrd new_entry.(ord_key) new_order_no new_entry.(ord_order_no_str) price
      shares new_entry.(ord_buy_sell_ind) new_entry.(ord_stock) new_entry.(ord_sym_entry)
      new_entry.(ord_context) in
    '(_, ord_entry, tbl) ← fh_shr_lkp_ord_add tbl new_entry;
    Some (ord_entry, set_order_table tbl st)
  else Some (NULL, st).

(** ** Message handlers

    The results are the status, [*data] and the state. *)

Definition fh_itch_parse_sys_msg (buffer : list Z) (length : Z) (st : st_t)
    : option (Z * itch_data * st_t) :=
  if negb (length =? FH_ITCH_MSG_SYSTEM_SIZE) then Some (FH_ERROR, DNone, st)
  else
    event_code ← byte_at buffer 1;
    Some (itch_finish KSystem (MSystem event_code) buffer length st).

Definition fh_itch_parse_stock_dir_msg (buffer : list Z) (length : Z) (st : st_t)
    : option (Z * itch_data * st_t) :=
  if negb (length =? FH_ITCH_MSG_STOCK_DIR_SIZE) then Some (FH_ERROR, DNone, st)
  else
    stock ← read_bytes buffer 1 6;
    market_cat ← byte_at buffer 7;
    fin_stat_ind ← byte_at buffer 8;
    round_lot_size ← fh_itch_parse_atoi buffer 9 6;
    round_lots_only ← byte_at buffer 15;
    '(sym_entry, st) ← fetch_symbol cfg stock st;
    Some (itch_finish KStockDir (MStockDir stock market_cat fin_stat_ind round_lots_only
            (u32 round_lot_size) sym_entry) buffer length st).

Definition fh_itch_parse_stock_trade_act_msg (buffer : list Z) (length : Z) (st : st_t)
    : option (Z * itch_data * st_t) :=
  if negb (length =? FH_ITCH_MSG_STOCK_TRADE_ACT_SIZE) then Some (FH_ERROR, DNone, st)
  else
    stock ← read_bytes buffer 1 6;
    trading_state ← byte_at buffer 7;
    reason ← read_bytes buffer 9 4;
    '(sym_entry, st) ← fetch_symbol cfg stock st;
    Some (itch_finish KStockTradeAct (MStockTradeAct stock trading_state reason sym_entry)
            buffer length st).

Definition fh_itch_parse_market_part_pos_msg (buffer : list Z) (length : Z) (st : st_t)
    : option (Z * itch_data * st_t) :=
  if negb (length =? FH_ITCH_MSG_MARKET_PART_POS_SIZE) then Some (FH_ERROR, DNone, st)
  else
    mpid ← read_bytes buffer 1 4;
    stock ← read_bytes buffer 5 6;
    pri_mkt_mkr ← byte_at buffer 11;
    mkt_mkr_mode ← byte_at buffer 12;
    mkt_part_state ← byte_at buffer 13;
    '(sym_entry, st) ← fetch_symbol cfg stock st;
    Some (itch_finish KMarketPartPos (MMarketPartPos mpid stock pri_mkt_mkr mkt_mkr_mode
            mkt_part_state sym_entry) buffer length st).

Definition fh_itch_parse_order_add_msg (buffer : list Z) (length : Z) (st : st_t)
    : option (Z * itch_data * st_t) :=
  if negb (length =? FH_ITCH_MSG_ORDER_ADD_SIZE) then Some (FH_ERROR, DNone, st)
  else
    order_no ← fh_itch_parse_atoi buffer 1 12;
    buy_sell_ind ← byte_at buffer 13;
    shares ← fh_itch_parse_atoi buffer 14 6;
    stock ← read_bytes buffer 20 6;
    price ← fh_itch_parse_price buffer 26;
    let shares := u32 shares in
    '(sym_entry, st) ← fetch_symbol cfg stock st;
    '(ord_entry, st) ← itch_add_order order_no price shares buy_sell_ind stock sym_entry st;
    Some (itch_finish KOrderAdd (MOrderAdd order_no price shares buy_sell_ind stock sym_entry
            ord_entry) buffer length st).

Definition fh_itch_parse_order_add_attr_msg (buffer : list Z) (length : Z) (st : st_t)
    : option (Z * itch_data * st_t) :=
  if negb (length =? FH_ITCH_MSG_ORDER_ADD_ATTR_SIZE) then Some (FH_ERROR, DNone, st)
  else
    order_no ← fh_itch_parse_atoi buffer 1 12;
    buy_sell_ind ← byte_at buffer 13;
    shares ← fh_itch_parse_atoi buffer 14 6;
    stock ← read_bytes buffer 20 6;
    price ← fh_itch_parse_price buffer 26;
    attribution ← read_bytes buffer 36 4;
    let shares := u32 shares in
    '(sym_entry, st) ← fetch_symbol cfg stock st;
    '(ord_entry, st) ← itch_add_order order_no price shares buy_sell_ind stock sym_entry st;
    Some (itch_finish KOrderAddAttr (MOrderAddAttr order_no price shares buy_sell_ind stock
            attribution sym_entry ord_entry) buffer length st).

Definition fh_itch_parse_order_exe_msg (buffer : list Z) (length : Z) (st : st_t)
    : option (Z * itch_data * st_t) :=
  if negb (length =? FH_ITCH_MSG_ORDER_EXE_SIZE) then Some (FH_ERROR, DNone, st)
  else
    order_no ← fh_itch_parse_atoi buffer 1 12;
    shares ← fh_itch_parse_atoi buffer 13 6;
    match_no ← fh_itch_parse_atoi buffer 19 12;
    let shares := u32 shares in
    '(ord_entry, st) ← itch_reduce_order order_no shares st;
    Some (itch_finish KOrderExe (MOrderExe order_no match_no shares ord_entry) buffer length st).

Definition fh_itch_parse_order_exe_price_msg (buffer : list Z) (length : Z) (st : st_t)
    : option (Z * itch_data * st_t) :=
  if negb (length =? FH_ITCH_MSG_ORDER_EXE_PRICE_SIZE) then Some (FH_ERROR, DNone, st)
  else
    order_no ← fh_itch_parse_atoi buffer 1 12;
    shares ← fh_itch_parse_atoi buffer 13 6;
    match_no ← fh_itch_parse_atoi buffer 19 12;
    printable ← byte_at buffer 31;
    exe_price ← fh_itch_parse_price buffer 32;
    let shares := u32 shares in
    '(ord_entry, st) ← itch_reduce_order order_no shares st;
    Some (itch_finish KOrderExePrice (MOrderExePrice order_no match_no exe_price shares printable
            ord_entry) buffer length st).

Definition fh_itch_parse_order_cancel_msg (buffer : list Z) (length : Z) (st : st_t)
    : option (Z * itch_data * st_t) :=
  if negb (length =? FH_ITCH_MSG_ORDER_CANCEL_SIZE) then Some (FH_ERROR, DNone, st)
  else
    order_no ← fh_itch_parse_atoi buffer 1 12;
    shares ← fh_itch_parse_atoi buffer 13 6;
    let shares := u32 shares in
    '(ord_entry, st) ← itch_reduce_order order_no shares st;
    Some (itch_finish KOrderCancel (MOrderCancel order_no shares ord_entry) buffer length st).

Definition fh_itch_parse_order_delete_msg (buffer : list Z) (length : Z) (st : st_t)
    : option (Z * itch_data * st_t) :=
  if negb (length =? FH_ITCH_MSG_ORDER_DELETE_SIZE) then Some (FH_ERROR, DNone, st)
  else
    order_no ← fh_itch_parse_atoi buffer 1 12;
    '(ord_entry, st) ← itch_delete_order order_no st;
    Some (itch_finish KOrderDelete (MOrderDelete order_no ord_entry) buffer length st).

Definition fh_itch_parse_order_replace_msg (buffer : list Z) (length : Z) (st : st_t)
    : option (Z * itch_data * st_t) :=
  if negb (length =? FH_ITCH_MSG_ORDER_REPLACE_SIZE) then Some (FH_ERROR, DNone, st)
  else
    old_order_no ← fh_itch_parse_atoi buffer 1 12;
    new_order_no ← fh_itch_parse_atoi buffer 13 12;
    shares ← fh_itch_parse_atoi buffer 25 6;
    price ← fh_itch_parse_price buffer 31;
    let shares := u32 shares in
    '(ord_entry, st) ← itch_replace_order old_order_no new_order_no price shares st;
    Some (itch_finish KOrderReplace (MOrderReplace old_order_no new_order_no price shares
            ord_entry) buffer length st).

Definition fh_itch_parse_trade_msg (buffer : list Z) (length : Z) (st : st_t)
    : option (Z * itch_data * st_t) :=
  if negb (length =? FH_ITCH_MSG_TRADE_SIZE) then Some (FH_ERROR, DNone, st)
  else
    order_no ← fh_itch_parse_atoi buffer 1 12;
    buy_sell_ind ← byte_at buffer 13;
    shares ← fh_itch_parse_atoi buffer 14 6;
    stock ← read_bytes buffer 20 6;
    price ← fh_itch_parse_price buffer 26;
    match_no ← fh_itch_parse_atoi buffer 36 12;
    '(sym_entry, st) ← fetch_symbol cfg stock st;
    Some (itch_finish KTrade (MTrade order_no price match_no (u32 shares) buy_sell_ind stock
            sym_entry) buffer length st).

Definition fh_itch_parse_trade_cross_msg (buffer : list Z) (length : Z) (st : st_t)
    : option (Z * itch_data * st_t) :=
  if negb (length =? FH_ITCH_MSG_TRADE_CROSS_SIZE) then Some (FH_ERROR, DNone, st)
  else
    shares ← fh_itch_parse_atoi buffer 1 9;
    stock ← read_bytes buffer 10 6;
    price ← fh_itch_parse_price buffer 16;
    match_no ← fh_itch_parse_atoi buffer 26 12;
    type ← byte_at buffer 38;
    '(sym_entry, st) ← fetch_symbol cfg stock st;
    Some (itch_finish KTradeCross (MTradeCross price match_no (u32 shares) stock type sym_entry)
            buffer length st).

Definition fh_itch_parse_trade_broken_msg (buffer : list Z) (length : Z) (st : st_t)
    : option (Z * itch_data * st_t) :=
  if negb (length =? FH_ITCH_MSG_TRADE_BROKEN_SIZE) then Some (FH_ERROR, DNone, st)
  else
    match_no ← fh_itch_parse_atoi buffer 1 12;
    Some (itch_finish KTradeBroken (MTradeBroken match_no) buffer length st).

Definition fh_itch_parse_noii_msg (buffer : list Z) (length : Z) (st : st_t)
    : option (Z * itch_data * st_t) :=
  if negb (length =? FH_ITCH_MSG_NOII_SIZE) then Some (FH_ERROR, DNone, st)
  else
    paired_shares ← fh_itch_parse_atoi buffer 1 9;
    imbalance_shares ← fh_itch_parse_atoi buffer 10 9;
    imbalance_dir ← byte_at buffer 19;
    stock ← read_bytes buffer 20 6;
    far_price ← fh_itch_parse_price buffer 26;
    near_price ← fh_itch_parse_price buffer 36;
    ref_price ← fh_itch_parse_price buffer 46;
    cross_type ← byte_at buffer 56;
    price_var_ind ← byte_at buffer 57;
    '(sym_entry, st) ← fetch_symbol cfg stock st;
    Some (itch_finish KNoii (MNoii far_price near_price ref_price (u32 paired_shares)
            (u32 imbalance_shares) imbalance_dir stock cross_type price_var_ind sym_entry)
            buffer length st).

(** ** Sequencing *)

(** The result: 1 in order (or after a gap), -1 in a gap, 0 duplicate.
    [now] is what [time(NULL)] returns if a gap is pushed. *)
Definition fh_itch_is_duplicate (now seq_no : Z) (st : st_t) : option (Z * st_t) :=
  if seq_no =? st.(fs_next_seq_no) then Some (1, st)
  else if seq_no <? st.(fs_next_seq_no) then
    gl ← st.(fs_gaplist);
    node ← fh_shr_gap_fill_find gl seq_no;
    Some (if negb (node =? NULL) then -1 else 0, set_gapnode node st)
  else
    let st := count_stat Gaps 1 st in
    let gap_size := s32 (u64 (seq_no - st.(fs_next_seq_no))) in
    st ← match st.(fs_gaplist) with
    | Some gl =>
        '(rc, gl) ← fh_shr_gap_fill_push now gl st.(fs_next_seq_no) (u32 gap_size);
        let st := set_gaplist gl st in
        if rc <? 0 then
          let st := count_stat LostMessages gap_size st in
          Some (itch_alert FH_ALERT_LOSS rc st).2
        else
          let '(rc, st) := itch_alert FH_ALERT_GAP rc st in
          if 0 <? rc then
            let st := count_stat LostMessages rc st in
            Some (itch_alert FH_ALERT_LOSS rc st).2
          else Some st
    | None =>
        let st := count_stat LostMessages gap_size st in
        (* [rc] is not initialised here *)
        Some (itch_alert FH_ALERT_LOSS 0 st).2
    end;
    Some (1, set_next_seq_no seq_no st).

(** ** Messages *)

Definition MSG_T : Z := 84.
Definition MSG_M : Z := 77.

(** The [switch] on the message type, up to the [return -1] of its cases:
    whether the message was processed, [data] and the state. *)
Definition itch_dispatch (msg_type : Z) (buffer : list Z) (msg_length : Z) (st : st_t)
    : option (bool * itch_data * st_t) :=
  let handle (r : option (Z * itch_data * st_t)) :=
    '(rc, data, st) ← r; Some (rc =? FH_OK, data, st) in
  if msg_type =? MSG_T then
    t ← fh_itch_parse_atoi buffer 1 5;
    Some (true, DNone, set_timestamp (u64 (t * 1000)) st)
  else if msg_type =? MSG_M then
    t ← fh_itch_parse_atoi buffer 1 3;
    let ts := u64 (st.(fs_timestamp) - st.(fs_timestamp) mod 1000) in
    Some (true, DNone, set_timestamp (u64 (ts + t)) st)
  else if msg_type =? 83 (* S *) then handle (fh_itch_parse_sys_msg buffer msg_length st)
  else if msg_type =? 82 (* R *) then handle (fh_itch_parse_stock_dir_msg buffer msg_length st)
  else if msg_type =? 72 (* H *) then handle (fh_itch_parse_stock_trade_act_msg buffer msg_length st)
  else if msg_type =? 76 (* L *) then handle (fh_itch_parse_market_part_pos_msg buffer msg_length st)
  else if msg_type =? 65 (* A *) then handle (fh_itch_parse_order_add_msg buffer msg_length st)
  else if msg_type =? 70 (* F *) then handle (fh_itch_parse_order_add_attr_msg buffer msg_length st)
  else if msg_type =? 69 (* E *) then handle (fh_itch_parse_order_exe_msg buffer msg_length st)
  else if msg_type =? 67 (* C *) then handle (fh_itch_parse_order_exe_price_msg buffer msg_length st)
  else if msg_type =? 88 (* X *) then handle (fh_itch_parse_order_cancel_msg buffer msg_length st)
  else if msg_type =? 68 (* D *) then handle (fh_itch_parse_order_delete_msg buffer msg_length st)
  else if msg_type =? 85 (* U *) then handle (fh_itch_parse_order_replace_msg buffer msg_length st)
  else if msg_type =? 80 (* P *) then handle (fh_itch_parse_trade_msg buffer msg_length st)
  else if msg_type =? 81 (* Q *) then handle (fh_itch_parse_trade_cross_msg buffer msg_length st)
  else if msg_type =? 66 (* B *) then handle (fh_itch_parse_trade_broken_msg buffer msg_length st)
  else if msg_type =? 73 (* I *) then handle (fh_itch_parse_noii_msg buffer msg_length st)
  else Some (false, DNone, count_stat MessageErrors 1 st).

(** What follows the [switch]: advance the line, or fill the gap. *)
Definition itch_advance (dup seq_no : Z) (st : st_t) : option st_t :=
  if 0 <? dup then Some (set_next_seq_no (u64 (st.(fs_next_seq_no) + 1)) st)
  else if (dup <? 0) && negb (st.(fs_gapnode) =? NULL) then
    gl ← st.(fs_gaplist);
    '(rc, node, gl) ← fh_shr_gap_fill_del gl st.(fs_gapnode) seq_no;
    let st := set_gapnode node (set_gaplist gl st) in
    let st := if 0 <=? rc then count_stat RecoveredMessages 1 st else st in
    let '(rc, st) :=
      if 0 <? rc then itch_alert FH_ALERT_LOSS rc (count_stat LostMessages rc st)
      else (rc, st) in
    if st.(fs_gapnode) =? NULL then
      gl ← st.(fs_gaplist);
      if gl.(gl_count) <=? 0 then Some (itch_alert FH_ALERT_NOGAP rc st).2
      else Some st
    else Some st
  else Some st.

(** The number of bytes used, or -1. [buffer] goes to the end of the receive
    buffer, [length] is what is left of the packet. *)
Definition fh_itch_parse_msg (now seq_no : Z) (buffer : list Z) (length : Z) (st : st_t)
    : option (Z * st_t) :=
  if length <? 2 then Some (-1, count_stat MessageErrors 1 st)
  else
    len ← read_le buffer 0 2;
    let msg_length := ntoh16 len in
    let length := length - 2 in
    let buffer := drop 2 buffer in
    if length <? msg_length then Some (-1, count_stat MessageErrors 1 st)
    else if msg_length <? 1 then Some (-1, count_stat MessageErrors 1 st)
    else
      '(dup, st) ← fh_itch_is_duplicate now seq_no st;
      if dup =? 0 then Some (msg_length + 2, count_stat DuplicatePackets 1 st)
      else
        msg_type ← byte_at buffer 0;
        '(ok, data, st) ← itch_dispatch msg_type buffer msg_length st;
        if negb (ok : bool) then Some (-1, st)
        else
          st ← itch_advance dup seq_no st;
          if negb (msg_type =? MSG_T) && negb (msg_type =? MSG_M) then
            match hooks.(hook_msg_send) with
            | Some f =>
                let '(rc, w) := f data st.(fs_world) in
                let st := set_world w st in
                if negb (rc =? FH_OK) then Some (-1, st) else Some (msg_length + 2, st)
            | None => Some (msg_length + 2, st)
            end
          else Some (msg_length + 2, st).

(** ** Packets *)

(** The [for] loop over the messages of a packet, from message [i] on. *)
Fixpoint itch_msgs (n : nat) (clock : Z -> Z) (seq_no i : Z) (packet : list Z) (length : Z)
    (st : st_t) : option (Z * st_t) :=
  match n with
  | O => Some (FH_OK, st)
  | S n =>
      '(used, st) ← fh_itch_parse_msg (clock i) (u64 (seq_no + i)) packet length st;
      if used <? 0 then Some (FH_ERROR, st)
      else
        itch_msgs n clock seq_no (i + 1) (drop (Z.to_nat used) packet) (length - used)
          (count_stat Messages 1 st)
  end.

(** [gaplist->count] *)
Definition itch_gap_count (st : st_t) : option Z := gl ← st.(fs_gaplist); Some gl.(gl_count).

(** [if (!inorder && gaplist->count == 0) inorder = 1] *)
Definition itch_resume (st : st_t) : option st_t :=
  if negb st.(fs_inorder) then
    c ← itch_gap_count st; Some (if c =? 0 then set_inorder true st else st)
  else Some st.

(** Up to the check of the packet's size. *)
Definition itch_pkt_begin (now length : Z) (st : st_t) : option st_t :=
  st ← itch_flush now st;
  st ← itch_resume st;
  Some (count_stat Bytes length st).

(** The in-order/out-of-order change at the bottom. *)
Definition itch_pkt_end (st : st_t) : option (Z * st_t) :=
  c ← itch_gap_count st;
  Some (FH_OK,
    if st.(fs_inorder) then (if 0 <? c then set_inorder false st else st)
    else (if c =? 0 then set_inorder true st else st)).

(** [clock]: what [time(NULL)] returns in the flush (at -1) and at the i-th
    message. [packet] goes to the end of the receive buffer. *)
Definition fh_itch_parse_pkt (clock : Z -> Z) (packet : list Z) (length : Z) (st : st_t)
    : option (Z * st_t) :=
  st ← itch_pkt_begin (clock (-1)) length st;
  if length <? FH_ITCH_MOLDUDP64_SIZE then Some (FH_ERROR, count_stat PacketErrors 1 st)
  else
    h ← fh_itch_moldudp64_extract packet;
    if h.(md_msg_count) =? 0 then
      Some (FH_OK, if st.(fs_next_seq_no) <? h.(md_seq_no)
                   then set_next_seq_no h.(md_seq_no) st else st)
    else if h.(md_msg_count) =? 65535 then Some (FH_OK, set_next_seq_no 1 st)
    else
      '(rc, st) ← itch_msgs (Z.to_nat h.(md_msg_count)) clock h.(md_seq_no) 0
        (drop 20 packet) (length - FH_ITCH_MOLDUDP64_SIZE) st;
      if negb (rc =? FH_OK) then Some (rc, st) else itch_pkt_end st.

(** The gap list part of [fh_itch_parse_init]; the hooks it caches are
    [hooks]. [mem_list] and the rest are the allocations of the list. *)
Definition fh_itch_parse_init (mem_list : option Z) (mem_mp mem_name : bool)
    (arena : option Z) (st : st_t) : Z * st_t :=
  (FH_OK,
   if 0 <? cfg.(gap_list_max) then
     MkFeed st.(fs_next_seq_no) st.(fs_timestamp) st.(fs_stats) st.(fs_symbol_table)
       st.(fs_order_table)
       (fh_shr_gap_fill_new mem_list mem_mp mem_name arena (u32 cfg.(gap_list_max))
          (u32 cfg.(gap_timeout)))
       st.(fs_gapnode) st.(fs_inorder) st.(fs_world)
   else st).

End itch.
