(* ===== verification/ItchProps.v ===== *)
(** * What the ITCH parser guarantees

    [feed_inv] is the invariant of the parser's state: a correct gap list and
    correct tables.  The handlers keep it and leave the sequencing state
    alone ([same_seq]); the theorems are about messages and packets of
    arbitrary bytes. *)
From S2P Require Import Prelude Bytes Mpool GapFill HTable Lookup Conn Feed FeedProps Decimal ItchMsg ItchParse.

Section props.
Context {W : Type} (cfg : feed_config) (hooks : itch_hooks W).
Notation st_t := (feed_state W).
Notation tables_ok := (@tables_ok W cfg).
Notation step_ok := (@step_ok W cfg).
Notation feed_inv := (@feed_inv W cfg).

Lemma itch_add_order_ok no price shares bs stock sym st : tables_ok st ->
  exists e st', itch_add_order cfg no price shares bs stock sym st = Some (e, st') /\ step_ok st st'.
Proof.
  intros Ht. unfold itch_add_order.
  destruct (order_table_enabled cfg) eqn:En; [|exists NULL, st; by split; [|apply step_ok_refl]].
  destruct (proj2 Ht En) as (cap & m & Hr).
  set (e := MkOrd _ _ _ _ _ _ _ _ _).
  pose proof (fh_shr_lkp_ord_add_spec _ _ _ e Hr) as Ha. cbv zeta in Ha.
  destruct (_ =? cap); [rewrite Ha; by eapply set_order_table_ok|].
  destruct (m !! _); [destruct Ha as (t' & -> & Hr') | destruct Ha as (a & t' & -> & _ & _ & Hr')];
    by eapply set_order_table_ok.
Qed.

Lemma itch_reduce_order_ok no shares st : tables_ok st ->
  exists e st', itch_reduce_order cfg no shares st = Some (e, st') /\ step_ok st st'.
Proof.
  intros Ht. unfold itch_reduce_order.
  destruct (order_table_enabled cfg) eqn:En; [|exists NULL, st; by split; [|apply step_ok_refl]].
  destruct (proj2 Ht En) as (cap & m & Hr).
  rewrite (fh_shr_lkp_ord_get_spec _ _ _ _ Hr).
  destruct (m !! ord_key_bytes (order_no_key no)) as [[a e]|] eqn:Em; cbn [mbind option_bind].
  2: { exists NULL, st. by split; [|apply step_ok_refl]. }
  change (FH_OK =? FH_OK) with true. cbn [negb].
  destruct (tr_entries _ _ _ _ _ Hr _ _ _ Em) as [He Hk]. rewrite He. cbn [mbind option_bind].
  set (left := u32 (ord_shares e - shares)).
  pose proof (tbl_write_spec _ _ _ _ _ _ _ _ (ord_set_shares left e) Hr Em Hk) as Hw.
  destruct (left <=? 0); [|by eapply set_order_table_ok].
  pose proof (fh_shr_lkp_ord_del_spec _ _ _ (order_no_key no) Hw) as Hd.
  rewrite lookup_insert_eq in Hd. destruct Hd as (t' & -> & Hr' & _). by eapply set_order_table_ok.
Qed.

Lemma itch_delete_order_ok no st : tables_ok st ->
  exists e st', itch_delete_order cfg no st = Some (e, st') /\ step_ok st st'.
Proof.
  intros Ht. unfold itch_delete_order.
  destruct (order_table_enabled cfg) eqn:En; [|exists NULL, st; by split; [|apply step_ok_refl]].
  destruct (proj2 Ht En) as (cap & m & Hr).
  pose proof (fh_shr_lkp_ord_del_spec _ _ _ (order_no_key no) Hr) as Hd.
  destruct (m !! _) as [[a e]|]; [destruct Hd as (t' & -> & Hr' & _) | rewrite Hd];
    by eapply set_order_table_ok.
Qed.

Lemma itch_replace_order_ok old new price shares st : tables_ok st ->
  exists e st', itch_replace_order cfg old new price shares st = Some (e, st') /\ step_ok st st'.
Proof.
  intros Ht. unfold itch_replace_order.
  destruct (order_table_enabled cfg) eqn:En; [|exists NULL, st; by split; [|apply step_ok_refl]].
  destruct (proj2 Ht En) as (cap & m & Hr).
  assert (Hadd : forall t m' e, tbl_repr ord_key_of sizeof_ord_key t cap m' ->
    exists e' st', ('(_, ord_entry, tbl) ← fh_shr_lkp_ord_add t e;
      Some (ord_entry, set_order_table tbl st)) = Some (e', st') /\ step_ok st st').
  { intros t m' e Hr'. pose proof (fh_shr_lkp_ord_add_spec _ _ _ e Hr') as Ha. cbv zeta in Ha.
    destruct (_ =? cap); [rewrite Ha|
      destruct (m' !! _); [destruct Ha as (t' & -> & Hr2) | destruct Ha as (a & t' & -> & _ & _ & Hr2)]];
      by eapply set_order_table_ok. }
  pose proof (fh_shr_lkp_ord_del_spec _ _ _ (order_no_key old) Hr) as Hd.
  destruct (m !! ord_key_bytes (order_no_key old)) as [[a e]|] eqn:Em.
  - destruct Hd as (t' & -> & Hr' & He). cbn [mbind option_bind].
    pose proof (tbl_repr_nonnull _ _ _ _ _ _ _ _ Hr Em) as Hn.
    rewrite (eqb_false_of_ne a NULL), He by done.
    destruct (tr_entries _ _ _ _ _ Hr _ _ _ Em) as [-> _]. cbn [negb mbind option_bind].
    by eapply Hadd.
  - rewrite Hd. cbn [mbind option_bind]. rewrite Z.eqb_refl. cbn [negb mbind option_bind].
    by eapply Hadd.
Qed.

Lemma itch_finish_ok kind body buffer len st : tables_ok st ->
  step_ok st (itch_finish hooks kind body buffer len st).2.
Proof.
  intros Ht. unfold itch_finish. destruct (hook_msg hooks kind) as [f|]; [|by apply step_ok_refl].
  destruct (f _ _) as [[rc [d l]] w]. by apply step_ok_world.
Qed.

(** ** The handlers *)

Lemma parse_atoi_some buf off n : 0 <= off -> off + Z.of_nat n <= Z.of_nat (length buf) ->
  exists v, fh_itch_parse_atoi buf off n = Some v.
Proof.
  intros H1 H2. unfold fh_itch_parse_atoi.
  destruct (read_bytes_some buf off n H1 H2) as [l ->]. cbn. eauto.
Qed.

Lemma parse_price_some buf off : 0 <= off -> off + 10 <= Z.of_nat (length buf) ->
  exists v, fh_itch_parse_price buf off = Some v.
Proof.
  intros H1 H2. unfold fh_itch_parse_price.
  destruct (read_bytes_some buf off 10 H1 ltac:(lia)) as [l ->]. cbn. eauto.
Qed.

(** The reads of a handler stay in the message. *)
Ltac read_field :=
  match goal with
  | |- context [byte_at ?b ?o] => destruct (byte_at_some b o) as [? ->]; [lia|]
  | |- context [read_bytes ?b ?o ?n] => destruct (read_bytes_some b o n) as [? ->]; [lia | lia|]
  | |- context [fh_itch_parse_atoi ?b ?o ?n] =>
      destruct (parse_atoi_some b o n) as [? ->]; [lia | lia|]
  | |- context [fh_itch_parse_price ?b ?o] => destruct (parse_price_some b o) as [? ->]; [lia | lia|]
  end; cbn [mbind option_bind].

(** Every handler, whatever the length and the bytes of its message. *)
Definition handler_ok (h : list Z -> Z -> st_t -> option (Z * itch_data * st_t)) : Prop :=
  forall buffer len st, tables_ok st -> len <= Z.of_nat (length buffer) ->
    exists rc data st', h buffer len st = Some (rc, data, st') /\ step_ok st st'.

Lemma handler_end kind body buffer len st st' :
  step_ok st st' ->
  exists rc data st'', Some (itch_finish hooks kind body buffer len st') = Some (rc, data, st'') /\
    step_ok st st''.
Proof.
  intros Hs. pose proof (itch_finish_ok kind body buffer len st' (proj1 Hs)) as Hf.
  destruct (itch_finish hooks kind body buffer len st') as [[rc data] st'']. cbn in Hf.
  exists rc, data, st''. split; [done|]. by eapply step_ok_trans.
Qed.

(** The length check, then the fields. *)
Ltac handler_start N :=
  intros buffer len st Ht Hlen;
  destruct (negb (len =? N)) eqn:El;
    [exists FH_ERROR, DNone, st; split; [done | by apply step_ok_refl]|];
  apply negb_false_iff, Z.eqb_eq in El; unfold N in El; subst len;
  repeat read_field.

(** [FH_ITCH_FETCH_SYMBOL], then the end of the handler. *)
Ltac handler_symbol :=
  match goal with
  | |- context [fetch_symbol cfg ?s ?st] =>
      let st' := fresh "st" in let H := fresh "Hs" in
      destruct (fetch_symbol_ok cfg s st) as (? & st' & -> & H); [done|];
      cbn [mbind option_bind]
  end.

(** The order table part of a handler. *)
Ltac handler_order :=
  let E := fresh "E" in let H := fresh "Ho" in
  match goal with
  | |- context [itch_add_order cfg ?n ?p ?s ?b ?k ?y ?st] =>
      destruct (itch_add_order_ok n p s b k y st) as (? & ? & E & H)
  | |- context [itch_reduce_order cfg ?n ?s ?st] =>
      destruct (itch_reduce_order_ok n s st) as (? & ? & E & H)
  | |- context [itch_delete_order cfg ?n ?st] =>
      destruct (itch_delete_order_ok n st) as (? & ? & E & H)
  | |- context [itch_replace_order cfg ?o ?n ?p ?s ?st] =>
      destruct (itch_replace_order_ok o n p s st) as (? & ? & E & H)
  end; [done || by match goal with H : step_ok _ _ |- _ => apply (proj1 H) end|];
  rewrite E; cbn [mbind option_bind]; clear E;
  try (match goal with H1 : step_ok ?a ?b, H2 : step_ok ?b ?c |- _ =>
         pose proof (step_ok_trans _ _ _ H1 H2); clear H1 H2 end).

Lemma sys_msg_ok : handler_ok (fh_itch_parse_sys_msg hooks).
Proof.
  unfold handler_ok, fh_itch_parse_sys_msg. handler_start FH_ITCH_MSG_SYSTEM_SIZE.
  apply handler_end. by apply step_ok_refl.
Qed.

Lemma stock_dir_msg_ok : handler_ok (fh_itch_parse_stock_dir_msg cfg hooks).
Proof.
  unfold handler_ok, fh_itch_parse_stock_dir_msg. handler_start FH_ITCH_MSG_STOCK_DIR_SIZE.
  handler_symbol. by apply handler_end.
Qed.

Lemma stock_trade_act_msg_ok : handler_ok (fh_itch_parse_stock_trade_act_msg cfg hooks).
Proof.
  unfold handler_ok, fh_itch_parse_stock_trade_act_msg.
  handler_start FH_ITCH_MSG_STOCK_TRADE_ACT_SIZE. handler_symbol. by apply handler_end.
Qed.

Lemma market_part_pos_msg_ok : handler_ok (fh_itch_parse_market_part_pos_msg cfg hooks).
Proof.
  unfold handler_ok, fh_itch_parse_market_part_pos_msg.
  handler_start FH_ITCH_MSG_MARKET_PART_POS_SIZE. handler_symbol. by apply handler_end.
Qed.

Lemma order_add_msg_ok : handler_ok (fh_itch_parse_order_add_msg cfg hooks).
Proof.
  unfold handler_ok, fh_itch_parse_order_add_msg. handler_start FH_ITCH_MSG_ORDER_ADD_SIZE.
  handler_symbol. handler_order. by apply handler_end.
Qed.

Lemma order_add_attr_msg_ok : handler_ok (fh_itch_parse_order_add_attr_msg cfg hooks).
Proof.
  unfold handler_ok, fh_itch_parse_order_add_attr_msg.
  handler_start FH_ITCH_MSG_ORDER_ADD_ATTR_SIZE. handler_symbol. handler_order.
  by apply handler_end.
Qed.

Lemma order_exe_msg_ok : handler_ok (fh_itch_parse_order_exe_msg cfg hooks).
Proof.
  unfold handler_ok, fh_itch_parse_order_exe_msg. handler_start FH_ITCH_MSG_ORDER_EXE_SIZE.
  handler_order. by apply handler_end.
Qed.

Lemma order_exe_price_msg_ok : handler_ok (fh_itch_parse_order_exe_price_msg cfg hooks).
Proof.
  unfold handler_ok, fh_itch_parse_order_exe_price_msg.
  handler_start FH_ITCH_MSG_ORDER_EXE_PRICE_SIZE. handler_order. by apply handler_end.
Qed.

Lemma order_cancel_msg_ok : handler_ok (fh_itch_parse_order_cancel_msg cfg hooks).
Proof.
  unfold handler_ok, fh_itch_parse_order_cancel_msg.
  handler_start FH_ITCH_MSG_ORDER_CANCEL_SIZE. handler_order. by apply handler_end.
Qed.

Lemma order_delete_msg_ok : handler_ok (fh_itch_parse_order_delete_msg cfg hooks).
Proof.
  unfold handler_ok, fh_itch_parse_order_delete_msg.
  handler_start FH_ITCH_MSG_ORDER_DELETE_SIZE. handler_order. by apply handler_end.
Qed.

Lemma order_replace_msg_ok : handler_ok (fh_itch_parse_order_replace_msg cfg hooks).
Proof.
  unfold handler_ok, fh_itch_parse_order_replace_msg.
  handler_start FH_ITCH_MSG_ORDER_REPLACE_SIZE. handler_order. by apply handler_end.
Qed.

Lemma trade_msg_ok : handler_ok (fh_itch_parse_trade_msg cfg hooks).
Proof.
  unfold handler_ok, fh_itch_parse_trade_msg. handler_start FH_ITCH_MSG_TRADE_SIZE.
  handler_symbol. by apply handler_end.
Qed.

Lemma trade_cross_msg_ok : handler_ok (fh_itch_parse_trade_cross_msg cfg hooks).
Proof.
  unfold handler_ok, fh_itch_parse_trade_cross_msg. handler_start FH_ITCH_MSG_TRADE_CROSS_SIZE.
  handler_symbol. by apply handler_end.
Qed.

Lemma trade_broken_msg_ok : handler_ok (fh_itch_parse_trade_broken_msg hooks).
Proof.
  unfold handler_ok, fh_itch_parse_trade_broken_msg.
  handler_start FH_ITCH_MSG_TRADE_BROKEN_SIZE. apply handler_end. by apply step_ok_refl.
Qed.

Lemma noii_msg_ok : handler_ok (fh_itch_parse_noii_msg cfg hooks).
Proof.
  unfold handler_ok, fh_itch_parse_noii_msg. handler_start FH_ITCH_MSG_NOII_SIZE.
  handler_symbol. by apply handler_end.
Qed.

#[local] Hint Resolve sys_msg_ok stock_dir_msg_ok stock_trade_act_msg_ok market_part_pos_msg_ok
  order_add_msg_ok order_add_attr_msg_ok order_exe_msg_ok order_exe_price_msg_ok
  order_cancel_msg_ok order_delete_msg_ok order_replace_msg_ok trade_msg_ok trade_cross_msg_ok
  trade_broken_msg_ok noii_msg_ok : itch.

Lemma handle_ok h buffer len st : handler_ok h -> tables_ok st -> len <= Z.of_nat (length buffer) ->
  exists ok data st', ('(rc, data, st') ← h buffer len st; Some (rc =? FH_OK, data, st')) =
      Some (ok, data, st') /\ tables_ok st' /\ (ok = true -> same_seq st st') /\
      st'.(fs_next_seq_no) = st.(fs_next_seq_no) /\ st'.(fs_gaplist) = st.(fs_gaplist) /\
      st'.(fs_gapnode) = st.(fs_gapnode) /\ st'.(fs_inorder) = st.(fs_inorder).
Proof.
  intros Hh Ht Hl. destruct (Hh buffer len st Ht Hl) as (rc & data & st' & -> & Ht' & Hs).
  cbn [mbind option_bind]. do 3 eexists. split; [done|]. split; [done|]. split; [done|].
  by destruct Hs as (? & ? & ? & ? & ?).
Qed.

(** The [switch], on any message: the five bytes after a type are there to be
    read even when the message is shorter. *)
Lemma itch_dispatch_ok ty buffer len st : tables_ok st ->
  len <= Z.of_nat (length buffer) -> 6 <= Z.of_nat (length buffer) ->
  exists ok data st', itch_dispatch cfg hooks ty buffer len st = Some (ok, data, st') /\
    tables_ok st' /\ (ok = true -> same_seq st st') /\
    st'.(fs_next_seq_no) = st.(fs_next_seq_no) /\ st'.(fs_gaplist) = st.(fs_gaplist) /\
    st'.(fs_gapnode) = st.(fs_gapnode) /\ st'.(fs_inorder) = st.(fs_inorder).
Proof.
  intros Ht Hl H6. unfold itch_dispatch. cbv zeta.
  repeat match goal with
  | |- context [if ty =? ?c then _ else _] => destruct (ty =? c)
  end; try (apply handle_ok; auto with itch).
  - destruct (parse_atoi_some buffer 1 5) as [v ->]; [lia | lia|]. cbn [mbind option_bind].
    do 3 eexists. split; [done|]. split; [done|]. done.
  - destruct (parse_atoi_some buffer 1 3) as [v ->]; [lia | lia|]. cbn [mbind option_bind].
    do 3 eexists. split; [done|]. split; [done|]. done.
  - do 3 eexists. split; [done|]. split; [done|]. done.
Qed.

(** The three outcomes of [fh_itch_is_duplicate]. *)
Definition dup_cases (st : st_t) (gl : gap_list) (es : list (Z * gap)) (now seq_no dup : Z)
    (st' : st_t) (es' : list (Z * gap)) : Prop :=
  let next := st.(fs_next_seq_no) in
  let next' := st'.(fs_next_seq_no) in
  (seq_no = next /\ dup = 1 /\ next' = next /\ es' = es) \/
  (seq_no < next /\ next' = next /\ es' = es /\
     ((dup = 0 /\ ~ missing es.*2 seq_no) \/
      (dup = -1 /\ exists l1 c g l2, es = l1 ++ (c, g) :: l2 /\
         st'.(fs_gapnode) = c /\ gap_has g seq_no))) \/
  (next < seq_no /\ dup = 1 /\ next' = seq_no /\ exists node,
     es' = (if Z.of_nat (length es) =? gl.(gl_max) then tail es else es) ++
           [(node, MkGap next (seq_no - next) now)]).

Lemma is_duplicate_ok st gl es now seq_no :
  feed_inv st gl es -> seq_ok st seq_no ->
  exists dup st' gl' es', fh_itch_is_duplicate hooks now seq_no st = Some (dup, st') /\
    feed_inv st' gl' es' /\ gl'.(gl_max) = gl.(gl_max) /\
    dup_cases st gl es now seq_no dup st' es'.
Proof.
  intros Hi [Hs Hjump]. unfold fh_itch_is_duplicate, dup_cases.
  pose proof Hi as [Hgl Hr Hok Hmax Ht Hnext].
  destruct (seq_no =? fs_next_seq_no st) eqn:E1; bool_to_prop.
  { exists 1, st, gl, es. eauto 10. }
  destruct (seq_no <? fs_next_seq_no st) eqn:E2; bool_to_prop.
  { rewrite Hgl. cbn [mbind option_bind]. rewrite (gap_find_repr _ _ _ Hr). cbn [mbind option_bind].
    assert (Hinv' : feed_inv (set_gapnode (spec_find seq_no es) st) gl es)
      by (eapply feed_inv_ext; done).
    do 4 eexists. split; [done|]. split; [exact Hinv'|]. split; [done|]. right. left.
    split; [done|]. split; [done|]. split; [done|].
    destruct (spec_find_spec es seq_no Hok) as [[-> Hn]|(l1 & c & g & l2 & E & Hf & Hh & _)].
    - intros a. by apply gap_repr_nonnull with gl.
    - left. by rewrite Z.eqb_refl.
    - right. rewrite Hf, (eqb_false_of_ne c NULL) by (by eapply feed_inv_nonnull).
      split; [done|]. by exists l1, c, g, l2. }
  cbn [fs_gaplist fs_next_seq_no count_stat].
  destruct (feed_push_ok st gl es now seq_no Hi (conj Hs Hjump)) as (Hg & rc & node & gl' & Hp & Hrc0 & Hr' & Hok' & HM);
    [lia|]. rewrite Hgl, Hp. cbn [mbind option_bind].
  replace (rc <? 0) with false by lia.
  assert (Hend : forall st1, st1.(fs_gaplist) = Some gl' -> tables_ok st1 ->
    exists dup st' gl1 es', Some (1, set_next_seq_no seq_no st1) = Some (dup, st') /\
      feed_inv st' gl1 es' /\ gl1.(gl_max) = gl.(gl_max) /\
      dup_cases st gl es now seq_no dup st' es').
  { intros st1 H1 H2. do 4 eexists. split; [done|]. split.
    - constructor; [exact H1 | exact Hr' | done | lia | exact H2 | cbn; lia].
    - split; [done|]. right. right. split; [lia|]. split; [done|]. split; [done|]. eauto. }
  destruct (feed_alert_eq (hook_alert hooks) FH_ALERT_GAP rc (set_gaplist gl' (count_stat Gaps 1 st)))
    as (rc' & w & ->).
  destruct (0 <? rc').
  - destruct (feed_alert_eq (hook_alert hooks) FH_ALERT_LOSS rc' (count_stat LostMessages rc'
      (set_world w (set_gaplist gl' (count_stat Gaps 1 st))))) as (rc2 & w2 & ->).
    cbn [mbind option_bind snd]. by apply Hend.
  - cbn [mbind option_bind]. by apply Hend.
Qed.

Lemma itch_advance_next st gl es seq_no : feed_inv st gl es ->
  st.(fs_next_seq_no) < 4611686018427387904 ->
  exists st', itch_advance hooks 1 seq_no st = Some st' /\ feed_inv st' gl es /\
    st'.(fs_next_seq_no) = st.(fs_next_seq_no) + 1.
Proof.
  intros [Hgl Hr Hok Hmax Ht Hnext] Hlt. unfold itch_advance. cbn [Z.ltb Z.compare].
  eexists. split; [done|]. cbn. rewrite u64_small by lia. split; [|done].
  constructor; cbn; try done; try lia. 
Qed.

Lemma itch_advance_gap st gl es seq_no l1 c g l2 :
  feed_inv st gl es -> es = l1 ++ (c, g) :: l2 -> st.(fs_gapnode) = c ->
  exists b st' gl' es', es' = (spec_del (gl.(gl_max) <=? gl.(gl_count)) l1 c g l2 seq_no b).2 /\
    itch_advance hooks (-1) seq_no st = Some st' /\ feed_inv st' gl' es' /\
    gl'.(gl_max) = gl.(gl_max) /\ st'.(fs_next_seq_no) = st.(fs_next_seq_no).
Proof.
  intros Hi Ees Hc. pose proof (feed_inv_nonnull _ _ _ _ _ _ _ Hi Ees) as Hcn. subst es.
  pose proof Hi as [Hgl Hr Hok Hmax Ht Hnext].
  assert (Hg : gap_ok g) by (apply Forall_app in Hok as [_ [? _]%Forall_cons]; done).
  destruct (gap_del_spec gl l1 c g l2 seq_no Hr Hg) as (b & gl' & Hdel).
  pose proof (spec_del_ok (gl_max gl <=? gl_count gl) l1 c g l2 seq_no b Hok) as Hok'.
  exists b. destruct (spec_del _ _ _ _ _ _ _) as [[rc node] es']. cbn [snd] in *.
  destruct Hdel as (Hd & Hr' & HM & _).
  unfold itch_advance. cbn [Z.ltb Z.compare andb]. rewrite Hc, (eqb_false_of_ne c NULL) by done.
  cbn [negb]. rewrite Hgl. cbn [mbind option_bind]. rewrite Hd. cbn [mbind option_bind].
  set (st1 := set_gapnode node (set_gaplist gl' st)).
  assert (Hend : forall st2 : st_t, st2.(fs_gaplist) = Some gl' -> tables_ok st2 ->
    st2.(fs_next_seq_no) = st.(fs_next_seq_no) ->
    exists st' gl1 es1, es1 = es' /\ Some st2 = Some st' /\ feed_inv st' gl1 es1 /\
      gl1.(gl_max) = gl.(gl_max) /\ st'.(fs_next_seq_no) = st.(fs_next_seq_no)).
  { intros st2 H1 H2 H3. exists st2, gl', es'. split; [done|]. split; [done|].
    split; [|done]. constructor; [done | done | done | lia | done | lia]. }
  assert (Hst2 : exists st2 rc2, (if 0 <? rc
      then feed_alert (hook_alert hooks) FH_ALERT_LOSS rc
             (count_stat LostMessages rc (if 0 <=? rc then count_stat RecoveredMessages 1 st1 else st1))
      else (rc, if 0 <=? rc then count_stat RecoveredMessages 1 st1 else st1)) = (rc2, st2) /\
    st2.(fs_gaplist) = Some gl' /\ tables_ok st2 /\ st2.(fs_next_seq_no) = st.(fs_next_seq_no)).
  { destruct (0 <? rc).
    - destruct (feed_alert_eq (hook_alert hooks) FH_ALERT_LOSS rc (count_stat LostMessages rc
        (if 0 <=? rc then count_stat RecoveredMessages 1 st1 else st1))) as (rc2 & w & ->).
      do 2 eexists. split; [done|]. by destruct (0 <=? rc).
    - do 2 eexists. split; [done|]. by destruct (0 <=? rc). }
  destruct Hst2 as (st2 & rc2 & -> & H1 & H2 & H3).
  destruct (fs_gapnode st2 =? NULL); [|by apply Hend].
  rewrite H1. cbn [mbind option_bind]. destruct (gl_count gl' <=? 0); [|by apply Hend].
  destruct (feed_alert_eq (hook_alert hooks) FH_ALERT_NOGAP rc2 st2) as (rc3 & w & ->). by apply Hend.
Qed.

(** ** Which numbers are seen

    A number below the next expected one that is not missing has been
    processed, or was before the state's history began. *)
Definition seen (next : Z) (es : list (Z * gap)) (n : Z) : Prop :=
  n < next /\ ~ missing es.*2 n.

(** The gaps are exactly what is missing below the next number. *)
Definition gaps_exact (next : Z) (es : list (Z * gap)) : Prop :=
  gaps_disjoint es /\ forall n, missing es.*2 n -> n < next.

Lemma exact_advance next es : gaps_exact next es ->
  gaps_exact (next + 1) es /\ forall n, seen (next + 1) es n <-> seen next es n \/ n = next.
Proof.
  intros [Hd Hb]. split; [split; [done|]; intros n Hn; specialize (Hb n Hn); lia|].
  intros n. unfold seen. split.
  - intros [H1 H2]. destruct (decide (n = next)); [by right | left; split; [lia | done]].
  - intros [[H1 H2]| ->]; (split; [lia|]); [done|]. intros Hm. specialize (Hb _ Hm). lia.
Qed.

(** A new gap; a full list gives up its oldest one ([full]) for it. *)
Lemma exact_gap (full : bool) next es seq_no now node : gaps_exact next es -> next < seq_no ->
  let es' := (if full then tail es else es) ++ [(node, MkGap next (seq_no - next) now)] in
  gaps_exact seq_no es' /\ (forall n, seen next es n -> seen seq_no es' n) /\
  (full = false -> forall n, seen seq_no es' n -> seen next es n).
Proof.
  intros [Hd Hb] Hlt es'. set (es0 := if full then tail es else es).
  assert (H0 : gaps_disjoint es0 /\ forall n, missing es0.*2 n -> missing es.*2 n).
  { subst es0. destruct full; [|done]. destruct es as [|e es]; [done|]. split; [apply Hd|].
    intros n Hn. cbn. apply missing_cons. by right. }
  destruct H0 as [Hd0 H0].
  assert (Hm : forall n, missing es'.*2 n <-> missing es0.*2 n \/ next <= n < seq_no).
  { intros n. subst es'. fold es0. rewrite fmap_app, missing_app. cbn. rewrite missing_cons.
    pose proof (missing_nil n). unfold gap_has; cbn. intuition lia. }
  split; [split|split].
  - apply gaps_disjoint_app. split; [exact Hd0|]. split; [apply gaps_disjoint_one|].
    intros n H1%H0 [H2|H2]%missing_cons; [|by apply missing_nil in H2].
    specialize (Hb n H1). unfold gap_has in H2; cbn in H2. lia.
  - intros n Hn. apply Hm in Hn as [Hn%H0|Hn]; [specialize (Hb n Hn)|]; lia.
  - intros n [H1 H2]. split; [lia|]. rewrite Hm. intros [Hn%H0|Hn]; [done | lia].
  - intros Hf n. subst es0. rewrite Hf in Hm. unfold seen. rewrite Hm. intros [H1 H2].
    split; [|tauto]. destruct (decide (n < next)); [done|]. exfalso. apply H2. right. lia.
Qed.

(** Only the numbers of a gap count, not when it was seen. *)
Lemma missing_retime (l1 l2 : list (Z * gap)) (a : Z) g g' n : (forall n, gap_has g n <-> gap_has g' n) ->
  forall b, missing (l1 ++ (a, g) :: l2).*2 n -> missing (l1 ++ (b, g') :: l2).*2 n.
Proof. intros Hg b Hm. revert Hm. rewrite !fmap_app, !missing_app. cbn. rewrite !missing_cons, Hg. done. Qed.

(** A number inside a gap, when the list is full: the oldest gap's node is
    taken for the upper half, or the lower half is given up. *)
Lemma full_del_shrinks l1 c g l2 seq b parts : strictly_inside g seq ->
  parts = (l1 ++ (c, lower_half g seq) :: (b, upper_half g seq (gp_ts g)) :: l2) ->
  gaps_disjoint parts ->
  let es' := (spec_del true l1 c g l2 seq b).2 in
  gaps_disjoint es' /\ forall n, missing es'.*2 n -> missing parts.*2 n.
Proof.
  intros [Hi1 Hi2] -> Hd es'. subst es'. unfold spec_del. rewrite !eqb_false_of_ne by lia.
  replace ((gp_seq g <? seq) && (seq <? gp_seq g + gp_size g - 1)) with true by lia.
  destruct l1 as [|[h gh] l1]; cbn [snd]; cbn [app gaps_disjoint snd] in Hd; destruct Hd as [_ Hd].
  { split; [exact Hd|]. intros n Hn. cbn. apply missing_cons. by right. }
  pose proof (gaps_disjoint_refine (l1 ++ [(c, lower_half g seq)]) b (upper_half g seq (gp_ts g)) l2
    [(h, upper_half g seq (gp_ts gh))]) as Hr.
  rewrite <- !app_assoc in Hr. cbn [app] in Hr. split.
  - apply Hr; [done | apply gaps_disjoint_one |].
    intros n [Hn|Hn]%missing_cons; [done | by apply missing_nil in Hn].
  - intros n Hn. cbn. apply missing_cons. right.
    pose proof (missing_retime (l1 ++ [(c, lower_half g seq)]) l2 h (upper_half g seq (gp_ts gh))
      (upper_half g seq (gp_ts g)) n ltac:(done) b) as Hm.
    rewrite <- !app_assoc in Hm. by apply Hm.
Qed.

(** Removing a number: nothing that was not missing becomes missing, also
    when a full list has to give up a gap for it. *)
Lemma spec_del_shrinks full l1 c g l2 seq b :
  gap_ok g -> gap_has g seq -> gaps_disjoint (l1 ++ (c, g) :: l2) ->
  let es' := (spec_del full l1 c g l2 seq b).2 in
  gaps_disjoint es' /\ forall n, missing es'.*2 n -> missing (l1 ++ (c, g) :: l2).*2 n /\ n <> seq.
Proof.
  intros Hg Hh Hd es'.
  assert (Hother : forall e, e ∈ (l1 ++ l2).*2 -> ~ gap_has e seq)
    by (intros e He Hn; by eapply (gaps_disjoint_other _ _ _ _ _ Hd Hh); exists e).
  destruct (decide (full = true /\ (gp_seq g < seq /\ seq < gp_seq g + gp_size g - 1)))
    as [[-> Hin]|Hn].
  2: { assert (Hf : full = true -> ~ strictly_inside g seq) by tauto.
       split; [by apply spec_del_disjoint|]. intros n. by apply spec_del_missing. }
  pose proof (spec_del_disjoint false l1 c g l2 seq b Hg Hh Hd ltac:(done)) as Hs.
  pose proof (spec_del_missing false l1 c g l2 seq b Hg Hh Hother ltac:(done)) as Hm.
  unfold spec_del in Hs, Hm. rewrite !eqb_false_of_ne in Hs, Hm by lia.
  replace ((gp_seq g <? seq) && (seq <? gp_seq g + gp_size g - 1)) with true in Hs, Hm by lia.
  cbn [snd] in Hs, Hm.
  destruct (full_del_shrinks l1 c g l2 seq b _ Hin eq_refl Hs) as [H1 H2].
  split; [exact H1|]. intros n Hn. by apply Hm, H2.
Qed.

Lemma exact_fill (full : bool) next l1 c g l2 seq_no b :
  gaps_exact next (l1 ++ (c, g) :: l2) -> gap_ok g -> gap_has g seq_no -> seq_no < next ->
  let es' := (spec_del full l1 c g l2 seq_no b).2 in
  gaps_exact next es' /\
  (forall n, seen next (l1 ++ (c, g) :: l2) n \/ n = seq_no -> seen next es' n) /\
  (full = false -> forall n, seen next es' n -> seen next (l1 ++ (c, g) :: l2) n \/ n = seq_no).
Proof.
  intros [Hd Hb] Hg Hh Hlt es'.
  destruct (spec_del_shrinks full l1 c g l2 seq_no b Hg Hh Hd) as [Hd' Hm]. fold es' in Hd', Hm.
  split; [split; [done|]; by intros n [Hn _]%Hm; apply Hb|]. split.
  - intros n [[H1 H2]| ->]; (split; [lia|]); intros Hn%Hm; tauto.
  - intros Hf n [H1 H2]. subst es'. rewrite Hf in H2.
    assert (Hother : forall e, e ∈ (l1 ++ l2).*2 -> ~ gap_has e seq_no)
      by (intros e He Hn; by eapply (gaps_disjoint_other _ _ _ _ _ Hd Hh); exists e).
    rewrite spec_del_missing in H2 by done.
    destruct (decide (n = seq_no)); [by right|]. left. split; [done | tauto].
Qed.

Lemma length_spec_del l1 c g l2 seq_no b :
  (length (spec_del false l1 c g l2 seq_no b).2 <= S (length (l1 ++ (c, g) :: l2)))%nat.
Proof.
  unfold spec_del, keep_nonempty.
  repeat case_match; cbn; rewrite ?length_app; cbn; rewrite ?length_app; cbn; lia.
Qed.

(** The message is dispatched and its handler succeeds. *)
Definition itch_processed (now seq_no : Z) (buffer : list Z) (length : Z) (st : st_t) : bool :=
  match read_le buffer 0 2, fh_itch_is_duplicate hooks now seq_no st with
  | Some len, Some (dup, st) =>
      (2 <=? length) && (1 <=? ntoh16 len) && (ntoh16 len <=? length - 2) && negb (dup =? 0) &&
      match byte_at (drop 2 buffer) 0 with
      | Some ty =>
          match itch_dispatch cfg hooks ty (drop 2 buffer) (ntoh16 len) st with
          | Some (ok, _, _) => ok | None => false end
      | None => false
      end
  | _, _ => false
  end.

(** What one message does to the sequencing state; [room]: no gap has to be
    given up for it. *)
Definition exact_step (room : Prop) (next : Z) (es : list (Z * gap)) (next' : Z)
    (es' : list (Z * gap)) (processed : bool) (seq_no : Z) : Prop :=
  gaps_exact next' es' /\ (processed = true -> ~ seen next es seq_no) /\
  (forall n, seen next es n \/ (processed = true /\ n = seq_no) -> seen next' es' n) /\
  (room -> (length es' <= S (length es))%nat /\
    forall n, seen next' es' n -> seen next es n \/ (processed = true /\ n = seq_no)).

Lemma exact_step_none room next es seq_no :
  gaps_exact next es -> exact_step room next es next es false seq_no.
Proof.
  intros He. split; [done|]. split; [done|]. split; [intros n [?|[? _]]; done|].
  intros _. split; [lia | by left].
Qed.

(** After the duplicate check, in all three cases. *)
Lemma dup_cases_exact st gl es now seq_no dup st' es' :
  dup_cases st gl es now seq_no dup st' es' -> gaps_exact st.(fs_next_seq_no) es ->
  exact_step (Z.of_nat (length es) < gl.(gl_max)) st.(fs_next_seq_no) es st'.(fs_next_seq_no) es'
    false seq_no /\
  (dup = 1 -> st'.(fs_next_seq_no) = seq_no) /\ (dup <> 0 -> ~ seen st.(fs_next_seq_no) es seq_no) /\
  (dup = -1 -> es' = es).
Proof.
  intros [(-> & -> & -> & ->)|[(Hlt & -> & -> & Hd)|(Hlt & -> & -> & node & ->)]] He.
  - split; [by apply exact_step_none|]. split; [done|]. split; [|done]. unfold seen. lia.
  - split; [by apply exact_step_none|]. destruct Hd as [[-> _]|[-> (l1 & c & g & l2 & -> & _ & Hh)]].
    { split; [done|]. split; done. }
    split; [done|]. split; [|done]. intros _ [_ Hn]. apply Hn. rewrite fmap_app, missing_app. cbn.
    rewrite missing_cons. tauto.
  - destruct (exact_gap (Z.of_nat (length es) =? gl_max gl) _ _ seq_no now node He Hlt) as (H1 & H2 & H3).
    split; [|split; [done|split; [|done]]].
    + split; [done|]. split; [done|]. split; [intros n [Hn|[? _]]; [by apply H2 | done]|].
      intros Hroom. rewrite eqb_false_of_ne in * by lia.
      split; [rewrite length_app; cbn; lia|]. left. by apply H3.
    + intros _ [Hn _]. lia.
Qed.

Lemma ntoh16_range x : 0 <= ntoh16 x < 65536.
Proof.
  pose proof (be_val_range (le_bytes 2 x) (le_bytes_is_byte 2 x)) as H.
  by rewrite length_le_bytes in H.
Qed.

(** What a message may return, and where it leaves the line. *)
Definition msg_result (len seq_no used : Z) (st st' : st_t) : Prop :=
  (used = -1 \/ 2 < used <= len) /\
  st.(fs_next_seq_no) <= st'.(fs_next_seq_no) <= Z.max st.(fs_next_seq_no) (seq_no + 1) /\
  (0 <= used -> seq_no < st'.(fs_next_seq_no)).

(** The end of [fh_itch_parse_msg]: the send hook. *)
Lemma msg_send_ok (b : bool) data len seq_no (st st' : st_t) gl' es' :
  feed_inv st' gl' es' -> 2 < len -> 
  st.(fs_next_seq_no) <= st'.(fs_next_seq_no) <= Z.max st.(fs_next_seq_no) (seq_no + 1) ->
  seq_no < st'.(fs_next_seq_no) ->
  exists used st'', (if b then
      match hooks.(hook_msg_send) with
      | Some f =>
          let '(rc, w) := f data st'.(fs_world) in
          if negb (rc =? FH_OK) then Some (-1, set_world w st') else Some (len, set_world w st')
      | None => Some (len, st')
      end else Some (len, st')) = Some (used, st'') /\
    (used = -1 \/ used = len) /\ feed_inv st'' gl' es' /\
    st''.(fs_next_seq_no) = st'.(fs_next_seq_no).
Proof.
  intros Hi Hlen Hn Hs.
  assert (Hw : forall w, feed_inv (set_world w st') gl' es')
    by (intros w; eapply feed_inv_ext; [exact Hi | done | done | exact (ii_tables _ _ _ Hi)]).
  destruct b; [|eauto 8]. destruct (hook_msg_send hooks) as [f|]; [|eauto 8].
  destruct (f data (fs_world st')) as [rc w]. destruct (negb (rc =? FH_OK)); eauto 8.
Qed.

Lemma parse_msg_ok st gl es now seq_no buffer len :
  feed_inv st gl es -> seq_ok st seq_no -> len + 5 <= Z.of_nat (length buffer) ->
  exists used st' gl' es', fh_itch_parse_msg cfg hooks now seq_no buffer len st = Some (used, st') /\
    feed_inv st' gl' es' /\ gl'.(gl_max) = gl.(gl_max) /\ msg_result len seq_no used st st' /\
    (gaps_exact st.(fs_next_seq_no) es ->
     exact_step (Z.of_nat (length es) < gl.(gl_max)) st.(fs_next_seq_no) es st'.(fs_next_seq_no) es'
       (itch_processed now seq_no buffer len st) seq_no).
Proof.
  intros Hi Hs Hlen. pose proof Hs as [Hs1 Hs2]. unfold fh_itch_parse_msg, itch_processed.
  assert (Herr : forall p, p = false ->
    exists used st' gl' es', Some (-1, count_stat MessageErrors 1 st) = Some (used, st') /\
    feed_inv st' gl' es' /\ gl'.(gl_max) = gl.(gl_max) /\ msg_result len seq_no used st st' /\
    (gaps_exact st.(fs_next_seq_no) es ->
     exact_step (Z.of_nat (length es) < gl.(gl_max)) st.(fs_next_seq_no) es st'.(fs_next_seq_no) es'
       p seq_no)).
  { intros p ->. exists (-1), (count_stat MessageErrors 1 st), gl, es. split; [done|].
    split; [eapply feed_inv_ext; [exact Hi | done | done | exact (ii_tables _ _ _ Hi)]|].
    split; [done|]. split; [split; [by left|]; split; cbn; lia|].
    intros He. by apply exact_step_none. }
  destruct (is_duplicate_ok st gl es now seq_no Hi Hs) as (dup & st1 & gl1 & es1 & Hdup & Hi1 & HM1 & Hc).
  rewrite Hdup.
  destruct (len <? 2) eqn:E1; bool_to_prop.
  { apply Herr. replace (2 <=? len) with false by lia. by destruct (read_le buffer 0 2). }
  unfold read_le. destruct (read_bytes_some buffer 0 2) as [hd Hhd]; [lia | lia|].
  rewrite Hhd. cbn [fmap option_fmap option_map mbind option_bind].
  set (ml := ntoh16 (le_val hd)). pose proof (ntoh16_range (le_val hd)) as Hml. fold ml in Hml.
  destruct (len - 2 <? ml) eqn:E2; bool_to_prop.
  { apply Herr. replace (ml <=? len - 2) with false by lia. by rewrite andb_false_r. }
  destruct (ml <? 1) eqn:E3; bool_to_prop.
  { apply Herr. replace (1 <=? ml) with false by lia. by rewrite andb_false_r. }
  replace (2 <=? len) with true by lia. replace (1 <=? ml) with true by lia.
  replace (ml <=? len - 2) with true by lia. cbn [andb].
  assert (Hnext : st.(fs_next_seq_no) <= st1.(fs_next_seq_no) <= Z.max st.(fs_next_seq_no) (seq_no + 1)).
  { destruct Hc as [(? & ? & ? & ?)|[(? & ? & ? & ?)|(? & ? & ? & ?)]]; lia. }
  destruct (dup =? 0) eqn:E4; bool_to_prop; cbn [negb andb].
  { (* a duplicate *)
    exists (ml + 2), (count_stat DuplicatePackets 1 st1), gl1, es1. split; [done|].
    split; [eapply feed_inv_ext; [exact Hi1 | done | done | exact (ii_tables _ _ _ Hi1)]|].
    split; [done|]. split.
    - split; [right; lia|]. split; [done|]. intros _. cbn.
      destruct Hc as [(? & ? & ? & ?)|[(? & ? & ? & ?)|(? & ? & ? & ?)]]; lia.
    - intros He. by destruct (dup_cases_exact _ _ _ _ _ _ _ _ Hc He). }
  assert (Hb : 6 <= Z.of_nat (length (drop 2 buffer)) /\ ml <= Z.of_nat (length (drop 2 buffer)))
    by (rewrite length_drop; lia).
  destruct (byte_at_some (drop 2 buffer) 0) as [ty ->]; [lia|]. cbn [mbind option_bind].
  destruct (itch_dispatch_ok ty (drop 2 buffer) ml st1 (ii_tables _ _ _ Hi1) (proj2 Hb) (proj1 Hb))
    as (ok & data & st2 & -> & Ht2 & Hss & Hn2 & Hgl2 & Hgn2 & _). cbn [mbind option_bind].
  assert (Hi2 : feed_inv st2 gl1 es1) by (eapply feed_inv_ext; done).
  destruct ok; cbn [negb].
  2: { exists (-1), st2, gl1, es1. split; [done|]. split; [done|]. split; [done|].
       split; [split; [by left|]; split; [lia|lia]|].
       intros He. rewrite Hn2. by destruct (dup_cases_exact _ _ _ _ _ _ _ _ Hc He). }
  (* processed: advance *)
  assert (Hadv : exists st3 gl3 es3, itch_advance hooks dup seq_no st2 = Some st3 /\
    feed_inv st3 gl3 es3 /\ gl3.(gl_max) = gl.(gl_max) /\
    st.(fs_next_seq_no) <= st3.(fs_next_seq_no) <= Z.max st.(fs_next_seq_no) (seq_no + 1) /\
    seq_no < st3.(fs_next_seq_no) /\
    (gaps_exact st.(fs_next_seq_no) es ->
     exact_step (Z.of_nat (length es) < gl.(gl_max)) st.(fs_next_seq_no) es st3.(fs_next_seq_no) es3
       true seq_no)).
  { assert (Hd : dup = 1 /\ st1.(fs_next_seq_no) = seq_no \/
      dup = -1 /\ seq_no < st.(fs_next_seq_no) /\ st1.(fs_next_seq_no) = st.(fs_next_seq_no) /\
      es1 = es /\ exists l1 c g l2, es = l1 ++ (c, g) :: l2 /\ st1.(fs_gapnode) = c /\ gap_has g seq_no)
      by (destruct Hc as [(?&?&?&?)|[(?&?&?&[[??]|[??]])|(?&?&?&?)]]; [left; lia | lia | right; done | left; lia]).
    destruct Hd as [[-> Hseq]|(-> & Hlt & Hn1 & -> & l1 & c & g & l2 & -> & Hgn & Hh)].
    - destruct (itch_advance_next st2 gl1 es1 seq_no Hi2 ltac:(lia)) as (st3 & -> & Hi3 & Hn3).
      exists st3, gl1, es1. split; [done|]. split; [done|]. split; [done|].
      split; [lia|]. split; [lia|]. intros He.
      destruct (dup_cases_exact _ _ _ _ _ _ _ _ Hc He) as ((He1 & _ & Hd1 & Hr1) & _ & Hnd & _).
      destruct (exact_advance _ _ He1) as [He3 Hd3]. rewrite Hn3, Hn2, Hseq in *.
      split; [done|]. split; [intros _; by apply Hnd|]. split.
      + intros n Hn. apply Hd3. destruct Hn as [Hn|[_ Hn]]; [left; apply Hd1; by left | by right].
      + intros Hroom. destruct (Hr1 Hroom) as [Hl1 Hr]. split; [done|]. intros n [Hn| ->]%Hd3; [|by right].
        apply Hr in Hn as [?|[? _]]; [by left | done].
    - rewrite <- Hgn2 in Hgn.
      destruct (itch_advance_gap st2 gl1 _ seq_no l1 c g l2 Hi2 eq_refl Hgn)
        as (b & st3 & gl3 & es3 & Ees & -> & Hi3 & HM3 & Hn3).
      exists st3, gl3, es3. split; [done|]. split; [done|]. split; [congruence|].
      split; [lia|]. split; [lia|]. intros He.
      assert (Hg : gap_ok g).
      { pose proof (ii_ok _ _ _ Hi1) as Hok. apply Forall_app in Hok as [_ [? _]%Forall_cons]. done. }
      destruct (exact_fill (gl_max gl1 <=? gl_count gl1) _ _ _ _ _ _ b He Hg Hh Hlt) as (He3 & Hd3 & Hr3).
      rewrite Hn3, Hn2, Hn1. subst es3. split; [done|]. split; [|split].
      + intros _ [_ Hn]. apply Hn. rewrite fmap_app, missing_app. cbn. rewrite missing_cons. tauto.
      + intros n [Hn|[_ Hn]]; apply Hd3; [by left | by right].
      + intros Hroom. replace (gl_max gl1 <=? gl_count gl1) with false in *.
        2: { rewrite (gr_count _ _ (ii_repr _ _ _ Hi1)). lia. }
        split; [apply length_spec_del|]. intros n Hn. apply Hr3 in Hn as [?| ->]; [by left | by right | done]. }
  destruct Hadv as (st3 & gl3 & es3 & -> & Hi3 & HM3 & Hn3 & Hs3 & Hex). cbn [mbind option_bind].
  destruct (msg_send_ok (negb (ty =? MSG_T) && negb (ty =? MSG_M)) data (ml + 2) seq_no st st3 gl3 es3
    Hi3 ltac:(lia) Hn3 Hs3) as (used & st4 & -> & Hused & Hi4 & Hn4).
  exists used, st4, gl3, es3. split; [done|]. split; [done|]. split; [done|]. split.
  - split; [destruct Hused; [by left | right; lia]|]. rewrite Hn4. split; [done|]. lia.
  - intros He. rewrite Hn4. by apply Hex.
Qed.

(** ** Packets *)

Lemma itch_msgs_ok n clock seq_no : forall i packet len st gl es,
  feed_inv st gl es -> 0 <= seq_no + i -> seq_no + i + Z.of_nat n <= 4611686018427387904 ->
  seq_no + i - st.(fs_next_seq_no) < 2147483648 -> len + 5 <= Z.of_nat (length packet) ->
  exists rc st' gl' es', itch_msgs cfg hooks n clock seq_no i packet len st = Some (rc, st') /\
    feed_inv st' gl' es' /\ gl'.(gl_max) = gl.(gl_max).
Proof.
  induction n as [|n IH]; intros i packet len st gl es Hi H0 Hn Hj Hl; cbn [itch_msgs].
  { exists FH_OK, st, gl, es. done. }
  rewrite u64_small by lia.
  assert (Hs : seq_ok st (seq_no + i)) by (split; lia).
  destruct (parse_msg_ok st gl es (clock i) (seq_no + i) packet len Hi Hs Hl)
    as (used & st1 & gl1 & es1 & -> & Hi1 & HM1 & (Hu & Hn1 & Hn2) & _).
  cbn [mbind option_bind].
  destruct (used <? 0) eqn:E; bool_to_prop; [exists FH_ERROR, st1, gl1, es1; done|].
  assert (Hi1' : feed_inv (count_stat Messages 1 st1) gl1 es1)
    by (eapply feed_inv_ext; [exact Hi1 | done | done | exact (ii_tables _ _ _ Hi1)]).
  destruct (IH (i + 1) (drop (Z.to_nat used) packet) (len - used) _ _ _ Hi1')
    as (rc & st' & gl' & es' & H1 & H2 & H3); cbn; try lia; [rewrite length_drop; lia|].
  exists rc, st', gl', es'. split; [exact H1|]. split; [done | congruence].
Qed.

Lemma itch_resume_ok st gl es : feed_inv st gl es ->
  exists st', itch_resume st = Some st' /\ feed_inv st' gl es /\
    st'.(fs_next_seq_no) = st.(fs_next_seq_no).
Proof.
  intros Hi. unfold itch_resume, itch_gap_count.
  destruct (negb (fs_inorder st)); [|by exists st].
  rewrite (ii_gaplist _ _ _ Hi). cbn [mbind option_bind].
  destruct (gl_count gl =? 0); [|by exists st]. eexists. split; [done|]. split; [|done].
  eapply feed_inv_same; [exact Hi | done..].
Qed.

Lemma itch_pkt_begin_ok st gl es now len : feed_inv st gl es ->
  exists st' gl' es', itch_pkt_begin hooks now len st = Some st' /\ feed_inv st' gl' es' /\
    gl'.(gl_max) = gl.(gl_max) /\ st'.(fs_next_seq_no) = st.(fs_next_seq_no).
Proof.
  intros Hi. unfold itch_pkt_begin.
  destruct (feed_flush_ok (hook_alert hooks) st gl es now Hi)
    as (st1 & gl1 & es1 & -> & Hi1 & HM & Hn1 & _).
  cbn [mbind option_bind]. destruct (itch_resume_ok _ _ _ Hi1) as (st2 & -> & Hi2 & Hn2).
  cbn [mbind option_bind]. do 3 eexists. split; [done|].
  split; [eapply feed_inv_same; [exact Hi2 | done..]|]. split; [done|]. cbn. congruence.
Qed.

Lemma itch_pkt_end_ok st gl es : feed_inv st gl es ->
  exists st', itch_pkt_end st = Some (FH_OK, st') /\ feed_inv st' gl es.
Proof.
  intros Hi. unfold itch_pkt_end, itch_gap_count. rewrite (ii_gaplist _ _ _ Hi).
  cbn [mbind option_bind]. eexists. split; [done|].
  destruct (fs_inorder st); [destruct (0 <? _)|destruct (_ =? 0)]; try done;
    (eapply feed_inv_same; [exact Hi | done..]).
Qed.

(** The sequence number in a packet's header. *)
Definition pkt_seq_no (packet : list Z) : Z := be_val (take 8 (drop 10 packet)).

Lemma moldudp64_extract_ok packet : Forall is_byte packet -> 20 <= Z.of_nat (length packet) ->
  exists h, fh_itch_moldudp64_extract packet = Some h /\ h.(md_seq_no) = pkt_seq_no packet /\
    0 <= pkt_seq_no packet /\ 0 <= h.(md_msg_count) < 65536.
Proof.
  intros Hb Hl. unfold fh_itch_moldudp64_extract, read_le.
  destruct (read_bytes_some packet 0 10) as [s ->]; [lia | lia|].
  destruct (read_bytes_some packet 10 8) as [q Hq]; [lia | lia|].
  destruct (read_bytes_some packet 18 2) as [c ->]; [lia | lia|].
  rewrite Hq. cbn [fmap option_fmap option_map mbind option_bind].
  pose proof (read_bytes_is_byte _ _ _ _ Hb Hq) as Hqb.
  apply read_bytes_spec in Hq as (Hql & Hqe & _).
  eexists. split; [done|]. cbn. unfold pkt_seq_no.
  change (Z.to_nat 10) with 10%nat in Hqe. rewrite <- Hqe.
  split; [by apply ntoh64_val|]. split; [by apply be_val_range | apply ntoh16_range].
Qed.

(** ** Runs of messages *)

(** One call of [fh_itch_parse_msg]: the clock, the sequence number, the
    buffer and its length. *)
Definition itch_input : Type := Z * Z * list Z * Z.

(** A sequence of messages, errors ignored, with the numbers processed. *)
Fixpoint itch_feed (msgs : list itch_input) (st : st_t) : option (list Z * st_t) :=
  match msgs with
  | [] => Some ([], st)
  | (now, seq_no, buffer, len) :: msgs =>
      '(_, st1) ← fh_itch_parse_msg cfg hooks now seq_no buffer len st;
      '(log, st2) ← itch_feed msgs st1;
      Some ((if itch_processed now seq_no buffer len st then [seq_no] else []) ++ log, st2)
  end.

Definition input_ok (n0 : Z) (m : itch_input) : Prop :=
  let '(_, seq_no, buffer, len) := m in
  0 <= seq_no < 4611686018427387904 /\ seq_no - n0 < 2147483648 /\
  len + 5 <= Z.of_nat (length buffer).

Lemma itch_feed_exact n0 msgs : forall st gl es,
  feed_inv st gl es -> gaps_exact st.(fs_next_seq_no) es -> n0 <= st.(fs_next_seq_no) ->
  Forall (input_ok n0) msgs ->
  exists log st' gl' es', itch_feed msgs st = Some (log, st') /\ feed_inv st' gl' es' /\
    NoDup log /\ (forall n, n ∈ log -> ~ seen st.(fs_next_seq_no) es n) /\
    (forall n, seen st.(fs_next_seq_no) es n \/ n ∈ log -> seen st'.(fs_next_seq_no) es' n) /\
    (Z.of_nat (length es + length msgs) <= gl.(gl_max) ->
     forall n, seen st'.(fs_next_seq_no) es' n -> seen st.(fs_next_seq_no) es n \/ n ∈ log).
Proof.
  induction msgs as [|[[[now seq_no] buffer] len] msgs IH]; intros st gl es Hi He Hn Hm.
  { exists [], st, gl, es. split; [done|]. split; [done|]. split; [constructor|].
    split; [set_solver|]. split; [set_solver|]. by left. }
  apply Forall_cons in Hm as [(Hm1 & Hm2 & Hm3) Hm].
  assert (Hs : seq_ok st seq_no) by (split; lia).
  destruct (parse_msg_ok st gl es now seq_no buffer len Hi Hs Hm3)
    as (used & st1 & gl1 & es1 & E & Hi1 & HM1 & (_ & Hn1 & _) & Hex).
  destruct (Hex He) as (He1 & Hp & Hseen & Hroom).
  destruct (IH st1 gl1 es1 Hi1 He1 ltac:(lia) Hm)
    as (log & st' & gl' & es' & E' & Hi' & Hnd & Hlog & Hseen' & Hroom').
  cbn [itch_feed]. rewrite E. cbn [mbind option_bind]. rewrite E'. cbn [mbind option_bind].
  do 4 eexists. split; [done|]. split; [exact Hi'|]. cbn [length].
  assert (Hback : Z.of_nat (length es + S (length msgs)) <= gl_max gl ->
    forall n, seen (fs_next_seq_no st') es' n -> seen (fs_next_seq_no st) es n \/
      (itch_processed now seq_no buffer len st = true /\ n = seq_no) \/ n ∈ log).
  { intros Hl n Hn'. destruct Hroom as [Hl1 Hr]; [lia|].
    apply Hroom' in Hn' as [Hn'|?]; [apply Hr in Hn' as [?|?] | | lia]; tauto. }
  destruct (itch_processed now seq_no buffer len st); cbn [app].
  - split; [constructor; [|done]|split; [|split]].
    + intros Hin. apply (Hlog _ Hin), Hseen. by right.
    + intros n [->|Hin]%elem_of_cons; [by apply Hp|].
      intros Hs'. apply (Hlog n Hin), Hseen. by left.
    + intros n. rewrite elem_of_cons. intros Hn'. apply Hseen'.
      destruct Hn' as [?|[->|?]]; [left; apply Hseen; by left | left; apply Hseen; by right | by right].
    + intros Hl n Hn'. rewrite elem_of_cons. destruct (Hback Hl n Hn') as [?|[[_ ->]|?]]; tauto.
  - split; [done|]. split; [|split].
    + intros n Hin Hs'. apply (Hlog n Hin), Hseen. by left.
    + intros n Hn'. apply Hseen'. destruct Hn' as [?|?]; [left; apply Hseen; by left | by right].
    + intros Hl n Hn'. destruct (Hback Hl n Hn') as [?|[[? _]|?]]; [by left | done | by right].
Qed.

End props.
