(* ===== verification/ItchWire.v ===== *)
(** * The ITCH wire format

    The messages as they are on the wire, and what the handlers of
    [fh_itch_parse.c] make of them. *)
From S2P Require Import Prelude Bytes Mpool GapFill HTable Lookup Conn Feed FeedProps Decimal ItchMsg ItchParse ItchProps.

(** ** A message on the wire

    Numbers are decimal fields padded with spaces on the left, prices have
    four decimals, everything else is bytes. *)

Inductive wire_msg :=
  | WSystem (event_code : Z)
  | WStockDir (stock : list Z) (market_cat fin_stat_ind round_lot_size round_lots_only : Z)
  | WStockTradeAct (stock : list Z) (trading_state : Z) (reason : list Z)
  | WMarketPartPos (mpid stock : list Z) (pri_mkt_mkr mkt_mkr_mode mkt_part_state : Z)
  | WOrderAdd (order_no buy_sell_ind shares : Z) (stock : list Z) (price : Z)
  | WOrderAddAttr (order_no buy_sell_ind shares : Z) (stock : list Z) (price : Z)
      (attribution : list Z)
  | WOrderExe (order_no shares match_no : Z)
  | WOrderExePrice (order_no shares match_no printable exe_price : Z)
  | WOrderCancel (order_no shares : Z)
  | WOrderDelete (order_no : Z)
  | WOrderReplace (old_order_no new_order_no shares price : Z)
  | WTrade (order_no buy_sell_ind shares : Z) (stock : list Z) (price match_no : Z)
  | WTradeCross (shares : Z) (stock : list Z) (price match_no type : Z)
  | WTradeBroken (match_no : Z)
  | WNoii (paired_shares imbalance_shares imbalance_dir : Z) (stock : list Z)
      (far_price near_price ref_price cross_type price_var_ind : Z).

Inductive on_wire : wire_msg -> list Z -> Prop :=
  | wire_system e : on_wire (WSystem e) [83; e]
  | wire_stock_dir s c f n r l : length s = 6%nat -> is_field 6 l n ->
      on_wire (WStockDir s c f n r) (82 :: s ++ c :: f :: l ++ [r])
  | wire_stock_trade_act s t x r : length s = 6%nat -> length r = 4%nat ->
      on_wire (WStockTradeAct s t r) (72 :: s ++ t :: x :: r)
  | wire_market_part_pos p s a b c : length p = 4%nat -> length s = 6%nat ->
      on_wire (WMarketPartPos p s a b c) (76 :: p ++ s ++ [a; b; c])
  | wire_order_add no bs n s p l1 l2 l3 : is_field 12 l1 no -> is_field 6 l2 n ->
      length s = 6%nat -> is_price l3 p ->
      on_wire (WOrderAdd no bs n s p) (65 :: l1 ++ bs :: l2 ++ s ++ l3)
  | wire_order_add_attr no bs n s p a l1 l2 l3 : is_field 12 l1 no -> is_field 6 l2 n ->
      length s = 6%nat -> is_price l3 p -> length a = 4%nat ->
      on_wire (WOrderAddAttr no bs n s p a) (70 :: l1 ++ bs :: l2 ++ s ++ l3 ++ a)
  | wire_order_exe no n mn l1 l2 l3 : is_field 12 l1 no -> is_field 6 l2 n -> is_field 12 l3 mn ->
      on_wire (WOrderExe no n mn) (69 :: l1 ++ l2 ++ l3)
  | wire_order_exe_price no n mn pr p l1 l2 l3 l4 : is_field 12 l1 no -> is_field 6 l2 n ->
      is_field 12 l3 mn -> is_price l4 p ->
      on_wire (WOrderExePrice no n mn pr p) (67 :: l1 ++ l2 ++ l3 ++ pr :: l4)
  | wire_order_cancel no n l1 l2 : is_field 12 l1 no -> is_field 6 l2 n ->
      on_wire (WOrderCancel no n) (88 :: l1 ++ l2)
  | wire_order_delete no l1 : is_field 12 l1 no -> on_wire (WOrderDelete no) (68 :: l1)
  | wire_order_replace old new n p l1 l2 l3 l4 : is_field 12 l1 old -> is_field 12 l2 new ->
      is_field 6 l3 n -> is_price l4 p ->
      on_wire (WOrderReplace old new n p) (85 :: l1 ++ l2 ++ l3 ++ l4)
  | wire_trade no bs n s p mn l1 l2 l3 l4 : is_field 12 l1 no -> is_field 6 l2 n ->
      length s = 6%nat -> is_price l3 p -> is_field 12 l4 mn ->
      on_wire (WTrade no bs n s p mn) (80 :: l1 ++ bs :: l2 ++ s ++ l3 ++ l4)
  | wire_trade_cross n s p mn t l1 l2 l3 : is_field 9 l1 n -> length s = 6%nat -> is_price l2 p ->
      is_field 12 l3 mn -> on_wire (WTradeCross n s p mn t) (81 :: l1 ++ s ++ l2 ++ l3 ++ [t])
  | wire_trade_broken mn l1 : is_field 12 l1 mn -> on_wire (WTradeBroken mn) (66 :: l1)
  | wire_noii n i d s p1 p2 p3 c v l1 l2 l3 l4 l5 : is_field 9 l1 n -> is_field 9 l2 i ->
      length s = 6%nat -> is_price l3 p1 -> is_price l4 p2 -> is_price l5 p3 ->
      on_wire (WNoii n i d s p1 p2 p3 c v) (73 :: l1 ++ l2 ++ d :: s ++ l3 ++ l4 ++ l5 ++ [c; v]).

(** What a handler delivers for a message; [sym] and [ord] are its symbol and
    order table entries. *)
Definition delivered (m : wire_msg) (sym ord : Z) : itch_kind * itch_body :=
  match m with
  | WSystem e => (KSystem, MSystem e)
  | WStockDir s c f n r => (KStockDir, MStockDir s c f r n sym)
  | WStockTradeAct s t r => (KStockTradeAct, MStockTradeAct s t r sym)
  | WMarketPartPos p s a b c => (KMarketPartPos, MMarketPartPos p s a b c sym)
  | WOrderAdd no bs n s p => (KOrderAdd, MOrderAdd no (price_parsed p) n bs s sym ord)
  | WOrderAddAttr no bs n s p a =>
      (KOrderAddAttr, MOrderAddAttr no (price_parsed p) n bs s a sym ord)
  | WOrderExe no n mn => (KOrderExe, MOrderExe no mn n ord)
  | WOrderExePrice no n mn pr p =>
      (KOrderExePrice, MOrderExePrice no mn (price_parsed p) n pr ord)
  | WOrderCancel no n => (KOrderCancel, MOrderCancel no n ord)
  | WOrderDelete no => (KOrderDelete, MOrderDelete no ord)
  | WOrderReplace old new n p => (KOrderReplace, MOrderReplace old new (price_parsed p) n ord)
  | WTrade no bs n s p mn => (KTrade, MTrade no (price_parsed p) mn n bs s sym)
  | WTradeCross n s p mn t => (KTradeCross, MTradeCross (price_parsed p) mn n s t sym)
  | WTradeBroken mn => (KTradeBroken, MTradeBroken mn)
  | WNoii n i d s p1 p2 p3 c v =>
      (KNoii, MNoii (price_parsed p1) (price_parsed p2) (price_parsed p3) n i d s c v sym)
  end.

(** ** Reading a field *)

Lemma atoi_part buf off w l z : is_field w l z -> (w <= 19)%nat -> part buf off l ->
  fh_itch_parse_atoi buf off w = Some z.
Proof. intros Hf Hw (pre & post & -> & ->). by apply parse_atoi_field. Qed.

Lemma price_part buf off l z : is_price l z -> part buf off l ->
  fh_itch_parse_price buf off = Some (price_parsed z).
Proof. intros Hp (pre & post & -> & ->). by apply parse_price_exact. Qed.

Lemma is_field_range w l z : is_field w l z -> 0 <= z < 10 ^ Z.of_nat w.
Proof.
  intros (n & Hn & _ & H0 & Hz). split; [done|]. eapply Z.lt_le_trans; [exact Hz|].
  apply Z.pow_le_mono_r; lia.
Qed.

(** ** The order book *)

Definition book_reduce (no n : Z) (b : book) : book :=
  match b !! no with
  | Some o =>
      let left := u32 (o.(o_shares) - n) in
      if left =? 0 then delete no b
      else <[no := MkOrder o.(o_price) left o.(o_buy_sell_ind) o.(o_stock)]> b
  | None => b
  end.

(** What a message does to a book of at most [cap] orders. *)
Definition book_msg (cap : Z) (m : wire_msg) (b : book) : book :=
  match m with
  | WOrderAdd no bs n s p | WOrderAddAttr no bs n s p _ =>
      book_add cap no (MkOrder (price_parsed p) n bs s) b
  | WOrderExe no n _ | WOrderExePrice no n _ _ _ | WOrderCancel no n => book_reduce no n b
  | WOrderDelete no => delete no b
  | WOrderReplace old new n p =>
      let o := default no_order (b !! old) in
      book_add cap new (MkOrder (price_parsed p) n o.(o_buy_sell_ind) o.(o_stock)) (delete old b)
  | _ => b
  end.

Section wire.
Context {W : Type} (cfg : feed_config) (hooks : itch_hooks W).
Notation st_t := (feed_state W).
Notation book_inv := (book_inv (K:=Z) cfg).
Notation book_step := (book_step (K:=Z) cfg).
Implicit Types (st : st_t).

Lemma add_order_book no price shares bs stock sym st cap b :
  book_inv st cap b -> order_no_ok no ->
  exists p st', itch_add_order cfg no price shares bs stock sym st = Some (p, st') /\
    book_step st st' cap (book_add cap no (MkOrder price shares bs stock) b) /\ entry_for st' p no.
Proof.
  intros Hb Hno. unfold itch_add_order. destruct (order_table_enabled cfg) eqn:En.
  - destruct (table_book_add _ _ _ _ (MkOrder price shares bs stock) sym price shares
      (order_no_key 0) (proj2 Hb En) Hno) as (rc & p & t' & E & Ht & He); [done..|].
    cbn [o_buy_sell_ind o_stock ref_no ref_str number_ref] in E. rewrite E. cbn [mbind option_bind].
    do 2 eexists. split; [done|]. split; [by eapply book_step_table | exact He].
  - exists NULL, st. split; [done|]. split; [|by left]. apply book_step_refl.
    split; [exact (proj1 Hb) | by rewrite En].
Qed.

Lemma delete_order_book no st cap b :
  book_inv st cap b -> order_no_ok no ->
  exists p st', itch_delete_order cfg no st = Some (p, st') /\
    book_step st st' cap (delete no b) /\ entry_for st' p no.
Proof.
  intros Hb Hno. unfold itch_delete_order. change order_no_key with (ref_key (K:=Z)).
  destruct (order_table_enabled cfg) eqn:En.
  - destruct (table_book_del _ _ _ _ (proj2 Hb En) Hno) as (rc & p & t' & -> & Ht & He).
    cbn [mbind option_bind]. do 2 eexists. split; [done|]. split; [by eapply book_step_table|].
    destruct (b !! no); [|by left]. right. destruct He as [_ [sym He]]. by do 2 eexists.
  - exists NULL, st. split; [done|]. split; [|by left]. apply book_step_refl.
    split; [exact (proj1 Hb) | by rewrite En].
Qed.

Lemma reduce_order_book no n st cap b :
  book_inv st cap b -> order_no_ok no ->
  exists p st', itch_reduce_order cfg no n st = Some (p, st') /\
    book_step st st' cap (book_reduce no n b) /\ entry_for st' p no.
Proof.
  intros Hb Hno. unfold itch_reduce_order. change order_no_key with (ref_key (K:=Z)).
  destruct (order_table_enabled cfg) eqn:En.
  2: { exists NULL, st. split; [done|]. split; [|by left]. apply book_step_refl.
       split; [exact (proj1 Hb) | by rewrite En]. }
  pose proof (table_book_get _ _ _ no (proj2 Hb En) Hno) as Hg. unfold book_reduce.
  destruct (b !! no) as [o|] eqn:Eb.
  2: { rewrite Hg. exists NULL, st. split; [done|]. split; [by apply book_step_refl | by left]. }
  destruct Hg as (a & sym & -> & He & Hw). cbn [mbind option_bind].
  change (FH_OK =? FH_OK) with true. cbn [negb]. rewrite He. cbn [mbind option_bind]. cbv zeta.
  change (ord_shares (order_entry no sym o)) with (o_shares o).
  set (left := u32 (o_shares o - n)). set (o' := MkOrder (o_price o) left (o_buy_sell_ind o) (o_stock o)).
  change (ord_set_shares left (order_entry no sym o)) with (order_entry no sym o').
  assert (Hleft : 0 <= left) by (apply Z.mod_pos_bound; lia).
  destruct (left <=? 0) eqn:El; bool_to_prop.
  - destruct (table_book_del _ _ _ _ (Hw o') Hno) as (rc & p & t' & -> & Ht & Hp).
    rewrite delete_insert_eq in Ht. cbn [mbind option_bind].
    replace (left =? 0) with true by (symmetry; apply Z.eqb_eq; lia).
    do 2 eexists. split; [done|]. split; [by eapply book_step_table|].
    rewrite lookup_insert_eq in Hp. right. destruct Hp as [_ [s Hp]]. by do 2 eexists.
  - rewrite (eqb_false_of_ne left 0) by lia. do 2 eexists. split; [done|]. split.
    + by eapply book_step_table.
    + right. exists sym, o'. apply lookup_insert_eq.
Qed.

Lemma replace_order_book old new price n st cap b :
  book_inv st cap b -> order_no_ok old -> order_no_ok new ->
  exists p st', itch_replace_order cfg old new price n st = Some (p, st') /\
    (let o := default no_order (b !! old) in
     book_step st st' cap
       (book_add cap new (MkOrder price n o.(o_buy_sell_ind) o.(o_stock)) (delete old b))) /\
    entry_for st' p new.
Proof.
  intros Hb Hold Hnew. unfold itch_replace_order. change order_no_key with (ref_key (K:=Z)).
  destruct (order_table_enabled cfg) eqn:En.
  2: { exists NULL, st. split; [done|]. split; [|by left]. apply book_step_refl.
       split; [exact (proj1 Hb) | by rewrite En]. }
  destruct (table_book_del _ _ _ _ (proj2 Hb En) Hold) as (rc & p & t & -> & Ht & Hp).
  cbn [mbind option_bind]. cbv zeta.
  set (o := default no_order (b !! old)).
  assert (Hne : exists k sym, ok_padding k = replicate 4 0 /\
    (if negb (p =? NULL) then tbl_entries t !! p else Some itch_zero_order) =
      Some (MkOrd k (ord_order_no (order_entry old sym o)) (replicate 20 0) o.(o_price)
        o.(o_shares) o.(o_buy_sell_ind) o.(o_stock) sym NULL) \/
    b !! old = None /\ p = NULL).
  { subst o. destruct (b !! old) as [o|].
    - destruct Hp as [Hp [sym He]]. rewrite (eqb_false_of_ne p NULL Hp). cbn [negb default].
      exists (order_no_key old), sym. left. by split.
    - exists (order_no_key 0), NULL. by right. }
  destruct Hne as (k & sym & [[Hk ->]|[Hnone ->]]).
  - cbn [mbind option_bind ord_key ord_order_no_str ord_buy_sell_ind ord_stock ord_sym_entry ord_context].
    destruct (table_book_add _ _ _ _ (MkOrder price n (o_buy_sell_ind o) (o_stock o)) sym price n
      k Ht Hnew) as (rc2 & p2 & t2 & E & Ht2 & He); [done..|].
    cbn [o_buy_sell_ind o_stock ref_no ref_str number_ref] in E. rewrite E. cbn [mbind option_bind].
    do 2 eexists. split; [done|]. split; [by eapply book_step_table | exact He].
  - subst o. rewrite Hnone in *. change (NULL =? NULL) with true. cbn [negb mbind option_bind default].
    destruct (table_book_add _ _ _ _ (MkOrder price n 0 (replicate 6 0)) NULL price n
      (order_no_key 0) Ht Hnew) as (rc2 & p2 & t2 & E & Ht2 & He); [done..|].
    cbn [o_buy_sell_ind o_stock ref_no ref_str number_ref] in E.
    unfold itch_zero_order. cbn [ord_key ord_order_no_str ord_buy_sell_ind ord_stock ord_sym_entry ord_context].
    rewrite E. cbn [mbind option_bind].
    do 2 eexists. split; [done|]. split; [by eapply book_step_table | exact He].
Qed.

(** ** Handlers *)

Lemma finish_book kind body buffer len st cap b : book_inv st cap b ->
  let '(_, _, st') := itch_finish hooks kind body buffer len st in
  book_inv st' cap b /\ st'.(fs_order_table) = st.(fs_order_table).
Proof.
  intros Hb. unfold itch_finish. destruct (hook_msg hooks kind) as [f|]; [|by split].
  destruct (f _ _) as [[rc [d l]] w]. by split.
Qed.

(** The order a message is about. *)
Definition order_of (m : wire_msg) : option Z :=
  match m with
  | WOrderAdd no _ _ _ _ | WOrderAddAttr no _ _ _ _ _ | WOrderExe no _ _
  | WOrderExePrice no _ _ _ _ | WOrderCancel no _ | WOrderDelete no
  | WOrderReplace _ no _ _ => Some no
  | _ => None
  end.

(** How the handler of a message ends: [r] is its result. *)
Definition wire_end (m : wire_msg) (buffer : list Z) (len : Z) (st : st_t) (cap : Z) (b : book)
    (r : option (Z * itch_data * st_t)) : Prop :=
  exists sym ord st1,
    r = Some (itch_finish hooks (delivered m sym ord).1 (delivered m sym ord).2 buffer len st1) /\
    book_step st st1 cap (book_msg cap m b) /\
    (forall no, order_of m = Some no -> entry_for st1 ord no).

Lemma wire_end_plain m buffer len st cap b st1 sym r :
  order_of m = None -> book_step st st1 cap (book_msg cap m b) ->
  r = Some (itch_finish hooks (delivered m sym NULL).1 (delivered m sym NULL).2 buffer len st1) ->
  wire_end m buffer len st cap b r.
Proof. intros Ho Hs Hr. exists sym, NULL, st1. split; [done|]. split; [done|]. congruence. Qed.

Lemma wire_end_order m buffer len st cap b st1 sym ord r no :
  order_of m = Some no -> book_step st st1 cap (book_msg cap m b) -> entry_for st1 ord no ->
  r = Some (itch_finish hooks (delivered m sym ord).1 (delivered m sym ord).2 buffer len st1) ->
  wire_end m buffer len st cap b r.
Proof.
  intros Ho Hs He Hr. exists sym, ord, st1. split; [done|]. split; [done|].
  intros no' Hno. congruence.
Qed.

Lemma field6_range l z : is_field 6 l z -> 0 <= z < 1000000.
Proof. exact (is_field_range 6 l z). Qed.
Lemma field9_range l z : is_field 9 l z -> 0 <= z < 1000000000.
Proof. exact (is_field_range 9 l z). Qed.
Lemma field12_range l z : is_field 12 l z -> 0 <= z < 1000000000000.
Proof. exact (is_field_range 12 l z). Qed.

Ltac wire_facts :=
  repeat match goal with
  | H : is_field 6 ?l _ |- _ =>
      lazymatch goal with
      | _ : length l = _ |- _ => fail
      | _ => pose proof (length_is_field _ _ _ H); pose proof (field6_range _ _ H) end
  | H : is_field 9 ?l _ |- _ =>
      lazymatch goal with
      | _ : length l = _ |- _ => fail
      | _ => pose proof (length_is_field _ _ _ H); pose proof (field9_range _ _ H) end
  | H : is_field 12 ?l _ |- _ =>
      lazymatch goal with
      | _ : length l = _ |- _ => fail
      | _ => pose proof (length_is_field _ _ _ H); pose proof (field12_range _ _ H) end
  | H : is_price ?l _ |- _ =>
      lazymatch goal with
      | _ : length l = _ |- _ => fail
      | _ => pose proof (length_is_price _ _ H) end
  end.

Ltac wire_field :=
  match goal with
  | |- context [fh_itch_parse_atoi ?b ?o ?n] =>
      match goal with
      | H : is_field n ?l ?z |- _ => rewrite (atoi_part b o n l z H) by (lia || solve_part)
      end
  | |- context [fh_itch_parse_price ?b ?o] =>
      match goal with
      | H : is_price ?l ?z |- _ => rewrite (price_part b o l z H) by solve_part
      end
  | |- context [read_bytes ?b ?o ?n] =>
      match goal with
      | H : length ?l = n |- _ => rewrite (read_part b o l n) by (exact H || solve_part)
      end
  | |- context [byte_at ?b ?o] => erewrite (byte_part b o) by solve_part
  end; cbn [mbind option_bind].

(** The length check and the fields. *)
Ltac wire_start SIZE :=
  wire_facts;
  match goal with |- context [negb (?l =? SIZE)] =>
    replace (l =? SIZE) with true
      by (symmetry; apply Z.eqb_eq; cbn [length]; repeat rewrite length_app; cbn [length];
          repeat rewrite length_app; cbn [length]; unfold SIZE; lia)
  end; cbn [negb]; repeat wire_field;
  repeat match goal with |- context [u32 ?n] => rewrite (u32_small n) by lia end.

(** The symbol lookup of a handler. *)
Ltac wire_symbol :=
  match goal with
  | Hb : book_inv ?st ?cap ?b |- context [fetch_symbol cfg ?s ?st] =>
      let sym := fresh "sym" in let st1 := fresh "st1" in let Hs := fresh "Hs" in
      destruct (fetch_symbol_book s st cap b Hb) as (sym & st1 & -> & Hs & _)
  end; cbn [mbind option_bind].

Definition wire_ok (m : wire_msg) (h : list Z -> Z -> st_t -> option (Z * itch_data * st_t)) : Prop :=
  forall w rest st cap b, on_wire m w -> book_inv st cap b ->
    wire_end m (w ++ rest) (Z.of_nat (length w)) st cap b (h (w ++ rest) (Z.of_nat (length w)) st).

Ltac wire_intro := intros w rest st cap b Hw Hb; inversion Hw; subst; clear Hw.

(** The order table part. *)
Ltac wire_order :=
  match goal with
  | Hs : book_step _ ?st ?cap ?b |- context [itch_add_order cfg ?no ?p ?n ?bs ?s ?sym ?st] =>
      destruct (add_order_book no p n bs s sym st cap b (proj1 Hs)) as (ord & st2 & -> & Ho & He)
  | Hs : book_step _ ?st ?cap ?b |- context [itch_reduce_order cfg ?no ?n ?st] =>
      destruct (reduce_order_book no n st cap b (proj1 Hs)) as (ord & st2 & -> & Ho & He)
  | Hs : book_step _ ?st ?cap ?b |- context [itch_delete_order cfg ?no ?st] =>
      destruct (delete_order_book no st cap b (proj1 Hs)) as (ord & st2 & -> & Ho & He)
  | Hs : book_step _ ?st ?cap ?b |- context [itch_replace_order cfg ?old ?new ?p ?n ?st] =>
      destruct (replace_order_book old new p n st cap b (proj1 Hs)) as (ord & st2 & -> & Ho & He)
  end; [unfold order_no_ok; lia.. |]; cbn [mbind option_bind];
  try match goal with H : let _ := _ in _ |- _ => cbv zeta in H end.

Ltac wire_end_order sym :=
  match goal with
  | Hs : book_step _ ?st1 _ _, Ho : book_step ?st1 ?st2 _ _, He : entry_for ?st2 ?ord ?no |- _ =>
      apply (wire_end_order _ _ _ _ _ _ st2 sym ord _ no);
        [done | exact (book_step_trans _ _ _ _ _ _ Hs Ho) | exact He | done]
  end.

Lemma sys_wire e : wire_ok (WSystem e) (fh_itch_parse_sys_msg hooks).
Proof.
  wire_intro. unfold fh_itch_parse_sys_msg. wire_start FH_ITCH_MSG_SYSTEM_SIZE.
  by apply (wire_end_plain _ _ _ _ _ _ st NULL).
Qed.

Lemma stock_dir_wire s c f n r : wire_ok (WStockDir s c f n r) (fh_itch_parse_stock_dir_msg cfg hooks).
Proof.
  wire_intro. unfold fh_itch_parse_stock_dir_msg. wire_start FH_ITCH_MSG_STOCK_DIR_SIZE.
  wire_symbol. by apply (wire_end_plain _ _ _ _ _ _ st1 sym).
Qed.

Lemma stock_trade_act_wire s t r : wire_ok (WStockTradeAct s t r) (fh_itch_parse_stock_trade_act_msg cfg hooks).
Proof.
  wire_intro. unfold fh_itch_parse_stock_trade_act_msg. wire_start FH_ITCH_MSG_STOCK_TRADE_ACT_SIZE.
  wire_symbol. by apply (wire_end_plain _ _ _ _ _ _ st1 sym).
Qed.

Lemma market_part_pos_wire p s x y z : wire_ok (WMarketPartPos p s x y z) (fh_itch_parse_market_part_pos_msg cfg hooks).
Proof.
  wire_intro. unfold fh_itch_parse_market_part_pos_msg. wire_start FH_ITCH_MSG_MARKET_PART_POS_SIZE.
  wire_symbol. by apply (wire_end_plain _ _ _ _ _ _ st1 sym).
Qed.

Lemma order_add_wire no bs n s p : wire_ok (WOrderAdd no bs n s p) (fh_itch_parse_order_add_msg cfg hooks).
Proof.
  wire_intro. unfold fh_itch_parse_order_add_msg. wire_start FH_ITCH_MSG_ORDER_ADD_SIZE.
  wire_symbol. wire_order. wire_end_order sym.
Qed.

Lemma order_add_attr_wire no bs n s p a : wire_ok (WOrderAddAttr no bs n s p a) (fh_itch_parse_order_add_attr_msg cfg hooks).
Proof.
  wire_intro. unfold fh_itch_parse_order_add_attr_msg. wire_start FH_ITCH_MSG_ORDER_ADD_ATTR_SIZE.
  wire_symbol. wire_order. wire_end_order sym.
Qed.

Lemma order_exe_wire no n mn : wire_ok (WOrderExe no n mn) (fh_itch_parse_order_exe_msg cfg hooks).
Proof.
  wire_intro. unfold fh_itch_parse_order_exe_msg. wire_start FH_ITCH_MSG_ORDER_EXE_SIZE.
  pose proof (book_step_refl st cap b Hb) as Hs. wire_order. wire_end_order NULL.
Qed.

Lemma order_exe_price_wire no n mn pr p : wire_ok (WOrderExePrice no n mn pr p) (fh_itch_parse_order_exe_price_msg cfg hooks).
Proof.
  wire_intro. unfold fh_itch_parse_order_exe_price_msg. wire_start FH_ITCH_MSG_ORDER_EXE_PRICE_SIZE.
  pose proof (book_step_refl st cap b Hb) as Hs. wire_order. wire_end_order NULL.
Qed.

Lemma order_cancel_wire no n : wire_ok (WOrderCancel no n) (fh_itch_parse_order_cancel_msg cfg hooks).
Proof.
  wire_intro. unfold fh_itch_parse_order_cancel_msg. wire_start FH_ITCH_MSG_ORDER_CANCEL_SIZE.
  pose proof (book_step_refl st cap b Hb) as Hs. wire_order. wire_end_order NULL.
Qed.

Lemma order_delete_wire no : wire_ok (WOrderDelete no) (fh_itch_parse_order_delete_msg cfg hooks).
Proof.
  wire_intro. unfold fh_itch_parse_order_delete_msg. wire_start FH_ITCH_MSG_ORDER_DELETE_SIZE.
  pose proof (book_step_refl st cap b Hb) as Hs. wire_order. wire_end_order NULL.
Qed.

Lemma order_replace_wire old new n p : wire_ok (WOrderReplace old new n p) (fh_itch_parse_order_replace_msg cfg hooks).
Proof.
  wire_intro. unfold fh_itch_parse_order_replace_msg. wire_start FH_ITCH_MSG_ORDER_REPLACE_SIZE.
  pose proof (book_step_refl st cap b Hb) as Hs. wire_order. wire_end_order NULL.
Qed.

Lemma trade_wire no bs n s p mn : wire_ok (WTrade no bs n s p mn) (fh_itch_parse_trade_msg cfg hooks).
Proof.
  wire_intro. unfold fh_itch_parse_trade_msg. wire_start FH_ITCH_MSG_TRADE_SIZE.
  wire_symbol. by apply (wire_end_plain _ _ _ _ _ _ st1 sym).
Qed.

Lemma trade_cross_wire n s p mn t : wire_ok (WTradeCross n s p mn t) (fh_itch_parse_trade_cross_msg cfg hooks).
Proof.
  wire_intro. unfold fh_itch_parse_trade_cross_msg. wire_start FH_ITCH_MSG_TRADE_CROSS_SIZE.
  wire_symbol. by apply (wire_end_plain _ _ _ _ _ _ st1 sym).
Qed.

Lemma trade_broken_wire mn : wire_ok (WTradeBroken mn) (fh_itch_parse_trade_broken_msg hooks).
Proof.
  wire_intro. unfold fh_itch_parse_trade_broken_msg. wire_start FH_ITCH_MSG_TRADE_BROKEN_SIZE.
  by apply (wire_end_plain _ _ _ _ _ _ st NULL).
Qed.

Lemma noii_wire n i d s p1 p2 p3 c v : wire_ok (WNoii n i d s p1 p2 p3 c v) (fh_itch_parse_noii_msg cfg hooks).
Proof.
  wire_intro. unfold fh_itch_parse_noii_msg. wire_start FH_ITCH_MSG_NOII_SIZE.
  wire_symbol. by apply (wire_end_plain _ _ _ _ _ _ st1 sym).
Qed.

(** ** The [switch] *)

#[local] Hint Resolve sys_wire stock_dir_wire stock_trade_act_wire market_part_pos_wire
  order_add_wire order_add_attr_wire order_exe_wire order_exe_price_wire order_cancel_wire
  order_delete_wire order_replace_wire trade_wire trade_cross_wire trade_broken_wire
  noii_wire : wire.

(** The type of a message is its first byte. *)
Definition wire_type (m : wire_msg) : Z :=
  match m with
  | WSystem _ => 83 | WStockDir _ _ _ _ _ => 82 | WStockTradeAct _ _ _ => 72
  | WMarketPartPos _ _ _ _ _ => 76 | WOrderAdd _ _ _ _ _ => 65 | WOrderAddAttr _ _ _ _ _ _ => 70
  | WOrderExe _ _ _ => 69 | WOrderExePrice _ _ _ _ _ => 67 | WOrderCancel _ _ => 88
  | WOrderDelete _ => 68 | WOrderReplace _ _ _ _ => 85 | WTrade _ _ _ _ _ _ => 80
  | WTradeCross _ _ _ _ _ => 81 | WTradeBroken _ => 66 | WNoii _ _ _ _ _ _ _ _ _ => 73
  end.

Lemma on_wire_type m w rest : on_wire m w -> byte_at (w ++ rest) 0 = Some (wire_type m).
Proof. by destruct 1. Qed.

Lemma dispatch_end m w rest st cap b h :
  wire_ok m h -> on_wire m w -> book_inv st cap b ->
  exists sym ord st1,
    ('(rc, data, st') ← h (w ++ rest) (Z.of_nat (length w)) st; Some (rc =? FH_OK, data, st')) =
      (let '(kind, body) := delivered m sym ord in
       let '(rc, data, st2) := itch_finish hooks kind body (w ++ rest) (Z.of_nat (length w)) st1 in
       Some (rc =? FH_OK, data, st2)) /\
    book_step st st1 cap (book_msg cap m b) /\
    (forall no, order_of m = Some no -> entry_for st1 ord no).
Proof.
  intros Hh Hw Hb. destruct (Hh w rest st cap b Hw Hb) as (sym & ord & st1 & -> & Hs & He).
  exists sym, ord, st1. split; [|done]. cbn [mbind option_bind].
  by destruct (delivered m sym ord), (itch_finish _ _ _ _ _ _) as [[??]?].
Qed.

Lemma itch_dispatch_wire m w rest st cap b : on_wire m w -> book_inv st cap b ->
  exists sym ord st1,
    itch_dispatch cfg hooks (wire_type m) (w ++ rest) (Z.of_nat (length w)) st =
      (let '(kind, body) := delivered m sym ord in
       let '(rc, data, st2) := itch_finish hooks kind body (w ++ rest) (Z.of_nat (length w)) st1 in
       Some (rc =? FH_OK, data, st2)) /\
    book_step st st1 cap (book_msg cap m b) /\
    (forall no, order_of m = Some no -> entry_for st1 ord no).
Proof. intros Hw Hb. destruct m; (eapply dispatch_end; [auto with wire | done | done]). Qed.

(** ** Time messages

    The feed sends the time of day in two messages of its own, the seconds
    since midnight and the milliseconds of the second; they are numbered like
    the others, but no plugin gets them. *)
Inductive itch_item :=
  | ISeconds (seconds : Z)
  | IMillis (millis : Z)
  | IMsg (m : wire_msg).

Inductive item_on_wire : itch_item -> list Z -> Prop :=
  | item_seconds n l : is_field 5 l n -> item_on_wire (ISeconds n) (84 :: l)
  | item_millis n l : is_field 3 l n -> item_on_wire (IMillis n) (77 :: l)
  | item_msg m w : on_wire m w -> item_on_wire (IMsg m) w.

Definition item_type (it : itch_item) : Z :=
  match it with ISeconds _ => 84 | IMillis _ => 77 | IMsg m => wire_type m end.

Definition item_sent (it : itch_item) : bool :=
  match it with IMsg _ => true | _ => false end.

(** The time in milliseconds after a message. *)
Definition time_item (time : Z) (it : itch_item) : Z :=
  match it with
  | ISeconds n => n * 1000
  | IMillis n => time / 1000 * 1000 + n
  | IMsg _ => time
  end.

Definition book_item (cap : Z) (b : book) (it : itch_item) : book :=
  match it with IMsg m => book_msg cap m b | _ => b end.

(** ** Packets *)

(** Plugins that accept every message. *)
Definition hooks_accept : Prop :=
  (forall k f m w, hooks.(hook_msg) k = Some f -> (f m w).1.1 = FH_OK) /\
  (forall f d w, hooks.(hook_msg_send) = Some f -> (f d w).1 = FH_OK).

(** A message in a packet: its length and itself. *)
Definition framed (w : list Z) : list Z := be_bytes 2 (Z.of_nat (length w)) ++ w.

Definition mold_header (session : list Z) (seq_no count : Z) : list Z :=
  session ++ be_bytes 8 seq_no ++ be_bytes 2 count.

Definition packet_of (session : list Z) (seq_no : Z) (ws : list (list Z)) : list Z :=
  mold_header session seq_no (Z.of_nat (length ws)) ++ concat (framed <$> ws).

Lemma length_on_wire m w : on_wire m w -> (1 <= length w <= 58)%nat.
Proof.
  destruct 1; wire_facts; cbn [length]; repeat (rewrite length_app || cbn [length]); lia.
Qed.

Lemma length_item it w : item_on_wire it w -> (1 <= length w <= 58)%nat.
Proof.
  destruct 1 as [n l Hf|n l Hf|m w Hw]; [..|by eapply length_on_wire];
    apply length_is_field in Hf; cbn [length]; lia.
Qed.

Lemma item_on_wire_type it w rest : item_on_wire it w -> byte_at (w ++ rest) 0 = Some (item_type it).
Proof. destruct 1; [done..|]. by apply on_wire_type. Qed.

(** A time of the day, as the time messages can leave it. *)
Definition time_ok (time : Z) : Prop := 0 <= time < 100000000.

Lemma time_item_ok it w time : item_on_wire it w -> time_ok time -> time_ok (time_item time it).
Proof.
  unfold time_ok. destruct 1 as [n l Hf|n l Hf|m w Hw]; cbn [time_item]; intros Ht; [| |done];
    apply is_field_range in Hf; [change (10 ^ Z.of_nat 5) with 100000 in Hf; lia|].
  change (10 ^ Z.of_nat 3) with 1000 in Hf.
  assert (0 <= time / 1000 < 100000) by (split; [apply Z.div_pos; lia | apply Z.div_lt_upper_bound; lia]).
  lia.
Qed.

Lemma finish_accept kind body buffer len st : hooks_accept ->
  exists data w, itch_finish hooks kind body buffer len st = (FH_OK, data, set_world w st).
Proof.
  intros [Hm _]. unfold itch_finish. destruct (hook_msg hooks kind) as [f|] eqn:E.
  - pose proof (Hm _ _ (MkMsg (fs_next_seq_no st) (u32 (fs_timestamp st)) body buffer (u32 len))
      (fs_world st) E) as H. destruct (f _ _) as [[rc [d l]] w]. cbn in H. subst rc. eauto.
  - exists (DLocal (MkMsg (fs_next_seq_no st) (u32 (fs_timestamp st)) body buffer (u32 len))), (fs_world st).
    by destruct st.
Qed.

(** [fh_itch_parse_msg] on a framed message: from the duplicate check on. *)
Lemma parse_item_framed it w rest now seq_no L st :
  item_on_wire it w -> Z.of_nat (length (framed w)) <= L ->
  let used := Z.of_nat (length (framed w)) in
  fh_itch_parse_msg cfg hooks now seq_no (framed w ++ rest) L st =
    ('(dup, st) ← fh_itch_is_duplicate hooks now seq_no st;
     if dup =? 0 then Some (used, count_stat DuplicatePackets 1 st)
     else
       '(ok, data, st) ← itch_dispatch cfg hooks (item_type it) (w ++ rest) (Z.of_nat (length w)) st;
       if negb (ok : bool) then Some (-1, st)
       else
         st ← itch_advance hooks dup seq_no st;
         match (if item_sent it then hooks.(hook_msg_send) else None) with
         | Some f =>
             let '(rc, w) := f data st.(fs_world) in
             let st := set_world w st in
             if negb (rc =? FH_OK) then Some (-1, st) else Some (used, st)
         | None => Some (used, st)
         end).
Proof.
  intros Hw HL used. pose proof (length_item _ _ Hw) as Hl. subst used.
  unfold framed in *. rewrite length_app, length_be_bytes in *. unfold fh_itch_parse_msg.
  destruct (L <? 2) eqn:E; bool_to_prop; [lia|]. clear E.
  assert (Hr : read_le ((be_bytes 2 (Z.of_nat (length w)) ++ w) ++ rest) 0 2 =
    Some (le_val (be_bytes 2 (Z.of_nat (length w))))).
  { unfold read_le. rewrite (read_part _ 0 (be_bytes 2 (Z.of_nat (length w))) 2);
      [done | | apply length_be_bytes]. rewrite <- app_assoc. by apply part_here. }
  rewrite Hr. cbn [mbind option_bind]. cbv zeta. rewrite ntoh16_be_bytes by lia.
  destruct (L - 2 <? _) eqn:E; bool_to_prop; [lia|]. clear E.
  destruct (_ <? 1) eqn:E; bool_to_prop; [lia|]. clear E.
  rewrite <- app_assoc, drop_app_length' by (symmetry; apply length_be_bytes).
  rewrite (item_on_wire_type _ _ _ Hw). cbn [mbind option_bind].
  replace (Z.of_nat (2 + length w)) with (Z.of_nat (length w) + 2) by lia.
  destruct it as [| |m]; [done..|].
  replace (negb (item_type (IMsg m) =? MSG_T) && negb (item_type (IMsg m) =? MSG_M)) with true
    by by destruct m.
  done.
Qed.

Lemma parse_msg_framed m w rest now seq_no L st :
  on_wire m w -> Z.of_nat (length (framed w)) <= L ->
  let used := Z.of_nat (length (framed w)) in
  fh_itch_parse_msg cfg hooks now seq_no (framed w ++ rest) L st =
    ('(dup, st) ← fh_itch_is_duplicate hooks now seq_no st;
     if dup =? 0 then Some (used, count_stat DuplicatePackets 1 st)
     else
       '(ok, data, st) ← itch_dispatch cfg hooks (wire_type m) (w ++ rest) (Z.of_nat (length w)) st;
       if negb (ok : bool) then Some (-1, st)
       else
         st ← itch_advance hooks dup seq_no st;
         match hooks.(hook_msg_send) with
         | Some f =>
             let '(rc, w) := f data st.(fs_world) in
             let st := set_world w st in
             if negb (rc =? FH_OK) then Some (-1, st) else Some (used, st)
         | None => Some (used, st)
         end).
Proof. intros Hw HL. by apply (parse_item_framed (IMsg m)); [constructor|]. Qed.

(** The [switch] on a message in order: the book changes for a message, the
    time for a time message. *)
Lemma dispatch_item it w rest st cap b :
  item_on_wire it w -> book_inv st cap b -> hooks_accept -> time_ok st.(fs_timestamp) ->
  exists data st', itch_dispatch cfg hooks (item_type it) (w ++ rest) (Z.of_nat (length w)) st =
      Some (true, data, st') /\
    book_inv st' cap (book_item cap b it) /\ same_seq st st' /\
    st'.(fs_timestamp) = time_item st.(fs_timestamp) it.
Proof.
  intros Hw Hb Ha Ht. destruct Hw as [n l Hf|n l Hf|m w Hw].
  - pose proof (is_field_range _ _ _ Hf) as Hn. change (10 ^ Z.of_nat 5) with 100000 in Hn.
    unfold itch_dispatch. cbv zeta. change (84 =? MSG_T) with true. cbn iota.
    rewrite (atoi_part _ 1 5 l n Hf) by (lia || solve_part).
    cbn [mbind option_bind]. do 2 eexists. split; [done|]. split; [exact Hb|]. split; [done|].
    cbn. apply u64_small. lia.
  - pose proof (is_field_range _ _ _ Hf) as Hn. change (10 ^ Z.of_nat 3) with 1000 in Hn.
    pose proof (time_item_ok _ _ _ (item_millis n l Hf) Ht) as Ht'. cbn in Ht'. unfold time_ok in *.
    pose proof (Z.div_mod (fs_timestamp st) 1000 ltac:(lia)) as Hd.
    pose proof (Z.mod_pos_bound (fs_timestamp st) 1000 ltac:(lia)) as Hm.
    unfold itch_dispatch. cbv zeta. change (77 =? MSG_T) with false. change (77 =? MSG_M) with true.
    cbn iota. rewrite (atoi_part _ 1 3 l n Hf) by (lia || solve_part).
    cbn [mbind option_bind]. do 2 eexists. split; [done|]. split; [exact Hb|]. split; [done|].
    cbn [fs_timestamp set_timestamp time_item].
    replace (fs_timestamp st - fs_timestamp st mod 1000) with (fs_timestamp st / 1000 * 1000) by lia.
    rewrite (u64_small (fs_timestamp st / 1000 * 1000)) by lia. rewrite u64_small by lia. done.
  - destruct (itch_dispatch_wire m w rest st cap b Hw Hb) as (sym & ord & st1 & E & Hs & _).
    cbn [item_type]. rewrite E. destruct (delivered m sym ord) as [kind body].
    destruct (finish_accept kind body (w ++ rest) (Z.of_nat (length w)) st1 Ha) as (data & w1 & ->).
    destruct Hs as (Hb1 & Hs & [= Ht1 _]). exists data, (set_world w1 st1).
    split; [done|]. split; [exact Hb1|]. split; [exact Hs | exact Ht1].
Qed.

(** A message in order: the book changes, the line advances by one. *)
Lemma parse_item_wire it w rest now L st cap b :
  item_on_wire it w -> book_inv st cap b -> hooks_accept -> time_ok st.(fs_timestamp) ->
  0 <= st.(fs_next_seq_no) < 18446744073709551615 -> Z.of_nat (length (framed w)) <= L ->
  exists st', fh_itch_parse_msg cfg hooks now st.(fs_next_seq_no) (framed w ++ rest) L st =
      Some (Z.of_nat (length (framed w)), st') /\
    book_inv st' cap (book_item cap b it) /\
    st'.(fs_timestamp) = time_item st.(fs_timestamp) it /\
    st'.(fs_next_seq_no) = st.(fs_next_seq_no) + 1 /\ st'.(fs_gaplist) = st.(fs_gaplist) /\
    st'.(fs_inorder) = st.(fs_inorder) /\ st'.(fs_stats) = st.(fs_stats).
Proof.
  intros Hw Hb Ha Ht Hn HL. rewrite (parse_item_framed it) by done.
  unfold fh_itch_is_duplicate. rewrite Z.eqb_refl. cbn [mbind option_bind Z.eqb].
  destruct (dispatch_item it w rest st cap b Hw Hb Ha Ht) as (data & st1 & -> & Hb1 & Hs & Ht1).
  cbn [mbind option_bind]. cbn [negb].
  unfold itch_advance. cbn [Z.ltb Z.compare mbind option_bind].
  destruct Hs as (En & Est & Egl & _ & Ein).
  set (st2 := set_next_seq_no _ st1).
  assert (H2 : book_inv st2 cap (book_item cap b it) /\
    fs_timestamp st2 = time_item (fs_timestamp st) it /\ fs_next_seq_no st2 = fs_next_seq_no st + 1 /\
    fs_gaplist st2 = fs_gaplist st /\ fs_inorder st2 = fs_inorder st /\ fs_stats st2 = fs_stats st).
  { split; [exact Hb1|]. split; [done|]. split; [|done]. unfold st2. cbn. rewrite En. apply u64_small. lia. }
  destruct (if item_sent it then _ else None) as [f|] eqn:Ef; [|by exists st2].
  assert (Ef' : hook_msg_send hooks = Some f) by by destruct (item_sent it).
  pose proof (proj2 Ha _ data (fs_world st2) Ef') as Hf.
  destruct (f _ _) as [rc w2]. cbn in Hf. subst rc. by exists (set_world w2 st2).
Qed.

(** The loop over the messages of a packet. *)
Lemma msgs_wire ms ws : Forall2 item_on_wire ms ws -> forall clock seq_no i rest L st cap b,
  book_inv st cap b -> hooks_accept -> time_ok st.(fs_timestamp) -> st.(fs_next_seq_no) = seq_no + i -> 0 <= seq_no + i ->
  seq_no + i + Z.of_nat (length ms) < 18446744073709551616 ->
  Z.of_nat (length (concat (framed <$> ws))) <= L ->
  exists st', itch_msgs cfg hooks (length ms) clock seq_no i (concat (framed <$> ws) ++ rest) L st =
      Some (FH_OK, st') /\
    book_inv st' cap (foldl (book_item cap) b ms) /\
    st'.(fs_timestamp) = foldl time_item st.(fs_timestamp) ms /\
    st'.(fs_next_seq_no) = seq_no + i + Z.of_nat (length ms) /\
    st'.(fs_gaplist) = st.(fs_gaplist) /\ st'.(fs_inorder) = st.(fs_inorder) /\
    st'.(fs_stats) = Nat.iter (length ms) (stat_add Messages 1) st.(fs_stats).
Proof.
  induction 1 as [|m w ms ws Hw Hws IH]; intros clock seq_no i rest L st cap b Hb Ha Ht Hn H0 Hmax HL.
  { exists st. cbn. split; [done|]. split; [done|]. split; [done|]. split; [lia | done]. }
  cbn [fmap list_fmap concat length itch_msgs] in *. rewrite length_app in HL.
  rewrite u64_small by lia. rewrite <- app_assoc, <- Hn.
  destruct (parse_item_wire m w (concat (framed <$> ws) ++ rest) (clock i) L st cap b)
    as (st1 & -> & Hb1 & Ht1 & Hn1 & Egl & Ein & Est); [done | done | done | done | lia | lia |].
  cbn [mbind option_bind]. destruct (_ <? 0) eqn:E; bool_to_prop; [lia|]. clear E.
  rewrite Nat2Z.id, drop_app_length.
  destruct (IH clock seq_no (i + 1) rest (L - Z.of_nat (length (framed w)))
    (count_stat Messages 1 st1) cap (book_item cap b m))
    as (st' & -> & Hb' & Ht' & Hn' & Egl' & Ein' & Est');
    [exact Hb1 | done | cbn; rewrite Ht1; by eapply time_item_ok | cbn; lia | lia | lia | lia |].
  exists st'. split; [done|]. split; [exact Hb'|]. cbn [foldl].
  split; [rewrite Ht'; cbn; by rewrite Ht1|]. split; [lia|].
  split; [by rewrite Egl'|]. split; [by rewrite Ein'|].
  rewrite Est'. cbn [count_stat fs_stats]. rewrite Est. by rewrite <- Nat.iter_succ_r.
Qed.

(** ** In-order packets *)

Lemma moldudp64_header session seq_no count rest :
  length session = 10%nat -> 0 <= seq_no < 18446744073709551616 -> 0 <= count < 65536 ->
  fh_itch_moldudp64_extract (mold_header session seq_no count ++ rest) =
    Some (MkMold session seq_no count) /\
  drop 20 (mold_header session seq_no count ++ rest) = rest /\
  length (mold_header session seq_no count) = 20%nat.
Proof.
  intros Hs Hq Hl. unfold fh_itch_moldudp64_extract, read_le.
  pose proof (length_be_bytes 8 seq_no). pose proof (length_be_bytes 2 count).
  assert (H20 : length (mold_header session seq_no count) = 20%nat)
    by (unfold mold_header; rewrite !length_app; lia).
  split; [|split; [by apply drop_app_length' | done]]. unfold mold_header.
  rewrite (read_part _ 0 session 10), (read_part _ 10 (be_bytes 8 seq_no) 8),
    (read_part _ 18 (be_bytes 2 count) 2) by (done || solve_part).
  cbn [mbind option_bind fmap option_fmap option_map].
  by rewrite ntoh64_be_bytes, ntoh16_be_bytes by lia.
Qed.

(** A packet of messages in order: what is left is the end of the function. *)
Lemma pkt_wire session ms ws clock rest st st0 cap b :
  Forall2 item_on_wire ms ws -> length session = 10%nat -> ms <> [] -> Z.of_nat (length ms) < 65535 ->
  book_inv st0 cap b -> hooks_accept -> time_ok st0.(fs_timestamp) ->
  0 <= st0.(fs_next_seq_no) -> st0.(fs_next_seq_no) + Z.of_nat (length ms) < 18446744073709551616 ->
  let packet := packet_of session st0.(fs_next_seq_no) ws in
  let len := Z.of_nat (length packet) in
  itch_pkt_begin hooks (clock (-1)) len st = Some st0 ->
  exists st', fh_itch_parse_pkt cfg hooks clock (packet ++ rest) len st = itch_pkt_end st' /\
    book_inv st' cap (foldl (book_item cap) b ms) /\
    st'.(fs_timestamp) = foldl time_item st0.(fs_timestamp) ms /\
    st'.(fs_next_seq_no) = st0.(fs_next_seq_no) + Z.of_nat (length ms) /\
    st'.(fs_gaplist) = st0.(fs_gaplist) /\ st'.(fs_inorder) = st0.(fs_inorder) /\
    st'.(fs_stats) = Nat.iter (length ms) (stat_add Messages 1) st0.(fs_stats).
Proof.
  intros Hw Hs Hne Hlen Hb Ha Ht H0 Hmax packet len Hbeg. unfold fh_itch_parse_pkt. rewrite Hbeg.
  cbn [mbind option_bind]. pose proof (Forall2_length _ _ _ Hw) as El.
  destruct (moldudp64_header session (fs_next_seq_no st0) (Z.of_nat (length ws))
    (concat (framed <$> ws) ++ rest) Hs) as (He & Hd & H20); [lia | lia |].
  rewrite app_assoc in He, Hd. fold (packet_of session (fs_next_seq_no st0) ws) in He, Hd.
  fold packet in He, Hd.
  assert (Hp : length packet = (20 + length (concat (framed <$> ws)))%nat)
    by (unfold packet, packet_of; rewrite length_app; lia).
  destruct (len <? _) eqn:E; unfold FH_ITCH_MOLDUDP64_SIZE in *; bool_to_prop; [lia|]. clear E.
  rewrite He, Hd. cbn [mbind option_bind md_msg_count md_seq_no].
  rewrite !eqb_false_of_ne by (destruct ms; [done | cbn in *; lia]). rewrite Nat2Z.id, <- El.
  destruct (msgs_wire ms ws Hw clock (fs_next_seq_no st0) 0 rest (len - 20) st0 cap b)
    as (st' & -> & Hb' & Ht' & Hn' & Egl & Ein & Est); [exact Hb | done | done | lia | lia | lia | lia |].
  cbn [mbind option_bind]. change (FH_OK =? FH_OK) with true. cbn [negb].
  exists st'. split; [done|]. split; [done|]. split; [done|]. split; [lia | done].
Qed.

(** Without gaps there is nothing to flush. *)
Lemma pkt_begin_quiet now len st :
  (forall gl, st.(fs_gaplist) = Some gl -> gl.(gl_count) = 0) -> st.(fs_inorder) = true ->
  itch_pkt_begin hooks now len st = Some (count_stat Bytes len st).
Proof.
  intros Hg Hin. unfold itch_pkt_begin, feed_flush, itch_resume.
  destruct (fs_gaplist st) as [gl|] eqn:E; [rewrite (Hg gl) by done|];
    cbn [Z.ltb Z.compare mbind option_bind]; by rewrite Hin.
Qed.

End wire.
