(* ===== verification/ItchTheorems.v ===== *)
(** * Theorems about the ITCH parser

    Exactly-once processing, safety on arbitrary packets, the order book, the
    field formats, and the behaviours of the parser that lose messages. *)
From S2P Require Import Prelude Bytes Mpool GapFill HTable Lookup Conn Feed FeedProps Decimal ItchMsg ItchParse ItchProps ItchWire.

(** ** A small configuration for the examples *)

Definition demo_cfg : feed_config := MkFeedCfg false false 4 30.
Definition demo_hooks : itch_hooks unit := MkItchHooks None None (fun _ => None).

Definition demo_state {W} (gl : option gap_list) (next : Z) (w : W) : feed_state W :=
  MkFeed next 0 stats_zero (MkTbl None None 0 0 ∅) (MkTbl None None 0 0 ∅) gl NULL true w.

(** A system message, in a buffer that goes on. *)
Definition demo_sys (seq_no : Z) : itch_input :=
  (100, seq_no, [0; 2; 83; 79] ++ replicate 8 0, 4).

Lemma demo_inv {W} (w : W) : exists gl,
  fh_shr_gap_fill_new (Some 64) true true (Some 4096) 4 30 = Some gl /\
  feed_inv demo_cfg (demo_state (Some gl) 1 w) gl [] /\ gl.(gl_max) = 4 /\ gl.(gl_count) = 0.
Proof.
  destruct (gap_new_repr 64 4096 4 30) as (gl & E & Hr & HM & _); [lia..|].
  exists gl. split; [done|]. split; [|split; [done | exact (gr_count _ _ Hr)]].
  constructor; [done | done | constructor | lia | by split | cbn; lia].
Qed.

(** ** Filling a gap *)

Lemma is_duplicate_gap {W} cfg (hooks : itch_hooks W) st gl es now seq_no :
  feed_inv cfg st gl es -> missing es.*2 seq_no -> seq_no < st.(fs_next_seq_no) ->
  exists l1 c g l2, es = l1 ++ (c, g) :: l2 /\
    fh_itch_is_duplicate hooks now seq_no st = Some (-1, set_gapnode c st).
Proof.
  intros Hi Hm Hlt. pose proof Hi as [Hgl Hr Hok _ _ _]. unfold fh_itch_is_duplicate.
  rewrite (eqb_false_of_ne seq_no) by lia. destruct (seq_no <? _) eqn:E; bool_to_prop; [|lia].
  rewrite Hgl. cbn [mbind option_bind]. rewrite (gap_find_repr _ _ _ Hr). cbn [mbind option_bind].
  destruct (spec_find_spec es seq_no Hok) as [[_ Hn]|(l1 & c & g & l2 & Ees & -> & _)]; [|done|].
  - intros a. by apply gap_repr_nonnull with gl.
  - rewrite (eqb_false_of_ne c NULL) by (by eapply feed_inv_nonnull). by exists l1, c, g, l2.
Qed.

Lemma advance_world {W} (hooks : itch_hooks W) dup seq_no st st' :
  hooks.(hook_alert) = None -> itch_advance hooks dup seq_no st = Some st' ->
  st'.(fs_world) = st.(fs_world).
Proof.
  intros Ha. unfold itch_advance, feed_alert. rewrite Ha. cbn [call_alert].
  destruct (0 <? dup); [by intros [= <-]|]. destruct (_ && _); [|by intros [= <-]].
  destruct (fs_gaplist st) as [gl|]; [|done]. cbn [mbind option_bind].
  destruct (fh_shr_gap_fill_del _ _ _) as [[[rc node] gl']|]; [|done]. cbn [mbind option_bind].
  destruct (0 <=? rc), (0 <? rc); cbn;
    (destruct (node =? NULL); [destruct (gl_count gl' <=? 0)|]); by intros [= <-].
Qed.

(** ** Properties *)

(** C1: exactly-once processing. Starting without gaps, feed the message
    parser a run of messages of any length: any bytes, any order, duplicated
    or missing numbers, any handler errors, any plugins. No number is
    processed twice, every number processed lies between the start and the
    next expected number, and none of them is on the gap list. If moreover the
    run has no more messages than the gap list has places (so that no gap has
    to be given up), every number in that range that is not on the gap list has
    been processed. The numbers are below [2^62] and less than [2^31] ahead of
    the start, and each message is followed by five bytes of the receive buffer
    (see [input_ok]). *)
Theorem itch_exactly_once {W} cfg (hooks : itch_hooks W) st gl msgs :
  feed_inv cfg st gl [] -> Forall (input_ok st.(fs_next_seq_no)) msgs ->
  exists log st' gl' es', itch_feed cfg hooks msgs st = Some (log, st') /\
    st'.(fs_gaplist) = Some gl' /\ gap_repr gl' es' /\ NoDup log /\
    (forall n, n ∈ log -> st.(fs_next_seq_no) <= n < st'.(fs_next_seq_no) /\ ~ missing es'.*2 n) /\
    (Z.of_nat (length msgs) <= gl.(gl_max) ->
     forall n, st.(fs_next_seq_no) <= n < st'.(fs_next_seq_no) -> ~ missing es'.*2 n -> n ∈ log).
Proof.
  intros Hi Hm.
  assert (He : gaps_exact st.(fs_next_seq_no) []).
  { split; [done|]. intros n Hn. by apply missing_nil in Hn. }
  destruct (itch_feed_exact cfg hooks st.(fs_next_seq_no) msgs st gl [] Hi He)
    as (log & st' & gl' & es' & E & Hi' & Hnd & Hlog & Hseen & Hroom); [lia | done |].
  assert (H0 : forall n, seen st.(fs_next_seq_no) [] n <-> n < st.(fs_next_seq_no)).
  { intros n. unfold seen. pose proof (missing_nil n). tauto. }
  exists log, st', gl', es'. split; [done|]. split; [exact (ii_gaplist _ _ _ Hi')|].
  split; [exact (ii_repr _ _ _ Hi')|]. split; [done|]. split.
  - intros n Hn. pose proof (Hlog n Hn) as Hn0. rewrite H0 in Hn0.
    destruct (Hseen n (or_intror Hn)). split; [lia | done].
  - intros Hl n Hn Hmiss. destruct (Hroom Hl n) as [Hs|]; [split; [lia | done] | | done].
    apply H0 in Hs. lia.
Qed.

(** 1, then 4 (a gap), 3 twice, 2 and 2 again. *)
Lemma itch_exactly_once_witness :
  exists gl st', feed_inv demo_cfg (demo_state (Some gl) 1 tt) gl [] /\
    itch_feed demo_cfg demo_hooks (demo_sys <$> [1; 4; 3]) (demo_state (Some gl) 1 tt) =
      Some ([1; 4; 3], st') /\ NoDup [1; 4; 3] /\ st'.(fs_next_seq_no) = 5.
Proof.
  destruct (demo_inv tt) as (gl & E & Hi & HM & _). exists gl.
  assert (Hm : Forall (input_ok 1) (demo_sys <$> [1; 4; 3]))
    by (repeat constructor; cbn; lia).
  destruct (itch_exactly_once demo_cfg demo_hooks _ gl (demo_sys <$> [1; 4; 3]) Hi Hm)
    as (log & st' & gl' & es' & Ef & _ & _ & Hnd & _).
  exists st'. split; [exact Hi|]. pose proof Ef as Ef'. vm_compute in E. injection E as <-.
  vm_compute in Ef'. injection Ef' as <- <-.
  split; [exact Ef|]. split; [exact Hnd | reflexivity].
Defined.

(** C2: safety. For every packet, whatever its bytes, whose sequence number is
    below [2^61] and less than [2^31] ahead of the line, and which leaves five
    bytes of the receive buffer unused (the line handler's buffer has 2048
    bytes, so packets of at most 2043), the parser returns: it reads nothing
    outside the buffer, follows no bad pointer, and comes to an end; and it
    leaves a correct gap list and correct tables. The five bytes are needed:
    the two time messages read up to five bytes after their type without
    looking at the length of the message. *)
Theorem itch_pkt_safe {W} cfg (hooks : itch_hooks W) clock packet len st gl es :
  feed_inv cfg st gl es -> Forall is_byte packet -> len + 5 <= Z.of_nat (length packet) ->
  pkt_seq_no packet < 2305843009213693952 ->
  pkt_seq_no packet - st.(fs_next_seq_no) < 2147483648 ->
  exists rc st' gl' es', fh_itch_parse_pkt cfg hooks clock packet len st = Some (rc, st') /\
    feed_inv cfg st' gl' es' /\ gl'.(gl_max) = gl.(gl_max).
Proof.
  intros Hi Hb Hl Hs Hj. unfold fh_itch_parse_pkt.
  destruct (itch_pkt_begin_ok cfg hooks st gl es (clock (-1)) len Hi)
    as (st1 & gl1 & es1 & -> & Hi1 & HM1 & Hn1). cbn [mbind option_bind].
  unfold FH_ITCH_MOLDUDP64_SIZE in *. destruct (len <? 20) eqn:El; bool_to_prop.
  { do 4 eexists. split; [done|]. split; [|done]. eapply feed_inv_same; [exact Hi1 | done..]. }
  destruct (moldudp64_extract_ok packet Hb) as (h & -> & Hseq & H0 & Hc); [lia|].
  cbn [mbind option_bind]. rewrite <- Hseq in *.
  destruct (md_msg_count h =? 0).
  { destruct (fs_next_seq_no st1 <? md_seq_no h); [|by exists FH_OK, st1, gl1, es1].
    do 4 eexists. split; [done|]. split; [|done]. destruct Hi1. constructor; try done. cbn. lia. }
  destruct (md_msg_count h =? 65535).
  { do 4 eexists. split; [done|]. split; [|done]. destruct Hi1. constructor; try done. }
  destruct (itch_msgs_ok cfg hooks (Z.to_nat (md_msg_count h)) clock (md_seq_no h) 0
    (drop 20 packet) (len - 20) st1 gl1 es1 Hi1) as (rc & st2 & gl2 & es2 & -> & Hi2 & HM2);
    [lia | lia | lia | rewrite length_drop; lia |].
  cbn [mbind option_bind]. destruct (negb (rc =? FH_OK)).
  { do 4 eexists. split; [done|]. split; [exact Hi2 | congruence]. }
  destruct (itch_pkt_end_ok cfg st2 gl2 es2 Hi2) as (st3 & -> & Hi3).
  do 4 eexists. split; [done|]. split; [exact Hi3 | congruence].
Qed.

(** A MoldUDP64 packet of [msgs]. *)
Definition demo_packet (seq_no : Z) (count : Z) (msgs : list Z) : list Z :=
  replicate 10 48 ++ reverse (le_bytes 8 seq_no) ++ reverse (le_bytes 2 count) ++ msgs.

Lemma itch_pkt_safe_witness :
  exists gl rc st', fh_itch_parse_pkt demo_cfg demo_hooks (fun _ => 100)
    (demo_packet 1 1 [0; 2; 83; 79] ++ replicate 5 0) 24 (demo_state (Some gl) 1 tt) = Some (rc, st') /\
    fs_next_seq_no st' = 2.
Proof.
  destruct (demo_inv tt) as (gl & E & Hi & HM & _). exists gl.
  destruct (itch_pkt_safe demo_cfg demo_hooks (fun _ => 100)
    (demo_packet 1 1 [0; 2; 83; 79] ++ replicate 5 0) 24 _ gl [] Hi) as (rc & st' & _ & _ & Ef & _);
    [repeat constructor; done | cbn; lia | done | done |].
  exists rc, st'. split; [exact Ef|]. vm_compute in E. injection E as <-.
  vm_compute in Ef. injection Ef as _ <-. reflexivity.
Defined.

(** Gap list overflow. When the list is full, a new gap takes the place
    of the oldest one. Without an alert hook the messages of the oldest gap
    are counted as lost; with one that returns [FH_OK], which is what the
    [FH_ALERT_GAP] call writes over the count, they are lost uncounted. *)
Theorem itch_gap_overflow {W} cfg (hooks : itch_hooks W) st gl a g es now seq_no :
  feed_inv cfg st gl ((a, g) :: es) -> seq_ok st seq_no -> st.(fs_next_seq_no) < seq_no ->
  Z.of_nat (length ((a, g) :: es)) = gl.(gl_max) ->
  (forall f rc w, hooks.(hook_alert) = Some f -> (f FH_ALERT_GAP rc w).1 = FH_OK) ->
  exists st' gl', fh_itch_is_duplicate hooks now seq_no st = Some (1, st') /\
    st'.(fs_gaplist) = Some gl' /\ gap_repr gl' (es ++
      [(a, MkGap st.(fs_next_seq_no) (seq_no - st.(fs_next_seq_no)) now)]) /\
    st'.(fs_stats) = match hooks.(hook_alert) with
      | None => stat_add LostMessages g.(gp_size) (stat_add Gaps 1 st.(fs_stats))
      | Some _ => stat_add Gaps 1 st.(fs_stats)
      end.
Proof.
  intros [Hgl Hr Hok Hmax Ht Hnext] [Hs Hj] Hlt Hfull Hal. unfold fh_itch_is_duplicate.
  rewrite (eqb_false_of_ne seq_no) by lia. destruct (seq_no <? _) eqn:E; bool_to_prop; [lia|]. clear E.
  cbn [fs_gaplist fs_next_seq_no count_stat]. rewrite Hgl, u64_small, s32_small, u32_small by lia.
  destruct (gap_push_full now gl a g es (fs_next_seq_no st) (seq_no - fs_next_seq_no st) Hr)
    as (gl' & -> & Hr' & _); [intros ->; cbn in Hfull; lia | done |]. cbn [mbind option_bind].
  apply Forall_cons in Hok as [(_ & Hsz & _) _]. cbn [snd] in Hsz. rewrite s32_small by lia.
  destruct (_ <? 0) eqn:E; bool_to_prop; [lia|]. clear E. unfold feed_alert, call_alert.
  destruct (hook_alert hooks) as [f|] eqn:Ef.
  - pose proof (Hal f (gp_size g) (fs_world (set_gaplist gl' (count_stat Gaps 1 st))) eq_refl) as Hf.
    destruct (f _ _ _) as [rc w]. cbn in Hf. subst rc. cbn [Z.ltb Z.compare mbind option_bind].
    do 2 eexists. split; [done|]. split; [done|]. split; [exact Hr' | done].
  - destruct (0 <? _) eqn:E; bool_to_prop; [|lia]. cbn [snd mbind option_bind].
    do 2 eexists. split; [done|]. split; [done|]. split; [exact Hr' | done].
Qed.

(** A plugin that counts the alerts it gets and returns success. *)
Definition alert_hooks : itch_hooks (list Z) :=
  MkItchHooks (Some (fun alert _ w => (FH_OK, alert :: w))) None (fun _ => None).

(** A state with a full gap list. *)
Lemma demo_full {W} (w : W) : exists (st : feed_state W) gl a g es,
  feed_inv demo_cfg st gl ((a, g) :: es) /\ st.(fs_next_seq_no) = 10 /\
  Z.of_nat (length ((a, g) :: es)) = gl.(gl_max).
Proof.
  destruct (gap_new_repr 64 4096 2 30) as (gl & _ & Hr & HM); [lia..|].
  destruct (gap_push_room 100 gl [] 2 3 Hr) as (n1 & gl1 & _ & _ & Hr1 & HM1 & _); [cbn; lia|].
  destruct (gap_push_room 100 gl1 _ 6 1 Hr1) as (n2 & gl2 & _ & _ & Hr2 & HM2 & _); [cbn; lia|].
  exists (demo_state (Some gl2) 10 w), gl2, n1, (MkGap 2 3 100), [(n2, MkGap 6 1 100)].
  split; [|split; [done | cbn; lia]]. constructor; [done | exact Hr2 | | lia | by split | cbn; lia].
  repeat constructor; cbn; lia.
Qed.

Lemma itch_gap_overflow_witness :
  exists st st', fs_next_seq_no st = 10 /\
    fh_itch_is_duplicate alert_hooks 100 12 st = Some (1, st') /\
    st'.(fs_stats) = stat_add Gaps 1 st.(fs_stats).
Proof.
  destruct (demo_full ([] : list Z)) as (st & gl & a & g & es & Hi & Hn & Hf).
  destruct (itch_gap_overflow demo_cfg alert_hooks st gl a g es 100 12 Hi)
    as (st' & gl' & E & _ & _ & Est); [split; lia | lia | done | by intros f rc w [= <-] |].
  exists st, st'. split; [exact Hn|]. split; [exact E | exact Est].
Defined.

(** Recovered messages. A message that fills a gap is sent to the plugins
    with the line's next sequence number in its header instead of its own. *)
Theorem itch_recovered_seq_no cfg (hooks : itch_hooks (list itch_data)) now seq_no m w rest L st gl es
    (b : gmap Z order) cap :
  feed_inv cfg st gl es -> seq_ok st seq_no -> missing es.*2 seq_no ->
  seq_no < st.(fs_next_seq_no) -> on_wire m w -> book_inv cfg st cap b ->
  hooks.(hook_alert) = None -> (forall k, hooks.(hook_msg) k = None) ->
  hooks.(hook_msg_send) = Some (fun d log => (FH_OK, d :: log)) ->
  Z.of_nat (length (framed w)) <= L ->
  exists st' body, fh_itch_parse_msg cfg hooks now seq_no (framed w ++ rest) L st =
      Some (Z.of_nat (length (framed w)), st') /\
    st'.(fs_next_seq_no) = st.(fs_next_seq_no) /\
    st'.(fs_world) = DLocal (MkMsg st.(fs_next_seq_no) (u32 st.(fs_timestamp)) body (w ++ rest)
                               (Z.of_nat (length w))) :: st.(fs_world).
Proof.
  intros Hi Hs Hm Hlt Hw Hb Ha Hk Hf HL. rewrite (parse_msg_framed cfg hooks m) by done.
  destruct (is_duplicate_gap cfg hooks st gl es now seq_no Hi Hm Hlt) as (l1 & c & g & l2 & Ees & ->).
  cbn [mbind option_bind]. change (-1 =? 0) with false. cbn iota.
  destruct (itch_dispatch_wire cfg hooks m w rest (set_gapnode c st) cap b Hw Hb)
    as (sym & ord & st1 & -> & (Hb1 & Hsame & [= Ht Hwld]) & _).
  destruct (delivered m sym ord) as [kind body]. unfold itch_finish. rewrite Hk.
  cbn [mbind option_bind]. change (FH_OK =? FH_OK) with true. cbn [negb].
  destruct Hsame as (En & _ & Egl & Egn & _).
  assert (Hi1 : feed_inv cfg st1 gl es).
  { eapply feed_inv_ext; [exact Hi | done | done |]. by eapply book_inv_tables. }
  destruct (itch_advance_gap cfg hooks st1 gl es seq_no l1 c g l2 Hi1 Ees Egn)
    as (_ & st2 & _ & _ & _ & Eadv & _ & _ & En2).
  pose proof (advance_world hooks (-1) seq_no st1 st2 Ha Eadv) as Hw2. rewrite Eadv.
  cbn [mbind option_bind]. rewrite Hf. change (FH_OK =? FH_OK) with true. cbn [negb].
  do 2 eexists. split; [done|]. cbn [fs_next_seq_no fs_world set_world]. cbn in En, Ht, Hwld.
  pose proof (length_on_wire _ _ Hw).
  rewrite Hw2, Hwld, En2, En, Ht, (u32_small (Z.of_nat _)) by lia. done.
Qed.

Definition log_hooks : itch_hooks (list itch_data) :=
  MkItchHooks None (Some (fun d log => (FH_OK, d :: log))) (fun _ => None).

Lemma itch_recovered_seq_no_witness :
  exists st st' body, fs_next_seq_no st = 10 /\ fs_world st = [] /\
    fh_itch_parse_msg demo_cfg log_hooks 100 3 (framed [83; 79] ++ []) 4 st = Some (4, st') /\
    fs_world st' = [DLocal (MkMsg 10 (u32 st.(fs_timestamp)) body ([83; 79] ++ []) 2)].
Proof.
  destruct (gap_new_repr 64 4096 4 30) as (gl & _ & Hr & HM); [lia..|].
  destruct (gap_push_room 100 gl [] 2 3 Hr) as (n1 & gl1 & _ & _ & Hr1 & HM1 & _); [cbn; lia|].
  set (st := demo_state (Some gl1) 10 ([] : list itch_data)).
  assert (Hi : feed_inv demo_cfg st gl1 ([] ++ [(n1, MkGap 2 3 100)])).
  { constructor; [done | exact Hr1 | | lia | by split | cbn; lia]. repeat constructor; cbn; lia. }
  destruct (itch_recovered_seq_no demo_cfg log_hooks 100 3 (WSystem 79) [83; 79] [] 4 st gl1 _ ∅ 0 Hi)
    as (st' & body & E & _ & Ew); try done.
  - exists (MkGap 2 3 100). split; [set_solver | unfold gap_has; cbn; lia].
  - constructor.
  - exists st, st', body. split; [done|]. split; [done|]. split; [exact E | exact Ew].
Defined.

(** Packets without messages, when no gap is open. A heartbeat whose
    number is ahead of the line moves the line to it: the numbers in between
    are neither put on the gap list nor counted as lost. The end of a session
    moves the line back to 1. Nothing but the line and the count of bytes
    changes. *)
Theorem itch_control_packets {W} cfg (hooks : itch_hooks W) clock session seq_no count rest st :
  length session = 10%nat -> 0 <= seq_no < 18446744073709551616 -> count = 0 \/ count = 65535 ->
  (forall gl, st.(fs_gaplist) = Some gl -> gl.(gl_count) = 0) -> st.(fs_inorder) = true ->
  fh_itch_parse_pkt cfg hooks clock (mold_header session seq_no count ++ rest) 20 st =
    Some (FH_OK, set_next_seq_no (if count =? 0 then Z.max st.(fs_next_seq_no) seq_no else 1)
                   (count_stat Bytes 20 st)).
Proof.
  intros Hs Hq Hc Hg Hin. unfold fh_itch_parse_pkt. rewrite pkt_begin_quiet by done.
  cbn [mbind option_bind]. change (20 <? FH_ITCH_MOLDUDP64_SIZE) with false. cbn iota.
  destruct (moldudp64_header session seq_no count rest Hs Hq) as (-> & _ & _); [lia|].
  cbn [mbind option_bind md_msg_count md_seq_no]. cbn [fs_next_seq_no count_stat].
  destruct Hc as [-> | ->]; [|done]. change (0 =? 0) with true. cbn iota. do 2 f_equal.
  destruct (_ <? _) eqn:E; bool_to_prop; [by rewrite Z.max_r by lia|].
  rewrite Z.max_l by lia. by destruct st.
Qed.

Lemma itch_control_packets_witness :
  exists gl, fh_itch_parse_pkt demo_cfg demo_hooks (fun _ => 100)
      (mold_header (replicate 10 48) 900 0 ++ []) 20 (demo_state (Some gl) 1 tt) =
    Some (FH_OK, set_next_seq_no 900 (count_stat Bytes 20 (demo_state (Some gl) 1 tt))).
Proof.
  destruct (gap_new_repr 64 4096 4 30) as (gl & _ & Hr & _); [lia..|].
  exists gl. apply (itch_control_packets demo_cfg demo_hooks (fun _ => 100) (replicate 10 48) 900 0 []);
    [done | lia | by left | | done].
  intros gl' [= <-]. exact (gr_count _ _ Hr).
Defined.

(** Without a gap list ([gap_list_max = 0]) every packet of messages that
    are processed with success ends in the dereference of a [NULL] gap list. *)
Theorem itch_no_gaplist_crash {W} cfg (hooks : itch_hooks W) session ms ws clock rest st cap b :
  Forall2 item_on_wire ms ws -> length session = 10%nat -> ms <> [] -> Z.of_nat (length ms) < 65535 ->
  book_inv cfg st cap b -> hooks_accept hooks -> time_ok st.(fs_timestamp) ->
  0 <= st.(fs_next_seq_no) -> st.(fs_next_seq_no) + Z.of_nat (length ms) < 18446744073709551616 ->
  st.(fs_gaplist) = None -> st.(fs_inorder) = true ->
  let packet := packet_of session st.(fs_next_seq_no) ws in
  fh_itch_parse_pkt cfg hooks clock (packet ++ rest) (Z.of_nat (length packet)) st = None.
Proof.
  intros Hw Hs Hne Hlen Hb Ha Ht H0 Hmax Hgl Hin packet.
  destruct (pkt_wire cfg hooks session ms ws clock rest st
    (count_stat Bytes (Z.of_nat (length packet)) st) cap b) as (st' & E & _ & _ & _ & Egl & _); try done.
  { apply pkt_begin_quiet; [|done]. intros gl' E. congruence. }
  cbn [fs_next_seq_no count_stat] in E. fold packet in E. rewrite E.
  unfold itch_pkt_end, itch_gap_count. cbn in Egl. by rewrite Egl, Hgl.
Qed.

Lemma itch_no_gaplist_crash_witness :
  fh_itch_parse_pkt demo_cfg demo_hooks (fun _ => 100)
    (packet_of (replicate 10 48) 1 [[83; 79]] ++ []) 24 (demo_state None 1 tt) = None.
Proof.
  apply (itch_no_gaplist_crash demo_cfg demo_hooks (replicate 10 48) [IMsg (WSystem 79)] [[83; 79]]
    (fun _ => 100) [] (demo_state None 1 tt) 0 ∅); try done. repeat constructor.
Defined.
