(* ===== verification/ItchBook.v ===== *)
(** * What the ITCH parser delivers

    Properties of the messages handed to the plugins and of the order book
    that the order table keeps; the wire format is in [ItchWire.v]. *)
From S2P Require Import Prelude Bytes Mpool GapFill HTable Lookup Conn Feed FeedProps Decimal ItchMsg ItchParse ItchProps ItchWire.

(** ** A configuration with an order table *)

Definition book_cfg : feed_config := MkFeedCfg false true 4 30.
Definition quiet_hooks : itch_hooks unit := MkItchHooks None None (fun _ => None).

Definition book_state {W} (gl : option gap_list) (t : ord_tbl) (next : Z) (w : W) : feed_state W :=
  MkFeed next 0 stats_zero (MkTbl None None 0 0 ∅) t gl NULL true w.

Lemma quiet_accept : hooks_accept quiet_hooks.
Proof. by split. Qed.

(** An empty order table of [size] entries, as [fh_shr_lkp_ord_init] leaves it. *)
Lemma book_table size : 0 < size <= 19000000 ->
  exists t, fh_shr_lkp_ord_init
      (MkAllocs true true (Some 4096) true true true true (Some 65536)) true size = (FH_OK, t) /\
    table_book t size ∅.
Proof.
  intros Hs. destruct (lkp_init_spec ord_key_of sizeof_ord_key "OrderTable" sizeof_ord 4096 65536 size)
    as (t & E & Hr & _); [done | done | done | lia | unfold sizeof_ord; lia |].
  exists t. split; [exact E|]. exists ∅. split; [exact Hr|]. by constructor.
Qed.

Lemma field_is_field w n z : (n <= w)%nat -> 0 <= z < 10 ^ Z.of_nat n -> is_field w (field w n z) z.
Proof. intros. by exists n. Qed.

Definition price_field (z : Z) : list Z := field 6 6 (z / 10000) ++ digits 4 (z mod 10000).

Lemma price_field_is_price z : 0 <= z < 10000000000 -> is_price (price_field z) z.
Proof.
  intros Hz. exists (field 6 6 (z / 10000)). split; [done|]. split; [|lia].
  apply field_is_field; [done|]. change (10 ^ Z.of_nat 6) with 1000000.
  split; [apply Z.div_pos; lia | apply Z.div_lt_upper_bound; lia].
Qed.

Definition aapl : list Z := [65; 65; 80; 76; 32; 32].

(** Half past nine; order 7, 100 shares at 12.5; 40 of them executed; 125
    milliseconds later, the rest moved to order 9. *)
Definition demo_msgs : list itch_item :=
  [ISeconds 34200; IMsg (WOrderAdd 7 66 100 aapl 125000); IMsg (WOrderExe 7 40 5001);
   IMillis 125; IMsg (WOrderReplace 7 9 60 126000)].
Definition demo_wire : list (list Z) :=
  [ 84 :: field 5 5 34200;
    65 :: field 12 1 7 ++ 66 :: field 6 3 100 ++ aapl ++ price_field 125000;
    69 :: field 12 1 7 ++ field 6 2 40 ++ field 12 4 5001;
    77 :: field 3 3 125;
    85 :: field 12 1 7 ++ field 12 1 9 ++ field 6 2 60 ++ price_field 126000 ].

Lemma demo_on_wire : Forall2 item_on_wire demo_msgs demo_wire.
Proof.
  repeat constructor; try done;
    try (apply field_is_field; [lia | done]); apply price_field_is_price; lia.
Qed.

(** ** Properties *)

(** C3: an in-order packet. The packet of any messages of the feed, the two
    time messages among them, laid out as their specification says, on a line
    with no gaps, at the line's next number, with plugins that accept every
    message: it is parsed with success, the line advances by the number of
    messages, each is counted, the connection's time is the one the time
    messages set, and the order table ends up holding the order book that the
    messages describe (adds, executions, cancels, deletes and replaces applied
    one after the other to a book of at most [cap] orders; prices as
    [price_parsed], shares left as a 32-bit count). *)
Theorem itch_pkt_in_order {W} cfg (hooks : itch_hooks W) session ms ws clock rest st gl cap b :
  Forall2 item_on_wire ms ws -> length session = 10%nat -> ms <> [] ->
  Z.of_nat (length ms) < 65535 ->
  book_inv cfg st cap b -> hooks_accept hooks -> time_ok st.(fs_timestamp) ->
  0 <= st.(fs_next_seq_no) -> st.(fs_next_seq_no) + Z.of_nat (length ms) < 18446744073709551616 ->
  st.(fs_gaplist) = Some gl -> gl.(gl_count) = 0 -> st.(fs_inorder) = true ->
  let packet := packet_of session st.(fs_next_seq_no) ws in
  let len := Z.of_nat (length packet) in
  exists st', fh_itch_parse_pkt cfg hooks clock (packet ++ rest) len st = Some (FH_OK, st') /\
    book_inv cfg st' cap (foldl (book_item cap) b ms) /\
    st'.(fs_timestamp) = foldl time_item st.(fs_timestamp) ms /\
    st'.(fs_next_seq_no) = st.(fs_next_seq_no) + Z.of_nat (length ms) /\
    st'.(fs_gaplist) = Some gl /\ st'.(fs_inorder) = true /\
    st'.(fs_stats) =
      Nat.iter (length ms) (stat_add Messages 1) (stat_add Bytes len st.(fs_stats)).
Proof.
  intros Hw Hs Hne Hlen Hb Ha Ht H0 Hmax Hgl Hc Hin packet len.
  destruct (pkt_wire cfg hooks session ms ws clock rest st (count_stat Bytes len st) cap b)
    as (st' & E & Hb' & Ht' & Hn' & Egl & Ein & Est); try done.
  { apply pkt_begin_quiet; [|done]. intros gl' E. congruence. }
  cbn [fs_next_seq_no count_stat] in E. fold packet len in E. rewrite E.
  unfold itch_pkt_end, itch_gap_count. cbn in Egl, Ein. rewrite Egl, Hgl, Ein, Hin.
  cbn [mbind option_bind]. rewrite Hc. cbn [Z.ltb Z.compare].
  exists st'. split; [done|]. split; [done|]. split; [done|]. split; [done|]. split; [congruence|].
  split; [congruence | done].
Qed.

Lemma itch_pkt_in_order_witness :
  exists t gl st', table_book t 4 ∅ /\
    fh_itch_parse_pkt book_cfg quiet_hooks (fun _ => 100)
      (packet_of (replicate 10 48) 1 demo_wire ++ []) 148 (book_state (Some gl) t 1 tt) =
      Some (FH_OK, st') /\
    table_book st'.(fs_order_table) 4 {[ 9 := MkOrder 126000 60 66 aapl ]} /\
    st'.(fs_timestamp) = 34200125 /\ st'.(fs_next_seq_no) = 6 /\ st'.(fs_stats).(messages) = 5.
Proof.
  destruct (book_table 4) as (t & _ & Ht); [lia|].
  destruct (gap_new_repr 64 4096 4 30) as (gl & _ & Hr & _); [lia..|].
  pose proof (gr_count _ _ Hr) as Hc.
  assert (Hb : book_inv book_cfg (book_state (Some gl) t 1 tt) 4 ∅) by (split; [done | intros _; exact Ht]).
  destruct (itch_pkt_in_order book_cfg quiet_hooks (replicate 10 48) demo_msgs demo_wire
    (fun _ => 100) [] (book_state (Some gl) t 1 tt) gl 4 ∅ demo_on_wire eq_refl) as
    (st' & E & [_ Hb'] & Et & En & _ & _ & Es); [done | done | exact Hb | exact quiet_accept | done
      | done | done | done | exact Hc | done |].
  exists t, gl, st'. split; [exact Ht|]. split; [exact E|]. split; [exact (Hb' eq_refl)|].
  split; [exact Et|]. split; [exact En|]. rewrite Es. reflexivity.
Defined.

(** C4: delivery. Every message but the two time messages (which no plugin
    gets) is handed on as it was sent: the handler makes the message struct of
    every field of the message, the line's next sequence number and the
    connection's time; a plugin that hooks messages of its kind gets this
    struct, and its code and data are the result, and without one the struct
    itself is. A price is exact below 500000.0000, from there on it is too
    small by [2^32] or twice that ([price_parsed]). The order entry that comes
    with it is [NULL] or an entry of that order, the order table holds the book
    after the message, and the sequencing state is not touched. *)
Theorem itch_msg_delivered {W} cfg (hooks : itch_hooks W) m w rest st cap b :
  on_wire m w -> book_inv cfg st cap b ->
  exists sym ord st',
    let '(kind, body) := delivered m sym ord in
    let message := MkMsg st.(fs_next_seq_no) (u32 st.(fs_timestamp)) body (w ++ rest)
                     (Z.of_nat (length w)) in
    itch_dispatch cfg hooks (wire_type m) (w ++ rest) (Z.of_nat (length w)) st =
      match hooks.(hook_msg) kind with
      | Some f =>
          let '(rc, (data, data_length), world) := f message st.(fs_world) in
          Some (rc =? FH_OK, DHook data data_length, set_world world st')
      | None => Some (true, DLocal message, st')
      end /\
    same_seq st st' /\ book_inv cfg st' cap (book_msg cap m b) /\
    (forall no, order_of m = Some no -> entry_for st' ord no).
Proof.
  intros Hw Hb. pose proof (length_on_wire _ _ Hw) as Hl.
  destruct (itch_dispatch_wire cfg hooks m w rest st cap b Hw Hb)
    as (sym & ord & st' & E & (Hb' & Hs & [= Ht Hwld]) & He).
  exists sym, ord, st'. destruct (delivered m sym ord) as [kind body]. rewrite E.
  split; [|split; [exact Hs | split; [exact Hb' | exact He]]].
  unfold itch_finish. rewrite Ht, (proj1 Hs), Hwld, (u32_small (Z.of_nat _)) by lia.
  destruct (hook_msg hooks kind) as [f|]; [|done]. by destruct (f _ _) as [[rc [d l]] w'].
Qed.

(** A plugin that keeps the kinds of the messages it gets. *)
Definition kind_hooks : itch_hooks (list itch_kind) :=
  MkItchHooks None None (fun k => Some (fun _ w => (FH_OK, (7, 4), k :: w))).

Lemma itch_msg_delivered_witness :
  exists t sym ord st', itch_dispatch book_cfg quiet_hooks 65
      ((65 :: field 12 1 7 ++ 66 :: field 6 3 100 ++ aapl ++ price_field 125000) ++ []) 36
      (book_state None t 1 tt) =
    Some (true, DLocal (MkMsg 1 0 (MOrderAdd 7 125000 100 66 aapl sym ord)
      ((65 :: field 12 1 7 ++ 66 :: field 6 3 100 ++ aapl ++ price_field 125000) ++ []) 36), st') /\
  exists st'', itch_dispatch book_cfg kind_hooks 83 ([83; 79] ++ []) 2 (book_state None t 1 []) =
    Some (true, DHook 7 4, st'') /\ st''.(fs_world) = [KSystem].
Proof.
  destruct (book_table 4) as (t & _ & Ht); [lia|].
  assert (Hb : forall W (x : W), book_inv book_cfg (book_state None t 1 x) 4 ∅)
    by (intros; split; [done | intros _; exact Ht]).
  assert (Hw : on_wire (WOrderAdd 7 66 100 aapl 125000)
      (65 :: field 12 1 7 ++ 66 :: field 6 3 100 ++ aapl ++ price_field 125000)).
  { constructor; [apply field_is_field; [lia | done] | apply field_is_field; [lia | done] | done
      | apply price_field_is_price; lia]. }
  destruct (itch_msg_delivered book_cfg quiet_hooks _ _ [] _ 4 ∅ Hw (Hb unit tt))
    as (sym & ord & st' & E & _).
  destruct (itch_msg_delivered book_cfg kind_hooks (WSystem 79) [83; 79] [] _ 4 ∅
    (wire_system 79) (Hb _ [])) as (sym2 & ord2 & st2 & E2 & _).
  exists t, sym, ord, st'. split; [exact E|]. exists (set_world [KSystem] st2).
  split; [exact E2 | done].
Defined.

(** Executing or cancelling more shares than an order has does not remove
    it: the count of shares is unsigned, so the test for [shares <= 0] misses
    and the order stays on the table with about four billion shares. *)
Theorem itch_over_execution {W} cfg (hooks : itch_hooks W) no n w rest st cap b o :
  on_wire (WOrderCancel no n) w -> book_inv cfg st cap b -> b !! no = Some o ->
  0 <= o.(o_shares) < n -> cfg.(order_table_enabled) = true ->
  exists ok data st',
    itch_dispatch cfg hooks 88 (w ++ rest) (Z.of_nat (length w)) st = Some (ok, data, st') /\
    table_book st'.(fs_order_table) cap
      (<[no := MkOrder o.(o_price) (4294967296 - (n - o.(o_shares))) o.(o_buy_sell_ind) o.(o_stock)]> b).
Proof.
  intros Hw Hb Ho Hn Hen.
  destruct (itch_dispatch_wire cfg hooks _ w rest st cap b Hw Hb) as (sym & ord & st1 & E & [Hb1 _] & _).
  cbn [delivered wire_type] in E. rewrite E. pose proof (finish_book cfg hooks KOrderCancel
    (MOrderCancel no n ord) (w ++ rest) (Z.of_nat (length w)) st1 cap _ Hb1) as Hf.
  destruct (itch_finish _ _ _ _ _ _) as [[rc data] st2]. destruct Hf as [Hb2 _].
  do 3 eexists. split; [done|]. pose proof (proj2 Hb2 Hen) as Ht.
  inversion Hw as [| | | | | | | | ? ? ? ? _ Hfn | | | | | |]. subst.
  pose proof (field6_range _ _ Hfn).
  cbn [book_msg] in Ht. unfold book_reduce in Ht. rewrite Ho in Ht. cbv zeta in Ht.
  assert (Eu : u32 (o_shares o - n) = 4294967296 - (n - o_shares o)).
  { unfold u32. rewrite <- (Z.mod_add _ 1) by lia. rewrite Z.mod_small; lia. }
  rewrite Eu in Ht. rewrite eqb_false_of_ne in Ht by lia. exact Ht.
Qed.

Lemma itch_over_execution_witness :
  exists t ok data st', table_book t 4 {[ 7 := MkOrder 125000 100 66 aapl ]} /\
    itch_dispatch book_cfg quiet_hooks 88 ((88 :: field 12 1 7 ++ field 6 3 101) ++ []) 19
      (book_state None t 1 tt) = Some (ok, data, st') /\
    table_book st'.(fs_order_table) 4 {[ 7 := MkOrder 125000 4294967295 66 aapl ]}.
Proof.
  destruct (book_table 4) as (t0 & _ & Ht0); [lia|].
  destruct (table_book_add t0 4 ∅ 7 (MkOrder 125000 100 66 aapl) NULL 125000 100 (order_no_key 0) Ht0)
    as (rc & p & t & _ & Ht & _); [done..|].
  assert (Hb : book_inv book_cfg (book_state None t 1 tt) 4 {[ 7 := MkOrder 125000 100 66 aapl ]})
    by (split; [done | intros _; exact Ht]).
  assert (Hw : on_wire (WOrderCancel 7 101) (88 :: field 12 1 7 ++ field 6 3 101))
    by (constructor; apply field_is_field; (lia || done)).
  destruct (itch_over_execution book_cfg quiet_hooks 7 101 _ [] _ 4 _ _ Hw Hb eq_refl)
    as (ok & data & st' & E & Ht'); [done | done |].
  exists t, ok, data, st'. split; [exact Ht|]. split; [exact E | exact Ht'].
Defined.

(** Number fields. A number of up to [w <= 19] digits, padded with
    spaces on the left, is parsed to itself. *)
Theorem itch_atoi_field pre l post w z :
  is_field w l z -> (w <= 19)%nat ->
  fh_itch_parse_atoi (pre ++ l ++ post) (Z.of_nat (length pre)) w = Some z.
Proof. apply parse_atoi_field. Qed.

Lemma itch_atoi_field_witness :
  fh_itch_parse_atoi ([69] ++ field 12 4 5001 ++ [65]) 1 12 = Some 5001 /\
  field 6 3 100 = [32; 32; 32; 49; 48; 48].
Proof.
  split; [|reflexivity].
  apply (itch_atoi_field [69] (field 12 4 5001) [65] 12 5001);
    [apply field_is_field; [lia | done] | lia].
Defined.

(** Price fields. A price of six digits and four decimals is parsed to
    the price in ten-thousandths when it is below 500000; above, the product
    of the first digit and [10^9] is taken in 32 bits, and the price comes out
    [2^32] (from 900000, twice [2^32]) too small. *)
Theorem itch_price_field pre l post z :
  is_price l z ->
  fh_itch_parse_price (pre ++ l ++ post) (Z.of_nat (length pre)) =
    Some (z - (if z <? 5000000000 then 0 else if z <? 9000000000 then 4294967296 else 8589934592)).
Proof.
  apply parse_price_exact.
Qed.

Lemma itch_price_field_witness :
  fh_itch_parse_price (price_field 4999999999) 0 = Some 4999999999 /\
  fh_itch_parse_price (price_field 5000000000) 0 = Some 705032704.
Proof.
  split.
  - pose proof (itch_price_field [] (price_field 4999999999) [] _ (price_field_is_price 4999999999 ltac:(lia))) as H.
    rewrite app_nil_r in H. exact H.
  - pose proof (itch_price_field [] (price_field 5000000000) [] _ (price_field_is_price 5000000000 ltac:(lia))) as H.
    rewrite app_nil_r in H. exact H.
Defined.
