(* ===== verification/BatsParse.v ===== *)
(** * The BATS parser ([src/feeds/bats/multicast/common/fh_bats_parse.c],
    [fh_bats_pitch20_msg.h])

    PITCH 2.0 messages in sequenced unit packets. As in the ITCH parser, a
    buffer is the bytes from the message to the end of the receive buffer. *)
From S2P Require Import Prelude Bytes Mpool GapFill HTable Lookup Conn Feed.

(** ** Messages *)

Definition TIME_MESSAGE_TYPE : Z := 0x20.
Definition ADD_ORDER_LONG_MESSAGE_TYPE : Z := 0x21.
Definition ADD_ORDER_SHORT_MESSAGE_TYPE : Z := 0x22.
Definition ORDER_EXECUTED_MESSAGE_TYPE : Z := 0x23.
Definition ORDER_EXECUTE_PRICE_MESSAGE_TYPE : Z := 0x24.
Definition REDUCE_SIZE_LONG_MESSAGE_TYPE : Z := 0x25.
Definition REDUCE_SIZE_SHORT_MESSAGE_TYPE : Z := 0x26.
Definition MODIFY_LONG_MESSAGE_TYPE : Z := 0x27.
Definition MODIFY_SHORT_MESSAGE_TYPE : Z := 0x28.
Definition DELETE_ORDER_MESSAGE_TYPE : Z := 0x29.
Definition TRADE_LONG_MESSAGE_TYPE : Z := 0x2A.
Definition TRADE_SHORT_MESSAGE_TYPE : Z := 0x2B.
Definition TRADE_BREAK_MESSAGE_TYPE : Z := 0x2C.
Definition END_OF_SESSION_MESSAGE_TYPE : Z := 0x2D.

Definition FH_BATS_SEQUENCE_UNIT_HEADER_SIZE : Z := 8.
Definition FH_BATS_ADD_ORDER_LONG_MSG_SIZE : Z := 34.
Definition FH_BATS_ADD_ORDER_SHORT_MSG_SIZE : Z := 26.
Definition FH_BATS_ORDER_EXECUTED_MSG_SIZE : Z := 26.
Definition FH_BATS_ORDER_EXECUTE_PRICE_MSG_SIZE : Z := 38.
Definition FH_BATS_REDUCE_SIZE_LONG_MSG_SIZE : Z := 18.
Definition FH_BATS_REDUCE_SIZE_SHORT_MSG_SIZE : Z := 16.
Definition FH_BATS_MODIFY_LONG_MSG_SIZE : Z := 27.
Definition FH_BATS_MODIFY_SHORT_MSG_SIZE : Z := 19.
Definition FH_BATS_DELETE_ORDER_MSG_SIZE : Z := 14.
Definition FH_BATS_TRADE_LONG_MSG_SIZE : Z := 41.
Definition FH_BATS_TRADE_SHORT_MSG_SIZE : Z := 33.
Definition FH_BATS_TRADE_BREAK_MSG_SIZE : Z := 14.
Definition FH_BATS_END_OF_SESSION_MSG_SIZE : Z := 6.

(** The sequenced unit header of a packet. *)
Record sequenced_unit_header := MkUnit {
  uh_hdr_length : Z;    (* uint16_t *)
  uh_msg_count : Z;     (* uint8_t *)
  uh_unit : Z;          (* uint8_t *)
  uh_seq_no : Z         (* uint32_t *)
}.

Definition fh_bats_pitch20_extract (buf : list Z) : option sequenced_unit_header :=
  hdr_length ← read_le buf 0 2;
  count ← read_le buf 2 2;
  seq_no ← read_le buf 4 4;
  unit ← byte_at buf 3;
  Some (MkUnit hdr_length (u8 count) unit seq_no).

(** The fields of each struct but the header and the raw message. *)
Inductive bats_body :=
  | BAddOrderLong (order_id side shares : Z) (stock : list Z) (price add_flags sym_entry ord_entry : Z)
  | BAddOrderShort (order_id side shares : Z) (stock : list Z) (price add_flags sym_entry ord_entry : Z)
  | BOrderExecute (order_id shares exec_id ord_entry : Z)
  | BOrderExecutePrice (order_id shares rem_shares exec_id price ord_entry : Z)
  | BReduceSizeLong (order_id shares ord_entry : Z)
  | BReduceSizeShort (order_id shares ord_entry : Z)
  | BModifyLong (order_id shares price modify_flags ord_entry : Z)
  | BModifyShort (order_id shares price modify_flags ord_entry : Z)
  | BDeleteOrder (order_id : Z)
  | BTradeLong (order_id side shares : Z) (stock : list Z) (price execution_id : Z)
  | BTradeShort (order_id side shares : Z) (stock : list Z) (price execution_id : Z)
  | BTradeBreak (execution_id : Z)
  | BEndOfSession.

(** A message struct. [None] is a field that is never assigned (the sequence
    number of an end of session message). *)
Record bats_msg := MkBats {
  bm_type : Z;
  bm_seq_no : option Z;
  bm_timestamp : Z;
  bm_body : bats_body;
  bm_raw : list Z;
  bm_raw_len : Z
}.

(** Which hook a message goes to. *)
Inductive bats_kind :=
  | BkAddOrderLong | BkAddOrderShort | BkOrderExe | BkOrderExePrice | BkReduceSizeLong
  | BkReduceSizeShort | BkModifyOrderLong | BkModifyOrderShort | BkOrderDelete | BkTradeLong
  | BkTradeShort | BkTradeBreak | BkEndOfSession.

(** What [*data] points to: the message in the packet ([*data_length] is its
    length), or whatever the message hook chose. *)
Inductive bats_data :=
  | BdNone
  | BdBuffer (buffer : list Z) (data_length : Z)
  | BdHook (data data_length : Z).

Record bats_hooks (W : Type) := MkBatsHooks {
  bats_hook_alert : alert_hook W;
  bats_hook_msg_send : option (bats_data -> W -> Z * W);
  bats_hook_msg : bats_kind -> option (bats_msg -> W -> Z * (Z * Z) * W)
}.
Arguments MkBatsHooks {W}.
Arguments bats_hook_alert {W}.
Arguments bats_hook_msg_send {W}.
Arguments bats_hook_msg {W}.

Section bats.
Context {W : Type} (cfg : feed_config) (hooks : bats_hooks W).
Notation st_t := (feed_state W).
Notation alert := (feed_alert hooks.(bats_hook_alert)).

(** The fields every handler starts with: type and time stamp. *)
Definition bats_header (buffer : list Z) (st : st_t) : option (Z * Z) :=
  msg_type ← byte_at buffer 1;
  offset ← read_le buffer 2 4;
  Some (msg_type, u64 (st.(fs_timestamp) + offset)).

(** The end of every handler: the message hook. *)
Definition bats_finish (kind : bats_kind) (message : bats_msg) (buffer : list Z)
    (msg_length : Z) (st : st_t) : Z * bats_data * st_t :=
  match hooks.(bats_hook_msg) kind with
  | Some f =>
      let '(rc, (data, data_length), w) := f message st.(fs_world) in
      (rc, BdHook data data_length, set_world w st)
  | None => (FH_OK, BdBuffer buffer msg_length, st)
  end.

(** ** The order table *)

Definition bats_add_order (order_id price shares side : Z) (stock : list Z) (sym_entry : Z)
    (st : st_t) : option (Z * st_t) :=
  if cfg.(order_table_enabled) then
    let entry := MkOrd (order_no_key order_id) order_id (replicate 20 0) price shares side
                   stock sym_entry NULL in
    '(rc, ord_entry, tbl) ← fh_shr_lkp_ord_add st.(fs_order_table) entry;
    Some (if negb (rc =? FH_OK) then NULL else ord_entry, set_order_table tbl st)
  else Some (NULL, st).

(** Fetch an order and change its entry in place; [f] says how, [None] leaves
    it alone. *)
Definition bats_update_order (order_id : Z) (f : fh_shr_lkp_ord -> option fh_shr_lkp_ord)
    (st : st_t) : option (Z * st_t) :=
  if cfg.(order_table_enabled) then
    let tbl := st.(fs_order_table) in
    '(rc, entry) ← fh_shr_lkp_ord_get tbl (order_no_key order_id);
    if rc =? FH_OK then
      e ← tbl.(tbl_entries) !! entry;
      match f e with
      | Some e => Some (entry, set_order_table (tbl_write tbl entry e) st)
      | None => Some (entry, st)
      end
    else Some (entry, st)
  else Some (NULL, st).

Definition ord_set_price (v : Z) (e : fh_shr_lkp_ord) : fh_shr_lkp_ord :=
  MkOrd e.(ord_key) e.(ord_order_no) e.(ord_order_no_str) v e.(ord_shares)
    e.(ord_buy_sell_ind) e.(ord_stock) e.(ord_sym_entry) e.(ord_context).

(** [fh_bats_parse_order_execute_msg]: an order executed in full stays on the
    table with no shares. *)
Definition bats_execute (shares : Z) (e : fh_shr_lkp_ord) : option fh_shr_lkp_ord :=
  if shares <=? e.(ord_shares) then Some (ord_set_shares (u32 (e.(ord_shares) - shares)) e)
  else None.

Definition bats_reduce (shares : Z) (e : fh_shr_lkp_ord) : option fh_shr_lkp_ord :=
  Some (ord_set_shares (u32 (e.(ord_shares) - shares)) e).

Definition bats_modify (shares price : Z) (e : fh_shr_lkp_ord) : option fh_shr_lkp_ord :=
  Some (ord_set_price price (ord_set_shares shares e)).

(** [fh_bats_parse_order_execute_price_msg]: [message.ord_entry] still points
    to an entry that was removed. *)
Definition bats_execute_price (order_id rem_shares price : Z) (st : st_t) : option (Z * st_t) :=
  if cfg.(order_table_enabled) then
    let key := order_no_key order_id in
    let tbl := st.(fs_order_table) in
    '(rc, ord_entry) ← fh_shr_lkp_ord_get tbl key;
    if rc =? FH_OK then
      if rem_shares =? 0 then
        '(_, _, tbl) ← fh_shr_lkp_ord_del tbl key;
        Some (ord_entry, set_order_table tbl st)
      else
        (* the two other branches assign the same *)
        e ← tbl.(tbl_entries) !! ord_entry;
        Some (ord_entry, set_order_table
          (tbl_write tbl ord_entry (ord_set_price price (ord_set_shares rem_shares e))) st)
    else Some (ord_entry, st)
  else Some (NULL, st).

Definition bats_delete_order (order_id : Z) (st : st_t) : option st_t :=
  if cfg.(order_table_enabled) then
    '(_, _, tbl) ← fh_shr_lkp_ord_del st.(fs_order_table) (order_no_key order_id);
    Some (set_order_table tbl st)
  else Some st.

(** ** Message handlers *)

Definition bats_result : Type := option (Z * bats_data * st_t).

Definition fh_bats_parse_add_order_long_msg (buffer : list Z) (msg_length : Z) (st : st_t)
    : bats_result :=
  if negb (msg_length =? FH_BATS_ADD_ORDER_LONG_MSG_SIZE) then Some (FH_ERROR, BdNone, st)
  else
    '(ty, ts) ← bats_header buffer st;
    order_id ← read_le buffer 6 8;
    side ← byte_at buffer 14;
    shares ← read_le buffer 15 4;
    stock ← read_bytes buffer 19 6;
    price ← read_le buffer 25 8;
    add_flags ← byte_at buffer 33;
    '(sym_entry, st) ← fetch_symbol cfg stock st;
    '(ord_entry, st) ← bats_add_order order_id price shares side stock sym_entry st;
    Some (bats_finish BkAddOrderLong (MkBats ty (Some st.(fs_next_seq_no)) ts
      (BAddOrderLong order_id side shares stock price (s8 add_flags) sym_entry ord_entry)
      buffer FH_BATS_ADD_ORDER_LONG_MSG_SIZE) buffer msg_length st).

Definition fh_bats_parse_add_order_short_msg (buffer : list Z) (msg_length : Z) (st : st_t)
    : bats_result :=
  if negb (msg_length =? FH_BATS_ADD_ORDER_SHORT_MSG_SIZE) then Some (FH_ERROR, BdNone, st)
  else
    '(ty, ts) ← bats_header buffer st;
    order_id ← read_le buffer 6 8;
    side ← byte_at buffer 14;
    shares ← read_le buffer 15 2;
    stock ← read_bytes buffer 17 6;
    p ← read_le buffer 23 2;
    let price := p * 100 in
    add_flags ← byte_at buffer 25;
    '(sym_entry, st) ← fetch_symbol cfg stock st;
    '(ord_entry, st) ← bats_add_order order_id price shares side stock sym_entry st;
    Some (bats_finish BkAddOrderShort (MkBats ty (Some st.(fs_next_seq_no)) ts
      (BAddOrderShort order_id side shares stock price (s8 add_flags) sym_entry ord_entry)
      buffer FH_BATS_ADD_ORDER_SHORT_MSG_SIZE) buffer msg_length st).

Definition fh_bats_parse_order_execute_msg (buffer : list Z) (msg_length : Z) (st : st_t)
    : bats_result :=
  if negb (msg_length =? FH_BATS_ORDER_EXECUTED_MSG_SIZE) then Some (FH_ERROR, BdNone, st)
  else
    '(ty, ts) ← bats_header buffer st;
    order_id ← read_le buffer 6 8;
    shares ← read_le buffer 14 4;
    exec_id ← read_le buffer 18 8;
    '(ord_entry, st) ← bats_update_order order_id (bats_execute shares) st;
    Some (bats_finish BkOrderExe (MkBats ty (Some st.(fs_next_seq_no)) ts
      (BOrderExecute order_id shares exec_id ord_entry)
      buffer FH_BATS_ORDER_EXECUTED_MSG_SIZE) buffer msg_length st).

Definition fh_bats_parse_order_execute_price_msg (buffer : list Z) (msg_length : Z) (st : st_t)
    : bats_result :=
  if negb (msg_length =? FH_BATS_ORDER_EXECUTE_PRICE_MSG_SIZE) then Some (FH_ERROR, BdNone, st)
  else
    '(ty, ts) ← bats_header buffer st;
    order_id ← read_le buffer 6 8;
    shares ← read_le buffer 14 4;
    rem_shares ← read_le buffer 18 4;
    exec_id ← read_le buffer 22 8;
    price ← read_le buffer 30 8;
    '(ord_entry, st) ← bats_execute_price order_id rem_shares price st;
    Some (bats_finish BkOrderExePrice (MkBats ty (Some st.(fs_next_seq_no)) ts
      (BOrderExecutePrice order_id shares rem_shares exec_id price ord_entry)
      buffer FH_BATS_ORDER_EXECUTE_PRICE_MSG_SIZE) buffer msg_length st).

Definition fh_bats_parse_reduce_size_long_msg (buffer : list Z) (msg_length : Z) (st : st_t)
    : bats_result :=
  if negb (msg_length =? FH_BATS_REDUCE_SIZE_LONG_MSG_SIZE) then Some (FH_ERROR, BdNone, st)
  else
    '(ty, ts) ← bats_header buffer st;
    order_id ← read_le buffer 6 8;
    shares ← read_le buffer 14 4;
    '(ord_entry, st) ← bats_update_order order_id (bats_reduce shares) st;
    Some (bats_finish BkReduceSizeLong (MkBats ty (Some st.(fs_next_seq_no)) ts
      (BReduceSizeLong order_id shares ord_entry)
      buffer FH_BATS_REDUCE_SIZE_LONG_MSG_SIZE) buffer msg_length st).

Definition fh_bats_parse_reduce_size_short_msg (buffer : list Z) (msg_length : Z) (st : st_t)
    : bats_result :=
  if negb (msg_length =? FH_BATS_REDUCE_SIZE_SHORT_MSG_SIZE) then Some (FH_ERROR, BdNone, st)
  else
    '(ty, ts) ← bats_header buffer st;
    order_id ← read_le buffer 6 8;
    shares ← read_le buffer 14 2;
    '(ord_entry, st) ← bats_update_order order_id (bats_reduce shares) st;
    Some (bats_finish BkReduceSizeShort (MkBats ty (Some st.(fs_next_seq_no)) ts
      (BReduceSizeShort order_id shares ord_entry)
      buffer FH_BATS_REDUCE_SIZE_SHORT_MSG_SIZE) buffer msg_length st).

Definition fh_bats_parse_modify_order_long_msg (buffer : list Z) (msg_length : Z) (st : st_t)
    : bats_result :=
  if negb (msg_length =? FH_BATS_MODIFY_LONG_MSG_SIZE) then Some (FH_ERROR, BdNone, st)
  else
    '(ty, ts) ← bats_header buffer st;
    order_id ← read_le buffer 6 8;
    shares ← read_le buffer 14 4;
    price ← read_le buffer 18 8;
    modify_flags ← byte_at buffer 26;
    '(ord_entry, st) ← bats_update_order order_id (bats_modify shares price) st;
    Some (bats_finish BkModifyOrderLong (MkBats ty (Some st.(fs_next_seq_no)) ts
      (BModifyLong order_id shares price modify_flags ord_entry)
      buffer FH_BATS_MODIFY_LONG_MSG_SIZE) buffer msg_length st).

Definition fh_bats_parse_modify_order_short_msg (buffer : list Z) (msg_length : Z) (st : st_t)
    : bats_result :=
  if negb (msg_length =? FH_BATS_MODIFY_SHORT_MSG_SIZE) then Some (FH_ERROR, BdNone, st)
  else
    '(ty, ts) ← bats_header buffer st;
    order_id ← read_le buffer 6 8;
    shares ← read_le buffer 14 2;
    p ← read_le buffer 16 2;
    let price := p * 100 in
    modify_flags ← byte_at buffer 18;
    '(ord_entry, st) ← bats_update_order order_id (bats_modify shares price) st;
    Some (bats_finish BkModifyOrderShort (MkBats ty (Some st.(fs_next_seq_no)) ts
      (BModifyShort order_id shares price modify_flags ord_entry)
      buffer FH_BATS_MODIFY_SHORT_MSG_SIZE) buffer msg_length st).

Definition fh_bats_parse_delete_order_msg (buffer : list Z) (msg_length : Z) (st : st_t)
    : bats_result :=
  if negb (msg_length =? FH_BATS_DELETE_ORDER_MSG_SIZE) then Some (FH_ERROR, BdNone, st)
  else
    '(ty, ts) ← bats_header buffer st;
    order_id ← read_le buffer 6 8;
    st ← bats_delete_order order_id st;
    Some (bats_finish BkOrderDelete (MkBats ty (Some st.(fs_next_seq_no)) ts
      (BDeleteOrder order_id) buffer FH_BATS_DELETE_ORDER_MSG_SIZE) buffer msg_length st).

Definition fh_bats_parse_trade_long_msg (buffer : list Z) (msg_length : Z) (st : st_t)
    : bats_result :=
  if negb (msg_length =? FH_BATS_TRADE_LONG_MSG_SIZE) then Some (FH_ERROR, BdNone, st)
  else
    '(ty, ts) ← bats_header buffer st;
    order_id ← read_le buffer 6 8;
    side ← byte_at buffer 14;
    shares ← read_le buffer 15 4;
    stock ← read_bytes buffer 19 6;
    price ← read_le buffer 25 8;
    execution_id ← read_le buffer 33 8;
    Some (bats_finish BkTradeLong (MkBats ty (Some st.(fs_next_seq_no)) ts
      (BTradeLong order_id side shares stock price execution_id)
      buffer FH_BATS_TRADE_LONG_MSG_SIZE) buffer msg_length st).

Definition fh_bats_parse_trade_short_msg (buffer : list Z) (msg_length : Z) (st : st_t)
    : bats_result :=
  if negb (msg_length =? FH_BATS_TRADE_SHORT_MSG_SIZE) then Some (FH_ERROR, BdNone, st)
  else
    '(ty, ts) ← bats_header buffer st;
    order_id ← read_le buffer 6 8;
    side ← byte_at buffer 14;
    shares ← read_le buffer 15 2;
    stock ← read_bytes buffer 17 6;
    p ← read_le buffer 23 2;
    let price := p * 100 in
    execution_id ← read_le buffer 25 8;
    Some (bats_finish BkTradeShort (MkBats ty (Some st.(fs_next_seq_no)) ts
      (BTradeShort order_id side shares stock price execution_id)
      buffer FH_BATS_TRADE_SHORT_MSG_SIZE) buffer msg_length st).

Definition fh_bats_parse_trade_break_msg (buffer : list Z) (msg_length : Z) (st : st_t)
    : bats_result :=
  if negb (msg_length =? FH_BATS_TRADE_BREAK_MSG_SIZE) then Some (FH_ERROR, BdNone, st)
  else
    '(ty, ts) ← bats_header buffer st;
    execution_id ← read_le buffer 6 8;
    Some (bats_finish BkTradeBreak (MkBats ty (Some st.(fs_next_seq_no)) ts
      (BTradeBreak execution_id) buffer FH_BATS_TRADE_BREAK_MSG_SIZE) buffer msg_length st).

Definition fh_bats_parse_end_of_session_msg (buffer : list Z) (msg_length : Z) (st : st_t)
    : bats_result :=
  if negb (msg_length =? FH_BATS_END_OF_SESSION_MSG_SIZE) then Some (FH_ERROR, BdNone, st)
  else
    '(ty, ts) ← bats_header buffer st;
    Some (bats_finish BkEndOfSession (MkBats ty None ts BEndOfSession
      buffer FH_BATS_END_OF_SESSION_MSG_SIZE) buffer msg_length st).

(** ** Messages *)

(** The [switch], but for its first case: whether the message was processed,
    [data] and the state. *)
Definition bats_dispatch (msg_type : Z) (buffer : list Z) (msg_length : Z) (st : st_t)
    : option (bool * bats_data * st_t) :=
  let handle (r : bats_result) := '(rc, data, st) ← r; Some (rc =? FH_OK, data, st) in
  if msg_type =? ADD_ORDER_LONG_MESSAGE_TYPE then
    handle (fh_bats_parse_add_order_long_msg buffer msg_length st)
  else if msg_type =? ADD_ORDER_SHORT_MESSAGE_TYPE then
    handle (fh_bats_parse_add_order_short_msg buffer msg_length st)
  else if msg_type =? ORDER_EXECUTED_MESSAGE_TYPE then
    handle (fh_bats_parse_order_execute_msg buffer msg_length st)
  else if msg_type =? ORDER_EXECUTE_PRICE_MESSAGE_TYPE then
    handle (fh_bats_parse_order_execute_price_msg buffer msg_length st)
  else if msg_type =? REDUCE_SIZE_LONG_MESSAGE_TYPE then
    handle (fh_bats_parse_reduce_size_long_msg buffer msg_length st)
  else if msg_type =? REDUCE_SIZE_SHORT_MESSAGE_TYPE then
    handle (fh_bats_parse_reduce_size_short_msg buffer msg_length st)
  else if msg_type =? MODIFY_LONG_MESSAGE_TYPE then
    handle (fh_bats_parse_modify_order_long_msg buffer msg_length st)
  else if msg_type =? MODIFY_SHORT_MESSAGE_TYPE then
    handle (fh_bats_parse_modify_order_short_msg buffer msg_length st)
  else if msg_type =? DELETE_ORDER_MESSAGE_TYPE then
    handle (fh_bats_parse_delete_order_msg buffer msg_length st)
  else if msg_type =? TRADE_LONG_MESSAGE_TYPE then
    handle (fh_bats_parse_trade_long_msg buffer msg_length st)
  else if msg_type =? TRADE_SHORT_MESSAGE_TYPE then
    handle (fh_bats_parse_trade_short_msg buffer msg_length st)
  else if msg_type =? TRADE_BREAK_MESSAGE_TYPE then
    handle (fh_bats_parse_trade_break_msg buffer msg_length st)
  else if msg_type =? END_OF_SESSION_MESSAGE_TYPE then
    handle (fh_bats_parse_end_of_session_msg buffer msg_length st)
  else Some (false, BdNone, count_stat MessageErrors 1 st).

(** The number of bytes used, or -1. [length] is what is left of the packet. *)
Definition fh_bats_parse_msg (buffer : list Z) (length : Z) (st : st_t) : option (Z * st_t) :=
  if length <? 1 then Some (-1, count_stat MessageErrors 1 st)
  else
    msg_length ← byte_at buffer 0;
    if length <? msg_length then Some (-1, count_stat MessageErrors 1 st)
    else if msg_length <? 6 then Some (-1, count_stat MessageErrors 1 st)
    else
      msg_type ← byte_at buffer 1;
      if msg_type =? TIME_MESSAGE_TYPE then
        t ← read_le buffer 2 4;
        Some (msg_length, set_timestamp (u64 (t * 1000000000)) st)
      else
        '(ok, data, st) ← bats_dispatch msg_type buffer msg_length st;
        if negb (ok : bool) then Some (-1, st)
        else
          match hooks.(bats_hook_msg_send) with
          | Some f =>
              let '(rc, w) := f data st.(fs_world) in
              let st := set_world w st in
              if negb (rc =? FH_OK) then Some (-1, st) else Some (msg_length, st)
          | None => Some (msg_length, st)
          end.

(** ** Sequencing *)

(** Whether the packet is a duplicate. [now] is what [time(NULL)] returns. *)
Definition fh_bats_parse_duplicate (now seq_no : Z) (st : st_t) : option (bool * st_t) :=
  st ← feed_flush hooks.(bats_hook_alert) now st;
  if seq_no <? st.(fs_next_seq_no) then
    gl ← st.(fs_gaplist);
    node ← fh_shr_gap_fill_find gl seq_no;
    Some (node =? NULL, set_gapnode node st)
  else if st.(fs_next_seq_no) <? seq_no then
    let st := count_stat Gaps 1 st in
    let gap_size := s32 (u64 (seq_no - st.(fs_next_seq_no))) in
    '(rc, st) ← match st.(fs_gaplist) with
    | Some gl =>
        '(rc, gl) ← fh_shr_gap_fill_push now gl st.(fs_next_seq_no) (u32 gap_size);
        let st := set_gaplist gl st in
        Some (if rc <? 0 then alert FH_ALERT_LOSS rc (count_stat LostMessages gap_size st)
              else if 0 <? rc then alert FH_ALERT_LOSS rc (count_stat LostMessages rc st)
              else (rc, st))
    | None =>
        (* [rc] may not be initialised here *)
        Some (alert FH_ALERT_LOSS 0 (count_stat LostMessages gap_size st))
    end;
    let st := set_next_seq_no seq_no st in
    Some (false, (alert FH_ALERT_GAP rc st).2)
  else Some (false, st).

(** The fill of a message's number in the gap [gapnode]: the number is the
    line's. *)
Definition bats_fill (st : st_t) : option st_t :=
  gl ← st.(fs_gaplist);
  '(rc, node, gl) ← fh_shr_gap_fill_del gl st.(fs_gapnode) st.(fs_next_seq_no);
  let st := set_gapnode node (set_gaplist gl st) in
  let '(rc, st) :=
    if rc =? 0 then (rc, count_stat RecoveredMessages 1 st)
    else if 0 <? rc then
      alert FH_ALERT_LOSS rc (count_stat RecoveredMessages 1 (count_stat LostMessages rc st))
    else (rc, st) in
  if st.(fs_gapnode) =? NULL then
    gl ← st.(fs_gaplist);
    if gl.(gl_count) <=? 0 then Some (alert FH_ALERT_NOGAP rc st).2 else Some st
  else Some st.

(** ** Packets *)

(** The loop over the messages of a packet. [next] is [next_packet_seqno];
    the loop ends early when a gap has been filled ([i = 10000]). *)
Fixpoint bats_msgs (n : nat) (packet : list Z) (length next : Z) (st : st_t)
    : option (Z * Z * st_t) :=
  match n with
  | O => Some (FH_OK, next, st)
  | S n =>
      '(used, st) ← fh_bats_parse_msg packet length st;
      if used <? 0 then Some (FH_ERROR, next, st)
      else
        '(filled, next, st) ←
          (if negb (st.(fs_gapnode) =? NULL) then
             st ← bats_fill st; Some (st.(fs_gapnode) =? NULL, next, st)
           else Some (false, u64 (next + 1), st));
        let st := count_stat Messages 1 (set_next_seq_no (u64 (st.(fs_next_seq_no) + 1)) st) in
        if filled : bool then Some (FH_OK, next, st)
        else bats_msgs n (drop (Z.to_nat used) packet) (length - used) next st
  end.

Definition fh_bats_parse_pkt (now : Z) (packet : list Z) (length : Z) (st : st_t)
    : option (Z * st_t) :=
  let st := count_stat Bytes length st in
  if length <? FH_BATS_SEQUENCE_UNIT_HEADER_SIZE then
    Some (FH_ERROR, count_stat PacketErrors 1 st)
  else
    h ← fh_bats_pitch20_extract packet;
    '(dup, st) ← fh_bats_parse_duplicate now h.(uh_seq_no) st;
    if dup : bool then Some (FH_OK, count_stat DuplicatePackets 1 st)
    else if h.(uh_msg_count) =? 0 then
      Some (FH_OK, if st.(fs_next_seq_no) <? h.(uh_seq_no)
                   then set_next_seq_no h.(uh_seq_no) st else st)
    else
      let next := if negb (st.(fs_gapnode) =? NULL) then st.(fs_next_seq_no) else h.(uh_seq_no) in
      let st := set_next_seq_no h.(uh_seq_no) st in
      '(rc, next, st) ← bats_msgs (Z.to_nat h.(uh_msg_count)) (drop 8 packet)
        (length - FH_BATS_SEQUENCE_UNIT_HEADER_SIZE) next st;
      Some (rc, set_next_seq_no next st).

(** The gap list part of [fh_bats_parse_init]; the hooks it caches are [hooks]. *)
Definition fh_bats_parse_init (mem_list : option Z) (mem_mp mem_name : bool)
    (arena : option Z) (st : st_t) : Z * st_t :=
  (FH_OK,
   if 0 <? cfg.(gap_list_max) then
     MkFeed st.(fs_next_seq_no) st.(fs_timestamp) st.(fs_stats) st.(fs_symbol_table)
       st.(fs_order_table)
       (fh_shr_gap_fill_new mem_list mem_mp mem_name arena (u32 cfg.(gap_list_max))
          (u32 cfg.(gap_timeout)))
       st.(fs_gapnode) st.(fs_inorder) st.(fs_world)
   else st).

End bats.
