(* ===== verification/BatsProps.v ===== *)
(** * What the BATS parser guarantees

    The handlers on messages of arbitrary bytes, the effect of each on the
    order book, and packets of arbitrary bytes. *)
From S2P Require Import Prelude Bytes Mpool GapFill HTable Lookup Conn Feed FeedProps BatsParse.

(** ** Reading integers *)

Lemma read_le_some buf off n : Forall is_byte buf -> 0 <= off ->
  off + Z.of_nat n <= Z.of_nat (length buf) ->
  exists v, read_le buf off n = Some v /\ 0 <= v < 256 ^ Z.of_nat n.
Proof.
  intros Hb H1 H2. unfold read_le. destruct (read_bytes_some buf off n H1 H2) as [l E].
  rewrite E. exists (le_val l). split; [done|].
  pose proof (read_bytes_is_byte _ _ _ _ Hb E) as Hl.
  apply read_bytes_spec in E as (<- & _). by apply le_val_range.
Qed.

Lemma read_le8_some buf off : Forall is_byte buf -> 0 <= off ->
  off + 8 <= Z.of_nat (length buf) -> exists v, read_le buf off 8 = Some v /\ order_no_ok v.
Proof. apply (read_le_some buf off 8). Qed.

Lemma read_le4_some buf off : Forall is_byte buf -> 0 <= off ->
  off + 4 <= Z.of_nat (length buf) -> exists v, read_le buf off 4 = Some v /\ 0 <= v < 4294967296.
Proof. apply (read_le_some buf off 4). Qed.

Lemma read_le2_some buf off : Forall is_byte buf -> 0 <= off ->
  off + 2 <= Z.of_nat (length buf) -> exists v, read_le buf off 2 = Some v /\ 0 <= v < 65536.
Proof. apply (read_le_some buf off 2). Qed.

(** ** The order book *)

Definition order_execute (n : Z) (o : order) : option order :=
  if n <=? o.(o_shares) then
    Some (MkOrder o.(o_price) (u32 (o.(o_shares) - n)) o.(o_buy_sell_ind) o.(o_stock))
  else None.
Definition order_reduce (n : Z) (o : order) : option order :=
  Some (MkOrder o.(o_price) (u32 (o.(o_shares) - n)) o.(o_buy_sell_ind) o.(o_stock)).
Definition order_modify (n price : Z) (o : order) : option order :=
  Some (MkOrder price n o.(o_buy_sell_ind) o.(o_stock)).

Section props.
Context {W : Type} (cfg : feed_config) (hooks : bats_hooks W).
Notation st_t := (feed_state W).
Notation book_inv := (book_inv (K:=Z) cfg).
Notation book_step := (book_step (K:=Z) cfg).
Implicit Types (st : st_t).

(** The change of an entry is the change [g] of its order. *)
Definition entry_change (f : fh_shr_lkp_ord -> option fh_shr_lkp_ord) (g : order -> option order) : Prop :=
  forall (no sym : Z) o, f (order_entry no sym o) = order_entry no sym <$> g o.

Lemma execute_change n : entry_change (bats_execute n) (order_execute n).
Proof. intros no sym o. unfold bats_execute, order_execute. cbn. by destruct (_ <=? _). Qed.
Lemma reduce_change n : entry_change (bats_reduce n) (order_reduce n).
Proof. done. Qed.
Lemma modify_change n p : entry_change (bats_modify n p) (order_modify n p).
Proof. done. Qed.

Lemma disabled_step st cap b b' : book_inv st cap b -> order_table_enabled cfg = false ->
  book_step st st cap b'.
Proof. intros [Hs _] En. apply book_step_refl. split; [done | by rewrite En]. Qed.

Lemma bats_add_book no price shares side stock sym st cap b :
  book_inv st cap b -> order_no_ok no ->
  exists p st', bats_add_order cfg no price shares side stock sym st = Some (p, st') /\
    book_step st st' cap (book_add cap no (MkOrder price shares side stock) b).
Proof.
  intros Hb Hno. unfold bats_add_order. destruct (order_table_enabled cfg) eqn:En.
  - destruct (table_book_add _ _ _ _ (MkOrder price shares side stock) sym price shares
      (order_no_key no) (proj2 Hb En) Hno) as (rc & p & t' & E & Ht & _); [done..|].
    cbn [o_buy_sell_ind o_stock ref_no ref_str number_ref] in E. rewrite E. cbn [mbind option_bind].
    do 2 eexists. split; [done | by eapply book_step_table].
  - exists NULL, st. split; [done | by eapply disabled_step].
Qed.

Lemma bats_update_book no f g st cap b :
  book_inv st cap b -> order_no_ok no -> entry_change f g ->
  exists p st', bats_update_order cfg no f st = Some (p, st') /\
    book_step st st' cap (book_update no g b).
Proof.
  intros Hb Hno Hf. unfold bats_update_order. change order_no_key with (ref_key (K:=Z)).
  destruct (order_table_enabled cfg) eqn:En.
  2: { exists NULL, st. split; [done | by eapply disabled_step]. }
  pose proof (table_book_get _ _ _ no (proj2 Hb En) Hno) as Hg. unfold book_update.
  destruct (b !! no) as [o|]; [|by rewrite Hg; do 2 eexists; split; [done | apply book_step_refl]].
  destruct Hg as (a & sym & -> & He & Hw). cbn [mbind option_bind].
  change (FH_OK =? FH_OK) with true. cbn iota. rewrite He. cbn [mbind option_bind].
  rewrite (Hf no sym o). destruct (g o) as [o'|]; cbn [fmap option_fmap option_map].
  - do 2 eexists. split; [done|]. by eapply book_step_table.
  - do 2 eexists. split; [done | by apply book_step_refl].
Qed.

Lemma bats_execute_price_book no rem price st cap b :
  book_inv st cap b -> order_no_ok no ->
  exists p st', bats_execute_price cfg no rem price st = Some (p, st') /\
    book_step st st' cap
      (if rem =? 0 then delete no b else book_update no (order_modify rem price) b).
Proof.
  intros Hb Hno. unfold bats_execute_price. change order_no_key with (ref_key (K:=Z)).
  destruct (order_table_enabled cfg) eqn:En.
  2: { exists NULL, st. split; [done | by eapply disabled_step]. }
  pose proof (table_book_get _ _ _ no (proj2 Hb En) Hno) as Hg. unfold book_update.
  destruct (table_book_del _ _ _ _ (proj2 Hb En) Hno) as (rc & p & t' & Ed & Ht & _).
  destruct (b !! no) as [o|] eqn:Eb.
  - destruct Hg as (a & sym & -> & He & Hw). cbn [mbind option_bind].
    change (FH_OK =? FH_OK) with true. cbn iota. destruct (rem =? 0).
    { rewrite Ed. cbn [mbind option_bind]. do 2 eexists. split; [done | by eapply book_step_table]. }
    rewrite He. cbn [mbind option_bind order_modify].
    do 2 eexists. split; [done|]. eapply book_step_table; [done|].
    exact (Hw (MkOrder price rem o.(o_buy_sell_ind) o.(o_stock))).
  - rewrite Hg. cbn [mbind option_bind]. do 2 eexists. split; [done|].
    rewrite delete_id by done. destruct (rem =? 0); by apply book_step_refl.
Qed.

Lemma bats_delete_book no st cap b :
  book_inv st cap b -> order_no_ok no ->
  exists st', bats_delete_order cfg no st = Some st' /\ book_step st st' cap (delete no b).
Proof.
  intros Hb Hno. unfold bats_delete_order. change order_no_key with (ref_key (K:=Z)).
  destruct (order_table_enabled cfg) eqn:En.
  - destruct (table_book_del _ _ _ _ (proj2 Hb En) Hno) as (rc & p & t' & -> & Ht & _).
    cbn [mbind option_bind]. eexists. split; [done | by eapply book_step_table].
  - exists st. split; [done | by eapply disabled_step].
Qed.

End props.
#[global] Arguments bats_add_book {W cfg}.
#[global] Arguments bats_update_book {W cfg}.
#[global] Arguments bats_execute_price_book {W cfg}.
#[global] Arguments bats_delete_book {W cfg}.
#[global] Arguments disabled_step {W cfg}.
