(* ===== verification/BatsWire.v ===== *)
(** * The BATS wire format, and what the handlers make of a message

    Any message of the right length is a message: [bats_encode] writes the
    messages, [bats_book] says what they do to the order book, and each
    handler is related to both. *)
From S2P Require Import Prelude Bytes Mpool GapFill HTable Lookup Conn Feed FeedProps BatsParse BatsProps.

Create HintDb bats.

Inductive bats_wire :=
  | BwAddLong (order_id side shares : Z) (stock : list Z) (price flags : Z)
  | BwAddShort (order_id side shares : Z) (stock : list Z) (price flags : Z)
  | BwExecute (order_id shares exec_id : Z)
  | BwExecutePrice (order_id shares rem_shares exec_id price : Z)
  | BwReduceLong (order_id shares : Z)
  | BwReduceShort (order_id shares : Z)
  | BwModifyLong (order_id shares price flags : Z)
  | BwModifyShort (order_id shares price flags : Z)
  | BwDelete (order_id : Z)
  | BwTradeLong (order_id side shares : Z) (stock : list Z) (price exec_id : Z)
  | BwTradeShort (order_id side shares : Z) (stock : list Z) (price exec_id : Z)
  | BwTradeBreak (exec_id : Z)
  | BwEndOfSession.

Definition bats_type (m : bats_wire) : Z :=
  match m with
  | BwAddLong _ _ _ _ _ _ => 0x21 | BwAddShort _ _ _ _ _ _ => 0x22 | BwExecute _ _ _ => 0x23
  | BwExecutePrice _ _ _ _ _ => 0x24 | BwReduceLong _ _ => 0x25 | BwReduceShort _ _ => 0x26
  | BwModifyLong _ _ _ _ => 0x27 | BwModifyShort _ _ _ _ => 0x28 | BwDelete _ => 0x29
  | BwTradeLong _ _ _ _ _ _ => 0x2A | BwTradeShort _ _ _ _ _ _ => 0x2B | BwTradeBreak _ => 0x2C
  | BwEndOfSession => 0x2D
  end.

Definition bats_size (m : bats_wire) : Z :=
  match m with
  | BwAddLong _ _ _ _ _ _ => 34 | BwAddShort _ _ _ _ _ _ => 26 | BwExecute _ _ _ => 26
  | BwExecutePrice _ _ _ _ _ => 38 | BwReduceLong _ _ => 18 | BwReduceShort _ _ => 16
  | BwModifyLong _ _ _ _ => 27 | BwModifyShort _ _ _ _ => 19 | BwDelete _ => 14
  | BwTradeLong _ _ _ _ _ _ => 41 | BwTradeShort _ _ _ _ _ _ => 33 | BwTradeBreak _ => 14
  | BwEndOfSession => 6
  end.

(** What follows the time offset. *)
Definition bats_payload (m : bats_wire) : list Z :=
  match m with
  | BwAddLong i sd n s p f =>
      le_bytes 8 i ++ sd :: le_bytes 4 n ++ s ++ le_bytes 8 p ++ [f]
  | BwAddShort i sd n s p f =>
      le_bytes 8 i ++ sd :: le_bytes 2 n ++ s ++ le_bytes 2 p ++ [f]
  | BwExecute i n e => le_bytes 8 i ++ le_bytes 4 n ++ le_bytes 8 e
  | BwExecutePrice i n r e p =>
      le_bytes 8 i ++ le_bytes 4 n ++ le_bytes 4 r ++ le_bytes 8 e ++ le_bytes 8 p
  | BwReduceLong i n => le_bytes 8 i ++ le_bytes 4 n
  | BwReduceShort i n => le_bytes 8 i ++ le_bytes 2 n
  | BwModifyLong i n p f => le_bytes 8 i ++ le_bytes 4 n ++ le_bytes 8 p ++ [f]
  | BwModifyShort i n p f => le_bytes 8 i ++ le_bytes 2 n ++ le_bytes 2 p ++ [f]
  | BwDelete i => le_bytes 8 i
  | BwTradeLong i sd n s p e =>
      le_bytes 8 i ++ sd :: le_bytes 4 n ++ s ++ le_bytes 8 p ++ le_bytes 8 e
  | BwTradeShort i sd n s p e =>
      le_bytes 8 i ++ sd :: le_bytes 2 n ++ s ++ le_bytes 2 p ++ le_bytes 8 e
  | BwTradeBreak e => le_bytes 8 e
  | BwEndOfSession => []
  end.

(** A message with its length, type and time offset. *)
Definition bats_encode (offset : Z) (m : bats_wire) : list Z :=
  bats_size m :: bats_type m :: le_bytes 4 offset ++ bats_payload m.

Definition int8 (z : Z) : Prop := 0 <= z < 256.
Definition int16 (z : Z) : Prop := 0 <= z < 65536.
Definition int32 (z : Z) : Prop := 0 <= z < 4294967296.
Definition int64 (z : Z) : Prop := 0 <= z < 18446744073709551616.

(** The fields fit. *)
Definition bats_ok (m : bats_wire) : Prop :=
  match m with
  | BwAddLong i _ n s p _ => int64 i /\ int32 n /\ length s = 6%nat /\ int64 p
  | BwAddShort i _ n s p _ => int64 i /\ int16 n /\ length s = 6%nat /\ int16 p
  | BwExecute i n e => int64 i /\ int32 n /\ int64 e
  | BwExecutePrice i n r e p => int64 i /\ int32 n /\ int32 r /\ int64 e /\ int64 p
  | BwReduceLong i n => int64 i /\ int32 n
  | BwReduceShort i n => int64 i /\ int16 n
  | BwModifyLong i n p _ => int64 i /\ int32 n /\ int64 p
  | BwModifyShort i n p _ => int64 i /\ int16 n /\ int16 p
  | BwDelete i => int64 i
  | BwTradeLong i _ n s p e => int64 i /\ int32 n /\ length s = 6%nat /\ int64 p /\ int64 e
  | BwTradeShort i _ n s p e => int64 i /\ int16 n /\ length s = 6%nat /\ int16 p /\ int64 e
  | BwTradeBreak e => int64 e
  | BwEndOfSession => True
  end.

(** What a handler delivers: short prices are in hundredths. *)
Definition bats_delivered (m : bats_wire) (sym ord : Z) : bats_kind * bats_body :=
  match m with
  | BwAddLong i sd n s p f => (BkAddOrderLong, BAddOrderLong i sd n s p (s8 f) sym ord)
  | BwAddShort i sd n s p f => (BkAddOrderShort, BAddOrderShort i sd n s (p * 100) (s8 f) sym ord)
  | BwExecute i n e => (BkOrderExe, BOrderExecute i n e ord)
  | BwExecutePrice i n r e p => (BkOrderExePrice, BOrderExecutePrice i n r e p ord)
  | BwReduceLong i n => (BkReduceSizeLong, BReduceSizeLong i n ord)
  | BwReduceShort i n => (BkReduceSizeShort, BReduceSizeShort i n ord)
  | BwModifyLong i n p f => (BkModifyOrderLong, BModifyLong i n p f ord)
  | BwModifyShort i n p f => (BkModifyOrderShort, BModifyShort i n (p * 100) f ord)
  | BwDelete i => (BkOrderDelete, BDeleteOrder i)
  | BwTradeLong i sd n s p e => (BkTradeLong, BTradeLong i sd n s p e)
  | BwTradeShort i sd n s p e => (BkTradeShort, BTradeShort i sd n s (p * 100) e)
  | BwTradeBreak e => (BkTradeBreak, BTradeBreak e)
  | BwEndOfSession => (BkEndOfSession, BEndOfSession)
  end.

Definition bats_seq_no (m : bats_wire) (next : Z) : option Z :=
  match m with BwEndOfSession => None | _ => Some next end.

(** What a message does to a book of at most [cap] orders. *)
Definition bats_book (cap : Z) (m : bats_wire) (b : gmap Z order) : gmap Z order :=
  match m with
  | BwAddLong i sd n s p _ => book_add cap i (MkOrder p n sd s) b
  | BwAddShort i sd n s p _ => book_add cap i (MkOrder (p * 100) n sd s) b
  | BwExecute i n _ => book_update i (order_execute n) b
  | BwExecutePrice i _ r _ p =>
      if r =? 0 then delete i b else book_update i (order_modify r p) b
  | BwReduceLong i n | BwReduceShort i n => book_update i (order_reduce n) b
  | BwModifyLong i n p _ => book_update i (order_modify n p) b
  | BwModifyShort i n p _ => book_update i (order_modify n (p * 100)) b
  | BwDelete i => delete i b
  | _ => b
  end.

(** The comment in the execution handler (fh_bats_parse.c:265) has an order
    leave the table when no share of it is left; the handler's code keeps it,
    with no shares.  [bats_intended] is the effect the comment describes,
    [bats_fills] tells the executions for which the two differ. *)
Definition bats_intended (cap : Z) (m : bats_wire) (b : gmap Z order) : gmap Z order :=
  match m with
  | BwExecute i n _ =>
      match b !! i with
      | Some o =>
          if n =? o.(o_shares) then delete i b
          else if n <? o.(o_shares)
          then <[i := MkOrder o.(o_price) (u32 (o.(o_shares) - n)) o.(o_buy_sell_ind) o.(o_stock)]> b
          else b
      | None => b
      end
  | _ => bats_book cap m b
  end.

Definition bats_fills (m : bats_wire) (b : gmap Z order) : bool :=
  match m with
  | BwExecute i n _ => match b !! i with Some o => n =? o.(o_shares) | None => false end
  | _ => false
  end.

Lemma bats_book_intended cap m b : bats_fills m b = false -> bats_book cap m b = bats_intended cap m b.
Proof.
  destruct m; try done. cbn. unfold book_update. destruct (b !! order_id) as [o|]; [|done].
  intros H. rewrite H. unfold order_execute. bool_to_prop.
  destruct (shares <=? o_shares o) eqn:E1, (shares <? o_shares o) eqn:E2; bool_to_prop; done || lia.
Qed.

Lemma bats_book_filled cap i n e b o : b !! i = Some o -> n = o.(o_shares) ->
  bats_book cap (BwExecute i n e) b = <[i := MkOrder o.(o_price) 0 o.(o_buy_sell_ind) o.(o_stock)]> b.
Proof.
  intros Hb ->. cbn. unfold book_update, order_execute. by rewrite Hb, Z.leb_refl, Z.sub_diag.
Qed.

Lemma length_bats_encode off m : bats_ok m -> Z.of_nat (length (bats_encode off m)) = bats_size m.
Proof.
  intros H. unfold bats_encode. cbn [length]. rewrite length_app, length_le_bytes.
  destruct m; cbn [bats_payload bats_size bats_ok] in *; destruct_and?;
    repeat (rewrite length_app || rewrite length_le_bytes || cbn [length]); lia.
Qed.

Section wire.
Context {W : Type} (cfg : feed_config) (hooks : bats_hooks W).
Notation st_t := (feed_state W).
Notation book_inv := (book_inv (K:=Z) cfg).
Notation book_step := (book_step (K:=Z) cfg).

(** The message struct of a message. *)
Definition bats_struct (m : bats_wire) (off sym ord : Z) (buffer : list Z) (st : st_t) : bats_msg :=
  MkBats (bats_type m) (bats_seq_no m st.(fs_next_seq_no)) (u64 (st.(fs_timestamp) + off))
    (bats_delivered m sym ord).2 buffer (bats_size m).

(** The handler delivers the struct and changes the book. *)
Definition bats_end (m : bats_wire) (off : Z) (buffer : list Z) (st : st_t) (cap : Z)
    (b : gmap Z order) (r : option (Z * bats_data * st_t)) : Prop :=
  exists sym ord st1,
    r = Some (bats_finish hooks (bats_delivered m sym ord).1 (bats_struct m off sym ord buffer st)
                buffer (bats_size m) st1) /\
    book_step st st1 cap (bats_book cap m b).

Definition bats_wire_ok (m : bats_wire)
    (h : list Z -> Z -> st_t -> option (Z * bats_data * st_t)) : Prop :=
  forall off rest st cap b, int32 off -> bats_ok m -> book_inv st cap b ->
    let buffer := bats_encode off m ++ rest in
    bats_end m off buffer st cap b (h buffer (bats_size m) st).

Ltac lens := repeat match goal with
  | |- context [le_bytes ?n ?z] =>
      lazymatch goal with
      | _ : length (le_bytes n z) = n |- _ => fail
      | _ => pose proof (length_le_bytes n z) end
  end.

Ltac bats_part := unfold bats_encode; cbn [bats_payload bats_size bats_type]; lens;
  apply part_app; find_part.

(** Read the fields from the encoding. *)
Ltac bats_fields :=
  repeat (match goal with
  | |- context [read_le ?b ?o ?n] => erewrite (read_le_part b o n) by (bats_part || eassumption)
  | |- context [read_bytes ?b ?o ?n] => erewrite (read_part b o _ n) by (bats_part || eassumption)
  | |- context [byte_at ?b ?o] => erewrite (byte_part b o) by bats_part
  end; cbn [mbind option_bind]).

Lemma header_wire off m rest (st : st_t) : int32 off ->
  bats_header (bats_encode off m ++ rest) st = Some (bats_type m, u64 (st.(fs_timestamp) + off)).
Proof.
  intros Ho. unfold bats_header. rewrite (byte_part _ 1 (bats_type m)) by bats_part.
  cbn [mbind option_bind]. by rewrite (read_le_part _ 2 4 off) by (bats_part || exact Ho).
Qed.

(** The length check, the header, the fields. *)
Ltac bats_start :=
  intros off rest st cap b Hoff Hok Hb buffer; cbn [bats_ok] in Hok; destruct_and?;
  unfold int8, int16, int32, int64 in *; subst buffer;
  match goal with |- context [negb (?a =? ?s)] => change (a =? s) with true end;
  cbn [negb]; rewrite header_wire by done; cbn [mbind option_bind]; bats_fields.

Ltac bats_symbol :=
  match goal with
  | Hb : FeedProps.book_inv cfg ?st ?cap ?b |- context [fetch_symbol cfg ?s ?st] =>
      destruct (fetch_symbol_book s st cap b Hb) as (sym & st1 & -> & Hs & _)
  end; cbn [mbind option_bind].

(** The end of the handlers that leave the tables alone. *)
Ltac bats_plain st := exists NULL, NULL, st; split; [reflexivity | by apply book_step_refl].

Lemma trade_break_wire e : bats_wire_ok (BwTradeBreak e) (fh_bats_parse_trade_break_msg hooks).
Proof. unfold fh_bats_parse_trade_break_msg. bats_start. bats_plain st. Qed.

Lemma end_of_session_wire : bats_wire_ok BwEndOfSession (fh_bats_parse_end_of_session_msg hooks).
Proof. unfold fh_bats_parse_end_of_session_msg. bats_start. bats_plain st. Qed.

Lemma trade_long_wire i sd n s p e :
  bats_wire_ok (BwTradeLong i sd n s p e) (fh_bats_parse_trade_long_msg hooks).
Proof. unfold fh_bats_parse_trade_long_msg. bats_start. bats_plain st. Qed.

Lemma trade_short_wire i sd n s p e :
  bats_wire_ok (BwTradeShort i sd n s p e) (fh_bats_parse_trade_short_msg hooks).
Proof. unfold fh_bats_parse_trade_short_msg. bats_start. bats_plain st. Qed.

(** The sequence number in the struct is the one before the handler. *)
Ltac bats_done sym ord st1 Hs :=
  exists sym, ord, st1; split; [|exact Hs]; cbn [mbind option_bind];
  rewrite (proj1 (proj1 (proj2 Hs))); reflexivity.

Lemma add_order_long_wire i sd n s p f :
  bats_wire_ok (BwAddLong i sd n s p f) (fh_bats_parse_add_order_long_msg cfg hooks).
Proof.
  unfold fh_bats_parse_add_order_long_msg. bats_start. bats_symbol.
  destruct (bats_add_book i p n sd s sym st1 cap b (proj1 Hs)) as (ord & st2 & -> & Ho); [done|].
  bats_done sym ord st2 (book_step_trans _ _ _ _ _ _ Hs Ho).
Qed.

Lemma add_order_short_wire i sd n s p f :
  bats_wire_ok (BwAddShort i sd n s p f) (fh_bats_parse_add_order_short_msg cfg hooks).
Proof.
  unfold fh_bats_parse_add_order_short_msg. bats_start. cbv zeta. bats_fields. bats_symbol.
  destruct (bats_add_book i (p * 100) n sd s sym st1 cap b (proj1 Hs)) as (ord & st2 & -> & Ho);
    [done|].
  bats_done sym ord st2 (book_step_trans _ _ _ _ _ _ Hs Ho).
Qed.

Lemma order_execute_wire i n e : bats_wire_ok (BwExecute i n e) (fh_bats_parse_order_execute_msg cfg hooks).
Proof.
  unfold fh_bats_parse_order_execute_msg. bats_start.
  destruct (bats_update_book i _ _ st cap b Hb ltac:(done) (execute_change n)) as (ord & st1 & -> & Hs); [done.. |]. bats_done NULL ord st1 Hs.
Qed.

Lemma order_execute_price_wire i n r e p : bats_wire_ok (BwExecutePrice i n r e p) (fh_bats_parse_order_execute_price_msg cfg hooks).
Proof.
  unfold fh_bats_parse_order_execute_price_msg. bats_start.
  destruct (bats_execute_price_book i r p st cap b Hb) as (ord & st1 & -> & Hs); [done.. |]. bats_done NULL ord st1 Hs.
Qed.

Lemma reduce_size_long_wire i n : bats_wire_ok (BwReduceLong i n) (fh_bats_parse_reduce_size_long_msg cfg hooks).
Proof.
  unfold fh_bats_parse_reduce_size_long_msg. bats_start.
  destruct (bats_update_book i _ _ st cap b Hb ltac:(done) (reduce_change n)) as (ord & st1 & -> & Hs); [done.. |]. bats_done NULL ord st1 Hs.
Qed.

Lemma reduce_size_short_wire i n : bats_wire_ok (BwReduceShort i n) (fh_bats_parse_reduce_size_short_msg cfg hooks).
Proof.
  unfold fh_bats_parse_reduce_size_short_msg. bats_start.
  destruct (bats_update_book i _ _ st cap b Hb ltac:(done) (reduce_change n)) as (ord & st1 & -> & Hs); [done.. |]. bats_done NULL ord st1 Hs.
Qed.

Lemma modify_order_long_wire i n p f : bats_wire_ok (BwModifyLong i n p f) (fh_bats_parse_modify_order_long_msg cfg hooks).
Proof.
  unfold fh_bats_parse_modify_order_long_msg. bats_start.
  destruct (bats_update_book i _ _ st cap b Hb ltac:(done) (modify_change n p)) as (ord & st1 & -> & Hs); [done.. |]. bats_done NULL ord st1 Hs.
Qed.

Lemma modify_order_short_wire i n p f : bats_wire_ok (BwModifyShort i n p f) (fh_bats_parse_modify_order_short_msg cfg hooks).
Proof.
  unfold fh_bats_parse_modify_order_short_msg. bats_start. cbv zeta. bats_fields.
  destruct (bats_update_book i _ _ st cap b Hb ltac:(done) (modify_change n (p * 100))) as (ord & st1 & -> & Hs); [done.. |]. bats_done NULL ord st1 Hs.
Qed.

Lemma delete_order_wire i : bats_wire_ok (BwDelete i) (fh_bats_parse_delete_order_msg cfg hooks).
Proof.
  unfold fh_bats_parse_delete_order_msg. bats_start.
  destruct (bats_delete_book i st cap b Hb) as (st1 & -> & Hs); [done|]. bats_done NULL NULL st1 Hs.
Qed.

(** ** The [switch] *)

#[local] Hint Resolve trade_break_wire end_of_session_wire trade_long_wire trade_short_wire
  add_order_long_wire add_order_short_wire order_execute_wire order_execute_price_wire
  reduce_size_long_wire reduce_size_short_wire modify_order_long_wire modify_order_short_wire
  delete_order_wire : bats.

Lemma bats_handle_wire m h off rest st cap b :
  bats_wire_ok m h -> int32 off -> bats_ok m -> book_inv st cap b ->
  let buffer := bats_encode off m ++ rest in
  exists sym ord st1,
    ('(rc, data, st') ← h buffer (bats_size m) st; Some (rc =? FH_OK, data, st')) =
      (let '(rc, data, st2) := bats_finish hooks (bats_delivered m sym ord).1
         (bats_struct m off sym ord buffer st) buffer (bats_size m) st1 in
       Some (rc =? FH_OK, data, st2)) /\
    book_step st st1 cap (bats_book cap m b).
Proof.
  intros Hh Ho Hok Hb buffer. destruct (Hh off rest st cap b Ho Hok Hb) as (sym & ord & st1 & E & Hs).
  fold buffer in E. rewrite E. exists sym, ord, st1. split; [|done]. cbn [mbind option_bind].
  by destruct (bats_finish _ _ _ _ _ _) as [[??]?].
Qed.

Lemma bats_dispatch_wire m off rest st cap b :
  int32 off -> bats_ok m -> book_inv st cap b ->
  let buffer := bats_encode off m ++ rest in
  exists sym ord st1,
    bats_dispatch cfg hooks (bats_type m) buffer (bats_size m) st =
      (let '(rc, data, st2) := bats_finish hooks (bats_delivered m sym ord).1
         (bats_struct m off sym ord buffer st) buffer (bats_size m) st1 in
       Some (rc =? FH_OK, data, st2)) /\
    book_step st st1 cap (bats_book cap m b).
Proof.
  intros Ho Hok Hb buffer. destruct m; (eapply bats_handle_wire; [auto with bats | done..]).
Qed.

End wire.
#[export] Hint Resolve trade_break_wire end_of_session_wire trade_long_wire trade_short_wire
  add_order_long_wire add_order_short_wire order_execute_wire order_execute_price_wire
  reduce_size_long_wire reduce_size_short_wire modify_order_long_wire modify_order_short_wire
  delete_order_wire : bats.
