(* ===== verification/BatsSafe.v ===== *)
(** * BATS packets of arbitrary bytes

    Every byte string of a message's length is a message ([bats_decodable]),
    so that what the handlers do on messages is what they do; from there to
    packets. *)
From S2P Require Import Prelude Bytes Mpool GapFill HTable Lookup Conn Feed FeedProps BatsParse BatsProps BatsWire.

(** ** Decoding *)

Lemma split_le n l : Forall is_byte l -> (n <= length l)%nat ->
  exists z rest, l = le_bytes n z ++ rest /\ 0 <= z < 256 ^ Z.of_nat n /\ Forall is_byte rest /\
    length rest = (length l - n)%nat.
Proof.
  intros Hb Hl. exists (le_val (take n l)), (drop n l).
  assert (Ht : length (take n l) = n) by (rewrite length_take; lia).
  assert (Hbt : Forall is_byte (take n l)) by by apply Forall_take.
  pose proof (le_bytes_le_val _ Hbt) as E. pose proof (le_val_range _ Hbt) as Hr.
  rewrite Ht in E, Hr. rewrite E, take_drop. split; [done|]. split; [done|].
  split; [by apply Forall_drop | apply length_drop].
Qed.

Lemma split_bytes n l : Forall is_byte l -> (n <= length l)%nat ->
  exists s rest, l = s ++ rest /\ length s = n /\ Forall is_byte rest /\
    length rest = (length l - n)%nat.
Proof.
  intros Hb Hl. exists (take n l), (drop n l). rewrite take_drop. split; [done|].
  split; [rewrite length_take; lia|]. split; [by apply Forall_drop | apply length_drop].
Qed.

Lemma split_byte l : Forall is_byte l -> (1 <= length l)%nat ->
  exists c rest, l = c :: rest /\ Forall is_byte rest /\ length rest = (length l - 1)%nat.
Proof.
  intros Hb Hl. destruct l as [|c l]; cbn in Hl; [lia|]. apply Forall_cons in Hb as [_ Hb].
  exists c, l. split; [done|]. split; [done|]. cbn. lia.
Qed.

(** Cut a field off the front of what is left of the buffer. *)
Ltac cut_with lem :=
  match goal with Hb : Forall is_byte ?l |- _ => is_var l;
    let E := fresh "E" in let Hr := fresh "Hr" in let Hn := fresh "Hn" in
    let x := fresh "x" in let r := fresh "r" in
    destruct (lem l Hb) as (x & r & E & Hr); [lia|]; destruct_and?; subst l; clear Hb end.
Ltac cut_le n := cut_with (split_le n).
Ltac cut_bytes n := cut_with (split_bytes n).
Ltac cut_byte := cut_with split_byte.

(** [buf] is a message of a given type and size. *)
Definition decodable (ty size : Z) : Prop :=
  forall buf, Forall is_byte buf -> size - 2 <= Z.of_nat (length buf) ->
    exists off m rest, size :: ty :: buf = bats_encode off m ++ rest /\
      bats_type m = ty /\ bats_size m = size /\ bats_ok m /\ int32 off.

Ltac decoded m :=
  match goal with |- exists off m rest, _ :: _ :: le_bytes 4 ?x ++ _ = _ /\ _ =>
    exists x, m; eexists; split; [unfold bats_encode; cbn [bats_payload bats_type bats_size app];
      rewrite <- ?app_assoc; cbn [app]; rewrite <- ?app_assoc; reflexivity|];
    unfold bats_ok, int8, int16, int32, int64; done end.

Lemma decode_add_order_long : decodable 0x21 34.
Proof. intros l Hb Hl. cut_le 4%nat. cut_le 8%nat. cut_byte. cut_le 4%nat. cut_bytes 6%nat. cut_le 8%nat. cut_byte. decoded (BwAddLong x0 x1 x2 x3 x4 x5). Qed.

Lemma decode_add_order_short : decodable 0x22 26.
Proof. intros l Hb Hl. cut_le 4%nat. cut_le 8%nat. cut_byte. cut_le 2%nat. cut_bytes 6%nat. cut_le 2%nat. cut_byte. decoded (BwAddShort x0 x1 x2 x3 x4 x5). Qed.

Lemma decode_execute : decodable 0x23 26.
Proof. intros l Hb Hl. cut_le 4%nat. cut_le 8%nat. cut_le 4%nat. cut_le 8%nat. decoded (BwExecute x0 x1 x2). Qed.

Lemma decode_execute_price : decodable 0x24 38.
Proof. intros l Hb Hl. cut_le 4%nat. cut_le 8%nat. cut_le 4%nat. cut_le 4%nat. cut_le 8%nat. cut_le 8%nat. decoded (BwExecutePrice x0 x1 x2 x3 x4). Qed.

Lemma decode_reduce_long : decodable 0x25 18.
Proof. intros l Hb Hl. cut_le 4%nat. cut_le 8%nat. cut_le 4%nat. decoded (BwReduceLong x0 x1). Qed.

Lemma decode_reduce_short : decodable 0x26 16.
Proof. intros l Hb Hl. cut_le 4%nat. cut_le 8%nat. cut_le 2%nat. decoded (BwReduceShort x0 x1). Qed.

Lemma decode_modify_long : decodable 0x27 27.
Proof. intros l Hb Hl. cut_le 4%nat. cut_le 8%nat. cut_le 4%nat. cut_le 8%nat. cut_byte. decoded (BwModifyLong x0 x1 x2 x3). Qed.

Lemma decode_modify_short : decodable 0x28 19.
Proof. intros l Hb Hl. cut_le 4%nat. cut_le 8%nat. cut_le 2%nat. cut_le 2%nat. cut_byte. decoded (BwModifyShort x0 x1 x2 x3). Qed.

Lemma decode_delete : decodable 0x29 14.
Proof. intros l Hb Hl. cut_le 4%nat. cut_le 8%nat. decoded (BwDelete x0). Qed.

Lemma decode_trade_long : decodable 0x2A 41.
Proof. intros l Hb Hl. cut_le 4%nat. cut_le 8%nat. cut_byte. cut_le 4%nat. cut_bytes 6%nat. cut_le 8%nat. cut_le 8%nat. decoded (BwTradeLong x0 x1 x2 x3 x4 x5). Qed.

Lemma decode_trade_short : decodable 0x2B 33.
Proof. intros l Hb Hl. cut_le 4%nat. cut_le 8%nat. cut_byte. cut_le 2%nat. cut_bytes 6%nat. cut_le 2%nat. cut_le 8%nat. decoded (BwTradeShort x0 x1 x2 x3 x4 x5). Qed.

Lemma decode_trade_break : decodable 0x2C 14.
Proof. intros l Hb Hl. cut_le 4%nat. cut_le 8%nat. decoded (BwTradeBreak x0). Qed.

Lemma decode_end_of_session : decodable 0x2D 6.
Proof. intros l Hb Hl. cut_le 4%nat. decoded (BwEndOfSession). Qed.

Section safe.
Context {W : Type} (cfg : feed_config) (hooks : bats_hooks W).
Notation st_t := (feed_state W).
Notation book_inv := (book_inv (K:=Z) cfg).

(** Sequencing but for the statistics. *)
Definition seq_kept (st st' : st_t) : Prop :=
  st'.(fs_next_seq_no) = st.(fs_next_seq_no) /\ st'.(fs_gaplist) = st.(fs_gaplist) /\
  st'.(fs_gapnode) = st.(fs_gapnode).

Lemma bats_finish_kept kind msg buffer len st cap b : book_inv st cap b ->
  exists rc data st', bats_finish hooks kind msg buffer len st = (rc, data, st') /\
    book_inv st' cap b /\ same_seq st st'.
Proof.
  intros Hb. unfold bats_finish. destruct (bats_hook_msg hooks kind) as [f|]; [|by exists FH_OK, (BdBuffer buffer len), st].
  destruct (f _ _) as [[rc [d l]] w]. by exists rc, (BdHook d l), (set_world w st).
Qed.

Definition handler_safe (ty size : Z) (h : list Z -> Z -> st_t -> option (Z * bats_data * st_t)) : Prop :=
  forall len buf st cap b, Forall is_byte buf -> len - 2 <= Z.of_nat (length buf) -> book_inv st cap b ->
    exists ok data st' b',
      ('(rc, data, st') ← h (len :: ty :: buf) len st; Some (rc =? FH_OK, data, st')) =
        Some (ok, data, st') /\ book_inv st' cap b' /\ seq_kept st st'.

(** A handler checks its length, and decodes what passes. *)
Lemma handler_is_safe ty size h :
  decodable ty size ->
  (forall m, bats_type m = ty -> bats_wire_ok cfg hooks m h) ->
  (forall buffer len st, len <> size -> h buffer len st = Some (FH_ERROR, BdNone, st)) ->
  handler_safe ty size h.
Proof.
  intros Hd Hw Herr len buf st cap b Hby Hl Hb. destruct (decide (len = size)) as [->|Hne].
  - destruct (Hd buf Hby Hl) as (off & m & rest & E & Hty & Hsz & Hok & Ho). rewrite E, <- Hsz.
    destruct (bats_handle_wire cfg hooks m h off rest st cap b (Hw m Hty) Ho Hok Hb)
      as (sym & ord & st1 & -> & Hb1 & Hs1 & _).
    destruct (bats_finish_kept (bats_delivered m sym ord).1
      (bats_struct m off sym ord (bats_encode off m ++ rest) st) (bats_encode off m ++ rest)
      (bats_size m) st1 cap _ Hb1) as (rc & data & st2 & -> & Hb2 & Hs2).
    do 4 eexists. split; [done|]. split; [exact Hb2|].
    destruct Hs1 as (E1 & _ & E2 & E3 & _), Hs2 as (F1 & _ & F2 & F3 & _).
    split; [congruence|]. split; congruence.
  - rewrite (Herr _ _ _ Hne). exists false, BdNone, st, b. by split.
Qed.

Ltac one_kind := intros m Hm; destruct m; try discriminate Hm; auto with bats.

Lemma add_order_long_safe : handler_safe 0x21 FH_BATS_ADD_ORDER_LONG_MSG_SIZE (fh_bats_parse_add_order_long_msg cfg hooks).
Proof.
  apply (handler_is_safe _ _ _ decode_add_order_long); [one_kind | intros ??? ?].
  unfold fh_bats_parse_add_order_long_msg. by rewrite eqb_false_of_ne.
Qed.

Lemma add_order_short_safe : handler_safe 0x22 FH_BATS_ADD_ORDER_SHORT_MSG_SIZE (fh_bats_parse_add_order_short_msg cfg hooks).
Proof.
  apply (handler_is_safe _ _ _ decode_add_order_short); [one_kind | intros ??? ?].
  unfold fh_bats_parse_add_order_short_msg. by rewrite eqb_false_of_ne.
Qed.

Lemma order_execute_safe : handler_safe 0x23 FH_BATS_ORDER_EXECUTED_MSG_SIZE (fh_bats_parse_order_execute_msg cfg hooks).
Proof.
  apply (handler_is_safe _ _ _ decode_execute); [one_kind | intros ??? ?].
  unfold fh_bats_parse_order_execute_msg. by rewrite eqb_false_of_ne.
Qed.

Lemma order_execute_price_safe : handler_safe 0x24 FH_BATS_ORDER_EXECUTE_PRICE_MSG_SIZE (fh_bats_parse_order_execute_price_msg cfg hooks).
Proof.
  apply (handler_is_safe _ _ _ decode_execute_price); [one_kind | intros ??? ?].
  unfold fh_bats_parse_order_execute_price_msg. by rewrite eqb_false_of_ne.
Qed.

Lemma reduce_size_long_safe : handler_safe 0x25 FH_BATS_REDUCE_SIZE_LONG_MSG_SIZE (fh_bats_parse_reduce_size_long_msg cfg hooks).
Proof.
  apply (handler_is_safe _ _ _ decode_reduce_long); [one_kind | intros ??? ?].
  unfold fh_bats_parse_reduce_size_long_msg. by rewrite eqb_false_of_ne.
Qed.

Lemma reduce_size_short_safe : handler_safe 0x26 FH_BATS_REDUCE_SIZE_SHORT_MSG_SIZE (fh_bats_parse_reduce_size_short_msg cfg hooks).
Proof.
  apply (handler_is_safe _ _ _ decode_reduce_short); [one_kind | intros ??? ?].
  unfold fh_bats_parse_reduce_size_short_msg. by rewrite eqb_false_of_ne.
Qed.

Lemma modify_order_long_safe : handler_safe 0x27 FH_BATS_MODIFY_LONG_MSG_SIZE (fh_bats_parse_modify_order_long_msg cfg hooks).
Proof.
  apply (handler_is_safe _ _ _ decode_modify_long); [one_kind | intros ??? ?].
  unfold fh_bats_parse_modify_order_long_msg. by rewrite eqb_false_of_ne.
Qed.

Lemma modify_order_short_safe : handler_safe 0x28 FH_BATS_MODIFY_SHORT_MSG_SIZE (fh_bats_parse_modify_order_short_msg cfg hooks).
Proof.
  apply (handler_is_safe _ _ _ decode_modify_short); [one_kind | intros ??? ?].
  unfold fh_bats_parse_modify_order_short_msg. by rewrite eqb_false_of_ne.
Qed.

Lemma delete_order_safe : handler_safe 0x29 FH_BATS_DELETE_ORDER_MSG_SIZE (fh_bats_parse_delete_order_msg cfg hooks).
Proof.
  apply (handler_is_safe _ _ _ decode_delete); [one_kind | intros ??? ?].
  unfold fh_bats_parse_delete_order_msg. by rewrite eqb_false_of_ne.
Qed.

Lemma trade_long_safe : handler_safe 0x2A FH_BATS_TRADE_LONG_MSG_SIZE (fh_bats_parse_trade_long_msg hooks).
Proof.
  apply (handler_is_safe _ _ _ decode_trade_long); [one_kind | intros ??? ?].
  unfold fh_bats_parse_trade_long_msg. by rewrite eqb_false_of_ne.
Qed.

Lemma trade_short_safe : handler_safe 0x2B FH_BATS_TRADE_SHORT_MSG_SIZE (fh_bats_parse_trade_short_msg hooks).
Proof.
  apply (handler_is_safe _ _ _ decode_trade_short); [one_kind | intros ??? ?].
  unfold fh_bats_parse_trade_short_msg. by rewrite eqb_false_of_ne.
Qed.

Lemma trade_break_safe : handler_safe 0x2C FH_BATS_TRADE_BREAK_MSG_SIZE (fh_bats_parse_trade_break_msg hooks).
Proof.
  apply (handler_is_safe _ _ _ decode_trade_break); [one_kind | intros ??? ?].
  unfold fh_bats_parse_trade_break_msg. by rewrite eqb_false_of_ne.
Qed.

Lemma end_of_session_safe : handler_safe 0x2D FH_BATS_END_OF_SESSION_MSG_SIZE (fh_bats_parse_end_of_session_msg hooks).
Proof.
  apply (handler_is_safe _ _ _ decode_end_of_session); [one_kind | intros ??? ?].
  unfold fh_bats_parse_end_of_session_msg. by rewrite eqb_false_of_ne.
Qed.

#[local] Hint Resolve add_order_long_safe add_order_short_safe order_execute_safe order_execute_price_safe reduce_size_long_safe reduce_size_short_safe modify_order_long_safe modify_order_short_safe delete_order_safe trade_long_safe trade_short_safe trade_break_safe end_of_session_safe : bats.

Lemma bats_dispatch_safe ty len buf st cap b :
  Forall is_byte buf -> len - 2 <= Z.of_nat (length buf) -> book_inv st cap b ->
  exists ok data st' b',
    bats_dispatch cfg hooks ty (len :: ty :: buf) len st = Some (ok, data, st') /\
    book_inv st' cap b' /\ seq_kept st st'.
Proof.
  intros Hby Hl Hb. unfold bats_dispatch. cbv zeta.
  repeat (destruct (ty =? _) eqn:E; bool_to_prop; [subst ty|clear E]).
  all: first
    [ do 4 eexists; split; [reflexivity|]; split; [exact Hb | done]
    | match goal with |- context [?h _ ?l ?s ≫= _] =>
        assert (Hs : exists size, handler_safe _ size h) by (eexists; eauto with bats);
        destruct Hs as [size Hs]; by apply (Hs len buf st cap b) end ].
Qed.

(** ** Messages *)

Lemma bats_msg_safe buffer len st cap b :
  Forall is_byte buffer -> len <= Z.of_nat (length buffer) -> book_inv st cap b ->
  exists used st' b', fh_bats_parse_msg cfg hooks buffer len st = Some (used, st') /\
    book_inv st' cap b' /\ seq_kept st st' /\ (used = -1 \/ 6 <= used <= len).
Proof.
  intros Hby Hl Hb. unfold fh_bats_parse_msg.
  assert (Herr : exists used st' b', Some (-1, count_stat MessageErrors 1 st) = Some (used, st') /\
    book_inv st' cap b' /\ seq_kept st st' /\ (used = -1 \/ 6 <= used <= len)).
  { do 3 eexists. split; [done|]. split; [exact Hb|]. split; [done | by left]. }
  destruct (len <? 1) eqn:E1; bool_to_prop; [done|].
  destruct buffer as [|ml buffer]; [cbn in Hl; lia|]. change (byte_at (ml :: buffer) 0) with (Some ml).
  cbn [mbind option_bind]. destruct (len <? ml) eqn:E2; bool_to_prop; [done|].
  destruct (ml <? 6) eqn:E3; bool_to_prop; [done|].
  destruct buffer as [|ty buffer]; [cbn in Hl; lia|].
  change (byte_at (ml :: ty :: buffer) 1) with (Some ty). cbn [mbind option_bind].
  cbn [length] in Hl. destruct (ty =? TIME_MESSAGE_TYPE).
  { destruct (read_le4_some (ml :: ty :: buffer) 2) as (t & -> & _); [done | lia | cbn [length]; lia|].
    cbn [mbind option_bind]. do 3 eexists. split; [done|]. split; [exact Hb|]. split; [done | lia]. }
  do 2 apply Forall_cons in Hby as [_ Hby].
  destruct (bats_dispatch_safe ty ml buffer st cap b Hby) as (ok & data & st1 & b1 & -> & Hb1 & Hk);
    [lia | done |].
  cbn [mbind option_bind]. destruct ok; cbn [negb]; [|by exists (-1), st1, b1; eauto].
  destruct (bats_hook_msg_send hooks) as [f|]; [|exists ml, st1, b1; eauto with lia].
  destruct (f _ _) as [rc w].
  destruct (negb (rc =? FH_OK)); do 3 eexists; (split; [done|]); (split; [exact Hb1|]);
    (split; [exact Hk|]); lia.
Qed.

(** ** Filling a gap *)

Definition same_tables (st st' : st_t) : Prop :=
  st'.(fs_symbol_table) = st.(fs_symbol_table) /\ st'.(fs_order_table) = st.(fs_order_table).

Lemma book_inv_same st st' cap b : book_inv st cap b -> same_tables st st' -> book_inv st' cap b.
Proof. intros [Hs Ho] [E1 E2]. split; [by rewrite E1 | by rewrite E2]. Qed.

(** The gap being filled is on the list, or there is none. *)
Definition gapnode_ok (st : st_t) (es : list (Z * gap)) : Prop :=
  st.(fs_gapnode) = NULL \/ st.(fs_gapnode) ∈ es.*1.

Lemma spec_del_node full l1 c g l2 seq b : gap_ok g ->
  (spec_del full l1 c g l2 seq b).1.2 = NULL \/
  (spec_del full l1 c g l2 seq b).1.2 ∈ (spec_del full l1 c g l2 seq b).2.*1.
Proof.
  intros (_ & Hsz & _). unfold spec_del, keep_nonempty.
  repeat case_match; bool_to_prop; cbn [fst snd gp_size] in *; try (by left); right;
    rewrite ?fmap_app; cbn; rewrite ?fmap_app; cbn; try set_solver; lia.
Qed.

Lemma bats_fill_ok st gl es : feed_inv cfg st gl es -> st.(fs_gapnode) ∈ es.*1 ->
  exists st' gl' es', bats_fill hooks st = Some st' /\ feed_inv cfg st' gl' es' /\
    gl'.(gl_max) = gl.(gl_max) /\ st'.(fs_next_seq_no) = st.(fs_next_seq_no) /\
    same_tables st st' /\ gapnode_ok st' es'.
Proof.
  intros Hi ([c g] & Hc & Hin)%list_elem_of_fmap. cbn in Hc.
  apply list_elem_of_split in Hin as (l1 & l2 & ->).
  pose proof Hi as [Hgl Hr Hok Hmax Ht Hnext].
  assert (Hg : gap_ok g) by (apply Forall_app in Hok as [_ [? _]%Forall_cons]; done).
  destruct (gap_del_spec gl l1 c g l2 (fs_next_seq_no st) Hr Hg) as (b & gl' & Hdel).
  pose proof (spec_del_ok (gl_max gl <=? gl_count gl) l1 c g l2 (fs_next_seq_no st) b Hok) as Hok'.
  pose proof (spec_del_node (gl_max gl <=? gl_count gl) l1 c g l2 (fs_next_seq_no st) b Hg) as Hn.
  destruct (spec_del _ _ _ _ _ _ _) as [[rc node] es']. cbn [fst snd] in *.
  destruct Hdel as (Hd & Hr' & HM & _).
  unfold bats_fill. rewrite Hgl. cbn [mbind option_bind]. rewrite Hc, Hd. cbn [mbind option_bind].
  set (st1 := set_gapnode node (set_gaplist gl' st)).
  set (p := if rc =? 0 then _ else _).
  assert (Hp : feed_inv cfg p.2 gl' es' /\ fs_next_seq_no p.2 = fs_next_seq_no st /\
    same_tables st p.2 /\ fs_gapnode p.2 = node).
  { subst p. unfold feed_alert.
    destruct (rc =? 0), (0 <? rc); try destruct (call_alert _ _ _ _) as [rc2 w]; cbn [snd];
      (split; [constructor; (done || (cbn; lia)) | done]). }
  destruct p as [rc2 st2]. cbn [snd] in Hp. destruct Hp as (Hi2 & Hn2 & Ht2 & Hg2).
  destruct (fs_gapnode st2 =? NULL).
  - rewrite (ii_gaplist _ _ _ Hi2). cbn [mbind option_bind]. destruct (gl_count gl' <=? 0).
    + destruct (feed_alert_eq (bats_hook_alert hooks) FH_ALERT_NOGAP rc2 st2) as (rc3 & w & ->).
      cbn [snd]. exists (set_world w st2), gl', es'. split; [done|].
      split; [eapply feed_inv_same; [exact Hi2 | done..]|]. split; [done|]. split; [done|].
      split; [exact Ht2|]. unfold gapnode_ok. cbn. by rewrite Hg2.
    + exists st2, gl', es'. unfold gapnode_ok. by rewrite Hg2.
  - exists st2, gl', es'. unfold gapnode_ok. by rewrite Hg2.
Qed.

(** ** Packets *)

Lemma bats_msgs_safe n : forall packet len next st gl es cap b,
  feed_inv cfg st gl es -> book_inv st cap b -> gapnode_ok st es ->
  Forall is_byte packet -> len <= Z.of_nat (length packet) ->
  0 <= next -> next + Z.of_nat n <= 4611686018427387904 ->
  st.(fs_next_seq_no) + Z.of_nat n <= 4611686018427387904 ->
  exists rc next' st' gl' es' b',
    bats_msgs cfg hooks n packet len next st = Some (rc, next', st') /\
    feed_inv cfg st' gl' es' /\ book_inv st' cap b' /\ gapnode_ok st' es' /\
    gl'.(gl_max) = gl.(gl_max) /\ 0 <= next' <= 4611686018427387904.
Proof.
  induction n as [|n IH]; intros packet len next st gl es cap b Hi Hb Hg Hby Hl H0 Hn Hc;
    cbn [bats_msgs].
  { exists FH_OK, next, st, gl, es, b. split; [done|]. do 4 (split; [done|]). lia. }
  destruct (bats_msg_safe packet len st cap b Hby Hl Hb)
    as (used & st1 & b1 & -> & Hb1 & (E1 & E2 & E3) & Hu).
  cbn [mbind option_bind].
  assert (Hi1 : feed_inv cfg st1 gl es).
  { eapply feed_inv_ext; [exact Hi | done | done | by eapply book_inv_tables]. }
  assert (Hg1 : gapnode_ok st1 es) by (unfold gapnode_ok; by rewrite E3).
  destruct (used <? 0) eqn:Eu; bool_to_prop.
  { exists FH_ERROR, next, st1, gl, es, b1. split; [done|]. do 4 (split; [done|]). lia. }
  assert (Hstep : exists filled next2 st2 gl2 es2,
    (if negb (fs_gapnode st1 =? NULL) then
       st ← bats_fill hooks st1; Some (fs_gapnode st =? NULL, next, st)
     else Some (false, u64 (next + 1), st1)) = Some (filled, next2, st2) /\
    feed_inv cfg st2 gl2 es2 /\ book_inv st2 cap b1 /\ gapnode_ok st2 es2 /\
    gl2.(gl_max) = gl.(gl_max) /\ fs_next_seq_no st2 = fs_next_seq_no st /\
    0 <= next2 <= next + 1).
  { destruct (fs_gapnode st1 =? NULL) eqn:En; bool_to_prop; cbn [negb].
    - rewrite u64_small by lia. exists false, (next + 1), st1, gl, es.
      split; [done|]. do 5 (split; [done|]). lia.
    - destruct Hg1 as [?|Hg1]; [done|].
      destruct (bats_fill_ok st1 gl es Hi1 Hg1) as (st2 & gl2 & es2 & -> & Hi2 & HM & Hn2 & Ht2 & Hg2).
      cbn [mbind option_bind]. do 5 eexists. split; [done|]. split; [done|].
      split; [by eapply book_inv_same|]. split; [done|]. split; [done|]. split; [congruence | lia]. }
  destruct Hstep as (filled & next2 & st2 & gl2 & es2 & -> & Hi2 & Hb2 & Hg2 & HM2 & Hn2 & Hnx).
  cbn [mbind option_bind]. pose proof (ii_next _ _ _ Hi) as Hnext.
  set (st3 := count_stat Messages 1 _).
  assert (E : fs_next_seq_no st3 = fs_next_seq_no st + 1)
    by (subst st3; cbn; rewrite Hn2; apply u64_small; lia).
  assert (Hi3 : feed_inv cfg st3 gl2 es2).
  { destruct Hi2. constructor; try done. rewrite E. lia. }
  destruct filled.
  { exists FH_OK, next2, st3, gl2, es2, b1. split; [done|]. do 4 (split; [done|]). lia. }
  destruct (IH (drop (Z.to_nat used) packet) (len - used) next2 st3 gl2 es2 cap b1)
    as (rc & next' & st' & gl' & es' & b' & -> & Hi' & Hb' & Hg' & HM' & Hnx');
    [done | done | done | by apply Forall_drop | rewrite length_drop; lia | lia | lia | lia |].
  exists rc, next', st', gl', es', b'. split; [done|]. do 3 (split; [done|]).
  split; [congruence | done].
Qed.

End safe.
