(* ===== verification/BatsTheorems.v ===== *)
(** * Theorems about the BATS parser

    Safety on arbitrary packets, the order book of in-order packets, and the
    behaviours of the parser's gap handling that lose or repeat messages. *)
From S2P Require Import Prelude Bytes Mpool GapFill HTable Lookup Conn Feed FeedProps BatsParse BatsProps BatsWire BatsSafe.

Section packets.
Context {W : Type} (cfg : feed_config) (hooks : bats_hooks W).
Notation st_t := (feed_state W).
Notation book_inv := (book_inv (K:=Z) cfg).

(** The header of a packet: length, count, unit and number, little-endian. *)
Definition unit_header (hdr_length count unit seq_no : Z) : list Z :=
  le_bytes 2 hdr_length ++ [count; unit] ++ le_bytes 4 seq_no.

Lemma unit_header_extract len count unit seq_no rest :
  int16 len -> int8 count -> int8 unit -> int32 seq_no ->
  fh_bats_pitch20_extract (unit_header len count unit seq_no ++ rest) =
    Some (MkUnit len count unit seq_no) /\
  drop 8 (unit_header len count unit seq_no ++ rest) = rest /\
  length (unit_header len count unit seq_no) = 8%nat.
Proof.
  unfold int8, int16, int32. intros Hl Hc Hu Hs.
  pose proof (length_le_bytes 2 len). pose proof (length_le_bytes 4 seq_no).
  assert (H8 : length (unit_header len count unit seq_no) = 8%nat)
    by (unfold unit_header; rewrite !length_app; cbn [length]; lia).
  split; [|split; [by apply drop_app_length' | done]].
  unfold fh_bats_pitch20_extract, unit_header.
  assert (Ecu : [count; unit] = le_bytes 2 (count + 256 * unit)).
  { cbn [le_bytes]. replace (count + 256 * unit) with (count + unit * 256) by lia.
    by rewrite Z.mod_add, Z.div_add, Z.div_small, Z.add_0_l, !Z.mod_small by lia. }
  rewrite (byte_part _ 3 unit) by (apply part_app; find_part). rewrite Ecu.
  pose proof (length_le_bytes 2 (count + 256 * unit)).
  rewrite (read_le_part _ 0 2 len), (read_le_part _ 2 2 (count + 256 * unit)),
    (read_le_part _ 4 4 seq_no) by (done || (apply part_app; find_part) || (change (256 ^ Z.of_nat 2) with 65536; lia)).
  cbn [mbind option_bind]. do 2 f_equal. unfold u8.
  by rewrite (Z.mul_comm 256), Z.mod_add, Z.mod_small by lia.
Qed.

(** The duplicate check, when no gap was being filled. *)
Lemma bats_duplicate_ok st gl es now seq_no :
  feed_inv cfg st gl es -> st.(fs_gapnode) = NULL -> seq_ok st seq_no ->
  exists dup st' gl' es', fh_bats_parse_duplicate hooks now seq_no st = Some (dup, st') /\
    feed_inv cfg st' gl' es' /\ same_tables st st' /\ gapnode_ok st' es' /\
    gl'.(gl_max) = gl.(gl_max) /\
    (st'.(fs_next_seq_no) = st.(fs_next_seq_no) \/ st'.(fs_next_seq_no) = seq_no).
Proof.
  intros Hi0 Hg0 [Hs Hj0]. unfold fh_bats_parse_duplicate.
  destruct (feed_flush_ok (bats_hook_alert hooks) st gl es now Hi0)
    as (st1 & gl1 & es1 & -> & Hi & HM & Hn & Hg & Ht). cbn [mbind option_bind].
  rewrite Hg0 in Hg. rewrite <- Hn in Hj0. pose proof Hi as [Hgl Hr Hok Hmax Htb Hnext].
  destruct (seq_no <? fs_next_seq_no st1) eqn:E1; bool_to_prop.
  { rewrite Hgl. cbn [mbind option_bind]. rewrite (gap_find_repr _ _ _ Hr). cbn [mbind option_bind].
    do 4 eexists. split; [done|]. split; [eapply feed_inv_same; [exact Hi | done..]|].
    split; [done|]. split; [|split; [done | by left]]. unfold gapnode_ok. cbn [fs_gapnode set_gapnode].
    destruct (spec_find_spec es1 seq_no Hok) as [[-> _]|(l1 & c & g & l2 & -> & -> & _)];
      [intros a; by apply gap_repr_nonnull with gl1 | by left | right; rewrite fmap_app; apply elem_of_app; right; left]. }
  destruct (fs_next_seq_no st1 <? seq_no) eqn:E2; bool_to_prop.
  2: { exists false, st1, gl1, es1. split; [done|]. split; [done|]. split; [done|].
       split; [by left | split; [done | by left]]. }
  destruct (feed_push_ok st1 gl1 es1 now seq_no Hi (conj Hs Hj0) E2)
    as (Hgs & rc & node & gl2 & Hp & Hrc & Hr2 & Hok2 & HM2).
  cbn [fs_gaplist fs_next_seq_no count_stat]. rewrite Hgl, Hp. cbn [mbind option_bind].
  replace (rc <? 0) with false by lia.
  set (st2 := set_gaplist gl2 (count_stat Gaps 1 st1)).
  set (p := if 0 <? rc then _ else _).
  assert (Hp2 : exists rc2 st3, p = (rc2, st3) /\ same_tables st1 st3 /\
    st3.(fs_gaplist) = Some gl2 /\ st3.(fs_gapnode) = NULL).
  { subst p. unfold feed_alert. destruct (0 <? rc); [destruct (call_alert _ _ _ _) as [r w]|];
      do 2 eexists; done. }
  destruct Hp2 as (rc2 & st3 & -> & Ht3 & Hgl3 & Hgn3).
  destruct (feed_alert_eq (bats_hook_alert hooks) FH_ALERT_GAP rc2 (set_next_seq_no seq_no st3))
    as (rc3 & w & ->). cbn [snd].
  exists false. do 3 eexists. split; [done|]. destruct Htb as [Hts Hto], Ht3 as [T1 T2], Ht as [T3 T4].
  split; [constructor; [exact Hgl3 | exact Hr2 | exact Hok2 | lia | | cbn; lia]|].
  - split; cbn; [by rewrite T1 | by rewrite T2].
  - split; [split; cbn; congruence|]. split; [by left|]. split; [lia | by right].
Qed.

(** ** Runs of messages *)

(** A message of a packet: the time, or a message at a time offset. *)
Inductive bats_item := ITime (seconds : Z) | IMsg (offset : Z) (m : bats_wire).

Definition item_bytes (it : bats_item) : list Z :=
  match it with
  | ITime s => 6 :: TIME_MESSAGE_TYPE :: le_bytes 4 s
  | IMsg off m => bats_encode off m
  end.
Definition item_ok (it : bats_item) : Prop :=
  match it with ITime s => int32 s | IMsg off m => int32 off /\ bats_ok m end.
Definition item_book (cap : Z) (b : gmap Z order) (it : bats_item) : gmap Z order :=
  match it with ITime _ => b | IMsg _ m => bats_book cap m b end.
(** The same with the effect that the comments describe, and the runs in
    which no execution takes all the shares that an order has left. *)
Definition item_intended (cap : Z) (b : gmap Z order) (it : bats_item) : gmap Z order :=
  match it with ITime _ => b | IMsg _ m => bats_intended cap m b end.
Definition item_fills (it : bats_item) (b : gmap Z order) : bool :=
  match it with ITime _ => false | IMsg _ m => bats_fills m b end.
Fixpoint no_fill (cap : Z) (b : gmap Z order) (its : list bats_item) : bool :=
  match its with
  | [] => true
  | it :: its => negb (item_fills it b) && no_fill cap (item_intended cap b it) its
  end.

Lemma no_fill_book cap its : forall b, no_fill cap b its = true ->
  foldl (item_book cap) b its = foldl (item_intended cap) b its.
Proof.
  induction its as [|it its IH]; intros b H; [done|]. cbn in *.
  apply andb_prop in H as [Hf%negb_true_iff H]. rewrite <- IH by done. f_equal.
  destruct it as [|off m]; [done|]. by apply bats_book_intended.
Qed.

(** The time of a connection, in nanoseconds. *)
Definition item_time (now : Z) (it : bats_item) : Z :=
  match it with ITime s => s * 1000000000 | IMsg _ _ => now end.

Definition bats_hooks_accept : Prop :=
  (forall k f m w, hooks.(bats_hook_msg) k = Some f -> (f m w).1.1 = FH_OK) /\
  (forall f d w, hooks.(bats_hook_msg_send) = Some f -> (f d w).1 = FH_OK).

Lemma bats_finish_accept kind msg buffer len st : bats_hooks_accept ->
  exists data w, bats_finish hooks kind msg buffer len st = (FH_OK, data, set_world w st).
Proof.
  intros [Hm _]. unfold bats_finish. destruct (bats_hook_msg hooks kind) as [f|] eqn:E.
  - pose proof (Hm _ _ msg (fs_world st) E) as H. destruct (f _ _) as [[rc [d l]] w].
    cbn in H. subst rc. eauto.
  - exists (BdBuffer buffer len), (fs_world st). by destruct st.
Qed.

Lemma bats_parse_item it rest L st cap b :
  item_ok it -> book_inv st cap b -> bats_hooks_accept -> Z.of_nat (length (item_bytes it)) <= L ->
  exists st', fh_bats_parse_msg cfg hooks (item_bytes it ++ rest) L st =
      Some (Z.of_nat (length (item_bytes it)), st') /\
    book_inv st' cap (item_book cap b it) /\ same_seq st st' /\
    st'.(fs_timestamp) = item_time st.(fs_timestamp) it.
Proof.
  intros Hok Hb Ha HL. unfold fh_bats_parse_msg. destruct it as [s|off m]; cbn [item_bytes item_ok] in *.
  - cbn [length] in HL. rewrite length_le_bytes in HL. cbn [length]. rewrite length_le_bytes.
    destruct (L <? 1) eqn:E; bool_to_prop; [lia|]. clear E.
    change (byte_at ((6 :: TIME_MESSAGE_TYPE :: le_bytes 4 s) ++ rest) 0) with (Some 6).
    change (byte_at ((6 :: TIME_MESSAGE_TYPE :: le_bytes 4 s) ++ rest) 1) with (Some TIME_MESSAGE_TYPE).
    cbn [mbind option_bind]. destruct (L <? 6) eqn:E; bool_to_prop; [lia|]. clear E.
    change (6 <? 6) with false. rewrite Z.eqb_refl. cbn iota. pose proof (length_le_bytes 4 s).
    rewrite (read_le_part _ 2 4 s) by ((apply part_app; find_part) || exact Hok).
    cbn [mbind option_bind]. unfold int32 in Hok. rewrite u64_small by lia.
    eexists. split; [done|]. split; [exact Hb | done].
  - destruct Hok as [Ho Hok]. rewrite (length_bats_encode off m Hok) in *.
    assert (Hsz : 6 <= bats_size m <= 41) by (destruct m; cbn; lia).
    destruct (L <? 1) eqn:E; bool_to_prop; [lia|]. clear E.
    change (byte_at (bats_encode off m ++ rest) 0) with (Some (bats_size m)).
    change (byte_at (bats_encode off m ++ rest) 1) with (Some (bats_type m)).
    cbn [mbind option_bind]. destruct (L <? _) eqn:E; bool_to_prop; [lia|]. clear E.
    destruct (_ <? 6) eqn:E; bool_to_prop; [lia|]. clear E.
    replace (bats_type m =? TIME_MESSAGE_TYPE) with false by by destruct m.
    destruct (bats_dispatch_wire cfg hooks m off rest st cap b Ho Hok Hb)
      as (sym & ord & st1 & -> & (Hb1 & Hs1 & [= Ht _])).
    destruct (bats_finish_accept (bats_delivered m sym ord).1
      (bats_struct m off sym ord (bats_encode off m ++ rest) st) (bats_encode off m ++ rest)
      (bats_size m) st1 Ha) as (data & w & ->).
    cbn [mbind option_bind]. change (FH_OK =? FH_OK) with true. cbn [negb].
    destruct (bats_hook_msg_send hooks) as [f|] eqn:Ef; [|by exists (set_world w st1)].
    pose proof (proj2 Ha _ data (fs_world (set_world w st1)) Ef) as Hf.
    destruct (f _ _) as [rc w2]. cbn in Hf. subst rc. by exists (set_world w2 (set_world w st1)).
Qed.

(** The loop over the messages, when no gap is being filled. *)
Lemma bats_msgs_wire its : Forall item_ok its -> forall rest L next st cap b,
  book_inv st cap b -> bats_hooks_accept -> st.(fs_gapnode) = NULL ->
  0 <= next -> next + Z.of_nat (length its) < 18446744073709551616 ->
  0 <= st.(fs_next_seq_no) ->
  st.(fs_next_seq_no) + Z.of_nat (length its) < 18446744073709551616 ->
  Z.of_nat (length (concat (item_bytes <$> its))) <= L ->
  exists st', bats_msgs cfg hooks (length its) (concat (item_bytes <$> its) ++ rest) L next st =
      Some (FH_OK, next + Z.of_nat (length its), st') /\
    book_inv st' cap (foldl (item_book cap) b its) /\
    st'.(fs_timestamp) = foldl item_time st.(fs_timestamp) its /\
    st'.(fs_gaplist) = st.(fs_gaplist) /\ st'.(fs_gapnode) = NULL /\
    st'.(fs_stats) = Nat.iter (length its) (stat_add Messages 1) st.(fs_stats).
Proof.
  induction 1 as [|it its Hok Hits IH]; intros rest L next st cap b Hb Ha Hg H0 Hmax H0' Hmax' HL.
  { exists st. cbn. rewrite Z.add_0_r. done. }
  cbn [fmap list_fmap concat length bats_msgs] in *. rewrite length_app in HL.
  rewrite <- app_assoc.
  destruct (bats_parse_item it (concat (item_bytes <$> its) ++ rest) L st cap b)
    as (st1 & -> & Hb1 & (E1 & E2 & E3 & E4 & _) & Ht1); [done | done | done | lia |].
  cbn [mbind option_bind]. destruct (_ <? 0) eqn:E; bool_to_prop; [lia|]. clear E.
  rewrite E4, Hg. change (NULL =? NULL) with true. cbn [negb mbind option_bind].
  rewrite u64_small by lia. rewrite Nat2Z.id, drop_app_length.
  set (st2 := count_stat Messages 1 _).
  assert (En : fs_next_seq_no st2 = fs_next_seq_no st + 1)
    by (subst st2; cbn; rewrite E1; apply u64_small; lia).
  destruct (IH rest (L - Z.of_nat (length (item_bytes it))) (next + 1) st2 cap (item_book cap b it))
    as (st' & -> & Hb' & Ht' & Hgl' & Hgn' & Hst');
    [exact Hb1 | done | by subst st2; cbn; rewrite E4 | lia | lia | lia | lia | lia |].
  exists st'. split; [do 2 f_equal; f_equal; lia|]. split; [exact Hb'|]. split.
  { rewrite Ht'. subst st2. cbn [fs_timestamp count_stat set_next_seq_no foldl]. by rewrite Ht1. }
  split; [rewrite Hgl'; subst st2; cbn; congruence|]. split; [done|].
  rewrite Hst'. subst st2. cbn [fs_stats count_stat set_next_seq_no]. rewrite E2.
  by rewrite <- Nat.iter_succ_r.
Qed.

(** The flush at the start of a packet, when no gap is open. *)
Lemma bats_in_order_not_duplicate now st :
  (forall gl, st.(fs_gaplist) = Some gl -> gl.(gl_count) = 0) ->
  fh_bats_parse_duplicate hooks now st.(fs_next_seq_no) st = Some (false, st).
Proof.
  intros Hg. unfold fh_bats_parse_duplicate, feed_flush.
  destruct (fs_gaplist st) as [gl|] eqn:E; [rewrite (Hg gl) by done|];
    cbn [Z.ltb Z.compare mbind option_bind]; by rewrite Z.ltb_irrefl.
Qed.

End packets.

(** ** A gap left half filled *)

Lemma feed_flush_seq {W} (h : alert_hook W) now st st' : feed_flush h now st = Some st' ->
  st'.(fs_next_seq_no) = st.(fs_next_seq_no) /\ st'.(fs_gapnode) = st.(fs_gapnode) /\ same_tables st st'.
Proof.
  unfold feed_flush, feed_alert. destruct (fs_gaplist st) as [gl|]; [|by intros [= <-]].
  destruct (0 <? gl_count gl); [|by intros [= <-]].
  destruct (fh_shr_gap_fill_flush now gl) as [[rc gl']|]; [|done]. cbn [mbind option_bind].
  destruct (0 <? rc); [|by intros [= <-]]. destruct (call_alert _ _ _ _). by intros [= <-].
Qed.

Lemma bats_fill_tables {W} (hooks : bats_hooks W) st st' : bats_fill hooks st = Some st' ->
  same_tables st st'.
Proof.
  unfold bats_fill, feed_alert. destruct (fs_gaplist st) as [gl|]; [|done]. cbn [mbind option_bind].
  destruct (fh_shr_gap_fill_del _ _ _) as [[[rc node] gl']|]; [|done]. cbn [mbind option_bind].
  intros H. repeat (case_match; simplify_eq/=); done.
Qed.

Lemma bats_msgs_stuck {W} cfg (hooks : bats_hooks W) n : forall packet len next st cap b rc next' st',
  book_inv cfg st cap b -> Forall is_byte packet -> len <= Z.of_nat (length packet) ->
  st.(fs_gapnode) <> NULL ->
  bats_msgs cfg hooks n packet len next st = Some (rc, next', st') -> next' = next.
Proof.
  induction n as [|n IH]; intros packet len next st cap b rc next' st' Hb Hby Hl Hg; cbn [bats_msgs];
    [by intros [= _ <- _]|].
  destruct (bats_msg_safe cfg hooks packet len st cap b Hby Hl Hb)
    as (used & st1 & b1 & -> & Hb1 & (_ & _ & E3) & Hu).
  cbn [mbind option_bind]. destruct (used <? 0) eqn:Eu; bool_to_prop; [by intros [= _ <- _]|].
  rewrite E3, (eqb_false_of_ne _ _ Hg). cbn [negb].
  destruct (bats_fill hooks st1) as [st2|] eqn:Ef; [|done]. cbn [mbind option_bind].
  destruct (fs_gapnode st2 =? NULL) eqn:E2; bool_to_prop; [by intros [= _ <- _]|].
  apply (IH _ _ _ _ cap b1); [|by apply Forall_drop | rewrite length_drop; lia | done].
  eapply book_inv_same; [exact Hb1 | exact (bats_fill_tables _ _ _ Ef)].
Qed.

(** ** Small states for the examples *)

Definition bats_cfg : feed_config := MkFeedCfg false false 4 30.
Definition bats_quiet : bats_hooks unit := MkBatsHooks None None (fun _ => None).

Definition bats_state (gl : option gap_list) (t : ord_tbl) (next : Z) : feed_state unit :=
  MkFeed next 0 stats_zero (MkTbl None None 0 0 ∅) t gl NULL true tt.

Definition bats_packet (seq_no : Z) (its : list bats_item) : list Z :=
  unit_header 0 (Z.of_nat (length its)) 1 seq_no ++ concat (item_bytes <$> its).

Lemma bats_demo gl next : gap_repr gl [] -> gl.(gl_max) = 4 -> 0 <= next <= 100 ->
  feed_inv bats_cfg (bats_state (Some gl) (MkTbl None None 0 0 ∅) next) gl [].
Proof.
  intros Hr HM Hn. constructor; [done | done | constructor | lia | by split | cbn; lia].
Qed.

(** ** Properties *)

(** C8: safety. For every packet, whatever its bytes, received when no gap is
    being filled, the parser returns (it reads nothing outside the packet,
    follows no bad pointer, comes to an end) and leaves correct tables and a
    correct gap list, with [gapnode] on it or [NULL]. *)
Theorem bats_pkt_safe {W} cfg (hooks : bats_hooks W) now packet len st gl es cap b :
  feed_inv cfg st gl es -> book_inv cfg st cap b -> st.(fs_gapnode) = NULL ->
  Forall is_byte packet -> len <= Z.of_nat (length packet) ->
  st.(fs_next_seq_no) < 2305843009213693952 ->
  (forall h, fh_bats_pitch20_extract packet = Some h ->
     h.(uh_seq_no) - st.(fs_next_seq_no) < 2147483648) ->
  exists rc st' gl' es' b', fh_bats_parse_pkt cfg hooks now packet len st = Some (rc, st') /\
    feed_inv cfg st' gl' es' /\ book_inv cfg st' cap b' /\ gapnode_ok st' es' /\
    gl'.(gl_max) = gl.(gl_max).
Proof.
  intros Hi Hb Hg Hby Hl Hn Hj. unfold fh_bats_parse_pkt. cbv zeta. set (st0 := count_stat Bytes len st).
  assert (Hi0 : feed_inv cfg st0 gl es) by (eapply feed_inv_same; [exact Hi | done..]).
  destruct (len <? _) eqn:El; unfold FH_BATS_SEQUENCE_UNIT_HEADER_SIZE in *; bool_to_prop.
  { do 5 eexists. split; [done|]. split; [eapply feed_inv_same; [exact Hi0 | done..]|].
    split; [exact Hb|]. split; [by left | done]. }
  unfold fh_bats_pitch20_extract in *.
  destruct (read_le2_some packet 0) as (hl & E1 & _); [done | lia | lia |].
  destruct (read_le2_some packet 2) as (c & E2 & _); [done | lia | lia |].
  destruct (read_le4_some packet 4) as (q & E3 & Hq); [done | lia | lia |].
  destruct (byte_at_some packet 3) as [u E4]; [lia|].
  rewrite E1, E2, E3, E4 in *. cbn [mbind option_bind uh_seq_no uh_msg_count] in *.
  specialize (Hj _ eq_refl). cbn [uh_seq_no] in Hj.
  destruct (bats_duplicate_ok cfg hooks st0 gl es now q Hi0 Hg)
    as (dup & st1 & gl1 & es1 & -> & Hi1 & Ht1 & Hg1 & HM1 & Hn1); [split; [lia | exact Hj]|].
  cbn [mbind option_bind].
  assert (Hb1 : book_inv cfg st1 cap b) by by eapply book_inv_same.
  destruct dup.
  { do 5 eexists. split; [done|]. split; [eapply feed_inv_same; [exact Hi1 | done..]|]. done. }
  destruct (u8 c =? 0).
  { do 5 eexists. split; [done|]. destruct (_ <? q); [|done].
    split; [destruct Hi1; constructor; try done; cbn; lia | done]. }
  set (next := if negb _ then _ else _). set (st2 := set_next_seq_no q st1).
  cbn [fs_next_seq_no count_stat st0] in Hn1. pose proof (ii_next _ _ _ Hi1).
  pose proof (Z.mod_pos_bound c 256 ltac:(lia)). unfold u8.
  assert (Hnx : 0 <= next <= 2305843009213693952) by (subst next; destruct (negb _); lia).
  destruct (bats_msgs_safe cfg hooks (Z.to_nat (c mod 256)) (drop 8 packet) (len - 8) next st2 gl1 es1 cap b)
    as (rc & next' & st' & gl' & es' & b' & -> & Hi' & Hb' & Hg' & HM' & Hnx');
    [destruct Hi1; constructor; try done; cbn; lia | done | done | by apply Forall_drop
    | rewrite length_drop; lia | lia | lia | cbn; lia |].
  cbn [mbind option_bind]. do 5 eexists. split; [done|].
  split; [destruct Hi'; constructor; try done; cbn; lia|]. split; [done|]. split; [done | congruence].
Qed.

(** A time message at number 4, after a gap of three. *)
Lemma bats_pkt_safe_witness :
  exists gl rc st', fh_bats_parse_pkt bats_cfg bats_quiet 100 (bats_packet 4 [ITime 7]) 14
      (bats_state (Some gl) (MkTbl None None 0 0 ∅) 1) = Some (rc, st') /\
    st'.(fs_next_seq_no) = 5 /\ st'.(fs_timestamp) = 7000000000.
Proof.
  destruct (gap_new_repr 64 4096 4 30) as (gl & E & Hr & HM & _); [lia..|]. exists gl.
  destruct (bats_pkt_safe bats_cfg bats_quiet 100 (bats_packet 4 [ITime 7]) 14
    (bats_state (Some gl) (MkTbl None None 0 0 ∅) 1) gl [] 0 ∅ (bats_demo gl 1 Hr HM ltac:(lia)))
    as (rc & st' & _ & _ & _ & Ep & _); try done.
  - repeat (constructor; [done|]). constructor.
  - intros h Hh. vm_compute in Hh. injection Hh as <-. reflexivity.
  - exists rc, st'. split; [exact Ep|]. vm_compute in E. injection E as <-.
    vm_compute in Ep. injection Ep as _ <-. by split.
Defined.

(** C7: an in-order packet. The packet of any messages and times, on a line
    with no gaps, at the line's next number, with plugins that accept every
    message: it is parsed with success, the line advances by the number of
    messages, each is counted, the connection's time is the last one given,
    and the order table holds a book: when no execution takes all the shares an
    order has left ([no_fill]), it is the book the messages describe; in
    general it is the book of [item_book], which differs from that in one
    point, where the code disagrees with the comment in its execution handler
    (fh_bats_parse.c:265): an order executed in full stays, with no shares. *)
Theorem bats_pkt_in_order {W} cfg (hooks : bats_hooks W) now hdr_length unit its rest st cap b :
  Forall item_ok its -> its <> [] -> Z.of_nat (length its) < 256 -> int16 hdr_length -> int8 unit ->
  book_inv cfg st cap b -> bats_hooks_accept hooks ->
  0 <= st.(fs_next_seq_no) < 4294967296 -> st.(fs_gapnode) = NULL ->
  (forall gl, st.(fs_gaplist) = Some gl -> gl.(gl_count) = 0) ->
  let packet := unit_header hdr_length (Z.of_nat (length its)) unit st.(fs_next_seq_no) ++
    concat (item_bytes <$> its) in
  let len := Z.of_nat (length packet) in
  exists st', fh_bats_parse_pkt cfg hooks now (packet ++ rest) len st = Some (FH_OK, st') /\
    (no_fill cap b its = true -> book_inv cfg st' cap (foldl (item_intended cap) b its)) /\
    book_inv cfg st' cap (foldl (item_book cap) b its) /\
    st'.(fs_next_seq_no) = st.(fs_next_seq_no) + Z.of_nat (length its) /\
    st'.(fs_timestamp) = foldl item_time st.(fs_timestamp) its /\
    st'.(fs_stats) = Nat.iter (length its) (stat_add Messages 1) (stat_add Bytes len st.(fs_stats)).
Proof.
  intros Hok Hne Hlen Hh Hu Hb Ha Hn Hg Hgl packet len.
  destruct (unit_header_extract hdr_length (Z.of_nat (length its)) unit (fs_next_seq_no st)
    (concat (item_bytes <$> its) ++ rest)) as (He & Hd & H8); [done | unfold int8; lia | done | done |].
  rewrite app_assoc in He, Hd. fold packet in He, Hd.
  assert (Hp : length packet = (8 + length (concat (item_bytes <$> its)))%nat)
    by (unfold packet; rewrite length_app; lia).
  unfold fh_bats_parse_pkt. cbv zeta.
  destruct (len <? _) eqn:E; unfold FH_BATS_SEQUENCE_UNIT_HEADER_SIZE in *; bool_to_prop; [lia|]. clear E.
  rewrite He, Hd. cbn [mbind option_bind uh_seq_no uh_msg_count].
  pose proof (bats_in_order_not_duplicate hooks now (count_stat Bytes len st) Hgl) as Hdup.
  cbn [fs_next_seq_no count_stat] in Hdup. rewrite Hdup.
  cbn [mbind option_bind]. rewrite (eqb_false_of_ne (Z.of_nat _)) by (destruct its; [done | cbn; lia]).
  cbn [fs_gapnode count_stat]. rewrite Hg. change (NULL =? NULL) with true. cbn [negb]. rewrite Nat2Z.id.
  destruct (bats_msgs_wire cfg hooks its Hok rest (len - 8) (fs_next_seq_no st)
    (set_next_seq_no (fs_next_seq_no st) (count_stat Bytes len st)) cap b)
    as (st' & E & Hb' & Ht' & Hgl' & Hg' & Hst'); [exact Hb | done | done | lia | lia | cbn; lia
    | cbn; lia | lia |].
  rewrite E. cbn [mbind option_bind]. eexists. split; [done|].
  split; [intros Hf; rewrite <- (no_fill_book _ _ _ Hf); exact Hb'|]. split; [exact Hb'|].
  split; [done|]. split; [exact Ht' | exact Hst'].
Qed.

(** Order 7, 100 shares; 40 executed; the price of the rest changed. *)
Definition bats_demo_items : list bats_item :=
  [ITime 34200; IMsg 5 (BwAddLong 7 66 100 [65; 65; 80; 76; 32; 32] 125000 1);
   IMsg 9 (BwExecute 7 40 5001); IMsg 9 (BwModifyShort 7 60 1260 0)].

Lemma bats_pkt_in_order_witness :
  exists t st', table_book t 4 ∅ /\
    fh_bats_parse_pkt (MkFeedCfg false true 4 30) bats_quiet 100 (bats_packet 1 bats_demo_items ++ []) 93
      (bats_state None t 1) = Some (FH_OK, st') /\
    table_book st'.(fs_order_table) 4 {[ 7 := MkOrder 126000 60 66 [65; 65; 80; 76; 32; 32] ]} /\
    st'.(fs_next_seq_no) = 5 /\ st'.(fs_timestamp) = 34200000000000.
Proof.
  destruct (lkp_init_spec ord_key_of sizeof_ord_key "OrderTable" sizeof_ord 4096 65536 4)
    as (t & _ & Hr & _); [done | done | done | lia | unfold sizeof_ord; lia |].
  assert (Ht : table_book t 4 ∅) by (exists ∅; split; [exact Hr | by constructor]).
  destruct (bats_pkt_in_order (MkFeedCfg false true 4 30) bats_quiet 100 0 1 bats_demo_items []
    (bats_state None t 1) 4 ∅) as (st' & E & Hb & _ & En & Et & _); try done.
  - repeat constructor; done.
  - exists t, st'. split; [exact Ht|]. split; [exact E|]. split; [exact (proj2 (Hb eq_refl) eq_refl)|].
    split; [exact En | exact Et].
Defined.

(** C9: delivery. The switch on the bytes of a message decodes every field
    (short prices become ten-thousandths) and ends with the message's hook
    called on the struct of its fields, stamped with the line's number and the
    connection's time plus the message's offset. The order book changes as the
    message says ([bats_intended]), but for an execution of all the shares an
    order has left: against the comment in the handler (fh_bats_parse.c:265),
    which has the entry removed, the order stays in the book with no shares. *)
Theorem bats_msg_delivered {W} cfg (hooks : bats_hooks W) m off rest st cap b :
  int32 off -> bats_ok m -> book_inv cfg st cap b ->
  let buffer := bats_encode off m ++ rest in
  exists sym ord st1,
    bats_dispatch cfg hooks (bats_type m) buffer (Z.of_nat (length (bats_encode off m))) st =
      (let '(rc, data, st2) := bats_finish hooks (bats_delivered m sym ord).1
         (bats_struct m off sym ord buffer st) buffer (bats_size m) st1 in
       Some (rc =? FH_OK, data, st2)) /\
    same_seq st st1 /\
    (bats_fills m b = false -> book_inv cfg st1 cap (bats_intended cap m b)) /\
    (forall no n e o, m = BwExecute no n e -> b !! no = Some o -> n = o.(o_shares) ->
     book_inv cfg st1 cap (<[no := MkOrder o.(o_price) 0 o.(o_buy_sell_ind) o.(o_stock)]> b)).
Proof.
  intros Ho Hok Hb buffer. rewrite length_bats_encode by done.
  destruct (bats_dispatch_wire cfg hooks m off rest st cap b Ho Hok Hb)
    as (sym & ord & st1 & E & Hb1 & Hs & _). exists sym, ord, st1.
  split; [exact E|]. split; [exact Hs|]. split.
  - intros Hf. by rewrite <- bats_book_intended.
  - intros no n e o -> Hno Hn. rewrite <- (bats_book_filled cap no n e) by done. exact Hb1.
Qed.

Lemma bats_msg_delivered_witness :
  exists sym ord st1,
    bats_dispatch bats_cfg bats_quiet 0x28 (bats_encode 9 (BwModifyShort 7 60 1260 3) ++ []) 19
      (bats_state None (MkTbl None None 0 0 ∅) 1) =
      Some (true, BdBuffer (bats_encode 9 (BwModifyShort 7 60 1260 3) ++ []) 19, st1) /\
    bats_delivered (BwModifyShort 7 60 1260 3) sym ord =
      (BkModifyOrderShort, BModifyShort 7 60 126000 3 ord).
Proof.
  destruct (bats_msg_delivered bats_cfg bats_quiet (BwModifyShort 7 60 1260 3) 9 []
    (bats_state None (MkTbl None None 0 0 ∅) 1) 0 ∅) as (sym & ord & st1 & E & _); [done..|].
  exists sym, ord, st1. split; [exact E | reflexivity].
Defined.

(** While [gapnode] still points to the gap of an
    earlier packet, an in-order packet is taken for a fill: whatever it holds
    and whatever comes of it, the line does not advance, so its messages will
    be processed again when they come again. *)
Theorem bats_line_stuck {W} cfg (hooks : bats_hooks W) now packet len st h rc st' cap b :
  book_inv cfg st cap b -> Forall is_byte packet -> len <= Z.of_nat (length packet) ->
  st.(fs_gapnode) <> NULL -> fh_bats_pitch20_extract packet = Some h ->
  h.(uh_seq_no) = st.(fs_next_seq_no) ->
  fh_bats_parse_pkt cfg hooks now packet len st = Some (rc, st') ->
  st'.(fs_next_seq_no) = st.(fs_next_seq_no).
Proof.
  intros Hb Hby Hl Hg Hh Hseq. unfold fh_bats_parse_pkt. cbv zeta.
  destruct (len <? _) eqn:El; unfold FH_BATS_SEQUENCE_UNIT_HEADER_SIZE in *; bool_to_prop;
    [by intros [= _ <-]|].
  rewrite Hh. cbn [mbind option_bind]. unfold fh_bats_parse_duplicate.
  destruct (feed_flush _ _ _) as [st1|] eqn:Ef; [|done].
  apply feed_flush_seq in Ef as (En & Eg & Et). cbn [fs_next_seq_no fs_gapnode count_stat] in En, Eg.
  cbn [mbind option_bind]. rewrite Hseq, En, Z.ltb_irrefl. cbn [mbind option_bind].
  destruct (uh_msg_count h =? 0); [by rewrite En, Z.ltb_irrefl; intros [= _ <-]|].
  rewrite Eg, (eqb_false_of_ne _ _ Hg). cbn [negb]. rewrite En.
  destruct (bats_msgs _ _ _ _ _ _ _) as [[[rc1 next1] st2]|] eqn:Em; [|done].
  cbn [mbind option_bind]. intros [= _ <-]. cbn.
  eapply bats_msgs_stuck in Em; [done | | by apply Forall_drop | rewrite length_drop; lia |].
  - eapply book_inv_same; [|exact Et]. exact Hb.
  - cbn. by rewrite Eg.
Qed.

(** Number 4 opens the gap 1-3, number 1 fills a third of it, number 5 is in
    order and processed, and processed again when the other line sends it. *)
Lemma bats_line_stuck_witness :
  exists st rc st' rc' st'', fs_next_seq_no st = 5 /\ fs_gapnode st <> NULL /\
    fh_bats_parse_pkt bats_cfg bats_quiet 100 (bats_packet 5 [ITime 7]) 14 st = Some (rc, st') /\
    fs_next_seq_no st' = 5 /\
    fh_bats_parse_pkt bats_cfg bats_quiet 100 (bats_packet 5 [ITime 7]) 14 st' = Some (rc', st'') /\
    fs_next_seq_no st'' = 5 /\
    (fs_stats st').(messages) = 3 /\ (fs_stats st'').(messages) = 4.
Proof.
  pose (gl := fh_shr_gap_fill_new (Some 64) true true (Some 4096) 4 30).
  pose (run p st := from_option snd st
    (fh_bats_parse_pkt bats_cfg bats_quiet 100 (bats_packet p [ITime 7]) 14 st)).
  let s := eval vm_compute in
    (run 1 (run 4 (bats_state gl (MkTbl None None 0 0 ∅) 1))) in pose (st := s).
  assert (Hby : Forall is_byte (bats_packet 5 [ITime 7])) by (repeat constructor; done).
  destruct (fh_bats_parse_pkt bats_cfg bats_quiet 100 (bats_packet 5 [ITime 7]) 14 st)
    as [[rc st']|] eqn:E1; [|vm_compute in E1; discriminate E1].
  destruct (fh_bats_parse_pkt bats_cfg bats_quiet 100 (bats_packet 5 [ITime 7]) 14 st')
    as [[rc' st'']|] eqn:E2;
    [|vm_compute in E1; injection E1 as _ <-; vm_compute in E2; discriminate E2].
  assert (H5 : fs_next_seq_no st' = 5).
  { by apply (bats_line_stuck bats_cfg bats_quiet 100 (bats_packet 5 [ITime 7]) 14 st
      (MkUnit 0 1 1 5) rc st' 0 ∅). }
  exists st, rc, st', rc', st''. split; [reflexivity|]. split; [by vm_compute|].
  split; [exact E1|]. split; [exact H5|]. split; [exact E2|].
  vm_compute in E1. injection E1 as _ <-. vm_compute in E2. injection E2 as _ <-. by split.
Defined.

(** An execution of all the shares of an order leaves the order on the
    table, with no shares (the comment in the handler has it removed). *)
Theorem bats_full_execution_stays {W} cfg (hooks : bats_hooks W) no exec_id off rest st cap b o :
  int32 off -> int64 no -> int64 exec_id -> book_inv cfg st cap b -> b !! no = Some o ->
  int32 o.(o_shares) -> cfg.(order_table_enabled) = true ->
  exists ok data st', bats_dispatch cfg hooks 0x23
      (bats_encode off (BwExecute no o.(o_shares) exec_id) ++ rest) 26 st = Some (ok, data, st') /\
    table_book st'.(fs_order_table) cap
      (<[no := MkOrder o.(o_price) 0 o.(o_buy_sell_ind) o.(o_stock)]> b).
Proof.
  intros Hoff Hno He Hb Ho Hn Hen. set (m := BwExecute no (o_shares o) exec_id).
  destruct (bats_dispatch_wire cfg hooks m off rest st cap b Hoff) as (sym & ord & st1 & E & Hb1 & _);
    [done | done |].
  destruct (bats_finish_kept cfg hooks (bats_delivered m sym ord).1
    (bats_struct m off sym ord (bats_encode off m ++ rest) st) (bats_encode off m ++ rest)
    (bats_size m) st1 cap _ Hb1) as (rc & data & st2 & Ef & Hb2 & _).
  cbv zeta in E. rewrite Ef in E. do 3 eexists. split; [exact E|].
  pose proof (proj2 Hb2 Hen) as Ht. subst m. cbn [bats_book] in Ht.
  unfold book_update in Ht. rewrite Ho in Ht. unfold order_execute in Ht.
  by rewrite Z.leb_refl, Z.sub_diag in Ht.
Qed.

Lemma bats_full_execution_stays_witness :
  exists t ok data st', table_book t 4 {[ 7 := MkOrder 125000 100 66 [] ]} /\
    bats_dispatch (MkFeedCfg false true 4 30) bats_quiet 0x23
      (bats_encode 0 (BwExecute 7 100 1) ++ []) 26 (bats_state None t 1) = Some (ok, data, st') /\
    table_book st'.(fs_order_table) 4 {[ 7 := MkOrder 125000 0 66 [] ]}.
Proof.
  destruct (lkp_init_spec ord_key_of sizeof_ord_key "OrderTable" sizeof_ord 4096 65536 4)
    as (t0 & _ & Hr & _); [done | done | done | lia | unfold sizeof_ord; lia |].
  assert (Ht0 : table_book t0 4 ∅) by (exists ∅; split; [exact Hr | by constructor]).
  destruct (table_book_add t0 4 ∅ 7 (MkOrder 125000 100 66 []) NULL 125000 100 (order_no_key 0) Ht0)
    as (rc & p & t & _ & Ht & _); [done..|].
  assert (Hb : book_inv (MkFeedCfg false true 4 30) (bats_state None t 1) 4
    {[ 7 := MkOrder 125000 100 66 [] ]}) by (split; [done | intros _; exact Ht]).
  destruct (bats_full_execution_stays (MkFeedCfg false true 4 30) bats_quiet 7 1 0 []
    (bats_state None t 1) 4 {[ 7 := MkOrder 125000 100 66 [] ]} (MkOrder 125000 100 66 [])) as (ok & data & st' & E & Ht');
    [done | done | done | exact Hb | done | done | done |].
  exists t, ok, data, st'. split; [exact Ht|]. split; [exact E | exact Ht'].
Defined.

(** Without a gap list ([gap_list_max = 0]) the first packet behind the
    line, such as the other line's copy of one already processed, ends in the
    dereference of a [NULL] gap list. *)
Theorem bats_no_gaplist_crash {W} cfg (hooks : bats_hooks W) now packet len st h :
  fh_bats_pitch20_extract packet = Some h -> FH_BATS_SEQUENCE_UNIT_HEADER_SIZE <= len ->
  st.(fs_gaplist) = None -> h.(uh_seq_no) < st.(fs_next_seq_no) ->
  fh_bats_parse_pkt cfg hooks now packet len st = None.
Proof.
  intros Hh Hl Hg Hs. unfold fh_bats_parse_pkt. cbv zeta.
  destruct (len <? _) eqn:E; bool_to_prop; [lia|]. rewrite Hh. cbn [mbind option_bind].
  unfold fh_bats_parse_duplicate, feed_flush. cbn [fs_gaplist count_stat]. rewrite Hg.
  cbn [mbind option_bind fs_next_seq_no count_stat].
  destruct (_ <? _) eqn:E2; bool_to_prop; [|lia]. cbn. by rewrite Hg.
Qed.

Lemma bats_no_gaplist_crash_witness :
  fh_bats_parse_pkt bats_cfg bats_quiet 100 (bats_packet 1 [ITime 7]) 14
    (bats_state None (MkTbl None None 0 0 ∅) 2) = None.
Proof.
  apply (bats_no_gaplist_crash bats_cfg bats_quiet 100 _ 14 _ (MkUnit 0 1 1 1)); done.
Defined.
