(* ===== verification/EdgeParse.v ===== *)
(** * The Direct Edge message parser
      ([src/feeds/directedge/common/fh_edge_parse.c], [fh_edge_msg.h])

    Messages arrive one at a time from the TCP line handler ([TcpLh.v]):
    [rx_buf] is its receive buffer, [len] the length of the message in it and
    [rx_char] the type the line handler saw.  The tables are those of the
    other feeds; orders are named by twelve characters. *)
From S2P Require Import Prelude Bytes Mpool GapFill HTable Lookup Conn Feed.

(** ** Sizes ([fh_shr_tcp_lh.h]) *)

Definition SYSTEM_EVENT_MSG_SIZE : Z := 12.
Definition ADD_ORDER_ATTIRBUTED_QUOTE_MSG_SIZE : Z := 51.
Definition ADD_ORDER_MSG_SIZE : Z := 47.
Definition ORDER_EXECUTED_MSG_SIZE : Z := 50.
Definition ORDER_CANCELED_MSG_SIZE : Z := 29.
Definition TRADE_MSG_SIZE : Z := 67.
Definition BROKEN_TRADE_MSG_SIZE : Z := 32.
Definition SECURITY_STATUS_MSG_SIZE : Z := 18.

(** ** Number fields

    Both loops read a field from its last character to the first one or to a
    space.  The product is an [int]: it wraps before it is added to [temp],
    which has the width of [wrap]. *)
Fixpoint de_digits (wrap : Z -> Z) (src : list Z) (y temp : Z) : Z :=
  match src with
  | [] => temp
  | c :: src =>
      if c =? 32 then temp
      else de_digits wrap src (s32 (y * 10)) (wrap (temp + s32 ((s8 c - 0x30) * y)))
  end.

Definition fh_dirEdge_convert_int (src : list Z) : Z := de_digits u32 (reverse src) 1 0.
Definition fh_dirEdge_get_price (price : list Z) : Z := de_digits u64 (reverse price) 1 0.

(** [strncpy(dst, src, n)] where [src] has [n] bytes. *)
Fixpoint strncpy (src : list Z) : list Z :=
  match src with
  | [] => []
  | c :: src => if c =? 0 then replicate (S (length src)) 0 else c :: strncpy src
  end.

(** ** Messages *)

(** A field the code leaves uninitialised is [None]: [mmid] when the quote is
    not attributed, [ord_entry] when there is no order table. *)
Inductive edge_body :=
  | EdSystemEvent (event_code : Z)
  | EdAddOrder (order_ref : list Z) (side_indicator order_quantity : Z) (security : list Z)
      (price display : Z) (mmid : option (list Z)) (sym_entry ord_entry : Z)
  | EdOrderExecuted (order_ref : list Z) (executed_shares : Z) (match_number : list Z)
      (ord_entry : option Z)
  | EdOrderCanceled (order_ref : list Z) (canceled_shares : Z) (ord_entry : option Z)
  | EdTrade (order_ref : list Z) (side_indicator shares : Z) (security : list Z) (price : Z)
      (match_number : list Z)
  | EdBrokenTrade (match_number : list Z)
  | EdSecurityStatus (security : list Z) (halted_state : Z).

Record edge_msg := MkEdge {
  em_timestamp : Z;         (* uint32_t *)
  em_message_type : Z;
  em_body : edge_body;
  em_raw_message : list Z;  (* what [raw.message] points to: the receive buffer *)
  em_raw_len : Z
}.

Inductive edge_kind :=
  | EkSystemEvent | EkAddOrder | EkOrderExecuted | EkOrderCanceled | EkTrade | EkBrokenTrade
  | EkSecurityStatus.

(** What [data] and [data_length] of [fh_edge_parse_msg] are: not initialised,
    the message in the buffer, or whatever the message hook chose. *)
Inductive edge_data :=
  | EdNone
  | EdBuffer (buffer : list Z) (data_length : Z)
  | EdHook (data data_length : Z).

Record edge_hooks (W : Type) := MkEdgeHooks {
  edge_hook_alert : alert_hook W;
  edge_hook_msg_send : option (edge_data -> W -> Z * W);
  edge_hook_msg : edge_kind -> option (edge_msg -> W -> Z * (Z * Z) * W)
}.
Arguments MkEdgeHooks {W}.
Arguments edge_hook_alert {W}.
Arguments edge_hook_msg_send {W}.
Arguments edge_hook_msg {W}.

(** [memset(&key, 0, sizeof key); memcpy(key.order_no_str, order_ref, 12)] *)
Definition order_ref_key (order_ref : list Z) : fh_shr_lkp_ord_key :=
  MkOrdKey 0 (order_ref ++ replicate 8 0) (replicate 4 0).

Section edge.
Context {W : Type} (cfg : feed_config) (hooks : edge_hooks W).
Notation st_t := (feed_state W).

(** The end of every handler: the message hook. *)
Definition edge_finish (kind : edge_kind) (message : edge_msg) (buffer : list Z) (len : Z)
    (st : st_t) : Z * edge_data * st_t :=
  match hooks.(edge_hook_msg) kind with
  | Some f =>
      let '(rc, (data, data_length), w) := f message st.(fs_world) in
      (rc, EdHook data data_length, set_world w st)
  | None => (FH_OK, EdBuffer buffer len, st)
  end.

(** The header fields: time stamp and type. *)
Definition edge_header (buffer : list Z) : option (Z * Z) :=
  field ← read_bytes buffer 1 8;
  message_type ← byte_at buffer 9;
  Some (fh_dirEdge_convert_int field, message_type).

(** ** The order table *)

Definition edge_add_order (order_ref : list Z) (price shares side : Z) (stock : list Z)
    (sym_entry : Z) (st : st_t) : option (Z * st_t) :=
  if cfg.(order_table_enabled) then
    let entry := MkOrd (order_ref_key order_ref) 0 (order_ref ++ replicate 8 0) price shares side
                   stock sym_entry NULL in
    '(rc, ord_entry, tbl) ← fh_shr_lkp_ord_add st.(fs_order_table) entry;
    Some (if negb (rc =? FH_OK) then NULL else ord_entry, set_order_table tbl st)
  else Some (NULL, st).

(** Executed and canceled messages: the shares are taken off the order, which
    is removed when none are left.  More shares than it has change nothing. *)
Definition edge_reduce_order (order_ref : list Z) (shares : Z) (st : st_t)
    : option (option Z * st_t) :=
  if cfg.(order_table_enabled) then
    let key := order_ref_key order_ref in
    let tbl := st.(fs_order_table) in
    '(rc, ord_entry) ← fh_shr_lkp_ord_get tbl key;
    if rc =? FH_OK then
      e ← tbl.(tbl_entries) !! ord_entry;
      if shares <=? e.(ord_shares) then
        let left := u32 (e.(ord_shares) - shares) in
        let tbl := tbl_write tbl ord_entry (ord_set_shares left e) in
        if left =? 0 then
          '(_, _, tbl) ← fh_shr_lkp_ord_del tbl key;
          Some (Some ord_entry, set_order_table tbl st)
        else Some (Some ord_entry, set_order_table tbl st)
      else Some (Some ord_entry, st)
    else Some (Some ord_entry, st)
  else Some (None, st).

(** ** Message handlers *)

Definition edge_result : Type := option (Z * edge_data * st_t).

Definition fh_de_parse_sys_event_msg (buffer : list Z) (len : Z) (st : st_t) : edge_result :=
  if negb (len =? SYSTEM_EVENT_MSG_SIZE) then Some (FH_ERROR, EdNone, st)
  else
    '(ts, ty) ← edge_header buffer;
    event_code ← byte_at buffer 10;
    Some (edge_finish EkSystemEvent
      (MkEdge ts ty (EdSystemEvent event_code) buffer SYSTEM_EVENT_MSG_SIZE) buffer len st).

Definition fh_de_parse_add_order_msg (buffer : list Z) (len : Z) (st : st_t) : edge_result :=
  if negb (len =? ADD_ORDER_MSG_SIZE) && negb (len =? ADD_ORDER_ATTIRBUTED_QUOTE_MSG_SIZE) then
    Some (FH_ERROR, EdNone, st)
  else
    '(ts, ty) ← edge_header buffer;
    order_ref ← read_bytes buffer 10 12;
    side ← byte_at buffer 22;
    quantity ← read_bytes buffer 23 6;
    let quantity := fh_dirEdge_convert_int quantity in
    security ← read_bytes buffer 29 6;
    price ← read_bytes buffer 35 10;
    let price := fh_dirEdge_get_price price in
    '(sym_entry, st) ← fetch_symbol cfg security st;
    '(ord_entry, st) ← edge_add_order order_ref price quantity side security sym_entry st;
    display ← byte_at buffer 45;
    '(mmid, raw_len) ←
      (if display =? 65 (* 'A' *) then
         mmid ← read_bytes buffer 46 4;
         Some (Some (strncpy mmid), ADD_ORDER_ATTIRBUTED_QUOTE_MSG_SIZE)
       else Some (None, SYSTEM_EVENT_MSG_SIZE));
    Some (edge_finish EkAddOrder
      (MkEdge ts ty (EdAddOrder order_ref side quantity security price display mmid sym_entry
         ord_entry) buffer raw_len) buffer len st).

Definition fh_de_parse_order_executed_msg (buffer : list Z) (len : Z) (st : st_t)
    : edge_result :=
  if negb (len =? ORDER_EXECUTED_MSG_SIZE) then Some (FH_ERROR, EdNone, st)
  else
    '(ts, ty) ← edge_header buffer;
    order_ref ← read_bytes buffer 10 12;
    shares ← read_bytes buffer 22 6;
    let shares := fh_dirEdge_convert_int shares in
    match_number ← read_bytes buffer 28 21;
    '(ord_entry, st) ← edge_reduce_order order_ref shares st;
    Some (edge_finish EkOrderExecuted
      (MkEdge ts ty (EdOrderExecuted order_ref shares match_number ord_entry) buffer
         ORDER_EXECUTED_MSG_SIZE) buffer len st).

Definition fh_de_parse_order_canceled_msg (buffer : list Z) (len : Z) (st : st_t)
    : edge_result :=
  if negb (len =? ORDER_CANCELED_MSG_SIZE) then Some (FH_ERROR, EdNone, st)
  else
    '(ts, ty) ← edge_header buffer;
    order_ref ← read_bytes buffer 10 12;
    shares ← read_bytes buffer 22 6;
    let shares := fh_dirEdge_convert_int shares in
    '(ord_entry, st) ← edge_reduce_order order_ref shares st;
    Some (edge_finish EkOrderCanceled
      (MkEdge ts ty (EdOrderCanceled order_ref shares ord_entry) buffer
         ORDER_CANCELED_MSG_SIZE) buffer len st).

Definition fh_de_parse_trade_msg (buffer : list Z) (len : Z) (st : st_t) : edge_result :=
  if negb (len =? TRADE_MSG_SIZE) then Some (FH_ERROR, EdNone, st)
  else
    '(ts, ty) ← edge_header buffer;
    order_ref ← read_bytes buffer 10 12;
    side ← byte_at buffer 22;
    shares ← read_bytes buffer 23 6;
    security ← read_bytes buffer 29 6;
    price ← read_bytes buffer 35 10;
    match_number ← read_bytes buffer 45 21;
    Some (edge_finish EkTrade
      (MkEdge ts ty (EdTrade order_ref side (fh_dirEdge_convert_int shares) security
         (fh_dirEdge_get_price price) match_number) buffer TRADE_MSG_SIZE) buffer len st).

Definition fh_de_parse_broken_trade_msg (buffer : list Z) (len : Z) (st : st_t) : edge_result :=
  if negb (len =? BROKEN_TRADE_MSG_SIZE) then Some (FH_ERROR, EdNone, st)
  else
    '(ts, ty) ← edge_header buffer;
    match_number ← read_bytes buffer 10 21;
    Some (edge_finish EkBrokenTrade
      (MkEdge ts ty (EdBrokenTrade match_number) buffer BROKEN_TRADE_MSG_SIZE) buffer len st).

Definition fh_de_parse_security_status_msg (buffer : list Z) (len : Z) (st : st_t)
    : edge_result :=
  if negb (len =? SECURITY_STATUS_MSG_SIZE) then Some (FH_ERROR, EdNone, st)
  else
    '(ts, ty) ← edge_header buffer;
    security ← read_bytes buffer 10 6;
    halted_state ← byte_at buffer 16;
    Some (edge_finish EkSecurityStatus
      (MkEdge ts ty (EdSecurityStatus security halted_state) buffer SECURITY_STATUS_MSG_SIZE)
      buffer len st).

(** ** The parser *)

(** The [switch]: [None] for a type it does not know.  The flag says whether
    the case looks at the handler's status; 'E' does not. *)
Definition edge_handler (rx_char : Z) : option (bool * (list Z -> Z -> st_t -> edge_result)) :=
  if rx_char =? 83 (* 'S' *) then Some (true, fh_de_parse_sys_event_msg)
  else if rx_char =? 65 (* 'A' *) then Some (true, fh_de_parse_add_order_msg)
  else if rx_char =? 69 (* 'E' *) then Some (false, fh_de_parse_order_executed_msg)
  else if rx_char =? 88 (* 'X' *) then Some (true, fh_de_parse_order_canceled_msg)
  else if rx_char =? 80 (* 'P' *) then Some (true, fh_de_parse_trade_msg)
  else if rx_char =? 66 (* 'B' *) then Some (true, fh_de_parse_broken_trade_msg)
  else if rx_char =? 72 (* 'H' *) then Some (true, fh_de_parse_security_status_msg)
  else None.

(** The end of the parser: the number is counted and the message sent on.  The
    results are the status, the new value of [*seq_no] and the state. *)
Definition edge_send (data : edge_data) (seq_no : Z) (st : st_t) : Z * Z * st_t :=
  let seq_no := u64 (seq_no + 1) in
  match hooks.(edge_hook_msg_send) with
  | Some f =>
      let '(rc, w) := f data st.(fs_world) in
      let st := set_world w st in
      if negb (rc =? FH_OK) then (FH_ERROR, seq_no, st) else (FH_OK, seq_no, st)
  | None => (FH_OK, seq_no, st)
  end.

Definition fh_edge_parse_msg (rx_buf : list Z) (len rx_char seq_no : Z) (st : st_t)
    : option (Z * Z * st_t) :=
  match edge_handler rx_char with
  | None => Some (FH_ERROR, seq_no, st)
  | Some (checked, handler) =>
      '(rc, data, st) ← handler rx_buf len st;
      if checked && negb (rc =? FH_OK) then Some (FH_ERROR, seq_no, st)
      else Some (edge_send data seq_no st)
  end.

(** The alarm callback of the line handler. *)
Definition fh_edge_alarm (alarm_condition : Z) (st : st_t) : Z * st_t :=
  feed_alert hooks.(edge_hook_alert) alarm_condition FH_OK st.

End edge.

(** [FH_DIREDGE_PARSE_CACHE_HOOK]: a hook some plugin registered is cached. *)
Definition cache_hook {A} (registered cached : option A) : option A :=
  match registered with Some h => Some h | None => cached end.

Definition fh_edge_parse_init {W} (registered cached : edge_hooks W) : Z * edge_hooks W :=
  (FH_OK,
   MkEdgeHooks (cache_hook registered.(edge_hook_alert) cached.(edge_hook_alert))
     (cache_hook registered.(edge_hook_msg_send) cached.(edge_hook_msg_send))
     (fun kind => cache_hook (registered.(edge_hook_msg) kind) (cached.(edge_hook_msg) kind))).
