(* ===== verification/EdgeProps.v ===== *)
(** * Direct Edge: the wire format and what the handlers make of a message

    A message is a header (one character, time stamp, type) and fields; the
    line feed that ends it is not read.  Numbers are kept as the characters
    they are sent as: [edge_delivered] and [edge_book] say what the handlers
    and the order book make of any message, and [de_number] what the number
    parsers make of a number. *)
From S2P Require Import Prelude Bytes Mpool GapFill HTable Lookup Conn Feed FeedProps Decimal EdgeParse.

Create HintDb edge.

(** ** Number fields *)

(** The value of a number of at most ten digits as the loops compute it: the
    tenth digit is multiplied as an [int]. *)
Definition de_number (wrap : Z -> Z) (z : Z) : Z :=
  wrap (z mod 1000000000 + s32 (z / 1000000000 * 1000000000)).

Section digits.
Variable (wrap : Z -> Z).
Hypothesis wrap_small : forall z, 0 <= z < 4294967296 -> wrap z = z.

Lemma de_digits_stop rest y temp :
  (rest = [] \/ exists r, rest = 32 :: r) -> de_digits wrap rest y temp = temp.
Proof. by intros [->|[r ->]]. Qed.

(** Nine digits are added without overflow. *)
Lemma de_digits_value l rest : forall k temp,
  Forall is_digit l -> 0 <= temp < 10 ^ Z.of_nat k -> (k + length l <= 9)%nat ->
  de_digits wrap (l ++ rest) (10 ^ Z.of_nat k) temp =
  de_digits wrap rest (10 ^ Z.of_nat (k + length l)) (temp + 10 ^ Z.of_nat k * rev_value l).
Proof using wrap_small.
  induction l as [|c l IH]; intros k temp Hd Ht Hk; cbn [app rev_value length] in *.
  - by rewrite Nat.add_0_r, Z.mul_0_r, Z.add_0_r.
  - apply Forall_cons in Hd as [Hc Hd]. unfold is_digit in Hc. cbn [de_digits].
    rewrite (eqb_false_of_ne c 32) by lia. pose proof (pow10_S k) as Hp.
    assert (0 < 10 ^ Z.of_nat k <= 10 ^ 8)
      by (split; [apply Z.pow_pos_nonneg; lia | apply Z.pow_le_mono_r; lia]).
    change (10 ^ 8) with 100000000 in *.
    replace (s8 c) with c by word_lia.
    rewrite (s32_small ((c - 0x30) * _)), (s32_small (10 ^ _ * 10)), wrap_small by nia.
    rewrite <- Hp, IH by (try done; rewrite ?Hp; nia || lia).
    rewrite Hp. f_equal; [do 2 f_equal; lia | ring].
Qed.

(** A number in a field of at most ten characters. *)
Lemma de_digits_field w l z : is_field w l z -> (w <= 10)%nat ->
  de_digits wrap (reverse l) 1 0 = de_number wrap z.
Proof using wrap_small.
  intros Hf Hw. destruct (is_field_loop _ _ _ Hf) as (d & rest & -> & Hd & <- & Hlen & Hrest & _).
  change 1 with (10 ^ Z.of_nat 0). pose proof (rev_value_range d Hd) as [Hv1 Hv2]. unfold de_number.
  destruct (decide (length d <= 9)%nat) as [H9|H9].
  - rewrite de_digits_value by (done || cbn; lia). rewrite de_digits_stop by done.
    assert (10 ^ Z.of_nat (length d) <= 10 ^ 9) by (apply Z.pow_le_mono_r; lia).
    change (10 ^ 9) with 1000000000 in *. change (10 ^ Z.of_nat 0) with 1.
    rewrite Z.mod_small, Z.div_small by lia. change (s32 (0 * 1000000000)) with 0.
    rewrite wrap_small; lia.
  - destruct (exists_last (l:=d)) as (d9 & c & ->); [intros ->; cbn in *; lia|].
    rewrite length_app in *. cbn [length] in *. apply Forall_app in Hd as [Hd [Hc _]%Forall_cons].
    pose proof (rev_value_range d9 Hd) as [Hw1 Hw2]. unfold is_digit in Hc.
    assert (El : length d9 = 9%nat) by lia. rewrite rev_value_app, El in *.
    change (10 ^ Z.of_nat 9) with 1000000000 in *. rewrite <- app_assoc.
    rewrite de_digits_value by (done || cbn; lia). rewrite El. cbn [app de_digits].
    rewrite (eqb_false_of_ne c 32) by lia. rewrite de_digits_stop by done.
    replace (s8 c) with c by word_lia. change (10 ^ Z.of_nat (0 + 9)) with 1000000000.
    change (10 ^ Z.of_nat 0) with 1.
    assert (E1 : (rev_value d9 + 1000000000 * (c - 48)) mod 1000000000 = rev_value d9)
      by (rewrite Z.mul_comm, Z.mod_add, Z.mod_small; lia).
    assert (E2 : (rev_value d9 + 1000000000 * (c - 48)) / 1000000000 = c - 48)
      by (rewrite Z.mul_comm, Z.div_add, Z.div_small; lia).
    rewrite E1, E2. f_equal. lia.
Qed.

End digits.

(** Short fields are parsed exactly. *)
Lemma de_number_small wrap z : (forall z, 0 <= z < 4294967296 -> wrap z = z) ->
  0 <= z < 3000000000 -> de_number wrap z = z.
Proof.
  intros Hw Hz. unfold de_number. pose proof (Z.div_mod z 1000000000 ltac:(lia)).
  pose proof (Z.mod_pos_bound z 1000000000 ltac:(lia)).
  assert (0 <= z / 1000000000 <= 2) by (split; [apply Z.div_pos; lia | apply Z.lt_succ_r, Z.div_lt_upper_bound; lia]).
  rewrite s32_small by lia. rewrite Hw; lia.
Qed.

(** The digits of the billions from 3 on overflow. *)
Lemma de_number_exact z : 0 <= z < 10000000000 -> (de_number u64 z = z <-> z < 3000000000).
Proof.
  intros Hz. split; [|intros; apply de_number_small; [intros; apply u64_small |]; lia].
  intros E. destruct (Z.lt_ge_cases z 3000000000) as [|H3]; [done|]. exfalso. revert E.
  unfold de_number. pose proof (Z.div_mod z 1000000000 ltac:(lia)) as Hdm.
  pose proof (Z.mod_pos_bound z 1000000000 ltac:(lia)) as Hm.
  set (q := z / 1000000000) in *. set (r := z mod 1000000000) in *.
  assert (Hq : q = 3 \/ q = 4 \/ q = 5 \/ q = 6 \/ q = 7 \/ q = 8 \/ q = 9) by lia.
  clearbody q r. destruct_or! Hq; subst q z; cbn -[u64];
    match goal with |- context [s32 ?x] => let y := eval vm_compute in (s32 x) in change (s32 x) with y
    | _ => idtac end; unfold u64;
    (destruct (Z.lt_ge_cases (r + -1294967296) 0), (Z.lt_ge_cases (r + -294967296) 0),
       (Z.lt_ge_cases (r + -1589934592) 0), (Z.lt_ge_cases (r + -589934592) 0); word_lia).
Qed.

(** ** Orders named by twelve characters *)

#[export] Program Instance string_ref : OrderRef (list Z) := {|
  ref_no _ := 0; ref_str r := r ++ replicate 8 0; ref_ok r := length r = 12%nat
|}.
Next Obligation.
  intros k k' H1 H2 E. unfold ord_key_bytes in E. cbn [ok_order_no ok_order_no_str ok_padding key_of_ref] in E.
  apply app_inv_head in E. rewrite <- !app_assoc in E. apply app_inj_1 in E as [E _]; [done|].
  by rewrite H1, H2.
Qed.

(** Shares taken off an order; one with fewer is left alone. *)
Definition book_cut {K} `{Countable K} (k : K) (n : Z) (b : gmap K order) : gmap K order :=
  match b !! k with
  | Some o =>
      if n <=? o.(o_shares) then
        let left := u32 (o.(o_shares) - n) in
        if left =? 0 then delete k b
        else <[k := MkOrder o.(o_price) left o.(o_buy_sell_ind) o.(o_stock)]> b
      else b
  | None => b
  end.

Section book.
Context {W : Type} (cfg : feed_config).
Notation st_t := (feed_state W).
Notation book_inv := (book_inv (K:=list Z) cfg).
Notation book_step := (book_step (K:=list Z) cfg).
Implicit Types (st : st_t).

Lemma edge_disabled st cap b b' : book_inv st cap b -> order_table_enabled cfg = false ->
  book_step st st cap b'.
Proof. intros [Hs _] En. apply book_step_refl. split; [done | by rewrite En]. Qed.

Lemma edge_add_book r price shares side stock sym st cap b :
  book_inv st cap b -> length r = 12%nat ->
  exists p st', edge_add_order cfg r price shares side stock sym st = Some (p, st') /\
    book_step st st' cap (book_add cap r (MkOrder price shares side stock) b) /\
    entry_for st' p r.
Proof.
  intros Hb Hr. unfold edge_add_order. destruct (order_table_enabled cfg) eqn:En.
  - destruct (table_book_add _ _ _ r (MkOrder price shares side stock) sym price shares
      (order_ref_key r) (proj2 Hb En) Hr) as (rc & p & t' & E & Ht & He); [done..|].
    cbn [o_buy_sell_ind o_stock ref_no ref_str string_ref] in E. rewrite E. cbn [mbind option_bind].
    do 2 eexists. split; [done|]. split; [by eapply book_step_table|].
    by destruct (negb (rc =? FH_OK)); [left|].
  - exists NULL, st. split; [done|]. split; [by eapply edge_disabled | by left].
Qed.

Lemma edge_reduce_book r n st cap b :
  book_inv st cap b -> length r = 12%nat ->
  exists p st', edge_reduce_order cfg r n st = Some (p, st') /\
    book_step st st' cap (book_cut r n b) /\ entry_for st' (default NULL p) r.
Proof.
  intros Hb Hr. unfold edge_reduce_order. change order_ref_key with (ref_key (K:=list Z)).
  destruct (order_table_enabled cfg) eqn:En.
  2: { exists None, st. split; [done|]. split; [by eapply edge_disabled | by left]. }
  pose proof (table_book_get _ _ _ r (proj2 Hb En) Hr) as Hg. unfold book_cut.
  destruct (b !! r) as [o|].
  2: { rewrite Hg. exists (Some NULL), st. split; [done|]. split; [by apply book_step_refl | by left]. }
  destruct Hg as (a & sym & -> & He & Hw). cbn [mbind option_bind]. cbv zeta.
  change (FH_OK =? FH_OK) with true. cbn iota. rewrite He. cbn [mbind option_bind].
  change (ord_shares (order_entry r sym o)) with (o_shares o).
  destruct (n <=? o_shares o).
  2: { exists (Some a), st. split; [done|]. split; [by apply book_step_refl | right; eauto]. }
  set (left := u32 (o_shares o - n)). set (o' := MkOrder (o_price o) left (o_buy_sell_ind o) (o_stock o)).
  change (ord_set_shares left (order_entry r sym o)) with (order_entry r sym o').
  destruct (left =? 0).
  - destruct (table_book_del _ _ _ _ (Hw o') Hr) as (rc & p & t' & E & Ht & _).
    rewrite delete_insert_eq in Ht. rewrite E. cbn [mbind option_bind].
    do 2 eexists. split; [done|]. split; [by eapply book_step_table|]. right. exists sym, o'.
    cbn [default fs_order_table set_order_table]. rewrite (ord_del_entries _ _ _ _ _ E).
    apply lookup_insert_eq.
  - do 2 eexists. split; [done|]. split; [by eapply book_step_table|]. right. exists sym, o'.
    apply lookup_insert_eq.
Qed.

End book.

(** ** The wire format *)

Inductive edge_wire :=
  | EwSystemEvent (event_code : Z)
  | EwAddOrder (order_ref : list Z) (side : Z) (quantity security price : list Z) (display : Z)
      (mmid : option (list Z))
  | EwOrderExecuted (order_ref shares match_number : list Z)
  | EwOrderCanceled (order_ref shares : list Z)
  | EwTrade (order_ref : list Z) (side : Z) (shares security price match_number : list Z)
  | EwBrokenTrade (match_number : list Z)
  | EwSecurityStatus (security : list Z) (halted_state : Z).

(** The fields have the right number of characters, and a quote has an [mmid]
    if its display character says so. *)
Definition edge_ok (m : edge_wire) : Prop :=
  match m with
  | EwSystemEvent _ => True
  | EwAddOrder r _ q s p d mm => length r = 12%nat /\ length q = 6%nat /\ length s = 6%nat /\
      length p = 10%nat /\
      match mm with Some mm => d = 65 /\ length mm = 4%nat | None => d <> 65 end
  | EwOrderExecuted r n mn => length r = 12%nat /\ length n = 6%nat /\ length mn = 21%nat
  | EwOrderCanceled r n => length r = 12%nat /\ length n = 6%nat
  | EwTrade r _ n s p mn => length r = 12%nat /\ length n = 6%nat /\ length s = 6%nat /\
      length p = 10%nat /\ length mn = 21%nat
  | EwBrokenTrade mn => length mn = 21%nat
  | EwSecurityStatus s _ => length s = 6%nat
  end.

Definition edge_type (m : edge_wire) : Z :=
  match m with
  | EwSystemEvent _ => 83 | EwAddOrder _ _ _ _ _ _ _ => 65 | EwOrderExecuted _ _ _ => 69
  | EwOrderCanceled _ _ => 88 | EwTrade _ _ _ _ _ _ => 80 | EwBrokenTrade _ => 66
  | EwSecurityStatus _ _ => 72
  end.

Definition edge_payload (m : edge_wire) : list Z :=
  match m with
  | EwSystemEvent e => [e]
  | EwAddOrder r sd q s p d mm => r ++ sd :: q ++ s ++ p ++ d :: default [] mm
  | EwOrderExecuted r n mn => r ++ n ++ mn
  | EwOrderCanceled r n => r ++ n
  | EwTrade r sd n s p mn => r ++ sd :: n ++ s ++ p ++ mn
  | EwBrokenTrade mn => mn
  | EwSecurityStatus s h => s ++ [h]
  end.

(** The message up to the line feed; [c] is its first character and [ty] the
    type character, which the handlers only copy. *)
Definition edge_encode (c : Z) (ts : list Z) (ty : Z) (m : edge_wire) : list Z :=
  c :: ts ++ ty :: edge_payload m.

(** The lengths a handler accepts, with the line feed. *)
Definition edge_len (m : edge_wire) (len : Z) : Prop :=
  match m with
  | EwSystemEvent _ => len = 12 | EwAddOrder _ _ _ _ _ _ _ => len = 47 \/ len = 51
  | EwOrderExecuted _ _ _ => len = 50 | EwOrderCanceled _ _ => len = 29
  | EwTrade _ _ _ _ _ _ => len = 67 | EwBrokenTrade _ => len = 32
  | EwSecurityStatus _ _ => len = 18
  end.

(** The length the struct gives for the raw message: that of a system event
    for a quote without an [mmid]. *)
Definition edge_raw_len (m : edge_wire) : Z :=
  match m with
  | EwSystemEvent _ => 12 | EwAddOrder _ _ _ _ _ _ (Some _) => 51
  | EwAddOrder _ _ _ _ _ _ None => 12
  | EwOrderExecuted _ _ _ => 50 | EwOrderCanceled _ _ => 29
  | EwTrade _ _ _ _ _ _ => 67 | EwBrokenTrade _ => 32 | EwSecurityStatus _ _ => 18
  end.

(** What a handler delivers. *)
Definition edge_delivered (m : edge_wire) (sym : Z) (ord : option Z) : edge_kind * edge_body :=
  match m with
  | EwSystemEvent e => (EkSystemEvent, EdSystemEvent e)
  | EwAddOrder r sd q s p d mm =>
      (EkAddOrder, EdAddOrder r sd (fh_dirEdge_convert_int q) s (fh_dirEdge_get_price p) d
         (strncpy <$> mm) sym (default NULL ord))
  | EwOrderExecuted r n mn =>
      (EkOrderExecuted, EdOrderExecuted r (fh_dirEdge_convert_int n) mn ord)
  | EwOrderCanceled r n => (EkOrderCanceled, EdOrderCanceled r (fh_dirEdge_convert_int n) ord)
  | EwTrade r sd n s p mn =>
      (EkTrade, EdTrade r sd (fh_dirEdge_convert_int n) s (fh_dirEdge_get_price p) mn)
  | EwBrokenTrade mn => (EkBrokenTrade, EdBrokenTrade mn)
  | EwSecurityStatus s h => (EkSecurityStatus, EdSecurityStatus s h)
  end.

(** What it does to a book of at most [cap] orders. *)
Definition edge_book (cap : Z) (m : edge_wire) (b : gmap (list Z) order) : gmap (list Z) order :=
  match m with
  | EwAddOrder r sd q s p _ _ =>
      book_add cap r (MkOrder (fh_dirEdge_get_price p) (fh_dirEdge_convert_int q) sd s) b
  | EwOrderExecuted r n _ | EwOrderCanceled r n => book_cut r (fh_dirEdge_convert_int n) b
  | _ => b
  end.

(** The order a message is about. *)
Definition edge_order (m : edge_wire) : option (list Z) :=
  match m with
  | EwAddOrder r _ _ _ _ _ _ | EwOrderExecuted r _ _ | EwOrderCanceled r _ => Some r
  | _ => None
  end.

Section wire.
Context {W : Type} (cfg : feed_config) (hooks : edge_hooks W).
Notation st_t := (feed_state W).
Notation book_inv := (book_inv (K:=list Z) cfg).
Notation book_step := (book_step (K:=list Z) cfg).

Definition edge_struct (m : edge_wire) (ts : list Z) (ty sym : Z) (ord : option Z)
    (buffer : list Z) : edge_msg :=
  MkEdge (fh_dirEdge_convert_int ts) ty (edge_delivered m sym ord).2 buffer (edge_raw_len m).

(** The handler delivers the struct and changes the book. *)
Definition edge_end (m : edge_wire) (ts : list Z) (ty : Z) (buffer : list Z) (len : Z)
    (st : st_t) (cap : Z) (b : gmap (list Z) order) (r : edge_result) : Prop :=
  exists sym ord st1,
    r = Some (edge_finish hooks (edge_delivered m sym ord).1 (edge_struct m ts ty sym ord buffer)
                buffer len st1) /\
    book_step st st1 cap (edge_book cap m b) /\
    (forall k, edge_order m = Some k -> entry_for st1 (default NULL ord) k).

Definition edge_wire_ok (m : edge_wire) (h : list Z -> Z -> st_t -> edge_result) : Prop :=
  forall c ts ty len rest st cap b,
    length ts = 8%nat -> edge_ok m -> edge_len m len -> book_inv st cap b ->
    let buffer := edge_encode c ts ty m ++ rest in
    edge_end m ts ty buffer len st cap b (h buffer len st).

Ltac edge_part := unfold edge_encode; cbn [edge_payload default]; apply part_app; find_part.

Ltac edge_fields :=
  repeat (match goal with
  | |- context [read_bytes ?b ?o ?n] => erewrite (read_part b o _ n) by (edge_part || eassumption)
  | |- context [byte_at ?b ?o] => erewrite (byte_part b o) by edge_part
  end; cbn [mbind option_bind]).

Lemma edge_header_wire c ts ty m rest : length ts = 8%nat ->
  edge_header (edge_encode c ts ty m ++ rest) = Some (fh_dirEdge_convert_int ts, ty).
Proof.
  intros Hts. unfold edge_header.
  rewrite (read_part _ 1 ts) by (edge_part || done). cbn [mbind option_bind].
  by rewrite (byte_part _ 9 ty) by edge_part.
Qed.

Ltac edge_start :=
  intros c ts ty len rest st cap b Hts Hok Hlen Hb buffer; cbn [edge_ok edge_len] in Hok, Hlen;
  destruct_and?; subst buffer; try subst len;
  try match goal with |- context [negb (?a =? ?s)] => change (a =? s) with true end;
  cbn [negb andb]; rewrite edge_header_wire by done; cbn [mbind option_bind]; edge_fields; cbv zeta.

Ltac edge_plain st :=
  exists NULL, None, st; split; [reflexivity|]; split; [by apply book_step_refl | done].

Lemma system_event_wire e : edge_wire_ok (EwSystemEvent e) (fh_de_parse_sys_event_msg hooks).
Proof. unfold fh_de_parse_sys_event_msg. edge_start. edge_plain st. Qed.

Lemma edge_trade_wire r sd n s p mn : edge_wire_ok (EwTrade r sd n s p mn) (fh_de_parse_trade_msg hooks).
Proof. unfold fh_de_parse_trade_msg. edge_start. edge_plain st. Qed.

Lemma broken_trade_wire mn : edge_wire_ok (EwBrokenTrade mn) (fh_de_parse_broken_trade_msg hooks).
Proof. unfold fh_de_parse_broken_trade_msg. edge_start. edge_plain st. Qed.

Lemma security_status_wire s h :
  edge_wire_ok (EwSecurityStatus s h) (fh_de_parse_security_status_msg hooks).
Proof. unfold fh_de_parse_security_status_msg. edge_start. edge_plain st. Qed.

Lemma order_executed_wire r n mn :
  edge_wire_ok (EwOrderExecuted r n mn) (fh_de_parse_order_executed_msg cfg hooks).
Proof.
  unfold fh_de_parse_order_executed_msg. edge_start.
  destruct (edge_reduce_book cfg r (fh_dirEdge_convert_int n) st cap b Hb)
    as (ord & st1 & -> & Hs & He); [done|].
  exists NULL, ord, st1. split; [done|]. split; [done|]. by intros k [= <-].
Qed.

Lemma order_canceled_wire r n :
  edge_wire_ok (EwOrderCanceled r n) (fh_de_parse_order_canceled_msg cfg hooks).
Proof.
  unfold fh_de_parse_order_canceled_msg. edge_start.
  destruct (edge_reduce_book cfg r (fh_dirEdge_convert_int n) st cap b Hb)
    as (ord & st1 & -> & Hs & He); [done|].
  exists NULL, ord, st1. split; [done|]. split; [done|]. by intros k [= <-].
Qed.

Lemma edge_add_order_wire r sd q s p d mm :
  edge_wire_ok (EwAddOrder r sd q s p d mm) (fh_de_parse_add_order_msg cfg hooks).
Proof.
  unfold fh_de_parse_add_order_msg. intros c ts ty len rest st cap b Hts Hok Hlen Hb buffer.
  cbn [edge_ok edge_len] in Hok, Hlen. destruct Hok as (Hr & Hq & Hs & Hp & Hmm). subst buffer.
  replace (negb (len =? ADD_ORDER_MSG_SIZE) && negb (len =? ADD_ORDER_ATTIRBUTED_QUOTE_MSG_SIZE))
    with false by (destruct Hlen as [->| ->]; done).
  rewrite edge_header_wire by done. cbn [mbind option_bind]. edge_fields. cbv zeta.
  destruct (fetch_symbol_book s st cap b Hb) as (sym & st1 & -> & Hs1 & _). cbn [mbind option_bind].
  destruct (edge_add_book cfg r (fh_dirEdge_get_price p) (fh_dirEdge_convert_int q) sd s sym st1
    cap b (proj1 Hs1) Hr) as (ord & st2 & -> & Hs2 & He). cbn [mbind option_bind]. edge_fields.
  exists sym, (Some ord), st2. split; [|split; [by eapply book_step_trans | by intros k [= <-]]].
  destruct mm as [mm|].
  - destruct Hmm as [-> Hmm]. change (65 =? 65) with true. cbn iota. edge_fields. done.
  - by rewrite (eqb_false_of_ne d 65).
Qed.

(** ** The parser *)

(** The handler of a message's type, and whether its status is looked at. *)
Lemma edge_handler_wire m :
  exists h, edge_handler cfg hooks (edge_type m) = Some (negb (edge_type m =? 69), h) /\
    edge_wire_ok m h.
Proof.
  destruct m; (eexists; split; [reflexivity|]).
  - apply system_event_wire.
  - apply edge_add_order_wire.
  - apply order_executed_wire.
  - apply order_canceled_wire.
  - apply edge_trade_wire.
  - apply broken_trade_wire.
  - apply security_status_wire.
Qed.

(** The hooks accept everything. *)
Definition edge_accept : Prop :=
  (forall kind f msg w, hooks.(edge_hook_msg) kind = Some f -> (f msg w).1.1 = FH_OK) /\
  (forall f data w, hooks.(edge_hook_msg_send) = Some f -> (f data w).1 = FH_OK).

Lemma edge_finish_accept kind msg buffer len st : edge_accept ->
  exists data w, edge_finish hooks kind msg buffer len st = (FH_OK, data, set_world w st).
Proof.
  intros [Ha _]. unfold edge_finish. destruct (edge_hook_msg hooks kind) as [f|] eqn:E.
  - pose proof (Ha kind f msg st.(fs_world) E) as H.
    destruct (f msg _) as [[rc [d l]] w]. cbn in H. subst rc. by exists (EdHook d l), w.
  - exists (EdBuffer buffer len), st.(fs_world). by destruct st.
Qed.

(** A message is accepted, counted and applied to the book. *)
Lemma edge_parse_wire c ts ty m len rest seq st cap b :
  length ts = 8%nat -> edge_ok m -> edge_len m len -> book_inv st cap b -> edge_accept ->
  exists st', fh_edge_parse_msg cfg hooks (edge_encode c ts ty m ++ rest) len (edge_type m) seq st =
      Some (FH_OK, u64 (seq + 1), st') /\
    book_inv st' cap (edge_book cap m b) /\ same_seq st st'.
Proof.
  intros Hts Hok Hlen Hb Ha. unfold fh_edge_parse_msg.
  destruct (edge_handler_wire m) as (h & -> & Hh).
  destruct (Hh c ts ty len rest st cap b Hts Hok Hlen Hb) as (sym & ord & st1 & -> & (Hb1 & Hs1 & _) & _).
  destruct (edge_finish_accept (edge_delivered m sym ord).1
    (edge_struct m ts ty sym ord (edge_encode c ts ty m ++ rest)) (edge_encode c ts ty m ++ rest)
    len st1 Ha) as (data & w & ->).
  cbn [mbind option_bind]. change (FH_OK =? FH_OK) with true. rewrite andb_false_r.
  unfold edge_send. destruct (edge_hook_msg_send hooks) as [f|] eqn:Ef.
  - pose proof (proj2 Ha f data (fs_world (set_world w st1)) Ef) as H.
    destruct (f data _) as [rc w']. cbn in H. subst rc. change (FH_OK =? FH_OK) with true. cbn [negb].
    eexists. split; [done|]. by split.
  - eexists. split; [done|]. by split.
Qed.

End wire.
