(* ===== verification/Sock.v ===== *)
(** * Sockets ([src/common/fh_sock.c], [src/common/fh_tcp.c])

    The operating system is a parameter [os]: what a system call returns, and
    its own new state.  A function of the program is a computation over that
    state; [None] is running out of fuel, in the loops that wait. *)
From S2P Require Import Prelude Bytes Mpool.

(** ** Computations over a state *)

Definition io (S A : Type) : Type := S -> option (A * S).

#[export] Instance io_ret S : MRet (io S) := fun A a s => Some (a, s).
#[export] Instance io_bind S : MBind (io S) := fun A B k m s =>
  match m s with Some (a, s') => k a s' | None => None end.

(** A loop that may run out of fuel. *)
Definition no_fuel {S A} : io S A := fun _ => None.

(** ** System calls *)

Inductive syscall :=
  | SysSocket                                  (* socket(PF_INET, SOCK_STREAM, TCP) *)
  | SysClose (fd : Z)
  | SysRecv (fd nbytes flags : Z)
  | SysSend (fd : Z) (data : list Z) (flags : Z)
  | SysBind (fd addr port : Z)
  | SysConnect (fd addr port : Z)
  | SysListen (fd : Z)
  | SysAccept (fd : Z)
  | SysGetFl (fd : Z)                          (* fcntl *)
  | SysSetFl (fd flags : Z)
  | SysSetsockopt (fd opt value : Z)
  | SysSoError (fd : Z)                        (* getsockopt(SO_ERROR) *)
  | SysSelect (fd : Z) (write : bool) (usec : option Z)
  | SysTime                                    (* time(NULL) *)
  | SysSleep (usec : Z).                       (* usleep, sleep *)

(** The returned value, [errno] after the call, and what the call wrote: the
    bytes received, the pending error, the address and port of a peer. *)
Record sysret := MkRet { r_val : Z; r_errno : Z; r_data : list Z }.

Definition EINTR : Z := 4.
Definition EBADF : Z := 9.
Definition EAGAIN : Z := 11.
Definition EPIPE : Z := 32.
Definition ECONNRESET : Z := 104.
Definition EINPROGRESS : Z := 115.
Definition MSG_PEEK : Z := 0x2.
Definition MSG_DONTWAIT : Z := 0x40.
Definition MSG_WAITALL : Z := 0x100.
Definition O_NONBLOCK : Z := 0x800.
Definition SO_REUSEADDR : Z := 2.
Definition SO_SNDBUF : Z := 7.
Definition SO_RCVBUF : Z := 8.
Definition SO_KEEPALIVE : Z := 9.
Definition TCP_NODELAY : Z := 1.

Section sock.
Context {O : Type} (os : syscall -> O -> sysret * O).

Definition sys (c : syscall) : io O sysret := fun o => Some (os c o).

(** A call whose failure the function reports as [FH_ERROR]. *)
Definition sys_status (c : syscall) : io O Z :=
  r ← sys c; mret (if r.(r_val) <? 0 then FH_ERROR else FH_OK).

(** ** [fh_sock.c] *)

Definition fh_sock_setbuf (s opt bufsz : Z) : io O Z :=
  if bufsz =? 0 then mret FH_OK else sys_status (SysSetsockopt s opt bufsz).

Definition fh_sock_setrxbuf (s bufsz : Z) : io O Z := fh_sock_setbuf s SO_RCVBUF bufsz.
Definition fh_sock_settxbuf (s bufsz : Z) : io O Z := fh_sock_setbuf s SO_SNDBUF bufsz.

(** The status and [*ret], which is only assigned on success. *)
Definition fh_sock_error (s ret : Z) : io O (Z * Z) :=
  r ← sys (SysSoError s);
  mret (if r.(r_val) <? 0 then (FH_ERROR, ret) else (FH_OK, default 0 (r.(r_data) !! 0%nat))).

Definition fh_sock_reuse (s on : Z) : io O Z := sys_status (SysSetsockopt s SO_REUSEADDR on).

Definition fh_sock_bind (s addr port : Z) : io O Z := sys_status (SysBind s addr port).

Definition fh_sock_block (s : Z) (on : bool) : io O Z :=
  r ← sys (SysGetFl s);
  if r.(r_val) <? 0 then mret FH_ERROR
  else
    let flags := if on then Z.land r.(r_val) (Z.lnot O_NONBLOCK)
                 else Z.lor r.(r_val) O_NONBLOCK in
    sys_status (SysSetFl s flags).

(** ** [fh_tcp.c]: connections *)

Definition FH_TCP_TIMEOUT : Z := 2.
Definition FH_TCP_CLIENT_TIMEOUT : Z := 200.

Definition fh_tcp_listen (s : Z) : io O Z := sys_status (SysListen s).

Definition fh_tcp_keepalive (s on : Z) : io O Z := sys_status (SysSetsockopt s SO_KEEPALIVE on).

Definition fh_tcp_nodelay (s on : Z) : io O Z := sys_status (SysSetsockopt s TCP_NODELAY on).

(** The status, and the peer's address, port and socket. *)
Definition fh_tcp_accept (s : Z) : io O (Z * option (Z * Z * Z)) :=
  r ← sys (SysAccept s);
  if r.(r_val) <? 0 then mret (FH_ERROR, None)
  else
    let sock := r.(r_val) in
    rc ← fh_tcp_nodelay sock 1;
    if negb (rc =? 0) then _ ← sys (SysClose sock); mret (FH_ERROR, None)
    else mret (FH_OK, Some (default 0 (r.(r_data) !! 0%nat), default 0 (r.(r_data) !! 1%nat), sock)).

(** The wait for a connection in progress. *)
Definition tcp_connect_wait (s usec : Z) : io O Z :=
  r ← sys (SysSelect s true (if negb (usec =? 0) then Some usec else None));
  if r.(r_val) <? 0 then mret FH_ERROR
  else if r.(r_val) =? 0 then mret FH_ERROR
  else
    '(rc, ret) ← fh_sock_error s r.(r_val);
    if negb (rc =? FH_OK) then mret FH_ERROR
    else if negb (ret =? 0) then mret FH_ERROR
    else mret FH_OK.

(** [errno] is tested after the second [fh_sock_block]: it is that of
    [connect] only when the calls in between leave it alone, which calls that
    succeed do. *)
Definition fh_tcp_tconnect (s daddr dport usec : Z) : io O Z :=
  rc ← (if negb (usec =? 0) then fh_sock_block s false else mret FH_OK);
  if negb (rc =? FH_OK) then mret rc
  else
    r ← sys (SysConnect s daddr dport);
    rc ← (if negb (usec =? 0) then fh_sock_block s true else mret FH_OK);
    if rc <? 0 then mret FH_ERROR
    else if negb (r.(r_val) =? 0) then
      if negb (r.(r_errno) =? EINPROGRESS) then mret FH_ERROR else tcp_connect_wait s usec
    else mret FH_OK.

Definition fh_tcp_connect (s daddr dport : Z) : io O Z := fh_tcp_tconnect s daddr dport 0.

(** The label [error] of [fh_tcp_open]. *)
Definition tcp_open_error (sock : Z) : io O (Z * option Z) :=
  _ ← sys (SysClose sock); mret (FH_ERROR, None).

(** The status and [*s], which is only assigned on success. *)
Definition fh_tcp_open (addr port : Z) : io O (Z * option Z) :=
  r ← sys SysSocket;
  let sock := r.(r_val) in
  if sock =? -1 then mret (FH_ERROR, None)
  else
    rc ← fh_sock_block sock false;
    if rc <? 0 then tcp_open_error sock
    else
      rc ← fh_sock_reuse sock 1;
      if rc <? 0 then tcp_open_error sock
      else
        rc ← (if negb (addr =? 0) || negb (port =? 0) then fh_sock_bind sock addr port
              else mret FH_OK);
        if rc <? 0 then tcp_open_error sock
        else
          rc ← fh_tcp_keepalive sock 1;
          if negb (rc =? FH_OK) then tcp_open_error sock else mret (FH_OK, Some sock).

Definition tcp_client_error (sock rc : Z) : io O (Z * option Z) :=
  _ ← sys (SysClose sock); mret (rc, None).

(** [FH_TCP_CLIENT_TIMEOUT] is passed as a number of microseconds. *)
Definition fh_tcp_client_ex (saddr sport daddr dport : Z) : io O (Z * option Z) :=
  '(rc, sock) ← fh_tcp_open saddr sport;
  match sock with
  | Some sock =>
      if negb (rc =? FH_OK) then mret (rc, None)
      else
        rc ← fh_tcp_tconnect sock daddr dport FH_TCP_CLIENT_TIMEOUT;
        if negb (rc =? FH_OK) then tcp_client_error sock rc
        else
          rc ← fh_sock_block sock false;
          if negb (rc =? FH_OK) then tcp_client_error sock rc
          else
            rc ← fh_tcp_nodelay sock 1;
            if negb (rc =? FH_OK) then tcp_client_error sock rc else mret (FH_OK, Some sock)
  | None => mret (rc, None)
  end.

Definition fh_tcp_client (daddr dport : Z) : io O (Z * option Z) :=
  fh_tcp_client_ex 0 0 daddr dport.

(** A failed [fh_tcp_listen] returns without closing the socket. *)
Definition fh_tcp_server (saddr sport : Z) : io O (Z * option Z) :=
  '(rc, sock) ← fh_tcp_open saddr sport;
  match sock with
  | Some sock =>
      if negb (rc =? FH_OK) then mret (rc, None)
      else
        rc ← fh_tcp_listen sock;
        if negb (rc =? FH_OK) then mret (rc, None) else mret (0, Some sock)
  | None => mret (rc, None)
  end.

(** ** [fh_tcp.c]: input and output

    A read returns the count and the bytes written to the buffer so far; the
    loops run until the count is reached, the peer closes or an error ends
    them.  A loop that gets [EINTR] again and again does not end. *)

Definition should_retry (err start_ts : Z) : io O (bool * Z) :=
  r ← sys SysTime;
  let now_ts := u32 r.(r_val) in
  if err =? EINTR then mret (true, start_ts)
  else if err =? EAGAIN then
    if start_ts =? 0 then mret (true, now_ts)
    else if FH_TCP_TIMEOUT <=? u32 (now_ts - start_ts) then mret (false, start_ts)
    else mret (true, start_ts)
  else mret (false, start_ts).

Fixpoint tcp_read_loop (fuel : nat) (s nbytes flags nleft : Z) (buf : list Z) (start_ts : Z)
    : io O (Z * list Z) :=
  if nleft <=? 0 then mret (nbytes - nleft, buf)
  else
    match fuel with
    | 0%nat => no_fuel
    | S fuel =>
        r ← sys (SysRecv s nleft (Z.lor flags MSG_DONTWAIT));
        let nread := r.(r_val) in
        if nread <? 0 then
          if (r.(r_errno) =? ECONNRESET) || (r.(r_errno) =? EPIPE) then mret (0, buf)
          else
            '(retry, start_ts) ← should_retry r.(r_errno) start_ts;
            if (retry : bool) then
              _ ← sys (SysSleep 1000); tcp_read_loop fuel s nbytes flags nleft buf start_ts
            else mret (nbytes - nleft, buf)
        else if nread =? 0 then mret (nbytes - nleft, buf)
        else if negb (flags =? MSG_PEEK) then
          tcp_read_loop fuel s nbytes flags (nleft - nread) (buf ++ r.(r_data)) start_ts
        else
          tcp_read_loop fuel s nbytes flags (if nleft =? nread then 0 else nleft) r.(r_data) start_ts
    end.

Definition fh_tcp_readex (fuel : nat) (s nbytes flags : Z) : io O (Z * list Z) :=
  tcp_read_loop fuel s nbytes flags nbytes [] 0.

Definition fh_tcp_read (fuel : nat) (s nbytes : Z) : io O (Z * list Z) :=
  fh_tcp_readex fuel s nbytes 0.

Definition fh_tcp_peek (fuel : nat) (s nbytes : Z) : io O (Z * list Z) :=
  fh_tcp_readex fuel s nbytes MSG_PEEK.

(** [buf] is what is left to write. *)
Fixpoint tcp_write_loop (fuel : nat) (s nbytes flags : Z) (buf : list Z) (start_ts : Z)
    : io O Z :=
  let nleft := Z.of_nat (length buf) in
  if nleft <=? 0 then mret (nbytes - nleft)
  else
    match fuel with
    | 0%nat => no_fuel
    | S fuel =>
        r ← sys (SysSend s buf (Z.lor flags MSG_DONTWAIT));
        let nwritten := r.(r_val) in
        if nwritten <? 0 then
          if (r.(r_errno) =? ECONNRESET) || (r.(r_errno) =? EPIPE) then mret 0
          else
            '(retry, start_ts) ← should_retry r.(r_errno) start_ts;
            if (retry : bool) then
              _ ← sys (SysSleep 1000); tcp_write_loop fuel s nbytes flags buf start_ts
            else mret (nbytes - nleft)
        else if nwritten =? 0 then mret (nbytes - nleft)
        else tcp_write_loop fuel s nbytes flags (drop (Z.to_nat nwritten) buf) start_ts
    end.

Definition fh_tcp_writeex (fuel : nat) (s : Z) (buf : list Z) (flags : Z) : io O Z :=
  tcp_write_loop fuel s (Z.of_nat (length buf)) flags buf 0.

Definition fh_tcp_write (fuel : nat) (s : Z) (buf : list Z) : io O Z :=
  fh_tcp_writeex fuel s buf 0.

(** The blocking variants retry [EINTR] only. *)
Fixpoint tcp_readblk_loop (fuel : nat) (s nbytes nleft : Z) (buf : list Z) : io O (Z * list Z) :=
  if nleft <=? 0 then mret (nbytes - nleft, buf)
  else
    match fuel with
    | 0%nat => no_fuel
    | S fuel =>
        r ← sys (SysRecv s nleft MSG_WAITALL);
        let nread := r.(r_val) in
        if nread <? 0 then
          if negb (r.(r_errno) =? EINTR) then mret (nbytes - nleft, buf)
          else tcp_readblk_loop fuel s nbytes nleft buf
        else if nread =? 0 then mret (nbytes - nleft, buf)
        else tcp_readblk_loop fuel s nbytes (nleft - nread) (buf ++ r.(r_data))
    end.

Definition fh_tcp_readblk (fuel : nat) (s nbytes : Z) : io O (Z * list Z) :=
  tcp_readblk_loop fuel s nbytes nbytes [].

Fixpoint tcp_writeblk_loop (fuel : nat) (s nbytes : Z) (buf : list Z) : io O Z :=
  let nleft := Z.of_nat (length buf) in
  if nleft <=? 0 then mret (nbytes - nleft)
  else
    match fuel with
    | 0%nat => no_fuel
    | S fuel =>
        r ← sys (SysSend s buf MSG_WAITALL);
        let nwritten := r.(r_val) in
        if nwritten <? 0 then
          if negb (r.(r_errno) =? EINTR) then mret (nbytes - nleft)
          else tcp_writeblk_loop fuel s nbytes buf
        else if nwritten =? 0 then mret (nbytes - nleft)
        else tcp_writeblk_loop fuel s nbytes (drop (Z.to_nat nwritten) buf)
    end.

Definition fh_tcp_writeblk (fuel : nat) (s : Z) (buf : list Z) : io O Z :=
  tcp_writeblk_loop fuel s (Z.of_nat (length buf)) buf.

End sock.
