(* ===== verification/SockProps.v ===== *)
(** * Sockets: theorems

    The socket library against what the system documents: a connection that
    delivers its input in pieces ([TcpPeer]), a clock that sleeping moves
    ([OsClock]), and the descriptors that are open ([fd_os]). *)
From S2P Require Import Prelude Bytes Mpool Sock.

(** ** A connection *)

Definition peeks (flags : Z) : bool := Z.testbit flags 1.

(** [input o]: what the peer has sent on [fd] and the program has not read.
    A receive returns a part of it, a send takes a part of what it is given,
    and the other calls leave it alone. *)
Class TcpPeer {O} (os : syscall -> O -> sysret * O) (fd : Z) (input : O -> list Z) := {
  peer_recv o n flags : 0 < n -> input o <> [] ->
    exists k e o', os (SysRecv fd n flags) o = (MkRet (Z.of_nat k) e (take k (input o)), o') /\
      (0 < k)%nat /\ Z.of_nat k <= n /\ (k <= length (input o))%nat /\
      input o' = if peeks flags then input o else drop k (input o);
  peer_send o data flags : data <> [] ->
    exists k e o', os (SysSend fd data flags) o = (MkRet (Z.of_nat k) e [], o') /\
      (0 < k <= length data)%nat /\ input o' = input o
}.

Section peer.
Context {O : Type} {os : syscall -> O -> sysret * O} {fd : Z} {input : O -> list Z} {peer : TcpPeer os fd input}.

(** [fh_tcp_read] of bytes that are there. *)
Lemma tcp_read_loop_all fuel : forall nleft nbytes buf ts o,
  0 <= nleft <= Z.of_nat (length (input o)) -> (Z.to_nat nleft <= fuel)%nat ->
  exists o', tcp_read_loop os fuel fd nbytes 0 nleft buf ts o =
      Some ((nbytes, buf ++ take (Z.to_nat nleft) (input o)), o') /\
    input o' = drop (Z.to_nat nleft) (input o).
Proof.
  induction fuel as [|fuel IH]; intros nleft nbytes buf ts o Hn Hf; cbn [tcp_read_loop].
  all: destruct (nleft <=? 0) eqn:E; bool_to_prop.
  1, 3: assert (nleft = 0) by lia; subst nleft; exists o; cbn; rewrite Z.sub_0_r, app_nil_r; done.
  1: lia.
  destruct (peer_recv o nleft (Z.lor 0 MSG_DONTWAIT)) as (k & e & o1 & Er & Hk0 & Hk & Hkl & Hin);
    [lia | destruct (input o); [cbn in *; lia | done] |].
  unfold mbind at 1, io_bind at 1, sys. rewrite Er. cbn [r_val r_errno r_data].
  destruct (Z.of_nat k <? 0) eqn:Ek; bool_to_prop; [lia|]. clear Ek.
  rewrite (eqb_false_of_ne (Z.of_nat k) 0) by lia. change (0 =? MSG_PEEK) with false. cbn [negb].
  change (peeks (Z.lor 0 MSG_DONTWAIT)) with false in Hin. cbn iota in Hin.
  destruct (IH (nleft - Z.of_nat k) nbytes (buf ++ take k (input o)) ts o1) as (o' & E1 & E2).
  - rewrite Hin, length_drop. lia.
  - lia.
  - exists o'. rewrite E1, E2, Hin. replace (Z.to_nat (nleft - Z.of_nat k)) with (Z.to_nat nleft - k)%nat by lia.
    rewrite drop_drop. replace (k + (Z.to_nat nleft - k))%nat with (Z.to_nat nleft) by lia. split; [|done].
    rewrite <- app_assoc. do 4 f_equal.
    rewrite <- (take_drop k (take (Z.to_nat nleft) (input o))), take_take, skipn_firstn_comm.
    by rewrite Nat.min_l by lia.
Qed.

Lemma fh_tcp_read_all fuel n o :
  (n <= length (input o))%nat -> (n <= fuel)%nat ->
  exists o', fh_tcp_read os fuel fd (Z.of_nat n) o = Some ((Z.of_nat n, take n (input o)), o') /\
    input o' = drop n (input o).
Proof.
  intros Hn Hf. destruct (tcp_read_loop_all fuel (Z.of_nat n) (Z.of_nat n) [] 0 o) as (o' & E1 & E2);
    [lia | lia|]. rewrite Nat2Z.id in E1, E2. by exists o'.
Qed.

(** [fh_tcp_write] writes everything. *)
Lemma tcp_write_loop_all fuel : forall buf nbytes ts o, (length buf <= fuel)%nat ->
  exists o', tcp_write_loop os fuel fd nbytes 0 buf ts o = Some (nbytes, o') /\ input o' = input o.
Proof.
  induction fuel as [|fuel IH]; intros buf nbytes ts o Hf; cbn [tcp_write_loop].
  all: destruct (_ <=? 0) eqn:E; bool_to_prop.
  1, 3: replace (nbytes - Z.of_nat (length buf)) with nbytes by lia; by exists o.
  1: lia.
  destruct (peer_send o buf (Z.lor 0 MSG_DONTWAIT)) as (k & e & o1 & Er & Hk & Hin);
    [destruct buf; [cbn in *; lia | done]|].
  unfold mbind at 1, io_bind at 1, sys. rewrite Er. cbn [r_val r_errno r_data].
  destruct (Z.of_nat k <? 0) eqn:Ek; bool_to_prop; [lia|]. clear Ek.
  rewrite (eqb_false_of_ne (Z.of_nat k) 0) by lia. rewrite Nat2Z.id.
  destruct (IH (drop k buf) nbytes ts o1) as (o' & E1 & E2); [rewrite length_drop; lia|].
  exists o'. by rewrite E1, E2, Hin.
Qed.

Lemma fh_tcp_write_all fuel buf o : (length buf <= fuel)%nat ->
  exists o', fh_tcp_write os fuel fd buf o = Some (Z.of_nat (length buf), o') /\ input o' = input o.
Proof. intros Hf. by apply tcp_write_loop_all. Qed.

End peer.

(** ** A clock *)

(** [usec o]: the time in microseconds; [signals o]: how many more times a
    call will be interrupted by a signal.  The clock does not go back, no call
    takes more than a minute, [time] returns the seconds, sleeping lasts as
    long as it was asked to unless it is interrupted, and a receive is within
    its size. *)
Class OsClock {O} (os : syscall -> O -> sysret * O) (fd : Z) (usec : O -> Z) (signals : O -> nat) := {
  clock_mono c o : usec o <= usec (os c o).2 <= usec o + 60000000;
  clock_signals c o : (signals (os c o).2 <= signals o)%nat;
  clock_time o : (os SysTime o).1.(r_val) = usec o / 1000000;
  clock_sleep n o : 0 <= n <= 60000000 ->
    usec o + n <= usec (os (SysSleep n) o).2 \/ (signals (os (SysSleep n) o).2 < signals o)%nat;
  clock_recv o n flags : 0 < n -> let r := (os (SysRecv fd n flags) o).1 in
    r.(r_val) <= n /\ (0 <= r.(r_val) -> Z.of_nat (length r.(r_data)) = r.(r_val)) /\
    (r.(r_val) < 0 -> r.(r_errno) = EINTR ->
     (signals (os (SysRecv fd n flags) o).2 < signals o)%nat)
}.

(** The first and the last time at which the seconds are a [uint32_t] that is
    not 0. *)
Definition in_epoch (usec : Z) : Prop := 1000000 <= usec < 4294967296000000.

(** The retries that are left: two seconds from the first one, a millisecond
    apart. *)
Definition retries_left (start_ts usec : Z) : Z :=
  if start_ts =? 0 then 2001 else (Z.max 0 ((start_ts + 2) * 1000000 - usec) + 999) / 1000.

Lemma retries_left_mono ts u u' : u <= u' -> retries_left ts u' <= retries_left ts u.
Proof.
  intros Hu. unfold retries_left. destruct (ts =? 0); [lia|]. apply Z.div_le_mono; lia.
Qed.

Lemma retries_left_nonneg ts u : 0 <= retries_left ts u.
Proof. unfold retries_left. destruct (ts =? 0); [lia|]. apply Z.div_pos; lia. Qed.

Lemma retries_left_sleep ts u u' : ts <> 0 -> u < (ts + 2) * 1000000 -> u + 1000 <= u' ->
  retries_left ts u' + 1 <= retries_left ts u.
Proof.
  intros Hts Hu Hu'. unfold retries_left. rewrite !eqb_false_of_ne by done.
  destruct (Z.le_gt_cases ((ts + 2) * 1000000) u').
  - rewrite (Z.max_l 0 (_ - u')) by lia. change ((0 + 999) / 1000) with 0.
    apply Z.div_le_lower_bound; lia.
  - rewrite <- Z.div_add by lia. apply Z.div_le_mono; lia.
Qed.

Section clock.
Context {O : Type} {os : syscall -> O -> sysret * O} {fd : Z} {usec : O -> Z} {signals : O -> nat}
  {clock : OsClock os fd usec signals}.

(** The retries before the first one, and after it. *)
Lemma retries_left_start u v : 0 < u / 1000000 -> u <= v -> retries_left (u / 1000000) v <= 2000.
Proof.
  intros Hu Hv. unfold retries_left. rewrite eqb_false_of_ne by lia.
  pose proof (Z.div_mod u 1000000 ltac:(lia)). pose proof (Z.mod_pos_bound u 1000000 ltac:(lia)).
  apply Z.lt_succ_r, Z.div_lt_upper_bound; lia.
Qed.

(** What a retry leaves: fewer retries once a millisecond has passed. *)
Definition retry_left (err ts : Z) (o : O) (ts' : Z) (o' : O) : Prop :=
  (ts' = 0 \/ 0 < ts' <= usec o' / 1000000) /\
  (forall u, usec o' <= u -> retries_left ts' u <= retries_left ts (usec o)) /\
  (err <> EINTR -> forall u, usec o' + 1000 <= u -> retries_left ts' u + 1 <= retries_left ts (usec o)).

Lemma should_retry_clock err ts o : in_epoch (usec o) -> (ts = 0 \/ 0 < ts <= usec o / 1000000) ->
  exists b ts' o', should_retry os err ts o = Some ((b, ts'), o') /\
    usec o <= usec o' <= usec o + 60000000 /\ (signals o' <= signals o)%nat /\
    (b = true -> retry_left err ts o ts' o').
Proof.
  intros Hr Hts. unfold in_epoch in Hr. unfold should_retry, mbind, io_bind, sys.
  pose proof (clock_time o) as Ht. pose proof (clock_mono SysTime o) as Hm.
  pose proof (clock_signals SysTime o) as Hg.
  destruct (os SysTime o) as [r o1]. cbn [fst snd] in Ht, Hm, Hg. rewrite Ht. cbv zeta.
  assert (Hnow : 1 <= usec o / 1000000 < 4294967296).
  { split; [apply Z.div_le_lower_bound; lia | apply Z.div_lt_upper_bound; lia]. }
  rewrite (u32_small (usec o / 1000000)) by lia.
  assert (Hle : usec o / 1000000 <= usec o1 / 1000000) by (apply Z.div_le_mono; lia).
  assert (Hmono : forall t u, usec o1 <= u -> retries_left t u <= retries_left t (usec o))
    by (intros; apply retries_left_mono; lia).
  destruct (err =? EINTR) eqn:Ei; bool_to_prop.
  { do 3 eexists. split; [done|]. split; [exact Hm|]. split; [exact Hg|]. intros _.
    split; [lia|]. split; [by apply Hmono | done]. }
  destruct (err =? EAGAIN); [|by do 3 eexists].
  destruct (ts =? 0) eqn:Ets; bool_to_prop.
  - subst ts. do 3 eexists. split; [done|]. split; [exact Hm|]. split; [exact Hg|]. intros _.
    change (retries_left 0 (usec o)) with 2001.
    split; [lia|]. split; [|intros _]; intros u Hu;
      pose proof (retries_left_start (usec o) u ltac:(lia) ltac:(lia)); unfold retry_left; cbn; lia.
  - destruct Hts as [?|Hts]; [done|]. rewrite (u32_small (_ - _)) by lia. unfold FH_TCP_TIMEOUT.
    destruct (2 <=? _) eqn:E2; bool_to_prop; [by do 3 eexists|].
    do 3 eexists. split; [done|]. split; [exact Hm|]. split; [exact Hg|]. intros _.
    split; [lia|]. split; [by apply Hmono|]. intros _ u Hu. apply retries_left_sleep; [done | | lia].
    pose proof (Z.div_mod (usec o) 1000000 ltac:(lia)). pose proof (Z.mod_pos_bound (usec o) 1000000 ltac:(lia)). lia.
Qed.

(** The sleep after a retry: a retry or a signal fewer. *)
Lemma retry_sleep err ts o ts' o' : retry_left err ts o ts' o' ->
  exists r o3, os (SysSleep 1000) o' = (r, o3) /\ usec o' <= usec o3 <= usec o' + 60000000 /\
    (ts' = 0 \/ 0 < ts' <= usec o3 / 1000000) /\
    retries_left ts' (usec o3) <= retries_left ts (usec o) /\ (signals o3 <= signals o')%nat /\
    (err <> EINTR -> retries_left ts' (usec o3) + Z.of_nat (signals o3) + 1 <=
      retries_left ts (usec o) + Z.of_nat (signals o')).
Proof.
  intros (Hts & Hle & Hlt). pose proof (clock_sleep 1000 o' ltac:(lia)) as Hs.
  pose proof (clock_mono (SysSleep 1000) o') as Hm. pose proof (clock_signals (SysSleep 1000) o') as Hg.
  destruct (os (SysSleep 1000) o') as [r o3]. cbn [snd] in *. exists r, o3. split; [done|].
  split; [exact Hm|]. specialize (Hle _ (proj1 Hm)). split.
  { destruct Hts as [?|[? Hts]]; [by left|]. right. split; [done|].
    etransitivity; [exact Hts|]. apply Z.div_le_mono; lia. }
  split; [exact Hle|]. split; [exact Hg|]. intros He.
  destruct Hs as [Hs|Hs]; [specialize (Hlt He _ Hs); lia | lia].
Qed.

Lemma tcp_read_loop_total fuel : forall nleft nbytes buf ts o,
  (ts = 0 \/ 0 < ts <= usec o / 1000000) -> nleft <= nbytes ->
  1000000 <= usec o -> usec o + Z.of_nat fuel * 180000000 < 4294967296000000 ->
  (0 < nleft -> nleft + retries_left ts (usec o) + Z.of_nat (signals o) + 1 <= Z.of_nat fuel) ->
  Z.of_nat (length buf) = nbytes - nleft -> 0 <= nleft ->
  exists r data o', tcp_read_loop os fuel fd nbytes 0 nleft buf ts o = Some ((r, data), o') /\
    (r = 0 \/ r = Z.of_nat (length data)) /\ Z.of_nat (length data) <= nbytes.
Proof.
  induction fuel as [|fuel IH]; intros nleft nbytes buf ts o Hts Hn Hlo Hhi Hf Hbuf H0; cbn [tcp_read_loop].
  all: destruct (nleft <=? 0) eqn:E; bool_to_prop.
  1, 3: by do 3 eexists; split; [done|]; lia.
  { pose proof (retries_left_nonneg ts (usec o)). lia. }
  specialize (Hf E). unfold mbind at 1, io_bind at 1, sys.
  destruct (clock_recv o nleft (Z.lor 0 MSG_DONTWAIT) E) as (Hle & Hlen & Herr).
  pose proof (clock_mono (SysRecv fd nleft (Z.lor 0 MSG_DONTWAIT)) o) as Hm.
  pose proof (clock_signals (SysRecv fd nleft (Z.lor 0 MSG_DONTWAIT)) o) as Hg.
  destruct (os (SysRecv fd nleft _) o) as [r o1]. cbn [fst snd] in *.
  assert (Hts1 : ts = 0 \/ 0 < ts <= usec o1 / 1000000).
  { destruct Hts as [?|[? Hts]]; [by left|]. right. split; [done|].
    etransitivity; [exact Hts|]. apply Z.div_le_mono; lia. }
  pose proof (retries_left_mono ts _ _ (proj1 Hm)) as Hrm. cbv zeta.
  destruct (r_val r <? 0) eqn:Er; bool_to_prop.
  - destruct (_ || _); [do 3 eexists; split; [done|]; lia|].
    destruct (should_retry_clock (r_errno r) ts o1 ltac:(unfold in_epoch; lia) Hts1)
      as (b & ts' & o2 & Es & Hm2 & Hg2 & Hb).
    unfold mbind at 1, io_bind at 1. rewrite Es. destruct b; [|do 3 eexists; split; [done|]; lia].
    destruct (retry_sleep _ _ _ _ _ (Hb eq_refl)) as (r3 & o3 & E3 & Hm3 & Hts3 & Hret & Hg3 & Hlt).
    unfold mbind, io_bind, sys. rewrite E3. specialize (Herr Er).
    apply IH; [exact Hts3 | done | lia | lia | | done | lia]. intros _.
    destruct (decide (r_errno r = EINTR)) as [Hei|Hei]; [specialize (Herr Hei) | specialize (Hlt Hei)]; lia.
  - destruct (r_val r =? 0) eqn:Ez; bool_to_prop; [do 3 eexists; split; [done|]; lia|].
    specialize (Hlen Er). change (0 =? MSG_PEEK) with false. cbn [negb].
    apply IH; [exact Hts1 | lia | lia | lia | lia | rewrite length_app; lia | lia].
Qed.

End clock.

(** C33: [fh_tcp_read] returns. Whatever the peer sends, nothing or a byte at
    a time, forever, the read gives up two seconds after the first time there
    was nothing to read: as many passes as there are bytes to read and 2002
    more are enough, and one more for each signal that interrupts a call. What
    it then returns is 0 (the connection was reset) or the number of bytes it
    wrote, never more than it was asked for. This is on a system whose clock is
    not set back and stays below 2^32 seconds, where no single call takes more
    than a minute ([OsClock]) and finitely many signals come: the loop retries
    after every [EINTR], without looking at the time. *)
Theorem tcp_read_terminates {O} (os : syscall -> O -> sysret * O) fd usec signals
    (clock : OsClock os fd usec signals) n o :
  let fuel := (n + 2002 + signals o)%nat in
  1000000 <= usec o -> usec o + Z.of_nat fuel * 180000000 < 4294967296000000 ->
  exists r data o', fh_tcp_read os fuel fd (Z.of_nat n) o = Some ((r, data), o') /\
    (r = 0 \/ r = Z.of_nat (length data)) /\ Z.of_nat (length data) <= Z.of_nat n.
Proof.
  intros fuel Hlo Hhi. apply tcp_read_loop_total; [by left | lia | done | done | | cbn; lia | lia].
  intros _. change (retries_left 0 (usec o)) with 2001. lia.
Qed.

(** A silent peer, and signals that interrupt the first calls: the state is
    the clock and the signals that are still to come. *)
Definition silent_os (c : syscall) (o : Z * nat) : sysret * (Z * nat) :=
  match c, o.2 with
  | SysTime, _ => (MkRet (o.1 / 1000000) 0 [], o)
  | SysSleep _, S k => (MkRet (-1) EINTR [], (o.1, k))
  | SysSleep n, O => (MkRet 0 0 [], (o.1 + Z.max 0 (Z.min n 60000000), O))
  | _, S k => (MkRet (-1) EINTR [], (o.1, k))
  | _, O => (MkRet (-1) EAGAIN [], o)
  end.

Lemma silent_clock : OsClock silent_os 3 fst snd.
Proof.
  constructor.
  - intros [] [u [|k]]; cbn; lia.
  - intros [] [u [|k]]; cbn; lia.
  - done.
  - intros n [u [|k]] Hn; cbn; [left | right]; lia.
  - intros [u [|k]] n flags Hn; cbn; (split; [lia|]); (split; [lia|]); [done | lia].
Qed.

(** A read of one byte that three signals interrupt. *)
Lemma tcp_read_terminates_witness :
  exists r data o', fh_tcp_read silent_os 2006 3 1 (1300000000000000, 3%nat) = Some ((r, data), o') /\
    (r = 0 \/ r = Z.of_nat (length data)).
Proof.
  destruct (tcp_read_terminates silent_os 3 fst snd silent_clock 1 (1300000000000000, 3%nat))
    as (r & data & o' & E & Hr & _); [cbn; lia..|].
  exists r, data, o'. split; [exact E | exact Hr].
Defined.

(** ** Open descriptors *)

Definition neutral (c : syscall) : Prop :=
  match c with SysSocket | SysClose _ | SysAccept _ => False | _ => True end.

(** [opened o]: the descriptors of the process.  A new socket is none of them,
    closing one takes it out, and other calls leave them alone. *)
Class FdOs {O} (os : syscall -> O -> sysret * O) (opened : O -> gset Z) := {
  fd_neutral c o : neutral c -> opened (os c o).2 = opened o;
  fd_close s o : opened (os (SysClose s) o).2 = opened o ∖ {[s]};
  fd_socket o : let '(r, o') := os SysSocket o in
    if r.(r_val) =? -1 then opened o' = opened o
    else r.(r_val) ∉ opened o /\ opened o' = {[r.(r_val)]} ∪ opened o
}.

Create HintDb fds.

Section fds.
Context {O : Type} {os : syscall -> O -> sysret * O} {opened : O -> gset Z} {fds : FdOs os opened}.

(** A computation that returns and opens and closes nothing. *)
Definition keeps {A} (m : io O A) : Prop :=
  forall o, exists a o', m o = Some (a, o') /\ opened o' = opened o.

Lemma keeps_ret {A} (a : A) : keeps (mret a).
Proof. intros o. by exists a, o. Qed.

Lemma keeps_bind {A B} (m : io O A) (k : A -> io O B) :
  keeps m -> (forall a, keeps (k a)) -> keeps (m ≫= k).
Proof.
  intros Hm Hk o. destruct (Hm o) as (a & o1 & E1 & H1). destruct (Hk a o1) as (b & o2 & E2 & H2).
  exists b, o2. unfold mbind, io_bind. rewrite E1. split; [done | congruence].
Qed.

Lemma keeps_sys c : neutral c -> keeps (sys os c).
Proof using fds.
  intros Hc o. unfold sys. pose proof (fd_neutral c o Hc). destruct (os c o) as [r o'].
  by exists r, o'.
Qed.

Lemma keeps_if {A} (b : bool) (m1 m2 : io O A) : keeps m1 -> keeps m2 -> keeps (if b then m1 else m2).
Proof. by destruct b. Qed.

Lemma keeps_pair {A B C} (p : A * B) (k : A -> B -> io O C) :
  (forall a b, keeps (k a b)) -> keeps (let '(a, b) := p in k a b).
Proof. by destruct p. Qed.

(** The descriptors after an attempt to open one: it is open, or nothing has
    changed. *)
Definition opens (m : io O (Z * option Z)) : Prop :=
  forall o, exists rc sock o', m o = Some ((rc, sock), o') /\
    match sock with
    | Some s => rc = FH_OK /\ s ∉ opened o /\ opened o' = {[s]} ∪ opened o
    | None => rc <> FH_OK /\ opened o' = opened o
    end.

(** With the socket open: the rest keeps it open or closes it. *)
Definition settles (s : Z) (m : io O (Z * option Z)) : Prop :=
  forall o, exists rc sock o', m o = Some ((rc, sock), o') /\
    ((rc, sock) = (FH_OK, Some s) /\ opened o' = opened o \/
     rc <> FH_OK /\ sock = None /\ opened o' = opened o ∖ {[s]}).

Lemma settles_bind {A} s (m : io O A) k :
  keeps m -> (forall a, settles s (k a)) -> settles s (m ≫= k).
Proof.
  intros Hm Hk o. destruct (Hm o) as (a & o1 & E1 & H1). destruct (Hk a o1) as (rc & sock & o2 & E2 & H2).
  exists rc, sock, o2. unfold mbind, io_bind. rewrite E1. split; [done|]. by rewrite H1 in H2.
Qed.

Lemma settles_if s (b : bool) m1 m2 : (b = true -> settles s m1) -> (b = false -> settles s m2) ->
  settles s (if b then m1 else m2).
Proof. destruct b; auto. Qed.

Lemma settles_ok s : settles s (mret (FH_OK, Some s)).
Proof. intros o. exists FH_OK, (Some s), o. split; [done | by left]. Qed.

Lemma settles_error s rc : rc <> FH_OK -> settles s (tcp_client_error os s rc).
Proof using fds.
  intros Hrc o. unfold tcp_client_error, mbind, io_bind, sys. pose proof (fd_close s o).
  destruct (os (SysClose s) o) as [r o']. exists rc, None, o'. split; [done | by right].
Qed.

Lemma settles_open_error s : settles s (tcp_open_error os s).
Proof using fds. by apply settles_error. Qed.

#[local] Hint Resolve keeps_ret keeps_bind keeps_if keeps_pair settles_bind settles_ok
  settles_open_error : fds.
#[local] Hint Extern 1 (keeps (sys _ _)) => (apply keeps_sys; exact I) : fds.

Lemma keeps_status c : neutral c -> keeps (sys_status os c).
Proof using fds. intros. unfold sys_status. apply keeps_bind; [by apply keeps_sys | auto with fds]. Qed.

Lemma keeps_block s b : keeps (fh_sock_block os s b).
Proof using fds.
  unfold fh_sock_block. apply keeps_bind; [auto with fds|]. intros r. apply keeps_if; [auto with fds|].
  by apply keeps_status.
Qed.

Lemma keeps_tconnect s a p t : keeps (fh_tcp_tconnect os s a p t).
Proof using fds.
  unfold fh_tcp_tconnect, tcp_connect_wait, fh_sock_error.
  pose proof keeps_block as Hb. repeat first
    [ apply keeps_bind; [|intros ?] | apply keeps_if | apply keeps_pair; intros ? ? | apply Hb
    | apply keeps_ret | apply keeps_sys; exact I ].
Qed.

Lemma opens_from m (k : Z -> io O (Z * option Z)) :
  opens m -> (forall s, settles s (k s)) ->
  opens ('(rc, sock) ← m;
         match sock with
         | Some s => if negb (rc =? FH_OK) then mret (rc, None) else k s
         | None => mret (rc, None)
         end).
Proof.
  intros Hm Hk o. destruct (Hm o) as (rc & sock & o1 & E1 & H1).
  unfold mbind, io_bind. rewrite E1. destruct sock as [s|].
  - destruct H1 as (-> & Hs & H1). change (FH_OK =? FH_OK) with true. cbn [negb].
    destruct (Hk s o1) as (rc2 & sock2 & o2 & -> & [[[= -> ->] H2]|(Hrc & -> & H2)]).
    + do 3 eexists. split; [done|]. split; [done|]. split; [done | congruence].
    + do 3 eexists. split; [done|]. split; [done|]. rewrite H2, H1. set_solver.
  - do 3 eexists. split; [done|]. exact H1.
Qed.

Lemma opens_open a p : opens (fh_tcp_open os a p).
Proof using fds.
  intros o. unfold fh_tcp_open. unfold mbind at 1, io_bind at 1, sys at 1.
  pose proof (fd_socket o) as Hs. destruct (os SysSocket o) as [r o1]. cbv zeta.
  destruct (r_val r =? -1) eqn:E; [by exists FH_ERROR, None, o1|]. destruct Hs as [Hn Ho].
  set (s := r_val r) in *.
  match goal with |- context [?m o1] => assert (Hm : settles s m) end.
  { pose proof keeps_block as Hb. pose proof keeps_status as Hst.
    repeat first [ apply settles_open_error | apply settles_bind; [|intros ?]
      | apply settles_if; intros ? | apply settles_ok | apply keeps_if | apply Hb | apply Hst; exact I | apply keeps_ret ]. }
  destruct (Hm o1) as (rc & sock & o2 & -> & [[[= -> ->] H2]|(Hrc & -> & H2)]).
  - do 3 eexists. split; [done|]. split; [done|]. split; [done | congruence].
  - do 3 eexists. split; [done|]. split; [done|]. rewrite H2, Ho. set_solver.
Qed.

End fds.

(** C32: safety. An attempt to connect to a server returns, and leaves open
    either one new socket, the one it reports with [FH_OK], or with any other
    status exactly what was open before, whichever of the system calls failed.
    This is on a system where [socket] gives a descriptor that is not open or
    fails, [close] closes its descriptor whatever it returns, and the other
    calls open and close none ([FdOs]). *)
Theorem tcp_client_no_leak {O} (os : syscall -> O -> sysret * O) opened (fds : FdOs os opened)
    saddr sport daddr dport o :
  exists rc sock o', fh_tcp_client_ex os saddr sport daddr dport o = Some ((rc, sock), o') /\
    match sock with
    | Some s => rc = FH_OK /\ s ∉ opened o /\ opened o' = {[s]} ∪ opened o
    | None => rc <> FH_OK /\ opened o' = opened o
    end.
Proof.
  apply opens_from; [apply opens_open|]. intros s.
  pose proof (keeps_block (fds:=fds)) as Hb. pose proof (keeps_status (fds:=fds)) as Hst.
  pose proof (keeps_tconnect (fds:=fds)) as Ht.
  repeat first [ apply settles_error; intros ->; discriminate | apply settles_bind; [|intros ?]
    | apply settles_if; intros ? | apply settles_ok | apply Hb | apply Ht | apply Hst; exact I ].
Qed.

(** A system with one descriptor, 3, where nothing listens. *)
Definition one_fd_os (c : syscall) (used : bool) : sysret * bool :=
  match c with
  | SysSocket => if used then (MkRet (-1) 24 [], used) else (MkRet 3 0 [], true)
  | SysClose s => if s =? 3 then (MkRet 0 0 [], false) else (MkRet (-1) EBADF [], used)
  | SysConnect _ _ _ => (MkRet (-1) 111 [], used)
  | SysListen _ => (MkRet (-1) 98 [], used)
  | _ => (MkRet 0 0 [], used)
  end.

Definition one_fd_opened (used : bool) : gset Z := if used then {[ 3 ]} else ∅.

Lemma one_fd_ok : FdOs one_fd_os one_fd_opened.
Proof.
  constructor.
  - by intros [] [].
  - intros s []; cbn; destruct (s =? 3) eqn:E; bool_to_prop; subst; set_solver.
  - intros []; cbn; [done|]. set_solver.
Qed.

Lemma tcp_client_no_leak_witness :
  exists rc o', fh_tcp_client_ex one_fd_os 0 0 1 80 false = Some ((rc, None), o') /\
    one_fd_opened o' = ∅.
Proof.
  destruct (tcp_client_no_leak one_fd_os one_fd_opened one_fd_ok 0 0 1 80 false)
    as (rc & sock & o' & E & H).
  destruct sock as [s|]; [vm_compute in E; discriminate E|].
  exists rc, o'. split; [exact E | exact (proj2 H)].
Defined.

(** The server is not as careful: when [listen] fails the new socket stays
    open, and the caller does not have it. *)
Lemma tcp_server_leaks {O} (os : syscall -> O -> sysret * O) opened (fds : FdOs os opened) addr port o s o1 :
  fh_tcp_open os addr port o = Some ((FH_OK, Some s), o1) ->
  (os (SysListen s) o1).1.(r_val) < 0 ->
  exists o', fh_tcp_server os addr port o = Some ((FH_ERROR, None), o') /\ s ∈ opened o'.
Proof.
  intros Eo Hl. pose proof (opens_open (fds:=fds) addr port o) as (rc & sock & o2 & E2 & H2).
  rewrite Eo in E2. injection E2 as <- <- <-. destruct H2 as (_ & _ & H2).
  pose proof (fd_neutral (SysListen s) o1 I) as Hn.
  unfold fh_tcp_server, mbind, io_bind. rewrite Eo. change (FH_OK =? FH_OK) with true. cbn [negb].
  unfold fh_tcp_listen, sys_status, mbind, io_bind, sys. destruct (os (SysListen s) o1) as [r o'].
  cbn [fst snd] in *. destruct (r_val r <? 0) eqn:E; bool_to_prop; [|lia].
  exists o'. split; [done|]. rewrite Hn, H2. set_solver.
Qed.
