(* ===== verification/EdgeLogin.v ===== *)
(** * Logging in to a Direct Edge server
      ([src/feeds/directedge/common/fh_edge_login.c], [fh_edge_connect.c],
      [SCRATCH_session_mgmt_prot.h])

    SoupTCP 2.0: a login request with the next sequence number, answered by
    the session and the number the server will send next. *)
From S2P Require Import Prelude Bytes Mpool Sock.

(** ** Sequence numbers as ten characters *)

(** A [char] holding [v + '0']. *)
Definition digit_char (v : Z) : Z := u8 (v + 48).

(** Every intermediate value of the C code is between 0 and [value], so the
    [uint64_t] arithmetic does not wrap. *)
Definition convert64to10chars (value : Z) : list Z :=
  if value <? 10 then replicate 9 32 ++ [digit_char value]
  else if value <? 100 then
    replicate 8 32 ++ [digit_char (value / 10); digit_char (value mod 10)]
  else if value <? 1000 then
    let temp := value / 100 * 100 in
    let temp1 := (value - temp) / 10 * 10 in
    replicate 7 32 ++
      [digit_char (temp / 100); digit_char (temp1 / 10);
       digit_char ((value - (temp + temp1)) mod 10)]
  else if value <? 10000 then
    let temp := value / 1000 * 1000 in
    let temp1 := (value - temp) / 100 * 100 in
    replicate 6 32 ++
      [digit_char (temp / 1000); digit_char (temp1 / 100);
       digit_char ((value - (temp + temp1)) / 10);
       digit_char ((value - (temp + temp1)) mod 10)]
  else if value <? 100000 then
    let temp := value / 10000 * 10000 in
    let temp1 := (value - temp) / 1000 * 1000 in
    let temp2 := (value - (temp + temp1)) / 100 * 100 in
    replicate 5 32 ++
      [digit_char (temp / 10000); digit_char (temp1 / 1000); digit_char (temp2 / 100);
       digit_char ((value - (temp + temp1 + temp2)) / 10);
       digit_char ((value - (temp + temp1 + temp2)) mod 10)]
  else if value <? 1000000 then
    let temp := value / 100000 * 100000 in
    let temp1 := (value - temp) / 10000 * 10000 in
    let temp2 := (value - (temp + temp1)) / 1000 * 1000 in
    let temp3 := (value - (temp + temp1 + temp2)) / 100 * 100 in
    replicate 4 32 ++
      [digit_char (temp / 100000); digit_char (temp1 / 10000); digit_char (temp2 / 1000);
       digit_char (temp3 / 100);
       digit_char ((value - (temp + temp1 + temp2 + temp3)) / 10);
       digit_char ((value - (temp + temp1 + temp2 + temp3)) mod 10)]
  else if value <? 10000000 then
    let temp := value / 1000000 * 1000000 in
    let temp1 := (value - temp) / 100000 * 100000 in
    let temp2 := (value - (temp + temp1)) / 10000 * 10000 in
    let temp3 := (value - (temp + temp1 + temp2)) / 1000 * 1000 in
    let temp4 := (value - (temp + temp1 + temp2 + temp3)) / 100 * 100 in
    replicate 3 32 ++
      [digit_char (temp / 1000000); digit_char (temp1 / 100000); digit_char (temp2 / 10000);
       digit_char (temp3 / 1000); digit_char (temp4 / 100);
       digit_char ((value - (temp + temp1 + temp2 + temp3 + temp4)) / 10);
       digit_char ((value - (temp + temp1 + temp2 + temp3 + temp4)) mod 10)]
  else if value <? 100000000 then
    let temp := value / 10000000 * 10000000 in
    let temp1 := (value - temp) / 1000000 * 1000000 in
    let temp2 := (value - (temp + temp1)) / 100000 * 100000 in
    let temp3 := (value - (temp + temp1 + temp2)) / 10000 * 10000 in
    let temp4 := (value - (temp + temp1 + temp2 + temp3)) / 1000 * 1000 in
    let temp5 := (value - (temp + temp1 + temp2 + temp3 + temp4)) / 100 * 100 in
    replicate 2 32 ++
      [digit_char (temp / 10000000); digit_char (temp1 / 1000000); digit_char (temp2 / 100000);
       digit_char (temp3 / 10000); digit_char (temp4 / 1000); digit_char (temp5 / 100);
       digit_char ((value - (temp + temp1 + temp2 + temp3 + temp4 + temp5)) / 10);
       digit_char ((value - (temp + temp1 + temp2 + temp3 + temp4 + temp5)) mod 10)]
  else if value <? 1000000000 then
    let temp := value / 100000000 * 100000000 in
    let temp1 := (value - temp) / 10000000 * 10000000 in
    let temp2 := (value - (temp + temp1)) / 1000000 * 1000000 in
    let temp3 := (value - (temp + temp1 + temp2)) / 100000 * 100000 in
    let temp4 := (value - (temp + temp1 + temp2 + temp3)) / 10000 * 10000 in
    let temp5 := (value - (temp + temp1 + temp2 + temp3 + temp4)) / 1000 * 1000 in
    let temp6 := (value - (temp + temp1 + temp2 + temp3 + temp4 + temp5)) / 100 * 100 in
    replicate 1 32 ++
      [digit_char (temp / 100000000); digit_char (temp1 / 10000000); digit_char (temp2 / 1000000);
       digit_char (temp3 / 100000); digit_char (temp4 / 10000); digit_char (temp5 / 1000);
       digit_char (temp6 / 100);
       digit_char ((value - (temp + temp1 + temp2 + temp3 + temp4 + temp5 + temp6)) / 10);
       digit_char ((value - (temp + temp1 + temp2 + temp3 + temp4 + temp5 + temp6)) mod 10)]
  else
    let temp := value / 1000000000 * 1000000000 in
    let temp1 := (value - temp) / 100000000 * 100000000 in
    let temp2 := (value - (temp + temp1)) / 10000000 * 10000000 in
    let temp3 := (value - (temp + temp1 + temp2)) / 1000000 * 1000000 in
    let temp4 := (value - (temp + temp1 + temp2 + temp3)) / 100000 * 100000 in
    let temp5 := (value - (temp + temp1 + temp2 + temp3 + temp4)) / 10000 * 10000 in
    let temp6 := (value - (temp + temp1 + temp2 + temp3 + temp4 + temp5)) / 1000 * 1000 in
    let temp7 := (value - (temp + temp1 + temp2 + temp3 + temp4 + temp5 + temp6)) / 100 * 100 in
    [digit_char (temp / 1000000000); digit_char (temp1 / 100000000); digit_char (temp2 / 10000000);
     digit_char (temp3 / 1000000); digit_char (temp4 / 100000); digit_char (temp5 / 10000);
     digit_char (temp6 / 1000); digit_char (temp7 / 100);
     digit_char ((value - (temp + temp1 + temp2 + temp3 + temp4 + temp5 + temp6 + temp7)) / 10);
     digit_char ((value - (temp + temp1 + temp2 + temp3 + temp4 + temp5 + temp6 + temp7)) mod 10)].

(** The characters from the last one to the first one or to a space; [y] is
    an [int], 0 before the first digit. *)
Fixpoint seq_digits (seqNum : list Z) (y temp : Z) : Z :=
  match seqNum with
  | [] => temp
  | c :: seqNum =>
      if c =? 32 then temp
      else
        let y := if y =? 0 then 1 else s32 (y * 10) in
        seq_digits seqNum y (u64 (temp + s32 ((s8 c - 0x30) * y)))
  end.

Definition convert10chartoInt (seqNum : list Z) : Z := seq_digits (reverse seqNum) 0 0.

(** ** The login *)

Definition sizeof_login_request : Z := 38.
Definition sizeof_login_accept : Z := 22.

(** The account of the line's configuration: 6 and 10 characters. *)
Record edge_account := MkAccount {
  login_name : list Z;
  login_passwd : list Z;
  account_addr : Z;
  account_port : Z
}.

(** [login_msg.session_number]: ten spaces that no code changes. *)
Definition login_session_number : list Z := replicate 10 32.

(** The message; the copy of the session goes from it to [cur_session], the
    second result. *)
Definition init_login_msg (line : edge_account) (seq_no : Z) : list Z * list Z :=
  (76 :: line.(login_name) ++ line.(login_passwd) ++ login_session_number ++
     convert64to10chars seq_no ++ [10],
   login_session_number).

Definition char_at (buf : list Z) (i : nat) : Z := default 0 (buf !! i).

Section login.
Context {O : Type} (os : syscall -> O -> sysret * O) (fuel : nat) (line : edge_account).

(** The results are the status, [cur_session] and [*seq_no].  A rejected login
    is only logged: the status is [FH_OK]. *)
Definition login_tcp_server (socket seq_no : Z) : io O (Z * list Z * Z) :=
  let '(login_msg, cur_session) := init_login_msg line seq_no in
  count ← fh_tcp_write os fuel socket login_msg;
  if negb (count =? sizeof_login_request) then mret (FH_ERROR, cur_session, seq_no)
  else
    '(count, rx_one) ← fh_tcp_read os fuel socket 1;
    if negb (count =? 1) then mret (FH_ERROR, cur_session, seq_no)
    else if char_at rx_one 0 =? 65 (* 'A' *) then
      '(count, login_accept) ← fh_tcp_read os fuel socket (sizeof_login_accept - 1);
      if negb (count =? sizeof_login_accept - 1) then mret (FH_ERROR, cur_session, seq_no)
      else
        mret (FH_OK, take 10 login_accept, convert10chartoInt (take 10 (drop 10 login_accept)))
    else if char_at rx_one 0 =? 74 (* 'J' *) then
      '(count, temp) ← fh_tcp_read os fuel socket 2;
      if negb (count =? 2) then mret (FH_ERROR, cur_session, seq_no)
      else if ((char_at temp 0 =? 65) || (char_at temp 0 =? 83)) && (char_at temp 1 =? 10) then
        mret (FH_OK, cur_session, seq_no)
      else mret (FH_ERROR, cur_session, seq_no)
    else mret (FH_ERROR, cur_session, seq_no).

(** The results are the status, [*socketp], [cur_session] and [*seq]. *)
Definition fh_edge_conn_login (socket : Z) (cur_session : list Z) (seq : Z)
    : io O (Z * Z * list Z * Z) :=
  '(rc, sock) ← fh_tcp_client os line.(account_addr) line.(account_port);
  let socket := default socket sock in
  if negb (rc =? FH_OK) then mret (rc, socket, cur_session, seq)
  else
    '(rc, cur_session, seq) ← login_tcp_server socket seq;
    if negb (rc =? FH_OK) then
      _ ← sys os (SysClose socket);
      mret (FH_ERROR, socket, cur_session, seq)
    else mret (FH_OK, socket, cur_session, seq).

End login.
