(* ===== verification/EdgeSession.v ===== *)
(** * Logging in: theorems

    The number of the next message survives the round trip through its ten
    characters below three billion; what a login does with each answer. *)
From S2P Require Import Prelude Bytes Mpool Sock SockProps Decimal EdgeParse EdgeProps EdgeLogin.

(** ** Sequence numbers *)

Lemma digit_chars_field k ds v :
  Forall (fun d => 0 <= d <= 9) ds -> foldl (fun a d => 10 * a + d) 0 ds = v ->
  is_field (k + length ds) (replicate k 32 ++ (digit_char <$> ds)) v.
Proof.
  intros Hd <-. assert (Hc : Forall is_digit (digit_char <$> ds)).
  { apply Forall_fmap. eapply Forall_impl; [exact Hd|]. intros d Hx. cbn in *.
    unfold digit_char, is_digit. rewrite u8_small; lia. }
  replace (foldl _ 0 ds) with (rev_value (reverse (digit_char <$> ds))).
  { rewrite <- (length_fmap digit_char ds). by apply field_of_digits. }
  clear Hc. induction ds as [|d ds IH] using rev_ind; [done|]. apply Forall_app in Hd as [Hd [Hx _]%Forall_cons].
  rewrite fmap_app, reverse_app, foldl_app. cbn. rewrite IH by done. unfold digit_char.
  rewrite u8_small; lia.
Qed.

(** Names a quotient. *)
Ltac name_quotient x c :=
  let q := fresh "q" in pose proof (Z.div_mod x c ltac:(lia));
  pose proof (Z.mod_pos_bound x c ltac:(lia)); set (q := x / c) in *; clearbody q.

(** Names all of them, the inner ones first. *)
Ltac name_quotients :=
  repeat (rewrite ?Z.div_mul by lia;
    match goal with |- context [?x / ?c] =>
      lazymatch x with context [_ / _] => fail | _ => name_quotient x c end end).

(** A number written with the digits [ds]. *)
Ltac digits_case :=
  cbv zeta; name_quotients;
  lazymatch goal with
  | |- is_field 10 (replicate ?k 32 ++ ?l) _ =>
      let rec undo l := lazymatch l with
        | [] => constr:(@nil Z)
        | digit_char ?d :: ?l => let ds := undo l in constr:(d :: ds) end in
      let ds := undo l in apply (digit_chars_field k ds)
  end;
  match goal with |- context [?x mod 10] =>
    pose proof (Z.div_mod x 10 ltac:(lia)); pose proof (Z.mod_pos_bound x 10 ltac:(lia)) end;
  [repeat (apply Forall_cons; split; [lia|]); by apply Forall_nil | cbn [foldl]; lia].

Lemma convert64to10chars_field v : 0 <= v < 10000000000 ->
  is_field 10 (convert64to10chars v) v.
Proof.
  intros Hv. cbv delta [convert64to10chars] beta.
  repeat match goal with |- is_field _ (if ?a <? ?b then _ else _) _ => destruct (Z.ltb_spec a b) end.
  1: { apply (digit_chars_field 9 [v]); [|cbn; lia]. repeat constructor; lia. }
  all: lazymatch goal with
    | |- is_field _ (_ ++ _) _ => idtac
    | |- is_field _ (let t := _ in _) _ => idtac end.
  1: digits_case. 1: digits_case. 1: digits_case. 1: digits_case. 1: digits_case. 1: digits_case. 1: digits_case. 1: digits_case.
  cbv zeta. name_quotients.
  match goal with |- is_field 10 ?l _ => change (is_field 10 (replicate 0 32 ++ l) v) end. digits_case.
Qed.

(** The two loops over a number do the same. *)
Lemma seq_digits_from l : forall k temp, (k + length l <= 9)%nat ->
  seq_digits l (10 ^ Z.of_nat k) temp = de_digits u64 l (s32 (10 ^ Z.of_nat k * 10)) temp.
Proof.
  induction l as [|c l IH]; intros k temp Hk; [done|]. cbn [seq_digits de_digits length] in *.
  destruct (c =? 32); [done|]. cbv zeta.
  assert (0 < 10 ^ Z.of_nat k <= 10 ^ 8)
    by (split; [apply Z.pow_pos_nonneg; lia | apply Z.pow_le_mono_r; lia]).
  change (10 ^ 8) with 100000000 in *.
  rewrite (eqb_false_of_ne (10 ^ _) 0), (s32_small (10 ^ _ * 10)), <- pow10_S by lia.
  apply IH. lia.
Qed.

Lemma convert10chartoInt_digits l : (length l <= 10)%nat ->
  convert10chartoInt l = fh_dirEdge_get_price l.
Proof.
  intros Hl. unfold convert10chartoInt, fh_dirEdge_get_price. rewrite <- length_reverse in Hl.
  destruct (reverse l) as [|c r]; [done|]. cbn [seq_digits de_digits length] in *.
  destruct (c =? 32); [done|]. change (0 =? 0) with true. cbv zeta. cbn iota.
  exact (seq_digits_from r 0 _ ltac:(lia)).
Qed.

Lemma length_convert64to10chars v : 0 <= v < 10000000000 -> length (convert64to10chars v) = 10%nat.
Proof. intros Hv. exact (length_is_field _ _ _ (convert64to10chars_field v Hv)). Qed.

(** A number of at most ten digits is
    written as ten characters, right-aligned; read back it is the same number
    when it is below three billion, and only then. *)
Theorem seq_no_roundtrip v : 0 <= v < 10000000000 ->
  length (convert64to10chars v) = 10%nat /\
  (convert10chartoInt (convert64to10chars v) = v <-> v < 3000000000).
Proof.
  intros Hv. pose proof (length_convert64to10chars v Hv) as Hl. split; [done|].
  rewrite convert10chartoInt_digits by lia. unfold fh_dirEdge_get_price.
  rewrite (de_digits_field u64 ltac:(intros; apply u64_small; lia) 10 _ v (convert64to10chars_field v Hv)) by lia.
  by apply de_number_exact.
Qed.

Lemma seq_no_roundtrip_witness :
  convert10chartoInt (convert64to10chars 2147483648) = 2147483648 /\
  convert10chartoInt (convert64to10chars 3000000001) <> 3000000001.
Proof.
  split.
  - apply (seq_no_roundtrip 2147483648 ltac:(lia)). lia.
  - intros E. apply (seq_no_roundtrip 3000000001 ltac:(lia)) in E. lia.
Defined.

(** ** Logging in *)

Section login.
Context {O : Type} {os : syscall -> O -> sysret * O} {fd : Z} {input : O -> list Z}
  {peer : TcpPeer os fd input}.
Context (fuel : nat) (line : edge_account).

Definition account_ok : Prop := length line.(login_name) = 6%nat /\ length line.(login_passwd) = 10%nat.

(** The request goes out whole, and the first character of the answer is read. *)
Lemma login_answer seq_no c rest o :
  account_ok -> 0 <= seq_no < 10000000000 -> (38 <= fuel)%nat -> input o = c :: rest ->
  exists o', input o' = rest /\
    login_tcp_server os fuel line fd seq_no o =
    (if c =? 65 then
       '(count, login_accept) ← fh_tcp_read os fuel fd (sizeof_login_accept - 1);
       if negb (count =? sizeof_login_accept - 1) then mret (FH_ERROR, login_session_number, seq_no)
       else mret (FH_OK, take 10 login_accept, convert10chartoInt (take 10 (drop 10 login_accept)))
     else if c =? 74 then
       '(count, temp) ← fh_tcp_read os fuel fd 2;
       if negb (count =? 2) then mret (FH_ERROR, login_session_number, seq_no)
       else if ((char_at temp 0 =? 65) || (char_at temp 0 =? 83)) && (char_at temp 1 =? 10) then
         mret (FH_OK, login_session_number, seq_no)
       else mret (FH_ERROR, login_session_number, seq_no)
     else mret (FH_ERROR, login_session_number, seq_no)) o'.
Proof using peer.
  intros [Hn Hp] Hs Hf Hin. unfold login_tcp_server, init_login_msg.
  set (msg := 76 :: _).
  assert (Hm : length msg = 38%nat).
  { unfold msg. cbn [length]. rewrite !length_app, Hn, Hp, length_convert64to10chars by done. done. }
  destruct (fh_tcp_write_all fuel msg o ltac:(lia)) as (o1 & Ew & Hi1).
  unfold mbind at 1, io_bind at 1. rewrite Ew, Hm. change (Z.of_nat 38 =? sizeof_login_request) with true.
  cbn [negb]. destruct (fh_tcp_read_all fuel 1 o1) as (o2 & Er & Hi2);
    [rewrite Hi1, Hin; cbn; lia | lia |].
  unfold mbind at 1, io_bind at 1. change (Z.of_nat 1) with 1 in Er. rewrite Er, Hi1, Hin.
  change (1 =? 1) with true. cbn [negb take]. change (char_at [c] 0) with c.
  exists o2. split; [by rewrite Hi2, Hi1, Hin | done].
Qed.

End login.

(** C36: an accepted login. However the request and the answer are cut into
    pieces, when the server answers with its session and the number it will
    send next (below three billion), the login succeeds with exactly these, and
    leaves what follows the answer unread. *)
Theorem login_accepted {O} (os : syscall -> O -> sysret * O) fd input (peer : TcpPeer os fd input)
    fuel line seq_no session seq lf rest o :
  account_ok line -> 0 <= seq_no < 10000000000 -> (38 <= fuel)%nat ->
  length session = 10%nat -> 0 <= seq < 3000000000 ->
  input o = 65 :: session ++ convert64to10chars seq ++ [lf] ++ rest ->
  exists o', login_tcp_server os fuel line fd seq_no o = Some ((FH_OK, session, seq), o') /\
    input o' = rest.
Proof.
  intros Hl Hs Hf Hss Hseq Hin.
  destruct (login_answer fuel line seq_no 65 _ o Hl Hs Hf Hin) as (o1 & Hi1 & ->).
  change (65 =? 65) with true. cbn iota.
  pose proof (length_convert64to10chars seq ltac:(lia)) as H10.
  destruct (fh_tcp_read_all fuel 21 o1) as (o2 & Er & Hi2).
  { rewrite Hi1, !length_app, Hss, H10. cbn. lia. }
  { lia. }
  unfold mbind, io_bind. change (Z.of_nat 21) with (sizeof_login_accept - 1) in Er. rewrite Er.
  rewrite Z.eqb_refl. cbn [negb].
  assert (E21 : take 21 (input o1) = session ++ convert64to10chars seq ++ [lf]).
  { rewrite Hi1, !app_assoc. rewrite <- (app_assoc session). apply take_app_length'.
    rewrite !length_app, Hss, H10. done. }
  exists o2. rewrite E21. split.
  - rewrite take_app_length', drop_app_length', take_app_length' by done.
    rewrite convert10chartoInt_digits by lia. unfold fh_dirEdge_get_price.
    rewrite (de_digits_field u64 ltac:(intros; apply u64_small; lia) 10 _ seq
      (convert64to10chars_field seq ltac:(lia))) by lia.
    rewrite de_number_small; [done | intros; apply u64_small; lia | lia].
  - rewrite Hi2, Hi1, !app_assoc, <- (app_assoc session). apply drop_app_length'.
    rewrite !length_app, Hss, H10. done.
Qed.

(** A rejected login is not an error: when the server answers that the
    account is not authorised or that there is no such session, the login
    reports [FH_OK], so the line handler takes the connection for established;
    the session is forgotten. *)
Theorem login_rejected {O} (os : syscall -> O -> sysret * O) fd input (peer : TcpPeer os fd input)
    fuel line seq_no reason rest o :
  account_ok line -> 0 <= seq_no < 10000000000 -> (38 <= fuel)%nat ->
  reason = 65 \/ reason = 83 -> input o = 74 :: reason :: 10 :: rest ->
  exists o', login_tcp_server os fuel line fd seq_no o = Some ((FH_OK, replicate 10 32, seq_no), o').
Proof.
  intros Hl Hs Hf Hr Hin.
  destruct (login_answer fuel line seq_no 74 _ o Hl Hs Hf Hin) as (o1 & Hi1 & ->).
  change (74 =? 65) with false. change (74 =? 74) with true. cbn iota.
  destruct (fh_tcp_read_all fuel 2 o1) as (o2 & Er & Hi2); [rewrite Hi1; cbn; lia | lia|].
  unfold mbind, io_bind. change (Z.of_nat 2) with 2 in Er. rewrite Er, Hi1. cbn [take negb Z.eqb].
  exists o2. unfold char_at. cbn. by destruct Hr as [->| ->].
Qed.

(** A server that has sent its answer: the state is what is left to read; a
    call moves a byte at a time. *)
Definition byte_os (c : syscall) (inp : list Z) : sysret * list Z :=
  match c with
  | SysRecv 3 n flags =>
      match inp with
      | [] => (MkRet (-1) EAGAIN [], inp)
      | b :: inp' => (MkRet 1 0 [b], if peeks flags then inp else inp')
      end
  | SysSend 3 _ _ => (MkRet 1 0 [], inp)
  | _ => (MkRet 0 0 [], inp)
  end.

Lemma byte_peer : TcpPeer byte_os 3 id.
Proof.
  constructor; unfold id.
  - intros [|b inp] n flags Hn Hi; [done|]. exists 1%nat, 0, (if peeks flags then b :: inp else inp).
    cbn. repeat split; lia || done.
  - intros o [|d data] flags Hd; [done|]. exists 1%nat, 0, o. cbn. repeat split; lia.
Qed.

Definition demo_account : edge_account := MkAccount (replicate 6 65) (replicate 10 66) 0 0.

Lemma login_accepted_witness :
  exists o', login_tcp_server byte_os 38 demo_account 3 1
      (65 :: replicate 10 55 ++ convert64to10chars 4071 ++ [10] ++ [83; 10]) =
    Some ((FH_OK, replicate 10 55, 4071), o') /\ o' = [83; 10].
Proof. by apply (login_accepted byte_os 3 id byte_peer 38 demo_account 1 _ 4071 10); try done; lia. Defined.

Lemma login_rejected_witness :
  exists o', login_tcp_server byte_os 38 demo_account 3 1 [74; 65; 10] =
    Some ((FH_OK, replicate 10 32, 1), o').
Proof. by apply (login_rejected byte_os 3 id byte_peer 38 demo_account 1 65 []); try done; try lia; left. Defined.
