(* ===== verification/TcpLh.v ===== *)
(** * The TCP line handler ([src/feeds/shared/tcp_feed/fh_shr_tcp_lh.c])

    One thread reads a stream of messages, each ended by a line feed, from a
    socket that does not block, cuts it into messages and gives each to the
    parser.  [lh] is everything the thread changes: the globals and statics of
    the file, the locals of [fh_shr_tcp_lh_run] that live across iterations,
    and what the callbacks change.  [None] is a write outside [rx_buf] or
    running out of fuel. *)
From S2P Require Import Prelude Bytes Mpool GapFill HTable Lookup Conn Feed Sock EdgeParse.

Definition HB_ALARM_TIMEOUT : Z := 10.
Definition FH_ALERT_SESSION_TERMINATED : Z := 4.
Definition FH_ALERT_TCP_CONNECTION_ESTABLISHED : Z := 5.
Definition FH_ALERT_TCP_CONNECTION_BROKEN : Z := 6.
Definition FH_ALERT_SERVER_HB_MISSING : Z := 7.

(** [char rx_buf[2048]] *)
Definition rx_buf_size : Z := 2048.

Record lh (O W : Type) := MkLh {
  lh_os : O;
  lh_feed : feed_state W;      (* lh_process, its first line and connection *)
  lh_socket : Z;               (* lines[0].primary.socket *)
  lh_session : list Z;         (* cur_session *)
  lh_seq_num : Z;              (* dir_edge_seq_num, uint64_t *)
  lh_hb_count : Z;             (* hb_count, uint64_t *)
  lh_monitor : Z;              (* monitor_hb_count *)
  lh_connections : Z;          (* de_connection_count *)
  lh_first_time : bool;        (* of dir_edge_reconnect *)
  lh_rx_buf : list Z;
  lh_part_rx : Z;
  lh_still_more : Z;
  lh_offset : Z;
  lh_add_order : bool;
  lh_len : Z;
  lh_tv : Z                    (* in microseconds *)
}.
Arguments MkLh {O W}.
Arguments lh_os {O W}.
Arguments lh_feed {O W}.
Arguments lh_socket {O W}.
Arguments lh_session {O W}.
Arguments lh_seq_num {O W}.
Arguments lh_hb_count {O W}.
Arguments lh_monitor {O W}.
Arguments lh_connections {O W}.
Arguments lh_first_time {O W}.
Arguments lh_rx_buf {O W}.
Arguments lh_part_rx {O W}.
Arguments lh_still_more {O W}.
Arguments lh_offset {O W}.
Arguments lh_add_order {O W}.
Arguments lh_len {O W}.
Arguments lh_tv {O W}.

(** What a feed gives the line handler ([fh_shr_tcp_cb_t]). *)
Record tcp_cb (O W : Type) := MkCb {
  (* rx_buf, length, type and *seq_no: the status and the new *seq_no *)
  cb_parse : list Z -> Z -> Z -> Z -> feed_state W -> option (Z * Z * feed_state W);
  (* *socketp, cur_session and *seq_no, and their new values *)
  cb_connect : Z -> list Z -> Z -> io O (Z * Z * list Z * Z);
  cb_alarm : Z -> feed_state W -> Z * feed_state W
}.
Arguments MkCb {O W}.
Arguments cb_parse {O W}.
Arguments cb_connect {O W}.
Arguments cb_alarm {O W}.

(** A write of [data] at [off]. *)
Definition write_at (buf : list Z) (off : Z) (data : list Z) : option (list Z) :=
  if (off <? 0) || (Z.of_nat (length buf) <? off + Z.of_nat (length data)) then None
  else Some (take (Z.to_nat off) buf ++ data ++ drop (Z.to_nat off + length data) buf).

Section lh.
Context {O W : Type} (os : syscall -> O -> sysret * O) (cb : tcp_cb O W).
(** Whether [fh_shr_tcp_lh_exit] was called, from another thread. *)
Context (finished : O -> bool).
Context (hook_msg_flush : option (W -> W)).
Notation lh := (lh O W).
Notation M := (io lh).

Definition set_os v (s : lh) : lh := MkLh v s.(lh_feed) s.(lh_socket) s.(lh_session) s.(lh_seq_num)
  s.(lh_hb_count) s.(lh_monitor) s.(lh_connections) s.(lh_first_time) s.(lh_rx_buf) s.(lh_part_rx)
  s.(lh_still_more) s.(lh_offset) s.(lh_add_order) s.(lh_len) s.(lh_tv).
Definition set_feed v (s : lh) : lh := MkLh s.(lh_os) v s.(lh_socket) s.(lh_session) s.(lh_seq_num)
  s.(lh_hb_count) s.(lh_monitor) s.(lh_connections) s.(lh_first_time) s.(lh_rx_buf) s.(lh_part_rx)
  s.(lh_still_more) s.(lh_offset) s.(lh_add_order) s.(lh_len) s.(lh_tv).
Definition set_conn sock session seq (s : lh) : lh := MkLh s.(lh_os) s.(lh_feed) sock session seq
  s.(lh_hb_count) s.(lh_monitor) s.(lh_connections) s.(lh_first_time) s.(lh_rx_buf) s.(lh_part_rx)
  s.(lh_still_more) s.(lh_offset) s.(lh_add_order) s.(lh_len) s.(lh_tv).
Definition set_hb hb_count monitor (s : lh) : lh := MkLh s.(lh_os) s.(lh_feed) s.(lh_socket)
  s.(lh_session) s.(lh_seq_num) hb_count monitor s.(lh_connections) s.(lh_first_time) s.(lh_rx_buf)
  s.(lh_part_rx) s.(lh_still_more) s.(lh_offset) s.(lh_add_order) s.(lh_len) s.(lh_tv).
Definition set_connections n (s : lh) : lh := MkLh s.(lh_os) s.(lh_feed) s.(lh_socket)
  s.(lh_session) s.(lh_seq_num) s.(lh_hb_count) s.(lh_monitor) n true s.(lh_rx_buf)
  s.(lh_part_rx) s.(lh_still_more) s.(lh_offset) s.(lh_add_order) s.(lh_len) s.(lh_tv).
Definition set_rx_buf v (s : lh) : lh := MkLh s.(lh_os) s.(lh_feed) s.(lh_socket) s.(lh_session)
  s.(lh_seq_num) s.(lh_hb_count) s.(lh_monitor) s.(lh_connections) s.(lh_first_time) v
  s.(lh_part_rx) s.(lh_still_more) s.(lh_offset) s.(lh_add_order) s.(lh_len) s.(lh_tv).
Definition set_part_rx v (s : lh) : lh := MkLh s.(lh_os) s.(lh_feed) s.(lh_socket) s.(lh_session)
  s.(lh_seq_num) s.(lh_hb_count) s.(lh_monitor) s.(lh_connections) s.(lh_first_time) s.(lh_rx_buf)
  v s.(lh_still_more) s.(lh_offset) s.(lh_add_order) s.(lh_len) s.(lh_tv).
Definition set_more offset more (s : lh) : lh := MkLh s.(lh_os) s.(lh_feed) s.(lh_socket)
  s.(lh_session) s.(lh_seq_num) s.(lh_hb_count) s.(lh_monitor) s.(lh_connections) s.(lh_first_time)
  s.(lh_rx_buf) s.(lh_part_rx) more offset s.(lh_add_order) s.(lh_len) s.(lh_tv).
Definition set_add_order v (s : lh) : lh := MkLh s.(lh_os) s.(lh_feed) s.(lh_socket) s.(lh_session)
  s.(lh_seq_num) s.(lh_hb_count) s.(lh_monitor) s.(lh_connections) s.(lh_first_time) s.(lh_rx_buf)
  s.(lh_part_rx) s.(lh_still_more) s.(lh_offset) v s.(lh_len) s.(lh_tv).
Definition set_len v (s : lh) : lh := MkLh s.(lh_os) s.(lh_feed) s.(lh_socket) s.(lh_session)
  s.(lh_seq_num) s.(lh_hb_count) s.(lh_monitor) s.(lh_connections) s.(lh_first_time) s.(lh_rx_buf)
  s.(lh_part_rx) s.(lh_still_more) s.(lh_offset) s.(lh_add_order) v s.(lh_tv).
Definition set_tv v (s : lh) : lh := MkLh s.(lh_os) s.(lh_feed) s.(lh_socket) s.(lh_session)
  s.(lh_seq_num) s.(lh_hb_count) s.(lh_monitor) s.(lh_connections) s.(lh_first_time) s.(lh_rx_buf)
  s.(lh_part_rx) s.(lh_still_more) s.(lh_offset) s.(lh_add_order) s.(lh_len) v.

Definition get {A} (f : lh -> A) : M A := fun s => Some (f s, s).
Definition modify (f : lh -> lh) : M unit := fun s => Some (tt, f s).

(** A computation of the socket library. *)
Definition lift {A} (m : io O A) : M A := fun s =>
  match m s.(lh_os) with Some (a, o) => Some (a, set_os o s) | None => None end.

Definition call (c : syscall) : M sysret := lift (sys os c).

(** [recv(socket, &rx_buf[off], n, flags)] *)
Definition recv_at (off n flags : Z) : M sysret :=
  sock ← get lh_socket;
  r ← call (SysRecv sock n flags);
  buf ← get lh_rx_buf;
  match write_at buf off r.(r_data) with
  | Some buf => _ ← modify (set_rx_buf buf); mret r
  | None => no_fuel
  end.

Definition alarm (condition : Z) : M unit :=
  modify (fun s => set_feed (cb.(cb_alarm) condition s.(lh_feed)).2 s).

Definition count (c : counter) (n : Z) : M unit :=
  modify (fun s => set_feed (count_stat c n s.(lh_feed)) s).

(** [lh_callbacks->parse(rx_buf, len, rx_char, conn, line, &dir_edge_seq_num)] *)
Definition parse (len rx_char : Z) : M unit := fun s =>
  match cb.(cb_parse) s.(lh_rx_buf) len rx_char s.(lh_seq_num) s.(lh_feed) with
  | Some (_, seq, feed) => Some (tt, set_feed feed (set_conn s.(lh_socket) s.(lh_session) seq s))
  | None => None
  end.

Definition flush : M unit :=
  modify (fun s =>
    match hook_msg_flush with
    | Some f => set_feed (set_world (f s.(lh_feed).(fs_world)) s.(lh_feed)) s
    | None => s
    end).

Definition connect : M Z :=
  s ← get id;
  '(rc, sock, session, seq) ←
    lift (cb.(cb_connect) s.(lh_socket) s.(lh_session) s.(lh_seq_num));
  _ ← modify (set_conn sock session seq); mret rc.

(** ** Helpers of the loop *)

Definition process_end_of_session : M unit :=
  sock ← get lh_socket;
  _ ← call (SysRecv sock 2 0);
  _ ← alarm FH_ALERT_SESSION_TERMINATED;
  _ ← call (SysClose sock);
  modify (set_conn sock (replicate 10 32) 1).

(** [while (connect(...) != FH_OK) sleep(3)] *)
Fixpoint connect_loop (fuel : nat) : M unit :=
  rc ← connect;
  if rc =? FH_OK then mret tt
  else
    match fuel with
    | 0%nat => no_fuel
    | S fuel => _ ← call (SysSleep 3000000); connect_loop fuel
    end.

(** The second result is [*new_connection]. *)
Definition send_hb_msg (fuel : nat) : M (Z * bool) :=
  sock ← get lh_socket;
  r ← call (SysSend sock [82; 10] MSG_DONTWAIT);
  if negb (r.(r_val) =? 2) && ((r.(r_errno) =? ECONNRESET) || (r.(r_errno) =? EPIPE)) then
    _ ← call (SysClose sock);
    _ ← modify (fun s => set_conn 0 s.(lh_session) s.(lh_seq_num) s);
    _ ← connect_loop fuel;
    mret (FH_OK, true)
  else mret (FH_OK, false).

(** The scan of the bytes peeked for a line feed; the length is read again
    from the [recv] that was to take the message out.  [Some n] is the value
    the function returns. *)
Fixpoint debug_scan (n : nat) (i len : Z) : M (option Z) :=
  match n with
  | 0%nat => mret None
  | S n =>
      if i <? len then
        buf ← get lh_rx_buf;
        if default 0 (byte_at buf i) =? 10 then
          r ← recv_at 0 (i + 1) 0;
          let len := r.(r_val) in
          if len =? i + 1 then mret (Some (i + 1))
          else if len =? 0 then mret (Some 0)
          else debug_scan n (i + 1) len
        else debug_scan n (i + 1) len
      else mret None
  end.

Fixpoint get_and_send_debug_msg (fuel : nat) (to_get : Z) : M Z :=
  match fuel with
  | 0%nat => no_fuel
  | S fuel =>
      r ← recv_at 0 to_get (Z.lor MSG_PEEK MSG_DONTWAIT);
      let len := r.(r_val) in
      if len =? -1 then get_and_send_debug_msg fuel to_get
      else if len =? 0 then mret 0
      else
        ret ← debug_scan (Z.to_nat rx_buf_size) 0 len;
        match ret with
        | Some ret => mret ret
        | None => get_and_send_debug_msg fuel (to_get + 51)
        end
  end.

(** The rest of an attributed quote, at [rx_buf + off].  After an error
    [rx_len] is -1, and the size asked for is that of [rx_len - more] as a
    [size_t]. *)
Fixpoint get_rest_of_attributed_data (fuel : nat) (off rx_len more : Z) : M Z :=
  match fuel with
  | 0%nat => no_fuel
  | S fuel =>
      r ← recv_at (off + more) (u64 (rx_len - more)) 0;
      let rx_len := r.(r_val) in
      if rx_len =? -1 then
        _ ← call (SysSleep 100); get_rest_of_attributed_data fuel off rx_len more
      else if rx_len =? 0 then mret 0
      else if rx_len =? rx_len - more then mret 4
      else get_rest_of_attributed_data fuel off rx_len rx_len
  end.

(** The index of the first line feed, or the length. *)
Fixpoint find_lf (l : list Z) : Z :=
  match l with [] => 0 | c :: l => if c =? 10 then 0 else 1 + find_lf l end.

(** It reads into a buffer of its own; its status is only logged. *)
Definition find_next_message : M unit :=
  sock ← get lh_socket;
  _ ← call (SysSleep 10000);
  r ← call (SysRecv sock 51 (Z.lor MSG_PEEK MSG_DONTWAIT));
  if (0 <? r.(r_val)) && (r.(r_val) <=? 51) then
    _ ← call (SysRecv sock (find_lf r.(r_data) + 1) 0); mret tt
  else mret tt.

(** [while ((rc = connect(...) != FH_OK) && !finished)] *)
Fixpoint reconnect_loop (fuel : nat) : M unit :=
  rc ← connect;
  fin ← get (fun s => finished s.(lh_os));
  if (rc =? FH_OK) || fin then mret tt
  else
    match fuel with
    | 0%nat => no_fuel
    | S fuel => _ ← call (SysSleep 3000000); reconnect_loop fuel
    end.

Definition dir_edge_reconnect (fuel : nat) : M unit :=
  first ← get lh_first_time;
  _ ← (if (first : bool) then alarm FH_ALERT_TCP_CONNECTION_BROKEN else mret tt);
  sock ← get lh_socket;
  _ ← call (SysClose sock);
  _ ← modify (fun s => set_conn 0 s.(lh_session) s.(lh_seq_num) s);
  _ ← reconnect_loop fuel;
  fin ← get (fun s => finished s.(lh_os));
  _ ← (if negb fin then alarm FH_ALERT_TCP_CONNECTION_ESTABLISHED else mret tt);
  modify (fun s => set_connections (s32 (s.(lh_connections) + 1)) (set_hb s.(lh_hb_count) HB_ALARM_TIMEOUT s)).

(** ** The loop *)

(** The length of a message by its type. *)
Definition edge_len_to_rec (rx_char : Z) : option Z :=
  if rx_char =? 83 then Some SYSTEM_EVENT_MSG_SIZE
  else if rx_char =? 65 then Some ADD_ORDER_MSG_SIZE
  else if rx_char =? 69 then Some ORDER_EXECUTED_MSG_SIZE
  else if rx_char =? 88 then Some ORDER_CANCELED_MSG_SIZE
  else if rx_char =? 80 then Some TRADE_MSG_SIZE
  else if rx_char =? 66 then Some BROKEN_TRADE_MSG_SIZE
  else if rx_char =? 72 then Some SECURITY_STATUS_MSG_SIZE
  else None.

Definition rx_at (i : Z) : M Z := get (fun s => default 0 (byte_at s.(lh_rx_buf) i)).

(** [still_more = 0; offset = 0; stats->message_errors++] after a reconnect;
    [rdfds] is always the socket alone. *)
Definition reconnect_and_reset (fuel : nat) : M unit :=
  _ ← dir_edge_reconnect fuel;
  _ ← modify (set_more 0 0);
  count MessageErrors 1.

(** A message of [len_to_rec] bytes whose header was peeked.  The result says
    whether the inner loop goes on. *)
Definition lh_receive (fuel : nat) (rx_char len_to_rec : Z) : M bool :=
  part_rx ← get lh_part_rx;
  r ← recv_at part_rx (len_to_rec - part_rx) 0;
  let reclen := r.(r_val) in
  if reclen =? len_to_rec - part_rx then
    add_order ← get lh_add_order;
    ok ←
      (if (add_order : bool) then
         c ← rx_at (len_to_rec - 2);
         ok ← (if c =? 65 then
                 len ← get_rest_of_attributed_data fuel len_to_rec 4 0;
                 _ ← modify (set_len len); mret (negb (len =? 0))
               else mret true);
         if (ok : bool) then _ ← modify (set_add_order false); mret true else mret false
       else mret true);
    if negb (ok : bool) then mret false
    else
      len ← get lh_len;
      _ ← parse (len_to_rec + len) rx_char;
      _ ← modify (set_len 0);
      _ ← flush;
      _ ← count Messages 1;
      _ ← count Bytes len_to_rec;
      _ ← modify (set_part_rx 0);
      mret true
  else if reclen =? 0 then
    if (r.(r_errno) =? ECONNRESET) || (r.(r_errno) =? EPIPE) then
      _ ← reconnect_and_reset fuel;
      _ ← modify (set_part_rx 0);
      mret false
    else mret false
  else if (0 <? reclen) && (reclen <? len_to_rec - part_rx) then
    _ ← modify (set_more (reclen + part_rx) (len_to_rec - reclen - part_rx));
    mret false
  else
    _ ← modify (set_tv 1000000);
    _ ← modify (set_part_rx 0);
    mret false.

(** Fewer than ten bytes: end of session, heart beat, or part of a header,
    which is read to the start of [rx_buf]. *)
Definition lh_short (fuel : nat) (reclen : Z) : M bool :=
  let idle := _ ← call (SysSleep 5000); _ ← modify (set_tv 1000000); mret false in
  if 2 <=? reclen then
    c0 ← rx_at 0;
    c1 ← rx_at 1;
    if (c0 =? 83) && (c1 =? 10) then _ ← process_end_of_session; idle
    else if (c0 =? 72) && (c1 =? 10) then
      r ← recv_at 0 2 0;
      _ ← (if negb (r.(r_val) =? 2) then mret tt
           else modify (fun s => set_hb (u64 (s.(lh_hb_count) + 1)) HB_ALARM_TIMEOUT s));
      idle
    else
      r ← recv_at 0 reclen 0;
      let rx_count := r.(r_val) in
      _ ← (if rx_count =? reclen then modify (set_part_rx rx_count)
           else if rx_count =? -1 then modify (set_tv 1000000)
           else if rx_count =? 0 then dir_edge_reconnect fuel
           else modify (fun s => set_part_rx (s.(lh_part_rx) + rx_count) s));
      mret false
  else idle.

(** One pass of the inner [while (1)]. *)
Definition lh_message (fuel : nat) : M bool :=
  part_rx ← get lh_part_rx;
  r ← recv_at part_rx (10 - part_rx) (Z.lor MSG_PEEK MSG_DONTWAIT);
  let reclen := r.(r_val) in
  if reclen =? -1 then
    if negb (r.(r_errno) =? EAGAIN) then mret false
    else _ ← modify (set_tv 1000000); mret false
  else if reclen =? 0 then _ ← reconnect_and_reset fuel; mret false
  else if reclen + part_rx =? 10 then
    c0 ← rx_at 0;
    if c0 =? 83 (* 'S' *) then
      rx_char ← rx_at 9;
      match edge_len_to_rec rx_char with
      | None => mret false
      | Some len_to_rec =>
          _ ← (if rx_char =? 65 then modify (set_add_order true) else mret tt);
          lh_receive fuel rx_char len_to_rec
      end
    else if c0 =? 43 (* '+' *) then
      len ← get_and_send_debug_msg fuel 51;
      mret (negb (len =? 0))
    else _ ← find_next_message; mret false
  else lh_short fuel reclen.

Fixpoint lh_messages (fuel : nat) : M unit :=
  match fuel with
  | 0%nat => no_fuel
  | S n => more ← lh_message n; if (more : bool) then lh_messages n else mret tt
  end.

(** The rest of a message that came in parts: the type given to the parser is
    the NUL [rx_char] was initialised to.  The result says whether the inner
    loop is entered. *)
Definition lh_rest (fuel : nat) : M bool :=
  offset ← get lh_offset;
  still_more ← get lh_still_more;
  r ← recv_at offset still_more 0;
  let reclen := r.(r_val) in
  if reclen =? still_more then
    _ ← parse (offset + still_more) 0;
    _ ← flush;
    _ ← count Messages 1;
    _ ← count Bytes (offset + still_more);
    _ ← modify (set_more 0 0);
    mret true
  else if reclen =? -1 then
    if r.(r_errno) =? EAGAIN then mret false
    else if r.(r_errno) =? ECONNRESET then _ ← reconnect_and_reset fuel; mret true
    else mret true
  else if (0 <? reclen) && (reclen <? still_more) then
    _ ← modify (set_more (offset + reclen) (still_more - reclen)); mret true
  else if reclen =? 0 then _ ← reconnect_and_reset fuel; mret false
  else mret true.

(** One pass of the outer loop. *)
Definition lh_iteration (fuel : nat) : M unit :=
  sock ← get lh_socket;
  tv ← get lh_tv;
  r ← call (SysSelect sock false (Some tv));
  _ ← modify (set_tv (default 0 (r.(r_data) !! 0%nat)));
  let retval := r.(r_val) in
  if (retval =? -1) && negb (r.(r_errno) =? EINTR) then
    _ ← modify (set_tv 1000000);
    if r.(r_errno) =? EBADF then dir_edge_reconnect fuel else mret tt
  else if retval =? 0 then
    _ ← modify (set_tv 1000000);
    _ ← modify (fun s => set_hb s.(lh_hb_count) (s32 (s.(lh_monitor) - 1)) s);
    monitor ← get lh_monitor;
    _ ← (if monitor =? 0 then
           _ ← alarm FH_ALERT_SERVER_HB_MISSING;
           modify (fun s => set_hb s.(lh_hb_count) HB_ALARM_TIMEOUT s)
         else mret tt);
    _ ← send_hb_msg fuel;
    mret tt
  else
    _ ← modify (fun s => set_hb s.(lh_hb_count) HB_ALARM_TIMEOUT s);
    still_more ← get lh_still_more;
    go ← (if 0 <? still_more then lh_rest fuel else mret true);
    if (go : bool) then lh_messages fuel else mret tt.

Fixpoint lh_loop (fuel : nat) : M unit :=
  fin ← get (fun s => finished s.(lh_os));
  if (fin : bool) then mret tt
  else match fuel with 0%nat => no_fuel | S n => _ ← lh_iteration n; lh_loop n end.

(** The thread, from the first connection. *)
Definition fh_shr_tcp_lh_run (fuel : nat) : M unit :=
  _ ← dir_edge_reconnect fuel;
  _ ← modify (set_tv 1000000);
  lh_loop fuel.

End lh.
