(* ===== verification/TcpLhProps.v ===== *)
(** * The TCP line handler: theorems

    Against a socket whose input is there to be read ([Stream]) and a parser
    that keeps an invariant ([ParserSpec]): a stream of whole messages is cut
    at the right places and every message reaches the parser. *)
From S2P Require Import Prelude Bytes Mpool GapFill HTable Lookup Conn Feed Sock SockProps EdgeParse TcpLh.

(** [input o]: the bytes received on [fd] and not read. *)
Class Stream {O} (os : syscall -> O -> sysret * O) (fd : Z) (input : O -> list Z) := {
  stream_recv o n flags : 0 < n -> input o <> [] ->
    exists e o', os (SysRecv fd n flags) o =
        (MkRet (Z.of_nat (length (take (Z.to_nat n) (input o)))) e (take (Z.to_nat n) (input o)), o') /\
      input o' = if peeks flags then input o else drop (Z.to_nat n) (input o);
  stream_empty o n flags : 0 < n -> input o = [] ->
    exists o', os (SysRecv fd n flags) o = (MkRet (-1) EAGAIN [], o') /\ input o' = [];
  stream_select o tv :
    exists e d o', os (SysSelect fd false tv) o =
        (MkRet (if decide (input o = []) then 0 else 1) e d, o') /\ input o' = input o
}.

(** What the line handler takes for a message: an 'S', nine characters the
    last of which is the type, and the length of the type, four more for an
    attributed quote. *)
Definition lh_type (w : list Z) : Z := nth 9 w 0.

Definition lh_frame (w : list Z) : Prop :=
  nth 0 w 0 = 83 /\ exists n, edge_len_to_rec (lh_type w) = Some n /\
    if (lh_type w =? 65) && (nth 45 w 0 =? 65) then Z.of_nat (length w) = n + 4
    else Z.of_nat (length w) = n.

(** What a parser promises the line handler: messages are framed, and it
    accepts them and keeps an invariant over an abstract state, in which
    neither the statistics of the line handler nor the state of the plugins
    have part. *)
Class ParserSpec {O W} (cb : tcp_cb O W) (Msg A : Type) := {
  ps_ok : Msg -> Prop;
  ps_wire : Msg -> list Z;
  ps_step : Msg -> A -> A;
  ps_inv : A -> Z -> feed_state W -> Prop;
  ps_frame m : ps_ok m -> lh_frame (ps_wire m);
  ps_parse m rest a seq feed : ps_ok m -> ps_inv a seq feed ->
    exists rc seq' feed', cb.(cb_parse) (ps_wire m ++ rest) (Z.of_nat (length (ps_wire m)))
        (lh_type (ps_wire m)) seq feed = Some (rc, seq', feed') /\
      ps_inv (ps_step m a) seq' feed' /\ feed'.(fs_stats) = feed.(fs_stats);
  ps_count a seq feed c n : ps_inv a seq feed -> ps_inv a seq (count_stat c n feed);
  ps_world a seq feed w : ps_inv a seq feed -> ps_inv a seq (set_world w feed)
}.

(** ** The receive buffer *)

Lemma write_at_here buf data : (length data <= length buf)%nat ->
  write_at buf 0 data = Some (data ++ drop (length data) buf).
Proof.
  intros H. unfold write_at. change (0 <? 0) with false. cbn [orb].
  destruct (_ <? _) eqn:E; bool_to_prop; [lia|]. done.
Qed.

Lemma write_at_after a b data : (length data <= length b)%nat ->
  write_at (a ++ b) (Z.of_nat (length a)) data = Some (a ++ data ++ drop (length data) b).
Proof.
  intros H. unfold write_at. rewrite length_app.
  destruct (Z.of_nat (length a) <? 0) eqn:E0; bool_to_prop; [lia|]. cbn [orb].
  destruct (_ <? _) eqn:E; bool_to_prop; [lia|]. rewrite Nat2Z.id, take_app_length.
  by rewrite <- drop_drop, drop_app_length.
Qed.

Lemma byte_at_nth (w rest : list Z) i : (i < length w)%nat ->
  default 0 (byte_at (w ++ rest) (Z.of_nat i)) = nth i w 0.
Proof.
  intros Hi. unfold byte_at. destruct (Z.of_nat i <? 0) eqn:E; bool_to_prop; [lia|].
  rewrite Nat2Z.id, lookup_app_l by done.
  destruct (lookup_lt_is_Some_2 w i Hi) as [x Hx]. rewrite Hx. cbn. symmetry. by apply nth_lookup_Some.
Qed.

Lemma split_at_47 (w : list Z) : length w = 51%nat ->
  exists w1 w2, w = w1 ++ w2 /\ length w1 = 47%nat /\ length w2 = 4%nat.
Proof.
  intros H. exists (take 47 w), (drop 47 w). rewrite take_drop, length_take, length_drop. split; [done|]. lia.
Qed.

Section stream.
Context {O W Msg A : Type} {os : syscall -> O -> sysret * O} {fd : Z} {input : O -> list Z}
  {stream : Stream os fd input}.
Context {cb : tcp_cb O W} {spec : ParserSpec cb Msg A}.
Context (finished : O -> bool) (flush_hook : option (W -> W)).
Notation lh := (lh O W).

Lemma recv_at_ready off n flags (s : lh) : s.(lh_socket) = fd -> 0 < n -> input s.(lh_os) <> [] ->
  exists e o', (forall buf, write_at s.(lh_rx_buf) off (take (Z.to_nat n) (input s.(lh_os))) = Some buf ->
    recv_at os off n flags s =
      Some (MkRet (Z.of_nat (length (take (Z.to_nat n) (input s.(lh_os))))) e
              (take (Z.to_nat n) (input s.(lh_os))), set_rx_buf buf (set_os o' s))) /\
    input o' = if peeks flags then input s.(lh_os) else drop (Z.to_nat n) (input s.(lh_os)).
Proof using stream.
  intros Hs Hn Hi. destruct (stream_recv s.(lh_os) n flags Hn Hi) as (e & o' & E & Ho).
  exists e, o'. split; [|done]. intros buf Hb.
  unfold recv_at, mbind, io_bind, get, call, lift, sys, modify. rewrite Hs, E.
  cbn [lh_rx_buf set_os r_data]. by rewrite Hb.
Qed.

(** One step of a computation. *)
Lemma bind_some {S X Y} (m : io S X) (k : X -> io S Y) s x s' :
  m s = Some (x, s') -> (m ≫= k) s = k x s'.
Proof. intros E. unfold mbind, io_bind. by rewrite E. Qed.
Lemma bind_get {X Y} (f : lh -> X) (k : X -> io lh Y) s : (get f ≫= k) s = k (f s) s.
Proof. done. Qed.
Lemma bind_modify {Y} f (k : unit -> io lh Y) s : (modify f ≫= k) s = k tt (f s).
Proof. done. Qed.
Lemma bind_ret {S X Y} (x : X) (k : X -> io S Y) s : (mret x ≫= k) s = k x s.
Proof. done. Qed.

(** [w] is the message [m] on the wire. *)
Definition wire_ok (m : Msg) (w : list Z) : Prop :=
  ps_ok (ParserSpec:=spec) m /\ ps_wire (ParserSpec:=spec) m = w.

(** Between messages. *)
Definition lh_clean (s : lh) : Prop :=
  s.(lh_socket) = fd /\ s.(lh_part_rx) = 0 /\ s.(lh_add_order) = false /\ s.(lh_len) = 0 /\
  length s.(lh_rx_buf) = Z.to_nat rx_buf_size.

(** The state after the message [m] was read into the buffer, with the rest of
    the input in [o], and was parsed. *)
Definition lh_parsed (m : Msg) (n : Z) (a : A) (s s' : lh) : Prop :=
  lh_clean s' /\ s'.(lh_still_more) = s.(lh_still_more) /\
  ps_inv (ParserSpec:=spec) (ps_step (ParserSpec:=spec) m a) s'.(lh_seq_num) s'.(lh_feed) /\
  s'.(lh_feed).(fs_stats) = stat_add Bytes n (stat_add Messages 1 s.(lh_feed).(fs_stats)).

(** The end of [lh_receive]. *)
Lemma lh_parse_end m w n rest_buf a (s : lh) len seq0 feed0 :
  wire_ok m w -> s.(lh_rx_buf) = w ++ rest_buf -> s.(lh_seq_num) = seq0 ->
  s.(lh_feed) = feed0 -> ps_inv (ParserSpec:=spec) a seq0 feed0 -> len = Z.of_nat (length w) ->
  exists feed seq,
    (_ ← parse cb len (lh_type w);
     _ ← modify (set_len 0);
     _ ← flush flush_hook;
     _ ← count Messages 1;
     _ ← count Bytes n;
     _ ← modify (set_part_rx 0);
     mret true) s =
    Some (true, set_part_rx 0 (set_feed feed (set_len 0 (set_conn s.(lh_socket) s.(lh_session) seq s)))) /\
    ps_inv (ParserSpec:=spec) (ps_step (ParserSpec:=spec) m a) seq feed /\
    feed.(fs_stats) = stat_add Bytes n (stat_add Messages 1 feed0.(fs_stats)).
Proof.
  intros [Hok <-] Hbuf <- <- Hi ->.
  destruct (ps_parse m rest_buf a _ _ Hok Hi) as (rc & seq & feed & E & Hi' & Hst).
  unfold parse at 1. unfold mbind at 1, io_bind at 1. rewrite Hbuf, E.
  destruct flush_hook as [f|].
  - eexists _, seq. split; [reflexivity|]. split.
    + apply ps_count, ps_count, ps_world, Hi'.
    + cbn. by rewrite Hst.
  - eexists _, seq. split; [reflexivity|]. split.
    + apply ps_count, ps_count, Hi'.
    + cbn. by rewrite Hst.
Qed.

Lemma edge_len_to_rec_range c n : edge_len_to_rec c = Some n -> 12 <= n <= 67 /\ (c = 65 -> n = 47).
Proof.
  unfold edge_len_to_rec, SYSTEM_EVENT_MSG_SIZE, ADD_ORDER_MSG_SIZE, ORDER_EXECUTED_MSG_SIZE,
    ORDER_CANCELED_MSG_SIZE, TRADE_MSG_SIZE, BROKEN_TRADE_MSG_SIZE, SECURITY_STATUS_MSG_SIZE.
  repeat match goal with |- context [if c =? ?x then _ else _] =>
    destruct (Z.eqb_spec c x); [intros [= <-]; lia|] end. done.
Qed.

(** Reading a message, and the rest of it, in one piece. *)
Lemma recv_whole n (w rest : list Z) flags (s : lh) :
  s.(lh_socket) = fd -> input s.(lh_os) = w ++ rest -> (0 < length w <= length s.(lh_rx_buf))%nat ->
  n = Z.of_nat (length w) -> peeks flags = false ->
  exists e o', recv_at os 0 n flags s =
      Some (MkRet n e w, set_rx_buf (w ++ drop (length w) s.(lh_rx_buf)) (set_os o' s)) /\
    input o' = rest.
Proof using stream.
  intros Hs Hi Hl -> Hp.
  destruct (recv_at_ready 0 (Z.of_nat (length w)) flags s Hs) as (e & o' & Hr & Ho); [lia | |].
  { rewrite Hi. destruct w; [cbn in *; lia | done]. }
  rewrite Hi, Nat2Z.id, take_app_length in Hr. rewrite Hi, Hp, Nat2Z.id, drop_app_length in Ho.
  exists e, o'. split; [|done]. apply Hr. apply write_at_here. lia.
Qed.

Lemma recv_rest off (a b w rest : list Z) flags (s : lh) :
  s.(lh_socket) = fd -> input s.(lh_os) = w ++ rest -> (0 < length w <= length b)%nat ->
  s.(lh_rx_buf) = a ++ b -> off = Z.of_nat (length a) -> peeks flags = false ->
  exists e o', recv_at os off (Z.of_nat (length w)) flags s =
      Some (MkRet (Z.of_nat (length w)) e w, set_rx_buf (a ++ w ++ drop (length w) b) (set_os o' s)) /\
    input o' = rest.
Proof using stream.
  intros Hs Hi Hl Hb -> Hp.
  destruct (recv_at_ready (Z.of_nat (length a)) (Z.of_nat (length w)) flags s Hs) as (e & o' & Hr & Ho); [lia | |].
  { rewrite Hi. destruct w; [cbn in *; lia | done]. }
  rewrite Hi, Nat2Z.id, take_app_length in Hr. rewrite Hi, Hp, Nat2Z.id, drop_app_length in Ho.
  exists e, o'. split; [|done]. apply Hr. rewrite Hb. apply write_at_after. lia.
Qed.

(** A message whose header was peeked at. *)
Lemma lh_receive_plain fuel m w n rest a (s : lh) :
  wire_ok m w -> edge_len_to_rec (lh_type w) = Some n -> Z.of_nat (length w) = n ->
  (s.(lh_add_order) = true -> n = 47 /\ nth 45 w 0 <> 65) ->
  s.(lh_socket) = fd -> s.(lh_part_rx) = 0 -> s.(lh_len) = 0 ->
  length s.(lh_rx_buf) = Z.to_nat rx_buf_size -> input s.(lh_os) = w ++ rest ->
  ps_inv (ParserSpec:=spec) a s.(lh_seq_num) s.(lh_feed) ->
  exists s', lh_receive os cb finished flush_hook fuel (lh_type w) n s = Some (true, s') /\
    lh_parsed m n a s s' /\ input s'.(lh_os) = rest.
Proof using stream.
  intros Hok Hn Hl Hadd Hfd Hpart Hlen Hbuf Hin Hinv.
  destruct (edge_len_to_rec_range _ _ Hn) as [Hr _]. unfold rx_buf_size in Hbuf.
  unfold lh_receive. rewrite bind_get, Hpart, Z.sub_0_r.
  destruct (recv_whole n w rest 0 s Hfd Hin ltac:(lia) ltac:(lia) eq_refl) as (e & o' & E & Ho).
  rewrite (bind_some _ _ _ _ _ E). cbn [r_val]. rewrite Z.eqb_refl, bind_get.
  set (s1 := set_rx_buf _ _).
  assert (Hok2 : forall b : bool, b = lh_add_order s1 ->
    exists s2, (if b then
        c ← rx_at (n - 2);
        ok ← (if c =? 65 then len ← get_rest_of_attributed_data os fuel n 4 0;
                 _ ← modify (set_len len); mret (negb (len =? 0)) else mret true);
        if (ok : bool) then _ ← modify (set_add_order false); mret true else mret false
      else mret true) s1 = Some (true, s2) /\ s2 = set_add_order false s1).
  { intros [|] Hb.
    - destruct (Hadd (eq_sym Hb)) as [E47 H45]. subst n. rewrite E47. unfold rx_at. rewrite bind_get.
      change (47 - 2) with (Z.of_nat 45). cbn [lh_rx_buf s1 set_rx_buf].
      rewrite byte_at_nth, eqb_false_of_ne by (done || lia). by eexists.
    - exists s1. split; [done|]. unfold s1 in *. destruct s; cbn in *. by subst. }
  destruct (Hok2 _ eq_refl) as (s2 & E2 & ->). rewrite (bind_some _ _ _ _ _ E2). cbn [negb].
  rewrite bind_get. cbn [lh_len set_add_order s1 set_rx_buf set_os]. rewrite Hlen, Z.add_0_r.
  destruct (lh_parse_end m w n (drop (length w) s.(lh_rx_buf)) a (set_add_order false s1) n _ _ Hok
    eq_refl eq_refl eq_refl Hinv (eq_sym Hl)) as (feed & seq & E3 & Hi' & Hst).
  rewrite E3. eexists. split; [reflexivity|]. split; [|exact Ho].
  split; [|split; [reflexivity | by split]].
  repeat split; try done. cbn. rewrite length_app, length_drop. unfold rx_buf_size. lia.
Qed.

Lemma lh_receive_attributed fuel m w rest a (s : lh) :
  wire_ok m w -> lh_type w = 65 -> length w = 51%nat -> nth 45 w 0 = 65 ->
  s.(lh_add_order) = true -> s.(lh_socket) = fd -> s.(lh_part_rx) = 0 ->
  length s.(lh_rx_buf) = Z.to_nat rx_buf_size -> input s.(lh_os) = w ++ rest ->
  ps_inv (ParserSpec:=spec) a s.(lh_seq_num) s.(lh_feed) -> (0 < fuel)%nat ->
  exists s', lh_receive os cb finished flush_hook fuel (lh_type w) 47 s = Some (true, s') /\
    lh_parsed m 47 a s s' /\ input s'.(lh_os) = rest.
Proof using stream.
  intros Hok Hty Hl H45 Hadd Hfd Hpart Hbuf Hin Hinv Hf. unfold rx_buf_size in Hbuf.
  destruct (split_at_47 w Hl) as (w1 & w2 & -> & Hw1 & Hw2).
  unfold lh_receive. rewrite bind_get, Hpart, Z.sub_0_r.
  rewrite <- app_assoc in Hin.
  destruct (recv_whole 47 w1 (w2 ++ rest) 0 s Hfd Hin ltac:(lia) ltac:(lia) eq_refl) as (e & o' & E & Ho).
  rewrite (bind_some _ _ _ _ _ E). cbn [r_val]. change (47 =? 47) with true. cbn iota. rewrite bind_get.
  set (s1 := set_rx_buf _ _). change (lh_add_order s1) with s.(lh_add_order). rewrite Hadd.
  destruct fuel as [|fuel]; [lia|].
  destruct (recv_rest (47 + 0) w1 (drop (length w1) s.(lh_rx_buf)) w2 rest 0 s1 Hfd Ho) as (e2 & o2 & E2 & Ho2);
    [rewrite length_drop; lia | done | lia | done |].
  assert (Eok : (c ← rx_at (47 - 2);
        ok ← (if c =? 65 then len ← get_rest_of_attributed_data os (S fuel) 47 4 0;
                 _ ← modify (set_len len); mret (negb (len =? 0)) else mret true);
        if (ok : bool) then _ ← modify (set_add_order false); mret true else mret false) s1 =
    Some (true, set_add_order false (set_len 4
      (set_rx_buf (w1 ++ w2 ++ drop (length w2) (drop (length w1) s.(lh_rx_buf))) (set_os o2 s1))))).
  { unfold rx_at. rewrite bind_get. change (47 - 2) with (Z.of_nat 45). cbn [lh_rx_buf s1 set_rx_buf].
    rewrite byte_at_nth by lia. rewrite app_nth1 in H45 by lia. rewrite H45. change (65 =? 65) with true.
    cbn iota. cbn [get_rest_of_attributed_data].
    change (u64 (4 - 0)) with (Z.of_nat 4). rewrite <- Hw2 at 1. unfold mbind, io_bind. rewrite E2.
    cbn [r_val]. rewrite Hw2. reflexivity. }
  rewrite (bind_some _ _ _ _ _ Eok). cbn [negb]. rewrite bind_get.
  match goal with |- context [set_add_order false ?t] => set (s2 := set_add_order false t) end.
  change (lh_len s2) with 4.
  destruct (lh_parse_end m (w1 ++ w2) 47 (drop (length w2) (drop (length w1) s.(lh_rx_buf))) a s2 (47 + 4)
    s.(lh_seq_num) s.(lh_feed) Hok)
    as (feed & seq & E3 & Hi' & Hst); [cbn; by rewrite app_assoc | done | done | exact Hinv | lia |].
  rewrite E3. eexists. split; [reflexivity|]. split; [|exact Ho2].
  split; [|split; [reflexivity | by split]].
  repeat split; try done. cbn. rewrite !length_app, !length_drop. unfold rx_buf_size. lia.
Qed.

(** ** One message, and the messages *)

Lemma lh_frame_length w : lh_frame w -> (12 <= length w <= 67)%nat.
Proof.
  intros (_ & n & Hn & Hl). destruct (edge_len_to_rec_range _ _ Hn) as [Hr Ha].
  destruct ((lh_type w =? 65) && (nth 45 w 0 =? 65)) eqn:E; bool_to_prop; [rewrite Ha in Hl by easy|]; lia.
Qed.

(** The length the line handler counts for a message. *)
Definition lh_bytes (w : list Z) : Z := default 0 (edge_len_to_rec (lh_type w)).

Lemma lh_message_frame fuel m w rest a (s : lh) :
  wire_ok m w -> lh_clean s -> input s.(lh_os) = w ++ rest ->
  ps_inv (ParserSpec:=spec) a s.(lh_seq_num) s.(lh_feed) -> (0 < fuel)%nat ->
  exists s', lh_message os cb finished flush_hook fuel s = Some (true, s') /\
    lh_parsed m (lh_bytes w) a s s' /\ input s'.(lh_os) = rest.
Proof using stream.
  intros Hok (Hfd & Hpart & Hadd & Hlen & Hbuf) Hin Hinv Hf.
  assert (Hfr : lh_frame w) by (destruct Hok as [H <-]; by apply ps_frame).
  pose proof (lh_frame_length w Hfr) as Hw. destruct Hfr as (H0 & n & Hn & Hl).
  destruct (recv_at_ready 0 10 (Z.lor MSG_PEEK MSG_DONTWAIT) s Hfd) as (e & o' & Hr & Ho); [lia | |].
  { rewrite Hin. destruct w; [cbn in *; lia | done]. }
  change (Z.to_nat 10) with 10%nat in *. change (peeks _) with true in Ho. cbn iota in Ho.
  rewrite Hin, take_app_le in Hr by lia. unfold rx_buf_size in Hbuf.
  rewrite length_take_le in Hr by lia. change (Z.of_nat 10) with 10 in Hr.
  specialize (Hr _ (write_at_here s.(lh_rx_buf) (take 10 w) ltac:(rewrite length_take; lia))).
  unfold lh_message. rewrite bind_get, Hpart. change (10 - 0) with 10.
  rewrite (bind_some _ _ _ _ _ Hr). cbn [r_val]. change (10 =? -1) with false.
  change (10 =? 0) with false. change (10 + 0 =? 10) with true. cbn iota.
  set (s1 := set_rx_buf _ _).
  assert (Hat : forall i z, z = Z.of_nat i -> (i < 10)%nat -> default 0 (byte_at (lh_rx_buf s1) z) = nth i w 0).
  { intros i z -> Hi. cbn [lh_rx_buf s1 set_rx_buf]. rewrite byte_at_nth by (rewrite length_take; lia).
    rewrite <- (take_drop 10 w) at 2. rewrite app_nth1 by (rewrite length_take; lia). done. }
  unfold rx_at. rewrite bind_get. rewrite (Hat 0%nat 0 eq_refl) by lia. rewrite H0.
  change (83 =? 83) with true. cbn iota. rewrite bind_get. rewrite (Hat 9%nat 9 eq_refl) by lia. fold (lh_type w). rewrite Hn. unfold lh_bytes. rewrite Hn. cbn [default].
  destruct (edge_len_to_rec_range _ _ Hn) as [Hrange H65].
  assert (Hb1 : length s1.(lh_rx_buf) = Z.to_nat rx_buf_size).
  { cbn. rewrite length_app, length_drop, length_take. unfold rx_buf_size. lia. }
  destruct (lh_type w =? 65) eqn:E65; bool_to_prop; cbn [andb] in Hl.
  - rewrite bind_modify. specialize (H65 E65). subst n.
    destruct (nth 45 w 0 =? 65) eqn:E45; bool_to_prop.
    + destruct (lh_receive_attributed fuel m w rest a (set_add_order true s1)) as (s' & E & Hp & Hi');
        try done; [lia | cbn; congruence |]. by exists s'.
    + destruct (lh_receive_plain fuel m w 47 rest a (set_add_order true s1)) as (s' & E & Hp & Hi');
        try done; [cbn; congruence |]. by exists s'.
  - rewrite bind_ret.
    destruct (lh_receive_plain fuel m w n rest a s1) as (s' & E & Hp & Hi'); try done.
    + cbn. rewrite Hadd. done.
    + cbn. congruence.
    + by exists s'.
Qed.

Lemma lh_messages_end fuel (s : lh) :
  s.(lh_socket) = fd -> s.(lh_part_rx) = 0 -> input s.(lh_os) = [] -> (0 < fuel)%nat ->
  exists o', lh_messages os cb finished flush_hook fuel s = Some (tt, set_tv 1000000 (set_rx_buf s.(lh_rx_buf) (set_os o' s))) /\ input o' = [].
Proof using stream.
  intros Hfd Hpart Hin Hf. destruct fuel as [|fuel]; [lia|].
  destruct (stream_empty s.(lh_os) 10 (Z.lor MSG_PEEK MSG_DONTWAIT)) as (o' & E & Ho); [lia | done |].
  exists o'. split; [|done].
  assert (Hr : recv_at os 0 10 (Z.lor MSG_PEEK MSG_DONTWAIT) s =
    Some (MkRet (-1) EAGAIN [], set_rx_buf s.(lh_rx_buf) (set_os o' s))).
  { unfold recv_at, mbind, io_bind, get, call, lift, sys, modify. rewrite Hfd, E.
    cbn [lh_rx_buf set_os r_data]. rewrite write_at_here by (cbn; lia). done. }
  cbn [lh_messages]. unfold lh_message. unfold mbind at 1, io_bind at 1. rewrite bind_get, Hpart. change (10 - 0) with 10.
  rewrite (bind_some _ _ _ _ _ Hr). reflexivity.
Qed.

(** The messages on the wire, and what they add to the abstract state and to
    the statistics. *)
Definition lh_wire (ms : list Msg) : list Z := concat (map (ps_wire (ParserSpec:=spec)) ms).
Definition lh_steps (ms : list Msg) (a : A) : A :=
  fold_left (fun a m => ps_step (ParserSpec:=spec) m a) ms a.
Definition lh_stats (ms : list Msg) (st : fh_info_stats) : fh_info_stats :=
  fold_left (fun st m => stat_add Bytes (lh_bytes (ps_wire (ParserSpec:=spec) m)) (stat_add Messages 1 st)) ms st.

Lemma lh_messages_frames ms : forall fuel a (s : lh),
  Forall (ps_ok (ParserSpec:=spec)) ms -> lh_clean s ->
  input s.(lh_os) = lh_wire ms -> ps_inv (ParserSpec:=spec) a s.(lh_seq_num) s.(lh_feed) ->
  (S (length ms) < fuel)%nat ->
  exists s', lh_messages os cb finished flush_hook fuel s = Some (tt, s') /\
    lh_clean s' /\ input s'.(lh_os) = [] /\ s'.(lh_still_more) = s.(lh_still_more) /\
    ps_inv (ParserSpec:=spec) (lh_steps ms a) s'.(lh_seq_num) s'.(lh_feed) /\
    s'.(lh_feed).(fs_stats) = lh_stats ms s.(lh_feed).(fs_stats).
Proof using stream.
  induction ms as [|m ms IH]; intros fuel a s Hms Hc Hin Hinv Hf.
  - destruct (lh_messages_end fuel s) as (o' & E & Ho); [apply Hc | apply Hc | done | cbn in Hf; lia |].
    eexists. split; [exact E|]. done.
  - apply Forall_cons in Hms as [Hok Hms]. destruct fuel as [|fuel]; [lia|].
    cbn [length] in Hf. unfold lh_wire in Hin. cbn [map concat] in Hin.
    destruct (lh_message_frame fuel m (ps_wire m) (lh_wire ms) a s (conj Hok eq_refl) Hc Hin Hinv)
      as (s1 & E & (Hc1 & Hsm & Hi1 & Hst) & Hin1); [lia|].
    destruct (IH fuel _ s1 Hms Hc1 Hin1 Hi1) as (s' & E' & Hc' & Hin' & Hsm' & Hi' & Hst'); [lia|].
    exists s'. cbn [lh_messages lh_steps fold_left lh_stats]. rewrite (bind_some _ _ _ _ _ E).
    repeat split; try done; [apply Hc' .. | congruence |]. by rewrite Hst', Hst.
Qed.

(** A pass of the outer loop that finds messages. *)
Lemma lh_iteration_frames ms fuel a (s : lh) :
  Forall (ps_ok (ParserSpec:=spec)) ms -> ms <> [] -> lh_clean s -> s.(lh_still_more) = 0 ->
  input s.(lh_os) = lh_wire ms -> ps_inv (ParserSpec:=spec) a s.(lh_seq_num) s.(lh_feed) ->
  (S (length ms) < fuel)%nat ->
  exists s', lh_iteration os cb finished flush_hook fuel s = Some (tt, s') /\
    lh_clean s' /\ input s'.(lh_os) = [] /\ s'.(lh_still_more) = 0 /\
    ps_inv (ParserSpec:=spec) (lh_steps ms a) s'.(lh_seq_num) s'.(lh_feed) /\
    s'.(lh_feed).(fs_stats) = lh_stats ms s.(lh_feed).(fs_stats).
Proof using stream.
  intros Hms Hne Hc Hsm Hin Hinv Hf.
  assert (Hin0 : input s.(lh_os) <> []).
  { destruct ms as [|m ms]; [done|]. rewrite Hin. apply Forall_cons in Hms as [Hm _].
    pose proof (lh_frame_length _ (ps_frame m Hm)). unfold lh_wire. cbn [map concat].
    destruct (ps_wire m); [cbn in *; lia | done]. }
  destruct (stream_select s.(lh_os) (Some s.(lh_tv))) as (e & d & o' & E & Ho).
  rewrite decide_False in E by done. destruct Hc as (Hfd & Hc).
  unfold lh_iteration. rewrite !bind_get, Hfd.
  assert (Hsel : call os (SysSelect fd false (Some s.(lh_tv))) s = Some (MkRet 1 e d, set_os o' s)).
  { unfold call, lift, sys. by rewrite E. }
  rewrite (bind_some _ _ _ _ _ Hsel), bind_modify. cbn [r_val]. change (1 =? -1) with false.
  change (1 =? 0) with false. cbn [andb]. rewrite bind_modify, bind_get.
  match goal with |- context [lh_still_more ?t] => set (s1 := t) end.
  change (lh_still_more s1) with (lh_still_more s). rewrite Hsm. change (0 <? 0) with false. cbn iota.
  rewrite bind_ret. cbn iota.
  destruct (lh_messages_frames ms fuel a s1 Hms) as (s' & E' & Hr); try done.
  { cbn. by rewrite Ho. }
  exists s'. split; [exact E'|]. rewrite <- Hsm. exact Hr.
Qed.

End stream.
