(* ===== verification/EdgeTheorems.v ===== *)
(** * Direct Edge: theorems

    Messages are delivered as sent, any buffer is parsed safely, and what the
    number fields lose. *)
From S2P Require Import Prelude Bytes Mpool GapFill HTable Lookup Conn Feed FeedProps Decimal EdgeParse EdgeProps.

(** ** Decoding *)

Lemma split_chars n (l : list Z) : (n <= length l)%nat ->
  exists a l', l = a ++ l' /\ length a = n /\ length l' = (length l - n)%nat.
Proof.
  intros H. exists (take n l), (drop n l). rewrite take_drop, length_take, length_drop.
  split; [done|]. split; lia.
Qed.

Lemma split_char (l : list Z) : (1 <= length l)%nat ->
  exists c l', l = c :: l' /\ length l' = (length l - 1)%nat.
Proof. destruct l as [|c l]; cbn; [lia|]. intros _. exists c, l. split; [done | lia]. Qed.

(** Takes the next [n] characters of the list [l] off, [l] being what is left. *)
Ltac take_chars n l a :=
  let l' := fresh l in let Ha := fresh "H" a in
  destruct (split_chars n l) as (a & l' & -> & Ha & ?); [lia|]; clear l; rename l' into l.
Ltac take_char l c :=
  let l' := fresh l in
  destruct (split_char l) as (c & l' & -> & ?); [lia|]; clear l; rename l' into l.

Definition edge_types : list Z := [83; 65; 69; 88; 80; 66; 72].

(** Any characters are a message of any of the seven types. *)
Lemma edge_decode (buf : list Z) ty :
  (67 <= length buf)%nat -> ty ∈ edge_types ->
  exists c ts ty' m rest, buf = edge_encode c ts ty' m ++ rest /\ length ts = 8%nat /\
    edge_ok m /\ edge_type m = ty.
Proof.
  intros Hl Hty. take_char buf c. take_chars 8%nat buf ts. take_char buf ty'.
  exists c, ts, ty'. cut (exists m rest, buf = edge_payload m ++ rest /\ edge_ok m /\ edge_type m = ty).
  { intros (m & rest & -> & Hm & Ht). exists m, rest. unfold edge_encode. cbn [app].
    by rewrite <- app_assoc. }
  unfold edge_types in Hty.
  repeat (apply elem_of_cons in Hty as [->|Hty]); [| | | | | | | by apply elem_of_nil in Hty].
  - take_char buf e. by exists (EwSystemEvent e), buf.
  - take_chars 12%nat buf r. take_char buf sd. take_chars 6%nat buf q. take_chars 6%nat buf s.
    take_chars 10%nat buf p. take_char buf d.
    destruct (decide (d = 65)) as [->|Hd].
    + take_chars 4%nat buf mm. exists (EwAddOrder r sd q s p 65 (Some mm)), buf.
      cbn [edge_payload edge_ok default]. split; [by repeat (rewrite <- app_assoc; cbn [app])|]. by repeat split.
    + exists (EwAddOrder r sd q s p d None), buf.
      cbn [edge_payload edge_ok default]. split; [by repeat (rewrite <- app_assoc; cbn [app])|]. by repeat split.
  - take_chars 12%nat buf r. take_chars 6%nat buf n. take_chars 21%nat buf mn.
    exists (EwOrderExecuted r n mn), buf. cbn [edge_payload]. split; [by rewrite <- !app_assoc|]. by repeat split.
  - take_chars 12%nat buf r. take_chars 6%nat buf n.
    exists (EwOrderCanceled r n), buf. cbn [edge_payload]. split; [by rewrite <- !app_assoc|]. by repeat split.
  - take_chars 12%nat buf r. take_char buf sd. take_chars 6%nat buf n. take_chars 6%nat buf s.
    take_chars 10%nat buf p. take_chars 21%nat buf mn. exists (EwTrade r sd n s p mn), buf.
    cbn [edge_payload edge_ok]. split; [by repeat (rewrite <- app_assoc; cbn [app])|]. by repeat split.
  - take_chars 21%nat buf mn. by exists (EwBrokenTrade mn), buf.
  - take_chars 6%nat buf s. take_char buf h. exists (EwSecurityStatus s h), buf.
    cbn [edge_payload]. split; [by rewrite <- app_assoc|]. by repeat split.
Qed.

Section edge.
Context {W : Type} (cfg : feed_config) (hooks : edge_hooks W).
Notation st_t := (feed_state W).
Notation book_inv := (book_inv (K:=list Z) cfg).
Implicit Types (st : st_t).

(** A handler given a length it does not accept. *)
Lemma edge_handler_bad_len rx_char chk h m buf len st :
  edge_handler cfg hooks rx_char = Some (chk, h) -> edge_type m = rx_char -> ~ edge_len m len ->
  h buf len st = Some (FH_ERROR, EdNone, st).
Proof.
  intros Hh <- Hl. destruct m; cbn in Hh; injection Hh as _ <-; cbn in Hl.
  2: { unfold fh_de_parse_add_order_msg, ADD_ORDER_MSG_SIZE, ADD_ORDER_ATTIRBUTED_QUOTE_MSG_SIZE.
       destruct (len =? 47) eqn:E1, (len =? 51) eqn:E2; bool_to_prop; try done; exfalso; tauto. }
  all: match goal with |- ?f _ _ _ = _ => idtac | |- ?f _ _ _ _ = _ => idtac | |- _ => idtac end.
  all: unfold fh_de_parse_sys_event_msg, fh_de_parse_order_executed_msg, fh_de_parse_order_canceled_msg,
         fh_de_parse_trade_msg, fh_de_parse_broken_trade_msg, fh_de_parse_security_status_msg.
  all: match goal with |- context [negb (?a =? ?b)] => destruct (a =? b) eqn:E end; [|done].
  all: bool_to_prop; by destruct Hl.
Qed.

Lemma edge_len_dec m len : Decision (edge_len m len).
Proof. destruct m; cbn; apply _. Qed.

Lemma edge_handler_types rx_char : rx_char ∉ edge_types -> edge_handler cfg hooks rx_char = None.
Proof.
  unfold edge_types, edge_handler. rewrite !not_elem_of_cons. intros (?&?&?&?&?&?&?&?).
  by rewrite !eqb_false_of_ne by done.
Qed.

Lemma edge_finish_kept kind msg buffer len st cap b : book_inv st cap b ->
  exists rc data st', edge_finish hooks kind msg buffer len st = (rc, data, st') /\
    book_inv st' cap b /\ same_seq st st'.
Proof.
  intros Hb. unfold edge_finish. destruct (edge_hook_msg hooks kind) as [f|].
  - destruct (f msg _) as [[rc [d l]] w]. by do 3 eexists.
  - by do 3 eexists.
Qed.

End edge.

(** ** Safety *)

(** C12: whatever the receive buffer holds, whatever length and type the line
    handler passes and whatever the plugins answer, the parser reads nothing
    out of bounds and follows no bad pointer; the tables stay correct, the
    line's own sequencing state is not touched, and the number of the next
    message is kept or advanced by one. *)
Theorem edge_parse_safe {W} cfg (hooks : edge_hooks W) rx_buf len rx_char seq st cap b :
  (67 <= length rx_buf)%nat -> book_inv (K:=list Z) cfg st cap b ->
  exists rc seq' st' b', fh_edge_parse_msg cfg hooks rx_buf len rx_char seq st = Some (rc, seq', st') /\
    book_inv (K:=list Z) cfg st' cap b' /\ same_seq st st' /\ (seq' = seq \/ seq' = u64 (seq + 1)).
Proof.
  intros Hl Hb. unfold fh_edge_parse_msg.
  destruct (decide (rx_char ∈ edge_types)) as [Hty|Hty].
  2: { rewrite edge_handler_types by done. do 4 eexists. split; [done|]. split; [exact Hb|]. by split; [|left]. }
  destruct (edge_decode rx_buf rx_char Hl Hty) as (c & ts & ty & m & rest & -> & Hts & Hok & <-).
  destruct (edge_handler_wire cfg hooks m) as (h & Eh & Hh). rewrite Eh.
  assert (Hsend : forall data st1 b1, book_inv (K:=list Z) cfg st1 cap b1 -> same_seq st st1 ->
    exists rc seq' st' b', Some (edge_send hooks data seq st1) = Some (rc, seq', st') /\
      book_inv (K:=list Z) cfg st' cap b' /\ same_seq st st' /\ (seq' = seq \/ seq' = u64 (seq + 1))).
  { intros data st1 b1 Hb1 Hs1. unfold edge_send. destruct (edge_hook_msg_send hooks) as [f|].
    - destruct (f data _) as [rc w]. destruct (negb (rc =? FH_OK)); do 4 eexists; (split; [done|]);
        (split; [exact Hb1|]); (split; [exact Hs1 | by right]).
    - do 4 eexists. split; [done|]. split; [exact Hb1|]. split; [exact Hs1 | by right]. }
  destruct (edge_len_dec m len) as [Hlen|Hlen].
  - destruct (Hh c ts ty len rest st cap b Hts Hok Hlen Hb) as (sym & ord & st1 & -> & (Hb1 & Hs1 & _) & _).
    set (buffer := edge_encode c ts ty m ++ rest).
    destruct (edge_finish_kept cfg hooks (edge_delivered m sym ord).1 (edge_struct m ts ty sym ord buffer)
      buffer len st1 cap _ Hb1) as (rc & data & st2 & -> & Hb2 & Hs2). cbn [mbind option_bind].
    assert (same_seq st st2) by (by transitivity st1).
    destruct (_ && _); [|by eapply Hsend].
    do 4 eexists. split; [done|]. split; [exact Hb2|]. by split; [|left].
  - rewrite (edge_handler_bad_len cfg hooks _ _ _ m _ _ st Eh eq_refl Hlen). cbn [mbind option_bind].
    destruct (_ && _); [|by eapply Hsend].
    do 4 eexists. split; [done|]. split; [exact Hb|]. by split; [|left].
Qed.

Definition edge_quiet : edge_hooks unit := MkEdgeHooks None None (fun _ => None).
Definition edge_cfg (order_table : bool) : feed_config := MkFeedCfg false order_table 0 0.

Definition edge_state (t : ord_tbl) : feed_state unit :=
  MkFeed 1 0 stats_zero (MkTbl None None 0 0 ∅) t None NULL false tt.

Lemma edge_parse_safe_witness :
  exists rc seq' st', fh_edge_parse_msg (edge_cfg false) edge_quiet (replicate 2048 7) 50 69 9
    (edge_state (MkTbl None None 0 0 ∅)) = Some (rc, seq', st') /\ seq' = 10.
Proof.
  destruct (edge_parse_safe (edge_cfg false) edge_quiet (replicate 2048 7) 50 69 9
    (edge_state (MkTbl None None 0 0 ∅)) 0 ∅) as (rc & seq' & st' & b' & E & _).
  - rewrite length_replicate. lia.
  - by split.
  - exists rc, seq', st'. split; [exact E|]. vm_compute in E. by injection E.
Defined.

(** ** Delivery *)

(** A message as it is meant: its numbers are numbers, prices in
    ten-thousandths. *)
Inductive edge_meant :=
  | EsSystemEvent (event_code : Z)
  | EsAddOrder (order_ref : list Z) (side quantity : Z) (security : list Z) (price display : Z)
      (mmid : option (list Z))
  | EsOrderExecuted (order_ref : list Z) (shares : Z) (match_number : list Z)
  | EsOrderCanceled (order_ref : list Z) (shares : Z)
  | EsTrade (order_ref : list Z) (side shares : Z) (security : list Z) (price : Z)
      (match_number : list Z)
  | EsBrokenTrade (match_number : list Z)
  | EsSecurityStatus (security : list Z) (halted_state : Z).

(** Its characters: numbers are right-aligned decimals padded with spaces. *)
Inductive edge_writes : edge_meant -> edge_wire -> Prop :=
  | writes_system_event e : edge_writes (EsSystemEvent e) (EwSystemEvent e)
  | writes_add_order r sd q s p d mm lq lp : is_field 6 lq q -> is_field 10 lp p ->
      edge_writes (EsAddOrder r sd q s p d mm) (EwAddOrder r sd lq s lp d mm)
  | writes_order_executed r n mn ln : is_field 6 ln n ->
      edge_writes (EsOrderExecuted r n mn) (EwOrderExecuted r ln mn)
  | writes_order_canceled r n ln : is_field 6 ln n ->
      edge_writes (EsOrderCanceled r n) (EwOrderCanceled r ln)
  | writes_trade r sd n s p mn ln lp : is_field 6 ln n -> is_field 10 lp p ->
      edge_writes (EsTrade r sd n s p mn) (EwTrade r sd ln s lp mn)
  | writes_broken_trade mn : edge_writes (EsBrokenTrade mn) (EwBrokenTrade mn)
  | writes_security_status s h : edge_writes (EsSecurityStatus s h) (EwSecurityStatus s h).

(** What a price is received as: exactly below 300000.0000, and too small by
    [2^32], from 700000.0000 on by twice that, in 64 bits above. *)
Definition edge_price (z : Z) : Z :=
  if z <? 3000000000 then z
  else u64 (z - (if z <? 7000000000 then 4294967296 else 8589934592)).

Definition edge_received (m : edge_meant) (sym : Z) (ord : option Z) : edge_kind * edge_body :=
  match m with
  | EsSystemEvent e => (EkSystemEvent, EdSystemEvent e)
  | EsAddOrder r sd q s p d mm =>
      (EkAddOrder, EdAddOrder r sd q s (edge_price p) d (strncpy <$> mm) sym (default NULL ord))
  | EsOrderExecuted r n mn => (EkOrderExecuted, EdOrderExecuted r n mn ord)
  | EsOrderCanceled r n => (EkOrderCanceled, EdOrderCanceled r n ord)
  | EsTrade r sd n s p mn => (EkTrade, EdTrade r sd n s (edge_price p) mn)
  | EsBrokenTrade mn => (EkBrokenTrade, EdBrokenTrade mn)
  | EsSecurityStatus s h => (EkSecurityStatus, EdSecurityStatus s h)
  end.

Definition edge_meant_book (cap : Z) (m : edge_meant) (b : gmap (list Z) order) : gmap (list Z) order :=
  match m with
  | EsAddOrder r sd q s p _ _ => book_add cap r (MkOrder (edge_price p) q sd s) b
  | EsOrderExecuted r n _ | EsOrderCanceled r n => book_cut r n b
  | _ => b
  end.

Lemma de_number_price z : 0 <= z < 10000000000 -> de_number u64 z = edge_price z.
Proof.
  intros Hz. unfold edge_price. destruct (z <? 3000000000) eqn:E; bool_to_prop.
  { apply de_number_small; [intros; apply u64_small; lia | lia]. }
  unfold de_number. pose proof (Z.div_mod z 1000000000 ltac:(lia)) as Hdm.
  pose proof (Z.mod_pos_bound z 1000000000 ltac:(lia)) as Hm.
  set (q := z / 1000000000) in *. set (r := z mod 1000000000) in *.
  assert (Hq : q = 3 \/ q = 4 \/ q = 5 \/ q = 6 \/ q = 7 \/ q = 8 \/ q = 9) by lia.
  clearbody q r. destruct_or! Hq; subst q z; cbn -[u64];
    match goal with |- context [s32 ?x] => let y := eval vm_compute in (s32 x) in change (s32 x) with y end;
    (destruct (_ <? 7000000000) eqn:E2; bool_to_prop; [|lia] || (destruct (_ <? 7000000000) eqn:E2; bool_to_prop; [lia|]));
    f_equal; lia.
Qed.

Lemma field_int w l z : is_field w l z -> (w <= 9)%nat -> fh_dirEdge_convert_int l = z.
Proof.
  intros Hf Hw. unfold fh_dirEdge_convert_int. rewrite (de_digits_field u32 u32_small w l z Hf) by lia.
  destruct Hf as (n & Hn & _ & Hz).
  assert (10 ^ Z.of_nat n <= 10 ^ 9) by (apply Z.pow_le_mono_r; lia).
  change (10 ^ 9) with 1000000000 in *. apply de_number_small; [apply u32_small | lia].
Qed.

Lemma field_price l z : is_field 10 l z -> fh_dirEdge_get_price l = edge_price z.
Proof.
  intros Hf. unfold fh_dirEdge_get_price.
  rewrite (de_digits_field u64 ltac:(intros; apply u64_small; lia) 10 l z Hf) by lia.
  apply de_number_price. destruct Hf as (n & Hn & _ & Hz).
  assert (10 ^ Z.of_nat n <= 10 ^ 10) by (apply Z.pow_le_mono_r; lia).
  change (10 ^ 10) with 10000000000 in *. lia.
Qed.

(** The handlers' view of a message is the message's numbers. *)
Lemma edge_writes_read ms m : edge_writes ms m ->
  (forall sym ord, edge_delivered m sym ord = edge_received ms sym ord) /\
  (forall cap b, edge_book cap m b = edge_meant_book cap ms b).
Proof.
  destruct 1; (split; intros; [done || cbn; try done|done || cbn; try done]);
    repeat match goal with
    | H : is_field 6 ?l _ |- _ => rewrite (field_int _ _ _ H) by lia; clear H
    | H : is_field 10 ?l _ |- _ => try rewrite (field_price _ _ H); clear H
    end; done.
Qed.

(** C11: delivery. For every message whose numbers are right-aligned decimals
    padded with spaces, in a buffer that holds it from its first character and
    with the length its handler expects, the parser's [switch] hands its struct
    to the message's hook, applies it to the order book, and sends it on with
    the next number unless a hook whose status is looked at refuses it. The
    struct has the time stamp and every field of the message as sent, but for
    prices from 300000.0000 on, which come out too small by [2^32] or twice
    that ([edge_price]). The order table entry it delivers is [NULL] or the
    entry of the order the message names. *)
Theorem edge_msg_delivered {W} cfg (hooks : edge_hooks W) c ts time ty ms m len rest seq st cap b :
  is_field 8 ts time -> edge_writes ms m -> edge_ok m -> edge_len m len ->
  book_inv (K:=list Z) cfg st cap b ->
  let buffer := edge_encode c ts ty m ++ rest in
  exists sym ord st1,
    fh_edge_parse_msg cfg hooks buffer len (edge_type m) seq st =
      (let '(kind, body) := edge_received ms sym ord in
       let '(rc, data, st2) := edge_finish hooks kind
         (MkEdge time ty body buffer (edge_raw_len m)) buffer len st1 in
       if negb (edge_type m =? 69) && negb (rc =? FH_OK) then Some (FH_ERROR, seq, st2)
       else Some (edge_send hooks data seq st2)) /\
    book_inv (K:=list Z) cfg st1 cap (edge_meant_book cap ms b) /\ same_seq st st1 /\
    (forall k, edge_order m = Some k -> entry_for st1 (default NULL ord) k).
Proof.
  intros Hts Hm Hok Hlen Hb buffer. destruct (edge_writes_read ms m Hm) as [Hd Hbk].
  unfold fh_edge_parse_msg. destruct (edge_handler_wire cfg hooks m) as (h & -> & Hh).
  destruct (Hh c ts ty len rest st cap b (length_is_field _ _ _ Hts) Hok Hlen Hb)
    as (sym & ord & st1 & E & (Hb1 & Hs1 & _) & He).
  exists sym, ord, st1. split; [|by rewrite <- Hbk]. fold buffer in E. rewrite E. cbn [mbind option_bind].
  unfold edge_struct. rewrite (field_int 8 ts time Hts) by lia. rewrite <- Hd.
  destruct (edge_delivered m sym ord) as [kind body]. cbn [fst snd].
  by destruct (edge_finish _ _ _ _ _ _) as [[??]?].
Qed.

Definition demo_ref : list Z := [65; 66; 48; 48; 48; 48; 48; 48; 48; 48; 48; 49].
Definition demo_sent : edge_meant := EsAddOrder demo_ref 66 100 [73; 66; 77; 32; 32; 32] 1255000 78 None.
Definition demo_add : edge_wire :=
  EwAddOrder demo_ref 66 (field 6 3 100) [73; 66; 77; 32; 32; 32] (field 10 7 1255000) 78 None.

Lemma field_is_number w n z : (n <= w)%nat -> 0 <= z < 10 ^ Z.of_nat n -> is_field w (field w n z) z.
Proof. intros Hn Hz. by exists n. Qed.

(** An order of 100 shares at 125.50 comes in and all of it is executed. *)
Lemma edge_msg_delivered_witness :
  exists t st1 st2, table_book t 4 (∅ : gmap (list Z) order) /\
    fh_edge_parse_msg (edge_cfg true) edge_quiet (edge_encode 83 (field 8 8 12345678) 65 demo_add ++ [10])
      47 65 1 (edge_state t) = Some (FH_OK, 2, st1) /\
    table_book st1.(fs_order_table) 4 {[ demo_ref := MkOrder 1255000 100 66 [73; 66; 77; 32; 32; 32] ]} /\
    fh_edge_parse_msg (edge_cfg true) edge_quiet (edge_encode 83 (field 8 8 12345679) 69
      (EwOrderExecuted demo_ref (field 6 3 100) (replicate 21 48)) ++ [10]) 50 69 2 st1 =
      Some (FH_OK, 3, st2) /\
    table_book st2.(fs_order_table) 4 (∅ : gmap (list Z) order).
Proof.
  destruct (lkp_init_spec ord_key_of sizeof_ord_key "OrderTable" sizeof_ord 4096 65536 4)
    as (t & _ & Hr & _); [done | done | done | lia | unfold sizeof_ord; lia |].
  assert (Ht : table_book t 4 (∅ : gmap (list Z) order)) by (exists ∅; split; [exact Hr | by constructor]).
  destruct (edge_msg_delivered (edge_cfg true) edge_quiet 83 (field 8 8 12345678) 12345678 65 demo_sent
    demo_add 47 [10] 1 (edge_state t) 4 ∅) as (sym & ord & st1 & E1 & Hb1 & _);
    [by apply field_is_number | constructor; by apply field_is_number; lia | done | by left | by split |].
  pose (m2 := EwOrderExecuted demo_ref (field 6 3 100) (replicate 21 48)).
  destruct (edge_msg_delivered (edge_cfg true) edge_quiet 83 (field 8 8 12345679) 12345679 69
    (EsOrderExecuted demo_ref 100 (replicate 21 48)) m2 50 [10] 2
    st1 4 (edge_meant_book 4 demo_sent ∅)) as (sym2 & ord2 & st2 & E2 & Hb2 & _);
    [by apply field_is_number | constructor; by apply field_is_number; lia | done | done | exact Hb1 |].
  exists t, st1, st2. split; [exact Ht|]. split; [exact E1|]. split; [exact (proj2 Hb1 eq_refl)|].
  split; [exact E2|]. exact (proj2 Hb2 eq_refl).
Defined.

(** An executed message whose length is wrong is reported by its handler,
    but the parser does not look: it counts the message and sends on whatever
    [data] holds, which nothing has initialised. *)
Theorem edge_executed_unchecked {W} cfg (hooks : edge_hooks W) rx_buf len seq st :
  len <> ORDER_EXECUTED_MSG_SIZE ->
  fh_edge_parse_msg cfg hooks rx_buf len 69 seq st = Some (edge_send hooks EdNone seq st) /\
  (hooks.(edge_hook_msg_send) = None ->
   fh_edge_parse_msg cfg hooks rx_buf len 69 seq st = Some (FH_OK, u64 (seq + 1), st)).
Proof.
  intros Hl. assert (E : fh_edge_parse_msg cfg hooks rx_buf len 69 seq st = Some (edge_send hooks EdNone seq st)).
  { unfold fh_edge_parse_msg. cbn. unfold fh_de_parse_order_executed_msg. by rewrite eqb_false_of_ne. }
  split; [done|]. intros Hn. rewrite E. unfold edge_send. by rewrite Hn.
Qed.

Lemma edge_executed_unchecked_witness :
  fh_edge_parse_msg (edge_cfg false)
    (MkEdgeHooks None (Some (fun data n => (FH_OK, match data with EdNone => n + 1 | _ => n end))) (fun _ => None))
    [] 12 69 9 (MkFeed 1 0 stats_zero (MkTbl None None 0 0 ∅) (MkTbl None None 0 0 ∅) None NULL false 0) =
  Some (FH_OK, 10, MkFeed 1 0 stats_zero (MkTbl None None 0 0 ∅) (MkTbl None None 0 0 ∅) None NULL false 1).
Proof.
  pose proof (edge_executed_unchecked (edge_cfg false)
    (MkEdgeHooks None (Some (fun data n => (FH_OK, match data with EdNone => n + 1 | _ => n end))) (fun _ => None))
    [] 12 9 (MkFeed 1 0 stats_zero (MkTbl None None 0 0 ∅) (MkTbl None None 0 0 ∅) None NULL false 0)
    ltac:(unfold ORDER_EXECUTED_MSG_SIZE; lia)) as [E _]. rewrite E. reflexivity.
Defined.

(** A number right-aligned in a field of at most ten
    characters is read exactly by both number parsers when it is below three
    billion, so in every field of at most nine characters; a price of ten
    digits is read exactly only then: from three billion (300,000.0000) on,
    the product of the first digit overflows an [int]. *)
Theorem edge_number_field w l z :
  is_field w l z -> (w <= 10)%nat ->
  (z < 3000000000 -> fh_dirEdge_convert_int l = z) /\
  (fh_dirEdge_get_price l = z <-> z < 3000000000).
Proof.
  intros Hf Hw. assert (Hz : 0 <= z < 10000000000).
  { destruct Hf as (n & Hn & _ & Hz). split; [lia|].
    assert (10 ^ Z.of_nat n <= 10 ^ 10) by (apply Z.pow_le_mono_r; lia). lia. }
  unfold fh_dirEdge_convert_int, fh_dirEdge_get_price.
  rewrite (de_digits_field u32 u32_small w l z Hf Hw).
  rewrite (de_digits_field u64 ltac:(intros; apply u64_small; lia) w l z Hf Hw). split.
  - intros H3. apply de_number_small; [apply u32_small | lia].
  - by apply de_number_exact.
Qed.

Lemma edge_number_field_witness :
  fh_dirEdge_get_price (field 10 10 2999999999) = 2999999999 /\
  fh_dirEdge_get_price (field 10 10 3000000000) <> 3000000000.
Proof.
  split.
  - apply (edge_number_field 10 (field 10 10 2999999999) 2999999999); [|lia..].
    exists 10%nat. split; [lia|]. split; [reflexivity | lia].
  - intros E. apply (edge_number_field 10 (field 10 10 3000000000) 3000000000) in E; [lia | | lia].
    exists 10%nat. split; [lia|]. split; [reflexivity | lia].
Defined.
