(* ===== verification/EdgeLh.v ===== *)
(** * The Direct Edge feed handler
      ([src/feeds/directedge/common/fh_edge.c] on [fh_shr_tcp_lh.c])

    The parser and the login plugged into the TCP line handler, and what the
    whole then does with a stream of messages. *)
From S2P Require Import Prelude Bytes Mpool GapFill HTable Lookup Conn Feed FeedProps Decimal EdgeParse EdgeProps Sock SockProps EdgeLogin TcpLh TcpLhProps.

(** The callbacks of [fh_edge_main]. *)
Definition fh_edge_main_callbacks {O W} (cfg : feed_config) (hooks : edge_hooks W)
    (os : syscall -> O -> sysret * O) (fuel : nat) (line : edge_account) : tcp_cb O W :=
  MkCb (fh_edge_parse_msg cfg hooks) (fh_edge_conn_login os fuel line) (fh_edge_alarm hooks).

(** ** The parser keeps the promise *)

(** A message as the server sends it: its time stamp and its contents. *)
Record edge_sent := MkSent { es_ts : list Z; es_msg : edge_wire }.

Definition edge_sent_ok (m : edge_sent) : Prop := length m.(es_ts) = 8%nat /\ edge_ok m.(es_msg).
Definition edge_sent_wire (m : edge_sent) : list Z :=
  edge_encode 83 m.(es_ts) (edge_type m.(es_msg)) m.(es_msg) ++ [10].

Lemma length_edge_wire m : edge_sent_ok m ->
  Z.of_nat (length (edge_sent_wire m)) =
  match m.(es_msg) with
  | EwSystemEvent _ => 12 | EwAddOrder _ _ _ _ _ _ (Some _) => 51 | EwAddOrder _ _ _ _ _ _ None => 47
  | EwOrderExecuted _ _ _ => 50 | EwOrderCanceled _ _ => 29 | EwTrade _ _ _ _ _ _ => 67
  | EwBrokenTrade _ => 32 | EwSecurityStatus _ _ => 18
  end.
Proof.
  destruct m as [ts m]. intros [Ht Hm]. unfold edge_sent_wire, edge_encode. cbn [es_ts es_msg] in *.
  destruct m as [| ? ? ? ? ? ? [] | | | | |]; cbn [edge_ok edge_payload default] in *; destruct_and?;
    unfold id; repeat (progress (rewrite ?length_app; cbn [length])); lia.
Qed.

Lemma edge_wire_len m : edge_sent_ok m -> edge_len m.(es_msg) (Z.of_nat (length (edge_sent_wire m))).
Proof.
  intros Hm. rewrite (length_edge_wire m Hm). destruct m as [ts [| ? ? ? ? ? ? [] | | | | |]]; cbn; by auto.
Qed.

Lemma nth_encode_type m : length m.(es_ts) = 8%nat -> lh_type (edge_sent_wire m) = edge_type m.(es_msg).
Proof.
  intros Ht. unfold lh_type, edge_sent_wire, edge_encode. cbn [app nth].
  rewrite <- app_assoc, app_nth2 by lia. by rewrite Ht.
Qed.

Lemma edge_frame m : edge_sent_ok m -> lh_frame (edge_sent_wire m).
Proof.
  intros Hm. split; [done|]. pose proof (length_edge_wire m Hm) as Hl.
  rewrite (nth_encode_type m (proj1 Hm)). destruct m as [ts m], Hm as [Ht Hm]. cbn [es_msg es_ts] in *.
  destruct m as [|r sd q s p d mm | | | | |]; cbn [edge_type]; eexists; (split; [reflexivity|]); try exact Hl.
  change (65 =? 65) with true. cbn [andb].
  assert (Hd : nth 45 (edge_sent_wire (MkSent ts (EwAddOrder r sd q s p d mm))) 0 = d).
  { unfold edge_sent_wire, edge_encode. cbn [edge_payload es_ts es_msg edge_ok app nth] in *. destruct_and?.
    repeat (rewrite <- ?app_assoc; cbn [app nth]; rewrite app_nth2 by lia;
      match goal with H : length ?l = _ |- context [length ?l] => rewrite H end; cbn [Nat.sub]). done. }
  rewrite Hd. destruct mm as [mm|]; cbn in Hm; destruct_and?.
  - subst d. change (65 =? 65) with true. cbn iota. rewrite Hl. done.
  - by rewrite (eqb_false_of_ne d 65).
Qed.

Section lh.
Context {O W : Type} (cfg : feed_config) (hooks : edge_hooks W) (os : syscall -> O -> sysret * O)
  (login_fuel : nat) (line : edge_account) (cap : Z).
Notation cb := (fh_edge_main_callbacks cfg hooks os login_fuel line).

(** The abstract state: the order book and the number of the next message. *)
Definition edge_spec (accept : edge_accept hooks) : ParserSpec cb edge_sent (gmap (list Z) order * Z).
Proof.
  refine {|
    ps_ok := edge_sent_ok;
    ps_wire := edge_sent_wire;
    ps_step m a := (edge_book cap m.(es_msg) a.1, u64 (a.2 + 1));
    ps_inv a seq feed := a.2 = seq /\ book_inv (K:=list Z) cfg feed cap a.1
  |}; [exact edge_frame | | done | done].
  intros m rest [b seq0] seq feed Hm [<- Hb]. cbn [fst snd cb_parse fh_edge_main_callbacks].
  rewrite (nth_encode_type m (proj1 Hm)). pose proof (edge_wire_len m Hm) as Hl. destruct Hm as [Ht Hm].
  unfold edge_sent_wire at 1. rewrite <- app_assoc.
  destruct (edge_parse_wire cfg hooks 83 m.(es_ts) (edge_type m.(es_msg)) m.(es_msg)
    (Z.of_nat (length (edge_sent_wire m))) ([10] ++ rest) seq0 feed cap b Ht Hm Hl Hb accept)
    as (st' & E & Hb' & Hs).
  do 3 eexists. split; [exact E|]. split; [by split|]. exact (proj1 (proj2 Hs)).
Defined.

End lh.

(** ** The order book of a stream *)

Definition edge_books (cap : Z) (ms : list edge_sent) (b : gmap (list Z) order) :=
  fold_left (fun b m => edge_book cap m.(es_msg) b) ms b.

Section stream.
Context {O W : Type} {cfg : feed_config} {hooks : edge_hooks W} {os : syscall -> O -> sysret * O}
  {login_fuel : nat} {line : edge_account} (cap : Z) {accept : edge_accept hooks}.
Notation spec := (edge_spec cfg hooks os login_fuel line cap accept).

Lemma edge_steps ms : forall b n, 0 <= n < 2 ^ 64 ->
  lh_steps (spec:=spec) ms (b, n) = (edge_books cap ms b, u64 (n + Z.of_nat (length ms))).
Proof.
  unfold lh_steps, edge_books.
  induction ms as [|m ms IH]; intros b n Hn; cbn [fold_left length].
  - by rewrite Z.add_0_r, u64_small.
  - cbn [ps_step edge_spec fst snd]. rewrite IH by (unfold u64; apply Z.mod_pos_bound; lia).
    f_equal. unfold u64. rewrite Zplus_mod_idemp_l. f_equal. lia.
Qed.

Lemma edge_stats_messages ms : forall st, 0 <= st.(messages) < 2 ^ 64 ->
  (lh_stats (spec:=spec) ms st).(messages) = u64 (st.(messages) + Z.of_nat (length ms)).
Proof.
  unfold lh_stats. induction ms as [|m ms IH]; intros st Hn; cbn [fold_left length].
  - by rewrite Z.add_0_r, u64_small.
  - rewrite IH by (cbn; unfold u64; apply Z.mod_pos_bound; lia). cbn [messages stat_add].
    unfold u64. rewrite Zplus_mod_idemp_l. f_equal. lia.
Qed.

End stream.

(** C10: a stream of messages becomes an order book. However many messages
    wait on the socket when the line handler looks at it, it cuts them at the
    right places, attributed quotes included, and leaves nothing unread: the
    order table holds the book that the messages, applied in the order they
    were sent, make of the book before; the number of the next message and the
    statistics have advanced by their number; and the line handler is ready
    for the next message. *)
Theorem edge_stream_book {O W} (os : syscall -> O -> sysret * O) fd input (stream : Stream os fd input)
    cfg (hooks : edge_hooks W) login_fuel line finished flush_hook fuel ms cap b (s : lh O W) :
  edge_accept hooks -> Forall edge_sent_ok ms -> ms <> [] -> (S (length ms) < fuel)%nat ->
  lh_clean (fd:=fd) s -> s.(lh_still_more) = 0 ->
  input s.(lh_os) = concat (map edge_sent_wire ms) ->
  book_inv (K:=list Z) cfg s.(lh_feed) cap b ->
  0 <= s.(lh_seq_num) < 2 ^ 64 -> 0 <= s.(lh_feed).(fs_stats).(messages) < 2 ^ 64 ->
  exists s', lh_iteration os (fh_edge_main_callbacks cfg hooks os login_fuel line) finished flush_hook fuel s =
      Some (tt, s') /\
    input s'.(lh_os) = [] /\ lh_clean (fd:=fd) s' /\ s'.(lh_still_more) = 0 /\
    book_inv (K:=list Z) cfg s'.(lh_feed) cap (edge_books cap ms b) /\
    s'.(lh_seq_num) = u64 (s.(lh_seq_num) + Z.of_nat (length ms)) /\
    s'.(lh_feed).(fs_stats).(messages) = u64 (s.(lh_feed).(fs_stats).(messages) + Z.of_nat (length ms)).
Proof.
  intros Ha Hms Hne Hf Hc Hsm Hin Hb Hs Hst.
  destruct (lh_iteration_frames (spec:=edge_spec cfg hooks os login_fuel line cap Ha) finished flush_hook ms fuel
    (b, s.(lh_seq_num)) s Hms Hne Hc Hsm Hin) as (s' & E & Hc' & Hin' & Hsm' & Hi' & Hst'); [by split | done |].
  rewrite (edge_steps cap) in Hi' by done. destruct Hi' as [Hseq Hbook].
  exists s'. repeat (split; [done || apply Hc'|]). by rewrite Hst', edge_stats_messages.
Qed.

(** A socket whose input is all there. *)
Definition stream_os (c : syscall) (inp : list Z) : sysret * list Z :=
  match c with
  | SysSelect _ _ _ => (MkRet (if decide (inp = []) then 0 else 1) 0 [], inp)
  | SysRecv _ n flags =>
      if decide (inp = []) then (MkRet (-1) EAGAIN [], inp)
      else (MkRet (Z.of_nat (length (take (Z.to_nat n) inp))) 0 (take (Z.to_nat n) inp),
            if peeks flags then inp else drop (Z.to_nat n) inp)
  | SysSend _ data _ => (MkRet (Z.of_nat (length data)) 0 [], inp)
  | _ => (MkRet 0 0 [], inp)
  end.

Lemma stream_os_ok : Stream stream_os 3 id.
Proof.
  constructor; unfold id, stream_os.
  - intros o n flags Hn Ho. rewrite decide_False by done. by do 2 eexists.
  - intros o n flags Hn ->. rewrite decide_True by done. by eexists.
  - intros o tv. by do 3 eexists.
Qed.

Definition demo_lh {W} (input : list Z) (feed : feed_state W) : lh (list Z) W :=
  MkLh input feed 3 (replicate 10 32) 1 0 10 1 true (replicate 2048 0) 0 0 0 false 0 1000000.

(** An attributed quote, a system event and the execution of half the quote. *)
Definition demo_stream : list edge_sent :=
  [ MkSent (field 8 8 12345678) (EwAddOrder (replicate 12 65) 66 (field 6 3 100) [73; 66; 77; 32; 32; 32]
      (field 10 7 1255000) 65 (Some [65; 66; 67; 68]));
    MkSent (field 8 8 12345679) (EwSystemEvent 79);
    MkSent (field 8 8 12345680) (EwOrderExecuted (replicate 12 65) (field 6 2 50) (replicate 21 48)) ].

Lemma edge_stream_book_witness :
  exists t s', lh_iteration stream_os
      (fh_edge_main_callbacks (MkFeedCfg false true 0 0) (MkEdgeHooks (W:=unit) None None (fun _ => None))
         stream_os 38 (MkAccount (replicate 6 65) (replicate 10 66) 0 0))
      (fun _ => false) None 6
      (demo_lh (concat (map edge_sent_wire demo_stream))
         (MkFeed 1 0 stats_zero (MkTbl None None 0 0 ∅) t None NULL false tt)) = Some (tt, s') /\
    s'.(lh_os) = [] /\ s'.(lh_seq_num) = 4 /\
    table_book s'.(lh_feed).(fs_order_table) 4
      {[ replicate 12 65 := MkOrder 1255000 50 66 [73; 66; 77; 32; 32; 32] ]}.
Proof.
  destruct (lkp_init_spec ord_key_of sizeof_ord_key "OrderTable" sizeof_ord 4096 65536 4)
    as (t & _ & Hr & _); [done | done | done | lia | unfold sizeof_ord; lia |].
  assert (Ht : table_book t 4 (∅ : gmap (list Z) order)) by (exists ∅; split; [exact Hr | by constructor]).
  exists t.
  destruct (edge_stream_book stream_os 3 id stream_os_ok (MkFeedCfg false true 0 0)
    (MkEdgeHooks (W:=unit) None None (fun _ => None)) 38 (MkAccount (replicate 6 65) (replicate 10 66) 0 0)
    (fun _ => false) None 6 demo_stream 4 ∅
    (demo_lh (concat (map edge_sent_wire demo_stream))
       (MkFeed 1 0 stats_zero (MkTbl None None 0 0 ∅) t None NULL false tt)))
    as (s' & E & Hin & _ & _ & Hb & Hs & _).
  - done.
  - repeat constructor.
  - done.
  - cbn. lia.
  - by repeat split.
  - done.
  - done.
  - by split.
  - cbn. lia.
  - cbn. lia.
  - exists s'. split; [exact E|]. split; [exact Hin|]. split; [exact Hs|]. exact (proj2 Hb eq_refl).
Defined.
