(* ===== verification/TcpLhErrors.v ===== *)
(** * The TCP line handler: silence, split messages, failing connections

    What the loop does when nothing comes, when a message comes in two parts,
    and when the server goes away. *)
From S2P Require Import Prelude Bytes Mpool GapFill HTable Lookup Conn Feed FeedProps Decimal EdgeParse EdgeProps Sock SockProps EdgeLogin EdgeSession EdgeTheorems TcpLh TcpLhProps EdgeLh.

(** ** Silence *)

(** A connection on which nothing comes and to which heart beats can be sent,
    as long as [quiet]. *)
Class QuietPeer {O} (os : syscall -> O -> sysret * O) (fd : Z) (quiet : O -> Prop) := {
  quiet_select o tv : quiet o ->
    exists e d o', os (SysSelect fd false tv) o = (MkRet 0 e d, o') /\ quiet o';
  quiet_send o data flags : quiet o ->
    exists e o', os (SysSend fd data flags) o = (MkRet (Z.of_nat (length data)) e [], o') /\ quiet o'
}.

(** [n] passes of the outer loop. *)
Fixpoint lh_passes {O W} (os : syscall -> O -> sysret * O) (cb : tcp_cb O W) finished flush_hook
    (fuel n : nat) : io (lh O W) unit :=
  match n with
  | 0%nat => mret tt
  | S n => _ ← lh_iteration os cb finished flush_hook fuel; lh_passes os cb finished flush_hook fuel n
  end.

(** The alarm of the tenth idle second. *)
Definition hb_missing {O W} (cb : tcp_cb O W) (feed : feed_state W) : feed_state W :=
  (cb.(cb_alarm) FH_ALERT_SERVER_HB_MISSING feed).2.

Section quiet.
Context {O W : Type} {os : syscall -> O -> sysret * O} {fd : Z} {quiet : O -> Prop}
  {peer : QuietPeer os fd quiet}.
Context (cb : tcp_cb O W) (finished : O -> bool) (flush_hook : option (W -> W)) (fuel : nat).

Lemma lh_iteration_idle (s : lh O W) : s.(lh_socket) = fd -> quiet s.(lh_os) -> 1 <= s.(lh_monitor) <= 10 ->
  exists s', lh_iteration os cb finished flush_hook fuel s = Some (tt, s') /\ s'.(lh_socket) = fd /\
    quiet s'.(lh_os) /\
    if s.(lh_monitor) =? 1 then s'.(lh_monitor) = 10 /\ s'.(lh_feed) = hb_missing cb s.(lh_feed)
    else s'.(lh_monitor) = s.(lh_monitor) - 1 /\ s'.(lh_feed) = s.(lh_feed).
Proof using peer.
  intros Hfd Hq Hm. destruct (quiet_select s.(lh_os) (Some s.(lh_tv)) Hq) as (e & d & o1 & E1 & Hq1).
  destruct (quiet_send o1 [82; 10] MSG_DONTWAIT Hq1) as (e2 & o2 & E2 & Hq2).
  unfold lh_iteration. rewrite !bind_get, Hfd.
  assert (Hsel : call os (SysSelect fd false (Some s.(lh_tv))) s = Some (MkRet 0 e d, set_os o1 s)).
  { unfold call, lift, sys. by rewrite E1. }
  rewrite (bind_some _ _ _ _ _ Hsel), bind_modify. cbn [r_val]. change (0 =? -1) with false.
  change (0 =? 0) with true. cbn [andb]. cbn iota. rewrite !bind_modify, bind_get.
  match goal with |- context [lh_monitor ?t] => set (s1 := t) end.
  change (lh_monitor s1) with (s32 (lh_monitor s - 1)). rewrite s32_small by lia.
  assert (Hsend : forall s2, lh_socket s2 = fd -> lh_os s2 = o1 ->
    send_hb_msg os cb fuel s2 = Some ((FH_OK, false), set_os o2 s2)).
  { intros s2 Hf2 Ho2. unfold send_hb_msg. rewrite bind_get, Hf2.
    rewrite (bind_some _ _ s2 (MkRet 2 e2 []) (set_os o2 s2)); [done|].
    unfold call, lift, sys. by rewrite Ho2, E2. }
  destruct (lh_monitor s =? 1) eqn:E; bool_to_prop.
  - rewrite E. change (1 - 1 =? 0) with true. cbn iota. unfold alarm.
    match goal with |- context [modify ?f ≫= _] => rewrite (bind_some _ _ s1 tt
      (set_hb (lh_hb_count s1) HB_ALARM_TIMEOUT (f s1)) eq_refl) end.
    erewrite (bind_some (send_hb_msg os cb fuel)) by (by apply Hsend). eexists. split; [reflexivity|]. by repeat split.
  - rewrite (eqb_false_of_ne (lh_monitor s - 1)) by lia. rewrite bind_ret.
    erewrite (bind_some (send_hb_msg os cb fuel)) by (by apply Hsend). eexists. split; [reflexivity|]. repeat split; try done.
    cbn. by rewrite s32_small by lia.
Qed.

Lemma lh_passes_idle n : forall (s : lh O W) k, s.(lh_socket) = fd -> quiet s.(lh_os) -> (k < 10)%nat ->
  s.(lh_monitor) = 10 - Z.of_nat k ->
  exists s', lh_passes os cb finished flush_hook fuel n s = Some (tt, s') /\
    s'.(lh_feed) = Nat.iter ((k + n) / 10) (hb_missing cb) s.(lh_feed) /\
    s'.(lh_monitor) = 10 - Z.of_nat ((k + n) mod 10).
Proof using peer.
  induction n as [|n IH]; intros s k Hfd Hq Hk Hm.
  - exists s. rewrite Nat.add_0_r, Nat.div_small, Nat.mod_small by done. by split.
  - destruct (lh_iteration_idle s Hfd Hq) as (s1 & E & Hfd1 & Hq1 & H1); [lia|].
    cbn [lh_passes]. setoid_rewrite (bind_some _ _ _ _ _ E).
    destruct (lh_monitor s =? 1) eqn:E1; bool_to_prop; destruct H1 as [Hm1 Hf1].
    + destruct (IH s1 0%nat) as (s' & E' & Hf' & Hm'); [done | done | lia | done |].
      exists s'. split; [done|]. assert (k = 9)%nat as -> by lia.
      replace (9 + S n)%nat with (n + 1 * 10)%nat by lia.
      rewrite Nat.div_add, Nat.Div0.mod_add by done. rewrite Hf', Hf1. split; [|done].
      rewrite Nat.add_1_r, Nat.iter_succ_r. done.
    + destruct (IH s1 (S k)) as (s' & E' & Hf' & Hm'); [done | done | lia | lia |].
      exists s'. split; [done|]. replace (k + S n)%nat with (S k + n)%nat by lia. by rewrite Hf', Hf1.
Qed.

End quiet.

(** C35: silence is noticed. When nothing comes, every pass of the loop takes
    one time-out of the [select], a heart beat goes out, and the alarm for
    missing heart beats is raised at every tenth pass, no sooner, no later and
    not twice: after [n] silent passes it was raised [n / 10] times. *)
Theorem hb_alarm_raised {O W} (os : syscall -> O -> sysret * O) fd quiet (peer : QuietPeer os fd quiet)
    (cb : tcp_cb O W) finished flush_hook fuel n s :
  s.(lh_socket) = fd -> quiet s.(lh_os) -> s.(lh_monitor) = HB_ALARM_TIMEOUT ->
  exists s', lh_passes os cb finished flush_hook fuel n s = Some (tt, s') /\
    s'.(lh_feed) = Nat.iter (n / 10) (hb_missing cb) s.(lh_feed) /\
    s'.(lh_monitor) = HB_ALARM_TIMEOUT - Z.of_nat (n mod 10).
Proof.
  intros Hfd Hq Hm. apply (lh_passes_idle cb finished flush_hook fuel n s 0 Hfd Hq); [lia | done].
Qed.

Lemma stream_os_quiet : QuietPeer stream_os 3 (eq []).
Proof.
  constructor; intros; subst; cbn [stream_os].
  - rewrite decide_True by done. by do 3 eexists.
  - by do 2 eexists.
Qed.

(** The alarms counted by a plugin. *)
Definition demo_alarm_cb : tcp_cb (list Z) Z :=
  MkCb (fun _ _ _ seq st => Some (FH_OK, seq, st)) (fun sock session seq => mret (FH_OK, sock, session, seq))
    (fun _ st => (FH_OK, set_world (st.(fs_world) + 1) st)).

Lemma hb_alarm_raised_witness :
  exists s', lh_passes stream_os demo_alarm_cb (fun _ => false) None 0 25
      (demo_lh [] (MkFeed 1 0 stats_zero (MkTbl None None 0 0 ∅) (MkTbl None None 0 0 ∅) None NULL false 0)) =
    Some (tt, s') /\ s'.(lh_feed).(fs_world) = 2 /\ s'.(lh_monitor) = 5.
Proof.
  destruct (hb_alarm_raised stream_os 3 (eq []) stream_os_quiet demo_alarm_cb (fun _ => false) None 0 25
    (demo_lh [] (MkFeed 1 0 stats_zero (MkTbl None None 0 0 ∅) (MkTbl None None 0 0 ∅) None NULL false 0)))
    as (s' & E & Hf & Hm); [reflexivity..|].
  exists s'. split; [exact E|]. split; [by rewrite Hf | by rewrite Hm].
Defined.

(** ** A message in two parts *)

(** The feed after the hook that follows every message. *)
Definition flushed {W} (flush_hook : option (W -> W)) (feed : feed_state W) : feed_state W :=
  match flush_hook with Some f => set_world (f feed.(fs_world)) feed | None => feed end.

Section split.
Context {O W : Type} {os : syscall -> O -> sysret * O} {fd : Z} {input : O -> list Z}
  {stream : Stream os fd input}.
Context (cb : tcp_cb O W) (finished : O -> bool) (flush_hook : option (W -> W)).
Notation lh := (lh O W).

(** [select] on a socket with input, at the start of a pass. *)
Lemma lh_iteration_ready fuel (s : lh) : s.(lh_socket) = fd -> input s.(lh_os) <> [] ->
  exists o' tv, input o' = input s.(lh_os) /\
    lh_iteration os cb finished flush_hook fuel s =
    (still_more ← get lh_still_more;
     go ← (if 0 <? still_more then lh_rest os cb finished flush_hook fuel else mret true);
     if (go : bool) then lh_messages os cb finished flush_hook fuel else mret tt)
    (set_hb s.(lh_hb_count) HB_ALARM_TIMEOUT (set_tv tv (set_os o' s))).
Proof using stream.
  intros Hfd Hin. destruct (stream_select s.(lh_os) (Some s.(lh_tv))) as (e & d & o' & E & Ho).
  rewrite decide_False in E by done. exists o', (default 0 (d !! 0%nat)). split; [done|].
  unfold lh_iteration. rewrite !bind_get, Hfd.
  assert (Hsel : call os (SysSelect fd false (Some s.(lh_tv))) s = Some (MkRet 1 e d, set_os o' s)).
  { unfold call, lift, sys. by rewrite E. }
  rewrite (bind_some _ _ _ _ _ Hsel), bind_modify. cbn [r_val]. change (1 =? -1) with false.
  change (1 =? 0) with false. cbn [andb]. rewrite bind_modify. done.
Qed.

(** The first part of a message, with its header: it is kept in [rx_buf]. *)
Lemma lh_message_part fuel w w1 n (s : lh) :
  nth 0 w 0 = 83 -> edge_len_to_rec (lh_type w) = Some n -> (10 <= length w1)%nat ->
  Z.of_nat (length w1) < n -> (exists w2, w = w1 ++ w2) -> lh_clean (fd:=fd) s -> input s.(lh_os) = w1 ->
  exists s', lh_message os cb finished flush_hook fuel s = Some (false, s') /\
    input s'.(lh_os) = [] /\ s'.(lh_socket) = fd /\ s'.(lh_part_rx) = 0 /\
    s'.(lh_offset) = Z.of_nat (length w1) /\ s'.(lh_still_more) = n - Z.of_nat (length w1) /\
    s'.(lh_add_order) = (lh_type w =? 65) /\
    s'.(lh_feed) = s.(lh_feed) /\ s'.(lh_seq_num) = s.(lh_seq_num) /\
    exists b, s'.(lh_rx_buf) = w1 ++ b /\ length (w1 ++ b) = Z.to_nat rx_buf_size.
Proof using stream.
  intros H0 Hn Hl1 Hl2 [w2 ->] (Hfd & Hpart & Hadd & Hlen & Hbuf) Hin.
  destruct (recv_at_ready 0 10 (Z.lor MSG_PEEK MSG_DONTWAIT) s Hfd) as (e & o' & Hr & Ho); [lia | |].
  { rewrite Hin. destruct w1; [cbn in *; lia | done]. }
  change (Z.to_nat 10) with 10%nat in *. change (peeks _) with true in Ho. cbn iota in Ho.
  destruct (edge_len_to_rec_range _ _ Hn) as [Hrange _]. unfold rx_buf_size in *.
  rewrite Hin, length_take_le in Hr by lia. change (Z.of_nat 10) with 10 in Hr.
  specialize (Hr _ (write_at_here s.(lh_rx_buf) (take 10 w1) ltac:(rewrite length_take; lia))).
  unfold lh_message. rewrite bind_get, Hpart. change (10 - 0) with 10.
  rewrite (bind_some _ _ _ _ _ Hr). cbn [r_val]. change (10 =? -1) with false.
  change (10 =? 0) with false. change (10 + 0 =? 10) with true. cbn iota.
  set (s1 := set_rx_buf _ _).
  assert (Hat : forall i z, z = Z.of_nat i -> (i < 10)%nat ->
    default 0 (byte_at (lh_rx_buf s1) z) = nth i (w1 ++ w2) 0).
  { intros i z -> Hi. cbn [lh_rx_buf s1 set_rx_buf]. rewrite byte_at_nth by (rewrite length_take; lia).
    rewrite app_nth1 by lia. rewrite <- (take_drop 10 w1) at 2. rewrite app_nth1 by (rewrite length_take; lia). done. }
  unfold rx_at. rewrite bind_get, (Hat 0%nat 0 eq_refl), H0 by lia.
  change (83 =? 83) with true. cbn iota. rewrite bind_get, (Hat 9%nat 9 eq_refl) by lia.
  fold (lh_type (w1 ++ w2)). rewrite Hn. set (ty := lh_type (w1 ++ w2)) in *.
  assert (Hb1 : length s1.(lh_rx_buf) = 2048%nat) by (cbn; rewrite length_app, length_drop, length_take; lia).
  assert (E : forall s2 : lh, lh_socket s2 = fd -> lh_part_rx s2 = 0 -> lh_os s2 = o' -> length (lh_rx_buf s2) = 2048%nat ->
    exists o2, lh_receive os cb finished flush_hook fuel ty n s2 =
      Some (false, set_more (Z.of_nat (length w1)) (n - Z.of_nat (length w1))
        (set_rx_buf (w1 ++ drop (length w1) s2.(lh_rx_buf)) (set_os o2 s2))) /\ input o2 = []).
  { intros s2 Hf2 Hp2 Ho2 Hb2. unfold lh_receive. rewrite bind_get, Hp2, Z.sub_0_r.
    destruct (recv_at_ready 0 n 0 s2 Hf2) as (e2 & o2 & Hr2 & Hi2); [lia | |].
    { rewrite Ho2, Ho, Hin. destruct w1; [cbn in *; lia | done]. }
    rewrite Ho2, Ho, Hin in Hr2, Hi2. rewrite take_ge in Hr2 by lia. change (peeks 0) with false in Hi2. cbn iota in Hi2.
    rewrite drop_ge in Hi2 by lia. specialize (Hr2 _ (write_at_here s2.(lh_rx_buf) w1 ltac:(lia))).
    rewrite (bind_some _ _ _ _ _ Hr2). cbn [r_val]. exists o2. split; [|done].
    rewrite !eqb_false_of_ne by lia. destruct (_ && _) eqn:Eb; bool_to_prop; [|lia].
    rewrite bind_modify, Z.add_0_r, Z.sub_0_r. done. }
  destruct (ty =? 65) eqn:E65.
  - rewrite bind_modify. destruct (E (set_add_order true s1)) as (o2 & -> & Hi2); [done..|].
    eexists. split; [reflexivity|]. repeat (split; [done|]). cbn. eexists. split; [reflexivity|].
    rewrite length_app, length_drop. cbn in Hb1. lia.
  - rewrite bind_ret. destruct (E s1) as (o2 & -> & Hi2); [done..|].
    eexists. split; [reflexivity|]. repeat (split; [done|]). cbn. eexists. split; [reflexivity|].
    rewrite length_app, length_drop. cbn in Hb1. lia.
Qed.

(** The rest of it: the parser is given the type NUL. *)
Lemma lh_rest_part fuel w w1 w2 b rc seq feed (s : lh) :
  w = w1 ++ w2 -> (0 < length w2 <= length b)%nat -> s.(lh_socket) = fd -> input s.(lh_os) = w2 ->
  s.(lh_offset) = Z.of_nat (length w1) -> s.(lh_still_more) = Z.of_nat (length w2) ->
  s.(lh_rx_buf) = w1 ++ b ->
  (forall rest, cb.(cb_parse) (w ++ rest) (Z.of_nat (length w)) 0 s.(lh_seq_num) s.(lh_feed) = Some (rc, seq, feed)) ->
  exists s', lh_rest os cb finished flush_hook fuel s = Some (true, s') /\
    s'.(lh_socket) = fd /\ s'.(lh_part_rx) = s.(lh_part_rx) /\ input s'.(lh_os) = [] /\
    s'.(lh_add_order) = s.(lh_add_order) /\ s'.(lh_still_more) = 0 /\ s'.(lh_seq_num) = seq /\
    s'.(lh_feed) = count_stat Bytes (Z.of_nat (length w)) (count_stat Messages 1 (flushed flush_hook feed)).
Proof using stream.
  intros -> Hl Hfd Hin Hoff Hsm Hbuf Hp.
  destruct (recv_rest s.(lh_offset) w1 b w2 [] 0 s) as (e & o' & Hr & Ho); try done; [by rewrite app_nil_r|].
  unfold lh_rest. rewrite !bind_get, Hsm. rewrite (bind_some _ _ _ _ _ Hr). cbn [r_val].
  rewrite Z.eqb_refl, Hoff, <- Nat2Z.inj_add, <- length_app.
  rewrite app_assoc. set (s1 := set_rx_buf _ _).
  assert (E : parse cb (Z.of_nat (length (w1 ++ w2))) 0 s1 =
    Some (tt, set_feed feed (set_conn s1.(lh_socket) s1.(lh_session) seq s1))).
  { unfold parse. cbn [lh_rx_buf s1 set_rx_buf lh_seq_num lh_feed set_os]. by rewrite Hp. }
  rewrite (bind_some _ _ _ _ _ E). unfold flush, count. rewrite !bind_modify.
  eexists. split; [reflexivity|]. repeat (split; [by destruct flush_hook|]). by destruct flush_hook.
Qed.

End split.

(** When the first part ends
    after the header and before the end of the message, the line handler waits
    for the rest and puts the message together again in its buffer, but then
    hands it to the parser with the type NUL, which no case of the parser
    knows: the order book and the number of the next message stay as they are
    and no plugin sees the message, which the statistics count nevertheless.
    After half a new order the flag [add_order] stays set as well. *)
Theorem edge_split_lost {O W} (os : syscall -> O -> sysret * O) fd input (stream : Stream os fd input)
    cfg (hooks : edge_hooks W) login_fuel line finished flush_hook fuel m w1 w2 (s : lh O W) :
  let cb := fh_edge_main_callbacks cfg hooks os login_fuel line in
  edge_sent_ok m -> edge_sent_wire m = w1 ++ w2 ->
  edge_len_to_rec (lh_type (w1 ++ w2)) = Some (Z.of_nat (length (w1 ++ w2))) ->
  (10 <= length w1)%nat -> (0 < length w2)%nat -> (1 < fuel)%nat ->
  lh_clean (fd:=fd) s -> s.(lh_still_more) = 0 -> input s.(lh_os) = w1 ->
  exists s1, lh_iteration os cb finished flush_hook fuel s = Some (tt, s1) /\
    input s1.(lh_os) = [] /\ s1.(lh_feed) = s.(lh_feed) /\
    forall o2, input o2 = w2 ->
    exists s2, lh_iteration os cb finished flush_hook fuel (set_os o2 s1) = Some (tt, s2) /\
      input s2.(lh_os) = [] /\ s2.(lh_seq_num) = s.(lh_seq_num) /\
      s2.(lh_feed) = count_stat Bytes (Z.of_nat (length (w1 ++ w2)))
        (count_stat Messages 1 (flushed flush_hook s.(lh_feed))) /\
      s2.(lh_add_order) = (lh_type (w1 ++ w2) =? 65).
Proof.
  intros cb Hm Hw Hn Hl1 Hl2 Hf Hc Hsm Hin.
  assert (H0 : nth 0 (w1 ++ w2) 0 = 83) by (by rewrite <- Hw).
  destruct (lh_iteration_ready cb finished flush_hook fuel s) as (o1 & tv & Ho1 & ->);
    [apply Hc | rewrite Hin; destruct w1; [cbn in *; lia | done] | ].
  rewrite bind_get. match goal with |- context [lh_still_more ?t] => set (t1 := t) end.
  change (lh_still_more t1) with (lh_still_more s). rewrite Hsm. change (0 <? 0) with false. cbn iota.
  rewrite bind_ret. cbn iota. destruct fuel as [|fuel]; [lia|]. cbn [lh_messages].
  destruct (lh_message_part cb finished flush_hook fuel (w1 ++ w2) w1 _ t1 H0 Hn Hl1)
    as (s1 & E & Hi1 & Hfd1 & Hp1 & Hoff & Hmore & Hadd & Hfe & Hse & b & Hb & Hbl).
  { rewrite length_app. lia. } { by exists w2. } { exact Hc. } { cbn. by rewrite Ho1. }
  unfold mbind at 1, io_bind at 1. rewrite E. exists s1. split; [done|]. split; [done|]. split; [done|].
  intros o2 Ho2.
  destruct (lh_iteration_ready cb finished flush_hook (S fuel) (set_os o2 s1)) as (o3 & tv3 & Ho3 & ->);
    [exact Hfd1 | cbn; rewrite Ho2; destruct w2; [cbn in *; lia | done] |].
  rewrite bind_get. match goal with |- context [lh_still_more ?t] => set (t2 := t) end.
  change (lh_still_more t2) with (lh_still_more s1). rewrite Hmore.
  replace (Z.of_nat (length (w1 ++ w2)) - Z.of_nat (length w1)) with (Z.of_nat (length w2))
    in * by (rewrite length_app; lia).
  assert (Hpos : 0 <? Z.of_nat (length w2) = true) by (apply Z.ltb_lt; lia). rewrite Hpos.
  destruct (edge_len_to_rec_range _ _ Hn) as [Hrange _]. unfold rx_buf_size in Hbl.
  destruct (lh_rest_part cb finished flush_hook (S fuel) (w1 ++ w2) w1 w2 b FH_ERROR s1.(lh_seq_num)
    s1.(lh_feed) t2 eq_refl) as (s2 & E2 & Hfd2 & Hp2 & Hi2 & Hadd2 & _ & Hse2 & Hfe2);
    [rewrite !length_app in *; lia | exact Hfd1 | cbn; by rewrite Ho3 | exact Hoff | exact Hmore | exact Hb | done |].
  unfold mbind, io_bind. rewrite E2.
  destruct (lh_messages_end (cb:=cb) finished flush_hook (S fuel) s2) as (o4 & E4 & Ho4);
    [done | by rewrite Hp2 | done | lia |].
  rewrite E4. eexists. split; [reflexivity|]. split; [done|]. split; [exact (eq_trans Hse2 Hse)|].
  split; [cbn; by rewrite Hfe2, Hfe | cbn; by rewrite Hadd2].
Qed.

(** Half of the execution of an order, then the other half. *)
Definition demo_split : edge_sent :=
  MkSent (field 8 8 12345680) (EwOrderExecuted (replicate 12 65) (field 6 2 50) (replicate 21 48)).

Lemma edge_split_lost_witness :
  let cb := fh_edge_main_callbacks (edge_cfg false)
    (MkEdgeHooks None (Some (fun _ n => (FH_OK, n + 1))) (fun _ => None)) stream_os 38 demo_account in
  exists s1 s2, lh_iteration stream_os cb (fun _ => false) None 2
      (demo_lh (take 30 (edge_sent_wire demo_split))
         (MkFeed 1 0 stats_zero (MkTbl None None 0 0 ∅) (MkTbl None None 0 0 ∅) None NULL false 0)) = Some (tt, s1) /\
    lh_iteration stream_os cb (fun _ => false) None 2 (set_os (drop 30 (edge_sent_wire demo_split)) s1) =
      Some (tt, s2) /\
    s2.(lh_seq_num) = 1 /\ s2.(lh_feed).(fs_world) = 0 /\ s2.(lh_feed).(fs_stats).(messages) = 1.
Proof.
  intros cb.
  destruct (edge_split_lost stream_os 3 id stream_os_ok (edge_cfg false)
    (MkEdgeHooks None (Some (fun _ n => (FH_OK, n + 1))) (fun _ => None)) 38 demo_account (fun _ => false) None 2
    demo_split (take 30 (edge_sent_wire demo_split)) (drop 30 (edge_sent_wire demo_split))
    (demo_lh (take 30 (edge_sent_wire demo_split))
       (MkFeed 1 0 stats_zero (MkTbl None None 0 0 ∅) (MkTbl None None 0 0 ∅) None NULL false 0)))
    as (s1 & E1 & _ & _ & H).
  - by repeat split.
  - by rewrite take_drop.
  - reflexivity.
  - cbn. lia.
  - cbn. lia.
  - lia.
  - by repeat split.
  - done.
  - done.
  - destruct (H _ eq_refl) as (s2 & E2 & _ & Hs & Hf & _). exists s1, s2.
    split; [exact E1|]. split; [exact E2|]. split; [exact Hs|]. rewrite Hf. by split.
Defined.

(** ** Shutting down while the server is away *)

(** No attempt to connect succeeds. *)
Definition connect_fails {O W} (cb : tcp_cb O W) : Prop :=
  forall sock session seq o, exists rc sock' session' seq' o',
    cb.(cb_connect) sock session seq o = Some ((rc, sock', session', seq'), o') /\ rc <> FH_OK.

Section away.
Context {O W : Type} (os : syscall -> O -> sysret * O) (cb : tcp_cb O W) (finished : O -> bool).
Context (Hc : connect_fails cb).
Notation lh := (lh O W).

Lemma connect_failed (s : lh) : exists rc s', connect cb s = Some (rc, s') /\ rc <> FH_OK /\
  exists sock session seq o', cb.(cb_connect) s.(lh_socket) s.(lh_session) s.(lh_seq_num) s.(lh_os) =
    Some ((rc, sock, session, seq), o') /\ s' = set_conn sock session seq (set_os o' s).
Proof using Hc.
  destruct (Hc s.(lh_socket) s.(lh_session) s.(lh_seq_num) s.(lh_os)) as (rc & sock & sess & seq & o' & E & Hrc).
  exists rc, (set_conn sock sess seq (set_os o' s)). split; [|split; [done|]; by do 4 eexists].
  unfold connect, mbind, io_bind, get, lift, modify. cbn [id]. by rewrite E.
Qed.

Lemma connect_loop_stuck fuel : forall s : lh, connect_loop os cb fuel s = None.
Proof using Hc.
  induction fuel as [|fuel IH]; intros s; cbn [connect_loop];
    destruct (connect_failed s) as (rc & s' & E & Hrc & _); rewrite (bind_some _ _ _ _ _ E);
    rewrite eqb_false_of_ne by done; [done|].
  unfold mbind at 1, io_bind at 1. destruct (call _ _ _) as [[r s2]|]; [apply IH | done].
Qed.

Lemma dir_edge_reconnect_ends fuel (s : lh) : (forall o, finished o = true) ->
  exists s', dir_edge_reconnect os cb finished fuel s = Some (tt, s').
Proof using Hc.
  intros Hf.
  assert (Hloop : forall t : lh, exists t', reconnect_loop os cb finished fuel t = Some (tt, t')).
  { intros t. destruct (connect_failed t) as (rc & t' & E & Hrc & _). exists t'.
    destruct fuel; cbn [reconnect_loop]; rewrite (bind_some _ _ _ _ _ E), bind_get, Hf, orb_true_r; done. }
  unfold dir_edge_reconnect. rewrite bind_get.
  assert (Hcall : forall c (t : lh), call os c t = Some ((os c t.(lh_os)).1, set_os (os c t.(lh_os)).2 t)).
  { intros c t. unfold call, lift, sys. by destruct (os c t.(lh_os)). }
  destruct (lh_first_time s); [unfold alarm; rewrite bind_modify | rewrite bind_ret];
    rewrite bind_get, (bind_some _ _ _ _ _ (Hcall _ _)), bind_modify;
    match goal with |- exists s', (reconnect_loop _ _ _ _ ≫= _) ?t = _ =>
      destruct (Hloop t) as (t' & E); rewrite (bind_some _ _ _ _ _ E) end;
    rewrite bind_get, Hf; by eexists.
Qed.

End away.

(** An exit that is not seen. When the server is away and no attempt to
    connect succeeds, the loop that runs after the thread lost its connection
    in a [recv] or a [select] ends as soon as the line handler is told to
    exit; the one that runs after a heart beat could not be sent never ends,
    because it does not look: with any number of attempts the function that
    sends the heart beat does not return. *)
Theorem exit_not_seen {O W} (os : syscall -> O -> sysret * O) (cb : tcp_cb O W) finished (s : lh O W) :
  connect_fails cb -> (forall o, finished o = true) ->
  (os (SysSend s.(lh_socket) [82; 10] MSG_DONTWAIT) s.(lh_os)).1.(r_val) = -1 ->
  (os (SysSend s.(lh_socket) [82; 10] MSG_DONTWAIT) s.(lh_os)).1.(r_errno) = EPIPE ->
  (forall fuel, exists s', dir_edge_reconnect os cb finished fuel s = Some (tt, s')) /\
  (forall fuel, send_hb_msg os cb fuel s = None).
Proof.
  intros Hc Hf Hv He. split; intros fuel; [by apply dir_edge_reconnect_ends|].
  unfold send_hb_msg. rewrite bind_get. unfold call, lift, sys. unfold mbind at 1, io_bind at 1.
  destruct (os _ _) as [r o]. cbn [fst] in *. rewrite Hv, He. change (-1 =? 2) with false.
  change (EPIPE =? ECONNRESET) with false. rewrite Z.eqb_refl. cbn [negb orb andb].
  unfold mbind at 1, io_bind at 1. cbn [fst snd].
  destruct (os (SysClose _) _) as [r2 o2]. rewrite bind_modify.
  unfold mbind at 1, io_bind at 1. by rewrite connect_loop_stuck.
Qed.

(** A server that closed the connection and does not listen any more. *)
Definition gone_os (c : syscall) (u : unit) : sysret * unit :=
  match c with
  | SysSocket => (MkRet 3 0 [], u)
  | SysConnect _ _ _ => (MkRet (-1) 111 [], u)
  | SysSend _ _ _ => (MkRet (-1) EPIPE [], u)
  | _ => (MkRet 0 0 [], u)
  end.

Lemma exit_not_seen_witness :
  let cb := fh_edge_main_callbacks (edge_cfg false) edge_quiet gone_os 38 demo_account in
  let s := MkLh tt (edge_state (MkTbl None None 0 0 ∅)) 3 (replicate 10 32) 1 0 10 1 true [] 0 0 0 false 0 0 in
  (exists s', dir_edge_reconnect gone_os cb (fun _ => true) 0 s = Some (tt, s')) /\
  send_hb_msg gone_os cb 1000 s = None.
Proof.
  intros cb s.
  assert (Hc : connect_fails cb).
  { intros sock session seq []. unfold cb, fh_edge_main_callbacks. cbn [cb_connect].
    destruct (fh_edge_conn_login gone_os 38 demo_account sock session seq tt) as [[[[[rc a] b] c] d]|] eqn:E;
      vm_compute in E; [|discriminate E]. injection E as <- <- <- <- <-. by do 5 eexists. }
  destruct (exit_not_seen gone_os cb (fun _ => true) s Hc (fun _ => eq_refl) eq_refl eq_refl) as [H1 H2].
  split; [apply H1 | apply H2].
Defined.
