(* ===== verification/ArcaMsg.v ===== *)
(** * Arca messages
      ([src/feeds/arca/common/fh_arca_constants.h], [parse_packet_hdr.c],
      [multicast/common/parse_messages.c], [trade/common/parse_messages.c])

    The header of a packet and the bodies of its messages.  [buf] is the
    buffer a pointer points into, and the pointer its offset there. *)
From S2P Require Import Prelude Bytes Mpool.

(** ** Constants *)

Definition PACKET_MAX : Z := 1500.
Definition ARCAM_MSG_HDR_SIZE : Z := 16.
Definition ARCAM_REFRESH_MSG_HDR_SIZE : Z := 48.
Definition MSG_TYPE_OFFSET : Z := 2.
Definition MSG_NUM_OFFSET : Z := 4.
Definition SEND_TIME_IN_OFFSET : Z := 8.
Definition PRODUCT_ID_IN_OFFSET : Z := 12.
Definition RETRANS_FLAG_OFFSET : Z := 13.
Definition NUMBER_BODIES_OFFSET : Z := 14.
Definition SESSIONID_OFFSET : Z := 17.
Definition SYMBOLINDEX_OFFSET : Z := 18.
Definition LAST_SOURCE_SEQ_NUM_OFFSET : Z := 24.
Definition LST_MSG_SEQ_OFFSET : Z := 28.
Definition SYMBOL_OFFSET : Z := 32.
Definition ARCABOOK_SYMBOL_LENGTH : nat := 16.
Definition ARCABOOK_ATTRIBUTION_LENGTH : nat := 5.

(** [enum MESSAGE_TYPE]; [PACKET_LOSS] is redefined by a macro of
    [fh_notify_constants.h]. *)
Definition SEQUENCE_NUMBER_RESET : Z := 1.
Definition MESSAGE_UNAVAILABLE : Z := 5.
Definition BOOK_REFRESH : Z := 32.
Definition IMBALANCE_REFRESH : Z := 33.
Definition SYMBOL_MAPPING : Z := 35.
Definition SYMBOL_CLEAR : Z := 36.
Definition FIRM_MAPPING : Z := 37.
Definition ORDERS : Z := 99.
Definition ADD_ORDER : Z := 100.
Definition MODIFY_ORDER : Z := 101.
Definition DELETE_ORDER : Z := 102.
Definition IMBALANCE : Z := 103.
Definition TRADE : Z := 220.
Definition TRADE_CANCEL : Z := 221.
Definition TRADE_CORRECTION : Z := 222.
Definition ALERT : Z := 2.
Definition PACKET_LOSS : Z := 2.

Definition LOST_PACKETS : Z := 4.
Definition EXCHANGE_LOST_PACKETS : Z := 5.
Definition PARSE_ERROR : Z := 10.
Definition RUNT_PACKET : Z := 11.

(** The sizes of the exchange's structs ([ArcaL2Msg.h]); that of message
    unavailable without its header. *)
Definition sizeof_SequenceReset : Z := 4.
Definition sizeof_Unavailable_body : Z := 8.
Definition sizeof_BookOrder : Z := 28.
Definition sizeof_Imbalance : Z := 36.
Definition sizeof_SymbolUpdate : Z := 20.
Definition sizeof_SymbolClear : Z := 8.
Definition sizeof_FirmUpdate : Z := 12.
Definition sizeof_Delete : Z := 24.
Definition sizeof_Add : Z := 32.
Definition TRADE_LENGTH : Z := 52.
Definition TRADE_CANCEL_LENGTH : Z := 32.
Definition TRADE_CORRECTION_LENGTH : Z := 56.

(** ** Structs *)

Record msg_hdr := MkHdr {
  hd_msg_rcv_time : Z;
  hd_msg_seq_num : Z;
  hd_send_time : Z;
  hd_msg_size : Z;
  hd_msg_type : Z;
  hd_product_id : Z;
  hd_retrans_flag : Z;
  hd_num_body_entries : Z;
  hd_session_id : Z;               (* from here on for book refresh *)
  hd_last_source_seq_num : Z;
  hd_last_msg_seq : Z;
  hd_symbol_index : Z;
  hd_current_refresh_msg_seq : Z;
  hd_total_refresh_msg_seq : Z;
  hd_symbol : list Z
}.

(** The members of [struct msg_body] that are numbers or single characters,
    which are kept as bytes. *)
Inductive body_field :=
  | BPrice | BSourceSeqNum | BSourceTime | BOrderId | BVolume | BPriceNumerator
  | BTotalImbalance | BMarketImbalance | BNextSeqNumber | BBeginSeqNumber | BEndSeqNumber
  | BMsgSeqNum | BBuySideLinkId | BSellSideLinkId | BQuoteLinkId | BOriginalSrcSeqNum | BStatus
  | BPrimaryOrSecondary | BAlertType | BSymbolIndex | BFirmIndex | BMsgType | BAuctionTime
  | BPriceScaleCode | BSide | BExchangeId | BSecurityType | BSessionId | BAuctionType
  | BTradeCond1 | BTradeCond2 | BTradeCond3 | BTradeCond4.

#[export] Instance body_field_eq_dec : EqDecision body_field.
Proof. solve_decision. Defined.

Record msg_body := MkBody {
  bd_num : body_field -> Z;
  bd_symbol : list Z;
  bd_firm : list Z
}.

(** [memset(body, 0, sizeof(struct msg_body))] *)
Definition body_zero : msg_body :=
  MkBody (fun _ => 0) (replicate (S ARCABOOK_SYMBOL_LENGTH) 0)
    (replicate (S ARCABOOK_ATTRIBUTION_LENGTH) 0).

Definition body_set (f : body_field) (v : Z) (body : msg_body) : msg_body :=
  MkBody (fun f' => if decide (f' = f) then v else body.(bd_num) f') body.(bd_symbol) body.(bd_firm).

(** [memcpy] to the start of the symbol and of the firm. *)
Definition body_set_symbol (s : list Z) (body : msg_body) : msg_body :=
  MkBody body.(bd_num) (s ++ drop (length s) body.(bd_symbol)) body.(bd_firm).
Definition body_set_firm (s : list Z) (body : msg_body) : msg_body :=
  MkBody body.(bd_num) body.(bd_symbol) (s ++ drop (length s) body.(bd_firm)).

Definition hdr_zero : msg_hdr := MkHdr 0 0 0 0 0 0 0 0 0 0 0 0 0 0 (replicate 16 0).

(** ** Reading fields *)

(** [big_endian_16], [big_endian_32] and single bytes. *)
Definition big_endian (n : nat) (buf : list Z) (p : Z) : option Z :=
  bytes ← read_bytes buf p n; Some (be_val bytes).

(** A sequence of assignments [body->field = big_endian(msg_ptr + offset)]. *)
Fixpoint read_fields (buf : list Z) (p : Z) (fields : list (body_field * (Z * nat)))
    (body : msg_body) : option msg_body :=
  match fields with
  | [] => Some body
  | (f, (off, n)) :: fields =>
      v ← big_endian n buf (p + off);
      read_fields buf p fields (body_set f v body)
  end.

(** A message whose fields are read after a check of its length. *)
Definition parse_sized (size : Z) (fields : list (body_field * (Z * nat))) (body : msg_body)
    (buf : list Z) (p len : Z) : option (Z * msg_body) :=
  if len <? size then Some (0, body)
  else body ← read_fields buf p fields body; Some (size, body).

(** ** The header of a packet *)

(** The rest of the header is set before: [hdr] has the type and number
    already.  The refresh counts are read from where the symbol index is. *)
Definition parse_packet_hdr (pkthdr : msg_hdr) (buf : list Z) (p pktlngth rcv_time : Z)
    : option (Z * msg_hdr) :=
  if pktlngth <? ARCAM_MSG_HDR_SIZE then Some (-1, pkthdr)
  else
    msg_type ← big_endian 2 buf (p + MSG_TYPE_OFFSET);
    msg_seq_num ← big_endian 4 buf (p + MSG_NUM_OFFSET);
    send_time ← big_endian 4 buf (p + SEND_TIME_IN_OFFSET);
    msg_size ← big_endian 2 buf p;
    product_id ← byte_at buf (p + PRODUCT_ID_IN_OFFSET);
    retrans_flag ← byte_at buf (p + RETRANS_FLAG_OFFSET);
    num_body_entries ← byte_at buf (p + NUMBER_BODIES_OFFSET);
    let pkthdr := MkHdr rcv_time msg_seq_num send_time msg_size msg_type product_id retrans_flag
      num_body_entries pkthdr.(hd_session_id) pkthdr.(hd_last_source_seq_num)
      pkthdr.(hd_last_msg_seq) pkthdr.(hd_symbol_index) pkthdr.(hd_current_refresh_msg_seq)
      pkthdr.(hd_total_refresh_msg_seq) pkthdr.(hd_symbol) in
    if negb (msg_type =? BOOK_REFRESH) then Some (ARCAM_MSG_HDR_SIZE, pkthdr)
    else if pktlngth <? ARCAM_REFRESH_MSG_HDR_SIZE then Some (-1, pkthdr)
    else
      session_id ← byte_at buf (p + SESSIONID_OFFSET);
      symbol_index ← big_endian 2 buf (p + SYMBOLINDEX_OFFSET);
      last_source_seq_num ← big_endian 4 buf (p + LAST_SOURCE_SEQ_NUM_OFFSET);
      last_msg_seq ← big_endian 4 buf (p + LST_MSG_SEQ_OFFSET);
      symbol ← read_bytes buf (p + SYMBOL_OFFSET) ARCABOOK_SYMBOL_LENGTH;
      Some (ARCAM_REFRESH_MSG_HDR_SIZE,
            MkHdr rcv_time msg_seq_num send_time msg_size msg_type product_id retrans_flag
              num_body_entries session_id last_source_seq_num last_msg_seq symbol_index symbol_index
              symbol_index symbol).

(** ** Message bodies of ArcaBook *)

Definition parse_sequence_number_reset : msg_body -> list Z -> Z -> Z -> option (Z * msg_body) :=
  parse_sized sizeof_SequenceReset [(BNextSeqNumber, (0, 4%nat))].

Definition parse_message_unavailable : msg_body -> list Z -> Z -> Z -> option (Z * msg_body) :=
  parse_sized sizeof_Unavailable_body [(BBeginSeqNumber, (0, 4%nat)); (BEndSeqNumber, (4, 4%nat))].

Definition parse_book_refresh : msg_body -> list Z -> Z -> Z -> option (Z * msg_body) :=
  parse_sized sizeof_BookOrder
    [(BSourceSeqNum, (0, 4%nat)); (BSourceTime, (4, 4%nat)); (BOrderId, (8, 4%nat));
     (BVolume, (12, 4%nat)); (BPriceNumerator, (16, 4%nat)); (BPriceScaleCode, (20, 1%nat));
     (BSide, (21, 1%nat)); (BExchangeId, (22, 1%nat)); (BSecurityType, (23, 1%nat));
     (BFirmIndex, (24, 2%nat))].

(** The fields of an imbalance message after its first four. *)
Definition imbalance_fields : list (body_field * (Z * nat)) :=
  [(BVolume, (12, 4%nat)); (BTotalImbalance, (16, 4%nat)); (BMarketImbalance, (20, 4%nat));
   (BPriceNumerator, (24, 4%nat)); (BPriceScaleCode, (28, 1%nat)); (BAuctionType, (29, 1%nat));
   (BExchangeId, (30, 1%nat)); (BSecurityType, (31, 1%nat)); (BSessionId, (32, 1%nat));
   (BAuctionTime, (34, 2%nat))].

Definition order_fields : list (body_field * (Z * nat)) :=
  [(BSymbolIndex, (0, 2%nat)); (BMsgType, (2, 2%nat)); (BSourceSeqNum, (4, 4%nat));
   (BSourceTime, (8, 4%nat))].

Definition parse_imbalance_refresh : msg_body -> list Z -> Z -> Z -> option (Z * msg_body) :=
  parse_sized sizeof_Imbalance (order_fields ++ imbalance_fields).

Definition parse_symbol_mapping (body : msg_body) (buf : list Z) (p len : Z) : option (Z * msg_body) :=
  if len <? sizeof_SymbolUpdate then Some (0, body)
  else
    body ← read_fields buf p [(BSymbolIndex, (0, 2%nat)); (BSessionId, (2, 1%nat))] body;
    symbol ← read_bytes buf (p + 4) ARCABOOK_SYMBOL_LENGTH;
    Some (sizeof_SymbolUpdate, body_set_symbol symbol body).

Definition parse_symbol_clear : msg_body -> list Z -> Z -> Z -> option (Z * msg_body) :=
  parse_sized sizeof_SymbolClear
    [(BNextSeqNumber, (0, 4%nat)); (BSymbolIndex, (4, 2%nat)); (BSessionId, (6, 1%nat))].

Definition parse_firm_mapping (body : msg_body) (buf : list Z) (p len : Z) : option (Z * msg_body) :=
  if len <? sizeof_FirmUpdate then Some (0, body)
  else
    body ← read_fields buf p [(BFirmIndex, (0, 2%nat))] body;
    firm ← read_bytes buf (p + 7) ARCABOOK_ATTRIBUTION_LENGTH;
    Some (sizeof_FirmUpdate, body_set_firm firm body).

Definition add_fields : list (body_field * (Z * nat)) :=
  [(BOrderId, (12, 4%nat)); (BVolume, (16, 4%nat)); (BPriceNumerator, (20, 4%nat));
   (BPriceScaleCode, (24, 1%nat)); (BSide, (25, 1%nat)); (BExchangeId, (26, 1%nat));
   (BSecurityType, (27, 1%nat)); (BSessionId, (30, 1%nat)); (BFirmIndex, (28, 2%nat))].

Definition delete_fields : list (body_field * (Z * nat)) :=
  [(BOrderId, (12, 4%nat)); (BSide, (16, 1%nat)); (BExchangeId, (17, 1%nat));
   (BSecurityType, (18, 1%nat)); (BSessionId, (19, 1%nat)); (BFirmIndex, (20, 2%nat))].

(** A type it does not know is reported as one byte consumed. *)
Definition parse_orders (body : msg_body) (buf : list Z) (p len : Z) : option (Z * msg_body) :=
  if len <? sizeof_Delete then Some (0, body)
  else
    body ← read_fields buf p order_fields body;
    let msg_type := body.(bd_num) BMsgType in
    if (msg_type =? MODIFY_ORDER) || (msg_type =? ADD_ORDER) then
      parse_sized sizeof_Add add_fields body buf p len
    else if msg_type =? DELETE_ORDER then
      body ← read_fields buf p delete_fields body; Some (sizeof_Delete, body)
    else if msg_type =? IMBALANCE then
      parse_sized sizeof_Imbalance imbalance_fields body buf p len
    else Some (1, body).

(** ** Message bodies of ArcaTrade *)

(** [make_price]: a price with [scale] decimals to one with six. *)
Definition make_price (scale value : Z) : Z :=
  let result := value in
  let shift_count := 6 - scale in
  if 0 <? shift_count then
    u64 (result * (if shift_count =? 1 then 10
                   else if shift_count =? 2 then 100
                   else if shift_count =? 3 then 1000
                   else if shift_count =? 4 then 10000
                   else if shift_count =? 5 then 100000
                   else 1000000))
  else result.

(** The end of a trade or its correction: the symbol and the price. *)
Definition trade_end (symbol_off : Z) (size : Z) (body : msg_body) (buf : list Z) (p : Z)
    : option (Z * msg_body) :=
  symbol ← read_bytes buf (p + symbol_off) ARCABOOK_SYMBOL_LENGTH;
  let body := body_set_symbol symbol body in
  Some (size, body_set BPrice (make_price (body.(bd_num) BPriceScaleCode)
                                 (body.(bd_num) BPriceNumerator)) body).

Definition parse_trade (body : msg_body) (buf : list Z) (p len : Z) : option (Z * msg_body) :=
  if len <? TRADE_LENGTH then Some (0, body)
  else
    body ← read_fields buf p
      [(BSourceTime, (0, 4%nat)); (BBuySideLinkId, (4, 4%nat)); (BSellSideLinkId, (8, 4%nat));
       (BPriceNumerator, (12, 4%nat)); (BVolume, (16, 4%nat)); (BSourceSeqNum, (20, 4%nat));
       (BSessionId, (24, 1%nat)); (BPriceScaleCode, (25, 1%nat)); (BExchangeId, (26, 1%nat));
       (BSecurityType, (27, 1%nat)); (BTradeCond1, (28, 1%nat)); (BTradeCond2, (29, 1%nat));
       (BTradeCond3, (30, 1%nat)); (BTradeCond4, (31, 1%nat)); (BQuoteLinkId, (48, 4%nat))] body;
    trade_end 32 TRADE_LENGTH body buf p.

Definition parse_trade_cancel (body : msg_body) (buf : list Z) (p len : Z) : option (Z * msg_body) :=
  if len <? TRADE_CANCEL_LENGTH then Some (0, body)
  else
    body ← read_fields buf p
      [(BSourceTime, (0, 4%nat)); (BSourceSeqNum, (4, 4%nat)); (BOriginalSrcSeqNum, (8, 4%nat));
       (BSessionId, (12, 1%nat)); (BExchangeId, (13, 1%nat)); (BSecurityType, (14, 1%nat))] body;
    symbol ← read_bytes buf (p + 16) ARCABOOK_SYMBOL_LENGTH;
    Some (TRADE_CANCEL_LENGTH, body_set_symbol symbol body).

Definition parse_trade_correction (body : msg_body) (buf : list Z) (p len : Z)
    : option (Z * msg_body) :=
  if len <? TRADE_CORRECTION_LENGTH then Some (0, body)
  else
    body ← read_fields buf p
      [(BSourceTime, (0, 4%nat)); (BBuySideLinkId, (4, 4%nat)); (BSellSideLinkId, (8, 4%nat));
       (BPriceNumerator, (12, 4%nat)); (BVolume, (16, 4%nat)); (BSourceSeqNum, (20, 4%nat));
       (BOriginalSrcSeqNum, (24, 4%nat)); (BSessionId, (28, 1%nat)); (BPriceScaleCode, (29, 1%nat));
       (BExchangeId, (30, 1%nat)); (BSecurityType, (31, 1%nat)); (BTradeCond1, (32, 1%nat));
       (BTradeCond2, (33, 1%nat)); (BTradeCond3, (34, 1%nat)); (BTradeCond4, (35, 1%nat));
       (BQuoteLinkId, (52, 4%nat))] body;
    trade_end 36 TRADE_CORRECTION_LENGTH body buf p.
