(* ===== verification/ArcaGroup.v ===== *)
(** * The feed group and its publications
      ([src/feeds/arca/common/fh_feed_group.h], [multicast/common/publications.c],
      [trade/common/publications.c])

    A feed group is what an Arca feed handler keeps for a line: the numbers
    expected on its two feeds, the window of missing numbers, counters and
    buffers.  Everything it learns goes to plugins, whose state is [W]. *)
From S2P Require Import Prelude Bytes Mpool ArcaMsg.

(** ** State *)

(** [MISSING_SIZE] words of 64 bits *)
Definition MISSING_SIZE : Z := 256 * 128.
Definition MISSING_RANGE : Z := MISSING_SIZE * 64.

(** The members [missing_*]; a word that is not in the map is 0. *)
Record missing_window := MkMissing {
  missing_sequence : gmap Z Z;
  missing_base : Z;
  missing_count : Z;
  missing_lowest : Z;
  missing_highest : Z
}.

(** The counters, those of a feed with [primary_or_secondary]. *)
Inductive arca_counter :=
  | MissingPacketIncidence | MissingMessageRange | UnrecoverableMessages | LossOfInSequence
  | RestoralOfInSequence | PacketsLostIncidence | SymbolTableError | FirmTableError
  | PublicationFailed | PublicationSucceeded
  | PcktRcvd (feed : Z) | BytesRcvd (feed : Z) | MsgsRcvd (feed : Z) | PktFormatErrors (feed : Z)
  | PktDuplicate (feed : Z).

#[export] Instance arca_counter_eq_dec : EqDecision arca_counter.
Proof. solve_decision. Defined.

Record arca_cfg := MkArcaCfg {
  notification_line_id : Z;
  primary_on_line : bool;
  secondary_on_line : bool;
  primary_retran_tcp_socket : Z;
  fast_mode : Z
}.

Record feed_group (W : Type) := MkGroup {
  fg_missing : missing_window;
  fg_primary_expected : Z;
  fg_secondary_expected : Z;
  fg_in_sequence : bool;
  fg_count : arca_counter -> Z;
  fg_cfg : arca_cfg;
  fg_fast_buffers : list Z * list Z;   (* primary_fast_buffer, secondary_fast_buffer *)
  fg_buffers : list Z * list Z;        (* primary_buffer, secondary_buffer *)
  fg_world : W
}.
Arguments MkGroup {W}.
Arguments fg_missing {W}.
Arguments fg_primary_expected {W}.
Arguments fg_secondary_expected {W}.
Arguments fg_in_sequence {W}.
Arguments fg_count {W}.
Arguments fg_cfg {W}.
Arguments fg_fast_buffers {W}.
Arguments fg_buffers {W}.
Arguments fg_world {W}.

(** ** Plugins *)

(** The space a message is packed into: the function's own, or one from the
    [arca_msg_init] hook. *)
Inductive msg_space := LocalSpace | PluginSpace (p : Z).

(** The publications of a message with a header; the space is passed by value
    except for the two refreshes, whose hooks may replace it. *)
Inductive arca_kind :=
  | AkSymbolClear | AkBookRefresh | AkImbalanceRefresh | AkSymbolMapping | AkFirmMapping
  | AkAddOrder | AkModifyOrder | AkDeleteOrder | AkImbalance | AkSequenceReset
  | AkTrade | AkCancelTrade | AkCorrectTrade.

(** The registered hooks.  A status is the first result of each. *)
Record arca_hooks (W : Type) := MkArcaHooks {
  plug_add_symbol : option (msg_body -> W -> Z * W);
  plug_add_firm : option (msg_body -> W -> Z * W);
  plug_add_order : option (msg_body -> W -> Z * W);
  plug_mod_order : option (msg_body -> W -> Z * W);
  plug_del_order : option (msg_body -> W -> Z * W);
  (* the string found, without its NUL *)
  plug_lookup_symbol : option (msg_body -> W -> Z * list Z * W);
  plug_lookup_firm : option (msg_body -> W -> Z * list Z * W);
  plug_lookup_order : option (msg_body -> W -> Z * Z * W);
  (* an order and the old value; the new value *)
  plug_get_volume : option (Z -> Z -> W -> Z * Z * W);
  plug_get_price : option (Z -> Z -> W -> Z * Z * W);
  plug_get_side : option (Z -> Z -> W -> Z * Z * W);
  arca_send_msg : option (msg_space -> Z -> msg_body -> W -> Z * W);
  arca_msg_flush : option (W -> Z * W);
  arca_msg_init : option (option msg_hdr -> msg_body -> W -> Z * (Z * Z) * W);
  arca_publish : arca_kind -> option (msg_hdr -> msg_body -> msg_space -> Z -> W -> Z * (msg_space * Z) * W);
  arca_feed_alert : option (msg_body -> msg_space -> Z -> W -> Z * W);
  arca_pkt_loss : option (msg_body -> msg_space -> Z -> W -> Z * W)
}.
Arguments MkArcaHooks {W}.
Arguments plug_add_symbol {W}.
Arguments plug_add_firm {W}.
Arguments plug_add_order {W}.
Arguments plug_mod_order {W}.
Arguments plug_del_order {W}.
Arguments plug_lookup_symbol {W}.
Arguments plug_lookup_firm {W}.
Arguments plug_lookup_order {W}.
Arguments plug_get_volume {W}.
Arguments plug_get_price {W}.
Arguments plug_get_side {W}.
Arguments arca_send_msg {W}.
Arguments arca_msg_flush {W}.
Arguments arca_msg_init {W}.
Arguments arca_publish {W}.
Arguments arca_feed_alert {W}.
Arguments arca_pkt_loss {W}.

(** No hooks. *)
Definition arca_no_hooks {W} : arca_hooks W :=
  MkArcaHooks None None None None None None None None None None None None None None
    (fun _ => None) None None.

Section group.
Context {W : Type} (hooks : arca_hooks W).
(** What an uninitialised [struct msg_body] on the stack holds. *)
Context (stack_body : msg_body).
Notation group_t := (feed_group W).

Definition set_missing w (g : group_t) : group_t := MkGroup w g.(fg_primary_expected)
  g.(fg_secondary_expected) g.(fg_in_sequence) g.(fg_count) g.(fg_cfg) g.(fg_fast_buffers)
  g.(fg_buffers) g.(fg_world).
(** The expected number of the primary feed, or of the secondary one. *)
Definition set_expected (secondary : bool) v (g : group_t) : group_t := MkGroup g.(fg_missing)
  (if secondary then g.(fg_primary_expected) else v)
  (if secondary then v else g.(fg_secondary_expected)) g.(fg_in_sequence) g.(fg_count) g.(fg_cfg)
  g.(fg_fast_buffers) g.(fg_buffers) g.(fg_world).
Definition set_in_seq v (g : group_t) : group_t := MkGroup g.(fg_missing) g.(fg_primary_expected)
  g.(fg_secondary_expected) v g.(fg_count) g.(fg_cfg) g.(fg_fast_buffers) g.(fg_buffers)
  g.(fg_world).
Definition count_arca c n (g : group_t) : group_t := MkGroup g.(fg_missing) g.(fg_primary_expected)
  g.(fg_secondary_expected) g.(fg_in_sequence)
  (fun c' => if decide (c' = c) then u64 (g.(fg_count) c' + n) else g.(fg_count) c') g.(fg_cfg)
  g.(fg_fast_buffers) g.(fg_buffers) g.(fg_world).
Definition set_group_world w (g : group_t) : group_t := MkGroup g.(fg_missing)
  g.(fg_primary_expected) g.(fg_secondary_expected) g.(fg_in_sequence) g.(fg_count) g.(fg_cfg)
  g.(fg_fast_buffers) g.(fg_buffers) w.
Definition set_buffers fast unpacked (g : group_t) : group_t := MkGroup g.(fg_missing)
  g.(fg_primary_expected) g.(fg_secondary_expected) g.(fg_in_sequence) g.(fg_count) g.(fg_cfg)
  fast unpacked g.(fg_world).

Definition build_summary_status (g : group_t) : Z :=
  let unrecoverable := g.(fg_count) UnrecoverableMessages in
  let s := g.(fg_cfg).(notification_line_id) in
  let s := if g.(fg_in_sequence) then Z.lor s 0x20000000 else s in
  let s := if unrecoverable =? 0 then Z.lor s 0x10000000 else s in
  let s := if g.(fg_cfg).(primary_on_line) then Z.lor s 0x8000000 else s in
  let s := if g.(fg_cfg).(secondary_on_line) then Z.lor s 0x4000000 else s in
  let s := if 0 <? g.(fg_cfg).(primary_retran_tcp_socket) then Z.lor s 0x2000000 else s in
  let s := if 0xffffff <? unrecoverable then Z.lor s 0x1000000 else s in
  Z.lor s (Z.land unrecoverable 0xffffff).

Definition with_status (g : group_t) (body : msg_body) : msg_body :=
  body_set BStatus (u32 (build_summary_status g)) body.

(** ** Packing and sending *)

(** The space of a message: a status that is not [FH_OK] ends the publication. *)
Definition init_space (hdr : option msg_hdr) (body : msg_body) (w : W)
    : Z * (msg_space * Z) * W :=
  match hooks.(arca_msg_init) with
  | Some init => let '(rc, (p, size), w) := init hdr body w in (rc, (PluginSpace p, size), w)
  | None => (FH_OK, (LocalSpace, 512), w)
  end.

(** Sending what a hook packed; the outcome is counted. *)
Definition send_packed (rc : Z) (space : msg_space) (size : Z) (body : msg_body) (g : group_t)
    : Z * group_t :=
  match hooks.(arca_send_msg) with
  | Some send =>
      if rc =? FH_OK then
        let '(rc, w) := send space size body g.(fg_world) in
        let g := set_group_world w g in
        (rc, count_arca (if rc =? FH_OK then PublicationSucceeded else PublicationFailed) 1 g)
      else (rc, g)
  | None => (rc, g)
  end.

(** The end of every [publish_*] function with a header: [status_after] says
    that the status word is computed after the space was set up, and
    [by_reference] that the hook may replace the space, as in the refreshes,
    which do not report the hook's status. *)
Definition pack_and_send (kind : arca_kind) (status_after by_reference : bool) (hdr : msg_hdr)
    (body : msg_body) (g : group_t) : Z * group_t :=
  match hooks.(arca_publish) kind with
  | None => (FH_OK, g)
  | Some pack =>
      let '(rc, (space, size), w) := init_space (Some hdr) body g.(fg_world) in
      let g := set_group_world w g in
      if negb (rc =? FH_OK) then (rc, g)
      else
        let body := if status_after then with_status g body else body in
        let '(rc, (space', size'), w) := pack hdr body space size g.(fg_world) in
        let g := set_group_world w g in
        if by_reference then (FH_OK, (send_packed rc space' size' body g).2)
        else send_packed rc space size body g
  end.

(** ** Alerts *)

(** [publish_feed_alert] and [publish_packet_loss]. *)
Definition publish_body (hook : option (msg_body -> msg_space -> Z -> W -> Z * W)) (body : msg_body)
    (w : W) : Z * W :=
  match hook with
  | None => (FH_OK, w)
  | Some alert =>
      let '(rc, (space, size), w) := init_space None body w in
      if negb (rc =? FH_OK) then (rc, w)
      else
        let '(rc, w) := alert body space size w in
        match hooks.(arca_send_msg) with
        | Some send => if rc =? FH_OK then send space size body w else (rc, w)
        | None => (rc, w)
        end
  end.

Definition publish_feed_alert : msg_body -> W -> Z * W := publish_body hooks.(arca_feed_alert).
Definition publish_packet_loss : msg_body -> W -> Z * W := publish_body hooks.(arca_pkt_loss).

(** The outcome of an alert is counted. *)
Definition count_publication (rc : Z) (g : group_t) : group_t :=
  count_arca (if rc =? FH_OK then PublicationSucceeded else PublicationFailed) 1 g.

Definition send_alert (notificationtype : Z) (g : group_t) : group_t :=
  let body := body_set BMsgType ALERT stack_body in
  let body := body_set BAlertType notificationtype body in
  let body := with_status g body in
  let '(rc, w) := publish_feed_alert body g.(fg_world) in
  count_publication rc (set_group_world w g).

(** The numbers are passed as [int]s. *)
Definition notify_packet_loss (notificationtype missing_sequence gapsize primary_or_secondary : Z)
    (g : group_t) : group_t :=
  let missing_sequence := s32 missing_sequence in
  let gapsize := s32 gapsize in
  let body := with_status g stack_body in
  let body := body_set BMsgType PACKET_LOSS body in
  let body := body_set BAlertType notificationtype body in
  let body := body_set BPrimaryOrSecondary primary_or_secondary body in
  let body := body_set BBeginSeqNumber (u32 missing_sequence) body in
  let body := body_set BEndSeqNumber (u32 (missing_sequence + gapsize - 1)) body in
  let '(rc, w) := publish_packet_loss body g.(fg_world) in
  count_publication rc (set_group_world w g).

(** [parse_error] and [runt_packet_error], which differ in the alert. *)
Definition packet_error (alert_type sequence num_bodies missing primary_or_secondary : Z)
    (g : group_t) : group_t :=
  let body := with_status g stack_body in
  let body := body_set BMsgType ALERT body in
  let body := body_set BPrimaryOrSecondary primary_or_secondary body in
  let body := body_set BMsgSeqNum sequence body in
  let body := body_set BBeginSeqNumber (u32 num_bodies) body in
  let body := body_set BEndSeqNumber (u32 missing) body in
  let body := body_set BAlertType alert_type body in
  let '(rc, w) := publish_feed_alert body g.(fg_world) in
  count_publication rc (set_group_world w g).

Definition parse_error : Z -> Z -> Z -> Z -> group_t -> group_t := packet_error PARSE_ERROR.
Definition runt_packet_error : Z -> Z -> Z -> Z -> group_t -> group_t := packet_error RUNT_PACKET.

Definition msg_flush (g : group_t) : Z * group_t :=
  match hooks.(arca_msg_flush) with
  | Some flush => let '(rc, w) := flush g.(fg_world) in (rc, set_group_world w g)
  | None => (FH_OK, g)
  end.

(** ** Tables of the plugins *)

(** The symbol or firm of a message is looked up and copied with its NUL;
    [None] is a copy past the end of the member. *)
Definition lookup_symbol (clear : bool) (body : msg_body) (g : group_t) : option (msg_body * group_t) :=
  match hooks.(plug_lookup_symbol) with
  | None => Some (body, g)
  | Some lookup =>
      let '(rc, symbol, w) := lookup body g.(fg_world) in
      let g := set_group_world w g in
      if rc =? FH_OK then
        guard_ub (Z.of_nat (length symbol) <? 17) (Some (body_set_symbol (symbol ++ [0]) body, g))
      else Some (if clear then body_set_symbol [0] body else body, count_arca SymbolTableError 1 g)
  end.

Definition lookup_firm (body : msg_body) (g : group_t) : option (msg_body * group_t) :=
  match hooks.(plug_lookup_firm) with
  | None => Some (body, g)
  | Some lookup =>
      let '(rc, firm, w) := lookup body g.(fg_world) in
      let g := set_group_world w g in
      if rc =? FH_OK then
        guard_ub (Z.of_nat (length firm) <? 6) (Some (body_set_firm (firm ++ [0]) body, g))
      else Some (body, count_arca FirmTableError 1 g)
  end.

(** A hook that keeps a table up to date; [counted] is the counter of its
    failures, if there is one. *)
Definition update_table (hook : option (msg_body -> W -> Z * W)) (counted : option arca_counter)
    (body : msg_body) (g : group_t) : Z * group_t :=
  match hook with
  | None => (FH_OK, g)
  | Some f =>
      let '(rc, w) := f body g.(fg_world) in
      let g := set_group_world w g in
      match counted with
      | Some c => if negb (rc =? FH_OK) then (rc, count_arca c 1 g) else (rc, g)
      | None => (rc, g)
      end
  end.

(** ** The publications of ArcaBook *)

Definition publish_symbol_clear (hdr : msg_hdr) (body : msg_body) (g : group_t)
    : option (Z * group_t) :=
  let body := with_status g body in
  match hooks.(arca_publish) AkSymbolClear with
  | None => Some (FH_OK, g)
  | Some _ =>
      '(body, g) ← lookup_symbol true body g;
      Some (pack_and_send AkSymbolClear false false hdr body g)
  end.

Definition publish_book_refresh (hdr : msg_hdr) (body : msg_body) (g : group_t) : Z * group_t :=
  match hooks.(arca_publish) AkBookRefresh with
  | None => (FH_OK, g)
  | Some _ =>
      let body := with_status g body in
      let body := body_set BSessionId hdr.(hd_session_id) body in
      match hooks.(plug_add_symbol) with
      | Some add =>
          if hdr.(hd_current_refresh_msg_seq) =? 1 then
            let body := body_set BSymbolIndex hdr.(hd_symbol_index) body in
            let body := body_set_symbol hdr.(hd_symbol) body in
            let '(_, g) := update_table (Some add) (Some SymbolTableError) body g in
            pack_and_send AkBookRefresh false true hdr body g
          else pack_and_send AkBookRefresh false true hdr body g
      | None => pack_and_send AkBookRefresh false true hdr body g
      end
  end.

Definition publish_imbalance_refresh (hdr : msg_hdr) (body : msg_body) (g : group_t) : Z * group_t :=
  pack_and_send AkImbalanceRefresh false true hdr (with_status g body) g.

Definition publish_symbol_mapping (hdr : msg_hdr) (body : msg_body) (g : group_t) : Z * group_t :=
  let body := with_status g body in
  let '(rc, g) := update_table hooks.(plug_add_symbol) (Some SymbolTableError) body g in
  match hooks.(arca_publish) AkSymbolMapping with
  | None => (rc, g)
  | Some _ => pack_and_send AkSymbolMapping false false hdr body g
  end.

Definition publish_firm_mapping (hdr : msg_hdr) (body : msg_body) (g : group_t) : Z * group_t :=
  let body := with_status g body in
  let '(rc, g) := update_table hooks.(plug_add_firm) (Some FirmTableError) body g in
  match hooks.(arca_publish) AkFirmMapping with
  | None => (rc, g)
  | Some _ => pack_and_send AkFirmMapping false false hdr body g
  end.

(** New and modified orders: the names are looked up, the order table of the
    plugins is updated, and the message published. *)
Definition publish_order (kind : arca_kind) (table : option (msg_body -> W -> Z * W)) (hdr : msg_hdr)
    (body : msg_body) (g : group_t) : option (Z * group_t) :=
  let body := with_status g body in
  match hooks.(arca_publish) kind with
  | None => Some (FH_OK, g)
  | Some _ =>
      '(body, g) ← lookup_symbol false body g;
      '(body, g) ← lookup_firm body g;
      let '(_, g) := update_table table None body g in
      Some (pack_and_send kind false false hdr body g)
  end.

Definition publish_add_order : msg_hdr -> msg_body -> group_t -> option (Z * group_t) :=
  publish_order AkAddOrder hooks.(plug_add_order).
Definition publish_mod_order : msg_hdr -> msg_body -> group_t -> option (Z * group_t) :=
  publish_order AkModifyOrder hooks.(plug_mod_order).

(** What the order table of the plugins knows of a deleted order. *)
Definition deleted_order (body : msg_body) (g : group_t) : msg_body * group_t :=
  match hooks.(plug_lookup_order) with
  | None => (body, g)
  | Some lookup =>
      let '(rc, order, w) := lookup body g.(fg_world) in
      let g := set_group_world w g in
      if (rc =? FH_OK) && negb (order =? NULL) then
        let '(body, w) :=
          match hooks.(plug_get_volume) with
          | Some get => let '(_, v, w) := get order (body.(bd_num) BVolume) w in (body_set BVolume v body, w)
          | None => (body, w)
          end in
        let '(body, w) :=
          match hooks.(plug_get_price) with
          | Some get =>
              let '(rc, v, w) := get order (body.(bd_num) BPrice) w in
              let body := body_set BPrice v body in
              (if rc =? FH_OK then
                 body_set BPriceScaleCode 4 (body_set BPriceNumerator (u32 (v / 100)) body)
               else body, w)
          | None => (body, w)
          end in
        let '(body, w) :=
          match hooks.(plug_get_side) with
          | Some get => let '(_, v, w) := get order (body.(bd_num) BSide) w in (body_set BSide v body, w)
          | None => (body, w)
          end in
        (body, set_group_world w g)
      else (body, g)
  end.

Definition publish_del_order (hdr : msg_hdr) (body : msg_body) (g : group_t) : option (Z * group_t) :=
  let body := with_status g body in
  match hooks.(arca_publish) AkDeleteOrder with
  | None => Some (FH_OK, g)
  | Some _ =>
      '(body, g) ← lookup_symbol false body g;
      '(body, g) ← lookup_firm body g;
      let '(body, g) :=
        match hooks.(plug_del_order) with
        | None => (body, g)
        | Some del =>
            let '(body, g) := deleted_order body g in
            let '(_, g) := update_table (Some del) None body g in (body, g)
        end in
      Some (pack_and_send AkDeleteOrder false false hdr body g)
  end.

Definition publish_imbalance (hdr : msg_hdr) (body : msg_body) (g : group_t) : option (Z * group_t) :=
  let body := with_status g body in
  match hooks.(arca_publish) AkImbalance with
  | None => Some (FH_OK, g)
  | Some _ =>
      '(body, g) ← lookup_symbol false body g;
      Some (pack_and_send AkImbalance false false hdr body g)
  end.

Definition publish_start_of_day (hdr : msg_hdr) (body : msg_body) (g : group_t) : Z * group_t :=
  pack_and_send AkSequenceReset false false hdr (with_status g body) g.

(** ** The publications of ArcaTrade *)

Definition publish_trade : msg_hdr -> msg_body -> group_t -> Z * group_t :=
  pack_and_send AkTrade true false.
Definition publish_trade_cancel : msg_hdr -> msg_body -> group_t -> Z * group_t :=
  pack_and_send AkCancelTrade true false.
Definition publish_trade_correction : msg_hdr -> msg_body -> group_t -> Z * group_t :=
  pack_and_send AkCorrectTrade true false.
(** ArcaTrade's own version of [publish_start_of_day]. *)
Definition trade_start_of_day : msg_hdr -> msg_body -> group_t -> Z * group_t :=
  pack_and_send AkSequenceReset true false.

End group.
