(* ===== verification/ArcaSeq.v ===== *)
(** * Arbitrating the two feeds of a line
      ([src/feeds/arca/common/fh_feed_group.c], [fh_feed_group.h],
      [seq_handling.c])

    The exchange sends every packet on a primary and a secondary feed.
    [need_2_publish] decides whether a packet is the first with its number;
    numbers that neither feed has brought are kept in a window of bits. *)
From S2P Require Import Prelude Bytes Mpool ArcaMsg ArcaGroup.

(** ** The window of missing numbers *)

(** Bit masks: [1LL, 2LL, 4LL, ...] *)
Definition missing_modulos : list Z := Z.shiftl 1 <$> seqZ 0 64.

Definition missing_zero : missing_window := MkMissing ∅ 0 0 0 0.

(** [missing_sequence[offset]] *)
Definition missing_word (w : missing_window) (offset : Z) : option Z :=
  guard_ub ((0 <=? offset) && (offset <? MISSING_SIZE))
    (Some (default 0 (w.(missing_sequence) !! offset))).

Definition set_word offset v (w : missing_window) : missing_window :=
  MkMissing (<[offset := v]> w.(missing_sequence)) w.(missing_base) w.(missing_count)
    w.(missing_lowest) w.(missing_highest).
Definition set_bounds base lowest highest (w : missing_window) : missing_window :=
  MkMissing w.(missing_sequence) base w.(missing_count) lowest highest.
Definition set_count count (w : missing_window) : missing_window :=
  MkMissing w.(missing_sequence) w.(missing_base) count w.(missing_lowest) w.(missing_highest).

(** The word and the bit of a number. *)
Definition missing_offset (w : missing_window) (sequence_number : Z) : Z :=
  Z.shiftr (u32 (sequence_number - w.(missing_base))) 6.
Definition missing_mask (w : missing_window) (sequence_number : Z) : option Z :=
  missing_modulos !! Z.to_nat (u32 (sequence_number - w.(missing_base)) mod 64).

Definition is_missing_empty (w : missing_window) : bool := w.(missing_count) =? 0.

Definition is_sequence_in_missing (in_sequence : bool) (w : missing_window) (sequence_number : Z)
    : option bool :=
  if in_sequence || (u32 (w.(missing_lowest) + MISSING_RANGE) <=? sequence_number)
     || (sequence_number <? w.(missing_lowest)) then Some false
  else if sequence_number <? w.(missing_base) then Some false
  else
    mask ← missing_mask w sequence_number;
    word ← missing_word w (missing_offset w sequence_number);
    Some (negb (Z.land word mask =? 0)).

(** The search for the next lowest number, from [ix]. *)
Fixpoint next_missing (fuel : nat) (in_sequence : bool) (ix : Z) (w : missing_window)
    : option missing_window :=
  if ix <=? s32 w.(missing_highest) then
    match fuel with
    | 0%nat => None
    | S fuel =>
        found ← is_sequence_in_missing in_sequence w (u32 ix);
        if (found : bool) then Some (set_bounds w.(missing_base) (u32 ix) w.(missing_highest) w)
        else next_missing fuel in_sequence (s32 (ix + 1)) w
    end
  else Some w.

Definition remove_sequence_from_missing (in_sequence : bool) (w : missing_window)
    (sequence_number : Z) : option (Z * missing_window) :=
  if w.(missing_count) =? 0 then Some (-1, w)
  else if sequence_number <? w.(missing_base) then Some (-1, w)
  else if (u32 (w.(missing_base) + MISSING_RANGE) <=? sequence_number)
          || (sequence_number <? w.(missing_base)) then Some (-1, w)
  else
    let offset := missing_offset w sequence_number in
    mask ← missing_mask w sequence_number;
    word ← missing_word w offset;
    let w := set_word offset (Z.land word (Z.lxor mask 0xffffffffffffffff)) w in
    let w := set_count (u32 (w.(missing_count) - 1)) w in
    if sequence_number <=? w.(missing_lowest) then
      if 0 <? w.(missing_count) then
        w ← next_missing (Z.to_nat (w.(missing_highest) - sequence_number)) in_sequence
              (s32 (sequence_number + 1)) w;
        Some (0, w)
      else Some (0, set_bounds w.(missing_base) 0 w.(missing_highest) w)
    else Some (0, w).

(** The loop that sets the bits of [sequ], ..., [nextPktSeq]. *)
Fixpoint add_sequences (fuel : nat) (sequ nextPktSeq : Z) (w : missing_window)
    : option missing_window :=
  if sequ <=? nextPktSeq then
    match fuel with
    | 0%nat => None
    | S fuel =>
        let offset := missing_offset w sequ in
        mask ← missing_mask w sequ;
        word ← missing_word w offset;
        add_sequences fuel (u32 (sequ + 1)) nextPktSeq (set_word offset (Z.lor word mask) w)
    end
  else Some w.

Definition add_sequences_2_missing (first_sequence count : Z) (w : missing_window)
    : option (Z * missing_window) :=
  if first_sequence <=? w.(missing_base) then Some (-1, w)
  else
    let nextPktSeq := u32 (first_sequence + count - 1) in
    let w := if w.(missing_count) =? 0 then
               MkMissing ∅ first_sequence w.(missing_count) first_sequence nextPktSeq
             else w in
    let w := if w.(missing_highest) <=? nextPktSeq then
               set_bounds w.(missing_base) w.(missing_lowest) nextPktSeq w
             else w in
    w ← add_sequences (Z.to_nat count) first_sequence nextPktSeq w;
    Some (0, set_count (u32 (w.(missing_count) + count)) w).

Section seq.
Context {W : Type} (hooks : arca_hooks W) (stack_body : msg_body).
Notation group_t := (feed_group W).
Notation send_alert := (send_alert hooks stack_body).
Notation notify_packet_loss := (notify_packet_loss hooks stack_body).

(** ** State changes *)

Definition init_missing (g : group_t) : group_t := set_missing missing_zero g.

Definition set_in_sequence (g : group_t) : group_t :=
  count_arca RestoralOfInSequence 1 (send_alert 1 (set_in_seq true g)).

Definition set_out_of_sequence (g : group_t) : group_t :=
  count_arca LossOfInSequence 1 (send_alert 1 (set_in_seq false g)).

Definition add_missing (first_sequence count : Z) (g : group_t) : option group_t :=
  '(_, w) ← add_sequences_2_missing first_sequence count g.(fg_missing); Some (set_missing w g).

(** ** Gaps *)

(** A gap while in sequence.  The locals [new_gap_start] and [new_gap_size]
    are [int]s. *)
Definition first_gap (gap_size seq_number most_advanced primary_or_secondary : Z) (g : group_t)
    : option (Z * group_t) :=
  let g := count_arca MissingPacketIncidence 1 g in
  let g := count_arca MissingMessageRange gap_size g in
  let g := init_missing g in
  if MISSING_RANGE <? gap_size then
    let new_gap_start := s32 (seq_number - MISSING_RANGE / 2) in
    let new_gap_start :=
      if new_gap_start <? s32 most_advanced then s32 most_advanced else new_gap_start in
    let new_gap_size := s32 (seq_number - new_gap_start) in
    let new_gap_size := if new_gap_size <? s32 gap_size then s32 gap_size else new_gap_size in
    if new_gap_size <? s32 gap_size then
      let loss_gap_size := s32 (new_gap_start - most_advanced) in
      let g := count_arca PacketsLostIncidence 1 g in
      let g := count_arca UnrecoverableMessages loss_gap_size g in
      Some (0, notify_packet_loss LOST_PACKETS most_advanced loss_gap_size primary_or_secondary g)
    else Some (0, g)
  else
    g ← add_missing most_advanced gap_size g;
    Some (0, set_out_of_sequence g).

(** Another gap. *)
Definition second_gap (gap_size seq_number most_advanced primary_or_secondary : Z) (g : group_t)
    : option (Z * group_t) :=
  let g := count_arca MissingPacketIncidence 1 g in
  let g := count_arca MissingMessageRange gap_size g in
  if seq_number <? u32 (g.(fg_missing).(missing_base) + MISSING_RANGE) then
    g ← add_missing most_advanced gap_size g; Some (1, g)
  else
    let new_gap_start := s32 (seq_number - MISSING_RANGE / 2) in
    let g := notify_packet_loss LOST_PACKETS g.(fg_missing).(missing_lowest)
               g.(fg_missing).(missing_count) primary_or_secondary g in
    let new_gap_size := s32 (seq_number - new_gap_start) in
    let g := init_missing g in
    g ← add_missing (u32 new_gap_start) (u32 new_gap_size) g; Some (1, g).

(** ** The decision *)

(** The expected numbers: of the packet's feed and of the other one. *)
Definition my_expected (secondary : bool) (g : group_t) : Z :=
  if secondary then g.(fg_secondary_expected) else g.(fg_primary_expected).
Definition other_expected (secondary : bool) (g : group_t) : Z := my_expected (negb secondary) g.

Definition most_advanced (secondary : bool) (g : group_t) : Z :=
  if my_expected secondary g <? other_expected secondary g then other_expected secondary g
  else my_expected secondary g.

(** In sequence. *)
Definition publish_in_sequence (secondary : bool) (primary_or_secondary seq_number : Z) (g : group_t)
    : option (Z * group_t) :=
  let my := my_expected secondary g in
  let other := other_expected secondary g in
  if seq_number =? my then
    let g := set_expected secondary (u32 (my + 1)) g in
    if seq_number <? other then Some (0, g) else Some (1, g)
  else if seq_number <? my then Some (0, g)
  else if seq_number =? other then Some (1, set_expected secondary (u32 (seq_number + 1)) g)
  else if seq_number <? other then Some (0, set_expected secondary (u32 (seq_number + 1)) g)
  else
    let most_advanced := most_advanced secondary g in
    '(_, g) ← first_gap (u32 (seq_number - most_advanced)) seq_number most_advanced
                primary_or_secondary g;
    Some (1, set_expected secondary (u32 (seq_number + 1)) g).

(** A number past the window: the missing numbers are given up. *)
Definition leave_window (secondary : bool) (primary_or_secondary seq_number : Z) (g : group_t)
    : group_t :=
  let w := g.(fg_missing) in
  if u32 (w.(missing_base) + MISSING_RANGE) <? seq_number then
    let loss_gap_size := s32 (w.(missing_highest) - w.(missing_lowest) + 1) in
    let g := count_arca PacketsLostIncidence 1 g in
    let g := count_arca UnrecoverableMessages w.(missing_count) g in
    let g := notify_packet_loss LOST_PACKETS w.(missing_lowest) loss_gap_size
               primary_or_secondary g in
    let g := init_missing g in
    let g := set_expected secondary seq_number g in
    set_in_sequence g
  else g.

(** Out of sequence. *)
Definition publish_out_of_sequence (secondary : bool) (primary_or_secondary seq_number : Z)
    (g : group_t) : option (Z * group_t) :=
  let g := leave_window secondary primary_or_secondary seq_number g in
  let my := my_expected secondary g in
  let other := other_expected secondary g in
  if (seq_number =? my) && negb (seq_number <? other) then
    Some (1, set_expected secondary (u32 (my + 1)) g)
  else if (my <=? seq_number) && (seq_number =? other) then
    Some (1, set_expected secondary (u32 (seq_number + 1)) g)
  else if (my <? seq_number) && (other <? seq_number) then
    let most_advanced := most_advanced secondary g in
    '(rc, g) ← second_gap (u32 (seq_number - most_advanced)) seq_number most_advanced
                 primary_or_secondary g;
    Some (rc, set_expected secondary (u32 (seq_number + 1)) g)
  else
    missing ← is_sequence_in_missing g.(fg_in_sequence) g.(fg_missing) seq_number;
    if (missing : bool) then
      '(_, w) ← remove_sequence_from_missing g.(fg_in_sequence) g.(fg_missing) seq_number;
      let g := set_missing w g in
      let g := if is_missing_empty w then set_in_sequence (init_missing g) else g in
      let g := if my <=? seq_number then set_expected secondary (u32 (seq_number + 1)) g else g in
      Some (1, g)
    else Some (0, g).

Definition need_2_publish (primary_or_secondary seq_number : Z) (g : group_t)
    : option (Z * group_t) :=
  let secondary := primary_or_secondary =? 1 in
  let g := if my_expected secondary g =? 0 then set_expected secondary seq_number g else g in
  if g.(fg_in_sequence) then publish_in_sequence secondary primary_or_secondary seq_number g
  else publish_out_of_sequence secondary primary_or_secondary seq_number g.

End seq.
