(* ===== verification/ArcaWindow.v ===== *)
(** * The window of missing numbers: theorems

    The bits stand for a finite set of numbers ([win_ok]); testing, adding and
    removing are the operations of that set, within the window. *)
From S2P Require Import Prelude Bytes Mpool ArcaMsg ArcaGroup ArcaSeq.

(** ** Bits *)

(** The bit of a number. *)
Definition missing_bit (w : missing_window) (n : Z) : bool :=
  Z.testbit (default 0 (w.(missing_sequence) !! ((n - w.(missing_base)) / 64)))
    ((n - w.(missing_base)) mod 64).

Lemma missing_modulos_pow i : (i < 64)%nat -> missing_modulos !! i = Some (2 ^ Z.of_nat i).
Proof.
  intros Hi. unfold missing_modulos. rewrite list_lookup_fmap, lookup_seqZ_lt by lia. cbn [fmap option_fmap option_map].
  by rewrite Z.shiftl_1_l, Z.add_0_l.
Qed.

Lemma land_pow2 x k : 0 <= k -> negb (Z.land x (2 ^ k) =? 0) = Z.testbit x k.
Proof.
  intros Hk. destruct (Z.testbit x k) eqn:E.
  - apply negb_true_iff, Z.eqb_neq. intros H.
    assert (Hb : Z.testbit (Z.land x (2 ^ k)) k = true)
      by (rewrite Z.land_spec, E, Z.pow2_bits_true by done; done).
    rewrite H, Z.bits_0 in Hb. discriminate.
  - apply negb_false_iff, Z.eqb_eq. apply Z.bits_inj'. intros m Hm.
    rewrite Z.land_spec, Z.bits_0, Z.pow2_bits_eqb by done.
    destruct (Z.eqb_spec k m) as [->|]; [by rewrite E | apply andb_false_r].
Qed.

Lemma lor_pow2_bit x k j : 0 <= k -> Z.testbit (Z.lor x (2 ^ k)) j = Z.testbit x j || (k =? j).
Proof. intros Hk. by rewrite Z.lor_spec, Z.pow2_bits_eqb. Qed.

Lemma clear_pow2_bit x k j : 0 <= k < 64 -> 0 <= j < 64 ->
  Z.testbit (Z.land x (Z.lxor (2 ^ k) 0xffffffffffffffff)) j = Z.testbit x j && negb (k =? j).
Proof.
  intros Hk Hj. rewrite Z.land_spec, Z.lxor_spec, Z.pow2_bits_eqb by lia.
  change 0xffffffffffffffff with (Z.ones 64). rewrite Z.ones_spec_low by lia. by rewrite xorb_true_r.
Qed.

(** A number is its word and its bit. *)
Lemma same_bit a b : a / 64 = b / 64 -> a mod 64 = b mod 64 -> a = b.
Proof. intros H1 H2. rewrite (Z.div_mod a 64), (Z.div_mod b 64) by lia. lia. Qed.

Section word.
Context (w : missing_window) (n : Z).
Context (Hn : w.(missing_base) <= n < w.(missing_base) + MISSING_RANGE) (Hb : 0 <= w.(missing_base) < 2 ^ 31).

Lemma missing_offset_eq : missing_offset w n = (n - w.(missing_base)) / 64.
Proof using Hn Hb.
  unfold missing_offset, MISSING_RANGE, MISSING_SIZE in *. rewrite u32_small by lia.
  by rewrite Z.shiftr_div_pow2 by lia.
Qed.

Lemma missing_mask_eq : missing_mask w n = Some (2 ^ ((n - w.(missing_base)) mod 64)).
Proof using Hn Hb.
  unfold missing_mask, MISSING_RANGE, MISSING_SIZE in *. rewrite u32_small by lia.
  pose proof (Z.mod_pos_bound (n - w.(missing_base)) 64 ltac:(lia)).
  rewrite missing_modulos_pow by lia. by rewrite Z2Nat.id by lia.
Qed.

Lemma missing_word_eq :
  missing_word w ((n - w.(missing_base)) / 64) =
  Some (default 0 (w.(missing_sequence) !! ((n - w.(missing_base)) / 64))).
Proof using Hn Hb.
  unfold missing_word, guard_ub, MISSING_RANGE, MISSING_SIZE in *.
  assert (0 <= (n - w.(missing_base)) / 64 < 32768).
  { split; [apply Z.div_pos; lia | apply Z.div_lt_upper_bound; lia]. }
  change (256 * 128) with 32768. destruct (_ && _) eqn:E; bool_to_prop; [done | lia].
Qed.

(** Writing the word of a number changes the bits of that word only. *)
Lemma missing_bit_set v f (n' : Z) :
  (forall j, 0 <= j < 64 -> Z.testbit v j = f (Z.testbit
     (default 0 (w.(missing_sequence) !! ((n - w.(missing_base)) / 64))) j) (((n - w.(missing_base)) mod 64) =? j)) ->
  (forall b, f b false = b) ->
  missing_bit (set_word ((n - w.(missing_base)) / 64) v w) n' = f (missing_bit w n') (n' =? n).
Proof using.
  intros Hv Hf. unfold missing_bit. cbn [missing_sequence missing_base set_word].
  pose proof (Z.mod_pos_bound (n' - w.(missing_base)) 64 ltac:(lia)).
  destruct (Z.eq_dec ((n - missing_base w) / 64) ((n' - missing_base w) / 64)) as [E|E].
  - rewrite <- E, lookup_insert_eq. cbn [default]. rewrite Hv by lia. f_equal.
    destruct (Z.eqb_spec n' n) as [->|Hne]; [apply Z.eqb_refl|].
    apply Z.eqb_neq. intros Em. apply Hne. assert (n - missing_base w = n' - missing_base w) by (by apply same_bit). lia.
  - rewrite lookup_insert_ne by done. rewrite (eqb_false_of_ne n' n) by (by intros ->). by rewrite Hf.
Qed.

End word.

(** ** The set *)

(** The window holds the numbers [S]. *)
Record win_bits (w : missing_window) (S : gset Z) : Prop := {
  wo_base : 0 < w.(missing_base) /\ w.(missing_base) + MISSING_RANGE < 2 ^ 31;
  wo_bits n : n ∈ S <->
    w.(missing_base) <= n < w.(missing_base) + MISSING_RANGE /\ missing_bit w n = true;
  wo_count : w.(missing_count) = Z.of_nat (size S);
  wo_bounds n : n ∈ S -> w.(missing_lowest) <= n <= w.(missing_highest);
  wo_low_high : w.(missing_base) <= w.(missing_lowest) <= w.(missing_highest);
  wo_highest : w.(missing_highest) < w.(missing_base) + MISSING_RANGE
}.

(** ... of which [missing_lowest] is one. *)
Definition win_ok (w : missing_window) (S : gset Z) : Prop := win_bits w S /\ w.(missing_lowest) ∈ S.

(** The numbers [first], ..., [first + count - 1]. *)
Definition range_set (first count : Z) : gset Z := list_to_set (seqZ first count).

Lemma elem_of_range_set first count n : n ∈ range_set first count <-> first <= n < first + count.
Proof. unfold range_set. rewrite elem_of_list_to_set, elem_of_seqZ. lia. Qed.

Lemma size_range_set first count : 0 <= count -> Z.of_nat (size (range_set first count)) = count.
Proof. intros H. unfold range_set. rewrite size_list_to_set by apply NoDup_seqZ. rewrite length_seqZ. lia. Qed.

Lemma win_size w S n : win_bits w S -> n ∈ S -> 0 < w.(missing_count) < 2 ^ 31.
Proof.
  intros Hw Hn. rewrite (wo_count _ _ Hw). split.
  - assert (size S <> 0%nat); [|lia]. intros H0. apply size_empty_inv in H0. set_solver.
  - clear n Hn. assert (Hs : S ⊆ range_set w.(missing_base) MISSING_RANGE).
    { intros n Hn. apply elem_of_range_set. by apply (wo_bits _ _ Hw) in Hn as [? _]. }
    apply subseteq_size in Hs. pose proof (size_range_set w.(missing_base) MISSING_RANGE ltac:(done)).
    unfold MISSING_RANGE, MISSING_SIZE in *. lia.
Qed.

(** Testing. *)
Lemma is_missing_spec w S n : win_bits w S -> n < w.(missing_base) + MISSING_RANGE ->
  is_sequence_in_missing false w n = Some (bool_decide (n ∈ S)).
Proof.
  intros Hw Hn. destruct (wo_base _ _ Hw) as [Hb1 Hb2].
  pose proof (wo_low_high _ _ Hw) as Hl.
  unfold is_sequence_in_missing. cbn [orb].
  assert (Hr : 0 < MISSING_RANGE) by done.
  destruct (u32 (missing_lowest w + MISSING_RANGE) <=? n) eqn:E1; bool_to_prop.
  { rewrite u32_small in E1; [lia|].
    pose proof (wo_highest _ _ Hw). unfold MISSING_RANGE, MISSING_SIZE in *. lia. }
  cbn [orb]. destruct (n <? missing_lowest w) eqn:E2; bool_to_prop.
  { rewrite bool_decide_false; [done|]. intros Hin%(wo_bounds _ _ Hw). lia. }
  destruct (n <? missing_base w) eqn:E3; bool_to_prop; [lia|].
  rewrite missing_mask_eq, missing_offset_eq, missing_word_eq by (unfold MISSING_RANGE, MISSING_SIZE in *; lia).
  cbn [mbind option_bind]. pose proof (Z.mod_pos_bound (n - missing_base w) 64 ltac:(lia)).
  rewrite land_pow2 by lia. fold (missing_bit w n). f_equal.
  destruct (missing_bit w n) eqn:Eb; symmetry; [apply bool_decide_true | apply bool_decide_false];
    rewrite (wo_bits _ _ Hw); [done|]. intros [_ ?]. congruence.
Qed.

(** ** Adding *)

Lemma add_sequences_spec k : forall sequ next w,
  0 <= w.(missing_base) -> w.(missing_base) + MISSING_RANGE < 2 ^ 31 ->
  w.(missing_base) <= sequ -> next = sequ + Z.of_nat k - 1 -> next < w.(missing_base) + MISSING_RANGE ->
  exists w', add_sequences k sequ next w = Some w' /\
    (w'.(missing_base), w'.(missing_count), w'.(missing_lowest), w'.(missing_highest)) =
      (w.(missing_base), w.(missing_count), w.(missing_lowest), w.(missing_highest)) /\
    forall n, missing_bit w' n = missing_bit w n || ((sequ <=? n) && (n <=? next)).
Proof.
  induction k as [|k IH]; intros sequ next w Hb0 Hb Hs Hnext Hlt; cbn [add_sequences].
  - destruct (sequ <=? next) eqn:E; bool_to_prop; [lia|]. exists w. split; [done|]. split; [done|].
    intros n. destruct (_ && _) eqn:E2; bool_to_prop; [lia|]. by rewrite orb_false_r.
  - destruct (sequ <=? next) eqn:E; bool_to_prop; [|lia].
    rewrite missing_mask_eq, missing_offset_eq, missing_word_eq by (unfold MISSING_RANGE, MISSING_SIZE in *; lia).
    cbn [mbind option_bind]. rewrite u32_small by (unfold MISSING_RANGE, MISSING_SIZE in *; lia).
    set (w1 := set_word _ _ w).
    destruct (IH (sequ + 1) next w1) as (w' & Ew & Heq & Hbits); [done..| cbn; lia | lia | done |].
    exists w'. split; [done|]. split; [done|]. intros n. rewrite Hbits. unfold w1.
    pose proof (Z.mod_pos_bound (sequ - missing_base w) 64 ltac:(lia)).
    rewrite (missing_bit_set w sequ _ orb) by (intros; rewrite ?lor_pow2_bit by lia; by rewrite ?orb_false_r).
    rewrite <- orb_assoc. f_equal.
    destruct (Z.eqb_spec n sequ) as [->|]; cbn [orb].
    + symmetry. apply andb_true_iff. split; apply Z.leb_le; lia.
    + destruct (sequ + 1 <=? n) eqn:E1, (sequ <=? n) eqn:E2; bool_to_prop; try done; lia.
Qed.

(** The first gap. *)
Lemma add_first_gap first count :
  0 < first -> 0 < count <= MISSING_RANGE -> first + MISSING_RANGE < 2 ^ 31 ->
  exists w, add_sequences_2_missing first count missing_zero = Some (0, w) /\
    win_ok w (range_set first count) /\ w.(missing_base) = first.
Proof.
  intros Hf Hc Hr. unfold add_sequences_2_missing. cbn [missing_zero missing_base].
  destruct (first <=? 0) eqn:E; bool_to_prop; [lia|]. cbv zeta. cbn [missing_count].
  change (0 =? 0) with true. cbn iota. rewrite u32_small by (unfold MISSING_RANGE, MISSING_SIZE in *; lia).
  cbn [missing_highest]. rewrite Z.leb_refl. unfold set_bounds. cbn [missing_sequence missing_base missing_count missing_lowest].
  set (w0 := MkMissing _ _ _ _ _).
  destruct (add_sequences_spec (Z.to_nat count) first (first + count - 1) w0) as (w' & Ew & Heq & Hbits);
    [cbn; lia | cbn; lia | cbn; lia | lia | cbn; lia |].
  rewrite Ew. cbn [mbind option_bind]. eexists. split; [done|].
  cbn in Heq. injection Heq as Eb Ec El Eh.
  assert (Hbase : missing_base (set_count (u32 (missing_count w' + count)) w') = first) by done.
  split; [|done]. split; [constructor|]; cbn [missing_base missing_count missing_lowest missing_highest set_count];
    rewrite ?Eb, ?Ec, ?El, ?Eh.
  - lia.
  - intros n. rewrite elem_of_range_set.
    change (missing_bit (set_count _ w') n) with (missing_bit w' n). rewrite Hbits.
    assert (Ez : missing_bit w0 n = false) by (unfold missing_bit, w0; cbn; by rewrite Z.bits_0).
    rewrite Ez. cbn [orb]. rewrite andb_true_iff, !Z.leb_le. lia.
  - rewrite size_range_set by lia. rewrite Z.add_0_l, u32_small by (unfold MISSING_RANGE, MISSING_SIZE in *; lia). done.
  - intros n. rewrite elem_of_range_set. lia.
  - lia.
  - lia.
  - rewrite elem_of_range_set. lia.
Qed.

(** Another gap, past the highest number in the window. *)
Lemma add_next_gap w S first count : win_ok w S ->
  w.(missing_highest) < first -> 0 < count -> first + count <= w.(missing_base) + MISSING_RANGE ->
  exists w', add_sequences_2_missing first count w = Some (0, w') /\
    win_ok w' (S ∪ range_set first count) /\ w'.(missing_base) = w.(missing_base).
Proof.
  intros [Hw Hlow] Hh Hc Hr. destruct (wo_base _ _ Hw) as [Hb1 Hb2].
  pose proof (win_size _ _ _ Hw Hlow) as Hsz. pose proof (wo_low_high _ _ Hw) as Hl.
  unfold add_sequences_2_missing.
  destruct (first <=? missing_base w) eqn:E; bool_to_prop; [lia|]. cbv zeta.
  rewrite (eqb_false_of_ne (missing_count w)) by lia.
  rewrite u32_small by (unfold MISSING_RANGE, MISSING_SIZE in *; lia).
  destruct (missing_highest w <=? first + count - 1) eqn:E2; bool_to_prop; [|lia].
  destruct (add_sequences_spec (Z.to_nat count) first (first + count - 1)
    (set_bounds (missing_base w) (missing_lowest w) (first + count - 1) w)) as (w' & Ew & Heq & Hbits);
    [cbn; lia | cbn; lia | cbn; lia | lia | cbn; lia |].
  rewrite Ew. cbn [mbind option_bind]. eexists. split; [done|].
  cbn in Heq. injection Heq as Eb Ec El Eh. split; [|done].
  split; [constructor|]; cbn [missing_base missing_count missing_lowest missing_highest set_count];
    rewrite ?Eb, ?Ec, ?El, ?Eh.
  - lia.
  - intros n. rewrite elem_of_union, elem_of_range_set, (wo_bits _ _ Hw).
    change (missing_bit (set_count _ w') n) with (missing_bit w' n). rewrite Hbits.
    change (missing_bit (set_bounds _ _ _ w) n) with (missing_bit w n).
    rewrite orb_true_iff, andb_true_iff, !Z.leb_le. split.
    + intros [[? ?]|?]; [by split; [|left] | split; [lia | right; lia]].
    + intros [? [?|?]]; [by left | right; lia].
  - rewrite size_union, Nat2Z.inj_add, size_range_set, <- (wo_count _ _ Hw) by
      (try lia; intros n Hn; rewrite elem_of_range_set; intros ?; apply (wo_bounds _ _ Hw) in Hn; lia).
    rewrite u32_small; [done|]. unfold MISSING_RANGE, MISSING_SIZE in *. lia.
  - intros n. rewrite elem_of_union, elem_of_range_set. intros [Hn|?]; [|lia].
    apply (wo_bounds _ _ Hw) in Hn. lia.
  - lia.
  - lia.
  - by apply elem_of_union_l.
Qed.

(** ** Removing *)

Lemma next_missing_spec fuel : forall ix w S,
  win_bits w S -> S <> ∅ -> w.(missing_base) <= ix -> (forall n, n ∈ S -> ix <= n) ->
  w.(missing_highest) - ix < Z.of_nat fuel ->
  exists w', next_missing fuel false ix w = Some w' /\ win_ok w' S /\ w'.(missing_base) = w.(missing_base).
Proof.
  induction fuel as [|fuel IH]; intros ix w S Hw Hne Hix Hmin Hf; cbn [next_missing];
    pose proof (wo_base _ _ Hw); pose proof (wo_highest _ _ Hw); pose proof (wo_low_high _ _ Hw);
    unfold MISSING_RANGE, MISSING_SIZE in *; rewrite s32_small by lia;
    destruct (set_choose_L S Hne) as [n0 Hn0]; pose proof (Hmin _ Hn0); pose proof (wo_bounds _ _ Hw _ Hn0).
  - lia.
  - destruct (ix <=? missing_highest w) eqn:E; bool_to_prop; [|lia]. rewrite u32_small by lia.
    rewrite (is_missing_spec w S) by (done || (unfold MISSING_RANGE, MISSING_SIZE; lia)).
    cbn [mbind option_bind]. case_bool_decide as Hin.
    + eexists. split; [done|]. split; [|done]. split; [|done].
      constructor; cbn [missing_base missing_count missing_lowest missing_highest set_bounds];
        unfold MISSING_RANGE, MISSING_SIZE; try lia.
      * intros n. exact (wo_bits _ _ Hw n).
      * exact (wo_count _ _ Hw).
      * intros n Hn. pose proof (Hmin _ Hn). pose proof (wo_bounds _ _ Hw _ Hn). lia.
    + rewrite s32_small by lia. apply IH; [done | done | lia | | lia].
      intros n Hn. pose proof (Hmin _ Hn). assert (n <> ix) by (by intros ->). lia.
Qed.

Lemma remove_missing_spec w S n : win_ok w S -> n ∈ S ->
  exists w', remove_sequence_from_missing false w n = Some (0, w') /\
    if decide (S ∖ {[n]} = ∅) then w'.(missing_count) = 0
    else win_ok w' (S ∖ {[n]}) /\ w'.(missing_base) = w.(missing_base).
Proof.
  intros [Hw Hlow] Hn. pose proof (win_size _ _ _ Hw Hn) as Hsz. destruct (wo_base _ _ Hw) as [Hb1 Hb2].
  pose proof (proj1 (wo_bits _ _ Hw _) Hn) as [Hnr Hnb]. pose proof (wo_low_high _ _ Hw) as Hl.
  pose proof (wo_bounds _ _ Hw _ Hn) as Hnl. pose proof (wo_highest _ _ Hw) as Hh.
  assert (Hr : 0 < MISSING_RANGE < 2 ^ 30) by done.
  unfold remove_sequence_from_missing. rewrite (eqb_false_of_ne (missing_count w)) by lia.
  destruct (n <? missing_base w) eqn:E1; bool_to_prop; [lia|].
  rewrite (u32_small (_ + MISSING_RANGE)) by lia.
  destruct (missing_base w + MISSING_RANGE <=? n) eqn:E2; bool_to_prop; [lia|]. cbn [orb].
  rewrite missing_mask_eq, missing_offset_eq, missing_word_eq by lia. cbn [mbind option_bind]. cbv zeta.
  match goal with |- context [set_count _ (set_word ?o ?v w)] => set (w1 := set_count _ (set_word o v w)) end.
  assert (Hcount : missing_count w1 = Z.of_nat (size (S ∖ {[n]}))).
  { unfold w1. cbn [missing_count set_count set_word]. rewrite (wo_count _ _ Hw) in *.
    rewrite size_difference by set_solver. rewrite size_singleton.
    rewrite Nat2Z.inj_sub by lia. rewrite u32_small by lia. done. }
  assert (Hbits : forall m, m ∈ S ∖ {[n]} <->
    missing_base w1 <= m < missing_base w1 + MISSING_RANGE /\ missing_bit w1 m = true).
  { intros m. rewrite elem_of_difference, elem_of_singleton, (wo_bits _ _ Hw).
    change (missing_bit w1 m) with (missing_bit (set_word ((n - missing_base w) / 64)
      (Z.land (default 0 (missing_sequence w !! ((n - missing_base w) / 64)))
         (Z.lxor (2 ^ ((n - missing_base w) mod 64)) 0xffffffffffffffff)) w) m).
    pose proof (Z.mod_pos_bound (n - missing_base w) 64 ltac:(lia)).
    rewrite (missing_bit_set w n _ (fun a b => a && negb b))
      by (intros; rewrite ?clear_pow2_bit by lia; by rewrite ?andb_true_r).
    rewrite andb_true_iff, negb_true_iff, Z.eqb_neq. change (missing_base w1) with (missing_base w). tauto. }
  assert (Hw1 : win_bits w1 (S ∖ {[n]})).
  { constructor; try done. intros m [Hm _]%elem_of_difference. exact (wo_bounds _ _ Hw m Hm). }
  change (missing_lowest w1) with (missing_lowest w). change (missing_highest w1) with (missing_highest w).
  change (missing_base w1) with (missing_base w) in *.
  destruct (decide (S ∖ {[n]} = ∅)) as [He|He].
  - rewrite He, size_empty in Hcount. rewrite Hcount. change (0 <? Z.of_nat 0) with false. cbn iota.
    destruct (n <=? missing_lowest w); (eexists; split; [reflexivity|]); exact Hcount.
  - destruct (set_choose_L _ He) as [m Hm]. pose proof (win_size _ _ _ Hw1 Hm).
    destruct (n <=? missing_lowest w) eqn:E3; bool_to_prop.
    + destruct (0 <? missing_count w1) eqn:E4; bool_to_prop; [|lia].
      rewrite (s32_small (n + 1)) by lia.
      destruct (next_missing_spec (Z.to_nat (missing_highest w - n)) (n + 1) w1 (S ∖ {[n]})) as (w' & Ew & Hw' & Hb');
        [done | done | change (missing_base w1) with (missing_base w); lia | |
         change (missing_highest w1) with (missing_highest w); lia |].
      { intros k [Hk Hkn]%elem_of_difference. rewrite elem_of_singleton in Hkn.
        pose proof (wo_bounds _ _ Hw _ Hk). lia. }
      rewrite Ew. cbn [mbind option_bind]. exists w'. split; [reflexivity|]. split; [exact Hw' | exact Hb'].
    + eexists. split; [reflexivity|]. split; [|done]. split; [exact Hw1|].
      apply elem_of_difference. rewrite elem_of_singleton. split; [exact Hlow | intros E; change (missing_lowest w1) with (missing_lowest w) in E; lia].
Qed.
