(* ===== verification/ArcaArbiter.v ===== *)
(** * Arbitration: theorems

    While the numbers stay in the window, the decision of [need_2_publish] is
    that of a set: a number is published when it was not published before
    ([need_2_publish_spec]). *)
From S2P Require Import Prelude Bytes Mpool ArcaMsg ArcaGroup ArcaSeq ArcaWindow.

(** ** The upper end of the window *)

Lemma add_sequences_highest k : forall sequ next w w',
  add_sequences k sequ next w = Some w' -> w'.(missing_highest) = w.(missing_highest).
Proof.
  induction k as [|k IH]; intros sequ next w w'; cbn [add_sequences]; destruct (_ <=? _);
    intros H; try (by simplify_eq).
  destruct (missing_mask w sequ); [|done]. cbn [mbind option_bind] in H.
  destruct (missing_word w _); [|done]. cbn [mbind option_bind] in H. by apply IH in H.
Qed.

Lemma add_highest first count w w' : w.(missing_highest) < first + count < 2 ^ 31 ->
  0 < first -> 0 < count -> add_sequences_2_missing first count w = Some (0, w') ->
  w'.(missing_highest) < first + count.
Proof.
  intros Hw Hf Hc. unfold add_sequences_2_missing. destruct (first <=? _); [done|]. cbv zeta.
  rewrite (u32_small (first + count - 1)) by lia.
  destruct (missing_count w =? 0); cbn [missing_highest]; rewrite ?Z.leb_refl;
    [|destruct (missing_highest w <=? _) eqn:E; bool_to_prop];
    intros H; match type of H with (?x ≫= _) = _ => destruct x as [w1|] eqn:E1 end; try done;
    cbn in H; simplify_eq; apply add_sequences_highest in E1; cbn in *; lia.
Qed.

Lemma next_missing_highest fuel : forall b ix w w',
  next_missing fuel b ix w = Some w' -> w'.(missing_highest) = w.(missing_highest).
Proof.
  induction fuel as [|fuel IH]; intros b ix w w'; cbn [next_missing]; destruct (_ <=? _);
    intros H; try (by simplify_eq).
  destruct (is_sequence_in_missing b w (u32 ix)) as [[|]|]; cbn [mbind option_bind] in H;
    [by simplify_eq | by apply IH in H | done].
Qed.

Lemma remove_highest b w n rc w' : remove_sequence_from_missing b w n = Some (rc, w') ->
  w'.(missing_highest) = w.(missing_highest).
Proof.
  unfold remove_sequence_from_missing. intros H. do 3 (destruct (_ : bool) in H; [by simplify_eq|]).
  destruct (missing_mask w n); [|done]. cbn [mbind option_bind] in H.
  destruct (missing_word w _); [|done]. cbn [mbind option_bind] in H.
  destruct (n <=? _); [|by simplify_eq]. destruct (0 <? _); [|by simplify_eq].
  match type of H with (?x ≫= _) = _ => destruct x as [w1|] eqn:E1 end; [|done].
  cbn in H. simplify_eq. by apply next_missing_highest in E1.
Qed.

Section arbiter.
Context {W : Type} (hooks : arca_hooks W) (stack_body : msg_body).
Notation group_t := (feed_group W).
Notation need_2_publish := (need_2_publish hooks stack_body).

(** ** What arbitration reads and writes *)

Definition seq_view (g : group_t) : missing_window * Z * Z * bool :=
  (g.(fg_missing), g.(fg_primary_expected), g.(fg_secondary_expected), g.(fg_in_sequence)).

Lemma count_arca_view c n (g : group_t) : seq_view (count_arca c n g) = seq_view g.
Proof. done. Qed.

Lemma send_alert_view t (g : group_t) : seq_view (send_alert hooks stack_body t g) = seq_view g.
Proof. unfold send_alert. by destruct (publish_feed_alert _ _ _). Qed.

Lemma set_in_sequence_view (g : group_t) : seq_view (set_in_sequence hooks stack_body g) =
  (g.(fg_missing), g.(fg_primary_expected), g.(fg_secondary_expected), true).
Proof. unfold set_in_sequence. by rewrite count_arca_view, send_alert_view. Qed.

Lemma set_out_of_sequence_view (g : group_t) : seq_view (set_out_of_sequence hooks stack_body g) =
  (g.(fg_missing), g.(fg_primary_expected), g.(fg_secondary_expected), false).
Proof. unfold set_out_of_sequence. by rewrite count_arca_view, send_alert_view. Qed.

(** The number that comes next on the faster feed. *)
Definition group_top (g : group_t) : Z := Z.max g.(fg_primary_expected) g.(fg_secondary_expected).

Lemma group_top_my sec (g : group_t) : group_top g = Z.max (my_expected sec g) (other_expected sec g).
Proof. unfold group_top, other_expected. destruct sec; cbn; lia. Qed.

Lemma most_advanced_top sec (g : group_t) : most_advanced sec g = group_top g.
Proof.
  rewrite (group_top_my sec). unfold most_advanced. destruct (_ <? _) eqn:E; bool_to_prop; lia.
Qed.

(** ** The invariant *)

(** [D] are the numbers published since [first], [S] those that are missing. *)
Record arca_inv (g : group_t) (first : Z) (D S : gset Z) : Prop := {
  ai_first : 0 < first <= group_top g;
  ai_expected : 0 <= g.(fg_primary_expected) /\ 0 <= g.(fg_secondary_expected);
  ai_published n : n ∈ D -> first <= n < group_top g;
  ai_missing n : n ∈ S <-> first <= n < group_top g /\ n ∉ D;
  ai_window : if g.(fg_in_sequence) then S = ∅
              else win_ok g.(fg_missing) S /\ g.(fg_missing).(missing_highest) < group_top g
}.

(** What the theorem asks of a packet: numbers below 2^31, a feed that joins
    does not join ahead of the other one, and the number is in the window. *)
Definition in_window (primary_or_secondary n : Z) (g : group_t) : bool :=
  let sec := primary_or_secondary =? 1 in
  (0 <? n) && (n + MISSING_RANGE <? 2 ^ 31) &&
  (negb (my_expected sec g =? 0) || (n <=? other_expected sec g)) &&
  (if g.(fg_in_sequence) then n - group_top g <=? MISSING_RANGE
   else n <? g.(fg_missing).(missing_base) + MISSING_RANGE).

(** The abstract arbiter: a set of published numbers. *)
Definition is_new (first : Z) (D : gset Z) (n : Z) : bool := bool_decide (first <= n /\ n ∉ D).

Lemma my_set_expected sec v (g : group_t) : my_expected sec (set_expected sec v g) = v.
Proof. by destruct sec. Qed.
Lemma other_set_expected sec v (g : group_t) :
  other_expected sec (set_expected sec v g) = other_expected sec g.
Proof. by destruct sec. Qed.

(** The invariant from the parts, for the feed of a packet. *)
Lemma arca_inv_my sec (g : group_t) w m o b first D S :
  g.(fg_missing) = w -> my_expected sec g = m -> other_expected sec g = o -> g.(fg_in_sequence) = b ->
  0 < first <= Z.max m o -> 0 <= m /\ 0 <= o ->
  (forall n, n ∈ D -> first <= n < Z.max m o) ->
  (forall n, n ∈ S <-> first <= n < Z.max m o /\ n ∉ D) ->
  (if b then S = ∅ else win_ok w S /\ w.(missing_highest) < Z.max m o) ->
  arca_inv g first D S.
Proof.
  intros <- <- <- <-. rewrite <- group_top_my. intros. constructor; try done.
  unfold other_expected in *. destruct sec; cbn in *; lia.
Qed.

Lemma view_my sec (g g' : group_t) w b :
  seq_view g' = (w, g.(fg_primary_expected), g.(fg_secondary_expected), b) ->
  g'.(fg_missing) = w /\ my_expected sec g' = my_expected sec g /\
  other_expected sec g' = other_expected sec g /\ g'.(fg_in_sequence) = b.
Proof. unfold seq_view, other_expected. intros E. destruct sec; cbn; by simplify_eq. Qed.

(** A number that is already behind: nothing changes but the expected number
    of the feed. *)
Lemma arca_inv_duplicate sec (g : group_t) v first D S : arca_inv g first D S ->
  0 <= v <= other_expected sec g -> (my_expected sec g = v \/ my_expected sec g <= other_expected sec g) ->
  arca_inv (set_expected sec v g) first D S.
Proof.
  intros [Hf He Hp Hm Hw] Hv Hmy. rewrite (group_top_my sec) in *.
  assert (Ht : Z.max v (other_expected sec g) = Z.max (my_expected sec g) (other_expected sec g)) by lia.
  eapply (arca_inv_my sec); [reflexivity | by rewrite my_set_expected | by rewrite other_set_expected | reflexivity |..];
    rewrite ?Ht; done || lia.
Qed.

(** The next number: it is published. *)
Lemma arca_inv_next sec (g : group_t) first D S : arca_inv g first D S ->
  arca_inv (set_expected sec (group_top g + 1) g) first ({[group_top g]} ∪ D) S.
Proof.
  intros [Hf He Hp Hm Hw].
  assert (Ht : Z.max (group_top g + 1) (other_expected sec g) = group_top g + 1)
    by (rewrite (group_top_my sec); lia).
  eapply (arca_inv_my sec); [reflexivity | by rewrite my_set_expected | by rewrite other_set_expected | reflexivity |..];
    rewrite ?Ht.
  - lia.
  - rewrite (group_top_my sec) in *. unfold other_expected in *. destruct sec; cbn in *; lia.
  - intros n [->%elem_of_singleton|Hn]%elem_of_union; [lia|]. specialize (Hp n Hn). lia.
  - intros n. rewrite Hm, not_elem_of_union, not_elem_of_singleton.
    split; [intros [? ?] | intros ([? ?] & ? & ?)]; repeat split; done || lia.
  - change (fg_in_sequence (set_expected sec (group_top g + 1) g)) with (fg_in_sequence g).
    change (fg_missing (set_expected sec (group_top g + 1) g)) with (fg_missing g).
    destruct (fg_in_sequence g); [done|]. destruct Hw. split; [done|lia].
Qed.

(** A number past the next: those in between are missing. *)
Lemma arca_inv_gap sec (g g' : group_t) w n first D S : arca_inv g first D S -> group_top g < n ->
  seq_view g' = (w, g.(fg_primary_expected), g.(fg_secondary_expected), false) ->
  win_ok w (S ∪ range_set (group_top g) (n - group_top g)) -> w.(missing_highest) < n ->
  arca_inv (set_expected sec (n + 1) g') first ({[n]} ∪ D) (S ∪ range_set (group_top g) (n - group_top g)).
Proof.
  intros [Hf He Hp Hm Hw] Hn Hv Hwin Hh. destruct (view_my sec _ _ _ _ Hv) as (Ew & Em & Eo & Eb).
  assert (Ht : Z.max (n + 1) (other_expected sec g) = n + 1) by (rewrite (group_top_my sec) in Hn; lia).
  eapply (arca_inv_my sec); [exact Ew | by rewrite my_set_expected | by rewrite other_set_expected, Eo | exact Eb |..];
    rewrite ?Ht.
  - lia.
  - rewrite (group_top_my sec) in *. unfold other_expected in *. destruct sec; cbn in *; lia.
  - intros k [->%elem_of_singleton|Hk]%elem_of_union; [lia|]. specialize (Hp k Hk). lia.
  - intros k. rewrite elem_of_union, elem_of_range_set, Hm, not_elem_of_union, not_elem_of_singleton.
    destruct (decide (k ∈ D)) as [Hk|Hk]; [specialize (Hp k Hk)|]; split; try lia; try tauto;
      [intros [[? ?]|?]; [|lia]; done | intros [[? ?]|?]; (split; [lia|]); (split; [lia|done]) |].
    intros ([? ?] & ? & _). destruct (decide (k < group_top g)); [left; split; [lia|done] | right; lia].
  - split; [done | lia].
Qed.

(** A missing number arrives. *)
Lemma arca_inv_found sec (g g' : group_t) w b n m first D S : arca_inv g first D S ->
  g.(fg_in_sequence) = false -> n ∈ S ->
  seq_view g' = (w, g.(fg_primary_expected), g.(fg_secondary_expected), b) ->
  (if b then S ∖ {[n]} = ∅ else win_ok w (S ∖ {[n]}) /\ w.(missing_highest) < group_top g) ->
  m = my_expected sec g \/ 0 <= my_expected sec g <= m /\ m <= other_expected sec g ->
  arca_inv (set_expected sec m g') first ({[n]} ∪ D) (S ∖ {[n]}).
Proof.
  intros [Hf He Hp Hm Hw] Hout Hn Hv Hwin Hmy. destruct (view_my sec _ _ _ _ Hv) as (Ew & Em & Eo & Eb).
  pose proof (proj1 (Hm n) Hn) as [Hnt Hnd].
  assert (Ht : Z.max m (other_expected sec g) = group_top g) by (rewrite (group_top_my sec); lia).
  eapply (arca_inv_my sec); [exact Ew | by rewrite my_set_expected | by rewrite other_set_expected, Eo | exact Eb |..];
    rewrite ?Eo, ?Ht; try done.
  - unfold other_expected in *. destruct sec; cbn in *; lia.
  - intros k [->%elem_of_singleton|Hk]%elem_of_union; [lia|]. by apply Hp.
  - intros k. rewrite elem_of_difference, elem_of_singleton, Hm, not_elem_of_union, not_elem_of_singleton. tauto.
Qed.

Lemma gap_in_sequence pos (g : group_t) n first D S : arca_inv g first D S ->
  g.(fg_in_sequence) = true -> group_top g < n -> n - group_top g <= MISSING_RANGE ->
  n + MISSING_RANGE < 2 ^ 31 ->
  exists g' w, first_gap hooks stack_body (u32 (n - group_top g)) n (group_top g) pos g = Some (0, g') /\
    seq_view g' = (w, g.(fg_primary_expected), g.(fg_secondary_expected), false) /\
    win_ok w (range_set (group_top g) (n - group_top g)) /\ w.(missing_highest) < n.
Proof.
  intros Hi Hin Hlt Hr Hn. pose proof (ai_first _ _ _ _ Hi). unfold first_gap.
  rewrite u32_small by lia. destruct (MISSING_RANGE <? n - group_top g) eqn:E; bool_to_prop; [lia|].
  cbv zeta. unfold add_missing.
  change (fg_missing (init_missing _)) with missing_zero.
  destruct (add_first_gap (group_top g) (n - group_top g)) as (w & Ew & Hw & _); [lia..|].
  rewrite Ew. cbn [mbind option_bind]. do 2 eexists. split; [reflexivity|].
  split; [by rewrite set_out_of_sequence_view|]. split; [exact Hw|].
  apply add_highest in Ew; cbn; lia.
Qed.

Lemma gap_out_of_sequence pos (g : group_t) n first D S : arca_inv g first D S ->
  g.(fg_in_sequence) = false -> group_top g < n -> n < g.(fg_missing).(missing_base) + MISSING_RANGE ->
  n + MISSING_RANGE < 2 ^ 31 ->
  exists g' w, second_gap hooks stack_body (u32 (n - group_top g)) n (group_top g) pos g = Some (1, g') /\
    seq_view g' = (w, g.(fg_primary_expected), g.(fg_secondary_expected), false) /\
    win_ok w (S ∪ range_set (group_top g) (n - group_top g)) /\ w.(missing_highest) < n.
Proof.
  intros Hi Hout Hlt Hr Hn. pose proof (ai_first _ _ _ _ Hi) as Hf. pose proof (ai_window _ _ _ _ Hi) as Hw.
  rewrite Hout in Hw. destruct Hw as [Hw Hh]. destruct (wo_base _ _ (proj1 Hw)) as [Hb1 Hb2].
  unfold second_gap. cbv zeta. rewrite (u32_small (n - group_top g)) by lia.
  change (fg_missing (count_arca _ _ _)) with (fg_missing g). rewrite u32_small by (unfold MISSING_RANGE, MISSING_SIZE in *; lia).
  destruct (n <? _) eqn:E; bool_to_prop; [|lia]. unfold add_missing.
  change (fg_missing (count_arca _ _ _)) with (fg_missing g).
  destruct (add_next_gap (fg_missing g) S (group_top g) (n - group_top g)) as (w & Ew & Hw' & _); [done | lia..|].
  rewrite Ew. cbn [mbind option_bind]. do 2 eexists. split; [reflexivity|].
  split; [unfold seq_view; cbn; by rewrite Hout|]. split; [exact Hw'|].
  apply add_highest in Ew; cbn; lia.
Qed.

(** ** The decision *)

Lemma is_new_behind (g : group_t) first D S n : arca_inv g first D S -> n < group_top g ->
  is_new first D n = bool_decide (n ∈ S).
Proof.
  intros Hi Hn. unfold is_new. apply bool_decide_ext. rewrite (ai_missing _ _ _ _ Hi). intuition lia.
Qed.

Lemma is_new_ahead (g : group_t) first D S n : arca_inv g first D S -> group_top g <= n ->
  is_new first D n = true.
Proof.
  intros Hi Hn. apply bool_decide_true. pose proof (ai_first _ _ _ _ Hi). split; [lia|].
  intros Hd%(ai_published _ _ _ _ Hi). lia.
Qed.

(** What a step must do: publish the new numbers, once. *)
Definition step_post (first : Z) (D : gset Z) (n : Z) (r : option (Z * group_t)) : Prop :=
  exists g' S', r = Some (if is_new first D n then 1 else 0, g') /\
    arca_inv g' first (if is_new first D n then {[n]} ∪ D else D) S' /\ n < group_top g'.

Lemma post_behind sec (g : group_t) v n first D S : arca_inv g first D S -> n < other_expected sec g ->
  (n ∉ S) -> 0 <= v <= other_expected sec g ->
  (my_expected sec g = v \/ my_expected sec g <= other_expected sec g) ->
  step_post first D n (Some (0, set_expected sec v g)).
Proof.
  intros Hi Hn Hs Hv Hm. exists (set_expected sec v g), S.
  assert (Ht : n < group_top g) by (rewrite (group_top_my sec); lia).
  rewrite (is_new_behind g first D S) by done. rewrite bool_decide_false by done.
  split; [done|]. split; [by apply arca_inv_duplicate|].
  rewrite (group_top_my sec), my_set_expected, other_set_expected. lia.
Qed.

Lemma post_next sec (g : group_t) n first D S : arca_inv g first D S -> n = group_top g ->
  step_post first D n (Some (1, set_expected sec (n + 1) g)).
Proof.
  intros Hi ->. exists (set_expected sec (group_top g + 1) g), S.
  rewrite (is_new_ahead g first D S) by (done || lia).
  split; [done|]. split; [by apply arca_inv_next|].
  rewrite (group_top_my sec (set_expected _ _ _)), my_set_expected. lia.
Qed.

Lemma in_sequence_post sec pos (g : group_t) n first D S : arca_inv g first D S ->
  g.(fg_in_sequence) = true -> 0 < n -> n + MISSING_RANGE < 2 ^ 31 -> n - group_top g <= MISSING_RANGE ->
  my_expected sec g <> 0 ->
  step_post first D n (publish_in_sequence hooks stack_body sec pos n g).
Proof.
  intros Hi Hin H0 Hn Hr Hmy. pose proof (ai_window _ _ _ _ Hi) as Hs. rewrite Hin in Hs. subst S.
  assert (Hr0 : 0 < MISSING_RANGE < 2 ^ 30) by done.
  assert (He : 0 <= my_expected sec g /\ 0 <= other_expected sec g)
    by (pose proof (ai_expected _ _ _ _ Hi); unfold other_expected; destruct sec; cbn; lia).
  unfold publish_in_sequence. cbv zeta. rewrite most_advanced_top.
  pose proof (group_top_my sec g) as Ht.
  destruct (n =? my_expected sec g) eqn:E1; bool_to_prop.
  { rewrite <- E1, u32_small by lia. destruct (n <? other_expected sec g) eqn:E2; bool_to_prop.
    - eapply post_behind; [exact Hi | done | set_solver | lia..].
    - eapply post_next; [exact Hi | lia]. }
  destruct (n <? my_expected sec g) eqn:E2; bool_to_prop.
  { exists g, ∅. rewrite (is_new_behind g first D ∅) by (done || lia).
    rewrite bool_decide_false by set_solver. split; [done|]. split; [done|lia]. }
  rewrite (u32_small (n + 1)) by lia.
  destruct (n =? other_expected sec g) eqn:E3; bool_to_prop.
  { eapply post_next; [exact Hi | lia]. }
  destruct (n <? other_expected sec g) eqn:E4; bool_to_prop.
  { eapply post_behind; [exact Hi | done | set_solver | lia..]. }
  destruct (gap_in_sequence pos g n first D ∅ Hi Hin) as (g' & w & -> & Hv & Hw & Hh); [lia..|].
  cbn [mbind option_bind]. do 2 eexists. rewrite (is_new_ahead g first D ∅) by (done || lia).
  split; [done|]. split.
  - apply (arca_inv_gap sec g g' w n first D ∅); [done | lia | done | by rewrite union_empty_l_L | done].
  - rewrite (group_top_my sec (set_expected _ _ _)), my_set_expected. lia.
Qed.

(** Out of sequence, a number below the top: it is one of the missing ones, or
    was published. *)
Lemma behind_post sec (g : group_t) n first D S : arca_inv g first D S ->
  g.(fg_in_sequence) = false -> 0 < n -> n + MISSING_RANGE < 2 ^ 31 -> n < group_top g ->
  n < g.(fg_missing).(missing_base) + MISSING_RANGE -> (n < my_expected sec g \/ n < other_expected sec g) ->
  step_post first D n
    (missing ← is_sequence_in_missing g.(fg_in_sequence) g.(fg_missing) n;
     if (missing : bool) then
       '(_, w) ← remove_sequence_from_missing g.(fg_in_sequence) g.(fg_missing) n;
       let g1 := set_missing w g in
       let g1 := if is_missing_empty w then set_in_sequence hooks stack_body (init_missing g1) else g1 in
       let g1 := if my_expected sec g <=? n then set_expected sec (u32 (n + 1)) g1 else g1 in
       Some (1, g1)
     else Some (0, g)).
Proof.
  intros Hi Hout H0 Hn Ht Hb Hbeh. pose proof (ai_window _ _ _ _ Hi) as Hw. rewrite Hout in *.
  destruct Hw as [Hw Hh]. assert (Hr0 : 0 < MISSING_RANGE < 2 ^ 30) by done.
  pose proof (ai_expected _ _ _ _ Hi) as He.
  rewrite (is_missing_spec _ S) by (done || apply Hw). cbn [mbind option_bind].
  case_bool_decide as Hin.
  - destruct (remove_missing_spec _ _ _ Hw Hin) as (w & Ew & Hw'). rewrite Ew. cbn [mbind option_bind]. cbv zeta.
    set (g1 := if is_missing_empty w then _ else _).
    assert (Hg1 : exists w1 b, seq_view g1 = (w1, g.(fg_primary_expected), g.(fg_secondary_expected), b) /\
      if b then S ∖ {[n]} = ∅ else win_ok w1 (S ∖ {[n]}) /\ w1.(missing_highest) < group_top g).
    { unfold g1, is_missing_empty. apply remove_highest in Ew. case_decide as Hd.
      - rewrite Hw'. change (0 =? 0) with true. cbn iota. rewrite set_in_sequence_view. by do 2 eexists.
      - destruct Hw' as [Hw' _]. pose proof (win_size _ _ _ (proj1 Hw') (proj2 Hw')).
        rewrite (eqb_false_of_ne (missing_count w)) by lia. exists w, false.
        split; [unfold seq_view; cbn; by rewrite Hout|]. split; [done | by rewrite Ew]. }
    destruct Hg1 as (w1 & b & Hv & Hg1). destruct (view_my sec _ _ _ _ Hv) as (Ew1 & Em1 & Eo1 & _).
    rewrite u32_small by lia.
    set (m := if my_expected sec g <=? n then n + 1 else my_expected sec g).
    exists (set_expected sec m g1), (S ∖ {[n]}).
    rewrite (is_new_behind g first D S) by done. rewrite bool_decide_true by done.
    split; [|split].
    + f_equal. f_equal. unfold m. destruct (_ <=? n); [done|]. rewrite <- Em1. destruct g1, sec; done.
    + eapply arca_inv_found; [done.. | exact Hv | exact Hg1 |].
      unfold m, other_expected in *. destruct (my_expected sec g <=? n) eqn:E; bool_to_prop; [right | by left].
      destruct sec; cbn in *; lia.
    + rewrite (group_top_my sec (set_expected _ _ _)), my_set_expected, other_set_expected, Eo1.
      rewrite (group_top_my sec) in Ht. unfold m. destruct (my_expected sec g <=? n) eqn:E; bool_to_prop; lia.
  - exists g, S. rewrite (is_new_behind g first D S) by done. by rewrite bool_decide_false.
Qed.

Lemma out_of_sequence_post sec pos (g : group_t) n first D S : arca_inv g first D S ->
  g.(fg_in_sequence) = false -> 0 < n -> n + MISSING_RANGE < 2 ^ 31 ->
  n < g.(fg_missing).(missing_base) + MISSING_RANGE ->
  step_post first D n (publish_out_of_sequence hooks stack_body sec pos n g).
Proof.
  intros Hi Hout H0 Hn Hb. pose proof (ai_window _ _ _ _ Hi) as Hw. rewrite Hout in Hw.
  destruct (wo_base _ _ (proj1 (proj1 Hw))) as [Hb1 Hb2].
  assert (Hr0 : 0 < MISSING_RANGE < 2 ^ 30) by done. pose proof (group_top_my sec g) as Ht.
  unfold publish_out_of_sequence, leave_window. cbv zeta. rewrite (u32_small (_ + MISSING_RANGE)) by lia.
  destruct (_ <? n) eqn:E; bool_to_prop; [lia|]. clear E. rewrite most_advanced_top.
  destruct ((n =? my_expected sec g) && negb (n <? other_expected sec g)) eqn:E1; bool_to_prop.
  { subst n. rewrite u32_small by lia. eapply post_next; [exact Hi | lia]. }
  destruct ((my_expected sec g <=? n) && (n =? other_expected sec g)) eqn:E2; bool_to_prop.
  { rewrite u32_small by lia. eapply post_next; [exact Hi | lia]. }
  destruct ((my_expected sec g <? n) && (other_expected sec g <? n)) eqn:E3; bool_to_prop.
  - destruct (gap_out_of_sequence pos g n first D S Hi Hout) as (g' & w & -> & Hv & Hw' & Hh); [lia..|].
    cbn [mbind option_bind]. rewrite u32_small by lia.
    do 2 eexists. rewrite (is_new_ahead g first D S) by (done || lia).
    split; [done|]. split.
    + by apply (arca_inv_gap sec g g' w n first D S); [done | lia | ..].
    + rewrite (group_top_my sec (set_expected _ _ _)), my_set_expected. lia.
  - rewrite !andb_false_iff, negb_false_iff, Z.leb_gt, !Z.ltb_ge, Z.ltb_lt, !Z.eqb_neq in *.
    eapply behind_post; done || lia.
Qed.

(** The decision is that of the set of published numbers. *)
Lemma need_2_publish_spec pos (g : group_t) n first D S : arca_inv g first D S ->
  in_window pos n g = true -> step_post first D n (need_2_publish pos n g).
Proof.
  intros Hi Hok. unfold in_window in Hok. cbv zeta in Hok.
  rewrite !andb_true_iff, orb_true_iff, negb_true_iff, Z.eqb_neq, Z.leb_le, !Z.ltb_lt in Hok.
  destruct Hok as [[[H0 Hn] Hjoin] Hwin]. unfold ArcaSeq.need_2_publish. cbv zeta.
  set (sec := pos =? 1) in *. pose proof (group_top_my sec g) as Ht.
  pose proof (ai_first _ _ _ _ Hi) as Hf.
  set (g0 := if my_expected sec g =? 0 then set_expected sec n g else g).
  assert (Hi0 : arca_inv g0 first D S /\ group_top g0 = group_top g /\ my_expected sec g0 <> 0 /\
    fg_in_sequence g0 = fg_in_sequence g /\ fg_missing g0 = fg_missing g).
  { unfold g0. destruct (my_expected sec g =? 0) eqn:E; bool_to_prop; [|done].
    destruct Hjoin as [?|Hjoin]; [lia|]. split; [apply arca_inv_duplicate; [done | lia..]|].
    rewrite (group_top_my sec (set_expected _ _ _)), my_set_expected, other_set_expected. repeat split; lia. }
  destruct Hi0 as (Hi0 & Ht0 & Hm0 & Eb & Ew). rewrite Eb.
  destruct (fg_in_sequence g) eqn:Es; bool_to_prop.
  - eapply in_sequence_post; done || lia.
  - eapply out_of_sequence_post; [done.. | rewrite Ew; lia].
Qed.

(** ** Streams *)

(** The published numbers among the packets that come, with their feeds. *)
Fixpoint arbitrate (pkts : list (Z * Z)) (g : group_t) : option (list Z * group_t) :=
  match pkts with
  | [] => Some ([], g)
  | (pos, n) :: pkts =>
      '(rc, g) ← need_2_publish pos n g;
      '(log, g) ← arbitrate pkts g;
      Some (if rc =? 0 then log else n :: log, g)
  end.

(** Every packet is in the window when it comes. *)
Fixpoint all_in_window (pkts : list (Z * Z)) (g : group_t) : bool :=
  match pkts with
  | [] => true
  | (pos, n) :: pkts =>
      in_window pos n g &&
      match need_2_publish pos n g with Some (_, g) => all_in_window pkts g | None => true end
  end.

Lemma arbitrate_spec pkts : forall (g : group_t) first D S, arca_inv g first D S ->
  all_in_window pkts g = true ->
  exists log g' S', arbitrate pkts g = Some (log, g') /\
    arca_inv g' first (D ∪ list_to_set log) S' /\ NoDup log /\
    (forall n, n ∈ log <-> n ∈ pkts.*2 /\ first <= n /\ n ∉ D).
Proof.
  induction pkts as [|[pos n] pkts IH]; intros g first D S Hi Hok; cbn [arbitrate].
  - exists [], g, S. split; [done|]. cbn. rewrite union_empty_r_L. split; [done|].
    split; [constructor|]. intros m. rewrite elem_of_nil. tauto.
  - cbn [all_in_window] in Hok. apply andb_true_iff in Hok as [Hin Hok].
    destruct (need_2_publish_spec pos g n first D S Hi Hin) as (g1 & S1 & E & Hi1 & Hn).
    rewrite E in *. cbn [mbind option_bind].
    destruct (IH g1 _ _ S1 Hi1 Hok) as (log & g' & S' & -> & Hi' & Hnd & Hlog).
    cbn [mbind option_bind]. unfold is_new in *. case_bool_decide as Hnew; cbn iota in *.
    + exists (n :: log), g', S'. split; [done|]. split; [|split].
      * cbn [list_to_set]. by replace (D ∪ ({[n]} ∪ list_to_set log)) with ({[n]} ∪ D ∪ list_to_set log) by set_solver.
      * constructor; [|done]. rewrite Hlog. set_solver.
      * intros m. cbn. rewrite !elem_of_cons, Hlog, not_elem_of_union, not_elem_of_singleton.
        destruct (decide (m = n)) as [->|]; tauto.
    + exists log, g', S'. split; [done|]. split; [done|]. split; [done|].
      intros m. cbn. rewrite elem_of_cons, Hlog. split; [tauto|]. intros [[->|?] [? ?]]; tauto.
Qed.

(** The first packet of all. *)
Lemma first_packet pos n (g : group_t) :
  g.(fg_primary_expected) = 0 -> g.(fg_secondary_expected) = 0 -> g.(fg_in_sequence) = true ->
  0 < n < 2 ^ 31 ->
  exists g1, need_2_publish pos n g = Some (1, g1) /\
    g1 = set_expected (pos =? 1) (n + 1) g /\ arca_inv g1 n {[n]} ∅.
Proof.
  intros Hp Hs Hin Hn. set (sec := pos =? 1).
  assert (Hm : my_expected sec g = 0 /\ other_expected sec g = 0) by (unfold other_expected; by destruct sec).
  destruct Hm as [Hm Ho]. exists (set_expected sec (n + 1) g). split; [|split; [done|]].
  - unfold ArcaSeq.need_2_publish. cbv zeta. fold sec. rewrite Hm. change (0 =? 0) with true. cbn iota.
    change (fg_in_sequence (set_expected sec n g)) with (fg_in_sequence g). rewrite Hin.
    unfold publish_in_sequence. cbv zeta. rewrite my_set_expected, other_set_expected, Ho, Z.eqb_refl.
    destruct (n <? 0) eqn:E; bool_to_prop; [lia|]. rewrite u32_small by lia. by destruct g, sec.
  - eapply (arca_inv_my sec); [reflexivity | by rewrite my_set_expected | by rewrite other_set_expected | reflexivity |..];
      rewrite ?Ho; [lia | lia | | |].
    + intros k ->%elem_of_singleton. lia.
    + intros k. split; [set_solver|]. intros [? Hk]. rewrite elem_of_singleton in Hk. lia.
    + cbn. by rewrite Hin.
Qed.

End arbiter.
