(* ===== verification/ArcaTheorems.v ===== *)
(** * Arca arbitration: the claims

    Within the window the two feeds are merged without loss or repetition;
    outside it the code loses or repeats numbers, which the other theorems
    make exact. *)
From S2P Require Import Prelude Bytes Mpool ArcaMsg ArcaGroup ArcaSeq ArcaWindow ArcaArbiter.

(** A group as [new_feed_group] leaves it, with numbers expected. *)
Definition demo_group (p s : Z) : feed_group unit :=
  MkGroup missing_zero p s true (fun _ => 0) (MkArcaCfg 0 true true 0 0) ([], []) ([], []) tt.
Definition demo_missing (w : missing_window) (p s : Z) : feed_group unit :=
  set_missing w (set_in_seq false (demo_group p s)).

(** ** Merging *)

(** C5: functional. The two feeds of a line, arbitrated: while every packet
    is in the window of missing numbers when it comes, the numbers published
    are exactly those received from the first one on, each of them once; and
    the group is in sequence exactly when no number is missing. *)
Theorem arca_exactly_once {W} (hooks : arca_hooks W) stack_body (g : feed_group W) pos n pkts :
  g.(fg_primary_expected) = 0 -> g.(fg_secondary_expected) = 0 -> g.(fg_in_sequence) = true ->
  0 < n < 2 ^ 31 ->
  all_in_window hooks stack_body pkts (set_expected (pos =? 1) (n + 1) g) = true ->
  exists log g', arbitrate hooks stack_body ((pos, n) :: pkts) g = Some (log, g') /\ NoDup log /\
    (forall m, m ∈ log <-> m ∈ n :: pkts.*2 /\ n <= m) /\
    (g'.(fg_in_sequence) = true <-> forall m, n <= m < group_top g' -> m ∈ n :: pkts.*2).
Proof.
  intros Hp Hs Hin Hn Hw. cbn [arbitrate].
  destruct (first_packet hooks stack_body pos n g Hp Hs Hin Hn) as (g1 & -> & -> & Hi).
  cbn [mbind option_bind].
  destruct (arbitrate_spec hooks stack_body pkts _ n {[n]} ∅ Hi Hw) as (log & g' & S' & -> & Hi' & Hnd & Hlog).
  cbn [mbind option_bind]. change (1 =? 0) with false. cbn iota.
  exists (n :: log), g'. split; [done|].
  assert (Hl : forall m, m ∈ n :: log <-> m ∈ n :: pkts.*2 /\ n <= m).
  { intros m. rewrite !elem_of_cons, Hlog, not_elem_of_singleton.
    destruct (decide (m = n)) as [->|]; intuition lia. }
  split; [constructor; [rewrite Hlog; set_solver | done]|]. split; [exact Hl|].
  assert (Hd : forall m, m ∈ {[n]} ∪ list_to_set (C := gset Z) log <-> m ∈ n :: log).
  { intros m. rewrite elem_of_union, elem_of_singleton, elem_of_list_to_set, elem_of_cons. done. }
  pose proof (ai_window _ _ _ _ Hi') as Hwin. pose proof (ai_missing _ _ _ _ Hi') as Hm.
  destruct (fg_in_sequence g'); split; try done.
  - intros _ m Hr. apply Hl, Hd. destruct (decide (m ∈ {[n]} ∪ list_to_set (C := gset Z) log)); [done|].
    subst S'. exfalso. by apply (not_elem_of_empty (C := gset Z) m), Hm.
  - intros Hall. exfalso. destruct Hwin as [[Hwin Hlow] _]. apply Hm in Hlow as [Hr Hnot].
    apply Hnot, Hd, Hl. split; [by apply Hall | lia].
Qed.

(** C5's witness: a gap that the other feed fills. *)
Lemma arca_exactly_once_witness : exists g',
  arbitrate arca_no_hooks body_zero [(0, 1); (1, 1); (0, 4); (1, 2); (0, 2); (1, 3); (1, 5); (0, 5)]
    (demo_group 0 0) = Some ([1; 4; 2; 3; 5], g') /\ NoDup [1; 4; 2; 3; 5] /\ g'.(fg_in_sequence) = true.
Proof.
  destruct (arca_exactly_once arca_no_hooks body_zero (demo_group 0 0) 0 1
    [(1, 1); (0, 4); (1, 2); (0, 2); (1, 3); (1, 5); (0, 5)]) as (log & g' & E & Hnd & _ & _);
    [done | done | done | lia | by vm_compute |].
  exists g'. assert (El : log = [1; 4; 2; 3; 5]).
  { apply (f_equal (option_map fst)) in E. vm_compute in E. by injection E as <-. }
  subst log. split; [exact E|]. split; [exact Hnd|].
  assert (E2 : option_map (fun r => fg_in_sequence r.2) (arbitrate arca_no_hooks body_zero
    [(0, 1); (1, 1); (0, 4); (1, 2); (0, 2); (1, 3); (1, 5); (0, 5)] (demo_group 0 0)) = Some true)
    by (by vm_compute).
  rewrite E in E2. by injection E2.
Defined.

(** ** Outside the window *)

Section outside.
Context {W : Type} (hooks : arca_hooks W) (stack_body : msg_body).
Notation need_2_publish := (need_2_publish hooks stack_body).

(** A gap of more than [MISSING_RANGE] numbers while in sequence:
    the packet is published, nothing is recorded as missing, the group stays
    in sequence, no plugin is told and no message counted as unrecoverable. *)
Theorem arca_big_gap_silent (g : feed_group W) pos n :
  g.(fg_in_sequence) = true -> my_expected (pos =? 1) g <> 0 ->
  0 <= group_top g -> n - group_top g > MISSING_RANGE -> n < 2 ^ 31 - 1 ->
  exists g', need_2_publish pos n g = Some (1, g') /\ g'.(fg_in_sequence) = true /\
    g'.(fg_missing) = missing_zero /\ group_top g' = n + 1 /\ g'.(fg_world) = g.(fg_world) /\
    g'.(fg_count) UnrecoverableMessages = g.(fg_count) UnrecoverableMessages.
Proof.
  intros Hin Hmy Ht Hgap Hn. unfold ArcaSeq.need_2_publish. cbv zeta. set (sec := pos =? 1) in *.
  assert (Hr : 0 < MISSING_RANGE < 2 ^ 30) by done.
  rewrite (eqb_false_of_ne (my_expected sec g)) by done. rewrite Hin.
  unfold publish_in_sequence. cbv zeta. rewrite most_advanced_top.
  pose proof (group_top_my sec g) as Hm.
  rewrite (eqb_false_of_ne n (my_expected sec g)), (eqb_false_of_ne n (other_expected sec g)) by lia.
  destruct (n <? my_expected sec g) eqn:E1; bool_to_prop; [lia|].
  destruct (n <? other_expected sec g) eqn:E2; bool_to_prop; [lia|].
  unfold first_gap. rewrite (u32_small (n - group_top g)), (u32_small (n + 1)) by lia.
  destruct (MISSING_RANGE <? n - group_top g) eqn:E3; bool_to_prop; [|lia]. cbv zeta.
  rewrite (s32_small (n - group_top g)) by lia.
  set (size := s32 (n - (if _ <? _ then _ else _))).
  assert (Hsz : (if size <? n - group_top g then n - group_top g else size) <? n - group_top g = false)
    by (destruct (size <? _) eqn:E; bool_to_prop; apply Z.ltb_ge; lia).
  rewrite Hsz. cbn [mbind option_bind]. eexists. split; [reflexivity|]. split; [exact Hin|].
  split; [by destruct sec|]. split; [|by destruct sec].
  rewrite (group_top_my sec), my_set_expected, other_set_expected. unfold other_expected in *.
  destruct sec; cbn in *; lia.
Qed.

(** In sequence, a number below the top is a duplicate. *)
Lemma behind_dropped (g : feed_group W) pos m : g.(fg_in_sequence) = true ->
  g.(fg_primary_expected) <> 0 -> g.(fg_secondary_expected) <> 0 -> m < group_top g ->
  exists g2, need_2_publish pos m g = Some (0, g2).
Proof.
  intros Hin Hp Hs Hm. unfold ArcaSeq.need_2_publish. cbv zeta. set (sec := pos =? 1).
  rewrite (group_top_my sec) in Hm.
  rewrite (eqb_false_of_ne (my_expected sec g)) by (by destruct sec).
  rewrite Hin. unfold publish_in_sequence. cbv zeta.
  destruct (m =? my_expected sec g) eqn:E1; bool_to_prop.
  { destruct (m <? other_expected sec g) eqn:E2; bool_to_prop; [eauto | lia]. }
  destruct (m <? my_expected sec g) eqn:E2; bool_to_prop; [eauto|].
  destruct (m =? other_expected sec g) eqn:E3; bool_to_prop; [lia|].
  destruct (m <? other_expected sec g) eqn:E4; bool_to_prop; [eauto | lia].
Qed.

(** A feed that joins with a number ahead of the other one: its
    first packet is published, the group stays in sequence, and from then on
    the numbers the other feed had still to bring are dropped as duplicates,
    although nobody published them. *)
Theorem arca_late_feed_drops (g : feed_group W) pos n :
  g.(fg_in_sequence) = true -> my_expected (pos =? 1) g = 0 -> 0 < other_expected (pos =? 1) g < n ->
  n < 2 ^ 31 - 1 ->
  exists g1, need_2_publish pos n g = Some (1, g1) /\ g1.(fg_in_sequence) = true /\
    g1.(fg_world) = g.(fg_world) /\
    forall pos' m, other_expected (pos =? 1) g <= m <= n ->
      exists g2, need_2_publish pos' m g1 = Some (0, g2).
Proof.
  set (sec := pos =? 1). set (o := other_expected sec g). intros Hin Hmy Ho Hn.
  exists (set_expected sec (n + 1) g). split; [|split; [done|split; [done|]]].
  - unfold ArcaSeq.need_2_publish. cbv zeta. fold sec. rewrite Hmy. change (0 =? 0) with true. cbn iota.
    change (fg_in_sequence (set_expected sec n g)) with (fg_in_sequence g). rewrite Hin.
    unfold publish_in_sequence. cbv zeta. rewrite my_set_expected, other_set_expected, Z.eqb_refl.
    fold o. destruct (n <? o) eqn:E; bool_to_prop; [lia|]. rewrite u32_small by lia. by destruct g, sec.
  - intros pos' m Hm. apply behind_dropped; [done | | |].
    + unfold o, other_expected in Ho. destruct sec; cbn in *; lia.
    + unfold o, other_expected in Ho. destruct sec; cbn in *; lia.
    + rewrite (group_top_my sec), my_set_expected. lia.
Qed.

(** Out of sequence, a number past the window: it is published and
    the group is in sequence again.  The missing numbers are counted as
    unrecoverable; the others before it are not, but whatever is below it is
    dropped from then on, received before or not. *)
Theorem arca_window_exit (g : feed_group W) pos n :
  g.(fg_in_sequence) = false -> my_expected (pos =? 1) g <> 0 -> other_expected (pos =? 1) g <> 0 ->
  0 <= g.(fg_missing).(missing_base) -> n < 2 ^ 31 - 1 ->
  g.(fg_missing).(missing_base) + MISSING_RANGE < n -> other_expected (pos =? 1) g <= n ->
  exists g1, need_2_publish pos n g = Some (1, g1) /\ g1.(fg_in_sequence) = true /\
    g1.(fg_missing) = missing_zero /\ my_expected (pos =? 1) g1 = n + 1 /\
    g1.(fg_count) UnrecoverableMessages =
      u64 (g.(fg_count) UnrecoverableMessages + g.(fg_missing).(missing_count)) /\
    forall pos' m, m <= n -> exists g2, need_2_publish pos' m g1 = Some (0, g2).
Proof.
  set (sec := pos =? 1). intros Hout Hmy Ho Hb Hmax Hn Hon.
  assert (Hr0 : 0 < MISSING_RANGE < 2 ^ 30) by done.
  unfold ArcaSeq.need_2_publish at 1. cbv zeta. fold sec.
  rewrite (eqb_false_of_ne (my_expected sec g)) by done. rewrite Hout.
  unfold publish_out_of_sequence, leave_window. cbv zeta. rewrite (u32_small (_ + MISSING_RANGE)) by lia.
  destruct (_ <? n) eqn:E; bool_to_prop; [|lia]. clear E.
  set (gn := notify_packet_loss _ _ _ _ _ _ _).
  set (gl := set_in_sequence _ _ _).
  assert (Hv : seq_view gn = seq_view g).
  { unfold gn, notify_packet_loss. cbv zeta. by destruct (publish_packet_loss _ _ _). }
  assert (Hvl : seq_view gl = (missing_zero, (set_expected sec n g).(fg_primary_expected),
                               (set_expected sec n g).(fg_secondary_expected), true)).
  { unfold gl. rewrite set_in_sequence_view. unfold seq_view in Hv. destruct sec; cbn in *; congruence. }
  destruct (view_my sec _ _ _ _ Hvl) as (Ew & Em & Eo & Eb).
  rewrite Em, Eo, my_set_expected, other_set_expected, Z.eqb_refl.
  destruct (n <? other_expected sec g) eqn:E1; bool_to_prop; [lia|]. cbn [andb negb].
  rewrite u32_small by lia. eexists. split; [reflexivity|]. split; [exact Eb|]. split; [exact Ew|].
  split; [apply my_set_expected|]. split.
  - change (fg_count (set_expected sec (n + 1) gl)) with (fg_count gl).
    transitivity (fg_count gn UnrecoverableMessages).
    + unfold gl, set_in_sequence, send_alert. cbv zeta. destruct (publish_feed_alert _ _ _) as [rc w0].
      unfold count_publication. by destruct (rc =? FH_OK), sec.
    + unfold gn, notify_packet_loss. cbv zeta. destruct (publish_packet_loss _ _ _) as [rc w0].
      unfold count_publication. by destruct (rc =? FH_OK).
  - intros pos' m Hm.
    assert (He : my_expected sec (set_expected sec (n + 1) gl) = n + 1 /\
                 other_expected sec (set_expected sec (n + 1) gl) = other_expected sec g)
      by (by rewrite my_set_expected, other_set_expected, Eo, other_set_expected).
    destruct He as [He1 He2].
    apply behind_dropped; [exact Eb | | |].
    + unfold other_expected in *. destruct sec; cbn in *; lia.
    + unfold other_expected in *. destruct sec; cbn in *; lia.
    + rewrite (group_top_my sec), He1. lia.
Qed.

End outside.

(** Witness. *)
Lemma arca_big_gap_silent_witness : exists g',
  need_2_publish arca_no_hooks body_zero 0 3000000 (demo_group 10 0) = Some (1, g') /\
  g'.(fg_in_sequence) = true.
Proof.
  destruct (arca_big_gap_silent arca_no_hooks body_zero (demo_group 10 0) 0 3000000)
    as (g' & E & Hin & _); [done | done | done | by vm_compute | done |].
  exists g'. split; [exact E | exact Hin].
Defined.

(** After 10 from the feed that was late, 5 is dropped. *)
Lemma arca_late_feed_drops_witness : exists g1 g2,
  need_2_publish arca_no_hooks body_zero 1 10 (demo_group 5 0) = Some (1, g1) /\
  need_2_publish arca_no_hooks body_zero 0 5 g1 = Some (0, g2).
Proof.
  destruct (arca_late_feed_drops arca_no_hooks body_zero (demo_group 5 0) 1 10)
    as (g1 & E & _ & _ & Hd); [done | done | done | done |].
  destruct (Hd 0 5) as [g2 E2]; [done|]. exists g1, g2. split; [exact E | exact E2].
Defined.

(** ** The edges of the window *)

Section edges.
Context {W : Type} (hooks : arca_hooks W) (stack_body : msg_body).
Notation need_2_publish := (need_2_publish hooks stack_body).

(** Out of sequence, a number that is known to be missing is published. *)
Lemma missing_published sec pos (g : feed_group W) n S : sec = (pos =? 1) ->
  my_expected sec g <> 0 -> n < my_expected sec g -> g.(fg_in_sequence) = false ->
  win_ok g.(fg_missing) S -> n ∈ S -> exists g2, need_2_publish pos n g = Some (1, g2).
Proof.
  intros -> Hmy Hlt Hout Hw Hn. set (sec := pos =? 1) in *.
  pose proof (proj1 (wo_bits _ _ (proj1 Hw) n) Hn) as [Hr _]. destruct (wo_base _ _ (proj1 Hw)) as [Hb1 Hb2].
  assert (Hr0 : 0 < MISSING_RANGE < 2 ^ 30) by done.
  unfold ArcaSeq.need_2_publish. cbv zeta. fold sec.
  rewrite (eqb_false_of_ne (my_expected sec g)) by done. rewrite Hout.
  unfold publish_out_of_sequence, leave_window. cbv zeta. rewrite (u32_small (_ + MISSING_RANGE)) by lia.
  destruct (_ <? n) eqn:E; bool_to_prop; [lia|].
  rewrite (eqb_false_of_ne n (my_expected sec g)) by lia. cbn [andb].
  destruct (my_expected sec g <=? n) eqn:E1; bool_to_prop; [lia|]. cbn [andb].
  destruct (my_expected sec g <? n) eqn:E2; bool_to_prop; [lia|]. cbn [andb].
  rewrite Hout, (is_missing_spec _ S) by (exact (proj1 Hw) || lia). rewrite bool_decide_true by done.
  cbn [mbind option_bind]. destruct (remove_missing_spec _ _ _ Hw Hn) as (w & -> & _).
  cbn [mbind option_bind]. eauto.
Qed.

(** Out of sequence, the first number after the window, with a
    gap before it: the missing numbers are given up and the [MISSING_RANGE / 2]
    numbers before it all become missing ones, those too that were published;
    each of them is published again when the same feed brings it. *)
Theorem arca_window_edge_republishes (g : feed_group W) pos n first D S :
  arca_inv g first D S -> g.(fg_in_sequence) = false -> my_expected (pos =? 1) g <> 0 ->
  n = g.(fg_missing).(missing_base) + MISSING_RANGE -> group_top g < n -> n + MISSING_RANGE < 2 ^ 31 ->
  exists g1, need_2_publish pos n g = Some (1, g1) /\ g1.(fg_in_sequence) = false /\
    forall m, m ∈ D -> n - MISSING_RANGE / 2 <= m ->
      exists g2, need_2_publish pos m g1 = Some (1, g2).
Proof.
  set (sec := pos =? 1). intros Hi Hout Hmy Hn Ht Hmax.
  pose proof (ai_window _ _ _ _ Hi) as Hw. rewrite Hout in Hw. destruct Hw as [Hw _].
  destruct (wo_base _ _ (proj1 Hw)) as [Hb1 Hb2]. pose proof (group_top_my sec g) as Htop.
  pose proof (ai_first _ _ _ _ Hi) as Hf.
  assert (Hr0 : 0 < MISSING_RANGE < 2 ^ 30) by done.
  assert (Hr2 : 0 < MISSING_RANGE / 2 < MISSING_RANGE) by done.
  unfold ArcaSeq.need_2_publish at 1. cbv zeta. fold sec.
  rewrite (eqb_false_of_ne (my_expected sec g)) by done. rewrite Hout.
  unfold publish_out_of_sequence, leave_window. cbv zeta. rewrite (u32_small (_ + MISSING_RANGE)) by lia.
  destruct (_ <? n) eqn:E; bool_to_prop; [lia|]. clear E. rewrite most_advanced_top.
  rewrite (eqb_false_of_ne n (my_expected sec g)), (eqb_false_of_ne n (other_expected sec g)) by lia.
  rewrite andb_false_r. cbn [andb].
  destruct (my_expected sec g <? n) eqn:E1; bool_to_prop; [|lia].
  destruct (other_expected sec g <? n) eqn:E2; bool_to_prop; [|lia]. cbn [andb].
  unfold second_gap. cbv zeta. change (fg_missing (count_arca _ _ _)) with (fg_missing g).
  rewrite (u32_small (n - group_top g)), (u32_small (_ + MISSING_RANGE)) by lia.
  rewrite <- Hn, Z.ltb_irrefl. rewrite (s32_small (n - MISSING_RANGE / 2)) by lia.
  rewrite (s32_small (n - (n - MISSING_RANGE / 2))) by lia.
  set (gn := notify_packet_loss _ _ _ _ _ _ _). unfold add_missing.
  change (fg_missing (init_missing gn)) with missing_zero.
  rewrite (u32_small (n - MISSING_RANGE / 2)), (u32_small (n - (n - _))) by lia.
  destruct (add_first_gap (n - MISSING_RANGE / 2) (n - (n - MISSING_RANGE / 2)))
    as (w & -> & Hw' & _); [lia..|].
  cbn [mbind option_bind]. rewrite u32_small by lia. eexists. split; [reflexivity|].
  set (g1 := set_expected sec (n + 1) _).
  assert (Hv : seq_view gn = seq_view g).
  { unfold gn, notify_packet_loss. cbv zeta. by destruct (publish_packet_loss _ _ _). }
  assert (Hout1 : fg_in_sequence g1 = false).
  { change (fg_in_sequence gn = false). unfold seq_view in Hv. congruence. }
  split; [exact Hout1|]. intros m Hm Hle. pose proof (ai_published _ _ _ _ Hi m Hm).
  apply (missing_published sec pos g1 m (range_set (n - MISSING_RANGE / 2) (n - (n - MISSING_RANGE / 2))));
    [done | unfold g1; rewrite my_set_expected; lia | unfold g1; rewrite my_set_expected; lia | done | exact Hw' |].
  apply elem_of_range_set. lia.
Qed.

(** The window is tested from its lowest missing number, but
    indexed from its base: once the lowest number is above the base, a number
    that is [MISSING_RANGE] above the base reads a word past the end of
    [missing_sequence]. *)
Theorem arca_window_overrun (g : feed_group W) pos n :
  g.(fg_in_sequence) = false -> n = g.(fg_missing).(missing_base) + MISSING_RANGE ->
  g.(fg_missing).(missing_base) < g.(fg_missing).(missing_lowest) <= n -> 0 <= g.(fg_missing).(missing_base) ->
  n + MISSING_RANGE < 2 ^ 31 -> my_expected (pos =? 1) g <> 0 ->
  n < my_expected (pos =? 1) g \/ my_expected (pos =? 1) g <= n < other_expected (pos =? 1) g ->
  need_2_publish pos n g = None.
Proof.
  set (sec := pos =? 1). intros Hout Hn Hl Hb Hmax Hmy Hc.
  assert (Hr0 : 0 < MISSING_RANGE < 2 ^ 30) by done.
  unfold ArcaSeq.need_2_publish. cbv zeta. fold sec.
  rewrite (eqb_false_of_ne (my_expected sec g)) by done. rewrite Hout.
  unfold publish_out_of_sequence, leave_window. cbv zeta. rewrite (u32_small (_ + MISSING_RANGE)) by lia.
  destruct (_ <? n) eqn:E; bool_to_prop; [lia|]. clear E.
  destruct (_ && negb _) eqn:E1; bool_to_prop; [lia|]. clear E1.
  destruct (_ && (n =? _)) eqn:E2; bool_to_prop; [lia|]. clear E2.
  destruct (_ && (_ <? n)) eqn:E3; bool_to_prop; [lia|]. clear E3.
  unfold is_sequence_in_missing. rewrite Hout. cbn [orb]. rewrite (u32_small (_ + MISSING_RANGE)) by lia.
  destruct (missing_lowest _ + _ <=? n) eqn:E4; bool_to_prop; [lia|]. cbn [orb].
  destruct (n <? missing_lowest _) eqn:E5; bool_to_prop; [lia|].
  destruct (n <? missing_base _) eqn:E6; bool_to_prop; [lia|].
  assert (Hd : u32 (n - missing_base (fg_missing g)) = MISSING_RANGE) by (rewrite u32_small; lia).
  unfold missing_mask, missing_offset. rewrite Hd.
  change (missing_modulos !! Z.to_nat (MISSING_RANGE mod 64)) with (Some 1). cbn [mbind option_bind].
  by change (missing_word (fg_missing g) (Z.shiftr MISSING_RANGE 6)) with (@None Z).
Qed.

End edges.

(** ** Witnesses *)

(** 1 and [k] came: the numbers in between are missing. *)
Lemma demo_missing_inv k : 2 < k -> k - 2 <= MISSING_RANGE -> exists w,
  arca_inv (demo_missing w (k + 1) 1) 1 {[1; k]} (range_set 2 (k - 2)) /\ w.(missing_base) = 2.
Proof.
  intros Hk Hr. assert (Hr0 : 0 < MISSING_RANGE < 2 ^ 30) by done.
  destruct (add_first_gap 2 (k - 2)) as (w & Ew & Hw & Hb); [lia..|]. exists w. split; [|done].
  apply add_highest in Ew; [|cbn; lia..].
  assert (Ht : group_top (demo_missing w (k + 1) 1) = k + 1) by (unfold group_top; cbn; lia).
  constructor; rewrite ?Ht; [lia | cbn; lia | | | split; [exact Hw | cbn; lia]].
  - intros n. rewrite elem_of_union, !elem_of_singleton. lia.
  - intros n. rewrite elem_of_range_set, not_elem_of_union, !not_elem_of_singleton. lia.
Qed.

(** 1048677 is published a second time. *)
Lemma arca_window_edge_republishes_witness : exists w g1 g2,
  need_2_publish arca_no_hooks body_zero 0 2097154 (demo_missing w 1048678 1) = Some (1, g1) /\
  need_2_publish arca_no_hooks body_zero 0 1048677 g1 = Some (1, g2).
Proof.
  destruct (demo_missing_inv 1048677) as (w & Hi & Hb); [lia | done |].
  destruct (arca_window_edge_republishes arca_no_hooks body_zero _ 0 2097154 _ _ _ Hi) as (g1 & E & _ & Hd);
    [reflexivity | done | cbn; rewrite Hb; reflexivity | done | done |].
  destruct (Hd 1048677) as [g2 E2]; [set_solver | done |].
  exists w, g1, g2. split; [exact E | exact E2].
Defined.

(** 2 was found, 3 is missing. *)
Lemma arca_window_overrun_witness :
  need_2_publish arca_no_hooks body_zero 0 2097154
    (demo_missing (MkMissing {[0 := 2]} 2 1 3 3) 2097155 5) = None.
Proof.
  apply (arca_window_overrun arca_no_hooks body_zero); [done..| by left].
Defined.

(** A concrete run: 3 was missing, 100 never came. *)
Lemma arca_window_exit_witness : exists g1 g2,
  need_2_publish arca_no_hooks body_zero 0 3000000
    (demo_missing (MkMissing {[0 := 2]} 2 1 3 3) 100 5) = Some (1, g1) /\
  need_2_publish arca_no_hooks body_zero 1 100 g1 = Some (0, g2).
Proof.
  destruct (arca_window_exit arca_no_hooks body_zero
    (demo_missing (MkMissing {[0 := 2]} 2 1 3 3) 100 5) 0 3000000)
    as (g1 & E & _ & _ & _ & _ & Hd); [done..|].
  destruct (Hd 1 100) as [g2 E2]; [done|]. exists g1, g2. split; [exact E | exact E2].
Defined.
