(* ===== verification/ArcaFast.v ===== *)
(** * The FAST decoder of ArcaBook
      ([src/feeds/arca/codec/newFastDecode.c], [AB_Fast.h])

    A compacted message starts with a presence map: a field whose bit is not
    set has the value it had in the message before it, or the next one.  The
    decoder writes the exchange's struct, in network byte order, into a
    buffer [dst] that is larger than the struct. *)
From S2P Require Import Prelude Bytes Mpool ArcaMsg.

(** ** Constants *)

Definition AB_OK : Z := 0.
Definition AB_INVALID_STATE : Z := -3.
Definition AB_INCOMPLETE_ERROR : Z := -4.
Definition AB_INVALID_HEADER : Z := -6.
Definition AB_MIN_FAST_MSG : Z := 2.
Definition AB_MAX_STRLEN : Z := 64.
Definition AB_MAX_PMAP : Z := 2.
Definition AB_MAX_FIELD : nat := 14.

(** [enum AB_FIELDS]: indices into the state. *)
Definition AB_MSG_TYPE : nat := 0.
Definition AB_STOCK_IDX : nat := 1.
Definition AB_SEQUENCE : nat := 2.
Definition AB_TIME : nat := 3.
Definition AB_ORDER_ID : nat := 4.
Definition AB_VOLUME : nat := 5.
Definition AB_PRICE : nat := 6.
Definition AB_PRICE_SCALE : nat := 7.
Definition AB_BUY_SELL : nat := 8.
Definition AB_EXCH_ID : nat := 9.
Definition AB_SECURITY_TYPE : nat := 10.
Definition AB_FIRM_ID : nat := 11.
Definition AB_SESSION_ID : nat := 12.
Definition AB_BITMAP : nat := 13.

Inductive fast_encode := OP_NONE | OP_COPY | OP_INCR.

(** ** State *)

(** One [FAST_STATE]; the union [value] is its 64 bytes. *)
Record FAST_STATE := MkFast {
  fa_field : nat;
  fa_valid : bool;
  fa_encodeType : fast_encode;
  fa_size : Z;
  fa_value : list Z
}.

Definition fast_entry (field : nat) (op : fast_encode) : FAST_STATE :=
  MkFast field false op 0 (replicate 64 0).

Definition fastStateInit : list FAST_STATE :=
  [fast_entry AB_MSG_TYPE OP_NONE; fast_entry AB_STOCK_IDX OP_COPY; fast_entry AB_SEQUENCE OP_INCR;
   fast_entry AB_TIME OP_COPY; fast_entry AB_ORDER_ID OP_COPY; fast_entry AB_VOLUME OP_COPY;
   fast_entry AB_PRICE OP_COPY; fast_entry AB_PRICE_SCALE OP_COPY; fast_entry AB_BUY_SELL OP_COPY;
   fast_entry AB_EXCH_ID OP_COPY; fast_entry AB_SECURITY_TYPE OP_COPY; fast_entry AB_FIRM_ID OP_COPY;
   fast_entry AB_SESSION_ID OP_COPY; fast_entry AB_BITMAP OP_NONE].

(** [value.uint32Val] *)
Definition fa_uint32 (s : FAST_STATE) : Z := le_val (take 4 s.(fa_value)).
Definition set_fa_uint32 (v : Z) (s : FAST_STATE) : FAST_STATE :=
  MkFast s.(fa_field) s.(fa_valid) s.(fa_encodeType) s.(fa_size) (le_bytes 4 v ++ drop 4 s.(fa_value)).
(** What is saved for the next message. *)
Definition save_fa (size : Z) (value : list Z) (s : FAST_STATE) : FAST_STATE :=
  MkFast s.(fa_field) true s.(fa_encodeType) size (value ++ drop (length value) s.(fa_value)).
Definition invalidate_fa (s : FAST_STATE) : FAST_STATE :=
  MkFast s.(fa_field) false s.(fa_encodeType) s.(fa_size) s.(fa_value).

(** ** Bits and bytes *)

(** [ISBITSET(buf, bitnum)], with [buf] at [p] *)
Definition ISBITSET (buf : list Z) (p bitnum : Z) : option bool :=
  b ← byte_at buf (p + bitnum / 7);
  Some (negb (Z.land b (Z.shiftr 0x40 (bitnum mod 7)) =? 0)).

(** Writing [bytes] at [off] of the destination. *)
Definition write_at (dst : list Z) (off : Z) (bytes : list Z) : option (list Z) :=
  guard_ub ((0 <=? off) && (off + Z.of_nat (length bytes) <=? Z.of_nat (length dst)))
    (Some (take (Z.to_nat off) dst ++ bytes ++ drop (Z.to_nat off + length bytes) dst)).

(** The loop over the bytes without the stop bit, and the byte after them if
    there is one in the [n] bytes left. *)
Fixpoint stop_bytes (n : nat) (buf : list Z) (p : Z) : option (list Z * option Z) :=
  match n with
  | 0%nat => Some ([], None)
  | S n =>
      b ← byte_at buf p;
      if b <? 0x80 then '(l, last) ← stop_bytes n buf (p + 1); Some (b :: l, last)
      else Some ([], Some b)
  end.

(** [*data = ( *data << 7) | b], on 32 bits. *)
Definition shift_in (data b : Z) : Z := u32 (Z.lor (Z.shiftl data 7) b).

Section decode.
(** What the uninitialised local [data] of [DecodeI16] and [DecodeI8] holds. *)
Context (stack_data : Z).

(** ** Fields *)

(** The results of a decoder: its status, [*len], the bytes of [*data] when it
    was written, and the entry of the field. *)
Definition field_result : Type := Z * Z * option (list Z) * FAST_STATE.

(** The four bytes that are left in [*data]; they are in network order when
    the status is [AB_OK]. *)
Definition DecodeI32 (buf : list Z) (p len : Z) (s : FAST_STATE) (pmap : list Z)
    : option field_result :=
  present ← ISBITSET pmap 0 (Z.of_nat s.(fa_field));
  if negb present then
    if s.(fa_valid) then
      match s.(fa_encodeType) with
      | OP_INCR =>
          let s := set_fa_uint32 (u32 (fa_uint32 s + 1)) s in
          Some (AB_OK, 0, Some (be_bytes 4 (fa_uint32 s)), s)
      | OP_COPY => Some (AB_OK, 0, Some (be_bytes 4 (fa_uint32 s)), s)
      | OP_NONE => Some (AB_INVALID_STATE, len, None, s)
      end
    else Some (AB_INVALID_STATE, len, None, s)
  else
    '(l, last) ← stop_bytes (Z.to_nat len) buf p;
    let data := fold_left shift_in l 0 in
    match last with
    | None => Some (AB_INCOMPLETE_ERROR, len, Some (le_bytes 4 data), s)
    | Some b =>
        let data := shift_in data (Z.land b 0x7f) in
        let s := match s.(fa_encodeType) with
                 | OP_COPY | OP_INCR => save_fa 4 (le_bytes 4 data) s
                 | OP_NONE => s
                 end in
        Some (AB_OK, Z.of_nat (length l) + 1, Some (be_bytes 4 data), s)
    end.

(** [DecodeI16] and [DecodeI8]: the last [n] bytes of the word. *)
Definition DecodeIn (n : nat) (buf : list Z) (p len : Z) (s : FAST_STATE) (pmap : list Z)
    : option field_result :=
  '(rc, len, data, s) ← DecodeI32 buf p len s pmap;
  Some (rc, len, Some (drop (4 - n) (default (le_bytes 4 stack_data) data)), s).

Definition DecodeASCII (buf : list Z) (p len : Z) (s : FAST_STATE) (pmap : list Z)
    : option field_result :=
  present ← ISBITSET pmap 0 (Z.of_nat s.(fa_field));
  if negb present then
    if s.(fa_valid) then
      match s.(fa_encodeType) with
      | OP_COPY => Some (AB_OK, 0, Some (take (Z.to_nat s.(fa_size)) s.(fa_value)), s)
      | OP_INCR | OP_NONE => Some (AB_INVALID_STATE, len, None, s)
      end
    else Some (AB_INVALID_STATE, len, None, s)
  else
    '(l, last) ← stop_bytes (Z.to_nat len) buf p;
    match last with
    | None => Some (AB_INCOMPLETE_ERROR, len, Some l, s)
    | Some b =>
        let data := l ++ [Z.land b 0x7f] in
        let s := match s.(fa_encodeType) with
                 | OP_COPY =>
                     if Z.of_nat (length data) <=? AB_MAX_STRLEN
                     then save_fa (Z.of_nat (length data)) data s else invalidate_fa s
                 | OP_INCR | OP_NONE => s
                 end in
        Some (AB_OK, Z.of_nat (length data), Some data, s)
    end.

(** ** Bit maps *)

(** The eight bits of byte [iSize]. *)
Fixpoint bitmap_byte (j : nat) (buf : list Z) (p iSize : Z) : option Z :=
  match j with
  | 0%nat => Some 0
  | S j =>
      data ← bitmap_byte j buf p iSize;
      set ← ISBITSET buf p (8 * iSize + Z.of_nat j);
      Some (if (set : bool) then Z.lor data (Z.shiftr 0x80 (Z.of_nat j mod 8)) else data)
  end.

(** The loop: the bytes it wrote. *)
Fixpoint bitmap_loop (fuel : nat) (buf : list Z) (p len iSize : Z) : option (list Z) :=
  if iSize <? len then
    match fuel with
    | 0%nat => None
    | S fuel =>
        data ← bitmap_byte 8 buf p iSize;
        stop ← byte_at buf (p + (8 * iSize + 7) / 7);
        if 0x80 <=? stop then Some [data]
        else l ← bitmap_loop fuel buf p len (iSize + 1); Some (data :: l)
    end
  else Some [].

Definition DecodeBitmap (field : nat) (buf : list Z) (p len : Z) (pmap : list Z)
    : option (Z * Z * list Z) :=
  present ← ISBITSET pmap 0 (Z.of_nat field);
  if negb present then Some (AB_OK, 0, [])
  else
    data ← bitmap_loop (Z.to_nat len) buf p len 0;
    let iSize := Z.of_nat (length data) in
    if len <=? iSize then Some (AB_INCOMPLETE_ERROR, len, data)
    else Some (AB_OK, (8 * (iSize - 1) + 7) / 7 + 1, data).

(** ** The presence map *)

(** [copyPmap], for a destination that is zero, and two bytes at most: a first
    byte with the stop bit is counted but not copied. *)
Definition copyPmap (buf : list Z) (p : Z) : option (Z * list Z) :=
  b0 ← byte_at buf p;
  if b0 <? 0x80 then b1 ← byte_at buf (p + 1); Some (2, [b0; b1]) else Some (1, [0; 0]).

Definition ABFastValidate (buf : list Z) (p : Z) : option (Z * Z * list Z) :=
  '(iPmapLen, pmap) ← copyPmap buf p;
  last ← byte_at pmap (iPmapLen - 1);
  if (iPmapLen <? 1) || (last <? 0x80) then Some (AB_INVALID_HEADER, iPmapLen, pmap)
  else
    present ← ISBITSET pmap 0 (Z.of_nat AB_MSG_TYPE);
    if negb present then Some (AB_INVALID_HEADER, iPmapLen, pmap) else Some (AB_OK, iPmapLen, pmap).

(** ** Messages *)

(** The members of the structs, in the order they are decoded, each with its
    offset there. *)
Inductive fast_op :=
  | FI32 (field : nat) (off : Z) | FI16 (field : nat) (off : Z) | FI8 (field : nat) (off : Z)
  | FASCII (field : nat) (off : Z)
  | FMemset (off : Z) (n : nat).

Definition order_ops : list fast_op :=
  [FI16 AB_STOCK_IDX 0; FI32 AB_SEQUENCE 4; FI32 AB_TIME 8].
Definition add_ops : list fast_op :=
  [FI32 AB_ORDER_ID 12; FI32 AB_VOLUME 16; FI32 AB_PRICE 20; FI8 AB_PRICE_SCALE 24;
   FASCII AB_BUY_SELL 25; FASCII AB_EXCH_ID 26; FASCII AB_SECURITY_TYPE 27; FI16 AB_FIRM_ID 28;
   FI8 AB_SESSION_ID 30].
Definition delete_ops : list fast_op :=
  [FI32 AB_ORDER_ID 12; FASCII AB_BUY_SELL 16; FASCII AB_EXCH_ID 17; FASCII AB_SECURITY_TYPE 18;
   FI8 AB_SESSION_ID 19; FI16 AB_FIRM_ID 20].
Definition imbalance_ops : list fast_op :=
  [FI32 AB_VOLUME 12; FI32 AB_ORDER_ID 16; FI32 AB_BITMAP 20; FI32 AB_PRICE 24; FI8 AB_PRICE_SCALE 28;
   FASCII AB_BUY_SELL 29; FASCII AB_EXCH_ID 30; FASCII AB_SECURITY_TYPE 31; FI8 AB_SESSION_ID 32;
   FI16 AB_FIRM_ID 34].
Definition symbol_map_ops : list fast_op :=
  [FI16 AB_STOCK_IDX 0; FI8 AB_SESSION_ID 2; FMemset 4 16; FASCII AB_BITMAP 4].
Definition symbol_clear_ops : list fast_op :=
  [FI32 AB_SEQUENCE 0; FI16 AB_STOCK_IDX 4; FASCII AB_SESSION_ID 6].
Definition firm_map_ops : list fast_op := [FI16 AB_FIRM_ID 0; FMemset 7 5; FASCII AB_BITMAP 7].
Definition book_refresh_ops : list fast_op :=
  [FI32 AB_SEQUENCE 0; FI32 AB_TIME 4; FI32 AB_ORDER_ID 8; FI32 AB_VOLUME 12; FI32 AB_PRICE 16;
   FI8 AB_PRICE_SCALE 20; FASCII AB_BUY_SELL 21; FASCII AB_EXCH_ID 22; FASCII AB_SECURITY_TYPE 23;
   FI16 AB_FIRM_ID 24].
Definition seq_reset_ops : list fast_op := [FI32 AB_SEQUENCE 0].

(** The members of a message, by its type. *)
Definition message_ops (msgType : Z) : option (list fast_op) :=
  if (ADD_ORDER <=? msgType) && (msgType <=? IMBALANCE) then
    Some (order_ops ++ (if (msgType =? ADD_ORDER) || (msgType =? MODIFY_ORDER) then add_ops
                        else if msgType =? DELETE_ORDER then delete_ops else imbalance_ops))
  else if msgType =? SYMBOL_MAPPING then Some symbol_map_ops
  else if msgType =? SYMBOL_CLEAR then Some symbol_clear_ops
  else if msgType =? FIRM_MAPPING then Some firm_map_ops
  else if msgType =? BOOK_REFRESH then Some book_refresh_ops
  else if msgType =? SEQUENCE_NUMBER_RESET then Some seq_reset_ops
  else None.

(** What a field's decoder does with the rest of the source. *)
Definition fast_field (op : fast_op) (buf : list Z) (p len : Z) (state : list FAST_STATE)
    (pmap : list Z) : option (field_result * nat * Z) :=
  match op with
  | FI32 f off => s ← state !! f; r ← DecodeI32 buf p len s pmap; Some (r, f, off)
  | FI16 f off => s ← state !! f; r ← DecodeIn 2 buf p len s pmap; Some (r, f, off)
  | FI8 f off => s ← state !! f; r ← DecodeIn 1 buf p len s pmap; Some (r, f, off)
  | FASCII f off => s ← state !! f; r ← DecodeASCII buf p len s pmap; Some (r, f, off)
  | FMemset off n => s ← state !! 0%nat; Some (AB_OK, 0, Some (replicate n 0), s, 0%nat, off)
  end.

(** The source is [buf] from [src] on, [srcLen] bytes of it; [dst] is the buffer
    that [dstMsg] points into. *)
Fixpoint decode_ops (ops : list fast_op) (buf : list Z) (src srcLen iOffset : Z) (dst : list Z)
    (dstMsg : Z) (state : list FAST_STATE) (pmap : list Z)
    : option (Z * Z * list Z * list FAST_STATE) :=
  match ops with
  | [] => Some (AB_OK, iOffset, dst, state)
  | op :: ops =>
      '(rc, iLen, data, s, f, off) ← fast_field op buf (src + iOffset) (srcLen - iOffset) state pmap;
      dst ← match data with Some bytes => write_at dst (dstMsg + off) bytes | None => Some dst end;
      let state := <[f := s]> state in
      if rc =? AB_OK then decode_ops ops buf src srcLen (iOffset + iLen) dst dstMsg state pmap
      else Some (rc, iOffset, dst, state)
  end.

(** The status, [*srcLen], [*msgType], the buffer and the state. *)
Definition ABFastDecode (dst : list Z) (dstMsg : Z) (buf : list Z) (src srcLen msgType : Z)
    (state : list FAST_STATE) : option (Z * Z * Z * list Z * list FAST_STATE) :=
  if srcLen <? AB_MIN_FAST_MSG then Some (AB_INCOMPLETE_ERROR, srcLen, msgType, dst, state)
  else
    '(rc, iPmapLen, pmap) ← ABFastValidate buf src;
    if negb (rc =? AB_OK) then Some (rc, srcLen, msgType, dst, state)
    else
      let iOffset := iPmapLen in
      s ← state !! AB_MSG_TYPE;
      '(rc, iLen, data, s) ← DecodeIn 2 buf (src + iOffset) (srcLen - iOffset) s pmap;
      let msgType := le_val (default [] data) in
      let state := <[AB_MSG_TYPE := s]> state in
      if negb (rc =? AB_OK) then Some (rc, srcLen, msgType, dst, state)
      else
        let iOffset := iOffset + iLen in
        let msgType := ntoh16 msgType in
        dst ← (if (ADD_ORDER <=? msgType) && (msgType <=? IMBALANCE)
               then write_at dst (dstMsg + 2) (le_bytes 2 (ntoh16 msgType)) else Some dst);
        match message_ops msgType with
        | Some ops =>
            '(rc, iOffset, dst, state) ← decode_ops ops buf src srcLen iOffset dst dstMsg state pmap;
            Some (rc, if rc =? AB_OK then iOffset else srcLen, msgType, dst, state)
        | None =>
            let iOffset := iOffset + iLen in
            '(rc, iLen, data) ← DecodeBitmap AB_BITMAP buf (src + iOffset) (srcLen - iOffset) pmap;
            dst ← write_at dst dstMsg data;
            Some (rc, if rc =? AB_OK then iOffset + iLen else srcLen, msgType, dst, state)
        end.

End decode.
