(* ===== verification/ArcaParse.v ===== *)
(** * Packets of the Arca feeds
      ([src/feeds/arca/multicast/common/parse_messages.c],
      [trade/common/parse_messages.c], [common/rcv_feed_packets.c],
      [common/parse_packet_hdr.c])

    A packet is arbitrated, unpacked when it is compacted, and published
    message by message. *)
From S2P Require Import Prelude Bytes Mpool ArcaMsg ArcaGroup ArcaSeq ArcaFast.

(** ** The sizes of message bodies *)

(** [body_size]; the structs with a header count it. *)
Definition body_size : list Z :=
  [0; sizeof_SequenceReset; 0; 0; 0; 24] ++ replicate 4 0 ++ [44] ++ replicate 9 0 ++ [44] ++
  replicate 3 0 ++ [36] ++ replicate 5 0 ++
  [40; 40; sizeof_BookOrder; 36; 40; sizeof_SymbolUpdate; sizeof_SymbolClear; sizeof_FirmUpdate; 40; 0] ++
  replicate 59 0 ++ [sizeof_Delete; sizeof_Add; sizeof_Add; sizeof_Delete; sizeof_Imbalance].

(** The type is passed as an [unsigned char]. *)
Definition get_body_size (msg_type : Z) : option Z := body_size !! Z.to_nat (u8 msg_type).

Section packet.
Context {W : Type} (hooks : arca_hooks W) (stack_body : msg_body) (stack_data : Z).
Notation group_t := (feed_group W).
Notation notify_packet_loss := (notify_packet_loss hooks stack_body).

(** ** Messages *)

(** A message that is parsed, unless it is too short, and then published. *)
Definition parse_and (parsed : option (Z * msg_body)) (g : group_t)
    (publish : msg_body -> group_t -> option group_t) : option (Z * group_t) :=
  '(bytes_consumed, body) ← parsed;
  if bytes_consumed =? 0 then Some (0, g)
  else g ← publish body g; Some (bytes_consumed, g).

(** The result of a publication is ignored. *)
Definition ignored (r : option (Z * group_t)) : option group_t := snd <$> r.

(** A sequence number reset: both feeds expect the new number. *)
Definition reset_expected (body : msg_body) (g : group_t) : group_t :=
  let next := body.(bd_num) BNextSeqNumber in set_expected true next (set_expected false next g).

(** The length passed is a [uint32_t] difference, converted to [int]. *)
Definition message_unavailable (primary_or_secondary : Z) (body : msg_body) (g : group_t) : group_t :=
  let first := body.(bd_num) BBeginSeqNumber in
  notify_packet_loss EXCHANGE_LOST_PACKETS first (u32 (body.(bd_num) BEndSeqNumber - first))
    primary_or_secondary g.

(** The symbol of the header is copied with one byte more than it has; that
    byte is padding, which is 0. *)
Definition refresh_symbol (hdr : msg_hdr) (body_count : Z) (body : msg_body) (g : group_t)
    : msg_body * group_t :=
  if (hdr.(hd_current_refresh_msg_seq) =? 0) && (body_count =? 0) then
    match hooks.(plug_add_symbol) with
    | Some _ =>
        let body := body_set_symbol (hdr.(hd_symbol) ++ [0]) body in
        let '(_, g) := update_table hooks.(plug_add_symbol) (Some SymbolTableError) body g in (body, g)
    | None => (body, g)
    end
  else (body, g).

(** The second switch, on the type of an order message. *)
Definition publish_orders (primary_or_secondary : Z) (hdr : msg_hdr) (body : msg_body) (g : group_t)
    : option group_t :=
  let msg_type := body.(bd_num) BMsgType in
  if msg_type =? ADD_ORDER then ignored (publish_add_order hooks hdr body g)
  else if msg_type =? MODIFY_ORDER then ignored (publish_mod_order hooks hdr body g)
  else if msg_type =? DELETE_ORDER then ignored (publish_del_order hooks hdr body g)
  else if msg_type =? IMBALANCE then ignored (publish_imbalance hooks hdr body g)
  else Some (notify_packet_loss LOST_PACKETS (body.(bd_num) BMsgSeqNum) 1 primary_or_secondary g).

(** The body before parsing. *)
Definition initial_body (hdr : msg_hdr) : msg_body := body_set BMsgSeqNum hdr.(hd_msg_seq_num) body_zero.

(** [parse_mesg] of ArcaBook *)
Definition book_parse_mesg (buf : list Z) (p : Z) (hdr : msg_hdr) (body_sze primary_or_secondary
    body_count : Z) (g : group_t) : option (Z * group_t) :=
  let body := initial_body hdr in
  let msg_type := hdr.(hd_msg_type) in
  if msg_type =? SEQUENCE_NUMBER_RESET then
    parse_and (parse_sequence_number_reset body buf p body_sze) g (fun body g =>
      Some (publish_start_of_day hooks hdr body (reset_expected body g)).2)
  else if msg_type =? MESSAGE_UNAVAILABLE then
    parse_and (parse_message_unavailable body buf p body_sze) g (fun body g =>
      Some (message_unavailable primary_or_secondary body g))
  else if msg_type =? BOOK_REFRESH then
    parse_and (parse_book_refresh body buf p body_sze) g (fun body g =>
      let body := body_set BSessionId hdr.(hd_session_id) body in
      let body := body_set BSymbolIndex hdr.(hd_symbol_index) body in
      let '(body, g) := refresh_symbol hdr body_count body g in
      Some (publish_book_refresh hooks hdr body g).2)
  else if msg_type =? IMBALANCE_REFRESH then
    parse_and (parse_imbalance_refresh body buf p body_sze) g (fun body g =>
      Some (publish_imbalance_refresh hooks hdr body g).2)
  else if msg_type =? SYMBOL_MAPPING then
    parse_and (parse_symbol_mapping body buf p body_sze) g (fun body g =>
      Some (publish_symbol_mapping hooks hdr body g).2)
  else if msg_type =? SYMBOL_CLEAR then
    parse_and (parse_symbol_clear body buf p body_sze) g (fun body g =>
      ignored (publish_symbol_clear hooks hdr body g))
  else if msg_type =? FIRM_MAPPING then
    parse_and (parse_firm_mapping body buf p body_sze) g (fun body g =>
      Some (publish_firm_mapping hooks hdr body g).2)
  else if msg_type =? ORDERS then
    parse_and (parse_orders body buf p body_sze) g (publish_orders primary_or_secondary hdr)
  else Some (0, notify_packet_loss LOST_PACKETS (body.(bd_num) BMsgSeqNum) 1 primary_or_secondary g).

(** [parse_mesg] of ArcaTrade *)
Definition trade_parse_mesg (buf : list Z) (p : Z) (hdr : msg_hdr) (body_sze primary_or_secondary
    body_count : Z) (g : group_t) : option (Z * group_t) :=
  let body := initial_body hdr in
  let msg_type := hdr.(hd_msg_type) in
  if msg_type =? SEQUENCE_NUMBER_RESET then
    parse_and (parse_sequence_number_reset body buf p body_sze) g (fun body g =>
      Some (trade_start_of_day hooks hdr body (reset_expected body g)).2)
  else if msg_type =? MESSAGE_UNAVAILABLE then
    parse_and (parse_message_unavailable body buf p body_sze) g (fun body g =>
      Some (message_unavailable primary_or_secondary body g))
  else if msg_type =? TRADE then
    parse_and (parse_trade body buf p body_sze) g (fun body g =>
      Some (publish_trade hooks hdr body g).2)
  else if msg_type =? TRADE_CANCEL then
    parse_and (parse_trade_cancel body buf p body_sze) g (fun body g =>
      Some (publish_trade_cancel hooks hdr body g).2)
  else if msg_type =? TRADE_CORRECTION then
    parse_and (parse_trade_correction body buf p body_sze) g (fun body g =>
      Some (publish_trade_correction hooks hdr body g).2)
  else Some (0, notify_packet_loss LOST_PACKETS (body.(bd_num) BMsgSeqNum) 1 primary_or_secondary g).

(** ** Packets *)

(** The handlers link one of the two. *)
Context (parse_mesg : list Z -> Z -> msg_hdr -> Z -> Z -> Z -> group_t -> option (Z * group_t)).

(** The feed whose counters and buffers are used. *)
Definition feed_of (primary_or_secondary : Z) : Z := if primary_or_secondary =? 0 then 0 else 1.
Definition pick {A} (primary_or_secondary : Z) (both : A * A) : A :=
  if primary_or_secondary =? 0 then both.1 else both.2.
Definition put {A} (primary_or_secondary : Z) (a : A) (both : A * A) : A * A :=
  if primary_or_secondary =? 0 then (a, both.2) else (both.1, a).

(** The loop that unpacks: from the compacted buffer to the uncompacted one.
    [msg_count] is not advanced in it.  The results are the status of the
    decoder, the uncompacted size and the uncompacted buffer. *)
Fixpoint fast_unpack (fuel : nat) (compacted : list Z) (msg_ptr remaining msg_count : Z)
    (hdr : msg_hdr) (uncompacted : list Z) (decoding_output uncompacted_size : Z)
    (state : list FAST_STATE) : option (Z * Z * list Z) :=
  if (0 <? remaining) && (msg_count <? hdr.(hd_num_body_entries)) then
    match fuel with
    | 0%nat => None
    | S fuel =>
        '(rc, bytes_consumed, msg_type, uncompacted, state) ←
          ABFastDecode stack_data uncompacted decoding_output compacted msg_ptr remaining
            hdr.(hd_msg_type) state;
        if negb (rc =? AB_OK) then Some (rc, uncompacted_size, uncompacted)
        else
          size ← get_body_size msg_type;
          fast_unpack fuel compacted (msg_ptr + bytes_consumed) (remaining - bytes_consumed) msg_count
            hdr uncompacted (decoding_output + size) (uncompacted_size + size) state
    end
  else Some (AB_OK, uncompacted_size, uncompacted).

(** The loop that publishes message by message. *)
Fixpoint publish_messages (fuel : nat) (buf : list Z) (msg_ptr remaining msg_count : Z) (hdr : msg_hdr)
    (primary_or_secondary : Z) (g : group_t) : option group_t :=
  if (0 <? remaining) && (msg_count <? hdr.(hd_num_body_entries)) then
    match fuel with
    | 0%nat => None
    | S fuel =>
        '(body_size, g) ← parse_mesg buf msg_ptr hdr remaining primary_or_secondary msg_count g;
        let missing := hdr.(hd_num_body_entries) - msg_count in
        if body_size =? 0 then
          let g := count_arca (PktFormatErrors (feed_of primary_or_secondary)) 1 g in
          Some (parse_error hooks stack_body hdr.(hd_msg_seq_num) hdr.(hd_num_body_entries) missing
                  primary_or_secondary g)
        else if body_size =? 1 then
          let g := count_arca (PktFormatErrors (feed_of primary_or_secondary)) 1 g in
          Some (runt_packet_error hooks stack_body hdr.(hd_msg_seq_num) hdr.(hd_num_body_entries)
                  missing primary_or_secondary g)
        else publish_messages fuel buf (msg_ptr + body_size) (remaining - body_size) (msg_count + 1)
               hdr primary_or_secondary g
    end
  else Some g.

(** What a packet that is not dropped leads to: [pkt_ptr] is the start of the
    compacted buffer in fast mode, and of the uncompacted one otherwise. *)
Definition publish_packet (hdr : msg_hdr) (pkt_size rcv_time primary_or_secondary : Z) (g : group_t)
    : option (Z * group_t) :=
  let compacted := pick primary_or_secondary g.(fg_fast_buffers) in
  let uncompacted := pick primary_or_secondary g.(fg_buffers) in
  let pkt := if g.(fg_cfg).(fast_mode) =? 1 then compacted else uncompacted in
  '(hdr_size, hdr) ← parse_packet_hdr hdr pkt 0 pkt_size rcv_time;
  '(rc, uncompacted_size, uncompacted) ←
    (if g.(fg_cfg).(fast_mode) =? 1 then
       header ← read_bytes compacted 0 (Z.to_nat hdr_size);
       uncompacted ← (if hdr_size <? 0 then None else write_at uncompacted 0 header);
       fast_unpack (Z.to_nat (pkt_size - hdr_size)) compacted hdr_size (pkt_size - hdr_size) 0 hdr
         uncompacted hdr_size hdr_size fastStateInit
     else Some (AB_OK, pkt_size, uncompacted));
  let g := set_buffers g.(fg_fast_buffers) (put primary_or_secondary uncompacted g.(fg_buffers)) g in
  if negb (rc =? AB_OK) then Some (-1, g)
  else
    g ← publish_messages (Z.to_nat (hdr.(hd_num_body_entries))) uncompacted hdr_size
          (uncompacted_size - hdr_size) 0 hdr primary_or_secondary g;
    Some (0, (msg_flush hooks g).2).

Definition process_packet (pkthdr : msg_hdr) (pkt_size rcv_time primary_or_secondary : Z) (g : group_t)
    : option (Z * group_t) :=
  let pkt := if g.(fg_cfg).(fast_mode) =? 1 then pick primary_or_secondary g.(fg_fast_buffers)
             else pick primary_or_secondary g.(fg_buffers) in
  num_body_entries ← byte_at pkt NUMBER_BODIES_OFFSET;
  let feed := feed_of primary_or_secondary in
  let g := count_arca (PcktRcvd feed) 1 g in
  let g := count_arca (BytesRcvd feed) pkt_size g in
  let g := count_arca (MsgsRcvd feed) num_body_entries g in
  msg_seq_num ← big_endian 4 pkt MSG_NUM_OFFSET;
  '(pkt_action, g) ←
    (if negb (pkthdr.(hd_msg_type) =? 1)
     then need_2_publish hooks stack_body primary_or_secondary msg_seq_num g else Some (1, g));
  if pkt_action =? 0 then Some (0, count_arca (PktDuplicate feed) 1 g)
  else
    let hdr := MkHdr rcv_time msg_seq_num pkthdr.(hd_send_time) pkthdr.(hd_msg_size)
      pkthdr.(hd_msg_type) pkthdr.(hd_product_id) pkthdr.(hd_retrans_flag) num_body_entries
      pkthdr.(hd_session_id) pkthdr.(hd_last_source_seq_num) pkthdr.(hd_last_msg_seq)
      pkthdr.(hd_symbol_index) pkthdr.(hd_current_refresh_msg_seq) pkthdr.(hd_total_refresh_msg_seq)
      pkthdr.(hd_symbol) in
    publish_packet hdr pkt_size rcv_time primary_or_secondary g.

(** What [fh_udp_recv] delivered goes to the start of the buffer; [None] is an
    error. *)
Definition get_packet (received : option (list Z)) (rcv_time primary_or_secondary : Z) (g : group_t)
    : option (Z * group_t) :=
  match received with
  | None => Some (0, count_arca (PktFormatErrors (feed_of primary_or_secondary)) 1 g)
  | Some data =>
      let pkt_size := Z.of_nat (length data) in
      let fast := g.(fg_cfg).(fast_mode) =? 1 in
      pkt ← write_at (pick primary_or_secondary (if fast then g.(fg_fast_buffers) else g.(fg_buffers)))
              0 data;
      let g := if fast
               then set_buffers (put primary_or_secondary pkt g.(fg_fast_buffers)) g.(fg_buffers) g
               else set_buffers g.(fg_fast_buffers) (put primary_or_secondary pkt g.(fg_buffers)) g in
      let g := if pkt_size <? ARCAM_MSG_HDR_SIZE
               then runt_packet_error hooks stack_body 0 0 0 primary_or_secondary g else g in
      msg_type ← big_endian 2 pkt MSG_TYPE_OFFSET;
      if msg_type =? 2 then Some (0, g)
      else
        let hdr := MkHdr 0 0 0 0 msg_type 0 0 0 0 0 0 0 0 0 hdr_zero.(hd_symbol) in
        process_packet hdr pkt_size rcv_time primary_or_secondary g
  end.

End packet.
