(* ===== verification/ArcaWire.v ===== *)
(** * Structs on the wire

    A message is a struct: numbers in network byte order at fixed offsets.
    Reading the members of a struct that was written member by member gives
    what was written, whatever the order, when they do not overlap. *)
From S2P Require Import Prelude Bytes Mpool ArcaMsg ArcaFast.

(** ** Writing *)

Lemma write_at_length dst off l dst' : write_at dst off l = Some dst' -> length dst' = length dst.
Proof.
  unfold write_at, guard_ub. destruct (_ && _) eqn:E; [|done]. bool_to_prop. intros [= <-].
  rewrite !length_app, length_take, length_drop. lia.
Qed.

Lemma write_at_some dst off l : 0 <= off -> off + Z.of_nat (length l) <= Z.of_nat (length dst) ->
  is_Some (write_at dst off l).
Proof.
  intros H0 H1. unfold write_at, guard_ub. destruct (_ && _) eqn:E; [eauto|].
  apply andb_false_iff in E as [E|E]; bool_to_prop; lia.
Qed.

Lemma read_bytes_lookup buf off n l : read_bytes buf off n = Some l <->
  0 <= off /\ off + Z.of_nat n <= Z.of_nat (length buf) /\ length l = n /\
  forall i, (i < n)%nat -> l !! i = buf !! (Z.to_nat off + i)%nat.
Proof.
  unfold read_bytes. destruct (_ || _) eqn:E.
  - split; [done|]. apply orb_true_iff in E as [E|E]; bool_to_prop; lia.
  - bool_to_prop. split.
    + intros [= <-]. rewrite length_take, length_drop. repeat split; try lia.
      intros i Hi. rewrite lookup_take_lt by lia. by rewrite lookup_drop.
    + intros (_ & _ & Hl & Hb). f_equal. apply list_eq_same_length with n; [done | | ].
      { rewrite length_take, length_drop. lia. }
      intros i x y Hi Hx Hy. rewrite lookup_take_lt, lookup_drop in Hx by lia.
      rewrite Hb in Hy by lia. congruence.
Qed.

Lemma write_at_lookup dst off l dst' i : write_at dst off l = Some dst' ->
  dst' !! i = if bool_decide (Z.to_nat off <= i < Z.to_nat off + length l)%nat
              then l !! (i - Z.to_nat off)%nat else dst !! i.
Proof.
  unfold write_at, guard_ub. destruct (_ && _) eqn:E; [|done]. bool_to_prop. intros [= <-].
  case_bool_decide as Hi.
  - rewrite lookup_app_r by (rewrite length_take; lia). rewrite lookup_app_l by (rewrite length_take; lia).
    rewrite length_take. by rewrite Nat.min_l by lia.
  - destruct (decide (i < Z.to_nat off)%nat).
    + rewrite lookup_app_l by (rewrite length_take; lia). by rewrite lookup_take_lt.
    + rewrite lookup_app_r by (rewrite length_take; lia). rewrite length_take.
      rewrite lookup_app_r by lia. rewrite lookup_drop. f_equal. lia.
Qed.

Lemma read_written dst off l dst' : write_at dst off l = Some dst' ->
  read_bytes dst' off (length l) = Some l.
Proof.
  intros Hw. pose proof Hw as Hw'. unfold write_at, guard_ub in Hw'.
  destruct (_ && _) eqn:E in Hw'; [|done]. bool_to_prop. clear Hw'.
  apply read_bytes_lookup. rewrite (write_at_length _ _ _ _ Hw). repeat split; try lia.
  intros i Hi. rewrite (write_at_lookup _ _ _ _ _ Hw), bool_decide_true by lia. f_equal. lia.
Qed.

Lemma read_not_written dst off l dst' off' n l' : write_at dst off l = Some dst' ->
  off' + Z.of_nat n <= off \/ off + Z.of_nat (length l) <= off' ->
  read_bytes dst off' n = Some l' -> read_bytes dst' off' n = Some l'.
Proof.
  intros Hw Hd Hr. apply read_bytes_lookup in Hr as (H0 & H1 & Hl & Hb). apply read_bytes_lookup.
  rewrite (write_at_length _ _ _ _ Hw). repeat split; try lia. intros i Hi. rewrite Hb by lia.
  pose proof Hw as Hw'. unfold write_at, guard_ub in Hw'. destruct (_ && _) eqn:E in Hw'; [|done]. bool_to_prop.
  rewrite (write_at_lookup _ _ _ _ _ Hw), bool_decide_false by lia. done.
Qed.

(** A list of writes, relative to [base]. *)
Fixpoint write_all (base : Z) (ws : list (Z * list Z)) (dst : list Z) : option (list Z) :=
  match ws with
  | [] => Some dst
  | (off, l) :: ws => dst ← write_at dst (base + off) l; write_all base ws dst
  end.

Lemma write_all_app base ws1 ws2 : forall dst,
  write_all base (ws1 ++ ws2) dst = dst ← write_all base ws1 dst; write_all base ws2 dst.
Proof.
  induction ws1 as [|[off l] ws1 IH]; intros dst; [done|]. cbn [app write_all].
  destruct (write_at dst (base + off) l); [|done]. cbn [mbind option_bind]. apply IH.
Qed.

Lemma write_all_length base ws : forall dst dst', write_all base ws dst = Some dst' -> length dst' = length dst.
Proof.
  induction ws as [|[off l] ws IH]; intros dst dst'; cbn [write_all]; [by intros [= ->]|].
  destruct (write_at dst (base + off) l) as [d|] eqn:E; [|done]. cbn [mbind option_bind].
  intros H. rewrite (IH _ _ H). by apply write_at_length in E.
Qed.

Lemma write_all_some base size ws : forall dst, 0 <= base ->
  Forall (fun w => 0 <= w.1 /\ w.1 + Z.of_nat (length w.2) <= size) ws ->
  base + size <= Z.of_nat (length dst) -> is_Some (write_all base ws dst).
Proof.
  induction ws as [|[off l] ws IH]; intros dst Hb Hw Hd; cbn [write_all]; [eauto|].
  apply Forall_cons in Hw as [[? ?] Hw]. cbn in *.
  destruct (write_at_some dst (base + off) l) as [d E]; [lia..|]. rewrite E. cbn [mbind option_bind].
  apply IH; [done..|]. by rewrite (write_at_length _ _ _ _ E).
Qed.

(** Ranges that do not overlap. *)
Definition apart (w w' : Z * nat) : bool :=
  (w.1 + Z.of_nat w.2 <=? w'.1) || (w'.1 + Z.of_nat w'.2 <=? w.1).
Fixpoint all_apart (ws : list (Z * nat)) : bool :=
  match ws with [] => true | w :: ws => forallb (apart w) ws && all_apart ws end.

Definition extent (w : Z * list Z) : Z * nat := (w.1, length w.2).

Lemma write_all_keeps base ws off n l : forall dst dst', write_all base ws dst = Some dst' ->
  forallb (apart (off, n)) (extent <$> ws) = true ->
  read_bytes dst (base + off) n = Some l -> read_bytes dst' (base + off) n = Some l.
Proof.
  induction ws as [|[o b] ws IH]; intros dst dst'; cbn [write_all]; [by intros [= ->]|].
  destruct (write_at dst (base + o) b) as [d|] eqn:E; [|done]. cbn [mbind option_bind].
  intros Hw Ha Hr. cbn in Ha. apply andb_true_iff in Ha as [Ha1 Ha2].
  apply (IH _ _ Hw Ha2). eapply read_not_written; [exact E | | exact Hr].
  unfold apart in Ha1. cbn in Ha1. apply orb_true_iff in Ha1 as [?|?]; bool_to_prop; lia.
Qed.

Lemma read_write_all base ws : forall dst dst', write_all base ws dst = Some dst' ->
  all_apart (extent <$> ws) = true ->
  forall off l, (off, l) ∈ ws -> read_bytes dst' (base + off) (length l) = Some l.
Proof.
  induction ws as [|[o b] ws IH]; intros dst dst'; cbn [write_all]; [intros _ _ ? ? []%elem_of_nil|].
  destruct (write_at dst (base + o) b) as [d|] eqn:E; [|done]. cbn [mbind option_bind].
  intros Hw Ha off l. cbn in Ha. apply andb_true_iff in Ha as [Ha1 Ha2].
  intros [[= -> ->]|Hin]%elem_of_cons; [|by eapply IH].
  eapply write_all_keeps; [exact Hw | exact Ha1 | by eapply read_written].
Qed.

(** ** Structs *)

(** The members of a struct: each with its offset and width. *)
Notation struct_fields := (list (body_field * (Z * nat))).

Definition vals_ok (fields : struct_fields) (vals : body_field -> Z) : Prop :=
  Forall (fun '(f, (_, n)) => 0 <= vals f < 256 ^ Z.of_nat n) fields.

Definition fields_at (buf : list Z) (p : Z) (fields : struct_fields) (vals : body_field -> Z) : Prop :=
  Forall (fun '(f, (off, n)) => read_bytes buf (p + off) n = Some (be_bytes n (vals f))) fields.

(** The members set in a body, in the order of the struct. *)
Definition set_fields (fields : struct_fields) (vals : body_field -> Z) (body : msg_body) : msg_body :=
  fold_left (fun body '(f, _) => body_set f (vals f) body) fields body.

Lemma read_fields_at buf p fields vals : vals_ok fields vals -> fields_at buf p fields vals ->
  forall body, read_fields buf p fields body = Some (set_fields fields vals body).
Proof.
  induction fields as [|[f [off n]] fields IH]; intros Hv Hf body; [done|].
  apply Forall_cons in Hv as [Hv0 Hv]. apply Forall_cons in Hf as [Hf0 Hf]. cbn [read_fields].
  unfold big_endian. rewrite Hf0. cbn [mbind option_bind]. rewrite be_val_be_bytes by done. by apply IH.
Qed.

Lemma set_fields_num fields vals f : forall body,
  (set_fields fields vals body).(bd_num) f =
  if bool_decide (f ∈ fields.*1) then vals f else body.(bd_num) f.
Proof.
  induction fields as [|[f' x] fields IH]; intros body; [done|].
  change (set_fields ((f', x) :: fields) vals body) with (set_fields fields vals (body_set f' (vals f') body)).
  rewrite IH. cbn [fmap list_fmap fst bd_num body_set].
  destruct (decide (f ∈ fields.*1)) as [Hin|Hin].
  - by rewrite !bool_decide_true by (try apply elem_of_cons; tauto).
  - rewrite (bool_decide_false (f ∈ fields.*1)) by done. destruct (decide (f = f')) as [->|Hf].
    + by rewrite bool_decide_true by (apply elem_of_cons; tauto).
    + rewrite bool_decide_false; [done|]. intros [?|?]%elem_of_cons; done.
Qed.

(** A packed struct of the exchange ([ArcaL2Msg.h]): its members in order,
    each with its width; a filler, which is 0, has no name. *)
Notation struct_members := (list (option body_field * nat)).

Definition ArcaL2Add : struct_members :=
  [(Some BSymbolIndex, 2%nat); (Some BMsgType, 2%nat); (Some BSourceSeqNum, 4%nat);
   (Some BSourceTime, 4%nat); (Some BOrderId, 4%nat); (Some BVolume, 4%nat);
   (Some BPriceNumerator, 4%nat); (Some BPriceScaleCode, 1%nat); (Some BSide, 1%nat);
   (Some BExchangeId, 1%nat); (Some BSecurityType, 1%nat); (Some BFirmIndex, 2%nat);
   (Some BSessionId, 1%nat); (None, 1%nat)].
Definition ArcaL2Delete : struct_members :=
  [(Some BSymbolIndex, 2%nat); (Some BMsgType, 2%nat); (Some BSourceSeqNum, 4%nat);
   (Some BSourceTime, 4%nat); (Some BOrderId, 4%nat); (Some BSide, 1%nat); (Some BExchangeId, 1%nat);
   (Some BSecurityType, 1%nat); (Some BSessionId, 1%nat); (Some BFirmIndex, 2%nat); (None, 2%nat)].
Definition ArcaL2Imbalance : struct_members :=
  [(Some BSymbolIndex, 2%nat); (Some BMsgType, 2%nat); (Some BSourceSeqNum, 4%nat);
   (Some BSourceTime, 4%nat); (Some BVolume, 4%nat); (Some BTotalImbalance, 4%nat);
   (Some BMarketImbalance, 4%nat); (Some BPriceNumerator, 4%nat); (Some BPriceScaleCode, 1%nat);
   (Some BAuctionType, 1%nat); (Some BExchangeId, 1%nat); (Some BSecurityType, 1%nat);
   (Some BSessionId, 1%nat); (None, 1%nat); (Some BAuctionTime, 2%nat)].

Definition member_bytes (vals : body_field -> Z) (m : option body_field * nat) : list Z :=
  match m with (Some f, n) => be_bytes n (vals f) | (None, n) => replicate n 0 end.
Definition struct_bytes (members : struct_members) (vals : body_field -> Z) : list Z :=
  concat (member_bytes vals <$> members).

Definition struct_size (members : struct_members) : nat := sum_list (snd <$> members).

(** The members with the offsets that packing gives them. *)
Fixpoint struct_offsets (off : Z) (members : struct_members) : struct_fields :=
  match members with
  | [] => []
  | (f, n) :: members =>
      let rest := struct_offsets (off + Z.of_nat n) members in
      match f with Some f => (f, (off, n)) :: rest | None => rest end
  end.

Lemma member_bytes_length vals m : length (member_bytes vals m) = m.2.
Proof. destruct m as [[f|] n]; [apply length_be_bytes | apply length_replicate]. Qed.

Lemma struct_bytes_length members vals : length (struct_bytes members vals) = struct_size members.
Proof.
  unfold struct_bytes, struct_size. induction members as [|m members IH]; [done|].
  cbn [fmap list_fmap concat]. rewrite length_app, member_bytes_length, IH. done.
Qed.

Lemma part_split buf off l1 l2 : part buf off (l1 ++ l2) ->
  part buf off l1 /\ part buf (off + Z.of_nat (length l1)) l2.
Proof.
  intros (pre & post & -> & ->). split.
  - exists pre, (l2 ++ post). by rewrite <- app_assoc.
  - exists (pre ++ l1), post. rewrite <- !app_assoc. split; [done|]. rewrite length_app. lia.
Qed.

Lemma struct_offsets_at buf p vals members : forall off,
  part buf (p + off) (struct_bytes members vals) -> fields_at buf p (struct_offsets off members) vals.
Proof.
  induction members as [|[f n] members IH]; intros off Hp; [apply Forall_nil_2|].
  change (struct_bytes ((f, n) :: members) vals) with (member_bytes vals (f, n) ++ struct_bytes members vals) in Hp.
  apply part_split in Hp as [Hp Hrest]. rewrite member_bytes_length in Hrest.
  cbn [snd] in Hrest. rewrite <- Z.add_assoc in Hrest. apply IH in Hrest. cbn [struct_offsets].
  destruct f as [f|]; [|done]. apply Forall_cons_2; [|done].
  eapply read_part; [exact Hp | apply length_be_bytes].
Qed.

(** A parser's list of reads agrees with a struct when every read is of a
    member at its offset. *)
Lemma struct_fields_at buf p members fields vals :
  (forall r, r ∈ fields -> r ∈ struct_offsets 0 members) ->
  part buf p (struct_bytes members vals) -> fields_at buf p fields vals.
Proof.
  intros Hin Hp. rewrite <- (Z.add_0_r p) in Hp. apply struct_offsets_at in Hp.
  apply Forall_forall. intros r Hr. unfold fields_at in Hp. rewrite Forall_forall in Hp. apply Hp, Hin, Hr.
Qed.
