(* ===== verification/ArcaPacket.v ===== *)
(** * Packets: lemmas

    How a packet of order messages is taken apart, and what no step of a
    packet changes ([group_frame]). *)
From S2P Require Import Prelude Bytes Mpool ArcaMsg ArcaGroup ArcaSeq ArcaArbiter ArcaFast ArcaParse ArcaWire.

(** ** Order messages *)

(** The layout of an order message, by its type. *)
Definition order_layout (msg_type : Z) : option (Z * list (body_field * (Z * nat))) :=
  if (msg_type =? ADD_ORDER) || (msg_type =? MODIFY_ORDER) then Some (sizeof_Add, order_fields ++ add_fields)
  else if msg_type =? DELETE_ORDER then Some (sizeof_Delete, order_fields ++ delete_fields)
  else if msg_type =? IMBALANCE then Some (sizeof_Imbalance, order_fields ++ imbalance_fields)
  else None.

(** The struct the exchange sends, by its type. *)
Definition order_struct (msg_type : Z) : struct_members :=
  if msg_type =? DELETE_ORDER then ArcaL2Delete
  else if msg_type =? IMBALANCE then ArcaL2Imbalance else ArcaL2Add.

(** A message is given by the values of its members. *)
Definition order_ok (vals : body_field -> Z) : Prop :=
  match order_layout (vals BMsgType) with Some (_, fields) => vals_ok fields vals | None => False end.
Definition order_wire (vals : body_field -> Z) : list Z :=
  struct_bytes (order_struct (vals BMsgType)) vals.
Definition order_body (hdr : msg_hdr) (vals : body_field -> Z) : msg_body :=
  match order_layout (vals BMsgType) with
  | Some (_, fields) => set_fields fields vals (initial_body hdr)
  | None => initial_body hdr
  end.

Lemma order_layout_cases (P : Z -> option (Z * list (body_field * (Z * nat))) -> Prop) t :
  P ADD_ORDER (Some (sizeof_Add, order_fields ++ add_fields)) ->
  P MODIFY_ORDER (Some (sizeof_Add, order_fields ++ add_fields)) ->
  P DELETE_ORDER (Some (sizeof_Delete, order_fields ++ delete_fields)) ->
  P IMBALANCE (Some (sizeof_Imbalance, order_fields ++ imbalance_fields)) ->
  P t None -> P t (order_layout t).
Proof.
  intros Ha Hm Hd Hi Hn. unfold order_layout.
  destruct (t =? ADD_ORDER) eqn:E1; bool_to_prop; [by subst t|].
  destruct (t =? MODIFY_ORDER) eqn:E2; bool_to_prop; [by subst t|].
  destruct (t =? DELETE_ORDER) eqn:E3; bool_to_prop; [by subst t|].
  destruct (t =? IMBALANCE) eqn:E4; bool_to_prop; [by subst t | done].
Qed.

Lemma order_layout_ok t size fields : order_layout t = Some (size, fields) ->
  Z.of_nat (struct_size (order_struct t)) = size /\ (forall r, r ∈ fields -> r ∈ struct_offsets 0 (order_struct t)) /\
  sizeof_Delete <= size <= 36 /\ exists rest, fields = order_fields ++ rest.
Proof.
  apply (order_layout_cases (fun t o => o = Some (size, fields) ->
    Z.of_nat (struct_size (order_struct t)) = size /\ (forall r, r ∈ fields -> r ∈ struct_offsets 0 (order_struct t)) /\ _));
    intros [= <- <-]; (split; [done | split; [| split; [done | eauto]]]);
    apply Forall_forall, (bool_decide_eq_true_1 (Forall _ _)); by vm_compute.
Qed.

Lemma set_fields_app fields1 fields2 vals body :
  set_fields (fields1 ++ fields2) vals body = set_fields fields2 vals (set_fields fields1 vals body).
Proof. apply fold_left_app. Qed.

Lemma parse_orders_ok vals size fields body buf p len :
  order_layout (vals BMsgType) = Some (size, fields) -> vals_ok fields vals ->
  fields_at buf p fields vals -> size <= len ->
  parse_orders body buf p len = Some (size, set_fields fields vals body).
Proof.
  intros Hlay. pose proof (order_layout_ok _ _ _ Hlay) as (_ & _ & Hsz & rest & Hrest).
  intros Hv Hf Hl. unfold parse_orders. destruct (len <? sizeof_Delete) eqn:E; bool_to_prop; [lia|].
  assert (Hv' := Hv). assert (Hf' := Hf). rewrite Hrest in Hv', Hf'.
  apply Forall_app in Hv' as [Hv1 Hv2]. apply Forall_app in Hf' as [Hf1 Hf2].
  rewrite (read_fields_at _ _ _ _ Hv1 Hf1). cbn [mbind option_bind].
  assert (Ht : bd_num (set_fields order_fields vals body) BMsgType = vals BMsgType)
    by (rewrite set_fields_num, bool_decide_true; [done | by vm_compute; do 2 constructor]).
  rewrite Ht. unfold order_layout in Hlay. clear Ht.
  rewrite Hrest in Hlay |- *. rewrite set_fields_app. clear Hrest Hf Hv.
  destruct (vals BMsgType =? ADD_ORDER) eqn:E1; cbn [orb] in *;
    [|destruct (vals BMsgType =? MODIFY_ORDER) eqn:E2; cbn [orb] in *;
      [|destruct (vals BMsgType =? DELETE_ORDER) eqn:E3;
        [|destruct (vals BMsgType =? IMBALANCE) eqn:E4; [|done]]]];
    rewrite ?orb_true_r; injection Hlay as <- <-; unfold parse_sized;
    try (destruct (len <? _) eqn:El; bool_to_prop; [lia|]);
    by rewrite (read_fields_at _ _ _ _ Hv2 Hf2).
Qed.

(** The members of a body are those of the message. *)
Lemma order_body_num hdr vals size fields f : order_layout (vals BMsgType) = Some (size, fields) ->
  f ∈ fields.*1 -> (order_body hdr vals).(bd_num) f = vals f.
Proof.
  intros Hl Hf. unfold order_body. rewrite Hl, set_fields_num. by rewrite bool_decide_true.
Qed.

Lemma order_wire_length vals : order_ok vals ->
  sizeof_Delete <= Z.of_nat (length (order_wire vals)) <= 36.
Proof.
  unfold order_ok, order_wire. destruct (order_layout _) as [[size fields]|] eqn:E; [|done]. intros _.
  pose proof (order_layout_ok _ _ _ E) as (Hs & _ & Hsz & _). rewrite struct_bytes_length, Hs. done.
Qed.

Section packet.
Context {W : Type} (hooks : arca_hooks W) (stack_body : msg_body).
Notation group_t := (feed_group W).

(** Publishing the bodies of a packet in order. *)
Fixpoint publish_bodies (pos : Z) (hdr : msg_hdr) (bodies : list msg_body) (g : group_t) : option group_t :=
  match bodies with
  | [] => Some g
  | body :: bodies =>
      g ← publish_orders hooks stack_body pos hdr body g; publish_bodies pos hdr bodies g
  end.

Lemma book_parse_orders buf p hdr len pos count (g : group_t) : hdr.(hd_msg_type) = ORDERS ->
  book_parse_mesg hooks stack_body buf p hdr len pos count g =
  parse_and (parse_orders (initial_body hdr) buf p len) g (publish_orders hooks stack_body pos hdr).
Proof. intros Ht. unfold book_parse_mesg. by rewrite Ht. Qed.

Lemma publish_messages_orders pos hdr msgs : forall fuel buf p rest count (g : group_t),
  hdr.(hd_msg_type) = ORDERS -> hdr.(hd_num_body_entries) = count + Z.of_nat (length msgs) ->
  (length msgs <= fuel)%nat -> Forall order_ok msgs -> part buf p (concat (order_wire <$> msgs)) ->
  0 <= rest ->
  publish_messages hooks stack_body (book_parse_mesg hooks stack_body) fuel buf p
    (Z.of_nat (length (concat (order_wire <$> msgs))) + rest) count hdr pos g =
  publish_bodies pos hdr (order_body hdr <$> msgs) g.
Proof.
  induction msgs as [|vals msgs IH]; intros fuel buf p rest count g Ht Hn Hf Hok Hp Hr.
  - cbn in Hn. destruct fuel; cbn [publish_messages]; rewrite Hn, Z.add_0_r, Z.ltb_irrefl, andb_false_r; done.
  - destruct fuel as [|fuel]; [cbn in Hf; lia|]. apply Forall_cons in Hok as [Hok0 Hok].
    pose proof (order_wire_length _ Hok0) as Hlen. unfold sizeof_Delete in Hlen.
    cbn [fmap list_fmap concat] in Hp |- *. rewrite length_app. cbn [publish_messages].
    cbn [length] in Hn, Hf.
    destruct (_ && _) eqn:E; [|apply andb_false_iff in E as [E|E]; bool_to_prop; lia]. clear E.
    rewrite book_parse_orders by done.
    unfold order_ok in Hok0. destruct (order_layout (vals BMsgType)) as [[size fields]|] eqn:El; [|done].
    pose proof (order_layout_ok _ _ _ El) as (Hs & Hin & Hsz & _).
    assert (Hsize : Z.of_nat (length (order_wire vals)) = size) by (unfold order_wire; by rewrite struct_bytes_length).
    destruct Hp as (pre & post & -> & ->). rewrite <- app_assoc.
    assert (Hp1 : part (pre ++ order_wire vals ++ concat (order_wire <$> msgs) ++ post)
      (Z.of_nat (length pre)) (order_wire vals)) by (by eexists pre, _).
    assert (Hfields := struct_fields_at _ _ _ _ _ Hin Hp1).
    unfold parse_and. rewrite (parse_orders_ok vals size fields) by (done || lia). cbn [mbind option_bind].
    unfold sizeof_Delete in Hsz. rewrite (eqb_false_of_ne size 0) by lia.
    cbn [publish_bodies fmap list_fmap].
    assert (Hb : order_body hdr vals = set_fields fields vals (initial_body hdr)) by (unfold order_body; by rewrite El).
    rewrite <- Hb. destruct (publish_orders _ _ _ _ _ _) as [g1|]; [|done]. cbn [mbind option_bind].
    rewrite (eqb_false_of_ne size 0), (eqb_false_of_ne size 1) by lia.
    rewrite <- (IH fuel (pre ++ order_wire vals ++ concat (order_wire <$> msgs) ++ post)
      (Z.of_nat (length pre) + size) rest (count + 1)); try done; try lia.
    + f_equal. lia.
    + exists (pre ++ order_wire vals), post. rewrite <- !app_assoc. split; [done|]. rewrite length_app. lia.
Qed.

(** ** What arbitration leaves alone *)

Definition group_frame (g : group_t) : arca_cfg * (list Z * list Z) * (list Z * list Z) :=
  (g.(fg_cfg), g.(fg_fast_buffers), g.(fg_buffers)).

Lemma count_frame c n (g : group_t) : group_frame (count_arca c n g) = group_frame g.
Proof. done. Qed.
Lemma set_expected_frame sec v (g : group_t) : group_frame (set_expected sec v g) = group_frame g.
Proof. done. Qed.
Lemma set_missing_frame w (g : group_t) : group_frame (set_missing w g) = group_frame g.
Proof. done. Qed.
Lemma init_missing_frame (g : group_t) : group_frame (init_missing g) = group_frame g.
Proof. done. Qed.
Lemma send_alert_frame t (g : group_t) : group_frame (send_alert hooks stack_body t g) = group_frame g.
Proof. unfold send_alert. by destruct (publish_feed_alert _ _ _). Qed.
Lemma notify_packet_loss_frame t m n pos (g : group_t) :
  group_frame (notify_packet_loss hooks stack_body t m n pos g) = group_frame g.
Proof. unfold notify_packet_loss. cbv zeta. by destruct (publish_packet_loss _ _ _). Qed.
Lemma set_in_sequence_frame (g : group_t) :
  group_frame (set_in_sequence hooks stack_body g) = group_frame g.
Proof. apply (send_alert_frame 1 (set_in_seq true g)). Qed.
Lemma set_out_of_sequence_frame (g : group_t) :
  group_frame (set_out_of_sequence hooks stack_body g) = group_frame g.
Proof. apply (send_alert_frame 1 (set_in_seq false g)). Qed.

Lemma add_missing_frame first count (g g' : group_t) : add_missing first count g = Some g' ->
  group_frame g' = group_frame g.
Proof.
  unfold add_missing. destruct (add_sequences_2_missing _ _ _) as [[rc w]|]; [|done]. by intros [= <-].
Qed.

Lemma first_gap_frame a b c d (g g' : group_t) rc : first_gap hooks stack_body a b c d g = Some (rc, g') ->
  group_frame g' = group_frame g.
Proof.
  unfold first_gap. cbv zeta. destruct (MISSING_RANGE <? a).
  - destruct (_ <? s32 a); intros [= <- <-]; rewrite ?notify_packet_loss_frame; done.
  - destruct (add_missing _ _ _) as [g1|] eqn:E; [|done]. intros [= <- <-].
    rewrite set_out_of_sequence_frame. by rewrite (add_missing_frame _ _ _ _ E).
Qed.

Lemma second_gap_frame a b c d (g g' : group_t) rc : second_gap hooks stack_body a b c d g = Some (rc, g') ->
  group_frame g' = group_frame g.
Proof.
  unfold second_gap. cbv zeta. destruct (b <? _);
    (destruct (add_missing _ _ _) as [g1|] eqn:E; [|done]; intros [= <- <-]);
    rewrite (add_missing_frame _ _ _ _ E); [done|].
  by rewrite init_missing_frame, notify_packet_loss_frame.
Qed.

Lemma publish_in_sequence_frame sec pos n (g g' : group_t) rc :
  publish_in_sequence hooks stack_body sec pos n g = Some (rc, g') -> group_frame g' = group_frame g.
Proof.
  unfold publish_in_sequence. cbv zeta.
  do 4 (destruct (_ : bool); [try destruct (_ : bool); by intros [= <- <-]|]).
  destruct (first_gap _ _ _ _ _ _ _) as [[r g1]|] eqn:E; [|done].
  intros [= <- <-]. rewrite set_expected_frame. by apply first_gap_frame in E.
Qed.

Lemma leave_window_frame sec pos n (g : group_t) :
  group_frame (leave_window hooks stack_body sec pos n g) = group_frame g.
Proof.
  unfold leave_window. cbv zeta. destruct (_ <? n); [|done].
  by rewrite set_in_sequence_frame, set_expected_frame, init_missing_frame, notify_packet_loss_frame.
Qed.

Lemma publish_out_of_sequence_frame sec pos n (g g' : group_t) rc :
  publish_out_of_sequence hooks stack_body sec pos n g = Some (rc, g') -> group_frame g' = group_frame g.
Proof.
  unfold publish_out_of_sequence. cbv zeta. rewrite <- (leave_window_frame sec pos n g).
  generalize (leave_window hooks stack_body sec pos n g) as g1. intros g1.
  do 2 (destruct (_ && _); [by intros [= <- <-]|]). destruct (_ && _).
  - destruct (second_gap _ _ _ _ _ _ _) as [[r g2]|] eqn:E; [|done].
    intros [= <- <-]. rewrite set_expected_frame. by apply second_gap_frame in E.
  - destruct (is_sequence_in_missing _ _ _) as [[|]|]; [|by intros [= <- <-] | done]. cbn [mbind option_bind].
    destruct (remove_sequence_from_missing _ _ _) as [[r w]|]; [|done]. intros [= <- <-].
    destruct (_ <=? n); rewrite ?set_expected_frame; (destruct (is_missing_empty w); [|done]);
      by rewrite set_in_sequence_frame.
Qed.

Lemma need_2_publish_frame pos n (g g' : group_t) rc :
  need_2_publish hooks stack_body pos n g = Some (rc, g') -> group_frame g' = group_frame g.
Proof.
  unfold need_2_publish. cbv zeta. set (g0 := if my_expected _ g =? 0 then _ else g).
  assert (H0 : group_frame g0 = group_frame g) by (unfold g0; by destruct (_ =? 0)).
  rewrite <- H0. clearbody g0. destruct (fg_in_sequence g0);
    [apply publish_in_sequence_frame | apply publish_out_of_sequence_frame].
Qed.

End packet.
