(* ===== verification/ArcaSafe.v ===== *)
(** * Packets: no read outside the buffer

    The parsers check the length that is left before they read, so a packet
    with a whole header is safe whatever it contains. *)
From S2P Require Import Prelude Bytes Mpool ArcaMsg ArcaGroup ArcaSeq ArcaArbiter ArcaFast ArcaParse ArcaWire ArcaPacket.

(** ** Parsers *)

Lemma read_bytes_is_some buf off n : 0 <= off -> off + Z.of_nat n <= Z.of_nat (length buf) ->
  is_Some (read_bytes buf off n).
Proof. intros H0 H1. unfold read_bytes. destruct (_ || _) eqn:E; [|eauto]. apply orb_true_iff in E as [E|E]; bool_to_prop; lia. Qed.

Definition fields_within (size : Z) (fields : list (body_field * (Z * nat))) : bool :=
  forallb (fun '(_, (off, n)) => (0 <=? off) && (off + Z.of_nat n <=? size)) fields.

Lemma read_fields_some size fields buf p : 0 <= p -> p + size <= Z.of_nat (length buf) ->
  fields_within size fields = true -> forall body, is_Some (read_fields buf p fields body).
Proof.
  intros H0 H1. induction fields as [|[f [off n]] fields IH]; intros Hf body; [cbn; eauto|].
  cbn in Hf. apply andb_true_iff in Hf as [Hf0 Hf]. bool_to_prop. cbn [read_fields]. unfold big_endian.
  destruct (read_bytes_is_some buf (p + off) n) as [l ->]; [lia..|]. cbn [mbind option_bind]. by apply IH.
Qed.

(** What a parser promises: it reads what is there and consumes no more. *)
Definition parser_safe (parse : msg_body -> list Z -> Z -> Z -> option (Z * msg_body)) : Prop :=
  forall body buf p len, 0 <= p -> p + len <= Z.of_nat (length buf) ->
    exists n body', parse body buf p len = Some (n, body') /\ (n = 0 \/ 0 < n <= len).

Lemma parse_sized_safe size fields : 0 < size -> fields_within size fields = true ->
  parser_safe (parse_sized size fields).
Proof.
  intros Hs Hf body buf p len Hp Hl. unfold parse_sized. destruct (len <? size) eqn:E; bool_to_prop; [eauto|].
  destruct (read_fields_some size fields buf p Hp ltac:(lia) Hf body) as [b ->]. cbn [mbind option_bind].
  do 2 eexists. split; [done | right; lia].
Qed.

(** A parser that reads a string after its numbers. *)
Ltac parser_with_string fields_size :=
  intros body buf p len Hp Hl; destruct (len <? _) eqn:E; bool_to_prop; [eauto|];
  match goal with |- context [read_fields ?b ?q ?fs ?body] =>
    destruct (read_fields_some fields_size fs b q Hp ltac:(lia) eq_refl body) as [b1 ->] end;
  cbn [mbind option_bind]; unfold trade_end;
  match goal with |- context [read_bytes ?b ?q ?n] =>
    destruct (read_bytes_is_some b q n) as [s ->]; [lia | unfold ARCABOOK_SYMBOL_LENGTH, ARCABOOK_ATTRIBUTION_LENGTH; lia |] end;
  cbn [mbind option_bind]; do 2 eexists; (split; [reflexivity | right; lia]).

Lemma parse_symbol_mapping_safe : parser_safe parse_symbol_mapping.
Proof. unfold parse_symbol_mapping, sizeof_SymbolUpdate. parser_with_string constr:(20). Qed.
Lemma parse_firm_mapping_safe : parser_safe parse_firm_mapping.
Proof. unfold parse_firm_mapping, sizeof_FirmUpdate. parser_with_string constr:(12). Qed.
Lemma parse_trade_safe : parser_safe parse_trade.
Proof. unfold parse_trade, TRADE_LENGTH. parser_with_string constr:(52). Qed.
Lemma parse_trade_cancel_safe : parser_safe parse_trade_cancel.
Proof. unfold parse_trade_cancel, TRADE_CANCEL_LENGTH. parser_with_string constr:(32). Qed.
Lemma parse_trade_correction_safe : parser_safe parse_trade_correction.
Proof. unfold parse_trade_correction, TRADE_CORRECTION_LENGTH. parser_with_string constr:(56). Qed.

Lemma parse_orders_safe : parser_safe parse_orders.
Proof.
  intros body buf p len Hp Hl. unfold parse_orders, sizeof_Delete. destruct (len <? 24) eqn:E; bool_to_prop; [eauto|].
  destruct (read_fields_some 24 order_fields buf p Hp ltac:(lia) eq_refl body) as [b ->]. cbn [mbind option_bind].
  destruct (_ || _); [by apply parse_sized_safe|]. destruct (_ =? DELETE_ORDER).
  - destruct (read_fields_some 24 delete_fields buf p Hp ltac:(lia) eq_refl b) as [b2 ->]. cbn [mbind option_bind].
    do 2 eexists. split; [done | right; lia].
  - destruct (_ =? IMBALANCE); [by apply parse_sized_safe|]. do 2 eexists. split; [done | right; lia].
Qed.

Section safe.
Context {W : Type} (hooks : arca_hooks W) (stack_body : msg_body).
Notation group_t := (feed_group W).

(** ** Publications *)

(** The names the plugins find fit in a body. *)
Record hooks_fit : Prop := {
  hf_symbol lookup body w rc s w' : hooks.(plug_lookup_symbol) = Some lookup ->
    lookup body w = (rc, s, w') -> (length s <= 16)%nat;
  hf_firm lookup body w rc s w' : hooks.(plug_lookup_firm) = Some lookup ->
    lookup body w = (rc, s, w') -> (length s <= 5)%nat
}.
Context (Hfit : hooks_fit).

Lemma lookup_symbol_some clear body (g : group_t) : is_Some (lookup_symbol hooks clear body g).
Proof using Hfit.
  unfold lookup_symbol. destruct (plug_lookup_symbol hooks) as [lookup|] eqn:El; [|eauto].
  destruct (lookup body (fg_world g)) as [[rc s] w] eqn:E. destruct (rc =? FH_OK); [|eauto].
  pose proof (hf_symbol Hfit _ _ _ _ _ _ El E). unfold guard_ub.
  destruct (_ <? 17) eqn:E2; bool_to_prop; [eauto | lia].
Qed.

Lemma lookup_firm_some body (g : group_t) : is_Some (lookup_firm hooks body g).
Proof using Hfit.
  unfold lookup_firm. destruct (plug_lookup_firm hooks) as [lookup|] eqn:El; [|eauto].
  destruct (lookup body (fg_world g)) as [[rc s] w] eqn:E. destruct (rc =? FH_OK); [|eauto].
  pose proof (hf_firm Hfit _ _ _ _ _ _ El E). unfold guard_ub.
  destruct (_ <? 6) eqn:E2; bool_to_prop; [eauto | lia].
Qed.

Ltac publish_some :=
  cbv zeta; destruct (arca_publish hooks _); [|by eauto];
  repeat match goal with
  | |- context [lookup_symbol hooks ?c ?b ?g] =>
      destruct (lookup_symbol_some c b g) as [[? ?] ->]; cbn [mbind option_bind]
  | |- context [lookup_firm hooks ?b ?g] =>
      destruct (lookup_firm_some b g) as [[? ?] ->]; cbn [mbind option_bind]
  end.

Lemma publish_orders_some pos hdr body (g : group_t) :
  is_Some (publish_orders hooks stack_body pos hdr body g).
Proof using Hfit.
  unfold publish_orders, ignored. cbv zeta.
  repeat (destruct (_ =? _); [apply fmap_is_Some|]); [.. | by eauto];
    unfold publish_add_order, publish_mod_order, publish_order, publish_del_order, publish_imbalance; publish_some.
  - destruct (update_table _ _ _ _). eauto.
  - destruct (update_table _ _ _ _). eauto.
  - destruct (plug_del_order hooks); [|eauto]. destruct (deleted_order _ _ _), (update_table _ _ _ _). eauto.
  - eauto.
Qed.

Lemma publish_symbol_clear_some hdr body (g : group_t) : is_Some (publish_symbol_clear hooks hdr body g).
Proof using Hfit. unfold publish_symbol_clear. publish_some. eauto. Qed.

(** ** Messages *)

(** What [parse_mesg] promises to the loop over a packet. *)
Definition mesg_safe (parse_mesg : list Z -> Z -> msg_hdr -> Z -> Z -> Z -> group_t -> option (Z * group_t)) : Prop :=
  forall buf p hdr len pos count g, 0 <= p -> p + len <= Z.of_nat (length buf) ->
    exists n g', parse_mesg buf p hdr len pos count g = Some (n, g') /\ (n = 0 \/ 0 < n <= len).

Lemma parse_and_safe parse body buf p len (g : group_t) publish : parser_safe parse ->
  0 <= p -> p + len <= Z.of_nat (length buf) ->
  (forall body g, is_Some (publish body g)) ->
  exists n g', parse_and (parse body buf p len) g publish = Some (n, g') /\ (n = 0 \/ 0 < n <= len).
Proof.
  intros Hs Hp Hl Hpub. unfold parse_and. destruct (Hs body buf p len Hp Hl) as (n & b & -> & Hn).
  cbn [mbind option_bind]. destruct (n =? 0) eqn:E; bool_to_prop; [eauto|].
  destruct (Hpub b g) as [g' ->]. cbn [mbind option_bind]. eauto.
Qed.

Ltac mesg_case :=
  apply parse_and_safe;
  [first [ by apply parse_sized_safe | apply parse_symbol_mapping_safe | apply parse_firm_mapping_safe
         | apply parse_trade_safe | apply parse_trade_cancel_safe | apply parse_trade_correction_safe
         | apply parse_orders_safe ]
  | done | done | ].

Lemma book_parse_mesg_safe : mesg_safe (book_parse_mesg hooks stack_body).
Proof using Hfit.
  intros buf p hdr len pos count g Hp Hl. unfold book_parse_mesg. cbv zeta.
  repeat (destruct (_ =? _); [mesg_case; intros|]); try (by eauto).
  - by destruct (refresh_symbol _ _ _ _ _); eauto.
  - unfold ignored. apply fmap_is_Some, publish_symbol_clear_some.
  - apply publish_orders_some.
Qed.

Lemma trade_parse_mesg_safe : mesg_safe (trade_parse_mesg hooks stack_body).
Proof.
  intros buf p hdr len pos count g Hp Hl. unfold trade_parse_mesg. cbv zeta.
  repeat (destruct (_ =? _); [mesg_case; intros; by eauto|]). by eauto.
Qed.

Lemma publish_messages_some parse_mesg : mesg_safe parse_mesg ->
  forall fuel buf p remaining count hdr pos (g : group_t),
  0 <= p -> p + remaining <= Z.of_nat (length buf) ->
  hdr.(hd_num_body_entries) - count <= Z.of_nat fuel ->
  is_Some (publish_messages hooks stack_body parse_mesg fuel buf p remaining count hdr pos g).
Proof.
  intros Hs. induction fuel as [|fuel IH]; intros buf p remaining count hdr pos g Hp Hl Hf; cbn [publish_messages];
    (destruct (_ && _) eqn:E; [bool_to_prop|by eauto]); [lia|].
  destruct (Hs buf p hdr remaining pos count g Hp Hl) as (n & g' & -> & Hn). cbn [mbind option_bind]. cbv zeta.
  destruct (n =? 0) eqn:E0; bool_to_prop; [eauto|]. destruct (n =? 1); [eauto|]. apply IH; lia.
Qed.

End safe.
