(* ===== verification/ArcaPacketTheorems.v ===== *)
(** * Packets: the claims

    What becomes of a packet of order messages, and of one that is too short. *)
From S2P Require Import Prelude Bytes Mpool ArcaMsg ArcaGroup ArcaSeq ArcaArbiter ArcaFast ArcaParse ArcaWire ArcaPacket ArcaSafe ArcaTheorems.

(** The sixteen bytes of a packet's header. *)
Definition packet_header (size msg_type seq time product retrans num channel : Z) : list Z :=
  be_bytes 2 size ++ be_bytes 2 msg_type ++ be_bytes 4 seq ++ be_bytes 4 time ++
  [product; retrans; num; channel].

(** What the receive buffer has after a packet. *)
Definition received_into (packet buf : list Z) : list Z := packet ++ drop (length packet) buf.

Lemma write_at_start buf packet : (length packet <= length buf)%nat ->
  write_at buf 0 packet = Some (received_into packet buf).
Proof.
  intros H. unfold write_at, guard_ub. destruct (_ && _) eqn:E; [done|].
  apply andb_false_iff in E as [E|E]; bool_to_prop; lia.
Qed.

Ltac find_be :=
  first [ apply part_here; reflexivity | apply part_cons_here; reflexivity
        | apply part_cons; find_be | apply part_skip; rewrite length_be_bytes; find_be ].

Lemma header_fields size msg_type seq time product retrans num channel rest buf :
  buf = packet_header size msg_type seq time product retrans num channel ++ rest ->
  read_bytes buf 0 2 = Some (be_bytes 2 size) /\ read_bytes buf 2 2 = Some (be_bytes 2 msg_type) /\
  read_bytes buf 4 4 = Some (be_bytes 4 seq) /\ read_bytes buf 8 4 = Some (be_bytes 4 time) /\
  byte_at buf 12 = Some product /\ byte_at buf 13 = Some retrans /\ byte_at buf 14 = Some num.
Proof.
  intros ->. unfold packet_header. rewrite <- !app_assoc.
  split; [|split; [|split; [|split]]]; [apply read_part; [find_be | apply length_be_bytes]..|].
  repeat split; apply byte_part; find_be.
Qed.

Lemma received_big_endian packet buf n off v :
  big_endian n packet off = Some v -> big_endian n (received_into packet buf) off = Some v.
Proof.
  unfold big_endian. destruct (read_bytes packet off n) as [l|] eqn:E; [|done].
  intros Hv. assert (E2 : read_bytes (received_into packet buf) off n = Some l); [|by rewrite E2].
  apply read_bytes_lookup in E as (H0 & H1 & Hl & Hb). apply read_bytes_lookup.
  unfold received_into. rewrite length_app. repeat split; try lia.
  intros i Hi. rewrite Hb by done. by rewrite lookup_app_l by lia.
Qed.

Section claims.
Context {W : Type} (hooks : arca_hooks W) (stack_body : msg_body) (stack_data : Z).
Notation group_t := (feed_group W).
Notation get_packet := (get_packet hooks stack_body stack_data).

(** The group when a packet is in its buffer and counted. *)
Definition received (pos : Z) (packet : list Z) (num : Z) (g : group_t) : group_t :=
  let g := set_buffers g.(fg_fast_buffers)
             (put pos (received_into packet (pick pos g.(fg_buffers))) g.(fg_buffers)) g in
  count_arca (MsgsRcvd (feed_of pos)) num (count_arca (BytesRcvd (feed_of pos)) (Z.of_nat (length packet))
    (count_arca (PcktRcvd (feed_of pos)) 1 g)).

Lemma set_buffers_same pos (g : group_t) :
  set_buffers g.(fg_fast_buffers) (put pos (pick pos g.(fg_buffers)) g.(fg_buffers)) g = g.
Proof. destruct g as [? ? ? ? ? ? ? [a b] ?]. unfold set_buffers, put, pick. cbn. by destruct (pos =? 0). Qed.

Lemma pick_put {A} pos (a : A) both : pick pos (put pos a both) = a.
Proof. unfold pick, put. by destruct (pos =? 0). Qed.

(** C6: functional. A packet of order messages of a feed that is not
    compacted: when arbitration drops its number it is counted as a duplicate;
    otherwise every message in it, sent as the exchange's packed struct, is
    published, in order, with each member as it was sent, and then the channel
    is flushed. *)
Theorem arca_packet_delivered (g : group_t) pos rcv_time size seq time product retrans channel msgs
    packet num hdr :
  g.(fg_cfg).(fast_mode) <> 1 -> Forall order_ok msgs ->
  0 <= size < 2 ^ 16 -> 0 <= seq < 2 ^ 32 -> 0 <= time < 2 ^ 32 -> num = Z.of_nat (length msgs) ->
  packet = packet_header size ORDERS seq time product retrans num channel ++ concat (order_wire <$> msgs) ->
  hdr = MkHdr rcv_time seq time size ORDERS product retrans num 0 0 0 0 0 0 (replicate 16 0) ->
  (length packet <= length (pick pos g.(fg_buffers)))%nat ->
  get_packet (book_parse_mesg hooks stack_body) (Some packet) rcv_time pos g =
    ('(action, g1) ← need_2_publish hooks stack_body pos seq (received pos packet num g);
     if action =? 0 then Some (0, count_arca (PktDuplicate (feed_of pos)) 1 g1)
     else g2 ← publish_bodies hooks stack_body pos hdr (order_body hdr <$> msgs) g1;
          Some (0, (msg_flush hooks g2).2)) /\
  forall vals size fields f, vals ∈ msgs -> order_layout (vals BMsgType) = Some (size, fields) ->
    f ∈ fields.*1 -> (order_body hdr vals).(bd_num) f = vals f.
Proof.
  intros Hfast Hok Hsize Hseq Htime Hnum Hpkt Hhdr Hlen. split; [|by intros; eapply order_body_num].
  unfold ArcaParse.get_packet. rewrite (eqb_false_of_ne _ _ Hfast). rewrite write_at_start by done.
  cbn [mbind option_bind]. cbv zeta.
  set (buf := received_into packet (pick pos g.(fg_buffers))).
  assert (Hbuf : buf = packet_header size ORDERS seq time product retrans num channel ++
    concat (order_wire <$> msgs) ++ drop (length packet) (pick pos g.(fg_buffers)))
    by (unfold buf, received_into; by rewrite Hpkt, <- app_assoc).
  destruct (header_fields _ _ _ _ _ _ _ _ _ _ Hbuf) as (R0 & R2 & R4 & R8 & B12 & B13 & B14).
  assert (Hl16 : length packet = (16 + length (concat (order_wire <$> msgs)))%nat).
  { rewrite Hpkt. unfold packet_header. by rewrite !length_app, !length_be_bytes. }
  unfold ARCAM_MSG_HDR_SIZE, MSG_TYPE_OFFSET. destruct (_ <? 16) eqn:E; bool_to_prop; [lia|]. clear E.
  unfold big_endian at 1. rewrite R2. cbn [mbind option_bind]. rewrite be_val_be_bytes by done.
  change (ORDERS =? 2) with false. cbn iota.
  unfold process_packet. cbv zeta. cbn [hd_msg_type hd_send_time hd_msg_size hd_product_id hd_retrans_flag
    hd_session_id hd_last_source_seq_num hd_last_msg_seq hd_symbol_index hd_current_refresh_msg_seq
    hd_total_refresh_msg_seq hd_symbol].
  change (fg_cfg (set_buffers _ _ g)) with (fg_cfg g).
  change (fg_buffers (set_buffers ?a ?b g)) with b.
  rewrite (eqb_false_of_ne _ _ Hfast), pick_put. fold buf.
  unfold NUMBER_BODIES_OFFSET, MSG_NUM_OFFSET. rewrite B14. cbn [mbind option_bind].
  unfold big_endian at 1. rewrite R4. cbn [mbind option_bind]. rewrite be_val_be_bytes by done.
  change (negb (ORDERS =? 1)) with true. cbn iota.
  change (count_arca _ num _) with (received pos packet num g).
  destruct (need_2_publish _ _ _ _ _) as [[action g1]|] eqn:En; [|done]. cbn [mbind option_bind].
  destruct (action =? 0); [done|].
  apply need_2_publish_frame in En. unfold group_frame in En. cbn in En. injection En as Ec Ef Eb.
  assert (Hpick : pick pos (fg_buffers g1) = buf) by (rewrite Eb; apply pick_put).
  assert (Hsame : set_buffers (fg_fast_buffers g1) (put pos buf (fg_buffers g1)) g1 = g1)
    by (rewrite <- Hpick; apply set_buffers_same).
  unfold publish_packet. cbv zeta. rewrite Ec, (eqb_false_of_ne _ _ Hfast), Hpick.
  unfold parse_packet_hdr. unfold ARCAM_MSG_HDR_SIZE, MSG_TYPE_OFFSET, MSG_NUM_OFFSET, SEND_TIME_IN_OFFSET,
    PRODUCT_ID_IN_OFFSET, RETRANS_FLAG_OFFSET, NUMBER_BODIES_OFFSET.
  destruct (_ <? 16) eqn:E; bool_to_prop; [lia|]. clear E. rewrite !Z.add_0_l.
  unfold big_endian. rewrite R0, R2, R4, R8, B12, B13, B14. cbn [mbind option_bind].
  rewrite !be_val_be_bytes by done. change (negb (ORDERS =? BOOK_REFRESH)) with true. cbn iota. cbn [mbind option_bind].
  change (negb (AB_OK =? AB_OK)) with false. cbn iota.
  cbn [hd_num_body_entries]. rewrite Hsame.
  match goal with |- context [publish_messages _ _ _ _ _ _ _ _ ?h] =>
    change h with (MkHdr rcv_time seq time size ORDERS product retrans num 0 0 0 0 0 0 (replicate 16 0)) end.
  rewrite <- Hhdr.
  replace (Z.of_nat (length packet) - 16) with (Z.of_nat (length (concat (order_wire <$> msgs))) + 0) by lia.
  rewrite (publish_messages_orders hooks stack_body pos hdr msgs); [done | by rewrite Hhdr | rewrite Hhdr; cbn; lia | lia | done | | done].
  rewrite Hbuf. eexists (packet_header _ _ _ _ _ _ _ _), _. split; [done|].
  unfold packet_header. by rewrite !length_app, !length_be_bytes.
Qed.

Lemma arca_inv_view (g g' : group_t) first D S : seq_view g' = seq_view g -> arca_inv g first D S ->
  arca_inv g' first D S.
Proof.
  intros Hv Hi. pose proof (ai_first _ _ _ _ Hi). pose proof (ai_expected _ _ _ _ Hi).
  pose proof (ai_published _ _ _ _ Hi). pose proof (ai_missing _ _ _ _ Hi). pose proof (ai_window _ _ _ _ Hi).
  unfold seq_view in Hv. injection Hv as Ew Ep Es Eb. unfold group_top in *.
  constructor; unfold group_top; rewrite ?Ew, ?Ep, ?Es, ?Eb; done.
Qed.

(** Reads that are known to be inside the buffer. *)
Ltac read_all :=
  repeat (first [ match goal with |- context [read_bytes ?b ?o ?n] =>
                    destruct (read_bytes_is_some b o n) as [? ->]; [lia | lia |] end
                | match goal with |- context [byte_at ?b ?o] =>
                    destruct (byte_at_some b o) as [? ->]; [lia|] end ]; cbn [mbind option_bind]).

Lemma parse_packet_hdr_some hdr buf len rcv_time ty : 16 <= len <= Z.of_nat (length buf) ->
  big_endian 2 buf 2 = Some ty -> (ty = BOOK_REFRESH -> 48 <= len) ->
  exists n hdr', parse_packet_hdr hdr buf 0 len rcv_time = Some (n, hdr') /\ 0 <= n <= len.
Proof.
  intros Hl Hty Hr. unfold parse_packet_hdr. rewrite !Z.add_0_l.
  unfold ARCAM_MSG_HDR_SIZE, ARCAM_REFRESH_MSG_HDR_SIZE. destruct (len <? 16) eqn:E; bool_to_prop; [lia|].
  unfold MSG_TYPE_OFFSET. rewrite Hty. cbn [mbind option_bind].
  unfold big_endian. unfold MSG_NUM_OFFSET, SEND_TIME_IN_OFFSET, PRODUCT_ID_IN_OFFSET, RETRANS_FLAG_OFFSET,
    NUMBER_BODIES_OFFSET, SESSIONID_OFFSET, SYMBOLINDEX_OFFSET, LAST_SOURCE_SEQ_NUM_OFFSET, LST_MSG_SEQ_OFFSET,
    SYMBOL_OFFSET, ARCABOOK_SYMBOL_LENGTH.
  read_all. destruct (ty =? BOOK_REFRESH) eqn:Et; bool_to_prop; cbn [negb].
  - specialize (Hr Et). destruct (len <? 48) eqn:E48; bool_to_prop; [lia|]. read_all.
    do 2 eexists. split; [done | lia].
  - do 2 eexists. split; [done | lia].
Qed.

(** C13: safety. A packet with a whole header, of a feed that is not
    compacted ([fast_mode] other than 1): whatever else is in it, every read is
    inside the receive buffer, both loops end, and the packet is reported as
    processed. The conditions: it fits the buffer; a book refresh has its whole
    header of 48 bytes; the packet is a sequence number reset, or arbitration
    has started ([arca_inv]) and can place its number ([in_window]: below 2^31,
    inside the window of missing numbers, and not ahead of the other feed when
    its own feed joins); the names that plugins look up fit in a message body
    ([hooks_fit]). A number at the far edge of the window can read a word past
    the end of the table of missing numbers ([arca_window_overrun]), and a
    compacted packet can be unpacked past the end of its buffer
    ([arca_fast_overflow]). *)
Theorem arca_packet_safe (g : group_t) pos rcv_time packet parse first D S ty seq :
  g.(fg_cfg).(fast_mode) <> 1 -> hooks_fit hooks ->
  parse = book_parse_mesg hooks stack_body \/ parse = trade_parse_mesg hooks stack_body ->
  16 <= Z.of_nat (length packet) <= Z.of_nat (length (pick pos g.(fg_buffers))) ->
  big_endian 2 packet 2 = Some ty -> (ty = BOOK_REFRESH -> 48 <= Z.of_nat (length packet)) ->
  big_endian 4 packet 4 = Some seq ->
  ty = 1 \/ (arca_inv g first D S /\ in_window pos seq g = true) ->
  exists g', get_packet parse (Some packet) rcv_time pos g = Some (0, g').
Proof.
  intros Hfast Hfit Hparse Hlen Hty Hr Hseq Hwin. unfold ArcaParse.get_packet.
  rewrite (eqb_false_of_ne _ _ Hfast), write_at_start by lia. cbn [mbind option_bind]. cbv zeta.
  set (buf := received_into packet (pick pos g.(fg_buffers))).
  assert (Hblen : length buf = length (pick pos g.(fg_buffers)))
    by (unfold buf, received_into; rewrite length_app, length_drop; lia).
  apply (received_big_endian _ (pick pos g.(fg_buffers))) in Hty, Hseq. fold buf in Hty, Hseq. unfold ARCAM_MSG_HDR_SIZE, MSG_TYPE_OFFSET.
  destruct (_ <? 16) eqn:E; bool_to_prop; [lia|]. clear E. rewrite Hty. cbn [mbind option_bind].
  destruct (ty =? 2); [eauto|]. unfold process_packet. cbv zeta. cbn [hd_msg_type].
  change (fg_cfg (set_buffers _ _ g)) with (fg_cfg g). change (fg_buffers (set_buffers ?a ?b g)) with b.
  rewrite (eqb_false_of_ne _ _ Hfast), pick_put. fold buf. unfold NUMBER_BODIES_OFFSET, MSG_NUM_OFFSET.
  destruct (byte_at_some buf 14) as [num Hnum]; [lia|]. rewrite Hnum, Hseq. cbn [mbind option_bind].
  change (count_arca _ num _) with (received pos packet num g).
  assert (Harb : exists action g1, (if negb (ty =? 1)
      then need_2_publish hooks stack_body pos seq (received pos packet num g)
      else Some (1, received pos packet num g)) = Some (action, g1) /\
    group_frame g1 = group_frame (received pos packet num g)).
  { destruct (ty =? 1) eqn:E1; bool_to_prop; cbn [negb]; [eauto|]. destruct Hwin as [?|[Hi Hw]]; [lia|].
    apply (arca_inv_view _ (received pos packet num g)) in Hi; [|done].
    destruct (need_2_publish_spec hooks stack_body pos _ seq first D S Hi Hw) as (g1 & S1 & E & _).
    rewrite E. do 2 eexists. split; [done | by eapply need_2_publish_frame]. }
  destruct Harb as (action & g1 & -> & Hframe). cbn [mbind option_bind].
  destruct (action =? 0); [eauto|]. unfold group_frame in Hframe. injection Hframe as Ec Ef Eb.
  unfold publish_packet. cbv zeta. rewrite Ec. change (fg_cfg (received _ _ _ g)) with (fg_cfg g).
  rewrite (eqb_false_of_ne _ _ Hfast), Eb. change (fg_buffers (received pos packet num g))
    with (put pos buf (fg_buffers g)). rewrite pick_put. fold buf.
  match goal with |- context [parse_packet_hdr ?h _ _ _ _] => generalize h; intros h0 end.
  destruct (parse_packet_hdr_some h0 buf (Z.of_nat (length packet)) rcv_time ty) as (n & hdr' & -> & Hn);
      [lia | done | done |].
  cbn [mbind option_bind]. change (negb (AB_OK =? AB_OK)) with false. cbn iota.
  assert (Hsafe : mesg_safe parse) by (destruct Hparse as [-> | ->];
    [by apply book_parse_mesg_safe | apply trade_parse_mesg_safe]).
  match goal with |- context [publish_messages _ _ _ ?f ?b ?p ?r ?c ?h ?q ?g0] =>
    destruct (publish_messages_some hooks stack_body parse Hsafe f b p r c h q g0) as [g2 ->]; [lia.. |] end.
  cbn [mbind option_bind]. eauto.
Qed.

(** A datagram shorter than a header is reported as a runt packet
    but processed all the same, with the rest of the previous packet behind
    it: a sequence number reset then reads its number from before the receive
    buffer. *)
Theorem arca_runt_undefined (g : group_t) pos rcv_time packet parse num :
  g.(fg_cfg).(fast_mode) <> 1 ->
  parse = book_parse_mesg hooks stack_body \/ parse = trade_parse_mesg hooks stack_body ->
  (4 <= length packet < 16)%nat -> (16 <= length (pick pos g.(fg_buffers)))%nat ->
  big_endian 2 packet 2 = Some SEQUENCE_NUMBER_RESET ->
  byte_at (received_into packet (pick pos g.(fg_buffers))) 14 = Some num -> 0 < num ->
  get_packet parse (Some packet) rcv_time pos g = None.
Proof.
  intros Hfast Hparse Hlen Hbl Hty Hnum Hn. unfold ArcaParse.get_packet.
  rewrite (eqb_false_of_ne _ _ Hfast), write_at_start by lia. cbn [mbind option_bind]. cbv zeta.
  set (buf := received_into packet (pick pos g.(fg_buffers))) in *.
  assert (Hty' : big_endian 2 buf 2 = Some SEQUENCE_NUMBER_RESET) by by apply received_big_endian.
  assert (Hb : (16 <= length buf)%nat) by (unfold buf, received_into; rewrite length_app, length_drop; lia).
  unfold ARCAM_MSG_HDR_SIZE, MSG_TYPE_OFFSET. destruct (_ <? 16) eqn:E; bool_to_prop; [|lia].
  rewrite Hty'. cbn [mbind option_bind]. change (SEQUENCE_NUMBER_RESET =? 2) with false. cbn iota.
  set (g0 := runt_packet_error _ _ _ _ _ _ _).
  assert (Hg0 : group_frame g0 = group_frame (set_buffers (fg_fast_buffers g) (put pos buf (fg_buffers g)) g)).
  { unfold g0, runt_packet_error, packet_error. cbv zeta. by destruct (publish_feed_alert _ _ _). }
  unfold group_frame in Hg0. injection Hg0 as Ec _ Eb. unfold process_packet. cbv zeta. cbn [hd_msg_type].
  rewrite Ec. change (fg_cfg (set_buffers _ _ g)) with (fg_cfg g).
  rewrite (eqb_false_of_ne _ _ Hfast), Eb. change (fg_buffers (set_buffers ?a ?b g)) with b. rewrite pick_put.
  unfold NUMBER_BODIES_OFFSET. rewrite Hnum. cbn [mbind option_bind]. unfold big_endian, MSG_NUM_OFFSET.
  destruct (read_bytes_is_some buf 4 4) as [l ->]; [lia..|]. cbn [mbind option_bind].
  change (negb (SEQUENCE_NUMBER_RESET =? 1)) with false. cbn iota. cbn [mbind option_bind].
  change (1 =? 0) with false. cbn iota. unfold publish_packet. cbv zeta.
  change (fg_cfg (count_arca ?a ?b (count_arca ?c ?d (count_arca ?e ?f g0)))) with (fg_cfg g0).
  change (fg_buffers (count_arca ?a ?b (count_arca ?c ?d (count_arca ?e ?f g0)))) with (fg_buffers g0).
  rewrite Ec. change (fg_cfg (set_buffers _ _ g)) with (fg_cfg g). rewrite (eqb_false_of_ne _ _ Hfast), Eb.
  change (fg_buffers (set_buffers ?a ?b g)) with b. rewrite pick_put.
  unfold parse_packet_hdr. unfold ARCAM_MSG_HDR_SIZE. destruct (_ <? 16) eqn:E2; bool_to_prop; [|lia].
  cbn [mbind option_bind]. change (negb (AB_OK =? AB_OK)) with false. cbn iota. cbn [hd_num_body_entries].
  destruct (Z.to_nat num) as [|fuel] eqn:Ef; [lia|]. cbn [publish_messages].
  destruct (_ && _) eqn:E3; [|apply andb_false_iff in E3 as [E3|E3]; cbn [hd_num_body_entries] in E3; bool_to_prop; lia].
  destruct Hparse as [-> | ->]; unfold book_parse_mesg, trade_parse_mesg; cbn [hd_msg_type];
    change (SEQUENCE_NUMBER_RESET =? SEQUENCE_NUMBER_RESET) with true; cbn iota;
    unfold parse_and, parse_sequence_number_reset, parse_sized, sizeof_SequenceReset;
    (destruct (_ <? 4) eqn:E4; bool_to_prop; [lia | done]).
Qed.

End claims.

(** ** Witnesses *)

(** Plugins that keep a list of what is published, with the order number. *)
Definition log_publish (kind : arca_kind) :
    option (msg_hdr -> msg_body -> msg_space -> Z -> list (arca_kind * Z) -> Z * (msg_space * Z) * list (arca_kind * Z)) :=
  Some (fun _ body space size w => (FH_OK, (space, size), w ++ [(kind, body.(bd_num) BOrderId)])).
Definition log_hooks : arca_hooks (list (arca_kind * Z)) :=
  MkArcaHooks None None None None None None None None None None None None None None log_publish None None.
Definition log_group (mode p s : Z) : feed_group (list (arca_kind * Z)) :=
  MkGroup missing_zero p s true (fun _ => 0) (MkArcaCfg 0 true true 0 mode)
    (replicate 1500 0, replicate 1500 0) (replicate 6000 0, replicate 6000 0) [].

Definition demo_order (msg_type order_id : Z) (f : body_field) : Z :=
  match f with BMsgType => msg_type | BOrderId => order_id | BVolume => 300 | _ => 7 end.
Definition demo_orders : list (body_field -> Z) := [demo_order ADD_ORDER 11; demo_order DELETE_ORDER 12].
Definition demo_packet : list Z :=
  packet_header 70 ORDERS 5 34200000 115 1 2 0 ++ concat (order_wire <$> demo_orders).

(** C6's witness: an add and a delete. *)
Lemma arca_packet_delivered_witness : exists g',
  get_packet log_hooks body_zero 0 (book_parse_mesg log_hooks body_zero) (Some demo_packet) 0 0 (log_group 0 5 5)
    = Some (0, g') /\ g'.(fg_world) = [(AkAddOrder, 11); (AkDeleteOrder, 12)].
Proof.
  assert (Hok : Forall order_ok demo_orders).
  { apply Forall_cons_2; [|apply Forall_cons_2; [|apply Forall_nil_2]];
      [change (vals_ok (order_fields ++ add_fields) (demo_order ADD_ORDER 11))
      |change (vals_ok (order_fields ++ delete_fields) (demo_order DELETE_ORDER 12))];
      repeat first [apply Forall_nil_2 | apply Forall_cons_2]; by split. }
  destruct (arca_packet_delivered log_hooks body_zero 0 (log_group 0 5 5) 0 0 70 5 34200000 115 1 0 demo_orders
    demo_packet 2 (MkHdr 0 5 34200000 70 ORDERS 115 1 2 0 0 0 0 0 0 (replicate 16 0))) as [E _];
    [done | exact Hok | lia | lia | lia | done | done | done | apply Nat.leb_le; by vm_compute |].
  match type of E with _ = ?res => assert (Hr : option_map (fun r => (r.1, r.2.(fg_world))) res =
    Some (0, [(AkAddOrder, 11); (AkDeleteOrder, 12)])) by (by vm_compute) end.
  rewrite <- E in Hr. destruct (get_packet _ _ _ _ _ _ _ _) as [[rc g']|]; [|done].
  cbn in Hr. injection Hr as -> Hw. exists g'. split; [done | exact Hw].
Defined.

(** C13's witness: the same packet. *)
Lemma arca_packet_safe_witness : exists g',
  get_packet log_hooks body_zero 0 (trade_parse_mesg log_hooks body_zero) (Some demo_packet) 0 0 (log_group 0 0 5)
    = Some (0, g').
Proof.
  assert (Hi : arca_inv (log_group 0 0 5) 1 (list_to_set (seqZ 1 4)) ∅).
  { constructor; unfold group_top; cbn [log_group fg_primary_expected fg_secondary_expected fg_in_sequence]; try done.
    - intros n. rewrite elem_of_list_to_set, elem_of_seqZ. lia.
    - intros n. rewrite elem_of_list_to_set, elem_of_seqZ. split; [set_solver | lia]. }
  eapply (arca_packet_safe log_hooks body_zero 0 (log_group 0 0 5) 0 0 demo_packet _ 1 _ _ ORDERS 5).
  - done.
  - by constructor.
  - by right.
  - split; apply Z.leb_le; by vm_compute.
  - by vm_compute.
  - done.
  - by vm_compute.
  - right. split; [exact Hi | by vm_compute].
Defined.

(** A reset of ten bytes after a packet with one message. *)
Lemma arca_runt_undefined_witness :
  get_packet log_hooks body_zero 0 (book_parse_mesg log_hooks body_zero)
    (Some [0; 8; 0; 1; 0; 0; 0; 9; 0; 0]) 0 0
    (set_buffers ([], []) (replicate 1500 1, []) (log_group 0 5 5)) = None.
Proof.
  apply (arca_runt_undefined log_hooks body_zero 0) with (num := 1);
    [done | by left | cbn; lia | cbn; lia | done | done | done].
Defined.
