(* ===== verification/ArcaFastProps.v ===== *)
(** * The FAST decoder: an abstract encoding

    What compaction means, independently of the decoder: integers in groups
    of seven bits, strings that end with a stop bit, and for each field the
    value it had last, from which a field that is not sent is predicted.
    [decode_ops_ok] says that the decoder inverts every encoding. *)
From S2P Require Import Prelude Bytes Mpool ArcaMsg ArcaFast ArcaWire.

(** ** Values *)

Inductive fast_val := VInt (v : Z) | VStr (l : list Z).

(** The last [k] groups of seven bits, the highest first. *)
Fixpoint septets (k : nat) (v : Z) : list Z :=
  match k with 0%nat => [] | S k => septets k (v / 128) ++ [v mod 128] end.

Inductive fast_bytes : fast_val -> list Z -> Prop :=
  | fb_int k v : 0 <= v < 2 ^ 32 -> v < 128 ^ (Z.of_nat k + 1) ->
      fast_bytes (VInt v) (septets k (v / 128) ++ [128 + v mod 128])
  | fb_str l c : Forall (fun b => 0 <= b < 128) l -> 0 <= c < 128 ->
      fast_bytes (VStr (l ++ [c])) (l ++ [128 + c]).

Lemma septets_small k : forall v, Forall (fun b => 0 <= b < 128) (septets k v).
Proof.
  induction k as [|k IH]; intros v; [constructor|]. cbn. apply Forall_app. split; [apply IH|].
  constructor; [|constructor]. apply Z.mod_pos_bound. lia.
Qed.

Lemma shift_in_add d b : 0 <= b < 128 -> shift_in d b = u32 (128 * d + b).
Proof.
  intros Hb. unfold shift_in. f_equal. rewrite Z.lor_comm, Z.shiftl_mul_pow2 by lia.
  rewrite lor_add by (cbn; lia). cbn. lia.
Qed.

Lemma septets_value k : forall v, fold_left shift_in (septets k v) 0 = u32 (v mod 128 ^ Z.of_nat k).
Proof.
  induction k as [|k IH]; intros v; [cbn; by rewrite Z.mod_1_r|].
  cbn [septets]. rewrite fold_left_app. cbn [fold_left]. rewrite IH.
  pose proof (Z.mod_pos_bound v 128 ltac:(lia)).
  rewrite shift_in_add by done. rewrite Nat2Z.inj_succ, Z.pow_succ_r by lia.
  rewrite (Z.rem_mul_r v 128) by lia. unfold u32. generalize ((v / 128) mod 128 ^ Z.of_nat k) as x. intros x.
  rewrite <- (Z.add_mod_idemp_l (128 * (x mod 4294967296))) by lia.
  rewrite Z.mul_mod_idemp_r, Z.add_mod_idemp_l by lia. f_equal. lia.
Qed.

Lemma stop_byte_value c : 0 <= c < 128 -> Z.land (128 + c) 0x7f = c.
Proof.
  intros Hc. change 0x7f with (Z.ones 7). rewrite Z.land_ones by lia. change (2 ^ 7) with 128.
  rewrite Z.add_comm, <- (Z.mul_1_l 128) at 1. rewrite Z.mod_add by lia. by apply Z.mod_small.
Qed.

(** The integer that is read from its groups. *)
Lemma int_value k v : 0 <= v < 2 ^ 32 -> v < 128 ^ (Z.of_nat k + 1) ->
  shift_in (fold_left shift_in (septets k (v / 128)) 0) (Z.land (128 + v mod 128) 0x7f) = v.
Proof.
  intros Hv Hk. pose proof (Z.mod_pos_bound v 128 ltac:(lia)).
  rewrite stop_byte_value by done. rewrite shift_in_add by done. rewrite septets_value.
  rewrite Z.pow_add_r in Hk by lia. change (128 ^ 1) with 128 in Hk.
  rewrite (Z.mod_small (v / 128)).
  - pose proof (Z.div_mod v 128 ltac:(lia)). pose proof (Z.div_pos v 128).
    rewrite (u32_small (v / 128)) by lia. rewrite <- H0. apply u32_small. lia.
  - split; [apply Z.div_pos; lia | apply Z.div_lt_upper_bound; lia].
Qed.

Lemma stop_bytes_ok l c buf : Forall (fun b => 0 <= b < 128) l -> 128 <= c ->
  forall n p, (length l < n)%nat -> part buf p (l ++ [c]) -> stop_bytes n buf p = Some (l, Some c).
Proof.
  intros Hl Hc. induction l as [|b l IH]; intros n p Hn Hp; (destruct n as [|n]; [cbn in Hn; lia|]); cbn [stop_bytes].
  - rewrite (byte_part _ _ _ Hp). cbn [mbind option_bind]. destruct (c <? 128) eqn:E; bool_to_prop; [lia | done].
  - apply Forall_cons in Hl as [Hb Hl]. destruct Hp as (pre & post & -> & ->).
    rewrite (byte_part _ _ b) by (by exists pre, (l ++ [c] ++ post); rewrite <- ?app_assoc). cbn [mbind option_bind].
    destruct (b <? 128) eqn:E; bool_to_prop; [|lia]. rewrite IH; [done | done | cbn in Hn; lia |].
    exists (pre ++ [b]), post. rewrite <- !app_assoc. split; [done|]. rewrite length_app. cbn. lia.
Qed.

Lemma le_bytes_app n : forall m v, le_bytes (n + m) v = le_bytes n v ++ le_bytes m (v / 256 ^ Z.of_nat n).
Proof.
  induction n as [|n IH]; intros m v; [cbn; by rewrite Z.div_1_r|].
  cbn [Nat.add le_bytes app]. f_equal. rewrite IH. do 2 f_equal.
  rewrite Nat2Z.inj_succ, Z.pow_succ_r by lia. apply Z.div_div; lia.
Qed.

Lemma low_bytes n v : (n <= 4)%nat -> drop (4 - n) (be_bytes 4 v) = be_bytes n v.
Proof.
  intros Hn. unfold be_bytes. replace 4%nat with (n + (4 - n))%nat at 2 by lia.
  rewrite le_bytes_app, reverse_app. rewrite <- (length_le_bytes (4 - n) (v / 256 ^ Z.of_nat n)) at 1.
  by rewrite <- length_reverse, drop_app_length.
Qed.

(** ** The dictionary *)

Notation fast_env := (nat -> option fast_val).

Definition no_values : fast_env := fun _ => None.
Definition env_set (f : nat) (v : option fast_val) (e : fast_env) : fast_env :=
  fun f' => if decide (f' = f) then v else e f'.

(** How a field is coded. *)
Definition field_coding (f : nat) : fast_encode :=
  match fastStateInit !! f with Some s => s.(fa_encodeType) | None => OP_NONE end.

(** What stands for a field that is not sent. *)
Definition predict (f : nat) (e : fast_env) : option fast_val :=
  match field_coding f, e f with
  | OP_COPY, Some v => Some v
  | OP_INCR, Some (VInt v) => Some (VInt (u32 (v + 1)))
  | _, _ => None
  end.

(** What is remembered of a field that is sent. *)
Definition remember (f : nat) (v : fast_val) (e : fast_env) : fast_env :=
  match field_coding f, v with
  | OP_NONE, _ => e
  | OP_INCR, VStr _ => e
  | OP_COPY, VStr l => env_set f (if Z.of_nat (length l) <=? AB_MAX_STRLEN then Some v else None) e
  | _, VInt _ => env_set f (Some v) e
  end.

(** The field of a member, and the kind of value it takes. *)
Definition op_field (op : fast_op) : option nat :=
  match op with FI32 f _ | FI16 f _ | FI8 f _ | FASCII f _ => Some f | FMemset _ _ => None end.
Definition op_takes (op : fast_op) (v : fast_val) : Prop :=
  match op, v with
  | (FI32 _ _ | FI16 _ _ | FI8 _ _), VInt _ | FASCII _ _, VStr _ => True
  | _, _ => False
  end.

(** What a member becomes in the struct. *)
Definition op_write (op : fast_op) (v : fast_val) : Z * list Z :=
  match op, v with
  | FI32 _ off, VInt v => (off, be_bytes 4 v)
  | FI16 _ off, VInt v => (off, be_bytes 2 v)
  | FI8 _ off, VInt v => (off, be_bytes 1 v)
  | FASCII _ off, VStr l => (off, l)
  | FMemset off n, _ => (off, replicate n 0)
  | (FI32 _ off | FI16 _ off | FI8 _ off | FASCII _ off), _ => (off, [])
  end.

(** [encodes pmap ops vs e bytes e']: under the presence map, the values of the
    members are coded as [bytes], and the dictionary goes from [e] to [e'].
    A memset takes the place of a value too. *)
Inductive encodes (pmap : list Z) : list fast_op -> list fast_val -> fast_env -> list Z -> fast_env -> Prop :=
  | enc_done e : encodes pmap [] [] e [] e
  | enc_sent op ops f v vs e b bs e' :
      op_field op = Some f -> op_takes op v -> ISBITSET pmap 0 (Z.of_nat f) = Some true ->
      fast_bytes v b -> encodes pmap ops vs (remember f v e) bs e' ->
      encodes pmap (op :: ops) (v :: vs) e (b ++ bs) e'
  | enc_same op ops f v vs e bs e' :
      op_field op = Some f -> op_takes op v -> ISBITSET pmap 0 (Z.of_nat f) = Some false ->
      predict f e = Some v -> encodes pmap ops vs (env_set f (Some v) e) bs e' ->
      encodes pmap (op :: ops) (v :: vs) e bs e'
  | enc_memset off n ops v vs e bs e' : encodes pmap ops vs e bs e' ->
      encodes pmap (FMemset off n :: ops) (v :: vs) e bs e'.

(** ** The state is the dictionary *)

Definition entry_repr (s : FAST_STATE) (v : option fast_val) : Prop :=
  match v with
  | None => s.(fa_valid) = false
  | Some (VInt v) => s.(fa_valid) = true /\ fa_uint32 s = v /\ 0 <= v < 2 ^ 32
  | Some (VStr l) => s.(fa_valid) = true /\ s.(fa_size) = Z.of_nat (length l) /\
      take (length l) s.(fa_value) = l
  end.

Record entry_ok (f : nat) (s : FAST_STATE) : Prop := {
  eo_field : s.(fa_field) = f;
  eo_coding : s.(fa_encodeType) = field_coding f;
  eo_value : length s.(fa_value) = 64%nat;
  eo_size : 0 <= s.(fa_size) <= 64
}.

Definition state_shape (state : list FAST_STATE) : Prop :=
  length state = AB_MAX_FIELD /\ forall f s, state !! f = Some s -> entry_ok f s.

Definition state_ok (state : list FAST_STATE) (e : fast_env) : Prop :=
  state_shape state /\ forall f s, state !! f = Some s -> entry_repr s (e f).

Lemma init_state_ok : state_ok fastStateInit no_values.
Proof.
  split; [split; [done|]|]; intros f s Hs; (assert (Hf : (f < 14)%nat) by (by apply lookup_lt_Some in Hs));
    do 14 (destruct f as [|f]; [injection Hs as <-; try constructor; done|]); lia.
Qed.

Lemma state_shape_insert state f s : state_shape state -> entry_ok f s -> state_shape (<[f := s]> state).
Proof.
  intros [Hl He] Hs. split; [by rewrite length_insert|]. intros f' s' [(-> & <- & _)|[_ H]]%list_lookup_insert_Some; [done | by apply He].
Qed.

Lemma state_ok_insert state e f s v : state_ok state e -> entry_ok f s -> entry_repr s v ->
  state_ok (<[f := s]> state) (env_set f v e).
Proof.
  intros [Hsh He] Hs Hr. split; [by apply state_shape_insert|].
  intros f' s' [(-> & <- & _)|[Hne H]]%list_lookup_insert_Some; unfold env_set.
  - by rewrite decide_True.
  - rewrite decide_False by done. by apply He.
Qed.

(** Saving a value. *)
Lemma save_entry_ok f s size value : entry_ok f s -> (length value <= 64)%nat -> 0 <= size <= 64 ->
  entry_ok f (save_fa size value s).
Proof.
  intros [H1 H2 H3 H4] Hv Hs. constructor; cbn; try done. rewrite length_app, length_drop. lia.
Qed.

Lemma save_int_repr s v : 0 <= v < 2 ^ 32 -> entry_repr (save_fa 4 (le_bytes 4 v) s) (Some (VInt v)).
Proof.
  intros Hv. split; [done|]. split; [|done]. unfold fa_uint32, save_fa. cbn [fa_value].
  rewrite <- (length_le_bytes 4 v) at 1. rewrite take_app_length.
  rewrite le_val_le_bytes. by apply Z.mod_small.
Qed.

Lemma save_str_repr s l : entry_repr (save_fa (Z.of_nat (length l)) l s) (Some (VStr l)).
Proof. split; [done|]. split; [done|]. cbn. apply take_app_length. Qed.

(** ** Fields *)

Section fields.
Context (stack_data : Z).

(** What a field's decoder must do: give the bytes of the member, consume its
    code, and keep the state the dictionary's. *)
Definition field_post (f : nat) (bytes : list Z) (consumed : nat) (state : list FAST_STATE) (e' : fast_env)
    (r : option field_result) : Prop :=
  exists s', r = Some (AB_OK, Z.of_nat consumed, Some bytes, s') /\ state_ok (<[f := s']> state) e'.

Lemma coded_bytes_length v b : fast_bytes v b -> (0 < length b)%nat.
Proof. intros []; rewrite length_app; cbn; lia. Qed.

Lemma DecodeI32_sent state e f s v b buf p len pmap : state_ok state e -> state !! f = Some s ->
  ISBITSET pmap 0 (Z.of_nat f) = Some true -> fast_bytes (VInt v) b -> part buf p b ->
  Z.of_nat (length b) <= len ->
  field_post f (be_bytes 4 v) (length b) state (remember f (VInt v) e) (DecodeI32 buf p len s pmap).
Proof.
  intros Hst Hs Hbit Hb Hp Hl. destruct (proj2 (proj1 Hst) f s Hs) as [Ef Ec Ev Ez].
  pose proof (Build_entry_ok f s Ef Ec Ev Ez) as Hok.
  inversion Hb as [k v' Hv Hk|]; subst. rewrite length_app in *. cbn [length] in *.
  unfold DecodeI32. rewrite Hbit. cbn [mbind option_bind negb].
  pose proof (Z.mod_pos_bound v 128 ltac:(lia)).
  rewrite (stop_bytes_ok (septets k (v / 128)) (128 + v mod 128)) by (apply septets_small || lia || done).
  cbn [mbind option_bind]. cbv zeta. rewrite (int_value k v Hv Hk). rewrite Ec.
  unfold remember. destruct (field_coding (fa_field s)) eqn:Ecod; eexists;
    (split; [do 4 f_equal; lia|]).
  - by rewrite list_insert_id.
  - apply state_ok_insert; [done | apply save_entry_ok; [done | rewrite length_le_bytes; lia | lia] | by apply save_int_repr].
  - apply state_ok_insert; [done | apply save_entry_ok; [done | rewrite length_le_bytes; lia | lia] | by apply save_int_repr].
Qed.

Lemma DecodeI32_same state e f s v buf p len pmap : state_ok state e -> state !! f = Some s ->
  ISBITSET pmap 0 (Z.of_nat f) = Some false -> predict f e = Some (VInt v) ->
  field_post f (be_bytes 4 v) 0 state (env_set f (Some (VInt v)) e) (DecodeI32 buf p len s pmap).
Proof.
  intros Hst Hs Hbit Hpr. destruct (proj2 (proj1 Hst) f s Hs) as [Ef Ec Ev Ez].
  pose proof (Build_entry_ok f s Ef Ec Ev Ez) as Hok. pose proof (proj2 Hst f s Hs) as Hr.
  subst f. unfold DecodeI32. rewrite Hbit. cbn [mbind option_bind negb]. rewrite Ec.
  unfold predict in Hpr. destruct (field_coding (fa_field s)) eqn:Ecod; [done| |].
  - destruct (e (fa_field s)) as [w|]; [|done]. injection Hpr as ->.
    cbn in Hr. pose proof Hr as (-> & Hv & Hb). rewrite Hv.
    eexists. split; [done|]. apply state_ok_insert; [done | done | done].
  - destruct (e (fa_field s)) as [[w|?]|] eqn:Ee; try done. injection Hpr as <-.
    cbn in Hr. destruct Hr as (Hval & Hv & Hb). rewrite Hval. cbv zeta.
    assert (Hu : fa_uint32 (set_fa_uint32 (u32 (w + 1)) s) = u32 (w + 1)).
    { pose proof (u32_range (w + 1)). unfold fa_uint32, set_fa_uint32. cbn [fa_value].
      rewrite <- (length_le_bytes 4 (u32 (w + 1))) at 1. rewrite take_app_length, le_val_le_bytes.
      by apply Z.mod_small. }
    rewrite Hv, Hu. eexists. split; [done|]. pose proof (u32_range (w + 1)).
    apply state_ok_insert; [done | | done].
    constructor; cbn; try done; try congruence. rewrite length_drop. lia.
Qed.

(** The narrower integers are the last bytes of the word. *)
Lemma DecodeIn_post n f v consumed state e buf p len s pmap : (n <= 4)%nat ->
  field_post f (be_bytes 4 v) consumed state e (DecodeI32 buf p len s pmap) ->
  field_post f (be_bytes n v) consumed state e (DecodeIn stack_data n buf p len s pmap).
Proof.
  intros Hn (s' & E & Hs). exists s'. split; [|done]. unfold DecodeIn. rewrite E. cbn [mbind option_bind default from_option id].
  by rewrite low_bytes.
Qed.

Lemma DecodeASCII_sent state e f s l b buf p len pmap : state_ok state e -> state !! f = Some s ->
  ISBITSET pmap 0 (Z.of_nat f) = Some true -> fast_bytes (VStr l) b -> part buf p b ->
  Z.of_nat (length b) <= len ->
  field_post f l (length b) state (remember f (VStr l) e) (DecodeASCII buf p len s pmap).
Proof.
  intros Hst Hs Hbit Hb Hp Hl. destruct (proj2 (proj1 Hst) f s Hs) as [Ef Ec Ev Ez].
  pose proof (Build_entry_ok f s Ef Ec Ev Ez) as Hok.
  inversion Hb as [|l0 c Hl0 Hc]; subst. rewrite length_app in *. cbn [length] in *.
  unfold DecodeASCII. rewrite Hbit. cbn [mbind option_bind negb].
  rewrite (stop_bytes_ok l0 (128 + c)) by (done || lia).
  cbn [mbind option_bind]. cbv zeta. rewrite stop_byte_value by done. rewrite Ec.
  unfold remember. destruct (field_coding (fa_field s)) eqn:Ecod.
  - eexists. split; [do 4 f_equal; rewrite length_app; cbn; lia|]. by rewrite list_insert_id.
  - destruct (_ <=? AB_MAX_STRLEN) eqn:E64; bool_to_prop; unfold AB_MAX_STRLEN in *;
      (eexists; split; [do 4 f_equal; rewrite length_app; cbn; lia|]).
    + apply state_ok_insert; [done | apply save_entry_ok; [done | lia | lia] | apply save_str_repr].
    + apply state_ok_insert; [done | by destruct Hok | done].
  - eexists. split; [do 4 f_equal; rewrite length_app; cbn; lia|]. by rewrite list_insert_id.
Qed.

Lemma DecodeASCII_same state e f s l buf p len pmap : state_ok state e -> state !! f = Some s ->
  ISBITSET pmap 0 (Z.of_nat f) = Some false -> predict f e = Some (VStr l) ->
  field_post f l 0 state (env_set f (Some (VStr l)) e) (DecodeASCII buf p len s pmap).
Proof.
  intros Hst Hs Hbit Hpr. destruct (proj2 (proj1 Hst) f s Hs) as [Ef Ec Ev Ez].
  pose proof (Build_entry_ok f s Ef Ec Ev Ez) as Hok. pose proof (proj2 Hst f s Hs) as Hr.
  subst f. unfold DecodeASCII. rewrite Hbit. cbn [mbind option_bind negb]. rewrite Ec.
  unfold predict in Hpr. destruct (field_coding (fa_field s)) eqn:Ecod; [done| |].
  - destruct (e (fa_field s)) as [w|]; [|done]. injection Hpr as ->.
    cbn in Hr. pose proof Hr as (-> & Hz & Ht). rewrite Hz, Nat2Z.id, Ht.
    eexists. split; [done|]. apply state_ok_insert; done.
  - by destruct (e (fa_field s)) as [[w|?]|].
Qed.

End fields.

(** ** Messages *)

Definition ops_writes (ops : list fast_op) (vs : list fast_val) : list (Z * list Z) :=
  zip_with op_write ops vs.

Lemma encodes_length pmap ops vs e bs e' : encodes pmap ops vs e bs e' -> length vs = length ops.
Proof. induction 1; cbn; congruence. Qed.

Lemma state_lookup state e f : state_ok state e -> (f < AB_MAX_FIELD)%nat -> exists s, state !! f = Some s.
Proof. intros [[Hl _] _] Hf. apply lookup_lt_is_Some_2. by rewrite Hl. Qed.

Section messages.
Context (stack_data : Z).

Definition op_ok (op : fast_op) : Prop :=
  match op_field op with Some f => (f < AB_MAX_FIELD)%nat | None => True end.

Lemma fast_field_sent state e op f v b buf p len pmap : state_ok state e -> op_field op = Some f ->
  (f < AB_MAX_FIELD)%nat -> op_takes op v -> ISBITSET pmap 0 (Z.of_nat f) = Some true ->
  fast_bytes v b -> part buf p b -> Z.of_nat (length b) <= len ->
  exists s', fast_field stack_data op buf p len state pmap =
    Some (AB_OK, Z.of_nat (length b), Some (op_write op v).2, s', f, (op_write op v).1) /\
    state_ok (<[f := s']> state) (remember f v e).
Proof.
  intros Hst Ho Hf Ht Hbit Hb Hp Hl. destruct (state_lookup _ _ _ Hst Hf) as [s Hs].
  destruct op as [g off|g off|g off|g off|]; cbn in Ho; try done; injection Ho as ->;
    destruct v as [v|l]; cbn in Ht; try done; cbn [fast_field op_write fst snd]; rewrite Hs; cbn [mbind option_bind].
  - destruct (DecodeI32_sent state e f s v b buf p len pmap) as (s' & -> & H); [done..|]. by exists s'.
  - destruct (DecodeIn_post stack_data 2 f v (length b) state (remember f (VInt v) e) buf p len s pmap)
      as (s' & -> & H); [lia | by apply DecodeI32_sent |]. by exists s'.
  - destruct (DecodeIn_post stack_data 1 f v (length b) state (remember f (VInt v) e) buf p len s pmap)
      as (s' & -> & H); [lia | by apply DecodeI32_sent |]. by exists s'.
  - destruct (DecodeASCII_sent state e f s l b buf p len pmap) as (s' & -> & H); [done..|]. by exists s'.
Qed.

Lemma fast_field_same state e op f v buf p len pmap : state_ok state e -> op_field op = Some f ->
  (f < AB_MAX_FIELD)%nat -> op_takes op v -> ISBITSET pmap 0 (Z.of_nat f) = Some false ->
  predict f e = Some v ->
  exists s', fast_field stack_data op buf p len state pmap =
    Some (AB_OK, 0, Some (op_write op v).2, s', f, (op_write op v).1) /\
    state_ok (<[f := s']> state) (env_set f (Some v) e).
Proof.
  intros Hst Ho Hf Ht Hbit Hpr. destruct (state_lookup _ _ _ Hst Hf) as [s Hs].
  destruct op as [g off|g off|g off|g off|]; cbn in Ho; try done; injection Ho as ->;
    destruct v as [v|l]; cbn in Ht; try done; cbn [fast_field op_write fst snd]; rewrite Hs; cbn [mbind option_bind].
  - destruct (DecodeI32_same state e f s v buf p len pmap) as (s' & -> & H); [done..|]. by exists s'.
  - destruct (DecodeIn_post stack_data 2 f v 0 state (env_set f (Some (VInt v)) e) buf p len s pmap)
      as (s' & -> & H); [lia | by apply DecodeI32_same |]. by exists s'.
  - destruct (DecodeIn_post stack_data 1 f v 0 state (env_set f (Some (VInt v)) e) buf p len s pmap)
      as (s' & -> & H); [lia | by apply DecodeI32_same |]. by exists s'.
  - destruct (DecodeASCII_same state e f s l buf p len pmap) as (s' & -> & H); [done..|]. by exists s'.
Qed.

(** The decoder inverts the encoding: the code is consumed, and the values are
    written to their places, if these are in the buffer. *)
Lemma decode_ops_ok pmap ops vs e bs e' : encodes pmap ops vs e bs e' -> Forall op_ok ops ->
  forall buf src srcLen iOffset dst dstMsg state, state_ok state e ->
  part buf (src + iOffset) bs -> Z.of_nat (length bs) <= srcLen - iOffset ->
  exists state', decode_ops stack_data ops buf src srcLen iOffset dst dstMsg state pmap =
    (dst' ← write_all dstMsg (ops_writes ops vs) dst;
     Some (AB_OK, iOffset + Z.of_nat (length bs), dst', state')) /\ state_ok state' e'.
Proof.
  induction 1 as [e|op ops f v vs e b bs e' Hf Ht Hbit Hb Henc IH|op ops f v vs e bs e' Hf Ht Hbit Hpr Henc IH|off n ops v vs e bs e' Henc IH];
    intros Hok buf src srcLen iOffset dst dstMsg state Hst Hp Hl; cbn [decode_ops ops_writes zip_with write_all].
  - exists state. split; [by cbn; rewrite Z.add_0_r | done].
  - apply Forall_cons in Hok as [Hok0 Hok]. unfold op_ok in Hok0. rewrite Hf in Hok0.
    rewrite length_app in Hl |- *. destruct Hp as (pre & post & -> & Hpre).
    destruct (fast_field_sent state e op f v b (pre ++ (b ++ bs) ++ post) (src + iOffset) (srcLen - iOffset) pmap)
      as (s' & -> & Hst'); [done.. | | lia |].
    { exists pre, (bs ++ post). by rewrite <- app_assoc. }
    cbn [mbind option_bind]. destruct (op_write op v) as [o w] eqn:Eo. cbn [fst snd].
    set (dst1 := default dst (write_at dst (dstMsg + o) w)).
    destruct (IH Hok (pre ++ (b ++ bs) ++ post) src srcLen (iOffset + Z.of_nat (length b)) dst1 dstMsg
      (<[f := s']> state)) as (state' & E & Hst2); [done | | lia |].
    { exists (pre ++ b), post. rewrite <- !app_assoc. split; [done|]. rewrite length_app. lia. }
    exists state'. split; [|done]. unfold dst1 in E. destruct (write_at dst (dstMsg + o) w) as [dst2|]; [|done].
    cbn [mbind option_bind default from_option id] in *. cbv zeta. change (AB_OK =? AB_OK) with true. cbn iota.
    rewrite E. by replace (iOffset + Z.of_nat (length b + length bs))
      with (iOffset + Z.of_nat (length b) + Z.of_nat (length bs)) by lia.
  - apply Forall_cons in Hok as [Hok0 Hok]. unfold op_ok in Hok0. rewrite Hf in Hok0.
    destruct (fast_field_same state e op f v buf (src + iOffset) (srcLen - iOffset) pmap)
      as (s' & -> & Hst'); [done..|].
    cbn [mbind option_bind]. destruct (op_write op v) as [o w] eqn:Eo. cbn [fst snd].
    destruct (IH Hok buf src srcLen iOffset (default dst (write_at dst (dstMsg + o) w)) dstMsg (<[f := s']> state))
      as (state' & E & Hst2); [done..|].
    exists state'. split; [|done]. destruct (write_at dst (dstMsg + o) w) as [dst2|]; [|done].
    cbn [mbind option_bind default from_option id] in *. cbv zeta. change (AB_OK =? AB_OK) with true. cbn iota.
    by rewrite Z.add_0_r.
  - apply Forall_cons in Hok as [_ Hok]. cbn [fast_field op_write].
    destruct (state_lookup _ _ 0%nat Hst) as [s Hs]; [unfold AB_MAX_FIELD; lia|]. rewrite Hs.
    cbn [mbind option_bind]. rewrite list_insert_id by done.
    destruct (IH Hok buf src srcLen iOffset (default dst (write_at dst (dstMsg + off) (replicate n 0))) dstMsg state)
      as (state' & E & Hst2); [done..|].
    exists state'. split; [|done]. destruct (write_at dst (dstMsg + off) (replicate n 0)) as [dst2|]; [|done].
    cbn [mbind option_bind default from_option id] in *. cbv zeta. change (AB_OK =? AB_OK) with true. cbn iota.
    by rewrite Z.add_0_r.
Qed.

(** The presence map of a message: two bytes. *)
Definition pmap_ok (pmap : list Z) : Prop :=
  exists b0 b1, pmap = [b0; b1] /\ 0 <= b0 < 128 /\ 128 <= b1 < 256 /\
    ISBITSET pmap 0 (Z.of_nat AB_MSG_TYPE) = Some true.

Lemma copyPmap_ok pmap buf p : pmap_ok pmap -> part buf p pmap -> ABFastValidate buf p = Some (AB_OK, 2, pmap).
Proof.
  intros (b0 & b1 & -> & H0 & H1 & Hbit) (pre & post & -> & ->). unfold ABFastValidate, copyPmap.
  rewrite (byte_part _ (Z.of_nat (length pre)) b0) by (exists pre, (b1 :: post); split; reflexivity). cbn [mbind option_bind].
  destruct (b0 <? 128) eqn:E; bool_to_prop; [|lia].
  rewrite (byte_part _ _ b1); [|exists (pre ++ [b0]), post; rewrite <- app_assoc; split; [done | rewrite length_app; cbn; lia]].
  cbn [mbind option_bind]. change (byte_at [b0; b1] (2 - 1)) with (Some b1). cbn [mbind option_bind].
  change (2 <? 1) with false. destruct (b1 <? 128) eqn:E1; bool_to_prop; [lia|]. cbn [orb].
  rewrite Hbit. done.
Qed.

End messages.
