(* ===== verification/ArcaFastSafe.v ===== *)
(** * The FAST decoder: bounds

    Every byte sequence is decoded without reading outside the source, and
    without writing outside the destination when that has room for the
    longest string the source can have. *)
From S2P Require Import Prelude Bytes Mpool ArcaMsg ArcaFast ArcaWire ArcaSafe ArcaFastProps.

Lemma stop_bytes_some n : forall buf p, 0 <= p -> p + Z.of_nat n <= Z.of_nat (length buf) ->
  exists l last, stop_bytes n buf p = Some (l, last) /\ (length l <= n)%nat /\
    (is_Some last -> (length l < n)%nat).
Proof.
  induction n as [|n IH]; intros buf p Hp Hl; cbn [stop_bytes].
  - exists [], None. split; [done|]. split; [cbn; lia|]. by intros [].
  - destruct (byte_at_some buf p) as [b ->]; [lia|]. cbn [mbind option_bind]. destruct (b <? 0x80).
    + destruct (IH buf (p + 1)) as (l & last & -> & H1 & H2); [lia..|]. cbn [mbind option_bind].
      exists (b :: l), last. split; [done|]. cbn. split; [lia|]. intros H. specialize (H2 H). lia.
    + exists [], (Some b). split; [done|]. cbn. split; lia.
Qed.

Lemma ISBITSET_some buf p bit : 0 <= p + bit / 7 < Z.of_nat (length buf) -> is_Some (ISBITSET buf p bit).
Proof. intros H. unfold ISBITSET. destruct (byte_at_some _ _ H) as [b ->]. cbn. eauto. Qed.

Section safe.
Context (stack_data : Z).

(** What a field's decoder promises of any source. *)
Definition field_safe (f : nat) (max len : Z) (r : option field_result) : Prop :=
  exists rc n data s', r = Some (rc, n, data, s') /\ entry_ok f s' /\
    (rc = AB_OK -> 0 <= n <= Z.max 0 len) /\
    match data with Some bytes => Z.of_nat (length bytes) <= max | None => True end.

Lemma pmap_bit_some pmap f : length pmap = 2%nat -> (f < AB_MAX_FIELD)%nat ->
  is_Some (ISBITSET pmap 0 (Z.of_nat f)).
Proof.
  intros Hl Hf. apply ISBITSET_some. rewrite Hl. unfold AB_MAX_FIELD in Hf.
  pose proof (Z.div_pos (Z.of_nat f) 7 ltac:(lia) ltac:(lia)).
  pose proof (Z.div_lt_upper_bound (Z.of_nat f) 7 2 ltac:(lia) ltac:(lia)). lia.
Qed.

Lemma DecodeI32_safe buf p len f s pmap : 0 <= p -> p + Z.max 0 len <= Z.of_nat (length buf) ->
  entry_ok f s -> length pmap = 2%nat -> (f < AB_MAX_FIELD)%nat ->
  field_safe f 4 len (DecodeI32 buf p len s pmap).
Proof.
  intros Hp Hl Hok Hpm Hf. pose proof Hok as [Ef Ec Ev Ez]. unfold DecodeI32. rewrite Ef.
  destruct (pmap_bit_some _ _ Hpm Hf) as [b ->]. cbn [mbind option_bind]. destruct b; cbn [negb].
  - destruct (stop_bytes_some (Z.to_nat len) buf p) as (l & last & -> & H1 & H2); [lia..|].
    cbn [mbind option_bind]. cbv zeta. destruct last as [c|].
    + specialize (H2 ltac:(eauto)). do 4 eexists. split; [reflexivity|]. split; [|split; [lia|]].
      * destruct (fa_encodeType s); [done | |]; apply save_entry_ok; done || (rewrite length_le_bytes; lia) || lia.
      * rewrite length_be_bytes. lia.
    + do 4 eexists. split; [reflexivity|]. split; [done|]. split; [done|]. rewrite length_le_bytes. lia.
  - destruct (fa_valid s).
    + destruct (fa_encodeType s) eqn:E; (do 4 eexists; split; [reflexivity|]).
      * done.
      * split; [done|]. rewrite length_be_bytes. lia.
      * split; [|rewrite length_be_bytes; lia]. constructor; cbn; [done | congruence | | done].
        rewrite length_drop. lia.
    + do 4 eexists. split; [reflexivity|]. done.
Qed.

Lemma DecodeIn_safe n buf p len f s pmap : 0 <= p -> p + Z.max 0 len <= Z.of_nat (length buf) ->
  entry_ok f s -> length pmap = 2%nat -> (f < AB_MAX_FIELD)%nat ->
  field_safe f 4 len (DecodeIn stack_data n buf p len s pmap).
Proof.
  intros Hp Hl Hok Hpm Hf. destruct (DecodeI32_safe buf p len f s pmap) as (rc & m & data & s' & E & H1 & H2 & H3); [done..|].
  unfold DecodeIn. rewrite E. cbn [mbind option_bind]. do 4 eexists. split; [reflexivity|].
  split; [done|]. split; [done|]. rewrite length_drop. destruct data; cbn [default from_option id]; [lia|].
  rewrite length_le_bytes. lia.
Qed.

Lemma DecodeASCII_safe buf p len f s pmap : 0 <= p -> p + Z.max 0 len <= Z.of_nat (length buf) ->
  entry_ok f s -> length pmap = 2%nat -> (f < AB_MAX_FIELD)%nat ->
  field_safe f (64 + Z.max 0 len) len (DecodeASCII buf p len s pmap).
Proof.
  intros Hp Hl Hok Hpm Hf. pose proof Hok as [Ef Ec Ev Ez]. unfold DecodeASCII. rewrite Ef.
  destruct (pmap_bit_some _ _ Hpm Hf) as [b ->]. cbn [mbind option_bind]. destruct b; cbn [negb].
  - destruct (stop_bytes_some (Z.to_nat len) buf p) as (l & last & -> & H1 & H2); [lia..|].
    cbn [mbind option_bind]. cbv zeta. destruct last as [c|].
    + specialize (H2 ltac:(eauto)). do 4 eexists. split; [reflexivity|].
      split; [|rewrite length_app; cbn [length]; split; lia].
      destruct (fa_encodeType s) eqn:E; [done | | done]. unfold AB_MAX_STRLEN.
      destruct (_ <=? 64) eqn:E64; bool_to_prop; [|by constructor; cbn; congruence || lia].
      apply save_entry_ok; [done | lia | lia].
    + do 4 eexists. split; [reflexivity|]. split; [done|]. split; [done | lia].
  - destruct (fa_valid s).
    + destruct (fa_encodeType s) eqn:E; (do 4 eexists; split; [reflexivity|]); [done | | done].
      split; [done|]. split; [lia|]. rewrite length_take. lia.
    + do 4 eexists. split; [reflexivity|]. done.
Qed.

(** Where the members are. *)
Definition op_offset (op : fast_op) : Z :=
  match op with FI32 _ off | FI16 _ off | FI8 _ off | FASCII _ off | FMemset off _ => off end.
Definition op_bounds (op : fast_op) : Prop :=
  0 <= op_offset op <= 35 /\ match op with FMemset _ n => (n <= 16)%nat | _ => True end.

Lemma fast_field_safe op buf p len state pmap : 0 <= p -> p + Z.max 0 len <= Z.of_nat (length buf) ->
  state_shape state -> length pmap = 2%nat -> op_ok op -> op_bounds op ->
  exists rc n data s f, fast_field stack_data op buf p len state pmap = Some (rc, n, data, s, f, op_offset op) /\
    entry_ok f s /\ (rc = AB_OK -> 0 <= n <= Z.max 0 len) /\
    match data with Some bytes => Z.of_nat (length bytes) <= 64 + Z.max 0 len | None => True end.
Proof.
  intros Hp Hl [Hlen He] Hpm Hf Hb. unfold op_ok in Hf.
  destruct op as [f off|f off|f off|f off|off n]; cbn [op_field op_offset fast_field] in *.
  5: { destruct (lookup_lt_is_Some_2 state 0%nat) as [s Hs]; [rewrite Hlen; unfold AB_MAX_FIELD; lia|].
       rewrite Hs. cbn [mbind option_bind]. do 5 eexists. split; [reflexivity|]. split; [by apply He|].
       split; [lia|]. rewrite length_replicate. destruct Hb as [_ Hn]. cbn in Hn. lia. }
  all: destruct (lookup_lt_is_Some_2 state f) as [s Hs]; [by rewrite Hlen|]; rewrite Hs; cbn [mbind option_bind];
    pose proof (He _ _ Hs) as Hok.
  - destruct (DecodeI32_safe buf p len f s pmap) as (rc & m & data & s' & -> & H1 & H2 & H3); [done..|].
    cbn [mbind option_bind]. do 5 eexists. split; [reflexivity|]. split; [exact H1|]. split; [exact H2|]. destruct data; [lia | done].
  - destruct (DecodeIn_safe 2 buf p len f s pmap) as (rc & m & data & s' & -> & H1 & H2 & H3); [done..|].
    cbn [mbind option_bind]. do 5 eexists. split; [reflexivity|]. split; [exact H1|]. split; [exact H2|]. destruct data; [lia | done].
  - destruct (DecodeIn_safe 1 buf p len f s pmap) as (rc & m & data & s' & -> & H1 & H2 & H3); [done..|].
    cbn [mbind option_bind]. do 5 eexists. split; [reflexivity|]. split; [exact H1|]. split; [exact H2|]. destruct data; [lia | done].
  - destruct (DecodeASCII_safe buf p len f s pmap) as (rc & m & data & s' & -> & H1 & H2 & H3); [done..|].
    cbn [mbind option_bind]. do 5 eexists. split; [reflexivity|]. split; [exact H1|]. split; [exact H2 | exact H3].
Qed.

Lemma decode_ops_safe ops : forall buf src srcLen iOffset dst dstMsg state pmap, 0 <= src ->
  0 <= iOffset <= srcLen -> src + srcLen <= Z.of_nat (length buf) ->
  state_shape state -> length pmap = 2%nat -> Forall op_ok ops -> Forall op_bounds ops ->
  0 <= dstMsg -> dstMsg + 100 + srcLen <= Z.of_nat (length dst) ->
  exists rc n dst' state', decode_ops stack_data ops buf src srcLen iOffset dst dstMsg state pmap =
      Some (rc, n, dst', state') /\
    length dst' = length dst /\ state_shape state' /\ iOffset <= n <= srcLen.
Proof.
  induction ops as [|op ops IH]; intros buf src srcLen iOffset dst dstMsg state pmap Hs Hi Hb Hst Hpm Hok Hbd H0 Hd;
    cbn [decode_ops]; [do 4 eexists; split; [reflexivity|]; split; [done|]; split; [done | lia]|].
  apply Forall_cons in Hok as [Hok0 Hok]. apply Forall_cons in Hbd as [Hbd0 Hbd].
  destruct (fast_field_safe op buf (src + iOffset) (srcLen - iOffset) state pmap)
    as (rc & m & data & s & f & -> & He & Hm & Hdata); [lia | lia | done..|].
  cbn [mbind option_bind].
  assert (Hw : exists dst1, match data with Some bytes => write_at dst (dstMsg + op_offset op) bytes | None => Some dst end
    = Some dst1 /\ length dst1 = length dst).
  { destruct data as [bytes|]; [|eauto]. destruct Hbd0 as [Ho _].
    destruct (write_at_some dst (dstMsg + op_offset op) bytes) as [d E]; [lia..|]. exists d. split; [done|].
    by apply write_at_length in E. }
  destruct Hw as (dst1 & -> & Hl1). cbn [mbind option_bind]. cbv zeta.
  pose proof (state_shape_insert _ _ _ Hst He) as Hst1.
  destruct (rc =? AB_OK) eqn:Erc; bool_to_prop.
  - specialize (Hm Erc). destruct (IH buf src srcLen (iOffset + m) dst1 dstMsg (<[f := s]> state) pmap)
      as (rc' & n & dst' & state' & -> & Hl' & Hst' & Hn); [done | lia | done.. | lia |].
    do 4 eexists. split; [reflexivity|]. split; [lia|]. split; [done | lia].
  - do 4 eexists. split; [reflexivity|]. split; [done|]. split; [done | lia].
Qed.

(** Bit maps: the bits of a byte may be in the next one. *)
Lemma bitmap_byte_some j buf p iSize : 0 <= p -> 0 <= iSize -> (j <= 8)%nat ->
  p + (8 * iSize + 7) / 7 < Z.of_nat (length buf) -> is_Some (bitmap_byte j buf p iSize).
Proof.
  intros Hp Hi Hj Hb. induction j as [|j IH]; cbn [bitmap_byte]; [eauto|].
  destruct IH as [d ->]; [lia|]. cbn [mbind option_bind].
  destruct (ISBITSET_some buf p (8 * iSize + Z.of_nat j)) as [b ->].
  - pose proof (Z.div_pos (8 * iSize + Z.of_nat j) 7 ltac:(lia) ltac:(lia)).
    pose proof (Z.div_le_mono (8 * iSize + Z.of_nat j) (8 * iSize + 7) 7 ltac:(lia) ltac:(lia)). lia.
  - cbn. eauto.
Qed.

Lemma bitmap_loop_some fuel : forall buf p len iSize, 0 <= p -> 0 <= iSize ->
  len - iSize <= Z.of_nat fuel -> p + len + len / 7 < Z.of_nat (length buf) ->
  exists l, bitmap_loop fuel buf p len iSize = Some l /\ Z.of_nat (length l) <= Z.max 0 (len - iSize).
Proof.
  induction fuel as [|fuel IH]; intros buf p len iSize Hp Hi Hf Hb; cbn [bitmap_loop];
    (destruct (iSize <? len) eqn:E; bool_to_prop; [|exists []; cbn; split; [done|lia]]); [lia|].
  assert (Hr : p + (8 * iSize + 7) / 7 < Z.of_nat (length buf)).
  { pose proof (Z.div_le_mono (8 * iSize + 7) (len * 7 + len) 7 ltac:(lia) ltac:(lia)).
    rewrite Z.div_add_l in H by lia. lia. }
  pose proof (Z.div_pos (8 * iSize + 7) 7 ltac:(lia) ltac:(lia)).
  destruct (bitmap_byte_some 8 buf p iSize) as [d ->]; [done.. |]. cbn [mbind option_bind].
  destruct (byte_at_some buf (p + (8 * iSize + 7) / 7)) as [b ->]; [lia|]. cbn [mbind option_bind].
  destruct (0x80 <=? b); [exists [d]; cbn; split; [done|lia]|].
  destruct (IH buf p len (iSize + 1)) as (l & -> & Hl); [lia..|]. cbn [mbind option_bind].
  exists (d :: l). cbn [length]. split; [done|lia].
Qed.

Lemma message_ops_ok t ops : message_ops t = Some ops -> Forall op_ok ops /\ Forall op_bounds ops.
Proof.
  unfold message_ops.
  repeat match goal with |- context [if ?b then _ else _] => destruct b end; intros [= <-];
    split; repeat first [apply Forall_nil_2 | apply Forall_cons_2];
    unfold op_ok, op_bounds; cbn; unfold AB_MAX_FIELD; repeat split; lia || done || (apply Nat.ltb_lt; by vm_compute).
Qed.

Lemma ABFastValidate_some buf src : 0 <= src -> src + 2 <= Z.of_nat (length buf) ->
  exists rc n pmap, ABFastValidate buf src = Some (rc, n, pmap) /\ length pmap = 2%nat /\ (rc = AB_OK -> n = 2).
Proof.
  intros H0 H1. unfold ABFastValidate, copyPmap. destruct (byte_at_some buf src) as [b0 ->]; [lia|].
  cbn [mbind option_bind]. destruct (b0 <? 128).
  - destruct (byte_at_some buf (src + 1)) as [b1 ->]; [lia|]. cbn [mbind option_bind].
    change (byte_at [b0; b1] (2 - 1)) with (Some b1). cbn [mbind option_bind]. destruct (_ || _); [eauto 8|].
    destruct (ISBITSET_some [b0; b1] 0 (Z.of_nat AB_MSG_TYPE)) as [b ->]; [by vm_compute|]. cbn [mbind option_bind].
    destruct b; eauto 8.
  - cbn [mbind option_bind]. change (byte_at [0; 0] (1 - 1)) with (Some 0). cbn [mbind option_bind].
    change ((1 <? 1) || (0 <? 128)) with true. cbn iota. do 3 eexists. split; [done|]. by split.
Qed.

Lemma ABFastDecode_safe buf src srcLen msgType dst dstMsg state : state_shape state -> 0 <= src ->
  0 <= srcLen -> src + srcLen + srcLen / 7 < Z.of_nat (length buf) ->
  0 <= dstMsg -> dstMsg + 100 + srcLen <= Z.of_nat (length dst) ->
  exists rc n ty dst' state', ABFastDecode stack_data dst dstMsg buf src srcLen msgType state =
      Some (rc, n, ty, dst', state') /\
    length dst' = length dst /\ state_shape state' /\ (rc = AB_OK -> 2 <= n).
Proof.
  intros Hst H0 Hlen Hb Hd0 Hd. unfold ABFastDecode, AB_MIN_FAST_MSG.
  destruct (srcLen <? 2) eqn:E; bool_to_prop; [by do 5 eexists|].
  pose proof (Z.div_pos srcLen 7 ltac:(lia) ltac:(lia)).
  destruct (ABFastValidate_some buf src) as (rc & n & pmap & -> & Hpm & Hn); [lia..|]. cbn [mbind option_bind].
  destruct (rc =? AB_OK) eqn:Erc; cbn [negb]; bool_to_prop; [|do 5 eexists; split; [reflexivity|]; done].
  specialize (Hn Erc). subst n. cbv zeta.
  destruct (lookup_lt_is_Some_2 state AB_MSG_TYPE) as [s Hs]; [rewrite (proj1 Hst); unfold AB_MAX_FIELD, AB_MSG_TYPE; lia|].
  rewrite Hs. cbn [mbind option_bind].
  destruct (DecodeIn_safe 2 buf (src + 2) (srcLen - 2) AB_MSG_TYPE s pmap)
    as (rc1 & n1 & data & s1 & E1 & Hok1 & Hn1 & _);
    [lia | lia | by apply (proj2 Hst) | done | unfold AB_MAX_FIELD, AB_MSG_TYPE; lia |].
  rewrite E1. cbn [mbind option_bind]. pose proof (state_shape_insert _ _ _ Hst Hok1) as Hst1.
  destruct (rc1 =? AB_OK) eqn:Erc1; cbn [negb]; bool_to_prop; [|do 5 eexists; split; [reflexivity|]; done].
  specialize (Hn1 Erc1).
  set (ty := ntoh16 _). destruct (write_at_some dst (dstMsg + 2) (le_bytes 2 (ntoh16 ty))) as [dst1 Ew];
    [lia | rewrite length_le_bytes; lia |].
  assert (Hw : exists dst1, (if (ADD_ORDER <=? ty) && (ty <=? IMBALANCE)
     then write_at dst (dstMsg + 2) (le_bytes 2 (ntoh16 ty)) else Some dst) = Some dst1 /\ length dst1 = length dst).
  { destruct (_ && _); [|eauto]. exists dst1. split; [done | by apply write_at_length in Ew]. }
  clear Ew dst1. destruct Hw as (dst1 & -> & Hl1). cbn [mbind option_bind].
  destruct (message_ops ty) as [ops|] eqn:Eops.
  - destruct (message_ops_ok _ _ Eops) as [Hops1 Hops2].
    destruct (decode_ops_safe ops buf src srcLen (2 + n1) dst1 dstMsg (<[AB_MSG_TYPE := s1]> state) pmap)
      as (rc2 & n2 & dst' & state' & -> & Hl' & Hst' & Hn2); [lia | lia | lia | done.. | lia |].
    cbn [mbind option_bind]. do 5 eexists. split; [reflexivity|]. split; [lia|]. split; [done|].
    intros ->. change (AB_OK =? AB_OK) with true. cbn iota. lia.
  - unfold DecodeBitmap. destruct (pmap_bit_some pmap AB_BITMAP Hpm) as [b ->]; [unfold AB_MAX_FIELD, AB_BITMAP; lia|].
    cbn [mbind option_bind]. destruct b; cbn [negb].
    + set (len := srcLen - (2 + n1 + n1)).
      destruct (bitmap_loop_some (Z.to_nat len) buf (src + (2 + n1 + n1)) len 0) as (l & -> & Hll); [lia | lia | lia | |].
      { pose proof (Z.div_le_mono len srcLen 7 ltac:(lia) ltac:(unfold len; lia)). unfold len in *. lia. }
      cbn [mbind option_bind]. destruct (len <=? Z.of_nat (length l)) eqn:El; bool_to_prop; cbn [mbind option_bind];
        (destruct (write_at_some dst1 dstMsg l) as [d Ed]; [lia | unfold len in *; lia |]; rewrite Ed; cbn [mbind option_bind];
         apply write_at_length in Ed; do 5 eexists; split; [reflexivity|]; split; [lia|]; split; [done|]); [done|].
      intros _. change (AB_OK =? AB_OK) with true. cbn iota.
      pose proof (Z.div_pos (8 * (Z.of_nat (length l) - 1) + 7) 7).
      destruct l as [|x l]; cbn [length] in *; [change ((8 * (Z.of_nat 0 - 1) + 7) / 7) with (-1); lia|].
      specialize (H1 ltac:(lia) ltac:(lia)). lia.
    + cbn [mbind option_bind]. destruct (write_at_some dst1 dstMsg []) as [d Ed]; [lia | cbn; lia |].
      rewrite Ed. cbn [mbind option_bind]. apply write_at_length in Ed. do 5 eexists. split; [reflexivity|].
      split; [lia|]. split; [done|]. intros _. change (AB_OK =? AB_OK) with true. cbn iota. lia.
Qed.

End safe.
