(* ===== verification/ArcaFastTheorems.v ===== *)
(** * The FAST decoder: the claims *)
From S2P Require Import Prelude Bytes Mpool ArcaMsg ArcaGroup ArcaSeq ArcaFast ArcaParse ArcaWire ArcaPacket ArcaSafe ArcaPacketTheorems ArcaFastProps ArcaFastSafe.

(** ** Orders *)

(** The values of an order message in the order they are coded; the characters
    are strings of one. *)
Definition order_values (vals : body_field -> Z) : list fast_val :=
  [VInt (vals BSymbolIndex); VInt (vals BSourceSeqNum); VInt (vals BSourceTime)] ++
  (let msg_type := vals BMsgType in
   if (msg_type =? ADD_ORDER) || (msg_type =? MODIFY_ORDER) then
     [VInt (vals BOrderId); VInt (vals BVolume); VInt (vals BPriceNumerator); VInt (vals BPriceScaleCode);
      VStr [vals BSide]; VStr [vals BExchangeId]; VStr [vals BSecurityType]; VInt (vals BFirmIndex);
      VInt (vals BSessionId)]
   else if msg_type =? DELETE_ORDER then
     [VInt (vals BOrderId); VStr [vals BSide]; VStr [vals BExchangeId]; VStr [vals BSecurityType];
      VInt (vals BSessionId); VInt (vals BFirmIndex)]
   else
     [VInt (vals BVolume); VInt (vals BTotalImbalance); VInt (vals BMarketImbalance);
      VInt (vals BPriceNumerator); VInt (vals BPriceScaleCode); VStr [vals BAuctionType];
      VStr [vals BExchangeId]; VStr [vals BSecurityType]; VInt (vals BSessionId); VInt (vals BAuctionTime)]).

Lemma be_bytes_1 v : 0 <= v < 256 -> be_bytes 1 v = [v].
Proof. intros Hv. unfold be_bytes. cbn. by rewrite Z.mod_small. Qed.

Lemma fields_from_writes base ws dst dst' fields vals : write_all base ws dst = Some dst' ->
  all_apart (extent <$> ws) = true ->
  Forall (fun '(f, (off, n)) => (off, be_bytes n (vals f)) ∈ ws) fields -> fields_at dst' base fields vals.
Proof.
  intros Hw Ha Hf. eapply Forall_impl; [exact Hf|]. intros [f [off n]] Hin.
  rewrite <- (length_be_bytes n (vals f)) at 1. by eapply read_write_all.
Qed.

Lemma vals_ok_field fields vals f off n : vals_ok fields vals -> (f, (off, n)) ∈ fields ->
  0 <= vals f < 256 ^ Z.of_nat n.
Proof. unfold vals_ok. rewrite Forall_forall. intros H Hin. by apply H in Hin. Qed.

Lemma order_layout_inv t size fields : order_layout t = Some (size, fields) ->
  (t = ADD_ORDER \/ t = MODIFY_ORDER) /\ size = sizeof_Add /\ fields = order_fields ++ add_fields \/
  t = DELETE_ORDER /\ size = sizeof_Delete /\ fields = order_fields ++ delete_fields \/
  t = IMBALANCE /\ size = sizeof_Imbalance /\ fields = order_fields ++ imbalance_fields.
Proof.
  unfold order_layout.
  destruct (t =? ADD_ORDER) eqn:E1; bool_to_prop; [intros [= <- <-]; left; eauto|].
  destruct (t =? MODIFY_ORDER) eqn:E2; bool_to_prop; [intros [= <- <-]; left; eauto|]. cbn [orb].
  destruct (t =? DELETE_ORDER) eqn:E3; bool_to_prop; [intros [= <- <-]; right; left; eauto|].
  destruct (t =? IMBALANCE) eqn:E4; bool_to_prop; [|done]. intros [= <- <-]. right; right; eauto.
Qed.

(** What the decoder writes for an order is the struct. *)
Lemma order_writes vals size fields : order_layout (vals BMsgType) = Some (size, fields) -> vals_ok fields vals ->
  exists ops, message_ops (vals BMsgType) = Some ops /\ Forall op_ok ops /\
    (ADD_ORDER <=? vals BMsgType) && (vals BMsgType <=? IMBALANCE) = true /\
    let ws := (2, be_bytes 2 (vals BMsgType)) :: ops_writes ops (order_values vals) in
    all_apart (extent <$> ws) = true /\
    Forall (fun w => 0 <= w.1 /\ w.1 + Z.of_nat (length w.2) <= size) ws /\
    Forall (fun '(f, (off, n)) => (off, be_bytes n (vals f)) ∈ ws) fields.
Proof.
  intros Hl Hv. unfold order_values.
  apply order_layout_inv in Hl as [([Ht|Ht] & -> & ->)|[(Ht & -> & ->)|(Ht & -> & ->)]];
    rewrite Ht in *; (eexists; split; [reflexivity|]; split; [by repeat constructor|]; split; [reflexivity|]);
    cbn [orb app];
    repeat match goal with
    | |- context [[vals ?f]] =>
        rewrite <- (be_bytes_1 (vals f)) by (eapply (vals_ok_field _ _ f _ 1 Hv); by vm_compute; repeat constructor)
    end.
  all: split; [reflexivity|].
  all: split; [repeat first [apply Forall_nil_2 | apply Forall_cons_2]; split; reflexivity || done|].
  all: unfold ops_writes, ADD_ORDER, MODIFY_ORDER, DELETE_ORDER, IMBALANCE in *; cbn -[be_bytes].
  all: repeat first [apply Forall_nil_2 | apply Forall_cons_2]; rewrite <- ?Ht; repeat (first [apply list_elem_of_here | apply list_elem_of_further]).
Qed.

(** ** Round trip *)

(** What the decoder does with the code of an order: it consumes it, keeps the
    dictionary, and writes the struct, if there is room. *)
Lemma decode_order stack_data vals pmap tb e bs e' state buf src srcLen msgType dst dstMsg size fields ops :
  order_layout (vals BMsgType) = Some (size, fields) -> vals_ok fields vals ->
  message_ops (vals BMsgType) = Some ops -> pmap_ok pmap -> fast_bytes (VInt (vals BMsgType)) tb ->
  encodes pmap ops (order_values vals) e bs e' -> state_ok state e ->
  part buf src (pmap ++ tb ++ bs) -> Z.of_nat (length (pmap ++ tb ++ bs)) <= srcLen ->
  exists state', ABFastDecode stack_data dst dstMsg buf src srcLen msgType state =
      (dst' ← write_all dstMsg ((2, be_bytes 2 (vals BMsgType)) :: ops_writes ops (order_values vals)) dst;
       Some (AB_OK, Z.of_nat (length (pmap ++ tb ++ bs)), vals BMsgType, dst', state')) /\
    state_ok state' e'.
Proof.
  intros Hlay Hv Hops Hpm Htb Henc Hst Hp Hl.
  destruct (order_writes vals size fields Hlay Hv) as (ops' & Hops' & Hok & Hord & _).
  rewrite Hops in Hops'. injection Hops' as <-.
  pose proof Hpm as (b0 & b1 & -> & Hb0 & Hb1 & Hbit). pose proof (coded_bytes_length _ _ Htb) as Htl.
  destruct Hp as (pre & post & -> & ->). rewrite !length_app in Hl |- *. cbn [length] in Hl |- *.
  set (buf := pre ++ ([b0; b1] ++ tb ++ bs) ++ post).
  assert (Hp0 : part buf (Z.of_nat (length pre)) [b0; b1]) by (eexists pre, _; unfold buf; by rewrite <- app_assoc).
  assert (Hp1 : part buf (Z.of_nat (length pre) + 2) tb).
  { exists (pre ++ [b0; b1]), (bs ++ post). unfold buf. rewrite <- !app_assoc. split; [done|]. rewrite length_app. cbn. lia. }
  assert (Hp2 : part buf (Z.of_nat (length pre) + (2 + Z.of_nat (length tb))) bs).
  { exists (pre ++ [b0; b1] ++ tb), post. unfold buf. rewrite <- !app_assoc. split; [done|]. rewrite !length_app. cbn. lia. }
  unfold ABFastDecode. rewrite (proj2 (Z.ltb_ge srcLen AB_MIN_FAST_MSG)) by (unfold AB_MIN_FAST_MSG; lia).
  rewrite (copyPmap_ok [b0; b1]) by done. cbn [mbind option_bind]. change (negb (AB_OK =? AB_OK)) with false. cbn iota. cbv zeta.
  destruct (state_lookup state e AB_MSG_TYPE Hst) as [s Hs]; [unfold AB_MSG_TYPE, AB_MAX_FIELD; lia|].
  rewrite Hs. cbn [mbind option_bind].
  destruct (DecodeIn_post stack_data 2 AB_MSG_TYPE (vals BMsgType) (length tb) state
    (remember AB_MSG_TYPE (VInt (vals BMsgType)) e) buf (Z.of_nat (length pre) + 2) (srcLen - 2) s [b0; b1])
    as (s' & -> & Hst'); [lia | apply DecodeI32_sent; done || lia |].
  cbn [mbind option_bind default from_option id]. change (negb (AB_OK =? AB_OK)) with false. cbn iota.
  assert (Hty : 0 <= vals BMsgType < 65536).
  { apply (vals_ok_field fields vals BMsgType 2 2 Hv). apply order_layout_ok in Hlay as (_ & _ & _ & rest & ->).
    apply elem_of_app. left. by vm_compute; repeat constructor. }
  rewrite (ntoh16_be_bytes (vals BMsgType)) by done. rewrite Hord.
  assert (Hle : le_bytes 2 (ntoh16 (vals BMsgType)) = be_bytes 2 (vals BMsgType)).
  { unfold ntoh16, be_val, be_bytes. rewrite <- (length_le_bytes 2 (vals BMsgType)) at 1.
    rewrite <- length_reverse. apply le_bytes_le_val. apply Forall_reverse, le_bytes_is_byte. }
  rewrite Hle. cbn [write_all].
  destruct (decode_ops_ok stack_data [b0; b1] ops _ _ _ _ Henc Hok buf (Z.of_nat (length pre)) srcLen
    (2 + Z.of_nat (length tb)) (default dst (write_at dst (dstMsg + 2) (be_bytes 2 (vals BMsgType)))) dstMsg
    (<[AB_MSG_TYPE := s']> state)) as (state' & E & Hst2); [exact Hst' | exact Hp2 | lia |].
  exists state'. split; [|done].
  destruct (write_at dst (dstMsg + 2) (be_bytes 2 (vals BMsgType))) as [dst1|]; [|done].
  cbn [mbind option_bind default from_option id] in *. rewrite Hops, E.
  destruct (write_all dstMsg (ops_writes ops (order_values vals)) dst1) as [dst'|]; [|done].
  cbn [mbind option_bind]. change (AB_OK =? AB_OK) with true. cbn iota. do 5 f_equal. lia.
Qed.

(** C17: roundtrip. An order message (of a type of [order_layout]) coded with
    a presence map of two bytes in which the type is present: whatever else
    the map has present, with each member sent in any number of groups or left
    out when the dictionary predicts it, the decoder consumes exactly its code,
    keeps its state equal to the dictionary, and writes a struct from which the
    parser reads every member as it was. A presence map of one byte is not
    covered: the decoder rejects it ([fast_short_pmap_rejected]). *)
Theorem fast_order_roundtrip stack_data vals pmap tb e bs e' state buf src srcLen msgType dst dstMsg size fields
    ops body len :
  order_layout (vals BMsgType) = Some (size, fields) -> vals_ok fields vals ->
  message_ops (vals BMsgType) = Some ops -> pmap_ok pmap -> fast_bytes (VInt (vals BMsgType)) tb ->
  encodes pmap ops (order_values vals) e bs e' -> state_ok state e ->
  part buf src (pmap ++ tb ++ bs) -> Z.of_nat (length (pmap ++ tb ++ bs)) <= srcLen ->
  0 <= dstMsg -> dstMsg + size <= Z.of_nat (length dst) -> size <= len ->
  exists dst' state', ABFastDecode stack_data dst dstMsg buf src srcLen msgType state =
      Some (AB_OK, Z.of_nat (length (pmap ++ tb ++ bs)), vals BMsgType, dst', state') /\
    state_ok state' e' /\
    parse_orders body dst' dstMsg len = Some (size, set_fields fields vals body).
Proof.
  intros Hlay Hv Hops Hpm Htb Henc Hst Hp Hl H0 Hroom Hlen.
  destruct (order_writes vals size fields Hlay Hv) as (ops' & Hops' & _ & _ & Hap & Hin & Hmem).
  rewrite Hops in Hops'. injection Hops' as <-.
  destruct (write_all_some dstMsg size _ dst H0 Hin Hroom) as [dst' Hw].
  destruct (decode_order stack_data vals pmap tb e bs e' state buf src srcLen msgType dst dstMsg size fields ops)
    as (state' & -> & Hst'); [done..|].
  rewrite Hw. exists dst', state'. split; [done|]. split; [done|].
  apply parse_orders_ok; [done | done | | done]. exact (fields_from_writes _ _ _ _ _ _ Hw Hap Hmem).
Qed.

(** ** Bounds *)

Lemma get_body_size_bound t size : get_body_size t = Some size -> 0 <= size <= 44.
Proof.
  unfold get_body_size. intros H.
  assert (Hall : forallb (fun z => (0 <=? z) && (z <=? 44)) body_size = true) by (by vm_compute).
  rewrite forallb_forall in Hall. apply list_elem_of_lookup_2, list_elem_of_In, Hall in H. bool_to_prop. lia.
Qed.

(** Every message that the loop unpacks is of a type in the table of sizes. *)
Fixpoint types_known (stack_data : Z) (fuel : nat) (compacted : list Z) (msg_ptr remaining : Z)
    (hdr : msg_hdr) (uncompacted : list Z) (output : Z) (state : list FAST_STATE) : bool :=
  if (0 <? remaining) && (0 <? hdr.(hd_num_body_entries)) then
    match fuel with
    | O => true
    | S fuel =>
        match ABFastDecode stack_data uncompacted output compacted msg_ptr remaining
                hdr.(hd_msg_type) state with
        | Some (rc, n, t, uncompacted, state) =>
            if negb (rc =? AB_OK) then true
            else
              match get_body_size t with
              | Some size => types_known stack_data fuel compacted (msg_ptr + n) (remaining - n) hdr
                               uncompacted (output + size) state
              | None => false
              end
        | None => true
        end
    end
  else true.

(** C27: termination. The loop that unpacks a packet ends: each pass takes at
    least two bytes, so as many passes as there are bytes are enough. When
    every message it unpacks is of a type in the table of sizes, it returns:
    nothing is read or written out of bounds, whatever else the packet
    contains, if the source buffer has a seventh more than the packet (a bit
    map is read beyond its length) and the destination 23 bytes for each byte
    of it and 100 more. When it meets a message of another type (104 and up),
    that message's size is read past the end of the table ([None]). *)
Theorem fast_unpack_terminates stack_data compacted hdr fuel : forall msg_ptr remaining uncompacted output size state,
  remaining <= Z.of_nat fuel -> state_shape state -> 0 <= msg_ptr -> 0 <= output ->
  (0 < remaining -> msg_ptr + remaining + remaining / 7 < Z.of_nat (length compacted)) ->
  output + 100 + 23 * remaining <= Z.of_nat (length uncompacted) ->
  if types_known stack_data fuel compacted msg_ptr remaining hdr uncompacted output state
  then exists rc n dst', fast_unpack stack_data fuel compacted msg_ptr remaining 0 hdr uncompacted output size state =
         Some (rc, n, dst') /\ length dst' = length uncompacted
  else fast_unpack stack_data fuel compacted msg_ptr remaining 0 hdr uncompacted output size state = None.
Proof.
  induction fuel as [|fuel IH]; intros msg_ptr remaining uncompacted output size state Hf Hst Hp Ho Hsrc Hdst;
    cbn [fast_unpack types_known]; (destruct (_ && _) eqn:E; [|by do 3 eexists]);
    apply andb_true_iff in E as [E _]; bool_to_prop; [lia|].
  destruct (ABFastDecode_safe stack_data compacted msg_ptr remaining hdr.(hd_msg_type) uncompacted output state)
    as (rc & n & t & dst' & state' & Ed & Hl & Hst' & Hn); [done | done | lia | by apply Hsrc | done | lia |].
  rewrite Ed. cbn [mbind option_bind]. destruct (rc =? AB_OK) eqn:Erc; cbn [negb]; bool_to_prop; [|by do 3 eexists].
  specialize (Hn Erc). destruct (get_body_size t) as [sz|] eqn:Esz; [|done].
  cbn [mbind option_bind]. apply get_body_size_bound in Esz as Hsz.
  pose proof (IH (msg_ptr + n) (remaining - n) dst' (output + sz) (size + sz) state') as H.
  destruct (types_known _ _ _ _ _ _ _ _ _); [destruct H as (rc' & n' & dst2 & -> & Hl2) | apply H]; try lia; try done.
  1, 3: intros Hr; specialize (Hsrc ltac:(lia));
    pose proof (Z.div_le_mono (remaining - n) remaining 7 ltac:(lia) ltac:(lia)); lia.
  do 3 eexists. split; [done | lia].
Qed.

(** A presence map of one byte, which the exchange sends when no
    member after the seventh is present, is counted but not copied: the
    decoder takes it for empty and rejects every such message. *)
Theorem fast_short_pmap_rejected stack_data dst dstMsg buf src srcLen msgType state b :
  byte_at buf src = Some b -> 128 <= b -> 2 <= srcLen ->
  ABFastDecode stack_data dst dstMsg buf src srcLen msgType state =
    Some (AB_INVALID_HEADER, srcLen, msgType, dst, state).
Proof.
  intros Hb H128 Hl. unfold ABFastDecode, AB_MIN_FAST_MSG, ABFastValidate, copyPmap.
  rewrite (proj2 (Z.ltb_ge srcLen 2)) by done. rewrite Hb. cbn [mbind option_bind].
  by rewrite (proj2 (Z.ltb_ge b 128)) by done.
Qed.


(** ** Witnesses *)

Definition demo_delete (f : body_field) : Z :=
  match f with BMsgType => DELETE_ORDER | BSourceSeqNum => 42 | BOrderId => 1000 | BSide => 66 | _ => 1 end.
(** The presence map without the sequence number, and the code. *)
Definition demo_pmap : list Z := [0x6f; 0xff].
Definition demo_code : list Z :=
  [0x81; 0x81] ++ [7; 0xe8] ++ [0xc2] ++ [0x81] ++ [0x81] ++ [0x81] ++ [0x81].
(** The sequence number was 41. *)
Definition demo_env : nat -> option fast_val := env_set AB_SEQUENCE (Some (VInt 41)) no_values.
Definition demo_state : list FAST_STATE :=
  <[AB_SEQUENCE := save_fa 4 (le_bytes 4 41) (fast_entry AB_SEQUENCE OP_INCR)]> fastStateInit.

Lemma demo_encodes : exists e',
  encodes demo_pmap (order_ops ++ delete_ops) (order_values demo_delete) demo_env demo_code e'.
Proof.
  eexists. change demo_code with ([0x81] ++ [0x81] ++ [7; 0xe8] ++ [0xc2] ++ [0x81] ++ [0x81] ++ [0x81] ++ [0x81] ++ []).
  eapply enc_sent; [reflexivity | exact I | reflexivity | by apply (fb_int 0 1) |].
  eapply enc_same; [reflexivity | exact I | reflexivity | reflexivity |].
  eapply enc_sent; [reflexivity | exact I | reflexivity | by apply (fb_int 0 1) |].
  eapply enc_sent; [reflexivity | exact I | reflexivity | by apply (fb_int 1 1000) |].
  do 5 (eapply enc_sent; [reflexivity | exact I | reflexivity
    | first [by apply (fb_int 0 1) | by apply (fb_str [] 1) | by apply (fb_str [] 66)] |]).
  apply enc_done.
Qed.

(** C17's witness: a delete whose sequence number is predicted. *)
Lemma fast_order_roundtrip_witness : exists dst' state',
  ABFastDecode 0 (replicate 40 0) 8 (demo_pmap ++ [0xe6] ++ demo_code) 0 12 0 demo_state =
    Some (AB_OK, 12, DELETE_ORDER, dst', state') /\
  parse_orders body_zero dst' 8 24 = Some (24, set_fields (order_fields ++ delete_fields) demo_delete body_zero).
Proof.
  destruct demo_encodes as [e' Henc].
  assert (Hv : vals_ok (order_fields ++ delete_fields) demo_delete)
    by (repeat first [apply Forall_nil_2 | apply Forall_cons_2]; by split).
  assert (Hst : state_ok demo_state demo_env).
  { apply state_ok_insert; [exact init_state_ok | by constructor | by apply (save_int_repr _ 41)]. }
  destruct (fast_order_roundtrip 0 demo_delete demo_pmap [0xe6] demo_env demo_code e' demo_state
    (demo_pmap ++ [0xe6] ++ demo_code) 0 12 0 (replicate 40 0) 8 24 (order_fields ++ delete_fields)
    (order_ops ++ delete_ops) body_zero 24) as (dst' & state' & E & _ & E2);
    [done | done | done | | by apply (fb_int 0 102) | done | done | by apply part_here_end | done | done | done | done |].
  { exists 0x6f, 0xff. split; [done|]. split; [lia|]. split; [lia | reflexivity]. }
  exists dst', state'. split; [exact E | exact E2].
Defined.

(** C27's witness: a delete, which is unpacked, and a message of type 104. *)
Lemma fast_unpack_terminates_witness :
  let hdr := MkHdr 0 5 0 0 ORDERS 0 0 1 0 0 0 0 0 0 [] in
  let delete := replicate 16 0 ++ [0x7f; 0xff; 0xe6; 0x81] ++ demo_code ++ replicate 20 0 in
  let unknown := replicate 16 0 ++ [0x40; 0x80; 0xe8] ++ replicate 20 0 in
  (exists rc n dst', fast_unpack 0 13 delete 16 13 0 hdr (replicate 500 0) 16 16 fastStateInit =
     Some (rc, n, dst') /\ length dst' = 500%nat /\ rc = AB_OK /\ n = 16 + sizeof_Delete) /\
  fast_unpack 0 3 unknown 16 3 0 hdr (replicate 500 0) 16 16 fastStateInit = None.
Proof.
  intros hdr delete unknown. split.
  - assert (H : exists rc n dst', fast_unpack 0 13 delete 16 13 0 hdr (replicate 500 0) 16 16 fastStateInit =
      Some (rc, n, dst') /\ length dst' = length (replicate 500 0)).
    { apply (fast_unpack_terminates 0 delete hdr 13 16 13 (replicate 500 0) 16 16 fastStateInit);
        [lia | apply init_state_ok | lia | lia | by vm_compute | by vm_compute]. }
    destruct H as (rc & n & dst' & E & Hl). exists rc, n, dst'. split; [exact E|]. split; [exact Hl|].
    vm_compute in E. by injection E as <- <- _.
  - apply (fast_unpack_terminates 0 unknown hdr 3 16 3 (replicate 500 0) 16 16 fastStateInit);
      [lia | apply init_state_ok | lia | lia | by vm_compute | by vm_compute].
Defined.

(** The map says that the type is there, and the type is 100. *)
Lemma fast_short_pmap_rejected_witness :
  ABFastDecode 0 [] 0 [0xc0; 0xe4] 0 2 0 fastStateInit = Some (AB_INVALID_HEADER, 2, 0, [], fastStateInit).
Proof. by apply (fast_short_pmap_rejected 0 [] 0 [0xc0; 0xe4] 0 2 0 fastStateInit 0xc0). Defined.
