(* ===== verification/ArcaFastOverflow.v ===== *)
(** * The FAST decoder: an overflow

    A message of three bytes unpacks to one of thirty-two, and the number of
    messages is not limited: a datagram can unpack to more than its buffer. *)
From S2P Require Import Prelude Bytes Mpool ArcaMsg ArcaGroup ArcaSeq ArcaArbiter ArcaFast ArcaParse ArcaWire ArcaPacket ArcaSafe ArcaPacketTheorems ArcaFastProps ArcaFastTheorems.

(** ** An add of which only the type is sent *)

Definition same_add : list Z := [0x40; 0x80; 0xe4].

(** The dictionary knows every member of an add. *)
Definition add_env (e : nat -> option fast_val) (vals : body_field -> Z) : Prop :=
  e AB_STOCK_IDX = Some (VInt (vals BSymbolIndex)) /\ e AB_SEQUENCE = Some (VInt (vals BSourceSeqNum)) /\
  e AB_TIME = Some (VInt (vals BSourceTime)) /\ e AB_ORDER_ID = Some (VInt (vals BOrderId)) /\
  e AB_VOLUME = Some (VInt (vals BVolume)) /\ e AB_PRICE = Some (VInt (vals BPriceNumerator)) /\
  e AB_PRICE_SCALE = Some (VInt (vals BPriceScaleCode)) /\ e AB_BUY_SELL = Some (VStr [vals BSide]) /\
  e AB_EXCH_ID = Some (VStr [vals BExchangeId]) /\ e AB_SECURITY_TYPE = Some (VStr [vals BSecurityType]) /\
  e AB_FIRM_ID = Some (VInt (vals BFirmIndex)) /\ e AB_SESSION_ID = Some (VInt (vals BSessionId)).

Definition next_add (vals : body_field -> Z) (f : body_field) : Z :=
  match f with BSourceSeqNum => u32 (vals BSourceSeqNum + 1) | _ => vals f end.

Lemma next_add_ok vals : vals_ok (order_fields ++ add_fields) vals ->
  vals_ok (order_fields ++ add_fields) (next_add vals).
Proof.
  unfold vals_ok. rewrite !Forall_forall. intros H [f [off n]] Hin. pose proof (H _ Hin) as Hf. cbn in Hf.
  destruct f; try exact Hf. unfold order_fields, add_fields in Hin. cbn [app] in Hin.
  rewrite !elem_of_cons in Hin.
  repeat destruct Hin as [[= -> ->]|Hin]; try (apply u32_range). by apply elem_of_nil in Hin.
Qed.

Lemma same_add_encodes e vals : vals BMsgType = ADD_ORDER -> add_env e vals ->
  exists e', encodes [0x40; 0x80] (order_ops ++ add_ops) (order_values (next_add vals)) e [] e' /\
    add_env e' (next_add vals).
Proof.
  intros Ht (H1 & H2 & H3 & H4 & H5 & H6 & H7 & H8 & H9 & H10 & H11 & H12).
  unfold order_values. change (next_add vals BMsgType) with (vals BMsgType). rewrite Ht.
  eexists. split.
  - do 12 (eapply enc_same; [reflexivity | exact I | reflexivity
      | unfold predict, env_set; cbn;
        rewrite ?H1, ?H2, ?H3, ?H4, ?H5, ?H6, ?H7, ?H8, ?H9, ?H10, ?H11, ?H12; reflexivity |]).
    apply enc_done.
  - unfold add_env, env_set. cbn. repeat split; assumption.
Qed.

Lemma write_all_in base ws : forall dst dst', write_all base ws dst = Some dst' ->
  forall off l, (off, l) ∈ ws -> base + off + Z.of_nat (length l) <= Z.of_nat (length dst).
Proof.
  induction ws as [|[o b] ws IH]; intros dst dst'; cbn [write_all]; [intros _ ? ? []%elem_of_nil|].
  destruct (write_at dst (base + o) b) as [d|] eqn:E; [|done]. cbn [mbind option_bind].
  intros Hw off l [[= -> ->]|Hin]%elem_of_cons.
  - unfold write_at, guard_ub in E. destruct (_ && _) eqn:E2 in E; [|done]. bool_to_prop. lia.
  - rewrite <- (write_at_length _ _ _ _ E). by eapply IH.
Qed.

(** What is written for an add ends at its thirty-first byte. *)
Lemma add_written base vals dst dst' : vals BMsgType = ADD_ORDER -> vals_ok (order_fields ++ add_fields) vals ->
  write_all base ((2, be_bytes 2 (vals BMsgType)) :: ops_writes (order_ops ++ add_ops) (order_values vals)) dst = Some dst' ->
  base + 31 <= Z.of_nat (length dst).
Proof.
  intros Ht Hv Hw. destruct (order_writes vals sizeof_Add (order_fields ++ add_fields))
    as (ops & Hops & _ & _ & _ & _ & Hmem); [by rewrite Ht | done |].
  rewrite Ht in Hops. injection Hops as <-. rewrite Forall_forall in Hmem.
  assert (Hin : (BSessionId, (30, 1%nat)) ∈ order_fields ++ add_fields) by (by vm_compute; repeat constructor).
  apply Hmem in Hin. pose proof (write_all_in _ _ _ _ Hw _ _ Hin) as H. rewrite length_be_bytes in H. lia.
Qed.

Section overflow.
Context (stack_data : Z).

Definition add_pmap_ok : pmap_ok [0x40; 0x80].
Proof. exists 0x40, 0x80. split; [done|]. split; [lia|]. split; [lia | reflexivity]. Qed.

(** Adds that do not fit: the decoder gets to the end of the buffer. *)
Lemma same_adds_overflow hdr k : forall fuel compacted msg_ptr remaining uncompacted output size state e vals,
  (0 < k <= fuel)%nat -> add_env e vals -> vals BMsgType = ADD_ORDER ->
  vals_ok (order_fields ++ add_fields) vals -> state_ok state e ->
  part compacted msg_ptr (concat (replicate k same_add)) -> 3 * Z.of_nat k <= remaining ->
  0 < hdr.(hd_num_body_entries) ->
  Z.of_nat (length uncompacted) < output + 32 * (Z.of_nat k - 1) + 31 ->
  fast_unpack stack_data fuel compacted msg_ptr remaining 0 hdr uncompacted output size state = None.
Proof.
  induction k as [|k IH]; intros fuel compacted msg_ptr remaining uncompacted output size state e vals
    Hk He Ht Hv Hst Hp Hr Hn Hroom; [lia|]. destruct fuel as [|fuel]; [lia|]. cbn [fast_unpack].
  destruct (_ && _) eqn:E; [|apply andb_false_iff in E as [E|E]; bool_to_prop; lia]. clear E.
  destruct (same_add_encodes e vals Ht He) as (e' & Henc & He').
  assert (Ht' : next_add vals BMsgType = ADD_ORDER) by done.
  pose proof (next_add_ok vals Hv) as Hv'.
  destruct Hp as (pre & post & -> & ->). cbn [replicate concat].
  set (buf := pre ++ (same_add ++ concat (replicate k same_add)) ++ post).
  destruct (decode_order stack_data (next_add vals) [0x40; 0x80] [0xe4] e [] e' state buf (Z.of_nat (length pre))
    remaining hdr.(hd_msg_type) uncompacted output sizeof_Add (order_fields ++ add_fields) (order_ops ++ add_ops))
    as (state' & -> & Hst'); [by rewrite Ht' | done | by rewrite Ht' | exact add_pmap_ok
    | rewrite Ht'; apply (fb_int 0 100); done | exact Henc | done | | cbn; lia |].
  { exists pre, (concat (replicate k same_add) ++ post). unfold buf. rewrite <- !app_assoc. split; reflexivity. }
  rewrite Ht'. destruct (write_all output _ uncompacted) as [dst'|] eqn:Ew; [|done].
  cbn [mbind option_bind]. change (negb (AB_OK =? AB_OK)) with false. cbn iota.
  change (get_body_size ADD_ORDER) with (Some 32). cbn [mbind option_bind].
  rewrite <- Ht' in Ew. pose proof (add_written _ _ _ _ Ht' Hv' Ew) as Hfit. apply write_all_length in Ew.
  destruct k as [|k]; [lia|].
  apply (IH _ _ _ _ _ _ _ _ e' (next_add vals)); try done; try lia.
  - exists (pre ++ same_add), post. unfold buf. rewrite <- !app_assoc. split; [done|].
    rewrite !length_app. change (length same_add) with 3%nat. cbn [length]. lia.
  - cbn [length app]. lia.
Qed.

(** An add with every member, each in one byte. *)
Definition first_add (f : body_field) : Z := match f with BMsgType => ADD_ORDER | _ => 1 end.
Definition first_add_code : list Z := [0x7f; 0xff] ++ [0xe4] ++ replicate 12 0x81.

Lemma first_add_encodes : exists e',
  encodes [0x7f; 0xff] (order_ops ++ add_ops) (order_values first_add) no_values (replicate 12 0x81) e' /\
  add_env e' first_add.
Proof.
  eexists. split.
  - do 12 (eapply (enc_sent _ _ _ _ _ _ _ [0x81]); [reflexivity | exact I | reflexivity
      | first [by apply (fb_int 0 1) | by apply (fb_str [] 1)] |]). apply enc_done.
  - unfold add_env. repeat split; reflexivity.
Qed.

(** The body of the packet. *)
Definition overflow_body : list Z := first_add_code ++ concat (replicate 489 same_add).

Lemma overflow_unpack fuel compacted remaining hdr uncompacted :
  (490 <= fuel)%nat -> part compacted 16 overflow_body -> remaining = Z.of_nat (length overflow_body) ->
  0 < hdr.(hd_num_body_entries) -> Z.of_nat (length uncompacted) <= 15000 ->
  fast_unpack stack_data fuel compacted 16 remaining 0 hdr uncompacted 16 16 fastStateInit = None.
Proof.
  intros Hf Hp -> Hn Hroom. destruct fuel as [|fuel]; [lia|].
  assert (Hlen : length overflow_body = (15 + length (concat (replicate 489 same_add)))%nat) by done.
  assert (Hlen2 : length (concat (replicate 489 same_add)) = (489 * 3)%nat) by done.
  rewrite Hlen. cbn [fast_unpack].
  destruct (_ && _) eqn:E; [|apply andb_false_iff in E as [E|E]; bool_to_prop; lia]. clear E.
  destruct first_add_encodes as (e' & Henc & He').
  assert (Hv : vals_ok (order_fields ++ add_fields) first_add)
    by (repeat first [apply Forall_nil_2 | apply Forall_cons_2]; by split).
  destruct Hp as (pre & post & Hc & Hpre).
  destruct (decode_order stack_data first_add [0x7f; 0xff] [0xe4] no_values (replicate 12 0x81) e' fastStateInit
    compacted 16 (Z.of_nat (15 + length (concat (replicate 489 same_add)))) hdr.(hd_msg_type) uncompacted 16 sizeof_Add
    (order_fields ++ add_fields) (order_ops ++ add_ops))
    as (state' & -> & Hst'); [done | done | done | | by apply (fb_int 0 100) | exact Henc | exact init_state_ok | | cbn [length app replicate]; lia |].
  { exists 0x7f, 0xff. split; [done|]. split; [lia|]. split; [lia | reflexivity]. }
  { exists pre, (concat (replicate 489 same_add) ++ post). rewrite Hc. unfold overflow_body.
    rewrite <- !app_assoc. split; [reflexivity | done]. }
  destruct (write_all 16 _ uncompacted) as [dst'|] eqn:Ew; [|done].
  cbn [mbind option_bind]. change (negb (AB_OK =? AB_OK)) with false. cbn iota.
  change (get_body_size (first_add BMsgType)) with (Some 32). cbn [mbind option_bind].
  apply write_all_length in Ew.
  apply (same_adds_overflow hdr 489 _ _ _ _ _ _ _ _ e' first_add); try done; try lia.
  - exists (pre ++ first_add_code), post. rewrite Hc. unfold overflow_body. rewrite <- !app_assoc.
    split; [done|]. rewrite !length_app. change (length first_add_code) with 15%nat. cbn [length replicate]. lia.
Qed.

End overflow.

(** ** The datagram *)

Definition overflow_packet : list Z := packet_header 1496 ORDERS 5 34200000 115 1 255 0 ++ overflow_body.

Section packet.
Context {W : Type} (hooks : arca_hooks W) (stack_body : msg_body) (stack_data : Z).

(** The loop that unpacks a compacted packet never advances its
    count, so the number of messages in the header does not bound it: a
    datagram of 1498 bytes, accepted as the next of its feed, makes the
    decoder write past the end of the 6000 bytes it unpacks to. *)
Theorem arca_fast_overflow (g : feed_group W) pos rcv_time parse :
  g.(fg_cfg).(fast_mode) = 1 -> g.(fg_in_sequence) = true ->
  my_expected (pos =? 1) g = 5 -> other_expected (pos =? 1) g <= 5 ->
  Z.of_nat (length (pick pos g.(fg_fast_buffers))) = PACKET_MAX ->
  Z.of_nat (length (pick pos g.(fg_buffers))) = 4 * PACKET_MAX ->
  Z.of_nat (length overflow_packet) <= PACKET_MAX /\
  get_packet hooks stack_body stack_data parse (Some overflow_packet) rcv_time pos g = None.
Proof.
  intros Hfast Hin Hmy Hother Hlf Hlb. unfold PACKET_MAX in *.
  assert (Hlen : length overflow_packet = 1498%nat) by (by vm_compute).
  rewrite Hlen. split; [lia|]. unfold get_packet. rewrite Hfast. change (1 =? 1) with true. cbn iota.
  rewrite write_at_start by lia. cbn [mbind option_bind]. cbv zeta.
  set (buf := received_into overflow_packet (pick pos g.(fg_fast_buffers))).
  assert (Hbuf : buf = packet_header 1496 ORDERS 5 34200000 115 1 255 0 ++
    overflow_body ++ drop (length overflow_packet) (pick pos g.(fg_fast_buffers)))
    by (unfold buf, received_into; unfold overflow_packet at 1; by rewrite <- app_assoc).
  destruct (header_fields _ _ _ _ _ _ _ _ _ _ Hbuf) as (R0 & R2 & R4 & R8 & B12 & B13 & B14).
  rewrite Hlen. change (Z.of_nat 1498 <? ARCAM_MSG_HDR_SIZE) with false. cbn iota.
  unfold MSG_TYPE_OFFSET. unfold big_endian at 1. rewrite R2. cbn [mbind option_bind]. rewrite be_val_be_bytes by done.
  change (ORDERS =? 2) with false. cbn iota.
  unfold process_packet. cbv zeta. cbn [hd_msg_type].
  change (fg_cfg (set_buffers _ _ g)) with (fg_cfg g). change (fg_fast_buffers (set_buffers ?a ?b g)) with a.
  rewrite Hfast. change (1 =? 1) with true. cbn iota. rewrite pick_put. fold buf.
  unfold NUMBER_BODIES_OFFSET, MSG_NUM_OFFSET. rewrite B14. cbn [mbind option_bind].
  unfold big_endian at 1. rewrite R4. cbn [mbind option_bind]. rewrite be_val_be_bytes by done.
  change (negb (ORDERS =? 1)) with true. cbn iota.
  set (g0 := count_arca _ 255 _).
  assert (Hg0 : fg_in_sequence g0 = true /\ my_expected (pos =? 1) g0 = 5 /\ other_expected (pos =? 1) g0 <= 5).
  { split; [exact Hin|]. split;
      [rewrite <- Hmy | eapply Z.le_trans; [|exact Hother]; apply Z.eq_le_incl]; reflexivity. }
  destruct Hg0 as (Hin0 & Hmy0 & Ho0). unfold need_2_publish. cbv zeta. rewrite Hmy0.
  change (5 =? 0) with false. cbn iota. rewrite Hin0. unfold publish_in_sequence. cbv zeta. rewrite Hmy0.
  change (5 =? 5) with true. cbn iota. rewrite (proj2 (Z.ltb_ge 5 _) Ho0). cbn [mbind option_bind].
  change (1 =? 0) with false. cbn iota. set (g1 := set_expected _ _ g0).
  assert (Ec : fg_cfg g1 = fg_cfg g) by reflexivity.
  assert (Ef : fg_fast_buffers g1 = put pos buf (fg_fast_buffers g)) by reflexivity.
  assert (Eb : fg_buffers g1 = fg_buffers g) by reflexivity.
  unfold publish_packet. cbv zeta. rewrite Ec, Hfast, Ef, Eb, pick_put. change (1 =? 1) with true. cbn iota.
  unfold parse_packet_hdr. change (Z.of_nat 1498 <? ARCAM_MSG_HDR_SIZE) with false. cbn iota. rewrite !Z.add_0_l.
  unfold MSG_TYPE_OFFSET, MSG_NUM_OFFSET, SEND_TIME_IN_OFFSET, PRODUCT_ID_IN_OFFSET, RETRANS_FLAG_OFFSET,
    NUMBER_BODIES_OFFSET, big_endian. rewrite R0, R2, R4, R8, B12, B13, B14. cbn [mbind option_bind].
  rewrite !be_val_be_bytes by done. change (negb (ORDERS =? BOOK_REFRESH)) with true. cbn iota. cbn [mbind option_bind].
  assert (Hhd : exists h, read_bytes buf 0 (Z.to_nat ARCAM_MSG_HDR_SIZE) = Some h /\ length h = 16%nat).
  { destruct (read_bytes_is_some buf 0 (Z.to_nat ARCAM_MSG_HDR_SIZE)) as [h E]; [lia | |].
    - unfold buf, received_into. rewrite length_app, Hlen. unfold ARCAM_MSG_HDR_SIZE. lia.
    - exists h. split; [done|]. by apply read_bytes_lookup in E as (_ & _ & E & _). }
  destruct Hhd as (h & -> & Hh). cbn [mbind option_bind]. change (ARCAM_MSG_HDR_SIZE <? 0) with false. cbn iota.
  destruct (write_at (pick pos (fg_buffers g)) 0 h) as [u|] eqn:Eu; [|done]. cbn [mbind option_bind].
  apply write_at_length in Eu. change (Z.of_nat 1498 - ARCAM_MSG_HDR_SIZE) with 1482. unfold ARCAM_MSG_HDR_SIZE.
  rewrite overflow_unpack; [done | lia | | by vm_compute | cbn; lia | lia].
  rewrite Hbuf. eexists (packet_header _ _ _ _ _ _ _ _), _. split; [reflexivity | by vm_compute].
Qed.

End packet.

(** Witness. *)
Lemma arca_fast_overflow_witness :
  get_packet log_hooks body_zero 0 (book_parse_mesg log_hooks body_zero) (Some overflow_packet) 0 0
    (log_group 1 5 5) = None.
Proof.
  apply (arca_fast_overflow log_hooks body_zero 0 (log_group 1 5 5) 0 0); try done; by vm_compute.
Defined.
