(* ===== verification/Config.v ===== *)
(** * The configuration tree
      ([src/common/fh_config.c], [fh_config.h], [fh_cfg_parse.y])

    A C string is the list of its bytes without the NUL.  The tree the parser
    builds is a set of structs in memory with pointers; what the rest of the
    program reads of it, and never changes, is a value. *)
From S2P Require Import Prelude Bytes Mpool.

(** ** Strings *)

Definition c_str (s : string) : list Z :=
  (fun c => Z.of_N (Ascii.N_of_ascii c)) <$> String.list_ascii_of_string s.

(** [s[i]], for [i] up to the length *)
Definition char_at (s : list Z) (i : nat) : Z := default 0 (s !! i).

(** [strchr(s, '.')]: the part before the first period, and the one after. *)
Fixpoint cut_period (s : list Z) : list Z * option (list Z) :=
  match s with
  | [] => ([], None)
  | c :: s =>
      if c =? 46 then ([], Some s)
      else let '(segment, rest) := cut_period s in (c :: segment, rest)
  end.

(** ** Looking up *)

Definition MAX_PROPERTY_LENGTH : Z := 255.

Inductive cfg_node := CfgNode (name : list Z) (children : list cfg_node) (values : list (list Z)).

Definition cfg_name '(CfgNode name _ _) : list Z := name.
Definition cfg_children '(CfgNode _ children _) : list cfg_node := children.
Definition cfg_values '(CfgNode _ _ values) : list (list Z) := values.

(** [_fh_cfg_find_child]: the first child with the name. *)
Fixpoint find_named (children : list cfg_node) (name : list Z) : option cfg_node :=
  match children with
  | [] => None
  | child :: children =>
      if bool_decide (cfg_name child = name) then Some child else find_named children name
  end.
Definition fh_cfg_find_child (node : cfg_node) (name : list Z) : option cfg_node :=
  find_named (cfg_children node) name.

(** The loop over the segments of the path, each copied to a buffer of
    [MAX_PROPERTY_LENGTH] bytes.  The inner [None] is [NULL]. *)
Fixpoint get_node_loop (fuel : nat) (curr : cfg_node) (remains : list Z) : option (option cfg_node) :=
  match cut_period remains with
  | (segment, Some rest) =>
      match fuel with
      | 0%nat => None
      | S fuel =>
          guard_ub (Z.of_nat (length segment) <? MAX_PROPERTY_LENGTH)
            (match fh_cfg_find_child curr segment with
             | None => Some None
             | Some child => get_node_loop fuel child rest
             end)
      end
  | (_, None) => Some (fh_cfg_find_child curr remains)
  end.

Definition fh_cfg_get_node (config : option cfg_node) (path : list Z) : option (option cfg_node) :=
  config ← config; get_node_loop (length path) config path.

Definition fh_cfg_get_string (config : option cfg_node) (path : list Z) : option (option (list Z)) :=
  node ← fh_cfg_get_node config path;
  Some (match node with None => None | Some node => head (cfg_values node) end).

(** The array, with the number of its entries, which the caller reads. *)
Definition fh_cfg_get_array (config : option cfg_node) (path : list Z)
    : option (option (list (list Z))) :=
  node ← fh_cfg_get_node config path;
  Some (match node with None => None | Some node => Some (cfg_values node) end).

(** ** Typed values

    The results are the status and the new value of the caller's variable,
    which was [value]. *)

Definition fh_cfg_set_yesno (config : option cfg_node) (property : list Z) (value : Z) : option (Z * Z) :=
  str ← fh_cfg_get_string config property;
  match str with
  | None => Some (FH_ERR_NOTFOUND, value)
  | Some str =>
      let has i lower upper := (char_at str i =? lower) || (char_at str i =? upper) in
      if has 0%nat 121 89 && has 1%nat 101 69 && has 2%nat 115 83 then Some (FH_OK, 1)
      else if has 0%nat 110 78 && has 1%nat 111 79 then Some (FH_OK, 0)
      else Some (FH_ERROR, value)
  end.

(** [strtoul] of the C library, with base 0: spaces, a sign, a prefix that
    says the base, digits.  The results are the value, [ULONG_MAX] when it
    does not fit, and where reading stopped. *)
Definition is_space (c : Z) : bool := (c =? 32) || ((9 <=? c) && (c <=? 13)).
Fixpoint skip_space (s : list Z) : list Z :=
  match s with c :: s' => if is_space c then skip_space s' else s | [] => [] end.

Definition digit_value (base c : Z) : option Z :=
  let v := if (48 <=? c) && (c <=? 57) then c - 48
           else if (97 <=? c) && (c <=? 122) then c - 87
           else if (65 <=? c) && (c <=? 90) then c - 55
           else 36 in
  if v <? base then Some v else None.

Fixpoint digits_value (base acc : Z) (s : list Z) : Z * list Z :=
  match s with
  | [] => (acc, [])
  | c :: s' =>
      match digit_value base c with
      | Some v => digits_value base (acc * base + v) s'
      | None => (acc, s)
      end
  end.

Definition number_sign (s : list Z) : bool * list Z :=
  match s with
  | c :: s' => if c =? 45 then (true, s') else if c =? 43 then (false, s') else (false, s)
  | [] => (false, s)
  end.

Definition number_base (s : list Z) : Z * list Z :=
  if negb (char_at s 0 =? 48) then (10, s)
  else if ((char_at s 1 =? 120) || (char_at s 1 =? 88)) && bool_decide (is_Some (digit_value 16 (char_at s 2)))
       then (16, drop 2 s) else (8, s).

Definition ULONG_MAX : Z := 2 ^ 64 - 1.

Definition strtoul (s : list Z) : Z * list Z :=
  let '(negative, s1) := number_sign (skip_space s) in
  let '(base, s2) := number_base s1 in
  match digit_value base (char_at s2 0) with
  | None => (0, s)
  | Some _ =>
      let '(v, last) := digits_value base 0 s2 in
      (if ULONG_MAX <? v then ULONG_MAX else if negative then u64 (- v) else v, last)
  end.

(** [fh_cfg_set_uint32], [fh_cfg_set_uint16] and [fh_cfg_set_int], which
    differ in the conversion of the result of [strtoul]. *)
Definition cfg_set_number (conv : Z -> Z) (config : option cfg_node) (property : list Z) (value : Z)
    : option (Z * Z) :=
  str ← fh_cfg_get_string config property;
  match str with
  | None => Some (FH_ERR_NOTFOUND, value)
  | Some str =>
      let '(v, last) := strtoul str in
      let val := conv v in
      if (char_at str 0 =? 0) || negb (char_at last 0 =? 0) then Some (FH_ERROR, value)
      else Some (FH_OK, val)
  end.

Definition fh_cfg_set_uint32 : option cfg_node -> list Z -> Z -> option (Z * Z) := cfg_set_number u32.
Definition fh_cfg_set_uint16 : option cfg_node -> list Z -> Z -> option (Z * Z) := cfg_set_number u16.
Definition fh_cfg_set_int : option cfg_node -> list Z -> Z -> option (Z * Z) := cfg_set_number s32.

(** ** The parser's actions

    The structs in memory; the statics [fh_priv_config], [current] and
    [popcount] of the parser.  Memory never runs out: the program exits. *)

Record pnode := MkPNode {
  pn_name : list Z;
  pn_children : list nat;
  pn_parent : option nat;
  pn_values : list (list Z)
}.

Record cfg_mem := MkCfgMem {
  cm_nodes : gmap nat pnode;
  cm_next : nat;                 (* no node is here or beyond *)
  cm_priv_config : option nat;
  cm_current : option nat;
  cm_popcount : nat
}.

(** When the program starts. *)
Definition cfg_mem_start : cfg_mem := MkCfgMem ∅ 0 None None 1.

Definition set_current c (m : cfg_mem) : cfg_mem :=
  MkCfgMem m.(cm_nodes) m.(cm_next) m.(cm_priv_config) c m.(cm_popcount).
Definition set_popcount n (m : cfg_mem) : cfg_mem :=
  MkCfgMem m.(cm_nodes) m.(cm_next) m.(cm_priv_config) m.(cm_current) n.
Definition put_node i (n : pnode) (m : cfg_mem) : cfg_mem :=
  MkCfgMem (<[i := n]> m.(cm_nodes)) m.(cm_next) m.(cm_priv_config) m.(cm_current) m.(cm_popcount).

(** [malloc] and [memset]. *)
Definition new_node (n : pnode) (m : cfg_mem) : nat * cfg_mem :=
  (m.(cm_next), MkCfgMem (<[m.(cm_next) := n]> m.(cm_nodes)) (S m.(cm_next)) m.(cm_priv_config)
                  m.(cm_current) m.(cm_popcount)).

(** The quotes are removed in place. *)
Definition fh_cfg_dequote_string (s : list Z) : list Z :=
  let s := if char_at s (length s - 1) =? 34 then take (length s - 1) s else s in
  if char_at s 0 =? 34 then tail s else s.

Definition fh_cfg_prop_new (s : list Z) (m : cfg_mem) : option cfg_mem :=
  current ← match m.(cm_current) with Some c => Some c | None => m.(cm_priv_config) end;
  node ← m.(cm_nodes) !! current;
  guard_ub (Z.of_nat (length s) <? MAX_PROPERTY_LENGTH)
    (let '(new, m) := new_node (MkPNode s [] (Some current) []) m in
     let m := put_node current (MkPNode node.(pn_name) (node.(pn_children) ++ [new]) node.(pn_parent)
                                  node.(pn_values)) m in
     Some (set_current (Some new) m)).

(** The loop to the parent of the parent. *)
Fixpoint pop_nodes (n : nat) (m : cfg_mem) : option cfg_mem :=
  match n with
  | 0%nat => Some m
  | S n =>
      current ← m.(cm_current);
      node ← m.(cm_nodes) !! current;
      pop_nodes n (set_current node.(pn_parent) m)
  end.

Definition fh_cfg_prop_prev (m : cfg_mem) : option cfg_mem :=
  m ← pop_nodes m.(cm_popcount) m; Some (set_popcount 1 m).

Definition fh_cfg_val_new (val : list Z) (m : cfg_mem) : option cfg_mem :=
  current ← m.(cm_current);
  node ← m.(cm_nodes) !! current;
  Some (put_node current (MkPNode node.(pn_name) node.(pn_children) node.(pn_parent)
                            (node.(pn_values) ++ [val])) m).

(** ** The grammar

    What the generated parser accepts, as parse trees: an assignment has an
    lvalue, the properties between its periods, and an rvalue.  The scanner
    keeps the quotes of a quoted string. *)
Inductive cfg_rvalue :=
  | RValue (quoted : bool) (text : list Z)
  | RArray (l : list cfg_rvalue)
  | RNested (l : list (list (list Z) * cfg_rvalue)).
Notation cfg_assignment := (list (list Z) * cfg_rvalue)%type.

(** [lvalue]: a node for every property, then a count for every period. *)
Fixpoint run_props (props : list (list Z)) (m : cfg_mem) : option cfg_mem :=
  match props with [] => Some m | p :: props => m ← fh_cfg_prop_new p m; run_props props m end.
Definition run_lvalue (props : list (list Z)) (m : cfg_mem) : option cfg_mem :=
  m ← run_props props m; Some (set_popcount (m.(cm_popcount) + (length props - 1)) m).

(** The actions of an [rvalue] and of a [multiple_assignment], in the order a
    bottom-up parser runs them. *)
Fixpoint run_rvalue (rv : cfg_rvalue) (m : cfg_mem) : option cfg_mem :=
  match rv with
  | RValue quoted text => fh_cfg_val_new (if quoted then fh_cfg_dequote_string text else text) m
  | RArray l =>
      (fix run_list (l : list cfg_rvalue) (m : cfg_mem) : option cfg_mem :=
         match l with [] => Some m | rv :: l => m ← run_rvalue rv m; run_list l m end) l m
  | RNested l =>
      (fix run_list (l : list cfg_assignment) (m : cfg_mem) : option cfg_mem :=
         match l with
         | [] => Some m
         | (props, rv) :: l =>
             m ← run_lvalue props m; m ← run_rvalue rv m; m ← fh_cfg_prop_prev m; run_list l m
         end) l m
  end.
Definition run_assignments (l : list cfg_assignment) : cfg_mem -> option cfg_mem := run_rvalue (RNested l).

(** ** Loading *)

(** [fh_cfg_load]: [file] is the parse tree of the file, [None] if it cannot
    be opened; a file that is not in the grammar is not modelled.  The result
    is [NULL] or the root. *)
Definition fh_cfg_load (file : option (list cfg_assignment)) (m : cfg_mem)
    : option (option nat * cfg_mem) :=
  let '(root, m) := new_node (MkPNode [] [] None []) m in
  let m := MkCfgMem m.(cm_nodes) m.(cm_next) (Some root) m.(cm_current) m.(cm_popcount) in
  match file with
  | None => Some (None, m)
  | Some l => m ← run_assignments l m; Some (Some root, m)
  end.

(** The value that the structs from [id] on stand for. *)
Fixpoint read_tree (fuel : nat) (nodes : gmap nat pnode) (id : nat) : option cfg_node :=
  match fuel with
  | 0%nat => None
  | S fuel =>
      node ← nodes !! id;
      children ← mapM (read_tree fuel nodes) node.(pn_children);
      Some (CfgNode node.(pn_name) children node.(pn_values))
  end.
Definition cfg_tree (m : cfg_mem) (id : nat) : option cfg_node := read_tree m.(cm_next) m.(cm_nodes) id.

(** [fh_cfg_free] *)
Fixpoint fh_cfg_free (fuel : nat) (id : nat) (nodes : gmap nat pnode) : option (gmap nat pnode) :=
  match fuel with
  | 0%nat => None
  | S fuel =>
      node ← nodes !! id;
      nodes ← (fix free_children (children : list nat) (nodes : gmap nat pnode) :=
                 match children with
                 | [] => Some nodes
                 | c :: children => nodes ← fh_cfg_free fuel c nodes; free_children children nodes
                 end) node.(pn_children) nodes;
      Some (delete id nodes)
  end.
