(* ===== verification/ConfigLoad.v ===== *)
(** * Loading a configuration: lemmas

    The structs that the parser's actions build are laid out in memory in the
    order of the text: a node, then its children, one after the other. *)
From S2P Require Import Prelude Bytes Mpool Config.

(** ** Induction *)

Section ind.
Context (P : cfg_node -> Prop).
Context (Hnode : forall name cs vs, Forall P cs -> P (CfgNode name cs vs)).
Fixpoint cfg_node_ind' (t : cfg_node) : P t :=
  match t with
  | CfgNode name cs vs =>
      Hnode name cs vs ((fix all cs : Forall P cs :=
        match cs with
        | [] => Forall_nil_2 P
        | c :: cs => Forall_cons_2 P c cs (cfg_node_ind' c) (all cs)
        end) cs)
  end.
End ind.

Section rvalue_ind.
Context (P : cfg_rvalue -> Prop).
Context (Hvalue : forall quoted text, P (RValue quoted text)).
Context (Harray : forall l, Forall P l -> P (RArray l)).
Context (Hnested : forall l, Forall (fun a => P a.2) l -> P (RNested l)).
Fixpoint cfg_rvalue_ind' (rv : cfg_rvalue) : P rv :=
  match rv with
  | RValue quoted text => Hvalue quoted text
  | RArray l =>
      Harray l ((fix all l : Forall P l :=
        match l with
        | [] => Forall_nil_2 P
        | rv :: l => Forall_cons_2 P rv l (cfg_rvalue_ind' rv) (all l)
        end) l)
  | RNested l =>
      Hnested l ((fix all l : Forall (fun a => P a.2) l :=
        match l with
        | [] => Forall_nil_2 (fun a => P a.2)
        | a :: l => Forall_cons_2 (fun a => P a.2) a l (cfg_rvalue_ind' a.2) (all l)
        end) l)
  end.
End rvalue_ind.

(** ** What a configuration means *)

Definition value_of (quoted : bool) (text : list Z) : list Z :=
  if quoted then fh_cfg_dequote_string text else text.

(** A node for every property; the last one has the rvalue. *)
Definition path_node (props : list (list Z)) (content : list cfg_node * list (list Z))
    : list cfg_node * list (list Z) :=
  foldr (fun p content => ([CfgNode p content.1 content.2], [])) content props.

(** The children and values of a node, from its rvalue. *)
Fixpoint denote (rv : cfg_rvalue) : list cfg_node * list (list Z) :=
  match rv with
  | RValue quoted text => ([], [value_of quoted text])
  | RArray l =>
      (fix all (l : list cfg_rvalue) :=
         match l with
         | [] => ([], [])
         | rv :: l => ((denote rv).1 ++ (all l).1, (denote rv).2 ++ (all l).2)
         end) l
  | RNested l =>
      (fix all (l : list cfg_assignment) :=
         match l with
         | [] => ([], [])
         | (props, rv) :: l =>
             ((path_node props (denote rv)).1 ++ (all l).1, (path_node props (denote rv)).2 ++ (all l).2)
         end) l
  end.
Definition denote_file (l : list cfg_assignment) : cfg_node := CfgNode [] (denote (RNested l)).1 [].

(** No assignment in it. *)
Fixpoint flat (rv : cfg_rvalue) : bool :=
  match rv with
  | RValue _ _ => true
  | RArray l => forallb flat l
  | RNested l => match l with [] => true | _ => false end
  end.

(** Every lvalue has properties, which fit in a node; one with a period is
    not assigned a block of assignments. *)
Definition short (p : list Z) : bool := Z.of_nat (length p) <? MAX_PROPERTY_LENGTH.
Definition props_ok (props : list (list Z)) : bool :=
  match props with [] => false | _ => forallb short props end.
Fixpoint plain (rv : cfg_rvalue) : bool :=
  match rv with
  | RValue _ _ => true
  | RArray l => forallb plain l
  | RNested l =>
      forallb (fun a => props_ok a.1 && ((length a.1 =? 1)%nat || flat a.2) && plain a.2) l
  end.

(** ** The layout *)

Fixpoint tree_size (t : cfg_node) : nat :=
  match t with CfgNode _ cs _ => S (sum_list_with tree_size cs) end.
Notation forest_size := (sum_list_with tree_size).

Fixpoint starts (lo : nat) (cs : list cfg_node) : list nat :=
  match cs with [] => [] | c :: cs => lo :: starts (lo + tree_size c) cs end.

Section rep.
Context (h : gmap nat pnode).
Fixpoint rep (parent : option nat) (id : nat) (t : cfg_node) {struct t} : Prop :=
  match t with
  | CfgNode name cs vs =>
      h !! id = Some (MkPNode name (starts (S id) cs) parent vs) /\
      (fix reps lo cs := match cs with
                         | [] => True
                         | c :: cs => rep (Some id) lo c /\ reps (lo + tree_size c)%nat cs
                         end) (S id) cs
  end.
Fixpoint reps (parent : option nat) (lo : nat) (cs : list cfg_node) : Prop :=
  match cs with [] => True | c :: cs => rep parent lo c /\ reps parent (lo + tree_size c) cs end.

Lemma rep_node parent id name cs vs : rep parent id (CfgNode name cs vs) <->
  h !! id = Some (MkPNode name (starts (S id) cs) parent vs) /\ reps (Some id) (S id) cs.
Proof.
  cbn [rep]. split; intros [H1 H2]; (split; [exact H1|]); clear H1; revert H2; generalize (S id) as lo;
    (induction cs as [|c cs IH]; intros lo; [done|]; intros [Hc Hr]; split; [exact Hc | by apply IH]).
Qed.

Lemma reps_app parent cs1 cs2 : forall lo,
  reps parent lo (cs1 ++ cs2) <-> reps parent lo cs1 /\ reps parent (lo + forest_size cs1) cs2.
Proof.
  induction cs1 as [|c cs1 IH]; intros lo; cbn [app reps sum_list_with].
  - rewrite Nat.add_0_r. tauto.
  - rewrite IH, Nat.add_assoc. tauto.
Qed.
End rep.

Lemma starts_app cs1 cs2 : forall lo, starts lo (cs1 ++ cs2) = starts lo cs1 ++ starts (lo + forest_size cs1) cs2.
Proof.
  induction cs1 as [|c cs1 IH]; intros lo; cbn [app starts sum_list_with]; [by rewrite Nat.add_0_r|].
  rewrite IH. by rewrite Nat.add_assoc.
Qed.

Lemma forest_size_app cs1 cs2 : forest_size (cs1 ++ cs2) = (forest_size cs1 + forest_size cs2)%nat.
Proof. apply sum_list_with_app. Qed.

Lemma tree_size_pos t : (0 < tree_size t)%nat.
Proof. destruct t. cbn. lia. Qed.

(** A tree needs only its own part of memory. *)
Lemma reps_frame_of h h' parent cs : Forall (fun t => forall parent id,
    (forall i, (id <= i < id + tree_size t)%nat -> h' !! i = h !! i) -> rep h parent id t -> rep h' parent id t) cs ->
  forall lo, (forall i, (lo <= i < lo + forest_size cs)%nat -> h' !! i = h !! i) ->
  reps h parent lo cs -> reps h' parent lo cs.
Proof.
  induction 1 as [|c cs Hc _ IH]; intros lo Hh; [done|]. cbn [reps sum_list_with] in *. intros [H1 H2]. split.
  - apply Hc; [|done]. intros i Hi. apply Hh. lia.
  - apply IH; [|done]. intros i Hi. apply Hh. lia.
Qed.

Lemma rep_frame h h' t : forall parent id,
  (forall i, (id <= i < id + tree_size t)%nat -> h' !! i = h !! i) -> rep h parent id t -> rep h' parent id t.
Proof.
  induction t as [name cs vs IH] using cfg_node_ind'. intros parent id Hh. rewrite !rep_node. intros [H1 H2].
  cbn [tree_size] in Hh. split.
  - rewrite Hh by lia. done.
  - eapply reps_frame_of; [exact IH | | exact H2]. intros i Hi. apply Hh. lia.
Qed.

Lemma reps_frame h h' parent lo cs :
  (forall i, (lo <= i < lo + forest_size cs)%nat -> h' !! i = h !! i) ->
  reps h parent lo cs -> reps h' parent lo cs.
Proof. apply reps_frame_of, Forall_forall. intros t _. apply rep_frame. Qed.

(** ** What an action adds *)

(** The parser is at node [c]. *)
Definition at_node (m : cfg_mem) (c : nat) : Prop :=
  m.(cm_current) = Some c /\ (c < m.(cm_next))%nat /\ is_Some (m.(cm_nodes) !! c).

(** [c] got the children [cs] and the values [vs], and nothing else changed. *)
Record grows (c : nat) (cs : list cfg_node) (vs : list (list Z)) (m m' : cfg_mem) : Prop := {
  gr_next : m'.(cm_next) = (m.(cm_next) + forest_size cs)%nat;
  gr_node : forall node, m.(cm_nodes) !! c = Some node -> m'.(cm_nodes) !! c =
    Some (MkPNode node.(pn_name) (node.(pn_children) ++ starts m.(cm_next) cs) node.(pn_parent)
            (node.(pn_values) ++ vs));
  gr_new : reps m'.(cm_nodes) (Some c) m.(cm_next) cs;
  gr_old : forall i, i <> c -> ~ (m.(cm_next) <= i < m'.(cm_next))%nat -> m'.(cm_nodes) !! i = m.(cm_nodes) !! i;
  gr_current : m'.(cm_current) = Some c;
  gr_priv : m'.(cm_priv_config) = m.(cm_priv_config)
}.

Lemma grows_at c cs vs m m' : grows c cs vs m m' -> at_node m c -> at_node m' c.
Proof.
  intros [Hn Hc _ _ Hcur _] (_ & Hlt & node & E). split; [done|]. split; [lia|].
  rewrite (Hc _ E). eauto.
Qed.

Lemma grows_refl c m : at_node m c -> grows c [] [] m m.
Proof.
  intros (Hc & _ & _). split; cbn; try done. intros node E. rewrite !app_nil_r. by destruct node.
Qed.

Lemma grows_trans c cs1 vs1 cs2 vs2 m m1 m2 : at_node m c -> grows c cs1 vs1 m m1 -> grows c cs2 vs2 m1 m2 ->
  grows c (cs1 ++ cs2) (vs1 ++ vs2) m m2.
Proof.
  intros (_ & Hlt & node & E) [Hn1 Hc1 Hr1 Ho1 _ Hp1] [Hn2 Hc2 Hr2 Ho2 Hcur Hp2]. split.
  - rewrite Hn2, Hn1, forest_size_app. lia.
  - intros node' E'. rewrite E in E'. injection E' as <-. rewrite (Hc2 _ (Hc1 _ E)). cbn.
    by rewrite starts_app, Hn1, <- !app_assoc.
  - apply reps_app. rewrite <- Hn1. split; [|done]. eapply reps_frame; [|exact Hr1].
    intros i Hi. apply Ho2; lia.
  - intros i Hi1 Hi2. rewrite Ho2 by lia. apply Ho1; lia.
  - done.
  - congruence.
Qed.

Lemma val_new_grows c v m : at_node m c ->
  exists m', fh_cfg_val_new v m = Some m' /\ grows c [] [v] m m' /\ m'.(cm_popcount) = m.(cm_popcount).
Proof.
  intros (Hc & Hlt & node & E). unfold fh_cfg_val_new. rewrite Hc. cbn [mbind option_bind]. rewrite E.
  eexists. split; [done|]. split; [|done]. split; cbn; try done.
  - intros node' E'. rewrite E in E'. injection E' as <-. rewrite lookup_insert_eq. by rewrite app_nil_r.
  - intros i Hi _. by rewrite lookup_insert_ne.
Qed.

(** A flat rvalue gives values to the current node. *)
Lemma run_flat rv : flat rv = true -> forall c m, at_node m c ->
  exists m', run_rvalue rv m = Some m' /\ grows c (denote rv).1 (denote rv).2 m m' /\
    m'.(cm_popcount) = m.(cm_popcount).
Proof.
  induction rv as [quoted text | l IH | l _] using cfg_rvalue_ind'; intros Hf c m Hm.
  - by apply val_new_grows.
  - cbn [flat] in Hf. revert m Hm. induction l as [|rv l IHl]; intros m Hm.
    + exists m. split; [done|]. split; [by apply grows_refl | done].
    + apply Forall_cons in IH as [IH0 IH]. cbn [forallb] in Hf. apply andb_true_iff in Hf as [Hf0 Hf].
      destruct (IH0 Hf0 c m Hm) as (m1 & E1 & G1 & P1).
      destruct (IHl IH Hf m1) as (m2 & E2 & G2 & P2); [by eapply grows_at|].
      exists m2. cbn [run_rvalue]. cbn [run_rvalue] in E2. rewrite E1. cbn [mbind option_bind]. rewrite E2.
      split; [done|]. split; [|congruence]. cbn [denote fst snd]. by eapply grows_trans.
  - destruct l; [|done]. exists m. split; [done|]. split; [by apply grows_refl | done].
Qed.

(** ** Assignments *)

Lemma prop_new_at p c m : at_node m c -> short p = true -> exists m',
  fh_cfg_prop_new p m = Some m' /\ at_node m' m.(cm_next) /\ m'.(cm_popcount) = m.(cm_popcount) /\
  forall cs vs m2 m3, grows m.(cm_next) cs vs m' m2 -> m3 = set_current (Some c) m2 ->
    (mnode ← m2.(cm_nodes) !! m.(cm_next); Some mnode.(pn_parent)) = Some (Some c) /\
    grows c [CfgNode p cs vs] [] m m3.
Proof.
  intros (Hc & Hlt & node & E) Hp. unfold fh_cfg_prop_new. rewrite Hc. cbn [mbind option_bind]. rewrite E.
  unfold short in Hp. rewrite Hp. cbn [guard_ub new_node]. eexists. split; [done|].
  set (m' := set_current _ _).
  assert (Hk : m'.(cm_nodes) !! m.(cm_next) = Some (MkPNode p [] (Some c) [])).
  { cbn. rewrite lookup_insert_ne by lia. apply lookup_insert_eq. }
  split; [split; [done|]; cbn; split; [lia | cbn in Hk; rewrite Hk; eauto]|]. split; [done|].
  intros cs vs m2 m3 [Hn2 Hc2 Hr2 Ho2 _ Hp2] ->. pose proof (Hc2 _ Hk) as Hk2. cbn in Hk2. split; [by rewrite Hk2|].
  cbn [cm_next m' set_current put_node] in Hn2, Hr2, Hk2. split.
  - cbn. rewrite Hn2. lia.
  - intros node' E'. rewrite E in E'. injection E' as <-. cbn [set_current cm_nodes].
    rewrite Ho2 by (cbn; lia). cbn. rewrite lookup_insert_eq. cbn. by rewrite app_nil_r.
  - cbn [reps]. split; [|done]. apply rep_node. cbn [set_current cm_nodes]. by rewrite Hk2.
  - intros i Hi1 Hi2. cbn [set_current cm_nodes cm_next] in *. rewrite Ho2 by (cbn; lia). cbn.
    by rewrite !lookup_insert_ne by lia.
  - done.
  - exact Hp2.
Qed.

Lemma pop_nodes_S n m : pop_nodes (S n) m = m ← pop_nodes n m; pop_nodes 1 m.
Proof.
  revert m. induction n as [|n IH]; intros m; [done|]. cbn [pop_nodes] in *.
  destruct (cm_current m) as [c|]; [|done]. cbn [mbind option_bind].
  destruct (cm_nodes m !! c) as [node|]; [|done]. cbn [mbind option_bind]. rewrite IH. done.
Qed.

(** The nodes of an lvalue, with what [f] adds to the last one. *)
Lemma chain_grows (f : cfg_mem -> option cfg_mem) q content props : forallb short props = true ->
  forall c m, at_node m c ->
  (forall c m1, at_node m1 c -> m1.(cm_popcount) = m.(cm_popcount) -> exists m2, f m1 = Some m2 /\
     grows c content.1 content.2 m1 m2 /\ m2.(cm_popcount) = q) ->
  exists m2 m3, (m1 ← run_props props m; f m1) = Some m2 /\ pop_nodes (length props) m2 = Some m3 /\
    m2.(cm_popcount) = q /\ m3.(cm_popcount) = q /\
    grows c (path_node props content).1 (path_node props content).2 m m3.
Proof.
  induction props as [|p props IH]; intros Hs c m Hm Hf.
  - destruct (Hf c m Hm) as (m2 & E & G & Hq); [done|]. exists m2, m2. done.
  - cbn [forallb] in Hs. apply andb_true_iff in Hs as [Hp Hs].
    destruct (prop_new_at p c m Hm Hp) as (m' & E & Hm' & Hpop & Hret).
    destruct (IH Hs _ m' Hm') as (m2 & m3 & E2 & E3 & Hq2 & Hq3 & G).
    { intros c1 m1 H1 H2. apply Hf; [done | congruence]. }
    destruct (Hret _ _ _ _ G eq_refl) as [Hpar G3].
    exists m2, (set_current (Some c) m3). cbn [run_props length]. rewrite E. cbn [mbind option_bind].
    split; [exact E2|]. rewrite pop_nodes_S, E3. cbn [mbind option_bind pop_nodes].
    rewrite (gr_current _ _ _ _ _ G). cbn [mbind option_bind].
    destruct (cm_nodes m3 !! cm_next m) as [node|]; [|done]. cbn [mbind option_bind] in *.
    injection Hpar as ->. done.
Qed.

(** One assignment: its lvalue, its rvalue, and back to the node it started
    from, when the rvalue leaves [popcount] at the number of properties. *)
Lemma run_assignment_grows props rv q content c m : props_ok props = true -> at_node m c ->
  m.(cm_popcount) = 1%nat -> q = length props ->
  (forall c m1, at_node m1 c -> m1.(cm_popcount) = length props -> exists m2, run_rvalue rv m1 = Some m2 /\
     grows c content.1 content.2 m1 m2 /\ m2.(cm_popcount) = q) ->
  exists m', (m ← run_lvalue props m; m ← run_rvalue rv m; fh_cfg_prop_prev m) = Some m' /\
    grows c (path_node props content).1 (path_node props content).2 m m' /\ m'.(cm_popcount) = 1%nat.
Proof.
  intros Hp Hm Hpop -> Hrv. assert (Hs : forallb short props = true) by (by destruct props).
  assert (Hl : (0 < length props)%nat) by (destruct props; [done | cbn; lia]).
  destruct (chain_grows (fun m1 => run_rvalue rv (set_popcount (m1.(cm_popcount) + (length props - 1)) m1))
    (length props) content props Hs c m Hm) as (m2 & m3 & E2 & E3 & Hq2 & Hq3 & G).
  { intros c1 m1 H1 H2. destruct (Hrv c1 (set_popcount (m1.(cm_popcount) + (length props - 1)) m1))
      as (m2 & E & G & Hq); [exact H1 | cbn; lia |].
    exists m2. split; [exact E|]. split; [|done]. destruct G. by split. }
  exists (set_popcount 1 m3). unfold run_lvalue.
  destruct (run_props props m) as [m1|]; [|done]. cbn [mbind option_bind] in *. rewrite E2. cbn [mbind option_bind].
  unfold fh_cfg_prop_prev. rewrite Hq2, E3. cbn [mbind option_bind]. split; [done|]. split; [|done].
  destruct G. by split.
Qed.

Lemma run_nested_cons props rv l m : run_rvalue (RNested ((props, rv) :: l)) m =
  m ← (m ← run_lvalue props m; m ← run_rvalue rv m; fh_cfg_prop_prev m); run_rvalue (RNested l) m.
Proof.
  cbn [run_rvalue]. destruct (run_lvalue props m) as [m1|]; [|done]. cbn [mbind option_bind].
  destruct (run_rvalue rv m1) as [m2|]; [|done]. cbn [mbind option_bind]. done.
Qed.

(** A plain rvalue gives the current node what it means. *)
Lemma run_plain rv : plain rv = true -> forall c m, at_node m c -> m.(cm_popcount) = 1%nat ->
  exists m', run_rvalue rv m = Some m' /\ grows c (denote rv).1 (denote rv).2 m m' /\ m'.(cm_popcount) = 1%nat.
Proof.
  induction rv as [quoted text | l IH | l IH] using cfg_rvalue_ind'; intros Hf c m Hm Hpop.
  - destruct (val_new_grows c (value_of quoted text) m Hm) as (m' & E & G & P). exists m'.
    split; [exact E|]. split; [exact G | congruence].
  - cbn [plain] in Hf. revert m Hm Hpop. induction l as [|rv l IHl]; intros m Hm Hpop.
    + exists m. split; [done|]. split; [by apply grows_refl | done].
    + apply Forall_cons in IH as [IH0 IH]. cbn [forallb] in Hf. apply andb_true_iff in Hf as [Hf0 Hf].
      destruct (IH0 Hf0 c m Hm Hpop) as (m1 & E1 & G1 & P1).
      destruct (IHl IH Hf m1) as (m2 & E2 & G2 & P2); [by eapply grows_at | done |].
      exists m2. cbn [run_rvalue]. cbn [run_rvalue] in E2. rewrite E1. cbn [mbind option_bind]. rewrite E2.
      split; [done|]. split; [|done]. cbn [denote fst snd]. by eapply grows_trans.
  - cbn [plain] in Hf. revert m Hm Hpop. induction l as [|[props rv] l IHl]; intros m Hm Hpop.
    + exists m. split; [done|]. split; [by apply grows_refl | done].
    + apply Forall_cons in IH as [IH0 IH]. cbn [forallb fst snd] in Hf, IH0.
      apply andb_true_iff in Hf as [Hf0 Hf]. apply andb_true_iff in Hf0 as [Hf0 Hrv].
      apply andb_true_iff in Hf0 as [Hprops Hor].
      destruct (run_assignment_grows props rv (length props) (denote rv) c m) as (m1 & E1 & G1 & P1); try done.
      { intros c1 m1 H1 H2. apply orb_true_iff in Hor as [H|H].
        - apply Nat.eqb_eq in H. rewrite H in H2 |- *. by apply IH0.
        - destruct (run_flat rv H c1 m1 H1) as (m2 & E & G & P). exists m2. split; [done|]. split; [done | congruence]. }
      destruct (IHl IH Hf m1) as (m2 & E2 & G2 & P2); [by eapply grows_at | done |].
      exists m2. rewrite run_nested_cons, E1. cbn [mbind option_bind]. split; [exact E2|]. split; [|done].
      cbn [denote fst snd]. by eapply grows_trans.
Qed.

(** ** Reading the structs *)

Lemma read_tree_rep h t : forall parent id fuel, rep h parent id t -> (tree_size t <= fuel)%nat ->
  read_tree fuel h id = Some t.
Proof.
  induction t as [name cs vs IH] using cfg_node_ind'. intros parent id fuel. rewrite rep_node. intros [E Hr].
  cbn [tree_size]. intros Hf. destruct fuel as [|fuel]; [lia|]. cbn [read_tree]. rewrite E.
  cbn [mbind option_bind pn_children pn_name pn_values].
  enough (H : mapM (read_tree fuel h) (starts (S id) cs) = Some cs) by (by rewrite H).
  clear E. revert Hr. generalize (S id) as lo. revert Hf.
  induction IH as [|c cs Hc _ IH]; intros Hf lo Hr; [done|]. cbn [starts reps sum_list_with] in *.
  destruct Hr as [Hr0 Hr]. cbn [mapM]. rewrite (Hc _ _ _ Hr0) by lia. cbn [mbind option_bind].
  rewrite IH by (done || lia). done.
Qed.

(** What is freed is the part of memory the tree has. *)
Definition without (lo n : nat) (h h' : gmap nat pnode) : Prop :=
  forall i, h' !! i = if decide (lo <= i < lo + n)%nat then None else h !! i.

Lemma free_rep t : forall h parent id fuel, rep h parent id t -> (tree_size t <= fuel)%nat ->
  exists h', fh_cfg_free fuel id h = Some h' /\ without id (tree_size t) h h'.
Proof.
  induction t as [name cs vs IH] using cfg_node_ind'. intros h parent id fuel. rewrite rep_node. intros [E Hr].
  cbn [tree_size]. intros Hf. destruct fuel as [|fuel]; [lia|]. cbn [fh_cfg_free]. rewrite E.
  cbn [mbind option_bind pn_children].
  enough (H : exists h', (fix free_children children nodes := match children with
      | [] => Some nodes
      | c :: children => nodes ← fh_cfg_free fuel c nodes; free_children children nodes
      end) (starts (S id) cs) h = Some h' /\ without (S id) (forest_size cs) h h').
  { destruct H as (h' & Ef & Hw). rewrite Ef. cbn [mbind option_bind]. eexists. split; [done|]. intros i.
    destruct (decide (i = id)) as [->|Hi].
    - rewrite lookup_delete_eq. by rewrite decide_True by lia.
    - rewrite lookup_delete_ne by done. rewrite Hw. repeat case_decide; (done || lia). }
  clear E. revert Hr. generalize (S id) as lo. revert Hf h.
  induction IH as [|c cs Hc _ IH]; intros Hf h lo Hr.
  - exists h. split; [done|]. intros i. cbn. case_decide; [lia | done].
  - cbn [starts reps sum_list_with] in *. destruct Hr as [Hr0 Hr].
    destruct (Hc h _ _ fuel Hr0) as (h1 & E1 & W1); [lia|]. rewrite E1. cbn [mbind option_bind].
    destruct (IH ltac:(lia) h1 (lo + tree_size c)%nat) as (h2 & E2 & W2).
    { eapply reps_frame; [|exact Hr]. intros i Hi. rewrite W1. case_decide; [lia | done]. }
    exists h2. split; [exact E2|]. intros i. rewrite W2, W1. repeat case_decide; (done || lia).
Qed.
