(* ===== verification/ConfigTheorems.v ===== *)
(** * The configuration: theorems

    Loading a file, looking values up, and the numbers that are read. *)
From S2P Require Import Prelude Bytes Mpool Config ConfigLoad.

(** ** Loading *)

Lemma run_from_start l m root : props_ok (default [] (head l.*1)) = true \/ l = [] ->
  m.(cm_current) = None -> m.(cm_priv_config) = Some root ->
  l <> [] -> run_assignments l m = run_assignments l (set_current (Some root) m).
Proof.
  intros Hp Hc Hr Hl. destruct l as [|[props rv] l]; [done|]. destruct Hp as [Hp|]; [|done].
  cbn in Hp. destruct props as [|p props]; [done|]. unfold run_assignments. rewrite !run_nested_cons.
  unfold run_lvalue. cbn [run_props]. unfold fh_cfg_prop_new. rewrite Hc, Hr. done.
Qed.

(** The parser is at the root of a new configuration. *)
Definition new_config (m : cfg_mem) : cfg_mem :=
  let '(root, m) := new_node (MkPNode [] [] None []) m in
  MkCfgMem m.(cm_nodes) m.(cm_next) (Some root) (Some root) m.(cm_popcount).

Lemma load_start file m : run_assignments file (new_config cfg_mem_start) = Some m ->
  forallb (fun a => props_ok a.1) file = true ->
  exists m', fh_cfg_load (Some file) cfg_mem_start = Some (Some 0%nat, m') /\
    m'.(cm_nodes) = m.(cm_nodes) /\ m'.(cm_next) = m.(cm_next) /\ m'.(cm_popcount) = m.(cm_popcount) /\
    (file <> [] -> m' = m).
Proof.
  intros E Hp. destruct file as [|[props rv] file].
  - injection E as <-. eexists. split; [reflexivity|]. done.
  - cbn [forallb fst] in Hp. apply andb_true_iff in Hp as [Hp _].
    assert (E' : run_assignments ((props, rv) :: file) (set_current None (new_config cfg_mem_start)) = Some m)
      by (rewrite (run_from_start _ _ 0%nat); [exact E | by left | done..]).
    exists m. split; [|done]. change (fh_cfg_load (Some ((props, rv) :: file)) cfg_mem_start) with
      (m ← run_assignments ((props, rv) :: file) (set_current None (new_config cfg_mem_start)); Some (Some 0%nat, m)).
    by rewrite E'.
Qed.

Lemma new_config_at : at_node (new_config cfg_mem_start) 0.
Proof. split; [done|]. split; [cbn; lia | by eexists]. Qed.

Lemma plain_props file : plain (RNested file) = true -> forallb (fun a => props_ok a.1) file = true.
Proof.
  cbn. rewrite !forallb_forall. intros H a Ha%H. rewrite !andb_true_iff in Ha. tauto.
Qed.

Lemma load_plain file : plain (RNested file) = true -> exists m,
  fh_cfg_load (Some file) cfg_mem_start = Some (Some 0%nat, m) /\
  cfg_tree m 0 = Some (denote_file file) /\
  exists h, fh_cfg_free m.(cm_next) 0 m.(cm_nodes) = Some h /\ h = ∅.
Proof.
  intros Hp. destruct (run_plain _ Hp 0 (new_config cfg_mem_start) new_config_at) as (m & E & G & P); [done|].
  destruct (load_start file m E (plain_props _ Hp)) as (m' & E' & Hn & Hnext & _). exists m'. split; [exact E'|].
  assert (Hrep : rep m'.(cm_nodes) None 0 (denote_file file)).
  { apply rep_node. rewrite Hn. split; [|exact (gr_new _ _ _ _ _ G)].
    rewrite (gr_node _ _ _ _ _ G (MkPNode [] [] None [])) by done. cbn [pn_name pn_children pn_parent pn_values app].
    assert (Hv : (denote (RNested file)).2 = []); [|by rewrite Hv].
    apply plain_props in Hp. clear -Hp. induction file as [|[[|p props] rv] file IH]; [done | done |].
    cbn [forallb] in Hp. apply andb_true_iff in Hp as [_ Hp]. apply IH in Hp. cbn [denote fst snd] in *. done. }
  assert (Hsize : tree_size (denote_file file) = m'.(cm_next)).
  { rewrite Hnext, (gr_next _ _ _ _ _ G). done. }
  split; [apply (read_tree_rep _ _ _ _ _ Hrep); lia|].
  destruct (free_rep _ _ _ _ m'.(cm_next) Hrep) as (h & E2 & Hw); [lia|]. exists h. split; [exact E2|].
  apply map_empty. intros i. rewrite Hw. case_decide as Hi; [done|].
  pose proof (tree_size_pos (denote_file file)). rewrite Hsize, Hnext in *.
  rewrite Hn, (gr_old _ _ _ _ _ G) by lia. cbn. rewrite lookup_insert_ne by lia. apply lookup_empty.
Qed.

(** C19: refinement. The first time a process loads a file ([cfg_mem_start]),
    if every property name fits in a node and no lvalue with a period is
    assigned a block ([plain]), the structs that loading builds stand for the
    tree the file describes, and freeing the configuration frees every one of
    them, each once. Without the conditions it does not hold: a block assigned
    to an lvalue with a period is put in the wrong place ([cfg_dotted_block]),
    and a second load of the process returns an empty tree
    ([cfg_second_load]). *)
Theorem cfg_load_tree file : plain (RNested file) = true -> exists m,
  fh_cfg_load (Some file) cfg_mem_start = Some (Some 0%nat, m) /\
  cfg_tree m 0 = Some (denote_file file) /\
  exists h, fh_cfg_free m.(cm_next) 0 m.(cm_nodes) = Some h /\ h = ∅.
Proof. apply load_plain. Qed.

(** ** Lvalues with periods *)

(** When an lvalue with a period is assigned a block, only the
    first assignment of the block is made in it: the parser then goes back by
    the number of properties of the lvalue, and the others are made one level
    higher, next to the node they belong in. *)
Theorem cfg_dotted_block a b x v rest : short a = true -> short b = true -> short x = true ->
  flat v = true -> plain (RNested rest) = true -> exists m,
  fh_cfg_load (Some [([a; b], RNested (([x], v) :: rest))]) cfg_mem_start = Some (Some 0%nat, m) /\
  cfg_tree m 0 = Some (CfgNode [] [CfgNode a (CfgNode b [CfgNode x (denote v).1 (denote v).2] []
                                              :: (denote (RNested rest)).1) (denote (RNested rest)).2] []).
Proof.
  intros Ha Hb Hx Hv Hrest. set (m0 := new_config cfg_mem_start).
  destruct (prop_new_at a 0 m0 new_config_at Ha) as (m1 & E1 & A1 & P1 & R1).
  destruct (prop_new_at b _ m1 A1 Hb) as (m2 & E2 & A2 & P2 & R2).
  set (m3 := set_popcount 2 m2). assert (A3 : at_node m3 m1.(cm_next)) by exact A2.
  destruct (chain_grows (fun m => run_rvalue v (set_popcount (m.(cm_popcount) + 0) m)) 2 (denote v) [x]
    ltac:(by cbn; rewrite Hx) _ m3 A3) as (m4 & m5 & E4 & E5 & P4 & P5 & G5).
  { intros c m A P. destruct (run_flat v Hv c (set_popcount (m.(cm_popcount) + 0) m)) as (m' & E & G & Q); [exact A|].
    exists m'. split; [exact E|]. split; [destruct G; by split|]. rewrite Q. cbn. by rewrite P. }
  assert (G5' : grows m1.(cm_next) [CfgNode x (denote v).1 (denote v).2] [] m2 m5) by (destruct G5; by split).
  destruct (R2 _ _ _ _ G5' eq_refl) as [Hpar G6]. set (m6 := set_popcount 1 (set_current (Some m0.(cm_next)) m5)).
  assert (G6' : grows m0.(cm_next) [CfgNode b [CfgNode x (denote v).1 (denote v).2] []] [] m1 m6)
    by (destruct G6; by split).
  destruct (run_plain _ Hrest _ m6 (grows_at _ _ _ _ _ G6' A1)) as (m7 & E7 & G7 & P7); [done|].
  pose proof (grows_trans _ _ _ _ _ _ _ _ A1 G6' G7) as G8.
  destruct (R1 _ _ _ _ G8 eq_refl) as [Hpar1 G9]. set (m9 := set_popcount 1 (set_current (Some 0%nat) m7)).
  assert (Eb : fh_cfg_prop_prev m4 = Some m6).
  { unfold fh_cfg_prop_prev. rewrite P4, pop_nodes_S. cbn [length] in E5. rewrite E5. cbn [mbind option_bind pop_nodes].
    rewrite (gr_current _ _ _ _ _ G5). cbn [mbind option_bind].
    destruct (cm_nodes m5 !! cm_next m1); [|done]. cbn [mbind option_bind] in *. by injection Hpar as ->. }
  assert (Ea : fh_cfg_prop_prev m7 = Some m9).
  { unfold fh_cfg_prop_prev. rewrite P7. cbn [pop_nodes]. rewrite (gr_current _ _ _ _ _ G7). cbn [mbind option_bind].
    destruct (cm_nodes m7 !! cm_next m0); [|done]. cbn [mbind option_bind] in *. by injection Hpar1 as ->. }
  assert (E9 : run_assignments [([a; b], RNested (([x], v) :: rest))] m0 = Some m9).
  { unfold run_assignments. rewrite run_nested_cons. unfold run_lvalue. cbn [run_props length]. rewrite E1.
    cbn [mbind option_bind]. rewrite E2. cbn [mbind option_bind]. rewrite P2, P1. cbn [Nat.sub Nat.add].
    change (set_popcount (cm_popcount m0 + 1) m2) with m3. rewrite run_nested_cons. unfold run_lvalue. cbn [length].
    destruct (run_props [x] m3) as [m3'|]; [|done]. cbn [mbind option_bind] in *. cbn [Nat.sub]. rewrite E4.
    cbn [mbind option_bind]. rewrite Eb. cbn [mbind option_bind]. rewrite E7. cbn [mbind option_bind]. rewrite Ea. done. }
  destruct (load_start _ m9 E9 ltac:(by cbn; rewrite Ha, Hb)) as (m & El & Hn & Hnext & _). exists m. split; [exact El|].
  assert (Hrep : rep m.(cm_nodes) None 0 (CfgNode [] [CfgNode a (CfgNode b [CfgNode x (denote v).1 (denote v).2] []
    :: (denote (RNested rest)).1) (denote (RNested rest)).2] [])).
  { apply rep_node. rewrite Hn. split; [|exact (gr_new _ _ _ _ _ G9)].
    exact (gr_node _ _ _ _ _ G9 (MkPNode [] [] None []) eq_refl). }
  apply (read_tree_rep _ _ _ _ _ Hrep). rewrite Hnext. unfold m9. cbn [cm_next set_popcount set_current].
  pose proof (gr_next _ _ _ _ _ G9) as Hs. cbn [cm_next set_current] in Hs. rewrite Hs. cbn. lia.
Qed.

(** ** Looking up *)

Definition no_period (s : list Z) : Prop := Forall (fun c => c <> 46) s.

Lemma cut_period_none s : no_period s -> cut_period s = (s, None).
Proof.
  induction 1 as [|c s Hc _ IH]; [done|]. cbn [cut_period]. by rewrite (eqb_false_of_ne _ _ Hc), IH.
Qed.

Lemma cut_period_some s rest : no_period s -> cut_period (s ++ 46 :: rest) = (s, Some rest).
Proof.
  induction 1 as [|c s Hc _ IH]; [done|]. cbn [app cut_period]. by rewrite (eqb_false_of_ne _ _ Hc), IH.
Qed.

(** A path with its periods. *)
Fixpoint path_str (segs : list (list Z)) : list Z :=
  match segs with [] => [] | [s] => s | s :: segs => s ++ 46 :: path_str segs end.

(** From child to child. *)
Fixpoint walk (t : cfg_node) (segs : list (list Z)) : option cfg_node :=
  match segs with [] => Some t | s :: segs => t ← fh_cfg_find_child t s; walk t segs end.

Lemma get_node_loop_eq fuel curr remains : get_node_loop fuel curr remains =
  match cut_period remains with
  | (segment, Some rest) =>
      match fuel with
      | 0%nat => None
      | S fuel =>
          guard_ub (Z.of_nat (length segment) <? MAX_PROPERTY_LENGTH)
            (match fh_cfg_find_child curr segment with
             | None => Some None
             | Some child => get_node_loop fuel child rest
             end)
      end
  | (_, None) => Some (fh_cfg_find_child curr remains)
  end.
Proof. by destruct fuel. Qed.

Lemma get_node_walk segs : forall s t fuel, Forall no_period (s :: segs) -> forallb short (s :: segs) = true ->
  (length (path_str (s :: segs)) <= fuel)%nat -> get_node_loop fuel t (path_str (s :: segs)) = Some (walk t (s :: segs)).
Proof.
  induction segs as [|s' segs IH]; intros s t fuel Hn Hs Hf; apply Forall_cons in Hn as [Hn0 Hn];
    rewrite get_node_loop_eq.
  - cbn [path_str walk]. rewrite cut_period_none by done. by destruct (fh_cfg_find_child t s).
  - cbn [forallb] in Hs. apply andb_true_iff in Hs as [Hs0 Hs].
    change (path_str (s :: s' :: segs)) with (s ++ 46 :: path_str (s' :: segs)) in *.
    rewrite cut_period_some by done. rewrite length_app in Hf. cbn [length] in Hf. destruct fuel as [|fuel]; [lia|].
    unfold short in Hs0. rewrite Hs0. cbn [guard_ub walk]. destruct (fh_cfg_find_child t s) as [child|]; [|done].
    cbn [mbind option_bind]. apply IH; (done || lia).
Qed.

(** [fh_cfg_get_node] follows a path from child to child. *)
Lemma cfg_get_node_path t s segs : Forall no_period (s :: segs) -> forallb short (s :: segs) = true ->
  fh_cfg_get_node (Some t) (path_str (s :: segs)) = Some (walk t (s :: segs)).
Proof. intros Hn Hs. by apply get_node_walk. Qed.

Lemma find_named_app cs1 cs2 name :
  find_named (cs1 ++ cs2) name = match find_named cs1 name with Some c => Some c | None => find_named cs2 name end.
Proof. induction cs1 as [|c cs1 IH]; [done|]. cbn [app find_named]. by case_bool_decide. Qed.

Lemma denote_app l1 l2 : (denote (RNested (l1 ++ l2))).1 = (denote (RNested l1)).1 ++ (denote (RNested l2)).1.
Proof.
  induction l1 as [|[props rv] l1 IH]; [done|]. cbn [denote app fst] in *. by rewrite IH, app_assoc.
Qed.

Lemma walk_path_node content props : forall t, cfg_children t = (path_node props content).1 ->
  cfg_values t = (path_node props content).2 ->
  exists name, walk t props = Some (CfgNode name content.1 content.2).
Proof.
  induction props as [|p props IH]; intros [name cs vs]; cbn [path_node foldr cfg_children cfg_values].
  - intros -> ->. exists name. done.
  - intros -> ->. cbn [walk]. unfold fh_cfg_find_child. cbn [cfg_children find_named cfg_name fst].
    rewrite bool_decide_true by done. cbn [mbind option_bind]. by apply IH.
Qed.

(** What an assignment sets is found under its path, when no assignment
    before it starts with the same property. *)
Lemma cfg_assigned_found l1 l2 p props rv : Forall (fun a => exists p' ps, a.1 = p' :: ps /\ p' <> p) l1 ->
  Forall no_period (p :: props) -> forallb short (p :: props) = true ->
  exists name, fh_cfg_get_node (Some (denote_file (l1 ++ (p :: props, rv) :: l2))) (path_str (p :: props)) =
    Some (Some (CfgNode name (denote rv).1 (denote rv).2)).
Proof.
  intros Hl Hn Hs. rewrite cfg_get_node_path by done. cbn [walk]. unfold fh_cfg_find_child, denote_file.
  cbn [cfg_children]. rewrite denote_app, find_named_app.
  assert (H1 : find_named (denote (RNested l1)).1 p = None).
  { clear Hs Hn. induction Hl as [|[ps rv'] l1 (p' & ps' & E & Hp) _ IH]; [done|]. cbn in E. subst ps.
    cbn [denote fst path_node foldr app find_named cfg_name] in *. by rewrite bool_decide_false. }
  rewrite H1. cbn [denote fst path_node foldr app find_named cfg_name]. rewrite bool_decide_true by done.
  cbn [mbind option_bind].
  destruct (walk_path_node (denote rv) props (CfgNode p (path_node props (denote rv)).1 (path_node props (denote rv)).2))
    as [name E]; [done..|]. exists name. by rewrite <- E.
Qed.

(** Only the first assignment with some first property counts: after
    [a.b = ...], whatever is assigned to [a.c] is not found. *)
Lemma cfg_dotted_lost a b c rv l : b <> c -> Forall no_period [a; c] -> forallb short [a; c] = true ->
  fh_cfg_get_node (Some (denote_file (([a; b], rv) :: l))) (path_str [a; c]) = Some None.
Proof.
  intros Hbc Hn Hs. rewrite cfg_get_node_path by done. cbn [walk]. unfold fh_cfg_find_child, denote_file.
  cbn [cfg_children denote fst path_node foldr app find_named cfg_name]. rewrite bool_decide_true by done.
  cbn [mbind option_bind cfg_children find_named cfg_name]. by rewrite bool_decide_false.
Qed.

(** A second file that is loaded by the same process is added to the first
    tree, since [current] still points there; its own tree is empty. *)
Lemma cfg_second_load file1 file2 m1 : file1 <> [] -> plain (RNested file1) = true -> plain (RNested file2) = true ->
  fh_cfg_load (Some file1) cfg_mem_start = Some (Some 0%nat, m1) ->
  exists root m2, fh_cfg_load (Some file2) m1 = Some (Some root, m2) /\
    cfg_tree m2 root = Some (CfgNode [] [] []).
Proof.
  intros Hne Hp1 Hp2 El. destruct (run_plain _ Hp1 0 (new_config cfg_mem_start) new_config_at) as (m & E & G & P); [done|].
  destruct (load_start file1 m E (plain_props _ Hp1)) as (m' & E' & _ & _ & _ & Hm). rewrite El in E'.
  injection E' as <-. specialize (Hm Hne) as ->.
  pose proof (grows_at _ _ _ _ _ G new_config_at) as (Hc & Hlt & node & Hnode).
  set (m2 := MkCfgMem (<[m.(cm_next) := MkPNode [] [] None []]> m.(cm_nodes)) (S m.(cm_next)) (Some m.(cm_next))
    m.(cm_current) m.(cm_popcount)).
  assert (A2 : at_node m2 0).
  { split; [done|]. cbn. split; [lia|]. rewrite lookup_insert_ne by lia. eauto. }
  destruct (run_plain _ Hp2 0 m2 A2) as (m3 & E3 & G3 & P3); [done|].
  exists m.(cm_next), m3. unfold fh_cfg_load. cbn [new_node cm_nodes cm_next cm_current cm_popcount].
  fold m2. unfold run_assignments. rewrite E3. split; [done|]. unfold cfg_tree.
  rewrite (gr_next _ _ _ _ _ G3). cbn [m2 cm_next Nat.add read_tree].
  rewrite (gr_old _ _ _ _ _ G3) by (rewrite ?(gr_next _ _ _ _ _ G3); cbn; lia).
  cbn. rewrite lookup_insert_eq. done.
Qed.

(** ** Numbers *)

(** A number without a sign or a leading zero. *)
Definition decimal (s : list Z) : Prop :=
  s <> [] /\ Forall (fun c => 48 <= c <= 57) s /\ char_at s 0 <> 48.
Definition dec_value (s : list Z) : Z := fold_left (fun acc c => acc * 10 + (c - 48)) s 0.

Lemma digit_value_10 c : 48 <= c <= 57 -> digit_value 10 c = Some (c - 48).
Proof.
  intros H. unfold digit_value. rewrite (proj2 (Z.leb_le 48 c)), (proj2 (Z.leb_le c 57)) by lia. cbn [andb].
  by rewrite (proj2 (Z.ltb_lt (c - 48) 10)) by lia.
Qed.

Lemma digits_value_10 s : Forall (fun c => 48 <= c <= 57) s ->
  forall acc, digits_value 10 acc s = (fold_left (fun acc c => acc * 10 + (c - 48)) s acc, []).
Proof.
  induction 1 as [|c s Hc _ IH]; intros acc; [done|]. cbn [digits_value fold_left].
  rewrite digit_value_10 by done. apply IH.
Qed.

Lemma strtoul_decimal s : decimal s -> dec_value s < 2 ^ 64 -> strtoul s = (dec_value s, []).
Proof.
  intros (Hne & Hd & H0) Hlt. destruct s as [|c s]; [done|]. cbn in H0. apply Forall_cons in Hd as Hd'.
  destruct Hd' as [Hc _]. unfold strtoul. cbn [skip_space]. unfold is_space.
  rewrite (eqb_false_of_ne c 32), (proj2 (Z.leb_gt c 13)), andb_false_r by lia. cbn [orb number_sign].
  rewrite (eqb_false_of_ne c 45), (eqb_false_of_ne c 43) by lia. unfold number_base.
  change (char_at (c :: s) 0) with c in *. rewrite (eqb_false_of_ne c 48) by done. cbn [negb].
  change (char_at (c :: s) 0) with c. rewrite digit_value_10 by done. rewrite digits_value_10 by done.
  fold (dec_value (c :: s)). unfold ULONG_MAX. by rewrite (proj2 (Z.ltb_ge _ _)) by lia.
Qed.

(** C30: bounds. A decimal number is read exactly when it fits in the type of
    the field; a larger one is not rejected but reduced to the field's width,
    so that port 65616 is port 80. *)
Theorem cfg_numbers config property s value : fh_cfg_get_string config property = Some (Some s) ->
  decimal s -> dec_value s < 2 ^ 64 ->
  fh_cfg_set_uint32 config property value = Some (FH_OK, dec_value s mod 2 ^ 32) /\
  fh_cfg_set_uint16 config property value = Some (FH_OK, dec_value s mod 2 ^ 16) /\
  fh_cfg_set_int config property value = Some (FH_OK, s32 (dec_value s)).
Proof.
  intros Hs Hd Hlt. pose proof Hd as (Hne & Hf & _).
  unfold fh_cfg_set_uint32, fh_cfg_set_uint16, fh_cfg_set_int, cfg_set_number. rewrite Hs. cbn [mbind option_bind].
  rewrite strtoul_decimal by done. destruct s as [|c s]; [done|]. apply Forall_cons in Hf as [Hc _].
  change (char_at (c :: s) 0) with c. rewrite (eqb_false_of_ne c 0) by lia. done.
Qed.

(** ** Witnesses *)

(** The file [processes = { fh = { lines = ( "X" ) cpu = 1 } } plugin.dir = /d]. *)
Definition demo_file : list cfg_assignment :=
  [([c_str "processes"], RNested [([c_str "fh"], RNested
     [([c_str "lines"], RArray [RValue true [34; 88; 34]]); ([c_str "cpu"], RValue false (c_str "1"))])]);
   ([c_str "plugin"; c_str "dir"], RValue false (c_str "/d"))].

(** C19's witness. *)
Lemma cfg_load_tree_witness : exists m,
  fh_cfg_load (Some demo_file) cfg_mem_start = Some (Some 0%nat, m) /\
  fh_cfg_get_string (cfg_tree m 0) (c_str "processes.fh.cpu") = Some (Some (c_str "1")) /\
  fh_cfg_get_string (cfg_tree m 0) (c_str "plugin.dir") = Some (Some (c_str "/d")).
Proof.
  destruct (cfg_load_tree demo_file) as (m & E & Et & _); [by vm_compute|]. exists m. split; [exact E|].
  rewrite Et. split; by vm_compute.
Defined.

(** Witness: [a.b = { x = 1  y = 2 }]; there is no [a.b.y]. *)
Lemma cfg_dotted_block_witness : exists m,
  fh_cfg_load (Some [([c_str "a"; c_str "b"], RNested [([c_str "x"], RValue false (c_str "1"));
    ([c_str "y"], RValue false (c_str "2"))])]) cfg_mem_start = Some (Some 0%nat, m) /\
  fh_cfg_get_string (cfg_tree m 0) (c_str "a.b.y") = Some None /\
  fh_cfg_get_string (cfg_tree m 0) (c_str "a.y") = Some (Some (c_str "2")).
Proof.
  destruct (cfg_dotted_block (c_str "a") (c_str "b") (c_str "x") (RValue false (c_str "1"))
    [([c_str "y"], RValue false (c_str "2"))]) as (m & E & Et); [by vm_compute..|]. exists m. split; [exact E|].
  rewrite Et. split; by vm_compute.
Defined.

(** C30's witness. *)
Lemma cfg_numbers_witness :
  fh_cfg_set_uint16 (Some (CfgNode [] [CfgNode (c_str "port") [] [c_str "65616"]] [])) (c_str "port") 0 = Some (FH_OK, 80).
Proof.
  apply (cfg_numbers (Some (CfgNode [] [CfgNode (c_str "port") [] [c_str "65616"]] [])) (c_str "port") (c_str "65616") 0);
    [by vm_compute | | by vm_compute].
  split; [done|]. split; [|by vm_compute]. repeat constructor; vm_compute; congruence.
Defined.
