(* ===== verification/ShrCfg.v ===== *)
(** * The configuration of a process
      ([src/feeds/shared/config/fh_shr_cfg_table.c], [fh_shr_cfg_lh.c],
      [feeds/shared/tcp_feed/fh_shr_tcp_lh.c])

    What the line handlers and the tables are set up from, loaded from the
    configuration tree. *)
From S2P Require Import Prelude Bytes Mpool Config.

(** ** Structs

    Without their [context] members, which are set elsewhere, and the pointer
    from a line to its process, of which there is one. *)

Record fh_shr_cfg_tbl := MkCfgTbl {
  ct_name : list Z;
  ct_enabled : Z;
  ct_size : Z
}.
Definition cfg_tbl_zero : fh_shr_cfg_tbl := MkCfgTbl [] 0 0.

(** [cc_line]: the index of the line it points to. *)
Record fh_shr_cfg_lh_conn := MkCfgConn {
  cc_line : option nat;
  cc_enabled : Z;
  cc_port : Z;
  cc_address : Z;
  cc_login_name : list Z;        (* 6 bytes *)
  cc_login_passwd : list Z;      (* 10 bytes *)
  cc_interface : list Z
}.
Definition cfg_conn_zero : fh_shr_cfg_lh_conn :=
  MkCfgConn None 0 0 0 (replicate 6 0) (replicate 10 0) [].

Record fh_shr_cfg_lh_line := MkCfgLine {
  cl_name : list Z;
  cl_primary : fh_shr_cfg_lh_conn;
  cl_secondary : fh_shr_cfg_lh_conn
}.

Record fh_shr_cfg_lh_proc := MkCfgProc {
  cp_name : list Z;
  cp_cpu : Z;
  cp_lines : list fh_shr_cfg_lh_line;
  cp_num_lines : Z;
  cp_gap_list_max : Z;
  cp_gap_timeout : Z;
  cp_symbol_table : fh_shr_cfg_tbl;
  cp_order_table : fh_shr_cfg_tbl
}.
Definition cfg_proc_zero : fh_shr_cfg_lh_proc := MkCfgProc [] 0 [] 0 0 0 cfg_tbl_zero cfg_tbl_zero.

Definition set_conn_line l (c : fh_shr_cfg_lh_conn) : fh_shr_cfg_lh_conn :=
  MkCfgConn l c.(cc_enabled) c.(cc_port) c.(cc_address) c.(cc_login_name) c.(cc_login_passwd) c.(cc_interface).
Definition set_conn_enabled e (c : fh_shr_cfg_lh_conn) : fh_shr_cfg_lh_conn :=
  MkCfgConn c.(cc_line) e c.(cc_port) c.(cc_address) c.(cc_login_name) c.(cc_login_passwd) c.(cc_interface).
Definition set_conn_address a (c : fh_shr_cfg_lh_conn) : fh_shr_cfg_lh_conn :=
  MkCfgConn c.(cc_line) c.(cc_enabled) c.(cc_port) a c.(cc_login_name) c.(cc_login_passwd) c.(cc_interface).
Definition set_conn_port p (c : fh_shr_cfg_lh_conn) : fh_shr_cfg_lh_conn :=
  MkCfgConn c.(cc_line) c.(cc_enabled) p c.(cc_address) c.(cc_login_name) c.(cc_login_passwd) c.(cc_interface).
Definition set_conn_interface i (c : fh_shr_cfg_lh_conn) : fh_shr_cfg_lh_conn :=
  MkCfgConn c.(cc_line) c.(cc_enabled) c.(cc_port) c.(cc_address) c.(cc_login_name) c.(cc_login_passwd) i.
Definition set_conn_login name passwd (c : fh_shr_cfg_lh_conn) : fh_shr_cfg_lh_conn :=
  MkCfgConn c.(cc_line) c.(cc_enabled) c.(cc_port) c.(cc_address) name passwd c.(cc_interface).
Definition set_cp_lines lines n (p : fh_shr_cfg_lh_proc) : fh_shr_cfg_lh_proc :=
  MkCfgProc p.(cp_name) p.(cp_cpu) lines n p.(cp_gap_list_max) p.(cp_gap_timeout) p.(cp_symbol_table)
    p.(cp_order_table).

(** [strcpy] to a member of [MAX_PROPERTY_LENGTH] bytes. *)
Definition copy_property (s : list Z) : option (list Z) :=
  guard_ub (Z.of_nat (length s) <? MAX_PROPERTY_LENGTH) (Some s).

(** ** Tables *)

Definition fh_shr_cfg_tbl_load (cfg : option cfg_node) (name : list Z) : option (Z * fh_shr_cfg_tbl) :=
  tbl_node ← fh_cfg_get_node cfg name;
  match tbl_node with
  | None => Some (FH_ERR_NOTFOUND, cfg_tbl_zero)
  | Some node =>
      tbl_name ← copy_property (cfg_name node);
      '(rc, size) ← fh_cfg_set_uint32 (Some node) (c_str "size") 0;
      if rc =? FH_OK then Some (FH_OK, MkCfgTbl tbl_name 1 size)
      else if rc =? FH_ERR_NOTFOUND then Some (FH_ERR_NOTFOUND, MkCfgTbl tbl_name 0 size)
      else Some (FH_ERROR, MkCfgTbl tbl_name 0 size)
  end.

(** ** Lines *)

Section lines.
(** The address in network order, of a valid dotted text. *)
Context (inet_aton : list Z -> option Z).
(** Whether [realloc] has room for so many lines. *)
Context (realloc : Z -> bool).

(** [add_connection] of both files. *)
Definition add_connection (config : option cfg_node) (name : list Z) (conn : fh_shr_cfg_lh_conn)
    : option (Z * fh_shr_cfg_lh_conn) :=
  node ← fh_cfg_get_node config name;
  match node with
  | None => Some (FH_OK, set_conn_enabled 0 conn)
  | Some _ =>
      '(rc, enabled) ← fh_cfg_set_yesno node (c_str "enabled") conn.(cc_enabled);
      let conn := set_conn_enabled enabled conn in
      if rc =? FH_OK then
        if enabled =? 0 then Some (FH_OK, conn)
        else
          property ← fh_cfg_get_string node (c_str "address");
          match (match property with Some p => inet_aton p | None => None end) with
          | None => Some (FH_ERROR, conn)
          | Some address =>
              let conn := set_conn_address address conn in
              '(rc, port) ← fh_cfg_set_uint16 node (c_str "port") conn.(cc_port);
              let conn := set_conn_port port conn in
              if negb (rc =? FH_OK) then
                Some (if rc =? FH_ERR_NOTFOUND then FH_ERR_NOTFOUND else FH_ERROR, conn)
              else
                property ← fh_cfg_get_string node (c_str "interface");
                match property with
                | None => Some (FH_ERR_NOTFOUND, conn)
                | Some p =>
                    interface ← copy_property p;
                    Some (FH_OK, set_conn_enabled 1 (set_conn_interface interface conn))
                end
          end
      else if rc =? FH_ERR_NOTFOUND then Some (FH_ERR_NOTFOUND, conn)
      else Some (FH_ERROR, conn)
  end.

(** The start of both [add_line] functions: the new line is all zero but for
    its name; [lines_path] is where the lines are.  [inr]: the node of the
    line and its index. *)
Definition new_line (lines_path : list Z) (config : option cfg_node) (name : list Z)
    (lh_config : fh_shr_cfg_lh_proc) : option (fh_shr_cfg_lh_proc + (cfg_node * list Z)) :=
  lines_node ← fh_cfg_get_node config lines_path;
  match lines_node with
  | None => Some (inl lh_config)
  | Some _ =>
      line_node ← fh_cfg_get_node lines_node name;
      match line_node with
      | None => Some (inl lh_config)
      | Some line_node =>
          if negb (realloc (lh_config.(cp_num_lines) + 1))
          then Some (inl (set_cp_lines [] lh_config.(cp_num_lines) lh_config))
          else line_name ← copy_property name; Some (inr (line_node, line_name))
      end
  end.

Definition append_line (line : fh_shr_cfg_lh_line) (lh_config : fh_shr_cfg_lh_proc) : fh_shr_cfg_lh_proc :=
  set_cp_lines (lh_config.(cp_lines) ++ [line]) (lh_config.(cp_num_lines) + 1) lh_config.

(** [add_line] of [fh_shr_cfg_lh.c] *)
Definition add_line (config : option cfg_node) (name : list Z) (lh_config : fh_shr_cfg_lh_proc)
    : option (Z * fh_shr_cfg_lh_proc) :=
  new ← new_line (c_str "lines") config name lh_config;
  match new with
  | inl lh_config => Some (FH_ERROR, lh_config)
  | inr (node, name) =>
      let this := Some (Z.to_nat lh_config.(cp_num_lines)) in
      '(rc, primary) ← add_connection (Some node) (c_str "primary") cfg_conn_zero;
      if negb (rc =? FH_OK) then
        Some (FH_ERROR, append_line (MkCfgLine name (set_conn_line this primary) cfg_conn_zero) lh_config)
      else
        '(rc, secondary) ← add_connection (Some node) (c_str "secondary") cfg_conn_zero;
        if negb (rc =? FH_OK) then
          Some (FH_ERROR, append_line (MkCfgLine name primary (set_conn_line this secondary)) lh_config)
        else Some (FH_OK, append_line (MkCfgLine name primary secondary) lh_config)
  end.

(** [strncpy] to a member of [n] bytes *)
Definition copy_padded (n : nat) (s : list Z) : list Z := take n s ++ replicate (n - length s) 0.

(** [add_login_info] *)
Definition add_login_info (config : option cfg_node) (name : list Z) (conn : fh_shr_cfg_lh_conn)
    : option (Z * fh_shr_cfg_lh_conn) :=
  node ← fh_cfg_get_node config name;
  match node with
  | None => Some (FH_OK, set_conn_enabled 0 conn)
  | Some _ =>
      property ← fh_cfg_get_string node (c_str "name");
      match property with
      | None => Some (FH_ERROR, conn)
      | Some p =>
          let conn := set_conn_login (copy_padded 6 p) conn.(cc_login_passwd) conn in
          property ← fh_cfg_get_string node (c_str "password");
          match property with
          | None => Some (FH_ERROR, conn)
          | Some p => Some (FH_OK, set_conn_login conn.(cc_login_name) (copy_padded 10 p) conn)
          end
      end
  end.

(** [add_line] of [fh_shr_tcp_lh.c] *)
Definition tcp_add_line (config : option cfg_node) (name : list Z) (lh_config : fh_shr_cfg_lh_proc)
    : option (Z * fh_shr_cfg_lh_proc) :=
  new ← new_line (c_str "edge.lines") config name lh_config;
  match new with
  | inl lh_config => Some (FH_ERROR, lh_config)
  | inr (node, name) =>
      let this := Some (Z.to_nat lh_config.(cp_num_lines)) in
      '(rc, primary) ← add_connection (Some node) (c_str "primary") cfg_conn_zero;
      if negb (rc =? FH_OK) then
        Some (FH_ERROR, append_line (MkCfgLine name (set_conn_line this primary) cfg_conn_zero) lh_config)
      else
        '(rc, primary) ← add_login_info (Some node) (c_str "login") primary;
        Some (if rc =? FH_OK then FH_OK else FH_ERROR,
              append_line (MkCfgLine name primary cfg_conn_zero) lh_config)
  end.

(** ** Processes *)

(** The loop over the lines of the process, with either [add_line]. *)
Fixpoint load_lines (add : list Z -> fh_shr_cfg_lh_proc -> option (Z * fh_shr_cfg_lh_proc))
    (names : list (list Z)) (lh_config : fh_shr_cfg_lh_proc) : option (Z * fh_shr_cfg_lh_proc) :=
  match names with
  | [] => Some (FH_OK, lh_config)
  | name :: names =>
      '(rc, lh_config) ← add name lh_config;
      if negb (rc =? FH_OK) then Some (FH_ERROR, lh_config) else load_lines add names lh_config
  end.

(** The hook [FH_PLUGIN_CFG_LOAD]. *)
Context (cfg_load_hook : option (fh_shr_cfg_lh_proc -> Z * fh_shr_cfg_lh_proc)).
Definition run_cfg_hook (lh_config : fh_shr_cfg_lh_proc) : Z * fh_shr_cfg_lh_proc :=
  match cfg_load_hook with Some hook => hook lh_config | None => (FH_OK, lh_config) end.

(** An [int] option with a default for when it is missing or wrong. *)
Definition int_or (dflt : Z) (config : option cfg_node) (property : list Z) : option Z :=
  '(rc, v) ← fh_cfg_set_int config property 0; Some (if rc =? FH_OK then v else dflt).

(** [sprintf] of a prefix and a name to a buffer of [MAX_PROPERTY_LENGTH]. *)
Definition node_path (prefix name : list Z) : option (list Z) := copy_property (prefix ++ name).

(** The tables, the lines and the hook, which both loaders end with. *)
Definition load_rest (tables : option cfg_node) (symbol_table order_table : list Z)
    (add : list Z -> fh_shr_cfg_lh_proc -> option (Z * fh_shr_cfg_lh_proc)) (process_node : cfg_node)
    (lh_config : fh_shr_cfg_lh_proc) : option (Z * fh_shr_cfg_lh_proc) :=
  '(_, symbol_table) ← fh_shr_cfg_tbl_load tables symbol_table;
  '(_, order_table) ← fh_shr_cfg_tbl_load tables order_table;
  let lh_config := MkCfgProc lh_config.(cp_name) lh_config.(cp_cpu) lh_config.(cp_lines)
    lh_config.(cp_num_lines) lh_config.(cp_gap_list_max) lh_config.(cp_gap_timeout) symbol_table order_table in
  lines_node ← fh_cfg_get_node (Some process_node) (c_str "lines");
  match lines_node with
  | None => Some (FH_ERROR, lh_config)
  | Some node =>
      '(rc, lh_config) ← load_lines add (cfg_values node) lh_config;
      if negb (rc =? FH_OK) then Some (rc, lh_config) else Some (run_cfg_hook lh_config)
  end.

Definition fh_shr_cfg_lh_load (process root : list Z) (config : option cfg_node)
    : option (Z * fh_shr_cfg_lh_proc) :=
  top_node ← fh_cfg_get_node config root;
  match top_node with
  | None => Some (FH_ERROR, cfg_proc_zero)
  | Some _ =>
      process_node_name ← node_path (c_str "processes.") process;
      process_node ← fh_cfg_get_node top_node process_node_name;
      match process_node with
      | None => Some (FH_ERROR, cfg_proc_zero)
      | Some node =>
          name ← copy_property (cfg_name node);
          cpu ← int_or (-1) process_node (c_str "cpu");
          gap_list_max ← int_or 0 top_node (c_str "fill_gaps.max");
          gap_timeout ← int_or 0 top_node (c_str "fill_gaps.timeout");
          load_rest top_node (c_str "symbol_table") (c_str "order_table") (add_line top_node) node
            (MkCfgProc name cpu [] 0 gap_list_max gap_timeout cfg_tbl_zero cfg_tbl_zero)
      end
  end.

Definition fh_shr_cfg_tcp_lh_load (process : list Z) (config : option cfg_node)
    : option (Z * fh_shr_cfg_lh_proc) :=
  process_node_name ← node_path (c_str "edge.processes.") process;
  process_node ← fh_cfg_get_node config process_node_name;
  match process_node with
  | None => Some (FH_ERROR, cfg_proc_zero)
  | Some node =>
      name ← copy_property (cfg_name node);
      cpu ← int_or (-1) process_node (c_str "cpu");
      load_rest config (c_str "edge.symbol_table") (c_str "edge.order_table") (tcp_add_line config) node
        (MkCfgProc name cpu [] 0 0 0 cfg_tbl_zero cfg_tbl_zero)
  end.

End lines.

(** The process to run: the one named by the caller, or the first one.  The
    results are the status and the name. *)
Definition fh_shr_cfg_lh_get_proc (proc root : list Z) (config : option cfg_node)
    : option (Z * list Z) :=
  node_name ← copy_property (root ++ c_str ".processes");
  node ← fh_cfg_get_node config node_name;
  if char_at proc 0 =? 0 then
    match node with
    | Some (CfgNode _ (child :: _) _) => Some (FH_OK, cfg_name child)
    | _ => Some (FH_ERROR, proc)
    end
  else
    found ← fh_cfg_get_node node proc;
    Some (match found with None => (FH_ERROR, proc) | Some _ => (FH_OK, proc) end).
