(* ===== verification/ShrCfgTheorems.v ===== *)
(** * The configuration of a process: theorems

    A deployment written to a configuration file and loaded from there is the
    deployment. *)
From S2P Require Import Prelude Bytes Mpool Config ConfigLoad ConfigTheorems ShrCfg.

(** ** Writing numbers *)

Fixpoint dec_digits (fuel : nat) (n : Z) (acc : list Z) : list Z :=
  match fuel with
  | 0%nat => acc
  | S fuel => if n <? 10 then (48 + n) :: acc else dec_digits fuel (n / 10) ((48 + n mod 10) :: acc)
  end.
Definition decimal_str (n : Z) : list Z := dec_digits 20 n [].

Lemma dec_digits_value fuel : forall n acc, 0 < n < 10 ^ Z.of_nat fuel ->
  exists ds, dec_digits fuel n acc = ds ++ acc /\ decimal ds /\ dec_value ds = n.
Proof.
  induction fuel as [|fuel IH]; intros n acc Hn; [cbn in Hn; lia|]. cbn [dec_digits].
  destruct (n <? 10) eqn:E; bool_to_prop.
  - exists [48 + n]. split; [done|]. split; [|unfold dec_value; cbn; lia].
    split; [done|]. split; [constructor; [lia | done]|]. change (char_at [48 + n] 0) with (48 + n). lia.
  - rewrite Nat2Z.inj_succ, Z.pow_succ_r in Hn by lia.
    destruct (IH (n / 10) ((48 + n mod 10) :: acc)) as (ds & -> & (Hne & Hd & H0) & Hv).
    { split; [apply Z.div_str_pos; lia | apply Z.div_lt_upper_bound; lia]. }
    exists (ds ++ [48 + n mod 10]). rewrite <- app_assoc. split; [done|].
    pose proof (Z.mod_pos_bound n 10 ltac:(lia)). split; [split; [|split]|].
    + by destruct ds.
    + apply Forall_app. split; [done|]. constructor; [lia | done].
    + by destruct ds.
    + unfold dec_value in *. rewrite fold_left_app, Hv. cbn. pose proof (Z.div_mod n 10 ltac:(lia)). lia.
Qed.

(** A number that was written is read back. *)
Lemma set_number_written conv config property n value : 0 <= n < 2 ^ 64 ->
  fh_cfg_get_string config property = Some (Some (decimal_str n)) ->
  cfg_set_number conv config property value = Some (FH_OK, conv n).
Proof.
  intros Hn Hs. unfold cfg_set_number. rewrite Hs. cbn [mbind option_bind].
  destruct (decide (n = 0)) as [->|Hz]; [done|].
  destruct (dec_digits_value 20 n []) as (ds & E & Hd & Hv).
  { split; [lia|]. eapply Z.lt_le_trans; [apply Hn|]. by vm_compute. }
  unfold decimal_str. rewrite E, app_nil_r. rewrite strtoul_decimal by (done || lia). rewrite Hv.
  destruct Hd as (Hne & Hd & _). destruct ds as [|c ds]; [done|]. apply Forall_cons in Hd as [Hc _].
  change (char_at (c :: ds) 0) with c. by rewrite (eqb_false_of_ne c 0) by lia.
Qed.

Lemma dequote_quoted s : fh_cfg_dequote_string (34 :: s ++ [34]) = s.
Proof.
  unfold fh_cfg_dequote_string. cbn [length]. rewrite length_app. cbn [length].
  replace (S (length s + 1) - 1)%nat with (S (length s)) by lia.
  assert (E : char_at (34 :: s ++ [34]) (S (length s)) = 34).
  { unfold char_at. change ((34 :: s ++ [34]) !! S (length s)) with ((s ++ [34]) !! length s).
    by rewrite lookup_app_r, Nat.sub_diag by done. }
  rewrite E. change (34 =? 34) with true. cbn iota.
  change (take (S (length s)) (34 :: s ++ [34])) with (34 :: take (length s) (s ++ [34])).
  by rewrite take_app_length.
Qed.

(** ** Deployments *)

Record conn_desc := MkConnDesc { cd_address : list Z; cd_port : Z; cd_interface : list Z }.
Record line_desc := MkLineDesc { ld_name : list Z; ld_primary : conn_desc; ld_secondary : option conn_desc }.
Record deployment := MkDeployment {
  dp_root : list Z;
  dp_process : list Z;
  dp_cpu : Z;
  dp_gap_max : Z;
  dp_gap_timeout : Z;
  dp_symbols : option Z;
  dp_orders : option Z;
  dp_lines : list line_desc
}.

(** The file. *)
Definition quoted (s : list Z) : cfg_rvalue := RValue true (34 :: s ++ [34]).
Definition number (n : Z) : cfg_rvalue := RValue false (decimal_str n).

Definition conn_file (c : conn_desc) : cfg_rvalue :=
  RNested [([c_str "address"], quoted c.(cd_address)); ([c_str "port"], number c.(cd_port));
           ([c_str "interface"], quoted c.(cd_interface)); ([c_str "enabled"], RValue false (c_str "yes"))].
Definition line_file (l : line_desc) : cfg_assignment :=
  ([l.(ld_name)], RNested (([c_str "primary"], conn_file l.(ld_primary)) ::
     match l.(ld_secondary) with Some c => [([c_str "secondary"], conn_file c)] | None => [] end)).
Definition table_file (name : list Z) (size : option Z) : list cfg_assignment :=
  match size with Some n => [([name], RNested [([c_str "size"], number n)])] | None => [] end.
Definition process_file (d : deployment) : cfg_rvalue :=
  RNested [([c_str "lines"], RArray ((fun l => quoted l.(ld_name)) <$> d.(dp_lines)));
           ([c_str "cpu"], number d.(dp_cpu))].
Definition rest_file (d : deployment) : list cfg_assignment :=
  [([c_str "fill_gaps"], RNested [([c_str "max"], number d.(dp_gap_max));
                                  ([c_str "timeout"], number d.(dp_gap_timeout))]);
   ([c_str "processes"], RNested [([d.(dp_process)], process_file d)]);
   ([c_str "lines"], RNested (line_file <$> d.(dp_lines)))].
Definition block_file (d : deployment) : list cfg_assignment :=
  table_file (c_str "symbol_table") d.(dp_symbols) ++ table_file (c_str "order_table") d.(dp_orders) ++ rest_file d.
Definition deployment_file (d : deployment) : list cfg_assignment := [([d.(dp_root)], RNested (block_file d))].

(** The configuration of the process. *)
Section deployment.
Context (inet_aton : list Z -> option Z) (realloc : Z -> bool).

Definition conn_of (c : conn_desc) : fh_shr_cfg_lh_conn :=
  MkCfgConn None 1 c.(cd_port) (default 0 (inet_aton c.(cd_address))) (replicate 6 0) (replicate 10 0)
    c.(cd_interface).
Definition line_of (l : line_desc) : fh_shr_cfg_lh_line :=
  MkCfgLine l.(ld_name) (conn_of l.(ld_primary))
    (match l.(ld_secondary) with Some c => conn_of c | None => cfg_conn_zero end).
Definition table_of (name : list Z) (size : option Z) : fh_shr_cfg_tbl :=
  match size with Some n => MkCfgTbl name 1 n | None => cfg_tbl_zero end.
Definition proc_of (d : deployment) : fh_shr_cfg_lh_proc :=
  MkCfgProc d.(dp_process) d.(dp_cpu) (line_of <$> d.(dp_lines)) (Z.of_nat (length d.(dp_lines)))
    d.(dp_gap_max) d.(dp_gap_timeout) (table_of (c_str "symbol_table") d.(dp_symbols))
    (table_of (c_str "order_table") d.(dp_orders)).

(** Names fit and have no period, numbers are in range, addresses valid. *)
Definition name_ok (s : list Z) : Prop := no_period s /\ short s = true.
Definition conn_desc_ok (c : conn_desc) : Prop :=
  is_Some (inet_aton c.(cd_address)) /\ 0 <= c.(cd_port) < 2 ^ 16 /\ short c.(cd_interface) = true.
Definition line_desc_ok (l : line_desc) : Prop :=
  name_ok l.(ld_name) /\ conn_desc_ok l.(ld_primary) /\
  match l.(ld_secondary) with Some c => conn_desc_ok c | None => True end.
Definition size_ok (size : option Z) : Prop := match size with Some n => 0 <= n < 2 ^ 32 | None => True end.
Record deployment_ok (d : deployment) : Prop := {
  do_root : name_ok d.(dp_root);
  do_process : no_period d.(dp_process) /\ short (c_str "processes." ++ d.(dp_process)) = true;
  do_numbers : 0 <= d.(dp_cpu) < 2 ^ 31 /\ 0 <= d.(dp_gap_max) < 2 ^ 31 /\ 0 <= d.(dp_gap_timeout) < 2 ^ 31;
  do_symbols : size_ok d.(dp_symbols);
  do_orders : size_ok d.(dp_orders);
  do_lines : Forall line_desc_ok d.(dp_lines);
  do_names : NoDup (ld_name <$> d.(dp_lines))
}.

(** Evaluates comparisons of names that are constants. *)
Ltac decide_names :=
  repeat match goal with
  | |- context [bool_decide (@eq (list Z) ?a ?b)] =>
      let r := eval vm_compute in (bool_decide (a = b)) in
      first [constr_eq r true | constr_eq r false]; change (bool_decide (a = b)) with r; cbn iota
  end.

Lemma get_child t s : name_ok s -> fh_cfg_get_node (Some t) s = Some (fh_cfg_find_child t s).
Proof.
  intros [Hn Hs]. change s with (path_str [s]) at 1.
  rewrite cfg_get_node_path; [| by constructor | by cbn; rewrite Hs]. cbn [walk].
  by destruct (fh_cfg_find_child t s).
Qed.

Lemma get_string_child t s : name_ok s -> fh_cfg_get_string (Some t) s =
  Some (match fh_cfg_find_child t s with None => None | Some node => head (cfg_values node) end).
Proof. intros H. unfold fh_cfg_get_string. by rewrite get_child. Qed.

(** The names the loaders look for are fine. *)
Ltac const_name := split; [repeat constructor; vm_compute; congruence | by vm_compute].

(** The first value of a child, among children whose names are constants. *)
Ltac find_child :=
  rewrite get_string_child by const_name; unfold fh_cfg_find_child;
  cbn [cfg_children denote path_node foldr fst snd app find_named cfg_name]; decide_names;
  cbn [cfg_values head]; unfold value_of; rewrite ?dequote_quoted.

Lemma conn_strings c x (n := CfgNode x (denote (conn_file c)).1 []) :
  fh_cfg_get_string (Some n) (c_str "enabled") = Some (Some (c_str "yes")) /\
  fh_cfg_get_string (Some n) (c_str "address") = Some (Some c.(cd_address)) /\
  fh_cfg_get_string (Some n) (c_str "port") = Some (Some (decimal_str c.(cd_port))) /\
  fh_cfg_get_string (Some n) (c_str "interface") = Some (Some c.(cd_interface)).
Proof. unfold n, conn_file, quoted, number. split; [|split; [|split]]; find_child; done. Qed.

Lemma add_connection_ok c node name x : conn_desc_ok c ->
  fh_cfg_get_node (Some node) name = Some (Some (CfgNode x (denote (conn_file c)).1 [])) ->
  add_connection inet_aton (Some node) name cfg_conn_zero = Some (FH_OK, conn_of c).
Proof.
  intros ([a Ha] & Hport & Hif) Hn. unfold add_connection. rewrite Hn. cbn [mbind option_bind].
  destruct (conn_strings c x) as (He & Haddr & Hp & Hi). unfold fh_cfg_set_yesno. rewrite He, Haddr, Hi.
  cbn [mbind option_bind]. cbv zeta.
  change ((char_at (c_str "yes") 0 =? 121) || (char_at (c_str "yes") 0 =? 89)) with true.
  change ((char_at (c_str "yes") 1 =? 101) || (char_at (c_str "yes") 1 =? 69)) with true.
  change ((char_at (c_str "yes") 2 =? 115) || (char_at (c_str "yes") 2 =? 83)) with true.
  cbn [andb mbind option_bind]. change (FH_OK =? FH_OK) with true. change (1 =? 0) with false. cbn iota.
  rewrite Ha. unfold fh_cfg_set_uint16. rewrite (set_number_written u16 _ _ c.(cd_port) _ ltac:(lia) Hp).
  cbn [mbind option_bind]. change (negb (FH_OK =? FH_OK)) with false. cbn iota.
  unfold copy_property. unfold short in Hif. rewrite Hif. cbn [guard_ub mbind option_bind].
  rewrite u16_small by lia. unfold conn_of. by rewrite Ha.
Qed.

(** A child that is a node among children whose names are constants. *)
Ltac find_node :=
  rewrite get_child by const_name; unfold fh_cfg_find_child;
  cbn [cfg_children denote path_node foldr fst snd app find_named cfg_name]; decide_names.

Definition line_node (l : line_desc) : cfg_node :=
  CfgNode l.(ld_name) (denote (line_file l).2).1 [].

Lemma denote_cons p rv l :
  (denote (RNested (([p], rv) :: l))).1 = CfgNode p (denote rv).1 (denote rv).2 :: (denote (RNested l)).1.
Proof. done. Qed.

Lemma line_file_node l rest :
  (denote (RNested (line_file l :: rest))).1 = line_node l :: (denote (RNested rest)).1.
Proof.
  unfold line_file at 1. rewrite denote_cons. unfold line_node. f_equal. f_equal. by destruct (ld_secondary l).
Qed.

Lemma find_line lines l : NoDup (ld_name <$> lines) -> l ∈ lines ->
  find_named (denote (RNested (line_file <$> lines))).1 l.(ld_name) = Some (line_node l).
Proof.
  induction lines as [|l0 lines IH]; intros Hnd Hl; [by apply elem_of_nil in Hl|].
  cbn [fmap list_fmap] in *. apply NoDup_cons in Hnd as [Hn0 Hnd].
  rewrite line_file_node. cbn [find_named]. change (cfg_name (line_node l0)) with l0.(ld_name).
  apply elem_of_cons in Hl as [->|Hl]; [by rewrite bool_decide_true|].
  rewrite bool_decide_false; [by apply IH|]. intros E. apply Hn0. rewrite E. by apply list_elem_of_fmap_2.
Qed.

Lemma add_line_ok top x lines l lh : line_desc_ok l -> NoDup (ld_name <$> lines) -> l ∈ lines ->
  (forall n, realloc n = true) ->
  fh_cfg_get_node (Some top) (c_str "lines") = Some (Some (CfgNode x (denote (RNested (line_file <$> lines))).1 [])) ->
  add_line inet_aton realloc (Some top) l.(ld_name) lh = Some (FH_OK, append_line (line_of l) lh).
Proof.
  intros (Hname & Hp & Hs) Hnd Hl Hr Hlines. unfold add_line, new_line. rewrite Hlines. cbn [mbind option_bind].
  rewrite get_child by done. unfold fh_cfg_find_child. cbn [cfg_children]. rewrite (find_line _ _ Hnd Hl).
  cbn [mbind option_bind]. rewrite Hr. cbn [negb]. unfold copy_property. destruct Hname as [_ Hshort].
  unfold short in Hshort. rewrite Hshort. cbn [guard_ub mbind option_bind]. cbv zeta.
  rewrite (add_connection_ok l.(ld_primary) _ (c_str "primary") (c_str "primary") Hp).
  2: { unfold line_node, line_file. by find_node. }
  cbn [mbind option_bind]. change (negb (FH_OK =? FH_OK)) with false. cbn iota. unfold line_of.
  destruct (ld_secondary l) as [c|] eqn:E.
  - rewrite (add_connection_ok c _ (c_str "secondary") (c_str "secondary") Hs); [done|].
    unfold line_node, line_file. rewrite E. by find_node.
  - unfold add_connection. assert (Hg : fh_cfg_get_node (Some (line_node l)) (c_str "secondary") = Some None)
      by (unfold line_node, line_file; rewrite E; by find_node).
    rewrite Hg. done.
Qed.

Lemma load_lines_ok top x all : Forall line_desc_ok all -> NoDup (ld_name <$> all) -> (forall n, realloc n = true) ->
  fh_cfg_get_node (Some top) (c_str "lines") = Some (Some (CfgNode x (denote (RNested (line_file <$> all))).1 [])) ->
  forall lines lh, lines ⊆ all -> 0 <= lh.(cp_num_lines) ->
  load_lines (add_line inet_aton realloc (Some top)) (ld_name <$> lines) lh =
    Some (FH_OK, set_cp_lines (lh.(cp_lines) ++ (line_of <$> lines)) (lh.(cp_num_lines) + Z.of_nat (length lines)) lh).
Proof.
  intros Hok Hnd Hr Hlines lines. induction lines as [|l lines IH]; intros lh Hsub H0; cbn [fmap list_fmap load_lines].
  - rewrite app_nil_r, Z.add_0_r. by destruct lh.
  - assert (Hl : l ∈ all) by (apply Hsub, list_elem_of_here). rewrite Forall_forall in Hok.
    rewrite (add_line_ok top x all l lh (Hok _ Hl) Hnd Hl Hr Hlines). cbn [mbind option_bind].
    change (negb (FH_OK =? FH_OK)) with false. cbn iota. rewrite IH; [| |cbn; lia].
    + cbn [length append_line set_cp_lines cp_name cp_cpu cp_lines cp_num_lines cp_gap_list_max cp_gap_timeout
        cp_symbol_table cp_order_table]. rewrite <- app_assoc, Nat2Z.inj_succ.
      by replace (cp_num_lines lh + 1 + Z.of_nat (length lines)) with
        (cp_num_lines lh + Z.succ (Z.of_nat (length lines))) by lia.
    + intros l' Hl'. apply Hsub. by apply list_elem_of_further.
Qed.

Lemma table_load_ok top name size : name_ok name -> size_ok size ->
  fh_cfg_find_child top name = match size with
    | Some n => Some (CfgNode name (denote (RNested [([c_str "size"], number n)])).1 [])
    | None => None end ->
  exists rc, fh_shr_cfg_tbl_load (Some top) name = Some (rc, table_of name size).
Proof.
  intros Hname Hsize Hf. unfold fh_shr_cfg_tbl_load. rewrite get_child, Hf by done. cbn [mbind option_bind].
  destruct size as [n|]; [|eauto]. cbn in Hsize. cbn [cfg_name]. destruct Hname as [_ Hs]. unfold short in Hs.
  unfold copy_property. rewrite Hs. cbn [guard_ub mbind option_bind]. unfold fh_cfg_set_uint32.
  rewrite (set_number_written u32 _ _ n); [| lia | by unfold number; find_child].
  cbn [mbind option_bind]. change (FH_OK =? FH_OK) with true. cbn iota. rewrite u32_small by lia. eauto.
Qed.

(** ** The round trip *)

Definition top_of (d : deployment) : cfg_node := CfgNode d.(dp_root) (denote (RNested (block_file d))).1 [].

Lemma find_table name d c :
  find_named (denote (RNested (table_file name c ++ d))).1 name = match c with
    | Some n => Some (CfgNode name (denote (RNested [([c_str "size"], number n)])).1 [])
    | None => find_named (denote (RNested d)).1 name end.
Proof.
  destruct c as [n|]; [|done]. cbn [table_file app]. rewrite denote_cons. cbn [find_named cfg_name].
  by rewrite bool_decide_true.
Qed.

Lemma skip_table name name' d c : name <> name' ->
  find_named (denote (RNested (table_file name' c ++ d))).1 name = find_named (denote (RNested d)).1 name.
Proof.
  intros Hn. destruct c as [n|]; [|done]. cbn [table_file app]. rewrite denote_cons. cbn [find_named cfg_name].
  by rewrite bool_decide_false by congruence.
Qed.

(** The children of the top node that are always there. *)
Lemma top_rest d name : name <> c_str "symbol_table" -> name <> c_str "order_table" ->
  fh_cfg_find_child (top_of d) name = find_named (denote (RNested (rest_file d))).1 name.
Proof.
  intros H1 H2. unfold fh_cfg_find_child, top_of, block_file. cbn [cfg_children]. by rewrite !skip_table.
Qed.

Lemma top_tables d : deployment_ok d ->
  (exists rc, fh_shr_cfg_tbl_load (Some (top_of d)) (c_str "symbol_table") =
     Some (rc, table_of (c_str "symbol_table") d.(dp_symbols))) /\
  (exists rc, fh_shr_cfg_tbl_load (Some (top_of d)) (c_str "order_table") =
     Some (rc, table_of (c_str "order_table") d.(dp_orders))).
Proof.
  intros Hd. unfold top_of, block_file.
  split; (apply table_load_ok; [const_name | apply Hd |]); unfold fh_cfg_find_child; cbn [cfg_children].
  - rewrite find_table. destruct (dp_symbols d); [done|]. by rewrite skip_table by (vm_compute; congruence).
  - rewrite skip_table by (vm_compute; congruence). rewrite find_table. by destruct (dp_orders d).
Qed.

Lemma top_lines d : fh_cfg_get_node (Some (top_of d)) (c_str "lines") =
  Some (Some (CfgNode (c_str "lines") (denote (RNested (line_file <$> d.(dp_lines)))).1 [])).
Proof.
  rewrite get_child by const_name. rewrite top_rest by (vm_compute; congruence). unfold rest_file.
  rewrite !denote_cons. cbn [find_named cfg_name]. decide_names. do 3 f_equal. clear.
  induction (dp_lines d) as [|l lines IH]; [done|]. exact IH.
Qed.

Definition process_node (d : deployment) : cfg_node :=
  CfgNode d.(dp_process) (denote (process_file d)).1 [].

Lemma top_process d : deployment_ok d ->
  fh_cfg_get_node (Some (top_of d)) (c_str "processes." ++ d.(dp_process)) = Some (Some (process_node d)).
Proof.
  intros Hd. destruct (do_process _ Hd) as [Hn Hs].
  change (c_str "processes." ++ dp_process d) with (path_str [c_str "processes"; dp_process d]).
  rewrite cfg_get_node_path; cycle 1.
  { constructor; [repeat constructor; vm_compute; congruence | by constructor]. }
  { cbn [forallb]. rewrite andb_true_r. unfold short in *. rewrite length_app in Hs. bool_to_prop.
    change (length (c_str "processes.")) with 10%nat in Hs. apply andb_true_iff. split; [done|]. apply Z.ltb_lt. lia. }
  cbn [walk]. rewrite top_rest by (vm_compute; congruence). unfold rest_file. rewrite !denote_cons.
  cbn [find_named cfg_name]. decide_names. cbn [mbind option_bind]. unfold fh_cfg_find_child. cbn [cfg_children].
  rewrite ?denote_cons. cbn [find_named cfg_name]. rewrite bool_decide_true by done. done.
Qed.

Lemma top_gaps d : fh_cfg_get_string (Some (top_of d)) (c_str "fill_gaps.max") = Some (Some (decimal_str d.(dp_gap_max))) /\
  fh_cfg_get_string (Some (top_of d)) (c_str "fill_gaps.timeout") = Some (Some (decimal_str d.(dp_gap_timeout))).
Proof.
  unfold fh_cfg_get_string. change (c_str "fill_gaps.max") with (path_str [c_str "fill_gaps"; c_str "max"]).
  change (c_str "fill_gaps.timeout") with (path_str [c_str "fill_gaps"; c_str "timeout"]).
  rewrite !cfg_get_node_path by (first [by vm_compute | repeat constructor; vm_compute; congruence]).
  cbn [walk]. rewrite top_rest by (vm_compute; congruence). unfold rest_file. rewrite !denote_cons.
  cbn [find_named cfg_name]. decide_names. cbn [mbind option_bind]. unfold fh_cfg_find_child. cbn [cfg_children].
  rewrite ?denote_cons. cbn [find_named cfg_name]. decide_names. done.
Qed.

Lemma process_values d : fh_cfg_get_string (Some (process_node d)) (c_str "cpu") = Some (Some (decimal_str d.(dp_cpu))) /\
  fh_cfg_get_node (Some (process_node d)) (c_str "lines") = Some (Some (CfgNode (c_str "lines") [] (ld_name <$> d.(dp_lines)))).
Proof.
  unfold process_node, process_file. split.
  - rewrite get_string_child by const_name. unfold fh_cfg_find_child. cbn [cfg_children]. rewrite !denote_cons.
    cbn [find_named cfg_name]. decide_names. done.
  - rewrite get_child by const_name. unfold fh_cfg_find_child. cbn [cfg_children]. rewrite !denote_cons.
    cbn [find_named cfg_name]. decide_names. do 2 f_equal.
    induction (dp_lines d) as [|l lines IH]; [done|]. cbn [fmap list_fmap]. injection IH as E1 E2.
    cbn [denote fst snd quoted app]. unfold value_of. rewrite dequote_quoted. f_equal; [exact E1 | f_equal; exact E2].
Qed.

Lemma int_or_written dflt config property n : 0 <= n < 2 ^ 31 ->
  fh_cfg_get_string config property = Some (Some (decimal_str n)) -> int_or dflt config property = Some n.
Proof.
  intros Hn Hs. unfold int_or, fh_cfg_set_int. rewrite (set_number_written s32 _ _ n _ ltac:(lia) Hs).
  cbn [mbind option_bind]. change (FH_OK =? FH_OK) with true. cbn iota. by rewrite s32_small by lia.
Qed.

Lemma plain_one p rv l : short p = true -> plain rv = true -> plain (RNested l) = true ->
  plain (RNested (([p], rv) :: l)) = true.
Proof. cbn [plain forallb fst snd props_ok length]. intros Hp Hr Hl. by rewrite Hp, Hr, Hl. Qed.

Lemma plain_file d : deployment_ok d -> plain (RNested (deployment_file d)) = true.
Proof.
  intros Hd. apply plain_one; [apply Hd | | done]. unfold block_file, rest_file.
  assert (Hr : plain (RNested (rest_file d)) = true).
  { apply plain_one; [done | done |]. destruct (do_process _ Hd) as [_ Hs]. apply plain_one; [done | | apply plain_one; [done | | done]].
    - apply plain_one; [| |done].
      + unfold short in *. rewrite length_app in Hs. bool_to_prop. apply Z.ltb_lt. lia.
      + apply plain_one; [done | | by apply plain_one]. cbn [plain]. apply forallb_forall. intros rv Hrv.
        apply list_elem_of_In in Hrv. by apply list_elem_of_fmap in Hrv as (l & -> & _).
    - pose proof (do_lines _ Hd) as Hl. induction Hl as [|l lines ([_ Hn] & _) _ IH]; [done|].
      apply plain_one; [done | | exact IH]. apply plain_one; [done | done |]. by destruct (ld_secondary l). }
  unfold table_file. destruct (dp_symbols d), (dp_orders d); cbn [app]; repeat (apply plain_one; [done | done |]); exact Hr.
Qed.

Lemma copy_property_short s : short s = true -> copy_property s = Some s.
Proof. unfold copy_property, short. by intros ->. Qed.

(** C18: roundtrip. A deployment (process, tables, gaps, any number of lines
    with one or two connections) that is written to a configuration file and
    loaded, by the parser and by the loader of the line handlers, is the
    deployment, which a plugin may then change. *)
Theorem cfg_deployment_roundtrip d hook : deployment_ok d -> (forall n, realloc n = true) -> exists m,
  fh_cfg_load (Some (deployment_file d)) cfg_mem_start = Some (Some 0%nat, m) /\
  fh_shr_cfg_lh_load inet_aton realloc hook d.(dp_process) d.(dp_root) (cfg_tree m 0) =
    Some (run_cfg_hook hook (proc_of d)).
Proof.
  intros Hd Hrealloc. destruct (load_plain _ (plain_file d Hd)) as (m & El & Et & _). exists m. split; [exact El|].
  rewrite Et. unfold fh_shr_cfg_lh_load. rewrite (get_child _ _ (do_root _ Hd)).
  unfold fh_cfg_find_child at 1, denote_file, deployment_file. cbn [cfg_children]. rewrite denote_cons.
  cbn [find_named cfg_name]. rewrite bool_decide_true by done. cbn [mbind option_bind].
  assert (Hv : (denote (RNested (block_file d))).2 = []).
  { unfold block_file, table_file. by destruct (dp_symbols d), (dp_orders d). }
  rewrite Hv. fold (top_of d). destruct (do_process _ Hd) as [_ Hs]. unfold node_path.
  rewrite (copy_property_short _ Hs). cbn [mbind option_bind]. rewrite (top_process d Hd). cbn [mbind option_bind].
  change (cfg_name (process_node d)) with d.(dp_process). rewrite (copy_property_short (dp_process d)).
  2: { unfold short in *. rewrite length_app in Hs. bool_to_prop. apply Z.ltb_lt. lia. }
  cbn [mbind option_bind].
  destruct (do_numbers _ Hd) as (Hcpu & Hmax & Htime). destruct (process_values d) as [Hc Hl]. destruct (top_gaps d) as [Hg1 Hg2].
  rewrite (int_or_written _ _ _ _ Hcpu Hc), (int_or_written _ _ _ _ Hmax Hg1), (int_or_written _ _ _ _ Htime Hg2).
  cbn [mbind option_bind]. destruct (top_tables d Hd) as [(rc1 & T1) (rc2 & T2)]. unfold load_rest. rewrite T1, T2.
  cbn [mbind option_bind]. cbv zeta. rewrite Hl. cbn [mbind option_bind cfg_values].
  rewrite (load_lines_ok _ _ _ (do_lines _ Hd) (do_names _ Hd) Hrealloc (top_lines d) d.(dp_lines)); [| done | done].
  done.
Qed.

End deployment.

(** ** Witness *)

Definition demo_deployment : deployment :=
  MkDeployment (c_str "itch") (c_str "fhItch") 1 10 30 (Some 50000) None
    [MkLineDesc (c_str "ITCH") (MkConnDesc (c_str "233.54.12.120") 26476 (c_str "eth2"))
       (Some (MkConnDesc (c_str "233.54.12.220") 26476 (c_str "eth2")))].

(** C18's witness. *)
Lemma cfg_deployment_roundtrip_witness : exists m p,
  fh_cfg_load (Some (deployment_file demo_deployment)) cfg_mem_start = Some (Some 0%nat, m) /\
  fh_shr_cfg_lh_load (fun _ => Some 7) (fun _ => true) None (c_str "fhItch") (c_str "itch") (cfg_tree m 0) =
    Some (run_cfg_hook None p) /\
  p.(cp_gap_list_max) = 10 /\ cc_port <$> (cl_secondary <$> p.(cp_lines)) = [26476].
Proof.
  destruct (cfg_deployment_roundtrip (fun _ => Some 7) (fun _ => true) demo_deployment None) as (m & E1 & E2).
  - assert (Hn : forall s, forallb (fun c => negb (c =? 46)) s && short s = true -> name_ok s).
    { intros s [H1 H2]%andb_true_iff. split; [|done]. apply Forall_forall. intros c Hc%list_elem_of_In.
      rewrite forallb_forall in H1. specialize (H1 c Hc). bool_to_prop. done. }
    assert (Hc : forall a, conn_desc_ok (fun _ => Some 7) (MkConnDesc a 26476 (c_str "eth2"))).
    { intros a. split; [by eexists|]. cbn. split; [lia | by vm_compute]. }
    constructor; try (cbn; lia).
    + by apply Hn.
    + split; [by apply (Hn (c_str "fhItch")) | by vm_compute].
    + constructor; [|done]. split; [by apply Hn | split; apply Hc].
    + apply NoDup_singleton.
  - done.
  - exists m, (proc_of (fun _ => Some 7) demo_deployment). split; [exact E1|]. split; [exact E2 | split; reflexivity].
Defined.
