(* ===== verification/Hist.v ===== *)
(** * Histograms and profiling
      ([src/common/fh_hist.c], [fh_hist.h], [fh_prof.h])

    The average and the other floating point numbers, which are only printed,
    are left out. *)
From S2P Require Import Prelude.

(** ** Histograms *)

Record fh_hist := MkHist {
  hg_key : list Z;
  hg_start : Z;
  hg_stop : Z;
  hg_bincnt : Z;
  hg_binsize : Z;
  hg_bins : list Z;
  hg_total : Z;
  hg_min : Z;
  hg_max : Z;
  hg_sum : Z
}.

Definition sizeof_hist : Z := 80.
Definition fits_int (z : Z) : bool := (- 2 ^ 31 <=? z) && (z <? 2 ^ 31).

(** Whether [malloc] has so many bytes.  The inner [None] is [NULL]; a key
    that cannot be copied fails an assertion. *)
Definition fh_hist_new (malloc : Z -> bool) (key : list Z) (bincnt binsize : Z) : option (option fh_hist) :=
  if negb (malloc sizeof_hist) then Some None
  else
    guard_ub (fits_int (binsize * bincnt) && malloc (Z.of_nat (length key) + 1) && fits_int (bincnt + 1))
      (if negb (malloc (u64 ((bincnt + 1) * 8))) then Some None
       else Some (Some (MkHist key 0 0 bincnt binsize (replicate (Z.to_nat (bincnt + 1)) 0)
                          0 (binsize * bincnt) 0 0))).

Definition fh_hist_add (hg : fh_hist) (val : Z) : option fh_hist :=
  if 0 <=? val then
    let min := if val <? hg.(hg_min) then val else hg.(hg_min) in
    let max := if hg.(hg_max) <? val then val else hg.(hg_max) in
    guard_ub (negb (hg.(hg_binsize) =? 0))
      (let bin := Z.quot val hg.(hg_binsize) in
       let bin := if hg.(hg_bincnt) <? bin then hg.(hg_bincnt) else bin in
       guard_ub (0 <=? bin)
         (count ← hg.(hg_bins) !! Z.to_nat bin;
          guard_ub (hg.(hg_sum) + val <? 2 ^ 63)
            (Some (MkHist hg.(hg_key) hg.(hg_start) hg.(hg_stop) hg.(hg_bincnt) hg.(hg_binsize)
                     (<[Z.to_nat bin := u64 (count + 1)]> hg.(hg_bins))
                     (u64 (hg.(hg_total) + 1)) min max (hg.(hg_sum) + val)))))
  else Some hg.

Definition fh_hist_reset (hg : fh_hist) : option fh_hist :=
  guard_ub (fits_int (hg.(hg_binsize) * hg.(hg_bincnt)) && fits_int (hg.(hg_bincnt) + 1))
    (Some (MkHist hg.(hg_key) hg.(hg_start) hg.(hg_stop) hg.(hg_bincnt) hg.(hg_binsize)
             (replicate (Z.to_nat (hg.(hg_bincnt) + 1)) 0) 0 (hg.(hg_binsize) * hg.(hg_bincnt)) 0 0)).

(** [fh_time_get] gives the time in microseconds. *)
Definition fh_hist_start (now : Z) (hg : fh_hist) : fh_hist :=
  MkHist hg.(hg_key) now hg.(hg_stop) hg.(hg_bincnt) hg.(hg_binsize) hg.(hg_bins) hg.(hg_total) hg.(hg_min)
    hg.(hg_max) hg.(hg_sum).
Definition fh_hist_stop (now : Z) (hg : fh_hist) : fh_hist :=
  MkHist hg.(hg_key) hg.(hg_start) now hg.(hg_bincnt) hg.(hg_binsize) hg.(hg_bins) hg.(hg_total) hg.(hg_min)
    hg.(hg_max) hg.(hg_sum).

(** The name and the size of the bins are not copied. *)
Definition fh_hist_copy (hg_from hg_to : fh_hist) : option fh_hist :=
  guard_ub (hg_from.(hg_bincnt) =? hg_to.(hg_bincnt))
    (Some (MkHist hg_to.(hg_key) hg_from.(hg_start) hg_from.(hg_stop) hg_to.(hg_bincnt) hg_to.(hg_binsize)
             hg_from.(hg_bins) hg_from.(hg_total) hg_from.(hg_min) hg_from.(hg_max) hg_from.(hg_sum))).

(** A line that is printed for a bin: the first and the last value (the bin of
    the outliers has none), how many samples, and the percentile. *)
Record hist_row := MkRow {
  row_first : Z;
  row_last : option Z;
  row_count : Z;
  row_percentile : Z
}.

Definition hist_percentile (hg : fh_hist) (total : Z) : Z := u64 (100 * total) / hg.(hg_total).

(** The loop of [fh_hist_print] from bin [i] on, for [n] more bins. *)
Fixpoint print_bins (hg : fh_hist) (n : nat) (i total : Z) : option (list hist_row * Z) :=
  match n with
  | 0%nat => Some ([], total)
  | S n =>
      count ← hg.(hg_bins) !! Z.to_nat i;
      let total := s64 (total + count) in
      '(rows, last) ← print_bins hg n (i + 1) total;
      if (hg.(hg_min) <=? (i + 1) * hg.(hg_binsize)) && (i * hg.(hg_binsize) <=? hg.(hg_max)) then
        Some (MkRow (i * hg.(hg_binsize)) (Some ((i + 1) * hg.(hg_binsize) - 1)) count
                (hist_percentile hg total) :: rows, last)
      else Some (rows, last)
  end.

(** [fh_hist_print]: the lines for the bins and the total. *)
Definition fh_hist_print (hg : fh_hist) : option (option (list hist_row * Z)) :=
  if hg.(hg_total) =? 0 then Some None
  else
    '(rows, total) ← print_bins hg (Z.to_nat hg.(hg_bincnt)) 0 0;
    let i := hg.(hg_bincnt) in
    count ← hg.(hg_bins) !! Z.to_nat i;
    let total := s64 (total + count) in
    Some (Some (if i * hg.(hg_binsize) <=? hg.(hg_max)
                then rows ++ [MkRow (i * hg.(hg_binsize)) None count (hist_percentile hg total)]
                else rows, total)).

(** ** Profiling *)

Record fh_prof := MkProf {
  prof_name : list Z;
  prof_hist : option fh_hist;
  prof_hist_cpy : option fh_hist;
  prof_beg : Z;
  prof_end : Z;
  prof_count : Z;
  prof_samples : Z;              (* 32 bits *)
  prof_bincnt : Z;               (* 16 bits *)
  prof_binsize : Z;              (* 16 bits *)
  prof_cpuspeed : Z;             (* 32 bits *)
  prof_ready : Z;
  prof_init : Z
}.

(** [FH_PROF_DECL] *)
Definition FH_PROF_DECL (tag : list Z) (n c s : Z) : fh_prof :=
  MkProf tag None None 0 0 1 (u32 n) (u16 c) (u16 s) 0 0 0.

(** [cpuspeed]: what [fh_cpu_rdspeed] reads. *)
Definition fh_prof_init (malloc : Z -> bool) (cpuspeed now : Z) (p : fh_prof) : option fh_prof :=
  if p.(prof_init) =? 0 then
    hist ← fh_hist_new malloc p.(prof_name) p.(prof_bincnt) p.(prof_binsize);
    hist ← hist;
    copy ← fh_hist_new malloc p.(prof_name) p.(prof_bincnt) p.(prof_binsize);
    copy ← copy;
    Some (MkProf p.(prof_name) (Some (fh_hist_start now hist)) (Some copy) p.(prof_beg) p.(prof_end)
            p.(prof_count) p.(prof_samples) p.(prof_bincnt) p.(prof_binsize) cpuspeed p.(prof_ready) 1)
  else Some p.

(** [tsc]: the cycle counter of the processor. *)
Definition fh_prof_beg (tsc : Z) (p : fh_prof) : fh_prof :=
  MkProf p.(prof_name) p.(prof_hist) p.(prof_hist_cpy) tsc p.(prof_end) p.(prof_count) p.(prof_samples)
    p.(prof_bincnt) p.(prof_binsize) p.(prof_cpuspeed) p.(prof_ready) p.(prof_init).

Definition fh_prof_end (tsc stop start : Z) (p : fh_prof) : option fh_prof :=
  if 0 <? p.(prof_beg) then
    let diff := if p.(prof_beg) <? tsc then tsc - p.(prof_beg)
                else u64 (18446744073709551615 - p.(prof_beg) + tsc) in
    guard_ub (negb (p.(prof_cpuspeed) =? 0))
      (let diff := diff / p.(prof_cpuspeed) in
       hist ← p.(prof_hist);
       hist ← fh_hist_add hist (s64 diff);
       let count := u64 (p.(prof_count) + 1) in
       guard_ub (negb (p.(prof_samples) =? 0))
         (if count mod p.(prof_samples) =? 0 then
            let hist := fh_hist_stop stop hist in
            copy ← p.(prof_hist_cpy);
            copy ← fh_hist_copy hist copy;
            hist ← fh_hist_reset hist;
            let hist := fh_hist_start start hist in
            Some (MkProf p.(prof_name) (Some hist) (Some copy) 0 tsc count p.(prof_samples) p.(prof_bincnt)
                    p.(prof_binsize) p.(prof_cpuspeed) 1 p.(prof_init))
          else
            Some (MkProf p.(prof_name) (Some hist) p.(prof_hist_cpy) 0 tsc count p.(prof_samples)
                    p.(prof_bincnt) p.(prof_binsize) p.(prof_cpuspeed) p.(prof_ready) p.(prof_init))))
  else Some p.

Definition fh_prof_print (p : fh_prof) : option (option (list hist_row * Z) * fh_prof) :=
  if negb (p.(prof_ready) =? 0) then
    copy ← p.(prof_hist_cpy);
    out ← fh_hist_print copy;
    Some (out, MkProf p.(prof_name) p.(prof_hist) p.(prof_hist_cpy) p.(prof_beg) p.(prof_end) p.(prof_count)
                 p.(prof_samples) p.(prof_bincnt) p.(prof_binsize) p.(prof_cpuspeed) 0 p.(prof_init))
  else Some (None, p).

(** ** What a histogram holds *)

Fixpoint hist_add_all (samples : list Z) (hg : fh_hist) : option fh_hist :=
  match samples with
  | [] => Some hg
  | x :: samples => hg ← fh_hist_add hg x; hist_add_all samples hg
  end.

Section spec.
Context (bincnt binsize : Z).

(** The bin of a sample; those beyond the last are outliers. *)
Definition bin_of (x : Z) : Z := Z.min (x / binsize) bincnt.
Definition in_bin (l : list Z) (i : Z) : Z := Z.of_nat (length (filter (fun x => bin_of x = i) l)).
Definition kept (l : list Z) : list Z := filter (fun x => 0 <= x) l.
Definition sum_of (l : list Z) : Z := foldl Z.add 0 l.

(** [hg] holds the samples [l]. *)
Record hist_of (l : list Z) (hg : fh_hist) : Prop := {
  ho_bincnt : hg.(hg_bincnt) = bincnt;
  ho_binsize : hg.(hg_binsize) = binsize;
  ho_bins : hg.(hg_bins) = in_bin l <$> seqZ 0 (bincnt + 1);
  ho_total : hg.(hg_total) = Z.of_nat (length l);
  ho_min : hg.(hg_min) = foldl Z.min (binsize * bincnt) l;
  ho_max : hg.(hg_max) = foldl Z.max 0 l;
  ho_sum : hg.(hg_sum) = sum_of l
}.

Definition few (l : list Z) : Prop := 100 * Z.of_nat (length l) < 2 ^ 63 /\ sum_of l < 2 ^ 63.
End spec.
