(* ===== verification/HistTheorems.v ===== *)
(** * Histograms: theorems

    A histogram counts every sample once, and what is printed of it accounts
    for every sample. *)
From S2P Require Import Prelude Hist.

(** Whether a sample is in the range of a line, or before its end. *)
Definition up_to (r : hist_row) (x : Z) : Prop := match row_last r with Some last => x <= last | None => True end.
Definition in_row (r : hist_row) (x : Z) : Prop := row_first r <= x /\ up_to r x.
#[export] Instance up_to_dec r x : Decision (up_to r x).
Proof. unfold up_to. destruct (row_last r); apply _. Defined.
#[export] Instance in_row_dec r x : Decision (in_row r x) := _.

Section hist.
Context (bincnt binsize : Z) (Hcnt : 0 <= bincnt) (Hsize : 0 < binsize).

Notation bin_of := (bin_of bincnt binsize).
Notation in_bin := (in_bin bincnt binsize).
Notation hist_of := (hist_of bincnt binsize).

Lemma bin_of_range x : 0 <= x -> 0 <= bin_of x <= bincnt.
Proof. intros Hx. unfold Hist.bin_of. assert (0 <= x / binsize) by (apply Z.div_pos; lia). lia. Qed.

Lemma in_bin_snoc l x i : in_bin (l ++ [x]) i = in_bin l i + (if bool_decide (bin_of x = i) then 1 else 0).
Proof.
  unfold Hist.in_bin. rewrite filter_app, length_app, filter_cons, filter_nil.
  case_bool_decide; [rewrite decide_True by done | rewrite decide_False by done]; cbn [length]; lia.
Qed.

Lemma in_bin_le l i : 0 <= in_bin l i <= Z.of_nat (length l).
Proof. unfold Hist.in_bin. pose proof (length_filter (fun x => bin_of x = i) l). lia. Qed.

Lemma bins_lookup l i : 0 <= i <= bincnt -> (in_bin l <$> seqZ 0 (bincnt + 1)) !! Z.to_nat i = Some (in_bin l i).
Proof.
  intros Hi. rewrite list_lookup_fmap, lookup_seqZ_lt by lia. cbn [fmap option_fmap option_map]. do 2 f_equal. lia.
Qed.

Lemma bins_snoc l x : 0 <= x ->
  <[Z.to_nat (bin_of x) := in_bin l (bin_of x) + 1]> (in_bin l <$> seqZ 0 (bincnt + 1)) =
  in_bin (l ++ [x]) <$> seqZ 0 (bincnt + 1).
Proof.
  intros Hx. pose proof (bin_of_range x Hx). apply list_eq. intros i.
  destruct (decide (i < Z.to_nat (bincnt + 1))%nat) as [Hi|Hi].
  2: { rewrite !lookup_ge_None_2; [done | |]; rewrite ?length_insert, length_fmap, length_seqZ; lia. }
  assert (exists j, i = Z.to_nat j /\ 0 <= j <= bincnt) as (j & -> & Hj) by (exists (Z.of_nat i); lia).
  rewrite (bins_lookup (l ++ [x])) by lia.
  rewrite in_bin_snoc. case_bool_decide as Hb.
  - rewrite Hb, list_lookup_insert_eq; [done|]. rewrite length_fmap, length_seqZ. lia.
  - rewrite list_lookup_insert_ne by lia. rewrite bins_lookup by lia. f_equal. lia.
Qed.

Lemma foldl_snoc {A B} (f : A -> B -> A) l x a : foldl f a (l ++ [x]) = f (foldl f a l) x.
Proof. by rewrite foldl_app. Qed.

Lemma sum_of_app l1 l2 : sum_of (l1 ++ l2) = sum_of l1 + sum_of l2.
Proof.
  unfold sum_of. induction l2 as [|x l2 IH] using rev_ind; [rewrite app_nil_r; cbn; lia|].
  rewrite app_assoc, !foldl_snoc. lia.
Qed.

Lemma sum_of_nonneg l : Forall (fun x => 0 <= x) l -> 0 <= sum_of l.
Proof.
  induction l as [|x l IH] using rev_ind; intros H; [done|]. apply Forall_app in H as [Hl [Hx _]%Forall_cons].
  rewrite sum_of_app. specialize (IH Hl). unfold sum_of at 2. cbn. lia.
Qed.

Lemma kept_nonneg l : Forall (fun x => 0 <= x) (kept l).
Proof. apply Forall_forall. by intros x [Hx _]%list_elem_of_filter. Qed.

(** A sample is put in one bin. *)
Lemma hist_add_of l hg x : hist_of l hg -> 0 <= x -> few (l ++ [x]) -> exists hg',
  fh_hist_add hg x = Some hg' /\ hist_of (l ++ [x]) hg'.
Proof.
  intros [H1 H2 H3 H4 H5 H6 H7] Hx [Hlen Hsum]. rewrite length_app in Hlen. cbn [length] in Hlen.
  rewrite sum_of_app in Hsum. unfold sum_of at 2 in Hsum. cbn [foldl] in Hsum.
  pose proof (bin_of_range x Hx) as Hb. pose proof (in_bin_le l (bin_of x)) as Hle.
  unfold fh_hist_add. rewrite (proj2 (Z.leb_le _ _) Hx), H1, H2, H3, H4, H7.
  rewrite (proj2 (Z.eqb_neq binsize 0)) by lia. cbn [guard_ub negb]. rewrite Z.quot_div_nonneg by lia.
  assert (E : (if bincnt <? x / binsize then bincnt else x / binsize) = bin_of x).
  { unfold Hist.bin_of. destruct (Z.ltb_spec bincnt (x / binsize)); lia. }
  rewrite E, (proj2 (Z.leb_le 0 (bin_of x))) by lia. cbn [guard_ub]. rewrite bins_lookup by lia.
  cbn [mbind option_bind]. rewrite (proj2 (Z.ltb_lt _ _)) by lia. cbn [guard_ub]. eexists. split; [done|].
  rewrite !u64_small by lia. rewrite (bins_snoc l x Hx).
  constructor; cbn; [done | done | done | | | |].
  - rewrite length_app. cbn [length]. lia.
  - rewrite foldl_snoc, <- H5. destruct (Z.ltb_spec x (hg_min hg)); lia.
  - rewrite foldl_snoc, <- H6. destruct (Z.ltb_spec (hg_max hg) x); lia.
  - rewrite sum_of_app. unfold sum_of at 3. cbn [foldl]. lia.
Qed.

Lemma few_app l1 l2 : Forall (fun x => 0 <= x) l2 -> few (l1 ++ l2) -> few l1.
Proof.
  intros H [Hlen Hsum]. rewrite length_app in Hlen. rewrite sum_of_app in Hsum.
  pose proof (sum_of_nonneg l2 H). split; lia.
Qed.

(** Negative samples are not counted, any other is. *)
Lemma hist_add_all_of samples : forall l hg, hist_of l hg -> few (l ++ kept samples) -> exists hg',
  hist_add_all samples hg = Some hg' /\ hist_of (l ++ kept samples) hg'.
Proof.
  induction samples as [|x samples IH]; intros l hg Hl Hf.
  { cbn in *. rewrite app_nil_r in *. by exists hg. }
  cbn [hist_add_all]. unfold kept in *. rewrite filter_cons in *. case_decide as Hx.
  - rewrite cons_middle, app_assoc in *. destruct (hist_add_of l hg x Hl Hx) as (hg1 & -> & H1).
    { by eapply few_app; [apply kept_nonneg|]. }
    cbn [mbind option_bind]. by apply IH.
  - unfold fh_hist_add. rewrite (proj2 (Z.leb_gt 0 x)) by lia. cbn [mbind option_bind]. by apply IH.
Qed.

Lemma bins_empty n : 0 <= n -> replicate (Z.to_nat n) 0 = in_bin [] <$> seqZ 0 n.
Proof.
  intros Hn. symmetry. apply list_eq_same_length with (n := Z.to_nat n);
    [by rewrite length_replicate | by rewrite length_fmap, length_seqZ |].
  intros i x y _ Hx Hy. apply lookup_replicate in Hy as [-> _].
  apply list_lookup_fmap_Some in Hx as (z & E1 & E2). by simplify_eq.
Qed.

Lemma hist_new_of malloc key hg : fh_hist_new malloc key bincnt binsize = Some (Some hg) -> hist_of [] hg.
Proof.
  unfold fh_hist_new, guard_ub. intros H. repeat split_match_in H; try congruence. injection H as <-.
  constructor; try done. cbn. apply bins_empty. lia.
Qed.

Lemma hist_reset_of l hg : hist_of l hg -> fits_int (binsize * bincnt) = true -> bincnt + 1 < 2 ^ 31 ->
  exists hg', fh_hist_reset hg = Some hg' /\ hist_of [] hg'.
Proof.
  intros [H1 H2 H3 H4 H5 H6 H7] Hf Hn. unfold fh_hist_reset. rewrite H1, H2, Hf.
  assert (E : fits_int (bincnt + 1) = true) by (unfold fits_int; apply andb_true_iff; lia). rewrite E.
  eexists. split; [reflexivity|]. constructor; try done. cbn. apply bins_empty. lia.
Qed.

Lemma hist_copy_of l hg hg' : hist_of l hg -> hg'.(hg_bincnt) = bincnt -> hg'.(hg_binsize) = binsize ->
  exists hg2, fh_hist_copy hg hg' = Some hg2 /\ hist_of l hg2.
Proof.
  intros [H1 H2 H3 H4 H5 H6 H7] E1 E2. unfold fh_hist_copy. rewrite H1, E1, Z.eqb_refl. eexists. split; [reflexivity|].
  by constructor.
Qed.

(** ** Printing *)

(** How many samples are in the bins before [i]. *)
Definition below (l : list Z) (i : Z) : Z := Z.of_nat (length (filter (fun x => bin_of x < i) l)).

Lemma below_step l i : below l (i + 1) = below l i + in_bin l i.
Proof.
  unfold below, Hist.in_bin. induction l as [|x l IH]; [done|]. rewrite !filter_cons.
  repeat case_decide; cbn [length]; lia.
Qed.

Lemma below_le l i : 0 <= below l i <= Z.of_nat (length l).
Proof. unfold below. pose proof (length_filter (fun x => bin_of x < i) l). lia. Qed.

Lemma below_0 l : Forall (fun x => 0 <= x) l -> below l 0 = 0.
Proof.
  intros H. unfold below. induction H as [|x l Hx _ IH]; [done|]. rewrite filter_cons.
  pose proof (bin_of_range x Hx). by rewrite decide_False by lia.
Qed.

Lemma below_all l : below l (bincnt + 1) = Z.of_nat (length l).
Proof.
  unfold below. induction l as [|x l IH]; [done|]. rewrite filter_cons.
  rewrite decide_True by (unfold Hist.bin_of; lia). cbn [length]. lia.
Qed.

Definition row_of (l : list Z) (i : Z) : hist_row :=
  MkRow (i * binsize) (if i <? bincnt then Some ((i + 1) * binsize - 1) else None) (in_bin l i)
    (100 * below l (i + 1) / Z.of_nat (length l)).

Definition shown (l : list Z) (i : Z) : Prop :=
  foldl Z.min (binsize * bincnt) l <= (i + 1) * binsize /\ i * binsize <= foldl Z.max 0 l.
Instance shown_dec l i : Decision (shown l i) := _.

Lemma percentile_of l hg i : hist_of l hg -> few l ->
  hist_percentile hg (below l i) = 100 * below l i / Z.of_nat (length l).
Proof.
  intros H [Hf _]. unfold hist_percentile. rewrite (ho_total _ _ _ _ H). pose proof (below_le l i).
  by rewrite u64_small by lia.
Qed.

Lemma print_bins_of l hg : hist_of l hg -> few l -> forall n i, 0 <= i -> i + Z.of_nat n = bincnt ->
  print_bins hg n i (below l i) = Some (row_of l <$> filter (shown l) (seqZ i (Z.of_nat n)), below l bincnt).
Proof.
  intros H Hf. induction n as [|n IH]; intros i Hi Hn.
  { cbn. do 2 f_equal. f_equal. lia. }
  cbn [print_bins]. rewrite (ho_bins _ _ _ _ H), bins_lookup by lia. cbn [mbind option_bind].
  pose proof (below_step l i) as Hs. pose proof (below_le l (i + 1)). destruct Hf as [Hlen Hsum] eqn:Ef.
  rewrite <- Hs, s64_small, IH by lia. cbn [mbind option_bind].
  rewrite (ho_min _ _ _ _ H), (ho_max _ _ _ _ H), (ho_binsize _ _ _ _ H), percentile_of by done.
  rewrite (seqZ_cons i) by lia. rewrite filter_cons.
  replace (Z.pred (Z.of_nat (S n))) with (Z.of_nat n) by lia. replace (Z.succ i) with (i + 1) by lia.
  case_decide as Hd; unfold shown in Hd.
  - rewrite (proj2 (Z.leb_le _ _) (proj1 Hd)), (proj2 (Z.leb_le _ _) (proj2 Hd)). cbn [andb fmap list_fmap].
    unfold row_of at 2. by rewrite (proj2 (Z.ltb_lt i bincnt)) by lia.
  - destruct (_ && _) eqn:E; [|done]. bool_to_prop. by destruct Hd.
Qed.

Lemma foldl_min_le l : forall a, foldl Z.min a l <= a.
Proof. induction l as [|x l IH]; intros a; cbn; [lia|]. specialize (IH (Z.min a x)). lia. Qed.

Lemma foldl_min_elem l : forall a x, x ∈ l -> foldl Z.min a l <= x.
Proof.
  induction l as [|y l IH]; intros a x; [by intros ?%elem_of_nil|]. intros [->|Hx]%elem_of_cons; cbn.
  - pose proof (foldl_min_le l (Z.min a y)). lia.
  - by apply IH.
Qed.

Lemma foldl_max_ge l : forall a, a <= foldl Z.max a l.
Proof. induction l as [|x l IH]; intros a; cbn; [lia|]. specialize (IH (Z.max a x)). lia. Qed.

Lemma foldl_max_elem l : forall a x, x ∈ l -> x <= foldl Z.max a l.
Proof.
  induction l as [|y l IH]; intros a x; [by intros ?%elem_of_nil|]. intros [->|Hx]%elem_of_cons; cbn.
  - pose proof (foldl_max_ge l (Z.max a y)). lia.
  - by apply IH.
Qed.

Lemma row_of_outliers l : row_of l bincnt = MkRow (bincnt * binsize) None (in_bin l bincnt)
  (100 * Z.of_nat (length l) / Z.of_nat (length l)).
Proof. unfold row_of. by rewrite Z.ltb_irrefl, below_all. Qed.

(** The bins that are printed, in order, and the number of all samples. *)
Lemma hist_print_of l hg : hist_of l hg -> few l -> Forall (fun x => 0 <= x) l -> l <> [] ->
  fh_hist_print hg = Some (Some (row_of l <$> filter (shown l) (seqZ 0 (bincnt + 1)), Z.of_nat (length l))).
Proof.
  intros H Hf Hl Hne. unfold fh_hist_print. rewrite (ho_total _ _ _ _ H), (ho_bincnt _ _ _ _ H).
  rewrite (proj2 (Z.eqb_neq _ 0)) by (destruct l; [done | cbn [length]; lia]).
  pose proof (print_bins_of l hg H Hf (Z.to_nat bincnt) 0 ltac:(lia) ltac:(lia)) as E. rewrite below_0 in E by done.
  rewrite E. cbn [mbind option_bind]. rewrite (ho_bins _ _ _ _ H), bins_lookup by lia. cbn [mbind option_bind].
  pose proof (below_step l bincnt) as Hs. pose proof (below_le l (bincnt + 1)). pose proof (proj1 Hf) as Hlen.
  rewrite <- Hs, s64_small, percentile_of by (done || lia). rewrite below_all. rewrite Z2Nat.id by lia.
  rewrite (ho_binsize _ _ _ _ H), (ho_max _ _ _ _ H). do 2 f_equal. f_equal.
  rewrite (seqZ_app 0 bincnt 1), filter_app, fmap_app by lia. change (seqZ (0 + bincnt) 1) with [0 + bincnt].
  rewrite filter_cons, filter_nil. replace (0 + bincnt) with bincnt by lia.
  pose proof (foldl_min_le l (binsize * bincnt)). case_decide as Hd; unfold shown in Hd.
  - rewrite (proj2 (Z.leb_le _ _) (proj2 Hd)). cbn [fmap list_fmap]. by rewrite row_of_outliers.
  - destruct (Z.leb_spec (bincnt * binsize) (foldl Z.max 0 l)); [|by rewrite app_nil_r]. destruct Hd. split; [lia | done].
Qed.


Lemma in_row_of l i x : 0 <= x -> 0 <= i <= bincnt -> in_row (row_of l i) x <-> bin_of x = i.
Proof.
  intros Hx Hi. unfold in_row, up_to, row_of, Hist.bin_of. cbn [row_first row_last].
  pose proof (Z.div_mod x binsize ltac:(lia)). pose proof (Z.mod_pos_bound x binsize ltac:(lia)).
  destruct (Z.ltb_spec i bincnt).
  - split; intros E; [assert (x / binsize = i) by nia; lia|]. assert (x / binsize = i) as <- by lia. nia.
  - assert (i = bincnt) as -> by lia. split; intros E; [|split; [nia | done]].
    assert (bincnt <= x / binsize) by (apply Z.div_le_lower_bound; lia). lia.
Qed.

Lemma shown_bin l x : Forall (fun x => 0 <= x) l -> x ∈ l -> shown l (bin_of x).
Proof.
  intros Hl Hx. pose proof (foldl_min_elem l (binsize * bincnt) x Hx). pose proof (foldl_max_elem l 0 x Hx).
  pose proof (foldl_min_le l (binsize * bincnt)). rewrite Forall_forall in Hl. specialize (Hl x Hx).
  pose proof (Z.div_mod x binsize ltac:(lia)). pose proof (Z.mod_pos_bound x binsize ltac:(lia)).
  unfold shown, Hist.bin_of. destruct (Z.min_spec (x / binsize) bincnt) as [[? ->]|[? ->]]; nia.
Qed.

Lemma elem_of_rows l r : r ∈ row_of l <$> filter (shown l) (seqZ 0 (bincnt + 1)) <->
  exists i, r = row_of l i /\ shown l i /\ 0 <= i <= bincnt.
Proof.
  rewrite list_elem_of_fmap. split; intros (i & -> & H); exists i; (split; [done|]).
  - apply list_elem_of_filter in H as [H Hi%elem_of_seqZ]. split; [done | lia].
  - apply list_elem_of_filter. split; [apply H | apply elem_of_seqZ; lia].
Qed.

Lemma count_ext (P Q : Z -> Prop) `{!forall x, Decision (P x)} `{!forall x, Decision (Q x)} l :
  Forall (fun x => 0 <= x) l -> (forall x, 0 <= x -> (P x <-> Q x)) -> length (filter P l) = length (filter Q l).
Proof.
  intros Hl HPQ. induction Hl as [|x l Hx _ IH]; [done|]. rewrite !filter_cons. specialize (HPQ x Hx).
  repeat case_decide; cbn [length]; (lia || tauto).
Qed.

Lemma row_of_count l i : Forall (fun x => 0 <= x) l -> 0 <= i <= bincnt ->
  row_count (row_of l i) = Z.of_nat (length (filter (in_row (row_of l i)) l)).
Proof.
  intros Hl Hi. cbn [row_of row_count]. unfold Hist.in_bin. f_equal. apply count_ext; [done|].
  intros x Hx. by rewrite in_row_of.
Qed.

Lemma row_of_percentile l i : Forall (fun x => 0 <= x) l -> 0 <= i <= bincnt ->
  row_percentile (row_of l i) = 100 * Z.of_nat (length (filter (up_to (row_of l i)) l)) / Z.of_nat (length l).
Proof.
  intros Hl Hi. cbn [row_of row_percentile]. unfold below. do 3 f_equal. apply count_ext; [done|]. intros x Hx.
  unfold up_to. cbn [row_of row_last]. unfold Hist.bin_of.
  pose proof (Z.div_mod x binsize ltac:(lia)). pose proof (Z.mod_pos_bound x binsize ltac:(lia)).
  destruct (Z.ltb_spec i bincnt); [|split; [done | lia]]. split; intros E.
  - assert (x / binsize <= i) by lia. nia.
  - assert (x / binsize < i + 1) by (apply Z.div_lt_upper_bound; lia). lia.
Qed.

(** The least sample, unless all of them are outliers: then it is the bound of
    the outliers, which need not be a sample. *)
Lemma hist_min_outliers l hg : hist_of l hg -> Forall (fun x => binsize * bincnt < x) l ->
  hg.(hg_min) = binsize * bincnt.
Proof.
  intros H Hl. rewrite (ho_min _ _ _ _ H). clear H hg. generalize (binsize * bincnt) as a, Hl. clear Hl.
  induction l as [|x l IH]; intros a Hl; [done|]. apply Forall_cons in Hl as [Hx Hl]. cbn.
  rewrite Z.min_l by lia. by apply IH.
Qed.

(** ** Profiling *)

(** The context [p] has the measurements [l] of the current period. *)
Definition prof_holds (l : list Z) (p : fh_prof) : Prop :=
  (exists h, p.(prof_hist) = Some h /\ hist_of l h) /\
  (exists c, p.(prof_hist_cpy) = Some c /\ c.(hg_bincnt) = bincnt /\ c.(hg_binsize) = binsize) /\
  0 < p.(prof_cpuspeed) /\ 0 < p.(prof_samples).

(** A measurement: the counter before and after, and the times at which a
    period would end and the next one start. *)
Definition measurement : Type := Z * Z * Z * Z.
Definition duration (speed : Z) (m : measurement) : Z := let '(b, e, _, _) := m in (e - b) / speed.
Definition measured (m : measurement) : Prop := let '(b, e, _, _) := m in 0 < b < e /\ e < 2 ^ 63.

Fixpoint prof_measure (ms : list measurement) (p : fh_prof) : option fh_prof :=
  match ms with
  | [] => Some p
  | (b, e, stop, start) :: ms => p ← fh_prof_end e stop start (fh_prof_beg b p); prof_measure ms p
  end.

Lemma prof_end_of l p m : fits_int (binsize * bincnt) = true -> bincnt + 1 < 2 ^ 31 -> prof_holds l p -> measured m ->
  p.(prof_count) + 1 < 2 ^ 64 -> 0 <= p.(prof_count) -> few (l ++ [duration p.(prof_cpuspeed) m]) ->
  exists p', (let '(b, e, stop, start) := m in fh_prof_end e stop start (fh_prof_beg b p)) = Some p' /\
  p'.(prof_count) = p.(prof_count) + 1 /\ p'.(prof_samples) = p.(prof_samples) /\
  p'.(prof_cpuspeed) = p.(prof_cpuspeed) /\
  if (p.(prof_count) + 1) mod p.(prof_samples) =? 0
  then prof_holds [] p' /\ p'.(prof_ready) = 1 /\
       exists c, p'.(prof_hist_cpy) = Some c /\ hist_of (l ++ [duration p.(prof_cpuspeed) m]) c
  else prof_holds (l ++ [duration p.(prof_cpuspeed) m]) p'.
Proof.
  intros Hfit Hn ((h & Eh & Hh) & (c & Ec & Hc1 & Hc2) & Hspeed & Hsamples) Hm Hcount Hcount0 Hf.
  destruct m as [[[b e] stop] start]. cbn [measured duration] in *. destruct Hm as [Hb He].
  assert (Hd : 0 <= (e - b) / prof_cpuspeed p <= e - b).
  { split; [apply Z.div_pos; lia|]. apply Z.div_le_upper_bound; nia. }
  unfold fh_prof_end. cbn [fh_prof_beg prof_beg prof_cpuspeed prof_hist prof_count prof_samples prof_hist_cpy].
  rewrite (proj2 (Z.ltb_lt 0 b)), (proj2 (Z.ltb_lt b e)), (proj2 (Z.eqb_neq _ 0)) by lia. cbn [guard_ub negb].
  rewrite Eh. cbn [mbind option_bind]. rewrite s64_small by lia.
  destruct (hist_add_of l h _ Hh (proj1 Hd) Hf) as (h1 & -> & H1). cbn [mbind option_bind].
  rewrite (proj2 (Z.eqb_neq (prof_samples p) 0)) by lia. cbn [guard_ub negb]. rewrite u64_small by lia.
  destruct (_ =? 0); [|eexists; split; [done|]; repeat split; cbn; eauto 6].
  rewrite Ec. cbn [mbind option_bind].
  assert (H1' : hist_of (l ++ [(e - b) / prof_cpuspeed p]) (fh_hist_stop stop h1)) by (destruct H1; by constructor).
  destruct (hist_copy_of _ _ c H1' Hc1 Hc2) as (c' & -> & Hc'). cbn [mbind option_bind].
  destruct (hist_reset_of _ _ H1' Hfit Hn) as (h2 & -> & H2). cbn [mbind option_bind].
  assert (H2' : hist_of [] (fh_hist_start start h2)) by (destruct H2; by constructor).
  eexists. split; [done|]. repeat split; cbn; eauto.
  exists c'. split; [done|]. split; apply Hc'.
Qed.

(** A period ends when the number of measurements, which starts at one, is a
    multiple of [prof_samples]; what is then there to be printed are exactly
    the measurements since the end of the last one. *)
Lemma prof_period ms : forall l p, fits_int (binsize * bincnt) = true -> bincnt + 1 < 2 ^ 31 -> prof_holds l p ->
  Forall measured ms -> ms <> [] -> 0 <= p.(prof_count) -> p.(prof_count) + Z.of_nat (length ms) < 2 ^ 64 ->
  p.(prof_count) mod p.(prof_samples) + Z.of_nat (length ms) = p.(prof_samples) ->
  few (l ++ (duration p.(prof_cpuspeed) <$> ms)) -> exists p' c,
  prof_measure ms p = Some p' /\ prof_holds [] p' /\ p'.(prof_ready) = 1 /\ p'.(prof_hist_cpy) = Some c /\
  hist_of (l ++ (duration p.(prof_cpuspeed) <$> ms)) c.
Proof.
  induction ms as [|m ms IH]; intros l p Hfit Hn Hp Hms Hne Hc0 Hc Hmod Hf; [done|].
  apply Forall_cons in Hms as [Hm Hms]. cbn [fmap list_fmap length] in *. rewrite cons_middle, app_assoc in Hf |- *.
  assert (Hnn : Forall (fun x => 0 <= x) (duration (prof_cpuspeed p) <$> ms)).
  { apply Forall_fmap. eapply Forall_impl; [exact Hms|]. intros [[[b e] ?] ?] [Hb _]. cbn.
    destruct Hp as (_ & _ & Hspeed & _). apply Z.div_pos; lia. }
  destruct (prof_end_of l p m Hfit Hn Hp Hm) as (p1 & E & E1 & E2 & E3 & H1); [lia | lia | by eapply few_app |].
  assert (Hs : 0 < prof_samples p) by apply Hp.
  assert (Hd : (prof_count p + 1) mod prof_samples p = if bool_decide (ms = []) then 0 else prof_count p mod prof_samples p + 1).
  { rewrite <- Z.add_mod_idemp_l by lia. case_bool_decide as Hnil.
    - subst ms. cbn [length] in Hmod. rewrite (ltac:(lia) : prof_count p mod prof_samples p + 1 = prof_samples p).
      apply Z.mod_same. lia.
    - apply Z.mod_small. pose proof (Z.mod_pos_bound (prof_count p) (prof_samples p) Hs).
      destruct ms; [done|]. cbn [length] in Hmod. lia. }
  destruct m as [[[b e] stop] start]. cbn [prof_measure]. rewrite E. cbn [mbind option_bind]. rewrite Hd in H1.
  case_bool_decide as Hnil.
  - subst ms. cbn [prof_measure fmap list_fmap] in *. rewrite app_nil_r. destruct H1 as (? & ? & c & ? & ?). by exists p1, c.
  - pose proof (Z.mod_pos_bound (prof_count p) (prof_samples p) Hs).
    rewrite (proj2 (Z.eqb_neq _ 0)) in H1 by lia. rewrite <- E3 in Hf |- *.
    rewrite <- E3 in H1.
    apply IH; try done; rewrite ?E1, ?E2; try lia; rewrite ?Hd, ?bool_decide_eq_false_2 by done; lia.
Qed.

End hist.

(** C37: functional. What is printed of a histogram accounts for its samples:
    every sample that is not negative is in the range of exactly one line;
    a line has the number of samples in its range, and for percentile the share
    of those up to its end; the total is their number. *)
Theorem hist_printed malloc key bincnt binsize samples hg : 0 <= bincnt -> 0 < binsize ->
  fh_hist_new malloc key bincnt binsize = Some (Some hg) -> kept samples <> [] -> few (kept samples) ->
  exists hg' rows, hist_add_all samples hg = Some hg' /\
  fh_hist_print hg' = Some (Some (rows, Z.of_nat (length (kept samples)))) /\
  (forall x, x ∈ kept samples -> exists r, r ∈ rows /\ in_row r x /\ forall r', r' ∈ rows -> in_row r' x -> r' = r) /\
  (forall r, r ∈ rows -> row_count r = Z.of_nat (length (filter (in_row r) (kept samples))) /\
    row_percentile r = 100 * Z.of_nat (length (filter (up_to r) (kept samples))) / Z.of_nat (length (kept samples))).
Proof.
  intros Hcnt Hsize Hnew Hne Hf. pose proof (kept_nonneg samples) as Hl.
  destruct (hist_add_all_of bincnt binsize Hcnt Hsize samples [] hg) as (hg' & E & H);
    [by eapply hist_new_of | done |]. cbn [app] in H.
  eexists hg', _. split; [exact E|]. split; [by apply (hist_print_of bincnt binsize)|]. split.
  - intros x Hx. pose proof (proj1 (Forall_forall _ _) Hl x Hx) as Hx0.
    pose proof (bin_of_range bincnt binsize Hcnt Hsize x Hx0) as Hb.
    exists (row_of bincnt binsize (kept samples) (bin_of bincnt binsize x)). split; [|split].
    + apply elem_of_rows; [done..|]. eexists. split; [done|]. split; [by apply shown_bin | done].
    + by apply in_row_of.
    + intros r' (i & -> & _ & Hi)%elem_of_rows Hr; [|done..]. by apply in_row_of in Hr as ->.
  - intros r (i & -> & _ & Hi)%elem_of_rows; [|done..].
    split; [by apply row_of_count | by apply row_of_percentile].
Qed.

(** C37's witness: three samples, one of them an outlier, and a negative one. *)
Lemma hist_printed_witness : exists hg hg' rows,
  fh_hist_new (fun _ => true) [104] 2 10 = Some (Some hg) /\ hist_add_all [3; -1; 7; 90] hg = Some hg' /\
  fh_hist_print hg' = Some (Some (rows, 3)) /\
  (forall r, r ∈ rows -> row_count r = Z.of_nat (length (filter (in_row r) [3; 7; 90]))).
Proof.
  eexists. destruct (hist_printed (fun _ => true) [104] 2 10 [3; -1; 7; 90] (MkHist [104] 0 0 2 10 [0; 0; 0] 0 20 0 0))
    as (hg' & rows & E1 & E2 & _ & E3); [lia | lia | done | done | done |].
  exists hg', rows. split; [done|]. split; [exact E1|]. split; [exact E2|]. intros r Hr. by apply E3.
Defined.
