(* ===== verification/OpraLine.v ===== *)
(** * OPRA lines
      ([src/feeds/opra/fast/common/fh_opra_lh.c], [fh_opra_lh.h],
      [fh_opra_stats.h])

    The lines A and B of a pair bring the same packets.  A pair has one
    [lh_ftline], with a window of the last sequence numbers, in which the
    packets that came before are recognised. *)
From S2P Require Import Prelude Mpool.

(** ** State *)

Definition WINSZ : Z := 512.
Definition WINSZ_MASK : Z := WINSZ - 1.

Definition OPRA_FTLINE_STATE_OK : Z := 1.
Definition OPRA_FTLINE_STATE_STALE : Z := 2.
Definition OPRA_FTLINE_EVENT_STATE : Z := 1.
Definition OPRA_FTLINE_EVENT_SN_RESET : Z := 2.
Definition OPRA_FTLINE_EVENT_SN_RESET_JUMP : Z := 3.

(** [fh_opra_line_stats_t] *)
Inductive opra_counter :=
  | PktRx | PktErrs | PktDups | PktLate | PktUntilReset | PktBadTimes | PktSeqJump | PktWrapNoreset
  | MsgRx | MsgLoss | MsgRecovered | MsgLate | LineBytes.
#[export] Instance opra_counter_eq : EqDecision opra_counter.
Proof. solve_decision. Defined.

Definition opra_stats : Type := opra_counter -> Z.
Definition bump (c : opra_counter) (n : Z) (s : opra_stats) : opra_stats :=
  fun c' => if decide (c = c') then u64 (s c + n) else s c'.

Record lh_ftline := MkFtLine {
  ftl_options : list Z;
  ftl_config : option Z;         (* ftl_config->oftl_index *)
  ftl_reset_sn : Z;
  ftl_seq_num : Z;
  ftl_missing : Z;
  ftl_window : list Z;
  ftl_state : Z;
  ftl_time : Z
}.

(** [l_ftline] and [l_peer] are indices into the tables. *)
Record lh_line := MkLine {
  l_index : Z;
  l_stats : opra_stats;
  l_ftline : nat;
  l_reset : Z;
  l_peer : option nat;
  l_tap : Z;
  l_seq_num : Z
}.

(** [line_table] and [ftline_table], and the state of the plugin. *)
Record opra_lines (W : Type) := MkLines {
  line_table : list lh_line;
  ftline_table : list lh_ftline;
  lines_world : W
}.
Arguments MkLines {W}.
Arguments line_table {W}.
Arguments ftline_table {W}.
Arguments lines_world {W}.

Definition set_ftl_seq_num sn (f : lh_ftline) : lh_ftline :=
  MkFtLine f.(ftl_options) f.(ftl_config) f.(ftl_reset_sn) sn f.(ftl_missing) f.(ftl_window) f.(ftl_state) f.(ftl_time).
Definition set_ftl_missing n (f : lh_ftline) : lh_ftline :=
  MkFtLine f.(ftl_options) f.(ftl_config) f.(ftl_reset_sn) f.(ftl_seq_num) n f.(ftl_window) f.(ftl_state) f.(ftl_time).
Definition set_ftl_window w (f : lh_ftline) : lh_ftline :=
  MkFtLine f.(ftl_options) f.(ftl_config) f.(ftl_reset_sn) f.(ftl_seq_num) f.(ftl_missing) w f.(ftl_state) f.(ftl_time).
Definition set_ftl_state s (f : lh_ftline) : lh_ftline :=
  MkFtLine f.(ftl_options) f.(ftl_config) f.(ftl_reset_sn) f.(ftl_seq_num) f.(ftl_missing) f.(ftl_window) s f.(ftl_time).
Definition set_ftl_time t (f : lh_ftline) : lh_ftline :=
  MkFtLine f.(ftl_options) f.(ftl_config) f.(ftl_reset_sn) f.(ftl_seq_num) f.(ftl_missing) f.(ftl_window) f.(ftl_state) t.
Definition set_ftl_options o (f : lh_ftline) : lh_ftline :=
  MkFtLine o f.(ftl_config) f.(ftl_reset_sn) f.(ftl_seq_num) f.(ftl_missing) f.(ftl_window) f.(ftl_state) f.(ftl_time).

Definition set_l_stats s (l : lh_line) : lh_line :=
  MkLine l.(l_index) s l.(l_ftline) l.(l_reset) l.(l_peer) l.(l_tap) l.(l_seq_num).
Definition set_l_reset r (l : lh_line) : lh_line :=
  MkLine l.(l_index) l.(l_stats) l.(l_ftline) r l.(l_peer) l.(l_tap) l.(l_seq_num).
Definition set_l_seq_num sn (l : lh_line) : lh_line :=
  MkLine l.(l_index) l.(l_stats) l.(l_ftline) l.(l_reset) l.(l_peer) l.(l_tap) sn.

(** [lh_win_init]: both loops. *)
Definition lh_win_init (base_sn : Z) : list Z :=
  let base_idx := Z.land base_sn WINSZ_MASK in
  let base_sn := u32 (base_sn - base_idx) in
  (fun i => if i <=? base_idx then u32 (base_sn + i) else u32 (base_sn + i - WINSZ)) <$> seqZ 0 WINSZ.

(** [fh_ftline_init] *)
Definition OPRA_CFG_MAX_FTLINES : nat := 48.
Definition ftline_init : lh_ftline := MkFtLine [] None 0 0 0 (lh_win_init 0) 0 0.
Definition fh_ftline_init : list lh_ftline := replicate OPRA_CFG_MAX_FTLINES ftline_init.

Section lines.
Context {W : Type}.
(** The hook [FH_PLUGIN_OPRA_FTLINE_EVENT]. *)
Context (opra_lh_ftline_notify : option (lh_ftline -> Z -> W -> W)).
(** [opra_cfg.ocfg_seq_jump_threshold], of 32 bits *)
Context (ocfg_seq_jump_threshold : Z).
Notation st_t := (opra_lines W).

Definition with_line (i : nat) (f : lh_line -> lh_line) (st : st_t) : st_t :=
  MkLines (alter f i st.(line_table)) st.(ftline_table) st.(lines_world).
Definition with_ftline (i : nat) (f : lh_ftline -> lh_ftline) (st : st_t) : st_t :=
  MkLines st.(line_table) (alter f i st.(ftline_table)) st.(lines_world).
Definition count (i : nat) (c : opra_counter) (n : Z) : st_t -> st_t :=
  with_line i (fun l => set_l_stats (bump c n l.(l_stats)) l).

Definition lh_ftline_notify (ftl : nat) (ftline_event : Z) (st : st_t) : st_t :=
  match opra_lh_ftline_notify, st.(ftline_table) !! ftl with
  | Some hook, Some f => MkLines st.(line_table) st.(ftline_table) (hook f ftline_event st.(lines_world))
  | _, _ => st
  end.

(** The line becomes stale, if it is not yet. *)
Definition make_stale (ftl : nat) (f : lh_ftline) (st : st_t) : st_t :=
  if negb (f.(ftl_state) =? OPRA_FTLINE_STATE_STALE) then
    lh_ftline_notify ftl OPRA_FTLINE_EVENT_STATE (with_ftline ftl (set_ftl_state OPRA_FTLINE_STATE_STALE) st)
  else st.

Definition lh_line_reset (i : nat) (reset_sn : Z) (st : st_t) : option st_t :=
  l ← st.(line_table) !! i;
  if negb (l.(l_reset) =? 0) then Some (with_line i (set_l_reset 0) st)
  else
    peer ← l.(l_peer);
    _ ← st.(line_table) !! peer;
    f ← st.(ftline_table) !! l.(l_ftline);
    let st := with_line peer (set_l_reset 1) st in
    let st := with_ftline l.(l_ftline) (fun f =>
      MkFtLine f.(ftl_options) f.(ftl_config) reset_sn reset_sn f.(ftl_missing) (lh_win_init reset_sn)
        f.(ftl_state) f.(ftl_time)) st in
    let st := with_line i (set_l_seq_num reset_sn) st in
    let st := if 0 <? f.(ftl_missing)
              then with_ftline l.(l_ftline) (set_ftl_missing 0) (make_stale l.(l_ftline) f st)
              else st in
    Some (with_ftline l.(l_ftline) (set_ftl_time 0) st).

(** One pass of the loop of [fh_opra_lh_win_update]: whether the message is
    dropped. *)
Definition win_step (i : nat) (msg_sn : Z) (st : st_t) : option (bool * st_t) :=
  l ← st.(line_table) !! i;
  let ftl := l.(l_ftline) in
  f ← st.(ftline_table) !! ftl;
  let idx := Z.to_nat (Z.land msg_sn WINSZ_MASK) in
  win_sn ← f.(ftl_window) !! idx;
  let '(drop, st) :=
    if msg_sn =? u32 (f.(ftl_seq_num) + 1) then (false, with_ftline ftl (set_ftl_seq_num msg_sn) st)
    else if msg_sn <=? f.(ftl_seq_num) then
      if win_sn =? msg_sn then (true, count i PktDups 1 st)
      else if msg_sn =? u32 (win_sn + WINSZ) then
        let st := count i MsgRecovered 1 st in
        (false, if 0 <? f.(ftl_missing) then with_ftline ftl (set_ftl_missing (f.(ftl_missing) - 1)) st else st)
      else (true, count i PktLate 1 st)
    else
      let st :=
        if negb (f.(ftl_seq_num) =? 0) then
          let gap := u32 (msg_sn - u32 (f.(ftl_seq_num) + 1)) in
          count i MsgLoss gap (with_ftline ftl (set_ftl_missing (u32 (f.(ftl_missing) + gap))) st)
        else st in
      (false, with_ftline ftl (set_ftl_seq_num msg_sn) st) in
  if negb drop then
    f ← st.(ftline_table) !! ftl;
    let st := if negb (msg_sn =? u32 (win_sn + WINSZ)) then make_stale ftl f st else st in
    Some (false, with_ftline ftl (fun f => set_ftl_window (<[idx := msg_sn]> f.(ftl_window)) f) st)
  else Some (true, st).

(** The loop, [n] messages to go; the result is [drop]. *)
Fixpoint win_loop (n : nat) (i : nat) (msg_sn : Z) (st : st_t) : option (bool * st_t) :=
  match n with
  | 0%nat => Some (false, st)
  | S n =>
      '(drop, st) ← win_step i msg_sn st;
      if drop : bool then Some (true, st) else win_loop n i (u32 (msg_sn + 1)) st
  end.

Definition fh_opra_lh_win_update (i : nat) (msg_sn num_msgs : Z) (st : st_t) : option (bool * st_t) :=
  win_loop (Z.to_nat num_msgs) i msg_sn st.

(** [fh_opra_lh_is_dup] from the test for a large jump on. *)
Definition is_dup_sequence (i : nat) (msg_sn num_msgs : Z) (st : st_t) : option (bool * st_t) :=
  l ← st.(line_table) !! i;
  st ← (if u32 (l.(l_seq_num) + ocfg_seq_jump_threshold) <=? msg_sn then
          st ← lh_line_reset i (u32 (msg_sn - 1)) st;
          Some (count i PktSeqJump 1 (lh_ftline_notify l.(l_ftline) OPRA_FTLINE_EVENT_SN_RESET_JUMP st))
        else Some st);
  l ← st.(line_table) !! i;
  let st := if l.(l_seq_num) <? msg_sn then with_line i (set_l_seq_num (u32 (msg_sn + (num_msgs - 1)))) st
            else st in
  if negb (l.(l_reset) =? 0) then Some (true, count i PktUntilReset 1 st)
  else fh_opra_lh_win_update i msg_sn (s32 num_msgs) st.

(** The first lines of [fh_opra_lh_is_dup]: the state and the time of the pair. *)
Definition is_dup_begin (ftl : nat) (f : lh_ftline) (msg_time : Z) (st : st_t) : st_t :=
  let st := if f.(ftl_state) =? 0 then make_stale ftl f st else st in
  if (f.(ftl_time) =? 0) || (f.(ftl_time) <? msg_time) then with_ftline ftl (set_ftl_time msg_time) st else st.

(** [fh_opra_lh_is_dup]: the characters are ['H'] with ['C'] (start of day),
    ['K'] (reset), ['A'] (start of test cycle), ['N'] (line integrity), and
    ['C'] (administrative). *)
Definition fh_opra_lh_is_dup (i : nat) (msg_cat msg_type msg_sn num_msgs msg_time : Z) (st : st_t)
    : option (bool * st_t) :=
  l ← st.(line_table) !! i;
  let ftl := l.(l_ftline) in
  f ← st.(ftline_table) !! ftl;
  let st := is_dup_begin ftl f msg_time st in
  if msg_cat =? 72 then
    if msg_type =? 67 then
      let st := lh_ftline_notify ftl OPRA_FTLINE_EVENT_STATE
                  (with_ftline ftl (set_ftl_state OPRA_FTLINE_STATE_OK) st) in
      st ← lh_line_reset i msg_sn st;
      Some (false, st)
    else if msg_type =? 75 then
      st ← lh_line_reset i msg_sn st;
      is_dup_sequence i msg_sn num_msgs (lh_ftline_notify ftl OPRA_FTLINE_EVENT_SN_RESET st)
    else if msg_type =? 65 then
      st ← lh_line_reset i msg_sn st;
      is_dup_sequence i msg_sn num_msgs st
    else if msg_type =? 78 then Some (false, st)
    else is_dup_sequence i msg_sn num_msgs st
  else if msg_cat =? 67 then Some (false, st)
  else is_dup_sequence i msg_sn num_msgs st.

(** [fh_opra_lh_late_opt], [fh_opra_lh_add_opt]: the option joins the pair of
    the line. *)
Definition fh_opra_lh_late_opt (l_index : nat) (st : st_t) : option st_t :=
  _ ← st.(line_table) !! l_index; Some (count l_index MsgLate 1 st).
Definition fh_opra_lh_add_opt (l_index : nat) (opt : Z) (st : st_t) : option (Z * st_t) :=
  l ← st.(line_table) !! l_index;
  f ← st.(ftline_table) !! l.(l_ftline);
  oftl_index ← f.(ftl_config);
  Some (oftl_index, with_ftline l.(l_ftline) (fun f => set_ftl_options (f.(ftl_options) ++ [opt]) f) st).

(** [fh_opra_lh_clr_stats] *)
Definition fh_opra_lh_clr_stats (st : st_t) : st_t :=
  MkLines (set_l_stats (fun _ => 0) <$> st.(line_table)) st.(ftline_table) st.(lines_world).

End lines.

(** ** Initialisation *)

Definition FH_MGMT_MAX_LINES : nat := 12.

(** [fh_opra_line_t], [fh_opra_ftline_t] *)
Record opra_line_cfg := MkLineCfg {
  ol_enable : Z; ol_side : Z; ol_port : Z; ol_mcaddr : Z; ol_ifname : string
}.
Record opra_ftline_cfg := MkFtLineCfg { oftl_index : Z; oftl_line_a : opra_line_cfg; oftl_line_b : opra_line_cfg }.

Section init.
(** What the system answers: whether the socket of a port is there, the
    address of an interface (0 if there is none), and whether the group is
    joined. *)
Context (fh_udp_open : Z -> Z) (fh_net_ifaddr : string -> Z) (fh_mcast_join : Z -> Z -> Z).

Definition no_stats : opra_stats := fun _ => 0.

(** [lh_line_init]: the status, the lines so far and the pairs. *)
Definition lh_line_init (oftl : opra_ftline_cfg) (ol : opra_line_cfg) (ftidx : nat)
    (lines : list lh_line) (ftls : list lh_ftline) : option (Z * list lh_line * list lh_ftline) :=
  ftl ← ftls !! ftidx;
  guard (ftl.(ftl_config) = None \/ ftl.(ftl_config) = Some oftl.(oftl_index));;
  let ftls := <[ftidx := MkFtLine ftl.(ftl_options) (Some oftl.(oftl_index)) ftl.(ftl_reset_sn) ftl.(ftl_seq_num)
                           ftl.(ftl_missing) ftl.(ftl_window) ftl.(ftl_state) ftl.(ftl_time)]> ftls in
  if ol.(ol_side) =? 0 then Some (FH_OK, lines, ftls)
  else
    let rc := fh_udp_open ol.(ol_port) in
    if negb (rc =? FH_OK) then Some (rc, lines, ftls)
    else
      let ifaddr := fh_net_ifaddr ol.(ol_ifname) in
      if ifaddr =? 0 then Some (FH_ERROR, lines, ftls)
      else
        let rc := fh_mcast_join ifaddr ol.(ol_mcaddr) in
        if negb (rc =? FH_OK) then Some (rc, lines, ftls)
        else
          guard (S (length lines) <= FH_MGMT_MAX_LINES)%nat;;
          Some (FH_OK, lines ++ [MkLine (Z.of_nat (length lines)) no_stats ftidx 0 None 0 0], ftls).

(** The loops over the lines A and the lines B, [side] the line of a pair. *)
Fixpoint init_lines (side : opra_ftline_cfg -> opra_line_cfg) (ftidx : nat) (cfgs : list opra_ftline_cfg)
    (lines : list lh_line) (ftls : list lh_ftline) : option (Z * list lh_line * list lh_ftline) :=
  match cfgs with
  | [] => Some (FH_OK, lines, ftls)
  | oftl :: cfgs =>
      if negb ((side oftl).(ol_enable) =? 0) then
        '(rc, lines, ftls) ← lh_line_init oftl (side oftl) ftidx lines ftls;
        if negb (rc =? FH_OK) then Some (rc, lines, ftls)
        else init_lines side (S ftidx) cfgs lines ftls
      else init_lines side (S ftidx) cfgs lines ftls
  end.

(** The loop that associates the lines: [n] is [num_ftlines]. *)
Definition associate (record_bytes : Z) (lines : list lh_line) : list lh_line :=
  let n := (length lines / 2)%nat in
  imap (fun i l =>
    if (i <? 2 * n)%nat then
      MkLine l.(l_index) l.(l_stats) l.(l_ftline) l.(l_reset) (Some (if (i <? n)%nat then n + i else i - n)%nat)
        (if record_bytes =? 0 then 0 else 1) l.(l_seq_num)
    else l) lines.

(** [fh_opra_lh_init], for the lines from [op_line_from] to [op_line_to]; the
    files of the tap are not modelled. *)
Definition fh_opra_lh_init {W : Type} (record_bytes : Z) (cfgs : list opra_ftline_cfg) (w : W) : option (Z * opra_lines W) :=
  '(rc, lines, ftls) ← init_lines oftl_line_a 0 cfgs [] fh_ftline_init;
  if negb (rc =? FH_OK) then Some (rc, MkLines lines ftls w)
  else
    '(rc, lines, ftls) ← init_lines oftl_line_b 0 cfgs lines ftls;
    if negb (rc =? FH_OK) then Some (rc, MkLines lines ftls w)
    else Some (FH_OK, MkLines (associate record_bytes lines) ftls w).

End init.

(** [fh_opra_lh_get_stats]: the place of line [i] of [line_count]. *)
Definition stats_index (line_count i : nat) : nat :=
  if (line_count / 2 <=? i)%nat then (2 * (i - line_count / 2) + 1)%nat else (i * 2)%nat.
Definition fh_opra_lh_get_stats {W : Type} (st : opra_lines W) (resp : list opra_stats) : list opra_stats :=
  let n := length st.(line_table) in
  foldl (fun r '(i, l) => <[stats_index n i := l.(l_stats)]> r) resp (imap pair st.(line_table)).
