(* ===== verification/OpraLineProps.v ===== *)
(** * OPRA lines: the window of sequence numbers

    The window of 512 words is a set of numbers: those that came since the
    last reset. *)
From S2P Require Import Prelude OpraLine.

(** ** The set *)

(** A number is taken if it is beyond the highest, or if of the numbers with
    the same place in the window the one before it came last. *)
Definition seen (base : Z) (A : gset Z) (sn : Z) : Prop := sn <= base \/ sn ∈ A.
#[export] Instance seen_dec base A sn : Decision (seen base A sn) := _.

Definition taken (base seq : Z) (A : gset Z) (sn : Z) : bool :=
  (seq <? sn) || (bool_decide (seen base A (sn - WINSZ)) &&
                  forallb (fun a => (a <? sn) || negb (a mod WINSZ =? sn mod WINSZ)) (elements A)).

Lemma taken_later base seq A sn : taken base seq A sn = true <->
  seq < sn \/ seen base A (sn - WINSZ) /\ forall a, a ∈ A -> a mod WINSZ = sn mod WINSZ -> a < sn.
Proof.
  unfold taken. rewrite orb_true_iff, andb_true_iff, bool_decide_eq_true, Z.ltb_lt, forallb_forall. split.
  - intros [?|[Hs H]]; [by left | right; split; [done|]]. intros a Ha Hm. specialize (H a).
    rewrite <- list_elem_of_In, elem_of_elements, orb_true_iff in H. destruct (H Ha) as [?|Hn]; [lia|].
    bool_to_prop. done.
  - intros [?|[Hs H]]; [by left | right; split; [done|]]. intros a Ha%list_elem_of_In%elem_of_elements.
    destruct (Z.eqb_spec (a mod WINSZ) (sn mod WINSZ)) as [E|]; [|by rewrite orb_true_r].
    rewrite (proj2 (Z.ltb_lt a sn)); [done | by apply H].
Qed.

(** Place [i] of the window has the last number [w] that came for it. *)
Definition slot_ok (base : Z) (A : gset Z) (i w : Z) : Prop :=
  w mod WINSZ = i /\ base - WINSZ < w /\ seen base A w /\ forall a, a ∈ A -> a mod WINSZ = i -> a <= w.

Record win_ok (base : Z) (A : gset Z) (f : lh_ftline) : Prop := {
  wo_base : 0 < base;
  wo_range : base <= f.(ftl_seq_num) < 2 ^ 32 - WINSZ;
  wo_set : forall a, a ∈ A -> base < a <= f.(ftl_seq_num);
  wo_window : forall i, 0 <= i < WINSZ -> exists w, f.(ftl_window) !! Z.to_nat i = Some (u32 w) /\ slot_ok base A i w;
  wo_missing : f.(ftl_missing) = f.(ftl_seq_num) - base - Z.of_nat (size A)
}.

Lemma slot_le base A f i w : win_ok base A f -> slot_ok base A i w -> w <= f.(ftl_seq_num).
Proof.
  intros H (_ & _ & [Hw|Hw] & _); [pose proof (wo_range _ _ _ H); lia|]. apply (wo_set _ _ _ H) in Hw. lia.
Qed.

Lemma mod_step a b : a mod WINSZ = b mod WINSZ -> a < b -> a <= b - WINSZ.
Proof.
  unfold WINSZ. intros E Hl. pose proof (Z.div_mod a 512 ltac:(lia)). pose proof (Z.div_mod b 512 ltac:(lia)). lia.
Qed.

Lemma land_mask sn : 0 <= sn -> Z.land sn WINSZ_MASK = sn mod WINSZ.
Proof. intros H. change WINSZ_MASK with (Z.ones 9). by rewrite Z.land_ones by lia. Qed.

(** The word of a place decides like the set. *)
Lemma slot_new base A f sn w : win_ok base A f -> slot_ok base A (sn mod WINSZ) w -> base < sn ->
  (w = sn - WINSZ <-> seen base A (sn - WINSZ) /\ forall a, a ∈ A -> a mod WINSZ = sn mod WINSZ -> a < sn).
Proof.
  intros H (Hm & Hb & Hs & Hmax) Hsn. split.
  - intros ->. split; [done|]. intros a Ha E. specialize (Hmax a Ha E). unfold WINSZ in *. lia.
  - intros [Hseen Hlt]. assert (Hw : w < sn).
    { destruct Hs as [?|Hs]; [lia | by apply Hlt]. }
    pose proof (mod_step _ _ Hm Hw) as Hle. destruct Hseen as [Hseen|Hseen].
    + destruct (decide (w = sn - WINSZ)); [done|].
      assert (w <= sn - WINSZ - WINSZ); [|lia]. apply mod_step; [|lia].
      rewrite Hm. unfold WINSZ. by rewrite <- (Z.mod_add (sn - 512) 1), Z.sub_add by lia.
    + assert (sn - WINSZ <= w); [|lia]. apply Hmax; [done|].
      unfold WINSZ. by rewrite <- (Z.mod_add (sn - 512) 1), Z.sub_add by lia.
Qed.

Lemma slot_same base A f sn w : win_ok base A f -> slot_ok base A (sn mod WINSZ) w -> base < sn < 2 ^ 32 - WINSZ ->
  (u32 w = sn <-> w = sn) /\ (sn = u32 (u32 w + WINSZ) <-> w = sn - WINSZ) /\ (w = sn -> sn ∈ A).
Proof.
  intros H Hs Hb. pose proof (slot_le _ _ _ _ _ H Hs). destruct Hs as (Hm & Hw & Hs & _).
  pose proof (wo_range _ _ _ H) as Hr. pose proof (wo_base _ _ _ H). unfold WINSZ in *.
  assert (E : u32 (u32 w + 512) = w + 512).
  { unfold u32. rewrite Z.add_mod_idemp_l by lia. apply Z.mod_small. lia. }
  rewrite E. split; [|split; [lia|]].
  - split; [|intros ->; unfold u32; apply Z.mod_small; lia]. unfold u32. intros Eu.
    destruct (Z.ltb_spec w 0) as [Hn|Hn]; [|by rewrite Z.mod_small in Eu by lia].
    rewrite <- (Z.mod_add w 1), Z.mod_small in Eu by lia. lia.
  - intros ->. destruct Hs; [lia | done].
Qed.

(** A number that is taken is put in its place. *)
Lemma win_ok_take base A f sn st ms : win_ok base A f -> base < sn < 2 ^ 32 - WINSZ -> taken base f.(ftl_seq_num) A sn = true ->
  ms = Z.max sn f.(ftl_seq_num) - base - Z.of_nat (size A) - 1 ->
  win_ok base ({[sn]} ∪ A) (MkFtLine f.(ftl_options) f.(ftl_config) f.(ftl_reset_sn) (Z.max sn f.(ftl_seq_num)) ms
    (<[Z.to_nat (Z.land sn WINSZ_MASK) := sn]> f.(ftl_window)) st f.(ftl_time)).
Proof.
  intros H Hsn Ht Hms. pose proof (wo_range _ _ _ H) as Hr. pose proof (wo_base _ _ _ H). apply taken_later in Ht.
  assert (Hnew : forall a, a ∈ A -> a mod WINSZ = sn mod WINSZ -> a < sn).
  { destruct Ht as [Ht|[_ Ht]]; [|done]. intros a Ha _. apply (wo_set _ _ _ H) in Ha. lia. }
  constructor; cbn.
  - done.
  - unfold WINSZ in *. lia.
  - intros a [->%elem_of_singleton|Ha]%elem_of_union; [lia|]. apply (wo_set _ _ _ H) in Ha. lia.
  - intros i Hi. rewrite land_mask by lia. pose proof (Z.mod_pos_bound sn WINSZ ltac:(by unfold WINSZ)).
    destruct (wo_window _ _ _ H i Hi) as (w & Ew & Hm & Hw & Hs & Hmax).
    destruct (decide (i = sn mod WINSZ)) as [->|Hne].
    + exists sn. rewrite list_lookup_insert_eq by (by eapply lookup_lt_Some). split.
      { f_equal. unfold u32. rewrite Z.mod_small by (unfold WINSZ in *; lia). done. }
      split; [done|]. split; [unfold WINSZ in *; lia|]. split; [right; set_solver|].
      intros a [->%elem_of_singleton|Ha]%elem_of_union E; [done|]. specialize (Hnew a Ha E). lia.
    + exists w. rewrite list_lookup_insert_ne by lia. split; [done|]. split; [done|]. split; [done|].
      split; [destruct Hs; [by left | right; set_solver]|].
      intros a [->%elem_of_singleton|Ha]%elem_of_union E; [congruence | by apply Hmax].
  - assert (sn ∉ A) by (intros Ha; specialize (Hnew sn Ha eq_refl); lia).
    rewrite size_union, size_singleton by set_solver. lia.
Qed.

Lemma taken_fresh base A f sn : win_ok base A f -> taken base f.(ftl_seq_num) A sn = true -> sn ∉ A.
Proof.
  intros H [Ht|[_ Ht]]%taken_later Ha; [apply (wo_set _ _ _ H) in Ha; lia | specialize (Ht sn Ha eq_refl); lia].
Qed.

Lemma size_bound base A f : win_ok base A f -> Z.of_nat (size A) <= f.(ftl_seq_num) - base.
Proof.
  intros H. pose proof (wo_range _ _ _ H) as Hr.
  assert (Hsub : A ⊆ list_to_set (seqZ (base + 1) (ftl_seq_num f - base))).
  { intros a Ha. apply elem_of_list_to_set, elem_of_seqZ. apply (wo_set _ _ _ H) in Ha. lia. }
  apply subseteq_size in Hsub. rewrite size_list_to_set, length_seqZ in Hsub by apply NoDup_seqZ. lia.
Qed.

(** A number that is taken late was missing. *)
Lemma taken_size base A f sn : win_ok base A f -> base < sn < 2 ^ 32 - WINSZ -> taken base f.(ftl_seq_num) A sn = true ->
  Z.of_nat (size A) + 1 <= Z.max sn f.(ftl_seq_num) - base.
Proof.
  intros H Hsn Ht. pose proof (taken_fresh _ _ _ _ H Ht) as Hn.
  pose proof (size_bound _ _ _ (win_ok_take _ _ _ _ 0 _ H Hsn Ht eq_refl)) as Hsz. cbn in Hsz.
  rewrite size_union, size_singleton in Hsz by set_solver. lia.
Qed.

(** ** A message *)

Section step.
Context {W : Type} (notify : option (lh_ftline -> Z -> W -> W)).
Notation st_t := (opra_lines W).

(** Only statistics of the lines change. *)
Definition line_fields (l : lh_line) := (l.(l_ftline), l.(l_reset), l.(l_peer), l.(l_tap), l.(l_seq_num)).
Definition calm (st st' : st_t) : Prop := line_fields <$> st.(line_table) = line_fields <$> st'.(line_table).

#[global] Instance calm_preorder : PreOrder calm.
Proof. split; [by intros st | by intros s1 s2 s3; unfold calm; intros -> ->]. Qed.

Lemma calm_with_ftline ftl g (st : st_t) : calm st (with_ftline ftl g st).
Proof. done. Qed.
Lemma calm_count i c n (st : st_t) : calm st (count i c n st).
Proof.
  unfold calm, count, with_line. cbn. symmetry. apply list_eq. intros j. rewrite !list_lookup_fmap.
  destruct (decide (i = j)) as [->|Hne]; [rewrite list_lookup_alter_eq | by rewrite list_lookup_alter_ne].
  by destruct (line_table st !! j).
Qed.
Lemma calm_notify ftl e (st : st_t) : calm st (lh_ftline_notify notify ftl e st).
Proof. unfold lh_ftline_notify. by destruct notify, (ftline_table st !! ftl). Qed.
Lemma ftl_notify ftl e (st : st_t) : ftline_table (lh_ftline_notify notify ftl e st) = ftline_table st.
Proof. unfold lh_ftline_notify. by destruct notify, (ftline_table st !! ftl). Qed.
Lemma ftl_with_ftline ftl g (st : st_t) : ftline_table (with_ftline ftl g st) !! ftl = g <$> ftline_table st !! ftl.
Proof. apply list_lookup_alter_eq. Qed.

Lemma calm_make_stale ftl f (st : st_t) : calm st (make_stale notify ftl f st).
Proof. unfold make_stale. destruct (negb _); [|done]. etransitivity; [apply calm_with_ftline | apply calm_notify]. Qed.
Lemma ftl_make_stale ftl f f' (st : st_t) : ftline_table st !! ftl = Some f' -> ftl_state f' = ftl_state f ->
  ftline_table (make_stale notify ftl f st) !! ftl = Some (set_ftl_state OPRA_FTLINE_STATE_STALE f').
Proof.
  intros H Es. unfold make_stale. destruct (Z.eqb_spec (ftl_state f) OPRA_FTLINE_STATE_STALE) as [E|E]; cbn [negb].
  - rewrite H. f_equal. destruct f'; cbn in *. by rewrite Es, E.
  - by rewrite ftl_notify, ftl_with_ftline, H.
Qed.

(** The line [i] is one of the pair [ftl]. *)
Definition on_pair (i ftl : nat) (st : st_t) : Prop := l_ftline <$> st.(line_table) !! i = Some ftl.

Lemma on_pair_calm i ftl st st' : calm st st' -> on_pair i ftl st -> on_pair i ftl st'.
Proof.
  unfold calm, on_pair. intros Hc H. assert (E : line_fields <$> line_table st !! i = line_fields <$> line_table st' !! i).
  { by rewrite <- !list_lookup_fmap, Hc. }
  destruct (line_table st !! i) as [l|], (line_table st' !! i) as [l'|]; try done. cbn in *.
  unfold line_fields in E. congruence.
Qed.

(** A message that is not dropped: the last lines of the pass. *)
Lemma win_step_keep ftl sn w f base A st ms : win_ok base A f -> base < sn < 2 ^ 32 - WINSZ ->
  taken base f.(ftl_seq_num) A sn = true -> slot_ok base A (sn mod WINSZ) w ->
  ftline_table st !! ftl = Some (set_ftl_missing ms (set_ftl_seq_num (Z.max sn f.(ftl_seq_num)) f)) ->
  ms = Z.max sn f.(ftl_seq_num) - base - Z.of_nat (size A) - 1 -> exists st' f',
  (f1 ← st.(ftline_table) !! ftl;
   let st := if negb (sn =? u32 (u32 w + WINSZ)) then make_stale notify ftl f1 st else st in
   Some (false, with_ftline ftl (fun f => set_ftl_window (<[Z.to_nat (Z.land sn WINSZ_MASK) := sn]> f.(ftl_window)) f) st)) =
    Some (false, st') /\ calm st st' /\ ftline_table st' !! ftl = Some f' /\ win_ok base ({[sn]} ∪ A) f' /\
  f'.(ftl_seq_num) = Z.max sn f.(ftl_seq_num) /\
  f'.(ftl_state) = if negb (bool_decide (seen base A (sn - WINSZ))) then OPRA_FTLINE_STATE_STALE else f.(ftl_state).
Proof.
  intros H Hsn Ht Hs Hf Hms. rewrite Hf. cbn [mbind option_bind].
  pose proof (slot_same _ _ _ _ _ H Hs Hsn) as (_ & E2 & _). pose proof (slot_new _ _ _ _ _ H Hs ltac:(lia)) as E4.
  assert (Estale : (sn =? u32 (u32 w + WINSZ)) = bool_decide (seen base A (sn - WINSZ))).
  { apply Bool.eq_iff_eq_true. rewrite Z.eqb_eq, bool_decide_eq_true, E2, E4. split; [tauto|]. intros Hseen. split; [done|].
    apply taken_later in Ht as [Ht|[_ Ht]]; [|done]. intros a Ha _. apply (wo_set _ _ _ H) in Ha. lia. }
  rewrite Estale. case_bool_decide; cbn [negb]; eexists _, _; (split; [reflexivity|]).
  - split; [apply calm_with_ftline|]. rewrite ftl_with_ftline, Hf. split; [reflexivity|].
    split; [by apply (win_ok_take _ _ _ _ _ _ H) | done].
  - split; [etransitivity; [apply calm_make_stale | apply calm_with_ftline]|].
    rewrite ftl_with_ftline, (ftl_make_stale _ _ _ _ Hf eq_refl). split; [reflexivity|].
    split; [by apply (win_ok_take _ _ _ _ _ _ H) | done].
Qed.

Lemma win_step_spec i ftl sn st f base A : on_pair i ftl st -> ftline_table st !! ftl = Some f -> win_ok base A f ->
  base < sn < 2 ^ 32 - WINSZ -> let t := taken base f.(ftl_seq_num) A sn in
  exists st' f', win_step notify i sn st = Some (negb t, st') /\ calm st st' /\ ftline_table st' !! ftl = Some f' /\
  win_ok base (if t then {[sn]} ∪ A else A) f' /\
  f'.(ftl_seq_num) = (if t then Z.max sn f.(ftl_seq_num) else f.(ftl_seq_num)) /\
  f'.(ftl_state) = if t && negb (bool_decide (seen base A (sn - WINSZ))) then OPRA_FTLINE_STATE_STALE else f.(ftl_state).
Proof.
  intros Hi Hf H Hsn t. unfold on_pair in Hi. destruct (line_table st !! i) as [l|] eqn:El; [|done]. injection Hi as Hl.
  pose proof (wo_range _ _ _ H) as Hr. pose proof (wo_base _ _ _ H) as Hbase. pose proof (size_bound _ _ _ H) as Hsz.
  pose proof (wo_missing _ _ _ H) as Hmiss.
  pose proof (Z.mod_pos_bound sn WINSZ ltac:(by unfold WINSZ)) as Hmod.
  destruct (wo_window _ _ _ H (sn mod WINSZ) ltac:(lia)) as (w & Ew & Hs).
  pose proof (slot_same _ _ _ _ _ H Hs Hsn) as (E1 & E2 & E3).
  pose proof (slot_new _ _ _ _ _ H Hs ltac:(lia)) as E4.
  assert (Hold : sn <= ftl_seq_num f -> t = bool_decide (w = sn - WINSZ)).
  { intros Hle. apply Bool.eq_iff_eq_true. unfold t. rewrite taken_later, bool_decide_eq_true, E4.
    split; [intros [?|?]; [lia | done] | by right]. }
  assert (Hnew : ftl_seq_num f < sn -> t = true) by (intros; apply taken_later; by left).
  unfold win_step. rewrite El. cbn [mbind option_bind]. rewrite Hl, Hf. cbn [mbind option_bind].
  rewrite <- land_mask in Ew by lia. rewrite Ew. cbn [mbind option_bind].
  rewrite (u32_small (ftl_seq_num f + 1)) by (unfold WINSZ in *; lia).
  assert (Hkeep : forall st1 ms, t = true -> calm st st1 ->
    ftline_table st1 !! ftl = Some (set_ftl_missing ms (set_ftl_seq_num (Z.max sn f.(ftl_seq_num)) f)) ->
    ms = Z.max sn f.(ftl_seq_num) - base - Z.of_nat (size A) - 1 -> exists st' f',
    (f1 ← st1.(ftline_table) !! ftl;
     let st := if negb (sn =? u32 (u32 w + WINSZ)) then make_stale notify ftl f1 st1 else st1 in
     Some (false, with_ftline ftl (fun f => set_ftl_window (<[Z.to_nat (Z.land sn WINSZ_MASK) := sn]> f.(ftl_window)) f) st)) =
      Some (negb t, st') /\ calm st st' /\ ftline_table st' !! ftl = Some f' /\
    win_ok base (if t then {[sn]} ∪ A else A) f' /\
    f'.(ftl_seq_num) = (if t then Z.max sn f.(ftl_seq_num) else f.(ftl_seq_num)) /\
    f'.(ftl_state) = if t && negb (bool_decide (seen base A (sn - WINSZ))) then OPRA_FTLINE_STATE_STALE else f.(ftl_state)).
  { intros st1 ms Ht Hc Hf1 Hms. destruct (win_step_keep ftl sn w f base A st1 ms H Hsn Ht Hs Hf1 Hms)
      as (st' & f' & E & Hc' & Hrest). exists st', f'. rewrite Ht. split; [exact E|]. split; [by etransitivity | exact Hrest]. }
  destruct (Z.eqb_spec sn (ftl_seq_num f + 1)) as [Es|Es]; [|destruct (Z.leb_spec sn (ftl_seq_num f)) as [Hle|Hgt]].
  - apply (Hkeep _ (ftl_missing f)); [apply Hnew; lia | apply calm_with_ftline | | lia].
    rewrite ftl_with_ftline, Hf. cbn. f_equal. destruct f; cbn in *. unfold set_ftl_seq_num, set_ftl_missing. cbn. f_equal. lia.
  - destruct (Z.eqb_spec (u32 w) sn) as [Ew1|Ew1]; [|destruct (Z.eqb_spec sn (u32 (u32 w + WINSZ))) as [Ew2|Ew2]].
    + assert (Ht : t = false) by (rewrite (Hold Hle), bool_decide_eq_false, <- E2; unfold WINSZ in *; intros E; rewrite E2 in E; rewrite E1 in Ew1; lia).
      eexists _, f. rewrite Ht. cbn [negb andb]. split; [reflexivity|]. split; [apply calm_count | done].
    + assert (Ht : t = true) by (rewrite (Hold Hle), bool_decide_eq_true; exact (proj1 E2 Ew2)).
      pose proof (taken_size _ _ _ _ H Hsn Ht) as Hsz'.
      apply (Hkeep _ (ftl_missing f - 1)); [done | | | lia].
      * rewrite (proj2 (Z.ltb_lt 0 _)) by lia. etransitivity; [apply (calm_count i MsgRecovered 1) | apply calm_with_ftline].
      * rewrite (proj2 (Z.ltb_lt 0 _)) by lia. rewrite ftl_with_ftline. unfold count, with_line. cbn [ftline_table].
        rewrite Hf. cbn. rewrite Z.max_r by lia. by destruct f.
    + assert (Ht : t = false) by (rewrite (Hold Hle), bool_decide_eq_false, <- E2; exact Ew2).
      eexists _, f. rewrite Ht. cbn [negb andb]. split; [reflexivity|]. split; [apply calm_count | done].
  - rewrite (proj2 (Z.eqb_neq (ftl_seq_num f) 0)) by lia. cbn [negb].
    apply (Hkeep _ (u32 (ftl_missing f + u32 (sn - (ftl_seq_num f + 1))))); [by apply Hnew | | |].
    + etransitivity; [|apply calm_with_ftline]. etransitivity; [apply (calm_with_ftline ftl) | apply calm_count].
    + rewrite ftl_with_ftline. unfold count, with_line. cbn [ftline_table]. rewrite ftl_with_ftline, Hf. cbn.
      by rewrite Z.max_l by lia.
    + rewrite (u32_small (sn - _)) by lia. rewrite u32_small by lia. lia.
Qed.

End step.

(** ** The reference: a packet against the set *)

(** What the pair has seen, without a window: the highest number, the numbers
    since the reset, whether it is stale, and the last number of each line. *)
Record pair_view := MkView { v_seq : Z; v_set : gset Z; v_stale : bool; v_last : nat -> Z }.

Definition take_msg (base sn : Z) (v : pair_view) : bool * pair_view :=
  if taken base v.(v_seq) v.(v_set) sn then
    (false, MkView (Z.max sn v.(v_seq)) ({[sn]} ∪ v.(v_set))
              (v.(v_stale) || negb (bool_decide (seen base v.(v_set) (sn - WINSZ)))) v.(v_last))
  else (true, v).

(** The messages of a packet up to the first that is not taken. *)
Fixpoint take_msgs (base : Z) (n : nat) (sn : Z) (v : pair_view) : bool * pair_view :=
  match n with
  | 0%nat => (false, v)
  | S n => let '(drop, v) := take_msg base sn v in if drop : bool then (true, v) else take_msgs base n (sn + 1) v
  end.

Record opra_packet := MkPkt { p_line : nat; p_cat : Z; p_type : Z; p_sn : Z; p_num : Z; p_time : Z }.

Definition take_packet (base : Z) (p : opra_packet) (v : pair_view) : bool * pair_view :=
  let last := v.(v_last) p.(p_line) in
  let v := if last <? p.(p_sn)
           then MkView v.(v_seq) v.(v_set) v.(v_stale) (fun k => if decide (k = p.(p_line)) then p.(p_sn) + (p.(p_num) - 1) else v.(v_last) k)
           else v in
  take_msgs base (Z.to_nat p.(p_num)) p.(p_sn) v.

(** A packet of data, without a jump on its line. *)
Definition data_packet (cat type : Z) : bool :=
  negb (cat =? 67) && negb ((cat =? 72) && bool_decide (type ∈ [67; 75; 65; 78])).
Definition in_step (thr base : Z) (p : opra_packet) (v : pair_view) : bool :=
  data_packet p.(p_cat) p.(p_type) && (0 <=? p.(p_num)) && (p.(p_num) <? 2 ^ 31) && (base <? p.(p_sn)) &&
  (p.(p_sn) + p.(p_num) <=? 2 ^ 32 - WINSZ) && (p.(p_sn) <? u32 (v.(v_last) p.(p_line) + thr)).

Section packet.
Context {W : Type} (notify : option (lh_ftline -> Z -> W -> W)) (thr : Z).
Notation st_t := (opra_lines W).

(** The pair of the lines [i] and [j], none of which waits for a reset, has
    seen [v]. *)
Definition line_view (ftl : nat) (v : pair_view) (st : st_t) (k : nat) : Prop :=
  exists l, st.(line_table) !! k = Some l /\ l.(l_ftline) = ftl /\ l.(l_reset) = 0 /\ l.(l_seq_num) = v.(v_last) k.
Definition pair_state (i j ftl : nat) (base : Z) (v : pair_view) (st : st_t) : Prop :=
  line_view ftl v st i /\ line_view ftl v st j /\
  exists f, st.(ftline_table) !! ftl = Some f /\ win_ok base v.(v_set) f /\ f.(ftl_seq_num) = v.(v_seq) /\
    f.(ftl_state) = if v.(v_stale) then OPRA_FTLINE_STATE_STALE else OPRA_FTLINE_STATE_OK.

Lemma line_view_calm ftl v (st st' : st_t) k : calm st st' -> line_view ftl v st k -> line_view ftl v st' k.
Proof.
  unfold calm. intros Hc (l & E & H). assert (E' : line_fields <$> line_table st' !! k = Some (line_fields l)).
  { by rewrite <- list_lookup_fmap, <- Hc, list_lookup_fmap, E. }
  destruct (line_table st' !! k) as [l'|] eqn:El; [|done]. exists l'. split; [done|].
  unfold line_fields in E'. cbn in E'. injection E' as -> -> _ _ ->. done.
Qed.

Lemma line_view_last ftl v v' (st : st_t) k : v_last v k = v_last v' k -> line_view ftl v st k -> line_view ftl v' st k.
Proof. intros E (l & ? & ? & ? & ?). exists l. by rewrite <- E. Qed.

Lemma take_msg_last base sn v : v_last (take_msg base sn v).2 = v_last v.
Proof. unfold take_msg. by destruct (taken _ _ _ _). Qed.

Lemma win_step_view i j k ftl base v (st : st_t) sn : pair_state i j ftl base v st -> k = i \/ k = j ->
  base < sn < 2 ^ 32 - WINSZ -> exists st',
  win_step notify k sn st = Some ((take_msg base sn v).1, st') /\ calm st st' /\ pair_state i j ftl base (take_msg base sn v).2 st'.
Proof.
  intros (Hi & Hj & f & Ef & Hw & Eseq & Estate) Hk Hsn.
  assert (Hon : on_pair k ftl st).
  { unfold on_pair. destruct Hk as [-> | ->]; [destruct Hi as (l & -> & ? & _) | destruct Hj as (l & -> & ? & _)]; cbn; by f_equal. }
  destruct (win_step_spec notify k ftl sn st f base (v_set v) Hon Ef Hw Hsn) as (st' & f' & E & Hc & Ef' & Hw' & Eseq' & Estate').
  exists st'. rewrite Eseq in *. unfold take_msg.
  destruct (taken base (v_seq v) (v_set v) sn); cbn [fst snd negb andb] in *; (split; [exact E|]); (split; [exact Hc|]).
  all: repeat split; try (eapply line_view_calm, line_view_last; [exact Hc | | eassumption]; done).
  all: exists f'; split; [done|]; split; [done|]; split; [exact Eseq'|]; cbn; rewrite Estate', Estate.
  - by destruct (v_stale v), (bool_decide _).
  - done.
Qed.

Lemma win_loop_view i j k ftl base n : forall v (st : st_t) sn, pair_state i j ftl base v st -> k = i \/ k = j ->
  base < sn -> sn + Z.of_nat n <= 2 ^ 32 - WINSZ -> exists st',
  win_loop notify n k sn st = Some ((take_msgs base n sn v).1, st') /\ calm st st' /\ pair_state i j ftl base (take_msgs base n sn v).2 st'.
Proof.
  induction n as [|n IH]; intros v st sn Hp Hk Hb Hn; [by exists st|]. cbn [win_loop take_msgs].
  assert (Hbase : 0 < base) by (destruct Hp as (_ & _ & f & _ & Hw & _); apply (wo_base _ _ _ Hw)).
  assert (Hsn : base < sn < 2 ^ 32 - WINSZ) by lia.
  destruct (win_step_view _ _ _ _ _ _ _ _ Hp Hk Hsn) as (st1 & E & Hc & Hp1). rewrite E. cbn [mbind option_bind].
  destruct (take_msg base sn v) as [[|] v1]; cbn [fst snd] in *; [by exists st1|].
  rewrite u32_small by (unfold WINSZ in *; lia). destruct (IH v1 st1 (sn + 1) Hp1 Hk) as (st2 & E2 & Hc2 & Hp2); [lia | lia|].
  exists st2. split; [exact E2|]. split; [by etransitivity | exact Hp2].
Qed.

(** A packet given to its line *)
Definition is_dup_packet (p : opra_packet) (st : st_t) : option (bool * st_t) :=
  fh_opra_lh_is_dup notify thr p.(p_line) p.(p_cat) p.(p_type) p.(p_sn) p.(p_num) p.(p_time) st.

Lemma pair_state_ftl i j ftl base v g (st : st_t) :
  (forall f, ftl_seq_num (g f) = ftl_seq_num f /\ ftl_window (g f) = ftl_window f /\ ftl_missing (g f) = ftl_missing f /\
             ftl_state (g f) = ftl_state f) ->
  pair_state i j ftl base v st -> pair_state i j ftl base v (with_ftline ftl g st).
Proof.
  intros Hg (Hi & Hj & f & Ef & Hw & Eseq & Es). split; [exact Hi|]. split; [exact Hj|]. exists (g f).
  destruct (Hg f) as (E1 & E2 & E3 & E4). rewrite ftl_with_ftline, Ef, E1, E4. split; [done|]. split; [|done].
  destruct Hw. constructor; rewrite ?E1, ?E2, ?E3; done.
Qed.

Lemma is_dup_begin_view i j ftl base v t (st : st_t) : pair_state i j ftl base v st -> exists f,
  ftline_table st !! ftl = Some f /\ pair_state i j ftl base v (is_dup_begin notify ftl f t st).
Proof.
  intros Hp. pose proof Hp as (_ & _ & f & Ef & _ & _ & Es). exists f. split; [done|]. unfold is_dup_begin.
  rewrite Es. replace ((if v_stale v then _ else _) =? 0) with false by (by destruct (v_stale v)).
  destruct ((ftl_time f =? 0) || (ftl_time f <? t)); [|done]. by apply pair_state_ftl.
Qed.

Lemma fh_opra_lh_is_dup_data k cat type sn num t (st : st_t) l f : data_packet cat type = true ->
  line_table st !! k = Some l -> ftline_table st !! l_ftline l = Some f ->
  fh_opra_lh_is_dup notify thr k cat type sn num t st =
  is_dup_sequence notify thr k sn num (is_dup_begin notify (l_ftline l) f t st).
Proof.
  intros Hd El Ef. unfold fh_opra_lh_is_dup. rewrite El. cbn [mbind option_bind]. rewrite Ef. cbn [mbind option_bind].
  unfold data_packet in Hd. apply andb_true_iff in Hd as [H1 H2]. bool_to_prop.
  destruct (Z.eqb_spec cat 72) as [->|?]; cbn [andb] in *.
  - assert (H3 : type ∉ [67; 75; 65; 78]) by (by case_bool_decide). clear H2.
    destruct (Z.eqb_spec type 67) as [->|?]; [set_solver|]. destruct (Z.eqb_spec type 75) as [->|?]; [set_solver|].
    destruct (Z.eqb_spec type 65) as [->|?]; [set_solver|]. destruct (Z.eqb_spec type 78) as [->|?]; [set_solver|]. done.
  - destruct (Z.eqb_spec cat 67); done.
Qed.

Lemma pair_state_last i j ftl base v k sn (st : st_t) : pair_state i j ftl base v st -> k = i \/ k = j ->
  pair_state i j ftl base (MkView v.(v_seq) v.(v_set) v.(v_stale) (fun k' => if decide (k' = k) then sn else v.(v_last) k'))
    (with_line k (set_l_seq_num sn) st).
Proof.
  intros (Hi & Hj & Hf) Hk. assert (H : forall k', line_view ftl v st k' ->
    line_view ftl (MkView v.(v_seq) v.(v_set) v.(v_stale) (fun k' => if decide (k' = k) then sn else v.(v_last) k'))
      (with_line k (set_l_seq_num sn) st) k').
  { intros k' (l & El & H1 & H2 & H3). unfold with_line, line_view. cbn. destruct (decide (k' = k)) as [->|Hne].
    - exists (set_l_seq_num sn l). by rewrite list_lookup_alter_eq, El.
    - exists l. by rewrite list_lookup_alter_ne by congruence. }
  split; [by apply H|]. split; [by apply H|]. exact Hf.
Qed.

Lemma packet_view i j ftl base v p (st : st_t) : pair_state i j ftl base v st -> p_line p = i \/ p_line p = j ->
  in_step thr base p v = true -> exists st',
  is_dup_packet p st = Some ((take_packet base p v).1, st') /\ pair_state i j ftl base (take_packet base p v).2 st'.
Proof.
  intros Hp Hk Hin. unfold in_step in Hin. apply andb_true_iff in Hin as [Hin H5]. apply andb_true_iff in Hin as [Hin H4].
  apply andb_true_iff in Hin as [Hin H3]. apply andb_true_iff in Hin as [Hin H2']. apply andb_true_iff in Hin as [H1 H2].
  bool_to_prop.
  assert (Hbase : 0 < base) by (destruct Hp as (_ & _ & f & _ & Hw & _); apply (wo_base _ _ _ Hw)).
  assert (Hl : line_view ftl v st (p_line p)) by (by destruct Hp as (Hi & Hj & _), Hk as [-> | ->]).
  destruct Hl as (l & El & Eftl & _ & _). destruct (is_dup_begin_view i j ftl base v (p_time p) st Hp) as (f & Ef & Hp1).
  unfold is_dup_packet. rewrite (fh_opra_lh_is_dup_data _ _ _ _ _ _ _ l f) by (done || by rewrite Eftl). rewrite Eftl.
  set (st1 := is_dup_begin notify ftl f (p_time p) st) in *. clearbody st1.
  assert (Hl : line_view ftl v st1 (p_line p)) by (by destruct Hp1 as (Hi & Hj & _), Hk as [-> | ->]).
  destruct Hl as (l1 & El1 & Eftl1 & Er1 & Elast1). unfold is_dup_sequence, take_packet.
  rewrite El1. cbn [mbind option_bind]. rewrite Elast1, (proj2 (Z.leb_gt _ _)) by done. cbn [mbind option_bind].
  rewrite El1. cbn [mbind option_bind]. rewrite Er1, Elast1. cbn [negb Z.eqb]. unfold fh_opra_lh_win_update.
  rewrite (s32_small (p_num p)) by (unfold WINSZ in *; lia).
  rewrite u32_small by (unfold WINSZ in *; lia). match goal with |- context [take_msgs base _ _ ?v1] => set (v2 := v1) end.
  match goal with |- context [win_loop notify _ _ _ ?s1] => assert (Hp2 : pair_state i j ftl base v2 s1) end.
  { unfold v2. destruct (v_last v (p_line p) <? p_sn p); [by apply pair_state_last | done]. }
  destruct (win_loop_view _ _ (p_line p) _ _ (Z.to_nat (p_num p)) v2 _ (p_sn p) Hp2 Hk) as (st2 & E2 & _ & Hp3); [lia | lia|].
  by exists st2.
Qed.

(** The packets in the order in which they come; for each, whether it is a
    duplicate. *)
Fixpoint run_packets (ps : list opra_packet) (st : st_t) : option (list bool * st_t) :=
  match ps with
  | [] => Some ([], st)
  | p :: ps => '(drop, st) ← is_dup_packet p st; '(drops, st) ← run_packets ps st; Some (drop :: drops, st)
  end.

End packet.

Fixpoint take_packets (base : Z) (ps : list opra_packet) (v : pair_view) : list bool * pair_view :=
  match ps with
  | [] => ([], v)
  | p :: ps => let '(drop, v) := take_packet base p v in let '(drops, v) := take_packets base ps v in (drop :: drops, v)
  end.
Fixpoint all_in_step (thr base : Z) (lines : list nat) (ps : list opra_packet) (v : pair_view) : bool :=
  match ps with
  | [] => true
  | p :: ps => bool_decide (p.(p_line) ∈ lines) && in_step thr base p v &&
               all_in_step thr base lines ps (take_packet base p v).2
  end.

(** The numbers of a packet, and those of the packets let through *)
Definition packet_numbers (p : opra_packet) : list Z := seqZ p.(p_sn) p.(p_num).
Definition let_through (ps : list opra_packet) (drops : list bool) : list Z :=
  concat (zip_with (fun p (drop : bool) => if drop then [] else packet_numbers p) ps drops).

Lemma run_packets_view {W : Type} (notify : option (lh_ftline -> Z -> W -> W)) thr i j ftl base ps :
  forall v (st : opra_lines W), pair_state i j ftl base v st -> all_in_step thr base [i; j] ps v = true -> exists st',
  run_packets notify thr ps st = Some ((take_packets base ps v).1, st') /\
  pair_state i j ftl base (take_packets base ps v).2 st'.
Proof.
  induction ps as [|p ps IH]; intros v st Hp Hin; [by exists st|]. cbn [all_in_step] in Hin.
  apply andb_true_iff in Hin as [Hin Hps]. apply andb_true_iff in Hin as [Hline Hin].
  assert (Hl : p_line p = i \/ p_line p = j) by (case_bool_decide; set_solver).
  destruct (packet_view notify thr i j ftl base v p st Hp Hl Hin) as (st1 & E & Hp1). cbn [run_packets take_packets].
  rewrite E. cbn [mbind option_bind]. destruct (take_packet base p v) as [drop v1]; cbn [fst snd] in *.
  destruct (IH v1 st1 Hp1 Hps) as (st2 & E2 & Hp2). rewrite E2. cbn [mbind option_bind].
  destruct (take_packets base ps v1) as [drops v2]. by exists st2.
Qed.

(** ** No number twice *)

(** What is taken was not in the set, and is put in. *)
Lemma take_msgs_set base n : forall sn v, (forall a, a ∈ v_set v -> a <= v_seq v) -> base < sn ->
  let '(drop, v') := take_msgs base n sn v in
  v_set v ⊆ v_set v' /\ (forall a, a ∈ v_set v' -> a <= v_seq v') /\
  (forall a, a ∈ v_set v' -> a ∈ v_set v \/ sn <= a < sn + Z.of_nat n) /\
  (drop = false -> forall a, sn <= a < sn + Z.of_nat n -> a ∉ v_set v /\ a ∈ v_set v').
Proof.
  induction n as [|n IH]; intros sn v Hv Hb; cbn [take_msgs].
  { split; [done|]. split; [done|]. split; [by left | lia]. }
  unfold take_msg. destruct (taken base (v_seq v) (v_set v) sn) eqn:Et; [|split; [done|]; split; [done|]; split; [by left | done]].
  assert (Hn : sn ∉ v_set v).
  { apply taken_later in Et as [Ht|[_ Ht]]; intros Ha; [apply Hv in Ha; lia | specialize (Ht sn Ha eq_refl); lia]. }
  set (v1 := MkView _ _ _ _). specialize (IH (sn + 1) v1). destruct (take_msgs base n (sn + 1) v1) as [drop v'].
  destruct IH as (H1 & H2 & H3 & H4); [|lia|].
  { intros a [->%elem_of_singleton|Ha]%elem_of_union; cbn; [lia|]. apply Hv in Ha. lia. }
  cbn [v_set v1] in *. split; [set_solver|]. split; [done|]. split.
  - intros a Ha. destruct (H3 a Ha) as [[->%elem_of_singleton|?]%elem_of_union|?]; [right; lia | by left | right; lia].
  - intros Hd a Ha. destruct (decide (a = sn)) as [->|?]; [split; [done | set_solver]|].
    destruct (H4 Hd a ltac:(lia)). set_solver.
Qed.

Lemma take_packet_set base p v : (forall a, a ∈ v_set v -> a <= v_seq v) -> base < p_sn p -> 
  let '(drop, v') := take_packet base p v in
  v_set v ⊆ v_set v' /\ (forall a, a ∈ v_set v' -> a <= v_seq v') /\
  (forall a, a ∈ v_set v' -> a ∈ v_set v \/ a ∈ packet_numbers p) /\
  (drop = false -> forall a, a ∈ packet_numbers p -> a ∉ v_set v /\ a ∈ v_set v').
Proof.
  intros Hv Hb. unfold take_packet, packet_numbers. set (v1 := if _ <? _ then _ else _).
  assert (E : v_set v1 = v_set v /\ v_seq v1 = v_seq v) by (unfold v1; by destruct (_ <? _)). clearbody v1. destruct E as [E1 E2].
  rewrite <- E1, <- E2 in *. pose proof (take_msgs_set base (Z.to_nat (p_num p)) (p_sn p) v1 Hv Hb) as H.
  destruct (take_msgs _ _ _ _) as [drop v']. destruct H as (H1 & H2 & H3 & H4). split; [done|]. split; [done|]. split.
  - intros a Ha. rewrite elem_of_seqZ. destruct (H3 a Ha); [by left | right; lia].
  - intros Hd a Ha. apply (H4 Hd). apply elem_of_seqZ in Ha. lia.
Qed.

Lemma take_packets_set base thr lines ps : forall v, (forall a, a ∈ v_set v -> a <= v_seq v) ->
  all_in_step thr base lines ps v = true -> let '(drops, v') := take_packets base ps v in
  v_set v ⊆ v_set v' /\ (forall a, a ∈ v_set v' -> a ∈ v_set v \/ exists p, p ∈ ps /\ a ∈ packet_numbers p) /\
  NoDup (let_through ps drops) /\ (forall a, a ∈ let_through ps drops -> a ∉ v_set v /\ a ∈ v_set v').
Proof.
  induction ps as [|p ps IH]; intros v Hv Hin; cbn [take_packets all_in_step] in *.
  { split; [done|]. split; [by left|]. split; [constructor|]. cbn. set_solver. }
  apply andb_true_iff in Hin as [Hin Hps]. apply andb_true_iff in Hin as [_ Hin].
  assert (Hb : base < p_sn p) by (unfold in_step in Hin; rewrite !andb_true_iff in Hin; lia).
  pose proof (take_packet_set base p v Hv Hb) as Hp. destruct (take_packet base p v) as [drop v1]. destruct Hp as (P1 & P2 & P3 & P4).
  specialize (IH v1 P2 Hps). destruct (take_packets base ps v1) as [drops v']. destruct IH as (H1 & H2 & H3 & H4).
  split; [set_solver|]. split; [|split].
  - intros a Ha. destruct (H2 a Ha) as [Ha1|(q & Hq & Ha1)]; [destruct (P3 a Ha1) as [?|?]; [by left|] |]; right; [exists p | exists q]; split; set_solver.
  - unfold let_through. cbn [zip_with concat]. apply NoDup_app. split; [destruct drop; [constructor | apply NoDup_seqZ]|].
    split; [|exact H3]. intros a Ha Hb'. destruct drop; [set_solver|]. destruct (P4 eq_refl a Ha) as [_ ?]. by apply (H4 a Hb').
  - unfold let_through. cbn [zip_with concat]. intros a [Ha|Ha]%elem_of_app.
    + destruct drop; [set_solver|]. destruct (P4 eq_refl a Ha). set_solver.
    + destruct (H4 a Ha). set_solver.
Qed.

(** ** What is missing *)

Lemma count_absent (A : gset Z) l : NoDup l ->
  (length (filter (.∉ A) l) + size (filter (.∈ A) (list_to_set l : gset Z)) = length l)%nat.
Proof.
  induction l as [|x l IH]; intros Hnd; [done|]. apply NoDup_cons in Hnd as [Hx Hnd]. specialize (IH Hnd).
  cbn [list_to_set]. rewrite filter_union_L by apply _. destruct (decide (x ∈ A)) as [Hin|Hout].
  - rewrite filter_cons_False by (intros H; by apply H). rewrite filter_singleton_L, decide_True by (done || apply _).
    rewrite size_union, size_singleton; [cbn; lia|]. intros y ->%elem_of_singleton. rewrite elem_of_filter, elem_of_list_to_set. tauto.
  - rewrite filter_cons_True, filter_singleton_L, decide_False, union_empty_l_L by (done || apply _). cbn. lia.
Qed.

Lemma missing_count base A f : win_ok base A f ->
  f.(ftl_missing) = Z.of_nat (length (filter (.∉ A) (seqZ (base + 1) (f.(ftl_seq_num) - base)))).
Proof.
  intros H. rewrite (wo_missing _ _ _ H). pose proof (wo_range _ _ _ H).
  pose proof (count_absent A (seqZ (base + 1) (f.(ftl_seq_num) - base)) (NoDup_seqZ _ _)) as E. rewrite length_seqZ in E.
  replace (filter (.∈ A) _) with A in E; [lia|]. apply set_eq. intros a. rewrite elem_of_filter, elem_of_list_to_set, elem_of_seqZ.
  split; [|tauto]. intros Ha. split; [done|]. apply (wo_set _ _ _ H) in Ha. lia.
Qed.
