(* ===== verification/OpraLineTheorems.v ===== *)
(** * OPRA lines: theorems *)
From S2P Require Import Prelude Mpool OpraLine OpraLineProps.

(** ** A reset *)

Lemma lh_win_init_ok base f : 0 < base < 2 ^ 32 - WINSZ ->
  f.(ftl_window) = lh_win_init base -> f.(ftl_seq_num) = base -> f.(ftl_missing) = 0 -> win_ok base ∅ f.
Proof.
  intros Hb Ew Es Em. constructor; rewrite ?Es, ?Em; [lia | lia | set_solver | | rewrite size_empty; lia].
  intros i Hi. rewrite Ew. unfold lh_win_init. cbv zeta.
  rewrite list_lookup_fmap, lookup_seqZ_lt, (land_mask base) by lia.
  pose proof (Z.mod_pos_bound base WINSZ ltac:(by unfold WINSZ)) as Hm. pose proof (Z.div_mod base WINSZ ltac:(by unfold WINSZ)) as Hd.
  cbn [fmap option_fmap option_map]. rewrite Z2Nat.id, Z.add_0_l by lia.
  rewrite (u32_small (base - _)) by (unfold WINSZ in *; lia).
  unfold WINSZ in *. set (k := base / 512) in *. set (r := base mod 512) in *. replace (base - r) with (512 * k) by lia.
  destruct (Z.leb_spec i r); eexists; (split; [reflexivity|]); unfold slot_ok, WINSZ; (split; [|split; [lia|split; [left; lia | set_solver]]]).
  - replace (512 * k + i) with (i + k * 512) by lia. rewrite Z.mod_add, Z.mod_small by lia. done.
  - replace (512 * k + i - 512) with (i + (k - 1) * 512) by lia. rewrite Z.mod_add, Z.mod_small by lia. done.
Qed.

Section run.
Context {W : Type} (notify : option (lh_ftline -> Z -> W -> W)) (thr : Z).
Notation st_t := (opra_lines W).

(** The lines [i] and [j] are a pair. *)
Definition linked (i j ftl : nat) (st : st_t) : Prop :=
  (exists l, st.(line_table) !! i = Some l /\ l.(l_ftline) = ftl /\ l.(l_peer) = Some j /\ l.(l_reset) = 0) /\
  (exists l, st.(line_table) !! j = Some l /\ l.(l_ftline) = ftl /\ l.(l_peer) = Some i /\ l.(l_reset) = 0).

Lemma lines_notify ftl e (st : st_t) : line_table (lh_ftline_notify notify ftl e st) = line_table st.
Proof. unfold lh_ftline_notify. by destruct notify, (ftline_table st !! ftl). Qed.
Lemma lines_make_stale ftl f (st : st_t) : line_table (make_stale notify ftl f st) = line_table st.
Proof. unfold make_stale. destruct (negb _); [by rewrite lines_notify | done]. Qed.

(** What a reset of line [i] does, if the pair does not wait for one. *)
Lemma lh_line_reset_pair i j ftl sn (st : st_t) f : i <> j -> linked i j ftl st -> st.(ftline_table) !! ftl = Some f ->
  exists st' li lj f', lh_line_reset notify i sn st = Some st' /\
  st'.(line_table) !! i = Some li /\ li.(l_ftline) = ftl /\ li.(l_reset) = 0 /\ li.(l_seq_num) = sn /\
  st'.(line_table) !! j = Some lj /\ lj.(l_ftline) = ftl /\ lj.(l_reset) = 1 /\
  l_seq_num <$> st.(line_table) !! j = Some lj.(l_seq_num) /\
  st'.(ftline_table) !! ftl = Some f' /\ f'.(ftl_window) = lh_win_init sn /\ f'.(ftl_seq_num) = sn /\
  f'.(ftl_state) = (if 0 <? f.(ftl_missing) then OPRA_FTLINE_STATE_STALE else f.(ftl_state)) /\
  (0 <= f.(ftl_missing) -> f'.(ftl_missing) = 0).
Proof.
  intros Hij ((l & El & Hf & Hpeer & Hr) & (l2 & El2 & Hf2 & _ & Hr2)) Ef. unfold lh_line_reset.
  rewrite El. cbn [mbind option_bind]. rewrite Hr. cbn [negb Z.eqb]. rewrite Hpeer. cbn [mbind option_bind].
  rewrite El2. cbn [mbind option_bind]. rewrite Hf, Ef. cbn [mbind option_bind].
  set (st1 := with_line i (set_l_seq_num sn) _).
  assert (Hf1 : ftline_table st1 !! ftl = Some (MkFtLine f.(ftl_options) f.(ftl_config) sn sn f.(ftl_missing)
                  (lh_win_init sn) f.(ftl_state) f.(ftl_time))).
  { unfold st1, with_line. cbn [ftline_table]. rewrite ftl_with_ftline. cbn [with_line ftline_table]. by rewrite Ef. }
  assert (Hl1 : exists li lj, line_table st1 !! i = Some li /\ l_ftline li = ftl /\ l_reset li = 0 /\ l_seq_num li = sn /\
    line_table st1 !! j = Some lj /\ l_ftline lj = ftl /\ l_reset lj = 1 /\ l_seq_num lj = l_seq_num l2).
  { unfold st1, with_line, with_ftline. cbn [line_table]. eexists (set_l_seq_num sn l), (set_l_reset 1 l2).
    rewrite list_lookup_alter_eq, list_lookup_alter_ne, El by congruence.
    rewrite (list_lookup_alter_ne _ _ i j), list_lookup_alter_eq, El2 by congruence. done. }
  clearbody st1. destruct Hl1 as (li & lj & E1 & E2 & E3 & E4 & E5 & E6 & E7 & E8).
  destruct (0 <? ftl_missing f) eqn:Em; bool_to_prop.
  all: eexists _, li, lj, _; split; [reflexivity|].
  - cbn [with_ftline line_table]. rewrite lines_make_stale, ftl_with_ftline. cbn [with_ftline line_table ftline_table].
    rewrite list_lookup_alter_eq, (ftl_make_stale _ _ f _ _ Hf1 eq_refl). cbn [fmap option_fmap option_map].
    do 7 (split; [done|]). by rewrite E8.
  - rewrite ftl_with_ftline, Hf1. cbn [fmap option_fmap option_map]. do 7 (split; [done|]).
    rewrite E8. do 5 (split; [done|]). cbn. lia.
Qed.
Lemma is_dup_begin_frame ftl f t (st : st_t) f0 : ftline_table st !! ftl = Some f0 ->
  line_table (is_dup_begin notify ftl f t st) = line_table st /\
  exists f1, ftline_table (is_dup_begin notify ftl f t st) !! ftl = Some f1 /\
  ftl_missing f1 = ftl_missing f0 /\ ftl_window f1 = ftl_window f0 /\ ftl_seq_num f1 = ftl_seq_num f0.
Proof.
  intros E. unfold is_dup_begin. set (st1 := if ftl_state f =? 0 then _ else _).
  assert (H : line_table st1 = line_table st /\ exists f1, ftline_table st1 !! ftl = Some f1 /\
    ftl_missing f1 = ftl_missing f0 /\ ftl_window f1 = ftl_window f0 /\ ftl_seq_num f1 = ftl_seq_num f0).
  { unfold st1. destruct (ftl_state f =? 0); [|by split; [|exists f0]]. rewrite lines_make_stale. split; [done|]. unfold make_stale.
    destruct (negb _); [|by exists f0]. rewrite ftl_notify, ftl_with_ftline, E. cbn. by eexists. }
  clearbody st1. destruct H as [Hl (f1 & E1 & H)]. destruct (_ || _); [|by split; [|exists f1]].
  split; [done|]. rewrite ftl_with_ftline, E1. cbn. by eexists.
Qed.

Definition day_start (k : nat) (sn num t : Z) : opra_packet := MkPkt k 72 67 sn num t.

Lemma is_dup_day_start k l f sn num t (st : st_t) : line_table st !! k = Some l -> ftline_table st !! l_ftline l = Some f ->
  exists st2 f2, is_dup_packet notify thr (day_start k sn num t) st = (st' ← lh_line_reset notify k sn st2; Some (false, st')) /\
  line_table st2 = line_table st /\ ftline_table st2 !! l_ftline l = Some f2 /\ ftl_state f2 = OPRA_FTLINE_STATE_OK /\
  ftl_missing f2 = ftl_missing f /\ ftl_window f2 = ftl_window f /\ ftl_seq_num f2 = ftl_seq_num f.
Proof.
  intros El Ef. unfold is_dup_packet, fh_opra_lh_is_dup, day_start. cbn [p_line p_cat p_type p_sn p_num p_time].
  rewrite El. cbn [mbind option_bind]. rewrite Ef. cbn [mbind option_bind Z.eqb Pos.eqb].
  destruct (is_dup_begin_frame (l_ftline l) f t st f Ef) as [Hlines (f1 & E1 & H1)].
  eexists _, (set_ftl_state OPRA_FTLINE_STATE_OK f1). split; [reflexivity|].
  by rewrite lines_notify, ftl_notify, ftl_with_ftline, E1.
Qed.

Definition start_view (base : Z) (i j : nat) (st : st_t) : pair_view :=
  MkView base ∅ false (fun k => if decide (k = i) then base else default 0 (l_seq_num <$> line_table st !! j)).

(** The start of day on both lines: the pair has seen nothing since. *)
Lemma start_of_day i j ftl base num t num2 t2 sn2 (st : st_t) f : i <> j -> linked i j ftl st -> ftline_table st !! ftl = Some f ->
  0 <= ftl_missing f -> 0 < base < 2 ^ 32 - WINSZ -> exists st',
  run_packets notify thr [day_start i base num t; day_start j sn2 num2 t2] st = Some ([false; false], st') /\
  pair_state i j ftl base (start_view base i j st) st'.
Proof.
  intros Hij Hlink Ef Hmiss Hbase. pose proof Hlink as ((l & El & Hl & _) & _).
  cbn [run_packets]. rewrite <- Hl in Ef. destruct (is_dup_day_start i l f base num t st El Ef) as (st2 & f2 & Ed & Hlines & E2 & _ & Em & _).
  rewrite Hl in E2. assert (Hlink2 : linked i j ftl st2) by (unfold linked; by rewrite Hlines).
  destruct (lh_line_reset_pair i j ftl base st2 f2 Hij Hlink2 E2)
    as (st3 & li & lj & f3 & Er & R1 & R2 & R3 & R4 & R5 & R6 & R7 & R8 & R9 & R10 & R11 & _ & R12).
  rewrite Ed, Er. cbn [mbind option_bind]. rewrite <- R6 in R9.
  destruct (is_dup_day_start j lj f3 sn2 num2 t2 st3 R5 R9) as (st4 & f4 & Ed4 & Hlines4 & E4 & Es4 & Em4 & Ew4 & Eq4).
  rewrite Ed4. unfold lh_line_reset. rewrite Hlines4, R5. cbn [mbind option_bind]. rewrite R7. cbn [negb Z.eqb mbind option_bind].
  eexists. split; [reflexivity|]. rewrite Hlines in R8. unfold start_view. rewrite R8. rewrite R6 in E4.
  split; [|split].
  - exists li. unfold with_line. cbn. by rewrite list_lookup_alter_ne, Hlines4, decide_True by congruence.
  - exists (set_l_reset 0 lj). unfold with_line. cbn. by rewrite list_lookup_alter_eq, Hlines4, R5, decide_False by congruence.
  - exists f4. cbn. split; [done|]. split; [|split; congruence]. apply lh_win_init_ok; [done | congruence | congruence|].
    rewrite Em4. apply R12. lia.
Qed.

Lemma run_packets_app ps qs (st : st_t) : run_packets notify thr (ps ++ qs) st =
  ('(d1, st) ← run_packets notify thr ps st; '(d2, st) ← run_packets notify thr qs st; Some (d1 ++ d2, st)).
Proof.
  revert st. induction ps as [|p ps IH]; intros st; cbn [run_packets app].
  { cbn [mbind option_bind]. by destruct (run_packets notify thr qs st) as [[]|]. }
  destruct (is_dup_packet notify thr p st) as [[d st1]|]; [|done]. cbn [mbind option_bind]. rewrite IH.
  destruct (run_packets notify thr ps st1) as [[d1 st2]|]; [|done]. cbn [mbind option_bind].
  by destruct (run_packets notify thr qs st2) as [[d2 st3]|].
Qed.

End run.

(** ** The pair *)

(** C14: refinement. After the start of day on both lines of a pair, packets
    of data come on the two lines in any order, with numbers above that of
    the start and no jump on a line. Then the window of 512 words gives the
    answers of the reference, which knows all numbers of the day; no number
    is in two packets that are let through; the pair counts as missing the
    numbers up to the highest that no packet brought in time; and it is
    stale if and only if it took a number [n] without [n - 512]. *)
Theorem opra_pair_exactly_once {W : Type} (notify : option (lh_ftline -> Z -> W -> W)) thr i j ftl base num t sn2 num2 t2
    (st : opra_lines W) f ps :
  i <> j -> linked i j ftl st -> ftline_table st !! ftl = Some f -> 0 <= ftl_missing f -> 0 < base < 2 ^ 32 - WINSZ ->
  all_in_step thr base [i; j] ps (start_view base i j st) = true ->
  let '(drops, v) := take_packets base ps (start_view base i j st) in
  exists st' f', run_packets notify thr (day_start i base num t :: day_start j sn2 num2 t2 :: ps) st =
    Some (false :: false :: drops, st') /\
  NoDup (let_through ps drops) /\ (forall a, a ∈ let_through ps drops -> a ∈ v_set v) /\
  (forall a, a ∈ v_set v -> exists p, p ∈ ps /\ a ∈ packet_numbers p) /\
  ftline_table st' !! ftl = Some f' /\ ftl_seq_num f' = v_seq v /\
  ftl_missing f' = Z.of_nat (length (filter (.∉ v_set v) (seqZ (base + 1) (v_seq v - base)))) /\
  ftl_state f' = if v_stale v then OPRA_FTLINE_STATE_STALE else OPRA_FTLINE_STATE_OK.
Proof.
  intros Hij Hlink Ef Hmiss Hbase Hin.
  destruct (start_of_day notify thr i j ftl base num t num2 t2 sn2 st f Hij Hlink Ef Hmiss Hbase) as (st1 & E1 & Hp1).
  destruct (run_packets_view notify thr i j ftl base ps _ st1 Hp1 Hin) as (st2 & E2 & Hp2).
  pose proof (take_packets_set base thr [i; j] ps (start_view base i j st) ltac:(set_solver) Hin) as Hset.
  destruct (take_packets base ps _) as [drops v]. cbn [fst snd] in *. destruct Hset as (_ & H1 & H2 & H3).
  destruct Hp2 as (_ & _ & f' & Ef' & Hw & Eseq & Es). exists st2, f'.
  split; [|split; [done|split; [|split; [|split; [done|split; [done|split; [|done]]]]]]].
  - change (day_start i base num t :: _ :: ps) with ([day_start i base num t; day_start j sn2 num2 t2] ++ ps).
    by rewrite run_packets_app, E1; cbn [mbind option_bind]; rewrite E2.
  - intros a Ha. by apply H3.
  - intros a Ha. destruct (H1 a Ha) as [?|?]; [set_solver | done].
  - rewrite (missing_count _ _ _ Hw), Eseq. done.
Qed.

(** Two lines of one pair, at the start of the program *)
Definition two_lines : opra_lines unit :=
  let l index peer := MkLine index (fun _ => 0) 0 0 (Some peer) 0 0 in
  MkLines [l 0 1%nat; l 1 0%nat] [ftline_init] ().

Lemma two_lines_linked : linked 0 1 0 two_lines.
Proof. split; eexists; (split; [reflexivity|]); done. Defined.

Definition data (k : nat) (sn num : Z) : opra_packet := MkPkt k 107 32 sn num 0.

(** C14's witness: the second line brings 102, 103 first, then the first line
    101 and again 102; 104 is lost. *)
Lemma opra_pair_exactly_once_witness :
  let ps := [data 1 102 2; data 0 101 1; data 0 102 2; data 0 105 1] in
  all_in_step 1000 100 [0%nat; 1%nat] ps (start_view 100 0 1 two_lines) = true /\
  (take_packets 100 ps (start_view 100 0 1 two_lines)).1 = [false; false; true; false] /\
  let '(drops, v) := take_packets 100 ps (start_view 100 0 1 two_lines) in
  exists st' f', run_packets None 1000 (day_start 0 100 1 0 :: day_start 1 100 1 0 :: ps) two_lines =
    Some (false :: false :: drops, st') /\
  NoDup (let_through ps drops) /\ (forall a, a ∈ let_through ps drops -> a ∈ v_set v) /\
  (forall a, a ∈ v_set v -> exists p, p ∈ ps /\ a ∈ packet_numbers p) /\
  ftline_table st' !! 0%nat = Some f' /\ ftl_seq_num f' = v_seq v /\
  ftl_missing f' = Z.of_nat (length (filter (.∉ v_set v) (seqZ (100 + 1) (v_seq v - 100)))) /\
  ftl_state f' = if v_stale v then OPRA_FTLINE_STATE_STALE else OPRA_FTLINE_STATE_OK.
Proof.
  split; [vm_compute; reflexivity|]. split; [vm_compute; reflexivity|].
  apply (opra_pair_exactly_once None 1000 0 1 0 100 1 0 100 1 0 two_lines ftline_init).
  - discriminate.
  - apply two_lines_linked.
  - reflexivity.
  - vm_compute; discriminate.
  - vm_compute; split; reflexivity.
  - vm_compute; reflexivity.
Defined.

(** ** A line that was out *)

(** The packets of a line that stay below a jump *)
Fixpoint no_jump (thr : Z) (k : nat) (last : Z) (qs : list opra_packet) : bool :=
  match qs with
  | [] => true
  | q :: qs => (q.(p_line) =? k)%nat && data_packet q.(p_cat) q.(p_type) && (q.(p_sn) <? u32 (last + thr)) &&
               no_jump thr k (if last <? q.(p_sn) then u32 (q.(p_sn) + (q.(p_num) - 1)) else last) qs
  end.

Section outage.
Context {W : Type} (notify : option (lh_ftline -> Z -> W -> W)) (thr : Z).
Notation st_t := (opra_lines W).

(** A line that waits for a reset drops what comes. *)
Lemma waiting_drops k qs : forall (st : st_t) l f, line_table st !! k = Some l -> ftline_table st !! l_ftline l = Some f ->
  l_reset l <> 0 -> no_jump thr k (l_seq_num l) qs = true -> exists st',
  run_packets notify thr qs st = Some (repeat true (length qs), st').
Proof.
  induction qs as [|q qs IH]; intros st l f El Ef Hr Hj; [by exists st|]. cbn [no_jump] in Hj.
  apply andb_true_iff in Hj as [Hj Hqs]. apply andb_true_iff in Hj as [Hj Hsn]. apply andb_true_iff in Hj as [Hk Hd].
  apply Nat.eqb_eq in Hk. bool_to_prop. cbn [run_packets length repeat]. unfold is_dup_packet. rewrite Hk.
  rewrite (fh_opra_lh_is_dup_data notify thr _ _ _ _ _ _ _ l f) by done.
  destruct (is_dup_begin_frame notify (l_ftline l) f (p_time q) st f Ef) as [Hl (f1 & E1 & _)].
  set (st1 := is_dup_begin notify _ f _ st) in *. clearbody st1. unfold is_dup_sequence. rewrite Hl, El. cbn [mbind option_bind].
  rewrite (proj2 (Z.leb_gt _ _)) by done. cbn [mbind option_bind]. rewrite Hl, El. cbn [mbind option_bind].
  rewrite (proj2 (Z.eqb_neq (l_reset l) 0)) by done. cbn [negb mbind option_bind].
  set (l1 := if l_seq_num l <? p_sn q then set_l_seq_num (u32 (p_sn q + (p_num q - 1))) l else l).
  set (st2 := count _ _ _ _).
  assert (H : line_table st2 !! k = Some (set_l_stats (bump PktUntilReset 1 (l_stats l1)) l1) /\ ftline_table st2 = ftline_table st1).
  { unfold st2, l1, count, with_line. cbn [line_table ftline_table]. rewrite list_lookup_alter_eq.
    destruct (l_seq_num l <? p_sn q); cbn [line_table ftline_table]; rewrite ?list_lookup_alter_eq, Hl, El; done. }
  clearbody st2. destruct H as [H1 H2].
  destruct (IH st2 _ f1 H1) as (st3 & E3).
  - rewrite H2. cbn. unfold l1. by destruct (_ <? _).
  - cbn. unfold l1. by destruct (_ <? _).
  - cbn. unfold l1. by destruct (_ <? _).
  - rewrite E3. cbn [mbind option_bind]. by eexists.
Qed.

(** Above the highest number all is taken. *)
Lemma win_loop_above i ftl base n : forall sn f A (st : st_t), on_pair i ftl st -> ftline_table st !! ftl = Some f ->
  win_ok base A f -> ftl_seq_num f < sn -> sn + Z.of_nat n <= 2 ^ 32 - WINSZ -> exists st',
  win_loop notify n i sn st = Some (false, st') /\ calm st st' /\ is_Some (ftline_table st' !! ftl).
Proof.
  induction n as [|n IH]; intros sn f A st Hon Ef Hw Hsn Hn; [exists st; by rewrite Ef|]. cbn [win_loop].
  pose proof (wo_range _ _ _ Hw) as Hr. pose proof (wo_base _ _ _ Hw).
  destruct (win_step_spec notify i ftl sn st f base A Hon Ef Hw) as (st1 & f1 & E & Hc & Ef1 & Hw1 & Eseq & _); [lia|].
  assert (Ht : taken base (ftl_seq_num f) A sn = true) by (apply taken_later; by left). rewrite Ht in *.
  rewrite E. cbn [negb mbind option_bind]. rewrite u32_small by (unfold WINSZ in *; lia).
  destruct (IH (sn + 1) f1 _ st1 (on_pair_calm _ _ _ _ Hc Hon) Ef1 Hw1) as (st2 & E2 & Hc2 & Hs); [lia | lia|].
  exists st2. split; [exact E2|]. split; [by etransitivity | exact Hs].
Qed.
End outage.

(** C38: error. A packet whose number is beyond the last of its line by the
    jump threshold resets the pair to that number, and this packet is let
    through, even if the other line brought it long before. From then on all
    packets of data of the other line are dropped, until a packet of it makes
    a jump or a reset too: a line that was out for a while takes the pair
    over from the line that works. *)
Theorem opra_outage_silences_peer {W : Type} (notify : option (lh_ftline -> Z -> W -> W)) thr i j ftl (st : opra_lines W) li lj f p :
  i <> j -> linked i j ftl st -> line_table st !! i = Some li -> line_table st !! j = Some lj -> ftline_table st !! ftl = Some f ->
  0 <= ftl_missing f -> p_line p = i -> data_packet (p_cat p) (p_type p) = true ->
  1 < p_sn p -> 0 <= p_num p < 2 ^ 31 -> p_sn p + p_num p <= 2 ^ 32 - WINSZ -> u32 (l_seq_num li + thr) <= p_sn p ->
  exists st', is_dup_packet notify thr p st = Some (false, st') /\
  forall qs, no_jump thr j (l_seq_num lj) qs = true -> exists st'',
    run_packets notify thr qs st' = Some (repeat true (length qs), st'').
Proof.
  intros Hij Hlink Eli Elj Ef Hm Hline Hd Hsn Hnum Hend Hjump. pose proof Hlink as ((l & El & Eftl & _) & _).
  rewrite El in Eli. injection Eli as ->. unfold is_dup_packet. rewrite Hline, (fh_opra_lh_is_dup_data notify thr _ _ _ _ _ _ _ li f) by (done || by rewrite Eftl).
  rewrite Eftl. destruct (is_dup_begin_frame notify ftl f (p_time p) st f Ef) as [Hl (f1 & E1 & Em & _)].
  set (st1 := is_dup_begin notify ftl f _ st) in *. clearbody st1. unfold is_dup_sequence. rewrite Hl, El. cbn [mbind option_bind].
  rewrite (proj2 (Z.leb_le _ _)) by done. rewrite (u32_small (p_sn p - 1)) by (unfold WINSZ in *; lia).
  assert (Hlink1 : linked i j ftl st1) by (unfold linked; by rewrite Hl).
  destruct (lh_line_reset_pair notify i j ftl (p_sn p - 1) st1 f1 Hij Hlink1 E1)
    as (st2 & l2 & lj2 & f2 & Er & R1 & R2 & R3 & R4 & R5 & R6 & R7 & R8 & R9 & R10 & R11 & _ & R12).
  rewrite Er. cbn [mbind option_bind]. rewrite Eftl. set (st3 := count i PktSeqJump 1 _).
  assert (H3 : line_table st3 !! i = Some (set_l_stats (bump PktSeqJump 1 (l_stats l2)) l2) /\
    line_table st3 !! j = Some lj2 /\ ftline_table st3 !! ftl = Some f2).
  { unfold st3, count, with_line. cbn [line_table ftline_table]. rewrite lines_notify, ftl_notify.
    by rewrite list_lookup_alter_eq, list_lookup_alter_ne, R1, R5. }
  clearbody st3. destruct H3 as (T1 & T2 & T3). rewrite T1. cbn [mbind option_bind]. cbn [l_seq_num l_reset set_l_stats].
  rewrite R3, R4, (proj2 (Z.ltb_lt _ _)) by lia. cbn [negb Z.eqb]. unfold fh_opra_lh_win_update. rewrite s32_small by lia.
  set (st4 := with_line i _ st3).
  assert (H4 : on_pair i ftl st4 /\ line_table st4 !! j = Some lj2 /\ ftline_table st4 = ftline_table st3).
  { unfold on_pair, st4, with_line. cbn [line_table ftline_table]. rewrite list_lookup_alter_eq, list_lookup_alter_ne, T1 by done.
    cbn. by rewrite R2. }
  clearbody st4. destruct H4 as (U1 & U2 & U3). rewrite <- U3 in T3.
  destruct (win_loop_above notify i ftl (p_sn p - 1) (Z.to_nat (p_num p)) (p_sn p) f2 ∅ st4 U1 T3) as (st5 & E5 & Hc & [f5 Ef5]).
  { apply lh_win_init_ok; [unfold WINSZ in *; lia | done | done | lia]. }
  { lia. }
  { lia. }
  exists st5. split; [exact E5|]. intros qs Hqs.
  assert (V : line_fields <$> line_table st5 !! j = Some (line_fields lj2)) by (by rewrite <- list_lookup_fmap, <- Hc, list_lookup_fmap, U2).
  destruct (line_table st5 !! j) as [l5|] eqn:E6; [|done]. unfold line_fields in V. cbn in V. injection V as V1 V2 _ _ V5.
  rewrite Hl, Elj in R8. injection R8 as R8.
  apply (waiting_drops notify thr j qs st5 l5 f5 E6); [congruence | congruence | by rewrite V5, <- R8].
Qed.

(** The first line is out after the start of day, at 100; the
    second has brought 2005. Then the first comes back with 2004. *)
Definition after_outage : opra_lines unit :=
  match run_packets None 1000 [day_start 0 100 1 0; day_start 1 100 1 0; data 1 101 900; data 1 1001 1005] two_lines with
  | Some (_, st) => st
  | None => two_lines
  end.

Lemma opra_outage_silences_peer_witness :
  (l_seq_num <$> line_table after_outage !! 1%nat = Some 2005) /\
  exists st', is_dup_packet None 1000 (data 0 2004 1) after_outage = Some (false, st') /\
  forall qs, no_jump 1000 1 2005 qs = true -> exists st'',
    run_packets None 1000 qs st' = Some (repeat true (length qs), st'').
Proof.
  assert (E : exists l0 l1 f, line_table after_outage !! 0%nat = Some l0 /\ line_table after_outage !! 1%nat = Some l1 /\
    ftline_table after_outage !! 0%nat = Some f /\ l_seq_num l1 = 2005 /\ l_seq_num l0 = 100 /\ ftl_missing f = 0 /\
    linked 0 1 0 after_outage).
  { eexists _, _, _. split; [vm_compute; reflexivity|]. split; [vm_compute; reflexivity|]. split; [vm_compute; reflexivity|].
    split; [reflexivity|]. split; [reflexivity|]. split; [reflexivity|].
    split; eexists; (split; [vm_compute; reflexivity|]); (split; [reflexivity | split; reflexivity]). }
  destruct E as (l0 & l1 & f & E0 & E1 & Ef & H1 & H0 & Hm & Hl). split; [by rewrite E1; cbn; rewrite H1|].
  rewrite <- H1.
  apply (opra_outage_silences_peer None 1000 0 1 0 after_outage l0 l1 f (data 0 2004 1));
    [discriminate | exact Hl | exact E0 | exact E1 | exact Ef | by rewrite Hm | reflexivity | reflexivity
    | reflexivity | split; [discriminate | reflexivity] | discriminate | rewrite H0; vm_compute; discriminate].
Defined.

(** ** Initialisation *)

Definition ftline_of (c : option Z) : lh_ftline := MkFtLine [] c 0 0 0 (lh_win_init 0) 0 0.

(** The pairs of the lines that are enabled *)
Fixpoint enabled_pairs (side : opra_ftline_cfg -> opra_line_cfg) (ftidx : nat) (cfgs : list opra_ftline_cfg) : list nat :=
  match cfgs with
  | [] => []
  | c :: cfgs => (if negb ((side c).(ol_enable) =? 0) then [ftidx] else []) ++ enabled_pairs side (S ftidx) cfgs
  end.

Definition new_lines (n : nat) (pairs : list nat) : list lh_line :=
  imap (fun k ftidx => MkLine (Z.of_nat (n + k)) no_stats ftidx 0 None 0 0) pairs.

Lemma new_lines_app n ps qs : new_lines n (ps ++ qs) = new_lines n ps ++ new_lines (n + length ps) qs.
Proof.
  unfold new_lines. rewrite imap_app. f_equal. apply imap_ext. intros k x _. cbn. by rewrite Nat.add_assoc.
Qed.

Section init.
Context (fh_udp_open : Z -> Z) (fh_net_ifaddr : string -> Z) (fh_mcast_join : Z -> Z -> Z).

(** The line can be opened, and its side is given. *)
Definition line_opens (ol : opra_line_cfg) : Prop :=
  ol_side ol <> 0 /\ fh_udp_open (ol_port ol) = FH_OK /\ fh_net_ifaddr (ol_ifname ol) <> 0 /\
  fh_mcast_join (fh_net_ifaddr (ol_ifname ol)) (ol_mcaddr ol) = FH_OK.

(** The pairs from [ftidx] on are untouched, or configured as [cfgs]. *)
Definition pairs_ready (ftidx : nat) (cfgs : list opra_ftline_cfg) (ftls : list lh_ftline) : Prop :=
  forall k c, cfgs !! k = Some c -> exists o, ftls !! (ftidx + k)%nat = Some (ftline_of o) /\ (o = None \/ o = Some (oftl_index c)).

Lemma init_lines_ok side cfgs : forall ftidx lines ftls, pairs_ready ftidx cfgs ftls ->
  (forall c, c ∈ cfgs -> ol_enable (side c) <> 0 -> line_opens (side c)) ->
  (length lines + length (enabled_pairs side ftidx cfgs) <= FH_MGMT_MAX_LINES)%nat -> exists ftls',
  init_lines fh_udp_open fh_net_ifaddr fh_mcast_join side ftidx cfgs lines ftls =
    Some (FH_OK, lines ++ new_lines (length lines) (enabled_pairs side ftidx cfgs), ftls') /\
  pairs_ready ftidx cfgs ftls' /\ (forall k, (k < ftidx)%nat -> ftls' !! k = ftls !! k).
Proof.
  induction cfgs as [|c cfgs IH]; intros ftidx lines ftls Hr Ho Hlen.
  { exists ftls. cbn. by rewrite app_nil_r. }
  destruct (Hr 0%nat c eq_refl) as (o & Eo & Hcfg). rewrite Nat.add_0_r in Eo.
  assert (Hr1 : forall ftls1, (forall k, k <> ftidx -> ftls1 !! k = ftls !! k) -> pairs_ready (S ftidx) cfgs ftls1).
  { intros ftls1 H1 k c' Hc'. rewrite H1 by lia. specialize (Hr (S k) c' Hc'). by rewrite Nat.add_succ_r in Hr. }
  assert (Hup : forall ftls1 ftls2 : list lh_ftline, (exists o, ftls1 !! ftidx = Some (ftline_of o) /\ (o = None \/ o = Some (oftl_index c))) ->
    pairs_ready (S ftidx) cfgs ftls2 -> (forall k, (k < S ftidx)%nat -> ftls2 !! k = ftls1 !! k) -> pairs_ready ftidx (c :: cfgs) ftls2).
  { intros ftls1 ftls2 H1 H2 H3 [|k] c' Hc'; [injection Hc' as <-; rewrite Nat.add_0_r, H3 by lia; done|].
    rewrite Nat.add_succ_r. by apply H2. }
  cbn [init_lines enabled_pairs] in *. destruct (Z.eqb_spec (ol_enable (side c)) 0) as [Ez|Ez]; cbn [negb app] in *.
  - destruct (IH (S ftidx) lines ftls (Hr1 _ (fun _ _ => eq_refl))) as (ftls2 & E & H1 & H2); [set_solver | done|].
    exists ftls2. split; [exact E|]. split; [|intros; apply H2; lia]. eapply Hup; [|exact H1 | exact H2]. by exists o.
  - destruct (Ho c ltac:(set_solver) Ez) as (O1 & O2 & O3 & O4). unfold lh_line_init at 1. rewrite Eo. cbn [mbind option_bind ftl_config ftline_of].
    rewrite (option_guard_True _ _ Hcfg), (proj2 (Z.eqb_neq _ _) O1), O2. cbn [negb Z.eqb FH_OK Pos.eqb].
    rewrite (proj2 (Z.eqb_neq _ _) O3), O4. cbn [negb Z.eqb FH_OK].
    rewrite option_guard_True by (cbn in Hlen; lia). cbn [mbind option_bind negb Z.eqb FH_OK].
    set (ftls1 := <[ftidx := _]> ftls). set (lines1 := lines ++ _).
    assert (E1 : ftls1 !! ftidx = Some (ftline_of (Some (oftl_index c)))).
    { unfold ftls1. rewrite list_lookup_insert_eq; [done|]. by eapply lookup_lt_Some. }
    destruct (IH (S ftidx) lines1 ftls1) as (ftls2 & E & H1 & H2).
    { apply Hr1. intros k Hk. apply list_lookup_insert_ne. congruence. }
    { set_solver. }
    { unfold lines1. rewrite length_app. cbn in *. lia. }
    exists ftls2. split; [|split].
    + rewrite E. f_equal. f_equal. f_equal. unfold lines1. rewrite <- app_assoc. f_equal.
      change (ftidx :: ?l) with ([ftidx] ++ l). rewrite new_lines_app, length_app. cbn. by rewrite Nat.add_0_r.
    + eapply Hup; [|exact H1 | exact H2]. rewrite E1. eexists. split; [done | by right].
    + intros k Hk. rewrite H2 by lia. apply list_lookup_insert_ne. lia.
Qed.
End init.

Lemma enabled_pairs_same cfgs : forall ftidx,
  (forall c, c ∈ cfgs -> ol_enable (oftl_line_a c) = 0 <-> ol_enable (oftl_line_b c) = 0) ->
  enabled_pairs oftl_line_b ftidx cfgs = enabled_pairs oftl_line_a ftidx cfgs.
Proof.
  induction cfgs as [|c cfgs IH]; intros ftidx H; [done|]. cbn. rewrite IH by set_solver. f_equal.
  specialize (H c ltac:(set_solver)). destruct (Z.eqb_spec (ol_enable (oftl_line_a c)) 0), (Z.eqb_spec (ol_enable (oftl_line_b c)) 0);
    done || tauto.
Qed.

Lemma enabled_pairs_range side cfgs : forall ftidx k, k ∈ enabled_pairs side ftidx cfgs -> (ftidx <= k < ftidx + length cfgs)%nat.
Proof.
  induction cfgs as [|c cfgs IH]; intros ftidx k H; [set_solver|]. cbn in *. apply elem_of_app in H as [H|H].
  - destruct (negb _); set_solver by lia.
  - apply IH in H. lia.
Qed.

(** If the lines are enabled in pairs, as the configuration
    requires, their sockets open, and the pairs are not more than six, then
    the initialisation succeeds: the A lines come first and then the B lines,
    and every line has as its peer the line of the other side with the same
    pair, does not wait for a reset, and nothing is missing on the pair. *)
Theorem opra_init_links {W : Type} fh_udp_open fh_net_ifaddr fh_mcast_join record_bytes cfgs (w : W) :
  let pairs := enabled_pairs oftl_line_a 0 cfgs in
  (forall c, c ∈ cfgs -> ol_enable (oftl_line_a c) = 0 <-> ol_enable (oftl_line_b c) = 0) ->
  (forall c, c ∈ cfgs -> ol_enable (oftl_line_a c) <> 0 ->
     line_opens fh_udp_open fh_net_ifaddr fh_mcast_join (oftl_line_a c) /\
     line_opens fh_udp_open fh_net_ifaddr fh_mcast_join (oftl_line_b c)) ->
  (length cfgs <= OPRA_CFG_MAX_FTLINES)%nat -> (2 * length pairs <= FH_MGMT_MAX_LINES)%nat ->
  exists st, fh_opra_lh_init fh_udp_open fh_net_ifaddr fh_mcast_join record_bytes cfgs w = Some (FH_OK, st) /\
  length (line_table st) = (2 * length pairs)%nat /\
  forall k ftidx, pairs !! k = Some ftidx -> linked k (length pairs + k) ftidx st /\
    exists f, ftline_table st !! ftidx = Some f /\ ftl_missing f = 0.
Proof.
  intros pairs Hpair Hopen Hlen Hmax. unfold fh_opra_lh_init.
  assert (Hr : pairs_ready 0 cfgs fh_ftline_init).
  { intros k c Hc. exists None. split; [|by left]. apply lookup_lt_Some in Hc. apply lookup_replicate_2. cbn. lia. }
  destruct (init_lines_ok fh_udp_open fh_net_ifaddr fh_mcast_join oftl_line_a cfgs 0 [] _ Hr) as (f1 & E1 & Hr1 & _).
  { intros c Hc He. by apply Hopen. }
  { cbn. fold pairs. lia. }
  fold pairs in E1. cbn [app length] in E1.
  assert (Hn : length (new_lines 0 pairs) = length pairs) by apply length_imap.
  destruct (init_lines_ok fh_udp_open fh_net_ifaddr fh_mcast_join oftl_line_b cfgs 0 (new_lines 0 pairs) f1 Hr1) as (f2 & E2 & Hr2 & _).
  { intros c Hc He. apply Hopen; [done|]. by rewrite (Hpair c Hc). }
  { rewrite enabled_pairs_same, Hn by done. fold pairs. lia. }
  rewrite enabled_pairs_same, Hn in E2 by done. fold pairs in E2. rewrite <- (new_lines_app 0) in E2.
  rewrite E1. cbn [mbind option_bind negb Z.eqb FH_OK]. rewrite E2. cbn [mbind option_bind negb Z.eqb FH_OK].
  eexists. split; [reflexivity|]. cbn [line_table ftline_table]. set (n := length pairs) in *.
  assert (Hall : length (new_lines 0 (pairs ++ pairs)) = (2 * n)%nat).
  { unfold new_lines. rewrite length_imap, length_app. unfold n. lia. }
  assert (Hhalf : ((2 * n) / 2)%nat = n) by (by rewrite Nat.mul_comm, Nat.div_mul).
  split; [unfold associate; rewrite length_imap; done|]. intros k ftidx Hk. pose proof (lookup_lt_Some _ _ _ Hk) as Hkn. fold n in Hkn.
  assert (Hline : forall m, (m < 2 * n)%nat -> exists l x, (pairs ++ pairs) !! m = Some x /\
    associate record_bytes (new_lines 0 (pairs ++ pairs)) !! m = Some l /\ l_ftline l = x /\
    l_peer l = Some (if (m <? n)%nat then n + m else m - n)%nat /\ l_reset l = 0).
  { intros m Hm. destruct (lookup_lt_is_Some_2 (pairs ++ pairs) m) as [x Ex]; [rewrite length_app; fold n; lia|].
    eexists _, x. split; [exact Ex|]. split.
    - assert (El : new_lines 0 (pairs ++ pairs) !! m = Some (MkLine (Z.of_nat m) no_stats x 0 None 0 0)).
      { unfold new_lines. by rewrite list_lookup_imap, Ex. }
      unfold associate. rewrite list_lookup_imap, El. cbn [fmap option_fmap option_map].
      rewrite Hall, Hhalf, (proj2 (Nat.ltb_lt _ _)) by done. reflexivity.
    - done. }
  split.
  - split.
    + destruct (Hline k ltac:(lia)) as (l & x & Ex & El & E3 & E4 & E5). rewrite lookup_app_l, Hk in Ex by done. injection Ex as <-.
      rewrite (proj2 (Nat.ltb_lt _ _)) in E4 by done. by exists l.
    + destruct (Hline (n + k)%nat ltac:(lia)) as (l & x & Ex & El & E3 & E4 & E5).
      rewrite lookup_app_r in Ex by (unfold n; lia). replace (n + k - length pairs)%nat with k in Ex by (unfold n; lia).
      rewrite Hk in Ex. injection Ex as <-. rewrite (proj2 (Nat.ltb_ge _ _)) in E4 by lia.
      replace (n + k - n)%nat with k in E4 by lia. by exists l.
  - destruct (enabled_pairs_range oftl_line_a cfgs 0 ftidx) as [_ Hx]; [by eapply list_elem_of_lookup_2|].
    destruct (lookup_lt_is_Some_2 cfgs ftidx) as [c Ec]; [lia|]. destruct (Hr2 ftidx c Ec) as (o & Eo & _). by exists (ftline_of o).
Qed.

Definition three_pairs : list opra_ftline_cfg :=
  let ol en side port := MkLineCfg en side port 100 "eth0" in
  let pair n en := MkFtLineCfg n (ol en 1 (2 * n)) (ol en 2 (2 * n + 1)) in
  [pair 1 1; pair 2 0; pair 3 1].

(** C38's witness *)
Lemma opra_init_links_witness :
  enabled_pairs oftl_line_a 0 three_pairs = [0%nat; 2%nat] /\
  exists st, fh_opra_lh_init (fun _ => 0) (fun _ => 1) (fun _ _ => 0) 0 three_pairs () = Some (FH_OK, st) /\
  length (line_table st) = 4%nat /\
  forall k ftidx, [0%nat; 2%nat] !! k = Some ftidx -> linked k (2 + k) ftidx st /\
    exists f, ftline_table st !! ftidx = Some f /\ ftl_missing f = 0.
Proof.
  split; [reflexivity|].
  apply (opra_init_links (fun _ => 0) (fun _ => 1) (fun _ _ => 0) 0 three_pairs ()).
  - intros c Hc. repeat (apply elem_of_cons in Hc as [->|Hc]; [done|]). by apply elem_of_nil in Hc.
  - intros c Hc He. repeat (apply elem_of_cons in Hc as [->|Hc]; [done|]). by apply elem_of_nil in Hc.
  - apply (Nat.leb_le 3 48). reflexivity.
  - apply (Nat.leb_le 4 12). reflexivity.
Defined.
