(* ===== verification/OpraCodec.v ===== *)
(** * The codec of the OPRA feed ([src/feeds/opra/fast/codec/fast_api.c],
      [fast_api.h], [fast_wrapper.c])

    FAST: a field is left out of a message if an operation finds its value in
    the state, which both sides keep.  The feed is built with [FAST_OPTIMIZE],
    without the encoder; the encoder is in the file and gives the format. *)
From S2P Require Import Prelude.

(** ** Tags *)

Definition FAST_OP_NONE : Z := 0.
Definition FAST_OP_COPY : Z := 1.
Definition FAST_OP_INCR : Z := 2.
Definition FAST_OP_DELTA : Z := 3.
Definition FAST_TYPE_U32 : Z := 1.
Definition FAST_TYPE_I32 : Z := 2.
Definition FAST_TYPE_STR : Z := 3.

Definition FAST_ERR_NONE : Z := 0.
Definition FAST_ERR_SIZE : Z := -2.
Definition FAST_ERR_VALUE : Z := -3.
Definition FAST_ERR_TAG_OP : Z := -4.
Definition FAST_ERR_TAG_TYPE : Z := -5.
Definition FAST_ERR_CALL_SEQ : Z := -6.

Definition MAKE_TAG (type op tid slot : Z) : Z :=
  Z.lor (Z.lor (Z.shiftl type 28) (Z.shiftl op 24)) (Z.lor (Z.shiftl tid 12) (Z.shiftl slot 0)).
Definition get_tag_op (tag : Z) : Z := Z.land (Z.shiftr tag 24) 0xf.
Definition get_tag_slot (tag : Z) : Z := Z.land (Z.shiftr tag 0) 0xff.
Definition get_tag_tid (tag : Z) : Z := Z.land (Z.shiftr tag 12) 0xf.
Definition get_tag_type (tag : Z) : Z := Z.land (Z.shiftr tag 28) 0xf.

Definition MAX_PMAP_BYTES : Z := 8.
Definition MAX_PMAP_BITS : Z := 7 * MAX_PMAP_BYTES.
Definition MAX_MSG_SIZE : Z := 2048.

(** ** State

    The arrays of [fast_cv_t] are maps from template and slot, zero where
    nothing was written; [fast_strings] one from slots.  The input is what
    the memory holds from [head] on and the distance from there to [tail]. *)
Record fast_codec := MkCodec {
  pm_bits : list Z;
  pm_size : Z;
  pm_max_pos : Z;
  in_mem : list Z;
  in_left : Z;
  i32_values : gmap (Z * Z) Z;
  u32_values : gmap (Z * Z) Z;
  str_values : gset (Z * Z);        (* the pointers that are set *)
  fast_strings : gmap Z (list Z);
  cv_valid : gset (Z * Z);
  in_message : Z;
  fast_error : Z * Z                (* tag and code *)
}.

(** [fast_create_codec] *)
Definition fast_create_codec : fast_codec :=
  MkCodec (replicate 56 0) 0 0 [] 0 ∅ ∅ ∅ ∅ ∅ 0 (0, FAST_ERR_NONE).

Definition set_pm b s p (c : fast_codec) : fast_codec :=
  MkCodec b s p c.(in_mem) c.(in_left) c.(i32_values) c.(u32_values) c.(str_values) c.(fast_strings) c.(cv_valid)
    c.(in_message) c.(fast_error).
Definition set_input m l (c : fast_codec) : fast_codec :=
  MkCodec c.(pm_bits) c.(pm_size) c.(pm_max_pos) m l c.(i32_values) c.(u32_values) c.(str_values) c.(fast_strings)
    c.(cv_valid) c.(in_message) c.(fast_error).
Definition set_i32s v (c : fast_codec) : fast_codec :=
  MkCodec c.(pm_bits) c.(pm_size) c.(pm_max_pos) c.(in_mem) c.(in_left) v c.(u32_values) c.(str_values) c.(fast_strings)
    c.(cv_valid) c.(in_message) c.(fast_error).
Definition set_u32s v (c : fast_codec) : fast_codec :=
  MkCodec c.(pm_bits) c.(pm_size) c.(pm_max_pos) c.(in_mem) c.(in_left) c.(i32_values) v c.(str_values) c.(fast_strings)
    c.(cv_valid) c.(in_message) c.(fast_error).
Definition set_strs p v (c : fast_codec) : fast_codec :=
  MkCodec c.(pm_bits) c.(pm_size) c.(pm_max_pos) c.(in_mem) c.(in_left) c.(i32_values) c.(u32_values) p v
    c.(cv_valid) c.(in_message) c.(fast_error).
Definition set_valid v (c : fast_codec) : fast_codec :=
  MkCodec c.(pm_bits) c.(pm_size) c.(pm_max_pos) c.(in_mem) c.(in_left) c.(i32_values) c.(u32_values) c.(str_values)
    c.(fast_strings) v c.(in_message) c.(fast_error).
Definition set_in_message v (c : fast_codec) : fast_codec :=
  MkCodec c.(pm_bits) c.(pm_size) c.(pm_max_pos) c.(in_mem) c.(in_left) c.(i32_values) c.(u32_values) c.(str_values)
    c.(fast_strings) c.(cv_valid) v c.(fast_error).
Definition set_error e (c : fast_codec) : fast_codec :=
  MkCodec c.(pm_bits) c.(pm_size) c.(pm_max_pos) c.(in_mem) c.(in_left) c.(i32_values) c.(u32_values) c.(str_values)
    c.(fast_strings) c.(cv_valid) c.(in_message) e.

Definition tag_key (tag : Z) : Z * Z := (get_tag_tid tag, get_tag_slot tag).

(** [set_err], [bad_op_error], [value_error]: all of them return -1. *)
Definition set_err (tag code : Z) (c : fast_codec) : Z * fast_codec := (-1, set_error (tag, code) c).
Definition bad_op_error (tag : Z) : fast_codec -> Z * fast_codec := set_err tag FAST_ERR_TAG_OP.
Definition value_error (tag : Z) : fast_codec -> Z * fast_codec := set_err tag FAST_ERR_VALUE.

Definition cv_get_i32 (tag : Z) (c : fast_codec) : Z := default 0 (c.(i32_values) !! tag_key tag).
Definition cv_get_u32 (tag : Z) (c : fast_codec) : Z := default 0 (c.(u32_values) !! tag_key tag).
Definition cv_is_valid (tag : Z) (c : fast_codec) : bool := bool_decide (tag_key tag ∈ c.(cv_valid)).
Definition cv_set_valid (tag : Z) (c : fast_codec) : fast_codec := set_valid ({[tag_key tag]} ∪ c.(cv_valid)) c.
Definition cv_set_i32 (tag data : Z) (c : fast_codec) : fast_codec :=
  cv_set_valid tag (set_i32s (<[tag_key tag := data]> c.(i32_values)) c).
Definition cv_set_u32 (tag data : Z) (c : fast_codec) : fast_codec :=
  cv_set_valid tag (set_u32s (<[tag_key tag := data]> c.(u32_values)) c).

(** [cv_get_str]: the 1024 bytes of the slot. *)
Definition slot_string (tag : Z) (c : fast_codec) : list Z :=
  default (replicate 1024 0) (c.(fast_strings) !! get_tag_slot tag).
Definition cv_get_str (tag : Z) (c : fast_codec) : list Z * fast_codec :=
  let s := slot_string tag c in
  if bool_decide (tag_key tag ∈ c.(str_values)) then (s, c)
  else
    let s := <[0%nat := 0]> s in
    (s, set_strs ({[tag_key tag]} ∪ c.(str_values)) (<[get_tag_slot tag := s]> c.(fast_strings)) c).

(** [cv_set_str]; [data] holds at least [size] bytes. *)
Definition cv_set_str (tag : Z) (data : list Z) (size : Z) (c : fast_codec) : option fast_codec :=
  if (0 <=? size) && (size <? 1024) && (size <=? Z.of_nat (length data)) then
    let '(cp, c) := cv_get_str tag c in
    let n := Z.to_nat size in
    let cp := take n data ++ 0 :: drop (S n) cp in
    Some (cv_set_valid tag (set_strs c.(str_values) (<[get_tag_slot tag := cp]> c.(fast_strings)) c))
  else None.

(** ** Parsing *)

Definition get_pmap (tag : Z) (c : fast_codec) : Z :=
  let pos := get_tag_slot tag in
  if c.(pm_size) <=? pos then 0 else default 0 (c.(pm_bits) !! Z.to_nat pos).

(** The loop of [parse_bytes] from [p1] on; [n] bytes of room are left. The
    result [None] is the overflow of the room. *)
Fixpoint parse_bytes_loop (n : nat) (p1 : nat) (data mem : list Z) (rem : Z)
    : option (option Z * list Z * list Z * Z) :=
  match n with
  | 0%nat => Some (None, data, mem, rem)
  | S n =>
      if rem <=? 0 then Some (Some (-1), data, mem, rem)
      else
        match mem with
        | [] => None
        | temp :: mem =>
            let rem := rem - 1 in
            if 0x80 <=? temp then Some (Some (Z.of_nat p1 + 1), <[p1 := Z.land temp 0x7f]> data, mem, rem)
            else parse_bytes_loop n (S p1) (<[p1 := temp]> data) mem rem
        end
  end.

Definition parse_bytes (data : list Z) (size : Z) (c : fast_codec) : option (Z * list Z * fast_codec) :=
  '(r, data, mem, rem) ← parse_bytes_loop (Z.to_nat size) 0 data c.(in_mem) c.(in_left);
  let c := set_input mem rem c in
  Some (match r with
        | Some bytes => (bytes, data, c)
        | None => let '(rc, c) := set_err (-1) FAST_ERR_SIZE c in (rc, data, c)
        end).

Definition bit_mask : list Z := [64; 32; 16; 8; 4; 2; 1].

(** The bits of one byte of the presence map *)
Definition byte_bits (temp : Z) : list Z := (fun m => if negb (Z.land temp m =? 0) then 1 else 0) <$> bit_mask.

Definition parse_pmap (c : fast_codec) : option (Z * fast_codec) :=
  '(bytes, data, c) ← parse_bytes (replicate (Z.to_nat MAX_PMAP_BYTES) 0) MAX_PMAP_BYTES c;
  if bytes <? 0 then Some (bytes, c)
  else
    let new := take (Z.to_nat bytes) data ≫= byte_bits in
    Some (bytes, set_pm (new ++ drop (length new) c.(pm_bits)) (7 * bytes) c.(pm_max_pos) c).

Definition SIGN_MASK_I32 : Z := 0x40.
Definition SIGN_MASK_U32 : Z := 0x00.

(** [parse_32]: [*data] if it is written, as a number of 32 bits that is
    signed or not. *)
Definition parse_32 (tag sign_mask : Z) (c : fast_codec) : option (Z * option Z * fast_codec) :=
  if get_pmap tag c =? 0 then Some (0, None, c)
  else
    '(bytes, buffer, c) ← parse_bytes (replicate 5 0) 5 c;
    if bytes <? 0 then Some (bytes, None, c)
    else
      let temp := 0 - (if negb (Z.land (default 0 (buffer !! 0%nat)) sign_mask =? 0) then 1 else 0) in
      let temp := foldl (fun temp b => s32 (Z.lor (Z.shiftl temp 7) b)) temp (take (Z.to_nat bytes) buffer) in
      Some (bytes, Some temp, c).

Definition parse_u32 (tag : Z) (c : fast_codec) : option (Z * option Z * fast_codec) :=
  '(bytes, v, c) ← parse_32 tag SIGN_MASK_U32 c; Some (bytes, option_map u32 v, c).
Definition parse_i32 (tag : Z) (c : fast_codec) : option (Z * option Z * fast_codec) :=
  parse_32 tag SIGN_MASK_I32 c.
Definition parse_str (tag : Z) (data : list Z) (size : Z) (c : fast_codec) : option (Z * list Z * fast_codec) :=
  if get_pmap tag c =? 0 then Some (0, data, c) else parse_bytes data size c.

(** ** Decoding *)

Definition fast_set_input_buffer (mem : list Z) (size : Z) (c : fast_codec) : fast_codec := set_input mem size c.
Definition fast_decode_new_msg : fast_codec -> option (Z * fast_codec) := parse_pmap.
Definition fast_decode_end_msg (c : fast_codec) : Z * fast_codec := (0, c).

(** [strlen] of an array of which the memory after it is not zero *)
Fixpoint strlen_in (l : list Z) : Z :=
  match l with [] => 0 | b :: l => if b =? 0 then 0 else 1 + strlen_in l end.

(** [fast_decode_str]: the result, the array [data] of [size] bytes, and the
    state. *)
Definition fast_decode_str (tag : Z) (data : list Z) (size : Z) (c : fast_codec) : option (Z * list Z * fast_codec) :=
  let op := get_tag_op tag in
  if op =? FAST_OP_NONE then
    '(bytes, data, c) ← parse_str tag data size c;
    if bytes <? 0 then Some (-1, data, c)
    else if bytes =? 0 then let '(rc, c) := value_error tag c in Some (rc, data, c)
    else Some (0, data, c)
  else if op =? FAST_OP_COPY then
    '(bytes, data, c) ← parse_str tag data size c;
    if bytes <? 0 then Some (-1, data, c)
    else
      '(bytes, data, c) ← (if 0 <? bytes then c ← cv_set_str tag data size c; Some (bytes, data, c)
                           else
                             guard (size <= 1024);;
                             let '(cp, c) := cv_get_str tag c in
                             let data := take (Z.to_nat size) cp ++ drop (Z.to_nat size) data in
                             Some (strlen_in data, data, c));
      Some (if bytes <? size then bytes else size, data, c)
  else if op =? FAST_OP_INCR then let '(rc, c) := bad_op_error tag c in Some (rc, data, c)
  else if op =? FAST_OP_DELTA then
    guard (size <= 1024);;
    let '(curr, c) := cv_get_str tag c in
    '(bytes, buffer, c) ← parse_str tag (replicate 1024 0) size c;
    let bytes := u32 bytes in
    if cv_is_valid tag c then
      if size <? bytes then let '(rc, c) := set_err tag FAST_ERR_SIZE c in Some (rc, data, c)
      else
        let temp := strlen_in curr in
        if negb (temp =? size) then let '(rc, c) := set_err tag FAST_ERR_SIZE c in Some (rc, data, c)
        else
          let at_ := Z.to_nat (size - bytes) in
          let curr := take at_ curr ++ take (Z.to_nat bytes) buffer ++ drop (Z.to_nat size) curr in
          let c := set_strs c.(str_values) (<[get_tag_slot tag := curr]> c.(fast_strings)) c in
          Some (0, take (Z.to_nat size) curr ++ drop (Z.to_nat size) data, c)
    else
      c ← cv_set_str tag buffer (s32 bytes) c;
      let '(curr, c) := cv_get_str tag c in
      Some (0, take (Z.to_nat size) curr ++ drop (Z.to_nat size) data, c)
  else let '(_, c) := bad_op_error tag c in Some (0, data, c).

(** [fast_decode_i32]: the result, the value if it is written, the state. *)
Definition fast_decode_i32 (tag : Z) (c : fast_codec) : option (Z * option Z * fast_codec) :=
  let op := get_tag_op tag in
  let fail '(rc, c) : option (Z * option Z * fast_codec) := Some (rc, None, c) in
  let done c : option (Z * option Z * fast_codec) := Some (0, Some (cv_get_i32 tag c), c) in
  if op =? FAST_OP_NONE then
    '(bytes, temp, c) ← parse_i32 tag c;
    if 0 <? bytes then done (cv_set_i32 tag (default 0 temp) c)
    else if bytes <? 0 then fail (-1, c)
    else fail (value_error tag c)
  else if op =? FAST_OP_COPY then
    '(bytes, temp, c) ← parse_i32 tag c;
    if bytes =? 0 then done c
    else if bytes <? 0 then fail (-1, c)
    else done (cv_set_i32 tag (default 0 temp) c)
  else if op =? FAST_OP_INCR then
    '(bytes, temp, c) ← parse_i32 tag c;
    if bytes <? 0 then fail (-1, c)
    else if bytes =? 0 then
      if negb (cv_is_valid tag c) then fail (value_error tag c)
      else done (cv_set_i32 tag (s32 (cv_get_i32 tag c + 1)) c)
    else done (cv_set_i32 tag (default 0 temp) c)
  else if op =? FAST_OP_DELTA then
    if cv_is_valid tag c then
      '(bytes, delta, c) ← parse_i32 tag c;
      if bytes <? 0 then fail (-1, c)
      else if 0 <? bytes then done (cv_set_i32 tag (s32 (cv_get_i32 tag c + default 0 delta)) c)
      else done c
    else
      '(bytes, temp, c) ← parse_i32 tag c;
      if bytes <? 0 then fail (-1, c)
      else if bytes =? 0 then fail (value_error tag c)
      else done (cv_set_i32 tag (default 0 temp) c)
  else fail (bad_op_error tag c).

(** [fast_decode_u32] *)
Definition fast_decode_u32 (tag : Z) (c : fast_codec) : option (Z * option Z * fast_codec) :=
  let op := get_tag_op tag in
  let fail '(rc, c) : option (Z * option Z * fast_codec) := Some (rc, None, c) in
  let done next c : option (Z * option Z * fast_codec) :=
    let c := cv_set_u32 tag next c in Some (0, Some (cv_get_u32 tag c), c) in
  if op =? FAST_OP_NONE then
    '(bytes, next, c) ← parse_u32 tag c;
    if bytes <? 0 then fail (-1, c)
    else if bytes =? 0 then fail (value_error tag c)
    else done (default 0 next) c
  else if op =? FAST_OP_COPY then
    '(bytes, next, c) ← parse_u32 tag c;
    if bytes <? 0 then fail (-1, c)
    else if bytes =? 0 then
      if negb (cv_is_valid tag c) then fail (value_error tag c)
      else done (cv_get_u32 tag c) c
    else done (default 0 next) c
  else if op =? FAST_OP_INCR then
    '(bytes, next, c) ← parse_u32 tag c;
    if bytes <? 0 then fail (-1, c)
    else if bytes =? 0 then
      if negb (cv_is_valid tag c) then fail (value_error tag c)
      else done (u32 (cv_get_u32 tag c + 1)) c
    else done (default 0 next) c
  else if op =? FAST_OP_DELTA then
    if cv_is_valid tag c then
      '(bytes, delta, c) ← parse_i32 tag c;
      if bytes <? 0 then fail (-1, c)
      else
        let next := cv_get_u32 tag c in
        done (if 0 <? bytes then u32 (next + default 0 delta) else next) c
    else
      '(bytes, next, c) ← parse_u32 tag c;
      if bytes <? 0 then fail (-1, c)
      else if bytes =? 0 then fail (value_error tag c)
      else done (default 0 next) c
  else fail (bad_op_error tag c).

(** [fast_ascii_to_u32] *)
Definition fast_ascii_to_u32 (data : list Z) : Z := foldl (fun temp chr => u32 (temp * 10 + chr - 48)) 0 data.

(** ** The wrapper ([fast_wrapper.c]) *)

Section wrapper.
(** What the variable [temp] of [decode_u32] holds if nothing is written. *)
Context (indeterminate : Z -> fast_codec -> Z).

Definition decode_u32 (tag : Z) (c : fast_codec) : option (Z * fast_codec) :=
  '(_, v, c') ← fast_decode_u32 tag c; Some (default (indeterminate tag c) v, c').
End wrapper.
Definition setBuffer := fast_set_input_buffer.
Definition decode_new_msg := fast_decode_new_msg.
Definition decode_end_msg := fast_decode_end_msg.
Definition decode_str := fast_decode_str.
Definition init_fast : fast_codec := fast_create_codec.
