(* ===== verification/OpraEnc.v ===== *)
(** * The encoder of the OPRA codec ([src/feeds/opra/fast/codec/fast_api.c],
      the parts under [!FAST_OPTIMIZE])

    The buffers of [MAX_MSG_SIZE] bytes are lists of what was appended. *)
From S2P Require Import Prelude OpraCodec.

Record fast_encoder := MkEncoder {
  en_codec : fast_codec;
  en_msg : list Z;       (* codec->msg *)
  en_output : list Z     (* codec->output *)
}.
Definition on_codec (f : fast_codec -> fast_codec) (e : fast_encoder) : fast_encoder :=
  MkEncoder (f e.(en_codec)) e.(en_msg) e.(en_output).
Definition enc_err (r : Z * fast_codec) (e : fast_encoder) : Z * fast_encoder :=
  (r.1, MkEncoder r.2 e.(en_msg) e.(en_output)).

(** [fast_reset_codec] *)
Definition fast_reset_codec : fast_encoder := MkEncoder fast_create_codec [] [].

Definition cv_eq_i32 (tag data : Z) (c : fast_codec) : bool := cv_is_valid tag c && (cv_get_i32 tag c =? data).
Definition cv_eq_u32 (tag data : Z) (c : fast_codec) : bool := cv_is_valid tag c && (cv_get_u32 tag c =? data).

(** [strncmp] and [memcmp]: whether they are zero. *)
Fixpoint strncmp_zero (n : nat) (a b : list Z) : bool :=
  match n with
  | 0%nat => true
  | S n =>
      match a, b with
      | x :: a, y :: b => if x =? y then if x =? 0 then true else strncmp_zero n a b else false
      | _, _ => false
      end
  end.
Definition memcmp_zero (n : nat) (a b : list Z) : bool := bool_decide (take n a = take n b).

Definition cv_eq_str (tag : Z) (data : list Z) (size : Z) (c : fast_codec) : bool * fast_codec :=
  let '(cp, c) := cv_get_str tag c in
  if negb (cv_is_valid tag c) || strncmp_zero (Z.to_nat size) cp data then (false, c)
  else (memcmp_zero (Z.to_nat size) cp data, c).

Definition u32_to_size (data : Z) : Z :=
  if data <? 0x80 then 1 else if data <? 0x4000 then 2 else if data <? 0x200000 then 3
  else if data <? 0x10000000 then 4 else 5.
Definition i32_to_size (data : Z) : Z :=
  if data <? 0 then
    if s32 0xffffffc0 <=? data then 1 else if s32 0xffffe000 <=? data then 2
    else if s32 0xfff00000 <=? data then 3 else if s32 0xf8000000 <=? data then 4 else 5
  else
    if data <? 0x40 then 1 else if data <? 0x2000 then 2 else if data <? 0x100000 then 3
    else if data <? 0x08000000 then 4 else 5.

(** ** The presence map *)

Definition align7 (x : Z) : Z := (x + 7 - 1) / 7.

Definition reset_pmap (c : fast_codec) : fast_codec := set_pm (replicate 56 0) c.(pm_size) 0 c.

Definition set_pmap (tag : Z) (c : fast_codec) : Z * fast_codec :=
  let pos := get_tag_slot tag in
  let set_bit p c := (0, set_pm (<[Z.to_nat pos := 1]> c.(pm_bits)) c.(pm_size) p c) in
  if c.(pm_max_pos) <? pos then
    if MAX_PMAP_BITS <=? pos then set_err tag FAST_ERR_SIZE c else set_bit pos c
  else set_bit c.(pm_max_pos) c.

(** Seven slots in a byte *)
Definition pack7 (bits : list Z) : Z :=
  foldl (fun temp '(b, m) => if 0 <? b then Z.lor temp m else temp) 0 (zip bits bit_mask).

(** [emit_pmap]: the bytes. *)
Definition emit_pmap (c : fast_codec) : list Z :=
  let bytes := Z.to_nat (align7 (c.(pm_max_pos) + 1)) in
  let data := (fun p1 => pack7 (take 7 (drop (7 * p1) c.(pm_bits)))) <$> seq 0 bytes in
  alter (fun b => Z.lor b 0x80) (bytes - 1)%nat data.

(** ** Fields *)

Definition emit_bytes (bs : list Z) (e : fast_encoder) : fast_encoder :=
  MkEncoder e.(en_codec) (e.(en_msg) ++ bs) e.(en_output).

(** [check_msg_avail] *)
Definition check_msg_avail (tag size : Z) (e : fast_encoder) : Z * fast_encoder :=
  if MAX_MSG_SIZE - Z.of_nat (length e.(en_msg)) <? size then enc_err (set_err tag FAST_ERR_SIZE e.(en_codec)) e
  else (0, e).

(** The bytes the switch of [emit_i32] and [emit_u32] falls through; the
    first of five is not masked for an unsigned number. *)
Definition group_bytes (signed : bool) (size data : Z) : list Z :=
  (if size =? 5 then [if signed then Z.land (Z.shiftr data 28) 0x7f else u8 (Z.shiftr data 28)] else []) ++
  (if 4 <=? size then [Z.land (Z.shiftr data 21) 0x7f] else []) ++
  (if 3 <=? size then [Z.land (Z.shiftr data 14) 0x7f] else []) ++
  (if 2 <=? size then [Z.land (Z.shiftr data 7) 0x7f] else []) ++
  [Z.lor (Z.land data 0x7f) 0x80].

(** What is appended, with its bit in the presence map *)
Definition emit_group (tag size : Z) (bs : list Z) (e : fast_encoder) : Z * fast_encoder :=
  let '(rc, e) := check_msg_avail tag size e in
  if rc <? 0 then (-1, e)
  else
    let e := emit_bytes bs e in
    let '(code, e) := enc_err (set_pmap tag e.(en_codec)) e in
    (if code <? 0 then code else size, e).

Definition emit_i32 (tag data : Z) (e : fast_encoder) : Z * fast_encoder :=
  let size := i32_to_size data in emit_group tag size (group_bytes true size data) e.
Definition emit_u32 (tag data : Z) (e : fast_encoder) : Z * fast_encoder :=
  let size := u32_to_size data in emit_group tag size (group_bytes false size data) e.
Definition emit_str (tag : Z) (data : list Z) (size : Z) (e : fast_encoder) : Z * fast_encoder :=
  if size <=? 0 then enc_err (set_err (-1) FAST_ERR_SIZE e.(en_codec)) e
  else
    let n := Z.to_nat size in
    emit_group tag size (take (n - 1) data ++ [u8 (Z.lor (default 0 (data !! (n - 1)%nat)) 0x80)]) e.

(** ** Messages *)

(** [flush_group], [flush_msg]: the result of the first is not used. *)
Definition flush_group (e : fast_encoder) : Z * fast_encoder :=
  let size := Z.of_nat (length e.(en_msg)) in
  let need := MAX_PMAP_BYTES + size in
  if MAX_MSG_SIZE - Z.of_nat (length e.(en_output)) <=? need then enc_err (set_err (-1) FAST_ERR_SIZE e.(en_codec)) e
  else (0, MkEncoder (reset_pmap e.(en_codec)) [] (e.(en_output) ++ emit_pmap e.(en_codec) ++ e.(en_msg))).
Definition flush_msg (e : fast_encoder) : Z * fast_encoder := (0, (flush_group e).2).

Definition fast_encode_new_msg (tag : Z) (e : fast_encoder) : Z * fast_encoder :=
  if negb (e.(en_codec).(in_message) =? 0) then enc_err (set_err tag FAST_ERR_CALL_SEQ e.(en_codec)) e
  else (0, on_codec (set_in_message 1) e).
Definition fast_encode_end_msg (tag : Z) (e : fast_encoder) : Z * fast_encoder :=
  if e.(en_codec).(in_message) =? 0 then enc_err (set_err tag FAST_ERR_CALL_SEQ e.(en_codec)) e
  else flush_msg (on_codec (set_in_message 0) e).

(** [check_type] *)
Definition type_error (tag : Z) (e : fast_encoder) : Z * fast_encoder :=
  enc_err (set_err tag FAST_ERR_TAG_TYPE e.(en_codec)) e.

Definition fast_encode_i32 (tag value : Z) (e : fast_encoder) : Z * fast_encoder :=
  let op := get_tag_op tag in
  if negb (get_tag_type tag =? FAST_TYPE_I32) then type_error tag e
  else if op =? FAST_OP_NONE then emit_i32 tag value (on_codec (cv_set_i32 tag value) e)
  else if op =? FAST_OP_COPY then
    if cv_eq_i32 tag value e.(en_codec) then (0, e) else emit_i32 tag value (on_codec (cv_set_i32 tag value) e)
  else enc_err (bad_op_error tag e.(en_codec)) e.

Definition fast_encode_u32 (tag value : Z) (e : fast_encoder) : Z * fast_encoder :=
  let op := get_tag_op tag in
  let emit next e := emit_u32 tag value (on_codec (cv_set_u32 tag next) e) in
  if negb (get_tag_type tag =? FAST_TYPE_U32) then type_error tag e
  else if op =? FAST_OP_NONE then emit value e
  else if op =? FAST_OP_COPY then
    if cv_eq_u32 tag value e.(en_codec) then (0, e) else emit value e
  else if op =? FAST_OP_INCR then
    let next := u32 (value + 1) in
    if cv_eq_u32 tag value e.(en_codec) then (0, on_codec (cv_set_u32 tag next) e) else emit next e
  else if op =? FAST_OP_DELTA then
    if cv_is_valid tag e.(en_codec) then
      let delta := s32 (value - cv_get_u32 tag e.(en_codec)) in
      if delta =? 0 then (0, e) else emit_i32 tag delta (on_codec (cv_set_u32 tag value) e)
    else emit value e
  else enc_err (bad_op_error tag e.(en_codec)) e.

(** [find_char_delta_offset] *)
Fixpoint find_char_delta_offset (n : nat) (a b : list Z) : nat :=
  match n, a, b with
  | S n, x :: a, y :: b => if x =? y then S (find_char_delta_offset n a b) else 0%nat
  | _, _, _ => 0%nat
  end.

(** [fast_encode_str]; [data] has [size] bytes. *)
Definition fast_encode_str (tag : Z) (data : list Z) (size : Z) (e : fast_encoder) : option (Z * fast_encoder) :=
  let op := get_tag_op tag in
  let emit e :=
    c ← cv_set_str tag data size e.(en_codec);
    Some (emit_str tag data size (MkEncoder c e.(en_msg) e.(en_output))) in
  if negb (get_tag_type tag =? FAST_TYPE_STR) then Some (type_error tag e)
  else if op =? FAST_OP_NONE then emit e
  else if op =? FAST_OP_COPY then
    let '(eq, c) := cv_eq_str tag data size e.(en_codec) in
    let e := MkEncoder c e.(en_msg) e.(en_output) in
    if eq : bool then Some (0, e) else emit e
  else if op =? FAST_OP_DELTA then
    guard (size <= 1024);;
    let '(curr, c) := cv_get_str tag e.(en_codec) in
    let offset := find_char_delta_offset (Z.to_nat size) curr data in
    if (offset =? Z.to_nat size)%nat then Some (0, MkEncoder c e.(en_msg) e.(en_output))
    else
      let curr := take offset curr ++ drop offset data ++ drop (Z.to_nat size) curr in
      let c := set_strs c.(str_values) (<[get_tag_slot tag := curr]> c.(fast_strings)) c in
      Some (emit_str tag (drop offset data) (size - Z.of_nat offset) (MkEncoder c e.(en_msg) e.(en_output)))
  else Some (enc_err (bad_op_error tag e.(en_codec)) e).

(** [fast_get_output_buffer]: the bytes copied to a buffer of [size] bytes *)
Definition fast_get_output_buffer (size : Z) (e : fast_encoder) : list Z := take (Z.to_nat size) e.(en_output).
