(* ===== verification/OpraEncProps.v ===== *)
(** * The OPRA codec: fields are read back *)
From S2P Require Import Prelude Bytes ArcaFast ArcaFastProps OpraCodec OpraEnc.

(** ** Bytes of a field *)

(** What the encoder appends for a number is its groups of seven bits. *)
Lemma group_bytes_u32 v : 0 <= v < 2 ^ 32 -> exists k, u32_to_size v = Z.of_nat (S k) /\ (k <= 4)%nat /\
  v < 128 ^ (Z.of_nat k + 1) /\ group_bytes false (u32_to_size v) v = septets k (v / 128) ++ [128 + v mod 128].
Proof.
  intros Hv.
  assert (Hl : forall z n, 0 <= n -> Z.land (Z.shiftr z n) 0x7f = (z / 2 ^ n) mod 128).
  { intros z n Hn. change 0x7f with (Z.ones 7). by rewrite Z.land_ones, Z.shiftr_div_pow2 by lia. }
  assert (Hlast : Z.lor (Z.land v 127) 128 = 128 + v mod 128).
  { change 127 with (Z.ones 7). rewrite Z.land_ones by lia. change 128 with (1 * 2 ^ 7) at 1.
    rewrite lor_add by (cbn; try lia; apply Z.mod_pos_bound; lia). change (2 ^ 7) with 128. lia. }
  assert (Htop : v / 128 / 128 / 128 / 128 < 16).
  { rewrite !Z.div_div by lia. apply Z.div_lt_upper_bound; lia. }
  pose proof (Z.div_pos v 268435456 ltac:(lia) ltac:(lia)) as Hpos.
  unfold u32_to_size, group_bytes.
  destruct (v <? 0x80) eqn:E1; [exists 0%nat|destruct (v <? 0x4000) eqn:E2; [exists 1%nat|destruct (v <? 0x200000) eqn:E3;
    [exists 2%nat|destruct (v <? 0x10000000) eqn:E4; [exists 3%nat | exists 4%nat]]]]; bool_to_prop.
  all: split; [reflexivity|]; split; [lia|]; split; [cbn; lia|].
  all: cbn -[Z.div Z.modulo Z.land Z.lor Z.shiftr]; rewrite ?Hl by lia; rewrite Hlast.
  all: rewrite ?Z.shiftr_div_pow2 by lia; cbn -[Z.div Z.modulo]; rewrite ?Z.div_div by lia; try reflexivity.
  f_equal. change (2 ^ 28) with 268435456. change (128 * _) with 268435456. rewrite !Z.div_div in Htop by lia. change (128 * _) with 268435456 in Htop.
  unfold u8. rewrite !Z.mod_small by lia. done.
Qed.

(** The encoder never takes a string for the one it has. *)
Lemma strncmp_memcmp n : forall a b, (n <= length a)%nat -> memcmp_zero n a b = true -> strncmp_zero n a b = true.
Proof.
  unfold memcmp_zero. induction n as [|n IH]; intros a b Ha H; [done|]. apply bool_decide_eq_true in H.
  destruct a as [|x a]; [cbn in Ha; lia|]. destruct b as [|y b]; [done|]. cbn in H. injection H as -> H. cbn.
  rewrite Z.eqb_refl. destruct (y =? 0); [done|]. apply IH; [cbn in Ha; lia | by apply bool_decide_eq_true].
Qed.

Lemma cv_eq_str_false tag data size c cp c' : cv_get_str tag c = (cp, c') -> (Z.to_nat size <= length cp)%nat ->
  cv_eq_str tag data size c = (false, c').
Proof.
  intros E Hlen. unfold cv_eq_str. rewrite E. destruct (negb (cv_is_valid tag c') || strncmp_zero _ _ _) eqn:Eb; [done|].
  f_equal. apply orb_false_iff in Eb as [_ Eb]. apply not_true_iff_false. intros H.
  apply strncmp_memcmp in H; [congruence | done].
Qed.

(** ** Reading the bytes *)

Lemma parse_bytes_loop_ok l c : Forall (fun b => 0 <= b < 128) l -> 0 <= c < 128 ->
  forall n p1 data rest k, (length l < n)%nat -> (p1 + length l < length data)%nat -> 0 <= k ->
  parse_bytes_loop n p1 data (l ++ [128 + c] ++ rest) (Z.of_nat (length l) + 1 + k) =
  Some (Some (Z.of_nat (p1 + length l) + 1), take p1 data ++ l ++ [c] ++ drop (p1 + length l + 1) data, rest, k).
Proof.
  intros Hl Hc. induction Hl as [|b l Hb Hl IH]; intros n p1 data rest k Hn Hd Hk; (destruct n as [|n]; [cbn in Hn; lia|]); cbn [parse_bytes_loop].
  - cbn [length app]. rewrite (proj2 (Z.leb_gt _ _)) by lia. rewrite (proj2 (Z.leb_le _ _)) by lia.
    rewrite stop_byte_value by done. rewrite Nat.add_0_r. f_equal. f_equal; [|lia]. f_equal. f_equal.
    rewrite insert_take_drop by (cbn in Hd; lia). by rewrite Nat.add_1_r.
  - cbn [length app] in *. rewrite (proj2 (Z.leb_gt _ _)) by lia. rewrite (proj2 (Z.leb_gt _ _)) by lia.
    replace (Z.of_nat (S (length l)) + 1 + k - 1) with (Z.of_nat (length l) + 1 + k) by lia.
    rewrite IH by (rewrite ?length_insert; lia). f_equal. f_equal. f_equal. f_equal; [do 2 f_equal; lia|].
    rewrite insert_take_drop by lia.
    replace (take (S p1) _) with (take p1 data ++ [b]).
    2: { rewrite take_app, length_take, Nat.min_l by lia. rewrite (take_ge (take p1 data)) by (rewrite length_take; lia).
         by replace (S p1 - p1)%nat with 1%nat by lia. }
    replace (drop (S p1 + length l + 1) _) with (drop (p1 + S (length l) + 1) data).
    2: { rewrite drop_app, length_take, Nat.min_l by lia. rewrite (drop_ge (take p1 data)) by (rewrite length_take; lia).
         replace (S p1 + length l + 1 - p1)%nat with (S (length l + 1)) by lia. cbn [drop app]. rewrite drop_drop. f_equal. lia. }
    by rewrite <- app_assoc.
Qed.

Lemma shift_fold l : Forall (fun b => 0 <= b < 128) l -> forall t,
  u32 (foldl (fun temp b => s32 (Z.lor (Z.shiftl temp 7) b)) t l) = fold_left shift_in l (u32 t).
Proof.
  induction 1 as [|b l Hb _ IH]; intros t; [done|]. cbn. rewrite IH. f_equal. rewrite shift_in_add by done.
  rewrite Z.lor_comm, Z.shiftl_mul_pow2 by lia. rewrite lor_add by (cbn; lia). change (2 ^ 7) with 128. word_lia.
Qed.

(** The bytes of a field, and what they stand for *)
Definition stop_coded (bs l : list Z) : Prop :=
  exists l' c, bs = l' ++ [128 + c] /\ l = l' ++ [c] /\ Forall (fun b => 0 <= b < 128) l' /\ 0 <= c < 128.

Lemma parse_bytes_ok bs l data size rest k c : stop_coded bs l -> (length l <= Z.to_nat size)%nat -> (length l <= length data)%nat ->
  0 <= k -> in_mem c = bs ++ rest -> in_left c = Z.of_nat (length bs) + k ->
  parse_bytes data size c = Some (Z.of_nat (length l), l ++ drop (length l) data, set_input rest k c).
Proof.
  intros (l' & x & -> & -> & Hl & Hx) Hs Hd Hk Em El. rewrite length_app in *. cbn [length] in *. unfold parse_bytes.
  rewrite Em, El, <- app_assoc, Nat2Z.inj_add.
  rewrite parse_bytes_loop_ok by (done || lia). cbn [mbind option_bind Nat.add take app]. rewrite <- app_assoc. cbn [app].
  by do 3 f_equal.
Qed.

Lemma parse_u32_ok tag v rest k c : 0 <= v < 2 ^ 32 -> get_pmap tag c <> 0 -> 0 <= k ->
  in_mem c = group_bytes false (u32_to_size v) v ++ rest -> in_left c = u32_to_size v + k ->
  parse_u32 tag c = Some (u32_to_size v, Some v, set_input rest k c).
Proof.
  intros Hv Hp Hk Em El. destruct (group_bytes_u32 v Hv) as (n & En & Hn & Hlt & Eb). rewrite Eb in Em. rewrite En in *.
  assert (Hlen : forall n v, length (septets n v) = n).
  { clear. induction n as [|n IH]; intros v; [done|]. cbn. rewrite length_app, IH. cbn. lia. }
  assert (Hc : stop_coded (septets n (v / 128) ++ [128 + v mod 128]) (septets n (v / 128) ++ [v mod 128])).
  { exists (septets n (v / 128)), (v mod 128). split; [done|]. split; [done|]. split; [apply septets_small | apply Z.mod_pos_bound; lia]. }
  assert (Hl : length (septets n (v / 128) ++ [v mod 128]) = S n) by (rewrite length_app, Hlen; cbn; lia).
  unfold parse_u32, parse_32. rewrite (proj2 (Z.eqb_neq _ _) Hp).
  rewrite (parse_bytes_ok _ _ (replicate 5 0) 5 rest k c Hc) by (rewrite ?Hl; cbn; rewrite ?length_app, ?Hlen; cbn; lia || done).
  cbn [mbind option_bind]. rewrite Hl, (proj2 (Z.ltb_ge _ _)) by lia. rewrite Nat2Z.id, take_app_length' by done.
  rewrite Z.land_0_r. cbn [negb Z.eqb mbind option_bind option_map]. do 4 f_equal. rewrite Z.sub_0_r, shift_fold.
  - rewrite fold_left_app. cbn [fold_left]. change (u32 0) with 0.
    rewrite <- (stop_byte_value (v mod 128)) by (apply Z.mod_pos_bound; lia). by apply int_value.
  - apply Forall_app. split; [apply septets_small|]. constructor; [apply Z.mod_pos_bound; lia | constructor].
Qed.

(** ** Fields *)

Inductive fast_field := FU32 (tag v : Z) | FStr (tag : Z) (bs : list Z).
Definition field_tag (f : fast_field) : Z := match f with FU32 tag _ => tag | FStr tag _ => tag end.
Definition field_slot (f : fast_field) : Z := get_tag_slot (field_tag f).

(** The encoder succeeds. *)
Definition encode_field (f : fast_field) (e : fast_encoder) : option fast_encoder :=
  '(rc, e) ← match f with
             | FU32 tag v => Some (fast_encode_u32 tag v e)
             | FStr tag bs => fast_encode_str tag bs (Z.of_nat (length bs)) e
             end;
  if rc <? 0 then None else Some e.
Fixpoint encode_fields (fs : list fast_field) (e : fast_encoder) : option fast_encoder :=
  match fs with [] => Some e | f :: fs => e ← encode_field f e; encode_fields fs e end.

(** How the value of a slot is predicted *)
Inductive slot_kind := SCopy | SIncr | SStr.
Definition field_ok (kind : Z * Z -> slot_kind) (f : fast_field) : Prop :=
  field_slot f < MAX_PMAP_BITS /\
  match f with
  | FU32 tag v => get_tag_type tag = FAST_TYPE_U32 /\ 0 <= v < 2 ^ 32 /\
      (kind (tag_key tag) = SCopy /\ get_tag_op tag = FAST_OP_COPY \/ kind (tag_key tag) = SIncr /\ get_tag_op tag = FAST_OP_INCR)
  | FStr tag bs => get_tag_type tag = FAST_TYPE_STR /\ kind (tag_key tag) = SStr /\ get_tag_op tag = FAST_OP_COPY /\
      Forall (fun b => 0 <= b < 128) bs /\ (1 <= length bs < 1024)%nat
  end.

Definition pm_bit (s : Z) (c : fast_codec) : Z := default 0 (c.(pm_bits) !! Z.to_nat s).
Record pm_ok (c : fast_codec) : Prop := {
  pm_length : length c.(pm_bits) = 56%nat;
  pm_max : 0 <= c.(pm_max_pos) < MAX_PMAP_BITS;
  pm_above : forall s, c.(pm_max_pos) < s -> pm_bit s c = 0;
  pm_boolean : Forall (fun b => b = 0 \/ b = 1) c.(pm_bits)
}.

Lemma slot_range tag : 0 <= get_tag_slot tag < 256.
Proof.
  unfold get_tag_slot. change 0xff with (Z.ones 8). rewrite Z.land_ones by lia. apply Z.mod_pos_bound. done.
Qed.

(** The strings of a codec have 1024 bytes. *)
Definition strings_ok (c : fast_codec) : Prop := forall s l, c.(fast_strings) !! s = Some l -> length l = 1024%nat.

Lemma slot_string_length tag c : strings_ok c -> length (slot_string tag c) = 1024%nat.
Proof.
  intros H. unfold slot_string. destruct (fast_strings c !! get_tag_slot tag) eqn:E; [by apply (H _ _ E) | apply length_replicate].
Qed.

Lemma cv_get_str_ok tag c cp c' : strings_ok c -> cv_get_str tag c = (cp, c') -> length cp = 1024%nat /\ strings_ok c' /\
  exists p v, c' = set_strs p v c.
Proof.
  intros H. unfold cv_get_str. pose proof (slot_string_length tag c H) as Hl. case_bool_decide; [intros [= <- ->] | intros [= <- <-]].
  - split; [done|]. split; [done|]. exists (str_values c'), (fast_strings c'). by destruct c'.
  - rewrite length_insert. split; [done|]. split; [|by eexists _, _]. intros s l. cbn. intros [[<- <-]|[_ E]]%lookup_insert_Some.
    + by rewrite length_insert.
    + by apply (H _ _ E).
Qed.

Lemma cv_set_str_ok tag data size c : strings_ok c -> 0 <= size < 1024 -> size <= Z.of_nat (length data) -> exists p v,
  cv_set_str tag data size c = Some (cv_set_valid tag (set_strs p v c)) /\ strings_ok (set_strs p v c).
Proof.
  intros H Hs Hd. unfold cv_set_str. rewrite (proj2 (Z.leb_le 0 _)), (proj2 (Z.ltb_lt _ _)), (proj2 (Z.leb_le size _)) by lia. cbn [andb].
  destruct (cv_get_str tag c) as [cp c'] eqn:E. destruct (cv_get_str_ok _ _ _ _ H E) as (Hl & H' & p & v & ->).
  eexists _, _. split; [reflexivity|]. intros s l. cbn. intros [[_ <-]|[_ E']]%lookup_insert_Some; [|by apply (H' s l)].
  rewrite length_app, length_take, Nat.min_l by lia. cbn. rewrite length_drop, Hl. lia.
Qed.

Lemma set_pmap_ok tag c : pm_ok c -> get_tag_slot tag < MAX_PMAP_BITS -> exists p,
  set_pmap tag c = (0, set_pm (<[Z.to_nat (get_tag_slot tag) := 1]> c.(pm_bits)) c.(pm_size) p c) /\
  pm_ok (set_pm (<[Z.to_nat (get_tag_slot tag) := 1]> c.(pm_bits)) c.(pm_size) p c).
Proof.
  intros H Hs. pose proof (slot_range tag) as Hr. pose proof (pm_length _ H) as Hlen. pose proof (pm_max _ H) as Hmax. unfold set_pmap.
  assert (Hok : forall p, 0 <= p < MAX_PMAP_BITS -> pm_max_pos c <= p -> get_tag_slot tag <= p ->
    pm_ok (set_pm (<[Z.to_nat (get_tag_slot tag) := 1]> c.(pm_bits)) c.(pm_size) p c)).
  { intros p Hp H1 H2. constructor; cbn.
    - by rewrite length_insert.
    - done.
    - intros s Hps. unfold pm_bit. cbn. rewrite list_lookup_insert_ne by lia. apply (pm_above _ H). lia.
    - apply Forall_insert; [apply (pm_boolean _ H) | by right]. }
  destruct (pm_max_pos c <? get_tag_slot tag) eqn:E; bool_to_prop.
  - rewrite (proj2 (Z.leb_gt _ _)) by done. eexists. split; [reflexivity|]. apply Hok; lia.
  - eexists. split; [reflexivity|]. apply Hok; lia.
Qed.

(** What one field does to the encoder *)
Record field_sent (f : fast_field) (e e' : fast_encoder) (bs : list Z) : Prop := {
  fs_msg : en_msg e' = en_msg e ++ bs;
  fs_output : en_output e' = en_output e;
  fs_in_message : in_message (en_codec e') = in_message (en_codec e);
  fs_pm : pm_ok (en_codec e');
  fs_strings : strings_ok (en_codec e');
  fs_bit : forall s, 0 <= s -> pm_bit s (en_codec e') =
    if bool_decide (s = field_slot f /\ bs <> []) then 1 else pm_bit s (en_codec e)
}.

Lemma emit_group_ok f tag size bs e rc e' : tag = field_tag f -> field_slot f < MAX_PMAP_BITS -> 0 < size -> bs <> [] ->
  pm_ok (en_codec e) -> strings_ok (en_codec e) -> emit_group tag size bs e = (rc, e') -> (rc <? 0) = false ->
  field_sent f e e' bs /\ i32_values (en_codec e') = i32_values (en_codec e) /\
  u32_values (en_codec e') = u32_values (en_codec e) /\ cv_valid (en_codec e') = cv_valid (en_codec e).
Proof.
  intros -> Hslot Hsize Hbs Hpm Hstr. unfold emit_group, check_msg_avail. destruct (_ <? size).
  { cbn. intros [= <- <-]. done. }
  cbn [Z.ltb Z.compare]. destruct (set_pmap_ok (field_tag f) (en_codec e) Hpm Hslot) as (p & E & Hok). cbn [en_codec emit_bytes].
  rewrite E. cbn. intros [= <- <-] _. split; [|done]. constructor; cbn; try done.
  intros s Hs. unfold pm_bit. cbn. pose proof (slot_range (field_tag f)). fold (field_slot f) in *.
  case_bool_decide as Hd.
  - destruct Hd as [-> _]. rewrite list_lookup_insert_eq; [done|]. rewrite (pm_length _ Hpm). unfold MAX_PMAP_BITS, MAX_PMAP_BYTES in *. lia.
  - rewrite list_lookup_insert_ne; [done|]. intros Heq. apply Hd. split; [lia | done].
Qed.

Lemma sent_some (x : Z * fast_encoder) e' : (let '(rc, e) := x in if rc <? 0 then None else Some e) = Some e' ->
  exists r e1, x = (r, e1) /\ (if r <? 0 then None else Some e1) = Some e'.
Proof. destruct x as [r e1]. by exists r, e1. Qed.

(** ** The two sides *)

Section sync.
Context (kind : Z * Z -> slot_kind).

(** What the decoder has to know: the values the encoder predicts from. The
    encoder keeps the next value of a slot that counts. *)
Definition predicts (k : Z * Z) (enc dec : Z) : Prop :=
  match kind k with SCopy => enc = dec | SIncr => enc = u32 (dec + 1) | SStr => True end.
Definition sync (ce cd : fast_codec) : Prop :=
  strings_ok cd /\ forall k, k ∈ ce.(cv_valid) -> k ∈ cd.(cv_valid) /\
    predicts k (default 0 (ce.(u32_values) !! k)) (default 0 (cd.(u32_values) !! k)).

Definition u32_at (k : Z * Z) (c : fast_codec) : Z := default 0 (c.(u32_values) !! k).

Lemma sync_set tag ve vd ce ce' cd cd' : sync ce cd -> predicts (tag_key tag) ve vd ->
  cv_valid ce' = {[tag_key tag]} ∪ cv_valid ce -> u32_at (tag_key tag) ce' = ve ->
  (forall k, k <> tag_key tag -> u32_at k ce' = u32_at k ce) ->
  cv_valid cd' = {[tag_key tag]} ∪ cv_valid cd -> u32_values cd' = <[tag_key tag := vd]> (u32_values cd) ->
  fast_strings cd' = fast_strings cd -> sync ce' cd'.
Proof.
  intros [Hs H] Hp Ev Eu Eo Ev' Eu' Es. split; [unfold strings_ok; by rewrite Es|]. intros k. rewrite Ev, Ev', Eu'. fold (u32_at k ce').
  destruct (decide (k = tag_key tag)) as [->|Hne]; intros Hk.
  - rewrite lookup_insert_eq, Eu. split; [set_solver | done].
  - rewrite lookup_insert_ne, Eo by done. destruct (H k) as [H1 H2]; [set_solver|]. split; [set_solver | done].
Qed.

Definition sent_ok (f : fast_field) (e e' : fast_encoder) (bs : list Z) (run : fast_codec -> fast_codec -> Prop) : Prop :=
  forall cd rest k, sync (en_codec e) cd -> (get_pmap (field_tag f) cd = 0 <-> bs = []) -> 0 <= k ->
  in_mem cd = bs ++ rest -> in_left cd = Z.of_nat (length bs) + k -> exists cd', run cd cd' /\
  in_mem cd' = rest /\ in_left cd' = k /\ pm_bits cd' = pm_bits cd /\ pm_size cd' = pm_size cd /\ sync (en_codec e') cd'.

Lemma encode_u32_ok tag v e e' : field_ok kind (FU32 tag v) -> pm_ok (en_codec e) -> strings_ok (en_codec e) ->
  encode_field (FU32 tag v) e = Some e' -> exists bs, field_sent (FU32 tag v) e e' bs /\
  sent_ok (FU32 tag v) e e' bs (fun cd cd' => fast_decode_u32 tag cd = Some (0, Some v, cd')).
Proof.
  intros (Hslot & Htype & Hv & Hop) Hpm Hstr He. unfold encode_field in He. cbn [mbind option_bind] in He.
  assert (Hgn : group_bytes false (u32_to_size v) v <> []) by (unfold group_bytes; rewrite !app_assoc; by intros [_ ?]%app_eq_nil).
  assert (Hsz : 0 < u32_to_size v /\ Z.of_nat (length (group_bytes false (u32_to_size v) v)) = u32_to_size v).
  { destruct (group_bytes_u32 v Hv) as (n & E & _ & _ & Eb). rewrite Eb, E, length_app. cbn [length].
    assert (Hl : forall n v, length (septets n v) = n).
    { clear. induction n as [|n IH]; intros v; [done|]. cbn. rewrite length_app, IH. cbn. lia. } rewrite Hl. lia. }
  set (next := if get_tag_op tag =? FAST_OP_INCR then u32 (v + 1) else v).
  assert (Hpred : predicts (tag_key tag) next v).
  { unfold predicts, next. destruct Hop as [[-> ->]|[-> ->]]; done. }
  (* the value is sent *)
  assert (Hsend : forall r e1, emit_u32 tag v (on_codec (cv_set_u32 tag next) e) = (r, e1) -> (if r <? 0 then None else Some e1) = Some e' ->
    exists bs, field_sent (FU32 tag v) e e' bs /\
    sent_ok (FU32 tag v) e e' bs (fun cd cd' => fast_decode_u32 tag cd = Some (0, Some v, cd'))).
  { intros r e1 E Er. destruct (r <? 0) eqn:Erc; [done|]. injection Er as ->.
    destruct (emit_group_ok (FU32 tag v) tag (u32_to_size v)
      (group_bytes false (u32_to_size v) v) (on_codec (cv_set_u32 tag next) e) r e' eq_refl Hslot) as (Hs & _ & Eu & Ev);
      [lia | done | by destruct Hpm | done | exact E | done|].
    eexists. split; [destruct Hs; constructor; done|].
    intros cd rest k Hsync Hp Hk Em El. cbn [field_tag] in *. assert (Hp' : get_pmap tag cd <> 0) by (rewrite Hp; done).
    rewrite (proj2 Hsz) in El. exists (cv_set_u32 tag v (set_input rest k cd)). split.
    - unfold fast_decode_u32. rewrite (parse_u32_ok tag v rest k cd Hv Hp' Hk Em El). cbn [mbind option_bind].
      rewrite (proj2 (Z.ltb_ge _ _)), (proj2 (Z.eqb_neq (u32_to_size v) 0)) by lia. cbn [default].
      destruct Hop as [[_ ->]|[_ ->]]; cbn [Z.eqb FAST_OP_COPY FAST_OP_INCR FAST_OP_NONE Pos.eqb]; do 2 f_equal;
        unfold cv_get_u32; cbn; by rewrite lookup_insert_eq.
    - do 4 (split; [done|]). apply (sync_set tag next v (en_codec e) (en_codec e') cd); [done | done | exact Ev | | | done | done | done];
        unfold u32_at; rewrite Eu; cbn; [by rewrite lookup_insert_eq | intros k' Hk'; by rewrite lookup_insert_ne]. }
  unfold fast_encode_u32 in He. rewrite Htype in He. cbn [Z.eqb FAST_TYPE_U32 negb Pos.eqb] in He.
  assert (Hcases : cv_eq_u32 tag v (en_codec e) = true /\
      e' = (if get_tag_op tag =? FAST_OP_INCR then on_codec (cv_set_u32 tag next) e else e) \/
    exists r e1, emit_u32 tag v (on_codec (cv_set_u32 tag next) e) = (r, e1) /\ (if r <? 0 then None else Some e1) = Some e').
  { revert He. unfold next. destruct Hop as [[_ Eop]|[_ Eop]]; rewrite Eop; cbn [Z.eqb FAST_OP_COPY FAST_OP_INCR FAST_OP_NONE Pos.eqb];
      destruct (cv_eq_u32 tag v (en_codec e)); intros He.
    - left. by injection He as ->.
    - right. by apply sent_some.
    - left. by injection He as ->.
    - right. by apply sent_some. }
  destruct Hcases as [[Eeq ->]|(r & e1 & E1 & E2)]; [|by apply (Hsend r e1)].
  (* the value is predicted *)
  unfold cv_eq_u32 in Eeq. apply andb_true_iff in Eeq as [Hvalid Hval]. bool_to_prop. apply bool_decide_eq_true in Hvalid.
  exists []. split.
  { constructor; try (destruct (_ =? _)); cbn; rewrite ?app_nil_r; try done; try (by destruct Hpm).
    - intros s Hs. rewrite bool_decide_false; [by destruct (_ =? _) | by intros [_ ?]].
    - intros s Hs. rewrite bool_decide_false; [by destruct (_ =? _) | by intros [_ ?]]. }
  intros cd rest k Hsync Hp Hk Em El. cbn [field_tag app length] in *.
  destruct (proj2 Hsync (tag_key tag) Hvalid) as [Hvd Hpv]. unfold cv_get_u32 in Hval.
  exists (cv_set_u32 tag v cd). split.
  - unfold fast_decode_u32, parse_u32, parse_32. rewrite (proj2 Hp eq_refl).
    unfold cv_is_valid.
    assert (Hcd : cv_get_u32 tag (cv_set_u32 tag v cd) = v) by (unfold cv_get_u32; cbn; by rewrite lookup_insert_eq).
    unfold predicts in Hpv. fold (cv_get_u32 tag cd) in Hpv. destruct Hop as [[Ek ->]|[Ek ->]]; rewrite Ek, Hval in Hpv;
      cbn [Z.eqb Z.ltb Z.compare FAST_OP_COPY FAST_OP_INCR FAST_OP_NONE Pos.eqb mbind option_bind option_map negb];
      rewrite <- ?Hpv.
    all: rewrite ?Hcd, bool_decide_true by done; done.
  - split; [exact Em|]. split; [cbn in *; lia|]. split; [done|]. split; [done|].
    apply (sync_set tag next v (en_codec e) _ cd); [done | done | | | | done | done | done].
    + destruct (_ =? _); [done|]. symmetry. by apply subseteq_union_1_L, singleton_subseteq_l.
    + unfold next, u32_at. destruct Hop as [[Ek ->]|[Ek ->]]; cbn; [done | by rewrite lookup_insert_eq].
    + intros k' Hk'. unfold u32_at. destruct (_ =? _); [|done]. cbn. by rewrite lookup_insert_ne.
Qed.
Lemma sync_string ce ce' cd cd' tag : sync ce cd -> kind (tag_key tag) = SStr ->
  cv_valid ce' = {[tag_key tag]} ∪ cv_valid ce -> u32_values ce' = u32_values ce ->
  cv_valid cd' = {[tag_key tag]} ∪ cv_valid cd -> u32_values cd' = u32_values cd -> strings_ok cd' -> sync ce' cd'.
Proof.
  intros [Hs H] Hk Ev Eu Ev' Eu' Hs'. split; [done|]. intros k. rewrite Ev, Eu, Ev', Eu'.
  destruct (decide (k = tag_key tag)) as [->|Hne]; intros Hin; [unfold predicts; rewrite Hk; set_solver|].
  destruct (H k) as [H1 H2]; [set_solver|]. split; [set_solver | done].
Qed.

Lemma encode_str_ok tag bs0 e e' : field_ok kind (FStr tag bs0) -> pm_ok (en_codec e) -> strings_ok (en_codec e) ->
  encode_field (FStr tag bs0) e = Some e' -> exists bs, field_sent (FStr tag bs0) e e' bs /\
  forall data, (length bs0 <= length data < 1024)%nat -> sent_ok (FStr tag bs0) e e' bs (fun cd cd' =>
    fast_decode_str tag data (Z.of_nat (length data)) cd = Some (Z.of_nat (length bs0), bs0 ++ drop (length bs0) data, cd')).
Proof.
  intros (Hslot & Htype & Hkind & Hop & Hbytes & Hlen) Hpm Hstr He. unfold encode_field, fast_encode_str in He.
  rewrite Htype, Hop in He. cbn [Z.eqb FAST_TYPE_STR FAST_OP_COPY FAST_OP_NONE negb Pos.eqb] in He.
  destruct (cv_get_str tag (en_codec e)) as [cp c1] eqn:Eget. destruct (cv_get_str_ok _ _ _ _ Hstr Eget) as (Hcp & Hstr1 & p & v & Ec1).
  rewrite (cv_eq_str_false _ _ _ _ cp c1) in He by (done || rewrite Hcp; lia). cbn [mbind option_bind en_codec en_msg en_output] in He.
  destruct (cv_set_str_ok tag bs0 (Z.of_nat (length bs0)) c1 Hstr1) as (p2 & v2 & Eset & Hstr2); [lia | lia|]. rewrite Eset in He.
  cbn [mbind option_bind] in He. apply sent_some in He as (r & e1 & E1 & E2). destruct (r <? 0) eqn:Er; [done|]. injection E2 as ->.
  unfold emit_str in E1. rewrite (proj2 (Z.leb_gt _ _)), Nat2Z.id in E1 by lia.
  destruct (snoc_cases bs0) as [->|(l & x & ->)]; [cbn in Hlen; lia|]. rewrite length_app in *. cbn [length] in *.
  replace (length l + 1 - 1)%nat with (length l) in E1 by lia. rewrite take_app_length, list_lookup_middle in E1 by done. change (default 0 (Some x)) with x in E1.
  apply Forall_app in Hbytes as [Hl Hx]. apply Forall_inv in Hx.
  assert (Hor : u8 (Z.lor x 128) = 128 + x).
  { change 128 with (1 * 2 ^ 7) at 1. rewrite lor_add by (cbn; lia). change (2 ^ 7) with 128. rewrite u8_small; lia. }
  rewrite Hor in E1.
  destruct (emit_group_ok (FStr tag (l ++ [x])) tag (Z.of_nat (length l + 1)) (l ++ [128 + x])
    (MkEncoder (cv_set_valid tag (set_strs p2 v2 c1)) (en_msg e) (en_output e)) _ _ eq_refl Hslot ltac:(lia) ltac:(by intros [_ ?]%app_eq_nil) ltac:(subst c1; by destruct Hpm) Hstr2 E1 Er)
    as (Hs & _ & Eu & Ev).
  exists (l ++ [128 + x]). split; [subst c1; destruct Hs; constructor; done|].
  intros data Hd cd rest k Hsync Hp Hk Em El. cbn [field_tag] in *. assert (Hp' : get_pmap tag cd <> 0) by (rewrite Hp; by intros [_ ?]%app_eq_nil).
  assert (Hcoded : stop_coded (l ++ [128 + x]) (l ++ [x])) by (by exists l, x).
  assert (Hn : length (l ++ [x]) = (length l + 1)%nat) by (by rewrite length_app). rewrite <- Hn in *.
  set (bs := l ++ [x]) in *. clearbody bs.
  set (data' := bs ++ drop (length bs) data). assert (Hd' : length data' = length data).
  { unfold data'. rewrite length_app, length_drop. lia. }
  destruct (cv_set_str_ok tag data' (Z.of_nat (length data)) (set_input rest k cd)) as (p3 & v3 & Eset3 & Hstr3);
    [exact (proj1 Hsync) | lia | lia|].
  eexists. split.
  - unfold fast_decode_str. rewrite Hop. cbn [Z.eqb FAST_OP_COPY FAST_OP_NONE Pos.eqb]. unfold parse_str. rewrite (proj2 (Z.eqb_neq _ _) Hp').
    rewrite (parse_bytes_ok _ _ data (Z.of_nat (length data)) rest k cd Hcoded) by (done || lia). cbn [mbind option_bind].
    rewrite (proj2 (Z.ltb_ge _ 0)), (proj2 (Z.ltb_lt 0 _)) by lia. fold data'. rewrite Eset3. cbn [mbind option_bind].
    destruct (Z.of_nat (length bs) <? Z.of_nat (length data)) eqn:Elt; [reflexivity|]. bool_to_prop. by replace (length data) with (length bs) by lia.
  - cbn. do 4 (split; [done|]). apply (sync_string (en_codec e) (en_codec e') cd _ tag Hsync Hkind).
    + rewrite Ev. subst c1. done.
    + rewrite Eu. subst c1. done.
    + done.
    + done.
    + exact Hstr3.
Qed.
End sync.

(** ** The presence map *)

Lemma byte_bits_pack7 l : length l = 7%nat -> Forall (fun b => b = 0 \/ b = 1) l -> byte_bits (pack7 l) = l /\ 0 <= pack7 l < 128.
Proof.
  intros Hl Hb. destruct l as [|b1 [|b2 [|b3 [|b4 [|b5 [|b6 [|b7 [|]]]]]]]]; try done.
  repeat match goal with H : Forall _ (_ :: _) |- _ => apply Forall_cons in H as [[-> | ->] H] end; vm_compute; by repeat split.
Qed.

(** The groups of seven bits of the first [n] bytes of the map *)
Definition pm_groups (n : nat) (c : fast_codec) : list (list Z) := (fun p => take 7 (drop (7 * p) c.(pm_bits))) <$> seq 0 n.

Lemma pm_groups_ok n c : pm_ok c -> (7 * n <= 56)%nat ->
  Forall (fun g => length g = 7%nat /\ Forall (fun b => b = 0 \/ b = 1) g) (pm_groups n c) /\ concat (pm_groups n c) = take (7 * n) c.(pm_bits).
Proof.
  intros Hpm. pose proof (pm_length _ Hpm) as Hl. induction n as [|n IH]; intros Hn; [split; [constructor | by rewrite take_0]|].
  destruct IH as [IH1 IH2]; [lia|]. unfold pm_groups in *. rewrite seq_S, fmap_app, concat_app. cbn [fmap list_fmap concat Nat.add].
  rewrite IH2, app_nil_r. split.
  - apply Forall_app. split; [done|]. constructor; [|constructor]. split; [rewrite length_take, length_drop; lia|].
    apply Forall_take, Forall_drop, (pm_boolean _ Hpm).
  - rewrite <- (take_drop (7 * n) (take (7 * S n) _)). rewrite take_take, Nat.min_l by lia. f_equal.
    rewrite skipn_firstn_comm. f_equal. lia.
Qed.

Lemma emit_pmap_groups c : pm_ok c -> exists n l x, emit_pmap c = l ++ [128 + x] /\ (0 < n)%nat /\ (7 * n <= 56)%nat /\
  pm_max_pos c < 7 * Z.of_nat n /\ l ++ [x] = pack7 <$> pm_groups n c /\ Forall (fun b => 0 <= b < 128) (l ++ [x]).
Proof.
  intros Hpm. pose proof (pm_max _ Hpm) as Hmax. unfold MAX_PMAP_BITS, MAX_PMAP_BYTES in Hmax. unfold emit_pmap.
  assert (Hdm := Z.div_mod (pm_max_pos c + 1 + 7 - 1) 7 ltac:(lia)). assert (Hmb := Z.mod_pos_bound (pm_max_pos c + 1 + 7 - 1) 7 ltac:(lia)).
  unfold align7. set (q := (pm_max_pos c + 1 + 7 - 1) / 7) in *.
  destruct (Z.to_nat q) as [|m] eqn:En; [lia|]. replace (S m - 1)%nat with m by lia.
  destruct (pm_groups_ok (S m) c Hpm ltac:(lia)) as [Hg _].
  assert (Hsmall : Forall (fun b => 0 <= b < 128) (pack7 <$> pm_groups (S m) c)).
  { apply Forall_fmap. eapply Forall_impl; [exact Hg|]. intros g [H1 H2]. by apply byte_bits_pack7. }
  assert (Esplit : pack7 <$> pm_groups (S m) c = (pack7 <$> pm_groups m c) ++ [pack7 (take 7 (drop (7 * m) (pm_bits c)))]).
  { unfold pm_groups. rewrite seq_S, !fmap_app. done. }
  exists (S m), (pack7 <$> pm_groups m c), (pack7 (take 7 (drop (7 * m) (pm_bits c)))).
  rewrite <- Esplit. split; [|split; [lia|split; [lia|split; [lia|split; [done | exact Hsmall]]]]].
  replace (fmap _ (seq 0 (S m))) with (pack7 <$> pm_groups (S m) c) by (unfold pm_groups; by rewrite <- list_fmap_compose).
  rewrite Esplit in *. assert (Hlen : length (pack7 <$> pm_groups m c) = m) by (unfold pm_groups; by rewrite !length_fmap, length_seq).
  set (x := pack7 (take 7 (drop (7 * m) (pm_bits c)))) in *. clearbody x.
  rewrite <- Hlen at 1. rewrite alter_app_r_alt by lia. replace (_ - _)%nat with 0%nat by lia. cbn. do 2 f_equal.
  apply Forall_app in Hsmall as [_ Hx]. apply Forall_inv in Hx. change 128 with (1 * 2 ^ 7) at 1. rewrite lor_add by (cbn; lia). change (1 * 2 ^ 7) with 128. lia.
Qed.

Lemma groups_bits n c : pm_ok c -> (7 * n <= 56)%nat -> (pack7 <$> pm_groups n c) ≫= byte_bits = take (7 * n) c.(pm_bits).
Proof.
  intros Hpm Hn. destruct (pm_groups_ok n c Hpm Hn) as [Hg Hc]. rewrite <- Hc. clear Hc.
  induction Hg as [|g gs [H1 H2] _ IH]; [done|]. cbn [fmap list_fmap concat]. rewrite bind_cons, IH. f_equal. by apply byte_bits_pack7.
Qed.

(** The decoder gets the presence map of the encoder. *)
Lemma parse_pmap_ok ce cd rest k : pm_ok ce -> length cd.(pm_bits) = 56%nat -> 0 <= k -> in_mem cd = emit_pmap ce ++ rest ->
  in_left cd = Z.of_nat (length (emit_pmap ce)) + k -> exists n b, parse_pmap cd = Some (n, set_pm b (7 * n) (pm_max_pos cd) (set_input rest k cd)) /\
  0 < n /\ length b = 56%nat /\ forall s, 0 <= s < MAX_PMAP_BITS -> (if 7 * n <=? s then 0 else default 0 (b !! Z.to_nat s)) = pm_bit s ce.
Proof.
  intros Hpm Hlen Hk Em El. destruct (emit_pmap_groups ce Hpm) as (n & l & x & Eemit & Hn0 & Hn & Hmax & Eg & Hb). rewrite Eemit in *.
  assert (Hln : length (l ++ [x]) = n) by (by rewrite Eg; unfold pm_groups; rewrite !length_fmap, length_seq).
  apply Forall_app in Hb as [Hl Hx]. apply Forall_inv in Hx.
  assert (Hc : stop_coded (l ++ [128 + x]) (l ++ [x])) by (by exists l, x).
  unfold parse_pmap. rewrite (parse_bytes_ok _ _ (replicate (Z.to_nat MAX_PMAP_BYTES) 0) MAX_PMAP_BYTES rest k cd Hc)
    by (try done; rewrite ?length_replicate, Hln; change (Z.to_nat MAX_PMAP_BYTES) with 8%nat; lia).
  cbn [mbind option_bind]. rewrite Hln, (proj2 (Z.ltb_ge _ _)), Nat2Z.id by lia. rewrite take_app_length' by done. rewrite Eg.
  change (@list_bind Z Z byte_bits (pack7 <$> pm_groups n ce)) with ((pack7 <$> pm_groups n ce) ≫= byte_bits).
  rewrite (groups_bits n ce Hpm Hn). pose proof (pm_length _ Hpm) as Hle.
  eexists (Z.of_nat n), _. split; [reflexivity|]. split; [lia|]. rewrite length_take, Nat.min_l by lia. split.
  { rewrite length_app, length_take, length_drop. cbn [pm_bits set_input]. lia. }
  intros s Hs. destruct (Z.leb_spec (7 * Z.of_nat n) s) as [H|H].
  - symmetry. apply (pm_above _ Hpm). lia.
  - rewrite lookup_app_l by (rewrite length_take; lia). rewrite lookup_take_lt by lia. done.
Qed.
