(* ===== verification/OpraFast.v ===== *)
(** * OPRA messages from FAST ([src/feeds/opra/fast/codec/fast_opra.h],
      [fast_decode.c], [fast_process.c], and
      [src/feeds/opra/fast/v2/fh_opra_lh_v2.c])

    A packet is a header and a list of messages, each with its length.  The
    length that a decode function returns is not used, and left out. *)
From S2P Require Import Prelude Mpool OpraCodec OpraLine.

(** ** Tags *)

Definition OPRA_BASE_TID : Z := 0.
Definition u32_tag (op slot : Z) : Z := MAKE_TAG FAST_TYPE_U32 op OPRA_BASE_TID slot.
Definition str_tag (slot : Z) : Z := MAKE_TAG FAST_TYPE_STR FAST_OP_COPY OPRA_BASE_TID slot.

Definition MESSAGE_CATEGORY_V2 := u32_tag FAST_OP_COPY 0.
Definition MESSAGE_TYPE_V2 := u32_tag FAST_OP_COPY 1.
Definition PARTICIPANT_ID_V2 := u32_tag FAST_OP_COPY 2.
Definition RETRANSMISSION_REQUESTER_V2 := u32_tag FAST_OP_COPY 3.
Definition MESSAGE_SEQUENCE_NUMBER_V2 := u32_tag FAST_OP_INCR 4.
Definition TIME_V2 := u32_tag FAST_OP_COPY 5.
Definition SECURITY_SYMBOL_V2 := str_tag 6.
Definition EXPIRATION_MONTH_V2 := u32_tag FAST_OP_COPY 7.
Definition EXPIRATION_DATE_V2 := u32_tag FAST_OP_COPY 8.
Definition YEAR_V2 := u32_tag FAST_OP_COPY 9.
Definition STRIKE_PRICE_DENOMINATOR_CODE_V2 := u32_tag FAST_OP_COPY 10.
Definition EXPLICIT_STRIKE_PRICE_V2 := u32_tag FAST_OP_COPY 11.
Definition STRIKE_PRICE_CODE_V2 := u32_tag FAST_OP_COPY 12.
Definition VOLUME_V2 := u32_tag FAST_OP_COPY 13.
Definition OPEN_INT_VOLUME_V2 := u32_tag FAST_OP_COPY 14.
Definition PREMIUM_PRICE_DENOMINATOR_CODE_V2 := u32_tag FAST_OP_COPY 15.
Definition PREMIUM_PRICE_V2 := u32_tag FAST_OP_COPY 16.
Definition OPEN_PRICE_V2 := u32_tag FAST_OP_COPY 17.
Definition HIGH_PRICE_V2 := u32_tag FAST_OP_COPY 18.
Definition LOW_PRICE_V2 := u32_tag FAST_OP_COPY 19.
Definition LAST_PRICE_V2 := u32_tag FAST_OP_COPY 20.
Definition NET_CHANGE_INDICATOR_V2 := u32_tag FAST_OP_COPY 21.
Definition NET_CHANGE_V2 := u32_tag FAST_OP_COPY 22.
Definition UNDERLYING_PRICE_DENOM_V2 := u32_tag FAST_OP_COPY 23.
Definition UNDERLYING_STOCK_PRICE_V2 := u32_tag FAST_OP_COPY 24.
Definition BID_PRICE_V2 := u32_tag FAST_OP_COPY 25.
Definition BID_SIZE_V2 := u32_tag FAST_OP_COPY 26.
Definition OFFER_PRICE_V2 := u32_tag FAST_OP_COPY 27.
Definition OFFER_SIZE_V2 := u32_tag FAST_OP_COPY 28.
Definition SESSION_INDICATOR_V2 := u32_tag FAST_OP_COPY 29.
Definition BBO_INDICATOR_V2 := u32_tag FAST_OP_COPY 30.
Definition BEST_BID_PARTICIPANT_ID_V2 := u32_tag FAST_OP_COPY 31.
Definition BEST_BID_PRICE_DENOMINATOR_CODE_V2 := u32_tag FAST_OP_COPY 32.
Definition BEST_BID_PRICE_V2 := u32_tag FAST_OP_COPY 33.
Definition BEST_BID_SIZE_V2 := u32_tag FAST_OP_COPY 34.
Definition BEST_OFFER_PARTICIPANT_ID_V2 := u32_tag FAST_OP_COPY 35.
Definition BEST_OFFER_PRICE_DENOMINATOR_CODE_V2 := u32_tag FAST_OP_COPY 36.
Definition BEST_OFFER_PRICE_V2 := u32_tag FAST_OP_COPY 37.
Definition BEST_OFFER_SIZE_V2 := u32_tag FAST_OP_COPY 38.
Definition NUMBER_OF_INDICES_IN_GROUP_V2 := u32_tag FAST_OP_COPY 39.
Definition NUMBER_OF_FOREIGN_CURRENCY_SPOT_VALUES_IN_GROUP_V2 := u32_tag FAST_OP_COPY 40.
Definition INDEX_SYMBOL_V2 := str_tag 41.
Definition INDEX_VALUE_V2 := str_tag 42.
Definition BID_INDEX_VALUE_V2 := str_tag 43.
Definition OFFER_INDEX_VALUE_V2 := str_tag 44.
Definition FCO_SYMBOL_V2 := str_tag 45.
Definition DECIMAL_PLACEMENT_INDICATOR_V2 := u32_tag FAST_OP_COPY 46.
Definition FOREIGN_CURRENCY_SPOT_VALUE_V2 := u32_tag FAST_OP_COPY 47.
Definition TEXT_V2 := str_tag 48.
Definition DEF_MSG_V2 := str_tag 49.

(** ** Messages *)

(** [OpraMsgHdr_v2] *)
Record OpraMsgHdr_v2 := MkHdr {
  participantId : Z; retran : Z; category : Z; msg_type : Z; seqNumber : Z; msg_time : Z
}.
Record Appendage_v2 := MkApp { partId : Z; denominator : Z; app_price : Z; app_size : Z }.

(** The members of the union [BBO_Appendage_v2] begin at the same place:
    [bestBid] and [bestOffer] are the first part. *)
Record BBO_Appendage_v2 := MkBBO { bbo_first : Appendage_v2; bbo_second : Appendage_v2 }.
Definition no_app : Appendage_v2 := MkApp 0 0 0 0.
Definition no_bbo : BBO_Appendage_v2 := MkBBO no_app no_app.

(** The members of an option that the categories k, d, a and f share. *)
Record option_fields := MkOptionFields {
  symbol : list Z; expirationMonth : Z; expirationDate : list Z; year : list Z;
  strikePriceDenomCode : Z; explicitStrike : Z; strikePriceCode : Z
}.

Record CatkMsg_v2 := MkCatk {
  k_hdr : OpraMsgHdr_v2; k_opt : option_fields; k_premiumPriceDenomCode : Z; k_bidQuote : Z; k_bidSize : Z;
  k_askQuote : Z; k_askSize : Z; k_sessionIndicator : Z; k_bboIndicator : Z; k_bbo : BBO_Appendage_v2
}.
Record CatdMsg_v2 := MkCatd { d_hdr : OpraMsgHdr_v2; d_opt : option_fields; d_openIntVolume : Z }.
Record CataMsg_v2 := MkCata {
  a_hdr : OpraMsgHdr_v2; a_opt : option_fields; a_volume : Z; a_premiumPriceDenomCode : Z; a_premium : Z;
  a_sessionIndicator : Z
}.
Record CatfMsg_v2 := MkCatf {
  f_hdr : OpraMsgHdr_v2; f_opt : option_fields; f_volume : Z; f_openIntVolume : Z; f_premiumPriceDenomCode : Z;
  f_open : Z; f_high : Z; f_low : Z; f_last : Z; f_netChangeIndicator : Z; f_netChange : Z;
  f_underlyingPriceDenomCode : Z; f_underlyingStockPrice : Z; f_bidQuote : Z; f_askQuote : Z
}.
(** The members of [indexGroup]; the union by what was written to it. *)
Inductive index_value :=
  | IndexValue (v : list Z)
  | BidOffer (bidValueIndex offerValueIndex : list Z)
  | FcSpotVal (decimalPlacementIndicator : list Z) (foreignCurSpotValue : Z).
Record CatYMsg_v2 := MkCatY { Y_hdr : OpraMsgHdr_v2; Y_numOfIndices : Z; Y_indexGroup : list (list Z * index_value) }.
(** [CatCMsg_v2] and [CatHMsg_v2] *)
Record CatHMsg_v2 := MkCatH { H_hdr : OpraMsgHdr_v2; H_text : list Z }.

(** ** Decoding

    A decoder reads from the codec. *)

Definition D (A : Type) : Type := fast_codec -> option (A * fast_codec).
#[export] Instance D_ret : MRet D := fun A x c => Some (x, c).
#[export] Instance D_bind : MBind D := fun A B f m c => '(x, c) ← m c; f x c.

(** [u32_to_ascii]: [size] digits *)
Fixpoint u32_to_ascii (size : nat) (value : Z) : list Z :=
  match size with
  | 0%nat => []
  | S n => u32_to_ascii n (value / 10) ++ [48 + value - value / 10 * 10]
  end.

Definition spaces (n : nat) : list Z := replicate n 32.

Section decode.
Context (indeterminate : Z -> fast_codec -> Z).
(** What the 450 bytes of a text hold before it is read. *)
Context (stale_text : fast_codec -> list Z).

(** [fast->decode_u32], to a member of 32 bits or of one byte *)
Definition get_u32 (tag : Z) : D Z := OpraCodec.decode_u32 indeterminate tag.
Definition get_u8 (tag : Z) : D Z := v ← get_u32 tag; mret (u8 v).
(** [fast->decode_str]: the result and the array. *)
Definition get_str (tag : Z) (data : list Z) : D (Z * list Z) :=
  fun c => '(rc, data, c) ← decode_str tag data (Z.of_nat (length data)) c; Some ((rc, data), c).

Definition msg_decode_hdr_v2 (cat : Z) : D OpraMsgHdr_v2 :=
  type ← get_u8 MESSAGE_TYPE_V2;
  part ← get_u8 PARTICIPANT_ID_V2;
  retran ← get_u8 RETRANSMISSION_REQUESTER_V2;
  seq ← get_u32 MESSAGE_SEQUENCE_NUMBER_V2;
  time ← get_u32 TIME_V2;
  mret (MkHdr part retran cat type seq time).

Definition decode_option : D option_fields :=
  '(_, symbol) ← get_str SECURITY_SYMBOL_V2 (spaces 5);
  month ← get_u8 EXPIRATION_MONTH_V2;
  date ← get_u32 EXPIRATION_DATE_V2;
  year ← get_u32 YEAR_V2;
  denom ← get_u8 STRIKE_PRICE_DENOMINATOR_CODE_V2;
  strike ← get_u32 EXPLICIT_STRIKE_PRICE_V2;
  code ← get_u8 STRIKE_PRICE_CODE_V2;
  mret (MkOptionFields symbol month (u32_to_ascii 2 date) (u32_to_ascii 2 year) denom strike code).

Definition decode_best_offer : D Appendage_v2 :=
  part ← get_u8 BEST_OFFER_PARTICIPANT_ID_V2;
  denom ← get_u8 BEST_OFFER_PRICE_DENOMINATOR_CODE_V2;
  price ← get_u32 BEST_OFFER_PRICE_V2;
  size ← get_u32 BEST_OFFER_SIZE_V2;
  mret (MkApp part denom price size).
Definition decode_best_bid : D Appendage_v2 :=
  part ← get_u8 BEST_BID_PARTICIPANT_ID_V2;
  denom ← get_u8 BEST_BID_PRICE_DENOMINATOR_CODE_V2;
  price ← get_u32 BEST_BID_PRICE_V2;
  size ← get_u32 BEST_BID_SIZE_V2;
  mret (MkApp part denom price size).

(** The indicators of the best bid and offer: which appendages follow. *)
Inductive bbo_kind := NoAppendage | OfferAppendage | BidAppendage | BothAppendages.
Definition bbo_kind_of (ind : Z) : option bbo_kind :=
  if bool_decide (ind ∈ [65; 66; 68; 69; 70; 72; 73; 74; 76; 32]) then Some NoAppendage
  else if bool_decide (ind ∈ [67; 71; 75]) then Some OfferAppendage
  else if bool_decide (ind ∈ [77; 80; 78]) then Some BidAppendage
  else if ind =? 79 then Some BothAppendages
  else None.

Definition decode_bbo (k : bbo_kind) : D BBO_Appendage_v2 :=
  match k with
  | NoAppendage => mret no_bbo
  | OfferAppendage => o ← decode_best_offer; mret (MkBBO o no_app)
  | BidAppendage => b ← decode_best_bid; mret (MkBBO b no_app)
  | BothAppendages => b ← decode_best_bid; o ← decode_best_offer; mret (MkBBO b o)
  end.

(** [decode_OpraFastQuoteSizeMsg_v2]: the message; none if the indicator is
    not valid. *)
Definition decode_OpraFastQuoteSizeMsg_v2 : D (option CatkMsg_v2) :=
  hdr ← msg_decode_hdr_v2 107;
  opt ← decode_option;
  denom ← get_u8 PREMIUM_PRICE_DENOMINATOR_CODE_V2;
  bid ← get_u32 BID_PRICE_V2;
  bsize ← get_u32 BID_SIZE_V2;
  ask ← get_u32 OFFER_PRICE_V2;
  asize ← get_u32 OFFER_SIZE_V2;
  session ← get_u8 SESSION_INDICATOR_V2;
  ind ← get_u8 BBO_INDICATOR_V2;
  match bbo_kind_of ind with
  | Some k => bbo ← decode_bbo k; mret (Some (MkCatk hdr opt denom bid bsize ask asize session ind bbo))
  | None => mret None
  end.

Definition decode_OpraFastOpenIntMsg_v2 : D CatdMsg_v2 :=
  hdr ← msg_decode_hdr_v2 100;
  opt ← decode_option;
  volume ← get_u32 OPEN_INT_VOLUME_V2;
  mret (MkCatd hdr opt volume).

Definition decode_OpraFastLastSaleMsg_v2 : D CataMsg_v2 :=
  hdr ← msg_decode_hdr_v2 97;
  opt ← decode_option;
  volume ← get_u32 VOLUME_V2;
  denom ← get_u8 PREMIUM_PRICE_DENOMINATOR_CODE_V2;
  premium ← get_u32 PREMIUM_PRICE_V2;
  session ← get_u8 SESSION_INDICATOR_V2;
  mret (MkCata hdr opt volume denom premium session).

Definition decode_OpraFastEodMsg_v2 : D CatfMsg_v2 :=
  hdr ← msg_decode_hdr_v2 102;
  opt ← decode_option;
  volume ← get_u32 VOLUME_V2;
  oi ← get_u32 OPEN_INT_VOLUME_V2;
  denom ← get_u8 PREMIUM_PRICE_DENOMINATOR_CODE_V2;
  open ← get_u32 OPEN_PRICE_V2;
  high ← get_u32 HIGH_PRICE_V2;
  low ← get_u32 LOW_PRICE_V2;
  last ← get_u32 LAST_PRICE_V2;
  ind ← get_u8 NET_CHANGE_INDICATOR_V2;
  net ← get_u32 NET_CHANGE_V2;
  udenom ← get_u8 UNDERLYING_PRICE_DENOM_V2;
  under ← get_u32 UNDERLYING_STOCK_PRICE_V2;
  bid ← get_u32 BID_PRICE_V2;
  ask ← get_u32 OFFER_PRICE_V2;
  mret (MkCatf hdr opt volume oi denom open high low last ind net udenom under bid ask).

(** The messages on foreign currency options: only the state of the codec
    changes, since they are not supported. *)
Definition decode_fco_option : D unit :=
  _ ← get_str SECURITY_SYMBOL_V2 (spaces 3);
  _ ← get_u32 EXPIRATION_DATE_V2;
  _ ← get_u8 STRIKE_PRICE_CODE_V2;
  mret ().
Definition decode_OpraFastFcoLastSaleMsg_v2 : D unit :=
  _ ← msg_decode_hdr_v2 79;
  _ ← decode_fco_option;
  _ ← get_u32 VOLUME_V2;
  _ ← get_u32 PREMIUM_PRICE_V2;
  mret ().
Definition decode_OpraFastFcoQuoteMsg_v2 : D unit :=
  _ ← msg_decode_hdr_v2 85;
  _ ← decode_fco_option;
  _ ← get_u32 BID_PRICE_V2;
  _ ← get_u32 OFFER_PRICE_V2;
  mret ().
Definition decode_OpraFastFcoEodMsg_v2 : D unit :=
  _ ← msg_decode_hdr_v2 70;
  _ ← decode_fco_option;
  _ ← get_u32 VOLUME_V2;
  _ ← get_u32 OPEN_INT_VOLUME_V2;
  _ ← get_u32 OPEN_PRICE_V2;
  _ ← get_u32 HIGH_PRICE_V2;
  _ ← get_u32 LOW_PRICE_V2;
  _ ← get_u32 LAST_PRICE_V2;
  _ ← get_u8 NET_CHANGE_INDICATOR_V2;
  _ ← get_u32 NET_CHANGE_V2;
  _ ← get_u32 UNDERLYING_STOCK_PRICE_V2;
  mret ().

(** The loop over the groups of a message on underlying values: [n] groups to
    go, of which the next has place [i] of five. *)
Definition MAX_INDEX_GROUP : nat := 5.
Fixpoint decode_groups (group : D (list Z * index_value)) (n i : nat) : D (list (list Z * index_value)) :=
  match n with
  | 0%nat => mret []
  | S n =>
      if (i <? MAX_INDEX_GROUP)%nat then
        g ← group;
        gs ← decode_groups group n (S i);
        mret (g :: gs)
      else fun _ => None
  end.

Definition decode_index : D (list Z * index_value) :=
  '(_, symbol) ← get_str INDEX_SYMBOL_V2 (spaces 3);
  '(_, v) ← get_str INDEX_VALUE_V2 (replicate 8 0);
  mret (symbol, IndexValue v).
Definition decode_bid_offer : D (list Z * index_value) :=
  '(_, symbol) ← get_str INDEX_SYMBOL_V2 (spaces 3);
  '(_, bid) ← get_str BID_INDEX_VALUE_V2 (replicate 8 0);
  '(_, offer) ← get_str OFFER_INDEX_VALUE_V2 (replicate 8 0);
  mret (symbol, BidOffer bid offer).
Definition decode_spot : D (list Z * index_value) :=
  '(_, symbol) ← get_str FCO_SYMBOL_V2 (spaces 3);
  dec ← get_u32 DECIMAL_PLACEMENT_INDICATOR_V2;
  v ← get_u32 FOREIGN_CURRENCY_SPOT_VALUE_V2;
  mret (symbol, FcSpotVal (u32_to_ascii 2 dec) v).

Definition decode_OpraFastUlValueMsg_v2 : D (option CatYMsg_v2) :=
  hdr ← msg_decode_hdr_v2 89;
  let body tag group : D (option CatYMsg_v2) :=
    n ← get_u32 tag;
    gs ← decode_groups group (Z.to_nat (s32 n)) 0;
    mret (Some (MkCatY hdr n gs)) in
  if hdr.(msg_type) =? 32 then body NUMBER_OF_INDICES_IN_GROUP_V2 decode_index
  else if hdr.(msg_type) =? 73 then body NUMBER_OF_INDICES_IN_GROUP_V2 decode_bid_offer
  else if (hdr.(msg_type) =? 70) || (hdr.(msg_type) =? 67) then
    body NUMBER_OF_FOREIGN_CURRENCY_SPOT_VALUES_IN_GROUP_V2 decode_spot
  else mret None.

Definition get_text : D (Z * list Z) := fun c => get_str TEXT_V2 (stale_text c) c.
Definition decode_OpraFastAdminMsg_v2 : D CatHMsg_v2 :=
  hdr ← msg_decode_hdr_v2 67;
  '(_, text) ← get_text;
  mret (MkCatH hdr text).
(** The zero behind a text of 450 characters is written to the padding of the
    struct. *)
Definition decode_OpraFastControlMsg_v2 : D CatHMsg_v2 :=
  hdr ← msg_decode_hdr_v2 72;
  '(bodyLen, text) ← get_text;
  mret (MkCatH hdr (if 0 <? bodyLen then <[Z.to_nat bodyLen := 0]> text else text)).

Definition decode_OpraFastDefMsg_v2 : D unit :=
  _ ← get_str DEF_MSG_V2 (replicate 450 0); mret ().

(** ** A packet *)

(** What is done with a message, on the state [S] *)
Record opra_processors (S : Type) := MkProcessors {
  quote_process : CatkMsg_v2 -> S -> option S;
  oi_process : CatdMsg_v2 -> S -> option S;
  ls_process : CataMsg_v2 -> S -> option S;
  eod_process : CatfMsg_v2 -> S -> option S;
  uv_process : CatYMsg_v2 -> S -> option S;
  ctrl_process : CatHMsg_v2 -> S -> option S
}.

Definition then_process {A S} (d : D A) (process : A -> S -> option S) (c : fast_codec) (st : S) : option (fast_codec * S) :=
  '(m, c) ← d c; st ← process m st; Some (c, st).
Definition if_some {A S} (process : A -> S -> option S) (m : option A) (st : S) : option S :=
  match m with Some m => process m st | None => Some st end.

Definition FastOpraDecoder {S} (P : opra_processors S) (category : Z) : fast_codec -> S -> option (fast_codec * S) :=
  let skip d := then_process d (fun _ st => Some st) in
  if category =? 107 then then_process decode_OpraFastQuoteSizeMsg_v2 (if_some (quote_process S P))
  else if category =? 100 then then_process decode_OpraFastOpenIntMsg_v2 (oi_process S P)
  else if category =? 97 then then_process decode_OpraFastLastSaleMsg_v2 (ls_process S P)
  else if category =? 102 then then_process decode_OpraFastEodMsg_v2 (eod_process S P)
  else if category =? 79 then skip decode_OpraFastFcoLastSaleMsg_v2
  else if category =? 85 then skip decode_OpraFastFcoQuoteMsg_v2
  else if category =? 70 then skip decode_OpraFastFcoEodMsg_v2
  else if category =? 89 then then_process decode_OpraFastUlValueMsg_v2 (if_some (uv_process S P))
  else if category =? 67 then then_process decode_OpraFastAdminMsg_v2 (ctrl_process S P)
  else if category =? 72 then then_process decode_OpraFastControlMsg_v2 (ctrl_process S P)
  else skip decode_OpraFastDefMsg_v2.

Definition VERSION_2 : Z := 2.
Definition SEQ_OFFSET : Z := 10.
Definition VERSION_OFFSET : Z := 1.
Definition NUM_MSG_OFFSET : Z := 3.
Definition LEN_OFFSET : Z := 1.

(** The loop of [fast_opra_decode]: [p] is the place of [encoded_packet] in
    the receive buffer. *)
Fixpoint decode_loop {S} (P : opra_processors S) (fuel : nat) (data : list Z) (rec_len p offset read_len : Z) (c : fast_codec) (st : S)
    (num_msgs : Z) : option (Z * fast_codec * S) :=
  match fuel with
  | 0%nat => None
  | Datatypes.S fuel =>
      if 1 <? read_len then
        msize ← data !! Z.to_nat (p + offset);
        let p := p + offset + LEN_OFFSET in
        let read_len := read_len - offset - LEN_OFFSET in
        let c := setBuffer (drop (Z.to_nat p) data) (if msize =? 0xff then s32 rec_len else msize) c in
        '(rc, c) ← decode_new_msg c;
        if rc <? 0 then Some (num_msgs, c, st)
        else
          '(category, c) ← get_u32 MESSAGE_CATEGORY_V2 c;
          '(c, st) ← FastOpraDecoder P (s8 category) c st;
          let '(_, c) := decode_end_msg c in
          decode_loop P fuel data rec_len (p + msize) 0 (read_len - msize) c st (num_msgs + 1)
      else Some (num_msgs, c, st)
  end.

(** [fast_opra_decode]: the number of messages. *)
Definition fast_opra_decode {S} (P : opra_processors S) (fuel : nat) (data : list Z) (rec_len : Z) (c : fast_codec) (st : S)
    : option (Z * fast_codec * S) :=
  version ← data !! 1%nat;
  if version =? VERSION_2 then
    decode_loop P fuel data rec_len 1 (SEQ_OFFSET + VERSION_OFFSET + NUM_MSG_OFFSET) (s32 rec_len - 1) c st 0
  else None.

(** [fast_opra_hdr_info], which the line handler asks for the time and not for
    the sequence number: the category, the type and the time. *)
Definition fast_opra_hdr_info (buffer : list Z) (len : Z) (c : fast_codec) : option (option (Z * Z * Z) * fast_codec) :=
  acq_size ← buffer !! 15%nat;
  let go size :=
    '(rc, c) ← decode_new_msg (setBuffer (drop 16 buffer) size c);
    if rc <? 0 then Some (None, c)
    else
      ((msg_cat ← get_u32 MESSAGE_CATEGORY_V2;
        type ← get_u32 MESSAGE_TYPE_V2;
        _ ← get_u32 PARTICIPANT_ID_V2;
        _ ← get_u32 RETRANSMISSION_REQUESTER_V2;
        _ ← get_u32 MESSAGE_SEQUENCE_NUMBER_V2;
        time ← get_u32 TIME_V2;
        mret (Some (s8 msg_cat, s8 type, time))) : D (option (Z * Z * Z))) c in
  if acq_size =? 0xff then go (s32 len)
  else if (0 <? acq_size) && (acq_size <? 0xff) then go acq_size
  else Some (None, c).

(** A decimal number in the header of a packet *)
Definition header_number (digits : list Z) : Z := foldl (fun v d => u32 (u32 (v * 10) + (d - 48))) 0 digits.
Definition header_digits (buffer : list Z) (off n : nat) : option (list Z) :=
  if (off + n <=? length buffer)%nat then Some (take n (drop off buffer)) else None.

End decode.

(** ** The line handler ([fh_opra_lh_v2.c], [fh_opra_lh_run]) *)

Section packets.
Context {W : Type}.
Context (indeterminate : Z -> fast_codec -> Z) (stale_text : fast_codec -> list Z).
Context (opra_lh_ftline_notify : option (lh_ftline -> Z -> W -> W)) (ocfg_seq_jump_threshold : Z).
Context (P : opra_processors (opra_lines W)).
Notation st_t := (opra_lines W).

(** [fh_opra_pkt_process], on line [i] *)
Definition fh_opra_pkt_process (i : nat) (buffer : list Z) (len : Z) (c : fast_codec) (st : st_t)
    : option (Z * fast_codec * st_t) :=
  version ← buffer !! 1%nat;
  if negb (version =? VERSION_2) then Some (FH_ERROR, c, count i PktErrs 1 st)
  else
    sn_digits ← header_digits buffer 2 10;
    num_digits ← header_digits buffer 12 3;
    let msg_sn := header_number sn_digits in
    let num_msgs := header_number num_digits in
    '(info, c) ← fast_opra_hdr_info indeterminate buffer len c;
    match info with
    | None => Some (FH_ERROR, c, count i PktErrs 1 st)
    | Some (msg_cat, type, time) =>
        l ← st.(line_table) !! i;
        if negb (l.(l_tap) =? 0) then Some (FH_OK, c, count i MsgRx num_msgs st)
        else
          '(dup, st) ← fh_opra_lh_is_dup opra_lh_ftline_notify ocfg_seq_jump_threshold i msg_cat type msg_sn num_msgs time st;
          if dup : bool then Some (FH_ERROR, c, st)
          else
            '(parsed, c, st) ← fast_opra_decode indeterminate stale_text P (Z.to_nat len + 1) buffer len c st;
            Some (FH_OK, c, count i MsgRx (u32 parsed) st)
    end.

(** A datagram that was received on line [i], in the pass of the loop of
    [fh_opra_lh_run]: the codec, the receive buffer and the lines. *)
Definition SOH : Z := 1.
Definition opra_receive (i : nat) (pkt : list Z) (c : fast_codec) (data : list Z) (st : st_t)
    : option (fast_codec * list Z * st_t) :=
  let len := Z.of_nat (length pkt) in
  let data := pkt ++ drop (length pkt) data in
  let st := count i LineBytes len (count i PktRx 1 st) in
  first ← data !! 0%nat;
  if negb (first =? SOH) then Some (c, data, count i PktErrs 1 st)
  else
    '(_, c, st) ← fh_opra_pkt_process i data len c st;
    Some (c, data, st).

End packets.
