(* ===== verification/OpraWire.v ===== *)
(** * OPRA messages on the wire

    The messages as fields of the encoder, and that the decoders invert it. *)
From S2P Require Import Prelude Bytes OpraCodec OpraEnc OpraEncProps OpraLine OpraFast.

(** The slots of the OPRA template *)
Definition opra_kind (k : Z * Z) : slot_kind :=
  if k.2 =? 4 then SIncr else if bool_decide (k.2 ∈ [6; 41; 42; 43; 44; 45; 48; 49]) then SStr else SCopy.
Notation opra_ok := (field_ok opra_kind).

(** ** Several fields *)

Record enc_ok (e : fast_encoder) : Prop := { eo_pm : pm_ok (en_codec e); eo_strings : strings_ok (en_codec e) }.

Lemma encode_field_frame f e e' : encode_field f e = Some e' -> opra_ok f -> enc_ok e ->
  exists bs, field_sent f e e' bs /\ enc_ok e'.
Proof.
  intros He Hf [Hpm Hs]. destruct f as [tag v|tag bs0].
  - destruct (encode_u32_ok opra_kind tag v e e' Hf Hpm Hs He) as (bs & Hsent & _). exists bs. split; [done|]. by destruct Hsent.
  - destruct (encode_str_ok opra_kind tag bs0 e e' Hf Hpm Hs He) as (bs & Hsent & _). exists bs. split; [done|]. by destruct Hsent.
Qed.

Lemma field_slot_range f : 0 <= field_slot f < 256.
Proof. apply slot_range. Qed.

Lemma encode_fields_frame fs : forall e e', encode_fields fs e = Some e' -> Forall opra_ok fs -> enc_ok e ->
  enc_ok e' /\ (exists body, en_msg e' = en_msg e ++ body) /\ en_output e' = en_output e /\
  in_message (en_codec e') = in_message (en_codec e) /\
  (forall s, 0 <= s -> s ∉ field_slot <$> fs -> pm_bit s (en_codec e') = pm_bit s (en_codec e)).
Proof.
  induction fs as [|f fs IH]; intros e e' He Hf Hok; cbn in He.
  { injection He as ->. split; [done|]. split; [exists []; by rewrite app_nil_r | done]. }
  destruct (encode_field f e) as [e1|] eqn:E1; [|done]. cbn in He. apply Forall_cons in Hf as [Hf Hfs].
  destruct (encode_field_frame f e e1 E1 Hf Hok) as (bs & [Hm Ho Hi _ _ Hb] & Hok1).
  destruct (IH e1 e' He Hfs Hok1) as (Hok' & [body Hm'] & Ho' & Hi' & Hb').
  split; [done|]. split; [exists (bs ++ body); by rewrite Hm', Hm, app_assoc|]. split; [congruence|]. split; [congruence|].
  intros s Hs Hn. rewrite fmap_cons in Hn. apply not_elem_of_cons in Hn as [Hne Hn]. rewrite Hb', Hb by done.
  rewrite bool_decide_false; [done | tauto].
Qed.

Lemma encode_fields_app fs gs e : encode_fields (fs ++ gs) e = (e1 ← encode_fields fs e; encode_fields gs e1).
Proof.
  revert e. induction fs as [|f fs IH]; intros e; [done|]. cbn. destruct (encode_field f e) as [e1|]; [apply IH | done].
Qed.

(** ** What a decoder inverts *)

(** The decoder has the state the encoder had at [e], the presence map [fin],
    and [k] bytes to read, at the beginning of [input]. *)
Record ready (fin : Z -> Z) (e : fast_encoder) (input : list Z) (k : Z) (cd : fast_codec) : Prop := {
  rd_sync : sync opra_kind (en_codec e) cd;
  rd_mem : in_mem cd = input;
  rd_left : in_left cd = k;
  rd_bits : length (pm_bits cd) = 56%nat;
  rd_pmap : forall s, 0 <= s < MAX_PMAP_BITS -> (if pm_size cd <=? s then 0 else pm_bit s cd) = fin s
}.

(** [m] reads what the encoder writes for the fields [fs], and gives [a]. *)
Definition decodes {A} (m : D A) (fs : list fast_field) (a : A) : Prop := forall e e' body fin cd rest k,
  enc_ok e -> Forall opra_ok fs -> NoDup (field_slot <$> fs) -> (forall f, f ∈ fs -> pm_bit (field_slot f) (en_codec e) = 0) ->
  encode_fields fs e = Some e' -> en_msg e' = en_msg e ++ body ->
  (forall f, f ∈ fs -> fin (field_slot f) = pm_bit (field_slot f) (en_codec e')) ->
  ready fin e (body ++ rest) (Z.of_nat (length body) + k) cd -> 0 <= k ->
  exists cd', m cd = Some (a, cd') /\ ready fin e' rest k cd'.

Lemma decodes_ret {A} (a : A) : decodes (mret a) [] a.
Proof.
  intros e e' body fin cd rest k _ _ _ _ [= <-] Hb _ Hr _. replace body with ([] : list Z) in *.
  - exists cd. split; [done | exact Hr].
  - rewrite <- (app_nil_r (en_msg e)) in Hb at 1. by apply app_inv_head in Hb.
Qed.

Lemma decodes_prefix {A} (m : D A) fs gs a e e' body fin cd rest k : decodes m fs a ->
  enc_ok e -> Forall opra_ok (fs ++ gs) -> NoDup (field_slot <$> fs ++ gs) ->
  (forall f, f ∈ fs ++ gs -> pm_bit (field_slot f) (en_codec e) = 0) ->
  encode_fields (fs ++ gs) e = Some e' -> en_msg e' = en_msg e ++ body ->
  (forall f, f ∈ fs ++ gs -> fin (field_slot f) = pm_bit (field_slot f) (en_codec e')) ->
  ready fin e (body ++ rest) (Z.of_nat (length body) + k) cd -> 0 <= k ->
  exists e1 b2 cd1, m cd = Some (a, cd1) /\ enc_ok e1 /\ encode_fields gs e1 = Some e' /\ en_msg e' = en_msg e1 ++ b2 /\
    (forall g, g ∈ gs -> pm_bit (field_slot g) (en_codec e1) = 0) /\ ready fin e1 (b2 ++ rest) (Z.of_nat (length b2) + k) cd1.
Proof.
  intros Hm Hok Hfs Hnd Hzero He Hbody Hfin Hr Hk.
  apply Forall_app in Hfs as [Hfs Hgs]. rewrite fmap_app in Hnd. apply NoDup_app in Hnd as (Hnd1 & Hdisj & Hnd2).
  rewrite encode_fields_app in He. destruct (encode_fields fs e) as [e1|] eqn:E1; [|done]. cbn in He.
  destruct (encode_fields_frame fs e e1 E1 Hfs Hok) as (Hok1 & [b1 Hb1] & _ & _ & Hbit1).
  destruct (encode_fields_frame gs e1 e' He Hgs Hok1) as (_ & [b2 Hb2] & _ & _ & Hbit2).
  assert (body = b1 ++ b2) as ->.
  { rewrite Hb2, Hb1, <- app_assoc in Hbody. by apply app_inv_head in Hbody. }
  rewrite <- app_assoc, length_app, Nat2Z.inj_add, <- Z.add_assoc in Hr.
  destruct (Hm e e1 b1 fin cd (b2 ++ rest) (Z.of_nat (length b2) + k)) as (cd1 & Em & Hr1); try done.
  - intros g Hg. apply Hzero. set_solver.
  - intros g Hg. rewrite Hfin by set_solver. apply Hbit2; [apply field_slot_range|]. apply Hdisj. by apply list_elem_of_fmap_2.
  - lia.
  - exists e1, b2, cd1. split_and!; try done. intros g Hg. rewrite Hbit1; [apply Hzero; set_solver | apply field_slot_range|].
    intros Hin. eapply Hdisj; [exact Hin|]. by apply list_elem_of_fmap_2.
Qed.

Lemma decodes_bind {A B} (m : D A) (f : A -> D B) fs gs a b : decodes m fs a -> decodes (f a) gs b -> decodes (m ≫= f) (fs ++ gs) b.
Proof.
  intros Hm Hf e e' body fin cd rest k Hok Hfs Hnd Hzero He Hbody Hfin Hr Hk.
  destruct (decodes_prefix m fs gs a e e' body fin cd rest k) as (e1 & b2 & cd1 & Em & Hok1 & He1 & Hb2 & Hz1 & Hr1); try done.
  apply Forall_app in Hfs as [_ Hgs]. rewrite fmap_app in Hnd. apply NoDup_app in Hnd as (_ & _ & Hnd2).
  destruct (Hf e1 e' b2 fin cd1 rest k) as (cd2 & Ef & Hr2); try done; [intros g Hg; apply Hfin; set_solver|].
  exists cd2. split; [|done]. cbn. unfold mbind, D_bind. rewrite Em. exact Ef.
Qed.

Lemma decodes_bind1 {A B} (m : D A) (f : A -> D B) g gs a b : decodes m [g] a -> decodes (f a) gs b -> decodes (m ≫= f) (g :: gs) b.
Proof. apply (decodes_bind m f [g] gs). Qed.

(** One field *)
Lemma decodes_field {A} (m : D A) (f : fast_field) (a : A) : (opra_ok f -> forall e e', enc_ok e -> encode_field f e = Some e' -> exists bs,
    field_sent f e e' bs /\ sent_ok opra_kind f e e' bs (fun cd cd' => m cd = Some (a, cd'))) -> decodes m [f] a.
Proof.
  intros H e e' body fin cd rest k Hok Hfs _ Hzero He Hbody Hfin Hr Hk. apply Forall_inv in Hfs.
  cbn in He. destruct (encode_field f e) as [e1|] eqn:E1; [|done]. injection He as ->.
  destruct (H Hfs e e' Hok E1) as (bs & Hsent & Hrun). pose proof (fs_msg _ _ _ _ Hsent) as Hm. rewrite Hm in Hbody. apply app_inv_head in Hbody as <-.
  pose proof (field_slot_range f) as Hrange. destruct Hfs as [Hslot _].
  destruct (Hrun cd rest k) as (cd' & Em & H1 & H2 & H3 & H4 & H5); [apply Hr | | done | apply Hr | apply Hr|].
  - unfold get_pmap. fold (field_slot f). specialize (Hfin f ltac:(set_solver)). rewrite <- (rd_pmap _ _ _ _ _ Hr) in Hfin by lia.
    unfold pm_bit at 1 in Hfin. rewrite Hfin, (fs_bit _ _ _ _ Hsent) by lia. case_bool_decide as Hd.
    + split; [done|]. intros E. by destruct Hd.
    + rewrite (Hzero f) by set_solver. split; [|done]. intros _. destruct (decide (bs = [])); [done|]. destruct Hd. done.
  - exists cd'. split; [done|]. constructor; [done | done | done | rewrite H3; by destruct Hr |]. intros s Hs. unfold pm_bit. rewrite H3, H4. by apply Hr.
Qed.

(** ** A message *)

(** A message with the fields [fs], by an encoder whose output is taken away:
    the bytes and the encoder. *)
Definition wire_msg (fs : list fast_field) (e : fast_encoder) : option (list Z * fast_encoder) :=
  let '(rc, e) := fast_encode_new_msg OPRA_BASE_TID e in
  if rc <? 0 then None
  else
    e ← encode_fields fs e;
    let '(rc, e) := fast_encode_end_msg OPRA_BASE_TID e in
    if rc <? 0 then None else Some (en_output e, MkEncoder (en_codec e) (en_msg e) []).

(** The encoder between two messages *)
Record idle (e : fast_encoder) : Prop := {
  id_ok : enc_ok e;
  id_msg : en_msg e = [];
  id_output : en_output e = [];
  id_in_message : in_message (en_codec e) = 0;
  id_bits : forall s, 0 <= s -> pm_bit s (en_codec e) = 0
}.

(** The decoder between two messages *)
Record codec_ok (cd : fast_codec) : Prop := { co_strings : strings_ok cd; co_bits : length (pm_bits cd) = 56%nat }.

Lemma idle_fresh : idle fast_reset_codec.
Proof.
  assert (Hz : forall s, pm_bit s (en_codec fast_reset_codec) = 0).
  { intros s. unfold pm_bit. cbn [pm_bits en_codec fast_reset_codec fast_create_codec].
    destruct (replicate 56 0 !! Z.to_nat s) eqn:E; [|done]. by apply lookup_replicate in E as [-> _]. }
  constructor; try done. constructor; [|intros s l H; cbn in H; by rewrite lookup_empty in H].
  constructor; [done | done | intros s _; apply Hz | by apply Forall_replicate; left].
Qed.

Lemma sync_fresh cd : strings_ok cd -> sync opra_kind (en_codec fast_reset_codec) cd.
Proof. intros H. split; [done|]. intros k Hk. cbn in Hk. set_solver. Qed.

Lemma sync_ext ce ce' cd cd' : sync opra_kind ce cd -> cv_valid ce' = cv_valid ce -> u32_values ce' = u32_values ce ->
  cv_valid cd' = cv_valid cd -> u32_values cd' = u32_values cd -> fast_strings cd' = fast_strings cd -> sync opra_kind ce' cd'.
Proof.
  intros [Hs H] E1 E2 E3 E4 E5. split; [unfold strings_ok; by rewrite E5|]. intros k. rewrite E1, E2, E3, E4. apply H.
Qed.

Lemma reset_pmap_ok c : pm_ok (reset_pmap c) /\ forall s, pm_bit s (reset_pmap c) = 0.
Proof.
  assert (Hz : forall s, pm_bit s (reset_pmap c) = 0).
  { intros s. unfold pm_bit. cbn [pm_bits reset_pmap set_pm]. destruct (replicate 56 0 !! Z.to_nat s) eqn:E; [|done].
    by apply lookup_replicate in E as [-> _]. }
  split; [|done]. constructor; [done | done | intros s _; apply Hz | by apply Forall_replicate; left].
Qed.

Lemma wire_msg_ok fs e bytes e' : idle e -> Forall opra_ok fs -> wire_msg fs e = Some (bytes, e') -> bytes <> [] -> idle e' /\
  exists e1, encode_fields fs (on_codec (set_in_message 1) e) = Some e1 /\ bytes = emit_pmap (en_codec e1) ++ en_msg e1 /\
  pm_ok (en_codec e1) /\ cv_valid (en_codec e') = cv_valid (en_codec e1) /\ u32_values (en_codec e') = u32_values (en_codec e1).
Proof.
  intros Hid Hfs. unfold wire_msg, fast_encode_new_msg. rewrite (id_in_message _ Hid). cbn [Z.eqb negb Z.ltb Z.compare].
  assert (Hok0 : enc_ok (on_codec (set_in_message 1) e)) by (destruct Hid as [[[] ?]]; by constructor; [constructor|]).
  destruct (encode_fields fs _) as [e1|] eqn:E1; [|done]. cbn [mbind option_bind].
  destruct (encode_fields_frame fs _ _ E1 Hfs Hok0) as ([Hpm1 Hs1] & _ & Ho & Hi & _). cbn in Ho, Hi. rewrite (id_output _ Hid) in Ho.
  unfold fast_encode_end_msg. rewrite Hi. cbn [Z.eqb]. unfold flush_msg, flush_group. cbn [en_output on_codec en_msg en_codec]. rewrite Ho.
  destruct (_ <=? _).
  { cbn. rewrite Ho. intros [= <- _]. done. }
  cbn. intros [= <- <-] _. split; [|by exists e1].
  destruct (reset_pmap_ok (set_in_message 0 (en_codec e1))) as [H1 H2]. constructor; cbn; try done.
Qed.

(** A message that the encoder wrote, once its presence map is read *)
Lemma read_pmap fs e bytes e' cd rest k : idle e -> Forall opra_ok fs ->
  wire_msg fs e = Some (bytes, e') -> bytes <> [] -> sync opra_kind (en_codec e) cd -> codec_ok cd -> 0 <= k ->
  exists n cd1 e0 e1 fin, decode_new_msg (setBuffer (bytes ++ rest) (Z.of_nat (length bytes) + k) cd) = Some (n, cd1) /\ 0 < n /\
    enc_ok e0 /\ en_msg e0 = [] /\ (forall s, 0 <= s -> pm_bit s (en_codec e0) = 0) /\ encode_fields fs e0 = Some e1 /\
    (forall s, fin s = pm_bit s (en_codec e1)) /\ ready fin e0 (en_msg e1 ++ rest) (Z.of_nat (length (en_msg e1)) + k) cd1 /\
    idle e' /\ (forall cd2, sync opra_kind (en_codec e1) cd2 -> sync opra_kind (en_codec e') cd2).
Proof.
  intros Hid Hfs Hw Hne Hsync [Hcs Hcb] Hk. destruct (wire_msg_ok fs e bytes e' Hid Hfs Hw Hne) as (Hid' & e1 & E1 & -> & Hpm1 & Ev & Eu).
  destruct (parse_pmap_ok (en_codec e1) (setBuffer ((emit_pmap (en_codec e1) ++ en_msg e1) ++ rest)
    (Z.of_nat (length (emit_pmap (en_codec e1) ++ en_msg e1)) + k) cd) (en_msg e1 ++ rest) (Z.of_nat (length (en_msg e1)) + k) Hpm1)
    as (n & b & Ep & Hn & Hb & Hbits); [done | lia | by rewrite <- app_assoc | cbn; rewrite length_app; lia|].
  unfold decode_new_msg, fast_decode_new_msg. rewrite Ep.
  exists n. eexists _, (on_codec (set_in_message 1) e), e1, (fun s => pm_bit s (en_codec e1)).
  split; [done|]. split; [done|]. split; [destruct Hid as [[[] ?]]; by constructor; [constructor|]|].
  split; [cbn; apply (id_msg _ Hid)|]. split; [apply (id_bits _ Hid)|]. split; [done|]. split; [done|].
  split; [constructor; [by eapply sync_ext | done | done | done | exact Hbits]|]. split; [done|].
  intros cd2 H2. by eapply sync_ext.
Qed.

Section messages.
Context (indeterminate : Z -> fast_codec -> Z) (stale_text : fast_codec -> list Z).
Notation get_u32 := (get_u32 indeterminate).
Notation get_u8 := (get_u8 indeterminate).

Lemma decodes_u32 tag v : decodes (get_u32 tag) [FU32 tag v] v.
Proof.
  apply decodes_field. intros Hok e e' [Hpm Hs] He. destruct (encode_u32_ok opra_kind tag v e e' Hok Hpm Hs He) as (bs & Hsent & Hrun).
  exists bs. split; [done|]. intros cd rest k H1 H2 H3 H4 H5. destruct (Hrun cd rest k H1 H2 H3 H4 H5) as (cd' & E & H).
  exists cd'. split; [|done]. unfold OpraFast.get_u32, decode_u32. by rewrite E.
Qed.

Lemma decodes_u8 tag v : 0 <= v < 256 -> decodes (get_u8 tag) [FU32 tag v] v.
Proof.
  intros Hv. unfold OpraFast.get_u8. apply (decodes_bind1 _ _ _ [] v); [apply decodes_u32|]. rewrite (u8_small v) by done. apply decodes_ret.
Qed.

Lemma decodes_str tag data bs : (length bs <= length data < 1024)%nat ->
  decodes (get_str tag data) [FStr tag bs] (Z.of_nat (length bs), bs ++ drop (length bs) data).
Proof.
  intros Hlen. apply decodes_field. intros Hok e e' [Hpm Hs] He.
  destruct (encode_str_ok opra_kind tag bs e e' Hok Hpm Hs He) as (b & Hsent & Hrun). exists b. split; [done|].
  intros cd rest k H1 H2 H3 H4 H5. destruct (Hrun data Hlen cd rest k H1 H2 H3 H4 H5) as (cd' & E & H).
  exists cd'. split; [|done]. unfold get_str, decode_str. by rewrite E.
Qed.

(** ** Messages *)

(** The spaces at the end of a symbol are not sent. *)
Fixpoint rstrip (l : list Z) : list Z :=
  match l with
  | [] => []
  | b :: l => match rstrip l with [] => if b =? 32 then [] else [b] | l' => b :: l' end
  end.
Definition prune (l : list Z) : list Z := match rstrip l with [] => [32] | l' => l' end.

Lemma rstrip_pad l : (length (rstrip l) <= length l)%nat /\ rstrip l ++ drop (length (rstrip l)) (spaces (length l)) = l.
Proof.
  induction l as [|b l [IH1 IH2]]; [done|]. cbn. destruct (rstrip l) as [|x l'] eqn:E.
  - cbn in IH2. destruct (Z.eqb_spec b 32) as [->|]; cbn; [|split; [lia | f_equal; exact IH2]].
    split; [lia|]. unfold spaces in *. cbn. f_equal. exact IH2.
  - split; [cbn in *; lia|]. unfold spaces in *. cbn in *. f_equal. exact IH2.
Qed.

Lemma prune_pad l : l <> [] -> (1 <= length (prune l) <= length l)%nat /\
  prune l ++ drop (length (prune l)) (spaces (length l)) = l.
Proof.
  intros Hl. destruct (rstrip_pad l) as [H1 H2]. unfold prune. destruct (rstrip l) as [|x l'] eqn:E.
  - destruct l as [|y l]; [done|]. cbn in *. split; [lia|]. unfold spaces in *. cbn in *. rewrite drop_0. exact H2.
  - split; [cbn in *; lia | exact H2].
Qed.

Lemma prune_forall P l : P 32 -> Forall P l -> Forall P (prune l).
Proof.
  intros H32 H. assert (Hr : Forall P (rstrip l)).
  { induction H as [|b l Hb _ IH]; [constructor|]. cbn. destruct (rstrip l); [destruct (b =? 32); by repeat constructor | by constructor]. }
  unfold prune. destruct (rstrip l); [by repeat constructor | done].
Qed.

(** The number of two digits *)
Definition two_digits (l : list Z) : Z := match l with [a; b] => (a - 48) * 10 + (b - 48) | _ => 0 end.
Definition is_digits (l : list Z) : Prop := length l = 2%nat /\ Forall (fun d => 48 <= d <= 57) l.

Lemma two_digits_ok l : is_digits l -> 0 <= two_digits l < 100 /\ u32_to_ascii 2 (two_digits l) = l.
Proof.
  intros [Hl Hd]. destruct l as [|a [|b [|]]]; try done. apply Forall_cons in Hd as [Ha Hb]. apply Forall_inv in Hb.
  unfold two_digits. split; [lia|]. cbn [u32_to_ascii app].
  assert (E : ((a - 48) * 10 + (b - 48)) / 10 = a - 48) by (rewrite Z.div_add_l by lia; rewrite (Z.div_small (b - 48)) by lia; lia).
  rewrite E. rewrite (Z.div_small (a - 48)) by lia. f_equal; [lia|]. f_equal. lia.
Qed.

Definition hdr_fields (h : OpraMsgHdr_v2) : list fast_field :=
  [FU32 MESSAGE_TYPE_V2 h.(msg_type); FU32 PARTICIPANT_ID_V2 h.(participantId); FU32 RETRANSMISSION_REQUESTER_V2 h.(retran);
   FU32 MESSAGE_SEQUENCE_NUMBER_V2 h.(seqNumber); FU32 TIME_V2 h.(msg_time)].
Definition hdr_ok (h : OpraMsgHdr_v2) : Prop :=
  is_byte h.(msg_type) /\ is_byte h.(participantId) /\ is_byte h.(retran) /\ 0 <= h.(seqNumber) < 2 ^ 32 /\ 0 <= h.(msg_time) < 2 ^ 32.

Definition option_wire (o : option_fields) : list fast_field :=
  [FStr SECURITY_SYMBOL_V2 (prune o.(symbol)); FU32 EXPIRATION_MONTH_V2 o.(expirationMonth);
   FU32 EXPIRATION_DATE_V2 (two_digits o.(expirationDate)); FU32 YEAR_V2 (two_digits o.(year));
   FU32 STRIKE_PRICE_DENOMINATOR_CODE_V2 o.(strikePriceDenomCode); FU32 EXPLICIT_STRIKE_PRICE_V2 o.(explicitStrike);
   FU32 STRIKE_PRICE_CODE_V2 o.(strikePriceCode)].
Definition option_ok (o : option_fields) : Prop :=
  length o.(symbol) = 5%nat /\ Forall (fun b => 0 <= b < 128) o.(symbol) /\ is_byte o.(expirationMonth) /\
  is_digits o.(expirationDate) /\ is_digits o.(year) /\ is_byte o.(strikePriceDenomCode) /\
  0 <= o.(explicitStrike) < 2 ^ 32 /\ is_byte o.(strikePriceCode).

Lemma decodes_hdr cat h : hdr_ok h -> category h = cat -> decodes (msg_decode_hdr_v2 indeterminate cat) (hdr_fields h) h.
Proof.
  intros (H1 & H2 & H3 & _) <-. unfold msg_decode_hdr_v2, hdr_fields.
  eapply decodes_bind1; [by apply decodes_u8|]. eapply decodes_bind1; [by apply decodes_u8|].
  eapply decodes_bind1; [by apply decodes_u8|]. eapply decodes_bind1; [apply decodes_u32|]. eapply decodes_bind1; [apply decodes_u32|].
  destruct h. apply decodes_ret.
Qed.

Lemma decodes_option o : option_ok o -> decodes (decode_option indeterminate) (option_wire o) o.
Proof.
  intros (H1 & _ & H2 & H3 & H4 & H5 & _ & H6). unfold decode_option, option_wire.
  destruct (prune_pad (symbol o)) as [Hl Hp]; [by intros E; rewrite E in H1|]. rewrite H1 in *.
  eapply decodes_bind1; [apply decodes_str; unfold spaces; rewrite length_replicate; lia|]. cbn beta iota. rewrite Hp.
  eapply decodes_bind1; [by apply decodes_u8|]. eapply decodes_bind1; [apply decodes_u32|]. eapply decodes_bind1; [apply decodes_u32|].
  rewrite (proj2 (two_digits_ok _ H3)), (proj2 (two_digits_ok _ H4)).
  eapply decodes_bind1; [by apply decodes_u8|]. eapply decodes_bind1; [apply decodes_u32|]. eapply decodes_bind1; [by apply decodes_u8|].
  destruct o. apply decodes_ret.
Qed.

(** The messages on options *)
Inductive opra_msg :=
  | MQuote (m : CatkMsg_v2) | MOpenInt (m : CatdMsg_v2) | MLastSale (m : CataMsg_v2) | MEod (m : CatfMsg_v2).

Definition msg_hdr (m : opra_msg) : OpraMsgHdr_v2 :=
  match m with MQuote m => m.(k_hdr) | MOpenInt m => m.(d_hdr) | MLastSale m => m.(a_hdr) | MEod m => m.(f_hdr) end.
Definition msg_category (m : opra_msg) : Z := match m with MQuote _ => 107 | MOpenInt _ => 100 | MLastSale _ => 97 | MEod _ => 102 end.

Definition app_ok (a : Appendage_v2) : Prop :=
  is_byte a.(partId) /\ is_byte a.(denominator) /\ 0 <= a.(app_price) < 2 ^ 32 /\ 0 <= a.(app_size) < 2 ^ 32.
Definition offer_wire (a : Appendage_v2) : list fast_field :=
  [FU32 BEST_OFFER_PARTICIPANT_ID_V2 a.(partId); FU32 BEST_OFFER_PRICE_DENOMINATOR_CODE_V2 a.(denominator);
   FU32 BEST_OFFER_PRICE_V2 a.(app_price); FU32 BEST_OFFER_SIZE_V2 a.(app_size)].
Definition bid_wire (a : Appendage_v2) : list fast_field :=
  [FU32 BEST_BID_PARTICIPANT_ID_V2 a.(partId); FU32 BEST_BID_PRICE_DENOMINATOR_CODE_V2 a.(denominator);
   FU32 BEST_BID_PRICE_V2 a.(app_price); FU32 BEST_BID_SIZE_V2 a.(app_size)].
Definition bbo_wire (k : bbo_kind) (b : BBO_Appendage_v2) : list fast_field :=
  match k with
  | NoAppendage => []
  | OfferAppendage => offer_wire b.(bbo_first)
  | BidAppendage => bid_wire b.(bbo_first)
  | BothAppendages => bid_wire b.(bbo_first) ++ offer_wire b.(bbo_second)
  end.
(** Only the appendages that the indicator announces are there. *)
Definition bbo_ok (k : bbo_kind) (b : BBO_Appendage_v2) : Prop :=
  app_ok b.(bbo_first) /\ app_ok b.(bbo_second) /\
  match k with
  | NoAppendage => b = no_bbo
  | OfferAppendage | BidAppendage => b.(bbo_second) = no_app
  | BothAppendages => True
  end.

Lemma decodes_offer a : app_ok a -> decodes (decode_best_offer indeterminate) (offer_wire a) a.
Proof.
  intros (H1 & H2 & _). unfold decode_best_offer, offer_wire. eapply decodes_bind1; [by apply decodes_u8|].
  eapply decodes_bind1; [by apply decodes_u8|]. eapply decodes_bind1; [apply decodes_u32|]. eapply decodes_bind1; [apply decodes_u32|].
  destruct a. apply decodes_ret.
Qed.
Lemma decodes_bid a : app_ok a -> decodes (decode_best_bid indeterminate) (bid_wire a) a.
Proof.
  intros (H1 & H2 & _). unfold decode_best_bid, bid_wire. eapply decodes_bind1; [by apply decodes_u8|].
  eapply decodes_bind1; [by apply decodes_u8|]. eapply decodes_bind1; [apply decodes_u32|]. eapply decodes_bind1; [apply decodes_u32|].
  destruct a. apply decodes_ret.
Qed.

Lemma decodes_bbo k b : bbo_ok k b -> decodes (decode_bbo indeterminate k) (bbo_wire k b) b.
Proof.
  intros (H1 & H2 & Hk). destruct k; cbn [decode_bbo bbo_wire].
  - subst b. apply decodes_ret.
  - rewrite <- (app_nil_r (offer_wire _)). eapply decodes_bind; [by apply decodes_offer|]. destruct b as [b1 b2]; cbn in *; subst. apply decodes_ret.
  - rewrite <- (app_nil_r (bid_wire _)). eapply decodes_bind; [by apply decodes_bid|]. destruct b as [b1 b2]; cbn in *; subst. apply decodes_ret.
  - eapply decodes_bind; [by apply decodes_bid|]. rewrite <- (app_nil_r (offer_wire _)). eapply decodes_bind; [by apply decodes_offer|].
    destruct b; cbn in *. apply decodes_ret.
Qed.

Definition u32_ok (v : Z) : Prop := 0 <= v < 2 ^ 32.

Definition body_wire (m : opra_msg) : list fast_field :=
  match m with
  | MQuote m =>
      option_wire m.(k_opt) ++
      [FU32 PREMIUM_PRICE_DENOMINATOR_CODE_V2 m.(k_premiumPriceDenomCode); FU32 BID_PRICE_V2 m.(k_bidQuote);
       FU32 BID_SIZE_V2 m.(k_bidSize); FU32 OFFER_PRICE_V2 m.(k_askQuote); FU32 OFFER_SIZE_V2 m.(k_askSize);
       FU32 SESSION_INDICATOR_V2 m.(k_sessionIndicator); FU32 BBO_INDICATOR_V2 m.(k_bboIndicator)] ++
      match bbo_kind_of m.(k_bboIndicator) with Some k => bbo_wire k m.(k_bbo) | None => [] end
  | MOpenInt m => option_wire m.(d_opt) ++ [FU32 OPEN_INT_VOLUME_V2 m.(d_openIntVolume)]
  | MLastSale m =>
      option_wire m.(a_opt) ++
      [FU32 VOLUME_V2 m.(a_volume); FU32 PREMIUM_PRICE_DENOMINATOR_CODE_V2 m.(a_premiumPriceDenomCode);
       FU32 PREMIUM_PRICE_V2 m.(a_premium); FU32 SESSION_INDICATOR_V2 m.(a_sessionIndicator)]
  | MEod m =>
      option_wire m.(f_opt) ++
      [FU32 VOLUME_V2 m.(f_volume); FU32 OPEN_INT_VOLUME_V2 m.(f_openIntVolume);
       FU32 PREMIUM_PRICE_DENOMINATOR_CODE_V2 m.(f_premiumPriceDenomCode); FU32 OPEN_PRICE_V2 m.(f_open);
       FU32 HIGH_PRICE_V2 m.(f_high); FU32 LOW_PRICE_V2 m.(f_low); FU32 LAST_PRICE_V2 m.(f_last);
       FU32 NET_CHANGE_INDICATOR_V2 m.(f_netChangeIndicator); FU32 NET_CHANGE_V2 m.(f_netChange);
       FU32 UNDERLYING_PRICE_DENOM_V2 m.(f_underlyingPriceDenomCode); FU32 UNDERLYING_STOCK_PRICE_V2 m.(f_underlyingStockPrice);
       FU32 BID_PRICE_V2 m.(f_bidQuote); FU32 OFFER_PRICE_V2 m.(f_askQuote)]
  end.
Definition body_ok (m : opra_msg) : Prop :=
  match m with
  | MQuote m => option_ok m.(k_opt) /\ is_byte m.(k_premiumPriceDenomCode) /\ u32_ok m.(k_bidQuote) /\ u32_ok m.(k_bidSize) /\
      u32_ok m.(k_askQuote) /\ u32_ok m.(k_askSize) /\ is_byte m.(k_sessionIndicator) /\ is_byte m.(k_bboIndicator) /\
      exists k, bbo_kind_of m.(k_bboIndicator) = Some k /\ bbo_ok k m.(k_bbo)
  | MOpenInt m => option_ok m.(d_opt) /\ u32_ok m.(d_openIntVolume)
  | MLastSale m => option_ok m.(a_opt) /\ u32_ok m.(a_volume) /\ is_byte m.(a_premiumPriceDenomCode) /\ u32_ok m.(a_premium) /\
      is_byte m.(a_sessionIndicator)
  | MEod m => option_ok m.(f_opt) /\ u32_ok m.(f_volume) /\ u32_ok m.(f_openIntVolume) /\ is_byte m.(f_premiumPriceDenomCode) /\
      u32_ok m.(f_open) /\ u32_ok m.(f_high) /\ u32_ok m.(f_low) /\ u32_ok m.(f_last) /\ is_byte m.(f_netChangeIndicator) /\
      u32_ok m.(f_netChange) /\ is_byte m.(f_underlyingPriceDenomCode) /\ u32_ok m.(f_underlyingStockPrice) /\
      u32_ok m.(f_bidQuote) /\ u32_ok m.(f_askQuote)
  end.
Definition msg_ok (m : opra_msg) : Prop := hdr_ok (msg_hdr m) /\ category (msg_hdr m) = msg_category m /\ body_ok m.

(** After the category *)
Definition msg_wire (m : opra_msg) : list fast_field := hdr_fields (msg_hdr m) ++ body_wire m.
Definition msg_fields (m : opra_msg) : list fast_field := FU32 MESSAGE_CATEGORY_V2 (msg_category m) :: msg_wire m.

Ltac dfield := eapply decodes_bind1; [first [by apply decodes_u8 | apply decodes_u32]|].

Lemma decodes_quote m : msg_ok (MQuote m) ->
  decodes (decode_OpraFastQuoteSizeMsg_v2 indeterminate) (msg_wire (MQuote m)) (Some m).
Proof.
  intros (Hh & Hc & Ho & H1 & _ & _ & _ & _ & H2 & H3 & k & Hk & Hb). unfold decode_OpraFastQuoteSizeMsg_v2, msg_wire. cbn [msg_hdr body_wire].
  eapply decodes_bind; [by apply decodes_hdr|]. eapply decodes_bind; [by apply decodes_option|]. cbn [app]. do 7 dfield.
  rewrite Hk. rewrite <- (app_nil_r (bbo_wire _ _)). eapply decodes_bind; [by apply decodes_bbo|]. destruct m. apply decodes_ret.
Qed.
Lemma decodes_oi m : msg_ok (MOpenInt m) -> decodes (decode_OpraFastOpenIntMsg_v2 indeterminate) (msg_wire (MOpenInt m)) m.
Proof.
  intros (Hh & Hc & Ho & _). unfold decode_OpraFastOpenIntMsg_v2, msg_wire. cbn [msg_hdr body_wire].
  eapply decodes_bind; [by apply decodes_hdr|]. eapply decodes_bind; [by apply decodes_option|]. dfield. destruct m. apply decodes_ret.
Qed.
Lemma decodes_ls m : msg_ok (MLastSale m) -> decodes (decode_OpraFastLastSaleMsg_v2 indeterminate) (msg_wire (MLastSale m)) m.
Proof.
  intros (Hh & Hc & Ho & _ & H1 & _ & H2). unfold decode_OpraFastLastSaleMsg_v2, msg_wire. cbn [msg_hdr body_wire].
  eapply decodes_bind; [by apply decodes_hdr|]. eapply decodes_bind; [by apply decodes_option|]. do 4 dfield. destruct m. apply decodes_ret.
Qed.
Lemma decodes_eod m : msg_ok (MEod m) -> decodes (decode_OpraFastEodMsg_v2 indeterminate) (msg_wire (MEod m)) m.
Proof.
  intros (Hh & Hc & Ho & _ & _ & H1 & _ & _ & _ & _ & H2 & _ & H3 & _). unfold decode_OpraFastEodMsg_v2, msg_wire. cbn [msg_hdr body_wire].
  eapply decodes_bind; [by apply decodes_hdr|]. eapply decodes_bind; [by apply decodes_option|]. do 13 dfield. destruct m. apply decodes_ret.
Qed.

(** A field of the template *)
Ltac template_field :=
  split; [reflexivity|]; split; [reflexivity|]; split; [unfold is_byte, u32_ok in *; lia|];
  first [left; split; reflexivity | right; split; reflexivity].
Ltac template_fields := repeat (apply Forall_cons; split; [template_field|]).

Lemma hdr_wire_ok h : hdr_ok h -> Forall opra_ok (hdr_fields h).
Proof. intros (H1 & H2 & H3 & H4 & H5). unfold hdr_fields. template_fields. constructor. Qed.

Lemma option_wire_ok o : option_ok o -> Forall opra_ok (option_wire o).
Proof.
  intros (H1 & H2 & H3 & H4 & H5 & H6 & H7 & H8). pose proof (proj1 (two_digits_ok _ H4)). pose proof (proj1 (two_digits_ok _ H5)).
  destruct (prune_pad (symbol o)) as [Hl _]; [by intros E; rewrite E in H1|].
  apply Forall_cons. split; [|template_fields; constructor]. split; [reflexivity|]. split; [reflexivity|]. split; [reflexivity|].
  split; [reflexivity|]. split; [by apply prune_forall; [lia|]|]. lia.
Qed.

Lemma bbo_wire_ok k b : bbo_ok k b -> Forall opra_ok (bbo_wire k b).
Proof.
  intros ((H1 & H2 & H3 & H4) & (H5 & H6 & H7 & H8) & _). destruct k; cbn [bbo_wire].
  - constructor.
  - unfold offer_wire. template_fields. constructor.
  - unfold bid_wire. template_fields. constructor.
  - unfold bid_wire, offer_wire. cbn [app]. template_fields. constructor.
Qed.

(** The fields are in the template, and each slot is used once. *)
Lemma msg_fields_ok m : msg_ok m -> Forall opra_ok (msg_fields m).
Proof.
  intros (Hh & Hc & Hb). apply Forall_cons. split; [split; [reflexivity|]; split; [reflexivity|]; split; [destruct m; cbn; lia|]; left; split; reflexivity|].
  apply Forall_app. split; [by apply hdr_wire_ok|]. destruct m as [m|m|m|m]; cbn [body_wire body_ok] in *.
  - destruct Hb as (Ho & H1 & H2 & H3 & H4 & H5 & H6 & H7 & k & -> & Hk). apply Forall_app. split; [by apply option_wire_ok|].
    apply Forall_app. split; [template_fields; constructor | by apply bbo_wire_ok].
  - destruct Hb as (Ho & H1). apply Forall_app. split; [by apply option_wire_ok | template_fields; constructor].
  - destruct Hb as (Ho & H1 & H2 & H3 & H4). apply Forall_app. split; [by apply option_wire_ok | template_fields; constructor].
  - destruct Hb as (Ho & H1 & H2 & H3 & H4 & H5 & H6 & H7 & H8 & H9 & H10 & H11 & H12 & H13). apply Forall_app.
    split; [by apply option_wire_ok | template_fields; constructor].
Qed.

Lemma msg_slots m : NoDup (field_slot <$> msg_fields m).
Proof.
  assert (H : forall l, bool_decide (NoDup (field_slot <$> l)) = true -> NoDup (field_slot <$> l)).
  { intros l. apply bool_decide_eq_true. }
  apply H. destruct m as [m|m|m|m]; [unfold msg_fields, msg_wire; cbn [body_wire]; destruct (bbo_kind_of (k_bboIndicator m)) as [[]|]|..];
    vm_compute; reflexivity.
Qed.
End messages.
