(* ===== verification/OpraTheorems.v ===== *)
(** * OPRA packets: theorems

    A packet that the encoder of the same library wrote reaches the processors
    as the messages it was made of. *)
From S2P Require Import Prelude Mpool OpraCodec OpraEnc OpraEncProps OpraLine OpraFast OpraWire.

(** ** Packets *)

(** The messages as an encoder writes them one after the other, each of a
    length that one byte can hold and that is not the mark of a last message. *)
Fixpoint wire_msgs (ms : list opra_msg) (e : fast_encoder) : option (list (list Z)) :=
  match ms with
  | [] => Some []
  | m :: ms =>
      '(bytes, e) ← wire_msg (msg_fields m) e;
      if (1 <=? Z.of_nat (length bytes)) && (Z.of_nat (length bytes) <? 0xff) then
        rest ← wire_msgs ms e; Some (bytes :: rest)
      else None
  end.

Definition with_length (bytes : list Z) : list Z := Z.of_nat (length bytes) :: bytes.
Definition opra_packet (sn num : list Z) (bodies : list (list Z)) : list Z :=
  [SOH; VERSION_2] ++ sn ++ num ++ (bodies ≫= with_length) ++ [3].

(** What the processors are to do *)
Definition process_msg {S} (P : opra_processors S) (m : opra_msg) : S -> option S :=
  match m with
  | MQuote m => quote_process S P m
  | MOpenInt m => oi_process S P m
  | MLastSale m => ls_process S P m
  | MEod m => eod_process S P m
  end.
Fixpoint process_msgs {S} (P : opra_processors S) (ms : list opra_msg) (st : S) : option S :=
  match ms with [] => Some st | m :: ms => st ← process_msg P m st; process_msgs P ms st end.

Lemma ready_codec_ok fin e input k cd : ready fin e input k cd -> codec_ok cd.
Proof. intros [[] _ _ ? _]. by split. Qed.

Section packets.
Context (indeterminate : Z -> fast_codec -> Z) (stale_text : fast_codec -> list Z).
Notation get_u32 := (get_u32 indeterminate).
Notation FastOpraDecoder := (FastOpraDecoder indeterminate stale_text).
Notation decode_loop := (decode_loop indeterminate stale_text).
Notation fast_opra_decode := (fast_opra_decode indeterminate stale_text).
Notation fast_opra_hdr_info := (fast_opra_hdr_info indeterminate).

Lemma then_process_ok {A S} (d : D A) (f : A -> S -> option S) a cd cd' st : d cd = Some (a, cd') ->
  then_process d f cd st = (st ← f a st; Some (cd', st)).
Proof. intros E. unfold then_process. by rewrite E. Qed.

(** The decoder of the message's category is the one that runs. *)
Lemma FastOpraDecoder_ok m e e' body fin cd rest k : msg_ok m -> enc_ok e ->
  (forall f, f ∈ msg_wire m -> pm_bit (field_slot f) (en_codec e) = 0) -> encode_fields (msg_wire m) e = Some e' ->
  en_msg e' = en_msg e ++ body -> (forall f, f ∈ msg_wire m -> fin (field_slot f) = pm_bit (field_slot f) (en_codec e')) ->
  ready fin e (body ++ rest) (Z.of_nat (length body) + k) cd -> 0 <= k -> exists cd', ready fin e' rest k cd' /\
  forall (S : Type) (P : opra_processors S) st, FastOpraDecoder P (s8 (msg_category m)) cd st = (st ← process_msg P m st; Some (cd', st)).
Proof.
  intros Hm Hok Hz He Hb Hf Hr Hk. pose proof (msg_fields_ok m Hm) as H1. apply Forall_cons in H1 as [_ H1].
  pose proof (msg_slots m) as H2. unfold msg_fields in H2. rewrite fmap_cons in H2. apply NoDup_cons in H2 as [_ H2].
  destruct m as [m|m|m|m].
  - destruct (decodes_quote indeterminate m Hm e e' body fin cd rest k) as (cd' & E & H); try done.
    exists cd'. split; [done|]. intros S P st. exact (then_process_ok _ _ _ _ _ st E).
  - destruct (decodes_oi indeterminate m Hm e e' body fin cd rest k) as (cd' & E & H); try done.
    exists cd'. split; [done|]. intros S P st. exact (then_process_ok _ _ _ _ _ st E).
  - destruct (decodes_ls indeterminate m Hm e e' body fin cd rest k) as (cd' & E & H); try done.
    exists cd'. split; [done|]. intros S P st. exact (then_process_ok _ _ _ _ _ st E).
  - destruct (decodes_eod indeterminate m Hm e e' body fin cd rest k) as (cd' & E & H); try done.
    exists cd'. split; [done|]. intros S P st. exact (then_process_ok _ _ _ _ _ st E).
Qed.

(** A message of the packet: the presence map, the category, and the rest. *)
Lemma read_message m e bytes e' cd rest k : msg_ok m -> idle e -> wire_msg (msg_fields m) e = Some (bytes, e') -> bytes <> [] ->
  sync opra_kind (en_codec e) cd -> codec_ok cd -> 0 <= k -> exists n cd1 cd2 cd3,
  decode_new_msg (setBuffer (bytes ++ rest) (Z.of_nat (length bytes) + k) cd) = Some (n, cd1) /\ 0 < n /\
  get_u32 MESSAGE_CATEGORY_V2 cd1 = Some (msg_category m, cd2) /\
  (forall (S : Type) (P : opra_processors S) st,
     FastOpraDecoder P (s8 (msg_category m)) cd2 st = (st ← process_msg P m st; Some (cd3, st))) /\
  idle e' /\ sync opra_kind (en_codec e') cd3 /\ codec_ok cd3.
Proof.
  intros Hm Hid Hw Hne Hs Hc Hk. pose proof (msg_fields_ok m Hm) as Hfs.
  destruct (read_pmap _ _ _ _ cd rest k Hid Hfs Hw Hne Hs Hc Hk)
    as (n & cd1 & e0 & e1 & fin & En & Hn & Hok & Hm0 & Hz & He & Hfin & Hr & Hid' & Hsync).
  pose proof (msg_slots m) as Hnd.
  destruct (decodes_prefix (get_u32 MESSAGE_CATEGORY_V2) [FU32 MESSAGE_CATEGORY_V2 (msg_category m)] (msg_wire m) (msg_category m)
    e0 e1 (en_msg e1) fin cd1 rest k) as (e2 & b2 & cd2 & Ec & Hok2 & He2 & Hb2 & Hz2 & Hr2); try done; [apply decodes_u32 | | by rewrite Hm0|].
  { intros f _. apply Hz, field_slot_range. }
  destruct (FastOpraDecoder_ok m e2 e1 b2 fin cd2 rest k) as (cd3 & Hr3 & HF); try done.
  exists n, cd1, cd2, cd3. split_and!; try done; [apply Hsync, Hr3 | by eapply ready_codec_ok].
Qed.

(** The header of the first message is read from the same codec, which can
    read the message again. *)
Lemma hdr_info_ok hd m bytes e' cd rest len : length hd = 15%nat -> msg_ok m ->
  wire_msg (msg_fields m) fast_reset_codec = Some (bytes, e') -> 1 <= Z.of_nat (length bytes) < 0xff -> codec_ok cd ->
  exists cd', codec_ok cd' /\ fast_opra_hdr_info (hd ++ with_length bytes ++ rest) len cd =
    Some (Some (s8 (msg_category m), s8 (msg_type (msg_hdr m)), msg_time (msg_hdr m)), cd').
Proof.
  intros Hl Hm Hw Hlen Hc. pose proof (msg_fields_ok m Hm) as Hfs.
  destruct (read_pmap _ _ _ _ cd rest 0 idle_fresh Hfs Hw ltac:(intros ->; cbn in Hlen; lia) (sync_fresh _ (co_strings _ Hc)) Hc ltac:(lia))
    as (n & cd1 & e0 & e1 & fin & En & Hn & Hok & Hm0 & Hz & He & Hfin & Hr & _ & _).
  pose proof (msg_slots m) as Hnd. pose proof (proj1 Hm) as Hh.
  set (h := msg_hdr m) in *.
  unfold fast_opra_hdr_info. rewrite lookup_app_r, Hl by lia. cbn [Nat.sub lookup list_lookup with_length app mbind option_bind].
  rewrite drop_app_ge, Hl by lia. cbn [Nat.sub drop with_length app].
  rewrite (proj2 (Z.eqb_neq _ _)), (proj2 (Z.ltb_lt 0 _)), (proj2 (Z.ltb_lt _ 0xff)) by lia. cbn [andb].
  rewrite drop_0, <- (Z.add_0_r (Z.of_nat (length bytes))), En. cbn [mbind option_bind]. rewrite (proj2 (Z.ltb_ge _ _)) by lia.
  match goal with |- context [?d cd1 = _] => set (dec := d) end.
  assert (Hd : decodes dec (FU32 MESSAGE_CATEGORY_V2 (msg_category m) :: hdr_fields h)
    (Some (s8 (msg_category m), s8 (msg_type h), msg_time h))).
  { unfold dec, hdr_fields. do 6 (eapply decodes_bind1; [apply decodes_u32|]). apply decodes_ret. }
  destruct (decodes_prefix dec _ (body_wire m) _ e0 e1 (en_msg e1) fin cd1 rest 0 Hd) as (e2 & b2 & cd2 & Ed & _ & _ & _ & _ & Hr2);
    try done; [intros f _; apply Hz, field_slot_range | by rewrite Hm0|].
  exists cd2. split; [by eapply ready_codec_ok | exact Ed].
Qed.

Lemma wire_msgs_cons m ms e bodies : wire_msgs (m :: ms) e = Some bodies -> exists bytes e' rest, bodies = bytes :: rest /\
  wire_msg (msg_fields m) e = Some (bytes, e') /\ 1 <= Z.of_nat (length bytes) < 0xff /\ wire_msgs ms e' = Some rest.
Proof.
  cbn. destruct (wire_msg _ e) as [[bytes e']|]; [|done]. cbn. destruct (_ && _) eqn:E; [|done].
  destruct (wire_msgs ms e') as [rest|] eqn:Er; [|done]. cbn. intros [= <-]. exists bytes, e', rest.
  apply andb_prop in E as [E1%Z.leb_le E2%Z.ltb_lt]. done.
Qed.

(** The loop, [offset] bytes before the next length: the messages are
    processed in their order. *)
Lemma decode_loop_ok {S} (P : opra_processors S) rec_len tail ms : forall bodies e pre off fuel num cd st,
  Forall msg_ok ms -> idle e -> sync opra_kind (en_codec e) cd -> codec_ok cd ->
  wire_msgs ms e = Some bodies -> (length ms < fuel)%nat -> (off <= length pre)%nat -> (ms = [] -> off = 0%nat) ->
  exists cd', codec_ok cd' /\
  decode_loop P fuel (pre ++ (bodies ≫= with_length) ++ tail) rec_len (Z.of_nat (length pre - off)) (Z.of_nat off)
    (Z.of_nat (off + length (bodies ≫= with_length)) + 1) cd st num =
  (st ← process_msgs P ms st; Some (num + Z.of_nat (length ms), cd', st)).
Proof.
  induction ms as [|m ms IH]; intros bodies e pre off fuel num cd st Hms Hid Hs Hc Hw Hfuel Hoff Hnil.
  { rewrite (Hnil eq_refl). injection Hw as <-. destruct fuel; [cbn in Hfuel; lia|]. exists cd. split; [done|]. cbn.
    change (1 <? _) with false. cbn. by rewrite Z.add_0_r. }
  destruct (wire_msgs_cons m ms e bodies Hw) as (bytes & e' & rest & -> & Hwm & Hlen & Hwr). apply Forall_cons in Hms as [Hm Hms].
  destruct fuel as [|fuel]; [cbn in Hfuel; lia|].
  destruct (read_message m e bytes e' cd ((rest ≫= with_length) ++ tail) 0 Hm Hid Hwm) as (n & cd1 & cd2 & cd3 & En & Hn & Ec & Hp & Hid' & Hs' & Hc');
    [intros ->; cbn in Hlen; lia | done | done | lia|].
  cbn [OpraFast.decode_loop]. rewrite (proj2 (Z.ltb_lt _ _)) by (cbn; lia).
  replace (Z.to_nat (Z.of_nat (length pre - off) + Z.of_nat off)) with (length pre) by lia.
  rewrite lookup_app_r, Nat.sub_diag by lia. unfold LEN_OFFSET.
  replace (Z.to_nat (Z.of_nat (length pre - off) + Z.of_nat off + 1)) with (length pre + 1)%nat by lia.
  rewrite drop_app_ge by lia. replace (length pre + 1 - length pre)%nat with 1%nat by lia.
  change ((bytes :: rest) ≫= with_length) with (with_length bytes ++ (rest ≫= with_length)).
  rewrite <- app_assoc. cbn [with_length app lookup list_lookup mbind option_bind drop].
  rewrite drop_0, (proj2 (Z.eqb_neq _ _)) by lia. rewrite Z.add_0_r in En. rewrite En.
  cbn [mbind option_bind]. rewrite (proj2 (Z.ltb_ge _ _)) by lia. rewrite Ec. cbn [mbind option_bind]. rewrite Hp.
  cbn [process_msgs]. destruct (process_msg P m st) as [st1|]; [|by exists cd].
  cbn [mbind option_bind decode_end_msg fast_decode_end_msg].
  destruct (IH rest e' (pre ++ with_length bytes) 0%nat fuel (num + 1) cd3 st1) as (cd' & Hcd' & E); try done; [cbn in Hfuel; lia | lia|].
  exists cd'. split; [done|]. rewrite <- app_assoc in E. cbn [with_length app] in E.
  etransitivity; [|etransitivity; [exact E|]].
  - f_equal; cbn [length]; rewrite ?length_app; cbn [length with_length]; lia.
  - cbn [length]. destruct (process_msgs P ms st1); [|done]. cbn. do 3 f_equal. lia.
Qed.

Lemma wire_msgs_length ms : forall e bodies, wire_msgs ms e = Some bodies -> (length ms <= length (bodies ≫= with_length))%nat.
Proof.
  induction ms as [|m ms IH]; intros e bodies Hw; [cbn; lia|]. destruct (wire_msgs_cons m ms e bodies Hw) as (b & e' & rest & -> & _ & _ & Hr).
  specialize (IH e' rest Hr). change ((b :: rest) ≫= with_length) with (with_length b ++ (rest ≫= with_length)).
  rewrite length_app. cbn [length with_length]. lia.
Qed.

Lemma opra_packet_length sn num bodies : length sn = 10%nat -> length num = 3%nat ->
  length (opra_packet sn num bodies) = (16 + length (bodies ≫= with_length))%nat.
Proof. intros H1 H2. unfold opra_packet. rewrite !length_app, H1, H2. cbn. lia. Qed.

Lemma fast_opra_decode_ok {S} (P : opra_processors S) sn num ms bodies tail cd st : length sn = 10%nat -> length num = 3%nat ->
  Forall msg_ok ms -> ms <> [] -> wire_msgs ms fast_reset_codec = Some bodies -> codec_ok cd ->
  let len := Z.of_nat (length (opra_packet sn num bodies)) in len < 2 ^ 31 -> exists cd', codec_ok cd' /\
  fast_opra_decode P (Z.to_nat len + 1) (opra_packet sn num bodies ++ tail) len cd st =
    (st ← process_msgs P ms st; Some (Z.of_nat (length ms), cd', st)).
Proof.
  intros H1 H2 Hms Hne Hw Hc len Hlen. unfold len in *. rewrite (opra_packet_length _ _ _ H1 H2) in *.
  pose proof (wire_msgs_length _ _ _ Hw) as Hl.
  destruct (decode_loop_ok P (Z.of_nat (16 + length (bodies ≫= with_length))) ([3] ++ tail) ms bodies fast_reset_codec ([SOH; VERSION_2] ++ sn ++ num)
    14 (Z.to_nat (Z.of_nat (16 + length (bodies ≫= with_length))) + 1) 0 cd st Hms idle_fresh (sync_fresh _ (co_strings _ Hc)) Hc Hw)
    as (cd' & Hcd' & E); [lia | rewrite !length_app, H1, H2; cbn; lia | done |].
  exists cd'. split; [done|]. unfold OpraFast.fast_opra_decode, opra_packet. cbn [app lookup list_lookup mbind option_bind Z.eqb VERSION_2 Pos.eqb].
  rewrite s32_small by lia. etransitivity; [|etransitivity; [exact E|done]].
  unfold opra_packet. rewrite <- ?app_assoc.
  f_equal; rewrite ?length_app, ?H1, ?H2; cbn [length]; unfold SEQ_OFFSET, VERSION_OFFSET, NUM_MSG_OFFSET; lia.
Qed.
End packets.

(** ** A packet that is received *)

Section delivery.
Context {W : Type} (indeterminate : Z -> fast_codec -> Z) (stale_text : fast_codec -> list Z).
Context (notify : option (lh_ftline -> Z -> W -> W)) (thr : Z) (P : opra_processors (opra_lines W)).

(** C15: roundtrip. A packet that the library's encoder wrote, from a fresh
    state, for one or more quotes, open interests, last sales and ends of day
    comes in on a line that is not a tap, whatever state the codec of the line
    handler was left in and whatever the receive buffer held.  The header of
    the first message, which [fh_opra_lh_is_dup] gets, is read right although
    the same codec reads the message again; a duplicate is dropped; and the
    messages of any other packet go to their processors, all fields as they
    were sent and in their order, and are counted. *)
Theorem opra_packet_delivered i m ms bodies sn num c buf (st : opra_lines W) l dup st1 :
  Forall msg_ok (m :: ms) -> wire_msgs (m :: ms) fast_reset_codec = Some bodies ->
  length sn = 10%nat -> length num = 3%nat -> codec_ok c ->
  let pkt := opra_packet sn num bodies in
  Z.of_nat (length pkt) < 2 ^ 31 -> line_table st !! i = Some l -> l_tap l = 0 ->
  fh_opra_lh_is_dup notify thr i (s8 (msg_category m)) (s8 (msg_type (msg_hdr m))) (header_number sn) (header_number num)
    (msg_time (msg_hdr m)) (count i LineBytes (Z.of_nat (length pkt)) (count i PktRx 1 st)) = Some (dup, st1) ->
  exists c', codec_ok c' /\
  opra_receive indeterminate stale_text notify thr P i pkt c buf st =
    if dup then Some (c', pkt ++ drop (length pkt) buf, st1)
    else st2 ← process_msgs P (m :: ms) st1;
         Some (c', pkt ++ drop (length pkt) buf, count i MsgRx (u32 (Z.of_nat (length (m :: ms)))) st2).
Proof.
  intros Hms Hw Hsn Hnum Hc pkt Hlen Hl Htap Hdup. set (buf' := pkt ++ drop (length pkt) buf).
  destruct (wire_msgs_cons m ms _ _ Hw) as (bytes & e' & rest & Eb & Hwm & Hbytes & _).
  assert (Epkt : forall tail, pkt ++ tail = (SOH :: VERSION_2 :: sn ++ num) ++ with_length bytes ++ ((rest ≫= with_length) ++ [3] ++ tail)).
  { intros tail. unfold pkt, opra_packet. rewrite Eb. change ((bytes :: rest) ≫= with_length) with (with_length bytes ++ (rest ≫= with_length)).
    cbn [app]. by rewrite <- !app_assoc. }
  destruct (hdr_info_ok indeterminate (SOH :: VERSION_2 :: sn ++ num) m bytes e' c ((rest ≫= with_length) ++ [3] ++ drop (length pkt) buf)
    (Z.of_nat (length pkt))) as (c1 & Hc1 & Eh); [cbn; rewrite length_app, Hsn, Hnum; done | by apply Forall_inv in Hms | done..|].
  rewrite <- Epkt in Eh. fold buf' in Eh.
  destruct (fast_opra_decode_ok indeterminate stale_text P sn num (m :: ms) bodies (drop (length pkt) buf) c1 st1 Hsn Hnum Hms ltac:(done) Hw Hc1 Hlen)
    as (c2 & Hc2 & Ed). fold pkt buf' in Ed.
  assert (Hd : header_digits buf' 2 10 = Some sn /\ header_digits buf' 12 3 = Some num).
  { unfold header_digits, buf', pkt, opra_packet. rewrite <- !app_assoc. cbn [app]. split.
    - rewrite (proj2 (Nat.leb_le _ _)) by (cbn [length]; rewrite length_app; lia). cbn [drop].
      by rewrite drop_0, (take_app_length' sn _ 10) by done.
    - rewrite (proj2 (Nat.leb_le _ _)) by (cbn [length]; rewrite !length_app; lia). cbn [drop].
      by rewrite (drop_app_length' sn _ 10), (take_app_length' num _ 3) by done. }
  destruct Hd as [Hd1 Hd2].
  assert (Hl' : exists l', line_table (count i LineBytes (Z.of_nat (length pkt)) (count i PktRx 1 st)) !! i = Some l' /\ l_tap l' = 0).
  { unfold count, with_line. cbn [line_table]. rewrite !list_lookup_alter_eq, Hl. eexists. split; [reflexivity | exact Htap]. }
  destruct Hl' as (l' & Hl' & Htap').
  exists (if dup then c1 else c2). split; [by destruct dup|].
  unfold opra_receive. fold buf'. change (buf' !! 0%nat) with (Some SOH). cbn [mbind option_bind Z.eqb negb SOH Pos.eqb].
  unfold fh_opra_pkt_process. change (buf' !! 1%nat) with (Some VERSION_2). cbn [mbind option_bind Z.eqb negb VERSION_2 Pos.eqb].
  rewrite Hd1, Hd2. cbn [mbind option_bind]. rewrite Eh. cbn [mbind option_bind]. rewrite Hl'. cbn [mbind option_bind].
  rewrite Htap'. cbn [Z.eqb negb]. rewrite Hdup. cbn [mbind option_bind]. destruct dup; [done|]. rewrite Ed.
  destruct (process_msgs P (m :: ms) st1); done.
Qed.
End delivery.

(** Processors that keep the messages *)
Definition keep (m : opra_msg) (st : opra_lines (list opra_msg)) : option (opra_lines (list opra_msg)) :=
  Some (MkLines st.(line_table) st.(ftline_table) (st.(lines_world) ++ [m])).
Definition keeper : opra_processors (opra_lines (list opra_msg)) :=
  MkProcessors _ (fun m => keep (MQuote m)) (fun m => keep (MOpenInt m)) (fun m => keep (MLastSale m)) (fun m => keep (MEod m))
    (fun _ => Some) (fun _ => Some).
Definition a_line (index : Z) (peer : nat) : lh_line := MkLine index (fun _ => 0) 0 0 (Some peer) 0 0.
Definition a_pair : opra_lines (list opra_msg) := MkLines [a_line 0 1; a_line 1 0] [ftline_init] [].

Definition ibm_call : option_fields := MkOptionFields [73; 66; 77; 32; 32] 65 [49; 55] [48; 57] 65 950 83.
Definition ibm_quote : CatkMsg_v2 :=
  MkCatk (MkHdr 67 32 107 32 4000000000 34200000) ibm_call 66 310 25 325 40 32 67 (MkBBO (MkApp 67 66 325 40) no_app).
Definition ibm_sale : CataMsg_v2 := MkCata (MkHdr 67 32 97 65 4000000001 34200000) ibm_call 7 66 320 32.
Definition ibm_bodies : list (list Z) := default [] (wire_msgs [MQuote ibm_quote; MLastSale ibm_sale] fast_reset_codec).
Definition ibm_sn : list Z := [52; 48; 48; 48; 48; 48; 48; 48; 48; 48].

Lemma ibm_ok : Forall msg_ok [MQuote ibm_quote; MLastSale ibm_sale].
Proof.
  assert (Ho : option_ok ibm_call) by (repeat constructor; cbn; lia).
  repeat constructor; cbn; try lia. exists OfferAppendage. repeat constructor; cbn; lia.
Qed.
Lemma codec_ok_fresh : codec_ok fast_create_codec.
Proof. split; [intros s l H; cbn in H; by rewrite lookup_empty in H | done]. Qed.

(** C15's witness: the two messages in one packet of 72 bytes *)
Lemma opra_packet_delivered_witness :
  wire_msgs [MQuote ibm_quote; MLastSale ibm_sale] fast_reset_codec = Some ibm_bodies /\
  length (opra_packet ibm_sn [48; 48; 50] ibm_bodies) = 72%nat /\
  exists c' st', opra_receive (fun _ _ => 0) (fun _ => replicate 450 0) None 1000 keeper 0 (opra_packet ibm_sn [48; 48; 50] ibm_bodies)
    fast_create_codec [] a_pair = Some (c', opra_packet ibm_sn [48; 48; 50] ibm_bodies, st') /\
  lines_world st' = [MQuote ibm_quote; MLastSale ibm_sale].
Proof.
  split; [vm_compute; reflexivity|]. split; [vm_compute; reflexivity|].
  assert (H : exists st1, fh_opra_lh_is_dup None 1000 0 107 32 (header_number ibm_sn) (header_number [48; 48; 50]) 34200000
    (count 0 LineBytes (Z.of_nat (length (opra_packet ibm_sn [48; 48; 50] ibm_bodies))) (count 0 PktRx 1 a_pair)) = Some (false, st1) /\
    lines_world st1 = []).
  { eexists. split; [vm_compute; reflexivity | reflexivity]. }
  destruct H as (st1 & Hdup & Hst1).
  destruct (opra_packet_delivered (fun _ _ => 0) (fun _ => replicate 450 0) None 1000 keeper 0 (MQuote ibm_quote) [MLastSale ibm_sale] ibm_bodies
    ibm_sn [48; 48; 50] fast_create_codec [] a_pair (a_line 0 1) false st1) as (c' & Hc & E).
  - exact ibm_ok.
  - vm_compute; reflexivity.
  - reflexivity.
  - reflexivity.
  - exact codec_ok_fresh.
  - vm_compute; reflexivity.
  - reflexivity.
  - reflexivity.
  - exact Hdup.
  - cbn [process_msgs process_msg keeper quote_process ls_process keep mbind option_bind] in E. rewrite drop_nil, app_nil_r in E.
    eexists _, _. split; [exact E|]. cbn [lines_world count with_line]. by rewrite Hst1.
Defined.

(** ** Underlying values *)

Lemma decode_groups_overflow group n : forall i c, (i <= MAX_INDEX_GROUP)%nat -> (MAX_INDEX_GROUP < n + i)%nat ->
  decode_groups group n i c = None.
Proof.
  induction n as [|n IH]; intros i c Hi Hn; [lia|]. cbn [decode_groups]. destruct (Nat.ltb_spec i MAX_INDEX_GROUP) as [Hlt|Hge]; [|done].
  unfold mbind, D_bind. cbn. destruct (group c) as [[g c']|]; [|done]. cbn. by rewrite IH by lia.
Qed.

Definition index_type (t : Z) : bool := (t =? 32) || (t =? 73) || (t =? 70) || (t =? 67).
Definition group_count_tag (t : Z) : Z :=
  if (t =? 32) || (t =? 73) then NUMBER_OF_INDICES_IN_GROUP_V2 else NUMBER_OF_FOREIGN_CURRENCY_SPOT_VALUES_IN_GROUP_V2.

Section groups.
Context (indeterminate : Z -> fast_codec -> Z) (stale_text : fast_codec -> list Z).

(** A message on underlying values says how many groups it holds.
    The array of the message has room for five; a count from six on, which
    nothing tests, is followed to the write behind the array, whatever bytes
    come after the count. *)
Theorem opra_index_overflow c hdr c1 n c2 : msg_decode_hdr_v2 indeterminate 89 c = Some (hdr, c1) -> index_type (msg_type hdr) = true ->
  get_u32 indeterminate (group_count_tag (msg_type hdr)) c1 = Some (n, c2) -> Z.of_nat MAX_INDEX_GROUP < n < 2 ^ 31 ->
  decode_OpraFastUlValueMsg_v2 indeterminate c = None.
Proof.
  intros Hh Ht Hn Hr. assert (Hg : forall group, decode_groups group (Z.to_nat (s32 n)) 0 c2 = None).
  { intros group. apply decode_groups_overflow; [lia|]. rewrite s32_small by (cbn in Hr; lia). lia. }
  unfold decode_OpraFastUlValueMsg_v2. cbv [mbind D_bind option_bind]. rewrite Hh. cbv beta iota zeta.
  unfold index_type, group_count_tag in *. destruct (msg_type hdr =? 32), (msg_type hdr =? 73), (msg_type hdr =? 70), (msg_type hdr =? 67);
    cbn [orb] in *; try done; rewrite Hn; by rewrite Hg.
Qed.
End groups.

(** A message of type [' '] that announces [n] groups, and has six; the fields
    of a group are in the presence map once, and there for each group. *)
Definition indices (n : Z) : list Z :=
  let fields := [FU32 MESSAGE_CATEGORY_V2 89; FU32 MESSAGE_TYPE_V2 32; FU32 PARTICIPANT_ID_V2 67; FU32 RETRANSMISSION_REQUESTER_V2 32;
    FU32 MESSAGE_SEQUENCE_NUMBER_V2 7; FU32 TIME_V2 34200000; FU32 NUMBER_OF_INDICES_IN_GROUP_V2 n;
    FStr INDEX_SYMBOL_V2 [83; 80; 88]; FStr INDEX_VALUE_V2 [49; 50]] in
  default [] (fst <$> wire_msg fields fast_reset_codec) ++ concat (replicate 5 [83; 80; 216; 49; 178]).
Definition receive_indices (n : Z) :=
  opra_receive (fun _ _ => 0) (fun _ => replicate 450 0) None 1000 keeper 0 (opra_packet ibm_sn [48; 48; 49] [indices n])
    fast_create_codec [] a_pair.

(** The packet of such a message is received with five, and not
    with six *)
Lemma opra_index_overflow_witness :
  bool_decide (is_Some (receive_indices 5)) = true /\ bool_decide (receive_indices 6 = None) = true /\
  exists c1, decode_OpraFastUlValueMsg_v2 (fun _ _ => 0) c1 = None /\ in_mem c1 = drop 8 (indices 6).
Proof.
  split; [vm_compute; reflexivity|]. split; [vm_compute; reflexivity|].
  let r := eval vm_compute in (match decode_new_msg (setBuffer (indices 6) (Z.of_nat (length (indices 6))) fast_create_codec)
    with Some (_, c) => get_u32 (fun _ _ => 0) MESSAGE_CATEGORY_V2 c | None => None end) in
  match r with Some (_, ?c) => exists c end.
  split.
  - eapply (opra_index_overflow (fun _ _ => 0)); [vm_compute; reflexivity | reflexivity | vm_compute; reflexivity | vm_compute; done].
  - reflexivity.
Defined.
