(* ===== verification/OpraTyped.v ===== *)
(** * OPRA messages: types

    Whatever bytes come in, a message that is given to its processor has the
    types of its record. *)
From S2P Require Import Prelude Bytes Mpool OpraCodec OpraEncProps OpraLine OpraFast OpraWire OpraTheorems.

(** ** The codec *)

(** The input is bytes, and what earlier messages left behind has the type of
    its place. *)
Record typed (c : fast_codec) : Prop := {
  ty_mem : Forall is_byte (in_mem c);
  ty_u32 : map_Forall (fun _ v => u32_ok v) (u32_values c);
  ty_str : map_Forall (fun _ l => length l = 1024%nat /\ Forall is_byte l) (fast_strings c)
}.

(** The result of [m] is in [T]. *)
Definition yields {A} (T : A -> Prop) (m : D A) : Prop :=
  forall c a c', typed c -> m c = Some (a, c') -> T a /\ typed c'.

Lemma yields_ret {A} (T : A -> Prop) a : T a -> yields T (mret a).
Proof. intros Ha c a' c' Hc [= <- <-]. done. Qed.
Lemma yields_bind {A B} (T : A -> Prop) (U : B -> Prop) (m : D A) (f : A -> D B) :
  yields T m -> (forall a, T a -> yields U (f a)) -> yields U (m ≫= f).
Proof.
  intros Hm Hf c b c' Hc E. unfold mbind, D_bind in E. destruct (m c) as [[a c1]|] eqn:Em; [|done].
  destruct (Hm c a c1 Hc Em) as [Ha Hc1]. by apply (Hf a Ha c1 b c').
Qed.

Lemma typed_same c c' : in_mem c' = in_mem c -> u32_values c' = u32_values c -> fast_strings c' = fast_strings c -> typed c -> typed c'.
Proof. intros E1 E2 E3 []. constructor; by rewrite ?E1, ?E2, ?E3. Qed.

Lemma parse_bytes_loop_typed n : forall p1 data mem rem r data' mem' rem', Forall is_byte data -> Forall is_byte mem ->
  parse_bytes_loop n p1 data mem rem = Some (r, data', mem', rem') ->
  Forall is_byte data' /\ Forall is_byte mem' /\ length data' = length data.
Proof.
  induction n as [|n IH]; intros p1 data mem rem r data' mem' rem' Hd Hm E; cbn in E; [by injection E as <- <- <- <-|].
  destruct (rem <=? 0); [by injection E as <- <- <- <-|]. destruct mem as [|t mem]; [done|]. apply Forall_cons in Hm as [Ht Hm].
  destruct (0x80 <=? t).
  - injection E as <- <- <- <-. split; [|split; [done | apply length_insert]]. apply Forall_insert; [done|].
    unfold is_byte in *. change 127 with (Z.ones 7). rewrite Z.land_ones by lia. pose proof (Z.mod_pos_bound t (2 ^ 7)). lia.
  - apply IH in E; [|by apply Forall_insert | done]. by rewrite length_insert in E.
Qed.

Lemma parse_bytes_typed data size c r data' c' : Forall is_byte data -> typed c -> parse_bytes data size c = Some (r, data', c') ->
  Forall is_byte data' /\ length data' = length data /\ typed c'.
Proof.
  intros Hd Hc E. unfold parse_bytes in E. destruct (parse_bytes_loop _ _ _ _ _) as [[[[o d] m] rem]|] eqn:El; [|done].
  apply parse_bytes_loop_typed in El as (H1 & H2 & H3); [|done | apply Hc].
  assert (Ht : typed (set_input m rem c)) by (destruct Hc; by constructor).
  destruct o as [b|]; cbn in E; injection E as <- <- <-; split_and!; try done.
  by apply (typed_same (set_input m rem c)).
Qed.

Lemma parse_pmap_typed c r c' : typed c -> parse_pmap c = Some (r, c') -> typed c'.
Proof.
  intros Hc E. unfold parse_pmap in E. destruct (parse_bytes _ _ _) as [[[b d] c1]|] eqn:Eb; [|done].
  apply parse_bytes_typed in Eb as (_ & _ & Hc1); [|by apply Forall_replicate | done]. cbn in E.
  destruct (b <? 0); injection E as <- <-; [done | by apply (typed_same c1)].
Qed.

Lemma parse_32_typed tag mask c r v c' : typed c -> parse_32 tag mask c = Some (r, v, c') -> typed c'.
Proof.
  intros Hc E. unfold parse_32 in E. destruct (get_pmap tag c =? 0); [by injection E as <- <- <-|].
  destruct (parse_bytes _ _ _) as [[[b d] c1]|] eqn:Eb; [|done].
  apply parse_bytes_typed in Eb as (_ & _ & Hc1); [|by apply Forall_replicate | done]. cbn in E.
  destruct (b <? 0); by injection E as <- <- <-.
Qed.

Lemma parse_u32_typed tag c r v c' : typed c -> parse_u32 tag c = Some (r, v, c') -> typed c' /\ u32_ok (default 0 v).
Proof.
  intros Hc E. unfold parse_u32 in E. destruct (parse_32 _ _ _) as [[[b w] c1]|] eqn:Eb; [|done].
  injection E as <- <- <-. split; [by eapply parse_32_typed|]. destruct w as [w|]; cbn; [apply u32_range | by split].
Qed.
Lemma cv_get_u32_typed tag c : typed c -> u32_ok (cv_get_u32 tag c).
Proof.
  intros [_ H _]. unfold cv_get_u32. destruct (u32_values c !! tag_key tag) as [v|] eqn:E; [exact (H _ _ E) | by split].
Qed.
Lemma cv_set_u32_typed tag v c : typed c -> u32_ok v -> typed (cv_set_u32 tag v c) /\ u32_ok (cv_get_u32 tag (cv_set_u32 tag v c)).
Proof.
  intros Hc Hv. assert (Ht : typed (cv_set_u32 tag v c)).
  { destruct Hc as [H1 H2 H3]. constructor; cbn; [done | by apply map_Forall_insert_2 | done]. }
  split; [done | by apply cv_get_u32_typed].
Qed.

Lemma typed_error e c : typed c -> typed (set_error e c).
Proof. intros []. by constructor. Qed.
Ltac error_typed Hc E := injection E as <- <- <-; split; [first [exact Hc | exact (typed_error _ _ Hc)] | done].

Lemma fast_decode_u32_typed tag c r v c' : typed c -> fast_decode_u32 tag c = Some (r, v, c') -> typed c' /\ forall x, v = Some x -> u32_ok x.
Proof.
  intros Hc E. assert (Hdone : forall c1 next, typed c1 -> u32_ok next ->
    Some (0, Some (cv_get_u32 tag (cv_set_u32 tag next c1)), cv_set_u32 tag next c1) = Some (r, v, c') -> typed c' /\ forall x, v = Some x -> u32_ok x).
  { intros c1 next H1 H2 [= <- <- <-]. destruct (cv_set_u32_typed tag next c1 H1 H2) as [H3 H4]. split; [done | by intros x [= <-]]. }
  assert (Hp : forall r1 v1 c1, parse_u32 tag c = Some (r1, v1, c1) -> typed c1 /\ u32_ok (default 0 v1)) by (intros; by eapply parse_u32_typed).
  unfold fast_decode_u32 in E. destruct (_ =? FAST_OP_NONE); [|destruct (_ =? FAST_OP_COPY); [|destruct (_ =? FAST_OP_INCR); [|destruct (_ =? FAST_OP_DELTA)]]].
  - destruct (parse_u32 tag c) as [[[b w] c1]|]; [|done]. destruct (Hp _ _ _ eq_refl) as [Hc1 Hw]. cbn in E.
    destruct (b <? 0); [error_typed Hc1 E|]. destruct (b =? 0); [error_typed Hc1 E|]. by apply Hdone in E.
  - destruct (parse_u32 tag c) as [[[b w] c1]|]; [|done]. destruct (Hp _ _ _ eq_refl) as [Hc1 Hw]. cbn in E.
    destruct (b <? 0); [error_typed Hc1 E|]. destruct (b =? 0); [|by apply Hdone in E].
    destruct (negb _); [error_typed Hc1 E|]. apply Hdone in E; [done | done | by apply cv_get_u32_typed].
  - destruct (parse_u32 tag c) as [[[b w] c1]|]; [|done]. destruct (Hp _ _ _ eq_refl) as [Hc1 Hw]. cbn in E.
    destruct (b <? 0); [error_typed Hc1 E|]. destruct (b =? 0); [|by apply Hdone in E].
    destruct (negb _); [error_typed Hc1 E|]. apply Hdone in E; [done | done | apply u32_range].
  - destruct (cv_is_valid tag c).
    + unfold parse_i32 in E. destruct (parse_32 _ _ _) as [[[b w] c1]|] eqn:Eb; [|done]. apply parse_32_typed in Eb as Hc1; [|done]. cbn in E.
      destruct (b <? 0); [error_typed Hc1 E|]. apply Hdone in E; [done | done | destruct (0 <? b); [apply u32_range | by apply cv_get_u32_typed]].
    + destruct (parse_u32 tag c) as [[[b w] c1]|]; [|done]. destruct (Hp _ _ _ eq_refl) as [Hc1 Hw]. cbn in E.
      destruct (b <? 0); [error_typed Hc1 E|]. destruct (b =? 0); [error_typed Hc1 E|]. by apply Hdone in E.
  - error_typed Hc E.
Qed.

(** ** Strings *)

Lemma cv_get_str_typed tag c cp c' : typed c -> cv_get_str tag c = (cp, c') -> length cp = 1024%nat /\ Forall is_byte cp /\ typed c'.
Proof.
  intros Hc E. assert (Hs : length (slot_string tag c) = 1024%nat /\ Forall is_byte (slot_string tag c)).
  { unfold slot_string. destruct (fast_strings c !! get_tag_slot tag) as [l|] eqn:El; [exact (ty_str _ Hc _ _ El)|].
    split; [apply length_replicate | by apply Forall_replicate]. }
  destruct Hs as [Hl Hb]. unfold cv_get_str in E. case_bool_decide; injection E as <- <-; [done|].
  assert (Hb' : Forall is_byte (<[0%nat:=0]> (slot_string tag c))) by (by apply Forall_insert).
  split; [by rewrite length_insert|]. split; [done|]. destruct Hc as [H1 H2 H3]. constructor; cbn; [done | done|].
  apply map_Forall_insert_2; [|done]. by rewrite length_insert.
Qed.

Lemma cv_set_str_typed tag data size c c' : typed c -> Forall is_byte data -> cv_set_str tag data size c = Some c' -> typed c'.
Proof.
  intros Hc Hd E. unfold cv_set_str in E. destruct (_ && _) eqn:Eg; [|done].
  apply andb_prop in Eg as [Eg E3%Z.leb_le]. apply andb_prop in Eg as [E1%Z.leb_le E2%Z.ltb_lt].
  destruct (cv_get_str tag c) as [cp c1] eqn:Es. apply cv_get_str_typed in Es as (Hl & Hb & Hc1); [|done]. injection E as <-.
  destruct Hc1 as [H1 H2 H3]. constructor; cbn; [done | done|]. apply map_Forall_insert_2; [|done]. split.
  - rewrite length_app, length_take. cbn. rewrite length_drop, Hl. lia.
  - apply Forall_app. split; [by apply Forall_take|]. constructor; [by split|]. by apply Forall_drop.
Qed.

Lemma yields_str tag data : get_tag_op tag = FAST_OP_COPY -> Forall is_byte data ->
  yields (fun x => length x.2 = length data /\ Forall is_byte x.2) (get_str tag data).
Proof.
  intros Hop Hd c [rc d] c' Hc E. unfold get_str in E. destruct (decode_str _ _ _ _) as [[[rc1 d1] c1]|] eqn:Es; [|done].
  injection E as <- <- <-. unfold decode_str, fast_decode_str in Es. rewrite Hop in Es. cbn [Z.eqb FAST_OP_COPY FAST_OP_NONE Pos.eqb] in Es.
  assert (Hp : forall r1 d1 c1, parse_str tag data (Z.of_nat (length data)) c = Some (r1, d1, c1) ->
    Forall is_byte d1 /\ length d1 = length data /\ typed c1).
  { intros r1 d2 c2 Ep. unfold parse_str in Ep. destruct (get_pmap tag c =? 0); [by injection Ep as <- <- <- | by eapply parse_bytes_typed]. }
  destruct (parse_str _ _ _ _) as [[[b d2] c2]|]; [|done]. destruct (Hp _ _ _ eq_refl) as (H1 & H2 & H3). cbn in Es.
  destruct (b <? 0); [by injection Es as <- <- <-|]. destruct (0 <? b).
  - destruct (cv_set_str _ _ _ _) as [c3|] eqn:E3; [|done]. apply cv_set_str_typed in E3; [|done | done]. cbn in Es. by injection Es as <- <- <-.
  - case_guard as Hg; [|done]. cbn in Es. destruct (cv_get_str tag c2) as [cp c3] eqn:E3. apply cv_get_str_typed in E3 as (Hl & Hb & H4); [|done].
    injection Es as <- <- <-. cbn. rewrite Nat2Z.id. split; [|done]. split.
    + rewrite length_app, length_take, length_drop, Hl. lia.
    + apply Forall_app. split; [by apply Forall_take | by apply Forall_drop].
Qed.

(** ** Messages *)

Definition option_typed (o : option_fields) : Prop :=
  length o.(symbol) = 5%nat /\ Forall is_byte o.(symbol) /\ is_byte o.(expirationMonth) /\ is_digits o.(expirationDate) /\
  is_digits o.(year) /\ is_byte o.(strikePriceDenomCode) /\ u32_ok o.(explicitStrike) /\ is_byte o.(strikePriceCode).
Definition quote_typed (m : CatkMsg_v2) : Prop :=
  hdr_ok m.(k_hdr) /\ category m.(k_hdr) = 107 /\ option_typed m.(k_opt) /\ is_byte m.(k_premiumPriceDenomCode) /\
  u32_ok m.(k_bidQuote) /\ u32_ok m.(k_bidSize) /\ u32_ok m.(k_askQuote) /\ u32_ok m.(k_askSize) /\
  is_byte m.(k_sessionIndicator) /\ is_Some (bbo_kind_of m.(k_bboIndicator)) /\
  app_ok m.(k_bbo).(bbo_first) /\ app_ok m.(k_bbo).(bbo_second).
Definition oi_typed (m : CatdMsg_v2) : Prop :=
  hdr_ok m.(d_hdr) /\ category m.(d_hdr) = 100 /\ option_typed m.(d_opt) /\ u32_ok m.(d_openIntVolume).
Definition ls_typed (m : CataMsg_v2) : Prop :=
  hdr_ok m.(a_hdr) /\ category m.(a_hdr) = 97 /\ option_typed m.(a_opt) /\ u32_ok m.(a_volume) /\
  is_byte m.(a_premiumPriceDenomCode) /\ u32_ok m.(a_premium) /\ is_byte m.(a_sessionIndicator).
Definition eod_typed (m : CatfMsg_v2) : Prop :=
  hdr_ok m.(f_hdr) /\ category m.(f_hdr) = 102 /\ option_typed m.(f_opt) /\ u32_ok m.(f_volume) /\ u32_ok m.(f_openIntVolume) /\
  is_byte m.(f_premiumPriceDenomCode) /\ u32_ok m.(f_open) /\ u32_ok m.(f_high) /\ u32_ok m.(f_low) /\ u32_ok m.(f_last) /\
  is_byte m.(f_netChangeIndicator) /\ u32_ok m.(f_netChange) /\ is_byte m.(f_underlyingPriceDenomCode) /\
  u32_ok m.(f_underlyingStockPrice) /\ u32_ok m.(f_bidQuote) /\ u32_ok m.(f_askQuote).
Definition value_typed (v : index_value) : Prop :=
  match v with
  | IndexValue v => length v = 8%nat /\ Forall is_byte v
  | BidOffer b o => (length b = 8%nat /\ Forall is_byte b) /\ (length o = 8%nat /\ Forall is_byte o)
  | FcSpotVal d v => is_digits d /\ u32_ok v
  end.
Definition group_typed (g : list Z * index_value) : Prop := (length g.1 = 3%nat /\ Forall is_byte g.1) /\ value_typed g.2.
(** There are as many groups as the message says, at most five. *)
Definition uv_typed (m : CatYMsg_v2) : Prop :=
  hdr_ok m.(Y_hdr) /\ category m.(Y_hdr) = 89 /\ u32_ok m.(Y_numOfIndices) /\ Forall group_typed m.(Y_indexGroup) /\
  length m.(Y_indexGroup) = Z.to_nat (s32 m.(Y_numOfIndices)) /\ (length m.(Y_indexGroup) <= MAX_INDEX_GROUP)%nat.
Definition ctrl_typed (m : CatHMsg_v2) : Prop :=
  hdr_ok m.(H_hdr) /\ (category m.(H_hdr) = 67 \/ category m.(H_hdr) = 72) /\ length m.(H_text) = 450%nat /\ Forall is_byte m.(H_text).

Definition opt_typed {A} (T : A -> Prop) (x : option A) : Prop := match x with Some a => T a | None => True end.

Lemma u32_to_ascii_digits v : 0 <= v -> is_digits (u32_to_ascii 2 v).
Proof.
  intros Hv. split; [done|]. cbn [u32_to_ascii app].
  assert (H : forall w, 0 <= w -> 48 <= 48 + w - w / 10 * 10 <= 57) by (intros w Hw; pose proof (Z_div_mod_eq_full w 10); pose proof (Z.mod_pos_bound w 10); lia).
  constructor; [apply H; by apply Z.div_pos|]. constructor; [by apply H | constructor].
Qed.
Lemma spaces_byte n : Forall is_byte (spaces n).
Proof. by apply Forall_replicate. Qed.

Section messages.
Context (indeterminate : Z -> fast_codec -> Z) (stale_text : fast_codec -> list Z).
Hypothesis Hind : forall tag c, u32_ok (indeterminate tag c).
Hypothesis Hstale : forall c, length (stale_text c) = 450%nat /\ Forall is_byte (stale_text c).

Lemma yields_u32 tag : yields u32_ok (get_u32 indeterminate tag).
Proof.
  intros c v c' Hc E. unfold get_u32, decode_u32 in E. destruct (fast_decode_u32 tag c) as [[[r w] c1]|] eqn:Ed; [|done].
  apply fast_decode_u32_typed in Ed as [H1 H2]; [|done]. injection E as <- <-. split; [|done]. destruct w as [w|]; [by apply H2 | apply Hind].
Qed.
Lemma yields_u8 tag : yields is_byte (get_u8 indeterminate tag).
Proof. eapply yields_bind; [apply yields_u32|]. intros v _. by apply yields_ret, Z.mod_pos_bound. Qed.
Lemma yields_text : yields (fun x => length x.2 = 450%nat /\ Forall is_byte x.2) (get_text stale_text).
Proof.
  intros c x c' Hc E. destruct (Hstale c) as [H1 H2]. rewrite <- H1. by apply (yields_str TEXT_V2 (stale_text c) eq_refl H2 c x c').
Qed.

Create HintDb types.
Hint Resolve yields_u32 yields_u8 yields_text : types.
Ltac next := eapply yields_bind; [solve [eauto with types | apply yields_str; [reflexivity | first [apply spaces_byte | by apply Forall_replicate]]]|].

Lemma yields_hdr cat : yields (fun h => hdr_ok h /\ category h = cat) (msg_decode_hdr_v2 indeterminate cat).
Proof. unfold msg_decode_hdr_v2. do 5 (next; intros ? ?). by apply yields_ret. Qed.
Lemma yields_option : yields option_typed (decode_option indeterminate).
Proof.
  unfold decode_option. next. intros [? s] [Hs1 Hs2]. do 6 (next; intros ? ?). apply yields_ret.
  unfold option_typed. cbn [symbol expirationMonth expirationDate year strikePriceDenomCode explicitStrike strikePriceCode].
  repeat match goal with |- _ /\ _ => split end; try done; apply u32_to_ascii_digits; match goal with H : u32_ok ?v |- 0 <= ?v => apply H end.
Qed.
Lemma yields_offer : yields app_ok (decode_best_offer indeterminate).
Proof. unfold decode_best_offer. do 4 (next; intros ? ?). by apply yields_ret. Qed.
Lemma yields_bid : yields app_ok (decode_best_bid indeterminate).
Proof. unfold decode_best_bid. do 4 (next; intros ? ?). by apply yields_ret. Qed.
Hint Resolve yields_hdr yields_option yields_offer yields_bid : types.

Lemma yields_bbo k : yields (fun b => app_ok b.(bbo_first) /\ app_ok b.(bbo_second)) (decode_bbo indeterminate k).
Proof.
  assert (H0 : app_ok no_app) by (by repeat split).
  destruct k; unfold decode_bbo; repeat (next; intros ? ?); by apply yields_ret.
Qed.
Hint Resolve yields_bbo : types.

Lemma yields_quote : yields (opt_typed quote_typed) (decode_OpraFastQuoteSizeMsg_v2 indeterminate).
Proof.
  unfold decode_OpraFastQuoteSizeMsg_v2. next. intros h [? ?]. do 8 (next; intros ? ?).
  destruct (bbo_kind_of _) as [k|] eqn:Ek; [|by apply yields_ret]. next. intros b [? ?]. apply yields_ret. cbn. unfold quote_typed. cbn.
  rewrite Ek. by split_and!.
Qed.
Lemma yields_oi : yields oi_typed (decode_OpraFastOpenIntMsg_v2 indeterminate).
Proof. unfold decode_OpraFastOpenIntMsg_v2. next. intros h [? ?]. do 2 (next; intros ? ?). apply yields_ret. unfold oi_typed. by split_and!. Qed.
Lemma yields_ls : yields ls_typed (decode_OpraFastLastSaleMsg_v2 indeterminate).
Proof. unfold decode_OpraFastLastSaleMsg_v2. next. intros h [? ?]. do 5 (next; intros ? ?). apply yields_ret. unfold ls_typed. by split_and!. Qed.
Lemma yields_eod : yields eod_typed (decode_OpraFastEodMsg_v2 indeterminate).
Proof. unfold decode_OpraFastEodMsg_v2. next. intros h [? ?]. do 14 (next; intros ? ?). apply yields_ret. unfold eod_typed. by split_and!. Qed.

Lemma yields_groups group n : yields group_typed group -> forall i, (i <= MAX_INDEX_GROUP)%nat ->
  yields (fun gs => Forall group_typed gs /\ length gs = n /\ (n + i <= MAX_INDEX_GROUP)%nat) (decode_groups group n i).
Proof.
  intros Hg. induction n as [|n IH]; intros i Hi; cbn [decode_groups]; [by apply yields_ret|].
  destruct (Nat.ltb_spec i MAX_INDEX_GROUP) as [Hlt|]; [|intros c a c' _ E; discriminate]. eapply yields_bind; [exact Hg|]. intros g Hgt.
  eapply yields_bind; [by apply IH|]. intros gs (H1 & H2 & H3). apply yields_ret. split; [by constructor|]. split; [cbn; by rewrite H2 | lia].
Qed.

Lemma yields_index : yields group_typed decode_index.
Proof. unfold decode_index. next. intros [? sy] ?. next. intros [? v] ?. by apply yields_ret. Qed.
Lemma yields_bid_offer : yields group_typed decode_bid_offer.
Proof. unfold decode_bid_offer. next. intros [? sy] ?. next. intros [? b] ?. next. intros [? o] ?. by apply yields_ret. Qed.
Lemma yields_spot : yields group_typed (decode_spot indeterminate).
Proof.
  unfold decode_spot. next. intros [? sy] ?. next. intros d Hd. next. intros v Hv. apply yields_ret. split; [done|]. split; [|done].
  apply u32_to_ascii_digits, Hd.
Qed.

Lemma yields_uv : yields (opt_typed uv_typed) (decode_OpraFastUlValueMsg_v2 indeterminate).
Proof.
  unfold decode_OpraFastUlValueMsg_v2. next. intros h [Hh Hc]. cbv zeta.
  assert (H : forall tag group, yields group_typed group -> yields (opt_typed uv_typed)
    (n ← get_u32 indeterminate tag; gs ← decode_groups group (Z.to_nat (s32 n)) 0; mret (Some (MkCatY h n gs)))).
  { intros tag group Hg. next. intros n Hn. eapply yields_bind; [apply (yields_groups group _ Hg); lia|]. intros gs (H1 & H2 & H3).
    apply yields_ret. cbn. unfold uv_typed. cbn. rewrite H2. repeat match goal with |- _ /\ _ => split end; (done || lia). }
  destruct (msg_type h =? 32); [apply H, yields_index|]. destruct (msg_type h =? 73); [apply H, yields_bid_offer|].
  destruct (_ || _); [apply H, yields_spot | by apply yields_ret].
Qed.

Lemma yields_admin : yields ctrl_typed (decode_OpraFastAdminMsg_v2 indeterminate stale_text).
Proof.
  unfold decode_OpraFastAdminMsg_v2. next. intros h [? ?]. next. intros [n t] [? ?]. apply yields_ret. unfold ctrl_typed. cbn in *.
  repeat match goal with |- _ /\ _ => split end; try done. by left.
Qed.
Lemma yields_control : yields ctrl_typed (decode_OpraFastControlMsg_v2 indeterminate stale_text).
Proof.
  unfold decode_OpraFastControlMsg_v2. next. intros h [? ?]. next. intros [n t] [? ?]. apply yields_ret. unfold ctrl_typed. cbn in *.
  split; [done|]. split; [by right|]. destruct (0 <? n); [|done]. rewrite length_insert. split; [done|]. by apply Forall_insert.
Qed.

(** The messages that are not supported *)
Ltac skipped := repeat (next; intros ? ?); by apply yields_ret.
Lemma yields_fco_option : yields (fun _ => True) (decode_fco_option indeterminate).
Proof. unfold decode_fco_option. next. intros [? ?] ?. skipped. Qed.
Hint Resolve yields_fco_option : types.
Lemma yields_skipped : yields (fun _ => True) (decode_OpraFastFcoLastSaleMsg_v2 indeterminate) /\
  yields (fun _ => True) (decode_OpraFastFcoQuoteMsg_v2 indeterminate) /\ yields (fun _ => True) (decode_OpraFastFcoEodMsg_v2 indeterminate) /\
  yields (fun _ => True) decode_OpraFastDefMsg_v2.
Proof.
  split_and!; [unfold decode_OpraFastFcoLastSaleMsg_v2 | unfold decode_OpraFastFcoQuoteMsg_v2 | unfold decode_OpraFastFcoEodMsg_v2 |
    unfold decode_OpraFastDefMsg_v2]; skipped.
Qed.

(** ** A packet *)

Section packet.
Context {S : Type} (Q : S -> Prop) (P : opra_processors S).

(** Each processor keeps [Q] if its message is well typed. *)
Record typed_processors : Prop := {
  tp_quote : forall m st st', quote_typed m -> Q st -> quote_process S P m st = Some st' -> Q st';
  tp_oi : forall m st st', oi_typed m -> Q st -> oi_process S P m st = Some st' -> Q st';
  tp_ls : forall m st st', ls_typed m -> Q st -> ls_process S P m st = Some st' -> Q st';
  tp_eod : forall m st st', eod_typed m -> Q st -> eod_process S P m st = Some st' -> Q st';
  tp_uv : forall m st st', uv_typed m -> Q st -> uv_process S P m st = Some st' -> Q st';
  tp_ctrl : forall m st st', ctrl_typed m -> Q st -> ctrl_process S P m st = Some st' -> Q st'
}.

Lemma then_process_typed {A} (T : A -> Prop) (d : D A) (f : A -> S -> option S) c st c' st' : yields T d ->
  (forall a st st', T a -> Q st -> f a st = Some st' -> Q st') -> typed c -> Q st -> then_process d f c st = Some (c', st') ->
  typed c' /\ Q st'.
Proof.
  intros Hd Hf Hc Hq E. unfold then_process in E. destruct (d c) as [[a c1]|] eqn:Ed; [|done]. destruct (Hd _ _ _ Hc Ed) as [Ha Hc1].
  cbn in E. destruct (f a st) as [st1|] eqn:Ef; [|done]. injection E as <- <-. split; [done | by eapply Hf].
Qed.
Lemma if_some_typed {A} (T : A -> Prop) (f : A -> S -> option S) : (forall a st st', T a -> Q st -> f a st = Some st' -> Q st') ->
  forall a st st', opt_typed T a -> Q st -> if_some f a st = Some st' -> Q st'.
Proof. intros Hf [a|] st st' Ha Hq E; [by eapply Hf | by injection E as <-]. Qed.

Lemma FastOpraDecoder_typed category c st c' st' : typed_processors -> typed c -> Q st ->
  FastOpraDecoder indeterminate stale_text P category c st = Some (c', st') -> typed c' /\ Q st'.
Proof.
  intros HP Hc Hq. destruct yields_skipped as (H1 & H2 & H3 & H4).
  assert (Hskip : forall (a : unit) (st st' : S), True -> Q st -> Some st = Some st' -> Q st') by (by intros a s1 s2 _ Hs [= <-]).
  unfold FastOpraDecoder. cbv zeta.
  repeat match goal with |- (if ?b then _ else _) _ _ = _ -> _ => destruct b end; intros E.
  - eapply (then_process_typed _ _ _ _ _ _ _ yields_quote); [apply if_some_typed, HP | done..].
  - eapply (then_process_typed _ _ _ _ _ _ _ yields_oi); [apply HP | done..].
  - eapply (then_process_typed _ _ _ _ _ _ _ yields_ls); [apply HP | done..].
  - eapply (then_process_typed _ _ _ _ _ _ _ yields_eod); [apply HP | done..].
  - eapply (then_process_typed _ _ _ _ _ _ _ H1); [exact Hskip | exact Hc | exact Hq | exact E].
  - eapply (then_process_typed _ _ _ _ _ _ _ H2); [exact Hskip | exact Hc | exact Hq | exact E].
  - eapply (then_process_typed _ _ _ _ _ _ _ H3); [exact Hskip | exact Hc | exact Hq | exact E].
  - eapply (then_process_typed _ _ _ _ _ _ _ yields_uv); [apply if_some_typed, HP | done..].
  - eapply (then_process_typed _ _ _ _ _ _ _ yields_admin); [apply HP | done..].
  - eapply (then_process_typed _ _ _ _ _ _ _ yields_control); [apply HP | done..].
  - eapply (then_process_typed _ _ _ _ _ _ _ H4); [exact Hskip | exact Hc | exact Hq | exact E].
Qed.

Lemma decode_loop_typed rec_len fuel : forall data p offset read_len c st num n c' st', typed_processors -> Forall is_byte data ->
  typed c -> Q st -> decode_loop indeterminate stale_text P fuel data rec_len p offset read_len c st num = Some (n, c', st') ->
  typed c' /\ Q st'.
Proof.
  induction fuel as [|fuel IH]; intros data p offset read_len c st num n c' st' HP Hd Hc Hq E; [done|]. cbn in E.
  destruct (1 <? read_len); [|by injection E as <- <- <-]. destruct (data !! _) as [msize|]; [|done]. cbn in E.
  destruct (decode_new_msg _) as [[rc c1]|] eqn:E1; [|done]. cbn in E.
  assert (Hc1 : typed c1).
  { apply parse_pmap_typed in E1; [done|]. destruct Hc as [H1 H2 H3]. constructor; cbn; [by apply Forall_drop | done | done]. }
  destruct (rc <? 0); [by injection E as <- <- <-|]. destruct (get_u32 _ _ c1) as [[cat c2]|] eqn:E2; [|done]. cbn in E.
  destruct (yields_u32 _ _ _ _ Hc1 E2) as [_ Hc2]. destruct (FastOpraDecoder _ _ _ _ _ _) as [[c3 st3]|] eqn:E3; [|done]. cbn in E.
  apply FastOpraDecoder_typed in E3 as [Hc3 Hq3]; [|done..]. by apply IH in E.
Qed.

(** Whatever bytes come in and whatever state earlier packets left the decoder
    in, when [fast_opra_decode] returns, every message it gave to a processor
    has the types of its record (numbers of 32 bits or one byte, strings of
    the length of their array, decimal digits, a valid indicator of the best
    bid and offer, not more groups than there is room for), so that what the
    processors keep on such messages is kept; and what the decoder itself
    keeps from message to message stays typed. It does not return for a message
    with more groups than there is room for ([opra_index_overflow]). *)
Theorem opra_decode_typed fuel data rec_len c st n c' st' : typed_processors -> Forall is_byte data -> typed c -> Q st ->
  fast_opra_decode indeterminate stale_text P fuel data rec_len c st = Some (n, c', st') -> typed c' /\ Q st'.
Proof.
  intros HP Hd Hc Hq E. unfold fast_opra_decode in E. destruct (data !! 1%nat) as [v|]; [|done]. cbn in E.
  destruct (v =? VERSION_2); [|done]. by apply decode_loop_typed in E.
Qed.
End packet.
End messages.

Definition kept_typed (m : opra_msg) : Prop :=
  match m with MQuote m => quote_typed m | MOpenInt m => oi_typed m | MLastSale m => ls_typed m | MEod m => eod_typed m end.
(** A packet with a part of its bytes overwritten *)
Definition noise : list Z := take 40 (opra_packet ibm_sn [48; 48; 50] ibm_bodies) ++ [255; 1; 130; 7; 99; 255; 128; 200; 3; 133] ++
  drop 50 (opra_packet ibm_sn [48; 48; 50] ibm_bodies).

(** The messages that the keeper keeps of such a packet *)
Lemma opra_decode_typed_witness : exists n c' st',
  fast_opra_decode (fun _ _ => 0) (fun _ => replicate 450 0) keeper 100 noise (Z.of_nat (length noise)) fast_create_codec a_pair = Some (n, c', st') /\
  n = 2 /\ length (lines_world st') = 2%nat /\ Forall kept_typed (lines_world st').
Proof.
  assert (H : option_map (fun '(n, _, st) => (n, length (lines_world st))) (fast_opra_decode (fun _ _ => 0) (fun _ => replicate 450 0) keeper
    100 noise (Z.of_nat (length noise)) fast_create_codec a_pair) = Some (2, 2%nat)) by (vm_compute; reflexivity).
  destruct (fast_opra_decode (fun _ _ => 0) (fun _ => replicate 450 0) keeper 100 noise (Z.of_nat (length noise)) fast_create_codec a_pair)
    as [[[n c'] st']|] eqn:E; [|discriminate].
  injection H as Hn Hl. exists n, c', st'. split; [reflexivity|]. split; [exact Hn|]. split; [exact Hl|].
  apply (opra_decode_typed (fun _ _ => 0) (fun _ => replicate 450 0)) with (Q := fun st => Forall kept_typed (lines_world st)) in E.
  - apply E.
  - intros _ _. split; [discriminate | reflexivity].
  - intros _. split; [apply length_replicate | apply Forall_replicate; unfold is_byte; lia].
  - constructor; intros m st st2 Hm Hq E2; injection E2 as <-; first [exact Hq | apply Forall_app_2; [exact Hq | constructor; [exact Hm | constructor]]].
  - apply (Forall_impl (fun b => Is_true ((0 <=? b) && (b <? 256)))); [vm_compute; repeat constructor|].
    intros b Hb%andb_prop_elim. unfold is_byte. destruct Hb as [H1%Is_true_true%Z.leb_le H2%Is_true_true%Z.ltb_lt]. lia.
  - constructor; [constructor | intros k v H; discriminate | intros k v H; discriminate].
  - constructor.
Defined.
