(* ===== verification/OpraOpt.v ===== *)
(** * Options of the OPRA feed ([src/feeds/opra/fast/common/fh_opra_option.c],
      [fh_opra_lo.c], [fh_opra_topic.c], [fh_opra_msg_inline.h])

    The table of options is a table of [Lookup.v] with the 16 bytes of the key
    in front; the listed options are a second table, by root symbol. *)
From S2P Require Import Prelude Bytes Mpool Jhash HTable Lookup OpraLine OpraFast.

(** A zero is a byte before which a C string ends. *)
Definition c_str (l : list Z) : list Z := take (Z.to_nat (OpraCodec.strlen_in l)) l.

(** [strcpy] to an array, [None] if it does not fit. *)
Definition strcpy (dst src : list Z) : option (list Z) :=
  let s := c_str src ++ [0] in
  if (length s <=? length dst)%nat then Some (s ++ drop (length s) dst) else None.

(** [ptr = strchr(s, ' '); if (ptr) *ptr = 0] *)
Fixpoint cut_at_space (l : list Z) : list Z :=
  match l with
  | [] => []
  | b :: l => if b =? 0 then b :: l else if b =? 32 then 0 :: l else b :: cut_at_space l
  end.

(** ** Option keys ([fh_opra_option_ext.h]) *)

Record fh_opra_opt_key := MkOptKey {
  k_symbol : list Z;      (* char [5] *)
  k_year : Z; k_month : Z; k_day : Z;
  k_putcall : Z; k_exchid : Z;
  k_fraction : Z;         (* uint16_t *)
  k_decimal : Z           (* uint32_t *)
}.
Definition sizeof_opt_key : Z := 16.
Definition sizeof_opt : Z := 192.

Definition opt_key_bytes (k : fh_opra_opt_key) : list Z :=
  k.(k_symbol) ++ [k.(k_year); k.(k_month); k.(k_day); k.(k_putcall); k.(k_exchid)] ++
  le_bytes 2 k.(k_fraction) ++ le_bytes 4 k.(k_decimal).

(** [opra_root_copy]: the loop over the symbol, from place [i] on, gives what
    it writes and the place where it ends. *)
Fixpoint root_copy_loop (sym : list Z) (i : nat) : list Z * nat :=
  match sym with
  | [] => ([], i)
  | c :: sym => if c =? 32 then ([0], i) else let '(w, i) := root_copy_loop sym (S i) in (c :: w, i)
  end.
(** [stale] is what the key, a local variable, holds before. *)
Definition opra_root_copy (stale sym : list Z) : option (list Z) :=
  let '(w, i) := root_copy_loop sym 0 in
  let w := w ++ replicate (5 - S i) 0 in
  if (length w <=? 5)%nat then Some (w ++ take (5 - length w) (drop (length w) stale)) else None.

(** ** Options *)

Inductive opt_field :=
  | OFtlineIdx | OInit | OUflags | OSession | OBoPartid | OBbPartid | OSeqNum | OTime | OOpenBid | OOpenOffer | OOpenPrice
  | OClosePrice | OLastPrice | OHighPrice | OLowPrice | ODailyHigh | ODailyLow | OBidPrice | OOfferPrice
  | OCumVolume | OCumValue | OHalttime | OUnhalttime.
#[export] Instance opt_field_eq : EqDecision opt_field.
Proof. solve_decision. Defined.

(** The list element and the context of the plugin are left out. *)
Record fh_opra_opt := MkOpt {
  opt_topic : list Z;         (* char [32] *)
  opt_key : list Z;           (* the bytes *)
  opt_lo : Z;                 (* pointer *)
  opt_year_v2 : list Z; opt_date : list Z;
  opt_val : opt_field -> Z
}.
Definition set_val (f : opt_field) (v : Z) (o : fh_opra_opt) : fh_opra_opt :=
  MkOpt o.(opt_topic) o.(opt_key) o.(opt_lo) o.(opt_year_v2) o.(opt_date)
    (fun g => if decide (f = g) then v else o.(opt_val) g).
Definition set_exp_date (year date : list Z) (o : fh_opra_opt) : fh_opra_opt :=
  MkOpt o.(opt_topic) o.(opt_key) o.(opt_lo) year date o.(opt_val).
(** The memory of the pool, before its first use *)
Definition zero_opt : fh_opra_opt := MkOpt (replicate 32 0) (replicate 16 0) NULL [0; 0] [0; 0] (fun _ => 0).

Definition odb_kops : fh_ht_kops (gmap Z fh_opra_opt) key_ref := key_operations opt_key sizeof_opt_key.
Definition fh_opra_opt_init (al : allocs) (ocfg_table_size : Z) : Z * lkp_tbl fh_opra_opt :=
  lkp_init opt_key "OptionTable" sizeof_opt sizeof_opt_key al true ocfg_table_size.

(** ** Topics *)

Record fh_opra_topic_fmt_t := MkTopicFmt { tfmt_stanza_delim : Z; tfmt_stanza_fmts : list (option (list Z)) }.

(** Writes from place [j] of the topic on; [None] is behind its end. *)
Definition poke (topic : list Z) (j : nat) (bytes : list Z) : option (list Z) :=
  if (j + length bytes <=? length topic)%nat then Some (take j topic ++ bytes ++ drop (j + length bytes) topic) else None.

(** The digits of [v], at least [n] of them *)
Fixpoint decimal_from (fuel : nat) (v : Z) (acc : list Z) : list Z :=
  match fuel with
  | 0%nat => acc
  | S fuel => if v =? 0 then acc else decimal_from fuel (v / 10) ((48 + v mod 10) :: acc)
  end.
Definition decimal_pad (n : nat) (v : Z) : list Z :=
  let ds := decimal_from 10 v [] in replicate (n - length ds) 48 ++ ds.

(** [sprintf(&topic[j], "%.<n>u", v); j += n] *)
Definition put_number (n : nat) (v : Z) (topic : list Z) (j : nat) : option (list Z * nat) :=
  topic ← poke topic j (decimal_pad n v ++ [0]); Some (topic, (j + n)%nat).
Definition put_char (c : Z) (topic : list Z) (j : nat) : option (list Z * nat) :=
  topic ← poke topic j [c]; Some (topic, S j).

(** The loop over the symbol: [count] characters are done. *)
Fixpoint put_symbol (sym : list Z) (count : nat) (topic : list Z) (j length_ : nat) : option (list Z * nat) :=
  match sym with
  | [] => Some (topic, j)
  | c :: sym =>
      if negb (c =? 0) && (count <? 5)%nat && (j <? length_)%nat then
        '(topic, j) ← put_char c topic j; put_symbol sym (S count) topic j length_
      else Some (topic, j)
  end.

(** One variable of a stanza *)
Definition put_variable (k : fh_opra_opt_key) (v : Z) (topic : list Z) (j length_ : nat) : option (list Z * nat) :=
  if v =? 83 then put_symbol k.(k_symbol) 0 topic j length_
  else if v =? 89 then put_number 2 k.(k_year) topic j
  else if v =? 77 then put_number 2 k.(k_month) topic j
  else if v =? 68 then put_number 2 k.(k_day) topic j
  else if v =? 67 then put_char k.(k_putcall) topic j
  else if v =? 73 then put_number 5 k.(k_decimal) topic j
  else if v =? 70 then put_number 3 (u32 (k.(k_fraction) * 1000)) topic j
  else if v =? 88 then put_char k.(k_exchid) topic j
  else Some (topic, j).

(** The loop over one stanza; behind a last ['$'] the string is read beyond
    its end. *)
Fixpoint put_stanza (fmt : list Z) (k : fh_opra_opt_key) (topic : list Z) (j length_ : nat) : option (list Z * nat) :=
  match fmt with
  | [] => Some (topic, j)
  | c :: fmt =>
      if (j <? length_)%nat then
        if c =? 36 then
          match fmt with
          | [] => None
          | v :: fmt => '(topic, j) ← put_variable k v topic j length_; put_stanza fmt k topic j length_
          end
        else '(topic, j) ← put_char c topic j; put_stanza fmt k topic j length_
      else Some (topic, j)
  end.

Fixpoint put_stanzas (delim : Z) (fmts : list (option (list Z))) (k : fh_opra_opt_key) (topic : list Z) (j length_ : nat)
    : option (Z * list Z * nat) :=
  match fmts with
  | [] => Some (FH_OK, topic, j)
  | fmt :: fmts =>
      if (j <? length_)%nat then
        match fmt with
        | None => Some (FH_ERROR, topic, j)
        | Some fmt =>
            '(topic, j) ← put_stanza fmt k topic j length_;
            '(topic, j) ← (if (j <? length_)%nat && negb (length fmts =? 0)%nat then put_char delim topic j else Some (topic, j));
            put_stanzas delim fmts k topic j length_
        end
      else Some (FH_OK, topic, j)
  end.

(** [fh_opra_topic_fmt]: the status and the topic, an array of [length_]
    bytes. *)
Definition fh_opra_topic_fmt (tfmt : fh_opra_topic_fmt_t) (k : fh_opra_opt_key) (topic : list Z) : option (Z * list Z) :=
  let length_ := length topic in
  '(rc, topic, j) ← put_stanzas tfmt.(tfmt_stanza_delim) tfmt.(tfmt_stanza_fmts) k topic 0 length_;
  if negb (rc =? FH_OK) then Some (rc, topic)
  else if (j =? length_)%nat then topic ← poke topic (j - 1) [0]; Some (FH_ERROR, topic)
  else topic ← poke topic j [0]; Some (FH_OK, topic).

(** ** Listed options ([fh_opra_lo.c]) *)

Definition LO_ROOT_SIZE : nat := 7.
Definition LO_SEC_SIZE : nat := 7.
Definition LO_TYPE_SIZE : nat := 3.
(** The fields of a line of the file that are used, and where they end *)
Definition lof_offsets : list nat := [7; 14; 45; 57; 70; 80; 83]%nat.
Definition LO_TOTAL_SIZE : nat := 83.
Definition LO_DB_SIZE : Z := 1024.

Record lo_format := MkLof { lof_root : list Z; lof_sec : list Z; lof_type : list Z }.
Record fh_opra_lo := MkLo { lo_root : list Z; lo_sec : list Z }.
Definition sizeof_lo : Z := 14.

Record lo_db := MkLoDb {
  lodb_mpool : fh_mpool;
  lodb_htable : fh_ht (gmap Z fh_opra_lo) key_ref;
  lodb_skip : Z;
  lodb_count : Z;
  lodb_entries : gmap Z fh_opra_lo
}.

(** The string that a key points to *)
Definition lo_key_string (mem : gmap Z fh_opra_lo) (k : key_ref) : option (list Z) :=
  match k with KEntry a => (fun lo => c_str lo.(lo_root)) <$> mem !! a | KLocal b => Some (c_str b) end.
Definition lo_khash (mem : gmap Z fh_opra_lo) (root : key_ref) (klen : Z) : option Z :=
  guard_ub (negb (klen =? 0)) (s ← lo_key_string mem root; Some (jhash (take (Z.to_nat klen) s) 0)).
Definition lo_kcmp (mem : gmap Z fh_opra_lo) (root_a root_b : key_ref) (klen : Z) : option bool :=
  guard_ub (negb (klen =? 0))
    (a ← lo_key_string mem root_a; b ← lo_key_string mem root_b; Some (bool_decide (a = b))).
Definition lodb_kops : fh_ht_kops (gmap Z fh_opra_lo) key_ref := MkKops lo_khash lo_kcmp.

Definition lo_db_init (al : allocs) : option lo_db :=
  mp ← fh_mpool_new al.(al_mp) al.(al_mp_name) al.(al_mp_arena) "ListedOptions" sizeof_lo LO_DB_SIZE FH_MPOOL_FL_GROW;
  ht ← fh_ht_new al.(al_ht) al.(al_ht_table) al.(al_ht_mp) al.(al_ht_name) al.(al_ht_arena) LO_DB_SIZE FH_HT_FL_GROW lodb_kops;
  Some (MkLoDb mp ht 0 0 ∅).

Definition set_lo_pool mp (db : lo_db) : lo_db := MkLoDb mp db.(lodb_htable) db.(lodb_skip) db.(lodb_count) db.(lodb_entries).

(** The results of the allocations that a growing pool or table may make: the
    entries' pool, the elements' pool and the new table. *)
Record lo_mallocs := MkLoMallocs { lm_arena : option Z; lm_ht_arena : option Z; lm_table : bool }.

(** [lo_db_add]: the status, the entry and the database. *)
Definition lo_db_add (ms : lo_mallocs) (lof : lo_format) (db : lo_db) : option (Z * Z * lo_db) :=
  '(lo, mp) ← fh_mpool_get ms.(lm_arena) db.(lodb_mpool);
  if lo =? NULL then Some (FH_ERROR, NULL, set_lo_pool mp db)
  else
    let old := default (MkLo (replicate LO_ROOT_SIZE 0) (replicate LO_SEC_SIZE 0)) (db.(lodb_entries) !! lo) in
    root ← cut_at_space <$> strcpy old.(lo_root) lof.(lof_root);
    sec ← cut_at_space <$> strcpy old.(lo_sec) lof.(lof_sec);
    root ← (if bool_decide (c_str lof.(lof_type) = [70; 67]) then strcpy root sec else Some root);
    let entries := <[lo := MkLo root sec]> db.(lodb_entries) in
    let put_back rc mp ht : option (Z * Z * lo_db) :=
      '(_, mp) ← fh_mpool_put mp lo; Some (rc, NULL, MkLoDb mp ht db.(lodb_skip) db.(lodb_count) entries) in
    let klen := OpraCodec.strlen_in root in
    if 5 <? klen then put_back FH_ERROR mp db.(lodb_htable)
    else if klen =? 0 then put_back FH_ERROR mp db.(lodb_htable)
    else
      '(rc, ht) ← fh_ht_put ms.(lm_ht_arena) ms.(lm_table) entries db.(lodb_htable) (KEntry lo) klen lo;
      if negb (rc =? FH_OK) then put_back rc mp ht
      else Some (FH_OK, lo, MkLoDb mp ht db.(lodb_skip) (u32 (db.(lodb_count) + 1)) entries).

Definition lo_db_lookup (root : list Z) (db : lo_db) : option (Z * Z) :=
  fh_ht_get db.(lodb_entries) db.(lodb_htable) (KLocal root) (OpraCodec.strlen_in root).

(** [strncpy] to an array of its size *)
Definition strncpy (n : nat) (src : list Z) : list Z :=
  let s := take n (c_str src) in s ++ replicate (n - length s) 0.

(** [fh_opra_lo_lookup]: a root that is not listed is added. *)
Definition fh_opra_lo_lookup (ms : lo_mallocs) (root : list Z) (db : lo_db) : option (Z * Z * lo_db) :=
  let root_copy := strncpy 5 root ++ [0] in
  '(rc, lo) ← lo_db_lookup root_copy db;
  if rc =? FH_OK then Some (FH_OK, lo, db)
  else lo_db_add ms (MkLof root_copy root_copy []) db.

(** ** The file of listed options *)

(** [fgets]: the line (with its newline) of at most [n - 1] characters, and
    the rest of the file. *)
Fixpoint fgets_loop (n : nat) (file : list Z) : list Z * list Z :=
  match n, file with
  | 0%nat, _ | _, [] => ([], file)
  | S n, b :: file => if b =? 10 then ([b], file) else let '(l, file) := fgets_loop n file in (b :: l, file)
  end.
Definition fgets (n : nat) (file : list Z) : option (list Z * list Z) :=
  match file with [] => None | _ => Some (fgets_loop (n - 1) file) end.

(** [LO_BUF_TERMINATE] for all fields *)
Definition terminate_fields (buf : list Z) : list Z := foldl (fun buf e => <[(e - 1)%nat := 0]> buf) buf lof_offsets.
Definition lof_of (buf : list Z) : lo_format := MkLof (take 7 buf) (take 7 (drop 7 buf)) (take 3 (drop 80 buf)).
Definition listed_types : list (list Z) := [[69; 76]; [69; 85]; [70; 67]; [73; 85]].

(** One line; the buffer of [LO_TOTAL_SIZE + 10] bytes keeps what a longer
    line left behind the end of this one. *)
Definition lo_line (ms : lo_db -> lo_mallocs) (line buf : list Z) (db : lo_db) : option (list Z * lo_db) :=
  buf ← poke buf 0 (line ++ [0]);
  let len := OpraCodec.strlen_in buf in
  guard (0 < len);;
  let buf := terminate_fields (<[Z.to_nat (len - 1) := 0]> buf) in
  let lof := lof_of buf in
  if negb (bool_decide (c_str lof.(lof_type) ∈ listed_types)) then
    Some (buf, MkLoDb db.(lodb_mpool) db.(lodb_htable) (u32 (db.(lodb_skip) + 1)) db.(lodb_count) db.(lodb_entries))
  else '(_, _, db) ← lo_db_add (ms db) lof db; Some (buf, db).

Fixpoint lo_lines (fuel : nat) (ms : lo_db -> lo_mallocs) (file buf : list Z) (db : lo_db) : option lo_db :=
  match fuel with
  | 0%nat => None
  | S fuel =>
      match fgets (LO_TOTAL_SIZE + 10) file with
      | None => Some db
      | Some (line, file) => '(buf, db) ← lo_line ms line buf db; lo_lines fuel ms file buf db
      end
  end.

(** [fh_opra_lo_init], when the file is there and can be read: the status and
    the database.  [stale] is the buffer, a local variable. *)
Definition fh_opra_lo_init (al : allocs) (ms : lo_db -> lo_mallocs) (stale file : list Z) : option (Z * option lo_db) :=
  match lo_db_init al with
  | None => Some (FH_ERROR, None)
  | Some db => db ← lo_lines (S (length file)) ms file stale db; Some (FH_OK, Some db)
  end.

(** ** Looking an option up *)

(** What the handler keeps besides the lines; [ow_ml] is the state of the
    messaging layer. *)
Record opra_world (M : Type) := MkWorld {
  ow_odb : lkp_tbl fh_opra_opt;
  ow_lodb : lo_db;
  ow_ml : M
}.
Arguments MkWorld {M}.
Arguments ow_odb {M}.
Arguments ow_lodb {M}.
Arguments ow_ml {M}.

Section options.
Context {M : Type}.
(** The format of topics, what a growing table of listed options may
    allocate, the plugin that an option is registered with, and what the
    local variable for a key holds. *)
Context (ocfg_topic_fmt : fh_opra_topic_fmt_t) (lo_malloc : lo_db -> lo_mallocs) (ml_opt_add : option (Z -> M -> Z * M))
  (stale_key : opra_lines (opra_world M) -> list Z).
Notation st_t := (opra_lines (opra_world M)).

Definition with_world (f : opra_world M -> opra_world M) (st : st_t) : st_t :=
  MkLines st.(line_table) st.(ftline_table) (f st.(lines_world)).
Definition set_odb (odb : lkp_tbl fh_opra_opt) (w : opra_world M) : opra_world M := MkWorld odb w.(ow_lodb) w.(ow_ml).
Definition set_lodb (db : lo_db) (w : opra_world M) : opra_world M := MkWorld w.(ow_odb) db w.(ow_ml).
Definition set_ml (m : M) (w : opra_world M) : opra_world M := MkWorld w.(ow_odb) w.(ow_lodb) m.

Definition fh_opra_opt_lookup (k : list Z) (st : st_t) : option (Z * Z) :=
  lkp_get sizeof_opt_key st.(lines_world).(ow_odb) (KLocal k).

(** [fh_opra_ml_opt_add], of which the result is only logged. *)
Definition fh_opra_ml_opt_add (opt : Z) (m : M) : Z * M :=
  match ml_opt_add with Some hook => hook opt m | None => (FH_OK, m) end.

(** [fh_opra_opt_add], for a packet of line [i]: the status and the option. *)
Definition fh_opra_opt_add (i : nat) (k : fh_opra_opt_key) (st : st_t) : option (Z * Z * st_t) :=
  let w := st.(lines_world) in
  '(rc, lo, lodb) ← fh_opra_lo_lookup (lo_malloc w.(ow_lodb)) k.(k_symbol) w.(ow_lodb);
  let st := with_world (set_lodb lodb) st in
  if negb (rc =? FH_OK) then Some (FH_ERROR, NULL, st)
  else
    let db := w.(ow_odb) in
    mp ← db.(tbl_mempool);
    '(opt, mp) ← fh_mpool_get None mp;
    let with_db mp ht count entries := with_world (set_odb (MkTbl (Some mp) ht db.(tbl_size) count entries)) st in
    if opt =? NULL then Some (FH_ERROR, NULL, with_db mp db.(tbl_hash) db.(tbl_count) db.(tbl_entries))
    else
      let old := default zero_opt (db.(tbl_entries) !! opt) in
      '(rc, topic) ← fh_opra_topic_fmt ocfg_topic_fmt k old.(opt_topic);
      let e lo := MkOpt topic (opt_key_bytes k) lo old.(opt_year_v2) old.(opt_date) old.(opt_val) in
      if negb (rc =? FH_OK) then
        '(_, mp) ← fh_mpool_put mp opt;
        Some (rc, NULL, with_db mp db.(tbl_hash) db.(tbl_count) (<[opt := e old.(opt_lo)]> db.(tbl_entries)))
      else
        let entries := <[opt := e lo]> db.(tbl_entries) in
        ht ← db.(tbl_hash);
        '(rc, ht) ← fh_ht_put None false entries ht (KEntry opt) sizeof_opt_key opt;
        if negb (rc =? FH_OK) then
          '(_, mp) ← fh_mpool_put mp opt;
          Some (rc, NULL, with_db mp (Some ht) db.(tbl_count) entries)
        else
          '(idx, st) ← fh_opra_lh_add_opt i opt st;
          let db := MkTbl (Some mp) (Some ht) db.(tbl_size) (u32 (db.(tbl_count) + 1))
                      (<[opt := set_val OFtlineIdx (u16 idx) (e lo)]> db.(tbl_entries)) in
          let '(_, m) := fh_opra_ml_opt_add opt w.(ow_ml) in
          Some (FH_OK, opt, with_world (fun w => set_ml m (set_odb db w)) st).

(** [opra_opt_lookup]: the option, [NULL] if there is none. *)
Definition opra_opt_lookup (i : nat) (year month day putcall decimal fraction exchid : Z) (sym : list Z) (st : st_t)
    : option (Z * st_t) :=
  s ← opra_root_copy (stale_key st) sym;
  let k := MkOptKey s year month day putcall exchid fraction decimal in
  '(rc, opt) ← fh_opra_opt_lookup (opt_key_bytes k) st;
  if rc =? FH_OK then Some (opt, st)
  else
    '(rc, opt, st) ← fh_opra_opt_add i k st;
    Some (if rc =? FH_OK then opt else NULL, st).
End options.
