(* ===== verification/OpraMsg.v ===== *)
(** * Processing of OPRA messages ([src/feeds/opra/fast/v2/fh_opra_msg.c],
      [fh_opra_msg_inline.h], [fh_opra_ml.h], [fh_opra_ml.c])

    Each message updates its option and is sent to the messaging layer. *)
From S2P Require Import Prelude Bytes Mpool HTable Lookup OpraCodec OpraLine OpraFast OpraOpt.

(** ** Prices *)

(** Arithmetic on [int] wraps around. *)
Definition mul10 (price : Z) : Z := s32 (price * 10).
Definition div10 (price : Z) : Z := Z.quot price 10.

(** [iseprice]: the price has four digits behind the point (code ['D']). *)
Definition iseprice (price code : Z) : Z :=
  let divc := 68 - s8 code in
  if 0 <? divc then Nat.iter (Z.to_nat divc) mul10 price else Nat.iter (Z.to_nat (- divc)) div10 price.

(** [indexvalue] *)
Definition indexvalue (str : list Z) : Z :=
  let '(price, code) := foldl (fun '(price, code) b =>
      let d := s8 b in
      if negb (d =? 46) then (s32 (s32 (price * 10) + (d - 48)), s8 (code - 1)) else (price, code))
    (0, s8 (65 + Z.of_nat (length str))) str in
  iseprice price code.

(** The prices of a message, [uint32_t], to and from [int] *)
Definition om_price (price code : Z) : Z := u32 (iseprice (s32 price) code).

(** ** Keys *)

(** [FH_OPRA_ATOI] to a [uint8_t], [FH_OPRA_ATOMONTH] *)
Definition opra_atoi (l : list Z) : Z := u8 (foldl (fun v d => v * 10 + (d - 48)) 0 l).
Definition opra_atomonth (ch : Z) : Z := u8 (if 76 <? ch then ch - 76 else ch - 64).

(** ** Update flags ([fh_opra_option_ext.h]) *)

Definition FH_OPRA_MSG_PART_ID : Z := 0x00000001.
Definition FH_OPRA_MSG_YEAR : Z := 0x00000002.
Definition FH_OPRA_MSG_OPEN : Z := 0x00000004.
Definition FH_OPRA_MSG_HIGH : Z := 0x00000008.
Definition FH_OPRA_MSG_LOW : Z := 0x00000010.
Definition FH_OPRA_MSG_SESSION : Z := 0x00000020.
Definition FH_OPRA_MSG_BID : Z := 0x00000040.
Definition FH_OPRA_MSG_OFFER : Z := 0x00000080.
Definition FH_OPRA_MSG_LAST : Z := 0x00000100.
Definition FH_OPRA_MSG_BO_PART_ID : Z := 0x00000200.
Definition FH_OPRA_MSG_BB_PART_ID : Z := 0x00000400.
Definition FH_OPRA_MSG_UNHALTTIME : Z := 0x00001000.
Definition FH_OPRA_MSG_HALTTIME : Z := 0x00002000.
Definition FH_OPRA_MSG_OPEN_BID : Z := 0x00004000.
Definition FH_OPRA_MSG_OPEN_OFFER : Z := 0x00008000.
Definition FH_OPRA_MSG_DAILY_HIGH : Z := 0x00010000.
Definition FH_OPRA_MSG_DAILY_LOW : Z := 0x00020000.
Definition FH_OPRA_MSG_OPENING : Z := 0x00040000.
Definition FH_OPRA_MSG_CLOSING : Z := 0x00080000.
Definition FH_OPRA_MSG_LINE_NUM : Z := 0x00100000.
Definition FH_OPRA_MSG_PP_VALUE_ADDED : Z := 0x7ff.

Definition flag (f : Z) (o : fh_opra_opt) : fh_opra_opt := set_val OUflags (Z.lor (opt_val o OUflags) f) o.

(** ** What is sent ([fh_opra_ml.h]) *)

(** [fh_perfMsgHdr_t] and [fh_opra_ml_hdr_t]; the best offer alone leaves
    [proc_id] as it was. *)
Record ml_hdr := MkMlHdr { ph_proc_id : option Z; ph_genTime : Z; mh_msg_cat : Z; mh_msg_type : Z; mh_part_id : Z; mh_seq_num : Z; mh_time : Z }.
Record ml_ls := MkMlLs {
  ls_hdr : ml_hdr; ls_session : Z; ls_exp_date : list Z * list Z; ls_exp_sp : Z; ls_prem_price : Z; ls_volume : Z; ls_open_price : Z;
  ls_daily_high : Z; ls_daily_low : Z; ls_cum_volume : Z; ls_cum_value : Z; ls_unhalttime : Z }.
Record ml_eod := MkMlEod {
  eod_hdr : ml_hdr; eod_exp_date : list Z * list Z; eod_volume : Z; eod_exp_sp : Z; eod_last_price : Z; eod_open_price : Z;
  eod_close_price : Z; eod_high_price : Z; eod_low_price : Z; eod_net_change : Z; eod_under_price : Z; eod_bid_price : Z;
  eod_offer_price : Z }.
(** The four messages for a quote; without an appendage there are no prices
    of the best offer and bid, or they are zero. *)
Inductive quote_kind := QuotePlain | QuoteBo | QuoteBb | QuoteBbo.
Record ml_quote := MkMlQuote {
  quote_hdr : ml_hdr; quote_exp_date : list Z * list Z; quote_session : Z; quote_bbo_ind : Z; quote_exp_sp : Z; quote_offer_price : Z;
  quote_bid_price : Z; quote_offer_size : Z; quote_bid_size : Z; quote_halttime : Z; quote_open_bid : Z; quote_open_offer : Z;
  quote_bo : Z * Z * Z;    (* price, size, participant *)
  quote_bb : Z * Z * Z }.
Inductive opra_ml_msg :=
  | MlCtrl (h : ml_hdr) (ctrl_buffer : list Z)
  | MlOi (h : ml_hdr) (oi_exp_sp oi_volume : Z)
  | MlUvLs (h : ml_hdr) (uv_last_sale : Z)
  | MlUvBo (h : ml_hdr) (uv_bid_value uv_offer_value : Z)
  | MlLs (m : ml_ls)
  | MlEod (m : ml_eod)
  | MlQuote (k : quote_kind) (m : ml_quote)
  | MlPacked (bytes : list Z).   (* by a plugin *)

(** [fh_opra_msg_*_t]: what the plugins get besides the option; a price of the
    best offer or bid only if it was computed. *)
Record om_eod := MkOmEod { eod_msg : CatfMsg_v2; eo_exp_sp : Z; eo_open : Z; eo_high : Z; eo_low : Z; eo_last : Z; eo_net_change : Z;
  eo_under : Z; eo_bid : Z; eo_offer : Z }.
Record om_quote := MkOmQuote { quote_msg : CatkMsg_v2; qo_exp_sp : Z; qo_offer_price : Z; qo_bid_price : Z;
  qo_bo_price : option Z; qo_bb_price : option Z }.

(** The hooks that pack messages: the status and the bytes. *)
Record msg_packs := MkPacks {
  msg_ctrl_pack : option (CatHMsg_v2 -> Z * list Z);
  msg_oi_pack : option (CatdMsg_v2 * Z -> fh_opra_opt -> Z * list Z);
  msg_uv_ls_pack : option (CatYMsg_v2 * Z -> fh_opra_opt -> Z * list Z);
  msg_uv_bo_pack : option (CatYMsg_v2 * Z * Z -> fh_opra_opt -> Z * list Z);
  msg_ls_pack : option (CataMsg_v2 * Z * Z -> fh_opra_opt -> Z * list Z);
  msg_eod_pack : option (om_eod -> fh_opra_opt -> Z * list Z);
  msg_quote_pack : option (om_quote -> fh_opra_opt -> Z * list Z);
  msg_quote_bo_pack : option (om_quote -> fh_opra_opt -> Z * list Z);
  msg_quote_bb_pack : option (om_quote -> fh_opra_opt -> Z * list Z);
  msg_quote_bbo_pack : option (om_quote -> fh_opra_opt -> Z * list Z)
}.
Definition no_packs : msg_packs := MkPacks None None None None None None None None None None.

Section messages.
Context {M : Type}.
Context (ocfg_topic_fmt : fh_opra_topic_fmt_t) (lo_malloc : lo_db -> lo_mallocs) (ml_opt_add : option (Z -> M -> Z * M))
  (stale_key : opra_lines (opra_world M) -> list Z).
(** The messaging layer ([fh_opra_ml_send]), the hooks, the number of the
    process, the flags of the publication, and the conversion of [10^n] to
    [uint32_t] where it does not fit. *)
Context (ml_send : opra_ml_msg -> M -> Z * M) (packs : msg_packs) (ocfg_proc_id pp_flags : Z) (pow10_overflow : Z -> Z).
(** The line and the time of the packet, and the clock. *)
Context (i : nat) (fh_opra_lh_recv_time : Z) (now : opra_lines (opra_world M) -> Z).
Notation st_t := (opra_lines (opra_world M)).

Definition fh_opra_ml_send (m : opra_ml_msg) (st : st_t) : Z * st_t :=
  let '(rc, ml) := ml_send m st.(lines_world).(ow_ml) in (rc, with_world (set_ml ml) st).

(** The part that the [_send] functions share: a hook packs the message, or
    it is [default_]. *)
Definition send {A} (pack : option (A -> Z * list Z)) (om : A) (default_ : opra_ml_msg) (st : st_t) : Z * st_t :=
  match pack with
  | Some hook => let '(rc, bytes) := hook om in if negb (rc =? FH_OK) then (rc, st) else fh_opra_ml_send (MlPacked bytes) st
  | None => fh_opra_ml_send default_ st
  end.

Definition hdr_of (h : OpraMsgHdr_v2) : ml_hdr :=
  MkMlHdr (Some ocfg_proc_id) fh_opra_lh_recv_time h.(category) h.(msg_type) h.(participantId) h.(seqNumber) h.(msg_time).

(** ** Options *)

Definition get_opt (opt : Z) (st : st_t) : option fh_opra_opt := st.(lines_world).(ow_odb).(tbl_entries) !! opt.
Definition put_opt (opt : Z) (o : fh_opra_opt) (st : st_t) : st_t :=
  with_world (fun w => set_odb (tbl_write w.(ow_odb) opt o) w) st.

Notation opra_opt_lookup := (opra_opt_lookup ocfg_topic_fmt lo_malloc ml_opt_add stale_key i).

(** [FH_OPRA_GET_NOOPT] *)
Definition get_noopt (h : OpraMsgHdr_v2) (sym : list Z) : st_t -> option (Z * st_t) :=
  opra_opt_lookup 0 0 0 67 0 0 h.(participantId) sym.

(** [FH_OPRA_GET_OPT] *)
Definition strike_denom (code : Z) : Z :=
  let n := code - 64 in
  let d := if n <? 0 then 0 else if n <? 10 then 10 ^ n else pow10_overflow n in
  if d =? 0 then 1 else d.
Definition get_option (h : OpraMsgHdr_v2) (o : option_fields) : st_t -> option (Z * st_t) :=
  let denom := strike_denom o.(strikePriceDenomCode) in
  opra_opt_lookup (opra_atoi o.(year)) (opra_atomonth o.(expirationMonth)) (opra_atoi o.(expirationDate))
    (if 77 <=? o.(expirationMonth) then 80 else 67) (o.(explicitStrike) / denom) (u16 (o.(explicitStrike) mod denom))
    h.(participantId) o.(symbol).

(** [FH_OPRA_DROP_DUPS] *)
Definition late (h : OpraMsgHdr_v2) (o : fh_opra_opt) : bool :=
  (0 <? h.(seqNumber)) && (h.(seqNumber) <? opt_val o OSeqNum).

(** The assignments that begin the processing *)
Definition touch (h : OpraMsgHdr_v2) (init_flags : Z) (o : fh_opra_opt) : fh_opra_opt :=
  let o := set_val OUflags pp_flags (set_val OTime h.(msg_time) (set_val OSeqNum h.(seqNumber) o)) in
  if negb (opt_val o OInit =? 0) then set_val OInit 0 (flag init_flags o) else o.

(** A new entry gets its date of expiration. *)
Definition first_date (f : option_fields) (o : fh_opra_opt) : fh_opra_opt :=
  if default 0 (o.(opt_year_v2) !! 0%nat) =? 0 then
    set_exp_date f.(year) f.(expirationDate) (flag (Z.lor FH_OPRA_MSG_YEAR FH_OPRA_MSG_PART_ID) o)
  else o.

(** [if (o->f != v) { o->f = v; o->opt_uflags |= fl }] *)
Definition update_val (f : opt_field) (fl v : Z) (o : fh_opra_opt) : fh_opra_opt :=
  if opt_val o f =? v then o else flag fl (set_val f v o).

(** The same where the member is a [char] and the value an [unsigned char] *)
Definition update_char (f : opt_field) (fl v : Z) (o : fh_opra_opt) : fh_opra_opt :=
  if opt_val o f =? v then o else flag fl (set_val f (s8 v) o).

(** A message on an option: its option is found or made, a late message is
    counted, else [process] updates the option and sends. *)
Definition on_option (h : OpraMsgHdr_v2) (f : option_fields) (process : Z -> fh_opra_opt -> st_t -> option (Z * st_t)) (st : st_t)
    : option (Z * st_t) :=
  '(opt, st) ← get_option h f st;
  if opt =? NULL then Some (FH_ERROR, st)
  else
    o ← get_opt opt st;
    if late h o then st ← fh_opra_lh_late_opt i st; Some (FH_OK, st)
    else process opt o st.

(** ** The messages *)

(** [fh_opra_msg_ctrl_send], [fh_opra_msg_ctrl_process]; the text is copied by
    [strcpy]. *)
Definition fh_opra_msg_ctrl_process (m : CatHMsg_v2) (st : st_t) : option (Z * st_t) :=
  match packs.(msg_ctrl_pack) with
  | Some _ => Some (send packs.(msg_ctrl_pack) m (MlCtrl (hdr_of m.(H_hdr)) []) st)
  | None =>
      guard (0 ∈ m.(H_text));;
      Some (send None m (MlCtrl (hdr_of m.(H_hdr)) (c_str m.(H_text))) st)
  end.

(** [fh_opra_msg_oi_send], [fh_opra_msg_oi_process] *)
Definition fh_opra_msg_oi_process (m : CatdMsg_v2) : st_t -> option (Z * st_t) :=
  on_option m.(d_hdr) m.(d_opt) (fun opt o st =>
    let o := first_date m.(d_opt) (touch m.(d_hdr) FH_OPRA_MSG_LINE_NUM o) in
    let om_exp_sp := om_price m.(d_opt).(explicitStrike) m.(d_opt).(strikePriceDenomCode) in
    Some (send ((fun hook om => hook om o) <$> packs.(msg_oi_pack)) (m, om_exp_sp)
            (MlOi (hdr_of m.(d_hdr)) m.(d_opt).(explicitStrike) m.(d_openIntVolume)) (put_opt opt o st))).

(** [fh_opra_msg_ls_send], [fh_opra_msg_ls_process] *)
Definition ls_update (m : CataMsg_v2) (now prem : Z) (o : fh_opra_opt) : fh_opra_opt :=
  let o := first_date m.(a_opt) (touch m.(a_hdr) FH_OPRA_MSG_LINE_NUM o) in
  let o := if m.(a_hdr).(msg_type) =? 74 then flag FH_OPRA_MSG_UNHALTTIME (set_val OUnhalttime now o) else o in
  let o := update_char OSession FH_OPRA_MSG_SESSION m.(a_sessionIndicator) o in
  let o := if (0 <? prem) && (opt_val o OOpenPrice =? 0) then flag FH_OPRA_MSG_OPENING (set_val OOpenPrice prem o) else o in
  let o := if (opt_val o ODailyLow =? 0) || (prem <? opt_val o ODailyLow)
           then flag FH_OPRA_MSG_DAILY_LOW (set_val ODailyLow prem o) else o in
  let o := if opt_val o ODailyHigh <? prem then flag FH_OPRA_MSG_DAILY_HIGH (set_val ODailyHigh prem o) else o in
  let o := set_val OCumVolume (u64 (opt_val o OCumVolume + m.(a_volume))) o in
  set_val OCumValue (u64 (opt_val o OCumValue + u64 (m.(a_volume) * prem))) o.
Definition ls_message (m : CataMsg_v2) (exp_sp prem : Z) (o : fh_opra_opt) : ml_ls :=
  MkMlLs (hdr_of m.(a_hdr)) (opt_val o OSession) (o.(opt_year_v2), o.(opt_date)) exp_sp prem m.(a_volume) (opt_val o OOpenPrice)
    (opt_val o ODailyHigh) (opt_val o ODailyLow) (opt_val o OCumVolume) (opt_val o OCumValue) (opt_val o OUnhalttime).
Definition fh_opra_msg_ls_process (m : CataMsg_v2) : st_t -> option (Z * st_t) :=
  on_option m.(a_hdr) m.(a_opt) (fun opt o st =>
    let exp_sp := om_price m.(a_opt).(explicitStrike) m.(a_opt).(strikePriceDenomCode) in
    let prem := om_price m.(a_premium) m.(a_premiumPriceDenomCode) in
    let o := ls_update m (now st) prem o in
    Some (send ((fun hook om => hook om o) <$> packs.(msg_ls_pack)) (m, exp_sp, prem) (MlLs (ls_message m exp_sp prem o)) (put_opt opt o st))).

(** [fh_opra_msg_eod_send], [fh_opra_msg_eod_process] *)
Definition eod_prices (m : CatfMsg_v2) : om_eod :=
  let price p := om_price p m.(f_premiumPriceDenomCode) in
  MkOmEod m (om_price m.(f_opt).(explicitStrike) m.(f_opt).(strikePriceDenomCode)) (price m.(f_open)) (price m.(f_high)) (price m.(f_low))
    (price m.(f_last)) (price m.(f_netChange)) (om_price m.(f_underlyingStockPrice) m.(f_underlyingPriceDenomCode))
    (price m.(f_bidQuote)) (price m.(f_askQuote)).
Definition eod_update (m : CatfMsg_v2) (om : om_eod) (o : fh_opra_opt) : fh_opra_opt :=
  let o := first_date m.(f_opt) (touch m.(f_hdr) FH_OPRA_MSG_LINE_NUM o) in
  let o := update_val OBidPrice FH_OPRA_MSG_BID om.(eo_bid) o in
  let o := update_val OOfferPrice FH_OPRA_MSG_OFFER om.(eo_offer) o in
  let o := update_val OOpenPrice FH_OPRA_MSG_OPEN om.(eo_open) o in
  let o := update_val OHighPrice FH_OPRA_MSG_HIGH om.(eo_high) o in
  let o := update_val OLowPrice FH_OPRA_MSG_LOW om.(eo_low) o in
  let o := update_val OLastPrice FH_OPRA_MSG_LAST om.(eo_last) o in
  update_val OClosePrice FH_OPRA_MSG_CLOSING om.(eo_last) o.
Definition eod_message (om : om_eod) (o : fh_opra_opt) : ml_eod :=
  MkMlEod (hdr_of om.(eod_msg).(f_hdr)) (o.(opt_year_v2), o.(opt_date)) om.(eod_msg).(f_volume) om.(eo_exp_sp) (opt_val o OLastPrice)
    (opt_val o OOpenPrice) (opt_val o OClosePrice) (opt_val o OHighPrice) (opt_val o OLowPrice) om.(eo_net_change) om.(eo_under)
    (opt_val o OBidPrice) (opt_val o OOfferPrice).
Definition fh_opra_msg_eod_process (m : CatfMsg_v2) : st_t -> option (Z * st_t) :=
  on_option m.(f_hdr) m.(f_opt) (fun opt o st =>
    let om := eod_prices m in
    let o := eod_update m om o in
    Some (send ((fun hook om => hook om o) <$> packs.(msg_eod_pack)) om (MlEod (eod_message om o)) (put_opt opt o st))).

(** [fh_opra_msg_uv_ls_send], [fh_opra_msg_uv_bo_send] and the bodies of the
    loops of [fh_opra_msg_uv_process]: the result is [None] for a late message,
    which ends the loop. *)
Definition uv_flags : Z := Z.lor FH_OPRA_MSG_LINE_NUM FH_OPRA_MSG_PART_ID.
Definition uv_ls_group (m : CatYMsg_v2) (opt : Z) (value : list Z) (o : fh_opra_opt) (st : st_t) : option Z * st_t :=
  let o := touch m.(Y_hdr) uv_flags o in
  let v := u32 (indexvalue value) in
  let o := update_val OLastPrice FH_OPRA_MSG_LAST v o in
  let '(rc, st) := send ((fun hook om => hook om o) <$> packs.(msg_uv_ls_pack)) (m, v) (MlUvLs (hdr_of m.(Y_hdr)) v) (put_opt opt o st) in
  (Some rc, st).
Definition uv_bo_group (m : CatYMsg_v2) (opt : Z) (bid offer : list Z) (o : fh_opra_opt) (st : st_t) : option (option Z * st_t) :=
  if late m.(Y_hdr) o then st ← fh_opra_lh_late_opt i st; Some (None, st)
  else
    let o := touch m.(Y_hdr) uv_flags o in
    let vb := u32 (indexvalue bid) in
    let o := update_val OBidPrice FH_OPRA_MSG_BID vb o in
    let vo := u32 (indexvalue offer) in
    let o := update_val OOfferPrice FH_OPRA_MSG_OFFER vo o in
    let '(rc, st) := send ((fun hook om => hook om o) <$> packs.(msg_uv_bo_pack)) (m, vb, vo) (MlUvBo (hdr_of m.(Y_hdr)) vb vo)
                       (put_opt opt o st) in
    Some (Some rc, st).

(** The loop from group [j] on; [numOfIndices] is not compared with the size
    of the array, of which the message filled a part. *)
Fixpoint uv_groups (fuel : nat) (m : CatYMsg_v2) (zero : index_value) (j : nat) (rc : Z) (st : st_t) : option (Z * st_t) :=
  if Z.of_nat j <? m.(Y_numOfIndices) then
    match fuel with
    | 0%nat => None
    | S fuel =>
        let '(sym, v) := default ([0; 0; 0], zero) (m.(Y_indexGroup) !! j) in
        '(opt, st) ← get_noopt m.(Y_hdr) sym st;
        if opt =? NULL then uv_groups fuel m zero (S j) rc st
        else
          o ← get_opt opt st;
          '(rc', st) ← (match v with
                        | IndexValue value => Some (uv_ls_group m opt value o st)
                        | BidOffer bid offer => uv_bo_group m opt bid offer o st
                        | FcSpotVal _ _ => None
                        end);
          match rc' with None => Some (FH_OK, st) | Some rc => uv_groups fuel m zero (S j) rc st end
    end
  else Some (rc, st).
Definition fh_opra_msg_uv_process (m : CatYMsg_v2) (st : st_t) : option (Z * st_t) :=
  if m.(Y_hdr).(msg_type) =? 32 then uv_groups MAX_INDEX_GROUP m (IndexValue (replicate 8 0)) 0 FH_ERROR st
  else if m.(Y_hdr).(msg_type) =? 73 then uv_groups MAX_INDEX_GROUP m (BidOffer (replicate 8 0) (replicate 8 0)) 0 FH_ERROR st
  else Some (FH_ERROR, st).

(** [fh_opra_msg_quote_send], [fh_opra_msg_quote_bo_send],
    [fh_opra_msg_quote_bb_send], [fh_opra_msg_quote_bbo_send] *)
Definition quote_message (k : quote_kind) (om : om_quote) (o : fh_opra_opt) : ml_quote :=
  let m := om.(quote_msg) in
  let h := hdr_of m.(k_hdr) in
  let h := match k with
           | QuoteBo => MkMlHdr None h.(ph_genTime) h.(mh_msg_cat) h.(mh_msg_type) h.(mh_part_id) h.(mh_seq_num) h.(mh_time)
           | _ => h
           end in
  let part price (a : Appendage_v2) := (default 0 price, a.(app_size), a.(partId)) in
  let '(bo, bb) := match k with
    | QuotePlain => ((0, 0, 0), (0, 0, 0))
    | QuoteBo => (part om.(qo_bo_price) m.(k_bbo).(bbo_first), (0, 0, 0))
    | QuoteBb => ((0, 0, 0), part om.(qo_bb_price) m.(k_bbo).(bbo_first))
    | QuoteBbo => (part om.(qo_bo_price) m.(k_bbo).(bbo_second), part om.(qo_bb_price) m.(k_bbo).(bbo_first))
    end in
  MkMlQuote h (o.(opt_year_v2), o.(opt_date)) (opt_val o OSession) m.(k_bboIndicator) om.(qo_exp_sp) om.(qo_offer_price) om.(qo_bid_price)
    m.(k_askSize) m.(k_bidSize) (opt_val o OHalttime) (opt_val o OOpenBid) (opt_val o OOpenOffer) bo bb.
Definition quote_pack (k : quote_kind) : option (om_quote -> fh_opra_opt -> Z * list Z) :=
  match k with
  | QuotePlain => packs.(msg_quote_pack) | QuoteBo => packs.(msg_quote_bo_pack)
  | QuoteBb => packs.(msg_quote_bb_pack) | QuoteBbo => packs.(msg_quote_bbo_pack)
  end.
Definition quote_send (k : quote_kind) (opt : Z) (om : om_quote) (o : fh_opra_opt) (st : st_t) : Z * st_t :=
  send ((fun hook om => hook om o) <$> quote_pack k) om (MlQuote k (quote_message k om o)) (put_opt opt o st).

(** [fh_opra_msg_quote_process]: the part before the indicator *)
Definition quote_update (m : CatkMsg_v2) (now offer bid : Z) (o : fh_opra_opt) : fh_opra_opt :=
  let o := first_date m.(k_opt) (touch m.(k_hdr) FH_OPRA_MSG_LINE_NUM o) in
  let o := if m.(k_hdr).(msg_type) =? 84 then flag FH_OPRA_MSG_HALTTIME (set_val OHalttime now o) else o in
  let o := if (opt_val o OOpenOffer =? 0) && negb (offer =? 0) then flag FH_OPRA_MSG_OPEN_OFFER (set_val OOpenOffer offer o) else o in
  let o := if (opt_val o OOpenBid =? 0) && negb (bid =? 0) then flag FH_OPRA_MSG_OPEN_BID (set_val OOpenBid bid o) else o in
  update_char OSession FH_OPRA_MSG_SESSION m.(k_sessionIndicator) o.
Definition app_price_ise (a : Appendage_v2) : Z := om_price a.(app_price) a.(denominator).
Definition fh_opra_msg_quote_process (m : CatkMsg_v2) : st_t -> option (Z * st_t) :=
  on_option m.(k_hdr) m.(k_opt) (fun opt o st =>
    let offer := om_price m.(k_askQuote) m.(k_premiumPriceDenomCode) in
    let bid := om_price m.(k_bidQuote) m.(k_premiumPriceDenomCode) in
    let om := MkOmQuote m (om_price m.(k_opt).(explicitStrike) m.(k_opt).(strikePriceDenomCode)) offer bid in
    let o := quote_update m (now st) offer bid o in
    Some (match bbo_kind_of m.(k_bboIndicator) with
          | Some NoAppendage => quote_send QuotePlain opt (om None None) o st
          | Some OfferAppendage =>
              let bo := m.(k_bbo).(bbo_first) in
              quote_send QuoteBo opt (om (Some (app_price_ise bo)) None) (update_char OBoPartid FH_OPRA_MSG_BO_PART_ID bo.(partId) o) st
          | Some BidAppendage =>
              let bb := m.(k_bbo).(bbo_first) in
              quote_send QuoteBb opt (om None (Some (app_price_ise bb))) (update_char OBbPartid FH_OPRA_MSG_BB_PART_ID bb.(partId) o) st
          | Some BothAppendages =>
              let bb := m.(k_bbo).(bbo_first) in
              let bo := m.(k_bbo).(bbo_second) in
              quote_send QuoteBbo opt (om (Some (app_price_ise bo)) (Some (app_price_ise bb)))
                (update_char OBbPartid FH_OPRA_MSG_BB_PART_ID bb.(partId) (update_char OBoPartid FH_OPRA_MSG_BO_PART_ID bo.(partId) o)) st
          | None => (FH_ERROR, put_opt opt o st)
          end)).

(** The decoders drop the status. *)
Definition fh_opra_msg_processors : opra_processors st_t :=
  let run {A} (f : A -> st_t -> option (Z * st_t)) m st := snd <$> f m st in
  MkProcessors st_t (run fh_opra_msg_quote_process) (run fh_opra_msg_oi_process) (run fh_opra_msg_ls_process)
    (run fh_opra_msg_eod_process) (run fh_opra_msg_uv_process) (run fh_opra_msg_ctrl_process).
End messages.
