(* ===== verification/OpraMsgTheorems.v ===== *)
(** * OPRA messages and options: theorems *)
From S2P Require Import Prelude Bytes Mpool HTable Lookup OpraCodec OpraLine OpraFast OpraOpt OpraMsg.

(** ** Keys *)

Definition root_of (sym : list Z) : list Z := default [] (opra_root_copy [] sym).

(** A symbol of five characters fills its part of the key. *)
Lemma root_copy_five stale sym : length sym = 5%nat -> opra_root_copy stale sym = Some (root_of sym) /\ length (root_of sym) = 5%nat.
Proof.
  intros H. destruct sym as [|a [|b [|c [|d [|e [|]]]]]]; try done. unfold root_of, opra_root_copy. cbn.
  destruct (a =? 32), (b =? 32), (c =? 32), (d =? 32), (e =? 32); by split.
Qed.

(** The key of a message on an option *)
Section keys.
Context (pow10_overflow : Z -> Z).
Definition msg_key (h : OpraMsgHdr_v2) (f : option_fields) : list Z :=
  let denom := strike_denom pow10_overflow f.(strikePriceDenomCode) in
  opt_key_bytes (MkOptKey (root_of f.(symbol)) (opra_atoi f.(year)) (opra_atomonth f.(expirationMonth)) (opra_atoi f.(expirationDate))
    (if 77 <=? f.(expirationMonth) then 80 else 67) h.(participantId) (u16 (f.(explicitStrike) mod denom)) (f.(explicitStrike) / denom)).
End keys.

(** ** The table of options *)

Section options.
Context {M : Type}.
Notation st_t := (opra_lines (opra_world M)).

(** The options that are known: the address and the contents, by key. *)
Definition opt_table (cap : Z) (known : gmap (list Z) (Z * fh_opra_opt)) (st : st_t) : Prop :=
  tbl_repr opt_key sizeof_opt_key (ow_odb (lines_world st)) cap known.

Lemma put_opt_spec cap known kb a o o' (st : st_t) : opt_table cap known st -> known !! kb = Some (a, o) -> opt_key o' = kb ->
  opt_table cap (<[kb := (a, o')]> known) (put_opt a o' st).
Proof. intros H1 H2 H3. by apply (tbl_write_spec opt_key sizeof_opt_key _ _ _ _ _ o). Qed.

Context (ocfg_topic_fmt : fh_opra_topic_fmt_t) (lo_malloc : lo_db -> lo_mallocs) (ml_opt_add : option (Z -> M -> Z * M))
  (stale_key : st_t -> list Z) (pow10_overflow : Z -> Z) (i : nat).
Notation get_option := (get_option ocfg_topic_fmt lo_malloc ml_opt_add stale_key pow10_overflow i).
Notation on_option := (on_option ocfg_topic_fmt lo_malloc ml_opt_add stale_key pow10_overflow i).
Notation msg_key := (msg_key pow10_overflow).

Lemma opt_lookup_known cap known kb (st : st_t) : opt_table cap known st ->
  fh_opra_opt_lookup kb st = Some (match known !! kb with Some (a, _) => (FH_OK, a) | None => (FH_ERR_NOTFOUND, NULL) end).
Proof. intros H. by apply (lkp_get_spec opt_key sizeof_opt_key _ cap). Qed.

Lemma get_option_known cap known h f a o (st : st_t) : opt_table cap known st -> length (symbol f) = 5%nat ->
  known !! msg_key h f = Some (a, o) -> get_option h f st = Some (a, st).
Proof.
  intros Ht Hs Hk. unfold OpraMsg.get_option, opra_opt_lookup. destruct (root_copy_five (stale_key st) _ Hs) as [-> _].
  cbn [mbind option_bind]. fold (msg_key h f). rewrite (opt_lookup_known _ _ _ _ Ht), Hk. done.
Qed.

Lemma on_option_known cap known h f process a o (st : st_t) : opt_table cap known st -> length (symbol f) = 5%nat ->
  known !! msg_key h f = Some (a, o) ->
  on_option h f process st = if late h o then st ← fh_opra_lh_late_opt i st; Some (FH_OK, st) else process a o st.
Proof.
  intros Ht Hs Hk. unfold OpraMsg.on_option. rewrite (get_option_known cap known h f a o st Ht Hs Hk). cbn [mbind option_bind].
  rewrite eqb_false_of_ne by (by eapply tbl_repr_nonnull). unfold get_opt.
  destruct (tr_entries _ _ _ _ _ Ht _ _ _ Hk) as [-> _]. done.
Qed.
End options.

(** ** New options *)

Section interning.
Context {M : Type} (ocfg_topic_fmt : fh_opra_topic_fmt_t) (lo_malloc : lo_db -> lo_mallocs) (ml_opt_add : option (Z -> M -> Z * M))
  (stale_key : opra_lines (opra_world M) -> list Z) (i : nat).
Notation st_t := (opra_lines (opra_world M)).
Notation opt_add := (fh_opra_opt_add ocfg_topic_fmt lo_malloc ml_opt_add i).
Notation opt_lookup := (opra_opt_lookup ocfg_topic_fmt lo_malloc ml_opt_add stale_key i).

(** The memory of the pool: what belongs to no option has no values yet. *)
Definition pool_memory (known : gmap (list Z) (Z * fh_opra_opt)) (st : st_t) : Prop := forall a e,
  tbl_entries (ow_odb (lines_world st)) !! a = Some e -> length (opt_topic e) = 32%nat /\
  ((exists k o, known !! k = Some (a, o)) \/ forall f, opt_val e f = 0).

(** The topic of the key can be formatted. *)
Definition topic_ok (k : fh_opra_opt_key) : Prop := forall topic, length topic = 32%nat -> exists topic',
  fh_opra_topic_fmt ocfg_topic_fmt k topic = Some (FH_OK, topic') /\ length topic' = 32%nat.
(** The line of the packet is there, and its pair has been configured. *)
Definition line_ok (st : st_t) : Prop := exists l f idx, line_table st !! i = Some l /\ ftline_table st !! l_ftline l = Some f /\
  ftl_config f = Some idx.
(** The root is listed, or can be added. *)
Definition root_ok (k : fh_opra_opt_key) (st : st_t) (lo : Z) (db : lo_db) : Prop :=
  fh_opra_lo_lookup (lo_malloc (ow_lodb (lines_world st))) (k_symbol k) (ow_lodb (lines_world st)) = Some (FH_OK, lo, db).

Lemma opt_add_new cap known k lo db (st : st_t) : opt_table cap known st -> pool_memory known st -> known !! opt_key_bytes k = None ->
  topic_ok k -> line_ok st -> root_ok k st lo db -> Z.of_nat (size known) <> cap -> exists a o st',
  opt_add k st = Some (FH_OK, a, st') /\ a <> NULL /\ opt_lo o = lo /\ (forall f, f <> OFtlineIdx -> opt_val o f = 0) /\
  (forall k' a' o', known !! k' = Some (a', o') -> a' <> a) /\
  opt_table cap (<[opt_key_bytes k := (a, o)]> known) st' /\ pool_memory (<[opt_key_bytes k := (a, o)]> known) st' /\
  line_ok st' /\ ow_lodb (lines_world st') = db.
Proof.
  intros Ht Hmem Hk Htopic (l & f & idx & Hl & Hf & Hidx) Hroot Hne.
  destruct (lkp_insert_steps opt_key sizeof_opt_key _ cap known _ Ht Hk Hne) as (mp & mp' & ht & a & Hmp & Hget & Hht & Ha & Hfresh & Hput).
  unfold fh_opra_opt_add. cbv zeta. rewrite Hroot. cbn [mbind option_bind]. change (negb (FH_OK =? FH_OK)) with false. cbn iota.
  rewrite Hmp. cbn [mbind option_bind]. rewrite Hget. cbn [mbind option_bind]. rewrite (eqb_false_of_ne a NULL) by done.
  set (old := default zero_opt (tbl_entries (ow_odb (lines_world st)) !! a)).
  assert (Hold : length (opt_topic old) = 32%nat /\ forall f, opt_val old f = 0).
  { unfold old. destruct (tbl_entries _ !! a) as [e|] eqn:Ee; [|done]. destruct (Hmem a e Ee) as [H1 [(k' & o' & Hk')|H2]]; [|done].
    by destruct (Hfresh _ _ _ Hk'). }
  destruct Hold as [Hold1 Hold2]. destruct (Htopic _ Hold1) as (topic & Etopic & Hl32). rewrite Etopic. cbn [mbind option_bind].
  change (negb (FH_OK =? FH_OK)) with false. cbn iota. rewrite Hht. cbn [mbind option_bind].
  set (e0 := MkOpt topic (opt_key_bytes k) lo (opt_year_v2 old) (opt_date old) (opt_val old)).
  destruct (Hput e0 eq_refl) as (ht' & Eput & Ht0). rewrite Eput. cbn [mbind option_bind]. change (negb (FH_OK =? FH_OK)) with false. cbn iota.
  unfold fh_opra_lh_add_opt at 1. cbn [with_world line_table ftline_table]. rewrite Hl. cbn [mbind option_bind]. rewrite Hf.
  cbn [mbind option_bind]. rewrite Hidx. cbn [mbind option_bind].
  set (o := set_val OFtlineIdx (u16 idx) e0).
  destruct (fh_opra_ml_opt_add ml_opt_add a _) as [rc ml]. eexists a, o, _. split; [reflexivity|]. split; [done|]. split; [done|].
  split; [intros g Hg; cbn; by rewrite decide_False by congruence|]. split; [exact Hfresh|]. split.
  - unfold opt_table. cbn [with_world lines_world set_ml set_odb ow_odb].
    pose proof (tbl_write_spec opt_key sizeof_opt_key _ _ _ (opt_key_bytes k) a e0 o Ht0 (lookup_insert_eq _ _ _) eq_refl) as Ht1.
    unfold tbl_write in Ht1. cbn [tbl_mempool tbl_hash tbl_size tbl_count tbl_entries] in Ht1.
    rewrite !insert_insert_eq in Ht1. exact Ht1.
  - split; [|split; [|done]].
    2: { exists l, (set_ftl_options (ftl_options f ++ [a]) f), idx. split; [done|]. split; [|done].
      cbn. by rewrite list_lookup_alter_eq, Hf. }
    intros a' e' He'. cbn [with_world lines_world set_ml set_odb ow_odb tbl_entries] in He'. rewrite lookup_insert in He'. case_decide as Ha'.
    + injection He' as <-. split; [done|]. left. exists (opt_key_bytes k), o. subst a'. by rewrite lookup_insert_eq.
    + destruct (Hmem a' e' He') as [H1 [(k' & o' & Hk')|H2]]; (split; [done|]); [|by right]. left. exists k', o'.
      rewrite lookup_insert_ne; [done|]. intros <-. by rewrite Hk in Hk'.
Qed.
End interning.

(** ** The statistics of last sales *)

Definition prem_of (m : CataMsg_v2) : Z := om_price m.(a_premium) m.(a_premiumPriceDenomCode).
Definition is_max (x : Z) (l : list Z) : Prop := x ∈ l /\ forall y, y ∈ l -> y <= x.
Definition is_min (x : Z) (l : list Z) : Prop := x ∈ l /\ forall y, y ∈ l -> x <= y.
Definition total (l : list Z) : Z := foldr Z.add 0 l.

Lemma total_snoc l x : total (l ++ [x]) = total l + x.
Proof. unfold total. induction l as [|y l IH]; cbn in *; lia. Qed.

Lemma is_max_snoc x y l : is_max x l -> is_max (Z.max x y) (l ++ [y]).
Proof.
  intros [H1 H2]. split.
  - destruct (Z.max_spec x y) as [[_ ->]|[_ ->]]; set_solver.
  - intros z [Hz|Hz]%elem_of_app; [specialize (H2 z Hz) | apply list_elem_of_singleton in Hz]; lia.
Qed.
Lemma is_min_snoc x y l : is_min x l -> is_min (Z.min x y) (l ++ [y]).
Proof.
  intros [H1 H2]. split.
  - destruct (Z.min_spec x y) as [[_ ->]|[_ ->]]; set_solver.
  - intros z [Hz|Hz]%elem_of_app; [specialize (H2 z Hz) | apply list_elem_of_singleton in Hz]; lia.
Qed.

(** What the option holds after the sales [ms] *)
Record sales (ms : list CataMsg_v2) (open high low cum_volume cum_value session : Z) : Prop := {
  sa_open : head (prem_of <$> ms) = Some open;
  sa_high : is_max high (prem_of <$> ms);
  sa_low : is_min low (prem_of <$> ms);
  sa_volume : cum_volume = u64 (total (a_volume <$> ms));
  sa_value : cum_value = u64 (total ((fun m => a_volume m * prem_of m) <$> ms));
  sa_session : exists m, last ms = Some m /\ session = s8 (a_sessionIndicator m)
}.
Definition opt_sales (ms : list CataMsg_v2) (o : fh_opra_opt) : Prop :=
  match ms with
  | [] => opt_val o OOpenPrice = 0 /\ opt_val o ODailyHigh = 0 /\ opt_val o ODailyLow = 0 /\ opt_val o OCumVolume = 0 /\
      opt_val o OCumValue = 0
  | _ => sales ms (opt_val o OOpenPrice) (opt_val o ODailyHigh) (opt_val o ODailyLow) (opt_val o OCumVolume) (opt_val o OCumValue)
           (opt_val o OSession)
  end.

Lemma u64_plus a b : u64 (u64 a + b) = u64 (a + b).
Proof. unfold u64. apply Zplus_mod_idemp_l. Qed.

Lemma val_flag fl f o : f <> OUflags -> opt_val (flag fl o) f = opt_val o f.
Proof. intros H. cbn. by rewrite decide_False by congruence. Qed.
Lemma val_set_eq f v o : opt_val (set_val f v o) f = v.
Proof. cbn. by rewrite decide_True. Qed.
Lemma val_set_ne f g v o : f <> g -> opt_val (set_val f v o) g = opt_val o g.
Proof. intros H. cbn. by rewrite decide_False. Qed.

(** What [touch] and [first_date] leave *)
Lemma val_touch pp h fl f o : f ∉ [OUflags; OTime; OSeqNum; OInit] -> opt_val (touch pp h fl o) f = opt_val o f.
Proof.
  rewrite !not_elem_of_cons. intros (H1 & H2 & H3 & H4 & _). unfold touch.
  destruct (negb _); [rewrite val_set_ne, val_flag by congruence|]; by rewrite !val_set_ne by congruence.
Qed.
Lemma val_touch_seq pp h fl o : opt_val (touch pp h fl o) OSeqNum = h.(seqNumber).
Proof. unfold touch. destruct (negb _); [rewrite val_set_ne, val_flag by done|]; by rewrite !val_set_ne, val_set_eq by done. Qed.
Lemma val_first_date d f o : f <> OUflags -> opt_val (first_date d o) f = opt_val o f.
Proof. intros H. unfold first_date. destruct (_ =? 0); [|done]. cbn. by rewrite decide_False by congruence. Qed.
Lemma val_update_char f fl v g o : g <> OUflags -> g <> f -> opt_val (update_char f fl v o) g = opt_val o g.
Proof. intros H1 H2. unfold update_char. destruct (_ =? v); [done|]. rewrite val_flag by done. by rewrite val_set_ne by congruence. Qed.
Lemma val_update_char_eq f fl v o : f <> OUflags -> -128 <= v < 128 -> opt_val (update_char f fl v o) f = v.
Proof.
  intros H1 H2. unfold update_char. destruct (Z.eqb_spec (opt_val o f) v) as [<-|]; [done|]. rewrite val_flag, val_set_eq by done.
  unfold s8. rewrite Z.mod_small; lia.
Qed.

Lemma val_if_eq (b : bool) fl f v o : f <> OUflags -> opt_val (if b then flag fl (set_val f v o) else o) f = if b then v else opt_val o f.
Proof. intros H. destruct b; [by rewrite val_flag, val_set_eq | done]. Qed.
Lemma val_if_ne (b : bool) fl f g v o : g <> OUflags -> f <> g -> opt_val (if b then flag fl (set_val f v o) else o) g = opt_val o g.
Proof. intros H1 H2. destruct b; [by rewrite val_flag, val_set_ne | done]. Qed.

Ltac opt_vals := repeat first
  [rewrite val_set_eq | rewrite val_set_ne by done | rewrite val_if_eq by done | rewrite val_if_ne by done
  | rewrite val_update_char by done | rewrite val_first_date by done | rewrite val_touch by set_solver].

Lemma key_touch pp h fl o : opt_key (touch pp h fl o) = opt_key o.
Proof. unfold touch. by destruct (negb _). Qed.
Lemma key_first_date d o : opt_key (first_date d o) = opt_key o.
Proof. unfold first_date. by destruct (_ =? 0). Qed.
Lemma key_update_char f fl v o : opt_key (update_char f fl v o) = opt_key o.
Proof. unfold update_char. by destruct (_ =? v). Qed.
Lemma key_if (b : bool) fl f v o : opt_key (if b then flag fl (set_val f v o) else o) = opt_key o.
Proof. by destruct b. Qed.
Lemma key_set f v o : opt_key (set_val f v o) = opt_key o.
Proof. done. Qed.
Ltac opt_keys := repeat first [rewrite key_set | rewrite key_if | rewrite key_update_char | rewrite key_first_date | rewrite key_touch].

(** What a last sale changes *)
Lemma ls_update_vals pp now m prem o : -128 <= a_sessionIndicator m < 128 -> forall o', o' = ls_update pp m now prem o ->
  opt_val o' OOpenPrice = (if (0 <? prem) && (opt_val o OOpenPrice =? 0) then prem else opt_val o OOpenPrice) /\
  opt_val o' ODailyLow = (if (opt_val o ODailyLow =? 0) || (prem <? opt_val o ODailyLow) then prem else opt_val o ODailyLow) /\
  opt_val o' ODailyHigh = (if opt_val o ODailyHigh <? prem then prem else opt_val o ODailyHigh) /\
  opt_val o' OCumVolume = u64 (opt_val o OCumVolume + m.(a_volume)) /\
  opt_val o' OCumValue = u64 (opt_val o OCumValue + u64 (m.(a_volume) * prem)) /\
  opt_val o' OSession = m.(a_sessionIndicator) /\
  opt_val o' OSeqNum = m.(a_hdr).(seqNumber) /\ opt_key o' = opt_key o.
Proof.
  intros Hse o' ->. unfold ls_update. split_and!; opt_vals; opt_keys; try done.
  - by apply val_update_char_eq.
  - apply val_touch_seq.
Qed.

Lemma sale_pos ms x : Forall (fun m => 0 < prem_of m) ms -> x ∈ prem_of <$> ms -> 0 < x.
Proof. intros H Hx. apply list_elem_of_fmap in Hx as (m & -> & Hm). by apply (proj1 (Forall_forall _ _) H). Qed.

(** One more sale, which is not free *)
Lemma ls_update_sales pp now m ms o : opt_sales ms o -> Forall (fun m => 0 < prem_of m) ms -> 0 < prem_of m ->
  -128 <= a_sessionIndicator m < 128 -> opt_sales (ms ++ [m]) (ls_update pp m now (prem_of m) o).
Proof.
  intros Ho Hms Hp Hse. destruct (ls_update_vals pp now m (prem_of m) o Hse _ eq_refl) as (E1 & E2 & E3 & E4 & E5 & E6 & _).
  assert (Hs8 : s8 (a_sessionIndicator m) = a_sessionIndicator m) by (unfold s8; rewrite Z.mod_small; lia).
  assert (Hlast : exists m', last (ms ++ [m]) = Some m' /\ a_sessionIndicator m = s8 (a_sessionIndicator m')).
  { exists m. by rewrite last_snoc, Hs8. }
  destruct ms as [|m0 ms].
  - destruct Ho as (Ho1 & Ho2 & Ho3 & Ho4 & Ho5). cbn [opt_sales app]. rewrite E1, E2, E3, E4, E5, E6, Ho1, Ho2, Ho3, Ho4, Ho5. rewrite (proj2 (Z.ltb_lt _ _)) by done. cbn.
    constructor; [done | by split; [left | intros y ->%list_elem_of_singleton] .. | | | done]; cbn.
    + f_equal; lia.
    + rewrite Z.add_0_l. unfold u64. rewrite Z.mod_mod by lia. f_equal. lia.
  - cbn [opt_sales app] in *. rewrite E1, E2, E3, E4, E5, E6. destruct Ho as [H1 H2 H3 H4 H5 _].
    assert (Ho : 0 < opt_val o OOpenPrice) by (eapply sale_pos; [exact Hms|]; cbn in H1; injection H1 as <-; left).
    assert (Hl : 0 < opt_val o ODailyLow) by (eapply sale_pos; [exact Hms | apply H3]).
    rewrite (eqb_false_of_ne (opt_val o OOpenPrice)), (eqb_false_of_ne (opt_val o ODailyLow)), andb_false_r by lia. cbn [orb].
    change (m0 :: ms ++ [m]) with ((m0 :: ms) ++ [m]) in *. constructor.
    + done.
    + rewrite fmap_app. change (prem_of <$> [m]) with [prem_of m]. destruct (Z.ltb_spec (opt_val o ODailyHigh) (prem_of m)).
      * replace (prem_of m) with (Z.max (opt_val o ODailyHigh) (prem_of m)) at 1 by lia. by apply is_max_snoc.
      * replace (opt_val o ODailyHigh) with (Z.max (opt_val o ODailyHigh) (prem_of m)) by lia. by apply is_max_snoc.
    + rewrite fmap_app. change (prem_of <$> [m]) with [prem_of m]. destruct (Z.ltb_spec (prem_of m) (opt_val o ODailyLow)).
      * replace (prem_of m) with (Z.min (opt_val o ODailyLow) (prem_of m)) at 1 by lia. by apply is_min_snoc.
      * replace (opt_val o ODailyLow) with (Z.min (opt_val o ODailyLow) (prem_of m)) by lia. by apply is_min_snoc.
    + rewrite fmap_app. change (a_volume <$> [m]) with [a_volume m]. by rewrite total_snoc, H4, u64_plus.
    + rewrite fmap_app. change ((fun m => a_volume m * prem_of m) <$> [m]) with [a_volume m * prem_of m]. rewrite total_snoc, H5, u64_plus. unfold u64. by rewrite Zplus_mod_idemp_r.
    + done.
Qed.

(** A messaging layer that keeps what is sent *)
Definition keep_sent (m : opra_ml_msg) (sent : list opra_ml_msg) : Z * list opra_ml_msg := (FH_OK, sent ++ [m]).

Section run.
Notation M := (list opra_ml_msg).
Notation st_t := (opra_lines (opra_world M)).
Context (ocfg_topic_fmt : fh_opra_topic_fmt_t) (lo_malloc : lo_db -> lo_mallocs) (ml_opt_add : option (Z -> M -> Z * M))
  (stale_key : st_t -> list Z) (packs : msg_packs) (proc_id pp_flags : Z) (pow10_overflow : Z -> Z)
  (i : nat) (recv_time : Z) (now : st_t -> Z).
Notation ls_process :=
  (fh_opra_msg_ls_process ocfg_topic_fmt lo_malloc ml_opt_add stale_key keep_sent packs proc_id pp_flags pow10_overflow i recv_time now).

Definition sale_ok (kb : list Z) (m : CataMsg_v2) : Prop :=
  length (symbol (a_opt m)) = 5%nat /\ msg_key pow10_overflow (a_hdr m) (a_opt m) = kb /\ 0 < prem_of m /\ -128 <= a_sessionIndicator m < 128.
(** The sequence numbers do not go down, from [s] on. *)
Fixpoint in_sequence (s : Z) (ms : list CataMsg_v2) : Prop :=
  match ms with [] => True | m :: ms => s <= seqNumber (a_hdr m) /\ in_sequence (seqNumber (a_hdr m)) ms end.
Fixpoint run_ls (ms : list CataMsg_v2) (st : st_t) : option st_t :=
  match ms with [] => Some st | m :: ms => '(_, st) ← ls_process m st; run_ls ms st end.

(** What a message says about the sales so far, of which [m] is the last *)
Definition reports (ms : list CataMsg_v2) (x : ml_ls) : Prop :=
  sales ms (ls_open_price x) (ls_daily_high x) (ls_daily_low x) (ls_cum_volume x) (ls_cum_value x) (ls_session x) /\
  exists m, last ms = Some m /\ ls_prem_price x = prem_of m /\ ls_volume x = a_volume m /\
    mh_seq_num (ls_hdr x) = seqNumber (a_hdr m) /\ ls_exp_sp x = om_price (a_opt m).(explicitStrike) (a_opt m).(strikePriceDenomCode).

Lemma ls_process_known cap known kb a o m ms (st : st_t) : msg_ls_pack packs = None -> opt_table cap known st ->
  known !! kb = Some (a, o) -> opt_sales ms o -> Forall (fun m => 0 < prem_of m) ms -> sale_ok kb m ->
  opt_val o OSeqNum <= seqNumber (a_hdr m) -> exists st' o' x,
  ls_process m st = Some (FH_OK, st') /\ opt_table cap (<[kb := (a, o')]> known) st' /\ opt_sales (ms ++ [m]) o' /\
  opt_val o' OSeqNum = seqNumber (a_hdr m) /\ ow_ml (lines_world st') = ow_ml (lines_world st) ++ [MlLs x] /\ reports (ms ++ [m]) x.
Proof.
  intros Hpack Ht Hk Hs Hpos (H5 & Hkey & Hp & Hse) Hseq. unfold fh_opra_msg_ls_process.
  rewrite (on_option_known _ _ _ _ _ _ cap known _ _ _ a o st Ht H5) by (by rewrite Hkey).
  replace (late (a_hdr m) o) with false by (unfold late; symmetry; apply andb_false_iff; right; lia). rewrite Hpack. cbn zeta.
  fold (prem_of m). remember (ls_update pp_flags m (now st) (prem_of m) o) as o' eqn:Eo.
  pose proof (ls_update_sales pp_flags (now st) m ms o Hs Hpos Hp Hse) as Hs'. rewrite <- Eo in Hs'.
  destruct (ls_update_vals pp_flags (now st) m (prem_of m) o Hse o' Eo) as (_ & _ & _ & _ & _ & _ & Eseq & Ekey).
  destruct (tr_entries _ _ _ _ _ Ht _ _ _ Hk) as [_ Hkb].
  eexists _, o', _. split; [reflexivity|]. split; [by eapply put_opt_spec; [exact Ht | exact Hk | congruence]|].
  split; [done|]. split; [done|]. split; [reflexivity|]. split.
  - destruct ms; exact Hs'.
  - exists m. by rewrite last_snoc.
Qed.

Lemma run_ls_known cap kb ms : forall ds known a o (st : st_t), msg_ls_pack packs = None -> opt_table cap known st ->
  known !! kb = Some (a, o) -> opt_sales ds o -> Forall (fun m => 0 < prem_of m) ds -> Forall (sale_ok kb) ms ->
  in_sequence (opt_val o OSeqNum) ms -> exists st' xs,
  run_ls ms st = Some st' /\ ow_ml (lines_world st') = ow_ml (lines_world st) ++ (MlLs <$> xs) /\ length xs = length ms /\
  forall k x, xs !! k = Some x -> reports (ds ++ take (S k) ms) x.
Proof.
  induction ms as [|m ms IH]; intros ds known a o st Hpack Ht Hk Hs Hpos Hok Hseq.
  { exists st, []. split; [done|]. split; [by rewrite app_nil_r|]. done. }
  apply Forall_cons in Hok as [Hm Hok]. destruct Hseq as [Hseq1 Hseq2].
  destruct (ls_process_known cap known kb a o m ds st Hpack Ht Hk Hs Hpos Hm Hseq1) as (st1 & o1 & x & E & Ht1 & Hs1 & Eseq & Esent & Hx).
  destruct (IH (ds ++ [m]) (<[kb := (a, o1)]> known) a o1 st1) as (st' & xs & E' & Es' & El & Hxs); try done.
  - by rewrite lookup_insert_eq.
  - apply Forall_app. split; [done|]. constructor; [apply Hm | done].
  - by rewrite Eseq.
  - exists st', (x :: xs). split; [cbn [run_ls]; rewrite E; exact E'|]. split; [rewrite Es', Esent, <- app_assoc; done|].
    split; [cbn; by rewrite El|]. intros [|k] y Hy.
    + injection Hy as <-. exact Hx.
    + specialize (Hxs k y Hy). rewrite <- app_assoc in Hxs. exact Hxs.
Qed.

(** C16: functional. The last sales of an option, of which none is free and
    whose sequence numbers do not go down, are all sent on, each with the
    statistics of the day up to it: the first price as the opening price, the
    highest and the lowest price, the volume and the value that were traded
    (modulo [2^64]), and the session; prices with four digits behind the
    point. *)
Theorem opra_last_sales cap known kb a o ms (st : st_t) : msg_ls_pack packs = None -> opt_table cap known st ->
  known !! kb = Some (a, o) -> opt_sales [] o -> Forall (sale_ok kb) ms -> in_sequence (opt_val o OSeqNum) ms -> exists st' xs,
  run_ls ms st = Some st' /\ ow_ml (lines_world st') = ow_ml (lines_world st) ++ (MlLs <$> xs) /\ length xs = length ms /\
  forall k x, xs !! k = Some x -> reports (take (S k) ms) x.
Proof. intros Hpack Ht Hk Hs Hok Hseq. by apply (run_ls_known cap kb ms [] known a o st). Qed.
End run.

(** A memory that is large enough, and a database without listed options *)
Definition demo_allocs : allocs := MkAllocs true true (Some 100000) true true true true (Some 900000).
Definition demo_lo_mallocs (_ : lo_db) : lo_mallocs := MkLoMallocs (Some 2000000) (Some 3000000) true.
Lemma demo_lodb : exists db, lo_db_init demo_allocs = Some db.
Proof.
  assert (H : bool_decide (is_Some (lo_db_init demo_allocs)) = true) by (vm_compute; reflexivity).
  destruct (lo_db_init demo_allocs) as [db|]; [by exists db | done].
Qed.

(** A table with one option, IBM *)
Definition ibm : option_fields := MkOptionFields [73; 66; 77; 32; 32] 65 [50; 50] [48; 57] 66 12550 70.
Definition demo_hdr (seq : Z) : OpraMsgHdr_v2 := MkHdr 67 32 97 32 seq 34200000.
Definition ibm_sale (seq volume premium : Z) : CataMsg_v2 := MkCata (demo_hdr seq) ibm volume 66 premium 32.
Definition ibm_option : fh_opra_opt :=
  MkOpt (replicate 32 0) (msg_key (fun _ => 0) (demo_hdr 0) ibm) NULL [0; 0] [0; 0] (fun _ => 0).

Lemma demo_table o : exists a t, a <> NULL /\ tbl_repr opt_key sizeof_opt_key t 4 {[opt_key o := (a, o)]}.
Proof.
  destruct (lkp_init_spec opt_key sizeof_opt_key "OptionTable" sizeof_opt 100000 900000 4) as (t & _ & Ht & _);
    [unfold sizeof_opt_key, sizeof_opt; lia..|].
  pose proof (lkp_insert_spec opt_key sizeof_opt_key t 4 ∅ o Ht (lookup_empty _)) as H. cbn in H.
  destruct H as (a & t' & _ & Ha & _ & H). exists a, t'. split; [done|]. by rewrite insert_empty in H.
Qed.

(** C16's witness: three sales of an option that was not sold yet. *)
Lemma opra_last_sales_witness : exists (st st' : opra_lines (opra_world (list opra_ml_msg))) xs, ow_ml (lines_world st) = [] /\
  run_ls (MkTopicFmt 46 []) demo_lo_mallocs None (fun _ => []) no_packs 1 0 (fun _ => 0) 0 7 (fun _ => 7)
    [ibm_sale 5 10 325; ibm_sale 6 20 310; ibm_sale 9 5 330] st = Some st' /\
  ow_ml (lines_world st') = MlLs <$> xs /\ length xs = 3%nat.
Proof.
  destruct demo_lodb as [db _]. destruct (demo_table ibm_option) as (a & t & Ha & Ht).
  set (st := MkLines [] [] (MkWorld t db ([] : list opra_ml_msg))).
  destruct (opra_last_sales (MkTopicFmt 46 []) demo_lo_mallocs None (fun _ => []) no_packs 1 0 (fun _ => 0) 0 7 (fun _ => 7)
    4 _ (opt_key ibm_option) a ibm_option [ibm_sale 5 10 325; ibm_sale 6 20 310; ibm_sale 9 5 330] st eq_refl Ht (lookup_singleton_eq _ _))
    as (st' & xs & E & Es & El & _).
  - done.
  - repeat constructor; cbn; lia.
  - cbn. lia.
  - exists st, st', xs. done.
Defined.

(** ** After a reset of the sequence numbers *)

(** What leaves the options, the listed options and the messaging layer, and
    the number of lines *)
Section quiet.
Context {W : Type}.
Notation st_t := (opra_lines W).
Definition quiet (st st' : st_t) : Prop := lines_world st' = lines_world st /\ length (line_table st') = length (line_table st).
#[local] Instance quiet_refl : Reflexive quiet.
Proof. done. Qed.
#[local] Instance quiet_trans : Transitive quiet.
Proof. intros st1 st2 st3 [H1 H2] [H3 H4]. split; congruence. Qed.
Lemma quiet_with_line i f (st : st_t) : quiet st (with_line i f st).
Proof. split; [done|]. cbn. by rewrite length_alter. Qed.
Lemma quiet_with_ftline i f (st : st_t) : quiet st (with_ftline i f st).
Proof. done. Qed.
Lemma quiet_make_stale ftl f (st : st_t) : quiet st (make_stale None ftl f st).
Proof. unfold make_stale. by destruct (negb _). Qed.
Lemma quiet_ite (b : bool) st1 st2 (st : st_t) : quiet st st1 -> quiet st st2 -> quiet st (if b then st1 else st2).
Proof. by destruct b. Qed.
Hint Resolve quiet_refl quiet_with_line quiet_with_ftline quiet_make_stale quiet_ite : quiet.
Ltac quiet_steps := unfold count; repeat first
  [ solve [auto with quiet]
  | match goal with
    | |- quiet _ (with_line _ _ _) => etransitivity; [|apply quiet_with_line]
    | |- quiet _ (with_ftline _ _ _) => etransitivity; [|apply quiet_with_ftline]
    | |- quiet _ (make_stale _ _ _ _) => etransitivity; [|apply quiet_make_stale]
    | |- quiet _ (if _ then _ else _) => apply quiet_ite
    end ].

Lemma quiet_reset i sn (st st' : st_t) : lh_line_reset None i sn st = Some st' -> quiet st st'.
Proof.
  unfold lh_line_reset. intros H. repeat (case_match || simplify_option_eq); quiet_steps.
Qed.
Lemma quiet_win_step i sn (st st' : st_t) d : win_step None i sn st = Some (d, st') -> quiet st st'.
Proof.
  unfold win_step. intros H. repeat (case_match || simplify_option_eq); quiet_steps.
Qed.
Lemma quiet_win_loop n i : forall sn (st st' : st_t) d, win_loop None n i sn st = Some (d, st') -> quiet st st'.
Proof.
  induction n as [|n IH]; intros sn st st' d H; cbn in H; [by simplify_eq|].
  destruct (win_step None i sn st) as [[[] st1]|] eqn:E; cbn in H; simplify_eq; apply quiet_win_step in E; [done|].
  etransitivity; [exact E | by eapply IH].
Qed.
Lemma quiet_is_dup_sequence thr i sn num (st st' : st_t) d : is_dup_sequence None thr i sn num st = Some (d, st') -> quiet st st'.
Proof.
  unfold is_dup_sequence, fh_opra_lh_win_update. intros H. destruct (line_table st !! i) as [l|]; [|done]. cbn [mbind option_bind] in H.
  destruct (if _ <=? _ then _ else _) as [st1|] eqn:E1; [|done]. cbn [mbind option_bind] in H.
  assert (Q1 : quiet st st1).
  { destruct (_ <=? _); [|by simplify_eq]. destruct (lh_line_reset _ _ _ _) as [st2|] eqn:E2; [|done]. cbn in E1. simplify_eq.
    apply quiet_reset in E2. etransitivity; [exact E2|]. quiet_steps. }
  destruct (line_table st1 !! i) as [l1|]; [|done]. cbn [mbind option_bind] in H. etransitivity; [exact Q1|].
  destruct (negb _); [simplify_eq; quiet_steps | etransitivity; [|by eapply quiet_win_loop]; quiet_steps].
Qed.
Lemma quiet_is_dup thr i cat type sn num t (st st' : st_t) d : fh_opra_lh_is_dup None thr i cat type sn num t st = Some (d, st') -> quiet st st'.
Proof.
  unfold fh_opra_lh_is_dup. intros H. destruct (line_table st !! i) as [l|]; [|done]. cbn [mbind option_bind] in H.
  destruct (ftline_table st !! _) as [f|]; [|done]. cbn [mbind option_bind] in H. cbv zeta in H.
  set (st1 := is_dup_begin None (l_ftline l) f t st) in *.
  assert (Q1 : quiet st st1) by (unfold st1, is_dup_begin; quiet_steps). etransitivity; [exact Q1|].
  assert (Q : forall st2 : st_t, lh_line_reset None i sn st1 = Some st2 -> quiet st1 st2) by (intros st2; apply quiet_reset).
  repeat match type of H with
  | (if ?b then _ else _) = _ => destruct b
  | (lh_line_reset _ _ _ ?s ≫= _) = _ => destruct (lh_line_reset None i sn s) as [st2|] eqn:E; [|done]; apply quiet_reset in E; cbn [mbind option_bind] in H
  end; try (simplify_eq; try exact E; reflexivity); try (by eapply quiet_is_dup_sequence).
  all: etransitivity; [exact E | by eapply quiet_is_dup_sequence].
Qed.
End quiet.

(** Messages on an option *)
Inductive option_msg := MsgQuote (m : CatkMsg_v2) | MsgOpenInt (m : CatdMsg_v2) | MsgSale (m : CataMsg_v2) | MsgEod (m : CatfMsg_v2).
Definition option_hdr (m : option_msg) : OpraMsgHdr_v2 :=
  match m with MsgQuote m => k_hdr m | MsgOpenInt m => d_hdr m | MsgSale m => a_hdr m | MsgEod m => f_hdr m end.
Definition option_of (m : option_msg) : option_fields :=
  match m with MsgQuote m => k_opt m | MsgOpenInt m => d_opt m | MsgSale m => a_opt m | MsgEod m => f_opt m end.

Section silence.
Context {M : Type} (ocfg_topic_fmt : fh_opra_topic_fmt_t) (lo_malloc : lo_db -> lo_mallocs) (ml_opt_add : option (Z -> M -> Z * M))
  (stale_key : opra_lines (opra_world M) -> list Z) (ml_send : opra_ml_msg -> M -> Z * M) (packs : msg_packs)
  (proc_id pp_flags : Z) (pow10_overflow : Z -> Z) (i : nat) (recv_time : Z) (now : opra_lines (opra_world M) -> Z).
Notation st_t := (opra_lines (opra_world M)).

Definition process_option (m : option_msg) : st_t -> option (Z * st_t) :=
  match m with
  | MsgQuote m => fh_opra_msg_quote_process ocfg_topic_fmt lo_malloc ml_opt_add stale_key ml_send packs proc_id pp_flags pow10_overflow i recv_time now m
  | MsgOpenInt m => fh_opra_msg_oi_process ocfg_topic_fmt lo_malloc ml_opt_add stale_key ml_send packs proc_id pp_flags pow10_overflow i recv_time m
  | MsgSale m => fh_opra_msg_ls_process ocfg_topic_fmt lo_malloc ml_opt_add stale_key ml_send packs proc_id pp_flags pow10_overflow i recv_time now m
  | MsgEod m => fh_opra_msg_eod_process ocfg_topic_fmt lo_malloc ml_opt_add stale_key ml_send packs proc_id pp_flags pow10_overflow i recv_time m
  end.
Fixpoint process_options (ms : list option_msg) (st : st_t) : option st_t :=
  match ms with [] => Some st | m :: ms => '(_, st) ← process_option m st; process_options ms st end.

(** A message whose number is lower than that of the last one on its option *)
Definition numbered_before (known : gmap (list Z) (Z * fh_opra_opt)) (m : option_msg) : Prop :=
  length (symbol (option_of m)) = 5%nat /\ exists a o, known !! msg_key pow10_overflow (option_hdr m) (option_of m) = Some (a, o) /\
  0 < seqNumber (option_hdr m) < opt_val o OSeqNum.

Lemma process_late cap known m (st : st_t) : opt_table cap known st -> numbered_before known m -> is_Some (line_table st !! i) ->
  process_option m st = Some (FH_OK, count i MsgLate 1 st).
Proof.
  intros Ht (H5 & a & o & Hk & Hseq) [l Hl].
  assert (E : forall process, on_option ocfg_topic_fmt lo_malloc ml_opt_add stale_key pow10_overflow i (option_hdr m) (option_of m) process st
    = Some (FH_OK, count i MsgLate 1 st)).
  { intros process. rewrite (on_option_known _ _ _ _ _ _ cap known _ _ _ a o st Ht H5 Hk).
    replace (late (option_hdr m) o) with true by (unfold late; symmetry; apply andb_true_iff; lia).
    unfold fh_opra_lh_late_opt. by rewrite Hl. }
  destruct m; apply E.
Qed.

Lemma process_all_late cap known ms : forall st : st_t, opt_table cap known st -> Forall (numbered_before known) ms ->
  is_Some (line_table st !! i) -> process_options ms st = Some (Nat.iter (length ms) (count i MsgLate 1) st).
Proof.
  induction ms as [|m ms IH]; intros st Ht Hms Hl; [done|]. apply Forall_cons in Hms as [Hm Hms].
  cbn [process_options length]. rewrite (process_late cap known m st Ht Hm Hl). cbn [mbind option_bind].
  rewrite IH, Nat.iter_succ_r; [done | exact Ht | exact Hms|]. cbn. destruct Hl as [l Hl]. rewrite list_lookup_alter_eq, Hl. done.
Qed.

(** C39: error. The options keep their last sequence numbers when the numbers
    of a line are reset: after the reset, every quote, open interest, last sale
    and end of day message on a known option is only counted as late, until
    its option's number from before the reset is reached; the option is not
    updated and nothing is sent. *)
Theorem opra_reset_silences thr j sn num t cap known ms (st st1 : st_t) d : opt_table cap known st -> is_Some (line_table st !! i) ->
  fh_opra_lh_is_dup None thr j 72 75 sn num t st = Some (d, st1) -> Forall (numbered_before known) ms ->
  process_options ms st1 = Some (Nat.iter (length ms) (count i MsgLate 1) st1) /\
  lines_world (Nat.iter (length ms) (count i MsgLate 1) st1) = lines_world st.
Proof.
  intros Ht Hi Hdup Hms. apply quiet_is_dup in Hdup as [Hw Hlen]. split.
  - apply (process_all_late cap known ms st1).
    + unfold opt_table. by rewrite Hw.
    + done.
    + apply lookup_lt_is_Some. rewrite Hlen. by apply lookup_lt_is_Some.
  - rewrite <- Hw. induction (length ms) as [|n IH]; [done | exact IH].
Qed.
End silence.

(** An option whose last message had the number 900 *)
Definition ibm_at_900 : fh_opra_opt := set_val OSeqNum 900 ibm_option.

(** C39's witness: the numbers are reset to 1, and the sales 2 and 3 are lost. *)
Lemma opra_reset_silences_witness : exists st st1 : opra_lines (opra_world (list opra_ml_msg)),
  fh_opra_lh_is_dup None 2000 0 72 75 1 1 0 st = Some (true, st1) /\
  process_options (MkTopicFmt 46 []) demo_lo_mallocs None (fun _ => []) keep_sent no_packs 1 0 (fun _ => 0) 0 7 (fun _ => 7)
    [MsgSale (ibm_sale 2 10 325); MsgSale (ibm_sale 3 20 310)] st1 = Some (count 0 MsgLate 1 (count 0 MsgLate 1 st1)) /\
  ow_ml (lines_world st1) = [].
Proof.
  destruct demo_lodb as [db _]. destruct (demo_table ibm_at_900) as (a & t & Ha & Ht).
  set (ftl := MkFtLine [] (Some 0) 0 900 0 (lh_win_init 900) OPRA_FTLINE_STATE_OK 0).
  set (line p := MkLine 0 (fun _ => 0) 0 0 (Some p) 0 900).
  set (st := MkLines [line 1%nat; line 0%nat] [ftl] (MkWorld t db ([] : list opra_ml_msg))).
  destruct (fh_opra_lh_is_dup None 2000 0 72 75 1 1 0 st) as [[d st1]|] eqn:E.
  2: by vm_compute in E.
  assert (Hd : fst <$> fh_opra_lh_is_dup None 2000 0 72 75 1 1 0 st = Some true) by (vm_compute; reflexivity).
  rewrite E in Hd. injection Hd as ->.
  destruct (opra_reset_silences (MkTopicFmt 46 []) demo_lo_mallocs None (fun _ => []) keep_sent no_packs 1 0 (fun _ => 0) 0 7 (fun _ => 7)
    2000 0 1 1 0 4 _ [MsgSale (ibm_sale 2 10 325); MsgSale (ibm_sale 3 20 310)] st st1 true Ht (mk_is_Some _ _ eq_refl) E) as [E1 E2].
  - repeat constructor; exists a, ibm_at_900; (split; [by apply lookup_singleton_Some | done]).
  - exists st, st1. split; [done|]. split; [exact E1|]. exact (f_equal ow_ml E2).
Defined.
