(* ===== verification/OpraIntern.v ===== *)
(** * Looking options up refines numbering their keys

    A handler asks for the option of a key with [opra_opt_lookup]; the first
    question makes the option.  Below, any sequence of questions is answered
    as by a list of the keys that were asked for, in order of arrival. *)
From S2P Require Import Prelude Bytes Mpool HTable Lookup OpraLine OpraFast OpraOpt OpraMsgTheorems.

(** ** The reference: keys numbered in order of arrival *)

Definition number_of (k : list Z) (seen : list (list Z)) : option nat := fst <$> list_find (eq k) seen.
(** At most [cap] keys get a number. *)
Definition intern (cap : Z) (seen : list (list Z)) (k : list Z) : option nat * list (list Z) :=
  match number_of k seen with
  | Some n => (Some n, seen)
  | None => if Z.of_nat (length seen) =? cap then (None, seen) else (Some (length seen), seen ++ [k])
  end.
Fixpoint intern_all (cap : Z) (seen : list (list Z)) (ks : list (list Z)) : list (option nat) * list (list Z) :=
  match ks with
  | [] => ([], seen)
  | k :: ks => let '(n, seen) := intern cap seen k in let '(ns, seen) := intern_all cap seen ks in (n :: ns, seen)
  end.

Lemma number_of_Some k seen n : number_of k seen = Some n -> seen !! n = Some k.
Proof.
  unfold number_of. intros H. apply fmap_Some in H as ([n' k'] & H & ->). apply list_find_Some in H as (H & <- & _). exact H.
Qed.
Lemma number_of_None k seen : number_of k seen = None -> k ∉ seen.
Proof.
  unfold number_of. rewrite fmap_None, list_find_None. intros H Hk. by apply (proj1 (Forall_forall _ _) H _ Hk).
Qed.

(** ** The questions *)

Section lookups.
Context {M : Type} (ocfg_topic_fmt : fh_opra_topic_fmt_t) (lo_malloc : lo_db -> lo_mallocs) (ml_opt_add : option (Z -> M -> Z * M))
  (stale_key : opra_lines (opra_world M) -> list Z) (i : nat) (cap : Z).
Notation st_t := (opra_lines (opra_world M)).

(** A question has the symbol of the message, of five characters, in its
    key. *)
Definition ask (k : fh_opra_opt_key) : st_t -> option (Z * st_t) :=
  opra_opt_lookup ocfg_topic_fmt lo_malloc ml_opt_add stale_key i (k_year k) (k_month k) (k_day k) (k_putcall k) (k_decimal k)
    (k_fraction k) (k_exchid k) (k_symbol k).
Definition asked_key (k : fh_opra_opt_key) : fh_opra_opt_key :=
  MkOptKey (root_of (k_symbol k)) (k_year k) (k_month k) (k_day k) (k_putcall k) (k_exchid k) (k_fraction k) (k_decimal k).
Definition asked (k : fh_opra_opt_key) : list Z := opt_key_bytes (asked_key k).
Fixpoint ask_all (ks : list fh_opra_opt_key) (st : st_t) : option (list Z * st_t) :=
  match ks with
  | [] => Some ([], st)
  | k :: ks => '(a, st) ← ask k st; '(as_, st) ← ask_all ks st; Some (a :: as_, st)
  end.

(** The root of the key is in the list of options. *)
Definition root_listed (db : lo_db) (k : fh_opra_opt_key) : Prop :=
  exists lo, lo_db_lookup (strncpy 5 (k_symbol k) ++ [0]) db = Some (FH_OK, lo).
Definition question_ok (db : lo_db) (k : fh_opra_opt_key) : Prop :=
  length (k_symbol k) = 5%nat /\ root_listed db (asked_key k) /\ topic_ok ocfg_topic_fmt (asked_key k).

Lemma root_listed_ok k lo (st : st_t) :
  lo_db_lookup (strncpy 5 (k_symbol k) ++ [0]) (ow_lodb (lines_world st)) = Some (FH_OK, lo) ->
  root_ok lo_malloc k st lo (ow_lodb (lines_world st)).
Proof. intros H. unfold root_ok, fh_opra_lo_lookup. rewrite H. done. Qed.

(** The table holds an option for each number, at its address. *)
Record interned (db : lo_db) (seen : list (list Z)) (addr : list Z) (st : st_t) : Prop := {
  in_line : line_ok i st;
  in_lodb : ow_lodb (lines_world st) = db;
  in_nodup : NoDup seen;
  in_len : length addr = length seen;
  in_cap : Z.of_nat (length seen) <= cap;
  in_null : NULL ∉ addr;
  in_addr : NoDup addr;
  in_table : exists known, opt_table cap known st /\ pool_memory known st /\ dom known = list_to_set seen /\
    forall n k, seen !! n = Some k -> exists a o, addr !! n = Some a /\ known !! k = Some (a, o)
}.

Lemma ask_known db seen addr k n (st : st_t) : interned db seen addr st -> question_ok db k -> number_of (asked k) seen = Some n ->
  exists a, addr !! n = Some a /\ ask k st = Some (a, st).
Proof.
  intros H (H5 & _ & _) Hn. apply number_of_Some in Hn. destruct (in_table _ _ _ _ H) as (known & Ht & _ & _ & Hk).
  destruct (Hk _ _ Hn) as (a & o & Ha & Ho). exists a. split; [done|]. unfold ask, opra_opt_lookup.
  destruct (root_copy_five (stale_key st) _ H5) as [-> _]. cbn [mbind option_bind]. fold (asked_key k). fold (asked k).
  rewrite (opt_lookup_known cap known _ _ Ht), Ho. done.
Qed.

Lemma ask_unknown db seen addr k (st : st_t) : interned db seen addr st -> question_ok db k -> number_of (asked k) seen = None ->
  ask k st = ('(rc, opt, st) ← fh_opra_opt_add ocfg_topic_fmt lo_malloc ml_opt_add i (asked_key k) st;
              Some (if rc =? FH_OK then opt else NULL, st)).
Proof.
  intros H (H5 & _ & _) Hn. apply number_of_None in Hn. destruct (in_table _ _ _ _ H) as (known & Ht & _ & Hdom & _).
  unfold ask, opra_opt_lookup.
  destruct (root_copy_five (stale_key st) _ H5) as [-> _]. cbn [mbind option_bind]. fold (asked_key k). fold (asked k).
  rewrite (opt_lookup_known cap known _ _ Ht). replace (known !! asked k) with (@None (Z * fh_opra_opt)); [done|].
  symmetry. apply not_elem_of_dom. rewrite Hdom. by rewrite elem_of_list_to_set.
Qed.

Lemma size_seen (known : gmap (list Z) (Z * fh_opra_opt)) seen : NoDup seen -> dom known = list_to_set seen -> size known = length seen.
Proof. intros H1 H2. rewrite <- size_dom, H2. by apply size_list_to_set. Qed.

(** No room is left. *)
Lemma ask_full db seen addr k (st : st_t) : interned db seen addr st -> question_ok db k -> number_of (asked k) seen = None ->
  Z.of_nat (length seen) = cap -> exists st', ask k st = Some (NULL, st') /\ interned db seen addr st'.
Proof.
  intros H Hq Hn Hcap. rewrite (ask_unknown db seen addr k st H Hq Hn). destruct Hq as (H5 & [lo Hlo] & Ht).
  destruct H as [H1 H2 H3 H4 H5' H6 H7 (known & Htab & Hmem & Hdom & Hk)].
  destruct (lkp_insert_full opt_key sizeof_opt_key _ cap known Htab) as (mp & Emp & Eget); [by rewrite (size_seen _ seen)|].
  unfold fh_opra_opt_add. cbv zeta. rewrite <- H2 in Hlo. rewrite (root_listed_ok (asked_key k) lo st Hlo). cbn [mbind option_bind].
  change (negb (FH_OK =? FH_OK)) with false. cbn iota. rewrite Emp. cbn [mbind option_bind]. rewrite Eget. cbn [mbind option_bind].
  rewrite Z.eqb_refl. cbn [mbind option_bind]. eexists. split; [reflexivity|].
  constructor; try done. exists known. split; [|by split].
  unfold opt_table. cbn [with_world lines_world set_odb ow_odb]. rewrite <- Emp.
  unfold opt_table in Htab. destruct (ow_odb (lines_world st)). exact Htab.
Qed.

(** A new option *)
Lemma ask_new db seen addr k (st : st_t) : interned db seen addr st -> question_ok db k -> number_of (asked k) seen = None ->
  Z.of_nat (length seen) <> cap -> exists a st', ask k st = Some (a, st') /\ interned db (seen ++ [asked k]) (addr ++ [a]) st'.
Proof.
  intros H Hq Hn Hcap. rewrite (ask_unknown db seen addr k st H Hq Hn). destruct Hq as (H5 & [lo Hlo] & Ht).
  destruct H as [H1 H2 H3 H4 H5' H6 H7 (known & Htab & Hmem & Hdom & Hk)]. pose proof (number_of_None _ _ Hn) as Hnew.
  rewrite <- H2 in Hlo.
  destruct (opt_add_new ocfg_topic_fmt lo_malloc ml_opt_add i cap known (asked_key k) lo (ow_lodb (lines_world st)) st Htab Hmem) as
    (a & o & st' & E & Ha & _ & _ & Hfresh & Ht' & Hm' & Hl' & Hdb'); [..| rewrite E].
  - apply not_elem_of_dom. rewrite Hdom. by rewrite elem_of_list_to_set.
  - exact Ht.
  - exact H1.
  - by apply root_listed_ok.
  - by rewrite (size_seen _ seen).
  - cbn [mbind option_bind]. rewrite Z.eqb_refl. exists a, st'. split; [done|]. fold (asked k) in Ht', Hm'. constructor.
    + exact Hl'.
    + congruence.
    + apply NoDup_app. split; [done|]. split; [|apply NoDup_singleton]. intros x Hx ->%list_elem_of_singleton. done.
    + rewrite !length_app. cbn. lia.
    + rewrite length_app. cbn. lia.
    + rewrite elem_of_app, list_elem_of_singleton. intros [?|?]; congruence.
    + apply NoDup_app. split; [done|]. split; [|apply NoDup_singleton]. intros x Hx ->%list_elem_of_singleton.
      apply list_elem_of_lookup in Hx as [n Hn']. assert (n < length seen)%nat by (rewrite <- H4; by eapply lookup_lt_Some).
      destruct (lookup_lt_is_Some_2 seen n) as [k' Hk']; [done|]. destruct (Hk _ _ Hk') as (a' & o' & Ha' & Ho').
      apply (Hfresh _ _ _ Ho'). congruence.
    + exists (<[asked k := (a, o)]> known). split; [done|]. split; [done|]. split.
      { rewrite dom_insert_L, Hdom, list_to_set_app_L. cbn. set_solver. }
      intros n k' [Hk'|[Hge Hk']]%lookup_app_Some.
      * destruct (Hk _ _ Hk') as (a' & o' & Ha' & Ho'). exists a', o'. split; [by apply lookup_app_l_Some|].
        rewrite lookup_insert_ne; [done|]. intros E2. apply Hnew. rewrite E2. by eapply list_elem_of_lookup_2.
      * apply list_lookup_singleton_Some in Hk' as [Hz <-]. exists a, o. split; [|by rewrite lookup_insert_eq].
        rewrite lookup_app_r by lia. by replace (n - length addr)%nat with 0%nat by lia.
Qed.

(** One question *)
Lemma ask_interns db seen addr k (st : st_t) : interned db seen addr st -> question_ok db k ->
  let '(n, seen') := intern cap seen (asked k) in exists a addr' st',
  ask k st = Some (a, st') /\ interned db seen' addr' st' /\ addr `prefix_of` addr' /\ a = default NULL (n ≫= (addr' !!.)).
Proof.
  intros H Hq. unfold intern. destruct (number_of (asked k) seen) as [n|] eqn:En.
  - destruct (ask_known db seen addr k n st H Hq En) as (a & Ha & E). exists a, addr, st. cbn. by rewrite Ha.
  - destruct (Z.eqb_spec (Z.of_nat (length seen)) cap) as [Hc|Hc].
    + destruct (ask_full db seen addr k st H Hq En Hc) as (st' & E & H'). by exists NULL, addr, st'.
    + destruct (ask_new db seen addr k st H Hq En Hc) as (a & st' & E & H'). exists a, (addr ++ [a]), st'.
      split; [done|]. split; [done|]. split; [by apply prefix_app_r|]. cbn. rewrite <- (in_len _ _ _ _ H).
      by rewrite list_lookup_middle.
Qed.

(** C22: refinement. Asking for options refines numbering the keys in order of
    arrival: whatever the questions, an option that was asked for before has
    the same address again, a new one has an address that no other option
    has, and when the table is full a new key has no option, but the known
    ones still have theirs; the state stays one of which this holds. *)
Theorem opra_lookup_interns db ks : forall seen addr (st : st_t), interned db seen addr st -> Forall (question_ok db) ks ->
  let '(ns, seen') := intern_all cap seen (asked <$> ks) in exists answers addr' st',
  ask_all ks st = Some (answers, st') /\ interned db seen' addr' st' /\ addr `prefix_of` addr' /\
  answers = (fun n => default NULL (n ≫= (addr' !!.))) <$> ns.
Proof.
  induction ks as [|k ks IH]; intros seen addr st H Hks; [by exists [], addr, st|]. apply Forall_cons in Hks as [Hq Hks].
  pose proof (ask_interns db seen addr k st H Hq) as H1. cbn [fmap list_fmap intern_all]. fold (fmap asked ks).
  destruct (intern cap seen (asked k)) as [n seen1] eqn:En. destruct H1 as (a & addr1 & st1 & E1 & H1 & Hp1 & Ha).
  specialize (IH seen1 addr1 st1 H1 Hks). destruct (intern_all cap seen1 (asked <$> ks)) as [ns seen'] eqn:Ens.
  destruct IH as (answers & addr' & st' & E' & H' & Hp' & ->). exists (a :: ((fun n => default NULL (n ≫= (addr' !!.))) <$> ns)), addr', st'.
  cbn [ask_all]. rewrite E1. cbn [mbind option_bind]. rewrite E'. split; [done|]. split; [done|]. split; [by etransitivity|].
  cbn [fmap list_fmap]. f_equal. subst a. destruct n as [n|]; [|done]. cbn [mbind option_bind].
  assert (Hn : (n < length addr1)%nat).
  { rewrite (in_len _ _ _ _ H1). unfold intern in En. destruct (number_of (asked k) seen) as [n'|] eqn:E.
    - injection En as -> ->. apply number_of_Some in E. by eapply lookup_lt_Some.
    - destruct (_ =? cap); [done|]. injection En as <- <-. rewrite length_app. cbn. lia. }
  destruct Hp' as [t ->]. by rewrite lookup_app_l.
Qed.

(** A new table *)
Lemma interned_new db t ml ls fs : tbl_repr opt_key sizeof_opt_key t cap ∅ -> tbl_entries t = ∅ ->
  line_ok i (MkLines ls fs (MkWorld t db ml) : st_t) -> 0 <= cap -> interned db [] [] (MkLines ls fs (MkWorld t db ml)).
Proof.
  intros Ht He Hl Hc. constructor; try done; try constructor; try (by apply not_elem_of_nil).
  exists ∅. split; [done|]. split; [intros a e Ha; cbn in Ha; by rewrite He, lookup_empty in Ha|]. split; [by rewrite dom_empty_L|]. done.
Qed.
End lookups.

(** The symbol and the exchange as topic, and two roots in the list *)
Definition demo_format : fh_opra_topic_fmt_t := MkTopicFmt 46 [Some [36; 83]; Some [36; 88]].
Definition demo_ibm : fh_opra_opt_key := MkOptKey [73; 66; 77; 32; 32] 9 1 22 67 67 50 125.
Definition demo_ge : fh_opra_opt_key := MkOptKey [71; 69; 32; 32; 32] 9 1 22 80 67 0 15.
Definition demo_t : fh_opra_opt_key := MkOptKey [84; 32; 32; 32; 32] 9 1 22 80 67 0 30.
Definition demo_roots : option lo_db :=
  db ← lo_db_init demo_allocs;
  '(_, _, db) ← fh_opra_lo_lookup (demo_lo_mallocs db) [73; 66; 77; 0; 0] db;
  '(_, _, db) ← fh_opra_lo_lookup (demo_lo_mallocs db) [71; 69; 0; 0; 0] db;
  '(_, _, db) ← fh_opra_lo_lookup (demo_lo_mallocs db) [84; 0; 0; 0; 0] db;
  Some db.

Lemma demo_question k : k ∈ [demo_ibm; demo_ge; demo_t] -> exists db, demo_roots = Some db /\ question_ok demo_format db k.
Proof.
  intros Hk. assert (H : forallb (fun k => match demo_roots with
      Some db => match lo_db_lookup (strncpy 5 (root_of (k_symbol k)) ++ [0]) db with Some (rc, _) => rc =? FH_OK | None => false end
    | None => false end) [demo_ibm; demo_ge; demo_t] = true) by (vm_compute; reflexivity).
  apply list_elem_of_In in Hk. apply (proj1 (forallb_forall _ _) H) in Hk as Hr. destruct demo_roots as [db|]; [|done].
  exists db. split; [done|]. split; [by repeat (destruct Hk as [<-|Hk]; [done|])|]. split.
  - unfold root_listed. cbn [asked_key k_symbol]. destruct (lo_db_lookup _ _) as [[rc lo]|]; [|done]. apply Z.eqb_eq in Hr as ->. by exists lo.
  - intros topic Hlen. do 32 (destruct topic as [|? topic]; [done|]). destruct topic; [|done].
    repeat (destruct Hk as [<-|Hk]; [vm_compute; by eexists|]). done.
Qed.

(** C22's witness: a table for two options, and three keys. *)
Lemma opra_lookup_interns_witness : exists db answers addr (st' : opra_lines (opra_world unit)) st,
  ask_all demo_format demo_lo_mallocs None (fun _ => []) 0 [demo_ibm; demo_ge; demo_ibm; demo_t; demo_ge] st = Some (answers, st') /\
  interned 0 2 db (asked <$> [demo_ibm; demo_ge]) addr st' /\
  answers = [default NULL (addr !! 0%nat); default NULL (addr !! 1%nat); default NULL (addr !! 0%nat); NULL; default NULL (addr !! 1%nat)].
Proof.
  destruct (demo_question demo_ibm) as (db & Edb & Hibm); [by left|].
  destruct (demo_question demo_ge) as (db1 & Edb1 & Hge); [by right; left|]. rewrite Edb in Edb1. injection Edb1 as <-.
  destruct (demo_question demo_t) as (db1 & Edb1 & Ht); [by right; right; left|]. rewrite Edb in Edb1. injection Edb1 as <-.
  destruct (lkp_init_spec opt_key sizeof_opt_key "OptionTable" sizeof_opt 100000 900000 2) as (t & _ & Htab & Hent);
    [unfold sizeof_opt_key, sizeof_opt; lia..|].
  set (st := MkLines [MkLine 0 (fun _ => 0) 0 0 None 0 0] [MkFtLine [] (Some 7) 0 0 0 (lh_win_init 0) 0 0] (MkWorld t db tt)).
  assert (H0 : interned 0 2 db [] [] st).
  { apply interned_new; [exact Htab | exact Hent | | done]. eexists _, _, _. split; [exact eq_refl|]. split; exact eq_refl. }
  assert (Hq : Forall (question_ok demo_format db) [demo_ibm; demo_ge; demo_ibm; demo_t; demo_ge]).
  { apply Forall_cons; split; [exact Hibm|]. apply Forall_cons; split; [exact Hge|]. apply Forall_cons; split; [exact Hibm|].
    apply Forall_cons; split; [exact Ht|]. apply Forall_cons; split; [exact Hge|]. apply Forall_nil_2. }
  pose proof (opra_lookup_interns demo_format demo_lo_mallocs None (fun _ => []) 0 2 db [demo_ibm; demo_ge; demo_ibm; demo_t; demo_ge]
    [] [] st H0 Hq) as H.
  replace (intern_all 2 [] (asked <$> [demo_ibm; demo_ge; demo_ibm; demo_t; demo_ge]))
    with ([Some 0%nat; Some 1%nat; Some 0%nat; None; Some 1%nat], asked <$> [demo_ibm; demo_ge]) in H by (vm_compute; reflexivity).
  destruct H as (answers & addr & st' & E & H' & _ & Ea). exists db, answers, addr, st', st.
  split; [exact E|]. split; [exact H'|]. exact Ea.
Defined.
