(* ===== verification/Cli.v ===== *)
(** * The command tree of the command line interface
      ([src/mgmt/cli/fh_cli_cmd.c], [fh_cli_filter.c])

    Commands are nodes in memory with their children in a list; a line is
    split into arguments, which select commands by abbreviation. *)
From S2P Require Import Prelude Config.

(** ** Strings, without their NUL *)

(** [strncmp(a, b, n) == 0] *)
Definition strn_eq (n : nat) (a b : list Z) : bool := bool_decide (take n (a ++ [0]) = take n (b ++ [0])).
Definition tolower (c : Z) : Z := if (65 <=? c) && (c <=? 90) then c + 32 else c.
(** [strncasecmp(a, b, n) == 0] *)
Definition strncase_eq (n : nat) (a b : list Z) : bool := strn_eq n (tolower <$> a) (tolower <$> b).
Definition isspace (c : Z) : bool := (c =? 32) || ((9 <=? c) && (c <=? 13)).

(** ** The tree ([fh_cli_cmd.h]) *)

Definition FH_CLI_CMD_MODE_DEFAULT : Z := 1.

(** The [tailq] of a node is the list of its elements; [c_callback] names a
    function. *)
Record fh_cli_cmd := MkCmd {
  c_children : list Z;
  c_parent : Z;
  c_name : list Z;
  c_uniq_len : Z; c_len : Z;      (* uint16_t *)
  c_mode : Z;
  c_help : option (list Z);
  c_callback : option nat
}.
Definition set_c_children l c :=
  MkCmd l c.(c_parent) c.(c_name) c.(c_uniq_len) c.(c_len) c.(c_mode) c.(c_help) c.(c_callback).
Definition set_c_uniq_len n c :=
  MkCmd c.(c_children) c.(c_parent) c.(c_name) n c.(c_len) c.(c_mode) c.(c_help) c.(c_callback).

(** [cmd_list] and [cmd_mode], and the nodes. *)
Record cli := MkCli { cmd_nodes : gmap Z fh_cli_cmd; cmd_list : list Z; cmd_mode : Z }.
Definition set_nodes (m : gmap Z fh_cli_cmd) (t : cli) : cli := MkCli m t.(cmd_list) t.(cmd_mode).

Definition fh_cli_cmd_init (t : cli) : cli := MkCli t.(cmd_nodes) [] t.(cmd_mode).
Definition fh_cli_cmd_set_mode (new_mode : Z) (t : cli) : cli :=
  if t.(cmd_mode) =? new_mode then t else MkCli t.(cmd_nodes) t.(cmd_list) new_mode.
Definition fh_cli_cmd_dft_mode : cli -> cli := fh_cli_cmd_set_mode FH_CLI_CMD_MODE_DEFAULT.

(** The list of a node, or of the tree for [NULL] *)
Definition list_at (t : cli) (parent : Z) : option (list Z) :=
  if parent =? NULL then Some t.(cmd_list) else c_children <$> t.(cmd_nodes) !! parent.
Definition set_list_at (parent : Z) (l : list Z) (t : cli) : cli :=
  if parent =? NULL then MkCli t.(cmd_nodes) l t.(cmd_mode) else set_nodes (alter (set_c_children l) parent t.(cmd_nodes)) t.

(** ** Unique lengths *)

(** Whether a sibling [tmp_c] has the first [n] characters of [c] *)
Definition found_match (m : gmap Z fh_cli_cmd) (cmd_lh : list Z) (c : Z) (name : list Z) (n : Z) : option bool :=
  foldr (fun tmp_c found =>
    found ← found;
    if c =? tmp_c then Some found
    else tmp ← m !! tmp_c; Some (found || strn_eq (Z.to_nat n) tmp.(c_name) name)) (Some false) cmd_lh.

(** The loop over [c_uniq_len] *)
Fixpoint uniq_loop (fuel : nat) (m : gmap Z fh_cli_cmd) (cmd_lh : list Z) (c : Z) (name : list Z) (len n : Z) : option Z :=
  match fuel with
  | 0%nat => None
  | S fuel =>
      if n <=? len then
        found ← found_match m cmd_lh c name n;
        if found : bool then uniq_loop fuel m cmd_lh c name len (u16 (n + 1)) else Some n
      else Some n
  end.

(** [cmd_build]; the fuel is the depth of the tree. *)
Fixpoint cmd_build (fuel : nat) (cmd_lh : list Z) (m : gmap Z fh_cli_cmd) : option (gmap Z fh_cli_cmd) :=
  match fuel with
  | 0%nat => None
  | S fuel =>
      foldl (fun m c =>
        m ← m;
        node ← m !! c;
        n ← uniq_loop (S (Z.to_nat node.(c_len))) m cmd_lh c node.(c_name) node.(c_len) 1;
        let m := <[c := set_c_uniq_len n node]> m in
        match node.(c_children) with [] => Some m | _ => cmd_build fuel node.(c_children) m end) (Some m) cmd_lh
  end.

(** ** Registration *)

(** [fh_cli_cmd_register]; [malloc] is the address of the new node, if there
    is memory. *)
Definition fh_cli_cmd_register (malloc : option Z) (parent : Z) (cmd_name : option (list Z)) (mode : Z) (cmd_cb : option nat)
    (help : option (list Z)) (t : cli) : option (Z * cli) :=
  match cmd_name, malloc with
  | Some name, Some c =>
      let node := MkCmd [] parent name 0 (u16 (Z.of_nat (length name))) mode help cmd_cb in
      l ← list_at t parent;
      let t := set_list_at parent (c :: l) (set_nodes (<[c := node]> t.(cmd_nodes)) t) in
      m ← cmd_build (S (size t.(cmd_nodes))) (c :: l) t.(cmd_nodes);
      Some (c, set_nodes m t)
  | _, _ => Some (NULL, t)
  end.

(** [fh_cli_cmd_unregister]; the loop takes the first child as long as there
    is one. *)
Fixpoint fh_cli_cmd_unregister (fuel : nat) (c : Z) (t : cli) : option cli :=
  match fuel with
  | 0%nat => None
  | S fuel =>
      node ← t.(cmd_nodes) !! c;
      l ← list_at t node.(c_parent);
      let children := fix children (n : nat) (t : cli) : option cli :=
        match n with
        | 0%nat => None
        | S n =>
            node ← t.(cmd_nodes) !! c;
            match node.(c_children) with
            | [] => Some t
            | child_c :: _ => t ← fh_cli_cmd_unregister fuel child_c t; children n t
            end
        end in
      t ← children (S (size t.(cmd_nodes))) (set_list_at node.(c_parent) (filter (fun d => d <> c) l) t);
      Some (set_nodes (delete c t.(cmd_nodes)) t)
  end.

(** ** Names *)

(** [fh_cli_cmd_search]: the command as segments, cut at its periods *)
Fixpoint segments (command : list Z) : list Z * list (list Z) :=
  match command with
  | [] => ([], [])
  | b :: command =>
      let '(s, ss) := segments command in if b =? 46 then ([], s :: ss) else (b :: s, ss)
  end.
Fixpoint find_name (m : gmap Z fh_cli_cmd) (name : list Z) (lh : list Z) : option (option (Z * fh_cli_cmd)) :=
  match lh with
  | [] => Some None
  | c :: lh => node ← m !! c; if bool_decide (node.(c_name) = name) then Some (Some (c, node)) else find_name m name lh
  end.
Fixpoint search (t : cli) (lh : list Z) (seg : list Z) (segs : list (list Z)) : option Z :=
  found ← find_name t.(cmd_nodes) seg lh;
  match found, segs with
  | None, _ => Some NULL
  | Some (c, _), [] => Some c
  | Some (c, node), seg :: segs => search t node.(c_children) seg segs
  end.
Definition fh_cli_cmd_search (t : cli) (parent : Z) (command : list Z) : option Z :=
  lh ← list_at t parent; let '(seg, segs) := segments command in search t lh seg segs.

(** [fh_cli_cmd_fullname]: [room] bytes are left in front of [ptr], and
    [name] begins there. *)
Fixpoint fullname (fuel : nat) (m : gmap Z fh_cli_cmd) (c : Z) (room : Z) (name : option (list Z)) : option (list Z) :=
  if c =? NULL then Some (default [] name)
  else
    match fuel with
    | 0%nat => None
    | S fuel =>
        node ← m !! c;
        let room := room - (node.(c_len) + 1) in
        guard (0 <= room);;
        let name' := match name with None => node.(c_name) | Some rest => node.(c_name) ++ 32 :: rest end in
        fullname fuel m node.(c_parent) room (Some name')
    end.
Definition fh_cli_cmd_fullname (m : gmap Z fh_cli_cmd) (c : Z) : option (list Z) := fullname (S (size m)) m c 1024 None.

(** ** Splitting a line *)

(** [fh_cli_cmd_parse]: [p] is what is left of the line, [arg] what was read
    of an argument since [arg_start]; [inquote] is 0 or the quote. *)
Fixpoint parse_args (fuel : nat) (max_args : nat) (p : list Z) (arg : option (list Z)) (inquote : Z) (args : list (list Z))
    : option (list (list Z)) :=
  match fuel with
  | 0%nat => None
  | S fuel =>
      if (length args <? max_args - 1)%nat then
        let push args := match arg with Some a => args ++ [a] | None => args end in
        match p with
        | [] => Some (push args)
        | b :: p' =>
            if (b =? inquote) || (match arg with Some _ => (inquote =? 0) && (isspace b || (b =? 124)) | None => false end) then
              parse_args fuel max_args (if negb (inquote =? 0) then p' else p) None 0 (push args)
            else if (b =? 34) || (b =? 39) then parse_args fuel max_args p' (Some []) b args
            else
              match arg with
              | Some a => parse_args fuel max_args p' (Some (a ++ [b])) inquote args
              | None =>
                  if b =? 124 then parse_args fuel max_args p' None inquote (args ++ [[124]])
                  else if negb (isspace b) then parse_args fuel max_args p' (Some [b]) inquote args
                  else parse_args fuel max_args p' None inquote args
              end
        end
      else Some args
  end.
Definition fh_cli_cmd_parse (cmd : list Z) (max_args : nat) : option (list (list Z)) :=
  parse_args (S (2 * length cmd)) max_args cmd (Some []) 0 [].

(** ** Output ([fh_cli_filter.c], [fh_cli.c]) *)

Notation bytes := Config.c_str (only parsing).

(** What the engine changes: the tree, the filter ([rep] and [exclude]), what
    is on the terminal, and the rest of the program. *)
Record cli_state (W : Type) := MkCliState { st_tree : cli; rep : option (list Z -> bool); exclude : bool; st_out : list Z; st_world : W }.
Arguments MkCliState {W}.
Arguments st_tree {W}.
Arguments rep {W}.
Arguments exclude {W}.
Arguments st_out {W}.
Arguments st_world {W}.

Section engine.
Context {W : Type}.
(** [regcomp] and [regexec]; the functions of the commands, which get the full
    name, the array, and the place and number of their arguments in it *)
Context (regcomp : list Z -> option (list Z -> bool)) (callback : nat -> list Z -> list (list Z) -> nat -> nat -> cli_state W -> option (Z * cli_state W)).
Notation st_t := (cli_state W).

Definition set_filter r (st : st_t) : st_t := MkCliState st.(st_tree) r st.(exclude) st.(st_out) st.(st_world).
Definition set_exclude b (st : st_t) : st_t := MkCliState st.(st_tree) st.(rep) b st.(st_out) st.(st_world).

Definition fh_cli_filter_match (s : list Z) (st : st_t) : Z :=
  match st.(rep) with
  | None => 1
  | Some regexec =>
      let rc := if regexec s then 0 else -1 in
      if st.(exclude) then (if rc =? 0 then -1 else 0) else rc
  end.

(** [fh_cli_write], of a formatted text *)
Definition fh_cli_write (text : list Z) (st : st_t) : st_t :=
  let buffer := take 1023 text in
  if negb (fh_cli_filter_match buffer st =? 0) then
    MkCliState st.(st_tree) st.(rep) st.(exclude) (st.(st_out) ++ buffer) st.(st_world)
  else st.
Definition fh_cli_print (cmd help : list Z) : st_t -> st_t :=
  fh_cli_write (bytes "  " ++ cmd ++ replicate (15 - length cmd) 32 ++ bytes " - " ++ help ++ [10]).

Definition fh_cli_filter_init (filter regexp : list Z) (st : st_t) : Z * st_t :=
  let bad what st := (-1, fh_cli_write what (set_filter None st)) in
  let compile st :=
    match regcomp regexp with
    | None => bad (bytes "Invalid regexp " ++ [34] ++ regexp ++ [34; 10]) st
    | Some r => (0, set_filter (Some r) st)
    end in
  if strn_eq (length filter) filter (bytes "exclude") then compile (set_exclude false st)
  else if strn_eq (length filter) filter (bytes "include") then compile (set_exclude true st)
  else bad (bytes "Invalid filter keyword: " ++ filter ++ [10]) st.
Definition fh_cli_filter_clean (st : st_t) : st_t := set_filter None st.

(** [fh_cli_cmd_print], [fh_cli_cmd_help] *)
Definition fh_cli_cmd_print (c : Z) (full : bool) (st : st_t) : option st_t :=
  node ← st.(st_tree).(cmd_nodes) !! c;
  name ← (if full then fh_cli_cmd_fullname st.(st_tree).(cmd_nodes) c else Some node.(c_name));
  Some (fh_cli_print name (default (bytes "<No help>") node.(c_help)) st).
Definition fh_cli_cmd_help (cmd_lh : list Z) (st : st_t) : option st_t :=
  foldl (fun st c =>
    st ← st;
    node ← st.(st_tree).(cmd_nodes) !! c;
    if node.(c_mode) <=? st.(st_tree).(cmd_mode) then fh_cli_cmd_print c true st else Some st) (Some st) cmd_lh.

(** ** Finding and running a command *)

(** The part of [fh_cli_cmd_find] for an argument that ends in ['?']: each
    command it begins is printed, or (if [match_c] is not [NULL]) the last one
    is kept and they are counted. *)
Fixpoint find_help (cmd_list : list Z) (arg_p : list Z) (l : nat) (print : bool) (match_ : Z) (match_c : Z) (st : st_t)
    : option (Z * Z * st_t) :=
  match cmd_list with
  | [] => Some (match_, match_c, st)
  | c :: cmd_list =>
      node ← st.(st_tree).(cmd_nodes) !! c;
      if strncase_eq l node.(c_name) arg_p && (node.(c_mode) <=? st.(st_tree).(cmd_mode)) then
        if print then st ← fh_cli_cmd_print c false st; find_help cmd_list arg_p l print match_ match_c st
        else find_help cmd_list arg_p l print (match_ + 1) c st
      else find_help cmd_list arg_p l print match_ match_c st
  end.

(** The first command that the argument selects *)
Fixpoint select (m : gmap Z fh_cli_cmd) (cmd_list : list Z) (arg_p : list Z) : option (option (Z * fh_cli_cmd)) :=
  match cmd_list with
  | [] => Some None
  | c :: cmd_list =>
      node ← m !! c;
      if negb (strncase_eq (Z.to_nat node.(c_uniq_len)) node.(c_name) arg_p) then select m cmd_list arg_p
      else if negb (strncase_eq (length arg_p) node.(c_name) arg_p) then select m cmd_list arg_p
      else Some (Some (c, node))
  end.

(** The end of [fh_cli_cmd_find]: the filter, the function of the command, and
    what is said of its result. *)
Definition run_command (num_args c_args : nat) (args : list (list Z)) (arg : nat) (arg_p : list Z) (filters : bool)
    (c : Z) (node : fh_cli_cmd) (st : st_t) : option (Z * st_t) :=
  f ← node.(c_callback);
  st ← (if filters && negb (c_args =? num_args)%nat then
          if negb (num_args - c_args =? 3)%nat then Some (fh_cli_write (bytes "Invalid filter argument count" ++ [10]) st)
          else
            filter ← args !! (c_args + 1)%nat;
            regexp ← args !! (c_args + 2)%nat;
            Some (snd (fh_cli_filter_init filter regexp st))
        else Some st);
  full ← fh_cli_cmd_fullname st.(st_tree).(cmd_nodes) c;
  '(rc, st) ← callback f full args (arg + 1)%nat (c_args - arg - 1)%nat st;
  let st := if filters : bool then fh_cli_filter_clean st else st in
  if negb (rc =? 0) then
    node ← st.(st_tree).(cmd_nodes) !! c;
    Some (rc, fh_cli_write (bytes "Invalid " ++ (if negb (node.(c_parent) =? NULL) then bytes "argument" else bytes "command")
                             ++ [32; 34] ++ arg_p ++ [34; 10]) st)
  else Some (rc, st).

(** [fh_cli_cmd_find]: the result, [*match_c] ([NULL] if it is not set), and
    the state. [filters] is its first element, if there is an array. *)
Fixpoint fh_cli_cmd_find (fuel : nat) (cmd_list : list Z) (num_args : nat) (args : list (list Z)) (arg : nat) (filters : option nat)
    (match_c : bool) (st : st_t) : option (Z * Z * st_t) :=
  match fuel with
  | 0%nat => None
  | S fuel =>
      let c_args := match filters with Some (S n) => S n | _ => num_args end in
      arg_p ← args !! arg;
      last ← last arg_p;
      if last =? 63 then
        '(match_, mc, st) ← find_help cmd_list arg_p (length arg_p - 1) (negb match_c) 0 NULL st;
        Some (if match_c && (match_ =? 0) then -1 else match_, mc, st)
      else
        found ← select st.(st_tree).(cmd_nodes) cmd_list arg_p;
        match found with
        | None => Some (-1, NULL, st)
        | Some (c, node) =>
            match node.(c_children) with
            | [] =>
                match node.(c_callback) with
                | None =>
                    full ← fh_cli_cmd_fullname st.(st_tree).(cmd_nodes) c;
                    Some (-1, NULL, fh_cli_write (bytes "No callback for " ++ [34] ++ full ++ [34; 10]) st)
                | Some _ =>
                    '(rc, st) ← run_command num_args c_args args arg arg_p (bool_decide (is_Some filters)) c node st;
                    Some (rc, NULL, st)
                end
            | children =>
                if (arg =? c_args - 1)%nat then Some (0, NULL, fh_cli_write (bytes "Incomplete command" ++ [10]) st)
                else fh_cli_cmd_find fuel children num_args args (S arg) filters match_c st
            end
        end
  end.

(** ** A line *)

Definition MAX_ARGS : nat := 128.
Definition MAX_FILT : nat := 128.
Fixpoint skip_spaces (cmd : list Z) : list Z :=
  match cmd with b :: cmd' => if isspace b then skip_spaces cmd' else cmd | [] => [] end.

(** The indices of the arguments that begin with ['|'], ended by 0: the first
    element of the array *)
Definition first_filter (args : list (list Z)) : nat :=
  match list_find (fun a => head a = Some 124) args with Some (i, _) => i | None => 0%nat end.

(** [fh_cli_cmd_process] *)
Definition fh_cli_cmd_process (cmd : list Z) (st : st_t) : option (Z * st_t) :=
  match skip_spaces cmd with
  | [] => Some (0, st)
  | cmd =>
      args ← fh_cli_cmd_parse cmd MAX_ARGS;
      match args with
      | [] => Some (0, st)
      | _ =>
          '(rc, _, st) ← fh_cli_cmd_find (S (length args)) st.(st_tree).(cmd_list) (length args) args 0
                           (Some (first_filter args)) false st;
          Some (rc, st)
      end
  end.

(** ** Completion *)

(** Writes from place [j] of the buffer on; [None] is behind its end. *)
Definition poke_at (buf : list Z) (j : Z) (l : list Z) : option (list Z) :=
  let j := Z.to_nat j in
  if (j + length l <=? length buf)%nat then Some (take j buf ++ l ++ drop (j + length l) buf) else None.
(** The string that begins at place [j] *)
Fixpoint until_nul (l : list Z) : list Z := match l with b :: l => if b =? 0 then [] else b :: until_nul l | [] => [] end.
Definition string_at (buf : list Z) (j : Z) : list Z := until_nul (drop (Z.to_nat j) buf).

Definition available (st : st_t) : st_t :=
  fh_cli_write (bytes "-------------------" ++ [10]) (fh_cli_write (bytes "Available Commands:" ++ [10]) (fh_cli_write [10; 10] st)).

(** [sprintf(cmd+*cmd_len, "%s ", cmd_end)] and what follows it; [cmd] is at
    place [k] of the buffer. *)
Definition append_end (k : Z) (cmd_end : list Z) (buf : list Z) (cmd_len : Z) (st : st_t) : option (list Z * Z * st_t) :=
  buf ← poke_at buf (k + cmd_len) (cmd_end ++ [32; 0]);
  Some (buf, cmd_len + Z.of_nat (length cmd_end) + 1, fh_cli_write (cmd_end ++ [32]) st).

(** The loop for filters: the result if it ends there, and else nothing. *)
Fixpoint complete_filter (args : list (list Z)) (filter include exclude : bool) (k : Z) (buf : list Z) (cmd_len : Z) (st : st_t)
    : option (option (Z * list Z * Z * st_t)) :=
  match args with
  | [] => Some None
  | a :: args =>
      if bool_decide (head a = Some 124) then complete_filter args true include exclude k buf cmd_len st
      else if strn_eq (length a) a (bytes "include") then complete_filter args filter true exclude k buf cmd_len st
      else if strn_eq (length a) a (bytes "exclude") then complete_filter args filter include true k buf cmd_len st
      else if filter then
        let ask := bool_decide (last a = Some 63) in
        let n := (length a - 1)%nat in
        let finish word := r ← append_end k (drop n word) buf cmd_len st; let '(buf, len, st) := r in Some (Some (1, buf, len, st)) in
        if ask && (0 <? n)%nat && strn_eq n a (bytes "include") then finish (bytes "include")
        else if ask && (0 <? n)%nat && strn_eq n a (bytes "exclude") then finish (bytes "exclude")
        else
          let line cmd help st := fh_cli_print (bytes cmd) (bytes help) st in
          let st :=
            if include then line "<regex>" "Include regular expression" (fh_cli_write [10; 10] st)
            else if exclude then line "<regex>" "Exclude regular expression" (fh_cli_write [10; 10] st)
            else line "exclude" "Exclude the line matching regex (egrep -v <regex>)"
                   (line "include" "Include the line matching regex (egrep <regex>)" (available st)) in
          Some (Some (0, buf, cmd_len, fh_cli_write [10] st))
      else complete_filter args filter include exclude k buf cmd_len st
  end.

(** [fh_cli_cmd_complete]: the result, the buffer, the length, the state. *)
Definition fh_cli_cmd_complete (buf : list Z) (cmd_len : Z) (st : st_t) : option (Z * list Z * Z * st_t) :=
  let k := Z.of_nat (length (string_at buf 0) - length (skip_spaces (string_at buf 0))) in
  match string_at buf k with
  | [] =>
      st ← fh_cli_cmd_help st.(st_tree).(cmd_list) (available st);
      Some (0, buf, cmd_len, fh_cli_write [10] st)
  | _ =>
      buf ← poke_at buf (k + cmd_len) [63; 0];
      let done rc (buf : list Z) cmd_len st := buf ← poke_at buf (k + cmd_len) [0]; Some (rc, buf, cmd_len, st) in
      args ← fh_cli_cmd_parse (string_at buf k) MAX_ARGS;
      match last args with
      | None => done 0 buf cmd_len st
      | Some last_arg =>
          r ← complete_filter args false false false k buf cmd_len st;
          match r with
          | Some (rc, buf, cmd_len, st) => done rc buf cmd_len st
          | None =>
              let cmds := st.(st_tree).(cmd_list) in
              '(rc, match_c, st) ← fh_cli_cmd_find (S (length args)) cmds (length args) args 0 None true st;
              if 0 <? rc then
                let last_arg_len := (length last_arg - 1)%nat in
                node ← st.(st_tree).(cmd_nodes) !! match_c;
                let cmd_end := drop last_arg_len node.(c_name) in
                if rc =? 1 then
                  r ← append_end k cmd_end buf cmd_len st;
                  let '(buf, cmd_len, st) := r in done rc buf cmd_len st
                else
                  '(buf, cmd_len) ←
                    (if (0 <? last_arg_len)%nat then
                       let match_len := node.(c_uniq_len) - Z.of_nat last_arg_len in
                       let room := Z.to_nat (if match_len <? 0 then 2 ^ 64 + match_len else match_len) in
                       buf ← (if (room =? 0)%nat then Some buf else poke_at buf (k + cmd_len) (take (room - 1) cmd_end ++ [0]));
                       Some (buf, cmd_len + (match_len - 1))
                     else Some (buf, cmd_len));
                  '(_, _, st) ← fh_cli_cmd_find (S (length args)) st.(st_tree).(cmd_list) (length args) args 0 None false (available st);
                  done 0 buf cmd_len (fh_cli_write [10] st)
              else done rc buf cmd_len st
          end
      end
  end.
End engine.
