(* ===== verification/CliTheorems.v ===== *)
(** * The command line: theorems

    The command tree, its abbreviations and registration; how a line is split,
    how abbreviations select commands, and that a line runs the command it
    names. *)
From S2P Require Import Prelude Config Cli.

(** ** Comparing strings *)

Notation name_ok := (Forall (fun b : Z => b <> 0)).

Lemma take_snoc_prefix (a : list Z) b n : (n <= length a)%nat -> take n (a ++ [b]) = take n a.
Proof. intros H. by rewrite take_app_le. Qed.

(** [strncmp] by the length of the second string *)
Lemma strn_eq_prefix name a : name_ok a -> strn_eq (length a) name a = true <-> a `prefix_of` name.
Proof.
  intros Ha. unfold strn_eq. rewrite bool_decide_eq_true, (take_snoc_prefix a) by done. rewrite (take_ge a) by done. split.
  - intros E. destruct (decide (length a <= length name)%nat) as [Hl|Hl].
    + rewrite take_snoc_prefix in E by done. rewrite <- E. apply prefix_take.
    + exfalso. rewrite take_ge in E by (rewrite length_app; cbn; lia). rewrite <- E in Ha. apply Forall_app in Ha as [_ Ha].
      by apply Forall_cons in Ha as [? _].
  - intros [t ->]. by rewrite <- app_assoc, take_app_length.
Qed.
(** and by any other length, when it is a prefix *)
Lemma strn_eq_len u name a : name_ok name -> a `prefix_of` name -> strn_eq u name a = true <-> (u <= length a)%nat \/ a = name.
Proof.
  intros Hn [t ->]. unfold strn_eq. rewrite bool_decide_eq_true. destruct (decide (u <= length a)%nat) as [Hu|Hu].
  { rewrite <- app_assoc, !take_app_le by done. split; [by left | done]. }
  rewrite (take_ge (a ++ [0])) by (rewrite length_app; cbn; lia). split.
  - intros E. right. destruct t as [|b t]; [by rewrite app_nil_r|]. exfalso.
    rewrite <- app_assoc, take_app_ge in E by lia. apply app_inv_head in E.
    destruct (u - length a)%nat as [|k] eqn:Ek; [lia|]. cbn in E. injection E as -> _.
    apply Forall_app in Hn as [_ Hn]. by apply Forall_cons in Hn as [? _].
  - intros [?|E]; [lia|]. rewrite <- E, take_ge; [done | rewrite length_app; cbn; lia].
Qed.
Lemma strn_eq_sym n a b : strn_eq n a b = strn_eq n b a.
Proof. unfold strn_eq. apply bool_decide_ext. by split. Qed.

(** ** Unique lengths *)

Section uniq.
Context (m : gmap Z fh_cli_cmd) (l : list Z).
(** Another command of the list begins with the same [n] characters. *)
Definition shares (c : Z) (name : list Z) (n : Z) : Prop :=
  exists d node, d ∈ l /\ d <> c /\ m !! d = Some node /\ strn_eq (Z.to_nat n) (c_name node) name = true.

Lemma found_match_spec c name n : (forall d, d ∈ l -> is_Some (m !! d)) ->
  exists b, found_match m l c name n = Some b /\ (b = true <-> shares c name n).
Proof.
  unfold shares. induction l as [|d l' IH]; intros H.
  { exists false. split; [done|]. split; [done|]. by intros (d & ? & Hd%not_elem_of_nil & _). }
  destruct IH as (b & E & Hb); [intros; apply H; by right|]. destruct (H d) as [node Hnode]; [by left|].
  unfold found_match in *. cbn [foldr]. rewrite E. cbn [mbind option_bind]. destruct (Z.eqb_spec c d) as [<-|Hcd].
  - exists b. split; [done|]. rewrite Hb. split.
    + intros (e & nd & He & ?). exists e, nd. split; [by right | done].
    + intros (e & nd & He & Hne & ?). apply elem_of_cons in He as [->|He]; [done|]. by exists e, nd.
  - rewrite Hnode. cbn [mbind option_bind]. eexists. split; [done|]. rewrite orb_true_iff, Hb. split.
    + intros [(e & nd & He & ?)|Hs]; [exists e, nd; split; [by right | done]|]. exists d, node. split; [by left|]. done.
    + intros (e & nd & He & Hne & Hm & Hs). apply elem_of_cons in He as [->|He]; [right; congruence|]. left. by exists e, nd.
Qed.

(** The least length, from 1 on, that no other command shares *)
Definition uniq_right (c : Z) (name : list Z) (u : Z) : Prop :=
  1 <= u <= Z.of_nat (length name) + 1 /\ (forall k, 1 <= k < u -> shares c name k) /\
  (u <= Z.of_nat (length name) -> ~ shares c name u).

Lemma uniq_loop_spec c name : (forall d, d ∈ l -> is_Some (m !! d)) -> Z.of_nat (length name) < 65535 -> forall fuel n,
  1 <= n <= Z.of_nat (length name) + 1 -> Z.of_nat (length name) + 1 - n < Z.of_nat fuel -> (forall k, 1 <= k < n -> shares c name k) ->
  exists u, uniq_loop fuel m l c name (Z.of_nat (length name)) n = Some u /\ uniq_right c name u.
Proof.
  intros Hl Hlen fuel. induction fuel as [|fuel IH]; intros n Hn Hf Hk; [lia|]. cbn [uniq_loop].
  destruct (Z.leb_spec n (Z.of_nat (length name))) as [Hle|Hgt].
  - destruct (found_match_spec c name n Hl) as (b & -> & Hb). cbn [mbind option_bind]. destruct b.
    + rewrite u16_small by lia. apply IH; [lia | lia|]. intros k Hk'. destruct (decide (k = n)) as [->|]; [by apply Hb | apply Hk; lia].
    + exists n. split; [done|]. split; [lia|]. split; [done|]. intros _ Hs. by apply Hb in Hs.
  - exists n. split; [done|]. split; [lia|]. split; [done|]. lia.
Qed.
End uniq.

(** Only the names of the list matter. *)
Lemma shares_ext m m' l c name n : (forall d, d ∈ l -> c_name <$> m !! d = c_name <$> m' !! d) -> shares m l c name n -> shares m' l c name n.
Proof.
  intros H (d & node & Hd & Hne & Hm & Hs). specialize (H d Hd). rewrite Hm in H. destruct (m' !! d) as [node'|] eqn:E; [|done].
  injection H as H. exists d, node'. by rewrite <- H.
Qed.
Lemma uniq_right_ext m m' l c name u : (forall d, d ∈ l -> c_name <$> m !! d = c_name <$> m' !! d) ->
  uniq_right m l c name u -> uniq_right m' l c name u.
Proof.
  intros H (H1 & H2 & H3). split; [done|]. split.
  - intros k Hk. by apply (shares_ext m), H2.
  - intros Hu Hs. apply H3; [done|]. by apply (shares_ext m'); [intros; symmetry; apply H|].
Qed.

(** ** Selecting *)

(** What a word selects: the command with this name, or the only one that
    begins with it; letters of both cases are the same. *)
Definition abbreviates (m : gmap Z fh_cli_cmd) (l : list Z) (w : list Z) (c : Z) : Prop :=
  exists node, m !! c = Some node /\ c ∈ l /\ w <> [] /\ (tolower <$> w) `prefix_of` c_name node /\
  forall d node', d ∈ l -> d <> c -> m !! d = Some node' -> (tolower <$> w) `prefix_of` c_name node' -> (tolower <$> w) = c_name node.

(** Names in small letters, all different; unique lengths as [cmd_build] sets
    them. *)
Record siblings (m : gmap Z fh_cli_cmd) (l : list Z) : Prop := {
  sb_nodes : forall c, c ∈ l -> is_Some (m !! c);
  sb_lower : forall c node, c ∈ l -> m !! c = Some node -> tolower <$> c_name node = c_name node /\ name_ok (c_name node);
  sb_names : forall c d node node', c ∈ l -> d ∈ l -> m !! c = Some node -> m !! d = Some node' -> c_name node = c_name node' -> c = d;
  sb_uniq : forall c node, c ∈ l -> m !! c = Some node -> uniq_right m l c (c_name node) (c_uniq_len node)
}.

Definition selected (node : fh_cli_cmd) (w : list Z) : bool :=
  strncase_eq (Z.to_nat (c_uniq_len node)) (c_name node) w && strncase_eq (length w) (c_name node) w.

Lemma tolower_ne0 w : name_ok w -> name_ok (tolower <$> w).
Proof. intros H. apply Forall_fmap. eapply Forall_impl; [exact H|]. intros b Hb. cbn. unfold tolower. destruct (_ && _) eqn:E; [|done]. bool_to_prop. lia. Qed.

Lemma selected_iff m l w c node : siblings m l -> name_ok w -> w <> [] -> c ∈ l -> m !! c = Some node ->
  selected node w = true <-> abbreviates m l w c.
Proof.
  intros Hs Hw Hne Hc Hm. destruct (sb_lower _ _ Hs c node Hc Hm) as [Hlow Hok]. destruct (sb_uniq _ _ Hs c node Hc Hm) as (Hu1 & Hu2 & Hu3).
  pose proof (tolower_ne0 _ Hw) as Hw'. set (a := tolower <$> w) in *. set (name := c_name node) in *.
  assert (Hla : length a = length w) by (unfold a; by rewrite length_fmap).
  unfold selected, strncase_eq. fold name. rewrite Hlow, andb_true_iff. fold a. rewrite <- Hla, strn_eq_prefix by done.
  assert (Hpos : (1 <= length a)%nat) by (rewrite Hla; destruct w; [done | cbn; lia]).
  assert (Hshare : forall d node', d ∈ l -> d <> c -> m !! d = Some node' -> a `prefix_of` name -> a `prefix_of` c_name node' ->
    forall k, (Z.to_nat k <= length a)%nat -> shares m l c name k).
  { intros d node' Hd Hdc Hd' [t1 E1] [t2 E2] k Hk. exists d, node'. split; [done|]. split; [done|]. split; [done|]. unfold strn_eq.
    apply bool_decide_eq_true. rewrite E1, E2, <- !app_assoc, !take_app_le by lia. done. }
  split.
  - intros [Hx Hp]. exists node. split; [done|]. split; [done|]. split; [done|]. split; [done|]. intros d node' Hd Hdc Hd' Hp'. fold a name in Hp' |- *.
    apply strn_eq_len in Hx as [Hx|Hx]; [|done.. ]. destruct (decide (a = name)) as [|Hn]; [done|]. exfalso.
    apply (prefix_length a name) in Hp as Hl. apply Hu3; [lia|]. by eapply Hshare; [..|lia].
  - intros (node1 & Hm1 & _ & _ & Hp & Ho). rewrite Hm in Hm1. injection Hm1 as <-. fold a name in Hp, Ho. split; [|done].
    apply strn_eq_len; [done | done|]. destruct (decide (a = name)) as [|Hn]; [by right|]. left.
    destruct (decide (Z.to_nat (c_uniq_len node) <= length a)%nat) as [|Hgt]; [done|]. exfalso.
    destruct (Hu2 (Z.of_nat (length a))) as (d & node' & Hd & Hdc & Hd' & E); [lia|].
    apply Hn, (Ho d node' Hd Hdc Hd'). apply strn_eq_prefix; [done|]. unfold strn_eq in *. apply bool_decide_eq_true in E. apply bool_decide_eq_true.
    rewrite Nat2Z.id in E. rewrite E. fold name. destruct Hp as [t ->]. by rewrite <- app_assoc, !take_app_length.
Qed.

Lemma abbreviates_unique m l w c d : siblings m l -> abbreviates m l w c -> abbreviates m l w d -> c = d.
Proof.
  intros Hs (node & Hc & Hcl & Hne & Hp & Ho) (node' & Hd & Hdl & _ & Hp' & Ho'). destruct (decide (c = d)) as [|Hcd]; [done|].
  apply (sb_names _ _ Hs c d node node'); try done. transitivity (tolower <$> w).
  - symmetry. by apply (Ho d node').
  - by apply (Ho' c node).
Qed.

Lemma select_cons m l c node w : m !! c = Some node -> select m (c :: l) w = if selected node w then Some (Some (c, node)) else select m l w.
Proof.
  intros H. cbn [select]. rewrite H. cbn [mbind option_bind]. unfold selected. by destruct (strncase_eq _ _ _), (strncase_eq _ _ _).
Qed.

Lemma select_spec m l w : siblings m l -> name_ok w -> w <> [] ->
  (forall c node, m !! c = Some node -> abbreviates m l w c -> select m l w = Some (Some (c, node))) /\
  ((forall c, c ∈ l -> ~ abbreviates m l w c) -> select m l w = Some None).
Proof.
  intros Hs Hw Hne. assert (H : forall k, (forall c, c ∈ k -> c ∈ l) ->
    (forall c node, m !! c = Some node -> abbreviates m l w c -> c ∈ k -> select m k w = Some (Some (c, node))) /\
    ((forall c, c ∈ k -> ~ abbreviates m l w c) -> select m k w = Some None)).
  { induction k as [|d k IH]; intros Hsub; [split; [by intros ?? _ _ ?%not_elem_of_nil | done]|].
    destruct IH as [IH1 IH2]; [intros; apply Hsub; by right|].
    destruct (sb_nodes _ _ Hs d) as [nd Hd]; [apply Hsub; by left|].
    pose proof (selected_iff m l w d nd Hs Hw Hne (Hsub d ltac:(by left)) Hd) as Hsel. split.
    - intros c node Hc Ha Hck. rewrite (select_cons m k d nd w Hd). destruct (selected nd w) eqn:E.
      + assert (d = c) as -> by (eapply abbreviates_unique; [done | by apply Hsel | done]). congruence.
      + apply elem_of_cons in Hck as [->|Hck]; [exfalso; rewrite Hc in Hd; injection Hd as ->; apply Hsel in Ha; congruence|]. by apply IH1.
    - intros Hno. rewrite (select_cons m k d nd w Hd). destruct (selected nd w) eqn:E.
      + exfalso. apply (Hno d); [by left | by apply Hsel].
      + apply IH2. intros c Hc. apply Hno. by right. }
  destruct (H l ltac:(done)) as [H1 H2]. split; [|done]. intros c node Hc Ha. apply H1; [done | done|]. by destruct Ha as (? & _ & ? & _).
Qed.

(** ** Building *)

(** Nodes that differ only in their unique lengths *)
Definition same_node (a b : fh_cli_cmd) : Prop := set_c_uniq_len 0 a = set_c_uniq_len 0 b.
Definition same_nodes (m m' : gmap Z fh_cli_cmd) : Prop := forall c, set_c_uniq_len 0 <$> m !! c = set_c_uniq_len 0 <$> m' !! c.
#[export] Instance same_nodes_equiv : Equivalence same_nodes.
Proof. split; [done | intros m m' H c; done | intros m1 m2 m3 H1 H2 c; by rewrite H1]. Qed.

Lemma same_node_fields a b : same_node a b ->
  c_children a = c_children b /\ c_parent a = c_parent b /\ c_name a = c_name b /\ c_len a = c_len b /\ c_mode a = c_mode b /\
  c_help a = c_help b /\ c_callback a = c_callback b.
Proof. destruct a, b. unfold same_node, set_c_uniq_len. cbn. by intros [= -> -> -> -> -> -> ->]. Qed.
Lemma same_nodes_lookup m m' c a : same_nodes m m' -> m !! c = Some a -> exists b, m' !! c = Some b /\ same_node a b.
Proof. intros H Ha. specialize (H c). rewrite Ha in H. destruct (m' !! c) as [b|]; [|done]. exists b. split; [done|]. by apply (inj Some) in H. Qed.
Lemma same_nodes_names m m' c : same_nodes m m' -> c_name <$> m !! c = c_name <$> m' !! c.
Proof.
  intros H. specialize (H c). destruct (m !! c) as [a|], (m' !! c) as [b|]; try done. cbn in *. injection H as H1 H2 H3 H4. congruence.
Qed.

Record shape (t : cli) (d : Z -> nat) : Prop := {
  sh_root : d NULL = 0%nat;
  sh_nonnull : forall c node, t.(cmd_nodes) !! c = Some node -> c <> NULL;
  sh_lists : forall p l, list_at t p = Some l -> NoDup l /\ forall c, c ∈ l -> c <> NULL /\ exists node,
    t.(cmd_nodes) !! c = Some node /\ c_parent node = p;
  sh_depth : forall c node, t.(cmd_nodes) !! c = Some node -> d c = S (d (c_parent node)) /\ (d c <= size t.(cmd_nodes))%nat;
  sh_parent : forall c node, t.(cmd_nodes) !! c = Some node -> is_Some (list_at t (c_parent node));
  sh_len : forall c node, t.(cmd_nodes) !! c = Some node -> c_len node = Z.of_nat (length (c_name node)) /\ c_len node < 65535
}.

Section build.
Context (t : cli) (d : Z -> nat) (Hsh : shape t d).
Notation nodes := (cmd_nodes t).
Definition right_in_list (c : Z) (node : fh_cli_cmd) : Prop :=
  forall p l, list_at t p = Some l -> c ∈ l -> uniq_right nodes l c (c_name node) (c_uniq_len node).
(** What building does to the nodes *)
Definition rebuilt (m m' : gmap Z fh_cli_cmd) : Prop := same_nodes m m' /\
  forall c node', m' !! c = Some node' -> m !! c = Some node' \/ right_in_list c node'.

Lemma rebuilt_trans m1 m2 m3 : rebuilt m1 m2 -> rebuilt m2 m3 -> rebuilt m1 m3.
Proof.
  intros [H1 H1'] [H2 H2']. split; [by etransitivity|]. intros c node' H. destruct (H2' c node' H) as [H3|H3]; [by apply H1' | by right].
Qed.
Lemma rebuilt_right m m' c node node' : rebuilt m m' -> m !! c = Some node -> right_in_list c node -> m' !! c = Some node' -> right_in_list c node'.
Proof. intros [_ H] Hm Hr Hm'. destruct (H c node' Hm') as [H1|H1]; [|done]. by assert (node' = node) as -> by congruence. Qed.

Lemma list_at_parent p p' l l' c : list_at t p = Some l -> list_at t p' = Some l' -> c ∈ l -> c ∈ l' -> p = p'.
Proof.
  intros Hp Hp' Hc Hc'. destruct (sh_lists _ _ Hsh p l Hp) as [_ H]. destruct (sh_lists _ _ Hsh p' l' Hp') as [_ H'].
  destruct (H c Hc) as (_ & n1 & E1 & <-). destruct (H' c Hc') as (_ & n2 & E2 & <-). congruence.
Qed.

(** One node *)
Lemma build_node p l m c : list_at t p = Some l -> c ∈ l -> same_nodes nodes m -> exists node u,
  m !! c = Some node /\ uniq_loop (S (Z.to_nat (c_len node))) m l c (c_name node) (c_len node) 1 = Some u /\
  rebuilt m (<[c := set_c_uniq_len u node]> m) /\ right_in_list c (set_c_uniq_len u node) /\
  list_at t c = Some (c_children node) /\ d c = S (d p).
Proof.
  intros Hp Hc Hm. destruct (sh_lists _ _ Hsh p l Hp) as [_ Hl]. destruct (Hl c Hc) as (Hnull & n0 & Hn0 & Hpar).
  destruct (same_nodes_lookup _ _ _ _ Hm Hn0) as (node & Hnode & Hsame). apply same_node_fields in Hsame as (F1 & F2 & F3 & F4 & _).
  destruct (sh_len _ _ Hsh c n0 Hn0) as [Hlen Hlt]. destruct (sh_depth _ _ Hsh c n0 Hn0) as [Hd _].
  destruct (uniq_loop_spec m l c (c_name node)) with (fuel := S (Z.to_nat (c_len node))) (n := 1) as (u & E & Hu).
  { intros e He. destruct (Hl e He) as (_ & ne & Hne & _). destruct (same_nodes_lookup _ _ _ _ Hm Hne) as (b & -> & _). done. }
  { rewrite <- F3. lia. } { lia. } { rewrite <- F3, <- F4. lia. } { lia. }
  exists node, u. split; [done|]. split; [rewrite <- F4, Hlen, F3 in *; rewrite <- E; do 2 f_equal; lia|].
  assert (Hr : right_in_list c (set_c_uniq_len u node)).
  { intros p' l' Hp' Hc'. assert (p' = p) as -> by (eapply list_at_parent; done). rewrite Hp in Hp'. injection Hp' as <-.
    eapply uniq_right_ext; [|exact Hu]. intros e _. symmetry. by apply same_nodes_names. }
  split; [|split; [done|]; split; [|by rewrite Hd, Hpar]].
  - split.
    + intros e. rewrite lookup_insert. case_decide as He; [|done]. subst e. rewrite Hnode. done.
    + intros e node'. rewrite lookup_insert. case_decide as He; [|by left]. intros [= <-]. subst e. by right.
  - unfold list_at. rewrite (eqb_false_of_ne c NULL Hnull), Hn0. cbn. by rewrite F1.
Qed.

Lemma cmd_build_spec fuel : forall p l m, list_at t p = Some l -> same_nodes nodes m -> (size nodes - d p < fuel)%nat ->
  exists m', cmd_build fuel l m = Some m' /\ rebuilt m m' /\ forall c node', c ∈ l -> m' !! c = Some node' -> right_in_list c node'.
Proof.
  induction fuel as [|fuel IH]; intros p l m Hp Hm Hf; [lia|]. cbn [cmd_build].
  set (step := fun (m : option (gmap Z fh_cli_cmd)) (c : Z) => m ← m; node ← m !! c;
    n ← uniq_loop (S (Z.to_nat (c_len node))) m l c (c_name node) (c_len node) 1;
    match c_children node with [] => Some (<[c:=set_c_uniq_len n node]> m) | _ => cmd_build fuel (c_children node) (<[c:=set_c_uniq_len n node]> m) end).
  change (exists m', foldl step (Some m) l = Some m' /\ rebuilt m m' /\ forall c node', c ∈ l -> m' !! c = Some node' -> right_in_list c node').
  assert (H : forall k m, (forall c, c ∈ k -> c ∈ l) -> same_nodes nodes m ->
    exists m', foldl step (Some m) k = Some m' /\ rebuilt m m' /\ forall c node', c ∈ k -> m' !! c = Some node' -> right_in_list c node').
  { clear m Hm. induction k as [|c k IHk]; intros m Hk Hm; [exists m; split; [done|]; split; [split; [done | by left]|]; by intros ?? ?%not_elem_of_nil|].
    destruct (build_node p l m c Hp (Hk c ltac:(by left)) Hm) as (node & u & Hnode & Eu & Hr1 & Hr2 & Hch & Hd).
    cbn [foldl]. unfold step at 2. cbn [mbind option_bind]. rewrite Hnode. cbn [mbind option_bind]. rewrite Eu. cbn [mbind option_bind].
    set (m1 := <[c := set_c_uniq_len u node]> m) in *.
    assert (Hm1 : same_nodes nodes m1) by (etransitivity; [exact Hm | apply Hr1]).
    assert (Hsub : exists m2, match c_children node with [] => Some m1 | _ => cmd_build fuel (c_children node) m1 end = Some m2 /\ rebuilt m1 m2).
    { assert (Hb : exists m2, cmd_build fuel (c_children node) m1 = Some m2 /\ rebuilt m1 m2).
      { destruct (IH c (c_children node) m1 Hch Hm1) as (m2 & ? & ? & _); [|by exists m2].
        destruct (sh_lists _ _ Hsh p l Hp) as [_ Hl]. destruct (Hl c (Hk c ltac:(by left))) as (_ & n0 & Hn0 & _).
        destruct (sh_depth _ _ Hsh c n0 Hn0) as [_ Hle]. lia. }
      destruct (c_children node); [exists m1; split; [done|]; split; [done | by left] | exact Hb]. }
    destruct Hsub as (m2 & -> & Hr3). destruct (IHk m2) as (m' & E & Hr4 & Hk4).
    { intros e He. apply Hk. by right. } { etransitivity; [exact Hm1 | apply Hr3]. }
    exists m'. split; [exact E|]. assert (Hr : rebuilt m1 m') by (eapply rebuilt_trans; done). split; [by eapply rebuilt_trans|].
    intros e node' He Hnode'. apply elem_of_cons in He as [->|He]; [|by apply (Hk4 e)].
    eapply rebuilt_right; [exact Hr | apply lookup_insert_eq | exact Hr2 | exact Hnode']. }
  apply H; done.
Qed.
End build.

(** ** Registering *)

(** A tree as the program builds it; [d] is the depth of a node. *)
Record cli_ok (t : cli) (d : Z -> nat) : Prop := {
  co_shape : shape t d;
  co_lower : forall c node, t.(cmd_nodes) !! c = Some node -> tolower <$> c_name node = c_name node /\ name_ok (c_name node);
  co_names : forall p l c e node node', list_at t p = Some l -> c ∈ l -> e ∈ l -> t.(cmd_nodes) !! c = Some node ->
    t.(cmd_nodes) !! e = Some node' -> c_name node = c_name node' -> c = e;
  co_uniq : forall c node, t.(cmd_nodes) !! c = Some node -> right_in_list t c node
}.

Lemma cli_ok_siblings t d p l : cli_ok t d -> list_at t p = Some l -> siblings t.(cmd_nodes) l.
Proof.
  intros Ht Hl. constructor.
  - intros c Hc. destruct (sh_lists _ _ (co_shape _ _ Ht) p l Hl) as [_ H]. by destruct (H c Hc) as (_ & node & -> & _).
  - intros c node _. by apply (co_lower _ _ Ht).
  - intros c e node node' Hc He. by apply (co_names _ _ Ht p l).
  - intros c node Hc Hn. by apply (co_uniq _ _ Ht c node Hn p).
Qed.

(** The nodes may be changed in their unique lengths. *)
Lemma list_at_same t m p : same_nodes (cmd_nodes t) m -> list_at (set_nodes m t) p = list_at t p.
Proof.
  intros H. unfold list_at. destruct (p =? NULL); [done|]. cbn. specialize (H p). destruct (cmd_nodes t !! p) as [a|], (m !! p) as [b|]; try done.
  cbn in *. apply (inj Some) in H. apply same_node_fields in H as (-> & _). done.
Qed.
Lemma same_nodes_back m m' c b : same_nodes m m' -> m' !! c = Some b -> exists a, m !! c = Some a /\ same_node a b.
Proof. intros H Hb. symmetry in H. destruct (same_nodes_lookup _ _ _ _ H Hb) as (a & ? & ?). by exists a. Qed.
Lemma same_nodes_size m m' : same_nodes m m' -> size m = size m'.
Proof.
  intros H. rewrite <- !size_dom. f_equal. apply set_eq. intros c. rewrite !elem_of_dom. specialize (H c).
  by destruct (m !! c), (m' !! c).
Qed.
Lemma shape_same t d m : shape t d -> same_nodes (cmd_nodes t) m -> shape (set_nodes m t) d.
Proof.
  intros [H1 H2 H3 H4 H6 H5] H. constructor; cbn.
  - done.
  - intros c b Hb. destruct (same_nodes_back _ _ _ _ H Hb) as (a & Ha & _). by eapply H2.
  - intros p l Hl. rewrite list_at_same in Hl by done. destruct (H3 p l Hl) as [Hnd Hc]. split; [done|]. intros c Hin.
    destruct (Hc c Hin) as (? & a & Ha & Hp). split; [done|]. destruct (same_nodes_lookup _ _ _ _ H Ha) as (b & Hb & Hs).
    exists b. split; [done|]. by apply same_node_fields in Hs as (_ & <- & _).
  - intros c b Hb. destruct (same_nodes_back _ _ _ _ H Hb) as (a & Ha & Hs). apply same_node_fields in Hs as (_ & Hp & _).
    rewrite <- (same_nodes_size _ _ H), <- Hp. by apply (H4 c a).
  - intros c b Hb. destruct (same_nodes_back _ _ _ _ H Hb) as (a & Ha & Hs). apply same_node_fields in Hs as (_ & <- & _).
    rewrite list_at_same by done. by apply (H6 c a).
  - intros c b Hb. destruct (same_nodes_back _ _ _ _ H Hb) as (a & Ha & Hs). apply same_node_fields in Hs as (_ & _ & F3 & F4 & _).
    rewrite <- F3, <- F4. by apply (H5 c a).
Qed.

Section register.
Context (t : cli) (d : Z -> nat) (Ht : cli_ok t d) (c parent : Z) (l : list Z) (Hl : list_at t parent = Some l).
Context (name : list Z) (mode : Z) (cb : option nat) (help : option (list Z)).
Context (Hc : c <> NULL) (Hfresh : t.(cmd_nodes) !! c = None) (Hlow : tolower <$> name = name) (Hok : name_ok name).
Context (Hlen : Z.of_nat (length name) < 65535).
Context (Hnew : forall e node, e ∈ l -> t.(cmd_nodes) !! e = Some node -> c_name node <> name).

Definition new_node : fh_cli_cmd := MkCmd [] parent name 0 (u16 (Z.of_nat (length name))) mode help cb.
Definition with_node : cli := set_list_at parent (c :: l) (set_nodes (<[c := new_node]> t.(cmd_nodes)) t).

Lemma parent_ne : parent <> c.
Proof using Hl Hc Hfresh.
  unfold list_at in Hl. destruct (Z.eqb_spec parent NULL) as [->|Hp]; [done|]. intros ->. by rewrite Hfresh in Hl.
Qed.
Lemma with_node_lookup e : cmd_nodes with_node !! e =
  if decide (e = c) then Some new_node else if decide (e = parent) then set_c_children (c :: l) <$> t.(cmd_nodes) !! e else t.(cmd_nodes) !! e.
Proof using Ht Hl Hc Hfresh.
  pose proof parent_ne as Hpc. unfold with_node, set_list_at. destruct (Z.eqb_spec parent NULL) as [->|Hp]; cbn.
  - rewrite lookup_insert. case_decide as H1; [by rewrite decide_True by done|]. rewrite decide_False by congruence. case_decide as H2; [|done]. subst e.
    destruct (cmd_nodes t !! NULL) as [node|] eqn:E; [|done]. by apply (sh_nonnull _ _ (co_shape _ _ Ht)) in E.
  - destruct (decide (e = parent)) as [->|He].
    + rewrite lookup_alter_eq, lookup_insert_ne by done. by rewrite decide_False by done.
    + rewrite lookup_alter_ne by done. rewrite lookup_insert. case_decide as H1; case_decide as H2; congruence.
Qed.
Lemma with_node_list p : list_at with_node p = if decide (p = c) then Some [] else if decide (p = parent) then Some (c :: l) else list_at t p.
Proof using Ht Hl Hc Hfresh.
  pose proof parent_ne as Hpc. unfold list_at at 1. destruct (Z.eqb_spec p NULL) as [->|Hp].
  - rewrite decide_False by done. unfold with_node, set_list_at. destruct (Z.eqb_spec parent NULL) as [->|Hq]; cbn.
    + by rewrite decide_True by done.
    + by rewrite decide_False by done.
  - rewrite with_node_lookup. case_decide; [done|]. unfold list_at in *. rewrite (eqb_false_of_ne p NULL Hp).
    case_decide as H2; [|done]. subst p. rewrite (eqb_false_of_ne parent NULL Hp) in Hl.
    destruct (cmd_nodes t !! parent); [done|]. done.
Qed.
Lemma with_node_names e : c_name <$> cmd_nodes with_node !! e = if decide (e = c) then Some name else c_name <$> cmd_nodes t !! e.
Proof using Ht Hl Hc Hfresh. rewrite with_node_lookup. repeat case_decide; try done. by destruct (_ !! e). Qed.
Lemma old_ne p l' e : list_at t p = Some l' -> e ∈ l' -> e <> c.
Proof using Ht Hfresh.
  intros Hp He ->. destruct (sh_lists _ _ (co_shape _ _ Ht) p l' Hp) as [_ H]. destruct (H c He) as (_ & n & En & _). congruence.
Qed.
Lemma size_with_node : size (cmd_nodes with_node) = S (size t.(cmd_nodes)).
Proof using Ht Hl Hc Hfresh.
  rewrite <- (map_size_insert_None c new_node t.(cmd_nodes)) by done. rewrite <- !size_dom. f_equal. apply set_eq. intros e.
  rewrite !elem_of_dom, with_node_lookup, lookup_insert. repeat case_decide; try congruence; try done.
  by rewrite fmap_is_Some.
Qed.

Definition new_depth (e : Z) : nat := if decide (e = c) then S (d parent) else d e.
Lemma with_node_shape : shape with_node new_depth.
Proof using Ht Hl Hc Hfresh Hlen.
  pose proof parent_ne as Hpc. pose proof (co_shape _ _ Ht) as [H1 H2 H3 H4 H6 H5].
  assert (Hold : forall e node, cmd_nodes with_node !! e = Some node -> e <> c -> exists node0, cmd_nodes t !! e = Some node0 /\
    c_parent node = c_parent node0 /\ c_name node = c_name node0 /\ c_len node = c_len node0).
  { intros e node He Hec. rewrite with_node_lookup, decide_False in He by done. case_decide; [|by exists node].
    destruct (cmd_nodes t !! e) as [n0|]; [|done]. injection He as <-. by exists n0. }
  assert (Hpd : (d parent <= size (cmd_nodes t))%nat).
  { unfold list_at in Hl. destruct (Z.eqb_spec parent NULL) as [->|]; [rewrite H1; lia|].
    destruct (cmd_nodes t !! parent) as [pn|] eqn:E; [|done]. by destruct (H4 _ _ E). }
  assert (Hdp : forall e node, cmd_nodes t !! e = Some node -> c_parent node <> c).
  { intros e node He Hpe. destruct (H6 e node He) as [l0 Hl0]. rewrite Hpe in Hl0. unfold list_at in Hl0.
    rewrite (eqb_false_of_ne c NULL Hc), Hfresh in Hl0. done. }
  constructor.
  - unfold new_depth. by rewrite decide_False by done.
  - intros e node He. destruct (decide (e = c)) as [->|Hec]; [done|]. destruct (Hold e node He Hec) as (n0 & Hn0 & _). by eapply H2.
  - intros p l' Hp. rewrite with_node_list in Hp. case_decide as Hpc'; [injection Hp as <-; split; [constructor | by intros ? ?%not_elem_of_nil]|].
    assert (Hin : forall l0 q, list_at t q = Some l0 -> forall e, e ∈ l0 -> e <> NULL /\ exists node, cmd_nodes with_node !! e = Some node /\ c_parent node = q).
    { intros l0 q Hq e He. destruct (H3 q l0 Hq) as [_ H]. destruct (H e He) as (He0 & n0 & Hn0 & Hpar). split; [done|].
      rewrite with_node_lookup, decide_False by (by eapply old_ne). rewrite Hn0. destruct (decide (e = parent)); eexists; (split; [reflexivity | exact Hpar]). }
    case_decide as Hpp; [|by split; [apply (H3 p l' Hp) | apply Hin]]. injection Hp as <-. subst p. split.
    + constructor; [|by apply (H3 parent l Hl)]. intros He. by apply (old_ne parent l c Hl He).
    + intros e [->|He]%elem_of_cons; [|by apply (Hin l parent)]. split; [done|]. exists new_node. by rewrite with_node_lookup, decide_True.
  - intros e node He. rewrite size_with_node. destruct (decide (e = c)) as [->|Hec].
    + rewrite with_node_lookup, decide_True in He by done. injection He as <-. cbn. unfold new_depth. rewrite decide_True, decide_False by done. lia.
    + destruct (Hold e node He Hec) as (n0 & Hn0 & -> & _). destruct (H4 e n0 Hn0) as [E1 E2]. unfold new_depth.
      rewrite decide_False by done. rewrite decide_False by (by apply (Hdp e n0)). lia.
  - intros e node He. rewrite with_node_list. destruct (decide (e = c)) as [->|Hec].
    + rewrite with_node_lookup, decide_True in He by done. injection He as <-. cbn. rewrite decide_False by done. by rewrite decide_True.
    + destruct (Hold e node He Hec) as (n0 & Hn0 & -> & _). rewrite decide_False by (by apply (Hdp e n0)). case_decide; [done | by apply (H6 e n0)].
  - intros e node He. destruct (decide (e = c)) as [->|Hec].
    + rewrite with_node_lookup, decide_True in He by done. injection He as <-. cbn. rewrite u16_small by lia. done.
    + destruct (Hold e node He Hec) as (n0 & Hn0 & _ & -> & ->). by apply (H5 e n0).
Qed.

(** The nodes after registration: the new one, and the old ones but for the
    list of the parent and unique lengths *)
Lemma register_steps : exists m', fh_cli_cmd_register (Some c) parent (Some name) mode cb help t = Some (c, set_nodes m' with_node) /\
  rebuilt with_node (cmd_nodes with_node) m' /\ forall e node', e ∈ c :: l -> m' !! e = Some node' -> right_in_list with_node e node'.
Proof using Ht Hl Hc Hfresh Hlen.
  unfold fh_cli_cmd_register. rewrite Hl. cbn [mbind option_bind]. fold new_node. fold with_node.
  destruct (cmd_build_spec with_node new_depth with_node_shape (S (size (cmd_nodes with_node))) parent (c :: l) (cmd_nodes with_node)) as (m' & E & H);
    [|done | lia|].
  - rewrite with_node_list, decide_False by apply parent_ne. by rewrite decide_True.
  - exists m'. rewrite E. done.
Qed.

Lemma register_ok : exists t', fh_cli_cmd_register (Some c) parent (Some name) mode cb help t = Some (c, t') /\ cli_ok t' new_depth /\
  list_at t' parent = Some (c :: l) /\ (exists u, cmd_nodes t' !! c = Some (set_c_uniq_len u new_node)) /\
  (forall p, p <> parent -> p <> c -> list_at t' p = list_at t p) /\
  (forall e, e <> c -> e <> parent -> set_c_uniq_len 0 <$> cmd_nodes t' !! e = set_c_uniq_len 0 <$> cmd_nodes t !! e).
Proof using Ht Hl Hc Hfresh Hlow Hok Hlen Hnew.
  destruct register_steps as (m' & E & [Hsame Hre] & Hright). exists (set_nodes m' with_node). split; [exact E|].
  assert (Hlists : forall p, list_at (set_nodes m' with_node) p = list_at with_node p) by (intros; by apply list_at_same).
  assert (Hnames : forall e, c_name <$> m' !! e = if decide (e = c) then Some name else c_name <$> cmd_nodes t !! e).
  { intros e. rewrite <- with_node_names. symmetry. by apply same_nodes_names. }
  assert (Hold : forall e node, e <> c -> m' !! e = Some node -> exists n0, cmd_nodes t !! e = Some n0 /\ c_name node = c_name n0).
  { intros e node Hec He. specialize (Hnames e). rewrite He, decide_False in Hnames by done.
    destruct (cmd_nodes t !! e) as [n0|]; [|done]. exists n0. split; [done|]. by injection Hnames. }
  assert (Hnewname : forall node, m' !! c = Some node -> c_name node = name).
  { intros node He. specialize (Hnames c). rewrite He, decide_True in Hnames by done. by injection Hnames. }
  assert (Hmem : forall p l' e, list_at with_node p = Some l' -> e ∈ l' -> e = c \/ (e <> c /\ exists l0, list_at t p = Some l0 /\ e ∈ l0)).
  { intros p l' e Hp He. destruct (decide (e = c)) as [|Hec]; [by left|]. right. split; [done|]. rewrite with_node_list in Hp.
    destruct (decide (p = c)); [injection Hp as <-; by apply not_elem_of_nil in He|]. destruct (decide (p = parent)) as [->|]; [|by exists l'].
    injection Hp as <-. exists l. split; [done|]. by apply elem_of_cons in He as [?|?]. }
  split; [constructor; cbn [set_nodes cmd_nodes]|split; [|split; [|split]]].
  - by apply shape_same; [apply with_node_shape|].
  - intros e node He. destruct (decide (e = c)) as [->|Hec]; [by rewrite (Hnewname node He)|].
    destruct (Hold e node Hec He) as (n0 & Hn0 & ->). by apply (co_lower _ _ Ht e).
  - intros p l' e1 e2 n1 n2 Hp He1 He2 Hn1 Hn2 Heq. rewrite Hlists in Hp.
    assert (Hone : forall e node, e ∈ l' -> e <> c -> m' !! e = Some node -> c ∈ l' -> c_name node <> name).
    { intros e node He Hec Hn Hcl. assert (p = parent) as ->.
      { rewrite with_node_list in Hp. destruct (decide (p = c)); [injection Hp as <-; by apply not_elem_of_nil in Hcl|].
        destruct (decide (p = parent)); [done|]. by destruct (old_ne p l' c Hp Hcl). }
      destruct (Hmem _ _ _ Hp He) as [?|(_ & l0 & Hl0 & He0)]; [done|]. rewrite Hl in Hl0. injection Hl0 as <-.
      destruct (Hold e node Hec Hn) as (n0 & Hn0 & ->). by apply (Hnew e). }
    destruct (decide (e1 = c)) as [->|H1], (decide (e2 = c)) as [->|H2]; try done.
    + destruct (Hone e2 n2 He2 H2 Hn2 He1). by rewrite <- Heq, (Hnewname n1 Hn1).
    + destruct (Hone e1 n1 He1 H1 Hn1 He2). by rewrite Heq, (Hnewname n2 Hn2).
    + destruct (Hmem _ _ _ Hp He1) as [?|(_ & l1 & Hl1 & Hi1)]; [done|]. destruct (Hmem _ _ _ Hp He2) as [?|(_ & l2 & Hl2 & Hi2)]; [done|].
      rewrite Hl1 in Hl2. injection Hl2 as <-. destruct (Hold _ _ H1 Hn1) as (a & Ha & Ea). destruct (Hold _ _ H2 Hn2) as (b & Hb & Eb).
      apply (co_names _ _ Ht p l1 e1 e2 a b); congruence.
  - intros e node He p l' Hp Hin. rewrite Hlists in Hp.
    assert (Hr : right_in_list with_node e node -> uniq_right m' l' e (c_name node) (c_uniq_len node)).
    { intros Hr. eapply uniq_right_ext; [|by apply (Hr p l')]. intros. by apply same_nodes_names. }
    cbn [set_nodes cmd_nodes]. destruct (decide (e ∈ c :: l)) as [Hel|Hel]; [by apply Hr, (Hright e)|].
    destruct (Hre e node He) as [Hu|Hu]; [|by apply Hr]. apply not_elem_of_cons in Hel as [Hec Hel].
    assert (Hpp : p <> parent /\ p <> c /\ list_at t p = Some l').
    { rewrite with_node_list in Hp. destruct (decide (p = c)); [injection Hp as <-; by apply not_elem_of_nil in Hin|].
      destruct (decide (p = parent)) as [->|]; [|done]. injection Hp as <-. by apply elem_of_cons in Hin as [?|?]. }
    destruct Hpp as (Hp1 & Hp2 & Hp3). rewrite with_node_lookup, decide_False in Hu by done.
    assert (Hu' : exists n0, cmd_nodes t !! e = Some n0 /\ c_name n0 = c_name node /\ c_uniq_len n0 = c_uniq_len node).
    { destruct (decide (e = parent)); [|by exists node]. destruct (cmd_nodes t !! e) as [n0|]; [|done]. injection Hu as <-. by exists n0. }
    destruct Hu' as (n0 & Hn0 & <- & <-). eapply uniq_right_ext; [|by apply (co_uniq _ _ Ht e n0 Hn0 p l' Hp3)].
    intros f Hf. rewrite Hnames, decide_False by (by eapply old_ne). done.
  - rewrite Hlists, with_node_list, decide_False by apply parent_ne. by rewrite decide_True.
  - cbn. destruct (same_nodes_lookup _ _ c new_node Hsame) as (b & Hb & Hs); [by rewrite with_node_lookup, decide_True|].
    exists (c_uniq_len b). rewrite Hb. f_equal. apply same_node_fields in Hs as (F1 & F2 & F3 & F4 & F5 & F6 & F7).
    destruct b. cbn in *. by subst.
  - intros p H1 H2. rewrite Hlists, with_node_list. by rewrite !decide_False.
  - intros e H1 H2. cbn. rewrite <- (Hsame e), with_node_lookup. by rewrite !decide_False.
Qed.
End register.

(** ** Splitting a line *)

(** Characters of an argument without quotes, and of one in quotes *)
Definition plain_char (b : Z) : bool := negb (isspace b) && negb (bool_decide (b ∈ [0; 34; 39; 124])).
Definition quoted_char (b : Z) : bool := negb (bool_decide (b ∈ [0; 34; 39])).
Definition plain (w : list Z) : bool := negb (bool_decide (w = [])) && forallb plain_char w.
Definition render (w : list Z) : list Z := if plain w then w else 34 :: w ++ [34].
Fixpoint line_of (ws : list (list Z)) : list Z :=
  match ws with
  | [] => []
  | w :: ws => render w ++ match ws with [] => [] | _ => 32 :: line_of ws end
  end.

Lemma plain_char_spec b : plain_char b = true -> b <> 0 /\ b <> 34 /\ b <> 39 /\ b <> 124 /\ isspace b = false.
Proof.
  unfold plain_char. intros [H1%negb_true_iff H2%negb_true_iff]%andb_true_iff. apply bool_decide_eq_false in H2.
  rewrite !not_elem_of_cons in H2. tauto.
Qed.
Lemma quoted_char_spec b : quoted_char b = true -> b <> 0 /\ b <> 34 /\ b <> 39.
Proof. unfold quoted_char. intros H%negb_true_iff%bool_decide_eq_false. rewrite !not_elem_of_cons in H. tauto. Qed.

Section splitting.
Context (max_args : nat).
Notation parse := (fun fuel => parse_args fuel max_args).

(** The first characters of an argument *)
Lemma parse_plain w : forall fuel rest a args, forallb plain_char w = true -> (length args < max_args - 1)%nat -> (length w < fuel)%nat ->
  parse_args fuel max_args (w ++ rest) (Some a) 0 args = parse_args (fuel - length w) max_args rest (Some (a ++ w)) 0 args.
Proof.
  induction w as [|b w IH]; intros fuel rest a args Hw Hargs Hfuel.
  { cbn [app length]. by rewrite app_nil_r, Nat.sub_0_r. }
  destruct fuel as [|fuel]; [cbn [length] in *; lia|]. cbn [forallb] in Hw. apply andb_true_iff in Hw as [Hb Hw].
  apply plain_char_spec in Hb as (H0 & H34 & H39 & H124 & Hsp). cbn [app parse_args length].
  rewrite (proj2 (Nat.ltb_lt _ _) Hargs), (eqb_false_of_ne b 0 H0), Hsp, (eqb_false_of_ne b 124 H124).
  cbn [orb andb]. rewrite (eqb_false_of_ne b 34 H34), (eqb_false_of_ne b 39 H39). cbn [orb].
  rewrite IH by (try done; cbn [length] in *; lia). rewrite <- app_assoc. done.
Qed.
Lemma parse_quoted w : forall fuel rest a args, forallb quoted_char w = true -> (length args < max_args - 1)%nat -> (length w < fuel)%nat ->
  parse_args fuel max_args (w ++ rest) (Some a) 34 args = parse_args (fuel - length w) max_args rest (Some (a ++ w)) 34 args.
Proof.
  induction w as [|b w IH]; intros fuel rest a args Hw Hargs Hfuel.
  { cbn [app length]. by rewrite app_nil_r, Nat.sub_0_r. }
  destruct fuel as [|fuel]; [cbn [length] in *; lia|]. cbn [forallb] in Hw. apply andb_true_iff in Hw as [Hb Hw].
  apply quoted_char_spec in Hb as (H0 & H34 & H39). cbn [app parse_args length].
  rewrite (proj2 (Nat.ltb_lt _ _) Hargs), (eqb_false_of_ne b 34 H34). change (34 =? 0) with false.
  cbn [orb andb]. rewrite (eqb_false_of_ne b 39 H39). cbn [orb].
  rewrite IH by (try done; cbn [length] in *; lia). rewrite <- app_assoc. done.
Qed.

(** One argument, in front of a space or at the end *)
Lemma parse_word w fuel rest init args : forallb quoted_char w = true -> init = None \/ init = Some [] -> (length args < max_args - 1)%nat ->
  rest = [] \/ head rest = Some 32 -> (2 * length (render w) + 2 * length rest < fuel)%nat -> exists fuel',
  parse_args fuel max_args (render w ++ rest) init 0 args = parse_args fuel' max_args rest None 0 (args ++ [w]) /\
  (2 * length rest < fuel')%nat.
Proof.
  intros Hw Hinit Hargs Hrest Hfuel. unfold render in *. destruct (plain w) eqn:Hp.
  - apply andb_true_iff in Hp as [Hne Hp]. apply negb_true_iff, bool_decide_eq_false in Hne.
    assert (Hpos : (0 < length w)%nat) by (destruct w; [done | cbn; lia]).
    assert (E : parse_args fuel max_args (w ++ rest) init 0 args = parse_args (fuel - length w) max_args rest (Some w) 0 args).
    { destruct Hinit as [->| ->]; [|by rewrite parse_plain by (try done; lia)]. destruct w as [|b w]; [done|].
      destruct fuel as [|fuel]; [cbn [length] in *; lia|]. cbn [forallb] in Hp. apply andb_true_iff in Hp as [Hb Hp].
      apply plain_char_spec in Hb as (H0 & H34 & H39 & H124 & Hsp). cbn [app parse_args length].
      rewrite (proj2 (Nat.ltb_lt _ _) Hargs), (eqb_false_of_ne b 0 H0), (eqb_false_of_ne b 34 H34), (eqb_false_of_ne b 39 H39),
        (eqb_false_of_ne b 124 H124), Hsp. cbn [orb negb]. by rewrite parse_plain by (try done; cbn [length] in *; lia). }
    rewrite E. destruct (fuel - length w)%nat as [|fuel'] eqn:Ef; [lia|]. destruct Hrest as [->|Hrest].
    + exists (S fuel'). cbn [parse_args]. rewrite (proj2 (Nat.ltb_lt _ _) Hargs). split; [|cbn in *; lia].
      rewrite length_app. destruct (length args + length [w] <? max_args - 1)%nat; done.
    + destruct rest as [|b rest]; [done|]. injection Hrest as ->. cbn [parse_args]. rewrite (proj2 (Nat.ltb_lt _ _) Hargs).
      exists fuel'. split; [done|]. cbn [length] in *. lia.
  - destruct fuel as [|fuel]; [cbn [length] in *; lia|]. cbn [app parse_args]. rewrite (proj2 (Nat.ltb_lt _ _) Hargs).
    cbn [length] in Hfuel. rewrite length_app in Hfuel. cbn [length] in Hfuel.
    replace ((34 =? 0) || match init with Some _ => (0 =? 0) && (isspace 34 || (34 =? 124)) | None => false end) with false
      by (destruct Hinit as [->| ->]; done).
    change ((34 =? 34) || (34 =? 39)) with true. cbn iota.
    rewrite <- app_assoc, parse_quoted by (try done; lia). destruct (fuel - length w)%nat as [|fuel'] eqn:Ef; [lia|].
    cbn [app parse_args]. rewrite (proj2 (Nat.ltb_lt _ _) Hargs). change (34 =? 34) with true. cbn [orb].
    exists fuel'. split; [done|]. lia.
Qed.

Lemma parse_full fuel p arg q args : (max_args - 1 <= length args)%nat -> parse_args (S fuel) max_args p arg q args = Some args.
Proof. intros H. cbn [parse_args]. by rewrite (proj2 (Nat.ltb_ge _ _) H). Qed.

Lemma parse_words ws : forall fuel init args, Forall (fun w => forallb quoted_char w = true) ws ->
  init = None \/ (init = Some [] /\ ws <> []) -> (length args <= max_args - 1)%nat -> (2 * length (line_of ws) < fuel)%nat ->
  parse_args fuel max_args (line_of ws) init 0 args = Some (take (max_args - 1) (args ++ ws)).
Proof.
  induction ws as [|w ws IH]; intros fuel init args Hws Hinit Hargs Hfuel.
  { destruct Hinit as [->|[_ ?]]; [|done]. destruct fuel as [|fuel]; [cbn [length] in *; lia|]. cbn [line_of parse_args].
    rewrite app_nil_r, take_ge by lia. by destruct (_ <? _)%nat. }
  destruct (Nat.eq_dec (length args) (max_args - 1)) as [He|Hne].
  { destruct fuel as [|fuel]; [lia|]. rewrite parse_full by lia. by rewrite take_app_length' by done. }
  apply Forall_cons in Hws as [Hw Hws]. set (rest := match ws with [] => [] | _ => 32 :: line_of ws end).
  destruct (parse_word w fuel rest init args) as (fuel' & E & Hf); try done.
  { destruct Hinit as [?|[? _]]; auto. }
  { lia. }
  { unfold rest. destruct ws; auto. }
  { cbn [line_of] in Hfuel. fold rest in Hfuel. rewrite length_app in Hfuel. lia. }
  cbn [line_of]. fold rest. rewrite E. change (w :: ws) with ([w] ++ ws). rewrite app_assoc. unfold rest in *.
  destruct ws as [|w2 ws].
  - destruct fuel' as [|fuel']; [cbn in Hf; lia|]. cbn [parse_args]. rewrite app_nil_r, take_ge by (rewrite length_app; cbn; lia).
    by destruct (_ <? _)%nat.
  - destruct fuel' as [|fuel']; [lia|]. destruct (Nat.eq_dec (length (args ++ [w])) (max_args - 1)) as [He|Hne2].
    { rewrite parse_full by lia. by rewrite take_app_length' by done. }
    rewrite length_app in *. cbn [length] in *. cbn [parse_args]. rewrite length_app. cbn [length].
    rewrite (proj2 (Nat.ltb_lt _ _)) by lia. change (32 =? 0) with false. cbn [orb].
    change ((32 =? 34) || (32 =? 39)) with false. change (32 =? 124) with false. change (isspace 32) with true. cbn [negb].
    apply IH; [done | by left | rewrite length_app; cbn; lia | lia].
Qed.
End splitting.

Lemma fh_cli_cmd_parse_line ws max_args : Forall (fun w => forallb quoted_char w = true) ws -> ws <> [] ->
  fh_cli_cmd_parse (line_of ws) max_args = Some (take (max_args - 1) ws).
Proof. intros Hws Hne. unfold fh_cli_cmd_parse. rewrite parse_words; [done | done | by right | cbn; lia | lia]. Qed.

(** ** A line and the command it names *)

Fixpoint join (ws : list (list Z)) : list Z :=
  match ws with [] => [] | w :: ws => w ++ match ws with [] => [] | _ => 32 :: join ws end end.
Lemma join_snoc ws a b : join (ws ++ [a; b]) = join (ws ++ [a ++ 32 :: b]).
Proof.
  induction ws as [|w ws IH]; cbn [app join]; [by rewrite !app_nil_r|]. rewrite IH. by destruct ws.
Qed.

(** Commands below each other, from the list of [p] on *)
Fixpoint path (t : cli) (p : Z) (cs : list (Z * fh_cli_cmd)) : Prop :=
  match cs with
  | [] => True
  | (c, node) :: cs => (exists l, list_at t p = Some l /\ c ∈ l) /\ cmd_nodes t !! c = Some node /\ path t c cs
  end.
(** Words that abbreviate them *)
Fixpoint words_for (t : cli) (p : Z) (cs : list (Z * fh_cli_cmd)) (ws : list (list Z)) : Prop :=
  match cs, ws with
  | [], [] => True
  | (c, _) :: cs, w :: ws =>
      (exists l, list_at t p = Some l /\ abbreviates (cmd_nodes t) l w c) /\ name_ok w /\ last w <> Some 63 /\ words_for t c cs ws
  | _, _ => False
  end.
Definition cmd_names (cs : list (Z * fh_cli_cmd)) : list (list Z) := c_name ∘ snd <$> cs.
Definition last_cmd (cs : list (Z * fh_cli_cmd)) : Z := default NULL (fst <$> last cs).
Definition names_room (cs : list (Z * fh_cli_cmd)) : Z := foldr (fun cn n => Z.of_nat (length (c_name (snd cn))) + 1 + n) 0 cs.

Lemma path_snoc t cs : forall p c node, path t p (cs ++ [(c, node)]) -> path t p cs /\ cmd_nodes t !! c = Some node /\
  exists l, list_at t (match last cs with Some (b, _) => b | None => p end) = Some l /\ c ∈ l.
Proof.
  induction cs as [|[b bn] cs IH]; intros p c node; [by intros (H1 & H2 & _)|]. cbn [app path]. intros (H1 & H2 & H3).
  destruct (IH b c node H3) as (H4 & H5 & H6). split; [done|]. split; [done|]. rewrite last_cons. destruct (last cs) as [[? ?]|]; exact H6.
Qed.
Lemma names_room_snoc cs c node : names_room (cs ++ [(c, node)]) = names_room cs + (Z.of_nat (length (c_name node)) + 1).
Proof. unfold names_room. induction cs as [|b cs IH]; cbn [app foldr]; [cbn; lia|]. rewrite IH. lia. Qed.
Lemma path_depth t d cs : shape t d -> path t NULL cs -> d (last_cmd cs) = length cs.
Proof.
  intros Hsh. induction cs as [|[c node] cs IH] using rev_ind; intros Hp; [apply (sh_root _ _ Hsh)|].
  apply path_snoc in Hp as (Hp & Hc & l & Hl & Hin). unfold last_cmd. rewrite last_snoc, length_app. change (default NULL (fst <$> Some (c, node))) with c.
  destruct (sh_depth _ _ Hsh c node Hc) as [-> _]. destruct (sh_lists _ _ Hsh _ l Hl) as [_ H]. destruct (H c Hin) as (_ & n & Hn & Hpar).
  assert (n = node) as -> by congruence. rewrite Hpar. specialize (IH Hp). unfold last_cmd in IH. destruct (last cs) as [[b bn]|]; cbn in *; lia.
Qed.

(** The full name of a command *)
Lemma fullname_path t d cs : shape t d -> path t NULL cs -> forall fuel room acc, (length cs <= fuel)%nat -> names_room cs <= room ->
  fullname fuel (cmd_nodes t) (last_cmd cs) room acc = Some (join (cmd_names cs ++ option_list acc)).
Proof.
  intros Hsh. induction cs as [|[c node] cs IH] using rev_ind; intros Hp fuel room acc Hf Hroom.
  { unfold last_cmd. destruct fuel, acc; cbn; by rewrite ?app_nil_r. }
  apply path_snoc in Hp as (Hp & Hc & l & Hl & Hin). rewrite names_room_snoc in Hroom. rewrite length_app in Hf. cbn in Hf.
  destruct (sh_lists _ _ Hsh _ l Hl) as [_ H]. destruct (H c Hin) as (Hnull & n & Hn & Hpar). assert (n = node) as -> by congruence.
  destruct (sh_len _ _ Hsh c node Hc) as [Hlen _]. destruct fuel as [|fuel]; [lia|].
  unfold last_cmd. rewrite last_snoc. change (default NULL (fst <$> Some (c, node))) with c. cbn [fullname].
  rewrite (eqb_false_of_ne c NULL Hnull), Hc. cbn [mbind option_bind].
  assert (Hpos : 0 <= names_room cs) by (clear; unfold names_room; induction cs as [|b cs IH]; cbn [foldr]; lia).
  rewrite option_guard_True by lia. cbn [mbind option_bind].
  replace (c_parent node) with (last_cmd cs) by (rewrite Hpar; unfold last_cmd; by destruct (last cs) as [[b bn]|]).
  rewrite IH by (done || lia). f_equal. unfold cmd_names. rewrite fmap_app, <- app_assoc.
  change (c_name ∘ snd <$> [(c, node)]) with [c_name node]. destruct acc as [rest|]; [|done].
  change (join ((c_name ∘ snd <$> cs) ++ [c_name node ++ 32 :: rest]) = join ((c_name ∘ snd <$> cs) ++ [c_name node; rest])).
  by rewrite join_snoc.
Qed.

(** The tree with nothing in it *)
Definition no_commands : cli := MkCli ∅ [] FH_CLI_CMD_MODE_DEFAULT.
Lemma no_commands_ok : cli_ok no_commands (fun _ => 0%nat).
Proof.
  constructor; [constructor | ..]; try done.
  - intros p l. unfold list_at. destruct (p =? NULL); cbn; [intros [= <-] | by rewrite lookup_empty].
    split; [constructor|]. by intros c ?%not_elem_of_nil.
Qed.

(** A tree built by registering commands one after the other: names in small
    letters, which fit, no two of them the same below one command. *)
Record new_command (t : cli) (c parent : Z) (l name : list Z) : Prop := {
  nc_list : list_at t parent = Some l;
  nc_null : c <> NULL;
  nc_fresh : cmd_nodes t !! c = None;
  nc_lower : tolower <$> name = name;
  nc_name : name_ok name;
  nc_length : Z.of_nat (length name) < 65535;
  nc_new : forall e node, e ∈ l -> cmd_nodes t !! e = Some node -> c_name node <> name
}.
Inductive built : cli -> Prop :=
  | built_none : built no_commands
  | built_register t c parent l name mode cb help t' : built t -> new_command t c parent l name ->
      fh_cli_cmd_register (Some c) parent (Some name) mode cb help t = Some (c, t') -> built t'.

Lemma built_ok t : built t -> exists d, cli_ok t d.
Proof.
  induction 1 as [|t c parent l name mode cb help t' _ [d Hd] [H1 H2 H3 H4 H5 H6 H7] E]; [by eexists; apply no_commands_ok|].
  destruct (register_ok t d Hd c parent l H1 name mode cb help H2 H3 H4 H5 H6 H7) as (t2 & E2 & H & _).
  rewrite E in E2. injection E2 as <-. by eexists.
Qed.

(** Registering does not fail. *)
Lemma built_step t c parent l name mode cb help : built t -> new_command t c parent l name ->
  exists t', fh_cli_cmd_register (Some c) parent (Some name) mode cb help t = Some (c, t') /\ built t'.
Proof.
  intros Hb Hn. pose proof Hn as [H1 H2 H3 H4 H5 H6 H7]. destruct (built_ok t Hb) as [d Hd].
  destruct (register_ok t d Hd c parent l H1 name mode cb help H2 H3 H4 H5 H6 H7) as (t2 & E & _).
  exists t2. split; [exact E | by eapply built_register].
Qed.

Section running.
Context {W : Type} (regcomp : list Z -> option (list Z -> bool))
  (callback : nat -> list Z -> list (list Z) -> nat -> nat -> cli_state W -> option (Z * cli_state W)).
Notation st_t := (cli_state W).
Notation find := (fh_cli_cmd_find regcomp callback).

(** Words that lead to a command that has no others below it *)
Lemma find_path d f (st : st_t) args rest cs : cli_ok (st_tree st) d -> forall p l pre ws fuel, list_at (st_tree st) p = Some l ->
  args = pre ++ ws ++ rest -> path (st_tree st) p cs -> words_for (st_tree st) p cs ws -> (length ws < fuel)%nat ->
  forall c node, last cs = Some (c, node) -> c_children node = [] -> c_callback node = Some f -> exists w,
  find fuel l (length args) args (length pre) (Some 0%nat) false st =
    '(rc, st) ← run_command regcomp callback (length args) (length args) args (length pre + length ws - 1) w true c node st; Some (rc, NULL, st).
Proof.
  intros Hok. induction cs as [|[b bn] cs IH]; intros p l pre ws fuel Hl Hargs Hpath Hw Hf c node Hlast Hleaf Hcb; [done|].
  destruct ws as [|w ws]; [done|]. destruct Hw as ((l0 & Hl0 & Hab) & Hwok & Hq & Hw). destruct Hpath as ((l1 & Hl1 & Hin) & Hb & Hpath).
  assert (l0 = l) as -> by congruence. assert (l1 = l) as -> by congruence. clear Hl0 Hl1.
  destruct fuel as [|fuel]; [cbn in Hf; lia|]. cbn [fh_cli_cmd_find].
  assert (Harg : args !! length pre = Some w) by (by rewrite Hargs, lookup_app_r, Nat.sub_diag by lia). rewrite Harg. cbn [mbind option_bind].
  assert (Hne : w <> []) by (by destruct Hab as (? & _ & _ & ? & _)). destruct (last w) as [z|] eqn:Ez; [|by apply last_None in Ez].
  cbn [mbind option_bind]. rewrite (eqb_false_of_ne z 63) by congruence.
  destruct (select_spec _ _ w (cli_ok_siblings _ _ _ _ Hok Hl) Hwok Hne) as [Hsel _]. rewrite (Hsel b bn Hb Hab). cbn [mbind option_bind].
  assert (Hchild : list_at (st_tree st) b = Some (c_children bn)).
  { unfold list_at. rewrite (eqb_false_of_ne b NULL) by (by eapply (sh_nonnull _ _ (co_shape _ _ Hok))). by rewrite Hb. }
  destruct cs as [|[e en] cs].
  - injection Hlast as -> ->. rewrite Hleaf, Hcb. destruct ws as [|? ?]; [|done]. exists w. rewrite bool_decide_true by done.
    cbn [length]. by replace (length pre + 1 - 1)%nat with (length pre) by lia.
  - assert (Hnil : c_children bn <> []).
    { destruct Hpath as ((l1 & Hl1 & Hin1) & _). rewrite Hchild in Hl1. injection Hl1 as <-. intros E. rewrite E in Hin1. by apply not_elem_of_nil in Hin1. }
    destruct ws as [|w2 ws]; [done|].
    destruct (IH b (c_children bn) (pre ++ [w]) (w2 :: ws) fuel Hchild ltac:(by rewrite <- app_assoc) Hpath Hw ltac:(cbn in *; lia)
      c node Hlast Hleaf Hcb) as (w' & E).
    exists w'. rewrite length_app in E. cbn [length] in E. destruct (c_children bn) as [|ch chs]; [done|].
    replace (length pre =? length args - 1)%nat with false
      by (symmetry; apply Nat.eqb_neq; rewrite Hargs, length_app; cbn [length app]; lia).
    replace (S (length pre)) with (length pre + 1)%nat by lia. rewrite E. cbn [length].
    by replace (length pre + 1 + S (length ws) - 1)%nat with (length pre + S (S (length ws)) - 1)%nat by lia.
Qed.

Lemma skip_line ws : Forall (fun w => forallb quoted_char w = true) ws -> ws <> [] -> skip_spaces (line_of ws) = line_of ws /\ line_of ws <> [].
Proof.
  intros Hws Hne. destruct ws as [|w ws]; [done|]. cbn [line_of]. unfold render. destruct (plain w) eqn:Hp; [|done].
  apply andb_true_iff in Hp as [Hn Hp]. destruct w as [|b w]; [done|]. cbn [forallb] in Hp. apply andb_true_iff in Hp as [Hb _].
  apply plain_char_spec in Hb as (_ & _ & _ & _ & Hsp). cbn. by rewrite Hsp.
Qed.

(** C34: functional. In a tree made by registering commands with different
    names in small letters ([built]; not after an alias was removed, which
    leaves the unique lengths as they were), a line whose first words
    abbreviate the commands on a path of the tree, down to one that has none
    below it, calls the function of that command, with its full name and the
    rest of the arguments: each word is the whole name or begins the name of
    one command only, in small or capital letters; an argument with spaces may
    be in quotes. The line has fewer than [MAX_ARGS] words, none with a quote in
    it or a bar at its head (those filter the output), and none of the
    command's ends in a question mark (that asks for help); the full name fits
    in 1024 characters. *)
Theorem cli_line_runs_command f (st st' : st_t) cs ws args c node : built (st_tree st) ->
  path (st_tree st) NULL cs -> words_for (st_tree st) NULL cs ws -> last cs = Some (c, node) -> c_children node = [] ->
  c_callback node = Some f -> names_room cs <= 1024 -> Forall (fun w => forallb quoted_char w = true) (ws ++ args) ->
  Forall (fun w => head w <> Some 124) (ws ++ args) -> (length (ws ++ args) < MAX_ARGS)%nat ->
  callback f (join (cmd_names cs)) (ws ++ args) (length ws) (length args) st = Some (0, st') ->
  fh_cli_cmd_process regcomp callback (line_of (ws ++ args)) st = Some (0, fh_cli_filter_clean st').
Proof.
  intros Hbuilt Hpath Hw Hlast Hleaf Hcb Hroom Hq Hbar Hlen Hcall. destruct (built_ok _ Hbuilt) as [d Hok].
  assert (Hne : ws ++ args <> []) by (destruct cs as [|[? ?] cs], ws; try done).
  assert (Hws : (0 < length ws)%nat) by (destruct cs as [|[? ?] cs], ws; try done; cbn; lia).
  unfold fh_cli_cmd_process. destruct (skip_line _ Hq Hne) as [-> Hl]. destruct (line_of (ws ++ args)) as [|b rest] eqn:E; [done|].
  rewrite <- E, fh_cli_cmd_parse_line, take_ge by (done || (unfold MAX_ARGS in *; lia)). cbn [mbind option_bind].
  assert (Hfilter : first_filter (ws ++ args) = 0%nat).
  { unfold first_filter. destruct (list_find _ _) as [[k a]|] eqn:Ef; [|done]. apply list_find_Some in Ef as (Ha & Hb & _).
    by apply (proj1 (Forall_forall _ _) Hbar a (list_elem_of_lookup_2 _ _ _ Ha)) in Hb. }
  rewrite Hfilter. destruct (find_path d f st (ws ++ args) args cs Hok NULL (cmd_list (st_tree st)) [] ws (S (length (ws ++ args))) eq_refl eq_refl Hpath Hw
    ltac:(rewrite length_app; lia) c node Hlast Hleaf Hcb) as (w & Ef). cbn [app length] in Ef.
  destruct (ws ++ args) as [|a0 as_] eqn:Ea; [done|]. rewrite <- Ea in *. rewrite Ef. clear Ef.
  unfold run_command. rewrite Hcb. cbn [mbind option_bind]. rewrite Nat.eqb_refl. cbn [negb andb mbind option_bind].
  assert (Hc : last_cmd cs = c) by (unfold last_cmd; by rewrite Hlast).
  assert (Hfull : fh_cli_cmd_fullname (cmd_nodes (st_tree st)) c = Some (join (cmd_names cs))).
  { unfold fh_cli_cmd_fullname. rewrite <- Hc, (fullname_path (st_tree st) d cs (co_shape _ _ Hok) Hpath); [by rewrite app_nil_r | | done].
    rewrite <- (path_depth _ _ _ (co_shape _ _ Hok) Hpath), Hc. destruct (sh_depth _ _ (co_shape _ _ Hok) c node) as [_ ?]; [|lia].
    clear -Hpath Hlast. revert Hpath. generalize NULL. induction cs as [|[b bn] cs IH]; intros p; [done|]. intros (_ & H1 & H2).
    destruct cs as [|x cs]; [by injection Hlast as -> ->|]. by eapply IH. }
  rewrite Hfull. cbn [mbind option_bind]. replace (0 + length ws - 1 + 1)%nat with (length ws) by lia.
  replace (length (ws ++ args) - (0 + length ws - 1) - 1)%nat with (length args) by (rewrite length_app; lia).
  rewrite Hcall. done.
Qed.
End running.

Definition word (s : string) : list Z := c_str s.
Lemma name_ok_dec w : forallb (fun b => negb (b =? 0)) w = true -> name_ok w.
Proof. intros H. apply Forall_forall. intros b Hb%list_elem_of_In. apply (proj1 (forallb_forall _ _) H) in Hb. by destruct (Z.eqb_spec b 0). Qed.
(** A command with two below it, as [fh_cli_init] registers them *)
Lemma alias_tree : exists t a u v, built t /\ list_at t NULL = Some [1] /\ list_at t 1 = Some [3; 2] /\
  cmd_nodes t !! 1 = Some (MkCmd [3; 2] NULL (word "alias") a 5 1 None None) /\
  cmd_nodes t !! 2 = Some (MkCmd [] 1 (word "add") u 3 1 None (Some 7%nat)) /\
  cmd_nodes t !! 3 = Some (MkCmd [] 1 (word "del") v 3 1 None (Some 8%nat)).
Proof.
  destruct (built_step no_commands 1 NULL [] (word "alias") 1 None None built_none) as (t1 & E1 & H1).
  { constructor; first [done | by apply name_ok_dec | by intros e node ?%not_elem_of_nil]. }
  vm_compute in E1. injection E1 as <-.
  match type of H1 with built ?t =>
    destruct (built_step t 2 1 [] (word "add") 1 (Some 7%nat) None H1) as (t2 & E2 & H2) end.
  { constructor; first [done | by apply name_ok_dec | by intros e node ?%not_elem_of_nil]. }
  vm_compute in E2. injection E2 as <-.
  match type of H2 with built ?t =>
    destruct (built_step t 3 1 [2] (word "del") 1 (Some 8%nat) None H2) as (t3 & E3 & H3) end.
  { constructor; first [done | by apply name_ok_dec | intros e node ->%list_elem_of_singleton; by intros [= <-]]. }
  vm_compute in E3. injection E3 as <-. eexists _, _, _, _. split; [exact H3|]. by repeat split.
Qed.

(** A function that keeps what it is called with *)
Definition keep_call (f : nat) (full : list Z) (args : list (list Z)) (i n : nat) (st : cli_state (list (list (list Z)))) :=
  Some (0, MkCliState (st_tree st) (rep st) (exclude st) (st_out st) (st_world st ++ [full :: take n (drop i args)])).

(** C34's witness: [AL ad x "show all"] runs [alias add] with two arguments. *)
Lemma cli_line_runs_command_witness : exists st,
  fh_cli_cmd_process (fun _ => None) keep_call (line_of ([word "AL"; word "ad"] ++ [word "x"; word "show all"])) st =
  Some (0, MkCliState (st_tree st) None false [] [[word "alias add"; word "x"; word "show all"]]).
Proof.
  destruct alias_tree as (t & a & u & v & Hok & L0 & L1 & N1 & N2 & N3).
  set (st := MkCliState t None false [] ([] : list (list (list Z)))). exists st.
  set (alias := MkCmd [3; 2] NULL (word "alias") a 5 1 None None) in *. set (add := MkCmd [] 1 (word "add") u 3 1 None (Some 7%nat)) in *.
  apply (cli_line_runs_command (fun _ => None) keep_call 7 st
    (MkCliState t None false [] [[word "alias add"; word "x"; word "show all"]])
    [(1, alias); (2, add)] [word "AL"; word "ad"] [word "x"; word "show all"] 2 add Hok); try reflexivity.
  - split; [by exists [1]; split; [|left]|]. split; [exact N1|]. split; [by exists [3; 2]; split; [|right; left]|]. by split.
  - split; [exists [1]; split; [exact L0|] | split; [by apply name_ok_dec|]; split; [done|]; split; [exists [3; 2]; split; [exact L1|] | split; [by apply name_ok_dec | by split]]].
    + exists alias. split; [exact N1|]. split; [by left|]. split; [done|]. split; [by exists (word "ias")|].
      intros e node ->%list_elem_of_singleton. done.
    + exists add. split; [exact N2|]. split; [by right; left|]. split; [done|]. split; [by exists (word "d")|].
      intros e node He Hne Hn Hp. exfalso. apply elem_of_cons in He as [->|He]; [|by apply list_elem_of_singleton in He].
      assert (E : Some node = Some (MkCmd [] 1 (word "del") v 3 1 None (Some 8%nat))) by (rewrite <- N3; symmetry; exact Hn).
      injection E as ->. destruct Hp as [s Hs]. by vm_compute in Hs.
  - by vm_compute.
  - repeat constructor.
  - vm_compute. repeat constructor; done.
  - by apply Nat.ltb_lt.
Defined.
