(* ===== verification/Admin.v ===== *)
(** * The messages of the manager ([src/mgmt/lib/fh_mgmt_admin.c], [admin/])

    Feed handlers, the manager and its clients exchange messages: a header and
    a C struct, in network byte order.  A message and its packed form are
    buffers with the same layout; the functions copy the members one by one. *)
From Stdlib Require Import String.
From stdpp Require Import strings.
From S2P Require Import Prelude Bytes Mpool Sock.
Local Open Scope list_scope.

(** ** Copying members

    What is written at [p] of a buffer; outside of it, undefined. *)
Definition write_bytes (buf : list Z) (p : Z) (l : list Z) : option (list Z) :=
  if (0 <=? p) && (p + Z.of_nat (length l) <=? Z.of_nat (length buf)) then
    Some (take (Z.to_nat p) buf ++ l ++ drop (Z.to_nat p + length l) buf)
  else None.

(** The string at the start of [l], without the NUL that ends it *)
Fixpoint c_string (l : list Z) : option (list Z) :=
  match l with
  | [] => None
  | b :: l => if b =? 0 then Some [] else s ← c_string l; Some (b :: s)
  end.

(** [htonll], [ntohll] of [fh_util.h] *)
Definition htonll (x : Z) : Z :=
  Z.lor (Z.shiftl (ntoh32 (u32 (Z.land x 0xffffffff))) 32) (ntoh32 (u32 (Z.land (Z.shiftr x 32) 0xffffffff))).

(** Assignments from the struct at [so] of the buffer [src] to the one at
    [to] of [dst]: the new contents of [dst] *)
Definition copier : Type := list Z -> Z -> list Z -> Z -> option (list Z).
Definition and_then (c1 c2 : copier) : copier := fun src so dst to => dst ← c1 src so dst to; c2 src so dst to.
Infix ">>" := and_then (at level 63, right associativity).

(** [d->x = hton(s->x)] for the member at [off], of [n] bytes *)
Definition swap (hton : Z -> Z) (n : nat) (off : Z) : copier := fun src so dst to =>
  x ← read_le src (so + off) n; write_bytes dst (to + off) (le_bytes n (hton x)).
Definition swap16 : Z -> copier := swap ntoh16 2.
Definition swap32 : Z -> copier := swap ntoh32 4.
Definition swap64 : Z -> copier := swap htonll 8.
(** [memcpy], and the assignment of a member as it is *)
Definition memcpy (off : Z) (n : nat) : copier := fun src so dst to =>
  l ← read_bytes src (so + off) n; write_bytes dst (to + off) l.
Definition strcpy (off : Z) : copier := fun src so dst to =>
  guard (0 <= so + off);;
  s ← c_string (drop (Z.to_nat (so + off)) src); write_bytes dst (to + off) (s ++ [0]).

(** ** Packing and unpacking

    [pack(msg, data, &length)] with [msg] at [mo] of a buffer and [data] at a
    place of another, or [NULL]: the status, the length, the buffer of [data].
    [unpack(msg, data, length)]: the status and the buffer of [msg]. *)
Definition pack_fn : Type := list Z -> Z -> option (list Z * Z) -> option (Z * Z * list Z).
Definition unpack_fn : Type := list Z -> Z -> list Z -> Z -> Z -> option (Z * list Z).

(** The functions for structs of one size *)
Definition packs (size : Z) (c : copier) : pack_fn := fun msg mo data =>
  match data with
  | None => Some (FH_OK, size, [])
  | Some (d, to) => d ← c msg mo d to; Some (FH_OK, size, d)
  end.
Definition unpacks (size : Z) (c : copier) : unpack_fn := fun msg mo data to length =>
  guard (length = size);; msg ← c data to msg mo; Some (FH_OK, msg).

(** [fh_adm_reg_req_t] *)
Definition reg_type : Z := 0.
Definition reg_port : Z := 2.
Definition reg_addr : Z := 4.
Definition reg_pid : Z := 8.
Definition reg_srv : Z := 12.
Definition sizeof_reg_req : Z := 28.
Definition adm_reg_req_pack : pack_fn :=
  packs sizeof_reg_req (swap16 reg_type >> swap16 reg_port >> swap32 reg_pid >> memcpy reg_addr 4 >> strcpy reg_srv).
Definition adm_reg_req_unpack : unpack_fn :=
  unpacks sizeof_reg_req (swap16 reg_type >> swap16 reg_port >> swap32 reg_pid >> memcpy reg_addr 4 >> strcpy reg_srv).

(** [fh_adm_reg_resp_t] *)
Definition reg_conn_id : Z := 0.
Definition adm_reg_resp_pack : pack_fn := packs 4 (swap32 reg_conn_id).
Definition adm_reg_resp_unpack : unpack_fn := unpacks 4 (swap32 reg_conn_id).

(** [fh_adm_getver_req_t], [fh_adm_getver_resp_t] *)
Definition getver_service : Z := 0.
Definition getver_state : Z := 16.
Definition sizeof_getver_resp : Z := 52.
Definition adm_getver_req_pack : pack_fn := packs 16 (strcpy getver_service).
Definition adm_getver_req_unpack : unpack_fn := unpacks 16 (strcpy getver_service).
Definition adm_getver_resp_pack : pack_fn := packs sizeof_getver_resp (memcpy 0 52 >> swap32 getver_state).
Definition adm_getver_resp_unpack : unpack_fn := unpacks sizeof_getver_resp (memcpy 0 52 >> swap32 getver_state).

(** [fh_adm_serv_req_t] *)
Definition serv_name : Z := 0.
Definition serv_cmd : Z := 16.
Definition adm_serv_req_pack : pack_fn := packs 20 (swap32 serv_cmd >> strcpy serv_name).
Definition adm_serv_req_unpack : unpack_fn := unpacks 20 (swap32 serv_cmd >> strcpy serv_name).

(** [fh_adm_status_req_t], [fh_adm_status_resp_t] *)
Definition status_service : Z := 0.
Definition status_state : Z := 16.
Definition status_pid : Z := 20.
Definition status_fp_cpu : Z := 24.
Definition status_fp_tid : Z := 28.
Definition status_uptime : Z := 32.
Definition status_pmem : Z := 36.
Definition status_putime : Z := 40.
Definition status_pstime : Z := 44.
Definition sizeof_status_resp : Z := 48.
Definition adm_status_req_pack : pack_fn := packs 16 (strcpy status_service).
Definition adm_status_req_unpack : unpack_fn := unpacks 16 (strcpy status_service).
Definition adm_status_resp_pack : pack_fn :=
  packs sizeof_status_resp (strcpy status_service >> swap32 status_state >> swap32 status_pid >> swap32 status_fp_cpu
    >> swap32 status_fp_tid >> swap32 status_uptime >> swap32 status_pmem >> swap32 status_putime >> swap32 status_pstime).
Definition adm_status_resp_unpack : unpack_fn :=
  unpacks sizeof_status_resp (strcpy status_service >> swap32 status_state >> swap32 status_pid >> swap32 status_fp_cpu
    >> swap32 status_fp_tid >> swap32 status_uptime >> swap32 status_pmem >> swap32 status_putime >> swap32 status_pstime).

(** [fh_adm_action_req_t], [fh_adm_sgt_req_t] *)
Definition action_type : Z := 0.
Definition adm_action_req_pack : pack_fn := packs 4 (swap32 action_type).
Definition adm_action_req_unpack : unpack_fn := unpacks 4 (swap32 action_type).
Definition sgt_reserved : Z := 0.
Definition adm_sgt_req_pack : pack_fn := packs 4 (swap32 sgt_reserved).
Definition adm_sgt_req_unpack : unpack_fn := unpacks 4 (swap32 sgt_reserved).

(** ** Statistics

    [fh_adm_line_stats_t] and [fh_adm_stats_resp_t] *)
Definition line_name : Z := 0.
Definition line_pkt_rx : Z := 32.
Definition line_pkt_dups : Z := 40.
Definition line_pkt_errs : Z := 48.
Definition line_pkt_late : Z := 56.
Definition line_pkt_until_reset : Z := 64.
Definition line_pkt_bad_times : Z := 72.
Definition line_pkt_seq_jump : Z := 80.
Definition line_pkt_wrap_noreset : Z := 88.
Definition line_msg_rx : Z := 96.
Definition line_msg_loss : Z := 104.
Definition line_msg_recovered : Z := 112.
Definition line_msg_late : Z := 120.
Definition line_bytes : Z := 128.
Definition sizeof_line_stats : Z := 136.
Definition stats_service : Z := 0.
Definition stats_state : Z := 16.
Definition stats_line_cnt : Z := 20.
Definition stats_lines : Z := 24.
Definition FH_MGMT_MAX_LINES : Z := 12.
Definition sizeof_stats_resp : Z := stats_lines + FH_MGMT_MAX_LINES * sizeof_line_stats.

Definition adm_stats_req_pack : pack_fn := packs 16 (strcpy stats_service).
Definition adm_stats_req_unpack : unpack_fn := unpacks 16 (strcpy stats_service).

(** The body of the loop, for [&stats_lines[i]] *)
Definition stats_line (i : Z) : copier := fun src so dst to =>
  let line := stats_lines + i * sizeof_line_stats in
  (strcpy line_name >> swap64 line_pkt_rx >> swap64 line_pkt_errs >> swap64 line_pkt_dups >> swap64 line_pkt_late
   >> swap64 line_pkt_until_reset >> swap64 line_pkt_bad_times >> swap64 line_pkt_seq_jump >> swap64 line_pkt_wrap_noreset
   >> swap64 line_msg_rx >> swap64 line_msg_loss >> swap64 line_msg_recovered >> swap64 line_msg_late >> swap64 line_bytes)
    src (so + line) dst (to + line).
(** [n] passes, the first of them for [i] *)
Fixpoint stats_loop (n : nat) (i : Z) : copier := fun src so dst to =>
  match n with
  | 0%nat => Some dst
  | S n => dst ← stats_line i src so dst to; stats_loop n (i + 1) src so dst to
  end.

Definition adm_stats_resp_pack : pack_fn :=
  packs sizeof_stats_resp (fun msg mo data to =>
    data ← (strcpy stats_service >> swap32 stats_line_cnt >> swap32 stats_state) msg mo data to;
    cnt ← read_le msg (mo + stats_line_cnt) 4;
    stats_loop (Z.to_nat cnt) 0 msg mo data to).
Definition adm_stats_resp_unpack : unpack_fn :=
  unpacks sizeof_stats_resp (fun data to msg mo =>
    msg ← (strcpy stats_service >> swap32 stats_line_cnt >> swap32 stats_state) data to msg mo;
    cnt ← read_le msg (mo + stats_line_cnt) 4;
    stats_loop (Z.to_nat cnt) 0 data to msg mo).

(** ** Service groups

    [fh_adm_sgt_resp_t], with its [fh_adm_sg_resp_t] behind it and their
    [fh_adm_sg_serv_resp_t] behind each *)
Definition sgt_count : Z := 0.
Definition sgt_size : Z := 2.
Definition sizeof_sgt_resp : Z := 4.
Definition sg_name : Z := 0.
Definition sg_serv_count : Z := 16.
Definition sg_serv_size : Z := 20.
Definition sizeof_sg_resp : Z := 24.
Definition sizeof_sg_serv_resp : Z := 16.

(** The loops: [m_ptr] and [d_ptr] are at the same distance [p]. *)
Fixpoint sgt_pack_loop (n : nat) (p : Z) (msg : list Z) (mo : Z) (data : list Z) (to : Z) : option (list Z) :=
  match n with
  | 0%nat => Some data
  | S n =>
      data ← (strcpy sg_name >> swap32 sg_serv_count >> swap32 sg_serv_size) msg (mo + p) data (to + p);
      count ← read_le msg (mo + p + sg_serv_count) 4;
      data ← (if 0 <? count then memcpy sizeof_sg_resp (Z.to_nat (count * sizeof_sg_serv_resp)) msg (mo + p) data (to + p)
              else Some data);
      size ← read_le msg (mo + p + sg_serv_size) 4;
      sgt_pack_loop n (p + sizeof_sg_resp + size) msg mo data to
  end.
Fixpoint sgt_unpack_loop (n : nat) (p : Z) (msg : list Z) (mo : Z) (data : list Z) (to : Z) : option (list Z) :=
  match n with
  | 0%nat => Some msg
  | S n =>
      msg ← (strcpy sg_name >> swap32 sg_serv_count >> swap32 sg_serv_size) data (to + p) msg (mo + p);
      count ← read_le msg (mo + p + sg_serv_count) 4;
      msg ← (if 0 <? count then memcpy sizeof_sg_resp (Z.to_nat (count * sizeof_sg_serv_resp)) data (to + p) msg (mo + p)
             else Some msg);
      size ← read_le msg (mo + p + sg_serv_size) 4;
      sgt_unpack_loop n (p + sizeof_sg_resp + size) msg mo data to
  end.

Definition adm_sgt_resp_pack : pack_fn := fun msg mo data =>
  size ← read_le msg (mo + sgt_size) 2;
  packs (sizeof_sgt_resp + size) (fun msg mo data to =>
    data ← (swap16 sgt_count >> swap16 sgt_size) msg mo data to;
    count ← read_le msg (mo + sgt_count) 2;
    sgt_pack_loop (Z.to_nat count) sizeof_sgt_resp msg mo data to) msg mo data.
Definition adm_sgt_resp_unpack : unpack_fn := fun msg mo data to length =>
  msg ← (swap16 sgt_count >> swap16 sgt_size) data to msg mo;
  size ← read_le msg (mo + sgt_size) 2;
  guard (u32 length = sizeof_sgt_resp + size);;
  count ← read_le msg (mo + sgt_count) 2;
  msg ← sgt_unpack_loop (Z.to_nat count) sizeof_sgt_resp msg mo data to;
  Some (FH_OK, msg).

(** ** Responses of services

    [fh_adm_serv_resp_t]: a number of messages of another type follow. *)
Definition serv_resp_cnt : Z := 16.
Definition serv_resp_size : Z := 20.
Definition serv_resp_cmd : Z := 24.
Definition sizeof_serv_resp : Z := 28.

Section serv_resp.
(** [fh_adm_pack(type, data, msg, length)] and [fh_adm_unpack], whose lengths
    are those of the messages *)
Context (fh_adm_pack : Z -> list Z -> Z -> list Z -> Z -> option (Z * list Z)).
Context (fh_adm_unpack : Z -> list Z -> Z -> list Z -> Z -> Z -> option (Z * list Z)).

Fixpoint serv_pack_loop (n : nat) (cmd size : Z) (p : Z) (msg : list Z) (mo : Z) (data : list Z) (to : Z) : option (Z * list Z) :=
  match n with
  | 0%nat => Some (FH_OK, data)
  | S n =>
      '(rc, data) ← fh_adm_pack (s32 cmd) data (to + p) msg (mo + p);
      if negb (rc =? FH_OK) then Some (rc, data) else serv_pack_loop n cmd size (p + size) msg mo data to
  end.
Definition adm_serv_resp_pack : pack_fn := fun msg mo data =>
  size ← read_le msg (mo + serv_resp_size) 4;
  cnt ← read_le msg (mo + serv_resp_cnt) 4;
  cmd ← read_le msg (mo + serv_resp_cmd) 4;
  let length := s32 (sizeof_serv_resp + u32 (size * cnt)) in
  match data with
  | None => Some (FH_OK, length, [])
  | Some (data, to) =>
      data ← (swap32 serv_resp_cmd >> swap32 serv_resp_size >> swap32 serv_resp_cnt >> strcpy serv_name) msg mo data to;
      '(rc, data) ← serv_pack_loop (Z.to_nat cnt) cmd size sizeof_serv_resp msg mo data to;
      Some (rc, length, data)
  end.

Fixpoint serv_unpack_loop (n : nat) (cmd size : Z) (p : Z) (msg : list Z) (mo : Z) (data : list Z) (to : Z) : option (Z * list Z) :=
  match n with
  | 0%nat => Some (FH_OK, msg)
  | S n =>
      '(rc, msg) ← fh_adm_unpack (s32 cmd) data (to + p) msg (mo + p) (s32 size);
      if negb (rc =? FH_OK) then Some (rc, msg) else serv_unpack_loop n cmd size (p + size) msg mo data to
  end.
Definition adm_serv_resp_unpack : unpack_fn := fun msg mo data to length =>
  msg ← (swap32 serv_resp_cmd >> swap32 serv_resp_size >> swap32 serv_resp_cnt >> strcpy serv_name) data to msg mo;
  size ← read_le msg (mo + serv_resp_size) 4;
  cnt ← read_le msg (mo + serv_resp_cnt) 4;
  cmd ← read_le msg (mo + serv_resp_cmd) 4;
  if negb (length =? s32 (sizeof_serv_resp + u32 (size * cnt))) then Some (FH_ERROR, msg)
  else serv_unpack_loop (Z.to_nat cnt) cmd size sizeof_serv_resp msg mo data to.
End serv_resp.

(** ** The table of messages *)

Definition FH_ADM_CMD_REG_REQ : Z := 1.
Definition FH_ADM_CMD_REG_RESP : Z := 2.
Definition FH_ADM_CMD_GETVER_REQ : Z := 3.
Definition FH_ADM_CMD_GETVER_RESP : Z := 4.
Definition FH_ADM_CMD_SERV_REQ : Z := 5.
Definition FH_ADM_CMD_SERV_RESP : Z := 6.
Definition FH_ADM_CMD_STATS_REQ : Z := 7.
Definition FH_ADM_CMD_STATS_RESP : Z := 8.
Definition FH_ADM_CMD_STATUS_REQ : Z := 9.
Definition FH_ADM_CMD_STATUS_RESP : Z := 10.
Definition FH_ADM_CMD_ACTION_REQ : Z := 11.
Definition FH_ADM_CMD_SGT_REQ : Z := 12.
Definition FH_ADM_CMD_SGT_RESP : Z := 13.
Definition FH_ADM_CMD_MAX : Z := 14.
Definition FH_ADM_MAGIC : Z := 0x1a2b3c4d.
Definition FH_ADM_ISVALID (t : Z) : bool := (0 <? t) && (t <=? FH_ADM_CMD_MAX).

(** The pairs of functions *)
Inductive adm_fns :=
  | reg_req | reg_resp | getver_req | getver_resp | serv_req | serv_resp | status_req | status_resp
  | stats_req | stats_resp | action_req | sgt_req | sgt_resp.

(** An element of [defs]: its tag and what follows it *)
Inductive adm_item :=
  | ADM_DEF_TYPE (t : Z) | ADM_DEF_NAME (s : string) | ADM_DEF_PACK (f : adm_fns) | ADM_DEF_UNPACK (f : adm_fns).
Definition ADM_DEF (t : Z) (name : string) (pack unpack : adm_fns) : list adm_item :=
  [ADM_DEF_TYPE t; ADM_DEF_NAME name; ADM_DEF_PACK pack; ADM_DEF_UNPACK unpack].
Definition defs : list adm_item :=
  ADM_DEF FH_ADM_CMD_REG_REQ "FH_ADM_CMD_REG_REQ" reg_req reg_req ++
  ADM_DEF FH_ADM_CMD_REG_RESP "FH_ADM_CMD_REG_RESP" reg_resp reg_resp ++
  ADM_DEF FH_ADM_CMD_GETVER_REQ "FH_ADM_CMD_GETVER_REQ" getver_req getver_req ++
  ADM_DEF FH_ADM_CMD_GETVER_RESP "FH_ADM_CMD_GETVER_RESP" getver_resp getver_resp ++
  ADM_DEF FH_ADM_CMD_SERV_REQ "FH_ADM_CMD_SERV_REQ" serv_req serv_req ++
  ADM_DEF FH_ADM_CMD_SERV_RESP "FH_ADM_CMD_SERV_RESP" serv_resp serv_resp ++
  ADM_DEF FH_ADM_CMD_STATUS_REQ "FH_ADM_CMD_STATUS_REQ" status_req status_req ++
  ADM_DEF FH_ADM_CMD_STATUS_RESP "FH_ADM_CMD_STATUS_RESP" status_resp status_resp ++
  ADM_DEF FH_ADM_CMD_STATS_REQ "FH_ADM_CMD_STATS_REQ" stats_req stats_req ++
  ADM_DEF FH_ADM_CMD_STATS_RESP "FH_ADM_CMD_STATS_RESP" stats_resp stats_resp ++
  ADM_DEF FH_ADM_CMD_ACTION_REQ "FH_ADM_CMD_ACTION_REQ" action_req action_req ++
  ADM_DEF FH_ADM_CMD_SGT_REQ "FH_ADM_CMD_SGT_REQ" sgt_req sgt_req ++
  ADM_DEF FH_ADM_CMD_SGT_RESP "FH_ADM_CMD_SGT_RESP" sgt_resp sgt_resp.

Record fh_adm_def := MkDef {
  adm_type : Z; adm_name : option string; adm_pack : option adm_fns; adm_unpack : option adm_fns
}.
Definition set_adm_type t d := MkDef t d.(adm_name) d.(adm_pack) d.(adm_unpack).
Definition set_adm_name n d := MkDef d.(adm_type) (Some n) d.(adm_pack) d.(adm_unpack).
Definition set_adm_pack f d := MkDef d.(adm_type) d.(adm_name) (Some f) d.(adm_unpack).
Definition set_adm_unpack f d := MkDef d.(adm_type) d.(adm_name) d.(adm_pack) (Some f).

(** [fh_adm_init], with [am] as an index of [adm_defs] *)
Fixpoint init_loop (defs : list adm_item) (am : option nat) (adm_defs : list fh_adm_def) : option (Z * list fh_adm_def) :=
  match defs with
  | [] => Some (FH_OK, adm_defs)
  | ADM_DEF_TYPE t :: defs =>
      if negb (FH_ADM_ISVALID t) then Some (FH_ERROR, adm_defs)
      else
        let am := Z.to_nat t in
        guard (am < length adm_defs)%nat;; init_loop defs (Some am) (alter (set_adm_type t) am adm_defs)
  | ADM_DEF_NAME n :: defs => i ← am; init_loop defs am (alter (set_adm_name n) i adm_defs)
  | ADM_DEF_PACK f :: defs => i ← am; init_loop defs am (alter (set_adm_pack f) i adm_defs)
  | ADM_DEF_UNPACK f :: defs => i ← am; init_loop defs am (alter (set_adm_unpack f) i adm_defs)
  end.
Definition fh_adm_init : option (Z * list fh_adm_def) :=
  init_loop defs None (replicate (Z.to_nat FH_ADM_CMD_MAX) (MkDef 0 None None None)).

Section admin.
(** What [fh_adm_init] made of the table *)
Context (adm_defs : list fh_adm_def).

(** [&adm_defs[type]] for a valid type *)
Definition adm_def_at (type : Z) : option fh_adm_def := adm_defs !! Z.to_nat type.

(** [fh_adm_pack], given the functions of the table; the status, and the
    buffer of [data] *)
Definition adm_pack_with (call : adm_fns -> pack_fn) (type : Z) (data : list Z) (to : Z) (msg : list Z) (mo : Z)
    : option (Z * list Z) :=
  if negb (FH_ADM_ISVALID type) then Some (FH_ERROR, data)
  else
    adm ← adm_def_at type;
    match adm.(adm_pack) with
    | Some f =>
        if negb (adm.(adm_type) =? type) then Some (FH_ERROR, data)
        else '(rc, _, data) ← call f msg mo (Some (data, to)); Some (rc, data)
    | None => Some (FH_ERROR, data)
    end.
Definition adm_unpack_with (call : adm_fns -> unpack_fn) (type : Z) (data : list Z) (to : Z) (msg : list Z) (mo length : Z)
    : option (Z * list Z) :=
  if negb (FH_ADM_ISVALID type) then Some (FH_ERROR, msg)
  else
    adm ← adm_def_at type;
    match adm.(adm_unpack) with
    | Some f => if negb (adm.(adm_type) =? type) then Some (FH_ERROR, msg) else call f msg mo data to length
    | None => Some (FH_ERROR, msg)
    end.

(** Calls through the table; the fuel bounds how deep responses are nested. *)
Fixpoint call_pack (fuel : nat) (f : adm_fns) : pack_fn :=
  match f with
  | reg_req => adm_reg_req_pack | reg_resp => adm_reg_resp_pack
  | getver_req => adm_getver_req_pack | getver_resp => adm_getver_resp_pack
  | serv_req => adm_serv_req_pack
  | serv_resp => match fuel with 0%nat => fun _ _ _ => None | S fuel => adm_serv_resp_pack (adm_pack_with (call_pack fuel)) end
  | status_req => adm_status_req_pack | status_resp => adm_status_resp_pack
  | stats_req => adm_stats_req_pack | stats_resp => adm_stats_resp_pack
  | action_req => adm_action_req_pack | sgt_req => adm_sgt_req_pack | sgt_resp => adm_sgt_resp_pack
  end.
Fixpoint call_unpack (fuel : nat) (f : adm_fns) : unpack_fn :=
  match f with
  | reg_req => adm_reg_req_unpack | reg_resp => adm_reg_resp_unpack
  | getver_req => adm_getver_req_unpack | getver_resp => adm_getver_resp_unpack
  | serv_req => adm_serv_req_unpack
  | serv_resp => match fuel with 0%nat => fun _ _ _ _ _ => None | S fuel => adm_serv_resp_unpack (adm_unpack_with (call_unpack fuel)) end
  | status_req => adm_status_req_unpack | status_resp => adm_status_resp_unpack
  | stats_req => adm_stats_req_unpack | stats_resp => adm_stats_resp_unpack
  | action_req => adm_action_req_unpack | sgt_req => adm_sgt_req_unpack | sgt_resp => adm_sgt_resp_unpack
  end.
Definition fh_adm_pack (fuel : nat) := adm_pack_with (call_pack fuel).
Definition fh_adm_unpack (fuel : nat) := adm_unpack_with (call_unpack fuel).

(** [fh_adm_getname], [fh_adm_getdef] *)
Definition fh_adm_getdef (type : Z) : option (option fh_adm_def) :=
  if FH_ADM_ISVALID type then
    adm ← adm_def_at type; Some (if adm.(adm_type) =? type then Some adm else None)
  else Some None.
Definition fh_adm_getname (type : Z) : option string :=
  adm ← fh_adm_getdef type;
  match adm with Some adm => adm.(adm_name) | None => Some "- na -"%string end.

(** ** Whole messages *)

(** [fh_adm_cmd_t] *)
Definition cmd_magic : Z := 0.
Definition cmd_type : Z := 4.
Definition cmd_tid : Z := 8.
Definition cmd_len : Z := 12.
Definition sizeof_cmd : Z := 16.
Definition set_cmd (off x : Z) (buf : list Z) : option (list Z) := write_bytes buf off (le_bytes 4 (u32 x)).

(** [fh_adm_create]: the status and [*data], whose length is [*size].
    [malloc] is the block that a size gets, if there is one. *)
Definition fh_adm_create (fuel : nat) (malloc : Z -> option (list Z)) (type tid : Z) (msg : list Z) : option (Z * option (list Z)) :=
  if negb (FH_ADM_ISVALID type) then Some (FH_ERROR, None)
  else
    adm ← adm_def_at type;
    match adm.(adm_pack) with
    | Some f =>
        if negb (adm.(adm_type) =? type) then Some (FH_ERROR, None)
        else
          '(rc, length, _) ← call_pack fuel f msg 0 None;
          if negb (rc =? FH_OK) then Some (rc, None)
          else
            match malloc (s32 (length + sizeof_cmd)) with
            | None => Some (FH_ERROR, None)
            | Some buf =>
                '(rc, length, buf) ← call_pack fuel f msg 0 (Some (buf, sizeof_cmd));
                if negb (rc =? FH_OK) then Some (rc, None)
                else
                  buf ← set_cmd cmd_magic (ntoh32 FH_ADM_MAGIC) buf;
                  buf ← set_cmd cmd_type (ntoh32 (u32 type)) buf;
                  buf ← set_cmd cmd_tid (ntoh32 tid) buf;
                  buf ← set_cmd cmd_len (ntoh32 (u32 length)) buf;
                  Some (FH_OK, Some buf)
            end
    | None => Some (FH_ERROR, None)
    end.

(** [fh_adm_parse]: the status and the buffer of [msg]; [cmd_len] is in the
    order of the host. *)
Definition fh_adm_parse (fuel : nat) (type : Z) (data msg : list Z) : option (Z * list Z) :=
  if negb (FH_ADM_ISVALID type) then Some (FH_ERROR, msg)
  else
    adm ← adm_def_at type;
    match adm.(adm_unpack) with
    | Some f =>
        if negb (adm.(adm_type) =? type) then Some (FH_ERROR, msg)
        else length ← read_le data cmd_len 4; call_unpack fuel f msg 0 data sizeof_cmd (s32 length)
    | None => Some (FH_ERROR, msg)
    end.

(** ** On a socket *)

Section socket.
Context {O : Type} (os : syscall -> O -> sysret * O) (malloc : Z -> option (list Z)).
Definition defined {A} (x : option A) : io O A := fun o => a ← x; Some (a, o).

(** [fh_adm_recv]: the status and [*msg]; type, transaction and length are in
    the order of the host. The fuel is that of the reads. *)
Definition fh_adm_recv (fuel : nat) (fd : Z) : io O (Z * option (list Z)) :=
  '(numb, cmdh) ← fh_tcp_peek os fuel fd sizeof_cmd;
  if (numb <? 0) || negb (numb =? sizeof_cmd) then mret (FH_ERROR, None)
  else
    magic ← defined (read_le cmdh cmd_magic 4);
    len ← defined (read_le cmdh cmd_len 4);
    if negb (ntoh32 magic =? FH_ADM_MAGIC) then mret (FH_ERROR, None)
    else
      let msize := s32 (s32 (ntoh32 len) + sizeof_cmd) in
      if msize =? 0 then mret (FH_ERROR, None)
      else
        match malloc msize with
        | None => mret (FH_ERROR, None)
        | Some _ =>
            '(numb, buf) ← fh_tcp_read os fuel fd msize;
            if negb (numb =? msize) then mret (FH_ERROR, None)
            else
              buf ← defined (swap32 cmd_type buf 0 buf 0);
              buf ← defined (swap32 cmd_tid buf 0 buf 0);
              buf ← defined (swap32 cmd_len buf 0 buf 0);
              mret (FH_OK, Some buf)
        end.

(** [fh_adm_send]; [nest] is the fuel for packing. *)
Definition fh_adm_send (fuel nest : nat) (fd type tid : Z) (msg : list Z) : io O Z :=
  '(rc, data) ← defined (fh_adm_create nest malloc (s32 type) tid msg);
  match data with
  | Some data =>
      numb ← fh_tcp_write os fuel fd data;
      mret (if negb (numb =? Z.of_nat (length data)) then FH_ERROR else rc)
  | None => mret rc
  end.

(** [fh_adm_expect]: the status and the buffer of [msg] *)
Definition fh_adm_expect (fuel nest : nat) (fd type tid : Z) (msg : list Z) (len : Z) : io O (Z * list Z) :=
  r ← sys os (SysSelect fd false (Some 2000000));
  if r.(r_val) <=? 0 then mret (FH_ERROR, msg)
  else
    '(rc, data) ← fh_adm_recv fuel fd;
    match data with
    | None => mret (rc, msg)
    | Some data =>
        c_type ← defined (read_le data cmd_type 4);
        if negb (c_type =? type) then mret (rc, msg)
        else
          c_len ← defined (read_le data cmd_len 4);
          if len <? c_len then mret (rc, msg)
          else
            c_tid ← defined (read_le data cmd_tid 4);
            if negb (c_tid =? tid) then mret (rc, msg)
            else defined (fh_adm_parse nest (s32 type) data msg)
    end.
End socket.
End admin.
