(* ===== verification/AdminWire.v ===== *)
(** * The messages of the manager: members, and what packing and unpacking
      carry over

    What a buffer holds at the place of a struct, in the order of the host or
    of the network, and that the assignments of [Admin] copy it; the members
    of each message, those whose layout depends on its contents (lines,
    service groups, responses) included, and that the functions of the table
    copy them, whatever the message. *)
From S2P Require Import Prelude Bytes Mpool Admin.

(** ** Members of structs *)

(** An integer, some bytes, or a string in an array; with its size and its
    offset *)
Inductive field := FInt (n : nat) (off : Z) | FRaw (n : nat) (off : Z) | FStr (n : nat) (off : Z).
Inductive value := VInt (z : Z) | VBytes (l : list Z).
Definition f_len (f : field) : Z := match f with FInt n _ | FRaw n _ | FStr n _ => Z.of_nat n end.
Definition f_off (f : field) : Z := match f with FInt _ o | FRaw _ o | FStr _ o => o end.
Definition shift (k : Z) (f : field) : field :=
  match f with FInt n o => FInt n (k + o) | FRaw n o => FRaw n (k + o) | FStr n o => FStr n (k + o) end.

(** What the bytes [l] of a member stand for; [net] is the order of the
    network. *)
Definition stands (net : bool) (f : field) (l : list Z) (v : value) : Prop :=
  match f, v with
  | FInt _ _, VInt z => Forall is_byte l /\ z = (if net then be_val l else le_val l)
  | FRaw _ _, VBytes b => b = l
  | FStr _ _, VBytes s => 0 ∉ s /\ exists rest, l = s ++ 0 :: rest
  | _, _ => False
  end.
Definition member (net : bool) (buf : list Z) (o : Z) (f : field) (v : value) : Prop :=
  exists l, read_bytes buf (o + f_off f) (Z.to_nat (f_len f)) = Some l /\ stands net f l v.
(** The struct at [o] has the members [fs] with the values [vs]. *)
Definition holds (net : bool) (buf : list Z) (o : Z) : list field -> list value -> Prop := Forall2 (member net buf o).

Definition room (buf : list Z) (o : Z) (f : field) : Prop := 0 <= o + f_off f /\ o + f_off f + f_len f <= Z.of_nat (length buf).
Definition apart (f g : field) : bool := (f_off f + f_len f <=? f_off g) || (f_off g + f_len g <=? f_off f).

(** Nothing but the members [fs] at [o] is changed. *)
Definition same_outside (fs : list field) (o : Z) (buf buf' : list Z) : Prop :=
  length buf' = length buf /\
  forall i, Forall (fun f => ~ (o + f_off f <= Z.of_nat i < o + f_off f + f_len f)) fs -> buf' !! i = buf !! i.

(** [c] copies the members [fs], with values [vs], from one order to the other. *)
Definition copies (c : copier) (net : bool) (fs : list field) (vs : list value) : Prop :=
  forall src so dst to, holds net src so fs vs -> Forall (room dst to) fs ->
  exists dst', c src so dst to = Some dst' /\ same_outside fs to dst dst' /\ holds (negb net) dst' to fs vs.

(** ** Reading and writing *)

Lemma f_len_nonneg f : 0 <= f_len f.
Proof. destruct f; cbn; lia. Qed.

Lemma read_bytes_ext buf buf' p n : length buf' = length buf ->
  (forall i, p <= Z.of_nat i < p + Z.of_nat n -> buf' !! i = buf !! i) -> read_bytes buf' p n = read_bytes buf p n.
Proof.
  intros Hl Hi. unfold read_bytes. rewrite Hl. destruct (_ || _) eqn:E; [done|]. bool_to_prop. f_equal. apply list_eq. intros i.
  destruct (decide (i < n)%nat); [|by rewrite !lookup_take_ge by lia]. rewrite !lookup_take_lt, !lookup_drop by done.
  apply Hi. lia.
Qed.

Lemma member_same net buf buf' o f v fs : member net buf o f v -> same_outside fs o buf buf' -> forallb (apart f) fs = true ->
  member net buf' o f v.
Proof.
  intros (l & Hr & Hs) (Hl & Hi) Ha. exists l. split; [|done]. rewrite <- Hr. apply read_bytes_ext; [done|].
  intros i Hp. rewrite Z2Nat.id in Hp by apply f_len_nonneg. apply Hi, Forall_forall. intros g Hg.
  apply list_elem_of_In in Hg. apply forallb_forall with (x := g) in Ha; [|done]. unfold apart in Ha.
  apply orb_true_iff in Ha as [Ha|Ha]; bool_to_prop; lia.
Qed.

Lemma holds_same net buf buf' o fs gs vs : holds net buf o fs vs -> same_outside gs o buf buf' ->
  forallb (fun f => forallb (apart f) gs) fs = true -> holds net buf' o fs vs.
Proof.
  intros H Hs. induction H as [|f v fs vs Hm _ IH]; [constructor|]. cbn. intros [H1 H2]%andb_true_iff.
  constructor; [by eapply member_same | by apply IH].
Qed.

Lemma same_outside_trans fs gs o b1 b2 b3 : same_outside fs o b1 b2 -> same_outside gs o b2 b3 -> same_outside (fs ++ gs) o b1 b3.
Proof.
  intros (Hl1 & Hi1) (Hl2 & Hi2). split; [congruence|]. intros i [H1 H2]%Forall_app. by rewrite Hi2, Hi1.
Qed.

Lemma room_same fs o buf buf' : length buf' = length buf -> Forall (room buf o) fs -> Forall (room buf' o) fs.
Proof. intros Hl H. eapply Forall_impl; [exact H|]. intros f. unfold room. by rewrite Hl. Qed.

(** Writing the beginning [l] of a member *)
Lemma write_member buf o f l : room buf o f -> Z.of_nat (length l) <= f_len f ->
  exists buf' rest, write_bytes buf (o + f_off f) l = Some buf' /\ same_outside [f] o buf buf' /\
    read_bytes buf' (o + f_off f) (Z.to_nat (f_len f)) = Some (l ++ rest).
Proof.
  intros (H0 & H1) Hl. set (p := Z.to_nat (o + f_off f)). assert (Hp : Z.of_nat p = o + f_off f) by lia. set (buf' := take p buf ++ l ++ drop (p + length l) buf).
  assert (Hlen : length buf' = length buf) by (unfold buf'; rewrite !length_app, length_take, length_drop; lia).
  exists buf', (take (Z.to_nat (f_len f) - length l) (drop (p + length l) buf)). split; [|split].
  - unfold write_bytes. destruct (_ && _) eqn:E; [done|]. apply andb_false_iff in E as [E|E]; bool_to_prop; lia.
  - split; [done|]. intros i [Hi _]%Forall_cons. unfold buf'. destruct (decide (i < p)%nat).
    + rewrite lookup_app_l by (rewrite length_take; lia). by apply lookup_take_lt.
    + rewrite (lookup_app_r (take p buf)) by (rewrite length_take; lia). rewrite length_take.
      rewrite lookup_app_r by lia. rewrite lookup_drop. f_equal. lia.
  - unfold read_bytes. rewrite Hlen. destruct (_ || _) eqn:E; [apply orb_true_iff in E as [E|E]; bool_to_prop; lia|]. f_equal.
    fold p. unfold buf'. rewrite drop_app_length' by (rewrite length_take; lia).
    by rewrite take_app_ge by lia.
Qed.

(** ** Assignments *)

Definition swaps (hton : Z -> Z) (n : nat) : Prop :=
  forall l, length l = n -> Forall is_byte l -> le_bytes n (hton (le_val l)) = reverse l.

Lemma le_bytes_be_val l : Forall is_byte l -> le_bytes (length l) (be_val l) = reverse l.
Proof.
  intros Hl. unfold be_val. rewrite <- (length_reverse l). by apply le_bytes_le_val, Forall_reverse.
Qed.

Lemma ntoh16_swaps : swaps ntoh16 2.
Proof. intros l E Hl. unfold ntoh16. rewrite <- E, le_bytes_le_val by done. by apply le_bytes_be_val. Qed.
Lemma ntoh32_swaps : swaps ntoh32 4.
Proof. intros l E Hl. unfold ntoh32. rewrite <- E, le_bytes_le_val by done. by apply le_bytes_be_val. Qed.

Lemma le_val_app l1 l2 : le_val (l1 ++ l2) = le_val l1 + 256 ^ Z.of_nat (length l1) * le_val l2.
Proof.
  induction l1 as [|b l1 IH]; cbn [app le_val length]; [lia|]. rewrite IH, Nat2Z.inj_succ, Z.pow_succ_r by lia. lia.
Qed.
Lemma be_val_app l1 l2 : be_val (l1 ++ l2) = be_val l2 + 256 ^ Z.of_nat (length l2) * be_val l1.
Proof. unfold be_val. by rewrite reverse_app, le_val_app, length_reverse. Qed.

(** The macro swaps the words and the bytes in each. *)
Lemma htonll_swaps : swaps htonll 8.
Proof.
  intros l E Hl. rewrite <- (take_drop 4 l) in *. set (l1 := take 4 l) in *. set (l2 := drop 4 l) in *.
  assert (E1 : length l1 = 4%nat) by (unfold l1, l2 in *; rewrite length_app, length_drop in E; rewrite length_take in *; lia).
  assert (E2 : length l2 = 4%nat) by (rewrite length_app in E; lia). clearbody l1 l2. apply Forall_app in Hl as [H1 H2].
  pose proof (le_val_range l1 H1) as R1. pose proof (le_val_range l2 H2) as R2. rewrite E1 in R1. rewrite E2 in R2.
  pose proof (be_val_range l1 H1) as B1. pose proof (be_val_range l2 H2) as B2. rewrite E1 in B1. rewrite E2 in B2.
  change (256 ^ Z.of_nat 4) with 4294967296 in *. unfold htonll. change 0xffffffff with (Z.ones 32).
  rewrite !Z.land_ones, Z.shiftr_div_pow2, le_val_app, E1 by lia. change (256 ^ Z.of_nat 4) with (2 ^ 32).
  replace ((le_val l1 + 2 ^ 32 * le_val l2) mod 2 ^ 32) with (le_val l1) by (symmetry; rewrite Z.mul_comm, Z.mod_add, Z.mod_small; lia).
  replace ((le_val l1 + 2 ^ 32 * le_val l2) / 2 ^ 32) with (le_val l2) by (rewrite Z.mul_comm, Z.div_add, Z.div_small; lia).
  rewrite (Z.mod_small (le_val l2)), !u32_small by lia. unfold ntoh32.
  pose proof (le_bytes_le_val l1 H1) as W1. pose proof (le_bytes_le_val l2 H2) as W2. rewrite E1 in W1. rewrite E2 in W2. rewrite W1, W2.
  rewrite Z.lor_comm, Z.shiftl_mul_pow2, lor_add by lia.
  replace (be_val l2 + be_val l1 * 2 ^ 32) with (be_val (l1 ++ l2)) by (rewrite be_val_app, E2; change (256 ^ Z.of_nat 4) with (2 ^ 32); lia).
  rewrite <- E. apply le_bytes_be_val. by apply Forall_app.
Qed.

Lemma holds_one net buf o f vs : holds net buf o [f] vs <-> exists v, vs = [v] /\ member net buf o f v.
Proof.
  split.
  - intros H. apply Forall2_cons_inv_l in H as (v & vs' & Hm & ->%Forall2_nil_inv_l & ->). eauto.
  - intros (v & -> & Hm). by repeat constructor.
Qed.

Lemma swap_copies hton n off net vs : swaps hton n -> copies (swap hton n off) net [FInt n off] vs.
Proof.
  intros Hsw src so dst to (v & -> & l & Hr & Hs)%holds_one [Hroom _]%Forall_cons. cbn [f_off f_len] in *. rewrite Nat2Z.id in Hr.
  destruct v as [z|]; [|done]. destruct Hs as [Hb Hz]. pose proof (read_bytes_spec _ _ _ _ Hr) as (Hlen & _).
  destruct (write_member dst to (FInt n off) (reverse l) Hroom) as (dst' & rest & Hw & Hsame & Hread); [cbn; rewrite length_reverse; lia|].
  cbn [f_off f_len] in *. rewrite Nat2Z.id in Hread. pose proof (read_bytes_spec _ _ _ _ Hread) as (Hlen' & _).
  rewrite length_app, length_reverse in Hlen'. destruct rest; [|cbn in Hlen'; lia]. rewrite app_nil_r in Hread.
  exists dst'. unfold swap, read_le. rewrite Hr. cbn [fmap option_fmap option_map mbind option_bind]. rewrite Hsw by done.
  split; [done|]. split; [done|]. apply holds_one. exists (VInt z). split; [done|]. exists (reverse l). cbn [f_off f_len]. rewrite Nat2Z.id.
  split; [done|]. split; [by apply Forall_reverse|]. subst z. unfold be_val. destruct net; cbn [negb]; [done|]. by rewrite reverse_involutive.
Qed.

Lemma memcpy_copies n off net vs : copies (memcpy off n) net [FRaw n off] vs.
Proof.
  intros src so dst to (v & -> & l & Hr & Hs)%holds_one [Hroom _]%Forall_cons. cbn [f_off f_len] in *. rewrite Nat2Z.id in Hr.
  destruct v as [|b]; [done|]. cbn in Hs. subst b. pose proof (read_bytes_spec _ _ _ _ Hr) as (Hlen & _).
  destruct (write_member dst to (FRaw n off) l Hroom) as (dst' & rest & Hw & Hsame & Hread); [cbn; lia|].
  cbn [f_off f_len] in *. rewrite Nat2Z.id in Hread. pose proof (read_bytes_spec _ _ _ _ Hread) as (Hlen' & _).
  rewrite length_app in Hlen'. destruct rest; [|cbn in Hlen'; lia]. rewrite app_nil_r in Hread.
  exists dst'. unfold memcpy. rewrite Hr. cbn [mbind option_bind]. split; [done|]. split; [done|].
  apply holds_one. exists (VBytes l). split; [done|]. exists l. cbn [f_off f_len]. by rewrite Nat2Z.id.
Qed.

Lemma c_string_app s rest : 0 ∉ s -> c_string (s ++ 0 :: rest) = Some s.
Proof.
  induction s as [|b s IH]; [done|]. intros Hn. apply not_elem_of_cons in Hn as [H1 H2]. cbn.
  rewrite eqb_false_of_ne by done. by rewrite IH.
Qed.

Lemma strcpy_copies n off net vs : copies (strcpy off) net [FStr n off] vs.
Proof.
  intros src so dst to (v & -> & l & Hr & Hs)%holds_one [Hroom _]%Forall_cons. cbn [f_off f_len] in *. rewrite Nat2Z.id in Hr.
  destruct v as [|s]; [done|]. destruct Hs as (Hn & rest & ->). pose proof (read_bytes_spec _ _ _ _ Hr) as (Hlen & El & H0 & _).
  rewrite length_app in Hlen. cbn in Hlen.
  destruct (write_member dst to (FStr n off) (s ++ [0]) Hroom) as (dst' & rest' & Hw & Hsame & Hread); [cbn; rewrite length_app; cbn; lia|].
  cbn [f_off f_len] in *. exists dst'. unfold strcpy. rewrite option_guard_True by done. cbn [mbind option_bind].
  rewrite <- (take_drop n (drop (Z.to_nat (so + off)) src)), <- El, <- app_assoc. cbn [app]. rewrite c_string_app by done. cbn [mbind option_bind].
  split; [done|]. split; [done|]. apply holds_one. exists (VBytes s). split; [done|]. exists (s ++ 0 :: rest'). rewrite <- app_assoc in Hread.
  split; [done|]. split; [done|]. by exists rest'.
Qed.

(** ** Sequences *)

Lemma and_then_copies c1 c2 net fs1 fs2 vs : (forall vs, copies c1 net fs1 vs) -> (forall vs, copies c2 net fs2 vs) ->
  forallb (fun f => forallb (apart f) fs2) fs1 = true -> copies (c1 >> c2) net (fs1 ++ fs2) vs.
Proof.
  intros H1 H2 Ha src so dst to Hh [Hr1 Hr2]%Forall_app. apply Forall2_app_inv_l in Hh as (vs1 & vs2 & Hh1 & Hh2 & ->).
  destruct (H1 vs1 src so dst to Hh1 Hr1) as (d1 & E1 & Hs1 & Hm1).
  destruct (H2 vs2 src so d1 to Hh2) as (d2 & E2 & Hs2 & Hm2); [by eapply room_same; [apply Hs1|]|].
  exists d2. unfold and_then. rewrite E1. cbn [mbind option_bind]. split; [done|]. split; [by eapply same_outside_trans|].
  apply Forall2_app; [|done]. by eapply holds_same.
Qed.

Create HintDb copies.
#[export] Hint Resolve ntoh16_swaps ntoh32_swaps htonll_swaps : copies.
#[export] Hint Resolve strcpy_copies memcpy_copies : copies.

(** Copying a struct member by member *)
Ltac copy_member := first [ apply swap_copies; solve [auto with copies] | solve [auto with copies] ].
Ltac copy_members :=
  lazymatch goal with
  | |- copies (_ >> _) _ ?l _ =>
      lazymatch eval hnf in l with
      | ?f :: ?fs => apply (and_then_copies _ _ _ [f] fs); [intros ?; copy_member | intros ?; copy_members | reflexivity]
      end
  | |- copies _ _ ?l _ =>
      lazymatch eval hnf in l with ?f :: ?fs => let fs := eval hnf in fs in change l with (f :: fs); copy_member end
  end.

(** ** A struct at a distance *)

Lemma f_off_shift k f : f_off (shift k f) = k + f_off f.
Proof. by destruct f. Qed.
Lemma f_len_shift k f : f_len (shift k f) = f_len f.
Proof. by destruct f. Qed.

Lemma member_shift net buf o k f v : member net buf o (shift k f) v <-> member net buf (o + k) f v.
Proof.
  unfold member. rewrite f_off_shift, f_len_shift, Z.add_assoc. by destruct f.
Qed.
Lemma holds_shift net buf o k fs vs : holds net buf o (shift k <$> fs) vs <-> holds net buf (o + k) fs vs.
Proof.
  unfold holds. rewrite Forall2_fmap_l. split; intros H; (eapply Forall2_impl; [exact H|]); intros f v; apply member_shift.
Qed.
Lemma room_shift buf o k fs : Forall (room buf o) (shift k <$> fs) <-> Forall (room buf (o + k)) fs.
Proof.
  rewrite Forall_fmap. apply Forall_iff. intros f. unfold room, compose. by rewrite f_off_shift, f_len_shift, Z.add_assoc.
Qed.
Lemma same_outside_shift fs k o b b' : same_outside (shift k <$> fs) o b b' <-> same_outside fs (o + k) b b'.
Proof.
  unfold same_outside. split; intros [Hl Hi]; (split; [done|]); intros i Hf; apply Hi; rewrite ?Forall_fmap in *;
    (eapply Forall_impl; [exact Hf|]); intros f; unfold compose; rewrite f_off_shift, f_len_shift, Z.add_assoc; done.
Qed.

Lemma copies_shift c net k fs vs : copies c net fs vs ->
  copies (fun src so dst to => c src (so + k) dst (to + k)) net (shift k <$> fs) vs.
Proof.
  intros Hc src so dst to Hh%holds_shift Hr%room_shift. destruct (Hc src (so + k) dst (to + k) Hh Hr) as (d & E & Hs & Hd).
  exists d. split; [done|]. split; [by apply same_outside_shift | by apply holds_shift].
Qed.

(** Members between two offsets *)
Definition inside (a b : Z) (f : field) : Prop := a <= f_off f /\ f_off f + f_len f <= b.

Lemma inside_apart a b c fs gs : Forall (inside a b) fs -> Forall (inside b c) gs ->
  forallb (fun f => forallb (apart f) gs) fs = true.
Proof.
  intros Hf Hg. apply forallb_forall. intros f Hf'%list_elem_of_In. apply forallb_forall. intros g Hg'%list_elem_of_In.
  apply (proj1 (Forall_forall _ _) Hf) in Hf' as [_ H1]. apply (proj1 (Forall_forall _ _) Hg) in Hg' as [H2 _].
  unfold apart. apply orb_true_iff. left. apply Z.leb_le. lia.
Qed.
Lemma inside_shift a b k fs : Forall (inside a b) fs -> Forall (inside (k + a) (k + b)) (shift k <$> fs).
Proof.
  intros H. apply Forall_fmap. eapply Forall_impl; [exact H|]. intros f [H1 H2]. unfold inside, compose. rewrite f_off_shift, f_len_shift. lia.
Qed.
Lemma inside_weaken a b a' b' fs : Forall (inside a b) fs -> a' <= a -> b <= b' -> Forall (inside a' b') fs.
Proof. intros H Ha Hb. eapply Forall_impl; [exact H|]. intros f [H1 H2]. unfold inside. lia. Qed.
Lemma inside_room buf o n fs : Forall (inside 0 n) fs -> 0 <= o -> o + n <= Z.of_nat (length buf) -> Forall (room buf o) fs.
Proof. intros H Ho Hn. eapply Forall_impl; [exact H|]. intros f [H1 H2]. unfold room. lia. Qed.

Lemma apart_one hs gs f : forallb (fun h => forallb (apart h) gs) hs = true -> In f hs ->
  forallb (fun g => forallb (apart g) [f]) gs = true.
Proof.
  intros Hap Hf. apply forallb_forall. intros g Hg. cbn [forallb]. apply andb_true_iff. split; [|done].
  apply forallb_forall with (x := f) in Hap; [|done]. apply forallb_forall with (x := g) in Hap; [|done].
  unfold apart in *. by rewrite orb_comm.
Qed.

(** The first members are copied, and what copies the others is left to do. *)
Lemma copies_first c net fs1 fs2 vs src so dst to : (forall vs, copies c net fs1 vs) ->
  holds net src so (fs1 ++ fs2) vs -> Forall (room dst to) (fs1 ++ fs2) ->
  forallb (fun f => forallb (apart f) fs2) fs1 = true ->
  exists vs1 vs2 d1, vs = vs1 ++ vs2 /\ c src so dst to = Some d1 /\ holds net src so fs1 vs1 /\ holds net src so fs2 vs2 /\
    holds (negb net) d1 to fs1 vs1 /\ Forall (room d1 to) fs2 /\
    forall d2, same_outside fs2 to d1 d2 -> holds (negb net) d2 to fs2 vs2 ->
      same_outside (fs1 ++ fs2) to dst d2 /\ holds (negb net) d2 to (fs1 ++ fs2) vs.
Proof.
  intros Hc Hh [Hr1 Hr2]%Forall_app Ha. apply Forall2_app_inv_l in Hh as (vs1 & vs2 & Hh1 & Hh2 & ->).
  destruct (Hc vs1 src so dst to Hh1 Hr1) as (d1 & E & Hs & Hd). exists vs1, vs2, d1.
  repeat (split; [done|]). split; [by eapply room_same; [apply Hs|]|]. intros d2 Hs2 Hd2.
  split; [by eapply same_outside_trans|]. apply Forall2_app; [|done]. by eapply holds_same.
Qed.

Lemma member_int buf o n off z : member false buf o (FInt n off) (VInt z) -> read_le buf (o + off) n = Some z.
Proof.
  intros (l & Hr & _ & ->). cbn in Hr. rewrite Nat2Z.id in Hr. unfold read_le. by rewrite Hr.
Qed.
Lemma member_int_range net buf o n off z : member net buf o (FInt n off) (VInt z) -> 0 <= z < 256 ^ Z.of_nat n.
Proof.
  intros (l & (Hl & _)%read_bytes_spec & Hb & ->). cbn in Hl. rewrite Nat2Z.id in Hl. subst n.
  destruct net; [by apply be_val_range | by apply le_val_range].
Qed.
Lemma same_outside_nil o b : same_outside [] o b b.
Proof. done. Qed.

(** ** Members *)

Definition reg_req_members := [FInt 2 reg_type; FInt 2 reg_port; FInt 4 reg_pid; FRaw 4 reg_addr; FStr 16 reg_srv].
Definition getver_resp_members := [FRaw 16 getver_service; FInt 4 getver_state; FRaw 32 (getver_state + 4)].
Definition serv_req_members := [FInt 4 serv_cmd; FStr 16 serv_name].
Definition status_resp_members :=
  FStr 16 status_service :: (FInt 4 <$> [status_state; status_pid; status_fp_cpu; status_fp_tid; status_uptime; status_pmem; status_putime; status_pstime]).

(** The messages of one layout: their sizes and members *)
Definition flat (f : adm_fns) : option (Z * list field) :=
  match f with
  | reg_req => Some (sizeof_reg_req, reg_req_members)
  | reg_resp => Some (4, [FInt 4 reg_conn_id])
  | getver_req => Some (16, [FStr 16 getver_service])
  | getver_resp => Some (sizeof_getver_resp, getver_resp_members)
  | serv_req => Some (20, serv_req_members)
  | status_req => Some (16, [FStr 16 status_service])
  | status_resp => Some (sizeof_status_resp, status_resp_members)
  | stats_req => Some (16, [FStr 16 stats_service])
  | action_req => Some (4, [FInt 4 action_type])
  | sgt_req => Some (4, [FInt 4 sgt_reserved])
  | serv_resp | stats_resp | sgt_resp => None
  end.

(** Statistics: [n] lines, the first at index [i] *)
Definition line_members :=
  FStr 32 line_name :: (FInt 8 <$> [line_pkt_rx; line_pkt_errs; line_pkt_dups; line_pkt_late; line_pkt_until_reset;
    line_pkt_bad_times; line_pkt_seq_jump; line_pkt_wrap_noreset; line_msg_rx; line_msg_loss; line_msg_recovered; line_msg_late; line_bytes]).
Fixpoint lines_members (n : nat) (i : Z) : list field :=
  match n with 0%nat => [] | S n => (shift (stats_lines + i * sizeof_line_stats) <$> line_members) ++ lines_members n (i + 1) end.
Definition stats_head := [FStr 16 stats_service; FInt 4 stats_line_cnt; FInt 4 stats_state].

(** Service groups: the number of services of each and the size that it says
    they have *)
Definition sg_members (count : Z) :=
  [FStr 16 sg_name; FInt 4 sg_serv_count; FInt 4 sg_serv_size; FRaw (Z.to_nat (count * sizeof_sg_serv_resp)) sizeof_sg_resp].
Fixpoint groups_members (p : Z) (gs : list (Z * Z)) : list field :=
  match gs with
  | [] => []
  | (count, size) :: gs => (shift p <$> sg_members count) ++ groups_members (p + sizeof_sg_resp + size) gs
  end.
Fixpoint groups_values (p : Z) (gs : list (Z * Z)) (vs : list value) (e : Z) : Prop :=
  match gs, vs with
  | [], [] => p <= e
  | (count, size) :: gs, VBytes _ :: VInt c :: VInt s :: VBytes _ :: vs =>
      c = count /\ s = size /\ 0 <= count /\ count * sizeof_sg_serv_resp <= size /\ groups_values (p + sizeof_sg_resp + size) gs vs e
  | _, _ => False
  end.
Definition sgt_head := [FInt 2 sgt_count; FInt 2 sgt_size].

(** Responses: messages of [size] bytes, the first at [p] *)
Definition serv_head := [FInt 4 serv_resp_cmd; FInt 4 serv_resp_size; FInt 4 serv_resp_cnt; FStr 16 serv_name].
Fixpoint parts_members (size p : Z) (parts : list (list field * list value)) : list field :=
  match parts with [] => [] | (fs, _) :: parts => (shift p <$> fs) ++ parts_members size (p + size) parts end.
Definition parts_values (parts : list (list field * list value)) : list value := concat (snd <$> parts).

(** The table, as a function *)
Definition fns_of (type : Z) : option adm_fns :=
  [reg_req; reg_resp; getver_req; getver_resp; serv_req; serv_resp; stats_req; stats_resp; status_req; status_resp;
   action_req; sgt_req; sgt_resp] !! Z.to_nat (type - 1).

(** A message for the functions [f] has the members [fs] with values [vs] and
    is [len] bytes long; responses are nested at most [n] deep. *)
Inductive layout : nat -> adm_fns -> list field -> list value -> Z -> Prop :=
  | layout_flat n f size fs vs : flat f = Some (size, fs) -> layout n f fs vs size
  | layout_stats n service cnt state vs : 0 <= cnt <= FH_MGMT_MAX_LINES ->
      layout n stats_resp (stats_head ++ lines_members (Z.to_nat cnt) 0)
        ([VBytes service; VInt cnt; VInt state] ++ vs) sizeof_stats_resp
  | layout_sgt n gs size vs : groups_values sizeof_sgt_resp gs vs (sizeof_sgt_resp + size) ->
      layout n sgt_resp (sgt_head ++ groups_members sizeof_sgt_resp gs) ([VInt (Z.of_nat (length gs)); VInt size] ++ vs) (sizeof_sgt_resp + size)
  | layout_serv n cmd f size name parts : 1 <= cmd -> fns_of cmd = Some f ->
      0 <= size < 2147483648 -> sizeof_serv_resp + size * Z.of_nat (length parts) < 2147483648 ->
      (forall p, p ∈ parts -> length p.1 = length p.2) -> (forall p, p ∈ parts -> layout n f p.1 p.2 size) ->
      layout (S n) serv_resp (serv_head ++ parts_members size sizeof_serv_resp parts)
        ([VInt cmd; VInt size; VInt (Z.of_nat (length parts)); VBytes name] ++ parts_values parts)
        (sizeof_serv_resp + size * Z.of_nat (length parts)).

(** ** Members do not overlap and are inside the message *)

Ltac inside_list := repeat (apply Forall_cons; split; [vm_compute; split; congruence|]); apply Forall_nil; exact I.

Lemma flat_inside f size fs : flat f = Some (size, fs) -> 0 <= size /\ Forall (inside 0 size) fs.
Proof. destruct f; intros [= <- <-]; (split; [vm_compute; congruence|]); inside_list. Qed.

Lemma lines_inside n : forall i, 0 <= i ->
  Forall (inside (stats_lines + i * sizeof_line_stats) (stats_lines + (i + Z.of_nat n) * sizeof_line_stats)) (lines_members n i).
Proof.
  induction n as [|n IH]; intros i Hi; [constructor|]. cbn [lines_members]. apply Forall_app. split.
  - assert (H : Forall (inside 0 sizeof_line_stats) line_members) by inside_list.
    apply (inside_shift _ _ (stats_lines + i * sizeof_line_stats)) in H. eapply inside_weaken; [exact H | lia | unfold sizeof_line_stats; lia].
  - eapply inside_weaken; [apply IH; lia | unfold sizeof_line_stats; lia | unfold sizeof_line_stats; lia].
Qed.

Lemma sg_inside count size : 0 <= count -> count * sizeof_sg_serv_resp <= size ->
  Forall (inside 0 (sizeof_sg_resp + size)) (sg_members count).
Proof.
  intros Hc Hs. unfold sg_members, sizeof_sg_serv_resp, sizeof_sg_resp in *.
  repeat (apply Forall_cons; split; [unfold inside; cbn [f_off f_len]; unfold sg_name, sg_serv_count, sg_serv_size; lia|]). constructor.
Qed.

Lemma groups_inside gs : forall p vs e, groups_values p gs vs e -> p <= e /\ Forall (inside p e) (groups_members p gs).
Proof.
  induction gs as [|[count size] gs IH]; intros p vs e H; [destruct vs; [by split; [|constructor]|done]|].
  destruct vs as [|[|] [|[|] [|[|] [|[|] vs]]]]; cbn in H; try done. destruct H as (-> & -> & Hc & Hs & H).
  pose proof (sg_inside count size Hc Hs) as Hin. apply IH in H as [H1 H2]. unfold sizeof_sg_resp, sizeof_sg_serv_resp in *.
  split; [lia|]. cbn [groups_members]. apply Forall_app. split.
  - apply (inside_shift _ _ p) in Hin. eapply inside_weaken; [exact Hin | lia..].
  - eapply inside_weaken; [exact H2 | unfold sizeof_sg_resp; lia..].
Qed.

Lemma parts_inside size parts : 0 <= size -> (forall p, p ∈ parts -> Forall (inside 0 size) p.1) ->
  forall p, Forall (inside p (p + size * Z.of_nat (length parts))) (parts_members size p parts).
Proof.
  intros Hs. induction parts as [|[fs vs] parts IH]; intros Hp p; [constructor|]. cbn [parts_members]. apply Forall_app. split.
  - pose proof (Hp (fs, vs) ltac:(left)) as H. apply (inside_shift _ _ p) in H. eapply inside_weaken; [exact H | lia|].
    cbn [length]. nia.
  - eapply inside_weaken; [apply IH; intros q Hq; apply Hp; by right | lia | cbn [length]; lia].
Qed.

Lemma layout_inside n f fs vs len : layout n f fs vs len -> 0 <= len /\ Forall (inside 0 len) fs.
Proof.
  induction 1 as [n f size fs vs H | n service cnt state vs H | n gs size vs H | n cmd f size name parts Hc Hf Hs Hl Hlen H IH].
  - by eapply flat_inside.
  - split; [vm_compute; congruence|]. apply Forall_app. split; [inside_list|].
    eapply inside_weaken; [apply lines_inside; lia | vm_compute; congruence|].
    unfold sizeof_stats_resp, FH_MGMT_MAX_LINES, sizeof_line_stats in *. lia.
  - apply groups_inside in H as [H1 H2]. unfold sizeof_sgt_resp in *. split; [lia|]. apply Forall_app. split.
    + apply (inside_weaken 0 4); [inside_list | lia | lia].
    + eapply inside_weaken; [exact H2 | lia | lia].
  - unfold sizeof_serv_resp in *. split; [nia|]. apply Forall_app. split.
    + apply (inside_weaken 0 28); [inside_list | lia | nia].
    + eapply inside_weaken; [apply parts_inside; [lia|]; intros p Hp; by apply IH | lia | lia].
Qed.

(** ** Functions that pack and unpack *)

Definition packing (pack : pack_fn) fs vs len : Prop := forall msg mo, holds false msg mo fs vs ->
  pack msg mo None = Some (FH_OK, len, []) /\
  forall data to, Forall (room data to) fs ->
  exists data', pack msg mo (Some (data, to)) = Some (FH_OK, len, data') /\ same_outside fs to data data' /\ holds true data' to fs vs.
Definition unpacking (unpack : unpack_fn) fs vs len : Prop := forall data to msg mo, holds true data to fs vs ->
  Forall (room msg mo) fs ->
  exists msg', unpack msg mo data to len = Some (FH_OK, msg') /\ same_outside fs mo msg msg' /\ holds false msg' mo fs vs.

Lemma packs_packing size c fs vs : copies c false fs vs -> packing (packs size c) fs vs size.
Proof.
  intros Hc msg mo Hh. split; [done|]. intros data to Hr. destruct (Hc msg mo data to Hh Hr) as (d & E & Hs & Hd).
  exists d. cbn [packs]. by rewrite E.
Qed.
Lemma unpacks_unpacking size c fs vs : copies c true fs vs -> unpacking (unpacks size c) fs vs size.
Proof.
  intros Hc data to msg mo Hh Hr. destruct (Hc data to msg mo Hh Hr) as (d & E & Hs & Hd).
  exists d. unfold unpacks. rewrite option_guard_True by done. cbn [mbind option_bind]. by rewrite E.
Qed.

(** Copying a whole struct copies what is in it. *)
Lemma read_bytes_sub b1 p1 b2 p2 n : read_bytes b1 p1 n = read_bytes b2 p2 n -> is_Some (read_bytes b1 p1 n) ->
  forall o m, 0 <= o -> o + Z.of_nat m <= Z.of_nat n -> read_bytes b1 (p1 + o) m = read_bytes b2 (p2 + o) m.
Proof.
  intros E [l Hl] o m Ho Hm. pose proof Hl as Hl2. rewrite E in Hl2.
  destruct (read_bytes_spec _ _ _ _ Hl) as (_ & E1 & O1 & B1). destruct (read_bytes_spec _ _ _ _ Hl2) as (_ & E2 & O2 & B2).
  unfold read_bytes. destruct (_ || _) eqn:Q; [apply orb_true_iff in Q as [Q|Q]; bool_to_prop; lia|].
  destruct ((p2 + o <? 0) || _) eqn:Q2; [apply orb_true_iff in Q2 as [Q2|Q2]; bool_to_prop; lia|]. f_equal.
  rewrite E1 in E2. apply (f_equal (fun x => take m (drop (Z.to_nat o) x))) in E2. rewrite !skipn_firstn_comm, !take_take, !drop_drop in E2.
  rewrite Nat.min_l in E2 by lia. replace (Z.to_nat (p1 + o)) with (Z.to_nat p1 + Z.to_nat o)%nat by lia.
  by replace (Z.to_nat (p2 + o)) with (Z.to_nat p2 + Z.to_nat o)%nat by lia.
Qed.

Lemma memcpy_struct n src so dst to : is_Some (read_bytes src so n) -> 0 <= to -> to + Z.of_nat n <= Z.of_nat (length dst) ->
  exists dst', memcpy 0 n src so dst to = Some dst' /\ same_outside [FRaw n 0] to dst dst' /\
    forall o m, 0 <= o -> o + Z.of_nat m <= Z.of_nat n -> read_bytes dst' (to + o) m = read_bytes src (so + o) m.
Proof.
  intros [l Hl] Ht Hroom. rewrite <- (Z.add_0_r so) in Hl.
  destruct (memcpy_copies n 0 false [VBytes l] src so dst to) as (d & E & Hs & Hd);
    [apply holds_one; exists (VBytes l); split; [done|]; exists l; cbn [f_off f_len]; by rewrite Nat2Z.id
    | repeat constructor; cbn [f_off f_len]; lia|].
  exists d. split; [done|]. split; [done|]. apply holds_one in Hd as (? & [= <-] & l' & Hl' & El). cbn in El. subst l'.
  cbn [f_off f_len] in Hl'. rewrite Nat2Z.id in Hl'. rewrite Z.add_0_r in Hl, Hl'. intros o m Ho Hm.
  eapply read_bytes_sub; [by rewrite Hl, Hl' | by rewrite Hl' | done..].
Qed.

(** [adm_getver_resp_pack] copies the whole struct and then swaps a member. *)
Lemma getver_resp_copies net vs : copies (memcpy 0 52 >> swap32 getver_state) net getver_resp_members vs.
Proof.
  intros src so dst to Hh Hr. unfold getver_resp_members, getver_service, getver_state in *.
  apply Forall2_cons_inv_l in Hh as (v1 & vs' & (l1 & R1 & S1) & Hh & ->). apply Forall2_cons_inv_l in Hh as (v2 & vs'' & H2 & Hh & ->).
  apply Forall2_cons_inv_l in Hh as (v3 & vs3 & (l3 & R3 & S3) & ->%Forall2_nil_inv_l & ->).
  apply Forall_cons in Hr as [Hr1 [Hr2 [Hr3 _]%Forall_cons]%Forall_cons]. cbn [f_off f_len] in *. rewrite Nat2Z.id in R1, R3.
  destruct (read_bytes_spec _ _ _ _ R1) as (_ & _ & O1 & B1). destruct (read_bytes_spec _ _ _ _ R3) as (_ & _ & _ & B3).
  unfold room in Hr1, Hr2, Hr3. cbn [f_off f_len] in Hr1, Hr2, Hr3.
  destruct (memcpy_struct 52 src so dst to) as (d1 & E1 & Hs1 & Hsub); [apply read_bytes_some; lia | lia..|].
  assert (Hlen : length d1 = length dst) by apply Hs1.
  assert (Hraw : holds (negb net) d1 to [FRaw 16 0; FRaw 32 20] [v1; v3]).
  { repeat constructor; [exists l1 | exists l3]; cbn [f_off f_len]; rewrite Nat2Z.id; (rewrite Hsub by lia); done. }
  destruct (swap_copies ntoh32 4 16 net [v2] ntoh32_swaps src so d1 to) as (d2 & E2 & Hs2 & Hd2);
    [by repeat constructor | repeat constructor; cbn [f_off f_len]; lia|].
  exists d2. unfold and_then. rewrite E1. cbn [mbind option_bind]. split; [exact E2|].
  eapply holds_same in Hraw; [|exact Hs2 | reflexivity]. split.
  - split; [destruct Hs2 as [-> _]; done|]. intros i [Hi1 [Hi2 [Hi3 _]%Forall_cons]%Forall_cons]%Forall_cons. cbn [f_off f_len] in *.
    destruct Hs2 as [_ Hs2]. rewrite Hs2 by (repeat constructor; cbn [f_off f_len]; lia). apply Hs1. repeat constructor. cbn [f_off f_len]. lia.
  - apply Forall2_cons_inv_l in Hraw as (? & ? & M1 & Hraw & [= <- <-]).
    apply Forall2_cons_inv_l in Hraw as (? & ? & M3 & _ & [= <- <-]). apply holds_one in Hd2 as (? & [= <-] & M2).
    by repeat constructor.
Qed.

(** ** The functions of the table *)

Section table.
Context (adm_defs : list fh_adm_def) (Htable : fh_adm_init = Some (FH_OK, adm_defs)).

(** [fh_adm_init] enters each pair of functions at its type. *)
Lemma table_at t f : 1 <= t -> fns_of t = Some f -> FH_ADM_ISVALID t = true /\ 0 <= t < 14 /\
  exists d, adm_def_at adm_defs t = Some d /\ adm_type d = t /\ adm_pack d = Some f /\ adm_unpack d = Some f.
Proof.
  intros Ht Hf. assert (Hlt : t < 14) by (apply lookup_lt_Some in Hf; cbn in Hf; lia).
  vm_compute in Htable. injection Htable as <-. rewrite <- (Z2Nat.id t) in * by lia. assert (Hn : (1 <= Z.to_nat t < 14)%nat) by lia.
  revert Hf. generalize dependent (Z.to_nat t). intros n _ _ Hn.
  do 14 (destruct n as [|n]; [first [lia | intros [= <-]; split; [done|]; split; [done|]; eexists; split; [reflexivity|done]]|]). lia.
Qed.

(** Messages of one layout *)
Lemma flat_copies f size fs vs n : flat f = Some (size, fs) ->
  packing (call_pack adm_defs n f) fs vs size /\ unpacking (call_unpack adm_defs n f) fs vs size.
Proof.
  destruct f; intros [= <- <-]; destruct n; (split; [apply packs_packing | apply unpacks_unpacking]);
    first [apply getver_resp_copies | copy_members].
Qed.

(** Statistics *)
Lemma stats_line_copies i net vs : copies (stats_line i) net (shift (stats_lines + i * sizeof_line_stats) <$> line_members) vs.
Proof. unfold stats_line. apply copies_shift. copy_members. Qed.

Lemma stats_loop_copies net n : forall i vs, 0 <= i -> copies (stats_loop n i) net (lines_members n i) vs.
Proof.
  induction n as [|n IH]; intros i vs Hi.
  - intros src so dst to ->%Forall2_nil_inv_l _. exists dst. repeat split; done || constructor.
  - apply (and_then_copies (stats_line i) (stats_loop n (i + 1))); [intros ?; apply stats_line_copies | intros ?; apply IH; lia|].
    assert (H : Forall (inside 0 sizeof_line_stats) line_members) by inside_list.
    apply (inside_shift _ _ (stats_lines + i * sizeof_line_stats)) in H. eapply inside_apart; [exact H|].
    eapply inside_weaken; [apply lines_inside; lia | unfold sizeof_line_stats; lia | reflexivity].
Qed.

Definition stats_head_copier : copier := strcpy stats_service >> swap32 stats_line_cnt >> swap32 stats_state.
Lemma stats_head_copies net vs : copies stats_head_copier net stats_head vs.
Proof. unfold stats_head_copier, stats_head. copy_members. Qed.

Lemma stats_apart n : forallb (fun f => forallb (apart f) (lines_members n 0)) stats_head = true.
Proof.
  eapply inside_apart; [instantiate (1 := 24); instantiate (1 := 0); inside_list|].
  eapply inside_weaken; [apply lines_inside; lia | vm_compute; congruence | reflexivity].
Qed.

(** A message whose first members are copied by [c], and the others by [k],
    which reads some of the first members where they are in host order *)
Lemma stats_copies n service cnt state vs : 0 <= cnt ->
  packing (call_pack adm_defs n stats_resp) (stats_head ++ lines_members (Z.to_nat cnt) 0) ([VBytes service; VInt cnt; VInt state] ++ vs) sizeof_stats_resp /\
  unpacking (call_unpack adm_defs n stats_resp) (stats_head ++ lines_members (Z.to_nat cnt) 0) ([VBytes service; VInt cnt; VInt state] ++ vs) sizeof_stats_resp.
Proof.
  intros Hcnt. split; destruct n; first [apply packs_packing | apply unpacks_unpacking]; intros src so dst to Hh Hr.
  all: destruct (copies_first stats_head_copier _ _ _ _ src so dst to (stats_head_copies _) Hh Hr (stats_apart _))
         as (vs1 & vs2 & d1 & Ev & E1 & Hh1 & Hh2 & Hd1 & Hr2 & Hend).
  all: pose proof (Forall2_length _ _ _ Hh1) as Hlen; destruct vs1 as [|v1 [|v2 [|v3 [|]]]]; try discriminate Hlen.
  all: injection Ev as <- <- <- <-.
  all: destruct (stats_loop_copies _ (Z.to_nat cnt) 0 vs ltac:(lia) src so d1 to Hh2 Hr2) as (d2 & E2 & Hs2 & Hd2).
  all: exists d2; fold stats_head_copier; rewrite E1; cbn [mbind option_bind].
  1, 2: apply Forall2_cons_1 in Hh1 as [_ [Hm _]%Forall2_cons_1].
  3, 4: apply Forall2_cons_1 in Hd1 as [_ [Hm _]%Forall2_cons_1].
  all: rewrite (member_int _ _ _ _ _ Hm); cbn [mbind option_bind]; split; [exact E2 | by apply Hend].
Qed.

(** Service groups *)
Definition sg_head := [FStr 16 sg_name; FInt 4 sg_serv_count; FInt 4 sg_serv_size].
Definition sg_copier : copier := strcpy sg_name >> swap32 sg_serv_count >> swap32 sg_serv_size.
Definition sg_count_of net buf o count := member net buf o (FInt 4 sg_serv_count) (VInt count).
Definition sg_size_of net buf o size := member net buf o (FInt 4 sg_serv_size) (VInt size).

Lemma sg_head_copies net p vs :
  copies (fun src so dst to => sg_copier src (so + p) dst (to + p)) net (shift p <$> sg_head) vs.
Proof. apply copies_shift. unfold sg_copier, sg_head. copy_members. Qed.

Lemma memcpy_nothing off src so dst to d : memcpy off 0 src so dst to = Some d -> d = dst.
Proof.
  unfold memcpy. destruct (read_bytes src (so + off) 0) as [l|] eqn:E; [|done]. cbn [mbind option_bind].
  apply read_bytes_spec in E as (E & _). destruct l; [|done]. unfold write_bytes. destruct (_ && _); [|done].
  cbn [length app]. rewrite Nat.add_0_r, take_drop. congruence.
Qed.

(** What is read of a group where it is copied from and to *)
Lemma sg_head_values net buf o p nm count size :
  holds net buf o (shift p <$> sg_head) [nm; VInt count; VInt size] -> sg_count_of net buf (o + p) count /\ sg_size_of net buf (o + p) size.
Proof.
  intros H%holds_shift. apply Forall2_cons in H as [_ [Hc [Hs _]%Forall2_cons]%Forall2_cons]. done.
Qed.

Lemma group_step net p count size rest vs nm raw e src so dst to :
  0 <= count -> count * sizeof_sg_serv_resp <= size -> Forall (inside (p + sizeof_sg_resp + size) e) rest ->
  holds net src so ((shift p <$> sg_members count) ++ rest) (nm :: VInt count :: VInt size :: VBytes raw :: vs) ->
  Forall (room dst to) ((shift p <$> sg_members count) ++ rest) ->
  exists d1 d2, sg_copier src (so + p) dst (to + p) = Some d1 /\
    memcpy sizeof_sg_resp (Z.to_nat (count * sizeof_sg_serv_resp)) src (so + p) d1 (to + p) = Some d2 /\
    (sg_count_of net src (so + p) count /\ sg_size_of net src (so + p) size) /\
    (sg_count_of (negb net) d1 (to + p) count /\ sg_size_of (negb net) d2 (to + p) size) /\
    holds net src so rest vs /\ Forall (room d2 to) rest /\
    forall d3, same_outside rest to d2 d3 -> holds (negb net) d3 to rest vs ->
      same_outside ((shift p <$> sg_members count) ++ rest) to dst d3 /\
      holds (negb net) d3 to ((shift p <$> sg_members count) ++ rest) (nm :: VInt count :: VInt size :: VBytes raw :: vs).
Proof.
  intros Hc Hs Hin Hh Hr. set (n := Z.to_nat (count * sizeof_sg_serv_resp)) in *.
  set (body := FRaw n (p + sizeof_sg_resp)).
  change ((shift p <$> sg_members count) ++ rest) with ((shift p <$> sg_head) ++ body :: rest) in *.
  assert (Hhead : Forall (inside p (p + sizeof_sg_resp)) (shift p <$> sg_head)).
  { rewrite <- (Z.add_0_r p) at 1. apply inside_shift. inside_list. }
  assert (Hbody : Forall (inside (p + sizeof_sg_resp) (p + sizeof_sg_resp + size)) [body]).
  { repeat constructor; cbn [f_off f_len body]; unfold n, sizeof_sg_serv_resp in *; lia. }
  assert (Hrest : Forall (inside (p + sizeof_sg_resp) (Z.max e (p + sizeof_sg_resp + size))) (body :: rest)).
  { constructor; [by eapply Forall_inv, (inside_weaken _ _ _ _ _ Hbody); lia | eapply inside_weaken; [exact Hin | unfold sizeof_sg_serv_resp in *; lia..]]. }
  destruct (copies_first _ _ _ _ _ src so dst to (sg_head_copies net p) Hh Hr (inside_apart _ _ _ _ _ Hhead Hrest))
    as (vs1 & vs2 & d1 & Ev & E1 & Hh1 & Hh2 & Hd1 & Hr2 & Hend1).
  pose proof (Forall2_length _ _ _ Hh1) as Hlen. destruct vs1 as [|v1 [|v2 [|v3 [|]]]]; try discriminate Hlen.
  injection Ev as <- <- <- <-.
  assert (Hcopy : forall vs, copies (fun src so dst to => memcpy sizeof_sg_resp n src (so + p) dst (to + p)) net (shift p <$> [FRaw n sizeof_sg_resp]) vs).
  { intros ?. apply copies_shift. copy_members. }
  destruct (copies_first _ _ _ rest _ src so d1 to Hcopy Hh2 Hr2) as (w1 & w2 & d2 & Ew & E2 & Hb1 & Hb2 & Hd2 & Hr3 & Hend2);
    [eapply inside_apart; [exact Hbody | exact Hin]|].
  pose proof (Forall2_length _ _ _ Hb1) as Hl1. destruct w1 as [|w [|]]; try discriminate Hl1. injection Ew as <- <-.
  destruct (Hcopy [VBytes raw] src so d1 to Hb1) as (d2' & E2' & Hs2 & _); [by apply Forall_cons in Hr2 as [? _]; repeat constructor; apply H|].
  rewrite E2 in E2'. injection E2' as <-.
  exists d1, d2. split; [exact E1|]. split; [exact E2|]. split; [by eapply sg_head_values|]. split.
  - split; [by eapply sg_head_values|]. eapply holds_same in Hd1; [by eapply sg_head_values | exact Hs2|].
    by eapply inside_apart; [exact Hhead | exact Hbody].
  - split; [done|]. split; [done|]. intros d3 Hs3 Hd3. destruct (Hend2 d3 Hs3 Hd3) as [A1 A2]. by apply Hend1.
Qed.

Lemma sgt_pack_loop_copies gs : forall p vs e msg mo data to, groups_values p gs vs e ->
  holds false msg mo (groups_members p gs) vs -> Forall (room data to) (groups_members p gs) ->
  exists data', sgt_pack_loop (length gs) p msg mo data to = Some data' /\
    same_outside (groups_members p gs) to data data' /\ holds true data' to (groups_members p gs) vs.
Proof.
  induction gs as [|[count size] gs IH]; intros p vs e msg mo data to Hv Hh Hr.
  { destruct vs; [|done]. exists data. repeat split; done || constructor. }
  destruct vs as [|[|] [|[|] [|[|] [|[|] vs]]]]; cbn in Hv; try done. destruct Hv as (-> & -> & Hc & Hs & Hv).
  destruct (groups_inside _ _ _ _ Hv) as [_ Hin]. cbn [groups_members] in *.
  destruct (group_step _ _ _ _ _ _ _ _ _ _ _ _ _ Hc Hs Hin Hh Hr) as (d1 & d2 & E1 & E2 & (Hm1 & Hm2) & _ & Hh2 & Hr2 & Hend).
  destruct (IH _ _ _ msg mo d2 to Hv Hh2 Hr2) as (d3 & E3 & Hs3 & Hd3). exists d3. split; [|by apply Hend].
  cbn [length sgt_pack_loop]. fold sg_copier. rewrite E1. cbn [mbind option_bind].
  rewrite (member_int _ _ _ _ _ Hm1). cbn [mbind option_bind]. rewrite (member_int _ _ _ _ _ Hm2).
  destruct (0 <? count) eqn:Ec; bool_to_prop; [by rewrite E2|].
  assert (count = 0) by lia. subst count. apply memcpy_nothing in E2. subst d2. done.
Qed.

Lemma sgt_unpack_loop_copies gs : forall p vs e data to msg mo, groups_values p gs vs e ->
  holds true data to (groups_members p gs) vs -> Forall (room msg mo) (groups_members p gs) ->
  exists msg', sgt_unpack_loop (length gs) p msg mo data to = Some msg' /\
    same_outside (groups_members p gs) mo msg msg' /\ holds false msg' mo (groups_members p gs) vs.
Proof.
  induction gs as [|[count size] gs IH]; intros p vs e data to msg mo Hv Hh Hr.
  { destruct vs; [|done]. exists msg. repeat split; done || constructor. }
  destruct vs as [|[|] [|[|] [|[|] [|[|] vs]]]]; cbn in Hv; try done. destruct Hv as (-> & -> & Hc & Hs & Hv).
  destruct (groups_inside _ _ _ _ Hv) as [_ Hin]. cbn [groups_members] in *.
  destruct (group_step _ _ _ _ _ _ _ _ _ _ _ _ _ Hc Hs Hin Hh Hr) as (d1 & d2 & E1 & E2 & _ & (Hm1 & Hm2) & Hh2 & Hr2 & Hend).
  destruct (IH _ _ _ data to d2 mo Hv Hh2 Hr2) as (d3 & E3 & Hs3 & Hd3). exists d3. split; [|by apply Hend].
  cbn [length sgt_unpack_loop]. fold sg_copier. rewrite E1. cbn [mbind option_bind].
  rewrite (member_int _ _ _ _ _ Hm1). cbn [mbind option_bind].
  assert (E2' : (if 0 <? count then memcpy sizeof_sg_resp (Z.to_nat (count * sizeof_sg_serv_resp)) data (to + p) d1 (mo + p) else Some d1) = Some d2).
  { destruct (0 <? count) eqn:Ec; bool_to_prop; [done|].
    assert (count = 0) by lia. subst count. apply memcpy_nothing in E2. by subst d2. }
  rewrite E2'. cbn [mbind option_bind]. by rewrite (member_int _ _ _ _ _ Hm2).
Qed.

Lemma sgt_head_copies net vs : copies (swap16 sgt_count >> swap16 sgt_size) net sgt_head vs.
Proof. unfold sgt_head. copy_members. Qed.

Lemma sgt_apart gs vs e : groups_values sizeof_sgt_resp gs vs e ->
  forallb (fun f => forallb (apart f) (groups_members sizeof_sgt_resp gs)) sgt_head = true.
Proof.
  intros [_ Hin]%groups_inside. eapply inside_apart; [|exact Hin]. instantiate (1 := 0). inside_list.
Qed.

Lemma sgt_packs n gs size vs : groups_values sizeof_sgt_resp gs vs (sizeof_sgt_resp + size) ->
  packing (call_pack adm_defs n sgt_resp) (sgt_head ++ groups_members sizeof_sgt_resp gs)
    ([VInt (Z.of_nat (length gs)); VInt size] ++ vs) (sizeof_sgt_resp + size).
Proof.
  intros Hv msg mo Hh. replace (call_pack adm_defs n sgt_resp) with adm_sgt_resp_pack by (by destruct n).
  pose proof Hh as Hw. apply Forall2_app_inv_l in Hw as (w1 & w2 & Hw & _ & Ew). pose proof (Forall2_length _ _ _ Hw) as Hl.
  destruct w1 as [|v1 [|v2 [|]]]; try discriminate Hl. injection Ew as <- <- <-. apply Forall2_cons in Hw as [Hm1 [Hm2 _]%Forall2_cons].
  unfold adm_sgt_resp_pack. rewrite (member_int _ _ _ _ _ Hm2). cbn [mbind option_bind]. split; [done|]. intros data to Hr.
  destruct (copies_first _ _ _ _ _ msg mo data to (sgt_head_copies _) Hh Hr (sgt_apart _ _ _ Hv)) as (vs1 & vs2 & d1 & Ev & E1 & Hh1 & Hh2 & Hd1 & Hr2 & Hend).
  pose proof (Forall2_length _ _ _ Hh1) as Hlen. destruct vs1 as [|v1 [|v2 [|]]]; try discriminate Hlen. injection Ev as <- <- <-.
  destruct (sgt_pack_loop_copies _ _ _ _ msg mo d1 to Hv Hh2 Hr2) as (d2 & E2 & Hs2 & Hd2). exists d2. cbn [packs].
  rewrite E1. cbn [mbind option_bind]. rewrite (member_int _ _ _ _ _ Hm1). cbn [mbind option_bind]. rewrite Nat2Z.id, E2.
  split; [done | by apply Hend].
Qed.

Lemma sgt_unpacks n gs size vs : groups_values sizeof_sgt_resp gs vs (sizeof_sgt_resp + size) ->
  unpacking (call_unpack adm_defs n sgt_resp) (sgt_head ++ groups_members sizeof_sgt_resp gs)
    ([VInt (Z.of_nat (length gs)); VInt size] ++ vs) (sizeof_sgt_resp + size).
Proof.
  intros Hv data to msg mo Hh Hr. replace (call_unpack adm_defs n sgt_resp) with adm_sgt_resp_unpack by (by destruct n).
  destruct (copies_first _ _ _ _ _ data to msg mo (sgt_head_copies _) Hh Hr (sgt_apart _ _ _ Hv)) as (vs1 & vs2 & d1 & Ev & E1 & Hh1 & Hh2 & Hd1 & Hr2 & Hend).
  pose proof (Forall2_length _ _ _ Hh1) as Hlen. destruct vs1 as [|v1 [|v2 [|]]]; try discriminate Hlen. injection Ev as <- <- <-.
  destruct (sgt_unpack_loop_copies _ _ _ _ data to d1 mo Hv Hh2 Hr2) as (d2 & E2 & Hs2 & Hd2).
  pose proof Hd1 as Hm. apply Forall2_cons in Hm as [Hm1 [Hm2 _]%Forall2_cons]. pose proof (member_int_range _ _ _ _ _ _ Hm2) as Hsz.
  change (256 ^ Z.of_nat 2) with 65536 in Hsz. exists d2. unfold adm_sgt_resp_unpack. rewrite E1. cbn [mbind option_bind].
  rewrite (member_int _ _ _ _ _ Hm2). cbn [mbind option_bind].
  rewrite option_guard_True by (apply u32_small; unfold sizeof_sgt_resp; lia). cbn [mbind option_bind].
  rewrite (member_int _ _ _ _ _ Hm1). cbn [mbind option_bind]. rewrite Nat2Z.id, E2. split; [done | by apply Hend].
Qed.

(** Responses *)
Lemma adm_pack_at n cmd f data to msg mo : 1 <= cmd -> fns_of cmd = Some f ->
  adm_pack_with adm_defs (call_pack adm_defs n) cmd data to msg mo =
  ('(rc, _, data) ← call_pack adm_defs n f msg mo (Some (data, to)); Some (rc, data)).
Proof.
  intros Hc Hf. destruct (table_at cmd f Hc Hf) as (Hv & _ & d & Hd & Ht & Hp & _). unfold adm_pack_with.
  rewrite Hv. cbn [negb]. rewrite Hd. cbn [mbind option_bind]. rewrite Hp, Ht, Z.eqb_refl. done.
Qed.
Lemma adm_unpack_at n cmd f data to msg mo len : 1 <= cmd -> fns_of cmd = Some f ->
  adm_unpack_with adm_defs (call_unpack adm_defs n) cmd data to msg mo len = call_unpack adm_defs n f msg mo data to len.
Proof.
  intros Hc Hf. destruct (table_at cmd f Hc Hf) as (Hv & _ & d & Hd & Ht & _ & Hp). unfold adm_unpack_with.
  rewrite Hv. cbn [negb]. rewrite Hd. cbn [mbind option_bind]. by rewrite Hp, Ht, Z.eqb_refl.
Qed.

Lemma serv_head_copies net vs :
  copies (swap32 serv_resp_cmd >> swap32 serv_resp_size >> swap32 serv_resp_cnt >> strcpy serv_name) net serv_head vs.
Proof. unfold serv_head. copy_members. Qed.

Section parts.
Context (n : nat) (cmd size : Z) (f : adm_fns) (Hcmd : 1 <= cmd) (Hf : fns_of cmd = Some f) (Hsize : 0 <= size < 2147483648).

Lemma parts_apart fs parts p : Forall (inside 0 size) fs -> (forall q, q ∈ parts -> Forall (inside 0 size) q.1) ->
  forallb (fun g => forallb (apart g) (parts_members size (p + size) parts)) (shift p <$> fs) = true.
Proof.
  intros H Hp. apply (inside_shift _ _ p) in H. eapply inside_apart; [exact H|]. apply parts_inside; [lia | done].
Qed.

Lemma serv_pack_loop_copies parts : forall p msg mo data to,
  (forall q, q ∈ parts -> Forall (inside 0 size) q.1 /\ length q.1 = length q.2 /\ packing (call_pack adm_defs n f) q.1 q.2 size) ->
  holds false msg mo (parts_members size p parts) (parts_values parts) -> Forall (room data to) (parts_members size p parts) ->
  exists data', serv_pack_loop (adm_pack_with adm_defs (call_pack adm_defs n)) (length parts) cmd size p msg mo data to = Some (FH_OK, data') /\
    same_outside (parts_members size p parts) to data data' /\ holds true data' to (parts_members size p parts) (parts_values parts).
Proof.
  induction parts as [|[fs vs] parts IH]; intros p msg mo data to Hp Hh Hr; [exists data; repeat split; done || constructor|].
  destruct (Hp (fs, vs) ltac:(left)) as (Hin & Hlen & Hpack). cbn [parts_members fst snd] in *.
  change (parts_values ((fs, vs) :: parts)) with (vs ++ parts_values parts) in *.
  apply Forall_app in Hr as [Hr1 Hr2]. apply Forall2_app_inv in Hh as [Hh1 Hh2]; [|by rewrite length_fmap].
  apply holds_shift in Hh1. apply room_shift in Hr1. destruct (Hpack msg (mo + p) Hh1) as [_ Hpack2].
  destruct (Hpack2 data (to + p) Hr1) as (d1 & E1 & Hs1 & Hd1).
  destruct (IH (p + size) msg mo d1 to) as (d2 & E2 & Hs2 & Hd2);
    [intros q Hq; apply Hp; by right | done | by eapply room_same; [apply Hs1|]|].
  exists d2. cbn [length serv_pack_loop]. rewrite s32_small by (destruct (table_at cmd f Hcmd Hf) as (_ & ? & _); lia).
  rewrite (adm_pack_at n cmd f) by done. rewrite E1. cbn [mbind option_bind]. rewrite Z.eqb_refl. cbn [negb]. split; [exact E2|].
  apply same_outside_shift in Hs1. apply holds_shift in Hd1. split; [by eapply same_outside_trans|].
  apply Forall2_app; [|done]. eapply holds_same; [exact Hd1 | exact Hs2|]. apply parts_apart; [done|]. intros q Hq. apply Hp. by right.
Qed.

Lemma serv_unpack_loop_copies parts : forall p msg mo data to,
  (forall q, q ∈ parts -> Forall (inside 0 size) q.1 /\ length q.1 = length q.2 /\ unpacking (call_unpack adm_defs n f) q.1 q.2 size) ->
  holds true data to (parts_members size p parts) (parts_values parts) -> Forall (room msg mo) (parts_members size p parts) ->
  exists msg', serv_unpack_loop (adm_unpack_with adm_defs (call_unpack adm_defs n)) (length parts) cmd size p msg mo data to = Some (FH_OK, msg') /\
    same_outside (parts_members size p parts) mo msg msg' /\ holds false msg' mo (parts_members size p parts) (parts_values parts).
Proof.
  induction parts as [|[fs vs] parts IH]; intros p msg mo data to Hp Hh Hr; [exists msg; repeat split; done || constructor|].
  destruct (Hp (fs, vs) ltac:(left)) as (Hin & Hlen & Hunpack). cbn [parts_members fst snd] in *.
  change (parts_values ((fs, vs) :: parts)) with (vs ++ parts_values parts) in *.
  apply Forall_app in Hr as [Hr1 Hr2]. apply Forall2_app_inv in Hh as [Hh1 Hh2]; [|by rewrite length_fmap].
  apply holds_shift in Hh1. apply room_shift in Hr1. destruct (Hunpack data (to + p) msg (mo + p) Hh1 Hr1) as (d1 & E1 & Hs1 & Hd1).
  destruct (IH (p + size) d1 mo data to) as (d2 & E2 & Hs2 & Hd2);
    [intros q Hq; apply Hp; by right | done | by eapply room_same; [apply Hs1|]|].
  exists d2. cbn [length serv_unpack_loop]. rewrite !s32_small by (destruct (table_at cmd f Hcmd Hf) as (_ & ? & _); lia).
  rewrite (adm_unpack_at n cmd f) by done. rewrite E1. cbn [mbind option_bind]. rewrite Z.eqb_refl. cbn [negb]. split; [exact E2|].
  apply same_outside_shift in Hs1. apply holds_shift in Hd1. split; [by eapply same_outside_trans|].
  apply Forall2_app; [|done]. eapply holds_same; [exact Hd1 | exact Hs2|]. apply parts_apart; [done|]. intros q Hq. apply Hp. by right.
Qed.
End parts.

Section serv.
Context (n : nat) (cmd size : Z) (f : adm_fns) (name : list Z) (parts : list (list field * list value)).
Context (Hcmd : 1 <= cmd) (Hf : fns_of cmd = Some f) (Hsize : 0 <= size < 2147483648).
Context (Hlen : sizeof_serv_resp + size * Z.of_nat (length parts) < 2147483648).
Context (Hparts : forall q, q ∈ parts -> Forall (inside 0 size) q.1 /\ length q.1 = length q.2).
Notation fields := (serv_head ++ parts_members size sizeof_serv_resp parts).
Notation values := ([VInt cmd; VInt size; VInt (Z.of_nat (length parts)); VBytes name] ++ parts_values parts).
Notation len := (sizeof_serv_resp + size * Z.of_nat (length parts)).

Lemma serv_length : s32 (sizeof_serv_resp + u32 (size * Z.of_nat (length parts))) = len.
Proof. unfold sizeof_serv_resp in *. rewrite u32_small by nia. apply s32_small. nia. Qed.

Lemma serv_apart : forallb (fun f => forallb (apart f) (parts_members size sizeof_serv_resp parts)) serv_head = true.
Proof.
  eapply inside_apart; [|apply parts_inside; [lia | intros q Hq; by apply Hparts]]. instantiate (1 := 0). inside_list.
Qed.

Lemma serv_packs : (forall q, q ∈ parts -> packing (call_pack adm_defs n f) q.1 q.2 size) ->
  packing (call_pack adm_defs (S n) serv_resp) fields values len.
Proof.
  intros Hpack msg mo Hh. pose proof Hh as [Hw _]%Forall2_app_inv; [|done].
  apply Forall2_cons in Hw as [Hm1 [Hm2 [Hm3 _]%Forall2_cons]%Forall2_cons].
  cbn [call_pack]. unfold adm_serv_resp_pack. rewrite (member_int _ _ _ _ _ Hm2). cbn [mbind option_bind].
  rewrite (member_int _ _ _ _ _ Hm3). cbn [mbind option_bind]. rewrite (member_int _ _ _ _ _ Hm1). cbn [mbind option_bind].
  rewrite serv_length. split; [done|]. intros data to Hr.
  destruct (copies_first _ _ _ _ _ msg mo data to (serv_head_copies _) Hh Hr serv_apart) as (vs1 & vs2 & d1 & Ev & E1 & Hh1 & Hh2 & Hd1 & Hr2 & Hend).
  pose proof (Forall2_length _ _ _ Hh1) as Hl. destruct vs1 as [|v1 [|v2 [|v3 [|v4 [|]]]]]; try discriminate Hl. injection Ev as <- <- <- <- <-.
  destruct (serv_pack_loop_copies n cmd size f Hcmd Hf ltac:(lia) parts sizeof_serv_resp msg mo d1 to) as (d2 & E2 & Hs2 & Hd2);
    [intros q Hq; split; [by apply Hparts|]; split; [by apply Hparts | by apply Hpack] | done..|].
  exists d2. rewrite E1. cbn [mbind option_bind]. rewrite Nat2Z.id, E2. split; [done | by apply Hend].
Qed.

Lemma serv_unpacks : (forall q, q ∈ parts -> unpacking (call_unpack adm_defs n f) q.1 q.2 size) ->
  unpacking (call_unpack adm_defs (S n) serv_resp) fields values len.
Proof.
  intros Hunpack data to msg mo Hh Hr.
  destruct (copies_first _ _ _ _ _ data to msg mo (serv_head_copies _) Hh Hr serv_apart) as (vs1 & vs2 & d1 & Ev & E1 & Hh1 & Hh2 & Hd1 & Hr2 & Hend).
  pose proof (Forall2_length _ _ _ Hh1) as Hl. destruct vs1 as [|v1 [|v2 [|v3 [|v4 [|]]]]]; try discriminate Hl. injection Ev as <- <- <- <- <-.
  destruct (serv_unpack_loop_copies n cmd size f Hcmd Hf ltac:(lia) parts sizeof_serv_resp d1 mo data to) as (d2 & E2 & Hs2 & Hd2);
    [intros q Hq; split; [by apply Hparts|]; split; [by apply Hparts | by apply Hunpack] | done..|].
  pose proof Hd1 as Hw. apply Forall2_cons in Hw as [Hm1 [Hm2 [Hm3 _]%Forall2_cons]%Forall2_cons].
  exists d2. cbn [call_unpack]. unfold adm_serv_resp_unpack. rewrite E1. cbn [mbind option_bind].
  rewrite (member_int _ _ _ _ _ Hm2). cbn [mbind option_bind]. rewrite (member_int _ _ _ _ _ Hm3). cbn [mbind option_bind].
  rewrite (member_int _ _ _ _ _ Hm1). cbn [mbind option_bind]. rewrite serv_length, Z.eqb_refl. cbn [negb].
  rewrite Nat2Z.id. split; [exact E2 | by apply Hend].
Qed.
End serv.

(** Every message is packed and unpacked. *)
Lemma layout_copies n f fs vs len : layout n f fs vs len ->
  packing (call_pack adm_defs n f) fs vs len /\ unpacking (call_unpack adm_defs n f) fs vs len.
Proof.
  induction 1 as [n f size fs vs H | n service cnt state vs H | n gs size vs H | n cmd f size name parts Hc Hf Hs Hl Hlen H IH].
  - by apply flat_copies.
  - apply stats_copies. lia.
  - split; [by apply sgt_packs | by apply sgt_unpacks].
  - assert (Hp : forall q, q ∈ parts -> Forall (inside 0 size) q.1 /\ length q.1 = length q.2).
    { intros q Hq. split; [by eapply layout_inside, H | by apply Hlen]. }
    split; [apply (serv_packs n cmd size f) | apply (serv_unpacks n cmd size f)]; try done; intros q Hq; by apply IH.
Qed.
End table.
