(* ===== verification/AdminTheorems.v ===== *)
(** * The messages of the manager: theorems

    What one process sends, the other gets: from the struct of the sender to
    the packet, over the socket, and into the struct of the receiver. *)
From S2P Require Import Prelude Bytes Mpool Sock SockProps Admin AdminWire.

(** ** The header *)

Definition cmd_members := [FInt 4 cmd_magic; FInt 4 cmd_type; FInt 4 cmd_tid; FInt 4 cmd_len].
(** A packet of a message with the members [fs] *)
Definition packet_holds (buf : list Z) (type tid len : Z) (fs : list field) (vs : list value) : Prop :=
  holds true buf 0 (cmd_members ++ (shift sizeof_cmd <$> fs)) ([VInt FH_ADM_MAGIC; VInt type; VInt tid; VInt len] ++ vs) /\
  Z.of_nat (length buf) = len + sizeof_cmd.

Lemma cmd_apart fs len : Forall (inside 0 len) fs ->
  forallb (fun f => forallb (apart f) (shift sizeof_cmd <$> fs)) cmd_members = true.
Proof.
  intros H%(inside_shift _ _ sizeof_cmd). eapply inside_apart; [|exact H]. instantiate (1 := 0). inside_list.
Qed.

Lemma set_cmd_member off x buf : 0 <= off -> off + 4 <= Z.of_nat (length buf) -> 0 <= x < 4294967296 ->
  exists buf', set_cmd off (ntoh32 x) buf = Some buf' /\ same_outside [FInt 4 off] 0 buf buf' /\
    holds true buf' 0 [FInt 4 off] [VInt x].
Proof.
  intros Ho Hl Hx. set (l := be_bytes 4 x).
  assert (El : le_bytes 4 (u32 (ntoh32 x)) = l).
  { unfold ntoh32. pose proof (be_val_range (le_bytes 4 x) (le_bytes_is_byte 4 x)) as Hr. rewrite length_le_bytes in Hr.
    rewrite u32_small by exact Hr. rewrite <- (length_le_bytes 4 x) at 1. by rewrite le_bytes_be_val by apply le_bytes_is_byte. }
  destruct (write_member buf 0 (FInt 4 off) l) as (buf' & rest & Hw & Hs & Hr);
    [unfold room; cbn [f_off f_len]; lia | cbn [f_len]; unfold l; by rewrite length_be_bytes|].
  exists buf'. unfold set_cmd. rewrite El. split; [exact Hw|]. split; [done|]. apply holds_one. exists (VInt x). split; [done|].
  destruct (read_bytes_spec _ _ _ _ Hr) as (Hlen & _). rewrite length_app in Hlen. unfold l in Hlen. rewrite length_be_bytes in Hlen.
  cbn [f_len] in Hlen. destruct rest; [|cbn in Hlen; lia]. rewrite app_nil_r in Hr. exists l. split; [done|].
  split; [apply be_bytes_is_byte|]. symmetry. by apply be_val_be_bytes.
Qed.

(** Writing the header *)
Lemma header_written buf type tid len fs vs : 0 <= type < 4294967296 -> 0 <= tid < 4294967296 -> 0 <= len < 4294967296 ->
  Z.of_nat (length buf) = len + sizeof_cmd -> Forall (inside 0 len) fs -> holds true buf sizeof_cmd fs vs ->
  exists pkt, (buf ← set_cmd cmd_magic (ntoh32 FH_ADM_MAGIC) buf; buf ← set_cmd cmd_type (ntoh32 type) buf;
    buf ← set_cmd cmd_tid (ntoh32 tid) buf; buf ← set_cmd cmd_len (ntoh32 len) buf; Some (FH_OK, Some buf)) = Some (FH_OK, Some pkt) /\
    packet_holds pkt type tid len fs vs.
Proof.
  intros Hty Hti Hle Hl Hin Hh. pose proof (cmd_apart fs len Hin) as Hap. unfold sizeof_cmd in Hl.
  apply (holds_shift _ _ 0 sizeof_cmd) in Hh.
  destruct (set_cmd_member cmd_magic FH_ADM_MAGIC buf) as (b1 & -> & S1 & M1); [done | unfold cmd_magic; lia | done|]. cbn [mbind option_bind].
  assert (L1 : length b1 = length buf) by apply S1.
  destruct (set_cmd_member cmd_type type b1) as (b2 & -> & S2 & M2); [done | rewrite L1; unfold cmd_type; lia | done|]. cbn [mbind option_bind].
  assert (L2 : length b2 = length b1) by apply S2.
  destruct (set_cmd_member cmd_tid tid b2) as (b3 & -> & S3 & M3); [done | rewrite L2, L1; unfold cmd_tid; lia | done|]. cbn [mbind option_bind].
  assert (L3 : length b3 = length b2) by apply S3.
  destruct (set_cmd_member cmd_len len b3) as (b4 & -> & S4 & M4); [done | rewrite L3, L2, L1; unfold cmd_len; lia | done|]. cbn [mbind option_bind].
  assert (L4 : length b4 = length b3) by apply S4. exists b4. split; [done|]. split; [|unfold sizeof_cmd; lia].
  apply Forall2_app.
  - apply holds_one in M4 as (? & [= <-] & M4). 
    eapply holds_same in M1; [eapply holds_same in M1; [eapply holds_same in M1; [|exact S4 | reflexivity] | exact S3 | reflexivity] | exact S2 | reflexivity].
    eapply holds_same in M2; [eapply holds_same in M2; [|exact S4 | reflexivity] | exact S3 | reflexivity].
    eapply holds_same in M3; [|exact S4 | reflexivity].
    apply holds_one in M1 as (? & [= <-] & M1), M2 as (? & [= <-] & M2), M3 as (? & [= <-] & M3). by repeat constructor.
  - repeat (eapply holds_same in Hh; [|eassumption | apply (apart_one cmd_members); [exact Hap | cbn; tauto]]). done.
Qed.

(** ** Creating a packet *)

Section table.
Context (adm_defs : list fh_adm_def) (Htable : fh_adm_init = Some (FH_OK, adm_defs)).

Lemma create_packet n malloc type tid msg f fs vs len block : layout n f fs vs len -> holds false msg 0 fs vs ->
  1 <= type -> fns_of type = Some f -> 0 <= tid < 4294967296 -> len + sizeof_cmd < 2147483648 ->
  malloc (len + sizeof_cmd) = Some block -> Z.of_nat (length block) = len + sizeof_cmd ->
  exists pkt, fh_adm_create adm_defs n malloc type tid msg = Some (FH_OK, Some pkt) /\ packet_holds pkt type tid len fs vs.
Proof.
  intros Hlay Hh Hty Hf Htid Hlen Hm Hb. destruct (table_at _ Htable type f Hty Hf) as (Hv & Hr & d & Hd & Et & Ep & _).
  destruct (layout_inside _ _ _ _ _ Hlay) as [H0 Hin]. unfold sizeof_cmd in Hlen, Hb.
  destruct (proj1 (layout_copies _ Htable _ _ _ _ _ Hlay) msg 0 Hh) as [E1 Hpack].
  destruct (Hpack block sizeof_cmd) as (b & E2 & Hs & Hd2); [eapply inside_room; [exact Hin | done | unfold sizeof_cmd; lia]|].
  destruct (header_written b type tid len fs vs) as (pkt & E3 & Hpkt); [lia | done | lia | destruct Hs as [-> _]; done | done | done|].
  exists pkt. split; [|done]. unfold fh_adm_create. rewrite Hv. cbn [negb]. rewrite Hd. cbn [mbind option_bind].
  rewrite Ep, Et, Z.eqb_refl. cbn [negb]. rewrite E1. cbn [mbind option_bind]. rewrite Z.eqb_refl. cbn [negb].
  rewrite s32_small by (unfold sizeof_cmd; lia). rewrite Hm, E2. cbn [mbind option_bind]. rewrite Z.eqb_refl. cbn [negb].
  rewrite !(u32_small type), !(u32_small len) by lia. exact E3.
Qed.
End table.

(** ** Receiving one *)

(** A connection that can be waited for, and looked at without reading *)
Class AdminPeer {O} (os : syscall -> O -> sysret * O) (fd : Z) (input : O -> list Z) := {
  admin_tcp :: TcpPeer os fd input;
  admin_peek o n : (0 < n <= length (input o))%nat ->
    exists e o', os (SysRecv fd (Z.of_nat n) (Z.lor MSG_PEEK MSG_DONTWAIT)) o = (MkRet (Z.of_nat n) e (take n (input o)), o') /\
      input o' = input o;
  admin_select o usec : input o <> [] ->
    exists k e d o', os (SysSelect fd false (Some usec)) o = (MkRet k e d, o') /\ 0 < k /\ input o' = input o
}.

Lemma read_bytes_prefix k b p n : p + Z.of_nat n <= Z.of_nat k -> (k <= length b)%nat -> read_bytes (take k b) p n = read_bytes b p n.
Proof.
  intros Hp Hk. unfold read_bytes. rewrite length_take, Nat.min_l by done.
  destruct (p <? 0) eqn:E; cbn [orb]; [done|]. bool_to_prop.
  destruct (_ <? _) eqn:E1; bool_to_prop; [lia|]. destruct (Z.of_nat (length b) <? _) eqn:E2; bool_to_prop; [lia|].
  f_equal. rewrite skipn_firstn_comm, take_take, Nat.min_l by lia. done.
Qed.

(** An integer of a packet, as the program reads it *)
Lemma member_net_int buf o off z : member true buf o (FInt 4 off) (VInt z) ->
  exists x, read_le buf (o + off) 4 = Some x /\ ntoh32 x = z.
Proof.
  intros (l & Hr & Hb & ->). cbn [f_off f_len] in Hr. change (Z.to_nat (Z.of_nat 4)) with 4%nat in Hr.
  destruct (read_bytes_spec _ _ _ _ Hr) as (Hl & _). exists (le_val l). unfold read_le. rewrite Hr. split; [done|].
  unfold ntoh32. rewrite <- Hl, le_bytes_le_val by done. done.
Qed.

Lemma io_step {S A B} (m : io S A) (k : A -> io S B) o a o' : m o = Some (a, o') -> (m ≫= k) o = k a o'.
Proof. intros E. unfold mbind, io_bind. by rewrite E. Qed.
Lemma defined_step {S A B} (a : A) (k : A -> io S B) o : (defined (Some a) ≫= k) o = k a o.
Proof. done. Qed.

Section receive.
Context {O : Type} {os : syscall -> O -> sysret * O} {fd : Z} {input : O -> list Z} {peer : AdminPeer os fd input}.

Lemma fh_tcp_peek_all fuel n o : (0 < n <= length (input o))%nat -> (0 < fuel)%nat ->
  exists o', fh_tcp_peek os fuel fd (Z.of_nat n) o = Some ((Z.of_nat n, take n (input o)), o') /\ input o' = input o.
Proof.
  intros Hn Hf. destruct (admin_peek o n Hn) as (e & o' & E & Hi). exists o'. split; [|done].
  destruct fuel as [|fuel]; [lia|]. unfold fh_tcp_peek, fh_tcp_readex. cbn [tcp_read_loop].
  destruct (Z.of_nat n <=? 0) eqn:E1; bool_to_prop; [lia|]. unfold mbind at 1, io_bind at 1, sys. rewrite E.
  cbn [r_val r_data]. destruct (Z.of_nat n <? 0) eqn:E2; bool_to_prop; [lia|]. rewrite eqb_false_of_ne by lia.
  change (MSG_PEEK =? MSG_PEEK) with true. cbn [negb]. rewrite Z.eqb_refl. destruct fuel; cbn; rewrite Z.sub_0_r; done.
Qed.

(** The header of what was received, in the order of the host *)
Definition host_header := [FInt 4 cmd_type; FInt 4 cmd_tid; FInt 4 cmd_len].

Lemma swap_in_place b off z : 0 <= off -> off + 4 <= Z.of_nat (length b) -> holds true b 0 [FInt 4 off] [VInt z] ->
  exists b', swap32 off b 0 b 0 = Some b' /\ same_outside [FInt 4 off] 0 b b' /\ holds false b' 0 [FInt 4 off] [VInt z].
Proof.
  intros Ho Hl Hm. apply (swap_copies ntoh32 4 off true [VInt z] ntoh32_swaps b 0 b 0); [done|].
  repeat constructor; cbn [f_off f_len]; lia.
Qed.

Lemma header_swapped pkt type tid len fs vs : packet_holds pkt type tid len fs vs -> Forall (inside 0 len) fs ->
  exists b1 b2 data, swap32 cmd_type pkt 0 pkt 0 = Some b1 /\ swap32 cmd_tid b1 0 b1 0 = Some b2 /\ swap32 cmd_len b2 0 b2 0 = Some data /\
    holds false data 0 host_header [VInt type; VInt tid; VInt len] /\ holds true data sizeof_cmd fs vs.
Proof.
  intros [Hh Hl] Hin. pose proof (cmd_apart fs len Hin) as Hap. unfold sizeof_cmd in Hl.
  apply Forall2_app_inv in Hh as [Hh Hfs]; [|done]. apply Forall2_cons in Hh as [_ [M1 [M2 [M3 _]%Forall2_cons]%Forall2_cons]%Forall2_cons].
  pose proof (member_int_range _ _ _ _ _ _ M3) as Hlen.
  assert (H1 : holds true pkt 0 [FInt 4 cmd_type] [VInt type]) by repeat (constructor || done).
  assert (H2 : holds true pkt 0 [FInt 4 cmd_tid] [VInt tid]) by repeat (constructor || done).
  assert (H3 : holds true pkt 0 [FInt 4 cmd_len] [VInt len]) by repeat (constructor || done). clear M1 M2 M3.
  destruct (swap_in_place pkt cmd_type type) as (b1 & E1 & S1 & N1); [done | unfold cmd_type; lia | done|].
  assert (L1 : length b1 = length pkt) by apply S1.
  eapply holds_same in H2; [|exact S1 | reflexivity]. eapply holds_same in H3; [|exact S1 | reflexivity].
  destruct (swap_in_place b1 cmd_tid tid) as (b2 & E2 & S2 & N2); [done | unfold cmd_tid; lia | done|].
  assert (L2 : length b2 = length b1) by apply S2. eapply holds_same in H3; [|exact S2 | reflexivity].
  destruct (swap_in_place b2 cmd_len len) as (b3 & E3 & S3 & N3); [done | unfold cmd_len; lia | done|].
  exists b1, b2, b3. repeat (split; [done|]).
  eapply holds_same in N1; [eapply holds_same in N1; [|exact S3 | reflexivity] | exact S2 | reflexivity].
  eapply holds_same in N2; [|exact S3 | reflexivity]. split.
  - apply holds_one in N1 as (? & [= <-] & N1), N2 as (? & [= <-] & N2), N3 as (? & [= <-] & N3). by repeat constructor.
  - apply (holds_shift _ _ 0). repeat (eapply holds_same in Hfs; [|eassumption | apply (apart_one cmd_members); [exact Hap | cbn; tauto]]). done.
Qed.

Lemma fh_adm_recv_packet malloc fuel pkt rest type tid len fs vs o : packet_holds pkt type tid len fs vs ->
  Forall (inside 0 len) fs -> 0 <= len -> len + sizeof_cmd < 2147483648 -> is_Some (malloc (len + sizeof_cmd)) ->
  (length pkt <= fuel)%nat -> input o = pkt ++ rest ->
  exists data o', fh_adm_recv os malloc fuel fd o = Some ((FH_OK, Some data), o') /\ input o' = rest /\
    holds false data 0 host_header [VInt type; VInt tid; VInt len] /\ holds true data sizeof_cmd fs vs.
Proof.
  intros Hpkt Hin H0 Hlen [block Hm] Hfuel Hi. pose proof Hpkt as [Hh Hl]. unfold sizeof_cmd in Hlen, Hl.
  destruct (fh_tcp_peek_all fuel 16 o) as (o1 & Ep & Hi1); [rewrite Hi, length_app; lia | lia|].
  apply Forall2_app_inv in Hh as [Hh _]; [|done].
  apply Forall2_cons in Hh as [Hmg [_ [_ [Hln _]%Forall2_cons]%Forall2_cons]%Forall2_cons].
  destruct (member_net_int _ _ _ _ Hmg) as (m & Rm & Em). destruct (member_net_int _ _ _ _ Hln) as (l & Rl & El).
  assert (Hhead : forall off, 0 <= off -> off + 4 <= 16 -> read_le (take 16 (input o)) off 4 = read_le pkt (0 + off) 4).
  { intros off A B. unfold read_le. rewrite Hi, take_app_le by lia. by rewrite read_bytes_prefix by lia. }
  destruct (fh_tcp_read_all fuel (length pkt) o1) as (o2 & Er & Hi2); [rewrite Hi1, Hi, length_app; lia | done|].
  destruct (header_swapped _ _ _ _ _ _ Hpkt Hin) as (b1 & b2 & data & E1 & E2 & E3 & Hd).
  rewrite Hi1, Hi, drop_app_length in Hi2. rewrite Hi1, Hi, take_app_length in Er. exists data, o2.
  split; [|done]. unfold fh_adm_recv. change sizeof_cmd with (Z.of_nat 16). rewrite (io_step _ _ _ _ _ Ep).
  change (Z.of_nat 16 <? 0) with false. rewrite Z.eqb_refl. cbn [negb orb].
  rewrite !Hhead by (unfold cmd_magic, cmd_len; lia). rewrite Rm, Rl, !defined_step, Em, Z.eqb_refl. cbn [negb]. rewrite El.
  change (Z.of_nat 16) with 16. rewrite !s32_small by (rewrite ?s32_small; lia).
  rewrite eqb_false_of_ne by lia. unfold sizeof_cmd in Hm. rewrite Hm, <- Hl, (io_step _ _ _ _ _ Er), Z.eqb_refl. cbn [negb].
  by rewrite E1, defined_step, E2, defined_step, E3, defined_step.
Qed.
End receive.

(** ** Properties *)

Lemma host_header_values data type tid len : holds false data 0 host_header [VInt type; VInt tid; VInt len] ->
  read_le data cmd_type 4 = Some type /\ read_le data cmd_tid 4 = Some tid /\ read_le data cmd_len 4 = Some len.
Proof.
  intros H. apply Forall2_cons in H as [M1 [M2 [M3 _]%Forall2_cons]%Forall2_cons].
  by rewrite <- (member_int _ _ _ _ _ M1), <- (member_int _ _ _ _ _ M2), <- (member_int _ _ _ _ _ M3).
Qed.

Lemma parse_received adm_defs n type f fs vs len data tid msg : fh_adm_init = Some (FH_OK, adm_defs) -> layout n f fs vs len ->
  1 <= type -> fns_of type = Some f -> len < 2147483648 -> holds false data 0 host_header [VInt type; VInt tid; VInt len] ->
  holds true data sizeof_cmd fs vs -> len <= Z.of_nat (length msg) ->
  exists msg', fh_adm_parse adm_defs n type data msg = Some (FH_OK, msg') /\ same_outside fs 0 msg msg' /\ holds false msg' 0 fs vs.
Proof.
  intros Htable Hlay Hty Hf Hlen Hh Hd Hroom. destruct (table_at _ Htable type f Hty Hf) as (Hv & _ & d & Ed & Et & _ & Eu).
  destruct (layout_inside _ _ _ _ _ Hlay) as [H0 Hin]. destruct (host_header_values _ _ _ _ Hh) as (_ & _ & El).
  destruct (proj2 (layout_copies _ Htable _ _ _ _ _ Hlay) data sizeof_cmd msg 0 Hd) as (msg' & E & Hs & Hm);
    [by eapply inside_room; [exact Hin | done | lia]|].
  exists msg'. split; [|done]. unfold fh_adm_parse. rewrite Hv. cbn [negb]. rewrite Ed. cbn [mbind option_bind].
  rewrite Eu, Et, Z.eqb_refl. cbn [negb]. rewrite El. cbn [mbind option_bind]. rewrite s32_small by lia. exact E.
Qed.

(** C29: roundtrip. Whatever the message (the statistics of any number of
    lines, a tree of service groups, and the responses of services, in each
    of which are messages again), the packet that [fh_adm_create] makes of it
    is what [fh_adm_expect] takes from the socket on the other side, up to its
    last byte, and the members of the message that it fills have the values
    that the sender gave them; what is not a member of it is not touched. *)
Theorem adm_message_delivered {O} (os : syscall -> O -> sysret * O) fd input (peer : AdminPeer os fd input)
    adm_defs malloc n fuel type tid f fs vs len msg block :
  fh_adm_init = Some (FH_OK, adm_defs) -> 1 <= type -> fns_of type = Some f -> layout n f fs vs len -> holds false msg 0 fs vs ->
  0 <= tid < 4294967296 -> len + sizeof_cmd < 2147483648 -> (Z.to_nat (len + sizeof_cmd) <= fuel)%nat ->
  malloc (len + sizeof_cmd) = Some block -> Z.of_nat (length block) = len + sizeof_cmd ->
  exists pkt, fh_adm_create adm_defs n malloc type tid msg = Some (FH_OK, Some pkt) /\
    forall o rest into max, input o = pkt ++ rest -> len <= Z.of_nat (length into) -> len <= max ->
    exists into' o', fh_adm_expect adm_defs os malloc fuel n fd type tid into max o = Some ((FH_OK, into'), o') /\ input o' = rest /\
      holds false into' 0 fs vs /\ same_outside fs 0 into into'.
Proof.
  intros Htable Hty Hf Hlay Hh Htid Hlen Hfuel Hm Hb. destruct (table_at _ Htable type f Hty Hf) as (_ & Hr & _).
  destruct (create_packet _ Htable n malloc type tid msg f fs vs len block) as (pkt & E & Hpkt); try done.
  exists pkt. split; [done|]. intros o rest into max Hi Hroom Hmax. destruct (layout_inside _ _ _ _ _ Hlay) as [H0 Hin].
  pose proof Hpkt as [_ Hl]. destruct (admin_select o 2000000) as (k & e & d & o1 & Es & Hk & Hi1).
  { rewrite Hi. destruct pkt; [unfold sizeof_cmd in Hl; cbn in Hl; lia | done]. }
  destruct (fh_adm_recv_packet malloc fuel pkt rest type tid len fs vs o1) as (data & o2 & Er & Hi2 & Hhead & Hd);
    [done.. | by rewrite Hm | lia | by rewrite Hi1 |]. destruct (host_header_values _ _ _ _ Hhead) as (Et & Ei & El).
  destruct (parse_received adm_defs n type f fs vs len data tid into Htable Hlay Hty Hf) as (into' & Ep & Hs & Hinto);
    [unfold sizeof_cmd in Hlen; lia | done..|].
  exists into', o2. split; [|done]. unfold fh_adm_expect. rewrite (io_step _ _ _ (MkRet k e d) o1); [|unfold sys; by rewrite Es].
  cbn [r_val]. destruct (k <=? 0) eqn:Ek; bool_to_prop; [lia|]. rewrite (io_step _ _ _ _ _ Er).
  rewrite Et, defined_step, Z.eqb_refl. cbn [negb]. rewrite El, defined_step. destruct (max <? len) eqn:Em; bool_to_prop; [lia|].
  rewrite Ei, defined_step, Z.eqb_refl. cbn [negb]. rewrite s32_small by lia. unfold defined. by rewrite Ep.
Qed.

(** C40: error. A message that is not the one expected (of another type, with
    another transaction, or too long) is taken from the socket and dropped,
    and [fh_adm_expect] returns [FH_OK] all the same, with nothing of the
    struct filled in. *)
Theorem adm_expect_unexpected {O} (os : syscall -> O -> sysret * O) fd input (peer : AdminPeer os fd input)
    adm_defs malloc n fuel type tid type' tid' f fs vs len msg block pkt o rest into max :
  fh_adm_init = Some (FH_OK, adm_defs) -> 1 <= type' -> fns_of type' = Some f -> layout n f fs vs len -> holds false msg 0 fs vs ->
  0 <= tid' < 4294967296 -> len + sizeof_cmd < 2147483648 -> (Z.to_nat (len + sizeof_cmd) <= fuel)%nat ->
  malloc (len + sizeof_cmd) = Some block -> Z.of_nat (length block) = len + sizeof_cmd ->
  fh_adm_create adm_defs n malloc type' tid' msg = Some (FH_OK, Some pkt) -> input o = pkt ++ rest ->
  type' <> type \/ max < len \/ tid' <> tid ->
  exists o', fh_adm_expect adm_defs os malloc fuel n fd type tid into max o = Some ((FH_OK, into), o') /\ input o' = rest.
Proof.
  intros Htable Hty Hf Hlay Hh Htid Hlen Hfuel Hm Hb Hcreate Hi Hdiff. destruct (layout_inside _ _ _ _ _ Hlay) as [H0 Hin].
  destruct (create_packet _ Htable n malloc type' tid' msg f fs vs len block) as (pkt' & E & Hpkt); try done.
  rewrite Hcreate in E. injection E as <-.
  pose proof Hpkt as [_ Hl]. destruct (admin_select o 2000000) as (k & e & d & o1 & Es & Hk & Hi1).
  { rewrite Hi. destruct pkt; [unfold sizeof_cmd in Hl; cbn in Hl; lia | done]. }
  destruct (fh_adm_recv_packet malloc fuel pkt rest type' tid' len fs vs o1) as (data & o2 & Er & Hi2 & Hhead & Hd);
    [done.. | by rewrite Hm | lia | by rewrite Hi1 |]. destruct (host_header_values _ _ _ _ Hhead) as (Et & Ei & El).
  exists o2. split; [|done]. unfold fh_adm_expect. rewrite (io_step _ _ _ (MkRet k e d) o1); [|unfold sys; by rewrite Es].
  cbn [r_val]. destruct (k <=? 0) eqn:Ek; bool_to_prop; [lia|]. rewrite (io_step _ _ _ _ _ Er), Et, defined_step.
  destruct (type' =? type) eqn:E1; cbn [negb]; [|done]. rewrite El, defined_step. destruct (max <? len) eqn:E2; [done|].
  rewrite Ei, defined_step. destruct (tid' =? tid) eqn:E3; cbn [negb]; [|done]. bool_to_prop. lia.
Qed.

(** ** Examples *)

(** A connection on which all that was sent has arrived; the state is what is
    left to read. *)
Definition whole_os (c : syscall) (inp : list Z) : sysret * list Z :=
  match c with
  | SysRecv 3 n flags =>
      let k := Nat.min (Z.to_nat n) (length inp) in
      (MkRet (Z.of_nat k) 0 (take k inp), if peeks flags then inp else drop k inp)
  | SysSend 3 _ _ => (MkRet 1 0 [], inp)
  | _ => (MkRet 1 0 [], inp)
  end.

Lemma whole_peer : AdminPeer whole_os 3 id.
Proof.
  constructor; [constructor|..]; unfold id.
  - intros o n flags Hn Ho. set (k := Nat.min (Z.to_nat n) (length o)). exists k, 0, (if peeks flags then o else drop k o).
    assert (0 < length o)%nat by (destruct o; [done | cbn; lia]). repeat split; lia || done.
  - intros o [|d data] flags Hd; [done|]. exists 1%nat, 0, o. cbn. repeat split; lia.
  - intros o n Hn. exists 0, o. cbn [whole_os]. rewrite Nat2Z.id, Nat.min_l by lia. done.
  - intros o usec Ho. by exists 1, 0, [], o.
Qed.

Definition demo_defs : list fh_adm_def := default [] (snd <$> fh_adm_init).
Definition zeros (n : Z) : option (list Z) := Some (replicate (Z.to_nat n) 0).
(** Two responses of the service [a] to a registration *)
Definition demo_parts : list (list field * list value) := [([FInt 4 0], [VInt 7]); ([FInt 4 0], [VInt 258])].
Definition demo_resp : list Z := (97 :: replicate 15 0) ++ [2; 0; 0; 0] ++ [4; 0; 0; 0] ++ [2; 0; 0; 0] ++ [7; 0; 0; 0] ++ [2; 1; 0; 0].

Lemma demo_layout : layout 1 serv_resp (serv_head ++ parts_members 4 sizeof_serv_resp demo_parts)
  ([VInt 2; VInt 4; VInt 2; VBytes [97]] ++ parts_values demo_parts) 36.
Proof.
  apply (layout_serv 0 2 reg_resp 4 [97] demo_parts); [lia | done | lia | done | |].
  - intros p [->|[->|[]%not_elem_of_nil]%elem_of_cons]%elem_of_cons; done.
  - intros p [->|[->|[]%not_elem_of_nil]%elem_of_cons]%elem_of_cons; by constructor.
Qed.

(** The members of a concrete buffer *)
Ltac find_member :=
  eexists; (split; [reflexivity|]);
  first [ split; [repeat constructor; unfold is_byte; lia | reflexivity]
        | split; [by vm_compute; set_solver | eexists; reflexivity] | reflexivity ].
Ltac find_members := repeat first [ apply Forall2_nil; exact I | apply Forall2_cons; split; [find_member|] ].

Lemma demo_resp_holds : holds false demo_resp 0 (serv_head ++ parts_members 4 sizeof_serv_resp demo_parts)
  ([VInt 2; VInt 4; VInt 2; VBytes [97]] ++ parts_values demo_parts).
Proof. find_members. Qed.

(** C29's witness: two responses, received with something else behind them. *)
Lemma adm_message_delivered_witness :
  exists pkt, fh_adm_create demo_defs 1 zeros 6 9 demo_resp = Some (FH_OK, Some pkt) /\ length pkt = 52%nat /\
  exists into' o', fh_adm_expect demo_defs whole_os zeros 52 1 3 6 9 (replicate 36 0) 36 (pkt ++ [1; 2]) = Some ((FH_OK, into'), o') /\
    o' = [1; 2] /\ into' = demo_resp.
Proof.
  destruct (adm_message_delivered whole_os 3 id whole_peer demo_defs zeros 1 52 6 9 serv_resp _ _ 36 demo_resp (replicate 52 0)
    eq_refl ltac:(lia) eq_refl demo_layout demo_resp_holds ltac:(lia) ltac:(unfold sizeof_cmd; lia) ltac:(vm_compute; lia) eq_refl eq_refl) as (pkt & E & H).
  exists pkt. split; [exact E|]. destruct (H (pkt ++ [1; 2]) [1; 2] (replicate 36 0) 36 eq_refl ltac:(vm_compute; congruence) ltac:(lia))
    as (into' & o' & E' & Ho & _). vm_compute in E. injection E as <-. split; [reflexivity|]. exists into', o'. split; [exact E'|].
  split; [exact Ho|]. vm_compute in E'. injection E' as <- _. reflexivity.
Defined.

(** C40's witness: a request for an action where service groups are asked for. *)
Lemma adm_expect_unexpected_witness :
  exists pkt, fh_adm_create demo_defs 0 zeros 11 5 [1; 0; 0; 0] = Some (FH_OK, Some pkt) /\
    exists o', fh_adm_expect demo_defs whole_os zeros 20 0 3 12 5 [8; 8; 8; 8] 4 pkt = Some ((FH_OK, [8; 8; 8; 8]), o') /\ o' = [].
Proof.
  destruct (fh_adm_create demo_defs 0 zeros 11 5 [1; 0; 0; 0]) as [[rc [pkt|]]|] eqn:E; [|discriminate E..].
  exists pkt. assert (rc = FH_OK) as -> by (vm_compute in E; by injection E as <- _). split; [reflexivity|].
  apply (adm_expect_unexpected whole_os 3 id whole_peer demo_defs zeros 0 20 12 5 11 5 action_req [FInt 4 action_type] [VInt 1] 4 [1; 0; 0; 0]
    (replicate 20 0) pkt pkt [] [8; 8; 8; 8] 4 eq_refl ltac:(lia) eq_refl); [by constructor | find_members | lia | unfold sizeof_cmd; lia | vm_compute; lia
    | reflexivity | reflexivity | exact E | by rewrite app_nil_r | by left].
Defined.
