(* ===== verification/Service.v ===== *)
(** * The services of the manager ([src/mgmt/fhmgr/fh_mgmt_service.c])

    The manager starts feed handlers as services, in groups, and controls
    them over the connections that they open to it.  Services, groups and
    connections are objects in memory that point to each other. *)
From S2P Require Import Prelude Bytes Mpool Sock Admin.

(** ** Flags ([fh_mgmt_service.h]) *)

Definition FH_MGMT_SERV_ENABLED : Z := 0x1.
Definition FH_MGMT_SERV_DISABLED : Z := 0x2.
Definition FH_MGMT_SERV_STARTED : Z := 0x4.
Definition FH_MGMT_SERV_RUNNING : Z := 0x8.
Definition FH_MGMT_SERV_STOPPED : Z := 0x10.
Definition FH_MGMT_SERV_ADMIN_STOPPED : Z := 0x20.
Definition FH_MGMT_SERV_STATS : Z := 0x40.
Definition FH_MGMT_SERV_WAIT : Z := 0x80.
Definition FH_MGMT_SERV_SPAWN : Z := 0x100.
Definition FH_MGMT_SERV_CLI : Z := 0x200.
Definition FH_MGMT_SERV_RESTART : Z := 0x400.
Definition FH_MGMT_SERV_STOPPING : Z := 0x800.
Definition FH_MGMT_SERV_ADMIN_STOPPING : Z := 0x1000.
Definition FH_MGMT_SERV_RESPAWN : Z := 0x2000.
Definition FH_MGMT_SERV_SHUTDOWN : Z := 0x4000.
Definition FH_MGMT_SG_ENABLED : Z := 0x1.
Definition FH_MGMT_SG_DISABLED : Z := 0x2.
Definition FH_MGMT_SG_STOPPED : Z := 0x10.
Definition FH_MGMT_SG_STATS : Z := 0x20.
Definition FH_MGMT_SG_RESTART : Z := 0x40.

(** [flags & bits], as a condition *)
Definition has (flags bits : Z) : bool := negb (Z.land flags bits =? 0).
(** [flags |= bits], [flags &= ~bits] *)
Definition set_bits (bits flags : Z) : Z := Z.lor flags bits.
Definition clear_bits (bits flags : Z) : Z := Z.ldiff flags bits.

(** ** Objects *)

(** [fh_mgmt_serv_t], without what [serv_monitor] keeps; the pointers are 0
    for [NULL]. *)
Record fh_serv := MkServ {
  sv_name : list Z; sv_command : list Z; sv_args : option (list Z);
  sv_conn : Z; sv_mask : Z; sv_flags : Z; sv_group : Z
}.
Definition set_serv_flags f s := MkServ s.(sv_name) s.(sv_command) s.(sv_args) s.(sv_conn) s.(sv_mask) f s.(sv_group).
Definition set_serv_conn c s := MkServ s.(sv_name) s.(sv_command) s.(sv_args) c s.(sv_mask) s.(sv_flags) s.(sv_group).
Definition set_serv_group m g s := MkServ s.(sv_name) s.(sv_command) s.(sv_args) s.(sv_conn) m s.(sv_flags) g.

(** [fh_mgmt_sg_rpt_t]: the lines as they are in the statistics of services,
    and the totals that are kept *)
Record sg_rpt := MkRpt {
  sg_rpt_name : list Z; sg_rpt_line_count : Z; sg_rpt_lines : list Z;
  total_pkt_errs : Z; total_pkt_rx : Z; total_pkt_dups : Z; total_msg_rx : Z; total_bytes : Z
}.
Definition rpt_zero : sg_rpt := MkRpt [] 0 [] 0 0 0 0 0.

(** [fh_mgmt_sg_t], without [sg_up_mask], which is only printed, and the lock *)
Record fh_sg := MkSg {
  g_name : list Z; g_report_name : list Z; g_servs : list Z; g_serv_count : Z; g_flags : Z;
  g_restart_time : Z; g_restart_deadline : Z; g_restart_ticks : Z; g_stats_period : Z; g_stats_ticks : Z;
  g_respawn_period : Z; g_respawn_ticks : Z; g_rpt : sg_rpt
}.
Definition set_g_servs l n g := MkSg g.(g_name) g.(g_report_name) l n g.(g_flags) g.(g_restart_time) g.(g_restart_deadline) g.(g_restart_ticks)
  g.(g_stats_period) g.(g_stats_ticks) g.(g_respawn_period) g.(g_respawn_ticks) g.(g_rpt).
Definition set_g_flags f g := MkSg g.(g_name) g.(g_report_name) g.(g_servs) g.(g_serv_count) f g.(g_restart_time) g.(g_restart_deadline) g.(g_restart_ticks)
  g.(g_stats_period) g.(g_stats_ticks) g.(g_respawn_period) g.(g_respawn_ticks) g.(g_rpt).
Definition set_g_restart time deadline ticks g := MkSg g.(g_name) g.(g_report_name) g.(g_servs) g.(g_serv_count) g.(g_flags) time deadline ticks
  g.(g_stats_period) g.(g_stats_ticks) g.(g_respawn_period) g.(g_respawn_ticks) g.(g_rpt).
Definition set_g_stats period ticks g := MkSg g.(g_name) g.(g_report_name) g.(g_servs) g.(g_serv_count) g.(g_flags) g.(g_restart_time) g.(g_restart_deadline) g.(g_restart_ticks)
  period ticks g.(g_respawn_period) g.(g_respawn_ticks) g.(g_rpt).
Definition set_g_respawn ticks g := MkSg g.(g_name) g.(g_report_name) g.(g_servs) g.(g_serv_count) g.(g_flags) g.(g_restart_time) g.(g_restart_deadline) g.(g_restart_ticks)
  g.(g_stats_period) g.(g_stats_ticks) g.(g_respawn_period) ticks g.(g_rpt).
Definition set_g_rpt r g := MkSg g.(g_name) g.(g_report_name) g.(g_servs) g.(g_serv_count) g.(g_flags) g.(g_restart_time) g.(g_restart_deadline) g.(g_restart_ticks)
  g.(g_stats_period) g.(g_stats_ticks) g.(g_respawn_period) g.(g_respawn_ticks) r.

(** [fh_mgmt_conn_t], without [conn_uptime], which is only set *)
Record fh_conn := MkConn {
  conn_fd : Z; conn_type : Z; conn_cltype : Z; conn_id : Z; conn_addr : Z; conn_port : Z; conn_req_tid : Z; conn_pid : Z; conn_serv : Z
}.
Definition set_conn_req_tid t c := MkConn c.(conn_fd) c.(conn_type) c.(conn_cltype) c.(conn_id) c.(conn_addr) c.(conn_port) t c.(conn_pid) c.(conn_serv).
Definition set_conn_serv s c := MkConn c.(conn_fd) c.(conn_type) c.(conn_cltype) c.(conn_id) c.(conn_addr) c.(conn_port) c.(conn_req_tid) c.(conn_pid) s.
Definition set_conn_client t p c := MkConn c.(conn_fd) c.(conn_type) t c.(conn_id) c.(conn_addr) c.(conn_port) c.(conn_req_tid) p c.(conn_serv).

(** The memory of the manager, and its static variables: [sg_list],
    [sg_timers], [sg_spawn_delay]; [conns], [conn_id], [rfds] and [fdmax] of
    [fh_mgmt_conn.c]. *)
Record mgr := MkMgr {
  servs : gmap Z fh_serv; sgs : gmap Z fh_sg; conns : gmap Z fh_conn;
  sg_list : list Z; sg_timers : list Z; sg_spawn_delay : Z; conn_list : list Z; next_conn_id : Z; rfds : gset Z; fdmax : Z
}.
Definition set_servs x m := MkMgr x m.(sgs) m.(conns) m.(sg_list) m.(sg_timers) m.(sg_spawn_delay) m.(conn_list) m.(next_conn_id) m.(rfds) m.(fdmax).
Definition set_sgs x m := MkMgr m.(servs) x m.(conns) m.(sg_list) m.(sg_timers) m.(sg_spawn_delay) m.(conn_list) m.(next_conn_id) m.(rfds) m.(fdmax).
Definition set_conns x m := MkMgr m.(servs) m.(sgs) x m.(sg_list) m.(sg_timers) m.(sg_spawn_delay) m.(conn_list) m.(next_conn_id) m.(rfds) m.(fdmax).
Definition set_sg_list l m := MkMgr m.(servs) m.(sgs) m.(conns) l m.(sg_timers) m.(sg_spawn_delay) m.(conn_list) m.(next_conn_id) m.(rfds) m.(fdmax).
Definition set_sg_timers l m := MkMgr m.(servs) m.(sgs) m.(conns) m.(sg_list) l m.(sg_spawn_delay) m.(conn_list) m.(next_conn_id) m.(rfds) m.(fdmax).
Definition set_conn_list l m := MkMgr m.(servs) m.(sgs) m.(conns) m.(sg_list) m.(sg_timers) m.(sg_spawn_delay) l m.(next_conn_id) m.(rfds) m.(fdmax).
Definition set_next_conn_id n m := MkMgr m.(servs) m.(sgs) m.(conns) m.(sg_list) m.(sg_timers) m.(sg_spawn_delay) m.(conn_list) n m.(rfds) m.(fdmax).
Definition set_rfds r f m := MkMgr m.(servs) m.(sgs) m.(conns) m.(sg_list) m.(sg_timers) m.(sg_spawn_delay) m.(conn_list) m.(next_conn_id) r f.

(** ** Control requests ([fh_mgmt_client.h]) *)

Definition FH_MGMT_CL_CTRL_MASK : Z := 0x80000000.
Definition FH_MGMT_CL_CTRL_ENABLE : Z := Z.lor FH_MGMT_CL_CTRL_MASK 0x1.
Definition FH_MGMT_CL_CTRL_DISABLE : Z := Z.lor FH_MGMT_CL_CTRL_MASK 0x2.
Definition FH_MGMT_CL_CTRL_START : Z := Z.lor FH_MGMT_CL_CTRL_MASK 0x4.
Definition FH_MGMT_CL_CTRL_STOP : Z := Z.lor FH_MGMT_CL_CTRL_MASK 0x8.
Definition FH_MGMT_CL_CTRL_RESTART : Z := Z.lor FH_MGMT_CL_CTRL_MASK 0x10.
Definition FH_MGMT_CL_CTRL_CLRSTATS : Z := Z.lor FH_MGMT_CL_CTRL_MASK 0x20.
Definition FH_MGMT_MAX_SERVICES : Z := 30.
Definition SG_MAX_LINES : Z := 48.
Definition MAX_SECS_PER_DAY : Z := 24 * 60 * 60.
Definition ECHILD : Z := 10.

Section manager.
Context {O : Type} (os : syscall -> O -> sysret * O) (malloc : Z -> option (list Z)) (adm_defs : list fh_adm_def).
(** Fuel for reading and writing sockets, and for nested messages *)
Context (fuel nest : nat).
(** [system]: its status, [errno] and the [child_rc] that the handler of
    [SIGCHLD] left; [localtime_r(time(0))]: the seconds after midnight *)
Context (system : list Z -> O -> (Z * Z * Z) * O) (seconds : O -> Z * O).
(** [serv_monitor], which takes the processor time and the memory of a process
    from [/proc]: the status response it leaves *)
Context (serv_monitor : list Z -> O -> list Z * O).
(** What a struct on the stack holds before it is filled; the hook of the
    plugin that gets the reports *)
Context (stack : list Z) (mgmt_stats_report : sg_rpt -> O -> unit * O).

(** ** Computations on the memory *)

Definition mio (A : Type) : Type := io (mgr * O) A.
Definition lift {A} (m : io O A) : mio A := fun '(g, o) => match m o with Some (a, o) => Some (a, (g, o)) | None => None end.
Definition call {A} (f : O -> A * O) : mio A := fun '(g, o) => let '(a, o) := f o in Some (a, (g, o)).
Definition gets {A} (f : mgr -> A) : mio A := fun '(g, o) => Some (f g, (g, o)).
Definition modify (f : mgr -> mgr) : mio unit := fun '(g, o) => Some (tt, (f g, o)).
Definition must {A} (x : option A) : mio A := fun st => a ← x; Some (a, st).

Definition serv_at (serv : Z) : mio fh_serv := s ← gets (fun g => g.(servs) !! serv); must s.
Definition sg_at (sg : Z) : mio fh_sg := s ← gets (fun g => g.(sgs) !! sg); must s.
Definition conn_at (conn : Z) : mio fh_conn := s ← gets (fun g => g.(conns) !! conn); must s.
Definition upd_serv (serv : Z) (f : fh_serv -> fh_serv) : mio unit := modify (fun g => set_servs (alter f serv g.(servs)) g).
Definition upd_sg (sg : Z) (f : fh_sg -> fh_sg) : mio unit := modify (fun g => set_sgs (alter f sg g.(sgs)) g).
Definition upd_conn (conn : Z) (f : fh_conn -> fh_conn) : mio unit := modify (fun g => set_conns (alter f conn g.(conns)) g).
Definition upd_flags (serv : Z) (f : Z -> Z) : mio unit := upd_serv serv (fun s => set_serv_flags (f s.(sv_flags)) s).

(** ** Service groups *)

Definition fh_mgmt_sg_stats_period (sg period : Z) : mio unit :=
  upd_sg sg (fun g => set_g_flags ((if 0 <? period then set_bits FH_MGMT_SG_STATS else clear_bits FH_MGMT_SG_STATS) g.(g_flags))
                        (set_g_stats period 0 g)).

Definition fh_mgmt_sg_restart_time (sg restart_time : Z) : mio unit :=
  g ← sg_at sg;
  let first := negb (has g.(g_flags) FH_MGMT_SG_RESTART) in
  let deadline := if first then 24 * 60 * 60 else g.(g_restart_deadline) in
  let flags := if first then set_bits FH_MGMT_SG_RESTART g.(g_flags) else g.(g_flags) in
  let time := if MAX_SECS_PER_DAY <? restart_time then MAX_SECS_PER_DAY else restart_time in
  now ← call seconds;
  let ticks := if now <=? time then u32 (deadline + now - time) else now - time in
  upd_sg sg (fun g => set_g_flags flags (set_g_restart time deadline ticks g)).

(** [fh_mgmt_sg_new]; [sg] is the block that [malloc] returns, or 0. *)
Definition fh_mgmt_sg_new (sg : Z) (name report_name : list Z) (restart_time stats_period : Z) (disable : bool) : mio Z :=
  if sg =? NULL then mret NULL
  else
    delay ← gets sg_spawn_delay;
    _ ← modify (fun g => set_sgs (<[sg := MkSg name report_name [] 0 (if disable then FH_MGMT_SG_DISABLED else FH_MGMT_SG_ENABLED) 0 0 0 0 0 0 0 rpt_zero]> g.(sgs)) g);
    _ ← (if 0 <? restart_time then fh_mgmt_sg_restart_time sg restart_time else mret tt);
    _ ← (if 0 <? stats_period then fh_mgmt_sg_stats_period sg stats_period else mret tt);
    _ ← upd_sg sg (fun g => set_g_flags (set_bits FH_MGMT_SG_STOPPED g.(g_flags))
           (MkSg g.(g_name) g.(g_report_name) g.(g_servs) g.(g_serv_count) g.(g_flags) g.(g_restart_time) g.(g_restart_deadline)
              g.(g_restart_ticks) g.(g_stats_period) g.(g_stats_ticks) delay g.(g_respawn_ticks) g.(g_rpt)));
    _ ← modify (fun g => set_sg_list (g.(sg_list) ++ [sg]) g);
    mret sg.

Definition fh_mgmt_sg_add_serv (sg serv : Z) : mio Z :=
  g ← sg_at sg;
  s ← serv_at serv;
  if negb (s.(sv_group) =? NULL) then mret FH_ERROR
  else
    _ ← must (guard (g.(g_serv_count) < 32));
    _ ← upd_serv serv (set_serv_group (u32 (Z.shiftl 1 g.(g_serv_count))) sg);
    _ ← (if has g.(g_flags) FH_MGMT_SG_DISABLED then
           if negb (has s.(sv_flags) FH_MGMT_SERV_DISABLED) then
             upd_flags serv (fun f => clear_bits FH_MGMT_SERV_STOPPED (clear_bits FH_MGMT_SERV_ENABLED (set_bits FH_MGMT_SERV_DISABLED f)))
           else mret tt
         else mret tt);
    _ ← upd_sg sg (fun g => set_g_servs (g.(g_servs) ++ [serv]) (g.(g_serv_count) + 1) g);
    mret FH_OK.

(** The first group with a name *)
Fixpoint sg_find (name : list Z) (l : list Z) : mio Z :=
  match l with
  | [] => mret NULL
  | sg :: l => g ← sg_at sg; if bool_decide (g.(g_name) = name) then mret sg else sg_find name l
  end.
Definition fh_mgmt_sg_lookup (name : list Z) : mio Z := l ← gets sg_list; sg_find name l.

(** ** Services *)

Definition wait : list Z := [119; 97; 105; 116].
Definition spawn : list Z := [115; 112; 97; 119; 110].
Definition respawn : list Z := [114; 101; 115; 112; 97; 119; 110].
(** [fh_mgmt_serv_new] *)
Definition fh_mgmt_serv_new (serv : Z) (name command : list Z) (args : option (list Z)) (disable stats shutdown : bool) (action : list Z) : mio Z :=
  let flags := (if disable then FH_MGMT_SERV_DISABLED else FH_MGMT_SERV_ENABLED) in
  let flags := set_bits FH_MGMT_SERV_STOPPED flags in
  let flags := if stats then set_bits FH_MGMT_SERV_STATS flags else flags in
  let flags := if shutdown then set_bits FH_MGMT_SERV_SHUTDOWN flags else flags in
  let make flags := _ ← modify (fun g => set_servs (<[serv := MkServ name command args NULL 0 flags NULL]> g.(servs)) g); mret serv in
  if serv =? NULL then mret NULL
  else if bool_decide (action = wait) then make (set_bits FH_MGMT_SERV_WAIT flags)
  else if bool_decide (action = spawn) then make (set_bits FH_MGMT_SERV_SPAWN flags)
  else if bool_decide (action = respawn) then make (set_bits FH_MGMT_SERV_RESPAWN flags)
  else mret NULL.

(** The first service with a name, in all groups *)
Fixpoint serv_find (name : list Z) (l : list Z) : mio Z :=
  match l with
  | [] => mret NULL
  | serv :: l => s ← serv_at serv; if bool_decide (s.(sv_name) = name) then mret serv else serv_find name l
  end.
Fixpoint serv_lookup (name : list Z) (l : list Z) : mio Z :=
  match l with
  | [] => mret NULL
  | sg :: l => g ← sg_at sg; serv ← serv_find name g.(g_servs); if serv =? NULL then serv_lookup name l else mret serv
  end.
Definition fh_mgmt_serv_lookup (name : list Z) : mio Z := l ← gets sg_list; serv_lookup name l.

(** *** Requests to a service *)

Definition serv_post (serv req_cmd : Z) (req_data : list Z) : mio Z :=
  s ← serv_at serv;
  _ ← conn_at s.(sv_conn);
  _ ← upd_conn s.(sv_conn) (fun c => set_conn_req_tid (u32 (c.(conn_req_tid) + 1)) c);
  c ← conn_at s.(sv_conn);
  lift (fh_adm_send adm_defs os malloc fuel nest c.(conn_fd) req_cmd c.(conn_req_tid) req_data).

(** The status, and what is in [resp_data] *)
Definition serv_reqresp (serv req_cmd : Z) (req_data : list Z) (resp_cmd : Z) (resp_data : list Z) (resp_len : Z) : mio (Z * list Z) :=
  s ← serv_at serv;
  _ ← conn_at s.(sv_conn);
  _ ← upd_conn s.(sv_conn) (fun c => set_conn_req_tid (u32 (c.(conn_req_tid) + 1)) c);
  c ← conn_at s.(sv_conn);
  rc ← lift (fh_adm_send adm_defs os malloc fuel nest c.(conn_fd) req_cmd c.(conn_req_tid) req_data);
  if negb (rc =? FH_OK) then mret (rc, resp_data)
  else lift (fh_adm_expect adm_defs os malloc fuel nest c.(conn_fd) resp_cmd c.(conn_req_tid) resp_data resp_len).

(** A request that is a name in 16 bytes, of which those behind the NUL do
    not matter *)
Definition name_req (name : list Z) : mio (list Z) := must (write_bytes (replicate 16 0) 0 (name ++ [0])).
Definition put (buf : list Z) (p : Z) (l : list Z) : mio (list Z) := must (write_bytes buf p l).

(** [serv_get_version], with [resp] the memory from the response on *)
Definition serv_get_version (serv : Z) (resp : list Z) : mio (Z * list Z) :=
  s ← serv_at serv;
  '(rc, resp) ← (if has s.(sv_flags) FH_MGMT_SERV_RUNNING then
      req ← name_req s.(sv_name);
      serv_reqresp serv FH_ADM_CMD_GETVER_REQ req FH_ADM_CMD_GETVER_RESP resp sizeof_getver_resp
    else
      resp ← put resp getver_service (s.(sv_name) ++ [0]);
      resp ← put resp 44 [0];
      resp ← put resp 20 [0];
      mret (FH_OK, resp));
  if negb (rc =? FH_OK) then mret (rc, resp)
  else resp ← put resp getver_state (le_bytes 4 s.(sv_flags)); mret (FH_OK, resp).

Definition serv_get_stats (serv : Z) (resp : list Z) : mio (Z * list Z) :=
  s ← serv_at serv;
  '(rc, resp) ← (if has s.(sv_flags) FH_MGMT_SERV_RUNNING then
      req ← name_req s.(sv_name);
      serv_reqresp serv FH_ADM_CMD_STATS_REQ req FH_ADM_CMD_STATS_RESP resp sizeof_stats_resp
    else
      resp ← put resp 0 (replicate (Z.to_nat sizeof_stats_resp) 0);
      resp ← put resp stats_service (s.(sv_name) ++ [0]);
      resp ← put resp stats_line_cnt (le_bytes 4 0);
      mret (FH_OK, resp));
  if negb (rc =? FH_OK) then mret (rc, resp)
  else resp ← put resp stats_state (le_bytes 4 s.(sv_flags)); mret (FH_OK, resp).

Definition serv_get_status (serv : Z) (resp : list Z) : mio (Z * list Z) :=
  s ← serv_at serv;
  resp ← put resp 0 (replicate (Z.to_nat sizeof_status_resp) 0);
  '(rc, resp) ← (if has s.(sv_flags) FH_MGMT_SERV_RUNNING && negb (has s.(sv_flags) FH_MGMT_SERV_STOPPING) then
      req ← name_req s.(sv_name);
      '(rc, resp) ← serv_reqresp serv FH_ADM_CMD_STATUS_REQ req FH_ADM_CMD_STATUS_RESP resp sizeof_status_resp;
      if negb (rc =? FH_OK) then mret (rc, resp) else resp ← call (serv_monitor resp); mret (FH_OK, resp)
    else resp ← put resp status_service (s.(sv_name) ++ [0]); mret (FH_OK, resp));
  if negb (rc =? FH_OK) then mret (rc, resp)
  else resp ← put resp status_state (le_bytes 4 s.(sv_flags)); mret (FH_OK, resp).

Definition serv_action (serv action_type : Z) : mio Z := serv_post serv FH_ADM_CMD_ACTION_REQ (le_bytes 4 action_type).

(** *** Control *)

Definition fh_mgmt_serv_start (serv : Z) : mio Z :=
  s ← serv_at serv;
  if has s.(sv_flags) FH_MGMT_SERV_DISABLED then mret FH_OK
  else if negb (has s.(sv_flags) (Z.lor FH_MGMT_SERV_STOPPED FH_MGMT_SERV_ADMIN_STOPPED)) then mret FH_OK
  else
    let full_command := s.(sv_command) ++ 32 :: default [] s.(sv_args) in
    _ ← must (guard (length full_command < 1024)%nat);
    '(status, errno, child_rc) ← call (system full_command);
    let status := if negb (status =? 0) && (errno =? ECHILD) then child_rc else status in
    if negb (status =? 0) then mret FH_ERROR
    else if has s.(sv_flags) FH_MGMT_SERV_WAIT then mret FH_OK
    else
      _ ← upd_flags serv (fun f => set_bits FH_MGMT_SERV_STARTED (clear_bits (Z.lor FH_MGMT_SERV_STOPPED FH_MGMT_SERV_ADMIN_STOPPED) f));
      mret FH_OK.

(** What [fh_mgmt_serv_stop] and [fh_mgmt_serv_admin_stop] do; they differ in
    the flag. *)
Definition stop_with (stopping serv : Z) : mio Z :=
  s ← serv_at serv;
  if has s.(sv_flags) (Z.lor FH_MGMT_SERV_STOPPED FH_MGMT_SERV_ADMIN_STOPPED) then mret FH_OK
  else if negb (has s.(sv_flags) FH_MGMT_SERV_RUNNING) then mret FH_OK
  else
    rc ← serv_action serv FH_MGMT_CL_CTRL_STOP;
    if negb (rc =? FH_OK) then mret rc
    else
      _ ← upd_flags serv (set_bits stopping);
      g ← sg_at s.(sv_group);
      _ ← upd_sg s.(sv_group) (set_g_stats g.(g_stats_period) g.(g_stats_period));
      mret FH_OK.
Definition fh_mgmt_serv_stop : Z -> mio Z := stop_with FH_MGMT_SERV_STOPPING.
Definition fh_mgmt_serv_admin_stop : Z -> mio Z := stop_with FH_MGMT_SERV_ADMIN_STOPPING.

Definition fh_mgmt_serv_restart (serv : Z) : mio Z :=
  s ← serv_at serv;
  if has s.(sv_flags) (Z.lor FH_MGMT_SERV_STOPPED FH_MGMT_SERV_ADMIN_STOPPED) then fh_mgmt_serv_start serv
  else
    rc ← fh_mgmt_serv_stop serv;
    if negb (rc =? FH_OK) then mret rc else _ ← upd_flags serv (set_bits FH_MGMT_SERV_RESTART); mret FH_OK.

Definition fh_mgmt_serv_clrstats (serv : Z) : mio Z :=
  s ← serv_at serv;
  if negb (has s.(sv_flags) FH_MGMT_SERV_RUNNING) then mret FH_OK
  else
    rc ← serv_action serv FH_MGMT_CL_CTRL_CLRSTATS;
    if negb (rc =? FH_OK) then mret rc else mret FH_OK.

Definition fh_mgmt_serv_disable (serv : Z) : mio Z :=
  s ← serv_at serv;
  g ← sg_at s.(sv_group);
  if has g.(g_flags) FH_MGMT_SG_DISABLED then
    _ ← must (guard (has s.(sv_flags) FH_MGMT_SERV_DISABLED = true)); mret FH_OK
  else if has s.(sv_flags) FH_MGMT_SERV_DISABLED then mret FH_OK
  else
    _ ← fh_mgmt_serv_stop serv;
    _ ← upd_flags serv (fun f => set_bits FH_MGMT_SERV_DISABLED (clear_bits FH_MGMT_SERV_ENABLED f));
    mret FH_OK.

Definition fh_mgmt_serv_enable (serv : Z) : mio Z :=
  s ← serv_at serv;
  g ← sg_at s.(sv_group);
  if has g.(g_flags) FH_MGMT_SG_DISABLED then mret FH_ERROR
  else if has s.(sv_flags) FH_MGMT_SERV_ENABLED then mret FH_OK
  else
    _ ← upd_flags serv (fun f => set_bits FH_MGMT_SERV_ENABLED (clear_bits FH_MGMT_SERV_DISABLED f));
    fh_mgmt_serv_start serv.

(** *** Connections of services *)

Definition fh_mgmt_serv_attach (serv conn : Z) : mio Z :=
  s ← serv_at serv;
  let started := has s.(sv_flags) FH_MGMT_SERV_STARTED in
  if negb started && negb (has s.(sv_flags) FH_MGMT_SERV_STOPPED) then mret FH_ERROR
  else
    _ ← (if started then mret tt
         else upd_flags serv (fun f => set_bits FH_MGMT_SERV_STARTED (clear_bits FH_MGMT_SERV_STOPPED f)));
    _ ← upd_flags serv (fun f => set_bits FH_MGMT_SERV_RUNNING (clear_bits FH_MGMT_SERV_STARTED f));
    _ ← upd_serv serv (set_serv_conn conn);
    _ ← conn_at conn;
    _ ← upd_conn conn (set_conn_serv serv);
    mret FH_OK.

Definition fh_mgmt_serv_detach (serv : Z) : mio Z :=
  s ← serv_at serv;
  if negb (has s.(sv_flags) FH_MGMT_SERV_RUNNING) then mret FH_ERROR
  else
    _ ← upd_flags serv (set_bits (if has s.(sv_flags) FH_MGMT_SERV_ADMIN_STOPPING then FH_MGMT_SERV_ADMIN_STOPPED else FH_MGMT_SERV_STOPPED));
    _ ← upd_flags serv (clear_bits (Z.lor FH_MGMT_SERV_RUNNING (Z.lor FH_MGMT_SERV_STOPPING FH_MGMT_SERV_ADMIN_STOPPING)));
    _ ← upd_serv serv (set_serv_conn NULL);
    _ ← conn_at s.(sv_conn);
    _ ← upd_conn s.(sv_conn) (set_conn_serv NULL);
    _ ← (if has s.(sv_flags) FH_MGMT_SERV_RESTART then
           _ ← upd_flags serv (clear_bits FH_MGMT_SERV_RESTART); rc ← fh_mgmt_serv_start serv; mret tt
         else mret tt);
    mret FH_OK.

(** ** Requests of clients *)

(** Adds to an integer of a struct. *)
Definition incr (n : nat) (off k : Z) (buf : list Z) : mio (list Z) :=
  x ← must (read_le buf off n); put buf off (le_bytes n (x + k)).

(** [serv_request] and its wrapper [fh_mgmt_serv_request]; [resp] is
    [serv_resp] with the space behind it, if there is one, and [ptr] the place
    in it. *)
Definition serv_answer (get : Z -> list Z -> mio (Z * list Z)) (serv : Z) (resp : option (list Z)) (ptr : Z) : mio (Z * option (list Z)) :=
  buf ← must resp;
  '(rc, rest) ← get serv (drop (Z.to_nat ptr) buf);
  let buf := take (Z.to_nat ptr) buf ++ rest in
  if rc =? FH_OK then buf ← incr 4 serv_resp_cnt 1 buf; mret (rc, Some buf) else mret (rc, Some buf).
Definition serv_request (serv cmd : Z) (resp : option (list Z)) (ptr : Z) : mio (Z * option (list Z)) :=
  let control (f : Z -> mio Z) := rc ← f serv; mret (rc, resp) in
  if cmd =? FH_ADM_CMD_GETVER_REQ then serv_answer serv_get_version serv resp ptr
  else if cmd =? FH_ADM_CMD_STATS_REQ then serv_answer serv_get_stats serv resp ptr
  else if cmd =? FH_ADM_CMD_STATUS_REQ then serv_answer serv_get_status serv resp ptr
  else if cmd =? FH_MGMT_CL_CTRL_ENABLE then control fh_mgmt_serv_enable
  else if cmd =? FH_MGMT_CL_CTRL_DISABLE then control fh_mgmt_serv_disable
  else if cmd =? FH_MGMT_CL_CTRL_START then control fh_mgmt_serv_start
  else if cmd =? FH_MGMT_CL_CTRL_STOP then control fh_mgmt_serv_admin_stop
  else if cmd =? FH_MGMT_CL_CTRL_RESTART then control fh_mgmt_serv_restart
  else if cmd =? FH_MGMT_CL_CTRL_CLRSTATS then control fh_mgmt_serv_clrstats
  else mret (FH_ERROR, resp).

(** [sg_request]: the status, the response and [*ptr] *)
Fixpoint sg_request_loop (l : list Z) (cmd : Z) (resp : option (list Z)) (tmp_ptr ptr : Z) : mio (Z * option (list Z) * Z) :=
  match l with
  | [] => mret (FH_OK, resp, tmp_ptr)
  | serv :: l =>
      s ← serv_at serv;
      if has s.(sv_flags) FH_MGMT_SERV_CLI then
        '(rc, resp) ← serv_request serv cmd resp tmp_ptr;
        if negb (rc =? FH_OK) then mret (rc, resp, ptr)
        else
          match resp with
          | None => sg_request_loop l cmd resp tmp_ptr ptr
          | Some buf =>
              cnt ← must (read_le buf serv_resp_cnt 4);
              size ← must (read_le buf serv_resp_size 4);
              if cnt =? FH_MGMT_MAX_SERVICES then mret (FH_ERROR, resp, ptr)
              else sg_request_loop l cmd resp (tmp_ptr + size) ptr
          end
      else sg_request_loop l cmd resp tmp_ptr ptr
  end.
Definition sg_request (sg cmd : Z) (resp : option (list Z)) (ptr : Z) : mio (Z * option (list Z) * Z) :=
  g ← sg_at sg; sg_request_loop g.(g_servs) cmd resp ptr ptr.

Fixpoint request_all (l : list Z) (cmd : Z) (resp : option (list Z)) (ptr : Z) : mio (Z * option (list Z)) :=
  match l with
  | [] => mret (FH_OK, resp)
  | sg :: l =>
      '(rc, resp, ptr) ← sg_request sg cmd resp ptr;
      if negb (rc =? FH_OK) then mret (rc, resp) else request_all l cmd resp ptr
  end.
Definition fh_mgmt_serv_request_all (cmd : Z) (resp : option (list Z)) (ptr : Z) : mio (Z * option (list Z)) :=
  l ← gets sg_list; request_all l cmd resp ptr.

(** [fh_mgmt_serv_process]: no command is expected from a service. *)
Definition fh_mgmt_serv_process (serv : Z) : mio Z :=
  s ← serv_at serv;
  c ← conn_at s.(sv_conn);
  if c.(conn_serv) =? NULL then mret FH_ERROR
  else '(rc, _) ← lift (fh_adm_recv os malloc fuel c.(conn_fd)); if negb (rc =? FH_OK) then mret rc else mret FH_ERROR.

(** ** Groups as a whole *)

Fixpoint each (f : Z -> mio unit) (l : list Z) : mio unit :=
  match l with [] => mret tt | a :: l => _ ← f a; each f l end.
Definition ignore {A} (m : mio A) : mio unit := _ ← m; mret tt.

Definition sg_stop (sg : Z) : mio unit := g ← sg_at sg; each (fun serv => ignore (fh_mgmt_serv_stop serv)) g.(g_servs).
Definition sg_restart (sg : Z) : mio unit := g ← sg_at sg; each (fun serv => ignore (fh_mgmt_serv_restart serv)) g.(g_servs).

(** [fh_mgmt_serv_sigterm], after which the process exits *)
Definition fh_mgmt_serv_sigterm : mio unit :=
  l ← gets sg_list;
  each (fun sg => g ← sg_at sg;
    each (fun serv => s ← serv_at serv;
      if has s.(sv_flags) FH_MGMT_SERV_SHUTDOWN && has s.(sv_flags) FH_MGMT_SERV_RUNNING && negb (s.(sv_conn) =? NULL)
      then ignore (fh_mgmt_serv_stop serv) else mret tt) g.(g_servs)) l.

(** [fh_mgmt_sgt_resp]: the response, if there is memory for it *)
Fixpoint sgt_servs (l : list Z) (buf : list Z) (sg_resp ptr : Z) : mio (list Z * Z) :=
  match l with
  | [] => mret (buf, ptr)
  | serv :: l =>
      s ← serv_at serv;
      if has s.(sv_flags) FH_MGMT_SERV_CLI then
        buf ← put buf ptr (s.(sv_name) ++ [0]);
        buf ← incr 4 (sg_resp + sg_serv_count) 1 buf;
        buf ← incr 4 (sg_resp + sg_serv_size) sizeof_sg_serv_resp buf;
        buf ← incr 2 sgt_size sizeof_sg_serv_resp buf;
        sgt_servs l buf sg_resp (ptr + sizeof_sg_serv_resp)
      else sgt_servs l buf sg_resp ptr
  end.
Fixpoint sgt_groups (l : list Z) (buf : list Z) (ptr : Z) : mio (list Z) :=
  match l with
  | [] => mret buf
  | sg :: l =>
      g ← sg_at sg;
      buf ← incr 2 sgt_count 1 buf;
      buf ← incr 2 sgt_size sizeof_sg_resp buf;
      buf ← put buf (ptr + sg_name) (g.(g_name) ++ [0]);
      buf ← put buf (ptr + sg_serv_count) (le_bytes 4 0);
      buf ← put buf (ptr + sg_serv_size) (le_bytes 4 0);
      '(buf, ptr') ← sgt_servs g.(g_servs) buf ptr (ptr + sizeof_sg_resp);
      sgt_groups l buf ptr'
  end.
Fixpoint sgt_length (l : list Z) : mio Z :=
  match l with
  | [] => mret 0
  | sg :: l => g ← sg_at sg; n ← sgt_length l; mret (sizeof_sg_resp + g.(g_serv_count) * sizeof_sg_serv_resp + n)
  end.
Definition fh_mgmt_sgt_resp : mio (option (list Z)) :=
  l ← gets sg_list;
  resp_size ← sgt_length l;
  match malloc (resp_size + sizeof_sgt_resp) with
  | None => mret None
  | Some buf =>
      buf ← put buf sgt_size (le_bytes 2 0);
      buf ← put buf sgt_count (le_bytes 2 0);
      buf ← sgt_groups l buf sizeof_sgt_resp;
      mret (Some buf)
  end.

(** ** Reports and timers *)

Definition fh_mgmt_sg_rpt_save (sg : Z) (r : sg_rpt) : mio unit := upd_sg sg (set_g_rpt r).
Definition fh_mgmt_sg_rpt_snapshot (sg : Z) : mio sg_rpt := g ← sg_at sg; mret g.(g_rpt).
Definition fh_mgmt_sg_rpt_reset (sg : Z) : mio unit := upd_sg sg (set_g_rpt rpt_zero).

(** The lines of one service, the [i]th and the [n - 1] behind it, added to
    the totals *)
Fixpoint add_lines (n : nat) (i : Z) (stats_resp : list Z) (r : sg_rpt) : option sg_rpt :=
  match n with
  | 0%nat => Some r
  | S n =>
      let field off := read_le stats_resp (stats_lines + i * sizeof_line_stats + off) 8 in
      errs ← field line_pkt_errs; rx ← field line_pkt_rx; dups ← field line_pkt_dups; msgs ← field line_msg_rx; bytes ← field line_bytes;
      add_lines n (i + 1) stats_resp
        (MkRpt r.(sg_rpt_name) (u32 (r.(sg_rpt_line_count) + 1)) r.(sg_rpt_lines) (u64 (r.(total_pkt_errs) + errs)) (u64 (r.(total_pkt_rx) + rx))
           (u64 (r.(total_pkt_dups) + dups)) (u64 (r.(total_msg_rx) + msgs)) (u64 (r.(total_bytes) + bytes)))
  end.

(** The loop of [sg_stats_report]; too many lines end the process. *)
Fixpoint stats_report_loop (l : list Z) (stats_resp : list Z) (r : sg_rpt) : mio sg_rpt :=
  match l with
  | [] => mret r
  | serv :: l =>
      s ← serv_at serv;
      if negb (has s.(sv_flags) FH_MGMT_SERV_RUNNING) || has s.(sv_flags) FH_MGMT_SERV_STOPPING then stats_report_loop l stats_resp r
      else
        '(rc, stats_resp) ← serv_get_stats serv stats_resp;
        if negb (rc =? FH_OK) then stats_report_loop l stats_resp r
        else
          cnt ← must (read_le stats_resp stats_line_cnt 4);
          _ ← must (guard (u32 (r.(sg_rpt_line_count) + cnt) <= SG_MAX_LINES));
          bytes ← must (read_bytes stats_resp stats_lines (Z.to_nat (cnt * sizeof_line_stats)));
          lines ← put r.(sg_rpt_lines) (r.(sg_rpt_line_count) * sizeof_line_stats) bytes;
          r ← must (add_lines (Z.to_nat cnt) 0 stats_resp
                (MkRpt r.(sg_rpt_name) r.(sg_rpt_line_count) lines r.(total_pkt_errs) r.(total_pkt_rx) r.(total_pkt_dups) r.(total_msg_rx) r.(total_bytes)));
          stats_report_loop l stats_resp r
  end.
Definition sg_stats_report (sg : Z) : mio unit :=
  g ← sg_at sg;
  _ ← must (guard (length g.(g_report_name) < 16)%nat);
  r ← stats_report_loop g.(g_servs) stack (MkRpt g.(g_report_name) 0 (replicate (Z.to_nat (SG_MAX_LINES * sizeof_line_stats)) 0) 0 0 0 0 0);
  _ ← fh_mgmt_sg_rpt_save sg r;
  call (mgmt_stats_report r).

(** [sg_serv_monitor] *)
Definition sg_serv_monitor (sg : Z) : mio unit :=
  g ← sg_at sg;
  if g.(g_respawn_period) <=? g.(g_respawn_ticks) then
    _ ← each (fun serv => s ← serv_at serv;
           if has s.(sv_flags) FH_MGMT_SERV_RESPAWN && has s.(sv_flags) FH_MGMT_SERV_STOPPED then ignore (fh_mgmt_serv_start serv) else mret tt) g.(g_servs);
    upd_sg sg (set_g_respawn 0)
  else upd_sg sg (set_g_respawn (u32 (g.(g_respawn_ticks) + 1))).

(** One second of a group *)
Definition sg_timer (sg : Z) : mio unit :=
  g ← sg_at sg;
  _ ← (if has g.(g_flags) FH_MGMT_SG_ENABLED then sg_serv_monitor sg else mret tt);
  _ ← (if has g.(g_flags) FH_MGMT_SG_STATS then
         g ← sg_at sg;
         let ticks := u32 (g.(g_stats_ticks) + 1) in
         _ ← upd_sg sg (fun g => set_g_stats g.(g_stats_period) ticks g);
         if g.(g_stats_period) <=? ticks then
           _ ← sg_stats_report sg; upd_sg sg (fun g => set_g_stats g.(g_stats_period) 0 g)
         else mret tt
       else mret tt);
  if has g.(g_flags) FH_MGMT_SG_RESTART then
    g ← sg_at sg;
    let ticks := u32 (g.(g_restart_ticks) + 1) in
    _ ← upd_sg sg (fun g => set_g_restart g.(g_restart_time) g.(g_restart_deadline) ticks g);
    if ticks =? g.(g_restart_deadline) then
      _ ← sg_restart sg; upd_sg sg (fun g => set_g_restart g.(g_restart_time) g.(g_restart_deadline) 0 g)
    else mret tt
  else mret tt.
(** [fh_mgmt_sg_timers], called every second *)
Definition fh_mgmt_sg_timers : mio unit := l ← gets sg_timers; each sg_timer l.

(** [fh_mgmt_serv_post_init] *)
Definition fh_mgmt_serv_post_init : mio unit :=
  l ← gets sg_list;
  each (fun sg => g ← sg_at sg;
    if has g.(g_flags) FH_MGMT_SG_ENABLED && has g.(g_flags) (Z.lor FH_MGMT_SG_STATS FH_MGMT_SG_RESTART)
    then modify (fun m => set_sg_timers (m.(sg_timers) ++ [sg]) m) else mret tt) l.

(** [fh_mgmt_serv_init] *)
Definition fh_mgmt_serv_init (spawn_delay : Z) : mio unit :=
  modify (fun m => MkMgr m.(servs) m.(sgs) m.(conns) [] [] spawn_delay m.(conn_list) m.(next_conn_id) m.(rfds) m.(fdmax)).
End manager.
