(* ===== verification/Manager.v ===== *)
(** * The manager ([src/mgmt/fhmgr/fh_mgmt_conn.c], [fh_mgmt_cli.c],
      [fh_mgmt_cfg.c], [fhmgr.c])

    Connections of services and of the command line, their requests, and the
    loop that serves them; the configuration of services and groups, and the
    start. *)
From S2P Require Import Prelude Bytes Mpool Config Sock Admin Service.

Definition FH_MGMT_CONN_SERVER : Z := 1.
Definition FH_MGMT_CONN_CLIENT : Z := 2.
Definition FH_MGMT_CL_CLI : Z := 1.
Definition FH_MGMT_CL_SERVICE : Z := 2.
Definition FH_MGR_PORT : Z := 40000.

Section connections.
Context {O : Type} (os : syscall -> O -> sysret * O) (malloc : Z -> option (list Z)) (adm_defs : list fh_adm_def).
Context (fuel nest : nat).
Context (system : list Z -> O -> (Z * Z * Z) * O) (seconds : O -> Z * O) (serv_monitor : list Z -> O -> list Z * O).
Context (stack : list Z) (mgmt_stats_report : sg_rpt -> O -> unit * O).
(** [BUILD_DATE] and [BUILD_REV], of a file that the build makes *)
Context (build_date build_rev : list Z).
(** [select] on the sets of connections, with the time it may take: its result,
    the set that is ready, and the time left; the time of day *)
Context (select : gset Z -> Z -> O -> (Z * gset Z * Z) * O) (now : O -> Z * O).
Notation mio := (mio (O := O)).
Notation send fd type tid msg := (lift (fh_adm_send adm_defs os malloc fuel nest fd type tid msg)).

(** ** Connections *)

Definition fh_mgmt_conn_init : mio unit := modify (fun m => set_rfds ∅ m.(fdmax) (set_conn_list [] m)).

(** [fh_mgmt_conn_new]; [conn] is the block that [malloc] returns, or 0. An
    [fd_set] has 1024 places. *)
Definition fh_mgmt_conn_new (conn type fd addr port : Z) : mio Z :=
  if conn =? NULL then mret FH_ERROR
  else
    _ ← modify (fun m => set_next_conn_id (u32 (m.(next_conn_id) + 1))
          (set_conns (<[conn := MkConn fd type 0 m.(next_conn_id) addr (u16 port) 0 0 NULL]> m.(conns)) m));
    _ ← must (guard (0 <= fd < 1024));
    _ ← modify (fun m => set_rfds ({[fd]} ∪ m.(rfds)) (Z.max fd m.(fdmax)) m);
    _ ← modify (fun m => set_conn_list (m.(conn_list) ++ [conn]) m);
    mret FH_OK.

(** The largest descriptor of a list of connections *)
Fixpoint max_fd (l : list Z) (fdmax : Z) : mio Z :=
  match l with
  | [] => mret fdmax
  | conn :: l => c ← conn_at conn; max_fd l (if fdmax <? c.(conn_fd) then c.(conn_fd) else fdmax)
  end.

Definition conn_free (conn : Z) : mio unit :=
  c ← conn_at conn;
  _ ← (if negb (c.(conn_serv) =? NULL) then
         rc ← fh_mgmt_serv_detach system c.(conn_serv); _ ← must (guard (rc = FH_OK)); mret tt
       else mret tt);
  _ ← modify (fun m => set_conn_list (filter (fun d => d <> conn) m.(conn_list)) m);
  _ ← lift (sys os (SysClose c.(conn_fd)));
  _ ← modify (fun m => set_rfds (m.(rfds) ∖ {[c.(conn_fd)]}) m.(fdmax) m);
  _ ← modify (fun m => set_conns (delete conn m.(conns)) m);
  l ← gets conn_list;
  fd ← max_fd l 0;
  modify (fun m => set_rfds m.(rfds) fd m).

(** [conn_server_process]; [block] is what [malloc] returns. *)
Definition conn_server_process (block conn : Z) : mio Z :=
  c ← conn_at conn;
  '(rc, peer) ← lift (fh_tcp_accept os c.(conn_fd));
  match peer with
  | Some (addr, port, fd) =>
      rc ← fh_mgmt_conn_new block FH_MGMT_CONN_CLIENT fd addr port;
      if negb (rc =? FH_OK) then _ ← lift (sys os (SysClose fd)); mret FH_ERROR else mret FH_OK
  | None => mret FH_ERROR
  end.

(** [conn_client_registration] *)
Definition conn_client_registration (conn : Z) (data : list Z) : mio Z :=
  '(rc, req) ← must (fh_adm_parse adm_defs nest FH_ADM_CMD_REG_REQ data (take (Z.to_nat sizeof_reg_req) stack));
  if negb (rc =? FH_OK) then mret rc
  else
    type ← must (read_le req reg_type 2);
    pid ← must (read_le req reg_pid 4);
    name ← must (c_string (drop (Z.to_nat reg_srv) req));
    _ ← upd_conn conn (set_conn_client type pid);
    rc ← (if type =? FH_MGMT_CL_SERVICE then
            serv ← fh_mgmt_serv_lookup name;
            if serv =? NULL then mret FH_ERR_NOTFOUND
            else
              rc ← fh_mgmt_serv_attach serv conn;
              if negb (rc =? FH_OK) then mret rc
              else
                s ← serv_at serv;
                _ ← sg_at s.(sv_group);
                _ ← upd_sg s.(sv_group) (fun g => set_g_stats g.(g_stats_period) g.(g_stats_period) g);
                mret FH_OK
          else mret FH_OK);
    if negb (rc =? FH_OK) then mret rc
    else
      c ← conn_at conn;
      tid ← must (read_le data cmd_tid 4);
      send c.(conn_fd) FH_ADM_CMD_REG_RESP tid (le_bytes 4 c.(conn_id)).

(** [conn_client_process] *)
Definition conn_client_process (conn : Z) : mio Z :=
  c ← conn_at conn;
  '(rc, data) ← lift (fh_adm_recv os malloc fuel c.(conn_fd));
  match data with
  | None => mret rc
  | Some data =>
      type ← must (read_le data cmd_type 4);
      if type =? FH_ADM_CMD_REG_REQ then conn_client_registration conn data else mret FH_ERROR
  end.

(** ** The command line *)

Definition fh_manager : list Z := [70; 72; 32; 77; 97; 110; 97; 103; 101; 114].
Definition cli_get_version (conn : Z) (data : list Z) : mio Z :=
  c ← conn_at conn;
  '(rc, _) ← must (fh_adm_parse adm_defs nest FH_ADM_CMD_GETVER_REQ data (take 16 stack));
  if negb (rc =? FH_OK) then mret rc
  else
    resp ← put (take (Z.to_nat sizeof_getver_resp) stack) getver_service (fh_manager ++ [0]);
    resp ← put resp 20 (build_date ++ [0]);
    resp ← put resp 44 (build_rev ++ [0]);
    tid ← must (read_le data cmd_tid 4);
    send c.(conn_fd) FH_ADM_CMD_GETVER_RESP tid resp.

Definition cli_sgt_request (conn : Z) (data : list Z) : mio Z :=
  c ← conn_at conn;
  '(rc, _) ← must (fh_adm_parse adm_defs nest FH_ADM_CMD_SGT_REQ data (take 4 stack));
  if negb (rc =? FH_OK) then mret rc
  else
    resp ← fh_mgmt_sgt_resp malloc;
    match resp with
    | None => mret FH_ERROR
    | Some resp => tid ← must (read_le data cmd_tid 4); send c.(conn_fd) FH_ADM_CMD_SGT_RESP tid resp
    end.

(** What a request is answered with: the type and size of the responses *)
Definition response_of (cmd : Z) : option (Z * Z) :=
  if cmd =? FH_ADM_CMD_STATUS_REQ then Some (FH_ADM_CMD_STATUS_RESP, sizeof_status_resp)
  else if cmd =? FH_ADM_CMD_STATS_REQ then Some (FH_ADM_CMD_STATS_RESP, sizeof_stats_resp)
  else if cmd =? FH_ADM_CMD_GETVER_REQ then Some (FH_ADM_CMD_GETVER_RESP, sizeof_getver_resp)
  else if (cmd =? FH_MGMT_CL_CTRL_ENABLE) || (cmd =? FH_MGMT_CL_CTRL_DISABLE) || (cmd =? FH_MGMT_CL_CTRL_START)
       || (cmd =? FH_MGMT_CL_CTRL_STOP) || (cmd =? FH_MGMT_CL_CTRL_RESTART) || (cmd =? FH_MGMT_CL_CTRL_CLRSTATS) then Some (0, 0)
  else None.

(** A request [cmd] for the service, the group or all of a name *)
Definition all : list Z := [97; 108; 108].
Definition dispatch (name : list Z) (cmd : Z) (resp : option (list Z)) : mio (Z * option (list Z)) :=
  if bool_decide (name = all) then fh_mgmt_serv_request_all os malloc adm_defs fuel nest system serv_monitor cmd resp sizeof_serv_resp
  else
    sg ← fh_mgmt_sg_lookup name;
    if negb (sg =? NULL) then
      '(rc, resp, _) ← sg_request os malloc adm_defs fuel nest system serv_monitor sg cmd resp sizeof_serv_resp; mret (rc, resp)
    else
      serv ← fh_mgmt_serv_lookup name;
      if negb (serv =? NULL) then serv_request os malloc adm_defs fuel nest system serv_monitor serv cmd resp sizeof_serv_resp
      else mret (FH_OK, resp).

(** [cli_serv_request] *)
Definition cli_serv_request (conn : Z) (data : list Z) : mio Z :=
  c ← conn_at conn;
  '(rc, req) ← must (fh_adm_parse adm_defs nest FH_ADM_CMD_SERV_REQ data (take 20 stack));
  if negb (rc =? FH_OK) then mret rc
  else
    name ← must (c_string req);
    cmd ← must (read_le req Admin.serv_cmd 4);
    match response_of cmd with
    | None => mret FH_ERROR
    | Some (resp_cmd, resp_size) =>
        if 0 <? resp_size then
          buf ← must (malloc (u32 (sizeof_serv_resp + FH_MGMT_MAX_SERVICES * resp_size)));
          buf ← put buf 0 (name ++ [0]);
          buf ← put buf serv_resp_cnt (le_bytes 4 0);
          buf ← put buf serv_resp_size (le_bytes 4 resp_size);
          buf ← put buf serv_resp_cmd (le_bytes 4 resp_cmd);
          '(_, resp) ← dispatch name cmd (Some buf);
          buf ← must resp;
          tid ← must (read_le data cmd_tid 4);
          send c.(conn_fd) FH_ADM_CMD_SERV_RESP tid buf
        else '(rc, _) ← dispatch name cmd None; mret rc
    end.

(** [fh_mgmt_cli_process] *)
Definition fh_mgmt_cli_process (conn : Z) : mio Z :=
  c ← conn_at conn;
  '(rc, data) ← lift (fh_adm_recv os malloc fuel c.(conn_fd));
  match data with
  | None => mret rc
  | Some data =>
      type ← must (read_le data cmd_type 4);
      if type =? FH_ADM_CMD_GETVER_REQ then _ ← cli_get_version conn data; mret FH_OK
      else if type =? FH_ADM_CMD_SERV_REQ then _ ← cli_serv_request conn data; mret FH_OK
      else if type =? FH_ADM_CMD_SGT_REQ then _ ← cli_sgt_request conn data; mret FH_OK
      else mret FH_ERROR
  end.

(** ** The loop *)

Definition conn_process (block conn : Z) : mio Z :=
  c ← conn_at conn;
  if c.(conn_type) =? FH_MGMT_CONN_SERVER then conn_server_process block conn
  else if c.(conn_type) =? FH_MGMT_CONN_CLIENT then
    if c.(conn_cltype) =? FH_MGMT_CL_CLI then fh_mgmt_cli_process conn
    else if c.(conn_cltype) =? FH_MGMT_CL_SERVICE then fh_mgmt_serv_process os malloc fuel c.(conn_serv)
    else conn_client_process conn
  else mret FH_ERROR.

(** The connections that are ready, in the order of the list; [blocks] is what
    [malloc] returns for new ones.  A connection that is accepted meanwhile
    comes behind those of the list, where it is not ready. *)
Fixpoint serve (blocks : Z -> Z) (ready : gset Z) (l : list Z) (nfd : Z) : mio unit :=
  match l with
  | [] => mret tt
  | conn :: l =>
      if 0 <? nfd then
        c ← conn_at conn;
        if bool_decide (c.(conn_fd) ∈ ready) then
          rc ← conn_process (blocks conn) conn;
          _ ← (if negb (rc =? FH_OK) then conn_free conn else mret tt);
          serve blocks ready l (nfd - 1)
        else serve blocks ready l nfd
      else mret tt
  end.

(** [fh_mgmt_conn_loop]; the fuel bounds the passes. *)
Fixpoint fh_mgmt_conn_loop (passes : nat) (blocks : Z -> Z) (usecs : Z) : mio unit :=
  match passes with
  | 0%nat => fun _ => None
  | S passes =>
      set ← gets rfds;
      '(nfd, ready, rest) ← call (select set usecs);
      if nfd =? -1 then fh_mgmt_conn_loop passes blocks rest
      else if nfd =? 0 then mret tt
      else
        ts1 ← call now;
        l ← gets conn_list;
        _ ← serve blocks ready l nfd;
        ts2 ← call now;
        let elapsed := u64 (ts2 - ts1) in
        if rest <? elapsed then mret tt else fh_mgmt_conn_loop passes blocks (rest - elapsed)
  end.

(** One turn of the loop of [fh_mgr_run]: a second of connections, then the
    timers *)
Definition mgr_turn (passes : nat) (blocks : Z -> Z) : mio unit :=
  _ ← fh_mgmt_conn_loop passes blocks 1000000;
  fh_mgmt_sg_timers os malloc adm_defs fuel nest system stack mgmt_stats_report.
End connections.

(** ** The configuration and the start *)

(** [strtol] of the C library with base 0, as [Config.strtoul] *)
Definition LONG_MAX : Z := 2 ^ 63 - 1.
Definition strtol (s : list Z) : Z * list Z :=
  let '(negative, s1) := number_sign (skip_space s) in
  let '(base, s2) := number_base s1 in
  match digit_value base (char_at s2 0) with
  | None => (0, s)
  | Some _ =>
      let '(v, last) := digits_value base 0 s2 in
      (if negative then Z.max (- v) (- LONG_MAX - 1) else Z.min v LONG_MAX, last)
  end.

(** [fh_mgmt_cfg_yesno] *)
Definition fh_mgmt_cfg_yesno (strval : option (list Z)) : Z :=
  match strval with
  | Some s => if bool_decide (s = c_str "yes") then 1 else if bool_decide (s = c_str "no") then 0 else -1
  | None => -1
  end.
(** What is taken when there is neither. *)
Definition yesno_or (dflt : Z) (node : cfg_node) (name : list Z) : option bool :=
  strval ← fh_cfg_get_string (Some node) name;
  let v := fh_mgmt_cfg_yesno strval in
  Some (negb ((if v =? -1 then dflt else v) =? 0)).
(** A number of seconds, which must be there *)
Definition seconds_of (node : cfg_node) (name : list Z) : option (option Z) :=
  strval ← fh_cfg_get_string (Some node) name;
  match strval with
  | None => Some None
  | Some s => let '(v, endptr) := strtol s in Some (if (char_at s 0 =? 0) || negb (char_at endptr 0 =? 0) then None else Some (u32 v))
  end.
Definition seconds_if (on : bool) (node : cfg_node) (name : list Z) : option (option Z) :=
  if on then seconds_of node name else Some (Some 0).

Section cfg.
Context {O : Type} (os : syscall -> O -> sysret * O) (seconds : O -> Z * O).
(** The blocks that [malloc] returns for the group [i], its service [j], and
    the connection that listens *)
Context (sg_block : nat -> Z) (serv_block : nat -> nat -> Z) (conn_block : Z).
Notation mio := (mio).

Definition cfg_sg_load (sg : Z) (group : cfg_node) : mio Z :=
  report_name ← must (fh_cfg_get_string (Some group) (c_str "report_name"));
  match report_name with
  | None => mret NULL
  | Some report_name =>
      disable ← must (yesno_or 1 group (c_str "disable"));
      stats ← must (yesno_or 0 group (c_str "stats"));
      stats_interval ← must (seconds_if stats group (c_str "stats_interval"));
      match stats_interval with
      | None => mret NULL
      | Some stats_interval =>
          restart ← must (yesno_or 0 group (c_str "restart"));
          restart_time ← must (seconds_if restart group (c_str "restart_time"));
          match restart_time with
          | None => mret NULL
          | Some restart_time => fh_mgmt_sg_new seconds sg (cfg_name group) report_name restart_time stats_interval disable
          end
      end
  end.

Definition cfg_serv_load (serv : Z) (serv_node : cfg_node) : mio Z :=
  disable ← must (yesno_or 1 serv_node (c_str "disable"));
  cli ← must (yesno_or 0 serv_node (c_str "cli"));
  stats ← must (yesno_or 0 serv_node (c_str "stats"));
  shutdown ← must (yesno_or 0 serv_node (c_str "shutdown"));
  action ← must (fh_cfg_get_string (Some serv_node) (c_str "action"));
  match action with
  | None => mret NULL
  | Some action =>
      command ← must (fh_cfg_get_string (Some serv_node) (c_str "command"));
      match command with
      | None => mret NULL
      | Some command =>
          args ← must (fh_cfg_get_string (Some serv_node) (c_str "args"));
          serv ← fh_mgmt_serv_new (O := O) serv (cfg_name serv_node) command args disable stats shutdown action;
          if serv =? NULL then mret NULL
          else
            _ ← (if (cli : bool) then upd_flags (O := O) serv (set_bits FH_MGMT_SERV_CLI) else mret tt);
            mret serv
      end
  end.

(** The services of a group, from the [j]th: what [rc] is then, or [None]
    when the loader gives up *)
Fixpoint load_services (i : nat) (sg : Z) (j : nat) (services : list cfg_node) (rc : Z) : mio (option Z) :=
  match services with
  | [] => mret (Some rc)
  | serv_node :: services =>
      serv ← cfg_serv_load (serv_block i j) serv_node;
      if serv =? NULL then mret None
      else
        rc ← fh_mgmt_sg_add_serv sg serv;
        if negb (rc =? FH_OK) then mret None else load_services i sg (S j) services rc
  end.

(** The groups from the [i]th *)
Fixpoint load_groups (i : nat) (groups : list cfg_node) (rc : Z) : mio Z :=
  match groups with
  | [] => mret FH_OK
  | group :: groups =>
      sg ← cfg_sg_load (sg_block i) group;
      if sg =? NULL then mret rc
      else
        services ← must (fh_cfg_get_node (Some group) (c_str "services"));
        match services with
        | None => load_groups (S i) groups rc
        | Some services =>
            done ← load_services i sg 0 (cfg_children services) rc;
            match done with None => mret FH_ERROR | Some rc => load_groups (S i) groups rc end
        end
  end.

Definition fh_mgmt_cfg_load (config : cfg_node) : mio Z :=
  spawn_delay ← must (seconds_of config (c_str "fhmgr.spawn_delay"));
  _ ← fh_mgmt_serv_init (default 0 spawn_delay);
  node ← must (fh_cfg_get_node (Some config) (c_str "fhmgr.service_groups"));
  match node with
  | None => mret FH_ERROR
  | Some node => load_groups 0 (cfg_children node) FH_ERROR
  end.

(** [main] from the configuration to the thread, without plugins *)
Definition mgr_load (config : cfg_node) : mio Z :=
  rc ← fh_mgmt_cfg_load config;
  if negb (rc =? FH_OK) then mret 1 else _ ← fh_mgmt_serv_post_init; mret FH_OK.

(** [fh_mgr_run] up to its loop; not [FH_OK] where it ends *)
Definition mgr_listen : mio Z :=
  _ ← fh_mgmt_conn_init;
  '(rc, _) ← must fh_adm_init;
  if negb (rc =? FH_OK) then mret 1
  else
    '(rc, srv_fd) ← lift (fh_tcp_server os 0 FH_MGR_PORT);
    match srv_fd with
    | None => mret 1
    | Some srv_fd => fh_mgmt_conn_new conn_block FH_MGMT_CONN_SERVER srv_fd 0 FH_MGR_PORT
    end.
Definition mgr_start (config : cfg_node) : mio Z :=
  rc ← mgr_load config; if negb (rc =? FH_OK) then mret 1 else mgr_listen.
End cfg.
