(* ===== verification/ServiceProps.v ===== *)
(** * The services of the manager: the invariant of its memory

    Flags as sets of bits, the states of a service, and rules for the
    computations of [Service] that keep the pointers between services, groups
    and connections in order. *)
From S2P Require Import Prelude Bytes Mpool Sock Admin AdminWire AdminTheorems Service Manager.

(** ** Flags *)

Definition is_bit (c : Z) : bool := (0 <? c) && (c =? 2 ^ Z.log2 c).

Lemma has_set b f c : has (set_bits b f) c = has f c || has b c.
Proof.
  unfold has, set_bits. rewrite Z.land_lor_distr_l.
  destruct (Z.eqb_spec (Z.land f c) 0) as [E|E], (Z.eqb_spec (Z.land b c) 0) as [E'|E']; cbn [negb orb].
  - by rewrite E, E'.
  - apply negb_true_iff, Z.eqb_neq. intros H%Z.lor_eq_0_iff. tauto.
  - apply negb_true_iff, Z.eqb_neq. intros H%Z.lor_eq_0_iff. tauto.
  - apply negb_true_iff, Z.eqb_neq. intros H%Z.lor_eq_0_iff. tauto.
Qed.
Lemma has_or f c d : has f (Z.lor c d) = has f c || has f d.
Proof. unfold has at 1. rewrite Z.land_comm. fold (has (Z.lor c d) f). change (Z.lor c d) with (set_bits d c). rewrite has_set. unfold has. by rewrite (Z.land_comm c), (Z.land_comm d). Qed.
Lemma has_bit f c : is_bit c = true -> has f c = Z.testbit f (Z.log2 c).
Proof.
  unfold is_bit. intros [H1 H2]%andb_true_iff. bool_to_prop. pose proof (Z.log2_nonneg c) as H0. set (k := Z.log2 c) in *. rewrite H2.
  unfold has. destruct (Z.testbit f k) eqn:E.
  - apply negb_true_iff, Z.eqb_neq. intros H. apply (f_equal (fun z => Z.testbit z k)) in H.
    rewrite Z.land_spec, E, Z.pow2_bits_true, Z.bits_0 in H by done. done.
  - apply negb_false_iff, Z.eqb_eq. apply Z.bits_inj'. intros n Hn. rewrite Z.land_spec, Z.bits_0, Z.pow2_bits_eqb by done.
    destruct (Z.eqb_spec k n) as [->|]; [by rewrite E | by rewrite andb_false_r].
Qed.
Lemma has_clear b f c : is_bit c = true -> has (clear_bits b f) c = has f c && negb (has b c).
Proof. intros H. rewrite !has_bit by done. unfold clear_bits. apply Z.ldiff_spec. Qed.

(** Computes what is known of flags. *)
Ltac has_const :=
  repeat match goal with
  | |- context [has ?a ?b] =>
      let v := eval vm_compute in (has a b) in
      lazymatch v with true => change (has a b) with true | false => change (has a b) with false end
  end.
Ltac flags := repeat first [ rewrite has_set | rewrite has_or | rewrite has_clear by reflexivity ]; has_const; cbn [orb andb negb].
(** Case analysis on all flags asked for *)
Ltac flag_cases :=
  repeat match goal with |- context [has ?f ?b] => destruct (has f b) end; try reflexivity; try congruence; try tauto.

(** ** The life of a service *)

Inductive life := Stopped | AdminStopped | Started | Running.
Definition life_of (f : Z) : option life :=
  if has f FH_MGMT_SERV_STARTED then Some Started else if has f FH_MGMT_SERV_RUNNING then Some Running
  else if has f FH_MGMT_SERV_STOPPED then Some Stopped else if has f FH_MGMT_SERV_ADMIN_STOPPED then Some AdminStopped else None.

(** At most one of the four states; a service that is being stopped runs; it
    is either enabled or disabled. *)
Definition flags_ok (f : Z) : bool :=
  let st := has f FH_MGMT_SERV_STARTED in let ru := has f FH_MGMT_SERV_RUNNING in
  let sp := has f FH_MGMT_SERV_STOPPED in let ad := has f FH_MGMT_SERV_ADMIN_STOPPED in
  negb (st && ru) && negb (st && sp) && negb (st && ad) && negb (ru && sp) && negb (ru && ad) && negb (sp && ad)
  && implb (has f FH_MGMT_SERV_STOPPING || has f FH_MGMT_SERV_ADMIN_STOPPING) ru
  && xorb (has f FH_MGMT_SERV_ENABLED) (has f FH_MGMT_SERV_DISABLED).

(** What may happen to a service; only a registration ([reg]) makes it run. *)
Inductive lstep (reg : bool) : option life -> option life -> Prop :=
  | l_start : lstep reg (Some Stopped) (Some Started)
  | l_start_admin : lstep reg (Some AdminStopped) (Some Started)
  | l_stop : lstep reg (Some Running) (Some Stopped)
  | l_stop_admin : lstep reg (Some Running) (Some AdminStopped)
  | l_register : reg = true -> lstep reg (Some Started) (Some Running)
  | l_standalone : reg = true -> lstep reg (Some Stopped) (Some Running).

Lemma started_stays l : rtc (lstep false) (Some Started) l -> l = Some Started.
Proof.
  intros H. remember (Some Started) as x eqn:E. induction H as [|x y z H _ IH]; [done|]. subst x. by inversion H.
Qed.

(** ** The memory *)

Definition command_fits (s : fh_serv) : Prop := (length (sv_command s ++ 32%Z :: default [] (sv_args s)) < 1024)%nat.

Record wf (m : mgr) : Prop := {
  wf_null : servs m !! NULL = None /\ sgs m !! NULL = None /\ conns m !! NULL = None;
  wf_flags a s : servs m !! a = Some s -> flags_ok (sv_flags s) = true /\ command_fits s;
  wf_conn a s : servs m !! a = Some s ->
    if has (sv_flags s) FH_MGMT_SERV_RUNNING then exists c, conns m !! sv_conn s = Some c /\ conn_serv c = a else sv_conn s = NULL;
  wf_serv k c : conns m !! k = Some c -> conn_serv c <> NULL ->
    conn_cltype c = FH_MGMT_CL_SERVICE /\ exists s, servs m !! conn_serv c = Some s /\ has (sv_flags s) FH_MGMT_SERV_RUNNING = true /\ sv_conn s = k;
  wf_group a s : servs m !! a = Some s -> sv_group s <> NULL ->
    exists g, sgs m !! sv_group s = Some g /\ (has (g_flags g) FH_MGMT_SG_DISABLED = true -> has (sv_flags s) FH_MGMT_SERV_DISABLED = true);
  wf_members k g : sgs m !! k = Some g ->
    has (g_flags g) FH_MGMT_SG_STATS = false /\ forall a, a ∈ g_servs g -> exists s, servs m !! a = Some s /\ sv_group s = k;
  wf_sg_list k : k ∈ sg_list m \/ k ∈ sg_timers m -> is_Some (sgs m !! k);
  wf_conn_list k : k ∈ conn_list m -> is_Some (conns m !! k)
}.

(** What an operation does not change, and what may become of services; [reg]
    tells the names that register. *)
Record evolves (reg : list Z -> bool) (m m' : mgr) : Prop := {
  ev_serv a s : servs m !! a = Some s -> exists s', servs m' !! a = Some s' /\ sv_name s' = sv_name s /\ sv_group s' = sv_group s /\
    rtc (lstep (reg (sv_name s))) (life_of (sv_flags s)) (life_of (sv_flags s'));
  ev_sg k g : sgs m !! k = Some g -> exists g', sgs m' !! k = Some g' /\ g_name g' = g_name g /\ g_servs g' = g_servs g /\ g_flags g' = g_flags g;
  ev_lists : sg_list m' = sg_list m /\ sg_timers m' = sg_timers m
}.

Lemma evolves_refl reg m : evolves reg m m.
Proof. constructor; [intros a s H; exists s; repeat split; done || apply rtc_refl | intros k g H; by exists g | done]. Qed.
Lemma evolves_trans reg m1 m2 m3 : evolves reg m1 m2 -> evolves reg m2 m3 -> evolves reg m1 m3.
Proof.
  intros [S1 G1 [L1 T1]] [S2 G2 [L2 T2]]. constructor.
  - intros a s H. destruct (S1 a s H) as (s1 & H1 & N1 & P1 & R1). destruct (S2 a s1 H1) as (s2 & H2 & N2 & P2 & R2).
    exists s2. repeat split; try congruence. rewrite N1 in R2. by etrans.
  - intros k g H. destruct (G1 k g H) as (g1 & H1 & N1 & P1 & F1). destruct (G2 k g1 H1) as (g2 & H2 & N2 & P2 & F2). exists g2. repeat split; congruence.
  - split; congruence.
Qed.
Lemma evolves_weaken reg m m' : evolves (fun _ => false) m m' -> evolves reg m m'.
Proof.
  intros [S G L]. constructor; [|done..]. intros a s H. destruct (S a s H) as (s' & H' & N & P & R). exists s'. repeat split; try done.
  clear -R. induction R as [|x y z Hxy _ IH]; [done|]. eapply rtc_l; [|exact IH]. inversion Hxy; by constructor.
Qed.

(** ** Rules

    [c] returns from a memory in order, which it leaves in order, and [Q]
    holds of the result. *)
Section rules.
Context {O : Type}.
Notation mio := (mio (O := O)).

Definition spec {A} (reg : list Z -> bool) (m : mgr) (o : O) (c : mio A) (Q : A -> mgr -> Prop) : Prop :=
  exists r m' o', c (m, o) = Some (r, (m', o')) /\ wf m' /\ evolves reg m m' /\ Q r m'.

Lemma spec_ret {A} reg m o (a : A) (Q : A -> mgr -> Prop) : wf m -> Q a m -> spec reg m o (mret a) Q.
Proof. intros Hw HQ. exists a, m, o. split; [done|]. split; [done|]. split; [apply evolves_refl | done]. Qed.

Lemma spec_bind {A B} reg m o (c : mio A) (k : A -> mio B) Q R :
  spec reg m o c Q -> (forall r m' o', wf m' -> evolves reg m m' -> Q r m' -> spec reg m' o' (k r) R) -> spec reg m o (c ≫= k) R.
Proof.
  intros (r & m1 & o1 & E1 & W1 & V1 & Q1) Hk. destruct (Hk r m1 o1 W1 V1 Q1) as (r2 & m2 & o2 & E2 & W2 & V2 & Q2).
  exists r2, m2, o2. rewrite (io_step _ _ _ _ _ E1). split; [done|]. split; [done|]. split; [by eapply evolves_trans | done].
Qed.

Lemma spec_weaken {A} reg m o (c : mio A) (Q R : A -> mgr -> Prop) : spec reg m o c Q -> (forall r m', wf m' -> evolves reg m m' -> Q r m' -> R r m') -> spec reg m o c R.
Proof. intros (r & m1 & o1 & E1 & W1 & V1 & Q1) H. exists r, m1, o1. split; [done|]. split; [done|]. split; [done|]. by apply H. Qed.

Lemma spec_if {A} reg m o (b : bool) (c1 c2 : mio A) Q : (b = true -> spec reg m o c1 Q) -> (b = false -> spec reg m o c2 Q) ->
  spec reg m o (if b then c1 else c2) Q.
Proof. destruct b; auto. Qed.

(** Reading *)
Lemma spec_serv_at {B} reg m o a s (k : fh_serv -> mio B) Q : servs m !! a = Some s -> spec reg m o (k s) Q -> spec reg m o (s ← serv_at a; k s) Q.
Proof. intros H (r & m1 & o1 & E & R). exists r, m1, o1. split; [|done]. unfold serv_at, gets, must, mbind, io_bind in *. by rewrite H. Qed.
Lemma spec_sg_at {B} reg m o a s (k : fh_sg -> mio B) Q : sgs m !! a = Some s -> spec reg m o (k s) Q -> spec reg m o (s ← sg_at a; k s) Q.
Proof. intros H (r & m1 & o1 & E & R). exists r, m1, o1. split; [|done]. unfold sg_at, gets, must, mbind, io_bind in *. by rewrite H. Qed.
Lemma spec_conn_at {B} reg m o a s (k : fh_conn -> mio B) Q : conns m !! a = Some s -> spec reg m o (k s) Q -> spec reg m o (s ← conn_at a; k s) Q.
Proof. intros H (r & m1 & o1 & E & R). exists r, m1, o1. split; [|done]. unfold conn_at, gets, must, mbind, io_bind in *. by rewrite H. Qed.
Lemma spec_gets {A B} reg m o (f : mgr -> A) (k : A -> mio B) Q : spec reg m o (k (f m)) Q -> spec reg m o (x ← gets f; k x) Q.
Proof. intros (r & m1 & o1 & E & R). exists r, m1, o1. done. Qed.
Lemma spec_call {A B} reg m o (f : O -> A * O) (k : A -> mio B) Q : (forall a o', spec reg m o' (k a) Q) -> spec reg m o (x ← call f; k x) Q.
Proof.
  intros H. destruct (f o) as [a o1] eqn:Ef. destruct (H a o1) as (r & m2 & o2 & E & R). exists r, m2, o2. split; [|done].
  unfold call, mbind, io_bind in *. by rewrite Ef.
Qed.
Lemma spec_must {A B} reg m o (x : A) (k : A -> mio B) Q : spec reg m o (k x) Q -> spec reg m o (x ← must (Some x); k x) Q.
Proof. done. Qed.

Lemma spec_guard {B} reg m o P `{!Decision P} (k : mio B) Q : P -> spec reg m o k Q -> spec reg m o (_ ← must (guard P); k) Q.
Proof.
  intros HP (r & m1 & o1 & E & R). exists r, m1, o1. split; [|done]. unfold must, mbind, io_bind, guard_or in *. by destruct (decide P).
Qed.

(** Changing the flags of a service *)
Definition with_flags (a : Z) (s : fh_serv) (f : Z) (m : mgr) : mgr := set_servs (<[a := set_serv_flags f s]> (servs m)) m.

Lemma run_upd_flags (m : mgr) (o : O) a s F : servs m !! a = Some s ->
  upd_flags a F (m, o) = Some (tt, (with_flags a s (F (sv_flags s)) m, o)).
Proof.
  intros Hs. unfold upd_flags, upd_serv, modify, with_flags. repeat f_equal. apply map_eq. intros b.
  destruct (decide (b = a)) as [->|Hne]; [by rewrite lookup_alter_eq, lookup_insert_eq, Hs | by rewrite lookup_alter_ne, lookup_insert_ne].
Qed.

Lemma wf_with_flags m a s f : wf m -> servs m !! a = Some s -> flags_ok f = true -> has f FH_MGMT_SERV_RUNNING = has (sv_flags s) FH_MGMT_SERV_RUNNING ->
  (forall g, sgs m !! sv_group s = Some g -> has (g_flags g) FH_MGMT_SG_DISABLED = true -> has f FH_MGMT_SERV_DISABLED = true) ->
  wf (with_flags a s f m).
Proof.
  intros W Hs Hok Hrun Hdis. destruct W as [W0 W1 W2 W3 W4 W5 W6 W7]. destruct (W1 a s Hs) as [Hok0 Hfits]. constructor; cbn [with_flags set_servs servs sgs conns sg_list sg_timers conn_list] in *; try done.
  - repeat split; try apply W0. rewrite lookup_insert_ne; [apply W0|]. intros ->. destruct W0 as [W0 _]. congruence.
  - intros b t [[<- <-]|[Hne Ht]]%lookup_insert_Some; [by split | by apply W1 in Ht].
  - intros b t [[<- <-]|[Hne Ht]]%lookup_insert_Some; [|by apply W2 in Ht]. specialize (W2 a s Hs). cbn [set_serv_flags sv_flags sv_conn]. by rewrite Hrun.
  - intros k c Hc Hn. destruct (W3 k c Hc Hn) as (Hcl & t & Ht & Hr & Hk). split; [done|]. destruct (decide (conn_serv c = a)) as [Ea|Hne].
    + rewrite Ea in Ht |- *. rewrite Hs in Ht. injection Ht as <-. exists (set_serv_flags f s). rewrite lookup_insert_eq. split; [done|].
      split; [cbn; by rewrite Hrun | done].
    + exists t. by rewrite lookup_insert_ne.
  - intros b t [[<- <-]|[Hne Ht]]%lookup_insert_Some Hg; [|by apply W4 in Ht]. destruct (W4 a s Hs Hg) as (g & Eg & _). exists g. split; [done|]. intros Hd. by eapply Hdis.
  - intros k g Hg. destruct (W5 k g Hg) as [Hst Hm]. split; [done|]. intros b Hb. destruct (Hm b Hb) as (t & Ht & Hk).
    destruct (decide (b = a)) as [->|Hne]; [|exists t; by rewrite lookup_insert_ne]. exists (set_serv_flags f s). rewrite lookup_insert_eq. split; [done|]. cbn. congruence.
Qed.

Lemma evolves_with_flags reg m a s f : servs m !! a = Some s -> rtc (lstep (reg (sv_name s))) (life_of (sv_flags s)) (life_of f) -> evolves reg m (with_flags a s f m).
Proof.
  intros Hs Hr. constructor; [|intros k g Hg; by exists g | done]. intros b t Ht. cbn [with_flags set_servs servs]. destruct (decide (b = a)) as [->|Hne].
  - rewrite lookup_insert_eq. rewrite Hs in Ht. injection Ht as <-. by exists (set_serv_flags f s).
  - rewrite lookup_insert_ne by done. exists t. repeat split; try done.
Qed.

Lemma spec_upd_flags reg m o a s (F : Z -> Z) : wf m -> servs m !! a = Some s -> flags_ok (F (sv_flags s)) = true ->
  has (F (sv_flags s)) FH_MGMT_SERV_RUNNING = has (sv_flags s) FH_MGMT_SERV_RUNNING ->
  (forall g, sgs m !! sv_group s = Some g -> has (g_flags g) FH_MGMT_SG_DISABLED = true -> has (F (sv_flags s)) FH_MGMT_SERV_DISABLED = true) ->
  rtc (lstep (reg (sv_name s))) (life_of (sv_flags s)) (life_of (F (sv_flags s))) ->
  spec reg m o (upd_flags a F) (fun _ m' => m' = with_flags a s (F (sv_flags s)) m).
Proof.
  intros W Hs Hok Hrun Hdis Hl. exists tt, (with_flags a s (F (sv_flags s)) m), o. split; [|split; [by apply wf_with_flags | split; [by apply evolves_with_flags | done]]].
  by apply run_upd_flags.
Qed.

(** Changing the counters of a group *)
Lemma wf_upd_sg m k F : wf m -> (forall g, g_servs (F g) = g_servs g /\ g_flags (F g) = g_flags g) -> wf (set_sgs (alter F k (sgs m)) m).
Proof.
  intros [W0 W1 W2 W3 W4 W5 W6 W7] HF. constructor; cbn [set_sgs servs sgs conns sg_list sg_timers conn_list] in *; try done.
  - repeat split; try apply W0. apply lookup_alter_None. apply W0.
  - intros a s Hs Hg. destruct (W4 a s Hs Hg) as (g & Eg & Hd). destruct (decide (sv_group s = k)) as [Ek|Hne].
    + exists (F g). rewrite <- Ek, lookup_alter_eq, Eg. split; [done|]. by rewrite (proj2 (HF g)).
    + exists g. by rewrite lookup_alter_ne.
  - intros j g Hg. apply lookup_alter_Some in Hg as [(-> & g0 & Hg0 & ->)|[_ Hg]]; [|by apply W5]. destruct (HF g0) as [-> ->]. by apply W5.
  - intros j Hj. apply lookup_alter_is_Some. by apply W6.
Qed.

Lemma spec_upd_sg reg m o k F : wf m -> (forall g, g_servs (F g) = g_servs g /\ g_flags (F g) = g_flags g /\ g_name (F g) = g_name g) ->
  spec reg m o (upd_sg k F) (fun _ m' => m' = set_sgs (alter F k (sgs m)) m).
Proof.
  intros W HF. exists tt, (set_sgs (alter F k (sgs m)) m), o. split; [done|]. split; [apply wf_upd_sg; [done|]; intros g; split; apply HF|].
  split; [|done]. constructor; cbn [set_sgs servs sgs sg_list sg_timers]; [intros a s Hs; exists s; repeat split; done || apply rtc_refl | | done].
  intros j g Hg. destruct (decide (j = k)) as [->|Hne]; [|exists g; by rewrite lookup_alter_ne]. exists (F g). rewrite lookup_alter_eq, Hg. split; [done|].
  destruct (HF g) as (-> & -> & ->). done.
Qed.

(** Counting the requests of a connection *)
Lemma wf_upd_conn m k F : wf m -> (forall c, conn_serv (F c) = conn_serv c /\ conn_cltype (F c) = conn_cltype c) -> wf (set_conns (alter F k (conns m)) m).
Proof.
  intros [W0 W1 W2 W3 W4 W5 W6 W7] HF. constructor; cbn [set_conns servs sgs conns sg_list sg_timers conn_list] in *; try done.
  - repeat split; try apply W0. apply lookup_alter_None. apply W0.
  - intros a s Hs. specialize (W2 a s Hs). destruct (has _ _); [|done]. destruct W2 as (c & Hc & Ha). destruct (decide (sv_conn s = k)) as [Ek|Hne].
    + exists (F c). rewrite <- Ek, lookup_alter_eq, Hc. split; [done|]. by rewrite (proj1 (HF c)).
    + exists c. by rewrite lookup_alter_ne.
  - intros j c Hc. apply lookup_alter_Some in Hc as [(-> & c0 & Hc0 & ->)|[_ Hc]]; [|by apply W3]. destruct (HF c0) as [-> ->]. by apply W3.
  - intros j Hj. apply lookup_alter_is_Some. by apply W7.
Qed.
End rules.
