(* ===== verification/ServiceTheorems.v ===== *)
(** * The services of the manager: theorems

    Whatever clients ask for, whenever services connect and disconnect, and
    as the seconds pass, the memory of the manager stays in order, and services
    live as [lstep] says. *)
From S2P Require Import Prelude Bytes Mpool Sock Admin AdminWire AdminTheorems Service Manager ServiceProps.

Section control.
Context {O : Type} (os : syscall -> O -> sysret * O) (malloc : Z -> option (list Z)) (adm_defs : list fh_adm_def).
Context (fuel nest : nat) (system : list Z -> O -> (Z * Z * Z) * O) (serv_monitor : list Z -> O -> list Z * O).
Context (stack : list Z) (mgmt_stats_report : sg_rpt -> O -> unit * O).
(** The table is the one of [fh_adm_init]; [malloc] returns blocks of the
    size asked for; writing a request returns, be it with an error. *)
Context (Htable : fh_adm_init = Some (FH_OK, adm_defs)).
Context (Hmalloc : forall n b, malloc n = Some b -> Z.of_nat (length b) = n).
Context (Hwrite : forall fd data o, length data = 20%nat -> is_Some (fh_tcp_write os fuel fd data o)).

Notation mio := (mio (O := O)).
Notation spec := (spec (O := O)).
Notation serv_action := (serv_action os malloc adm_defs fuel nest).
Notation fh_mgmt_serv_start := (fh_mgmt_serv_start system).
Notation stop_with := (stop_with os malloc adm_defs fuel nest).
Notation fh_mgmt_serv_stop := (fh_mgmt_serv_stop os malloc adm_defs fuel nest).
Notation fh_mgmt_serv_restart := (fh_mgmt_serv_restart os malloc adm_defs fuel nest system).
Notation fh_mgmt_serv_clrstats := (fh_mgmt_serv_clrstats os malloc adm_defs fuel nest).
Notation fh_mgmt_serv_disable := (fh_mgmt_serv_disable os malloc adm_defs fuel nest).
Notation fh_mgmt_serv_enable := (fh_mgmt_serv_enable system).

(** ** Control requests *)

(** The messages of one word *)
Definition word_message (cmd : Z) : Prop := cmd = FH_ADM_CMD_ACTION_REQ \/ cmd = FH_ADM_CMD_REG_RESP.
Lemma word_packet cmd tid x block : word_message cmd -> 0 <= tid < 4294967296 -> malloc 20 = Some block ->
  exists pkt, fh_adm_create adm_defs nest malloc cmd tid (le_bytes 4 x) = Some (FH_OK, Some pkt) /\ length pkt = 20%nat.
Proof.
  intros Hcmd Ht Em. assert (Hlen : length block = 20%nat) by (apply Hmalloc in Em; lia).
  destruct Hcmd as [-> | ->].
  - destruct (create_packet adm_defs Htable nest malloc 11 tid (le_bytes 4 x) action_req [FInt 4 action_type] [VInt (x mod 256 ^ Z.of_nat 4)] 4 block)
      as (pkt & E & _ & Hl); [by apply layout_flat | | done | done | done | done | exact Em | by rewrite Hlen|].
    + apply holds_one. eexists. split; [done|]. exists (le_bytes 4 x). split; [reflexivity|]. split; [apply le_bytes_is_byte|]. by rewrite le_val_le_bytes.
    + exists pkt. split; [exact E|]. unfold sizeof_cmd in Hl. lia.
  - destruct (create_packet adm_defs Htable nest malloc 2 tid (le_bytes 4 x) reg_resp [FInt 4 reg_conn_id] [VInt (x mod 256 ^ Z.of_nat 4)] 4 block)
      as (pkt & E & _ & Hl); [by apply layout_flat | | done | done | done | done | exact Em | by rewrite Hlen|].
    + apply holds_one. eexists. split; [done|]. exists (le_bytes 4 x). split; [reflexivity|]. split; [apply le_bytes_is_byte|]. by rewrite le_val_le_bytes.
    + exists pkt. split; [exact E|]. unfold sizeof_cmd in Hl. lia.
Qed.
Lemma word_no_memory cmd tid x : word_message cmd -> malloc 20 = None -> fh_adm_create adm_defs nest malloc cmd tid (le_bytes 4 x) = Some (FH_ERROR, None).
Proof.
  intros Hcmd Em. vm_compute in Htable. injection Htable as <-. unfold fh_adm_create, adm_def_at. destruct Hcmd as [-> | ->]; cbn [lookup list_lookup].
  - change (Z.to_nat FH_ADM_CMD_ACTION_REQ) with 11%nat. cbn. destruct nest; cbn; change (s32 (4 + sizeof_cmd)) with 20; by rewrite Em.
  - change (Z.to_nat FH_ADM_CMD_REG_RESP) with 2%nat. cbn. destruct nest; cbn; change (s32 (4 + sizeof_cmd)) with 20; by rewrite Em.
Qed.
Lemma send_word fd cmd tid x o : word_message cmd -> 0 <= tid < 4294967296 ->
  exists rc o', fh_adm_send adm_defs os malloc fuel nest fd cmd tid (le_bytes 4 x) o = Some (rc, o').
Proof.
  intros Hcmd Ht. unfold fh_adm_send. assert (E0 : s32 cmd = cmd) by (by destruct Hcmd as [-> | ->]). rewrite E0.
  destruct (malloc 20) as [block|] eqn:Em.
  - destruct (word_packet cmd tid x block Hcmd Ht Em) as (pkt & E & Hl). rewrite E, defined_step.
    destruct (Hwrite fd pkt o Hl) as [[n o'] Ew]. rewrite (io_step _ _ _ _ _ Ew). by eexists _, o'.
  - rewrite word_no_memory by done. rewrite defined_step. by exists FH_ERROR, o.
Qed.

Lemma spec_action reg m o a s x : wf m -> servs m !! a = Some s -> has (sv_flags s) FH_MGMT_SERV_RUNNING = true ->
  spec reg m o (serv_action a x) (fun _ m' => servs m' = servs m /\ sgs m' = sgs m).
Proof.
  intros W Hs Hrun. pose proof (wf_conn m W a s Hs) as Hc. rewrite Hrun in Hc. destruct Hc as (c & Hc & _).
  unfold Service.serv_action, serv_post. apply (spec_serv_at _ _ _ _ s); [done|]. apply (spec_conn_at _ _ _ _ c); [done|].
  set (F := fun c => set_conn_req_tid (u32 (conn_req_tid c + 1)) c). set (m1 := set_conns (alter F (sv_conn s) (conns m)) m).
  assert (Hc1 : conns m1 !! sv_conn s = Some (F c)) by (cbn; by rewrite lookup_alter_eq, Hc).
  destruct (send_word (conn_fd (F c)) FH_ADM_CMD_ACTION_REQ (conn_req_tid (F c)) x o) as (rc & o' & E); [by left | apply u32_range|].
  exists rc, m1, o'. split; [|split; [by apply wf_upd_conn | split; [|done]]].
  - unfold upd_conn, modify, conn_at, gets, must, lift, mbind, io_bind. cbn beta iota. fold F. fold m1. rewrite Hc1. cbn [mbind option_bind]. by rewrite E.
  - constructor; [intros b t Hb; exists t; repeat split; done || apply rtc_refl | intros k g Hg; by exists g | done].
Qed.

Ltac bits := unfold flags_ok, life_of; flags; flag_cases.

Lemma spec_started reg m o a s : wf m -> servs m !! a = Some s -> spec reg m o (fh_mgmt_serv_start a) (fun _ m' => conns m' = conns m /\ conn_list m' = conn_list m).
Proof.
  intros W Hs. destruct (wf_flags m W a s Hs) as [Hok Hfits]. unfold Service.fh_mgmt_serv_start. apply (spec_serv_at _ _ _ _ s); [done|].
  apply spec_if; [intros _; by apply spec_ret|]. intros Hd. apply spec_if; [intros _; by apply spec_ret|]. intros Hst. apply negb_false_iff in Hst.
  apply spec_guard; [exact Hfits|]. apply spec_call. intros [[status errno] child] o1. apply spec_if; [intros _; by apply spec_ret|].
  intros _. apply spec_if; [intros _; by apply spec_ret|]. intros _. eapply spec_bind; [eapply spec_upd_flags; [done | exact Hs|..] | intros [] m1 o2 W1 _ ->; by apply spec_ret].
  - revert Hok Hst. bits.
  - revert Hok Hst. bits.
  - intros g Hg Hgd. exfalso. assert (Hn : sv_group s <> NULL) by (intros E; rewrite E in Hg; destruct (wf_null m W) as (_ & W0 & _); congruence).
    destruct (wf_group m W a s Hs Hn) as (g' & Hg' & Hdis). rewrite Hg in Hg'. injection Hg' as <-. apply Hdis in Hgd. congruence.
  - apply rtc_once. revert Hok Hst. unfold flags_ok, life_of. flags.
    repeat match goal with |- context [has ?f ?b] => destruct (has f b) end; try discriminate; constructor.
Qed.

Lemma spec_start reg m o a s : wf m -> servs m !! a = Some s -> spec reg m o (fh_mgmt_serv_start a) (fun _ _ => True).
Proof. intros W Hs. eapply spec_weaken; [by eapply spec_started | done]. Qed.

(** The group of a service *)
Lemma group_of m a s : wf m -> servs m !! a = Some s -> sv_group s <> NULL -> exists g, sgs m !! sv_group s = Some g /\
  (has (g_flags g) FH_MGMT_SG_DISABLED = true -> has (sv_flags s) FH_MGMT_SERV_DISABLED = true).
Proof. intros W Hs Hg. by apply (wf_group m W a s). Qed.
Lemma group_nonnull m k g a : wf m -> sgs m !! k = Some g -> a ∈ g_servs g -> exists s, servs m !! a = Some s /\ sv_group s = k /\ k <> NULL.
Proof.
  intros W Hg Ha. destruct (wf_members m W k g Hg) as [_ Hm]. destruct (Hm a Ha) as (s & Hs & Hk). exists s. repeat split; try done.
  intros ->. destruct (wf_null m W) as (_ & W0 & _). congruence.
Qed.

Definition stopping_bit (b : Z) : Prop := b = FH_MGMT_SERV_STOPPING \/ b = FH_MGMT_SERV_ADMIN_STOPPING.

Lemma spec_stop reg m o a s b : wf m -> servs m !! a = Some s -> sv_group s <> NULL -> stopping_bit b ->
  spec reg m o (stop_with b a) (fun _ m' => exists s', servs m' !! a = Some s' /\ sv_group s' = sv_group s /\
    has (sv_flags s') FH_MGMT_SERV_DISABLED = has (sv_flags s) FH_MGMT_SERV_DISABLED).
Proof.
  intros W Hs Hg Hb. destruct (wf_flags m W a s Hs) as [Hok _]. destruct (group_of m a s W Hs Hg) as (g & Eg & Hdis).
  unfold Service.stop_with. apply (spec_serv_at _ _ _ _ s); [done|]. apply spec_if; [intros _; apply spec_ret; [done | by exists s]|]. intros _.
  apply spec_if; [intros _; apply spec_ret; [done | by exists s]|]. intros Hrun%negb_false_iff.
  eapply spec_bind; [by apply (spec_action _ _ _ _ s)|]. intros rc m1 o1 W1 _ [E1 E2]. rewrite <- E1 in Hs. rewrite <- E2 in Eg.
  apply spec_if; [intros _; apply spec_ret; [done | by exists s]|]. intros _.
  eapply spec_bind; [eapply spec_upd_flags; [done | exact Hs|..]|].
  - revert Hok Hrun. destruct Hb as [-> | ->]; bits.
  - destruct Hb as [-> | ->]; flags; flag_cases.
  - intros g' Hg'. rewrite Eg in Hg'. injection Hg' as <-. intros H%Hdis. destruct Hb as [-> | ->]; flags; rewrite H; done.
  - assert (E : life_of (set_bits b (sv_flags s)) = life_of (sv_flags s)) by (destruct Hb as [-> | ->]; unfold life_of; flags; flag_cases).
    rewrite E. apply rtc_refl.
  - intros [] m2 o2 W2 _ ->. cbn beta. apply (spec_sg_at _ _ _ _ g); [done|].
    eapply spec_bind; [apply spec_upd_sg; [done | done]|]. intros [] m3 o3 W3 _ ->. apply spec_ret; [done|].
    exists (set_serv_flags (set_bits b (sv_flags s)) s). cbn [set_sgs with_flags set_servs servs]. rewrite lookup_insert_eq.
    repeat split; try done. cbn [set_serv_flags sv_flags]. destruct Hb as [-> | ->]; flags; flag_cases.
Qed.

Lemma spec_restart reg m o a s : wf m -> servs m !! a = Some s -> sv_group s <> NULL -> spec reg m o (fh_mgmt_serv_restart a) (fun _ _ => True).
Proof.
  intros W Hs Hg. unfold Service.fh_mgmt_serv_restart. apply (spec_serv_at _ _ _ _ s); [done|].
  apply spec_if; [intros _; by eapply spec_start|]. intros _. eapply spec_bind; [apply (spec_stop _ _ _ _ s); [done.. | by left]|].
  intros rc m1 o1 W1 _ (s1 & Hs1 & Hg1 & _). apply spec_if; [intros _; by apply spec_ret|]. intros _.
  destruct (wf_flags m1 W1 a s1 Hs1) as [Hok _]. rewrite <- Hg1 in Hg. destruct (group_of m1 a s1 W1 Hs1 Hg) as (g & Eg & Hdis).
  eapply spec_bind; [eapply spec_upd_flags; [done | exact Hs1|..] | intros; by apply spec_ret].
  - revert Hok. bits.
  - flags; flag_cases.
  - intros g' Hg'. rewrite Eg in Hg'. injection Hg' as <-. intros H%Hdis. flags. by rewrite H.
  - assert (E : life_of (set_bits FH_MGMT_SERV_RESTART (sv_flags s1)) = life_of (sv_flags s1)) by (unfold life_of; flags; flag_cases).
    rewrite E. apply rtc_refl.
Qed.

Lemma spec_clrstats reg m o a s : wf m -> servs m !! a = Some s -> spec reg m o (fh_mgmt_serv_clrstats a) (fun _ _ => True).
Proof.
  intros W Hs. unfold Service.fh_mgmt_serv_clrstats. apply (spec_serv_at _ _ _ _ s); [done|].
  apply spec_if; [intros _; by apply spec_ret|]. intros Hrun%negb_false_iff. eapply spec_bind; [by apply (spec_action _ _ _ _ s)|].
  intros rc m1 o1 W1 _ _. apply spec_if; intros _; by apply spec_ret.
Qed.

Lemma spec_disable reg m o a s : wf m -> servs m !! a = Some s -> sv_group s <> NULL -> spec reg m o (fh_mgmt_serv_disable a) (fun _ _ => True).
Proof.
  intros W Hs Hg. destruct (group_of m a s W Hs Hg) as (g & Eg & Hdis). unfold Service.fh_mgmt_serv_disable.
  apply (spec_serv_at _ _ _ _ s); [done|]. apply (spec_sg_at _ _ _ _ g); [done|].
  apply spec_if; [intros Hd; apply spec_guard; [by apply Hdis|]; by apply spec_ret|]. intros _.
  apply spec_if; [intros _; by apply spec_ret|]. intros _. eapply spec_bind; [apply (spec_stop _ _ _ _ s); [done.. | by left]|].
  intros rc m1 o1 W1 _ (s1 & Hs1 & Hg1 & Hd1). destruct (wf_flags m1 W1 a s1 Hs1) as [Hok _].
  eapply spec_bind; [eapply spec_upd_flags; [done | exact Hs1|..] | intros; by apply spec_ret].
  - revert Hok. bits.
  - flags; flag_cases.
  - intros g' _ _. flags. flag_cases.
  - set (f := set_bits _ _). assert (E : life_of f = life_of (sv_flags s1)) by (unfold f, life_of; flags; flag_cases). rewrite E. apply rtc_refl.
Qed.

Lemma spec_enable reg m o a s : wf m -> servs m !! a = Some s -> sv_group s <> NULL -> spec reg m o (fh_mgmt_serv_enable a) (fun _ _ => True).
Proof.
  intros W Hs Hg. destruct (wf_flags m W a s Hs) as [Hok _]. destruct (group_of m a s W Hs Hg) as (g & Eg & Hdis). unfold Service.fh_mgmt_serv_enable.
  apply (spec_serv_at _ _ _ _ s); [done|]. apply (spec_sg_at _ _ _ _ g); [done|].
  apply spec_if; [intros _; by apply spec_ret|]. intros Hgd. apply spec_if; [intros _; by apply spec_ret|]. intros Hen.
  eapply spec_bind; [eapply spec_upd_flags; [done | exact Hs|..]|].
  - revert Hok Hen. bits.
  - flags; flag_cases.
  - intros g' Hg'. rewrite Eg in Hg'. injection Hg' as <-. congruence.
  - set (f := set_bits _ _). assert (E : life_of f = life_of (sv_flags s)) by (unfold f, life_of; flags; flag_cases). rewrite E. apply rtc_refl.
  - intros [] m1 o1 W1 _ ->. eapply spec_start; [done|]. cbn. apply lookup_insert_eq.
Qed.

(** Services, groups and lists stay where they are. *)
Lemma evolves_member reg m m' k g a : evolves reg m m' -> sgs m !! k = Some g -> a ∈ g_servs g -> exists g', sgs m' !! k = Some g' /\ a ∈ g_servs g'.
Proof. intros V Hg Ha. destruct (ev_sg reg m m' V k g Hg) as (g' & Hg' & _ & E & _). exists g'. by rewrite E. Qed.

(** What is done for each service of a group *)
Lemma spec_each reg k (f : Z -> mio unit) : forall l m o, wf m ->
  (forall m o a s, wf m -> servs m !! a = Some s -> sv_group s = k -> k <> NULL -> spec reg m o (f a) (fun _ _ => True)) ->
  (exists g, sgs m !! k = Some g /\ forall a, a ∈ l -> a ∈ g_servs g) -> spec reg m o (each f l) (fun _ _ => True).
Proof.
  induction l as [|a l IH]; intros m o W Hf (g & Hg & Hl); [by apply spec_ret|]. cbn [each].
  destruct (group_nonnull m k g a W Hg ltac:(apply Hl; left)) as (s & Hs & Hk & Hn).
  eapply spec_bind; [by eapply Hf|]. intros [] m1 o1 W1 V1 _. apply IH; [done | done|].
  destruct (ev_sg reg m m1 V1 k g Hg) as (g1 & Hg1 & _ & E & _). exists g1. split; [done|]. intros b Hb. rewrite E. apply Hl. by right.
Qed.

Lemma spec_ignore {A} reg m o (c : mio A) Q : spec reg m o c Q -> spec reg m o (ignore c) (fun _ _ => True).
Proof. intros H. unfold ignore. eapply spec_bind; [exact H|]. intros. by apply spec_ret. Qed.

Lemma spec_restart_group reg m o k g : wf m -> sgs m !! k = Some g ->
  spec reg m o (sg_restart os malloc adm_defs fuel nest system k) (fun _ _ => True).
Proof.
  intros W Hg. unfold sg_restart. apply (spec_sg_at _ _ _ _ g); [done|]. apply (spec_each _ k); [done | | by exists g].
  intros m1 o1 a s W1 Hs Hk Hn. eapply spec_ignore, spec_restart; [done.. | by rewrite Hk].
Qed.

(** ** Requests by name *)

Definition controls : list Z := [FH_MGMT_CL_CTRL_ENABLE; FH_MGMT_CL_CTRL_DISABLE; FH_MGMT_CL_CTRL_START; FH_MGMT_CL_CTRL_STOP;
  FH_MGMT_CL_CTRL_RESTART; FH_MGMT_CL_CTRL_CLRSTATS].
Notation serv_request := (serv_request os malloc adm_defs fuel nest system serv_monitor).
Notation sg_request := (sg_request os malloc adm_defs fuel nest system serv_monitor).
Notation dispatch := (dispatch os malloc adm_defs fuel nest system serv_monitor).

Lemma spec_control reg m o (c : mio Z) (a : Z) : spec reg m o c (fun _ _ => True) ->
  spec reg m o (rc ← c; mret (rc, @None (list Z))) (fun r _ => r.2 = None).
Proof. intros H. eapply spec_bind; [exact H|]. intros. by apply spec_ret. Qed.

Lemma spec_request reg m o a s cmd p : wf m -> servs m !! a = Some s -> sv_group s <> NULL -> cmd ∈ controls ->
  spec reg m o (serv_request a cmd None p) (fun r _ => r.2 = None).
Proof.
  intros W Hs Hg Hc. unfold Service.serv_request.
  repeat (apply elem_of_cons in Hc as [->|Hc]; [apply (spec_control _ _ _ _ a)|]); [| | | | | |by apply not_elem_of_nil in Hc].
  - by apply (spec_enable _ _ _ _ s).
  - by apply (spec_disable _ _ _ _ s).
  - by eapply spec_start.
  - eapply spec_weaken; [apply (spec_stop _ _ _ _ s); [done.. | by right] | done].
  - by apply (spec_restart _ _ _ _ s).
  - by apply (spec_clrstats _ _ _ _ s).
Qed.

Lemma spec_request_loop reg k cmd : cmd ∈ controls -> forall l m o p q, wf m ->
  (exists g, sgs m !! k = Some g /\ forall a, a ∈ l -> a ∈ g_servs g) ->
  spec reg m o (sg_request_loop os malloc adm_defs fuel nest system serv_monitor l cmd None p q) (fun r _ => r.1.2 = None).
Proof.
  intros Hc. induction l as [|a l IH]; intros m o p q W (g & Hg & Hl); [by apply spec_ret|]. cbn [sg_request_loop].
  destruct (group_nonnull m k g a W Hg ltac:(apply Hl; left)) as (s & Hs & Hk & Hn). apply (spec_serv_at _ _ _ _ s); [done|].
  apply spec_if; intros _.
  - eapply spec_bind; [apply (spec_request _ _ _ _ s); [done | done | by rewrite Hk | done]|]. intros [rc resp] m1 o1 W1 V1 Hr. cbn in Hr. subst resp.
    apply spec_if; [intros _; by apply spec_ret|]. intros _. apply IH; [done|].
    destruct (ev_sg reg m m1 V1 k g Hg) as (g1 & Hg1 & _ & E & _). exists g1. split; [done|]. intros b Hb. rewrite E. apply Hl. by right.
  - apply IH; [done|]. exists g. split; [done|]. intros b Hb. apply Hl. by right.
Qed.

Lemma spec_sg_request reg m o k g cmd p : wf m -> sgs m !! k = Some g -> cmd ∈ controls -> spec reg m o (sg_request k cmd None p) (fun r _ => r.1.2 = None).
Proof.
  intros W Hg Hc. unfold Service.sg_request. apply (spec_sg_at _ _ _ _ g); [done|]. apply (spec_request_loop _ k); [done | done|]. by exists g.
Qed.

Lemma spec_request_all reg cmd : cmd ∈ controls -> forall l m o p, wf m -> (forall k, k ∈ l -> is_Some (sgs m !! k)) ->
  spec reg m o (request_all os malloc adm_defs fuel nest system serv_monitor l cmd None p) (fun _ _ => True).
Proof.
  intros Hc. induction l as [|k l IH]; intros m o p W Hl; [by apply spec_ret|]. cbn [request_all].
  destruct (Hl k ltac:(left)) as [g Hg]. eapply spec_bind; [by apply (spec_sg_request _ _ _ _ g)|].
  intros [[rc resp] p'] m1 o1 W1 V1 Hr. cbn in Hr. subst resp. apply spec_if; [intros _; by apply spec_ret|]. intros _. apply IH; [done|].
  intros j Hj. destruct (Hl j ltac:(by right)) as [gj Hgj]. by destruct (ev_sg reg m m1 V1 j gj Hgj) as (g1 & -> & _).
Qed.

(** Looking up names *)
Lemma spec_sg_find reg name : forall l m o, wf m -> (forall k, k ∈ l -> is_Some (sgs m !! k)) ->
  spec reg m o (sg_find name l) (fun r m' => m' = m /\ (r <> NULL -> is_Some (sgs m !! r))).
Proof.
  induction l as [|k l IH]; intros m o W Hl; [by apply spec_ret|]. cbn [sg_find]. destruct (Hl k ltac:(left)) as [g Hg].
  apply (spec_sg_at _ _ _ _ g); [done|]. apply spec_if; intros _; [apply spec_ret; [done|]; split; [done | by intros _; exists g]|].
  apply IH; [done|]. intros j Hj. apply Hl. by right.
Qed.
Lemma spec_sg_lookup reg m o name : wf m -> spec reg m o (fh_mgmt_sg_lookup name) (fun r m' => m' = m /\ (r <> NULL -> is_Some (sgs m !! r))).
Proof. intros W. unfold fh_mgmt_sg_lookup. apply spec_gets, spec_sg_find; [done|]. intros k Hk. apply (wf_sg_list m W). by left. Qed.

Definition found (name : list Z) (m : mgr) (r : Z) : Prop := r <> NULL -> exists s, servs m !! r = Some s /\ sv_group s <> NULL /\ sv_name s = name.
Lemma spec_null reg m o name : wf m -> spec reg m o (mret NULL) (fun r m' => m' = m /\ found name m r).
Proof. intros W. apply spec_ret; [done|]. split; [done|]. by intros []. Qed.
Lemma spec_serv_find reg name k g : forall l m o, wf m -> sgs m !! k = Some g -> (forall a, a ∈ l -> a ∈ g_servs g) ->
  spec reg m o (serv_find name l) (fun r m' => m' = m /\ found name m r).
Proof.
  induction l as [|a l IH]; intros m o W Hg Hl; [by apply spec_null|]. cbn [serv_find].
  destruct (group_nonnull m k g a W Hg ltac:(apply Hl; left)) as (s & Hs & Hk & Hn). apply (spec_serv_at _ _ _ _ s); [done|].
  apply spec_if; intros Hn'; [apply bool_decide_eq_true in Hn'; apply spec_ret; [done|]; split; [done|]; intros _; exists s; by rewrite Hk|]. apply IH; [done | done|].
  intros b Hb. apply Hl. by right.
Qed.
Lemma spec_lookup_loop reg name : forall l m o, wf m -> (forall k, k ∈ l -> is_Some (sgs m !! k)) ->
  spec reg m o (serv_lookup name l) (fun r m' => m' = m /\ found name m r).
Proof.
  induction l as [|k l IH]; intros m o W Hl; [by apply spec_null|]. cbn [serv_lookup]. destruct (Hl k ltac:(left)) as [g Hg].
  apply (spec_sg_at _ _ _ _ g); [done|]. eapply spec_bind; [by apply (spec_serv_find _ _ k g)|]. intros r m1 o1 W1 _ [-> Hf]. cbn beta.
  apply spec_if; intros Hr; [|by apply spec_ret]. apply IH; [done|]. intros j Hj. apply Hl. by right.
Qed.
Lemma spec_serv_lookup reg m o name : wf m -> spec reg m o (fh_mgmt_serv_lookup name) (fun r m' => m' = m /\ found name m r).
Proof. intros W. unfold fh_mgmt_serv_lookup. apply spec_gets, spec_lookup_loop; [done|]. intros k Hk. apply (wf_sg_list m W). by left. Qed.

(** A control request for a name *)
Lemma spec_dispatch reg m o name cmd : wf m -> cmd ∈ controls -> spec reg m o (dispatch name cmd None) (fun _ _ => True).
Proof.
  intros W Hc. unfold Manager.dispatch. apply spec_if; intros _.
  - unfold fh_mgmt_serv_request_all. apply spec_gets, spec_request_all; [done | done|]. intros k Hk. apply (wf_sg_list m W). by left.
  - eapply spec_bind; [by apply spec_sg_lookup|]. intros k m1 o1 W1 _ [-> Hk]. cbn beta. apply spec_if; intros Hn.
    + apply negb_true_iff, Z.eqb_neq in Hn. destruct (Hk Hn) as [g Hg]. eapply spec_bind; [by apply (spec_sg_request _ _ _ _ g)|].
      intros [[rc resp] p] m2 o2 W2 _ _. by apply spec_ret.
    + eapply spec_bind; [by apply spec_serv_lookup|]. intros a m2 o2 W2 _ [-> Ha]. cbn beta. apply spec_if; intros Hn2; [|by apply spec_ret].
      apply negb_true_iff, Z.eqb_neq in Hn2. destruct (Ha Hn2) as (s & Hs & Hg & _).
      eapply spec_weaken; [by apply (spec_request _ _ _ _ s) | done].
Qed.

(** ** Seconds *)
Notation sg_timer := (sg_timer os malloc adm_defs fuel nest system stack mgmt_stats_report).
Notation fh_mgmt_sg_timers := (fh_mgmt_sg_timers os malloc adm_defs fuel nest system stack mgmt_stats_report).

Lemma spec_monitor reg m o k g : wf m -> sgs m !! k = Some g -> spec reg m o (sg_serv_monitor system k) (fun _ _ => True).
Proof.
  intros W Hg. unfold sg_serv_monitor. apply (spec_sg_at _ _ _ _ g); [done|]. apply spec_if; intros _.
  - eapply spec_bind; [apply (spec_each _ k); [done | | by exists g]|].
    + intros m1 o1 a s W1 Hs Hk Hn. apply (spec_serv_at _ _ _ _ s); [done|]. apply spec_if; intros _; [|by apply spec_ret].
      by eapply spec_ignore, spec_start.
    + intros [] m1 o1 W1 _ _. eapply spec_weaken; [by apply spec_upd_sg | done].
  - eapply spec_weaken; [by apply spec_upd_sg | done].
Qed.

Lemma spec_timer reg m o k : wf m -> is_Some (sgs m !! k) -> spec reg m o (sg_timer k) (fun _ _ => True).
Proof.
  intros W [g Hg]. unfold Service.sg_timer. apply (spec_sg_at _ _ _ _ g); [done|].
  eapply (spec_bind _ _ _ _ _ (fun _ _ => True)); [apply spec_if; intros _; [by eapply spec_monitor | by apply spec_ret]|]. intros [] m1 o1 W1 V1 _.
  destruct (ev_sg reg m m1 V1 k g Hg) as (g1 & Hg1 & _ & _ & Ef). destruct (wf_members m W k g Hg) as [Hst _]. rewrite Hst.
  eapply (spec_bind _ _ _ _ _ (fun _ m' => m' = m1)); [by apply spec_ret|]. intros [] m2 o2 W2 _ ->.
  apply spec_if; intros _; [|by apply spec_ret]. apply (spec_sg_at _ _ _ _ g1); [done|].
  eapply spec_bind; [by apply spec_upd_sg|]. intros [] m3 o3 W3 V3 _. destruct (ev_sg reg m1 m3 V3 k g1 Hg1) as (g3 & Hg3 & _).
  apply spec_if; intros _; [|by apply spec_ret]. eapply spec_bind; [by eapply spec_restart_group|]. intros [] m4 o4 W4 _ _.
  eapply spec_weaken; [by apply spec_upd_sg | done].
Qed.

Lemma spec_timer_loop reg : forall l m o, wf m -> (forall k, k ∈ l -> is_Some (sgs m !! k)) -> spec reg m o (each sg_timer l) (fun _ _ => True).
Proof.
  induction l as [|k l IH]; intros m o W Hl; [by apply spec_ret|]. cbn [each].
  eapply spec_bind; [apply spec_timer; [done | apply Hl; left]|]. intros [] m2 o2 W2 V2 _. apply IH; [done|].
  intros j Hj. destruct (Hl j ltac:(by right)) as [gj Hgj]. by destruct (ev_sg reg m m2 V2 j gj Hgj) as (g1 & -> & _).
Qed.
Lemma spec_timers reg m o : wf m -> spec reg m o fh_mgmt_sg_timers (fun _ _ => True).
Proof. intros W. unfold Service.fh_mgmt_sg_timers. apply spec_gets, spec_timer_loop; [done|]. intros k Hk. apply (wf_sg_list m W). by right. Qed.
End control.

(** ** Connections, registration and creation *)

Ltac cbn_mgr := cbn [set_servs set_sgs set_conns set_sg_list set_sg_timers set_conn_list set_next_conn_id set_rfds with_flags
  servs sgs conns sg_list sg_timers conn_list next_conn_id rfds fdmax] in *.

(** ** Memories in order *)

(** A connection without a service *)
Lemma wf_put_conn m k c : wf m -> k <> NULL -> conn_serv c = NULL -> (forall c0, conns m !! k = Some c0 -> conn_serv c0 = NULL) ->
  wf (set_conns (<[k := c]> (conns m)) m).
Proof.
  intros [W0 W1 W2 W3 W4 W5 W6 W7] Hk Hc Hold. constructor; cbn_mgr; try done.
  - repeat split; try apply W0. rewrite lookup_insert_ne by done. apply W0.
  - intros a s Hs. specialize (W2 a s Hs). destruct (has _ _); [|done]. destruct W2 as (c0 & Hc0 & Ha). exists c0.
    rewrite lookup_insert_ne; [done|]. intros ->. apply Hold in Hc0. rewrite Ha in Hc0. subst a. destruct W0 as [W0 _]. congruence.
  - intros j d [[<- <-]|[Hne Hd]]%lookup_insert_Some Hn; [done | by apply W3].
  - intros j Hj. rewrite lookup_insert_is_Some. destruct (decide (k = j)); [by left | right; split; [done | by apply W7]].
Qed.
Lemma wf_drop_conn m k c : wf m -> conns m !! k = Some c -> conn_serv c = NULL -> k ∉ conn_list m -> wf (set_conns (delete k (conns m)) m).
Proof.
  intros [W0 W1 W2 W3 W4 W5 W6 W7] Hk Hc Hl. constructor; cbn_mgr; try done.
  - repeat split; try apply W0. rewrite lookup_delete_None. right. apply W0.
  - intros a s Hs. specialize (W2 a s Hs). destruct (has _ _); [|done]. destruct W2 as (c0 & Hc0 & Ha). exists c0.
    rewrite lookup_delete_ne; [done|]. intros ->. rewrite Hk in Hc0. injection Hc0 as ->. rewrite Hc in Ha. subst a. destruct W0 as [W0 _]. congruence.
  - intros j d Hd Hn. apply lookup_delete_Some in Hd as [_ Hd]. by apply W3.
  - intros j Hj. destruct (W7 j Hj) as [d Hd]. exists d. rewrite lookup_delete_ne; [done|]. by intros ->.
Qed.
(** What the invariant does not speak of *)
Lemma wf_fds m r f : wf m -> wf (set_rfds r f m).
Proof. by intros []. Qed.
Lemma wf_next m n : wf m -> wf (set_next_conn_id n m).
Proof. by intros []. Qed.
Lemma wf_conn_lists m l : wf m -> (forall k, k ∈ l -> is_Some (conns m !! k)) -> wf (set_conn_list l m).
Proof. intros [] H. by constructor. Qed.
Lemma wf_timers m l : wf m -> (forall k, k ∈ l -> is_Some (sgs m !! k)) -> wf (set_sg_timers l m).
Proof. intros [W0 W1 W2 W3 W4 W5 W6 W7] H. constructor; cbn_mgr; try done. intros k [Hk|Hk]; [apply W6; by left | by apply H]. Qed.

(** A service and its connection *)
Definition linked (a k : Z) (s : fh_serv) (c : fh_conn) (m : mgr) : mgr := set_conns (<[k := c]> (conns m)) (set_servs (<[a := s]> (servs m)) m).

Lemma wf_linked m a k s s' c c' : wf m -> servs m !! a = Some s -> conns m !! k = Some c ->
  (conn_serv c = NULL \/ conn_serv c = a) -> (sv_conn s = NULL \/ sv_conn s = k) ->
  sv_group s' = sv_group s -> command_fits s' -> flags_ok (sv_flags s') = true ->
  has (sv_flags s') FH_MGMT_SERV_DISABLED = has (sv_flags s) FH_MGMT_SERV_DISABLED ->
  (has (sv_flags s') FH_MGMT_SERV_RUNNING = true /\ sv_conn s' = k /\ conn_serv c' = a /\ conn_cltype c' = FH_MGMT_CL_SERVICE \/
   has (sv_flags s') FH_MGMT_SERV_RUNNING = false /\ sv_conn s' = NULL /\ conn_serv c' = NULL) ->
  wf (linked a k s' c' m).
Proof.
  intros [W0 W1 W2 W3 W4 W5 W6 W7] Hs Hc Hca Hsk Hg Hfit Hok Hd Hlink. unfold linked.
  assert (Ha : a <> NULL) by (intros ->; destruct W0 as [W0 _]; congruence). assert (Hk : k <> NULL) by (intros ->; destruct W0 as (_ & _ & W0); congruence).
  constructor; cbn_mgr.
  - rewrite !lookup_insert_ne by done. done.
  - intros b t [[<- <-]|[Hne Ht]]%lookup_insert_Some; [done | by apply W1 in Ht].
  - intros b t [[<- <-]|[Hne Ht]]%lookup_insert_Some.
    + destruct Hlink as [(-> & E1 & E2 & _)|(-> & E1 & _)]; [exists c'; rewrite E1, lookup_insert_eq; done | done].
    + specialize (W2 b t Ht). destruct (has _ _); [|done]. destruct W2 as (d & Hd1 & Hb). exists d. rewrite lookup_insert_ne; [done|].
      intros E. rewrite <- E, Hc in Hd1. injection Hd1 as ->. destruct Hca as [E1|E1]; [|congruence]. rewrite E1 in Hb. subst b. destruct W0 as [W0 _]. congruence.
  - intros j d [[<- <-]|[Hne Hj]]%lookup_insert_Some Hn.
    + destruct Hlink as [(Hr & E1 & E2 & E3)|(_ & _ & E)]; [|done]. split; [done|]. exists s'. by rewrite E2, lookup_insert_eq.
    + destruct (W3 j d Hj Hn) as (Hcl & t & Ht & Hr & Ej). split; [done|]. exists t. rewrite lookup_insert_ne; [done|].
      intros E. rewrite <- E, Hs in Ht. injection Ht as ->.
      destruct W0 as (_ & _ & W0). destruct Hsk; congruence.
  - intros b t [[<- <-]|[Hne Ht]]%lookup_insert_Some Hn; [|by apply (W4 b t)]. rewrite Hg in Hn |- *. rewrite Hd. by apply (W4 a).
  - intros j g Hj. destruct (W5 j g Hj) as [Hst Hm]. split; [done|]. intros b Hb. destruct (Hm b Hb) as (t & Ht & Ej).
    destruct (decide (a = b)) as [<-|Hne]; [exists s'; rewrite lookup_insert_eq; split; [done | congruence] | exists t; by rewrite lookup_insert_ne].
  - done.
  - intros j Hj. rewrite lookup_insert_is_Some. destruct (decide (k = j)); [by left | right; split; [done | by apply W7]].
Qed.

Lemma evolves_linked reg m a k s s' c' : servs m !! a = Some s -> sv_name s' = sv_name s -> sv_group s' = sv_group s ->
  rtc (lstep (reg (sv_name s))) (life_of (sv_flags s)) (life_of (sv_flags s')) -> evolves reg m (linked a k s' c' m).
Proof.
  intros Hs Hn Hg Hr. unfold linked. constructor; cbn_mgr; [|intros j g Hj; by exists g | done]. intros b t Ht. destruct (decide (a = b)) as [<-|Hne].
  - exists s'. rewrite lookup_insert_eq. rewrite Hs in Ht. injection Ht as <-. done.
  - exists t. by rewrite lookup_insert_ne.
Qed.

(** What a connection has nothing to do with *)
Lemma evolves_conns reg m m' : servs m' = servs m -> sgs m' = sgs m -> sg_list m' = sg_list m -> sg_timers m' = sg_timers m -> evolves reg m m'.
Proof. intros E1 E2 E3 E4. constructor; rewrite ?E1, ?E2; [intros a s H; exists s; repeat split; done || apply rtc_refl | intros k g H; by exists g | done]. Qed.

(** ** Computations *)
Section links.
Context {O : Type} (os : syscall -> O -> sysret * O) (malloc : Z -> option (list Z)) (adm_defs : list fh_adm_def).
Context (fuel nest : nat) (system : list Z -> O -> (Z * Z * Z) * O) (serv_monitor : list Z -> O -> list Z * O).
Context (stack : list Z) (mgmt_stats_report : sg_rpt -> O -> unit * O) (seconds : O -> Z * O).
Context (Htable : fh_adm_init = Some (FH_OK, adm_defs)).
Context (Hmalloc : forall n b, malloc n = Some b -> Z.of_nat (length b) = n).
Context (Hwrite : forall fd data o, length data = 20%nat -> is_Some (fh_tcp_write os fuel fd data o)).
Notation mio := (mio (O := O)).
Notation spec := (spec (O := O)).

Lemma run_serv_at {B} m o a s (k : fh_serv -> mio B) : servs m !! a = Some s -> (s ← serv_at a; k s) (m, o) = k s (m, o).
Proof. intros H. unfold serv_at, gets, must, mbind, io_bind. by rewrite H. Qed.
Lemma run_sg_at {B} m o a s (k : fh_sg -> mio B) : sgs m !! a = Some s -> (s ← sg_at a; k s) (m, o) = k s (m, o).
Proof. intros H. unfold sg_at, gets, must, mbind, io_bind. by rewrite H. Qed.
Lemma run_conn_at {B} m o a s (k : fh_conn -> mio B) : conns m !! a = Some s -> (s ← conn_at a; k s) (m, o) = k s (m, o).
Proof. intros H. unfold conn_at, gets, must, mbind, io_bind. by rewrite H. Qed.
Lemma run_gets {A B} m o (f : mgr -> A) (k : A -> mio B) : (x ← gets f; k x) (m, o) = k (f m) (m, o).
Proof. done. Qed.
Lemma run_modify {B} m o F (k : unit -> mio B) : (x ← modify F; k x) (m, o) = k tt (F m, o).
Proof. done. Qed.
Lemma run_ret {A B} m o (x : A) (k : A -> mio B) : (y ← mret x; k y) (m, o) = k x (m, o).
Proof. done. Qed.
Lemma alter_at {A} (x : gmap Z A) k a F : x !! k = Some a -> alter F k x = <[k := F a]> x.
Proof. intros H. apply map_eq. intros j. destruct (decide (j = k)) as [->|Hne]; [by rewrite lookup_alter_eq, H, lookup_insert_eq | by rewrite lookup_alter_ne, lookup_insert_ne]. Qed.
(** One more change of the object that was changed *)
Lemma run_upd_serv {B} m o a s F (k : unit -> mio B) : servs m !! a = Some s ->
  (x ← upd_serv a F; k x) (m, o) = k tt (set_servs (<[a := F s]> (servs m)) m, o).
Proof. intros H. unfold upd_serv. by rewrite run_modify, (alter_at _ _ s). Qed.
Lemma run_upd_conn {B} m o a s F (k : unit -> mio B) : conns m !! a = Some s ->
  (x ← upd_conn a F; k x) (m, o) = k tt (set_conns (<[a := F s]> (conns m)) m, o).
Proof. intros H. unfold upd_conn. by rewrite run_modify, (alter_at _ _ s). Qed.
Lemma run_upd_sg {B} m o a s F (k : unit -> mio B) : sgs m !! a = Some s ->
  (x ← upd_sg a F; k x) (m, o) = k tt (set_sgs (<[a := F s]> (sgs m)) m, o).
Proof. intros H. unfold upd_sg. by rewrite run_modify, (alter_at _ _ s). Qed.

(** [fh_mgmt_serv_attach] *)
Definition attach_flags (f : Z) : Z :=
  set_bits FH_MGMT_SERV_RUNNING (clear_bits FH_MGMT_SERV_STARTED
    (if has f FH_MGMT_SERV_STARTED then f else set_bits FH_MGMT_SERV_STARTED (clear_bits FH_MGMT_SERV_STOPPED f))).
Definition may_attach (f : Z) : bool := has f FH_MGMT_SERV_STARTED || has f FH_MGMT_SERV_STOPPED.

Lemma attach_run (m : mgr) (o : O) a s k c : servs m !! a = Some s -> conns m !! k = Some c ->
  fh_mgmt_serv_attach a k (m, o) = Some (if may_attach (sv_flags s)
    then (FH_OK, (linked a k (set_serv_conn k (set_serv_flags (attach_flags (sv_flags s)) s)) (set_conn_serv a c) m, o)) else (FH_ERROR, (m, o))).
Proof.
  intros Hs Hc. unfold fh_mgmt_serv_attach. rewrite (run_serv_at _ _ _ s) by done. unfold may_attach, attach_flags.
  destruct (has (sv_flags s) FH_MGMT_SERV_STARTED) eqn:E1; cbn [negb andb orb].
  - rewrite run_ret. unfold upd_flags. rewrite (run_upd_serv _ _ _ s) by done. erewrite run_upd_serv by (cbn; apply lookup_insert_eq).
    rewrite (run_conn_at _ _ _ c) by done. rewrite (run_upd_conn _ _ _ c) by done. cbn_mgr. by rewrite insert_insert_eq.
  - destruct (has (sv_flags s) FH_MGMT_SERV_STOPPED) eqn:E2; cbn [negb]; [|done].
    unfold upd_flags. rewrite (run_upd_serv _ _ _ s) by done. erewrite run_upd_serv by (cbn; apply lookup_insert_eq).
    erewrite run_upd_serv by (cbn; apply lookup_insert_eq). rewrite (run_conn_at _ _ _ c) by done. rewrite (run_upd_conn _ _ _ c) by done. cbn_mgr. by rewrite !insert_insert_eq.
Qed.

(** [fh_mgmt_serv_detach] *)
Definition detach_flags (f : Z) : Z :=
  clear_bits (Z.lor FH_MGMT_SERV_RUNNING (Z.lor FH_MGMT_SERV_STOPPING FH_MGMT_SERV_ADMIN_STOPPING))
    (set_bits (if has f FH_MGMT_SERV_ADMIN_STOPPING then FH_MGMT_SERV_ADMIN_STOPPED else FH_MGMT_SERV_STOPPED) f).

Lemma detach_run (m : mgr) (o : O) a s c : servs m !! a = Some s -> conns m !! sv_conn s = Some c -> has (sv_flags s) FH_MGMT_SERV_RUNNING = true ->
  fh_mgmt_serv_detach system a (m, o) =
  (_ ← (if has (sv_flags s) FH_MGMT_SERV_RESTART then
          _ ← upd_flags a (clear_bits FH_MGMT_SERV_RESTART); rc ← fh_mgmt_serv_start system a; mret tt
        else mret tt);
   mret FH_OK) (linked a (sv_conn s) (set_serv_conn NULL (set_serv_flags (detach_flags (sv_flags s)) s)) (set_conn_serv NULL c) m, o).
Proof.
  intros Hs Hc Hrun. unfold fh_mgmt_serv_detach. rewrite (run_serv_at _ _ _ s) by done. rewrite Hrun. cbn [negb].
  unfold upd_flags. rewrite (run_upd_serv _ _ _ s) by done. do 2 erewrite run_upd_serv by (cbn; apply lookup_insert_eq).
  rewrite (run_conn_at _ _ _ c), (run_upd_conn _ _ _ c) by done. unfold linked. cbn_mgr. by rewrite !insert_insert_eq.
Qed.

Ltac bits := unfold flags_ok, life_of; flags; flag_cases.

(** A connection that closes takes its service along. *)
Lemma spec_detach reg (m : mgr) (o : O) a s c : wf m -> servs m !! a = Some s -> conns m !! sv_conn s = Some c -> conn_serv c = a ->
  has (sv_flags s) FH_MGMT_SERV_RUNNING = true ->
  spec reg m o (fh_mgmt_serv_detach system a) (fun rc m' => rc = FH_OK /\ conns m' = <[sv_conn s := set_conn_serv NULL c]> (conns m) /\ conn_list m' = conn_list m).
Proof.
  intros W Hs Hc Ha Hrun. destruct (wf_flags m W a s Hs) as [Hok Hfit].
  set (s1 := set_serv_conn NULL (set_serv_flags (detach_flags (sv_flags s)) s)). set (m1 := linked a (sv_conn s) s1 (set_conn_serv NULL c) m).
  assert (Hd : has (sv_flags s1) FH_MGMT_SERV_DISABLED = has (sv_flags s) FH_MGMT_SERV_DISABLED) by (cbn; unfold detach_flags; destruct (has _ FH_MGMT_SERV_ADMIN_STOPPING); flags; flag_cases).
  assert (W1 : wf m1).
  { apply (wf_linked m a (sv_conn s) s s1 c); try done; [by right | by right | | right; repeat split].
    - cbn. revert Hok Hrun. unfold flags_ok, detach_flags. destruct (has (sv_flags s) FH_MGMT_SERV_ADMIN_STOPPING); flags; flag_cases.
    - cbn. unfold detach_flags. destruct (has _ FH_MGMT_SERV_ADMIN_STOPPING); flags; flag_cases. }
  assert (V1 : evolves reg m m1).
  { apply (evolves_linked _ _ _ _ s); [done..|]. apply rtc_once. revert Hok Hrun. cbn. unfold flags_ok, life_of, detach_flags.
    destruct (has (sv_flags s) FH_MGMT_SERV_ADMIN_STOPPING); flags;
    repeat match goal with |- context [has ?f ?b] => destruct (has f b) end; try discriminate; constructor. }
  assert (Hs1 : servs m1 !! a = Some s1) by apply lookup_insert_eq.
  enough (spec reg m1 o (_ ← (if has (sv_flags s) FH_MGMT_SERV_RESTART then
          _ ← upd_flags a (clear_bits FH_MGMT_SERV_RESTART); rc ← fh_mgmt_serv_start system a; mret tt
        else mret tt); mret FH_OK) (fun rc m' => rc = FH_OK /\ conns m' = conns m1 /\ conn_list m' = conn_list m1)) as (r & m2 & o2 & E & W2 & V2 & Q).
  { exists r, m2, o2. rewrite (detach_run m o a s c) by done. split; [exact E|]. split; [done|]. split; [by eapply evolves_trans | exact Q]. }
  clearbody m1 s1. eapply (spec_bind _ _ _ _ _ (fun _ m' => conns m' = conns m1 /\ conn_list m' = conn_list m1)); [|intros; by apply spec_ret].
  apply spec_if; intros _; [|by apply spec_ret]. destruct (wf_flags m1 W1 a s1 Hs1) as [Hok1 _].
  eapply spec_bind; [eapply spec_upd_flags; [done | exact Hs1|..]|].
  - revert Hok1. bits.
  - flags; flag_cases.
  - intros g Hg Hgd. assert (Hn : sv_group s1 <> NULL) by (intros E; rewrite E in Hg; destruct (wf_null m1 W1) as (_ & W0 & _); congruence).
    destruct (wf_group m1 W1 a s1 Hs1 Hn) as (g' & Hg' & Hdis). rewrite Hg in Hg'. injection Hg' as <-. apply Hdis in Hgd. flags. by rewrite Hgd.
  - set (f := clear_bits _ _). assert (E : life_of f = life_of (sv_flags s1)) by (unfold f, life_of; flags; flag_cases). rewrite E. apply rtc_refl.
  - intros [] m2 o2 W2 _ ->. eapply spec_bind; [eapply (spec_started system serv_monitor stack); [done | cbn; apply lookup_insert_eq]|]. intros rc m3 o3 W3 _ [E1 E2]. by apply spec_ret.
Qed.

(** A connection that has no service *)
Lemma spec_upd_conn_put reg m o k c F : wf m -> conns m !! k = Some c -> conn_serv c = NULL -> conn_serv (F c) = NULL ->
  spec reg m o (upd_conn k F) (fun _ m' => m' = set_conns (<[k := F c]> (conns m)) m).
Proof.
  intros W Hc H0 H1. set (m1 := set_conns (<[k := F c]> (conns m)) m). exists tt, m1, o. split; [|split; [|split; [by apply evolves_conns | done]]].
  - unfold upd_conn, modify. by rewrite (alter_at _ _ c).
  - apply wf_put_conn; [done | | done |].
    + intros ->. destruct (wf_null m W) as (_ & _ & W0). congruence.
    + intros c0 Hc0. congruence.
Qed.

Lemma attach_lives (r : bool) f : flags_ok f = true -> may_attach f = true -> r = true -> rtc (lstep r) (life_of f) (life_of (attach_flags f)).
Proof.
  intros Hok Hm ->. apply rtc_once. revert Hok Hm. unfold flags_ok, may_attach, life_of, attach_flags. destruct (has f FH_MGMT_SERV_STARTED) eqn:E; flags; rewrite ?E;
  repeat match goal with |- context [has ?f ?b] => destruct (has f b) end; try discriminate; by constructor.
Qed.
Lemma attach_flags_ok f : flags_ok f = true -> may_attach f = true ->
  flags_ok (attach_flags f) = true /\ has (attach_flags f) FH_MGMT_SERV_RUNNING = true /\
  has (attach_flags f) FH_MGMT_SERV_DISABLED = has f FH_MGMT_SERV_DISABLED /\ has f FH_MGMT_SERV_RUNNING = false.
Proof. unfold flags_ok, may_attach, attach_flags. destruct (has f FH_MGMT_SERV_STARTED) eqn:E; intros Hok Hm; repeat split; revert Hok Hm; flags; rewrite ?E; flag_cases; discriminate. Qed.

Lemma spec_attach reg (m : mgr) (o : O) a s k c : wf m -> servs m !! a = Some s -> conns m !! k = Some c -> conn_serv c = NULL ->
  conn_cltype c = FH_MGMT_CL_SERVICE -> reg (sv_name s) = true ->
  spec reg m o (fh_mgmt_serv_attach a k) (fun _ m' => is_Some (conns m' !! k) /\ exists s', servs m' !! a = Some s' /\ sv_group s' = sv_group s).
Proof.
  intros W Hs Hc Hn Ht Hr. destruct (wf_flags m W a s Hs) as [Hok Hfit]. destruct (may_attach (sv_flags s)) eqn:Em.
  - destruct (attach_flags_ok _ Hok Em) as (Hok' & Hrun' & Hdis & Hrun). pose proof (wf_conn m W a s Hs) as Hcs. rewrite Hrun in Hcs.
    eexists FH_OK, _, o. split; [rewrite (attach_run m o a s k c) by done; rewrite Em; reflexivity|]. split; [|split; [|split]].
    + apply (wf_linked m a k s _ c); try done; [by left | by left |]. left. by repeat split.
    + apply (evolves_linked _ _ _ _ s); [done..|]. by apply attach_lives.
    + exists (set_conn_serv a c). apply lookup_insert_eq.
    + eexists. split; [apply lookup_insert_eq | done].
  - exists FH_ERROR, m, o. split; [rewrite (attach_run m o a s k c) by done; by rewrite Em|]. split; [done|]. split; [apply evolves_refl|].
    split; [by exists c | by exists s].
Qed.

Lemma spec_send reg (m : mgr) (o : O) fd cmd tid x : wf m -> word_message cmd -> 0 <= tid < 4294967296 ->
  spec reg m o (lift (fh_adm_send adm_defs os malloc fuel nest fd cmd tid (le_bytes 4 x))) (fun _ m' => m' = m).
Proof.
  intros W Hw Ht. destruct (send_word os malloc adm_defs fuel nest Htable Hmalloc Hwrite fd cmd tid x o Hw Ht) as (rc & o' & E).
  exists rc, m, o'. split; [unfold lift; by rewrite E|]. split; [done|]. split; [apply evolves_refl | done].
Qed.
Notation conn_client_registration := (conn_client_registration os malloc adm_defs fuel nest stack).

(** The name in a request that was taken apart *)
Definition registers (data name : list Z) : Prop :=
  exists rc req, fh_adm_parse adm_defs nest FH_ADM_CMD_REG_REQ data (take (Z.to_nat sizeof_reg_req) stack) = Some (rc, req) /\
    is_Some (read_le req reg_type 2) /\ is_Some (read_le req reg_pid 4) /\ c_string (drop (Z.to_nat reg_srv) req) = Some name /\
    exists tid, read_le data cmd_tid 4 = Some tid /\ 0 <= tid < 4294967296.

Lemma spec_registration (m : mgr) (o : O) k c data name : wf m -> conns m !! k = Some c -> conn_serv c = NULL -> registers data name ->
  spec (fun n => bool_decide (n = name)) m o (conn_client_registration k data) (fun _ m' => is_Some (conns m' !! k)).
Proof.
  intros W Hc Hn (rc & req & Hp & [type Hty] & [pid Hpid] & Hname & tid & Htid & Hrange). unfold Manager.conn_client_registration. rewrite Hp.
  apply spec_must. apply spec_if; intros _; [apply spec_ret; [done | by exists c]|]. rewrite Hty, Hpid, Hname. do 3 apply spec_must.
  eapply spec_bind; [by apply (spec_upd_conn_put _ _ _ _ c)|]. intros [] m1 o1 W1 _ ->.
  set (m1 := set_conns _ _) in *. set (c1 := set_conn_client type pid c) in *. assert (Hc1 : conns m1 !! k = Some c1) by apply lookup_insert_eq.
  assert (Hn1 : conn_serv c1 = NULL) by done. assert (Ht1 : conn_cltype c1 = type) by done. clearbody m1 c1.
  eapply (spec_bind _ _ _ _ _ (fun _ m' => is_Some (conns m' !! k))).
  - apply spec_if; intros Hs; [|apply spec_ret; [done | by exists c1]]. apply Z.eqb_eq in Hs. subst type.
    eapply spec_bind; [by apply spec_serv_lookup|]. intros a m2 o2 W2 _ [-> Ha]. cbn beta. apply spec_if; intros Hnull; [apply spec_ret; [done | by exists c1]|].
    destruct (Ha ltac:(by apply Z.eqb_neq)) as (s & Hs' & Hg & Hnm). eapply spec_bind; [apply (spec_attach _ _ _ _ s _ c1); try done; by apply bool_decide_eq_true_2|].
    intros rc2 m3 o3 W3 _ [Hk (s3 & Hs3 & Hg3)]. apply spec_if; intros _; [by apply spec_ret|]. apply (spec_serv_at _ _ _ _ s3); [done|]. rewrite Hg3.
    destruct (wf_group m3 W3 a s3 Hs3 ltac:(by rewrite Hg3)) as (g & Eg & _). rewrite Hg3 in Eg. apply (spec_sg_at _ _ _ _ g); [done|].
    eapply spec_bind; [by apply spec_upd_sg|]. intros [] m4 o4 W4 _ ->. by apply spec_ret.
  - intros rc3 m2 o2 W2 _ [c2 Hc2]. apply spec_if; intros _; [apply spec_ret; [done | by exists c2]|]. apply (spec_conn_at _ _ _ _ c2); [done|].
    rewrite Htid. apply spec_must. eapply spec_weaken; [apply spec_send; [done | by right | done]|]. intros r m' _ _ ->. by exists c2.
Qed.

(** ** Opening and closing connections *)

Lemma spec_modify reg (m : mgr) (o : O) F : wf (F m) -> evolves reg m (F m) -> spec reg m o (modify F) (fun _ m' => m' = F m).
Proof. intros W V. by exists tt, (F m), o. Qed.
Lemma spec_modify_conns reg (m : mgr) (o : O) F : wf (F m) -> servs (F m) = servs m -> sgs (F m) = sgs m -> sg_list (F m) = sg_list m ->
  sg_timers (F m) = sg_timers m -> spec reg m o (modify F) (fun _ m' => m' = F m).
Proof. intros W E1 E2 E3 E4. apply spec_modify; [done|]. by apply evolves_conns. Qed.

Lemma spec_max_fd reg : forall l (m : mgr) (o : O) f, wf m -> (forall k, k ∈ l -> is_Some (conns m !! k)) -> spec reg m o (max_fd l f) (fun _ m' => m' = m).
Proof.
  induction l as [|k l IH]; intros m o f W Hl; [by apply spec_ret|]. cbn [max_fd]. destruct (Hl k ltac:(left)) as [c Hc].
  apply (spec_conn_at _ _ _ _ c); [done|]. apply IH; [done|]. intros j Hj. apply Hl. by right.
Qed.

Lemma spec_sys reg (m : mgr) (o : O) c : wf m -> spec reg m o (lift (sys os c)) (fun _ m' => m' = m).
Proof.
  intros W. destruct (os c o) as [r o'] eqn:E. exists r, m, o'. split; [unfold lift, sys; by rewrite E|]. split; [done|]. by split; [apply evolves_refl|].
Qed.
Lemma spec_free reg (m : mgr) (o : O) k c : wf m -> conns m !! k = Some c -> spec reg m o (conn_free os system k) (fun _ m' => conns m' !! k = None).
Proof.
  intros W Hc. unfold conn_free. apply (spec_conn_at _ _ _ _ c); [done|].
  eapply (spec_bind _ _ _ _ _ (fun _ m' => exists c', conns m' !! k = Some c' /\ conn_serv c' = NULL)).
  { apply spec_if; intros Hn; [|apply spec_ret; [done|]; exists c; split; [done|]; by apply negb_false_iff, Z.eqb_eq in Hn].
    apply negb_true_iff, Z.eqb_neq in Hn. destruct (wf_serv m W k c Hc Hn) as (_ & s & Hs & Hrun & Hk). rewrite <- Hk in Hc.
    eapply spec_bind; [by apply (spec_detach _ _ _ _ s c)|]. intros rc m1 o1 W1 _ (-> & E & _). cbn beta. apply spec_guard; [done|].
    apply spec_ret; [done|]. exists (set_conn_serv NULL c). by rewrite E, Hk, lookup_insert_eq. }
  intros [] m1 o1 W1 _ (c1 & Hc1 & Hn1). eapply spec_bind.
  { apply spec_modify_conns; [|done..]. apply wf_conn_lists; [done|]. intros j [_ Hj]%list_elem_of_filter. by apply (wf_conn_list m1). }
  intros [] m2 o2 W2 _ ->. eapply (spec_bind _ _ _ _ _ (fun _ m' => m' = set_conn_list (filter (fun d => d <> k) (conn_list m1)) m1)).
  { by apply spec_sys. }
  intros sysres m3 o3 W3 _ ->. eapply spec_bind; [apply spec_modify_conns; [by apply wf_fds | done..]|]. intros [] m4 o4 W4 _ ->.
  eapply spec_bind.
  { apply spec_modify_conns; [|done..]. apply (wf_drop_conn _ _ c1); [done.. |]. cbn. intros [H _]%list_elem_of_filter. done. }
  intros [] m5 o5 W5 _ ->. apply spec_gets. eapply spec_bind; [apply spec_max_fd; [done|]|].
  { intros j Hj. by apply (wf_conn_list _ W5). }
  intros fd m6 o6 W6 _ ->. eapply spec_weaken; [apply spec_modify_conns; [by apply wf_fds | done..]|].
  intros [] m7 _ _ ->. cbn. apply lookup_delete_eq.
Qed.

(** [fh_mgmt_conn_new] *)
Lemma spec_conn_new reg (m : mgr) (o : O) k type fd addr port : wf m -> conns m !! k = None -> 0 <= fd < 1024 ->
  spec reg m o (fh_mgmt_conn_new k type fd addr port) (fun _ m' => forall j, is_Some (conns m !! j) -> is_Some (conns m' !! j)).
Proof.
  intros W Hk Hfd. unfold fh_mgmt_conn_new. apply spec_if; intros Hn; [by apply spec_ret|]. apply Z.eqb_neq in Hn. eapply spec_bind.
  { apply spec_modify_conns; [|done..]. apply wf_next, wf_put_conn; [done..|]. intros c0 Hc0. congruence. }
  intros [] m1 o1 W1 _ ->. apply spec_guard; [done|]. eapply spec_bind; [apply spec_modify_conns; [by apply wf_fds | done..]|].
  intros [] m2 o2 W2 _ ->. eapply spec_bind; [apply spec_modify_conns; [|done..]|].
  - apply wf_conn_lists; [done|]. cbn. intros j [Hj| ->%list_elem_of_singleton]%elem_of_app.
    + apply (wf_conn_list m W) in Hj. destruct Hj as [d Hj]. exists d. rewrite lookup_insert_ne; [done|]. congruence.
    + rewrite lookup_insert_eq. by eexists.
  - intros [] m3 o3 W3 _ ->. apply spec_ret; [done|]. intros j [d Hj]. cbn. rewrite lookup_insert_is_Some. destruct (decide (k = j)); [by left | right; split; [done | by exists d]].
Qed.
End links.
