(* ===== verification/ManagerTheorems.v ===== *)
(** * The manager: theorems

    From a configuration without statistics reports, the loader makes a memory
    in order; from the start on, whatever clients ask for and services do, it
    stays in order. *)
From S2P Require Import Prelude Bytes Mpool Config ConfigLoad ConfigTheorems ShrCfgTheorems Sock SockProps Admin AdminWire AdminTheorems Service Manager ServiceProps ServiceTheorems.

(** ** New objects *)

Lemma wf_new_group m k g : wf m -> k <> NULL -> sgs m !! k = None -> g_servs g = [] -> has (g_flags g) FH_MGMT_SG_STATS = false ->
  wf (set_sg_list (sg_list m ++ [k]) (set_sgs (<[k := g]> (sgs m)) m)).
Proof.
  intros [W0 W1 W2 W3 W4 W5 W6 W7] Hn Hk Hs Hf. constructor; cbn_mgr; try done.
  - repeat split; try apply W0. rewrite lookup_insert_ne by done. apply W0.
  - intros a s Ha Hg. destruct (W4 a s Ha Hg) as (h & Eh & Hd). exists h. rewrite lookup_insert_ne; [done|]. congruence.
  - intros j h [[<- <-]|[Hne Hh]]%lookup_insert_Some; [|by apply W5]. split; [done|]. rewrite Hs. intros a Ha. by apply not_elem_of_nil in Ha.
  - intros j [[Hj| ->%list_elem_of_singleton]%elem_of_app|Hj]; [| by rewrite lookup_insert_eq; eexists |];
      (rewrite lookup_insert_is_Some; destruct (decide (k = j)); [by left | right; split; [done | apply W6; auto]]).
Qed.

Lemma wf_new_serv m a s : wf m -> a <> NULL -> servs m !! a = None -> flags_ok (sv_flags s) = true -> has (sv_flags s) FH_MGMT_SERV_RUNNING = false ->
  command_fits s -> sv_conn s = NULL -> sv_group s = NULL -> wf (set_servs (<[a := s]> (servs m)) m).
Proof.
  intros [W0 W1 W2 W3 W4 W5 W6 W7] Hn Ha Hok Hr Hfit Hc Hg. constructor; cbn_mgr; try done.
  - repeat split; try apply W0. rewrite lookup_insert_ne by done. apply W0.
  - intros b t [[<- <-]|[Hne Ht]]%lookup_insert_Some; [done | by apply (W1 b)].
  - intros b t [[<- <-]|[Hne Ht]]%lookup_insert_Some; [by rewrite Hr | by apply (W2 b)].
  - intros k c Hk Hs. destruct (W3 k c Hk Hs) as (Hcl & t & Ht & Hrt & Ek). split; [done|]. exists t. rewrite lookup_insert_ne; [done|]. congruence.
  - intros b t [[<- <-]|[Hne Ht]]%lookup_insert_Some Hgn; [done | by apply (W4 b)].
  - intros k g Hk. destruct (W5 k g Hk) as [Hst Hm]. split; [done|]. intros b Hb. destruct (Hm b Hb) as (t & Ht & Ek). exists t.
    rewrite lookup_insert_ne; [done|]. congruence.
Qed.

Lemma wf_add m a s s' k g g' : wf m -> servs m !! a = Some s -> sgs m !! k = Some g -> sv_group s = NULL ->
  sv_group s' = k -> sv_conn s' = sv_conn s -> has (sv_flags s') FH_MGMT_SERV_RUNNING = has (sv_flags s) FH_MGMT_SERV_RUNNING ->
  flags_ok (sv_flags s') = true -> command_fits s' -> (has (g_flags g) FH_MGMT_SG_DISABLED = true -> has (sv_flags s') FH_MGMT_SERV_DISABLED = true) ->
  g_servs g' = g_servs g ++ [a] -> g_flags g' = g_flags g ->
  wf (set_sgs (<[k := g']> (sgs m)) (set_servs (<[a := s']> (servs m)) m)).
Proof.
  intros [W0 W1 W2 W3 W4 W5 W6 W7] Hs Hg Hgrp Hk Hc Hr Hok Hfit Hdis Hgs Hgf.
  assert (Ha : a <> NULL) by (intros ->; destruct W0 as [W0 _]; congruence). assert (Hkn : k <> NULL) by (intros ->; destruct W0 as (_ & W0 & _); congruence).
  constructor; cbn_mgr; try done.
  - rewrite !lookup_insert_ne by done. done.
  - intros b t [[<- <-]|[Hne Ht]]%lookup_insert_Some; [done | by apply (W1 b)].
  - intros b t [[<- <-]|[Hne Ht]]%lookup_insert_Some; [rewrite Hr, Hc; by apply (W2 a) | by apply (W2 b)].
  - intros j c Hj Hn. destruct (W3 j c Hj Hn) as (Hcl & t & Ht & Hrt & Ek). split; [done|]. destruct (decide (a = conn_serv c)) as [E|Hne].
    + rewrite <- E in Ht |- *. exists s'. rewrite lookup_insert_eq, Hr, Hc. rewrite Hs in Ht. by injection Ht as <-.
    + exists t. by rewrite lookup_insert_ne.
  - intros b t [[<- <-]|[Hne Ht]]%lookup_insert_Some Hn.
    + exists g'. by rewrite Hk, lookup_insert_eq, Hgf.
    + destruct (W4 b t Ht Hn) as (h & Eh & Hd). destruct (decide (k = sv_group t)) as [E|Hne2]; [|exists h; by rewrite lookup_insert_ne].
      rewrite <- E in Eh |- *. exists g'. rewrite lookup_insert_eq, Hgf. rewrite Hg in Eh. by injection Eh as <-.
  - intros j h [[<- <-]|[Hne Hh]]%lookup_insert_Some.
    + destruct (W5 k g Hg) as [Hst Hm]. rewrite Hgf, Hgs. split; [done|]. intros b [Hb| ->%list_elem_of_singleton]%elem_of_app.
      * destruct (Hm b Hb) as (t & Ht & Ek). exists t. rewrite lookup_insert_ne; [done|]. congruence.
      * exists s'. by rewrite lookup_insert_eq.
    + destruct (W5 j h Hh) as [Hst Hm]. split; [done|]. intros b Hb. destruct (Hm b Hb) as (t & Ht & Ek). exists t. rewrite lookup_insert_ne; [done|].
      intros <-. rewrite Hs in Ht. injection Ht as <-. rewrite Hgrp in Ek. subst j. destruct W0 as (_ & W0 & _). congruence.
  - intros j Hj. rewrite lookup_insert_is_Some. destruct (decide (k = j)); [by left | right; split; [done | by apply W6]].
Qed.

(** ** The loader *)
Section start.
Context {O : Type} (os : syscall -> O -> sysret * O) (seconds : O -> Z * O) (sg_block : nat -> Z) (serv_block : nat -> nat -> Z) (conn_block : Z).
Notation mio := (mio (O := O)).

(** [c] returns, and [Q] holds of the result and the memory. *)
Definition returns {A} (m : mgr) (o : O) (c : mio A) (Q : A -> mgr -> Prop) : Prop := exists r m' o', c (m, o) = Some (r, (m', o')) /\ Q r m'.
Lemma returns_ret {A} m o (a : A) (Q : A -> mgr -> Prop) : Q a m -> returns m o (mret a) Q.
Proof. intros H. by exists a, m, o. Qed.
Lemma returns_bind {A B} m o (c : mio A) (k : A -> mio B) Q R :
  returns m o c Q -> (forall r m' o', Q r m' -> returns m' o' (k r) R) -> returns m o (c ≫= k) R.
Proof.
  intros (r & m1 & o1 & E1 & Q1) Hk. destruct (Hk r m1 o1 Q1) as (r2 & m2 & o2 & E2 & R2). exists r2, m2, o2.
  by rewrite (io_step _ _ _ _ _ E1).
Qed.
Lemma returns_must {A B} m o (x : A) (k : A -> mio B) Q : returns m o (k x) Q -> returns m o (y ← must (Some x); k y) Q.
Proof. done. Qed.
Lemma run_guard {B} (m : mgr) (o : O) P `{!Decision P} (k : mio B) : P -> (_ ← must (guard P); k) (m, o) = k (m, o).
Proof. intros HP. unfold must, mbind, io_bind, guard_or. by destruct (decide P). Qed.
Lemma returns_run {A} m o (c c' : mio A) m1 o1 Q : c (m, o) = c' (m1, o1) -> returns m1 o1 c' Q -> returns m o c Q.
Proof. intros E (r & m' & o' & E' & HQ). exists r, m', o'. by rewrite E. Qed.
Lemma returns_spec {A} reg m o (c : mio A) Q : spec reg m o c Q -> returns m o c (fun r m' => wf m' /\ Q r m').
Proof. intros (r & m' & o' & E & W & _ & HQ). by exists r, m', o'. Qed.

Definition new_group (m m' : mgr) (k : Z) (g : fh_sg) : Prop := m' = set_sg_list (sg_list m ++ [k]) (set_sgs (<[k := g]> (sgs m)) m).

Lemma sg_new_returns m o k name rn rt dis :
  returns m o (fh_mgmt_sg_new seconds k name rn rt 0 dis) (fun r m' =>
    r = NULL /\ m' = m \/ r = k /\ k <> NULL /\ exists g, new_group m m' k g /\ g_servs g = [] /\ g_serv_count g = 0 /\ g_name g = name /\
      has (g_flags g) FH_MGMT_SG_STATS = false).
Proof.
  unfold fh_mgmt_sg_new. destruct (Z.eqb_spec k NULL) as [->|Hk]; [apply returns_ret; by left|].
  unfold returns. rewrite run_gets, run_modify.
  set (g0 := MkSg _ _ _ _ _ _ _ _ _ _ _ _ _). set (m0 := set_sgs _ m). change (0 <? 0) with false. cbn iota.
  assert (Hg0 : sgs m0 !! k = Some g0) by (cbn; apply lookup_insert_eq).
  assert (Hf0 : has (g_flags g0) FH_MGMT_SG_STATS = false) by (cbn; by destruct dis).
  assert (exists g1 o1, (if 0 <? rt then fh_mgmt_sg_restart_time seconds k rt else mret tt) (m0, o) = Some (tt, (set_sgs (<[k := g1]> (sgs m0)) m0, o1)) /\
    g_servs g1 = [] /\ g_serv_count g1 = 0 /\ g_name g1 = name /\ has (g_flags g1) FH_MGMT_SG_STATS = false) as (g1 & o1 & E1 & H1 & H2 & H3 & H4).
  { destruct (0 <? rt).
    - unfold fh_mgmt_sg_restart_time. rewrite (run_sg_at _ _ _ g0) by done. cbn zeta. destruct (seconds o) as [now o1] eqn:Es.
      eexists _, o1. split; [unfold call, mbind, io_bind; rewrite Es; unfold upd_sg, modify; rewrite (alter_at _ _ g0) by done; reflexivity|].
      repeat split. cbn [set_g_flags g_flags]. destruct (has (g_flags g0) FH_MGMT_SG_RESTART); cbn [negb]; [done|]. rewrite has_set, Hf0. done.
    - exists g0, o. split; [|done]. rewrite insert_id by done. reflexivity. }
  rewrite (io_step _ _ _ _ _ E1). rewrite (run_ret (O := O)). rewrite (run_upd_sg _ _ _ g1) by (cbn; apply lookup_insert_eq). rewrite run_modify.
  unfold m0. cbn_mgr. rewrite !insert_insert_eq.
  eexists k, _, o1. split; [reflexivity|]. right. split; [done|]. split; [done|]. eexists. split; [reflexivity|].
  repeat split; try done. cbn [set_g_flags g_flags]. by rewrite has_set, H4.
Qed.

(** *** Configurations that fit *)

(** The command with its arguments fits in its buffer. *)
Definition serv_fits (serv_node : cfg_node) : Prop := forall command args,
  fh_cfg_get_string (Some serv_node) (c_str "command") = Some (Some command) -> fh_cfg_get_string (Some serv_node) (c_str "args") = Some args ->
  (length (command ++ 32%Z :: default [] args) < 1024)%nat.
(** No statistics, and at most 32 services *)
Definition group_fits (group : cfg_node) : Prop :=
  yesno_or 0 group (c_str "stats") = Some false /\
  forall services, fh_cfg_get_node (Some group) (c_str "services") = Some (Some services) ->
    (length (cfg_children services) <= 32)%nat /\ Forall serv_fits (cfg_children services).
Definition config_fits (config : cfg_node) : Prop :=
  forall node, fh_cfg_get_node (Some config) (c_str "fhmgr.service_groups") = Some (Some node) -> Forall group_fits (cfg_children node).

Lemma string_read t s : name_ok s -> exists v, fh_cfg_get_string (Some t) s = Some v.
Proof. intros H. rewrite get_string_child by done. by eexists. Qed.
(** A name with one period *)
Lemma path_read t a b : name_ok a -> name_ok b -> exists v, fh_cfg_get_node (Some t) (a ++ 46 :: b) = Some v.
Proof.
  intros [Ha1 Ha2] [Hb1 Hb2]. change (a ++ 46 :: b) with (path_str [a; b]). rewrite cfg_get_node_path; [by eexists | by repeat constructor | by cbn; rewrite Ha2, Hb2].
Qed.
Lemma yesno_read dflt t s : name_ok s -> exists b, yesno_or dflt t s = Some b.
Proof. intros H. unfold yesno_or. destruct (string_read t s H) as [v ->]. by eexists. Qed.
Lemma seconds_read on t s : name_ok s -> exists v, seconds_if on t s = Some v.
Proof.
  intros H. unfold seconds_if, seconds_of. destruct on; [|by eexists]. destruct (string_read t s H) as [[v|] ->]; [|by eexists].
  cbn [mbind option_bind]. destruct (strtol v). by eexists.
Qed.

(** The names that are looked for *)
Ltac const_name := split; [repeat constructor; vm_compute; congruence | by vm_compute].

Definition old_or_new (m m' : mgr) (k r : Z) : Prop :=
  r = NULL /\ m' = m \/ r = k /\ k <> NULL /\ exists g, new_group m m' k g /\ g_servs g = [] /\ g_serv_count g = 0 /\ has (g_flags g) FH_MGMT_SG_STATS = false.

Lemma sg_load_returns m o k group : group_fits group -> returns m o (cfg_sg_load seconds k group) (fun r m' => old_or_new m m' k r).
Proof.
  intros [Hst _]. unfold cfg_sg_load. destruct (string_read group (c_str "report_name") ltac:(const_name)) as [[rn|] ->]; apply returns_must; [|apply returns_ret; by left].
  destruct (yesno_read 1 group (c_str "disable") ltac:(const_name)) as [dis ->]. rewrite Hst. do 2 apply returns_must.
  change (seconds_if false group (c_str "stats_interval")) with (Some (Some 0)). apply returns_must.
  destruct (yesno_read 0 group (c_str "restart") ltac:(const_name)) as [rst ->]. apply returns_must.
  destruct (seconds_read rst group (c_str "restart_time") ltac:(const_name)) as [[rt|] ->]; apply returns_must; [|apply returns_ret; by left].
  destruct (sg_new_returns m o k (cfg_name group) rn rt dis) as (r & m' & o' & E & H). exists r, m', o'. split; [exact E|].
  destruct H as [H|(-> & Hk & g & Hg & H1 & H2 & _ & H3)]; [by left|]. right. split; [done|]. split; [done|]. by exists g.
Qed.

(** A service that was just made *)
Definition new_serv (s : fh_serv) : Prop :=
  flags_ok (sv_flags s) = true /\ has (sv_flags s) FH_MGMT_SERV_RUNNING = false /\ command_fits s /\ sv_conn s = NULL /\ sv_group s = NULL.
Definition cfg_flags (disable stats shutdown cli : bool) (action : Z) : Z :=
  let f := set_bits FH_MGMT_SERV_STOPPED (if disable then FH_MGMT_SERV_DISABLED else FH_MGMT_SERV_ENABLED) in
  let f := if stats then set_bits FH_MGMT_SERV_STATS f else f in
  let f := if shutdown then set_bits FH_MGMT_SERV_SHUTDOWN f else f in
  if cli then set_bits FH_MGMT_SERV_CLI (set_bits action f) else set_bits action f.
Lemma cfg_flags_ok disable stats shutdown cli action :
  action = FH_MGMT_SERV_WAIT \/ action = FH_MGMT_SERV_SPAWN \/ action = FH_MGMT_SERV_RESPAWN ->
  flags_ok (cfg_flags disable stats shutdown cli action) = true /\ has (cfg_flags disable stats shutdown cli action) FH_MGMT_SERV_RUNNING = false.
Proof. intros [-> |[-> | ->]]; destruct disable, stats, shutdown, cli; by vm_compute. Qed.

Definition made (m m' : mgr) (k r : Z) : Prop :=
  r = NULL /\ m' = m \/ r = k /\ k <> NULL /\ exists s, m' = set_servs (<[k := s]> (servs m)) m /\ new_serv s.

Lemma serv_new_made (m : mgr) (o : O) k name command args disable stats shutdown (cli : bool) action :
  (length (command ++ 32%Z :: default [] args) < 1024)%nat ->
  returns m o (serv ← fh_mgmt_serv_new k name command args disable stats shutdown action;
    if serv =? NULL then mret NULL
    else _ ← (if cli then upd_flags serv (set_bits FH_MGMT_SERV_CLI) else mret tt); mret serv) (fun r m' => made m m' k r).
Proof.
  intros Hfit. unfold fh_mgmt_serv_new. destruct (Z.eqb_spec k NULL) as [->|Hk]; [apply returns_ret; by left|].
  assert (Hmake : forall a, a = FH_MGMT_SERV_WAIT \/ a = FH_MGMT_SERV_SPAWN \/ a = FH_MGMT_SERV_RESPAWN ->
    returns m o (serv ← (_ ← modify (fun g => set_servs (<[k := MkServ name command args NULL 0 (cfg_flags disable stats shutdown false a) NULL]> (servs g)) g); mret k);
      if serv =? NULL then mret NULL
      else _ ← (if cli then upd_flags serv (set_bits FH_MGMT_SERV_CLI) else mret tt); mret serv) (fun r m' => made m m' k r)).
  { intros a Ha. set (s := MkServ _ _ _ _ _ _ _). eapply (returns_bind _ _ _ _ (fun r m' => r = k /\ m' = set_servs (<[k := s]> (servs m)) m)); [by eexists _, _, _|].
    intros r m1 o1 [-> ->]. rewrite (proj2 (Z.eqb_neq k NULL)) by done.
    eapply (returns_bind _ _ _ _ (fun _ m' => m' = set_servs (<[k := set_serv_flags (cfg_flags disable stats shutdown cli a) s]> (servs m)) m)).
    - destruct cli; [|by eexists _, _, _]. eexists _, _, _. split; [reflexivity|]. rewrite (alter_at _ _ s) by apply lookup_insert_eq. cbn_mgr. by rewrite insert_insert_eq.
    - intros [] m2 o2 ->. apply returns_ret. right. split; [done|]. split; [done|]. eexists. split; [done|].
      destruct (cfg_flags_ok disable stats shutdown cli a Ha) as [H1 H2]. by repeat split. }
  case_bool_decide; [apply (Hmake FH_MGMT_SERV_WAIT); auto|]. case_bool_decide; [apply (Hmake FH_MGMT_SERV_SPAWN); auto|].
  case_bool_decide; [apply (Hmake FH_MGMT_SERV_RESPAWN); auto|]. apply returns_ret. by left.
Qed.

Lemma serv_load_returns m o k serv_node : serv_fits serv_node -> returns m o (cfg_serv_load k serv_node) (fun r m' => made m m' k r).
Proof.
  intros Hfit. unfold cfg_serv_load.
  destruct (yesno_read 1 serv_node (c_str "disable") ltac:(const_name)) as [disable ->]. apply returns_must.
  destruct (yesno_read 0 serv_node (c_str "cli") ltac:(const_name)) as [cli ->]. apply returns_must.
  destruct (yesno_read 0 serv_node (c_str "stats") ltac:(const_name)) as [stats ->]. apply returns_must.
  destruct (yesno_read 0 serv_node (c_str "shutdown") ltac:(const_name)) as [shutdown ->]. apply returns_must.
  destruct (string_read serv_node (c_str "action") ltac:(const_name)) as [[action|] ->]; apply returns_must; [|apply returns_ret; by left].
  destruct (string_read serv_node (c_str "command") ltac:(const_name)) as [[command|] Ec]; rewrite Ec; apply returns_must; [|apply returns_ret; by left].
  destruct (string_read serv_node (c_str "args") ltac:(const_name)) as [args Ea]. rewrite Ea. apply returns_must. apply serv_new_made. by apply Hfit.
Qed.

Lemma add_returns m o a s k g : wf m -> servs m !! a = Some s -> new_serv s -> sgs m !! k = Some g -> 0 <= g_serv_count g < 32 ->
  returns m o (fh_mgmt_sg_add_serv k a) (fun r m' => r = FH_OK /\ wf m' /\ exists s' g', m' = set_sgs (<[k := g']> (sgs m)) (set_servs (<[a := s']> (servs m)) m) /\
    g_serv_count g' = g_serv_count g + 1).
Proof.
  intros W Hs (Hok & Hrun & Hfit & Hconn & Hgrp) Hg Hcnt. unfold fh_mgmt_sg_add_serv. eapply returns_run; [by apply run_sg_at|].
  eapply returns_run; [by apply run_serv_at|]. rewrite Hgrp. change (NULL =? NULL) with true. cbn [negb].
  unfold returns. rewrite run_guard by lia. rewrite (run_upd_serv _ _ _ s) by done. set (s1 := set_serv_group _ k s).
  set (f := clear_bits FH_MGMT_SERV_STOPPED (clear_bits FH_MGMT_SERV_ENABLED (set_bits FH_MGMT_SERV_DISABLED (sv_flags s)))).
  set (s2 := if has (g_flags g) FH_MGMT_SG_DISABLED then if negb (has (sv_flags s) FH_MGMT_SERV_DISABLED) then set_serv_flags f s1 else s1 else s1).
  assert (E : (if has (g_flags g) FH_MGMT_SG_DISABLED then if negb (has (sv_flags s) FH_MGMT_SERV_DISABLED) then
      upd_flags a (fun f => clear_bits FH_MGMT_SERV_STOPPED (clear_bits FH_MGMT_SERV_ENABLED (set_bits FH_MGMT_SERV_DISABLED f))) else mret tt else mret tt)
    (set_servs (<[a := s1]> (servs m)) m, o) = Some (tt, (set_servs (<[a := s2]> (servs m)) m, o))).
  { unfold s2. destruct (has (g_flags g) FH_MGMT_SG_DISABLED); [|done]. destruct (has (sv_flags s) FH_MGMT_SERV_DISABLED); [done|]. cbn [negb].
    unfold upd_flags, upd_serv, modify. rewrite (alter_at _ _ s1) by apply lookup_insert_eq. cbn_mgr. by rewrite insert_insert_eq. }
  rewrite (io_step _ _ _ _ _ E). rewrite (run_upd_sg _ _ _ g) by done. set (g' := set_g_servs _ _ g). eexists FH_OK, _, o. split; [reflexivity|]. split; [done|].
  split; [|by exists s2, g']. cbn_mgr.
  assert (H2 : sv_group s2 = k /\ sv_conn s2 = sv_conn s /\ command_fits s2 /\ flags_ok (sv_flags s2) = true /\ has (sv_flags s2) FH_MGMT_SERV_RUNNING = false /\
    (has (g_flags g) FH_MGMT_SG_DISABLED = true -> has (sv_flags s2) FH_MGMT_SERV_DISABLED = true)).
  { unfold s2. destruct (has (g_flags g) FH_MGMT_SG_DISABLED); [|done]. destruct (has (sv_flags s) FH_MGMT_SERV_DISABLED) eqn:Ed; [done|]. cbn [negb].
    do 3 (split; [done|]). revert Hok Hrun Ed. cbn [set_serv_flags sv_flags]. unfold f, flags_ok. flags. repeat split; flag_cases; discriminate. }
  destruct H2 as (A1 & A2 & A3 & A4 & A5 & A6). apply (wf_add m a s s2 k g g'); try done. by rewrite A5, Hrun.
Qed.

(** *** All groups *)
Context (Hsg : forall i i', sg_block i = sg_block i' -> sg_block i <> NULL -> i = i').
Context (Hserv : forall i j i' j', serv_block i j = serv_block i' j' -> serv_block i j <> NULL -> i = i' /\ j = j').

(** Blocks that are still to come are new. *)
Definition fresh_groups (i : nat) (m : mgr) : Prop := forall i', (i <= i')%nat -> sg_block i' <> NULL -> sgs m !! sg_block i' = None.
Definition fresh_servs (i j : nat) (m : mgr) : Prop :=
  forall i' j', (i < i' \/ i = i' /\ j <= j')%nat -> serv_block i' j' <> NULL -> servs m !! serv_block i' j' = None.

Lemma services_returns i k : forall l j m o g rc, wf m -> Forall serv_fits l -> sgs m !! k = Some g -> g_serv_count g = Z.of_nat j ->
  (j + length l <= 32)%nat -> (forall i', (i < i')%nat -> sg_block i' <> k) -> fresh_groups (S i) m -> fresh_servs i j m ->
  returns m o (load_services serv_block i k j l rc) (fun _ m' => wf m' /\ fresh_groups (S i) m' /\ fresh_servs (S i) 0 m' /\ conns m' = conns m).
Proof.
  induction l as [|n l IH]; intros j m o g rc W Hfit Hg Hcnt Hlen Hk Hfg Hfs; cbn [load_services].
  { apply returns_ret. split; [done|]. split; [done|]. split; [|done]. intros i' j' Hi. apply Hfs. lia. }
  apply Forall_cons in Hfit as [Hn Hfit]. cbn [length] in Hlen. eapply returns_bind; [by apply serv_load_returns|].
  intros r m1 o1 [[-> ->]|(-> & Hnn & s & -> & Hs)].
  { apply returns_ret. split; [done|]. split; [done|]. split; [|done]. intros i' j' Hi. apply Hfs. lia. }
  rewrite (proj2 (Z.eqb_neq (serv_block i j) NULL)) by done. set (a := serv_block i j) in *. assert (Hna : servs m !! a = None) by (apply Hfs; [lia | done]).
  set (m1 := set_servs _ m). assert (W1 : wf m1) by (destruct Hs as (H1 & H2 & H3 & H4 & H5); by apply wf_new_serv).
  eapply returns_bind; [apply (add_returns m1 o1 a s k g); [done | apply lookup_insert_eq | done | done | lia]|].
  intros r m2 o2 (-> & W2 & s' & g' & -> & Hcnt'). change (negb (FH_OK =? FH_OK)) with false. cbn iota.
  match goal with |- returns ?x _ _ _ => change (conns m) with (conns x) end. apply (IH (S j) _ _ g'); [done | done | cbn; apply lookup_insert_eq | lia | lia | done | |].
  - intros i' Hi Hn'. cbn. rewrite lookup_insert_ne; [by apply Hfg|]. intros E. by apply (Hk i').
  - intros i' j' Hi Hn'. cbn. rewrite !lookup_insert_ne; [apply Hfs; [lia | done] | |]; intros E; apply Hserv in E as [-> ->]; [lia | done | lia | done].
Qed.

Lemma groups_returns : forall l i m o rc, wf m -> Forall group_fits l -> fresh_groups i m -> fresh_servs i 0 m ->
  returns m o (load_groups seconds sg_block serv_block i l rc) (fun _ m' => wf m' /\ conns m' = conns m).
Proof.
  induction l as [|n l IH]; intros i m o rc W Hfit Hfg Hfs; cbn [load_groups]; [by apply returns_ret|].
  apply Forall_cons in Hfit as [Hn Hfit]. eapply returns_bind; [by apply sg_load_returns|].
  intros r m1 o1 [[-> ->]|(-> & Hnn & g & Hg & Hgs & Hcnt & Hst)]; [by apply returns_ret|]. rewrite (proj2 (Z.eqb_neq _ NULL)) by done.
  assert (W1 : wf m1) by (rewrite Hg; apply wf_new_group; auto).
  assert (Hfg1 : fresh_groups (S i) m1).
  { intros i' Hi Hn'. rewrite Hg. cbn. rewrite lookup_insert_ne; [apply Hfg; [lia | done]|]. intros E. apply Hsg in E; [lia | done]. }
  assert (Hfs1 : fresh_servs i 0 m1) by (intros i' j' Hi; rewrite Hg; by apply Hfs).
  rewrite get_child by const_name. apply returns_must. destruct Hn as [_ Hn]. rewrite get_child in Hn by const_name.
  destruct (fh_cfg_find_child n (c_str "services")) as [services|].
  - destruct (Hn services eq_refl) as [Hl Hall]. eapply returns_bind; [apply (services_returns i (sg_block i) _ 0 m1 _ g); try done|].
    + rewrite Hg. cbn. apply lookup_insert_eq.
    + intros i' Hi E. apply eq_sym, Hsg in E; [lia | done].
    + assert (Ec : conns m1 = conns m) by (by rewrite Hg). intros [rc'|] m2 o2 (W2 & Hfg2 & Hfs2 & E); [rewrite <- Ec, <- E; by apply IH | apply returns_ret; split; [done | congruence]].
  - replace (conns m) with (conns m1) by (by rewrite Hg). apply IH; [done | done | done|]. intros i' j' Hi. apply Hfs1. lia.
Qed.

Lemma cfg_load_returns m o config : config_fits config -> servs m = ∅ -> sgs m = ∅ -> (forall d, wf (MkMgr ∅ ∅ (conns m) [] [] d (conn_list m) (next_conn_id m) (rfds m) (fdmax m))) ->
  returns m o (fh_mgmt_cfg_load seconds sg_block serv_block config) (fun _ m' => wf m' /\ conns m' = conns m).
Proof.
  intros Hfit E1 E2 W. unfold fh_mgmt_cfg_load.
  assert (exists d, seconds_of config (c_str "fhmgr.spawn_delay") = Some d) as [d ->].
  { unfold seconds_of, fh_cfg_get_string. destruct (path_read config (c_str "fhmgr") (c_str "spawn_delay")) as [v Hv]; [const_name.. |].
    change (c_str "fhmgr.spawn_delay") with (c_str "fhmgr" ++ 46 :: c_str "spawn_delay"). rewrite Hv. cbn [mbind option_bind].
    destruct (match v with None => None | Some node => head (cfg_values node) end) as [s|]; [|by eexists]. destruct (strtol s). by eexists. }
  apply returns_must. unfold fh_mgmt_serv_init. eapply returns_run; [apply run_modify|]. rewrite E1, E2.
  destruct (path_read config (c_str "fhmgr") (c_str "service_groups")) as [v Hv]; [const_name.. |].
  change (c_str "fhmgr" ++ 46 :: c_str "service_groups") with (c_str "fhmgr.service_groups") in Hv. rewrite Hv. apply returns_must.
  destruct v as [node|]; [|apply returns_ret; split; [apply W | done]]. match goal with |- returns ?x _ _ _ => change (conns m) with (conns x) end.
  apply groups_returns; [apply W | by apply Hfit | |].
  - intros i' _ _. apply lookup_empty.
  - intros i' j' _ _. apply lookup_empty.
Qed.
End start.

(** ** Sockets are opened *)
Section sockets.
Context {O : Type} (os : syscall -> O -> sysret * O).
(** Descriptors are below the size of an [fd_set]. *)
Context (Hsocket : forall o, -1 <= r_val (os SysSocket o).1 < 1024) (Haccept : forall s o, r_val (os (SysAccept s) o).1 < 1024).

Definition ends {A} (o : O) (c : io O A) (Q : A -> Prop) : Prop := exists r o', c o = Some (r, o') /\ Q r.
Lemma ends_ret {A} o (a : A) (Q : A -> Prop) : Q a -> ends o (mret a) Q.
Proof. intros H. by exists a, o. Qed.
Lemma ends_bind {A B} o (c : io O A) (k : A -> io O B) Q R : ends o c Q -> (forall r o', Q r -> ends o' (k r) R) -> ends o (c ≫= k) R.
Proof. intros (r & o1 & E & HQ) Hk. destruct (Hk r o1 HQ) as (r2 & o2 & E2 & HR). exists r2, o2. by rewrite (io_step _ _ _ _ _ E). Qed.
Lemma ends_sys {A} o c (k : sysret -> io O A) Q : (forall r o', os c o = (r, o') -> ends o' (k r) Q) -> ends o (r ← sys os c; k r) Q.
Proof. intros H. destruct (os c o) as [r o'] eqn:E. destruct (H r o' eq_refl) as (a & o2 & E2 & HQ). exists a, o2. unfold sys, mbind, io_bind in *. by rewrite E. Qed.
Lemma ends_status o c : ends o (sys_status os c) (fun _ => True).
Proof. apply ends_sys. intros r o' _. by apply ends_ret. Qed.
Lemma ends_block o s on : ends o (fh_sock_block os s on) (fun _ => True).
Proof. apply ends_sys. intros r o' _. destruct (_ <? 0); [by apply ends_ret | apply ends_status]. Qed.

Definition fits (fd : Z) : Prop := 0 <= fd < 1024.
Lemma ends_open o addr port : ends o (fh_tcp_open os addr port) (fun r => forall fd, r.2 = Some fd -> fits fd).
Proof.
  assert (Herr : forall o s, ends o (tcp_open_error os s) (fun r => forall fd, r.2 = Some fd -> fits fd)) by (intros; apply ends_sys; intros; by apply ends_ret).
  apply ends_sys. intros r o1 E1. specialize (Hsocket o). rewrite E1 in Hsocket. cbn [fst] in Hsocket. destruct (Z.eqb_spec (r_val r) (-1)) as [|Hs]; [by apply ends_ret|].
  eapply ends_bind; [apply ends_block|]. intros r2 o2 _. destruct (r2 <? 0); [apply Herr|]. eapply ends_bind; [apply ends_status|].
  intros r3 o3 _. destruct (r3 <? 0); [apply Herr|].
  eapply (ends_bind _ _ _ (fun _ => True)); [destruct (_ || _); [apply ends_status | by apply ends_ret]|]. intros r4 o4 _. destruct (r4 <? 0); [apply Herr|].
  eapply ends_bind; [apply ends_status|]. intros r5 o5 _. destruct (negb _); [apply Herr|]. apply ends_ret. intros fd [= <-]. unfold fits. lia.
Qed.
Lemma ends_server o addr port : ends o (fh_tcp_server os addr port) (fun r => forall fd, r.2 = Some fd -> fits fd).
Proof.
  eapply ends_bind; [apply ends_open|]. intros [rc [fd|]] o1 H; [|by apply ends_ret]. destruct (negb _); [by apply ends_ret|].
  eapply ends_bind; [apply ends_status|]. intros r2 o2 _. destruct (negb _); apply ends_ret; [done | exact H].
Qed.
Lemma ends_accept o s : ends o (fh_tcp_accept os s) (fun r => forall a p fd, r.2 = Some (a, p, fd) -> fits fd).
Proof.
  apply ends_sys. intros r o1 E1. specialize (Haccept s o). rewrite E1 in Haccept. cbn [fst] in Haccept. destruct (Z.ltb_spec (r_val r) 0) as [|Hr]; [by apply ends_ret|].
  eapply ends_bind; [apply ends_status|]. intros r2 o2 _. destruct (negb _).
  - apply ends_sys. intros. by apply ends_ret.
  - apply ends_ret. intros a p fd [= _ _ <-]. unfold fits. lia.
Qed.
End sockets.

Section manager.
Context {O : Type} (os : syscall -> O -> sysret * O) (malloc : Z -> option (list Z)) (adm_defs : list fh_adm_def).
Context (fuel nest : nat) (system : list Z -> O -> (Z * Z * Z) * O) (seconds : O -> Z * O) (serv_monitor : list Z -> O -> list Z * O).
Context (stack : list Z) (mgmt_stats_report : sg_rpt -> O -> unit * O).
Context (sg_block : nat -> Z) (serv_block : nat -> nat -> Z) (conn_block : Z).

(** The table is that of [fh_adm_init], [malloc] returns blocks of the size
    asked for, writing 20 bytes returns, and descriptors fit in an [fd_set]. *)
Record environment : Prop := {
  env_table : fh_adm_init = Some (FH_OK, adm_defs);
  env_malloc n b : malloc n = Some b -> Z.of_nat (length b) = n;
  env_write fd data o : length data = 20%nat -> is_Some (fh_tcp_write os fuel fd data o);
  env_socket o : -1 <= r_val (os SysSocket o).1 < 1024;
  env_accept s o : r_val (os (SysAccept s) o).1 < 1024
}.
(** Blocks of groups differ from each other, and those of services. *)
Definition distinct_blocks : Prop :=
  (forall i i', sg_block i = sg_block i' -> sg_block i <> NULL -> i = i') /\
  (forall i j i' j', serv_block i j = serv_block i' j' -> serv_block i j <> NULL -> i = i' /\ j = j').

Notation mio := (mio (O := O)).
Notation mgr_start := (mgr_start os seconds sg_block serv_block conn_block).
Notation registration := (conn_client_registration os malloc adm_defs fuel nest stack).
Notation dispatch := (dispatch os malloc adm_defs fuel nest system serv_monitor).
Notation timers := (fh_mgmt_sg_timers os malloc adm_defs fuel nest system stack mgmt_stats_report).

(** The static variables before [main] *)
Definition mgr_zero : mgr := MkMgr ∅ ∅ ∅ [] [] 0 [] 1 ∅ 0.

(** ** Operations

    A connection is accepted, a client registers under a name, a connection
    closes, the command line controls the services of a name, a second is
    over.  After the first two, connections that failed are freed, as [serve]
    does. *)
Inductive operation :=
  | OpAccept (block conn : Z)
  | OpRegister (conn : Z) (data name : list Z)
  | OpClose (conn : Z)
  | OpControl (name : list Z) (cmd : Z)
  | OpSecond.

Definition served (conn : Z) (c : mio Z) : mio unit := rc ← c; if negb (rc =? FH_OK) then conn_free os system conn else mret tt.
Definition exec (op : operation) : mio unit :=
  match op with
  | OpAccept block conn => served conn (conn_server_process os block conn)
  | OpRegister conn data _ => served conn (registration conn data)
  | OpClose conn => conn_free os system conn
  | OpControl name cmd => ignore (dispatch name cmd None)
  | OpSecond => timers
  end.
(** A block for a connection is new; a client registers once; what it sends
    can be taken apart; control requests are those of the command line. *)
Definition valid (m : mgr) (op : operation) : Prop :=
  match op with
  | OpAccept block conn => is_Some (conns m !! conn) /\ conns m !! block = None
  | OpRegister conn data name => (exists c, conns m !! conn = Some c /\ conn_cltype c <> FH_MGMT_CL_SERVICE) /\ registers adm_defs nest stack data name
  | OpClose conn => is_Some (conns m !! conn)
  | OpControl _ cmd => cmd ∈ controls
  | OpSecond => True
  end.
Definition names (op : operation) (n : list Z) : bool := match op with OpRegister _ _ name => bool_decide (n = name) | _ => false end.

Inductive reachable : mgr -> Prop :=
  | reach_start config o m o' : config_fits config -> mgr_start config (mgr_zero, o) = Some (FH_OK, (m, o')) -> reachable m
  | reach_step m op o m' o' : reachable m -> valid m op -> exec op (m, o) = Some (tt, (m', o')) -> reachable m'.

Lemma wf_zero delay : wf (MkMgr ∅ ∅ ∅ [] [] delay [] 1 ∅ 0).
Proof.
  constructor; cbn [servs sgs conns sg_list sg_timers conn_list].
  - by rewrite !lookup_empty.
  - intros a s H. by rewrite lookup_empty in H.
  - intros a s H. by rewrite lookup_empty in H.
  - intros a s H. by rewrite lookup_empty in H.
  - intros a s H. by rewrite lookup_empty in H.
  - intros a s H. by rewrite lookup_empty in H.
  - by intros k [[]%not_elem_of_nil|[]%not_elem_of_nil].
  - by intros k []%not_elem_of_nil.
Qed.

Lemma post_init_returns : forall l (m : mgr) (o : O), wf m -> (forall k, k ∈ l -> is_Some (sgs m !! k)) ->
  returns m o (each (fun sg => g ← sg_at sg;
    if has (g_flags g) FH_MGMT_SG_ENABLED && has (g_flags g) (Z.lor FH_MGMT_SG_STATS FH_MGMT_SG_RESTART)
    then modify (fun m => set_sg_timers (sg_timers m ++ [sg]) m) else mret tt) l) (fun _ m' => wf m' /\ conns m' = conns m).
Proof.
  induction l as [|k l IH]; intros m o W Hl; cbn [each]; [by apply returns_ret|]. destruct (Hl k ltac:(left)) as [g Hg].
  eapply (returns_bind _ _ _ _ (fun _ m' => wf m' /\ sgs m' = sgs m /\ conns m' = conns m)).
  - eapply returns_run; [by apply run_sg_at|]. destruct (_ && _); [|by apply returns_ret].
    eexists _, _, _. split; [reflexivity|]. split; [|by split]. apply wf_timers; [done|]. intros j [Hj| ->%list_elem_of_singleton]%elem_of_app; [|by exists g].
    apply (wf_sg_list m W). by right.
  - intros [] m1 o1 (W1 & E & Ec). rewrite <- Ec. apply IH; [done|]. intros j Hj. rewrite E. apply Hl. by right.
Qed.

Context (Henv : environment) (Hblocks : distinct_blocks).

Lemma returns_lift {A B} (m : mgr) o (c : io O A) (k : A -> mio B) Q R : ends o c Q -> (forall r o', Q r -> returns m o' (k r) R) ->
  returns m o (r ← lift c; k r) R.
Proof.
  intros (r & o1 & E & HQ) Hk. destruct (Hk r o1 HQ) as (r2 & m2 & o2 & E2 & HR). exists r2, m2, o2.
  unfold lift, mbind, io_bind in *. by rewrite E.
Qed.

Lemma load_returns config o : config_fits config -> returns mgr_zero o (mgr_load seconds sg_block serv_block config) (fun _ m' => wf m' /\ conns m' = ∅).
Proof.
  intros Hc. destruct Hblocks as [Hsg Hserv]. unfold mgr_load.
  eapply returns_bind; [by apply cfg_load_returns; [..|intros; apply wf_zero]|].
  intros rc m1 o1 [W1 E1]. cbn beta. destruct (negb (rc =? FH_OK)); [by apply returns_ret|].
  eapply (returns_bind _ _ _ _ (fun _ m' => wf m' /\ conns m' = conns m1)).
  { unfold fh_mgmt_serv_post_init. eapply returns_run; [apply run_gets|]. apply post_init_returns; [done|]. intros k Hk. apply (wf_sg_list m1 W1). by left. }
  intros [] m2 o2 [W2 E2]. apply returns_ret. by rewrite E2, E1.
Qed.
Lemma listen_returns m o : wf m -> conns m = ∅ -> returns m o (mgr_listen os conn_block) (fun rc m' => rc = FH_OK -> wf m').
Proof.
  intros W Ec. destruct Henv. unfold mgr_listen, fh_mgmt_conn_init. eapply returns_run; [apply run_modify|].
  set (m3 := set_rfds _ _ _). assert (W3 : wf m3) by (apply wf_fds, wf_conn_lists; [done|]; by intros k []%not_elem_of_nil).
  rewrite env_table0. apply returns_must. change (negb (FH_OK =? FH_OK)) with false. cbn iota.
  eapply returns_lift; [by apply ends_server|]. intros [rc2 [fd|]] o3 Hfd; [|by apply returns_ret].
  destruct (spec_conn_new (fun _ => false) m3 o3 conn_block FH_MGMT_CONN_SERVER fd 0 FH_MGR_PORT W3) as (r & m' & o' & E & W' & _).
  - change (conns m !! conn_block = None). by rewrite Ec.
  - by apply Hfd.
  - by exists r, m', o'.
Qed.
Lemma start_returns config o : config_fits config -> returns mgr_zero o (mgr_start config) (fun rc m' => rc = FH_OK -> wf m').
Proof.
  intros Hc. unfold Manager.mgr_start. eapply returns_bind; [by apply load_returns|]. intros rc m1 o1 [W1 E1]. cbn beta.
  destruct (negb (rc =? FH_OK)); [by apply returns_ret | by apply listen_returns].
Qed.

(** ** Every operation returns *)

Lemma started_flags f : flags_ok f = true -> life_of f = Some Started ->
  has f (Z.lor FH_MGMT_SERV_STOPPED FH_MGMT_SERV_ADMIN_STOPPED) = false /\ has f FH_MGMT_SERV_RUNNING = false.
Proof.
  unfold flags_ok, life_of. rewrite has_or. destruct (has f FH_MGMT_SERV_STARTED); [|by repeat destruct (has f _)].
  destruct (has f FH_MGMT_SERV_RUNNING); [done|]. destruct (has f FH_MGMT_SERV_STOPPED); [done|]. by destruct (has f FH_MGMT_SERV_ADMIN_STOPPED).
Qed.

Definition op_spec (m : mgr) (op : operation) : Prop := forall o, spec (names op) m o (exec op) (fun _ _ => True).

Lemma spec_served reg (m : mgr) o k (c : mio Z) : spec reg m o c (fun _ m' => is_Some (conns m' !! k)) -> spec reg m o (served k c) (fun _ _ => True).
Proof.
  intros H. unfold served. eapply spec_bind; [exact H|]. intros rc m1 o1 W1 _ [c1 Hc1]. apply spec_if; intros _; [|by apply spec_ret].
  eapply spec_weaken; [by eapply spec_free | done].
Qed.
Lemma spec_lift {A B} reg (m : mgr) o (c : io O A) (k : A -> mio B) Q R : ends o c Q -> (forall r o', Q r -> spec reg m o' (k r) R) -> spec reg m o (r ← lift c; k r) R.
Proof.
  intros (r & o1 & E & HQ) Hk. destruct (Hk r o1 HQ) as (r2 & m2 & o2 & E2 & HR). exists r2, m2, o2. split; [|exact HR].
  unfold lift, mbind, io_bind in *. by rewrite E.
Qed.

Lemma op_returns m op : wf m -> valid m op -> op_spec m op.
Proof.
  intros W Hv o. destruct Henv. destruct op as [block k|k data name|k|name cmd|]; cbn [exec valid names] in *.
  - destruct Hv as [[c Hc] Hnew]. apply spec_served. unfold conn_server_process. apply (spec_conn_at _ _ _ _ c); [done|].
    eapply spec_lift; [by apply ends_accept|]. intros [rc [[[a p] fd]|]] o1 Hfd; [|apply spec_ret; [done | by exists c]].
    eapply spec_bind; [apply spec_conn_new; [done | done | by eapply Hfd]|]. intros rc2 m2 o2 W2 _ Hk. cbn beta in Hk.
    apply spec_if; intros _; [|apply spec_ret; [done | apply Hk; by exists c]].
    eapply spec_bind; [by apply spec_sys|]. intros r m3 o3 W3 _ ->. apply spec_ret; [done | apply Hk; by exists c].
  - destruct Hv as [(c & Hc & Ht) Hreg]. apply spec_served. eapply spec_registration; try done; try exact system.
    destruct (decide (conn_serv c = NULL)) as [|Hn]; [done|]. by destruct (wf_serv m W k c Hc Hn) as [E _].
  - destruct Hv as [c Hc]. eapply spec_weaken; [by eapply spec_free | done].
  - by eapply spec_ignore, spec_dispatch.
  - by eapply spec_timers.
Qed.

Lemma reachable_wf m : reachable m -> wf m.
Proof.
  induction 1 as [config o m o' Hc E|m op o m' o' _ W Hv E].
  - destruct (start_returns config o Hc) as (r & m1 & o1 & E1 & W). rewrite E in E1. injection E1 as <- <- _. by apply W.
  - destruct (op_returns m op W Hv o) as (r & m1 & o1 & E1 & W1 & _). rewrite E in E1. by injection E1 as _ <- _.
Qed.

(** C24: invariant. Take a configuration whose groups have no statistics and
    at most 32 services, with commands that fit their buffer ([config_fits]),
    and any run of these operations: a connection is accepted, a client
    registers (once on its connection, with a request that can be taken apart),
    a connection closes, the command line enables, disables, starts, stops,
    restarts or clears the statistics of the services of a name, a second
    passes. Then the manager's memory stays in order: a service has a
    connection when it is running and only then, and the connection has that
    service; a service is in one state, enabled or disabled, in its group, and
    disabled when the group is; and every one of these operations returns,
    finding no pointer null that it follows, as do the start and the loading of
    the configuration. The requests for status, statistics, versions and the
    tree of groups are not among the operations. Of the system it is assumed
    that [malloc] gives blocks of the size asked for, distinct from those in
    use, that writing a request of 20 bytes returns, and that descriptors are
    below 1024 ([environment]). *)
Theorem mgr_memory_in_order :
  (forall config o, config_fits config -> is_Some (mgr_start config (mgr_zero, o))) /\
  (forall m, reachable m -> wf m /\
    forall op o, valid m op -> exists m' o', exec op (m, o) = Some (tt, (m', o')) /\ evolves (names op) m m').
Proof.
  split.
  - intros config o Hc. destruct (start_returns config o Hc) as (r & m & o' & -> & _). by eexists.
  - intros m Hm. apply reachable_wf in Hm as W. split; [done|]. intros op o Hv.
    destruct (op_returns m op W Hv o) as ([] & m' & o' & E & _ & V & _). by exists m', o'.
Qed.

(** Steps in which a name does not register *)
Definition other_step (name : list Z) (m m' : mgr) : Prop :=
  exists op o o', valid m op /\ names op name = false /\ exec op (m, o) = Some (tt, (m', o')).

Lemma other_steps_keep m m' a s : wf m -> servs m !! a = Some s -> life_of (sv_flags s) = Some Started ->
  rtc (other_step (sv_name s)) m m' -> wf m' /\ exists s', servs m' !! a = Some s' /\ life_of (sv_flags s') = Some Started.
Proof.
  intros W Hs Hl H. remember (sv_name s) as name eqn:En. revert s Hs Hl En W. induction H as [m|m m1 m2 (op & o & o' & Hv & Hn & E) _ IH]; intros s Hs Hl En W; [split; [done | by exists s]|].
  destruct (op_returns m op W Hv o) as (r & m3 & o3 & E3 & W3 & V & _). rewrite E in E3. injection E3 as _ <- _.
  destruct (ev_serv _ _ _ V a s Hs) as (s1 & Hs1 & En1 & _ & Hr). rewrite <- En, Hn, Hl in Hr. apply started_stays in Hr.
  apply (IH s1); [done | done | congruence | done].
Qed.

(** C28: error. A service that was started and has not registered, because its
    process died or never came up, is never started again: through any run of
    the operations of the manager (those of [operation], see
    [mgr_memory_in_order]) in which no client registers under its name it stays
    [STARTED]. Asked to start or stop it, the manager does nothing; asked to
    restart it, it does nothing but set the service's [RESTART] flag, which
    matters only when a client later registers under its name and goes away
    again; and it answers [FH_OK] each time. *)
Theorem lost_start_is_final m m' a s : reachable m -> servs m !! a = Some s -> life_of (sv_flags s) = Some Started ->
  rtc (other_step (sv_name s)) m m' -> exists s', servs m' !! a = Some s' /\ life_of (sv_flags s') = Some Started /\ forall o,
    fh_mgmt_serv_start system a (m', o) = Some (FH_OK, (m', o)) /\
    fh_mgmt_serv_admin_stop os malloc adm_defs fuel nest a (m', o) = Some (FH_OK, (m', o)) /\
    fh_mgmt_serv_restart os malloc adm_defs fuel nest system a (m', o) =
      Some (FH_OK, (with_flags a s' (set_bits FH_MGMT_SERV_RESTART (sv_flags s')) m', o)).
Proof.
  intros Hm Hs Hl H. destruct (other_steps_keep m m' a s (reachable_wf m Hm) Hs Hl H) as (W & s' & Hs' & Hl'). exists s'. do 2 (split; [done|]). intros o.
  destruct (started_flags _ (proj1 (wf_flags m' W a s' Hs')) Hl') as [E1 E2].
  assert (Hstop : forall b, stop_with os malloc adm_defs fuel nest b a (m', o) = Some (FH_OK, (m', o))).
  { intros b. unfold stop_with. rewrite (run_serv_at _ _ _ s') by done. by rewrite E1, E2. }
  split; [|split; [apply Hstop|]].
  - unfold fh_mgmt_serv_start. rewrite (run_serv_at _ _ _ s') by done. rewrite E1. destruct (has (sv_flags s') FH_MGMT_SERV_DISABLED); reflexivity.
  - unfold fh_mgmt_serv_restart. rewrite (run_serv_at _ _ _ s') by done. rewrite E1. unfold fh_mgmt_serv_stop.
    rewrite (io_step _ _ _ _ _ (Hstop _)). change (negb (FH_OK =? FH_OK)) with false. cbn iota.
    by rewrite (io_step _ _ _ _ _ (run_upd_flags m' o a s' _ Hs')).
Qed.
End manager.

(** ** Examples *)

(** Every call succeeds. *)
Definition demo_os (c : syscall) (o : unit) : sysret * unit :=
  (match c with
   | SysSocket => MkRet 3 0 [] | SysAccept _ => MkRet 4 0 [127; 5000]
   | SysSend _ data _ => MkRet (Z.of_nat (length data)) 0 []
   | _ => MkRet 0 0 []
   end, tt).
Definition demo_malloc (n : Z) : option (list Z) := if 0 <=? n then zeros n else None.
Definition demo_system (command : list Z) (o : unit) : (Z * Z * Z) * unit := (0, 0, 0, tt).
Definition demo_seconds (o : unit) : Z * unit := (100, tt).
Definition demo_monitor (resp : list Z) (o : unit) : list Z * unit := (resp, tt).
Definition demo_report (r : sg_rpt) (o : unit) : unit * unit := (tt, tt).
Definition demo_stack : list Z := replicate 64 0.
Definition demo_sgs (i : nat) : Z := match i with 0%nat => 1 | _ => NULL end.
Definition demo_servs (i j : nat) : Z := match i with 0%nat => 1 + Z.of_nat j | _ => NULL end.

Lemma demo_environment : environment demo_os demo_malloc demo_defs 2.
Proof.
  constructor.
  - reflexivity.
  - intros n b. unfold demo_malloc. destruct (Z.leb_spec 0 n); [|done]. intros [= <-]. rewrite length_replicate. lia.
  - intros fd data [] Hl. do 20 (destruct data as [|? data]; [done|]). destruct data; [|done]. vm_compute. by eexists.
  - by intros [].
  - by intros s [].
Qed.
Lemma demo_distinct : distinct_blocks demo_sgs demo_servs.
Proof. split; [intros [] []; cbn; done || congruence | intros [] j [] j'; cbn; unfold NULL; intros; try done; split; lia]. Qed.

(** One group with one service, which is respawned *)
Definition leaf (name value : string) : cfg_node := CfgNode (c_str name) [] [c_str value].
Definition demo_config : cfg_node :=
  CfgNode [] [CfgNode (c_str "fhmgr") [CfgNode (c_str "service_groups") [CfgNode (c_str "g")
    [leaf "report_name" "g"; leaf "disable" "no"; CfgNode (c_str "services")
      [CfgNode (c_str "a") [leaf "disable" "no"; leaf "cli" "yes"; leaf "action" "respawn"; leaf "command" "/a"] []] []] []] []] []] [].
Lemma demo_config_fits : config_fits demo_config.
Proof.
  intros node H. vm_compute in H. injection H as <-. constructor; [|constructor]. split; [reflexivity|]. intros services H. vm_compute in H. injection H as <-.
  cbn [cfg_children]. split; [cbn; lia|]. constructor; [|constructor]. intros command args H1 H2. vm_compute in H1, H2. injection H1 as <-. injection H2 as <-. cbn. lia.
Qed.

Notation demo_reachable := (reachable demo_os demo_malloc demo_defs 2 1 demo_system demo_seconds demo_monitor demo_stack demo_report demo_sgs demo_servs 7).
Notation demo_exec := (exec demo_os demo_malloc demo_defs 2 1 demo_system demo_monitor demo_stack demo_report).
Notation demo_valid := (valid demo_defs 1 demo_stack).
(** The request of the service [a], with the process 9, as [fh_adm_recv]
    leaves it *)
Definition demo_request : list Z := (le_bytes 2 2 ++ replicate 6 0) ++ le_bytes 4 9 ++ 97 :: replicate 15 0.
Definition demo_packet : list Z :=
  match fh_adm_create demo_defs 1 demo_malloc FH_ADM_CMD_REG_REQ 5 demo_request with
  | Some (_, Some pkt) => le_bytes 4 FH_ADM_MAGIC ++ le_bytes 4 FH_ADM_CMD_REG_REQ ++ le_bytes 4 5 ++ le_bytes 4 28 ++ drop 16 pkt
  | _ => []
  end.
Lemma demo_registers : registers demo_defs 1 demo_stack demo_packet (c_str "a").
Proof. unfold registers. eexists _, _. split; [vm_compute; reflexivity|]. do 2 (split; [vm_compute; by eexists|]). split; [reflexivity|]. exists 5. split; [reflexivity | lia]. Qed.
Definition demo_start : mgr := match mgr_start demo_os demo_seconds demo_sgs demo_servs 7 demo_config (mgr_zero, tt) with Some (_, (m, _)) => m | None => mgr_zero end.
Lemma demo_started : demo_reachable demo_start.
Proof. eapply (reach_start _ _ _ _ _ _ _ _ _ _ _ _ _ demo_config tt _ tt demo_config_fits). vm_compute. reflexivity. Qed.

Definition after (op : operation) (m : mgr) : mgr := match demo_exec op (m, tt) with Some (_, (m', _)) => m' | None => m end.
Definition demo_start_op : operation := OpControl (c_str "a") FH_MGMT_CL_CTRL_START.
Definition demo_register_op : operation := OpRegister 8 demo_packet (c_str "a").
Definition demo_m1 : mgr := after demo_start_op demo_start.
Definition demo_m2 : mgr := after (OpAccept 8 7) demo_m1.
Definition demo_m3 : mgr := after demo_register_op demo_m2.

(** C24's witness: the service is started, connects and registers. *)
Lemma mgr_memory_in_order_witness : exists s c, demo_reachable demo_m3 /\ wf demo_m3 /\ servs demo_m3 !! 1 = Some s /\ life_of (sv_flags s) = Some Running /\
  sv_conn s = 8 /\ conns demo_m3 !! 8 = Some c /\ conn_serv c = 1.
Proof.
  destruct (mgr_memory_in_order demo_os demo_malloc demo_defs 2 1 demo_system demo_seconds demo_monitor demo_stack demo_report demo_sgs demo_servs 7
    demo_environment demo_distinct) as [_ Hm].
  assert (Hstep : forall m op, demo_reachable m -> demo_valid m op -> demo_reachable (after op m)).
  { intros m op Hr Hv. destruct (Hm m Hr) as [_ Hop]. destruct (Hop op tt Hv) as (m' & [] & E & _). unfold after. rewrite E. by eapply reach_step. }
  assert (R3 : demo_reachable demo_m3).
  { apply Hstep; [apply Hstep; [apply Hstep; [exact demo_started | right; right; left] | vm_compute; split; [by eexists | done]]|].
    split; [eexists; split; [vm_compute; reflexivity | done] | exact demo_registers]. }
  destruct (Hm _ R3) as [W3 _]. eexists _, _. split; [exact R3|]. split; [exact W3|]. split; [vm_compute; reflexivity|]. split; [reflexivity|]. split; [reflexivity|].
  split; [vm_compute; reflexivity | reflexivity].
Defined.

(** C28's witness: the service is started, its process does not come up; it is
    asked to start again and a second passes. *)
Lemma lost_start_is_final_witness : exists m' s', rtc (other_step demo_os demo_malloc demo_defs 2 1 demo_system demo_monitor demo_stack demo_report (c_str "a")) demo_m1 m' /\
  servs m' !! 1 = Some s' /\ life_of (sv_flags s') = Some Started /\ fh_mgmt_serv_start demo_system 1 (m', tt) = Some (FH_OK, (m', tt)).
Proof.
  set (m' := after OpSecond (after demo_start_op demo_m1)).
  assert (R1 : demo_reachable demo_m1).
  { eapply (reach_step _ _ _ _ _ _ _ _ _ _ _ _ _ demo_start demo_start_op tt demo_m1 tt demo_started); [right; right; left | vm_compute; reflexivity]. }
  assert (Hsteps : rtc (other_step demo_os demo_malloc demo_defs 2 1 demo_system demo_monitor demo_stack demo_report (c_str "a")) demo_m1 m').
  { apply (rtc_l _ _ (after demo_start_op demo_m1)).
    - exists demo_start_op, tt, tt. split; [right; right; left|]. split; [reflexivity | by vm_compute].
    - apply rtc_once. exists OpSecond, tt, tt. split; [exact I|]. split; [reflexivity | by vm_compute]. }
  assert (Hs : exists s, servs demo_m1 !! 1 = Some s /\ sv_name s = c_str "a" /\ life_of (sv_flags s) = Some Started) by (eexists; split; [vm_compute; reflexivity | split; reflexivity]).
  destruct Hs as (s & Hs & Hn & Hl). rewrite <- Hn in Hsteps.
  destruct (lost_start_is_final demo_os demo_malloc demo_defs 2 1 demo_system demo_seconds demo_monitor demo_stack demo_report demo_sgs demo_servs 7
    demo_environment demo_distinct demo_m1 m' 1 s R1 Hs Hl Hsteps) as (s' & Hs' & Hl' & Hop). exists m', s'. rewrite Hn in Hsteps. split; [exact Hsteps|].
  split; [exact Hs'|]. split; [exact Hl'|]. apply (Hop tt).
Defined.
